(* ===== verification/_CoqProject ===== *)
-Q . S2P
Prelude.v
Bus.v
Regs.v
Driver.v
Chip.v
DriverFacts.v
Transfer.v
Receive.v
Banks.v
Startup.v
Safety.v
Memp.v
Timeouts.v
TimeoutFacts.v
Pbuf.v
PbufFacts.v
PbufUpdate.v
PbufAlloc.v
PbufChain.v
PbufRealloc.v
PbufExamples.v
Heap.v
HeapFacts.v
HeapAlloc.v
HeapSpec.v
PbufRam.v
Chksum.v
ChksumFacts.v
Ip4Addr.v
Ip4AddrFacts.v
Ethernet.v
Etharp.v
EtharpTable.v
EtharpInv.v
EtharpSend.v
EtharpReply.v
EtharpTimer.v
EtharpOutput.v
Ip.v
Icmp.v
Reass.v
IpInput.v
Frag.v
FragCopy.v
IpFacts.v
IcmpFacts.v
FragFacts.v
IpInputFacts.v
Ping.v
Udp.v
ArpSystem.v
UdpFacts.v
UdpInput.v
UdpFlow.v
Dns.v
DnsName.v
DnsInput.v
DnsSend.v
DnsTimer.v
ReassQueue.v
ReassSpec.v
ReassStep.v
ReassRun.v
ReassDatagram.v
FragTrip.v
MqttRing.v
Mqtt.v
MqttReqs.v
MqttSend.v
MqttConnect.v
MqttDeliver.v
App.v
AppFacts.v
Service.v
Loop.v
AppExamples.v
EtharpExamples.v
MqttExamples.v
IpExamples.v
DnsExamples.v
