(* ===== verification/Prelude.v ===== *)
(** Firmware of an STM32F401 board with an ENC28J60 Ethernet controller:
    verification development.

    * The program

    The firmware is a main loop ([src/Core/Src/main.c]) over the TCP/IP stack
    lwIP ([src/lwip-2.2.1]) and a driver for the ENC28J60 controller
    ([src/enc28j60_driver]), which is reached over SPI.  A frame goes out as a
    chain of packet buffers that the loop's [enc28j60_translate] gathers into
    the driver object and the driver writes into the chip; a frame comes in when
    the chip's interrupt has been counted: the driver reads it out of the chip,
    the loop puts it into a new packet buffer and hands it to lwIP.  Two
    interrupt handlers share variables with the loop: the pin of the controller
    and a timer that also drives lwIP's clock.

    * The files

    - [Prelude.v]: integers as [Z] with explicit conversions ([u8], [u16],
      [u32]); the monad [M] of computations that return or stop ([NullDeref],
      [OutOfBounds], [Hang], ...); loops with fuel ([iter], [while_busy]); the
      total-correctness judgement [wp] and its rules, partial correctness [run],
      safety [safe], stopping [stops].
    - The driver.  [Bus.v]: [spiHwdInterface.c], with HAL calls as events and
      the slave's answers as a class, so that the theorems hold for every
      device.  [Regs.v]: the data of [enc28j60_hwd.h] and [enc28j60_hwd.c].
      [Driver.v]: the functions of [enc28j60_hwd.c].  [Chip.v]: the
      controller as its data sheet describes it: how bytes on the wire become
      instructions, what they do to registers and buffer memory.
      [DriverFacts.v]: a rule for every access of the driver, over a [view] that
      shows the instructions completed.  [Transfer.v], [Receive.v]: frames out
      and in.  [Banks.v]: register banks and PHY accesses.  [Startup.v]: the
      start-up sequence.  [Safety.v]: an invariant over any sequence of calls.
    - lwIP's memory.  [Memp.v]: [memp.c].  [Pbuf.v]: [pbuf.c] over a store of
      pbuf structures and byte areas, by location, so that aliasing, reference
      counts and payload offsets are as in memory.  [PbufFacts.v] (well-formed
      packets, reading), [PbufUpdate.v] (writing), [PbufAlloc.v] (allocation and
      release), [PbufChain.v] (joining and separating, moving headers),
      [PbufRealloc.v] (shortening and searching),
      [PbufExamples.v] (a concrete memory).  [Heap.v]: [mem.c] over the bytes of
      its array; [HeapFacts.v], [HeapAlloc.v]: the list of blocks behind the
      array and each operation on it; [HeapSpec.v]: the store of objects mem.c
      implements; [PbufRam.v]: packet buffers in that heap, which is the
      instance of the class [HeapOps] of [Pbuf.v].
    - lwIP's link layer.  [Ip4Addr.v], [Ip4AddrFacts.v]: [ip4_addr.c].
      [Ethernet.v]: the interface, the ARP table and Ethernet output of
      [ethernet.c].  [Etharp.v]: [etharp.c] and Ethernet input.
      [EtharpTable.v]: which calls leave the table alone, and the search of the
      table.  [EtharpInv.v]: the invariant of the table.
      [EtharpSend.v]: frames as byte strings, Ethernet output and ARP packets
      out.  [EtharpReply.v]: ARP frames in.  [EtharpTimer.v]: the clock of the
      table.  [EtharpOutput.v]: the way of an outgoing packet.  [ArpSystem.v]: the
      table under the whole stack, with IP, ICMP, reassembly and UDP on top of
      it.  [EtharpExamples.v]: a host.
    - lwIP's network layer.  [Ip.v]: the data of [ip.h], routing and output of
      [ip4.c].  [Icmp.v]: [icmp.c].  [Reass.v]: reassembly, the first half of
      [ip4_frag.c]; the helper that the C code lays over the header of a queued
      fragment keeps its two offsets in the bytes and its pointer in a map from
      addresses.  [IpInput.v]: input of [ip4.c].  [IpFacts.v]: routing and
      output.  [IcmpFacts.v], [Ping.v]: an echo request and its answer, up to
      Ethernet.  [IpInputFacts.v]: what becomes of a packet that arrives, and a
      whole frame, from Ethernet to the protocol above IP.
      [ReassQueue.v]: a queue of fragments as a list, a new fragment in it, and
      the join of a complete one.
      [ReassSpec.v]: the list of datagrams, the invariant and how a datagram is
      finished.  [ReassStep.v], [ReassRun.v]: one call of
      [ip4_reass] against the abstract reassembler ([place], [complete], [whole]).
      [ReassDatagram.v]: all fragments of a datagram, in any order.
      [Frag.v]: fragmentation, the second half of [ip4_frag.c]; the pbufs of a
      fragment refer to those of the packet, which they hold with a reference
      count each.  [FragCopy.v]: these pbufs, made and released.
      [FragFacts.v]: what [ip4_frag] sends.  [FragTrip.v]: fragmentation and
      reassembly.
      [IpExamples.v]: a host, its ping, a datagram in three fragments, a packet
      that is cut, and UDP.
    - UDP.  [Udp.v]: [udp.c]; control blocks are elements of their pool, and
      receive functions are numbers that a class gives a meaning.  [UdpFacts.v]:
      the list of control blocks, ports, and the invariant of the list under
      every sequence of calls.  [UdpInput.v]: which block gets a datagram.
      [UdpFlow.v]: a datagram to the wire, and from the wire to its block.
    - DNS.  [Dns.v]: [dns.c]; the names in the table are the bytes of their
      arrays, and a position in a packet is an offset, as in the code.
      [DnsName.v]: names in packets, read and written, as functions of the
      bytes.  [DnsInput.v]: what a message does, as a function of its bytes;
      replies as RFC 1035 encodes them.  [DnsSend.v]: a new request and its query
      on the wire.  [DnsTimer.v]: the clock of the table.  [DnsExamples.v]: a host
      that waits for an address.
    - lwIP's rest.  [Timeouts.v], [TimeoutFacts.v]: [timeouts.c] and the port's
      [sys_arch.c].  [Chksum.v], [ChksumFacts.v]: [inet_chksum.c] and the byte
      order functions of [def.c].
    - The MQTT client, [mqtt.c].  [MqttRing.v]: the output ring and the message
      builders, the ring as a queue of bytes and the layout of messages.  [Mqtt.v]: the client itself: requests, timer, input, TCP
      callbacks and interface; a request is named by its index in [req_list].
      [MqttReqs.v]: the laws of TCP and of the application, sending, the queue
      of requests and their timeouts.
      [MqttSend.v], [MqttConnect.v]: publishing and connecting, as bytes on the
      connection.  [MqttDeliver.v]: the fixed header of a message, from one
      segment or several; a publication of the server, and where the parser does
      not end.  [MqttExamples.v]: a
      concrete connection and application.
    - The application.  [App.v]: [main.c]; the static variables are the record
      [vars]; a call into lwIP is a [request], and the class [Stack] says which
      callbacks of main.c the stack makes before it returns, so that lwIP can
      change the variables only the way it can in the program.  [AppFacts.v]:
      transmission and reception end to end, and the driver's
      [enc28j60_translate] as the link of ARP.  [Service.v]: the interrupt service.
      [Loop.v]: whole rounds of the loop, interleaved with interrupts, and the
      interrupt counter under preemption.  [AppExamples.v]: a concrete board.

    * The interfaces

    A class states what one component takes from another, and the theorems of
    the user are proved against it: [SpiSlave] (the controller's answers),
    [HeapOps] with its laws [HeapLaws] (mem.c implements them in [PbufRam.v]),
    [LinkOutput] with its laws [LinkLaws] (the driver implements them in
    [AppFacts.v]), [Wire] with its laws [WireLaws] (what IP needs of them below
    it, with a state of its own for the protocols above), [UdpState] (where in that
    state UDP's variables are), [UdpUser] (what the receive functions do),
    [DnsState] and [DnsUser] (the same for DNS and its callbacks, with the laws
    [DnsUserLaws] of callbacks that only take note of what they are told),
    [CustomFree] (the callback of custom pbufs; [frag_custom_free] of [Frag.v]
    is the one this program has), [Stack] (lwIP as main.c sees
    it), [Build] (debug build or not), [Net] with its laws [NetLaws]
    (TCP and the timer as the MQTT client uses them: a write that succeeds adds
    its bytes to the stream, nothing else does), [Upper] with its laws
    [UpperLaws] (the callbacks of an MQTT application, which take note of what
    they are told).

    * What the theorems show

    - End to end: the packet given to [enc28j60_translate] is byte for byte the
      frame the chip sends, and the frame read from the chip is byte for byte
      the packet lwIP gets; refusals leave everything as it was.
    - Driver: what each frame transfer and the start-up leave in the chip and in
      the driver object, for every answer of the chip; which register an access
      reaches, given the recorded bank; that every sequence of calls issues only
      well-formed instructions.
    - Packet buffers: contents after each operation as a function of the
      contents before, independent of the boundaries between pbufs; no leak on a
      failed allocation; round trips; memory outside the packet untouched.
    - Heap: mem.c refines an abstract store of objects, for every client; the
      objects of any heap can be freed in any order, and then the whole array can
      be allocated again as one object; a PBUF_RAM takes one object and gives it
      back.
    - Addresses: printing and reading are inverse; valid netmasks.
    - ARP: the form of the table and the uniqueness of its bindings under every
      sequence of frames through the modelled IP input, of datagrams sent, timers
      and calls, where TCP input and UDP's receive functions are assumed to reach
      the table through ARP's functions only ([arp_client]); which entry a search takes; an ARP frame binds its
      sender and a request is answered, byte for byte; entries expire on time;
      which hardware address a packet goes to.
    - IP: which interface a packet leaves by; a packet leaves as one frame with
      the header of RFC 791 and a right checksum, or nothing happens; what
      becomes of every packet that arrives, and what the protocol above is
      given; an echo request is answered, byte for byte.
    - UDP: under every sequence of calls no two control blocks clash on a port
      and no call fails; which ports [udp_bind] refuses; which block owns a
      datagram, and what becomes of a datagram that nobody owns; the data of a
      frame reach the receive function of the owner, byte for byte; a datagram
      is sent as one frame with the right length and checksum.
    - DNS: what becomes of every message, as a function of its bytes; a reply of
      the asked server, in the encoding of RFC 1035 and with records of any
      kind, gives the requester the first address in it; a request gets an
      identification of its own and its query goes out in one frame, byte for
      byte, or it is answered from the table; no request waits for ever.
    - Reassembly: [ip4_reass] refines a reassembler over lists of fragments, for
      every fragment there is room for, but one that would complete a packet of
      more than 65535 bytes ([completes_within]); from that, the fragments of a datagram
      give the datagram whatever their order, and leave the table empty.
    - Fragmentation: [ip4_frag] sends the pieces of the packet in order, each
      with its own length, offset, flag and checksum, and leaves the packet and
      the rest of the memory as they were, on the error paths too; what it
      sends, [ip4_reass] puts together again.
    - Checksums: equality with the definition of RFC 1071, for every alignment
      and chain, with and without the pseudo header of UDP and TCP; a message that carries its checksum verifies.
    - Timers: order of insertion across the wrap-around of the clock,
      termination of a round, the size of the pool.
    - MQTT: the byte stream to the server grows by exactly the CONNECT or
      PUBLISH message of MQTT 3.1.1, whatever part TCP takes at a time; a
      publication of the server reaches the application, however it is cut
      behind its topic; no request waits for ever.
    - Main loop: the acknowledgements given to the chip; reconnections are
      throttled, for every behaviour of lwIP and every interleaving.
    - Defects, as theorems about the program as it is: overruns of the receive
      and of the transmit buffer, a misdirected access at start-up, a wait
      without a bound, a lost interrupt, an exhausted pool, a datagram
      with two last fragments, a reply to the first labels of a name that counts
      for the whole name, an ARP frame
      completed with old bytes, an MQTT message lost in a ring that is exactly
      full, an MQTT parser that never returns.

    * Fuel and bounds

    Busy waits of the driver take their fuel as an argument; theorems assume
    that the chip ends the wait within it, or show that no fuel is enough.
    Loops along a chain take the size of the store of pbufs, which a chain of
    distinct pbufs cannot exceed, so that theorems about packets prove that the
    calls return.  The allocation loop takes the number of free elements.  The
    loops of mem.c take the number of blocks the array can hold.  The round of
    the timers is given twice the number of entries.  The queue of MQTT requests
    has the items of [req_list] at most; the loops of the MQTT client whose
    length depends on callbacks or on the packet take their fuel as an argument,
    and the theorems say how much is enough: more than five rounds for the
    timeouts, six rounds more than the bytes of a segment for the parser.  The
    loops of reassembly take the number of datagrams in the pool, or of helpers
    in memory, and one round more.  The loops over UDP's control blocks take the
    number of blocks in use and one round more, the search of a port the number
    of dynamic ports.  [ip4_frag] goes round once for every fragment, of which
    there are not more than bytes when the interface takes eight bytes of data
    (an mtu of 28, which the theorems assume); the copy into a fragment goes
    round once for every pbuf of the packet and once more.  The loops over a name in a
    packet take the bytes of the packet, the loop over the records their number,
    the search of an identification the size of the table, each one round more.
    [frag_custom_free]
    calls [pbuf_free], which may call it: the theorems hold for every depth but
    zero, for [ip4_frag] drops references the caller still holds.

    * What is not modelled

    The HAL and the generated set-up of clocks and pins; the text formatting of
    [log.c]; TCP input, which is an argument of IP input; TCP and DHCP as a
    whole, and the application's own calls of DNS, which are behind [Stack] and
    [Net]; [mqtt_client_new] and
    [mqtt_client_free], which only call the heap.  The eviction of old datagrams
    and the timer of reassembly are modelled, and have no theorem but the ones
    about the ARP table: [ip4_reass_refines] supposes room for the fragment.
    What is sent over SPI always reaches the chip: the status of the HAL's
    transmission, which the code ignores, is not varied.  Output, ICMP and UDP
    keep [ip4_frag] as an argument; their theorems are about packets that the
    interface takes whole, for which it is not called.  Left for later: theorems
    about the MQTT client's keep-alive and its acknowledgements, the string
    functions of [def.c] but [lwip_strnicmp], the C library's heap of [sysmem.c]. *)
From stdpp Require Export base numbers strings option gmap list.
#[global] Open Scope Z_scope.

(** * Machine integers

    A C integer is a [Z] kept in range by an explicit conversion at the
    places where the C code converts. *)

Definition u8 (x : Z) : Z := x mod 2 ^ 8.
Definition u16 (x : Z) : Z := x mod 2 ^ 16.
Definition u32 (x : Z) : Z := x mod 2 ^ 32.

(** Two's complement reading of a 32-bit word, [(s32_t)x]. *)
Definition s32 (x : Z) : Z := let y := u32 x in if y <? 2 ^ 31 then y else y - 2 ^ 32.

(** [(s16_t)x]. *)
Definition s16 (x : Z) : Z := let y := u16 x in if y <? 2 ^ 15 then y else y - 2 ^ 16.

(** [1 << k]. *)
Definition bit (k : Z) : Z := Z.shiftl 1 k.

(** [x & m] used as a C condition. *)
Definition has (x m : Z) : bool := negb (Z.land x m =? 0).

(** * Outcomes

    A computation over a state [S] returns a value with a new state, or stops
    at the point where the C program has no further defined behaviour (or
    spins for ever), keeping the state it stopped in. *)

Inductive stop : Type :=
| NullCall      (** a call through a NULL function pointer *)
| NullDeref     (** a dereference of a NULL pointer *)
| OutOfBounds   (** an access outside the object *)
| BadPointer    (** a dereference of a pointer to no live object *)
| BadShift      (** a shift by the width of the type or more *)
| OutOfFuel     (** a loop ran longer than the fuel given *)
| Hang.         (** a [while (1);] in the source *)

#[global] Instance stop_eq_dec : EqDecision stop.
Proof. solve_decision. Defined.

Inductive outcome (S A : Type) : Type :=
| Ret (a : A) (s : S)
| Stop (w : stop) (s : S).
Arguments Ret {S A} a s.
Arguments Stop {S A} w s.

Definition M (S A : Type) : Type := S -> outcome S A.

#[global] Instance M_ret S : MRet (M S) := fun A a s => Ret a s.
#[global] Instance M_bind S : MBind (M S) := fun A B f m s =>
  match m s with Ret a s' => f a s' | Stop w s' => Stop w s' end.

Definition get {S} : M S S := fun s => Ret s s.
Definition put {S} (s : S) : M S unit := fun _ => Ret tt s.
Definition gets {S A} (f : S -> A) : M S A := fun s => Ret (f s) s.
Definition modify {S} (f : S -> S) : M S unit := fun s => Ret tt (f s).
Definition halt {S A} (w : stop) : M S A := fun s => Stop w s.

(** An [option] read as a pointer that the code dereferences. *)
Definition deref {S A} (w : stop) (o : option A) : M S A :=
  match o with Some a => mret a | None => halt w end.

(** Run a computation of a part of the state. *)
Definition zoom {S T A} (view : T -> S) (upd : S -> T -> T) (m : M S A) : M T A :=
  fun t => match m (view t) with
           | Ret a s => Ret a (upd s t)
           | Stop w s => Stop w (upd s t)
           end.

(** [if (b) m]. *)
Definition when {S} (b : bool) (m : M S unit) : M S unit := if b then m else mret tt.

(** [for (x : l) f(x)]. *)
Fixpoint for_each {S A} (l : list A) (f : A -> M S unit) : M S unit :=
  match l with [] => mret tt | x :: l => f x;; for_each l f end.

(** [while (c) continue;] where evaluating [c] has effects. *)
Fixpoint while_busy {S} (fuel : nat) (c : M S bool) : M S unit :=
  match fuel with
  | O => halt OutOfFuel
  | S fuel => b ← c; if (b : bool) then while_busy fuel c else mret tt
  end.

(** A loop over local variables: [body] goes round again with new values of
    them ([inl]) or leaves the loop with a result ([inr]). *)
Fixpoint iter {S A R} (fuel : nat) (body : A -> M S (A + R)) (a : A) : M S R :=
  match fuel with
  | O => halt OutOfFuel
  | S fuel => r ← body a; match r with inl a' => iter fuel body a' | inr x => mret x end
  end.

Definition outcome_state {S A} (o : outcome S A) : S :=
  match o with Ret _ s => s | Stop _ s => s end.
Definition outcome_val {S A} (o : outcome S A) : option A :=
  match o with Ret a _ => Some a | Stop _ _ => None end.

(** ** Equations of the monad *)

Lemma bind_Ret {S A B} (m : M S A) (f : A -> M S B) s a s' :
  m s = Ret a s' -> (m ≫= f) s = f a s'.
Proof. intros H. unfold mbind, M_bind. by rewrite H. Qed.

Lemma bind_Stop {S A B} (m : M S A) (f : A -> M S B) s w s' :
  m s = Stop w s' -> (m ≫= f) s = Stop w s'.
Proof. intros H. unfold mbind, M_bind. by rewrite H. Qed.

Lemma bind_inv {S A B} (m : M S A) (f : A -> M S B) s b s'' :
  (m ≫= f) s = Ret b s'' -> exists a s', m s = Ret a s' /\ f a s' = Ret b s''.
Proof. unfold mbind, M_bind. destruct (m s) as [a s'|]; [eauto|done]. Qed.

(** * Total correctness: from [s] the computation returns, and what it returns
    satisfies the postcondition. *)
Definition wp {S A} (m : M S A) (Q : A -> S -> Prop) (s : S) : Prop :=
  match m s with Ret a s' => Q a s' | Stop _ _ => False end.

Lemma wp_elim {S A} (m : M S A) Q s : wp m Q s -> exists a s', m s = Ret a s' /\ Q a s'.
Proof. unfold wp. destruct (m s) as [a s'|]; [eauto|done]. Qed.

Lemma wp_bind {S A B} (m : M S A) (f : A -> M S B) Q s :
  wp m (fun a s' => wp (f a) Q s') s -> wp (m ≫= f) Q s.
Proof. unfold wp, mbind, M_bind. by destruct (m s). Qed.

(** A block of four steps followed by the rest. *)
Lemma wp_block4 {S A} (m1 m2 m3 m4 : M S unit) (k : M S A) Q s :
  wp (m1;; m2;; m3;; m4) (fun _ s' => wp k Q s') s -> wp (m1;; m2;; m3;; m4;; k) Q s.
Proof.
  unfold wp, mbind, M_bind. destruct (m1 s) as [? s1|]; [|done].
  destruct (m2 s1) as [? s2|]; [|done]. destruct (m3 s2) as [? s3|]; [|done].
  by destruct (m4 s3).
Qed.

Lemma wp_mono {S A} (m : M S A) (Q Q' : A -> S -> Prop) s :
  wp m Q s -> (forall a s', Q a s' -> Q' a s') -> wp m Q' s.
Proof. unfold wp. destruct (m s); [eauto|done]. Qed.

Lemma wp_ret {S A} (a : A) Q (s : S) : Q a s -> wp (mret a) Q s.
Proof. done. Qed.

Lemma wp_gets {S A} (f : S -> A) Q (s : S) : Q (f s) s -> wp (gets f) Q s.
Proof. done. Qed.

Lemma wp_get {S} Q (s : S) : Q s s -> wp get Q s.
Proof. done. Qed.

Lemma wp_modify {S} (f : S -> S) Q s : Q tt (f s) -> wp (modify f) Q s.
Proof. done. Qed.

Lemma wp_of_run {S A} (m : M S A) a s s' (Q : A -> S -> Prop) : m s = Ret a s' -> Q a s' -> wp m Q s.
Proof. intros E HQ. unfold wp. by rewrite E. Qed.

(** Unfold a definition in the computation only. *)
Ltac wp_unfold c :=
  lazymatch goal with |- wp ?m ?Q ?s => let m' := eval unfold c in m in change (wp m' Q s) end.

(** A loop that goes round at most [n] times, by a measure. *)
Lemma wp_iter {S A R} (body : A -> M S (A + R)) (I : nat -> A -> S -> Prop) (Q : R -> S -> Prop) n fuel a s :
  I n a s -> (n < fuel)%nat ->
  (forall n a s, I n a s -> wp (body a) (fun r s' =>
     match r with inl a' => exists k, (k < n)%nat /\ I k a' s' | inr x => Q x s' end) s) ->
  wp (iter fuel body a) Q s.
Proof.
  intros Hi Hn Hb. revert n a s Hi Hn. induction fuel as [|fuel IH]; intros n a s Hi Hn; [lia|].
  simpl. apply wp_bind. eapply wp_mono; [by apply (Hb n)|]. intros [a'|x] s' Hr; [|done].
  destruct Hr as (k & Hk & Hi'). apply (IH k); [done|lia].
Qed.

(** The same up to fuel: running out of fuel is the only way to stop, and is
    allowed when [T] holds.  [run True] is partial correctness, [run False]
    total correctness. *)
Definition run {S A} (T : Prop) (m : M S A) (Q : A -> S -> Prop) (s : S) : Prop :=
  match m s with Ret a s' => Q a s' | Stop w _ => w = OutOfFuel /\ T end.

Lemma run_wp {S A} T (m : M S A) Q s : wp m Q s -> run T m Q s.
Proof. unfold wp, run. by destruct (m s). Qed.

Lemma run_bind {S A B} T (m : M S A) (f : A -> M S B) Q s :
  run T m (fun a s' => run T (f a) Q s') s -> run T (m ≫= f) Q s.
Proof. unfold run, mbind, M_bind. by destruct (m s). Qed.

Lemma run_mono {S A} T (m : M S A) (Q Q' : A -> S -> Prop) s :
  run T m Q s -> (forall a s', Q a s' -> Q' a s') -> run T m Q' s.
Proof. unfold run. destruct (m s); eauto. Qed.

Lemma run_elim {S A} T (m : M S A) Q s a s' : run T m Q s -> m s = Ret a s' -> Q a s'.
Proof. unfold run. intros HQ E. by rewrite E in HQ. Qed.

Lemma run_total {S A} (m : M S A) Q s : run False m Q s -> wp m Q s.
Proof. unfold run, wp. destruct (m s); [done|by intros []]. Qed.

Lemma wp_when_true {S} (m : M S unit) Q s : wp m Q s -> wp (when true m) Q s.
Proof. done. Qed.

(** A property of the outcome of a sequence, through its first step. *)
Lemma wp_through {S A B} (R : outcome S B -> Prop) (m : M S A) (f : A -> M S B) s :
  wp m (fun a s' => R (f a s')) s -> R ((m ≫= f) s).
Proof. unfold wp, mbind, M_bind. by destruct (m s). Qed.

(** The computation stops, for the reason [w]. *)
Definition stops {S A} (w : stop) (m : M S A) (s : S) : Prop := exists s', m s = Stop w s'.

Lemma stops_bind_l {S A B} w (m : M S A) (f : A -> M S B) s : stops w m s -> stops w (m ≫= f) s.
Proof. intros [s' E]. exists s'. by apply bind_Stop. Qed.

Lemma stops_bind_r {S A B} w (m : M S A) (f : A -> M S B) s :
  wp m (fun a s' => stops w (f a) s') s -> stops w (m ≫= f) s.
Proof.
  unfold wp, stops, mbind, M_bind. destruct (m s) as [a s'|]; [done|done].
Qed.

(** An invariant that holds in every final state, returned or stopped. *)
Definition safe {S A} (Inv : S -> Prop) (m : M S A) (Q : A -> S -> Prop) (s : S) : Prop :=
  match m s with Ret a s' => Inv s' /\ Q a s' | Stop _ s' => Inv s' end.

Section Safe.
Context {S : Type} (Inv : S -> Prop).

Lemma safe_wp {A} (m : M S A) Q s : wp m (fun a s' => Inv s' /\ Q a s') s -> safe Inv m Q s.
Proof. unfold wp, safe. by destruct (m s). Qed.

Lemma safe_bind {A B} (m : M S A) (f : A -> M S B) Q s :
  safe Inv m (fun a s' => Inv s' -> safe Inv (f a) Q s') s -> safe Inv (m ≫= f) Q s.
Proof. unfold safe, mbind, M_bind. destruct (m s); [intros [? HQ]; by apply HQ|done]. Qed.

Lemma safe_mono {A} (m : M S A) (Q Q' : A -> S -> Prop) s :
  safe Inv m Q s -> (forall a s', Q a s' -> Q' a s') -> safe Inv m Q' s.
Proof. unfold safe. destruct (m s); [intros []; eauto|done]. Qed.

Lemma safe_gets {A} (f : S -> A) Q s : Inv s -> Q (f s) s -> safe Inv (gets f) Q s.
Proof. done. Qed.

Lemma safe_ret {A} (a : A) Q s : Inv s -> Q a s -> safe Inv (mret a) Q s.
Proof. done. Qed.

Lemma safe_halt {A} w (Q : A -> S -> Prop) s : Inv s -> safe Inv (halt w) Q s.
Proof. done. Qed.

Lemma safe_while fuel (c : M S bool) (J : S -> Prop) (Q : unit -> S -> Prop) s :
  Inv s -> J s ->
  (forall s, Inv s -> J s -> safe Inv c (fun b s' => if b then J s' else Q tt s') s) ->
  safe Inv (while_busy fuel c) Q s.
Proof.
  intros Hi Hs Hc. revert s Hi Hs. induction fuel as [|fuel IH]; intros s Hi Hs; [done|].
  simpl. apply safe_bind. eapply safe_mono; [by apply Hc|]. intros [] s' HJ Hi'; [by apply IH|done].
Qed.
End Safe.

(** ** Busy waits *)

(** The condition becomes false within [n] evaluations. *)
Fixpoint settles {S} (n : nat) (c : M S bool) (s : S) : Prop :=
  match n with
  | O => False
  | S n => match c s with
           | Ret true s' => settles n c s'
           | Ret false _ => True
           | Stop _ _ => False
           end
  end.

Lemma settles_once {S} (c : M S bool) s : wp c (fun b _ => b = false) s -> settles 1 c s.
Proof. unfold wp. simpl. by destruct (c s) as [[] ?|]. Qed.

Lemma while_busy_settles {S} n fuel (c : M S bool) s :
  settles n c s -> (n <= fuel)%nat -> exists s', while_busy fuel c s = Ret tt s'.
Proof.
  revert fuel s. induction n as [|n IH]; simpl; intros fuel s Hs Hf; [done|].
  destruct fuel as [|fuel]; [lia|]. simpl. unfold mbind, M_bind.
  destruct (c s) as [[] s'|]; [apply IH; [done|lia]|by eexists|done].
Qed.

(** A busy wait keeps what its condition keeps, and ends with the condition false. *)
Lemma run_while {S} T fuel (c : M S bool) (I : S -> Prop) (Q : unit -> S -> Prop) s :
  I s -> (forall s, I s -> run T c (fun b s' => if b then I s' else Q tt s') s) ->
  (T \/ settles fuel c s) -> run T (while_busy fuel c) Q s.
Proof.
  intros Hs Hc. revert s Hs. induction fuel as [|fuel IH]; intros s Hs Hf.
  { destruct Hf as [?|[]]. by split. }
  simpl. apply run_bind. specialize (Hc s Hs). revert Hc. unfold run at 1 2. simpl in Hf.
  destruct (c s) as [[] s'|]; [|done|done]. intros Hs'. by apply IH.
Qed.

(** A busy wait whose condition stays true uses up any fuel. *)
Lemma while_busy_forever {S} fuel (c : M S bool) (I : S -> Prop) s :
  I s -> (forall s, I s -> wp c (fun b s' => b = true /\ I s') s) ->
  exists s', while_busy fuel c s = Stop OutOfFuel s'.
Proof.
  intros Hs Hc. revert s Hs. induction fuel as [|fuel IH]; intros s Hs; [by eexists|].
  simpl. unfold mbind, M_bind. destruct (wp_elim _ _ _ (Hc s Hs)) as (b & s' & -> & -> & Hs').
  by apply IH.
Qed.

Lemma while_busy_returns {S} fuel (c : M S bool) s s' :
  while_busy fuel c s = Ret tt s' -> settles fuel c s.
Proof.
  revert s. induction fuel as [|fuel IH]; simpl; intros s; [done|].
  unfold mbind, M_bind. destruct (c s) as [[] s1|]; [apply IH|done|done].
Qed.

(** A byte of a buffer. *)
Definition byte (b : Z) : Prop := 0 <= b < 256.

(** Integer tactics: expose the conversions and the bit masks to [lia]. *)
Ltac wrap_lia := unfold u8, u16, u32 in *; Z.div_mod_to_equations; lia.

(** ** Facts on the conversions *)

Lemma u8_range x : 0 <= u8 x < 256.
Proof. apply Z.mod_pos_bound. lia. Qed.
Lemma u16_range x : 0 <= u16 x < 65536.
Proof. apply Z.mod_pos_bound. lia. Qed.
Lemma u32_range x : 0 <= u32 x < 2 ^ 32.
Proof. apply Z.mod_pos_bound. lia. Qed.
Lemma u8_small x : 0 <= x < 256 -> u8 x = x.
Proof. apply Z.mod_small. Qed.
Lemma u16_small x : 0 <= x < 65536 -> u16 x = x.
Proof. apply Z.mod_small. Qed.
Lemma u32_small x : 0 <= x < 2 ^ 32 -> u32 x = x.
Proof. apply Z.mod_small. Qed.
Lemma u8_idemp x : u8 (u8 x) = u8 x.
Proof. apply u8_small, u8_range. Qed.

Lemma land_255 x : Z.land x 255 = u8 x.
Proof. apply (Z.land_ones x 8). lia. Qed.
Lemma land_65535 x : Z.land x 65535 = u16 x.
Proof. apply (Z.land_ones x 16). lia. Qed.
Lemma land_1 x : Z.land x 1 = x mod 2.
Proof. apply (Z.land_ones x 1). lia. Qed.
Lemma land_31 x : Z.land x 31 = x mod 32.
Proof. apply (Z.land_ones x 5). lia. Qed.
Lemma shiftr_8 x : Z.shiftr x 8 = x / 256.
Proof. apply (Z.shiftr_div_pow2 x 8). lia. Qed.
Lemma shiftl_8 x : Z.shiftl x 8 = x * 256.
Proof. apply (Z.shiftl_mul_pow2 x 8). lia. Qed.

(** The low byte of an aligned high part and a byte do not overlap: [hi | lo]. *)
Lemma testbit_high x n k : 0 <= x < 2 ^ n -> 0 <= n <= k -> Z.testbit x k = false.
Proof.
  intros Hx Hk. rewrite <- (Z.mod_small x (2 ^ n)) by lia.
  apply Z.mod_pow2_bits_high. lia.
Qed.

Lemma land_shift_low hi lo n : 0 <= n -> 0 <= lo < 2 ^ n -> Z.land (hi * 2 ^ n) lo = 0.
Proof.
  intros Hn Hlo. rewrite <- Z.shiftl_mul_pow2 by lia.
  apply Z.bits_inj'. intros k Hk. rewrite Z.land_spec, Z.bits_0, Z.shiftl_spec by lia.
  destruct (Z.ltb_spec k n).
  - by rewrite (Z.testbit_neg_r hi) by lia.
  - rewrite (testbit_high lo n k) by lia. apply andb_false_r.
Qed.

Lemma lor_shift_add hi lo n : 0 <= n -> 0 <= lo < 2 ^ n -> Z.lor (hi * 2 ^ n) lo = hi * 2 ^ n + lo.
Proof.
  intros Hn Hlo. pose proof (land_shift_low hi lo n Hn Hlo) as H.
  by rewrite <- Z.lxor_lor, Z.add_nocarry_lxor.
Qed.

(** ** Fields of a command byte: a 3-bit code and a 5-bit argument. *)

Lemma cmd_byte k r : 0 <= k < 8 -> u8 (Z.lor (Z.shiftl k 5) (Z.land 0x1F r)) = k * 32 + r mod 32.
Proof.
  intros Hk. rewrite Z.land_comm, land_31, Z.shiftl_mul_pow2 by lia.
  pose proof (Z.mod_pos_bound r 32 ltac:(lia)).
  rewrite (lor_shift_add k (r mod 32) 5) by lia. rewrite u8_small; lia.
Qed.

Lemma cmd_code k r : 0 <= k < 8 -> Z.shiftr (k * 32 + r mod 32) 5 = k.
Proof.
  intros Hk. rewrite Z.shiftr_div_pow2 by lia. change (2 ^ 5) with 32.
  pose proof (Z.mod_pos_bound r 32 ltac:(lia)).
  rewrite Z.div_add_l, (Z.div_small (r mod 32)); lia.
Qed.

Lemma cmd_arg k r : Z.land (k * 32 + r mod 32) 31 = r mod 32.
Proof. rewrite land_31, Z.add_comm, Z.mod_add, Z.mod_mod; lia. Qed.

(** ** Filters *)

Lemma filter_all {A} (P : A -> Prop) `{forall x, Decision (P x)} l : Forall P l -> filter P l = l.
Proof. induction 1 as [|x l Hx _ IH]; [done|]. by rewrite filter_cons_True, IH. Qed.

Lemma filter_none {A} (P : A -> Prop) `{forall x, Decision (P x)} l : Forall (fun x => ~ P x) l -> filter P l = [].
Proof. induction 1 as [|x l Hx _ IH]; [done|]. by rewrite filter_cons_False, IH. Qed.

Lemma Forall_filter_keep {A} (P Q : A -> Prop) `{forall x, Decision (P x)} l :
  Forall Q l -> Forall Q (filter P l).
Proof. rewrite !Forall_forall. intros HQ x [_ Hx]%list_elem_of_filter. auto. Qed.
