(* ===== verification/Bus.v ===== *)
(** The SPI glue of the controller driver:
    [src/enc28j60_driver/Src/spiHwdInterface.c].

    The glue calls the STM32 HAL.  A HAL call is an event of the bus history,
    newest first; what the slave answers (and whether the HAL times out) is a
    parameter, [SpiSlave], a function of the history, so that every theorem
    holds for every device. *)
From S2P Require Import Prelude.

Inductive gpio_port : Type := GPIOA | GPIOB | GPIOC.
Inductive pin_state : Type := GPIO_PIN_RESET | GPIO_PIN_SET.
Inductive hal_status : Type := HAL_OK | HAL_ERROR | HAL_BUSY | HAL_TIMEOUT.

#[global] Instance gpio_port_eq_dec : EqDecision gpio_port.
Proof. solve_decision. Defined.
#[global] Instance pin_state_eq_dec : EqDecision pin_state.
Proof. solve_decision. Defined.
#[global] Instance hal_status_eq_dec : EqDecision hal_status.
Proof. solve_decision. Defined.

(** One call of the HAL or of the message printer, as the firmware issues it. *)
Inductive ev : Type :=
| EvPin (port : gpio_port) (pin : Z) (st : pin_state)        (** HAL_GPIO_WritePin *)
| EvTx (bs : list Z) (timeout : Z)                           (** HAL_SPI_Transmit *)
| EvRx (n : Z) (timeout : Z) (st : hal_status) (bs : list Z) (** HAL_SPI_Receive *)
| EvDelay (ms : Z)                                           (** HAL_Delay *)
| EvLog (level : Z) (fmt : string) (args : list Z).          (** dMesgPrint *)

Definition bus : Type := list ev.

(** The device on the bus: the status of a receive and the bytes it stored in
    the caller's buffer (all of them when the status is [HAL_OK]), and the
    value of an uninitialised byte of the caller's stack. *)
Class SpiSlave : Type := {
  rx_reply : bus -> Z -> hal_status * list Z;
  indeterminate : bus -> Z
}.

(** The documented contract of a successful receive: the whole buffer is
    filled, with bytes. *)
Class FullReplies `{SpiSlave} : Prop :=
  full_reply : forall b n, 0 <= n ->
    Z.of_nat (length (rx_reply b n).2) = n /\ Forall byte (rx_reply b n).2.

Definition emit (e : ev) : M bus unit := fun b => Ret tt (e :: b).

Definition MAX_TIME_OUT : Z := 1000.
Definition Ethernet_CS_GPIO_Port : gpio_port := GPIOB.
Definition Ethernet_CS_Pin : Z := bit 6.

Definition HAL_GPIO_WritePin (port : gpio_port) (pin : Z) (st : pin_state) : M bus unit :=
  emit (EvPin port pin st).

Definition HAL_SPI_Transmit (bs : list Z) (timeout : Z) : M bus unit := emit (EvTx bs timeout).

Definition HAL_Delay (ms : Z) : M bus unit := emit (EvDelay ms).

Section Glue.
Context `{SpiSlave}.

Definition HAL_SPI_Receive (n timeout : Z) : M bus (hal_status * list Z) := fun b =>
  let '(st, bs) := rx_reply b n in
  let stored := take (Z.to_nat n) bs in
  Ret (st, stored) (EvRx n timeout st stored :: b).

Definition spi1ChipSelect : M bus unit :=
  HAL_GPIO_WritePin Ethernet_CS_GPIO_Port Ethernet_CS_Pin GPIO_PIN_RESET.

Definition spi1ChipDeSelect : M bus unit :=
  HAL_GPIO_WritePin Ethernet_CS_GPIO_Port Ethernet_CS_Pin GPIO_PIN_SET.

(** Returns the C result (1 or 0) and the bytes stored at [ptrData]. *)
Definition spi1Read (u16length : Z) : M bus (Z * list Z) :=
  '(st, bs) ← HAL_SPI_Receive u16length MAX_TIME_OUT;
  mret (if decide (st = HAL_OK) then 1 else 0, bs).

Definition spi1Write (bs : list Z) : M bus unit := HAL_SPI_Transmit bs MAX_TIME_OUT.

Definition delayMsFunction (ms : Z) : M bus unit := HAL_Delay ms.
End Glue.

(** [dMesgPrint(level, fmt, ...)] as the driver sees it: a print is an event; the
    formatting of the text (log.c) is not modelled. *)
Definition DEBUG_ERROR : Z := 0.
Definition DEBUG_WARN : Z := 1.
Definition DEBUG_INFO : Z := 2.
Definition dMesgPrint (level : Z) (fmt : string) (args : list Z) : M bus unit :=
  emit (EvLog level fmt args).

(** Storing the first bytes of a buffer: what a receive into it leaves. *)
Definition store (buf new : list Z) : list Z := take (length buf) new ++ drop (length new) buf.

Lemma store_length buf new : length (store buf new) = length buf.
Proof. unfold store. rewrite length_app, length_take, length_drop. lia. Qed.

Lemma store_all buf new : length new = length buf -> store buf new = new.
Proof.
  intros Hl. unfold store. rewrite <- Hl, take_ge, drop_ge, app_nil_r; [done|lia|lia].
Qed.
