(* ===== verification/Regs.v ===== *)
(** The driver's data: [src/enc28j60_driver/Inc/enc28j60_hwd.h] (register map,
    enumerations, packet buffers, the [enc28j60Drv] object) and the initial
    value of the object [dev], [src/enc28j60_driver/Src/enc28j60_hwd.c]. *)
From S2P Require Import Prelude Bus.

Definition BANK_0 : Z := u8 0.
Definition BANK_1 : Z := u8 (Z.shiftl 0x01 6).
Definition BANK_2 : Z := u8 (Z.shiftl 0x01 7).
Definition BANK_3 : Z := u8 (Z.shiftl 0x03 6).

Inductive encj28j60_bank : Type := bank_0 | bank_1 | bank_2 | bank_3 | undefBank.

#[global] Instance bank_eq_dec : EqDecision encj28j60_bank.
Proof. solve_decision. Defined.

(** The enumerators' values; [undefBank] follows [bank_3]. *)
Definition bank_value (b : encj28j60_bank) : Z :=
  match b with
  | bank_0 => BANK_0
  | bank_1 => BANK_1
  | bank_2 => BANK_2
  | bank_3 => BANK_3
  | undefBank => BANK_3 + 1
  end.

(** [enc28j60_eth_int_flag]. *)
Inductive eth_int_flag : Type := RXERIF | TXERIF | WOLIF | TXIF | LINKIF | DMAIF | PKTIF.

#[global] Instance eth_int_flag_eq_dec : EqDecision eth_int_flag.
Proof. solve_decision. Defined.

Definition eth_int_value (f : eth_int_flag) : Z :=
  match f with
  | RXERIF => bit 0
  | TXERIF => bit 1
  | WOLIF => bit 2
  | TXIF => bit 3
  | LINKIF => bit 4
  | DMAIF => bit 5
  | PKTIF => bit 6
  end.

(** [rx_filter_control]. *)
Definition RX_BROADCAST : Z := bit 0.
Definition RX_MULTICAST : Z := bit 1.
Definition RX_HASH_TABLE : Z := bit 2.
Definition RX_MAGIC_PACKET : Z := bit 3.
Definition RX_PATTERN_MATCH : Z := bit 4.
Definition RX_CRC_CHECK : Z := bit 5.
Definition RX_AND_OR_CHECK : Z := bit 6.
Definition RX_UNICAST : Z := bit 7.

Record common_regs : Type := { EIE : Z; EIR : Z; ESTAT : Z; ECON2 : Z; ECON1 : Z }.

Definition dev_common (bank : Z) : common_regs := {|
  EIE := Z.lor bank 0x1B;
  EIR := Z.lor bank 0x1C;
  ESTAT := Z.lor bank 0x1D;
  ECON2 := Z.lor bank 0x1E;
  ECON1 := Z.lor bank 0x1F
|}.

Module Bank0.
Record t : Type := {
  ERDPTL : Z;
  ERDPTH : Z;
  EWRPTL : Z;
  EWRPTH : Z;
  ETXSTL : Z;
  ETXSTH : Z;
  ETXNDL : Z;
  ETXNDH : Z;
  ERXSTL : Z;
  ERXSTH : Z;
  ERXNDL : Z;
  ERXNDH : Z;
  ERXRDPTL : Z;
  ERXRDPTH : Z;
  ERXWRPTL : Z;
  ERXWRPTH : Z;
  EDMASTL : Z;
  EDMASTH : Z;
  EDMANDL : Z;
  EDMANDH : Z;
  EDMADSTL : Z;
  EDMADSTH : Z;
  EDMACSL : Z;
  EDMACSH : Z;
  undefined1 : Z;
  undefined2 : Z;
  Reversed1 : Z;
  commonRegs : common_regs
}.
End Bank0.

Definition dev_bank0 : Bank0.t := {|
  Bank0.ERDPTL := Z.lor BANK_0 0x00;
  Bank0.ERDPTH := Z.lor BANK_0 0x01;
  Bank0.EWRPTL := Z.lor BANK_0 0x02;
  Bank0.EWRPTH := Z.lor BANK_0 0x03;
  Bank0.ETXSTL := Z.lor BANK_0 0x04;
  Bank0.ETXSTH := Z.lor BANK_0 0x05;
  Bank0.ETXNDL := Z.lor BANK_0 0x06;
  Bank0.ETXNDH := Z.lor BANK_0 0x07;
  Bank0.ERXSTL := Z.lor BANK_0 0x08;
  Bank0.ERXSTH := Z.lor BANK_0 0x09;
  Bank0.ERXNDL := Z.lor BANK_0 0x0A;
  Bank0.ERXNDH := Z.lor BANK_0 0x0B;
  Bank0.ERXRDPTL := Z.lor BANK_0 0x0C;
  Bank0.ERXRDPTH := Z.lor BANK_0 0x0D;
  Bank0.ERXWRPTL := Z.lor BANK_0 0x0E;
  Bank0.ERXWRPTH := Z.lor BANK_0 0x0F;
  Bank0.EDMASTL := Z.lor BANK_0 0x10;
  Bank0.EDMASTH := Z.lor BANK_0 0x11;
  Bank0.EDMANDL := Z.lor BANK_0 0x12;
  Bank0.EDMANDH := Z.lor BANK_0 0x13;
  Bank0.EDMADSTL := Z.lor BANK_0 0x14;
  Bank0.EDMADSTH := Z.lor BANK_0 0x15;
  Bank0.EDMACSL := Z.lor BANK_0 0x16;
  Bank0.EDMACSH := Z.lor BANK_0 0x17;
  Bank0.undefined1 := Z.lor BANK_0 0x18;
  Bank0.undefined2 := Z.lor BANK_0 0x19;
  Bank0.Reversed1 := Z.lor BANK_0 0x1A;
  Bank0.commonRegs := dev_common BANK_0
|}.

Module Bank1.
Record t : Type := {
  EHT0 : Z;
  EHT1 : Z;
  EHT2 : Z;
  EHT3 : Z;
  EHT4 : Z;
  EHT5 : Z;
  EHT6 : Z;
  EHT7 : Z;
  EPMM0 : Z;
  EPMM1 : Z;
  EPMM2 : Z;
  EPMM3 : Z;
  EPMM4 : Z;
  EPMM5 : Z;
  EPMM6 : Z;
  EPMM7 : Z;
  EPMCSL : Z;
  EPMCSH : Z;
  undefined1 : Z;
  undefined2 : Z;
  EPMOL : Z;
  EPMOH : Z;
  EWOLIE : Z;
  EWOLIR : Z;
  ERXFCON : Z;
  EPKTCNT : Z;
  Reserved1 : Z;
  commonRegs : common_regs
}.
End Bank1.

Definition dev_bank1 : Bank1.t := {|
  Bank1.EHT0 := Z.lor BANK_1 0x00;
  Bank1.EHT1 := Z.lor BANK_1 0x01;
  Bank1.EHT2 := Z.lor BANK_1 0x02;
  Bank1.EHT3 := Z.lor BANK_1 0x03;
  Bank1.EHT4 := Z.lor BANK_1 0x04;
  Bank1.EHT5 := Z.lor BANK_1 0x05;
  Bank1.EHT6 := Z.lor BANK_1 0x06;
  Bank1.EHT7 := Z.lor BANK_1 0x07;
  Bank1.EPMM0 := Z.lor BANK_1 0x08;
  Bank1.EPMM1 := Z.lor BANK_1 0x09;
  Bank1.EPMM2 := Z.lor BANK_1 0x0A;
  Bank1.EPMM3 := Z.lor BANK_1 0x0B;
  Bank1.EPMM4 := Z.lor BANK_1 0x0C;
  Bank1.EPMM5 := Z.lor BANK_1 0x0D;
  Bank1.EPMM6 := Z.lor BANK_1 0x0E;
  Bank1.EPMM7 := Z.lor BANK_1 0x0F;
  Bank1.EPMCSL := Z.lor BANK_1 0x10;
  Bank1.EPMCSH := Z.lor BANK_1 0x11;
  Bank1.undefined1 := Z.lor BANK_1 0x12;
  Bank1.undefined2 := Z.lor BANK_1 0x13;
  Bank1.EPMOL := Z.lor BANK_1 0x14;
  Bank1.EPMOH := Z.lor BANK_1 0x15;
  Bank1.EWOLIE := Z.lor BANK_1 0x16;
  Bank1.EWOLIR := Z.lor BANK_1 0x17;
  Bank1.ERXFCON := Z.lor BANK_1 0x18;
  Bank1.EPKTCNT := Z.lor BANK_1 0x19;
  Bank1.Reserved1 := Z.lor BANK_1 0x1A;
  Bank1.commonRegs := dev_common BANK_1
|}.

Module Bank2.
Record t : Type := {
  MACON1 : Z;
  MACON2 : Z;
  MACON3 : Z;
  MACON4 : Z;
  MABBIPG : Z;
  undefined1 : Z;
  MAIPGL : Z;
  MAIPGH : Z;
  MACLCON1 : Z;
  MACLCON2 : Z;
  MAMXFLL : Z;
  MAMXFLH : Z;
  Reserved1 : Z;
  MAPHSUP : Z;
  Reserved2 : Z;
  undefined2 : Z;
  Reserved3 : Z;
  MICON : Z;
  MICMD : Z;
  undefined3 : Z;
  MIREGADR : Z;
  Reserved4 : Z;
  MIWRL : Z;
  MIWRH : Z;
  MIRDL : Z;
  MIRDH : Z;
  Reserved5 : Z;
  commonRegs : common_regs
}.
End Bank2.

Definition dev_bank2 : Bank2.t := {|
  Bank2.MACON1 := Z.lor BANK_2 0x00;
  Bank2.MACON2 := Z.lor BANK_2 0x01;
  Bank2.MACON3 := Z.lor BANK_2 0x02;
  Bank2.MACON4 := Z.lor BANK_2 0x03;
  Bank2.MABBIPG := Z.lor BANK_2 0x04;
  Bank2.undefined1 := Z.lor BANK_2 0x05;
  Bank2.MAIPGL := Z.lor BANK_2 0x06;
  Bank2.MAIPGH := Z.lor BANK_2 0x07;
  Bank2.MACLCON1 := Z.lor BANK_2 0x08;
  Bank2.MACLCON2 := Z.lor BANK_2 0x09;
  Bank2.MAMXFLL := Z.lor BANK_2 0x0A;
  Bank2.MAMXFLH := Z.lor BANK_2 0x0B;
  Bank2.Reserved1 := Z.lor BANK_2 0x0C;
  Bank2.MAPHSUP := Z.lor BANK_2 0x0D;
  Bank2.Reserved2 := Z.lor BANK_2 0x0E;
  Bank2.undefined2 := Z.lor BANK_2 0x0F;
  Bank2.Reserved3 := Z.lor BANK_2 0x10;
  Bank2.MICON := Z.lor BANK_2 0x11;
  Bank2.MICMD := Z.lor BANK_2 0x12;
  Bank2.undefined3 := Z.lor BANK_2 0x13;
  Bank2.MIREGADR := Z.lor BANK_2 0x14;
  Bank2.Reserved4 := Z.lor BANK_2 0x15;
  Bank2.MIWRL := Z.lor BANK_2 0x16;
  Bank2.MIWRH := Z.lor BANK_2 0x17;
  Bank2.MIRDL := Z.lor BANK_2 0x18;
  Bank2.MIRDH := Z.lor BANK_2 0x19;
  Bank2.Reserved5 := Z.lor BANK_2 0x1A;
  Bank2.commonRegs := dev_common BANK_2
|}.

Module Bank3.
Record t : Type := {
  MAADR1 : Z;
  MAADR0 : Z;
  MAADR3 : Z;
  MAADR2 : Z;
  MAADR5 : Z;
  MAADR4 : Z;
  EBSTSD : Z;
  EBSTCON : Z;
  EBSTCSL : Z;
  EBSTCSH : Z;
  MISTAT : Z;
  undefined : list Z;
  EREVID : Z;
  undefined8 : Z;
  undefined9 : Z;
  ECOCON : Z;
  Reserved1 : Z;
  EFLOCON : Z;
  EPAUSL : Z;
  EPAUSH : Z;
  Reserved2 : Z;
  commonRegs : common_regs
}.
End Bank3.

Definition dev_bank3 : Bank3.t := {|
  Bank3.MAADR1 := Z.lor BANK_3 0x00;
  Bank3.MAADR0 := Z.lor BANK_3 0x01;
  Bank3.MAADR3 := Z.lor BANK_3 0x02;
  Bank3.MAADR2 := Z.lor BANK_3 0x03;
  Bank3.MAADR5 := Z.lor BANK_3 0x04;
  Bank3.MAADR4 := Z.lor BANK_3 0x05;
  Bank3.EBSTSD := Z.lor BANK_3 0x06;
  Bank3.EBSTCON := Z.lor BANK_3 0x07;
  Bank3.EBSTCSL := Z.lor BANK_3 0x08;
  Bank3.EBSTCSH := Z.lor BANK_3 0x09;
  Bank3.MISTAT := Z.lor BANK_3 0x0A;
  Bank3.undefined := [
    Z.lor BANK_3 0x0B;
    Z.lor BANK_3 0x0C;
    Z.lor BANK_3 0x0D;
    Z.lor BANK_3 0x0E;
    Z.lor BANK_3 0x0F;
    Z.lor BANK_3 0x10;
    Z.lor BANK_3 0x11
  ];
  Bank3.EREVID := Z.lor BANK_3 0x12;
  Bank3.undefined8 := Z.lor BANK_3 0x13;
  Bank3.undefined9 := Z.lor BANK_3 0x14;
  Bank3.ECOCON := Z.lor BANK_3 0x15;
  Bank3.Reserved1 := Z.lor BANK_3 0x16;
  Bank3.EFLOCON := Z.lor BANK_3 0x17;
  Bank3.EPAUSL := Z.lor BANK_3 0x18;
  Bank3.EPAUSH := Z.lor BANK_3 0x19;
  Bank3.Reserved2 := Z.lor BANK_3 0x1A;
  Bank3.commonRegs := dev_common BANK_3
|}.

Record phy_registers : Type := {
  PHCON1 : Z;
  PHSTAT1 : Z;
  PHID1 : Z;
  PHID2 : Z;
  PHCON2 : Z;
  PHSTAT2 : Z;
  PHIE : Z;
  PHIR : Z;
  PHLCON : Z
}.

Definition dev_phyReg : phy_registers := {|
  PHCON1 := 0x00;
  PHSTAT1 := 0x01;
  PHID1 := 0x02;
  PHID2 := 0x03;
  PHCON2 := 0x10;
  PHSTAT2 := 0x11;
  PHIE := 0x12;
  PHIR := 0x13;
  PHLCON := 0x14
|}.

Record enc28j60_opcode : Type := {
  u8readControlRegister : Z;
  u8readBufferMemory : Z;
  u8writeControlRegister : Z;
  u8WriteBufferMemory : Z;
  u8BitFieldSet : Z;
  u8BitFieldClear : Z;
  u8SoftReset : Z
}.

Definition dev_opcode : enc28j60_opcode := {|
  u8readControlRegister := Z.shiftl 0 0x05;
  u8readBufferMemory := Z.lor (Z.shiftl 1 0x05) 0x1A;
  u8writeControlRegister := Z.shiftl 2 0x05;
  u8WriteBufferMemory := Z.lor (Z.shiftl 3 0x05) 0x1A;
  u8BitFieldSet := Z.shiftl 4 0x05;
  u8BitFieldClear := Z.shiftl 5 0x05;
  u8SoftReset := Z.lor (Z.shiftl 7 0x05) 0x1F
|}.

(** The unions [enc28j60_reg_value], [pktLength] and [addrPtr]: a 16-bit value
    with its two bytes, least significant first on this little-endian core. *)
Definition u8ValLo (v : Z) : Z := u8 v.
Definition u8ValHi (v : Z) : Z := u8 (Z.shiftr v 8).

Definition spiChipSel : Type := M bus unit.
Definition spiChipDSl : Type := M bus unit.
Definition slaveWrite : Type := list Z -> M bus unit.
Definition slaveRead : Type := Z -> M bus (Z * list Z).
Definition intHandler : Type := M bus unit.
Definition delayMs : Type := Z -> M bus unit.

Record spiDriver : Type := {
  fncPtrCS : option spiChipSel;
  fncPtrChipDS : option spiChipDSl;
  fncPtrRead : option slaveRead;
  fncPtrWrite : option slaveWrite
}.

Definition PKT_DATA : nat := 1500.

(** [enc28j60_rx_packet]: packed, so [ptrAddr] lies right after [data]. *)
Record rx_packet : Type := {
  nxtPktAddr : list Z;
  rxStatVect : list Z;
  rxPktLen : Z;
  rx_data : list Z;
  ptrAddr : Z
}.

(** [enc28j60_tx_packet]. *)
Record tx_packet : Type := { txPktLen : Z; tx_data : list Z }.

(** [enc28j60Drv]; [rxPkt] and [txPkt] are packed and adjacent. *)
Record enc28j60Drv : Type := {
  spi : spiDriver;
  fncPtrcallBack : option intHandler;
  fncPtrDelayFunc : option delayMs;
  bank0 : Bank0.t;
  bank1 : Bank1.t;
  bank2 : Bank2.t;
  bank3 : Bank3.t;
  phyReg : phy_registers;
  opcode : enc28j60_opcode;
  bnBank : encj28j60_bank;
  rxBufStartAddr : Z;
  rxBufEndAddr : Z;
  rxLockAddr : Z;
  txBufStartAddr : Z;
  txBufEndAddr : Z;
  MxmPkSize : Z;
  mac : list Z;
  rxPkt : rx_packet;
  txPkt : tx_packet
}.

Definition dev_mac : list Z := [0xED; 0x6A; 0xAF; 0x16; 0x7C; 0x04].

Definition dev_rxPkt : rx_packet := {|
  nxtPktAddr := [0; 0];
  rxStatVect := [0; 0; 0; 0];
  rxPktLen := 0;
  rx_data := replicate PKT_DATA 0;
  ptrAddr := 0x0000
|}.

Definition dev_txPkt : tx_packet := {| txPktLen := 0; tx_data := replicate PKT_DATA 0 |}.

Definition dev : enc28j60Drv := {|
  spi := {| fncPtrCS := None; fncPtrChipDS := None; fncPtrRead := None; fncPtrWrite := None |};
  fncPtrcallBack := None;
  fncPtrDelayFunc := None;
  bank0 := dev_bank0;
  bank1 := dev_bank1;
  bank2 := dev_bank2;
  bank3 := dev_bank3;
  phyReg := dev_phyReg;
  opcode := dev_opcode;
  bnBank := bank_0;
  rxBufStartAddr := 0x0000;
  rxBufEndAddr := 0x17FF;
  rxLockAddr := 0x0000;
  txBufStartAddr := 0x1800;
  txBufEndAddr := 0x1FFF;
  MxmPkSize := 1500;
  mac := dev_mac;
  rxPkt := dev_rxPkt;
  txPkt := dev_txPkt
|}.
