(* ===== verification/Driver.v ===== *)
(** The ENC28J60 driver's operations:
    [src/enc28j60_driver/Src/enc28j60_hwd.c], function by function, from the
    accesses to the registers to the transfer of frames and the start-up.

    An operation is a computation over the driver object and the bus.  A busy
    wait takes its fuel from [fuel]; [DriverFacts.v] proves how much is enough. *)
From S2P Require Import Prelude Bus Regs.

Record drv : Type := { dbus : bus; ddev : enc28j60Drv }.

Definition set_dbus (b : bus) (s : drv) : drv := {| dbus := b; ddev := ddev s |}.

(** ** Updates of the driver object *)

Definition set_bnBank (b : encj28j60_bank) (d : enc28j60Drv) : enc28j60Drv := {|
  spi := spi d; fncPtrcallBack := fncPtrcallBack d; fncPtrDelayFunc := fncPtrDelayFunc d;
  bank0 := bank0 d; bank1 := bank1 d; bank2 := bank2 d; bank3 := bank3 d;
  phyReg := phyReg d; opcode := opcode d; bnBank := b;
  rxBufStartAddr := rxBufStartAddr d; rxBufEndAddr := rxBufEndAddr d;
  rxLockAddr := rxLockAddr d; txBufStartAddr := txBufStartAddr d;
  txBufEndAddr := txBufEndAddr d; MxmPkSize := MxmPkSize d; mac := mac d;
  rxPkt := rxPkt d; txPkt := txPkt d |}.

Definition set_packets (rx : rx_packet) (tx : tx_packet) (d : enc28j60Drv) : enc28j60Drv := {|
  spi := spi d; fncPtrcallBack := fncPtrcallBack d; fncPtrDelayFunc := fncPtrDelayFunc d;
  bank0 := bank0 d; bank1 := bank1 d; bank2 := bank2 d; bank3 := bank3 d;
  phyReg := phyReg d; opcode := opcode d; bnBank := bnBank d;
  rxBufStartAddr := rxBufStartAddr d; rxBufEndAddr := rxBufEndAddr d;
  rxLockAddr := rxLockAddr d; txBufStartAddr := txBufStartAddr d;
  txBufEndAddr := txBufEndAddr d; MxmPkSize := MxmPkSize d; mac := mac d;
  rxPkt := rx; txPkt := tx |}.

Definition set_pointers (s : spiDriver) (h : option intHandler) (dl : option delayMs)
    (d : enc28j60Drv) : enc28j60Drv := {|
  spi := s; fncPtrcallBack := h; fncPtrDelayFunc := dl;
  bank0 := bank0 d; bank1 := bank1 d; bank2 := bank2 d; bank3 := bank3 d;
  phyReg := phyReg d; opcode := opcode d; bnBank := bnBank d;
  rxBufStartAddr := rxBufStartAddr d; rxBufEndAddr := rxBufEndAddr d;
  rxLockAddr := rxLockAddr d; txBufStartAddr := txBufStartAddr d;
  txBufEndAddr := txBufEndAddr d; MxmPkSize := MxmPkSize d; mac := mac d;
  rxPkt := rxPkt d; txPkt := txPkt d |}.

Definition upd_dev (f : enc28j60Drv -> enc28j60Drv) : M drv unit :=
  modify (fun s => {| dbus := dbus s; ddev := f (ddev s) |}).

Definition set_rx (f : rx_packet -> rx_packet) : M drv unit :=
  upd_dev (fun d => set_packets (f (rxPkt d)) (txPkt d) d).

Definition rx_set_nxt (l : list Z) (r : rx_packet) : rx_packet := {|
  nxtPktAddr := l; rxStatVect := rxStatVect r; rxPktLen := rxPktLen r;
  rx_data := rx_data r; ptrAddr := ptrAddr r |}.
Definition rx_set_stat (l : list Z) (r : rx_packet) : rx_packet := {|
  nxtPktAddr := nxtPktAddr r; rxStatVect := l; rxPktLen := rxPktLen r;
  rx_data := rx_data r; ptrAddr := ptrAddr r |}.
Definition rx_set_len (n : Z) (r : rx_packet) : rx_packet := {|
  nxtPktAddr := nxtPktAddr r; rxStatVect := rxStatVect r; rxPktLen := n;
  rx_data := rx_data r; ptrAddr := ptrAddr r |}.
Definition rx_set_ptr (n : Z) (r : rx_packet) : rx_packet := {|
  nxtPktAddr := nxtPktAddr r; rxStatVect := rxStatVect r; rxPktLen := rxPktLen r;
  rx_data := rx_data r; ptrAddr := n |}.

(** The bytes of the object from [rxPkt.data] to its end, in memory order, and
    the object with those bytes replaced: a write through [rxPkt.data] goes on
    into the fields that follow it. *)
Definition le16 (v : Z) : list Z := [u8ValLo v; u8ValHi v].
Definition of_le16 (l : list Z) : Z := nth 0 l 0 + 256 * nth 1 l 0.

Definition rx_region (d : enc28j60Drv) : list Z :=
  rx_data (rxPkt d) ++ le16 (ptrAddr (rxPkt d)) ++ le16 (txPktLen (txPkt d)) ++ tx_data (txPkt d).

Definition with_rx_region (m : list Z) (d : enc28j60Drv) : enc28j60Drv :=
  let r := rxPkt d in
  set_packets
    {| nxtPktAddr := nxtPktAddr r; rxStatVect := rxStatVect r; rxPktLen := rxPktLen r;
       rx_data := take PKT_DATA m; ptrAddr := of_le16 (drop PKT_DATA m) |}
    {| txPktLen := of_le16 (drop (PKT_DATA + 2) m); tx_data := drop (PKT_DATA + 4) m |} d.

Definition store_rx_data (new : list Z) (d : enc28j60Drv) : enc28j60Drv :=
  with_rx_region (store (rx_region d) new) d.

(** ** Calls through the function pointers of the object *)

Definition call {A} (f : enc28j60Drv -> option (M bus A)) : M drv A := fun s =>
  match f (ddev s) with
  | Some m => zoom dbus set_dbus m s
  | None => Stop NullCall s
  end.

Definition CS : M drv unit := call (fun d => fncPtrCS (spi d)).
Definition ChipDS : M drv unit := call (fun d => fncPtrChipDS (spi d)).
Definition Write (bs : list Z) : M drv unit := call (fun d => (fun w => w bs) <$> fncPtrWrite (spi d)).
Definition Read (n : Z) : M drv (Z * list Z) := call (fun d => (fun r => r n) <$> fncPtrRead (spi d)).
Definition Delay (ms : Z) : M drv unit := call (fun d => (fun w => w ms) <$> fncPtrDelayFunc d).
Definition Log (level : Z) (fmt : string) (args : list Z) : M drv unit :=
  zoom dbus set_dbus (dMesgPrint level fmt args).

(** [(void) fncPtrRead(&x, 1)] into a byte that holds [x]. *)
Definition Read1 (x : Z) : M drv Z :=
  '(_, bs) ← Read 1;
  mret (nth 0 (store [x] bs) 0).

(** ** Banks *)

Definition convertRegValToBank (value : Z) : encj28j60_bank :=
  match Z.land value 0xC0 with
  | 0x40 => bank_1
  | 0x80 => bank_2
  | 0xC0 => bank_3
  | _ => bank_0
  end.

Definition convertBankToBits (b : encj28j60_bank) : Z := Z.shiftr (u8 (bank_value b)) 6.

Definition enc28j60_bankChange (bBank : encj28j60_bank) : M drv unit :=
  d ← gets ddev;
  let clear c := u8 (Z.lor (u8BitFieldClear (opcode d)) (Z.land 0x1F (ECON1 c))) in
  let u8Command :=
    match bnBank d with
    | undefBank => None
    | bank_0 => Some (clear (Bank0.commonRegs (bank0 d)))
    | bank_1 => Some (clear (Bank1.commonRegs (bank1 d)))
    | bank_2 => Some (clear (Bank2.commonRegs (bank2 d)))
    | bank_3 => Some (clear (Bank3.commonRegs (bank3 d)))
    end in
  match u8Command with
  | None => mret tt
  | Some u8Command =>
    CS;; Write [u8Command];; Write [0x03];; ChipDS;;
    let u8CmdNextBank :=
      u8 (Z.lor (u8BitFieldSet (opcode d)) (Z.land 0x1F (ECON1 (Bank0.commonRegs (bank0 d))))) in
    let u8BitsToSets := convertBankToBits bBank in
    when (negb (u8BitsToSets =? 0) && (u8BitsToSets <=? 3))
      (CS;; Write [u8CmdNextBank];; Write [u8BitsToSets];; ChipDS;;
       upd_dev (set_bnBank bBank))
  end.

Section Driver.
Context `{SpiSlave} (fuel : nat).

(** The guard every register access starts with. *)
Definition select_bank (u8Reg : Z) : M drv unit :=
  d ← gets ddev;
  let bBank := convertRegValToBank u8Reg in
  when (bool_decide (bBank <> bnBank d)) (enc28j60_bankChange bBank).

Definition uninit : M drv Z := gets (fun s => indeterminate (dbus s)).

Definition enc28j60_readMacMIIReg (u8Reg : Z) : M drv Z :=
  select_bank u8Reg;;
  d ← gets ddev;
  let u8Command := u8 (Z.lor (u8readControlRegister (opcode d)) (Z.land 0x1F u8Reg)) in
  x ← uninit;
  CS;; Write [u8Command];;
  x ← Read1 x;
  x ← Read1 x;
  ChipDS;;
  mret x.

Definition enc28j60_readEtherReg (u8Reg : Z) : M drv Z :=
  select_bank u8Reg;;
  d ← gets ddev;
  let u8Command := u8 (Z.lor (u8readControlRegister (opcode d)) (Z.land 0x1F u8Reg)) in
  x ← uninit;
  CS;; Write [u8Command];;
  x ← Read1 x;
  ChipDS;;
  mret x.

Definition enc28j60_writeReg (u8Reg u8Value : Z) : M drv unit :=
  select_bank u8Reg;;
  d ← gets ddev;
  let u8Command := u8 (Z.lor (u8writeControlRegister (opcode d)) (Z.land 0x1F u8Reg)) in
  CS;; Write [u8Command];; Write [u8Value];; ChipDS.

Definition enc28j60_BitFieldSet (u8Reg u8data : Z) : M drv unit :=
  select_bank u8Reg;;
  d ← gets ddev;
  let u8Command := u8 (Z.lor (u8BitFieldSet (opcode d)) (Z.land 0x1F u8Reg)) in
  CS;; Write [u8Command];; Write [u8data];; ChipDS.

Definition enc28j60_BitFieldClear (u8Reg u8data : Z) : M drv unit :=
  select_bank u8Reg;;
  d ← gets ddev;
  let u8Command := u8 (Z.lor (u8BitFieldClear (opcode d)) (Z.land 0x1F u8Reg)) in
  CS;; Write [u8Command];; Write [u8data];; ChipDS.

Definition enc28j60_SoftReset : M drv unit :=
  d ← gets ddev;
  CS;; Write [u8SoftReset (opcode d)];; ChipDS.

Definition enc28j60_sftRst : M drv unit := enc28j60_SoftReset.

(** ** PHY registers *)

(** [while(enc28j60_readMacMIIReg(dev, dev->bank3.MISTAT) & (0x01)) continue;] *)
Definition wait_MISTAT : M drv unit :=
  d ← gets ddev;
  while_busy fuel (v ← enc28j60_readMacMIIReg (Bank3.MISTAT (bank3 d)); mret (has v 0x01)).

Definition enc28j60_readPhyReg (addr : Z) : M drv Z :=
  d ← gets ddev;
  enc28j60_writeReg (Bank2.MIREGADR (bank2 d)) addr;;
  frSet ← enc28j60_readMacMIIReg (Bank2.MICMD (bank2 d));
  enc28j60_writeReg (Bank2.MICMD (bank2 d)) (u8 (Z.lor frSet (bit 0)));;
  Delay 1;;
  wait_MISTAT;;
  frClr ← enc28j60_readMacMIIReg (Bank2.MICMD (bank2 d));
  enc28j60_writeReg (Bank2.MICMD (bank2 d)) (u8 (Z.land frClr (Z.lnot (bit 0))));;
  hi ← enc28j60_readMacMIIReg (Bank2.MIRDH (bank2 d));
  lo ← enc28j60_readMacMIIReg (Bank2.MIRDL (bank2 d));
  mret (u16 (Z.lor (u16 (Z.shiftl hi 8)) lo)).

Definition enc28j60_writePhyReg (addr data : Z) : M drv unit :=
  d ← gets ddev;
  enc28j60_writeReg (Bank2.MIREGADR (bank2 d)) addr;;
  enc28j60_writeReg (Bank2.MIWRL (bank2 d)) (u8 (Z.land data 0xFF));;
  enc28j60_writeReg (Bank2.MIWRH (bank2 d)) (u8 (Z.shiftr data 8));;
  Delay 1;;
  wait_MISTAT.

Definition enc28j60_getPhyPartNumber : M drv Z :=
  d ← gets ddev;
  v ← enc28j60_readPhyReg (PHID2 (phyReg d));
  mret (u16 (Z.shiftr (Z.land v 0x03F0) 4)).

(** The accumulator [u32returnValue] is declared [uint16_t]. *)
Definition enc28j60_getPhyIdentifier : M drv Z :=
  d ← gets ddev;
  v1 ← enc28j60_readPhyReg (PHID1 (phyReg d));
  let u32returnValue := u16 (Z.shiftr (u16 v1) 0x03) in
  v2 ← enc28j60_readPhyReg (PHID2 (phyReg d));
  mret (u16 (Z.lor u32returnValue (u32 (Z.shiftl v2 0x09)))).

Definition enc28j60_getPhyRevNumber : M drv Z :=
  d ← gets ddev;
  v ← enc28j60_readPhyReg (PHID2 (phyReg d));
  mret (Z.land (u8 v) 0x000F).

Definition phy_flag (reg : enc28j60Drv -> Z) (k : Z) : M drv bool :=
  d ← gets ddev;
  v ← enc28j60_readPhyReg (reg d);
  mret (has v (bit k)).

Definition enc28j60_getPhylinkHasBeenDown : M drv bool := phy_flag (fun d => PHSTAT1 (phyReg d)) 2.
Definition enc28j60_getPhyjabberStatusBit : M drv bool := phy_flag (fun d => PHSTAT1 (phyReg d)) 1.
Definition enc28j60_getPhyPolarityStatus : M drv bool := phy_flag (fun d => PHSTAT2 (phyReg d)) 4.
Definition enc28j60_getPhyDuplexStatus : M drv bool := phy_flag (fun d => PHSTAT2 (phyReg d)) 9.
Definition enc28j60_getPhyLinkStatus : M drv bool := phy_flag (fun d => PHSTAT2 (phyReg d)) 10.
Definition enc28j60_getPhyCollisionStatus : M drv bool := phy_flag (fun d => PHSTAT2 (phyReg d)) 11.
Definition enc28j60_getPhyIsRxStatus : M drv bool := phy_flag (fun d => PHSTAT2 (phyReg d)) 12.
Definition enc28j60_getPhyIsTxStatus : M drv bool := phy_flag (fun d => PHSTAT2 (phyReg d)) 13.

Definition enc28j60_getPhyInterrupt : M drv Z :=
  d ← gets ddev;
  enc28j60_readPhyReg (PHIR (phyReg d)).

Definition enc28j60_getwakeUpInterrupt : M drv Z :=
  d ← gets ddev;
  enc28j60_readEtherReg (Bank1.EWOLIR (bank1 d)).

Definition enc28j60_getEtherInterrupt : M drv Z :=
  d ← gets ddev;
  match bnBank d with
  | undefBank => mret 0
  | bank_0 => enc28j60_readEtherReg (EIR (Bank0.commonRegs (bank0 d)))
  | bank_1 => enc28j60_readEtherReg (EIR (Bank1.commonRegs (bank1 d)))
  | bank_2 => enc28j60_readEtherReg (EIR (Bank2.commonRegs (bank2 d)))
  | bank_3 => enc28j60_readEtherReg (EIR (Bank3.commonRegs (bank3 d)))
  end.

(** ** Start-up *)

Definition enc2860_macInit : M drv unit :=
  d ← gets ddev;
  t ← enc28j60_readMacMIIReg (Bank2.MACLCON2 (bank2 d));
  enc28j60_writeReg (Bank2.MACLCON2 (bank2 d)) (u8 (Z.land t (Z.lnot (bit 7))));;
  t ← enc28j60_readMacMIIReg (Bank2.MACON1 (bank2 d));
  enc28j60_writeReg (Bank2.MACON1 (bank2 d)) (u8 (Z.lor t (Z.lor (Z.lor (bit 3) (bit 2)) 0x01)));;
  t ← enc28j60_readMacMIIReg (Bank2.MACON3 (bank2 d));
  enc28j60_writeReg (Bank2.MACON3 (bank2 d))
    (u8 (Z.lor t (Z.lor (Z.lor (Z.lor (Z.shiftl 7 5) (bit 4)) (bit 2)) 0x01)));;
  enc28j60_writeReg (Bank2.MAMXFLL (bank2 d)) (u8ValLo (MxmPkSize d));;
  enc28j60_writeReg (Bank2.MAMXFLH (bank2 d)) (u8ValHi (MxmPkSize d));;
  enc28j60_writeReg (Bank2.MABBIPG (bank2 d)) 0x15;;
  enc28j60_writeReg (Bank2.MAIPGL (bank2 d)) 0x12;;
  enc28j60_writeReg (Bank3.MAADR0 (bank3 d)) (nth 0 (mac d) 0);;
  enc28j60_writeReg (Bank3.MAADR1 (bank3 d)) (nth 1 (mac d) 0);;
  enc28j60_writeReg (Bank3.MAADR2 (bank3 d)) (nth 2 (mac d) 0);;
  enc28j60_writeReg (Bank3.MAADR3 (bank3 d)) (nth 3 (mac d) 0);;
  enc28j60_writeReg (Bank3.MAADR4 (bank3 d)) (nth 4 (mac d) 0);;
  enc28j60_writeReg (Bank3.MAADR5 (bank3 d)) (nth 5 (mac d) 0).

Definition enc2860_phyInit : M drv unit :=
  d ← gets ddev;
  v ← enc28j60_readPhyReg (PHCON1 (phyReg d));
  enc28j60_writePhyReg (PHCON1 (phyReg d)) (u16 (Z.lor v (bit 8)));;
  v ← enc28j60_readPhyReg (PHIE (phyReg d));
  enc28j60_writePhyReg (PHIE (phyReg d)) (u16 (Z.lor v (Z.lor (bit 1) (bit 4)))).

Definition enc28j60_rxSetFilters (filter : Z) : M drv unit :=
  d ← gets ddev;
  enc28j60_writeReg (Bank1.ERXFCON (bank1 d)) (u8 filter).

Definition enc28j60_initDr (cs : option spiChipSel) (dCS : option spiChipDSl) (rd : option slaveRead)
    (wr : option slaveWrite) (hdle : option intHandler) (delay : option delayMs) : M drv unit :=
  upd_dev (set_pointers {| fncPtrCS := cs; fncPtrChipDS := dCS; fncPtrRead := rd; fncPtrWrite := wr |}
             hdle delay).

(** The address registers that [enc28j60_strtDr] programs between the PHY
    probes and the PHY set-up. *)
Definition program_buffers (d : enc28j60Drv) : M drv unit :=
  enc28j60_writeReg (Bank0.ERXSTL (bank0 d)) (u8ValLo (rxBufStartAddr d));;
  enc28j60_writeReg (Bank0.ERXSTH (bank0 d)) (u8ValHi (rxBufStartAddr d));;
  enc28j60_writeReg (Bank0.ERDPTL (bank0 d)) (u8ValLo (ptrAddr (rxPkt d)));;
  enc28j60_writeReg (Bank0.ERDPTH (bank0 d)) (u8ValHi (ptrAddr (rxPkt d)));;
  enc28j60_writeReg (Bank0.ERXNDL (bank0 d)) (u8ValLo (rxBufEndAddr d));;
  enc28j60_writeReg (Bank0.ERXNDH (bank0 d)) (u8ValHi (rxBufEndAddr d));;
  enc28j60_writeReg (Bank0.ERXRDPTL (bank0 d)) (u8ValLo (rxBufEndAddr d));;
  enc28j60_writeReg (Bank0.ERXRDPTH (bank0 d)) (u8ValHi (rxBufEndAddr d));;
  enc28j60_writeReg (Bank0.ETXSTL (bank0 d)) (u8ValLo (txBufStartAddr d));;
  enc28j60_writeReg (Bank0.ETXSTH (bank0 d)) (u8ValHi (txBufStartAddr d));;
  enc28j60_writeReg (Bank0.ETXNDL (bank0 d)) (u8ValLo (txBufEndAddr d));;
  enc28j60_writeReg (Bank0.ETXNDH (bank0 d)) (u8ValHi (txBufEndAddr d)).

Definition enc28j60_strtDr : M drv unit :=
  d ← gets ddev;
  enc28j60_sftRst;;
  Delay 1;;
  while_busy fuel
    (v ← enc28j60_readEtherReg (ESTAT (Bank0.commonRegs (bank0 d))); mret (negb (has v 0x01)));;
  enc28j60_getPhyRevNumber;;
  enc28j60_getPhyPartNumber;;
  enc28j60_getPhyIdentifier;;
  program_buffers d;;
  enc2860_phyInit;;
  enc2860_macInit;;
  enc28j60_rxSetFilters (Z.lor (Z.lor RX_UNICAST RX_CRC_CHECK) RX_BROADCAST);;
  enc28j60_writeReg (EIE (Bank0.commonRegs (bank0 d))) 0xFF;;
  enc28j60_BitFieldSet (ECON2 (Bank0.commonRegs (bank0 d))) (bit 7);;
  enc28j60_BitFieldSet (ECON1 (Bank0.commonRegs (bank0 d))) (bit 2).

(** ** Interrupt flags *)

Definition enc28j60_clear_interrupt (flags : eth_int_flag) : M drv unit :=
  d ← gets ddev;
  let value := u8 (eth_int_value flags) in
  when (value <=? 64)
    (if decide (flags = PKTIF)
     then enc28j60_BitFieldSet (ECON2 (Bank0.commonRegs (bank0 d))) (bit 6)
     else enc28j60_BitFieldClear (EIR (Bank0.commonRegs (bank0 d))) value).

Definition enc28j60_global_Int_Set : M drv unit :=
  d ← gets ddev;
  enc28j60_BitFieldSet (EIE (Bank0.commonRegs (bank0 d))) (bit 7).

Definition enc28j60_global_int_Clear : M drv unit :=
  d ← gets ddev;
  enc28j60_BitFieldClear (EIE (Bank0.commonRegs (bank0 d))) (bit 7).

Definition enc28j60_link_change_int_clear : M drv unit :=
  d ← gets ddev;
  enc28j60_BitFieldClear (EIE (Bank0.commonRegs (bank0 d))) (bit 4).
End Driver.

Definition tx_set_len (n : Z) (t : tx_packet) : tx_packet := {| txPktLen := n; tx_data := tx_data t |}.

Definition set_tx (f : tx_packet -> tx_packet) : M drv unit :=
  upd_dev (fun d => set_packets (rxPkt d) (f (txPkt d)) d).

(** The [length] bytes at a pointer to [mem]; the caller's object ends with [mem]. *)
Definition bytes_at {S} (mem : list Z) (length : Z) : M S (list Z) :=
  if Z.of_nat (List.length mem) <? length then halt OutOfBounds
  else mret (take (Z.to_nat length) mem).

(** The messages for the status flags, by bit number; [case 13] falls through
    into [case 14]. *)
Definition rx_flag_messages (i : Z) : list (Z * string) :=
  match i with
  | 1 => [(DEBUG_ERROR, "Long/Drop Event\r\n")]
  | 2 => [(DEBUG_ERROR, "Carrier seen!\r\n")]
  | 4 => [(DEBUG_ERROR, "CRC Err!\r\n")]
  | 5 => [(DEBUG_ERROR, "Length Chk Err!\r\n")]
  | 6 => [(DEBUG_ERROR, "Length range!\r\n")]
  | 7 => [(DEBUG_INFO, "Rcv OK!\r\n")]
  | 8 => [(DEBUG_INFO, "Rcv Multicast\r\n")]
  | 9 => [(DEBUG_INFO, "Rcv Broadcast\r\n")]
  | 10 => [(DEBUG_INFO, "Dribble Nibble\r\n")]
  | 11 => [(DEBUG_INFO, "Rcv CTL\r\n")]
  | 12 => [(DEBUG_INFO, "Rcv Pause CTL\r\n")]
  | 13 => [(DEBUG_ERROR, "Rcd unkwn opcode\r\n"); (DEBUG_INFO, "VLAN!\r\n")]
  | 14 => [(DEBUG_INFO, "VLAN!\r\n")]
  | _ => []
  end%string.

Definition log_rx_flags (u16Flags : Z) : M drv unit :=
  for_each (seqZ 0 16) (fun i =>
    when (has u16Flags (bit i))
      (for_each (rx_flag_messages i) (fun '(lvl, msg) => Log lvl msg []))).

(** What [ERXRDPT] is given: the errata's odd address before the next packet. *)
Definition lock_value (d : enc28j60Drv) : Z :=
  if ptrAddr (rxPkt d) =? rxBufStartAddr d then rxBufEndAddr d
  else u16 (ptrAddr (rxPkt d) - 1).

(** Two bytes read as [*p | *(p + 1) << 8] into a [uint16_t]. *)
Definition pair16 (l : list Z) (i : nat) : Z := u16 (Z.lor (nth i l 0) (Z.shiftl (nth (S i) l 0) 8)).

(** The reads of the packet header: next packet pointer and status vector. *)
Definition read_header : M drv unit :=
  '(_, bs) ← Read 2;
  set_rx (fun r => rx_set_nxt (store (nxtPktAddr r) bs) r);;
  set_rx (fun r => rx_set_ptr (pair16 (nxtPktAddr r) 0) r);;
  p ← gets (fun s => ptrAddr (rxPkt (ddev s)));
  Log DEBUG_INFO "Next Point address --> %d\r\n" [Z.lor (Z.shiftl (u8ValHi p) 8) (u8ValLo p)];;
  '(_, bs) ← Read 4;
  set_rx (fun r => rx_set_stat (store (rxStatVect r) bs) r);;
  set_rx (fun r => rx_set_len (pair16 (rxStatVect r) 0) r).

(** The length test: false, and a zero length, for 1518 bytes and more. *)
Definition check_length : M drv bool :=
  r ← gets (fun s => rxPkt (ddev s));
  if 1518 <=? rxPktLen r then
    for_each (seqZ 0 4) (fun i =>
      Log DEBUG_ERROR "Status vector registers %d: %d\r\n" [i; nth (Z.to_nat i) (rxStatVect r) 0]);;
    Log DEBUG_ERROR "Packet length is probably the result of (0 - 4) which is wrong 0\r\n" [];;
    set_rx (rx_set_len 0);;
    mret false
  else mret true.

Section Frames.
Context `{SpiSlave} (fuel : nat).

Definition enc28j60_etherTransmit (u8PtrData : list Z) (length : Z) : M drv bool :=
  d ← gets ddev;
  let start := txBufStartAddr d in
  enc28j60_writeReg (Bank0.EWRPTL (bank0 d)) (u8 (Z.land start 0xFF));;
  enc28j60_writeReg (Bank0.EWRPTH (bank0 d)) (u8 (Z.shiftr start 0x08));;
  enc28j60_writeReg (Bank0.ETXSTL (bank0 d)) (u8 (Z.land start 0xFF));;
  enc28j60_writeReg (Bank0.ETXSTH (bank0 d)) (u8 (Z.shiftr start 0x08));;
  CS;;
  Write [u8WriteBufferMemory (opcode d)];;
  set_tx (tx_set_len (u16 (start + length)));;
  Write [0x00];;
  data ← bytes_at u8PtrData length;
  Write data;;
  ChipDS;;
  nd ← gets (fun s => txPktLen (txPkt (ddev s)));
  enc28j60_writeReg (Bank0.ETXNDL (bank0 d)) (u8 (Z.land nd 0xFF));;
  enc28j60_writeReg (Bank0.ETXNDH (bank0 d)) (u8 (Z.shiftr nd 0x08));;
  enc28j60_BitFieldClear (EIR (Bank0.commonRegs (bank0 d))) (bit 3);;
  enc28j60_BitFieldSet (EIE (Bank0.commonRegs (bank0 d))) (bit 3);;
  enc28j60_BitFieldSet (EIE (Bank0.commonRegs (bank0 d))) (bit 7);;
  enc28j60_BitFieldSet (ECON1 (Bank0.commonRegs (bank0 d))) (bit 3);;
  mret true.

Definition enc28j60_etherReceive : M drv bool :=
  d ← gets ddev;
  enc28j60_writeReg (Bank0.ERDPTL (bank0 d)) (u8ValLo (ptrAddr (rxPkt d)));;
  enc28j60_writeReg (Bank0.ERDPTH (bank0 d)) (u8ValHi (ptrAddr (rxPkt d)));;
  CS;;
  Write [u8readBufferMemory (opcode d)];;
  read_header;;
  u16Flags ← gets (fun s => pair16 (rxStatVect (rxPkt (ddev s))) 2);
  bReturnValue ← check_length;
  n ← gets (fun s => rxPktLen (rxPkt (ddev s)));
  '(_, bs) ← Read n;
  upd_dev (store_rx_data bs);;
  ChipDS;;
  u16ValueToLoad ← gets (fun s => lock_value (ddev s));
  enc28j60_writeReg (Bank0.ERXRDPTL (bank0 d)) (u8 (Z.land u16ValueToLoad 0xFF));;
  enc28j60_writeReg (Bank0.ERXRDPTH (bank0 d)) (u8 (Z.shiftr u16ValueToLoad 0x08));;
  log_rx_flags u16Flags;;
  mret bReturnValue.
End Frames.
