(* ===== verification/Chip.v ===== *)
(** What the driver's bus traffic asks of the ENC28J60: the controller's SPI
    instruction set and register banks, as its data sheet
    ([src/Documentation/Datasheet.pdf], tables 3-1 and 4-1) defines them.

    This is the specification side of the driver: a decoder of the bus
    history.  It answers no read (answers belong to [SpiSlave]); it says which
    instruction, on which register, the bytes between two chip-select edges
    encode. *)
From S2P Require Import Prelude Bus Regs.

(** A control register: its bank and its 5-bit address.  The last five
    addresses of every bank are one common set, listed under bank 0. *)
Definition reg : Type := Z * Z.

Definition reg_at (bank addr : Z) : reg := if 0x1B <=? addr then (0, addr) else (bank, addr).

Inductive instr : Type :=
| RCR (r : reg) (got : list Z)   (** read control register; bytes shifted out *)
| RBM (got : list Z)             (** read buffer memory *)
| WCR (r : reg) (v : Z)          (** write control register *)
| WBM (bs : list Z)              (** write buffer memory *)
| BFS (r : reg) (v : Z)          (** bit field set *)
| BFC (r : reg) (v : Z)          (** bit field clear *)
| SRC                            (** system reset *)
| Pause (ms : Z)                 (** a delay between instructions *)
| Malformed (bs : list Z).       (** no instruction of the set *)

#[global] Instance instr_eq_dec : EqDecision instr.
Proof. solve_decision. Defined.

(** Chip-select state, the bytes shifted in and out since selection, ECON1's
    bank select bits, and the instructions completed, newest first. *)
Record chip : Type := {
  selected : bool;
  mosi : list Z;
  miso : list Z;
  bsel : Z;
  done_ : list instr
}.

Definition chip_reset : chip :=
  {| selected := false; mosi := []; miso := []; bsel := 0; done_ := [] |}.

Definition decode (bank : Z) (mosi miso : list Z) : option instr :=
  match mosi with
  | [] => None
  | op :: data =>
    let a := Z.land op 31 in
    Some
      match Z.shiftr op 5, data with
      | 0, [] => RCR (reg_at bank a) miso
      | 1, [] => if a =? 0x1A then RBM miso else Malformed mosi
      | 2, [v] => WCR (reg_at bank a) v
      | 3, _ => if a =? 0x1A then WBM data else Malformed mosi
      | 4, [v] => BFS (reg_at bank a) v
      | 5, [v] => BFC (reg_at bank a) v
      | 7, [] => if a =? 0x1F then SRC else Malformed mosi
      | _, _ => Malformed mosi
      end
  end.

Definition reg_ECON1 : reg := (0, 0x1F).

(** The bank select bits after an instruction. *)
Definition bank_after (bank : Z) (i : instr) : Z :=
  match i with
  | WCR r v => if decide (r = reg_ECON1) then Z.land v 3 else bank
  | BFS r v => if decide (r = reg_ECON1) then Z.lor bank (Z.land v 3) else bank
  | BFC r v => if decide (r = reg_ECON1) then Z.land bank (Z.lnot (Z.land v 3)) else bank
  | SRC => 0
  | _ => bank
  end.

Definition chip_step (e : ev) (c : chip) : chip :=
  match e with
  | EvPin port pin st =>
    if decide (port = Ethernet_CS_GPIO_Port /\ pin = Ethernet_CS_Pin) then
      match st with
      | GPIO_PIN_RESET =>
        {| selected := true; mosi := []; miso := []; bsel := bsel c; done_ := done_ c |}
      | GPIO_PIN_SET =>
        match (if selected c then decode (bsel c) (mosi c) (miso c) else None) with
        | Some i => {| selected := false; mosi := []; miso := [];
                       bsel := bank_after (bsel c) i; done_ := i :: done_ c |}
        | None => {| selected := false; mosi := []; miso := []; bsel := bsel c; done_ := done_ c |}
        end
      end
    else c
  | EvTx bs _ => {| selected := selected c; mosi := mosi c ++ bs; miso := miso c;
                    bsel := bsel c; done_ := done_ c |}
  | EvRx _ _ _ bs => {| selected := selected c; mosi := mosi c; miso := miso c ++ bs;
                        bsel := bsel c; done_ := done_ c |}
  | EvDelay ms => {| selected := selected c; mosi := mosi c; miso := miso c;
                     bsel := bsel c; done_ := Pause ms :: done_ c |}
  | EvLog _ _ _ => c
  end.

(** The chip as the whole history (newest event first) leaves it. *)
Definition chip_of (b : bus) : chip := foldr chip_step chip_reset b.

(** Instructions that only move the bank select bits. *)
Definition bank_select (i : instr) : bool :=
  match i with
  | BFS r v | BFC r v => bool_decide (r = reg_ECON1) && (Z.land v 0xFC =? 0)
  | _ => false
  end.

(** The instructions that reach the chip's function: all but bank selection. *)
Definition work (l : list instr) : list instr := filter (fun i => bank_select i = false) l.

(** The registers the driver names, as the data sheet's register map places them. *)
Definition reg_ERDPTL : reg := (0, 0x00).
Definition reg_ERDPTH : reg := (0, 0x01).
Definition reg_EWRPTL : reg := (0, 0x02).
Definition reg_EWRPTH : reg := (0, 0x03).
Definition reg_ETXSTL : reg := (0, 0x04).
Definition reg_ETXSTH : reg := (0, 0x05).
Definition reg_ETXNDL : reg := (0, 0x06).
Definition reg_ETXNDH : reg := (0, 0x07).
Definition reg_ERXSTL : reg := (0, 0x08).
Definition reg_ERXSTH : reg := (0, 0x09).
Definition reg_ERXNDL : reg := (0, 0x0A).
Definition reg_ERXNDH : reg := (0, 0x0B).
Definition reg_ERXRDPTL : reg := (0, 0x0C).
Definition reg_ERXRDPTH : reg := (0, 0x0D).
Definition reg_EDMANDL : reg := (0, 0x12).
Definition reg_EDMADSTL : reg := (0, 0x14).
Definition reg_EIE : reg := (0, 0x1B).
Definition reg_EIR : reg := (0, 0x1C).
Definition reg_ESTAT : reg := (0, 0x1D).
Definition reg_ECON2 : reg := (0, 0x1E).
Definition reg_ERXFCON : reg := (1, 0x18).
Definition reg_MICMD : reg := (2, 0x12).
Definition reg_MIREGADR : reg := (2, 0x14).
Definition reg_MIWRL : reg := (2, 0x16).
Definition reg_MIWRH : reg := (2, 0x17).
Definition reg_MIRDL : reg := (2, 0x18).
Definition reg_MIRDH : reg := (2, 0x19).
Definition reg_MISTAT : reg := (3, 0x0A).

(** The six bytes of the station address, first transmitted byte first:
    MAADR1 ... MAADR6. *)
Definition reg_MAADR : list reg :=
  [(3, 0x04); (3, 0x05); (3, 0x02); (3, 0x03); (3, 0x00); (3, 0x01)].

(** MAC and MII registers (names MA..., MI...): all of bank 2 below the common
    addresses, and the station address and MISTAT in bank 3. *)
Definition mac_mii (r : reg) : bool :=
  match r with
  | (2, a) => a <? 0x1B
  | (3, a) => (a <? 0x06) || (a =? 0x0A)
  | _ => false
  end.

(** ** Effect on the chip's registers and buffer memory

    What the host's writes leave in the register file and in the 8-KByte
    buffer.  Registers the chip itself updates are not tracked, and neither
    are reset values: a system reset is outside this function. *)
Record mach : Type := { regs : gmap reg Z; ram : gmap Z Z }.

Definition reg_val (m : mach) (r : reg) : Z := default 0 (regs m !! r).
Definition set_reg (r : reg) (v : Z) (m : mach) : mach := {| regs := <[r := v]> (regs m); ram := ram m |}.
Definition ptr_val (m : mach) (lo hi : reg) : Z := reg_val m lo + 256 * reg_val m hi.

Definition AUTOINC (m : mach) : bool := Z.testbit (reg_val m reg_ECON2) 7.

(** One byte of a buffer write: stored at EWRPT, which then advances. *)
Definition write_byte (b : Z) (m : mach) : mach :=
  let a := ptr_val m reg_EWRPTL reg_EWRPTH in
  let m := {| regs := regs m; ram := <[a := b]> (ram m) |} in
  let a' := if AUTOINC m then (a + 1) mod 8192 else a in
  set_reg reg_EWRPTH (a' / 256) (set_reg reg_EWRPTL (a' mod 256) m).

Definition exec (i : instr) (m : mach) : option mach :=
  match i with
  | WCR r v => Some (set_reg r v m)
  | BFS r v => Some (set_reg r (Z.lor (reg_val m r) v) m)
  | BFC r v => Some (set_reg r (Z.land (reg_val m r) (Z.lnot v)) m)
  | WBM bs => Some (foldl (fun m b => write_byte b m) m bs)
  | RCR _ _ | RBM _ | Pause _ => Some m
  | SRC | Malformed _ => None
  end.

(** In program order. *)
Fixpoint exec_all (l : list instr) (m : mach) : option mach :=
  match l with [] => Some m | i :: l => exec i m ≫= exec_all l end.

(** The frame between the transmit pointers: the byte at ETXST is the
    per-packet control byte, the frame ends at ETXND. *)
Definition frame_to_send (m : mach) : list (option Z) :=
  let st := ptr_val m reg_ETXSTL reg_ETXSTH in
  let nd := ptr_val m reg_ETXNDL reg_ETXNDH in
  (fun a => ram m !! a) <$> seqZ (st + 1) (nd - st).

(** Which register an instruction writes, and with what. *)
Definition writes (r : reg) (i : instr) : bool :=
  match i with WCR r' _ | BFS r' _ | BFC r' _ => bool_decide (r' = r) | _ => false end.

(** The value the newest write to [r] in a log (newest first) stores. *)
Fixpoint last_write (r : reg) (l : list instr) : option Z :=
  match l with
  | [] => None
  | i :: l => if writes r i then match i with WCR _ v => Some v | _ => None end else last_write r l
  end.

(** The bits the newest write to [r] sets, when it is a bit field set. *)
Fixpoint last_set (r : reg) (l : list instr) : option Z :=
  match l with
  | [] => None
  | i :: l => if writes r i then match i with BFS _ v => Some v | _ => None end else last_set r l
  end.

(** Instructions without a reset or a buffer write. *)
Definition register_only (i : instr) : bool :=
  match i with SRC | Malformed _ | WBM _ => false | _ => true end.

Lemma reg_val_set r r' v m :
  reg_val (set_reg r v m) r' = if decide (r = r') then v else reg_val m r'.
Proof. unfold reg_val, set_reg. cbn [regs]. rewrite lookup_insert. by case_decide. Qed.

Lemma exec_all_app l1 l2 m : exec_all (l1 ++ l2) m = exec_all l1 m ≫= exec_all l2.
Proof.
  revert m. induction l1 as [|i l1 IH]; intros m; [done|]. simpl.
  destruct (exec i m); [apply IH|done].
Qed.

Lemma exec_register_only i m : register_only i = true ->
  exists m', exec i m = Some m' /\ forall r, writes r i = false -> reg_val m' r = reg_val m r.
Proof.
  destruct i; intros Hi; try done; simpl; eexists; (split; [reflexivity|]); intros r' Hw; try done;
    apply bool_decide_eq_false in Hw; by rewrite reg_val_set, decide_False.
Qed.

(** Running a register-only log: total, every register named by [last_write]
    holds that value, and every one named by [last_set] has those bits. *)
Lemma exec_log l m : forallb register_only l = true ->
  exists m', exec_all (reverse l) m = Some m' /\
    (forall r v, last_write r l = Some v -> reg_val m' r = v) /\
    (forall r v k, last_set r l = Some v -> Z.testbit v k = true -> Z.testbit (reg_val m' r) k = true).
Proof.
  induction l as [|i l IH]; simpl; [intros _; by exists m|].
  intros [Hi Hl]%andb_true_iff. destruct (IH Hl) as (m1 & E1 & H1 & K1).
  destruct (exec_register_only i m1 Hi) as (m2 & E2 & H2).
  exists m2. rewrite reverse_cons, exec_all_app, E1. simpl. rewrite E2. split; [done|]. split.
  - intros r v. destruct (writes r i) eqn:W; [|intros Hr; rewrite H2; auto].
    destruct i; try done. simpl in W. apply bool_decide_eq_true in W as ->. intros [= ->].
    injection E2 as <-. by rewrite reg_val_set, decide_True.
  - intros r v k. destruct (writes r i) eqn:W; [|intros Hr Hk; rewrite H2; eauto].
    destruct i; try done. simpl in W. apply bool_decide_eq_true in W as ->. intros [= ->] Hk.
    injection E2 as <-. rewrite reg_val_set, decide_True, Z.lor_spec, Hk by done. apply orb_true_r.
Qed.

Lemma last_write_skip r l1 l2 :
  forallb (fun i => negb (writes r i)) l1 = true -> last_write r (l1 ++ l2) = last_write r l2.
Proof.
  induction l1 as [|i l1 IH]; simpl; [done|]. intros [Hi Hl]%andb_true_iff.
  apply negb_true_iff in Hi. rewrite Hi. auto.
Qed.
