(* ===== verification/DriverFacts.v ===== *)
(** The driver against the chip's instruction set: what each register access
    puts on the bus, as a function of a small view of the state (the driver's
    idea of the current bank, the chip's, and the instructions so far). *)
From S2P Require Import Prelude Bus Regs Driver Chip.

Section Facts.
Context `{SpiSlave}.

Definition std_spi : spiDriver := {|
  fncPtrCS := Some spi1ChipSelect;
  fncPtrChipDS := Some spi1ChipDeSelect;
  fncPtrRead := Some spi1Read;
  fncPtrWrite := Some spi1Write
|}.

(** The object after [enc28j60_initDr] as [main] calls it: the [const] fields
    hold their initial values. *)
Record configured (d : enc28j60Drv) : Prop := {
  cf_spi : spi d = std_spi;
  cf_delay : fncPtrDelayFunc d = Some delayMsFunction;
  cf_bank0 : bank0 d = dev_bank0;
  cf_bank1 : bank1 d = dev_bank1;
  cf_bank2 : bank2 d = dev_bank2;
  cf_bank3 : bank3 d = dev_bank3;
  cf_phy : phyReg d = dev_phyReg;
  cf_op : opcode d = dev_opcode;
  cf_rxst : rxBufStartAddr d = 0x0000;
  cf_rxnd : rxBufEndAddr d = 0x17FF;
  cf_txst : txBufStartAddr d = 0x1800;
  cf_txnd : txBufEndAddr d = 0x1FFF;
  cf_max : MxmPkSize d = 1500;
  cf_mac : mac d = dev_mac;
  cf_bank : bnBank d <> undefBank
}.

Record ready (s : drv) : Prop := {
  rd_conf : configured (ddev s);
  rd_bsel : 0 <= bsel (chip_of (dbus s)) <= 3
}.

Record view : Type := View {
  v_shadow : encj28j60_bank;  (** [bnBank], the bank the driver believes current *)
  v_bank : Z;                 (** the chip's bank *)
  v_work : list instr;        (** instructions completed, newest first *)
  v_rx : rx_packet;
  v_tx : tx_packet
}.

Definition view_of (s : drv) : view :=
  View (bnBank (ddev s)) (bsel (chip_of (dbus s))) (work (done_ (chip_of (dbus s))))
       (rxPkt (ddev s)) (txPkt (ddev s)).

(** The bank guard of an access to bank [b]. *)
Definition v_select (b : encj28j60_bank) (v : view) : view :=
  if decide (b = v_shadow v) then v
  else View (if decide (b = bank_0) then v_shadow v else b) (convertBankToBits b)
            (v_work v) (v_rx v) (v_tx v).

Definition v_do (i : instr) (v : view) : view :=
  View (v_shadow v) (bank_after (v_bank v) i)
       (if bank_select i then v_work v else i :: v_work v) (v_rx v) (v_tx v).

(** An access with instruction [f] (of the register addressed) to driver register [r]. *)
Definition v_access (f : reg -> instr) (r : Z) (v : view) : view :=
  let v := v_select (convertRegValToBank r) v in
  v_do (f (reg_at (v_bank v) (r mod 32))) v.

Lemma configured_set_bnBank b d : b <> undefBank -> configured d -> configured (set_bnBank b d).
Proof. intros Hb [*]. by split. Qed.

Lemma configured_set_packets rx tx d : configured d -> configured (set_packets rx tx d).
Proof. intros [*]. by split. Qed.

(** ** Bus transactions *)

Definition tr_bus (mid : bus) (b : bus) : bus :=
  EvPin Ethernet_CS_GPIO_Port Ethernet_CS_Pin GPIO_PIN_SET :: mid ++
  EvPin Ethernet_CS_GPIO_Port Ethernet_CS_Pin GPIO_PIN_RESET :: b.

Lemma call_configured {A} (f : enc28j60Drv -> option (M bus A)) m (s : drv) a b :
  f (ddev s) = Some m -> m (dbus s) = Ret a b ->
  call f s = Ret a {| dbus := b; ddev := ddev s |}.
Proof. intros Hf Hm. unfold call, zoom. by rewrite Hf, Hm. Qed.

Lemma CS_run s : configured (ddev s) ->
  CS s = Ret tt {| dbus := EvPin Ethernet_CS_GPIO_Port Ethernet_CS_Pin GPIO_PIN_RESET :: dbus s;
                   ddev := ddev s |}.
Proof. intros C. eapply call_configured; [rewrite (cf_spi _ C); reflexivity|reflexivity]. Qed.

Lemma ChipDS_run s : configured (ddev s) ->
  ChipDS s = Ret tt {| dbus := EvPin Ethernet_CS_GPIO_Port Ethernet_CS_Pin GPIO_PIN_SET :: dbus s;
                       ddev := ddev s |}.
Proof. intros C. eapply call_configured; [rewrite (cf_spi _ C); reflexivity|reflexivity]. Qed.

Lemma Write_run bs s : configured (ddev s) ->
  Write bs s = Ret tt {| dbus := EvTx bs MAX_TIME_OUT :: dbus s; ddev := ddev s |}.
Proof. intros C. eapply call_configured; [rewrite (cf_spi _ C); reflexivity|reflexivity]. Qed.

Lemma Delay_run ms s : configured (ddev s) ->
  Delay ms s = Ret tt {| dbus := EvDelay ms :: dbus s; ddev := ddev s |}.
Proof. intros C. eapply call_configured; [rewrite (cf_delay _ C); reflexivity|reflexivity]. Qed.

Lemma Log_run l f a s : Log l f a s = Ret tt {| dbus := EvLog l f a :: dbus s; ddev := ddev s |}.
Proof. done. Qed.

(** The bytes a receive of [n] bytes stores after history [b]. *)
Definition rx_bytes (b : bus) (n : Z) : list Z := take (Z.to_nat n) (rx_reply b n).2.
Definition rx_event (b : bus) (n : Z) : ev :=
  EvRx n MAX_TIME_OUT (rx_reply b n).1 (rx_bytes b n).

Lemma Read_run n s : configured (ddev s) ->
  exists c, Read n s = Ret (c, rx_bytes (dbus s) n)
                           {| dbus := rx_event (dbus s) n :: dbus s; ddev := ddev s |}.
Proof.
  intros C. exists (if decide ((rx_reply (dbus s) n).1 = HAL_OK) then 1 else 0).
  eapply call_configured; [rewrite (cf_spi _ C); reflexivity|].
  unfold spi1Read, HAL_SPI_Receive, rx_event, rx_bytes, mbind, M_bind.
  by destruct (rx_reply (dbus s) n).
Qed.

(** Bytes the device shifts out. *)
Definition from_device (bs : list Z) : Prop :=
  forall P : Z -> Prop, (forall b n, Forall P (rx_reply b n).2) -> Forall P bs.

(** At most [n] bytes of the device, and exactly [n] when it fills its buffers. *)
Definition shifted (n : Z) (bs : list Z) : Prop :=
  (Z.of_nat (length bs) <= n /\ from_device bs) /\
  (FullReplies -> Z.of_nat (length bs) = n /\ Forall byte bs).

Lemma rx_bytes_shifted b n : 0 <= n -> shifted n (rx_bytes b n).
Proof.
  intros Hn. unfold rx_bytes. split.
  { split; [rewrite length_take; lia|]. intros P HP. by apply Forall_take. }
  intros F. destruct (full_reply b n Hn) as [L B]. rewrite take_ge by lia. done.
Qed.

Lemma shifted_app n m bs cs : shifted n bs -> shifted m cs -> shifted (n + m) (bs ++ cs).
Proof.
  intros [[L D] B] [[L' D'] B']. split.
  { split; [rewrite length_app; lia|]. intros P HP. apply Forall_app. auto. }
  intros F.
  destruct (B F), (B' F). split; [rewrite length_app; lia|by apply Forall_app].
Qed.

(** The same as rules. *)
Definition push (e : ev) (s : drv) : drv := {| dbus := e :: dbus s; ddev := ddev s |}.

Lemma wp_run {A} (m : M drv A) a s s' (Q : A -> drv -> Prop) : m s = Ret a s' -> Q a s' -> wp m Q s.
Proof. intros E HQ. unfold wp. by rewrite E. Qed.

Lemma wp_CS Q s : configured (ddev s) ->
  Q tt (push (EvPin Ethernet_CS_GPIO_Port Ethernet_CS_Pin GPIO_PIN_RESET) s) -> wp CS Q s.
Proof. intros C. by eapply wp_run, CS_run. Qed.

Lemma wp_ChipDS Q s : configured (ddev s) ->
  Q tt (push (EvPin Ethernet_CS_GPIO_Port Ethernet_CS_Pin GPIO_PIN_SET) s) -> wp ChipDS Q s.
Proof. intros C. by eapply wp_run, ChipDS_run. Qed.

Lemma wp_Write bs Q s : configured (ddev s) -> Q tt (push (EvTx bs MAX_TIME_OUT) s) -> wp (Write bs) Q s.
Proof. intros C. by eapply wp_run, Write_run. Qed.

Lemma wp_Delay ms Q s : configured (ddev s) -> Q tt (push (EvDelay ms) s) -> wp (Delay ms) Q s.
Proof. intros C. by eapply wp_run, Delay_run. Qed.

Lemma wp_Log l f a Q s : Q tt (push (EvLog l f a) s) -> wp (Log l f a) Q s.
Proof. by eapply wp_run, Log_run. Qed.

Lemma wp_Read n Q s : configured (ddev s) ->
  (forall c, Q (c, rx_bytes (dbus s) n) (push (rx_event (dbus s) n) s)) -> wp (Read n) Q s.
Proof. intros C HQ. destruct (Read_run n s C) as [c E]. eapply wp_run; [apply E|apply HQ]. Qed.

(** Events that only shift bytes: [mo] in, [mi] out. *)
Definition shifts (mid : bus) (mo mi : list Z) : Prop := forall c,
  foldr chip_step c mid =
    {| selected := selected c; mosi := mosi c ++ mo; miso := miso c ++ mi;
       bsel := bsel c; done_ := done_ c |}.

Definition chip_done (i : instr) (c : chip) : chip :=
  {| selected := false; mosi := []; miso := []; bsel := bank_after (bsel c) i;
     done_ := i :: done_ c |}.

(** A transaction moves the chip as the instruction it encodes. *)
Lemma chip_of_tr mid b mo mi i :
  shifts mid mo mi -> decode (bsel (chip_of b)) mo mi = Some i ->
  chip_of (tr_bus mid b) = chip_done i (chip_of b).
Proof.
  intros Hmid Hi. unfold tr_bus, chip_of. simpl. rewrite foldr_app. simpl.
  fold (chip_of b). rewrite Hmid. simpl. by rewrite Hi.
Qed.

Definition v_push (i : instr) (s' s : drv) : Prop :=
  chip_of (dbus s') = chip_done i (chip_of (dbus s)) /\ ddev s' = ddev s.

(** The two-byte instructions WCR, BFS and BFC. *)
Lemma write2_run c v i s :
  configured (ddev s) -> decode (bsel (chip_of (dbus s))) [c; v] [] = Some i ->
  exists s', (CS;; Write [c];; Write [v];; ChipDS) s = Ret tt s' /\ v_push i s' s.
Proof.
  intros C Hi. eexists. split.
  - erewrite bind_Ret by (by apply CS_run). erewrite bind_Ret by (by apply Write_run).
    erewrite bind_Ret by (by apply Write_run). by apply ChipDS_run.
  - assert (Hs : shifts [EvTx [v] MAX_TIME_OUT; EvTx [c] MAX_TIME_OUT] [c; v] []).
    { intros x. simpl. by rewrite <- app_assoc, app_nil_r. }
    split; [exact (chip_of_tr _ (dbus s) _ _ i Hs Hi)|done].
Qed.

Lemma decode_write bank k r v :
  (k = 2 \/ k = 4 \/ k = 5) ->
  decode bank [u8 (Z.lor (Z.shiftl k 5) (Z.land 0x1F r)); v] [] =
    Some (match k with 2 => WCR | 4 => BFS | _ => BFC end (reg_at bank (r mod 32)) v).
Proof.
  intros Hk. assert (0 <= k < 8) by lia. unfold decode.
  rewrite cmd_byte, cmd_code, cmd_arg by done.
  destruct Hk as [->|[->| ->]]; reflexivity.
Qed.

Lemma two_bits_cases x : 0 <= x <= 3 -> x = 0 \/ x = 1 \/ x = 2 \/ x = 3.
Proof. lia. Qed.

Lemma land_two_bits x y : 0 <= x <= 3 -> 0 <= Z.land x y <= 3.
Proof.
  intros Hx. assert (Hx3 : Z.land x 3 = x).
  { by destruct (two_bits_cases x Hx) as [->|[->|[->| ->]]]. }
  rewrite <- Hx3, <- Z.land_assoc, (Z.land_comm 3), Z.land_assoc.
  rewrite (Z.land_ones _ 2) by lia. pose proof (Z.mod_pos_bound (Z.land x y) (2 ^ 2)). lia.
Qed.

Lemma lor_two_bits x y : 0 <= x <= 3 -> 0 <= y <= 3 -> 0 <= Z.lor x y <= 3.
Proof.
  intros Hx Hy. destruct (two_bits_cases x Hx) as [->|[->|[->| ->]]],
    (two_bits_cases y Hy) as [->|[->|[->| ->]]]; vm_compute; split; congruence.
Qed.

Lemma bank_after_range b i : 0 <= b <= 3 -> 0 <= bank_after b i <= 3.
Proof.
  intros Hb. assert (Hv : forall v, 0 <= Z.land v 3 <= 3).
  { intros v. rewrite Z.land_comm. by apply land_two_bits. }
  destruct i; simpl; try case_decide; try lia; auto using land_two_bits, lor_two_bits.
Qed.

Lemma view_push i s s' : v_push i s' s -> view_of s' = v_do i (view_of s).
Proof.
  intros [Hc Hd]. unfold view_of, v_do. rewrite Hc, Hd. simpl. f_equal.
  unfold work. rewrite filter_cons. by destruct (bank_select i).
Qed.

Lemma ready_push i s s' : ready s -> v_push i s' s -> ready s'.
Proof.
  intros [C B] [Hc Hd]. split; [by rewrite Hd|]. rewrite Hc. by apply bank_after_range.
Qed.

Lemma wp_write2 c v i Q s :
  ready s -> decode (bsel (chip_of (dbus s))) [c; v] [] = Some i ->
  (forall s', ready s' -> view_of s' = v_do i (view_of s) -> ddev s' = ddev s -> Q tt s') ->
  wp (CS;; Write [c];; Write [v];; ChipDS) Q s.
Proof.
  intros R Hi HQ. destruct (write2_run c v i s (rd_conf _ R) Hi) as (s' & E & P).
  unfold wp. rewrite E. apply HQ; [by eapply ready_push|by apply view_push|apply P].
Qed.

Lemma convert_not_undef r : convertRegValToBank r <> undefBank.
Proof. unfold convertRegValToBank. by repeat case_match. Qed.

Lemma econ1_arg d b : configured d ->
  match b with
  | bank_0 => ECON1 (Bank0.commonRegs (bank0 d))
  | bank_1 => ECON1 (Bank1.commonRegs (bank1 d))
  | bank_2 => ECON1 (Bank2.commonRegs (bank2 d))
  | _ => ECON1 (Bank3.commonRegs (bank3 d))
  end mod 32 = 31.
Proof. intros C. rewrite !cf_bank0, !cf_bank1, !cf_bank2, !cf_bank3 by done. by destruct b. Qed.

Lemma wp_clear_bank e Q s :
  ready s -> e mod 32 = 31 ->
  (forall s', ready s' -> ddev s' = ddev s ->
     view_of s' = View (bnBank (ddev s)) 0 (v_work (view_of s)) (rxPkt (ddev s)) (txPkt (ddev s)) ->
     Q tt s') ->
  wp (CS;; Write [u8 (Z.lor (u8BitFieldClear (opcode (ddev s))) (Z.land 0x1F e))];;
      Write [0x03];; ChipDS) Q s.
Proof.
  intros R He HQ. rewrite (cf_op _ (rd_conf _ R)). eapply wp_write2; [done| |].
  - apply (decode_write _ 5). lia.
  - intros s' R' V' D'. apply HQ; [done..|]. rewrite V', He. unfold v_do. simpl.
    f_equal. by destruct (two_bits_cases _ (rd_bsel _ R)) as [->|[->|[->| ->]]].
Qed.

Lemma wp_set_bank b s Q :
  ready s -> b <> bank_0 -> b <> undefBank -> bsel (chip_of (dbus s)) = 0 ->
  (forall s', ready s' ->
     view_of s' = View b (convertBankToBits b) (v_work (view_of s)) (rxPkt (ddev s)) (txPkt (ddev s)) ->
     Q tt s') ->
  wp (CS;; Write [u8 (Z.lor (u8BitFieldSet (opcode (ddev s)))
                       (Z.land 0x1F (ECON1 (Bank0.commonRegs (bank0 (ddev s))))))];;
      Write [convertBankToBits b];; ChipDS;; upd_dev (set_bnBank b)) Q s.
Proof.
  intros R H0 Hu Hz HQ. pose proof (rd_conf _ R) as C. apply wp_block4.
  rewrite (cf_op _ C), (cf_bank0 _ C). eapply wp_write2; [done| |].
  - apply (decode_write _ 4). lia.
  - intros s' R' V' D'. unfold wp, upd_dev, modify. apply HQ.
    + destruct R' as [C' B']. split; [by apply configured_set_bnBank|done].
    + injection V' as V1 V2 V3 V4 V5. unfold view_of. simpl.
      rewrite V2, V3, V4, V5, Hz. by destruct b.
Qed.

(** A bank change clears the bits, then sets them unless they are zero; only
    in the second case does the driver record the new bank. *)
Lemma wp_bankChange b Q s :
  ready s -> b <> undefBank -> b <> bnBank (ddev s) ->
  (forall s', ready s' -> view_of s' = v_select b (view_of s) -> Q tt s') ->
  wp (enc28j60_bankChange b) Q s.
Proof.
  intros R Hb Hne HQ. pose proof (rd_conf _ R) as C.
  unfold enc28j60_bankChange. apply wp_bind, wp_gets.
  assert (Hrest : forall e, e mod 32 = 31 ->
    wp (CS;; Write [u8 (Z.lor (u8BitFieldClear (opcode (ddev s))) (Z.land 0x1F e))];;
        Write [0x03];; ChipDS;;
        when (negb (convertBankToBits b =? 0) && (convertBankToBits b <=? 3))
          (CS;; Write [u8 (Z.lor (u8BitFieldSet (opcode (ddev s)))
             (Z.land 0x1F (ECON1 (Bank0.commonRegs (bank0 (ddev s))))))];;
           Write [convertBankToBits b];; ChipDS;; upd_dev (set_bnBank b))) Q s).
  { intros e He. apply wp_block4, wp_clear_bank; [done..|]. intros s' R' D' V'.
    assert (Hv : v_select b (view_of s) = View (if decide (b = bank_0) then bnBank (ddev s) else b)
      (convertBankToBits b) (v_work (view_of s)) (rxPkt (ddev s)) (txPkt (ddev s))).
    { unfold v_select. simpl. by rewrite decide_False. }
    injection V' as V1 V2 V3 V4 V5. rewrite <- D'.
    destruct (decide (b = bank_0)) as [->|Hb0].
    - apply wp_ret, HQ; [done|]. rewrite Hv. unfold view_of. by rewrite V1, V2, V3, V4, V5.
    - replace (_ && _) with true by (by destruct b).
      apply wp_set_bank; [done..|]. intros s'' R'' V''. apply HQ; [done|].
      rewrite V'', Hv. simpl. by rewrite V3, V4, V5. }
  pose proof (econ1_arg _ (bnBank (ddev s)) C) as He. pose proof (cf_bank _ C).
  destruct (bnBank (ddev s)); try done; by apply Hrest.
Qed.

Lemma wp_select r Q s :
  ready s -> (forall s', ready s' -> view_of s' = v_select (convertRegValToBank r) (view_of s) -> Q tt s') ->
  wp (select_bank r) Q s.
Proof.
  intros R HQ. unfold select_bank. apply wp_bind, wp_gets.
  case_bool_decide as Hne; simpl.
  - apply wp_bankChange; auto using convert_not_undef.
  - apply wp_ret, HQ; [done|]. unfold v_select. rewrite decide_True; [done|].
    by destruct (decide (convertRegValToBank r = bnBank (ddev s))).
Qed.

(** ** Register accesses *)

Lemma wp_access opf k (f : reg -> instr) r v Q s :
  ready s -> opf dev_opcode = Z.shiftl k 5 ->
  (forall bank, decode bank [u8 (Z.lor (Z.shiftl k 5) (Z.land 0x1F r)); v] [] =
     Some (f (reg_at bank (r mod 32)))) ->
  (forall s', ready s' -> view_of s' = v_access f r (view_of s) -> Q tt s') ->
  wp (select_bank r;; d ← gets ddev;
      CS;; Write [u8 (Z.lor (opf (opcode d)) (Z.land 0x1F r))];; Write [v];; ChipDS) Q s.
Proof.
  intros R Ho Hd HQ. apply wp_bind, wp_select; [done|]. intros s1 R1 V1.
  apply wp_bind, wp_gets. rewrite (cf_op _ (rd_conf _ R1)), Ho.
  eapply wp_write2; [done|apply Hd|]. intros s2 R2 V2 _. apply HQ; [done|].
  by rewrite V2; unfold v_access; rewrite <- V1.
Qed.

Lemma wp_writeReg r v Q s :
  ready s -> (forall s', ready s' -> view_of s' = v_access (fun g => WCR g v) r (view_of s) -> Q tt s') ->
  wp (enc28j60_writeReg r v) Q s.
Proof.
  intros R. apply (wp_access u8writeControlRegister 2); [done..|].
  intros bank. apply (decode_write bank 2). lia.
Qed.

Lemma wp_BitFieldSet r v Q s :
  ready s -> (forall s', ready s' -> view_of s' = v_access (fun g => BFS g v) r (view_of s) -> Q tt s') ->
  wp (enc28j60_BitFieldSet r v) Q s.
Proof.
  intros R. apply (wp_access u8BitFieldSet 4); [done..|].
  intros bank. apply (decode_write bank 4). lia.
Qed.

Lemma wp_BitFieldClear r v Q s :
  ready s -> (forall s', ready s' -> view_of s' = v_access (fun g => BFC g v) r (view_of s) -> Q tt s') ->
  wp (enc28j60_BitFieldClear r v) Q s.
Proof.
  intros R. apply (wp_access u8BitFieldClear 5); [done..|].
  intros bank. apply (decode_write bank 5). lia.
Qed.

(** The value a register read returns: the last byte shifted out, if any. *)
Definition got_value (got : list Z) (a : Z) : Prop := forall x, last got = Some x -> a = x.

Lemma wp_Read1 x Q s : configured (ddev s) ->
  (forall a got, shifted 1 got -> a = nth 0 (got ++ [x]) 0 -> got = rx_bytes (dbus s) 1 ->
     Q a (push (rx_event (dbus s) 1) s)) ->
  wp (Read1 x) Q s.
Proof.
  intros C HQ. unfold Read1. apply wp_bind, wp_Read; [done|]. intros c. apply wp_ret.
  pose proof (rx_bytes_shifted (dbus s) 1 ltac:(lia)) as Hl.
  apply (HQ _ (rx_bytes (dbus s) 1)); [done| |done]. destruct Hl as [[Hl _] _].
  unfold store. destruct (rx_bytes (dbus s) 1) as [|y [|z l]]; [done|done|simpl in Hl; lia].
Qed.

Lemma shifts_rx b n : shifts [rx_event b n] [] (rx_bytes b n).
Proof. intros c. simpl. by rewrite app_nil_r. Qed.

Lemma shifts_tx bs t : shifts [EvTx bs t] bs [].
Proof. intros c. simpl. by rewrite app_nil_r. Qed.

Lemma shifts_app mid1 mid2 mo1 mi1 mo2 mi2 :
  shifts mid1 mo1 mi1 -> shifts mid2 mo2 mi2 -> shifts (mid2 ++ mid1) (mo1 ++ mo2) (mi1 ++ mi2).
Proof. intros H1 H2 c. rewrite foldr_app, H1, H2. simpl. by rewrite !app_assoc. Qed.

Lemma shifts_log l f a : shifts [EvLog l f a] [] [].
Proof. intros c. simpl. destruct c. by rewrite !app_nil_r. Qed.

Lemma decode_read bank r got :
  decode bank [u8 (Z.lor (Z.shiftl 0 5) (Z.land 0x1F r))] got = Some (RCR (reg_at bank (r mod 32)) got).
Proof. unfold decode. rewrite cmd_byte, cmd_code, cmd_arg by lia. reflexivity. Qed.

(** [readEtherReg] clocks one byte, [readMacMIIReg] two. *)
Lemma wp_readEtherReg r Q s :
  ready s ->
  (forall a got s', ready s' -> got_value got a -> shifted 1 got ->
     view_of s' = v_access (fun g => RCR g got) r (view_of s) -> Q a s') ->
  wp (enc28j60_readEtherReg r) Q s.
Proof.
  intros R HQ. unfold enc28j60_readEtherReg. apply wp_bind, wp_select; [done|]. intros s1 R1 V1.
  pose proof (rd_conf _ R1) as C1. apply wp_bind, wp_gets. rewrite (cf_op _ C1).
  apply wp_bind, wp_gets, wp_bind, wp_CS, wp_bind, wp_Write, wp_bind, wp_Read1; [done..|].
  intros a got L A G. apply wp_bind, wp_ChipDS, wp_ret; [done|].
  match goal with |- Q a ?s' => set (s2 := s') end.
  assert (P : v_push (RCR (reg_at (bsel (chip_of (dbus s1))) (r mod 32)) got) s2 s1).
  { split; [|done]. eapply (chip_of_tr ([_] ++ [_]) (dbus s1) ([_] ++ []) ([] ++ got));
      [apply shifts_app; [apply shifts_tx|rewrite G; apply shifts_rx]|]. apply (decode_read _ r). }
  apply (HQ a got); [by eapply ready_push| |done|].
  - intros x Hx. rewrite A. destruct L as [[L _] _].
    destruct got as [|y [|z l]]; [done|by injection Hx|simpl in L; lia].
  - by rewrite (view_push _ _ _ P); unfold v_access; rewrite <- V1.
Qed.

Lemma wp_readMacMIIReg r Q s :
  ready s ->
  (forall a got s', ready s' -> got_value got a -> shifted 2 got ->
     view_of s' = v_access (fun g => RCR g got) r (view_of s) -> Q a s') ->
  wp (enc28j60_readMacMIIReg r) Q s.
Proof.
  intros R HQ. unfold enc28j60_readMacMIIReg. apply wp_bind, wp_select; [done|]. intros s1 R1 V1.
  pose proof (rd_conf _ R1) as C1. apply wp_bind, wp_gets. rewrite (cf_op _ C1).
  apply wp_bind, wp_gets, wp_bind, wp_CS, wp_bind, wp_Write, wp_bind, wp_Read1; [done..|].
  intros a got L A G. apply wp_bind, wp_Read1; [done|]. intros a' got' L' A' G'.
  apply wp_bind, wp_ChipDS, wp_ret; [done|].
  match goal with |- Q a' ?s' => set (s2 := s') end.
  assert (P : v_push (RCR (reg_at (bsel (chip_of (dbus s1))) (r mod 32)) (got ++ got')) s2 s1).
  { split; [|done]. eapply (chip_of_tr ([_] ++ ([_] ++ [_])) (dbus s1) (([_] ++ []) ++ []) (([] ++ got) ++ got'));
      [|apply (decode_read _ r)]. apply shifts_app; [|rewrite G'; apply shifts_rx].
    apply shifts_app; [apply shifts_tx|rewrite G; apply shifts_rx]. }
  apply (HQ a' (got ++ got')); [by eapply ready_push| |by apply (shifted_app 1 1)|].
  - intros x Hx. rewrite A', A. destruct L as [[L _] _], L' as [[L' _] _]. destruct got as [|y [|z l]], got' as [|y' [|z' l']];
      simpl in *; try done; try lia; by injection Hx.
  - by rewrite (view_push _ _ _ P); unfold v_access; rewrite <- V1.
Qed.

(** ** Registers of bank 0

    They are always reached: a bank change to bank 0 clears the chip's bank
    bits even though the driver does not record it. *)

Definition coherent0 (v : view) : Prop := v_shadow v = bank_0 -> v_bank v = 0.

Definition plain (i : instr) : Prop := bank_select i = false /\ bank_after 0 i = 0.

Definition v_zero (i : instr) (v : view) : view :=
  View (v_shadow v) 0 (i :: v_work v) (v_rx v) (v_tx v).

Lemma v_access_zero f r v :
  coherent0 v -> convertRegValToBank r = bank_0 -> plain (f (reg_at 0 (r mod 32))) ->
  v_access f r v = v_zero (f (reg_at 0 (r mod 32))) v.
Proof.
  intros Hc Hr [Hp1 Hp2]. unfold v_access, v_select. rewrite Hr. case_decide as Hd.
  - rewrite Hc by done. unfold v_do. rewrite Hc, Hp1, Hp2 by done. done.
  - cbn [v_bank v_shadow v_work v_rx v_tx]. rewrite decide_True by done.
    change (convertBankToBits bank_0) with 0. unfold v_do.
    cbn [v_bank v_shadow v_work v_rx v_tx]. by rewrite Hp1, Hp2.
Qed.

Lemma coherent0_zero i v : coherent0 (v_zero i v).
Proof. done. Qed.

Lemma wp_write0 r v Q s :
  ready s -> coherent0 (view_of s) -> convertRegValToBank r = bank_0 -> r mod 32 <> 31 ->
  (forall s', ready s' -> view_of s' = v_zero (WCR (reg_at 0 (r mod 32)) v) (view_of s) -> Q tt s') ->
  wp (enc28j60_writeReg r v) Q s.
Proof.
  intros R Hc Hr H31 HQ. apply wp_writeReg; [done|]. intros s' R' V'. apply HQ; [done|].
  rewrite V'. apply (v_access_zero (fun g => WCR g v)); [done..|]. split; [done|]. simpl.
  rewrite decide_False; [done|]. unfold reg_at, reg_ECON1. case_match; congruence.
Qed.

Lemma wp_set0 r v Q s :
  ready s -> coherent0 (view_of s) -> convertRegValToBank r = bank_0 ->
  plain (BFS (reg_at 0 (r mod 32)) v) ->
  (forall s', ready s' -> view_of s' = v_zero (BFS (reg_at 0 (r mod 32)) v) (view_of s) -> Q tt s') ->
  wp (enc28j60_BitFieldSet r v) Q s.
Proof.
  intros R Hc Hr Hp HQ. apply wp_BitFieldSet; [done|]. intros s' R' V'. apply HQ; [done|].
  rewrite V'. by apply (v_access_zero (fun g => BFS g v)).
Qed.

Lemma wp_clear0 r v Q s :
  ready s -> coherent0 (view_of s) -> convertRegValToBank r = bank_0 ->
  plain (BFC (reg_at 0 (r mod 32)) v) ->
  (forall s', ready s' -> view_of s' = v_zero (BFC (reg_at 0 (r mod 32)) v) (view_of s) -> Q tt s') ->
  wp (enc28j60_BitFieldClear r v) Q s.
Proof.
  intros R Hc Hr Hp HQ. apply wp_BitFieldClear; [done|]. intros s' R' V'. apply HQ; [done|].
  rewrite V'. by apply (v_access_zero (fun g => BFC g v)).
Qed.

(** The object as [main] sets it up, before any bus traffic. *)
Definition started : drv :=
  {| dbus := []; ddev := set_pointers std_spi None (Some delayMsFunction) dev |}.

Lemma ready_started : ready started.
Proof. split; [by split|]. simpl. lia. Qed.

Lemma started_initDr :
  enc28j60_initDr (Some spi1ChipSelect) (Some spi1ChipDeSelect) (Some spi1Read) (Some spi1Write)
    None (Some delayMsFunction) {| dbus := []; ddev := dev |} = Ret tt started.
Proof. reflexivity. Qed.
End Facts.

(** One bank-0 access at the head of a sequence of the driver: [C] is the
    [configured] fact of the object the registers are read from. *)
Tactic Notation "zero_access" constr(C) constr(rule) "as" ident(s) ident(R) ident(V) :=
  rewrite ?(cf_bank0 _ C); apply wp_bind; eapply rule;
  [assumption
  |first [assumption | match goal with W : view_of ?x = _ |- coherent0 (view_of ?x) =>
     rewrite W; first [apply coherent0_zero | by intros ?] end]
  |reflexivity
  |first [done | split; reflexivity | vm_compute; congruence]
  |intros s R V].

(** A device that answers every read with the same byte; for examples. *)
Definition constant_slave (v : Z) : SpiSlave :=
  {| rx_reply := fun _ n => (HAL_OK, replicate (Z.to_nat n) v); indeterminate := fun _ => 0 |}.

(** A device that answers from a script, byte by byte, then zeros; for examples. *)
Definition rx_count (b : bus) : nat :=
  foldr (fun e n => match e with EvRx _ _ _ bs => (length bs + n)%nat | _ => n end) O b.
Definition script_slave (l : list Z) : SpiSlave :=
  {| rx_reply := fun b n => (HAL_OK, resize (Z.to_nat n) 0 (drop (rx_count b) l));
     indeterminate := fun _ => 0 |}.

Lemma script_slave_full l : Forall byte l -> FullReplies (H := script_slave l).
Proof.
  intros Hl b n Hn. simpl. rewrite length_resize. split; [lia|].
  apply Forall_resize; [by split|by apply Forall_drop].
Qed.

(** A device that answers a read of a control register with [f] of it. *)
Definition register_slave (f : reg -> Z) : SpiSlave :=
  {| rx_reply := fun b n =>
       let c := chip_of b in
       let v := match mosi c with op :: _ => f (reg_at (bsel c) (Z.land op 31)) | [] => 0 end in
       (HAL_OK, replicate (Z.to_nat n) v);
     indeterminate := fun _ => 0 |}.
