(* ===== verification/Transfer.v ===== *)
(** Frame transfer: what [enc28j60_etherTransmit] makes the chip send, and
    what [enc28j60_etherReceive] leaves in the driver object and in the chip's
    read pointers. *)
From S2P Require Import Prelude Bus Regs Driver Chip DriverFacts.

(** ** Transmission *)

(** The instructions of a transmission, in order. *)
Definition tx_program (data : list Z) (nd : Z) : list instr := [
  WCR reg_EWRPTL 0x00; WCR reg_EWRPTH 0x18;
  WCR reg_ETXSTL 0x00; WCR reg_ETXSTH 0x18;
  WBM (0x00 :: data);
  WCR reg_ETXNDL (u8 nd); WCR reg_ETXNDH (u8 (Z.shiftr nd 8));
  BFC reg_EIR 0x08; BFS reg_EIE 0x08; BFS reg_EIE 0x80; BFS reg_ECON1 0x08
].

Section Transfer.
Context `{SpiSlave}.

Lemma wp_bytes_at mem n (Q : list Z -> drv -> Prop) s :
  n <= Z.of_nat (length mem) -> Q (take (Z.to_nat n) mem) s -> wp (bytes_at mem n) Q s.
Proof.
  intros Hn HQ. unfold bytes_at. destruct (Z.ltb_spec (Z.of_nat (length mem)) n); [lia|done].
Qed.

Lemma wp_upd_dev f (Q : unit -> drv -> Prop) s :
  Q tt {| dbus := dbus s; ddev := f (ddev s) |} -> wp (upd_dev f) Q s.
Proof. done. Qed.

(** A buffer write: select, opcode, two chunks of bytes, deselect. *)
Lemma chip_wbm b c bs1 bs2 t :
  c = 0x7A ->
  chip_of (tr_bus ([EvTx bs2 t] ++ [EvTx bs1 t] ++ [EvTx [c] t]) b) =
    chip_done (WBM (bs1 ++ bs2)) (chip_of b).
Proof.
  intros ->. eapply (chip_of_tr _ b (([0x7A] ++ bs1) ++ bs2) (([] ++ []) ++ [])).
  - apply (shifts_app ([EvTx bs1 t] ++ [EvTx [0x7A] t])); [|apply shifts_tx].
    apply shifts_app; apply shifts_tx.
  - simpl. by rewrite app_nil_r || done.
Qed.

Lemma etherTransmit_wp data length s :
  ready s -> coherent0 (view_of s) -> length <= Z.of_nat (List.length data) ->
  wp (enc28j60_etherTransmit data length) (fun ok s' => ok = true /\ ready s' /\
    view_of s' = View (v_shadow (view_of s)) 0
      (reverse (tx_program (take (Z.to_nat length) data) (u16 (0x1800 + length))) ++ v_work (view_of s))
      (v_rx (view_of s)) (tx_set_len (u16 (0x1800 + length)) (v_tx (view_of s)))) s.
Proof.
  intros R Hc Hl. pose proof (rd_conf _ R) as C.
  unfold enc28j60_etherTransmit. apply wp_bind, wp_gets. rewrite (cf_txst _ C).
  zero_access C @wp_write0 as s0 R0 V0. zero_access C @wp_write0 as s1 R1 V1.
  zero_access C @wp_write0 as s2 R2 V2. zero_access C @wp_write0 as s3 R3 V3.
  pose proof (rd_conf _ R3) as C3. rewrite (cf_op _ C).
  apply wp_bind, wp_CS, wp_bind, wp_Write, wp_bind, wp_upd_dev, wp_bind, wp_Write;
    [by try apply configured_set_packets..|].
  apply wp_bind, wp_bytes_at, wp_bind, wp_Write, wp_bind, wp_ChipDS, wp_bind, wp_gets;
    [done|by apply configured_set_packets..|].
  match goal with |- wp _ _ ?s' => set (s4 := s') end.
  assert (P : chip_of (dbus s4) = chip_done (WBM (0 :: take (Z.to_nat length) data)) (chip_of (dbus s3)))
    by (apply chip_wbm; reflexivity).
  assert (V4 : view_of s4 = View (v_shadow (view_of s)) 0
    (WBM (0 :: take (Z.to_nat length) data) :: v_work (view_of s3)) (v_rx (view_of s))
    (tx_set_len (u16 (0x1800 + length)) (v_tx (view_of s)))).
  { rewrite V2, V1, V0 in V3. injection V3 as E1 E2 E3 E4 E5.
    unfold view_of at 1. rewrite P. simpl. by rewrite E1, E2, E4, E5. }
  assert (R4 : ready s4).
  { split; [by apply configured_set_packets|]. rewrite P. apply bank_after_range, (rd_bsel _ R3). }
  assert (Hc4 : coherent0 (view_of s4)) by (by rewrite V4).
  change (txPktLen (txPkt (ddev s4))) with (u16 (0x1800 + length)).
  zero_access C @wp_write0 as s5 R5 V5. zero_access C @wp_write0 as s6 R6 V6.
  zero_access C @wp_clear0 as s7 R7 V7. zero_access C @wp_set0 as s8 R8 V8.
  zero_access C @wp_set0 as s9 R9 V9. zero_access C @wp_set0 as s10 R10 V10.
  apply wp_ret. split_and!; [done..|].
  rewrite V10, V9, V8, V7, V6, V5, V4, V3, V2, V1, V0. unfold v_zero.
  cbn [v_shadow v_work v_rx v_tx]. f_equal. by rewrite land_255, u8_idemp.
Qed.
End Transfer.

(** ** The buffer memory after a transmission *)

Lemma ptr_val_split a m : 0 <= a < 65536 ->
  ptr_val (set_reg reg_EWRPTH (a / 256) (set_reg reg_EWRPTL (a mod 256) m)) reg_EWRPTL reg_EWRPTH = a.
Proof.
  intros Ha. unfold ptr_val, reg_val, set_reg. cbn [regs].
  rewrite lookup_insert_eq, lookup_insert_ne, lookup_insert_eq by done. simpl.
  pose proof (Z.div_mod a 256). lia.
Qed.

Lemma write_byte_autoinc b m a :
  ptr_val m reg_EWRPTL reg_EWRPTH = a -> AUTOINC m = true -> 0 <= a < 8191 ->
  ptr_val (write_byte b m) reg_EWRPTL reg_EWRPTH = a + 1 /\
  ram (write_byte b m) = <[a := b]> (ram m) /\
  (forall r, r <> reg_EWRPTL -> r <> reg_EWRPTH -> regs (write_byte b m) !! r = regs m !! r).
Proof.
  intros Hp Hai Ha. unfold write_byte. rewrite Hp.
  change (AUTOINC {| regs := regs m; ram := <[a:=b]> (ram m) |}) with (AUTOINC m).
  rewrite Hai, Z.mod_small by lia. split; [apply ptr_val_split; lia|]. split; [done|].
  intros r H1 H2. simpl. by rewrite !lookup_insert_ne by done.
Qed.

Lemma AUTOINC_write_byte b m a :
  ptr_val m reg_EWRPTL reg_EWRPTH = a -> AUTOINC m = true -> 0 <= a < 8191 ->
  AUTOINC (write_byte b m) = true.
Proof.
  intros Hp Hai Ha. destruct (write_byte_autoinc b m a Hp Hai Ha) as (_ & _ & Hr).
  unfold AUTOINC, reg_val. rewrite Hr by done. exact Hai.
Qed.

Lemma write_bytes bs : forall m a,
  ptr_val m reg_EWRPTL reg_EWRPTH = a -> AUTOINC m = true -> 0 <= a ->
  a + Z.of_nat (length bs) < 8192 ->
  (forall k, ram (foldl (fun m b => write_byte b m) m bs) !! k =
     if decide (a <= k < a + Z.of_nat (length bs)) then bs !! Z.to_nat (k - a) else ram m !! k) /\
  (forall r, r <> reg_EWRPTL -> r <> reg_EWRPTH ->
     regs (foldl (fun m b => write_byte b m) m bs) !! r = regs m !! r).
Proof.
  induction bs as [|b bs IH]; intros m a Hp Hai Ha Hl.
  { split; [|done]. intros k. rewrite decide_False; [done|simpl; lia]. }
  simpl length in *. cbn [foldl].
  destruct (write_byte_autoinc b m a) as (Hp1 & Hr1 & Hq1); [done..|lia|].
  destruct (IH (write_byte b m) (a + 1)) as [IH1 IH2]; [done| |lia|lia|].
  { by apply (AUTOINC_write_byte b m a); [..|lia]. }
  split.
  - intros k. rewrite IH1, Hr1. destruct (decide (k = a)) as [->|Hk].
    + rewrite decide_False by lia. rewrite decide_True by lia.
      by rewrite lookup_insert_eq, Z.sub_diag.
    + rewrite lookup_insert_ne by done. do 2 case_decide; try lia; [|done].
      replace (Z.to_nat (k - a)) with (S (Z.to_nat (k - (a + 1)))) by lia. done.
  - intros r H1 H2. rewrite IH2 by done. by apply Hq1.
Qed.

Lemma tx_program_frame fr m :
  AUTOINC m = true -> Z.of_nat (length fr) < 2047 ->
  exists m', exec_all (tx_program fr (0x1800 + Z.of_nat (length fr))) m = Some m' /\
    frame_to_send m' = Some <$> fr /\ ram m' !! 0x1800 = Some 0 /\
    Z.testbit (reg_val m' reg_ECON1) 3 = true /\ Z.testbit (reg_val m' reg_EIR) 3 = false.
Proof.
  intros Hai Hl. set (nd := 0x1800 + Z.of_nat (length fr)).
  unfold tx_program. cbn [exec_all exec mbind option_bind].
  set (m4 := set_reg reg_ETXSTH _ _).
  destruct (write_bytes (0 :: fr) m4 0x1800) as [Hram Hregs]; [| |lia|simpl; lia|].
  { unfold ptr_val, m4. by rewrite !reg_val_set. }
  { unfold AUTOINC, m4. by rewrite !reg_val_set. }
  set (m5 := foldl _ m4 (0 :: fr)) in *.
  assert (Hst : ptr_val m5 reg_ETXSTL reg_ETXSTH = 0x1800).
  { assert (Hr : forall r, r <> reg_EWRPTL -> r <> reg_EWRPTH -> reg_val m5 r = reg_val m4 r).
    { intros r H1 H2. unfold reg_val. by rewrite Hregs. }
    unfold ptr_val. rewrite !Hr by done. unfold m4. by rewrite !reg_val_set. }
  eexists. split; [reflexivity|]. split_and!.
  - unfold frame_to_send. cbn [ram set_reg].
    match goal with |- context [ptr_val ?M reg_ETXSTL _] => set (m' := M) end.
    assert (E1 : ptr_val m' reg_ETXSTL reg_ETXSTH = 0x1800).
    { unfold ptr_val, m'. rewrite !reg_val_set. exact Hst. }
    assert (E2 : ptr_val m' reg_ETXNDL reg_ETXNDH = nd).
    { unfold ptr_val, m'. rewrite !reg_val_set. simpl.
      rewrite shiftr_8. unfold u8, nd. Z.div_mod_to_equations. lia. }
    rewrite E1, E2. apply list_eq. intros i. rewrite !list_lookup_fmap.
    destruct (decide (i < length fr)%nat) as [Hi|Hi].
    + rewrite lookup_seqZ_lt by lia. simpl. rewrite Hram, decide_True by (simpl; lia).
      replace (Z.to_nat (_ - _)) with (S i) by lia. simpl.
      destruct (lookup_lt_is_Some_2 fr i Hi) as [x Hx]. by rewrite Hx.
    + rewrite lookup_seqZ_ge by lia. rewrite (lookup_ge_None_2 fr) by lia. done.
  - cbn [ram set_reg]. rewrite Hram. by rewrite decide_True by (simpl; lia).
  - rewrite reg_val_set, decide_True by done. rewrite Z.lor_spec. apply orb_true_r.
  - do 3 rewrite reg_val_set, decide_False by done. rewrite reg_val_set, decide_True by done.
    rewrite Z.land_spec. apply andb_false_r.
Qed.

(** [enc28j60_etherTransmit] makes the chip send exactly the caller's
    bytes.  Whatever the chip answers, from a configured driver whose bank-0
    accesses reach bank 0, the call returns true and its instructions leave
    the chip with: the per-packet control byte 0 at ETXST, the frame in the
    buffer from ETXST+1 to ETXND, the transmit interrupt flag cleared, and the
    transmission requested (ECON1.TXRTS). *)
Theorem etherTransmit_sends `{SpiSlave} s data length m :
  ready s -> coherent0 (view_of s) -> 0 <= length < 2047 ->
  length <= Z.of_nat (List.length data) -> AUTOINC m = true ->
  exists s' prog m',
    enc28j60_etherTransmit data length s = Ret true s' /\
    v_work (view_of s') = reverse prog ++ v_work (view_of s) /\
    exec_all prog m = Some m' /\
    frame_to_send m' = Some <$> take (Z.to_nat length) data /\
    ram m' !! 0x1800 = Some 0 /\
    Z.testbit (reg_val m' reg_EIR) 3 = false /\
    Z.testbit (reg_val m' reg_ECON1) 3 = true.
Proof.
  intros R Hc Hl Hd Hai.
  destruct (wp_elim _ _ _ (etherTransmit_wp data length s R Hc Hd)) as (ok & s' & E & -> & _ & V).
  assert (Hlen : Z.of_nat (List.length (take (Z.to_nat length) data)) = length).
  { rewrite length_take. lia. }
  destruct (tx_program_frame (take (Z.to_nat length) data) m) as (m' & E1 & E2 & E3 & E4 & E5);
    [done|lia|].
  rewrite Hlen in E1. rewrite (u16_small (0x1800 + length)) in V by lia.
  exists s', (tx_program (take (Z.to_nat length) data) (0x1800 + length)), m'.
  rewrite V. done.
Qed.

Lemma etherTransmit_sends_witness :
  exists s' prog m',
    enc28j60_etherTransmit [0xAA; 0xBB; 0xCC] 2 (started (H := constant_slave 0))
      = Ret true s' /\
    v_work (view_of s') = reverse prog ++ [] /\
    exec_all prog {| regs := {[reg_ECON2 := 0x80]}; ram := ∅ |} = Some m' /\
    frame_to_send m' = [Some 0xAA; Some 0xBB] /\
    ram m' !! 0x1800 = Some 0 /\
    Z.testbit (reg_val m' reg_EIR) 3 = false /\
    Z.testbit (reg_val m' reg_ECON1) 3 = true.
Proof.
  exact (@etherTransmit_sends (constant_slave 0) (started (H := constant_slave 0)) [0xAA; 0xBB; 0xCC] 2
    {| regs := {[reg_ECON2 := 0x80]}; ram := ∅ |}
    (ready_started (H := constant_slave 0)) (fun _ => eq_refl)
    ltac:(lia) ltac:(simpl; lia) eq_refl).
Defined.
