(* ===== verification/Receive.v ===== *)
(** Frame reception: what [enc28j60_etherReceive] leaves in the driver object
    and in the chip's read pointers, for every answer of the chip. *)
From S2P Require Import Prelude Bus Regs Driver Chip DriverFacts Transfer.

(** ** Specification *)

(** The packet structure after the next-packet pointer [hdr] and the status
    vector [stat] have been read into it. *)
Definition rx_header (hdr stat : list Z) (r : rx_packet) : rx_packet :=
  let nxt := store (nxtPktAddr r) hdr in
  let st := store (rxStatVect r) stat in
  {| nxtPktAddr := nxt; rxStatVect := st; rxPktLen := pair16 st 0; rx_data := rx_data r;
     ptrAddr := pair16 nxt 0 |}.

Definition rx_accepted (r : rx_packet) : bool := rxPktLen r <? 1518.

(** The packet structure the payload is then read into. *)
Definition rx_checked (r : rx_packet) : rx_packet := if rx_accepted r then r else rx_set_len 0 r.

(** Outcome [ok] from view [v] to view [v'], when the chip shifted out [hdr],
    [stat] and [body]; [d1] is the driver object after the payload is stored. *)
Record rx_outcome `{SpiSlave} (v : view) (ok : bool) (hdr stat body : list Z) (d1 : enc28j60Drv)
    (v' : view) : Prop := {
  ro_hdr : shifted 2 hdr;
  ro_stat : shifted 4 stat;
  ro_ok : ok = rx_accepted (rx_header hdr stat (v_rx v));
  ro_body : shifted (rxPktLen (rx_checked (rx_header hdr stat (v_rx v)))) body;
  ro_dev : exists d0, configured d0 /\ rxPkt d0 = rx_checked (rx_header hdr stat (v_rx v)) /\
             txPkt d0 = v_tx v /\ d1 = store_rx_data body d0;
  ro_view : v' = View (v_shadow v) 0
    (WCR reg_ERXRDPTH (u8 (Z.shiftr (lock_value d1) 8)) ::
     WCR reg_ERXRDPTL (u8 (lock_value d1)) ::
     RBM (hdr ++ stat ++ body) ::
     WCR reg_ERDPTH (u8ValHi (ptrAddr (v_rx v))) ::
     WCR reg_ERDPTL (u8ValLo (ptrAddr (v_rx v))) :: v_work v) (rxPkt d1) (txPkt d1)
}.

Section Receive.
Context `{SpiSlave}.

(** Steps that only log and update the object. *)
Definition quiet (f : enc28j60Drv -> enc28j60Drv) (s s' : drv) : Prop :=
  exists mid, dbus s' = mid ++ dbus s /\ shifts mid [] [] /\ ddev s' = f (ddev s).

Lemma shifts_nil : shifts [] [] [].
Proof. intros []. simpl. by rewrite !app_nil_r. Qed.

Lemma quiet_refl s : quiet id s s.
Proof. exists []. split_and!; [done|apply shifts_nil|done]. Qed.

Lemma quiet_log l f a g s s' : quiet g (push (EvLog l f a) s) s' -> quiet g s s'.
Proof.
  intros (mid & E & Sh & D). exists (mid ++ [EvLog l f a]). split_and!; [|by apply (shifts_app _ _ [] [] [] []); [apply shifts_log|]|done].
  by rewrite E, <- app_assoc.
Qed.

Lemma wp_log_each {A} (l : list A) (f : A -> M drv unit) Q s :
  (forall a Q s, (forall s', quiet id s s' -> Q tt s') -> wp (f a) Q s) ->
  (forall s', quiet id s s' -> Q tt s') -> wp (for_each l f) Q s.
Proof.
  intros Hf. revert s. induction l as [|a l IH]; intros s HQ; simpl.
  - apply wp_ret, HQ, quiet_refl.
  - apply wp_bind, Hf. intros s1 (m1 & E1 & S1 & D1). apply IH. intros s2 (m2 & E2 & S2 & D2).
    apply HQ. exists (m2 ++ m1). split_and!; [by rewrite E2, E1, app_assoc|by apply (shifts_app _ _ [] [] [] [])|].
    by rewrite D2, D1.
Qed.

Lemma wp_quiet_Log l f a Q s : (forall s', quiet id s s' -> Q tt s') -> wp (Log l f a) Q s.
Proof. intros HQ. apply wp_Log, HQ. eapply quiet_log, quiet_refl. Qed.

Lemma wp_log_rx_flags fl Q s : (forall s', quiet id s s' -> Q tt s') -> wp (log_rx_flags fl) Q s.
Proof.
  intros HQ. apply wp_log_each; [|done]. clear. intros i Q s HQ. unfold when.
  destruct (has fl (bit i)); [|apply wp_ret, HQ, quiet_refl].
  apply wp_log_each; [|done]. intros [l m] Q' s' HQ'. by apply wp_quiet_Log.
Qed.

Lemma wp_check_length Q s :
  (forall s', quiet (fun d => set_packets (rx_checked (rxPkt d)) (txPkt d) d) s s' ->
     Q (rx_accepted (rxPkt (ddev s))) s') ->
  wp check_length Q s.
Proof.
  intros HQ. unfold check_length. apply wp_bind, wp_gets.
  unfold rx_accepted, rx_checked in *. destruct (Z.leb_spec 1518 (rxPktLen (rxPkt (ddev s)))).
  - rewrite (proj2 (Z.ltb_ge _ _)) in HQ by lia.
    apply wp_bind, wp_log_each; [intros; by apply wp_quiet_Log|].
    intros s1 (m1 & E1 & S1 & D1). apply wp_bind, wp_Log, wp_bind, wp_upd_dev, wp_ret, HQ.
    exists (EvLog DEBUG_ERROR "Packet length is probably the result of (0 - 4) which is wrong 0\r\n" [] :: m1).
    cbn [dbus ddev push]. split_and!; [by rewrite E1| |by rewrite D1; unfold rx_accepted;
      rewrite (proj2 (Z.ltb_ge _ _)) by lia].
    apply (shifts_app m1 [_] [] [] [] []); [done|apply shifts_log].
  - rewrite (proj2 (Z.ltb_lt _ _)) in HQ by lia. apply wp_ret, HQ.
    exists []. split_and!; [done|apply shifts_nil|]. unfold rx_accepted.
    rewrite (proj2 (Z.ltb_lt _ _)) by lia. by destruct (ddev s).
Qed.

Lemma wp_read_header Q s :
  configured (ddev s) ->
  (forall hdr stat mid s', shifted 2 hdr -> shifted 4 stat ->
     dbus s' = mid ++ dbus s -> shifts mid [] (hdr ++ stat) ->
     ddev s' = set_packets (rx_header hdr stat (rxPkt (ddev s))) (txPkt (ddev s)) (ddev s) ->
     Q tt s') ->
  wp read_header Q s.
Proof.
  intros C HQ. unfold read_header, set_rx.
  apply wp_bind, wp_Read; [done|]. intros c1. set (hdr := rx_bytes (dbus s) 2).
  apply wp_bind, wp_upd_dev, wp_bind, wp_upd_dev, wp_bind, wp_gets, wp_bind, wp_Log, wp_bind, wp_Read.
  { by repeat apply configured_set_packets. }
  intros c2. match goal with |- context [rx_bytes ?b 4] => set (b2 := b) end.
  set (stat := rx_bytes b2 4).
  apply wp_bind, wp_upd_dev, wp_upd_dev.
  assert (Hh : shifted 2 hdr) by (by apply rx_bytes_shifted).
  assert (Hs : shifted 4 stat) by (by apply rx_bytes_shifted).
  match goal with |- context [EvLog ?l ?f ?a] => set (lg := EvLog l f a) end.
  apply (HQ hdr stat ([rx_event b2 4] ++ [lg] ++ [rx_event (dbus s) 2])); [done..| |done].
  apply (shifts_app ([lg] ++ [rx_event (dbus s) 2]) [_] [] hdr [] stat); [|apply shifts_rx].
  replace hdr with (hdr ++ []) by apply app_nil_r.
  apply (shifts_app [_] [lg] [] hdr [] []); [apply shifts_rx|apply shifts_log].
Qed.

(** The instruction of the receive, from chip select to deselect. *)
Lemma chip_rbm mid b b3 got t e :
  b3 = mid ++ EvTx [u8readBufferMemory dev_opcode] t ::
    EvPin Ethernet_CS_GPIO_Port Ethernet_CS_Pin GPIO_PIN_RESET :: b ->
  shifts (e :: mid) [] got ->
  chip_of (EvPin Ethernet_CS_GPIO_Port Ethernet_CS_Pin GPIO_PIN_SET :: e :: b3) =
    chip_done (RBM got) (chip_of b).
Proof.
  intros -> Sh.
  assert (Sh' : shifts (e :: mid ++ [EvTx [u8readBufferMemory dev_opcode] t]) ([0x3A] ++ []) ([] ++ got)).
  { apply (shifts_app [_] (e :: mid)); [apply shifts_tx|done]. }
  pose proof (chip_of_tr _ b _ _ (RBM got) Sh' eq_refl) as E. cbn [tr_bus app] in E.
  rewrite <- E. unfold tr_bus. cbn [app]. by rewrite <- app_assoc.
Qed.

Lemma rx_checked_len_nonneg hdr stat r : 0 <= rxPktLen (rx_checked (rx_header hdr stat r)).
Proof. unfold rx_checked. case_match; simpl; [apply u16_range|done]. Qed.

Lemma configured_store_rx_data body d : configured d -> configured (store_rx_data body d).
Proof. apply configured_set_packets. Qed.

Lemma quiet_view f s s' :
  quiet f s s' -> chip_of (dbus s') = {| selected := selected (chip_of (dbus s));
    mosi := mosi (chip_of (dbus s)); miso := miso (chip_of (dbus s));
    bsel := bsel (chip_of (dbus s)); done_ := done_ (chip_of (dbus s)) |}.
Proof.
  intros (mid & E & Sh & _). rewrite E. unfold chip_of. rewrite foldr_app, Sh. by rewrite !app_nil_r.
Qed.

Lemma quiet_id s s' : quiet id s s' -> ready s -> ready s' /\ view_of s' = view_of s /\ ddev s' = ddev s.
Proof.
  intros Q [C B]. pose proof (quiet_view _ _ _ Q) as E. destruct Q as (_ & _ & _ & D).
  split_and!; [split; [by rewrite D|by rewrite E]|unfold view_of; by rewrite E, D|done].
Qed.

Lemma lock_value_range d : configured d -> 0 <= lock_value d < 65536.
Proof.
  intros C. unfold lock_value. rewrite (cf_rxnd _ C). case_match; [lia|apply u16_range].
Qed.

Lemma etherReceive_wp s :
  ready s -> coherent0 (view_of s) ->
  wp enc28j60_etherReceive (fun ok s' => ready s' /\ coherent0 (view_of s') /\
    exists hdr stat body d1, rx_outcome (view_of s) ok hdr stat body d1 (view_of s')) s.
Proof.
  intros R Hc. pose proof (rd_conf _ R) as C.
  unfold enc28j60_etherReceive. apply wp_bind, wp_gets. rewrite (cf_op _ C).
  zero_access C @wp_write0 as s0 R0 V0. zero_access C @wp_write0 as s1 R1 V1.
  pose proof (rd_conf _ R1) as C1. rewrite V0 in V1.
  apply wp_bind, wp_CS, wp_bind, wp_Write; [done..|].
  apply wp_bind, wp_read_header; [done|]. intros hdr stat mid s2 Hh Hs E2 S2 D2.
  apply wp_bind, wp_gets, wp_bind, wp_check_length. intros s3 (m3 & E3 & S3 & D3).
  rewrite D2 in D3. cbn [rxPkt txPkt set_packets push ddev] in D3.
  rewrite D2. cbn [rxPkt set_packets push ddev].
  pose proof V1 as W. injection W as W1 W2 W3 W4 W5.
  assert (X3 : rxPkt (ddev s3) = rx_checked (rx_header hdr stat (v_rx (view_of s)))).
  { rewrite D3. cbn [rxPkt set_packets]. by rewrite W4. }
  assert (T3 : txPkt (ddev s3) = v_tx (view_of s)).
  { rewrite D3. cbn [txPkt set_packets]. by rewrite W5. }
  assert (B3 : bnBank (ddev s3) = v_shadow (view_of s)) by (rewrite D3; exact W1).
  assert (C3 : configured (ddev s3)) by (rewrite D3; by repeat apply configured_set_packets).
  rewrite W4. apply wp_bind, wp_gets, wp_bind, wp_Read; [done|]. intros c.
  set (n := rxPktLen (rxPkt (ddev s3))). set (body := rx_bytes (dbus s3) n).
  apply wp_bind, wp_upd_dev, wp_bind, wp_ChipDS, wp_bind, wp_gets; [by apply configured_store_rx_data|].
  match goal with |- wp _ _ ?s' => set (s4 := s') end.
  assert (P : chip_of (dbus s4) = chip_done (RBM (hdr ++ stat ++ body)) (chip_of (dbus s1))).
  { eapply (chip_rbm (m3 ++ mid)); [by rewrite E3, E2, <- app_assoc|].
    apply (shifts_app (m3 ++ mid) [_] [] (hdr ++ stat) [] body) || rewrite app_assoc;
    apply (shifts_app (m3 ++ mid) [_] [] (hdr ++ stat) [] body); [|apply shifts_rx].
    replace (hdr ++ stat) with ((hdr ++ stat) ++ []) by apply app_nil_r.
    by apply (shifts_app mid m3 [] _ [] []). }
  assert (V4 : view_of s4 = View (v_shadow (view_of s)) 0
    (RBM (hdr ++ stat ++ body) :: v_work (view_of s1)) (rxPkt (ddev s4)) (txPkt (ddev s4))).
  { unfold view_of at 1. rewrite P. simpl. by rewrite W2, B3. }
  assert (C4 : configured (ddev s4)) by (by apply configured_store_rx_data).
  assert (R4 : ready s4) by (split; [done|rewrite P; apply bank_after_range, (rd_bsel _ R1)]).
  assert (Hc4 : coherent0 (view_of s4)) by (by rewrite V4).
  change (lock_value _) with (lock_value (ddev s4)).
  zero_access C @wp_write0 as s5 R5 V5. zero_access C @wp_write0 as s6 R6 V6.
  apply wp_bind, wp_log_rx_flags. intros s7 Q7. destruct (quiet_id _ _ Q7 R6) as (R7 & V7 & D7).
  apply wp_ret. split; [done|]. rewrite V7, V6. split; [done|].
  exists hdr, stat, body, (ddev s4). split; [done..| | |].
  - unfold body, n. rewrite X3. apply rx_bytes_shifted, rx_checked_len_nonneg.
  - by exists (ddev s3).
  - rewrite V5, V4, V1. unfold v_zero. cbn [v_shadow v_work v_rx v_tx].
    rewrite land_255, u8_idemp. reflexivity.
Qed.
End Receive.

(** ** The region written by the payload *)

Record buffers_ok (rx : rx_packet) (tx : tx_packet) : Prop := {
  bo_nxt : length (nxtPktAddr rx) = 2%nat;
  bo_stat : length (rxStatVect rx) = 4%nat;
  bo_data : length (rx_data rx) = PKT_DATA;
  bo_ptr : 0 <= ptrAddr rx < 65536;
  bo_len : 0 <= txPktLen tx < 65536;
  bo_tx : length (tx_data tx) = PKT_DATA
}.

Lemma of_le16_le16 v l : 0 <= v < 65536 -> of_le16 (le16 v ++ l) = v.
Proof.
  intros Hv. unfold of_le16, le16, u8ValLo, u8ValHi, u8. simpl. rewrite shiftr_8.
  Z.div_mod_to_equations. lia.
Qed.

Lemma take_data (l k : list Z) : length l = PKT_DATA -> take PKT_DATA (l ++ k) = l.
Proof. intros Hl. rewrite take_app_le, take_ge; lia || done. Qed.

Lemma drop_data (l t : list Z) n k : length l = PKT_DATA -> n = (PKT_DATA + k)%nat -> drop n (l ++ t) = drop k t.
Proof. intros Hl ->. rewrite drop_app_ge by lia. f_equal. lia. Qed.

(** A payload that fits stays inside [data]. *)
Lemma store_rx_data_fits body d :
  buffers_ok (rxPkt d) (txPkt d) -> (length body <= PKT_DATA)%nat ->
  let d' := store_rx_data body d in
  rx_data (rxPkt d') = store (rx_data (rxPkt d)) body /\
  ptrAddr (rxPkt d') = ptrAddr (rxPkt d) /\ txPkt d' = txPkt d.
Proof.
  intros [Hn Hs Hd Hp Hl Ht] Hb. simpl. unfold store_rx_data, with_rx_region, rx_region.
  set (tail := le16 (ptrAddr (rxPkt d)) ++ le16 (txPktLen (txPkt d)) ++ tx_data (txPkt d)).
  assert (E : store (rx_data (rxPkt d) ++ tail) body = store (rx_data (rxPkt d)) body ++ tail).
  { unfold store. rewrite length_app, !(take_ge body), (drop_app_le (rx_data _)), app_assoc by lia. done. }
  assert (Hls : length (store (rx_data (rxPkt d)) body) = PKT_DATA) by (by rewrite store_length).
  rewrite E. cbn [rxPkt txPkt set_packets rx_data ptrAddr].
  rewrite take_data by done. rewrite (drop_data _ _ PKT_DATA 0), (drop_data _ _ (PKT_DATA + 2) 2),
    (drop_data _ _ (PKT_DATA + 4) 4) by done.
  split; [done|]. unfold tail. cbn [app drop le16]. split; [by apply (of_le16_le16 _ (_ :: _))|].
  change (of_le16 _) with (of_le16 (le16 (txPktLen (txPkt d)) ++ tx_data (txPkt d))).
  rewrite of_le16_le16 by done. by destruct (txPkt d).
Qed.

(** A longer payload goes on into the next-packet pointer. *)
Lemma store_rx_data_overflow body d b0 b1 :
  buffers_ok (rxPkt d) (txPkt d) ->
  body !! PKT_DATA = Some b0 -> body !! S PKT_DATA = Some b1 ->
  ptrAddr (rxPkt (store_rx_data body d)) = b0 + 256 * b1.
Proof.
  intros [Hn Hs Hd Hp Hl Ht] H0 H1. unfold store_rx_data, with_rx_region. cbn [rxPkt set_packets ptrAddr].
  assert (Hlen : length (rx_region d) = (PKT_DATA + 4 + PKT_DATA)%nat).
  { unfold rx_region. rewrite !length_app, Hd, Ht. simpl. lia. }
  assert (Hat : forall k b, (k < length (rx_region d))%nat -> body !! k = Some b ->
    nth k (store (rx_region d) body) 0 = b).
  { intros k b Hk Hb. apply nth_lookup_Some. unfold store. rewrite lookup_app_l.
    - by rewrite lookup_take_lt.
    - rewrite length_take. apply lookup_lt_Some in Hb. lia. }
  unfold of_le16. rewrite !nth_lookup, !lookup_drop, <- !nth_lookup, Nat.add_0_r, Nat.add_1_r.
  rewrite (Hat _ b0), (Hat _ b1); [done|rewrite Hlen; lia|done|rewrite Hlen; lia|done].
Qed.

(** ** What the reader of the packet gets *)

Lemma pair16_bytes b0 b1 l i :
  byte b0 -> byte b1 -> nth i l 0 = b0 -> nth (S i) l 0 = b1 -> pair16 l i = b0 + 256 * b1.
Proof.
  intros H0 H1 E0 E1. unfold pair16, byte in *. rewrite E0, E1, Z.lor_comm, Z.shiftl_mul_pow2 by lia.
  rewrite (lor_shift_add b1 b0 8) by lia. rewrite u16_small; lia.
Qed.

(** The little-endian word of two bytes. *)
Definition word (b0 b1 : Z) : Z := b0 + 256 * b1.

Lemma word_range b0 b1 : byte b0 -> byte b1 -> 0 <= word b0 b1 < 65536.
Proof. unfold byte, word. lia. Qed.

(** The word the driver assembles from a high and a low byte. *)
Lemma word_of_parts hi lo : byte hi -> byte lo -> u16 (Z.lor (u16 (Z.shiftl hi 8)) lo) = word lo hi.
Proof.
  unfold byte, word. intros Hh Hl. rewrite Z.shiftl_mul_pow2 by lia. rewrite (u16_small (hi * _)) by lia.
  rewrite lor_shift_add by lia. rewrite u16_small; lia.
Qed.

Lemma word_header h0 h1 t : Forall byte (h0 :: h1 :: t) -> 0 <= word h0 h1 < 65536.
Proof. intros Hb. inversion_clear Hb as [|? ? B0 Ht]. inversion_clear Ht. by apply word_range. Qed.

Lemma pair16_word b0 b1 t l i :
  Forall byte (b0 :: b1 :: t) -> nth i l 0 = b0 -> nth (S i) l 0 = b1 -> pair16 l i = word b0 b1.
Proof. intros Hb. inversion_clear Hb as [|? ? B0 Ht]. inversion_clear Ht. by apply pair16_bytes. Qed.

Lemma rx_header_full h0 h1 l0 l1 f0 f1 r tx :
  buffers_ok r tx -> Forall byte [h0; h1] -> Forall byte [l0; l1; f0; f1] ->
  rx_header [h0; h1] [l0; l1; f0; f1] r =
    {| nxtPktAddr := [h0; h1]; rxStatVect := [l0; l1; f0; f1]; rxPktLen := word l0 l1;
       rx_data := rx_data r; ptrAddr := word h0 h1 |}.
Proof.
  intros B Hh Hl. unfold rx_header.
  rewrite !store_all by (by rewrite ?(bo_nxt _ _ B), ?(bo_stat _ _ B)).
  f_equal; [by eapply pair16_word, eq_refl; [exact Hl|]|by eapply pair16_word, eq_refl; [exact Hh|]].
Qed.

(** The address before [nx] in the receive ring. *)
Definition lock_before (nx : Z) : Z := if nx =? 0 then 0x17FF else nx - 1.

(** The accesses of a reception, newest first. *)
Definition rx_program (rd lock : Z) (got : list Z) : list instr := [
  WCR reg_ERXRDPTH (lock / 256); WCR reg_ERXRDPTL (lock mod 256);
  RBM got;
  WCR reg_ERDPTH (rd / 256); WCR reg_ERDPTL (rd mod 256)
].

Section Outcomes.
Context `{SpiSlave}.

Lemma lock_value_before body d nx :
  configured d -> ptrAddr (rxPkt (store_rx_data body d)) = nx -> 0 <= nx < 65536 ->
  lock_value (store_rx_data body d) = lock_before nx.
Proof.
  intros C E Hnx. unfold lock_value, lock_before. rewrite E.
  change (rxBufStartAddr (store_rx_data body d)) with (rxBufStartAddr d).
  change (rxBufEndAddr (store_rx_data body d)) with (rxBufEndAddr d).
  rewrite (cf_rxst _ C), (cf_rxnd _ C). destruct (Z.eqb_spec nx 0); [done|]. apply u16_small. lia.
Qed.

Lemma in_rx_program rd lock got v w : v = rx_program rd lock got ++ w -> In (RBM got) v.
Proof. intros ->. simpl. by do 2 right; left. Qed.

Lemma word_bytes x : 0 <= x < 65536 -> u8 (Z.shiftr x 8) = x / 256 /\ u8 x = x mod 256.
Proof.
  intros Hx. rewrite shiftr_8. split; [|done]. apply u8_small. Z.div_mod_to_equations. lia.
Qed.

Lemma list_of_2 (l : list Z) : Z.of_nat (length l) = 2 -> exists a b, l = [a; b].
Proof. destruct l as [|a [|b [|]]]; simpl; try lia. eauto. Qed.
Lemma list_of_4 (l : list Z) : Z.of_nat (length l) = 4 -> exists a b c d, l = [a; b; c; d].
Proof. destruct l as [|a [|b [|c [|d [|]]]]]; simpl; try lia. eauto. Qed.

(** A reception from a device that fills its buffers: the header bytes, and
    the object [d0] into which the payload is then stored. *)
Lemma etherReceive_run s :
  FullReplies -> ready s -> coherent0 (view_of s) -> buffers_ok (rxPkt (ddev s)) (txPkt (ddev s)) ->
  exists ok s' h0 h1 l0 l1 f0 f1 body d0,
    enc28j60_etherReceive s = Ret ok s' /\ Forall byte [h0; h1; l0; l1; f0; f1] /\
    ok = (word l0 l1 <? 1518) /\ Z.of_nat (length body) = (if ok then word l0 l1 else 0) /\
    configured d0 /\ buffers_ok (rxPkt d0) (txPkt d0) /\
    rxPktLen (rxPkt d0) = (if ok then word l0 l1 else 0) /\
    rx_data (rxPkt d0) = rx_data (rxPkt (ddev s)) /\
    ptrAddr (rxPkt d0) = word h0 h1 /\ txPkt d0 = txPkt (ddev s) /\
    rxPkt (ddev s') = rxPkt (store_rx_data body d0) /\
    txPkt (ddev s') = txPkt (store_rx_data body d0) /\
    v_work (view_of s') = rx_program (ptrAddr (rxPkt (ddev s))) (lock_value (store_rx_data body d0))
      (h0 :: h1 :: l0 :: l1 :: f0 :: f1 :: body) ++ v_work (view_of s).
Proof.
  intros F R Hc B.
  destruct (wp_elim _ _ _ (etherReceive_wp s R Hc)) as (ok & s' & E & _ & _ & hdr & stat & body & d1 & O).
  destruct O as [[_ Hh] [_ Hs] Hok [_ Hbody] (d0 & C0 & X0 & T0 & ->) V].
  destruct (Hh F) as [Lh Bh], (Hs F) as [Ls Bs], (Hbody F) as [Lb _].
  destruct (list_of_2 _ Lh) as (h0 & h1 & ->), (list_of_4 _ Ls) as (l0 & l1 & f0 & f1 & ->).
  change (v_rx (view_of s)) with (rxPkt (ddev s)) in *.
  change (v_tx (view_of s)) with (txPkt (ddev s)) in *.
  rewrite (rx_header_full _ _ _ _ _ _ _ _ B Bh Bs) in Hok, X0, Lb.
  unfold rx_checked in X0, Lb. rewrite <- Hok in X0, Lb. unfold rx_accepted in Hok. cbn [rxPktLen] in Hok.
  exists ok, s', h0, h1, l0, l1, f0, f1, body, d0.
  destruct (word_bytes (lock_value (store_rx_data body d0))) as [L1 L2];
    [by apply lock_value_range, configured_store_rx_data|].
  destruct (word_bytes (ptrAddr (rxPkt (ddev s))) (bo_ptr _ _ B)) as [P1 P2].
  split_and!; try done; try (rewrite X0; by destruct ok).
  - by apply (Forall_app_2 _ [h0; h1] [l0; l1; f0; f1]).
  - rewrite Lb. by destruct ok.
  - pose proof (word_header _ _ _ Bh). rewrite X0, T0. destruct B. by destruct ok; split.
  - apply (f_equal v_rx V).
  - apply (f_equal v_tx V).
  - rewrite V. cbn [v_work]. unfold u8ValHi, u8ValLo. by rewrite L1, L2, P1, P2.
Qed.

(** Reception of a frame that fits.  From a device that fills its
    buffers, with a header announcing next packet address [word h0 h1] and
    [word l0 l1] <= 1500 bytes: the call returns true, reads exactly those
    bytes after the header, and the object holds the length, the frame at the
    start of the data buffer with the rest of the buffer untouched, and the
    announced address as next read address; the chip's read lock ERXRDPT is
    set to the byte before it in the ring. *)
Theorem etherReceive_accepts s :
  FullReplies -> ready s -> coherent0 (view_of s) -> buffers_ok (rxPkt (ddev s)) (txPkt (ddev s)) ->
  exists ok s' h0 h1 l0 l1 f0 f1 body,
    enc28j60_etherReceive s = Ret ok s' /\ Forall byte [h0; h1; l0; l1; f0; f1] /\
    In (RBM (h0 :: h1 :: l0 :: l1 :: f0 :: f1 :: body)) (v_work (view_of s')) /\
    (word l0 l1 <= 1500 ->
      ok = true /\ Z.of_nat (length body) = word l0 l1 /\ rxPktLen (rxPkt (ddev s')) = word l0 l1 /\
      rx_data (rxPkt (ddev s')) = body ++ drop (length body) (rx_data (rxPkt (ddev s))) /\
      ptrAddr (rxPkt (ddev s')) = word h0 h1 /\ txPkt (ddev s') = txPkt (ddev s) /\
      v_work (view_of s') = rx_program (ptrAddr (rxPkt (ddev s))) (lock_before (word h0 h1))
        (h0 :: h1 :: l0 :: l1 :: f0 :: f1 :: body) ++ v_work (view_of s)).
Proof.
  intros F R Hc B. destruct (etherReceive_run s F R Hc B) as
    (ok & s' & h0 & h1 & l0 & l1 & f0 & f1 & body & d0 & E & Hb & Hok & Lb & C0 & B0 & L0 & X0 & P0 & T0 & V4 & V5 & V).
  exists ok, s', h0, h1, l0, l1, f0, f1, body. split_and!; [done..|by apply in_rx_program in V|].
  intros Hlen. rewrite (proj2 (Z.ltb_lt _ _)) in Hok by lia. rewrite Hok in L0, Lb.
  destruct (store_rx_data_fits body d0 B0) as (D1 & D2 & D3); [unfold PKT_DATA; lia|].
  rewrite V, V4, V5, D1, D2, D3, X0, P0, T0.
  rewrite (lock_value_before body d0 (word h0 h1))
    by (done || congruence || by eapply word_header).
  split_and!; try done.
  unfold store. rewrite take_ge by (rewrite (bo_data _ _ B); unfold PKT_DATA; lia). done.
Qed.

(** Reception of a frame announced as 1518 bytes or more (or of the
    65535-like length of a corrupt vector): the call returns false with a zero
    length, reads and stores no byte of it and keeps the rest of the object;
    it still moves to the announced next packet and frees the ring up to it. *)
Theorem etherReceive_rejects s :
  FullReplies -> ready s -> coherent0 (view_of s) -> buffers_ok (rxPkt (ddev s)) (txPkt (ddev s)) ->
  exists ok s' h0 h1 l0 l1 f0 f1 body,
    enc28j60_etherReceive s = Ret ok s' /\ Forall byte [h0; h1; l0; l1; f0; f1] /\
    In (RBM (h0 :: h1 :: l0 :: l1 :: f0 :: f1 :: body)) (v_work (view_of s')) /\
    (1518 <= word l0 l1 ->
      ok = false /\ body = [] /\ rxPktLen (rxPkt (ddev s')) = 0 /\
      rx_data (rxPkt (ddev s')) = rx_data (rxPkt (ddev s)) /\
      ptrAddr (rxPkt (ddev s')) = word h0 h1 /\ txPkt (ddev s') = txPkt (ddev s) /\
      v_work (view_of s') = rx_program (ptrAddr (rxPkt (ddev s))) (lock_before (word h0 h1))
        [h0; h1; l0; l1; f0; f1] ++ v_work (view_of s)).
Proof.
  intros F R Hc B. destruct (etherReceive_run s F R Hc B) as
    (ok & s' & h0 & h1 & l0 & l1 & f0 & f1 & body & d0 & E & Hb & Hok & Lb & C0 & B0 & L0 & X0 & P0 & T0 & V4 & V5 & V).
  exists ok, s', h0, h1, l0, l1, f0, f1, body. split_and!; [done..|by apply in_rx_program in V|].
  intros Hlen. rewrite (proj2 (Z.ltb_ge _ _)) in Hok by lia. rewrite Hok in L0, Lb.
  assert (body = []) as -> by (destruct body; [done|simpl in Lb; lia]).
  destruct (store_rx_data_fits [] d0 B0) as (D1 & D2 & D3); [simpl; lia|].
  rewrite V, V4, V5, D1, D2, D3, X0, P0, T0.
  rewrite (lock_value_before [] d0 (word h0 h1))
    by (done || congruence || by eapply word_header).
  split_and!; try done.
  unfold store. simpl. by rewrite take_nil, drop_0.
Qed.

(** A frame of 1502 to 1517 bytes (the chip accepts huge frames, the
    length test is at 1518, the buffer has 1500 bytes) runs over the end of
    the data buffer into the next-packet pointer: the call returns true, and
    the next read address is no longer the announced one but two bytes of the
    frame. *)
Theorem etherReceive_overflow s :
  FullReplies -> ready s -> coherent0 (view_of s) -> buffers_ok (rxPkt (ddev s)) (txPkt (ddev s)) ->
  exists ok s' h0 h1 l0 l1 f0 f1 body,
    enc28j60_etherReceive s = Ret ok s' /\ Forall byte [h0; h1; l0; l1; f0; f1] /\
    In (RBM (h0 :: h1 :: l0 :: l1 :: f0 :: f1 :: body)) (v_work (view_of s')) /\
    (1502 <= word l0 l1 < 1518 ->
      ok = true /\ exists b0 b1, body !! 1500%nat = Some b0 /\ body !! 1501%nat = Some b1 /\
        ptrAddr (rxPkt (ddev s')) = word b0 b1).
Proof.
  intros F R Hc B. destruct (etherReceive_run s F R Hc B) as
    (ok & s' & h0 & h1 & l0 & l1 & f0 & f1 & body & d0 & E & Hb & Hok & Lb & C0 & B0 & L0 & X0 & P0 & T0 & V4 & V5 & V).
  exists ok, s', h0, h1, l0, l1, f0, f1, body. split_and!; [done..|by apply in_rx_program in V|].
  intros Hlen. rewrite (proj2 (Z.ltb_lt _ _)) in Hok by lia. split; [done|]. rewrite Hok in Lb.
  destruct (lookup_lt_is_Some_2 body 1500) as [b0 H0]; [lia|].
  destruct (lookup_lt_is_Some_2 body 1501) as [b1 H1]; [lia|].
  exists b0, b1. split_and!; [done..|]. rewrite V4. by apply store_rx_data_overflow.
Qed.
End Outcomes.

(** ** Concrete receptions *)

Lemma buffers_started `{SpiSlave} : buffers_ok (rxPkt (ddev started)) (txPkt (ddev started)).
Proof. split; done. Qed.

(** Next packet at 0x10; three bytes of frame. *)
Definition small_frame : SpiSlave := script_slave [0x10; 0; 3; 0; 0x80; 0; 7; 8; 9].

Lemma small_frame_full : FullReplies (H := small_frame).
Proof. apply script_slave_full. repeat constructor; unfold byte; lia. Qed.

Lemma etherReceive_accepts_witness :
  let s := started (H := small_frame) in
  (exists ok s' h0 h1 l0 l1 f0 f1 body,
    enc28j60_etherReceive s = Ret ok s' /\ Forall byte [h0; h1; l0; l1; f0; f1] /\
    In (RBM (h0 :: h1 :: l0 :: l1 :: f0 :: f1 :: body)) (v_work (view_of s')) /\
    (word l0 l1 <= 1500 ->
      ok = true /\ Z.of_nat (length body) = word l0 l1 /\ rxPktLen (rxPkt (ddev s')) = word l0 l1 /\
      rx_data (rxPkt (ddev s')) = body ++ drop (length body) (rx_data (rxPkt (ddev s))) /\
      ptrAddr (rxPkt (ddev s')) = word h0 h1 /\ txPkt (ddev s') = txPkt (ddev s) /\
      v_work (view_of s') = rx_program (ptrAddr (rxPkt (ddev s))) (lock_before (word h0 h1))
        (h0 :: h1 :: l0 :: l1 :: f0 :: f1 :: body) ++ v_work (view_of s))) /\
  outcome_val (enc28j60_etherReceive s) = Some true /\
  take 3 (rx_data (rxPkt (ddev (outcome_state (enc28j60_etherReceive s))))) = [7; 8; 9].
Proof.
  split; [|by vm_compute].
  exact (@etherReceive_accepts small_frame (started (H := small_frame)) small_frame_full (ready_started (H := small_frame))
           (fun _ => eq_refl) (buffers_started (H := small_frame))).
Defined.

(** A status vector announcing 0xFFFF bytes. *)
Definition bad_length : SpiSlave := script_slave [0x10; 0; 0xFF; 0xFF; 0x80; 0].

Lemma bad_length_full : FullReplies (H := bad_length).
Proof. apply script_slave_full. repeat constructor; unfold byte; lia. Qed.

Lemma etherReceive_rejects_witness :
  let s := started (H := bad_length) in
  (exists ok s' h0 h1 l0 l1 f0 f1 body,
    enc28j60_etherReceive s = Ret ok s' /\ Forall byte [h0; h1; l0; l1; f0; f1] /\
    In (RBM (h0 :: h1 :: l0 :: l1 :: f0 :: f1 :: body)) (v_work (view_of s')) /\
    (1518 <= word l0 l1 ->
      ok = false /\ body = [] /\ rxPktLen (rxPkt (ddev s')) = 0 /\
      rx_data (rxPkt (ddev s')) = rx_data (rxPkt (ddev s)) /\
      ptrAddr (rxPkt (ddev s')) = word h0 h1 /\ txPkt (ddev s') = txPkt (ddev s) /\
      v_work (view_of s') = rx_program (ptrAddr (rxPkt (ddev s))) (lock_before (word h0 h1))
        [h0; h1; l0; l1; f0; f1] ++ v_work (view_of s))) /\
  outcome_val (enc28j60_etherReceive s) = Some false /\
  ptrAddr (rxPkt (ddev (outcome_state (enc28j60_etherReceive s)))) = 0x10.
Proof.
  split; [|by vm_compute].
  exact (@etherReceive_rejects bad_length (started (H := bad_length)) bad_length_full (ready_started (H := bad_length))
           (fun _ => eq_refl) (buffers_started (H := bad_length))).
Defined.

(** A frame of 1502 bytes (0x5DE), all 0xEE. *)
Definition long_frame : SpiSlave := script_slave ([0x10; 0; 0xDE; 0x05; 0x80; 0] ++ replicate 1502 0xEE).

Lemma long_frame_full : FullReplies (H := long_frame).
Proof. apply script_slave_full. apply Forall_app. split; [repeat constructor; unfold byte; lia|].
  apply Forall_replicate. unfold byte. lia. Qed.

Lemma etherReceive_overflow_witness :
  let s := started (H := long_frame) in
  (exists ok s' h0 h1 l0 l1 f0 f1 body,
    enc28j60_etherReceive s = Ret ok s' /\ Forall byte [h0; h1; l0; l1; f0; f1] /\
    In (RBM (h0 :: h1 :: l0 :: l1 :: f0 :: f1 :: body)) (v_work (view_of s')) /\
    (1502 <= word l0 l1 < 1518 ->
      ok = true /\ exists b0 b1, body !! 1500%nat = Some b0 /\ body !! 1501%nat = Some b1 /\
        ptrAddr (rxPkt (ddev s')) = word b0 b1)) /\
  outcome_val (enc28j60_etherReceive s) = Some true /\
  ptrAddr (rxPkt (ddev (outcome_state (enc28j60_etherReceive s)))) = 0xEEEE.
Proof.
  split; [|by vm_compute].
  exact (@etherReceive_overflow long_frame (started (H := long_frame)) long_frame_full (ready_started (H := long_frame))
           (fun _ => eq_refl) (buffers_started (H := long_frame))).
Defined.
