(* ===== verification/Banks.v ===== *)
(** Register banks: where each access of the driver lands.

    The driver remembers the current bank in [bnBank].  A change to bank 0
    clears the chip's bank bits without recording it, so the two can differ:
    the chip in bank 0, the driver believing in the bank it left.  This file
    states the relation the driver keeps, which accesses it makes right, and
    what happens to the others. *)
From S2P Require Import Prelude Bus Regs Driver Chip DriverFacts Transfer Receive.

Definition bank_inv (v : view) : Prop := v_bank v = 0 \/ v_bank v = convertBankToBits (v_shadow v).

(** The driver believes in bank [b], the chip is in bank 0. *)
Definition stale (b : encj28j60_bank) (v : view) : Prop :=
  b <> bank_0 /\ v_shadow v = b /\ v_bank v = 0.

(** The bank an access to a register of bank [b] reaches. *)
Definition landing (b : encj28j60_bank) (v : view) : Z :=
  if decide (v_shadow v = b) then v_bank v else convertBankToBits b.

(** Instructions that touch neither the bank bits nor the bank's meaning. *)
Definition neutral (f : reg -> instr) (a : Z) : Prop :=
  forall k, bank_select (f (k, a)) = false /\ bank_after k (f (k, a)) = k.

Lemma landing_same b k l rx tx : landing b (View b k l rx tx) = k.
Proof. unfold landing. by rewrite decide_True. Qed.

Lemma landing_other b b' k l rx tx : b' <> b -> landing b (View b' k l rx tx) = convertBankToBits b.
Proof. intros Hb. unfold landing. by rewrite decide_False. Qed.

(** Carry the view of the previous state into that of the next. *)
Ltac follow V W :=
  rewrite V in W; rewrite ?landing_same, ?landing_other in W by done;
  cbn [v_shadow v_bank v_work v_rx v_tx] in W.

Section Banks.
Context `{SpiSlave}.

Lemma bank_inv_coherent0 v : bank_inv v -> coherent0 v.
Proof. intros [?|E] Hs; [done|]. by rewrite E, Hs. Qed.

Lemma bank_inv_select b v : b <> undefBank -> bank_inv v -> bank_inv (v_select b v).
Proof.
  intros Hb Hv. unfold v_select. destruct (decide (b = v_shadow v)); [done|].
  destruct (decide (b = bank_0)) as [->|]; [by left|by right].
Qed.

Lemma v_select_work b v : v_work (v_select b v) = v_work v.
Proof. unfold v_select. by case_decide. Qed.

Lemma v_access_land f r b v :
  convertRegValToBank r = b -> b <> bank_0 -> r mod 32 < 0x1B -> neutral f (r mod 32) ->
  v_access f r v = View b (landing b v) (f (landing b v, r mod 32) :: v_work v) (v_rx v) (v_tx v).
Proof.
  intros Hr Hb Ha Hf. unfold v_access, v_select, landing, v_do. rewrite Hr.
  assert (Hat : forall k, reg_at k (r mod 32) = (k, r mod 32)).
  { intros k. unfold reg_at. rewrite (proj2 (Z.leb_gt _ _)); [done|lia]. }
  case_decide as Hd.
  - rewrite decide_True by done. rewrite Hat, (proj1 (Hf _)), (proj2 (Hf _)). by rewrite Hd.
  - rewrite decide_False by congruence. rewrite decide_False by done. cbn [v_bank v_work v_shadow v_rx v_tx].
    by rewrite Hat, (proj1 (Hf _)), (proj2 (Hf _)).
Qed.

Lemma neutral_WCR v a : a <> 31 -> neutral (fun g => WCR g v) a.
Proof. intros Ha k. split; [done|]. simpl. rewrite decide_False; [done|]. intros E. by injection E. Qed.

Lemma neutral_RCR got a : neutral (fun g => RCR g got) a.
Proof. done. Qed.

(** The value [a] of a MAC or MII register read that shifted out [got]: the
    second byte, after the dummy byte, of a device that fills its buffers. *)
Definition phy_byte (got : list Z) (a : Z) : Prop := got_value got a /\ shifted 2 got.

Lemma phy_byte_full got a : FullReplies -> phy_byte got a -> exists x, got = [x; a] /\ byte a.
Proof.
  intros F [G [_ L]]. destruct (L F) as [L1 L2]. destruct got as [|x [|y [|]]]; simpl in L1; try lia.
  exists x. rewrite (G y eq_refl). inversion_clear L2 as [|? ? _ L3]. by inversion_clear L3.
Qed.

(** ** One access outside bank 0 *)

Lemma wp_write_bank r v b Q s :
  ready s -> convertRegValToBank r = b -> b <> bank_0 -> r mod 32 < 0x1B ->
  (forall s', ready s' -> view_of s' = View b (landing b (view_of s))
     (WCR (landing b (view_of s), r mod 32) v :: v_work (view_of s))
     (v_rx (view_of s)) (v_tx (view_of s)) -> Q tt s') ->
  wp (enc28j60_writeReg r v) Q s.
Proof.
  intros R Hr Hb Ha HQ. apply wp_writeReg; [done|]. intros s' R' V'. apply HQ; [done|].
  rewrite V'. apply (v_access_land (fun g => WCR g v)); [done..|]. apply neutral_WCR. lia.
Qed.

Lemma wp_read_bank r b Q s :
  ready s -> convertRegValToBank r = b -> b <> bank_0 -> r mod 32 < 0x1B ->
  (forall a got s', ready s' -> phy_byte got a ->
     view_of s' = View b (landing b (view_of s))
     (RCR (landing b (view_of s), r mod 32) got :: v_work (view_of s))
     (v_rx (view_of s)) (v_tx (view_of s)) -> Q a s') ->
  wp (enc28j60_readMacMIIReg r) Q s.
Proof.
  intros R Hr Hb Ha HQ. apply wp_readMacMIIReg; [done|]. intros a got s' R' G L V'.
  apply (HQ a got); [done|by split|]. rewrite V'.
  apply (v_access_land (fun g => RCR g got)); [done..|]. apply neutral_RCR.
Qed.

(** ** Polling MISTAT *)

(** The condition of the wait loop of a PHY access. *)
Definition mii_poll : M drv bool :=
  v ← enc28j60_readMacMIIReg (Bank3.MISTAT dev_bank3); mret (has v 0x01).

(** Either running out of fuel is allowed, or the chip ends every MII
    operation within [fuel] polls. *)
Definition mii_fuel (T : Prop) (fuel : nat) : Prop := forall s,
  ready s -> (v_shadow (view_of s) = bank_3 -> v_bank (view_of s) = 3) -> T \/ settles fuel mii_poll s.

Definition is_poll (i : instr) : Prop := exists got, i = RCR reg_MISTAT got.

Lemma run_wait_MISTAT T fuel Q s :
  mii_fuel T fuel -> ready s -> (v_shadow (view_of s) = bank_3 -> v_bank (view_of s) = 3) ->
  (forall s' polls, ready s' -> Forall is_poll polls ->
     view_of s' = View bank_3 3 (polls ++ v_work (view_of s)) (v_rx (view_of s)) (v_tx (view_of s)) -> Q tt s') ->
  run T (wait_MISTAT fuel) Q s.
Proof.
  intros Hf R H3 HQ. unfold wait_MISTAT. apply run_bind, run_wp, wp_gets.
  rewrite (cf_bank3 _ (rd_conf _ R)).
  apply (run_while _ _ _ (fun s' => ready s' /\ exists polls, Forall is_poll polls /\
    v_work (view_of s') = polls ++ v_work (view_of s) /\ v_rx (view_of s') = v_rx (view_of s) /\
    v_tx (view_of s') = v_tx (view_of s) /\ (v_shadow (view_of s') = bank_3 -> v_bank (view_of s') = 3))).
  { split; [done|]. by exists []. }
  2: by apply Hf.
  intros s1 (R1 & polls & F & E1 & E2 & E3 & E4).
  apply run_bind, run_wp, (wp_read_bank _ bank_3); [done..|]. intros a got s2 R2 _ V2.
  assert (L : landing bank_3 (view_of s1) = 3) by (unfold landing; case_decide; auto).
  rewrite L, E1, E2, E3 in V2.
  assert (F' : Forall is_poll (RCR reg_MISTAT got :: polls)) by (constructor; [by eexists|done]).
  unfold run, mret, M_ret. destruct (has a 1).
  - split; [done|]. exists (RCR reg_MISTAT got :: polls). by rewrite V2.
  - by apply (HQ s2 (RCR reg_MISTAT got :: polls)).
Qed.

Lemma wp_pause ms Q s :
  ready s ->
  (forall s', ready s' -> view_of s' = View (v_shadow (view_of s)) (v_bank (view_of s))
     (Pause ms :: v_work (view_of s)) (v_rx (view_of s)) (v_tx (view_of s)) -> Q tt s') ->
  wp (Delay ms) Q s.
Proof.
  intros [C B] HQ. apply wp_Delay; [done|]. apply HQ; [by split|].
  unfold view_of. simpl. f_equal.
Qed.

(** ** Reading a PHY register

    [k] is the bank in which the first three accesses land. *)
Definition phy_read_program (k addr fs fc : Z) (polls : list instr) (gx gc gh gl : list Z) : list instr :=
  [RCR reg_MIRDL gl; RCR reg_MIRDH gh; WCR reg_MICMD (u8 (Z.land fc (Z.lnot (bit 0))));
   RCR reg_MICMD gc] ++ polls ++
  [Pause 1; WCR (k, 0x12) (u8 (Z.lor fs (bit 0))); RCR (k, 0x12) gx; WCR (k, 0x14) addr].

Lemma run_readPhyReg T fuel addr Q s :
  mii_fuel T fuel -> ready s ->
  (forall fs fc hi lo polls gx gc gh gl s', ready s' -> Forall is_poll polls ->
     phy_byte gx fs -> phy_byte gc fc -> phy_byte gh hi -> phy_byte gl lo ->
     view_of s' = View bank_2 2
       (phy_read_program (landing bank_2 (view_of s)) addr fs fc polls gx gc gh gl ++ v_work (view_of s))
       (v_rx (view_of s)) (v_tx (view_of s)) ->
     Q (u16 (Z.lor (u16 (Z.shiftl hi 8)) lo)) s') ->
  run T (enc28j60_readPhyReg fuel addr) Q s.
Proof.
  intros Hf R HQ. unfold enc28j60_readPhyReg. apply run_bind, run_wp, wp_gets.
  rewrite (cf_bank2 _ (rd_conf _ R)). set (k := landing bank_2 (view_of s)) in *.
  apply run_bind, run_wp, (wp_write_bank _ _ bank_2); [done..|]. fold k. intros s1 R1 V1.
  apply run_bind, run_wp, (wp_read_bank _ bank_2); [done..|]. intros fs gx s2 R2 Gx V2. follow V1 V2.
  apply run_bind, run_wp, (wp_write_bank _ _ bank_2); [done..|]. intros s3 R3 V3. follow V2 V3.
  apply run_bind, run_wp, wp_pause; [done|]. intros s4 R4 V4. follow V3 V4.
  apply run_bind, run_wait_MISTAT; [done..|by rewrite V4|]. intros s5 polls R5 F V5. follow V4 V5.
  apply run_bind, run_wp, (wp_read_bank _ bank_2); [done..|]. intros fc gc s6 R6 Gc V6. follow V5 V6.
  apply run_bind, run_wp, (wp_write_bank _ _ bank_2); [done..|]. intros s7 R7 V7. follow V6 V7.
  apply run_bind, run_wp, (wp_read_bank _ bank_2); [done..|]. intros hi gh s8 R8 Gh V8. follow V7 V8.
  apply run_bind, run_wp, (wp_read_bank _ bank_2); [done..|]. intros lo gl s9 R9 Gl V9. follow V8 V9.
  unfold run, mret, M_ret. eapply (HQ fs fc hi lo polls gx gc gh gl); [done..|]. rewrite V9.
  unfold phy_read_program. cbn [app]. by rewrite <- app_assoc.
Qed.

(** ** Writing a PHY register *)

Definition phy_write_program (k addr data : Z) (polls : list instr) : list instr :=
  polls ++ [Pause 1; WCR (k, 0x17) (u8 (Z.shiftr data 8)); WCR (k, 0x16) (u8 data); WCR (k, 0x14) addr].

Lemma run_writePhyReg T fuel addr data Q s :
  mii_fuel T fuel -> ready s ->
  (forall polls s', ready s' -> Forall is_poll polls ->
     view_of s' = View bank_3 3
       (phy_write_program (landing bank_2 (view_of s)) addr data polls ++ v_work (view_of s))
       (v_rx (view_of s)) (v_tx (view_of s)) -> Q tt s') ->
  run T (enc28j60_writePhyReg fuel addr data) Q s.
Proof.
  intros Hf R HQ. unfold enc28j60_writePhyReg. apply run_bind, run_wp, wp_gets.
  rewrite (cf_bank2 _ (rd_conf _ R)). set (k := landing bank_2 (view_of s)) in *.
  apply run_bind, run_wp, (wp_write_bank _ _ bank_2); [done..|]. fold k. intros s1 R1 V1.
  apply run_bind, run_wp, (wp_write_bank _ _ bank_2); [done..|]. intros s2 R2 V2. follow V1 V2.
  apply run_bind, run_wp, (wp_write_bank _ _ bank_2); [done..|]. intros s3 R3 V3. follow V2 V3.
  apply run_bind, run_wp, wp_pause; [done|]. intros s4 R4 V4. follow V3 V4.
  apply run_wait_MISTAT; [done..|by rewrite V4|]. intros s5 polls R5 F V5. follow V4 V5.
  apply (HQ polls); [done..|]. rewrite V5, land_255, u8_idemp.
  unfold phy_write_program. by rewrite <- app_assoc.
Qed.

(** ** What the accesses mean *)

(** The control register an access to driver register [r] reaches. *)
Definition target (r : Z) (v : view) : reg :=
  let b := convertRegValToBank r in
  reg_at (if decide (b = bank_0) then 0 else if decide (stale b v) then 0 else convertBankToBits b)
         (r mod 32).

Lemma v_select_bank b v : bank_inv v -> b <> undefBank ->
  v_bank (v_select b v) = if decide (b = bank_0) then 0 else if decide (stale b v) then 0 else convertBankToBits b.
Proof.
  intros Hv Hb. unfold v_select. destruct (decide (b = v_shadow v)) as [->|Hs].
  - destruct (decide (v_shadow v = bank_0)) as [E|E].
    + by apply (bank_inv_coherent0 v Hv).
    + destruct (decide (stale (v_shadow v) v)) as [[_ [_ S]]|S]; [done|].
      destruct Hv as [Hv|Hv]; [|done]. by destruct S.
  - cbn [v_bank]. destruct (decide (b = bank_0)) as [->|]; [done|].
    rewrite decide_False; [done|]. intros (_ & E & _). congruence.
Qed.

(** Register writes.  From a coherent bank state, a write to driver
    register [r] (any bank, ECON1 apart) returns and adds exactly one
    instruction other than bank selection: a write of the value to the
    register [r] names, except that a register outside bank 0 is missed, and
    the register at the same offset of bank 0 written instead, when the chip
    was sent to bank 0 behind the driver's record ([stale]).  The bank state
    stays coherent. *)
Theorem writeReg_lands r v s :
  ready s -> bank_inv (view_of s) -> r mod 32 <> 31 ->
  exists s', enc28j60_writeReg r v s = Ret tt s' /\
    v_work (view_of s') = WCR (target r (view_of s)) v :: v_work (view_of s) /\
    ready s' /\ bank_inv (view_of s').
Proof.
  intros R Hb Hr.
  assert (W : wp (enc28j60_writeReg r v) (fun _ s' =>
    view_of s' = v_access (fun g => WCR g v) r (view_of s) /\ ready s') s).
  { by apply wp_writeReg. }
  destruct (wp_elim _ _ _ W) as ([] & s' & E & V & R'). exists s'. split; [done|].
  assert (Hinv : bank_inv (view_of s') /\
    v_work (view_of s') = WCR (target r (view_of s)) v :: v_work (view_of s)).
  { rewrite V. unfold v_access, v_do, target. rewrite <- (v_select_bank _ _ Hb (convert_not_undef r)).
    cbn [v_bank v_work v_shadow]. split.
    - simpl. rewrite decide_False by (unfold reg_at, reg_ECON1; case_match; congruence).
      apply (bank_inv_select _ _ (convert_not_undef r) Hb).
    - by rewrite v_select_work. }
  destruct Hinv as [Hinv ->]. done.
Qed.

(** PHY register reads.  From a device that fills its buffers and ends
    every MII operation within [fuel] polls, [enc28j60_readPhyReg] returns the
    16-bit word whose bytes the chip shifted out last: it wrote the address,
    set and (after waiting for MISTAT.BUSY to fall) cleared MICMD.MIIRD keeping
    the other bits read back, and read MIRDH and MIRDL, the dummy byte of each
    skipped.  The first three accesses go to bank 2 unless the bank is stale. *)
Theorem readPhyReg_reads fuel addr s :
  FullReplies -> mii_fuel False fuel -> ready s ->
  exists s' fs fc hi lo x1 x2 x3 x4 polls,
    enc28j60_readPhyReg fuel addr s = Ret (word lo hi) s' /\ byte hi /\ byte lo /\
    Forall is_poll polls /\
    v_work (view_of s') =
      [RCR reg_MIRDL [x4; lo]; RCR reg_MIRDH [x3; hi];
       WCR reg_MICMD (u8 (Z.land fc (Z.lnot (bit 0)))); RCR reg_MICMD [x2; fc]] ++ polls ++
      let k := landing bank_2 (view_of s) in
      [Pause 1; WCR (k, 0x12) (u8 (Z.lor fs (bit 0))); RCR (k, 0x12) [x1; fs]; WCR (k, 0x14) addr] ++
      v_work (view_of s).
Proof.
  intros F Hf R.
  assert (W : wp (enc28j60_readPhyReg fuel addr) (fun v s' => exists fs fc hi lo x1 x2 x3 x4 polls,
    v = word lo hi /\ byte hi /\ byte lo /\ Forall is_poll polls /\ v_work (view_of s') =
      phy_read_program (landing bank_2 (view_of s)) addr fs fc polls [x1; fs] [x2; fc] [x3; hi] [x4; lo]
      ++ v_work (view_of s)) s).
  { apply run_total, run_readPhyReg; [done..|]. intros fs fc hi lo polls gx gc gh gl s' _ P Gx Gc Gh Gl V.
    destruct (phy_byte_full _ _ F Gx) as (x1 & -> & _), (phy_byte_full _ _ F Gc) as (x2 & -> & _),
      (phy_byte_full _ _ F Gh) as (x3 & -> & Bh), (phy_byte_full _ _ F Gl) as (x4 & -> & Bl).
    exists fs, fc, hi, lo, x1, x2, x3, x4, polls. split; [|by rewrite V].
    by apply word_of_parts. }
  destruct (wp_elim _ _ _ W) as (v & s' & E & fs & fc & hi & lo & x1 & x2 & x3 & x4 & polls & -> & Bh & Bl & P & V).
  exists s', fs, fc, hi, lo, x1, x2, x3, x4, polls. split_and!; [done..|].
  rewrite V. unfold phy_read_program. cbn [app]. by rewrite <- app_assoc.
Qed.
End Banks.

(** ** Example *)

(** A chip that is never busy and whose clock runs. *)
Definition idle_chip : SpiSlave := register_slave (fun r => if decide (r = reg_ESTAT) then 1 else 0).

#[local] Existing Instance idle_chip.

Lemma mii_fuel_idle : mii_fuel False 1.
Proof.
  intros s R H3. right. apply settles_once. unfold mii_poll. apply wp_bind.
  unfold enc28j60_readMacMIIReg. apply wp_bind, wp_select; [done|]. intros s1 R1 V1.
  pose proof (rd_conf _ R1) as C1. apply wp_bind, wp_gets. rewrite (cf_op _ C1).
  assert (B : bsel (chip_of (dbus s1)) = 3).
  { change (v_bank (view_of s1) = 3). rewrite V1. unfold v_select.
    case_decide as Hd; [by apply H3|done]. }
  apply wp_bind, wp_gets, wp_bind, wp_CS, wp_bind, wp_Write, wp_bind, wp_Read1; [done..|].
  intros a got L A G. apply wp_bind, wp_Read1; [done|]. intros a' got' L' A' G'.
  apply wp_bind, wp_ChipDS, wp_ret; [done|]. apply wp_ret.
  rewrite A', G'. unfold rx_bytes. simpl. rewrite B. simpl. reflexivity.
Qed.

Lemma idle_chip_full : FullReplies.
Proof.
  intros b n Hn. simpl. rewrite length_replicate. split; [lia|]. apply Forall_replicate.
  unfold byte. repeat case_match; lia.
Qed.

Lemma writeReg_lands_witness :
  exists s', enc28j60_writeReg (Bank1.ERXFCON dev_bank1) 0xA1 started = Ret tt s' /\
    v_work (view_of s') = [WCR (1, 0x18) 0xA1] /\ ready s' /\ bank_inv (view_of s').
Proof.
  exact (writeReg_lands (Bank1.ERXFCON dev_bank1) 0xA1 started ready_started (or_introl eq_refl)
    ltac:(vm_compute; congruence)).
Defined.

Lemma readPhyReg_reads_witness :
  exists s' fs fc hi lo x1 x2 x3 x4 polls,
    enc28j60_readPhyReg 1 0x11 started = Ret (word lo hi) s' /\ byte hi /\ byte lo /\
    Forall is_poll polls /\
    v_work (view_of s') =
      [RCR reg_MIRDL [x4; lo]; RCR reg_MIRDH [x3; hi];
       WCR reg_MICMD (u8 (Z.land fc (Z.lnot (bit 0)))); RCR reg_MICMD [x2; fc]] ++ polls ++
      let k := landing bank_2 (view_of started) in
      [Pause 1; WCR (k, 0x12) (u8 (Z.lor fs (bit 0))); RCR (k, 0x12) [x1; fs]; WCR (k, 0x14) 0x11] ++ [].
Proof. exact (readPhyReg_reads 1 0x11 started idle_chip_full mii_fuel_idle ready_started). Defined.
