(* ===== verification/Startup.v ===== *)
(** Start-up: the instructions of [enc28j60_strtDr] and the configuration they
    leave in the chip. *)
From S2P Require Import Prelude Bus Regs Driver Chip DriverFacts Transfer Receive Banks.

(** ** The pieces of the start-up, newest instruction first *)

Definition buffers_log : list instr := [
  WCR reg_ETXNDH 0x1F; WCR reg_ETXNDL 0xFF; WCR reg_ETXSTH 0x18; WCR reg_ETXSTL 0x00;
  WCR reg_ERXRDPTH 0x17; WCR reg_ERXRDPTL 0xFF; WCR reg_ERXNDH 0x17; WCR reg_ERXNDL 0xFF;
  WCR reg_ERDPTH 0x00; WCR reg_ERDPTL 0x00; WCR reg_ERXSTH 0x00; WCR reg_ERXSTL 0x00
].

Definition mac_log (c2 c1 c3 : Z) (g2 g1 g3 : list Z) : list instr := [
  WCR (3, 0x04) 0x04; WCR (3, 0x05) 0x7C; WCR (3, 0x02) 0x16; WCR (3, 0x03) 0xAF;
  WCR (3, 0x00) 0x6A; WCR (3, 0x01) 0xED;
  WCR (2, 0x06) 0x12; WCR (2, 0x04) 0x15; WCR (2, 0x0B) 0x05; WCR (2, 0x0A) 0xDC;
  WCR (2, 0x02) (u8 (Z.lor c3 0xF5)); RCR (2, 0x02) g3;
  WCR (2, 0x00) (u8 (Z.lor c1 0x0D)); RCR (2, 0x00) g1;
  WCR (2, 0x09) (u8 (Z.land c2 (Z.lnot 0x80))); RCR (2, 0x09) g2
].

Definition enable_log : list instr := [
  BFS reg_ECON1 0x04; BFS reg_ECON2 0x80; WCR reg_EIE 0xFF; WCR reg_ERXFCON 0xA1
].

Section Startup.
Context `{SpiSlave}.

Lemma wp_program_buffers d Q s :
  configured d -> ready s -> coherent0 (view_of s) -> ptrAddr (rxPkt d) = 0 ->
  (forall s', ready s' -> view_of s' = View (v_shadow (view_of s)) 0 (buffers_log ++ v_work (view_of s))
     (v_rx (view_of s)) (v_tx (view_of s)) -> Q tt s') ->
  wp (program_buffers d) Q s.
Proof.
  intros C R Hc Hp HQ. unfold program_buffers.
  rewrite Hp, (cf_rxst _ C), (cf_rxnd _ C), (cf_txst _ C), (cf_txnd _ C).
  zero_access C @wp_write0 as s0 R0 V0. zero_access C @wp_write0 as s1 R1 V1.
  zero_access C @wp_write0 as s2 R2 V2. zero_access C @wp_write0 as s3 R3 V3.
  zero_access C @wp_write0 as s4 R4 V4. zero_access C @wp_write0 as s5 R5 V5.
  zero_access C @wp_write0 as s6 R6 V6. zero_access C @wp_write0 as s7 R7 V7.
  zero_access C @wp_write0 as s8 R8 V8. zero_access C @wp_write0 as s9 R9 V9.
  zero_access C @wp_write0 as s10 R10 V10.
  eapply wp_write0; [done|rewrite V10; apply coherent0_zero|done|vm_compute; congruence|].
  intros s11 R11 V11. apply HQ; [done|].
  rewrite V11, V10, V9, V8, V7, V6, V5, V4, V3, V2, V1, V0. reflexivity.
Qed.

Lemma wp_macInit Q s :
  ready s -> landing bank_2 (view_of s) = 2 ->
  (forall c2 c1 c3 g2 g1 g3 s', ready s' -> phy_byte g2 c2 -> phy_byte g1 c1 -> phy_byte g3 c3 ->
     view_of s' = View bank_3 3 (mac_log c2 c1 c3 g2 g1 g3 ++ v_work (view_of s))
       (v_rx (view_of s)) (v_tx (view_of s)) -> Q tt s') ->
  wp enc2860_macInit Q s.
Proof.
  intros R Hk HQ. pose proof (rd_conf _ R) as C. unfold enc2860_macInit. apply wp_bind, wp_gets.
  rewrite (cf_bank2 _ C), (cf_bank3 _ C), (cf_max _ C), (cf_mac _ C).
  apply wp_bind, (wp_read_bank _ bank_2); [done..|]. rewrite Hk. intros c2 g2 s1 R1 G2 V1.
  apply wp_bind, (wp_write_bank _ _ bank_2); [done..|]. intros s2 R2 V2. follow V1 V2.
  apply wp_bind, (wp_read_bank _ bank_2); [done..|]. intros c1 g1 s3 R3 G1 V3. follow V2 V3.
  apply wp_bind, (wp_write_bank _ _ bank_2); [done..|]. intros s4 R4 V4. follow V3 V4.
  apply wp_bind, (wp_read_bank _ bank_2); [done..|]. intros c3 g3 s5 R5 G3 V5. follow V4 V5.
  apply wp_bind, (wp_write_bank _ _ bank_2); [done..|]. intros s6 R6 V6. follow V5 V6.
  apply wp_bind, (wp_write_bank _ _ bank_2); [done..|]. intros s7 R7 V7. follow V6 V7.
  apply wp_bind, (wp_write_bank _ _ bank_2); [done..|]. intros s8 R8 V8. follow V7 V8.
  apply wp_bind, (wp_write_bank _ _ bank_2); [done..|]. intros s9 R9 V9. follow V8 V9.
  apply wp_bind, (wp_write_bank _ _ bank_2); [done..|]. intros s10 R10 V10. follow V9 V10.
  apply wp_bind, (wp_write_bank _ _ bank_3); [done..|]. intros s11 R11 V11. follow V10 V11.
  apply wp_bind, (wp_write_bank _ _ bank_3); [done..|]. intros s12 R12 V12. follow V11 V12.
  apply wp_bind, (wp_write_bank _ _ bank_3); [done..|]. intros s13 R13 V13. follow V12 V13.
  apply wp_bind, (wp_write_bank _ _ bank_3); [done..|]. intros s14 R14 V14. follow V13 V14.
  apply wp_bind, (wp_write_bank _ _ bank_3); [done..|]. intros s15 R15 V15. follow V14 V15.
  apply (wp_write_bank _ _ bank_3); [done..|]. intros s16 R16 V16. follow V15 V16.
  apply (HQ c2 c1 c3 g2 g1 g3); [done..|]. rewrite V16. reflexivity.
Qed.

Lemma wp_rxSetFilters fl Q s :
  ready s -> landing bank_1 (view_of s) = 1 ->
  (forall s', ready s' -> view_of s' = View bank_1 1 (WCR reg_ERXFCON (u8 fl) :: v_work (view_of s))
     (v_rx (view_of s)) (v_tx (view_of s)) -> Q tt s') ->
  wp (enc28j60_rxSetFilters fl) Q s.
Proof.
  intros R Hk HQ. unfold enc28j60_rxSetFilters. apply wp_bind, wp_gets.
  rewrite (cf_bank1 _ (rd_conf _ R)). apply (wp_write_bank _ _ bank_1); [done..|].
  rewrite Hk. intros s' R' V'. by apply HQ.
Qed.

Lemma wp_sftRst Q s :
  ready s ->
  (forall s', ready s' -> view_of s' = View (v_shadow (view_of s)) 0 (SRC :: v_work (view_of s))
     (v_rx (view_of s)) (v_tx (view_of s)) -> Q tt s') ->
  wp enc28j60_sftRst Q s.
Proof.
  intros R HQ. pose proof (rd_conf _ R) as C.
  unfold enc28j60_sftRst, enc28j60_SoftReset. apply wp_bind, wp_gets. rewrite (cf_op _ C).
  apply wp_bind, wp_CS, wp_bind, wp_Write, wp_ChipDS; [done..|].
  match goal with |- Q tt ?s' => set (s1 := s') end.
  assert (P : v_push SRC s1 s).
  { split; [|done]. apply (chip_of_tr [_] (dbus s) [0xFF] []); [apply shifts_tx|done]. }
  apply HQ; [by eapply ready_push|]. by rewrite (view_push _ _ _ P).
Qed.

(** Waiting for the oscillator, from a state whose accesses go to bank 0. *)
Definition is_estat_poll (i : instr) : Prop := exists got, i = RCR reg_ESTAT got.

Definition clock_poll : M drv bool :=
  v ← enc28j60_readEtherReg (ESTAT (Bank0.commonRegs dev_bank0)); mret (negb (has v 0x01)).

Definition clock_fuel (T : Prop) (fuel : nat) : Prop := forall s,
  ready s -> coherent0 (view_of s) -> T \/ settles fuel clock_poll s.

Lemma run_wait_ESTAT T fuel d Q s :
  clock_fuel T fuel -> configured d -> ready s -> coherent0 (view_of s) ->
  (forall s' polls, ready s' -> Forall is_estat_poll polls ->
     view_of s' = View (v_shadow (view_of s)) 0 (polls ++ v_work (view_of s))
       (v_rx (view_of s)) (v_tx (view_of s)) -> Q tt s') ->
  run T (while_busy fuel (v ← enc28j60_readEtherReg (ESTAT (Bank0.commonRegs (bank0 d)));
                        mret (negb (has v 0x01)))) Q s.
Proof.
  intros Hf C R Hc HQ. rewrite (cf_bank0 _ C).
  apply (run_while _ _ _ (fun s' => ready s' /\ coherent0 (view_of s') /\
    exists polls, Forall is_estat_poll polls /\ v_shadow (view_of s') = v_shadow (view_of s) /\
      v_work (view_of s') = polls ++ v_work (view_of s) /\ v_rx (view_of s') = v_rx (view_of s) /\
      v_tx (view_of s') = v_tx (view_of s))).
  { split_and!; [done..|]. by exists []. }
  2: by apply Hf.
  intros s1 (R1 & Hc1 & polls & F & E0 & E1 & E2 & E3).
  apply run_bind, run_wp, wp_readEtherReg; [done|]. intros a got s2 R2 _ _ V2.
  rewrite (v_access_zero (fun g => RCR g got)) in V2 by done. unfold v_zero in V2.
  rewrite E0, E1, E2, E3 in V2.
  assert (F' : Forall is_estat_poll (RCR reg_ESTAT got :: polls)) by (constructor; [by eexists|done]).
  unfold run, mret, M_ret. destruct (negb (has a 1)).
  - split; [done|]. rewrite V2. split; [done|]. by exists (RCR reg_ESTAT got :: polls).
  - by apply (HQ s2 (RCR reg_ESTAT got :: polls)).
Qed.

(** ** The whole start-up *)

Definition phy_log (fs1 fc1 v1 fs2 fc2 v2 : Z) (p1 p2 p3 p4 : list instr)
    (gx1 gc1 gh1 gl1 gx2 gc2 gh2 gl2 : list Z) : list instr :=
  phy_write_program 2 0x12 (u16 (Z.lor v2 0x12)) p4 ++
  phy_read_program 2 0x12 fs2 fc2 p3 gx2 gc2 gh2 gl2 ++
  phy_write_program 2 0x00 (u16 (Z.lor v1 0x100)) p2 ++
  phy_read_program 0 0x00 fs1 fc1 p1 gx1 gc1 gh1 gl1.

Lemma run_phyInit T fuel Q s :
  mii_fuel T fuel -> ready s -> landing bank_2 (view_of s) = 0 ->
  (forall fs1 fc1 v1 fs2 fc2 v2 p1 p2 p3 p4 gx1 gc1 gh1 gl1 gx2 gc2 gh2 gl2 s', ready s' ->
     Forall is_poll p1 -> Forall is_poll p2 -> Forall is_poll p3 -> Forall is_poll p4 ->
     view_of s' = View bank_3 3
       (phy_log fs1 fc1 v1 fs2 fc2 v2 p1 p2 p3 p4 gx1 gc1 gh1 gl1 gx2 gc2 gh2 gl2 ++ v_work (view_of s))
       (v_rx (view_of s)) (v_tx (view_of s)) -> Q tt s') ->
  run T (enc2860_phyInit fuel) Q s.
Proof.
  intros Hf R Hk HQ. unfold enc2860_phyInit. apply run_bind, run_wp, wp_gets.
  rewrite (cf_phy _ (rd_conf _ R)).
  apply run_bind, run_readPhyReg; [done..|].
  intros fs1 fc1 hi1 lo1 p1 gx1 gc1 gh1 gl1 s1 R1 F1 _ _ _ _ V1. rewrite Hk in V1.
  apply run_bind, run_writePhyReg; [done..|]. intros p2 s2 R2 F2 V2. follow V1 V2.
  apply run_bind, run_readPhyReg; [done..|].
  intros fs2 fc2 hi2 lo2 p3 gx2 gc2 gh2 gl2 s3 R3 F3 _ _ _ _ V3. follow V2 V3.
  apply run_writePhyReg; [done..|]. intros p4 s4 R4 F4 V4. follow V3 V4.
  eapply HQ; [exact R4|exact F1|exact F2|exact F3|exact F4|]. rewrite V4.
  unfold phy_log. rewrite <- !app_assoc. reflexivity.
Qed.

(** A PHY read whose result is dropped. *)
Lemma run_probe T fuel (f : Z -> Z) (addr : enc28j60Drv -> Z) Q s :
  mii_fuel T fuel -> ready s ->
  (forall a s' p, ready s' -> view_of s' = View bank_2 2 (p ++ v_work (view_of s))
     (v_rx (view_of s)) (v_tx (view_of s)) -> Q a s') ->
  run T (d ← gets ddev; v ← enc28j60_readPhyReg fuel (addr d); mret (f v)) Q s.
Proof.
  intros Hf R HQ. apply run_bind, run_wp, wp_gets. apply run_bind, run_readPhyReg; [done..|].
  intros fs fc hi lo p gx gc gh gl s1 R1 _ _ _ _ _ V1. unfold run, mret, M_ret. by eapply HQ.
Qed.

Lemma run_identifier T fuel Q s :
  mii_fuel T fuel -> ready s ->
  (forall a s' p, ready s' -> view_of s' = View bank_2 2 (p ++ v_work (view_of s))
     (v_rx (view_of s)) (v_tx (view_of s)) -> Q a s') ->
  run T (enc28j60_getPhyIdentifier fuel) Q s.
Proof.
  intros Hf R HQ. unfold enc28j60_getPhyIdentifier. apply run_bind, run_wp, wp_gets.
  apply run_bind, run_readPhyReg; [done..|]. intros ? ? ? ? p1 ? ? ? ? s1 R1 _ _ _ _ _ V1.
  apply run_bind, run_readPhyReg; [done..|]. intros ? ? ? ? p2 ? ? ? ? s2 R2 _ _ _ _ _ V2. follow V1 V2.
  unfold run, mret, M_ret. eapply HQ; [done|]. rewrite V2. by rewrite app_assoc.
Qed.

(** The instructions of the last part of the start-up, from the buffer
    registers on, newest first. *)
Definition config_log (fs1 fc1 v1 fs2 fc2 v2 c2 c1 c3 : Z) (p1 p2 p3 p4 : list instr)
    (gx1 gc1 gh1 gl1 gx2 gc2 gh2 gl2 g2 g1 g3 : list Z) : list instr :=
  enable_log ++ mac_log c2 c1 c3 g2 g1 g3 ++
  phy_log fs1 fc1 v1 fs2 fc2 v2 p1 p2 p3 p4 gx1 gc1 gh1 gl1 gx2 gc2 gh2 gl2 ++ buffers_log.

Lemma run_strtDr T fuel Q s :
  mii_fuel T fuel -> clock_fuel T fuel -> ready s -> coherent0 (view_of s) -> ptrAddr (rxPkt (ddev s)) = 0 -> v_shadow (view_of s) = bank_0 ->
  (forall fs1 fc1 v1 fs2 fc2 v2 c2 c1 c3 p1 p2 p3 p4 gx1 gc1 gh1 gl1 gx2 gc2 gh2 gl2 g2 g1 g3 probe s',
     ready s' -> Forall is_poll p1 -> Forall is_poll p2 -> Forall is_poll p3 -> Forall is_poll p4 ->
     view_of s' = View bank_1 0
       (config_log fs1 fc1 v1 fs2 fc2 v2 c2 c1 c3 p1 p2 p3 p4 gx1 gc1 gh1 gl1 gx2 gc2 gh2 gl2 g2 g1 g3
        ++ probe ++ v_work (view_of s)) (v_rx (view_of s)) (v_tx (view_of s)) -> Q tt s') ->
  run T (enc28j60_strtDr fuel) Q s.
Proof.
  intros Hf Hck R Hc Hp Hsh HQ. pose proof (rd_conf _ R) as C. unfold enc28j60_strtDr.
  apply run_bind, run_wp, wp_gets. apply run_bind, run_wp, wp_sftRst; [done|]. intros s1 R1 V1.
  apply run_bind, run_wp, wp_pause; [done|]. intros s2 R2 V2. follow V1 V2.
  apply run_bind, run_wait_ESTAT; [done..|by rewrite V2|]. intros s3 p0 R3 _ V3. follow V2 V3.
  apply run_bind, (run_probe _ _ (fun v => Z.land (u8 v) 0x000F) (fun d => PHID2 (phyReg d))); [done..|].
  intros _ s4 q4 R4 V4. follow V3 V4.
  apply run_bind, (run_probe _ _ (fun v => u16 (Z.shiftr (Z.land v 0x03F0) 4)) (fun d => PHID2 (phyReg d)));
    [done..|]. intros _ s5 q5 R5 V5. follow V4 V5.
  apply run_bind, run_identifier; [done..|]. intros _ s6 q6 R6 V6. follow V5 V6.
  apply run_bind, run_wp, wp_program_buffers; [done..|by rewrite V6|done|].
  intros s7 R7 V7. follow V6 V7.
  apply run_bind, run_phyInit; [done..|by rewrite V7|].
  intros fs1 fc1 v1 fs2 fc2 v2 p1 p2 p3 p4 gx1 gc1 gh1 gl1 gx2 gc2 gh2 gl2 s8 R8 F1 F2 F3 F4 V8. follow V7 V8.
  apply run_bind, run_wp, wp_macInit; [done|by rewrite V8|].
  intros c2 c1 c3 g2 g1 g3 s9 R9 _ _ _ V9. follow V8 V9.
  apply run_bind, run_wp, wp_rxSetFilters; [done|by rewrite V9|]. intros s10 R10 V10. follow V9 V10.
  apply run_wp. zero_access C @wp_write0 as s11 R11 V11. zero_access C @wp_set0 as s12 R12 V12.
  eapply wp_set0; [done|rewrite V12; apply coherent0_zero|done|by split|]. intros s13 R13 V13.
  apply (HQ fs1 fc1 v1 fs2 fc2 v2 c2 c1 c3 p1 p2 p3 p4 gx1 gc1 gh1 gl1 gx2 gc2 gh2 gl2 g2 g1 g3
    (q6 ++ q5 ++ q4 ++ p0 ++ [Pause 1; SRC])); [done..|].
  rewrite V13, V12, V11, V10. unfold v_zero, config_log. cbn [v_shadow v_bank v_work v_rx v_tx].
  rewrite <- !app_assoc. reflexivity.
Qed.
End Startup.

(** ** What the start-up leaves in the chip *)

(** Receive ring 0x0000-0x17FF, transmit area from 0x1800, unicast + broadcast
    + CRC filter, maximum frame 1500, the station address (first byte first)
    and all interrupts enabled. *)
Definition configuration : list (reg * Z) :=
  [(reg_ERXSTL, 0x00); (reg_ERXSTH, 0x00); (reg_ERXNDL, 0xFF); (reg_ERXNDH, 0x17);
   (reg_ERXRDPTL, 0xFF); (reg_ERXRDPTH, 0x17); (reg_ERDPTL, 0x00); (reg_ERDPTH, 0x00);
   (reg_ETXSTL, 0x00); (reg_ETXSTH, 0x18); (reg_ETXNDL, 0xFF); (reg_ETXNDH, 0x1F);
   (reg_ERXFCON, 0xA1); ((2, 0x0A), 0xDC); ((2, 0x0B), 0x05); ((2, 0x04), 0x15); ((2, 0x06), 0x12);
   (reg_EIE, 0xFF)] ++ zip reg_MAADR (reverse dev_mac).

Definition configured_chip (m : mach) : Prop :=
  Forall (fun '(r, v) => reg_val m r = v) configuration /\
  Z.testbit (reg_val m reg_ECON1) 2 = true /\ Z.testbit (reg_val m reg_ECON2) 7 = true.

Lemma poll_forallb (f : instr -> bool) p :
  (forall got, f (RCR reg_MISTAT got) = true) -> Forall is_poll p -> forallb f p = true.
Proof. intros Hf. induction 1 as [|i p [got ->] _ IH]; [done|]. simpl. by rewrite Hf. Qed.

Lemma config_log_effect fs1 fc1 v1 fs2 fc2 v2 c2 c1 c3 p1 p2 p3 p4 gx1 gc1 gh1 gl1 gx2 gc2 gh2 gl2 g2 g1 g3 m :
  Forall is_poll p1 -> Forall is_poll p2 -> Forall is_poll p3 -> Forall is_poll p4 ->
  exists m', exec_all (reverse
    (config_log fs1 fc1 v1 fs2 fc2 v2 c2 c1 c3 p1 p2 p3 p4 gx1 gc1 gh1 gl1 gx2 gc2 gh2 gl2 g2 g1 g3)) m
    = Some m' /\ configured_chip m'.
Proof.
  intros F1 F2 F3 F4. set (L := config_log _ _ _ _ _ _ _ _ _ _ _ _ _ _ _ _ _ _ _ _ _ _ _ _).
  assert (Hpoll : forall f, (forall got, f (RCR reg_MISTAT got) = true) ->
    forallb f p1 = true /\ forallb f p2 = true /\ forallb f p3 = true /\ forallb f p4 = true).
  { intros f Hf. split_and!; by apply poll_forallb. }
  destruct (exec_log L m) as (m' & E & Hw & Hs).
  { unfold L, config_log, phy_log, phy_write_program, phy_read_program.
    destruct (Hpoll register_only) as (Q1 & Q2 & Q3 & Q4); [done|].
    rewrite !forallb_app, Q1, Q2, Q3, Q4. reflexivity. }
  exists m'. split; [done|].
  assert (Hbuf : forall r v, last_write r L = Some v -> reg_val m' r = v) by done.
  split; [|split; [by apply (Hs _ 0x04)|by apply (Hs _ 0x80)]].
  assert (Hskip : forall r l, mac_mii r = false -> r <> (0, 0x12) -> r <> (0, 0x14) ->
     last_write r (phy_log fs1 fc1 v1 fs2 fc2 v2 p1 p2 p3 p4 gx1 gc1 gh1 gl1 gx2 gc2 gh2 gl2 ++ l) =
     last_write r l).
  { intros r l Hm H12 H14. apply last_write_skip.
    assert (Hn : forall r', mac_mii r' = true -> negb (bool_decide (r' = r)) = true).
    { intros r' Hr'. rewrite bool_decide_false; [done|]. intros ->. congruence. }
    destruct (Hpoll (fun i => negb (writes r i))) as (Q1 & Q2 & Q3 & Q4); [done|].
    unfold phy_log, phy_write_program, phy_read_program. rewrite !forallb_app, Q1, Q2, Q3, Q4. simpl.
    rewrite !Hn by done. rewrite !bool_decide_false by done. reflexivity. }
  assert (Hb : forall r v, mac_mii r = false -> r <> (0, 0x12) -> r <> (0, 0x14) ->
     forallb (fun i => negb (writes r i)) (enable_log ++ mac_log c2 c1 c3 g2 g1 g3) = true ->
     last_write r buffers_log = Some v -> reg_val m' r = v).
  { intros r v H1 H2 H3 H4 H5. apply Hw. unfold L, config_log.
    rewrite app_assoc, last_write_skip, Hskip by done. exact H5. }
  unfold configuration. cbn [app zip zip_with reg_MAADR].
  do 12 (constructor; [apply Hb; reflexivity || done|]).
  repeat (constructor; [apply Hw; reflexivity|]). constructor.
Qed.

(** C24.  Start-up.  On a chip that ends every MII operation and brings up its
    clock within [fuel] polls, [enc28j60_strtDr] on a fresh driver object
    returns, whatever the chip answers; its last instructions, run on any
    register contents, leave the chip configured: the two disjoint buffer
    areas, the frame filters, the station address in the order of the wire,
    interrupts, pointer auto-increment and reception enabled. *)
Theorem strtDr_configures `{SpiSlave} s fuel :
  mii_fuel False fuel -> clock_fuel False fuel ->
  ready s -> coherent0 (view_of s) -> ptrAddr (rxPkt (ddev s)) = 0 -> v_shadow (view_of s) = bank_0 ->
  exists s' cfg probe, enc28j60_strtDr fuel s = Ret tt s' /\
    v_work (view_of s') = reverse cfg ++ probe ++ v_work (view_of s) /\
    forall m, exists m', exec_all cfg m = Some m' /\ configured_chip m'.
Proof.
  intros Hf Hck R Hc Hp Hsh.
  assert (W : wp (enc28j60_strtDr fuel) (fun _ s' => exists cfg probe,
     v_work (view_of s') = reverse cfg ++ probe ++ v_work (view_of s) /\
     forall m, exists m', exec_all cfg m = Some m' /\ configured_chip m') s).
  { apply run_total, (run_strtDr False); [done..|]. intros.
    match goal with V : view_of ?s' = View bank_1 0 (?l ++ _) _ _ |- context [view_of ?s'] =>
      exists (reverse l), probe; rewrite V, reverse_involutive end.
    split; [done|]. intros m. by apply config_log_effect. }
  destruct (wp_elim _ _ _ W) as ([] & s' & E & cfg & probe & V & X). by exists s', cfg, probe.
Qed.

(** The first PHY access of the start-up misses its registers.  The PHY
    set-up reads PHCON1 right after the buffer registers were written, with
    bank 2 still recorded as current: the PHY address goes to EDMADSTL and the
    MII read command to EDMANDL, so no MII read of PHCON1 is started. *)
Theorem strtDr_misses_PHCON1 `{SpiSlave} s fuel :
  mii_fuel False fuel -> clock_fuel False fuel ->
  ready s -> coherent0 (view_of s) -> ptrAddr (rxPkt (ddev s)) = 0 -> v_shadow (view_of s) = bank_0 ->
  exists s' after fs gx before, enc28j60_strtDr fuel s = Ret tt s' /\
    v_work (view_of s') = after ++
      [Pause 1; WCR reg_EDMANDL (u8 (Z.lor fs 0x01)); RCR reg_EDMANDL gx;
       WCR reg_EDMADSTL (PHCON1 dev_phyReg)] ++ buffers_log ++ before.
Proof.
  intros Hf Hck R Hc Hp Hsh.
  assert (W : wp (enc28j60_strtDr fuel) (fun _ s' => exists after fs gx before,
     v_work (view_of s') = after ++
      [Pause 1; WCR reg_EDMANDL (u8 (Z.lor fs 0x01)); RCR reg_EDMANDL gx;
       WCR reg_EDMADSTL (PHCON1 dev_phyReg)] ++ buffers_log ++ before) s).
  { apply run_total, (run_strtDr False); [done..|].
    intros fs1 fc1 v1 fs2 fc2 v2 c2 c1 c3 p1 p2 p3 p4 gx1 gc1 gh1 gl1 gx2 gc2 gh2 gl2 g2 g1 g3 probe s' _ _ _ _ _ V.
    exists (enable_log ++ mac_log c2 c1 c3 g2 g1 g3 ++ phy_write_program 2 0x12 (u16 (Z.lor v2 0x12)) p4 ++
      phy_read_program 2 0x12 fs2 fc2 p3 gx2 gc2 gh2 gl2 ++ phy_write_program 2 0x00 (u16 (Z.lor v1 0x100)) p2 ++
      [RCR reg_MIRDL gl1; RCR reg_MIRDH gh1; WCR reg_MICMD (u8 (Z.land fc1 (Z.lnot (bit 0))));
       RCR reg_MICMD gc1] ++ p1), fs1, gx1, (probe ++ v_work (view_of s)).
    rewrite V. unfold config_log, phy_log, phy_read_program at 2. cbn [v_work].
    rewrite <- !app_assoc. reflexivity. }
  destruct (wp_elim _ _ _ W) as ([] & s' & E & after & fs & gx & before & V).
  by exists s', after, fs, gx, before.
Qed.

(** ** A clock that never comes up *)

(** Every byte the device shifts out has its lowest bit clear. *)
Definition lowest_bit_clear `{SpiSlave} : Prop :=
  FullReplies /\ forall b n, Forall (fun x => Z.testbit x 0 = false) (rx_reply b n).2.

(** The wait for the oscillator has no timeout.  Against a device that
    never shifts out ESTAT.CLKRDY (such as a missing chip with the line held
    low), [enc28j60_strtDr] never returns: it exhausts every fuel. *)
Theorem strtDr_waits_for_clock `{SpiSlave} s fuel :
  lowest_bit_clear -> ready s -> coherent0 (view_of s) ->
  exists s', enc28j60_strtDr fuel s = Stop OutOfFuel s'.
Proof.
  intros [F L] R Hc.
  assert (W : wp (enc28j60_sftRst;; Delay 1) (fun _ s1 => ready s1 /\ coherent0 (view_of s1)) s).
  { apply wp_bind, wp_sftRst; [done|]. intros s1 R1 V1. apply wp_pause; [done|]. intros s2 R2 V2.
    split; [done|]. by rewrite V2, V1. }
  unfold enc28j60_strtDr. erewrite bind_Ret by reflexivity.
  destruct (wp_elim _ _ _ W) as ([] & s1 & E & R1 & C1).
  apply bind_inv in E as ([] & s0 & E0 & E1). erewrite bind_Ret by exact E0.
  erewrite bind_Ret by exact E1. rewrite (cf_bank0 _ (rd_conf _ R)).
  destruct (while_busy_forever fuel clock_poll (fun s => ready s /\ coherent0 (view_of s)) s1)
    as [s2 E2]; [done| |by exists s2; apply bind_Stop].
  intros s3 [R3 C3]. apply wp_bind, wp_readEtherReg; [done|]. intros a got s4 R4 G [[_ D] B] V4.
  destruct (B F) as [Hl _]. specialize (D _ L).
  destruct got as [|x [|]]; simpl in Hl; try lia. rewrite (G x eq_refl). inversion_clear D as [|? ? Hx _].
  rewrite (v_access_zero (fun g => RCR g [x])) in V4 by done.
  apply wp_ret. split_and!; [|done|by rewrite V4]. unfold has. by rewrite land_1, <- Z.bit0_mod, Hx.
Qed.

(** ** Example *)

#[local] Existing Instance idle_chip.

Lemma clock_fuel_idle : clock_fuel False 1.
Proof.
  intros s R Hc. right. apply settles_once. unfold clock_poll. apply wp_bind.
  unfold enc28j60_readEtherReg. apply wp_bind, wp_select; [done|]. intros s1 R1 V1.
  pose proof (rd_conf _ R1) as C1. apply wp_bind, wp_gets. rewrite (cf_op _ C1).
  apply wp_bind, wp_gets, wp_bind, wp_CS, wp_bind, wp_Write, wp_bind, wp_Read1; [done..|].
  intros a got L A G. apply wp_bind, wp_ChipDS, wp_ret; [done|]. apply wp_ret.
  rewrite A, G. unfold rx_bytes. reflexivity.
Qed.

Lemma strtDr_configures_witness :
  (exists s' cfg probe, enc28j60_strtDr 1 (started) = Ret tt s' /\
    v_work (view_of s') = reverse cfg ++ probe ++ [] /\
    forall m, exists m', exec_all cfg m = Some m' /\ configured_chip m').
Proof.
  exact (@strtDr_configures idle_chip (started) 1 mii_fuel_idle clock_fuel_idle
    (ready_started) (fun _ => eq_refl) eq_refl eq_refl).
Defined.

Lemma strtDr_misses_PHCON1_witness :
  exists s' after fs gx before, enc28j60_strtDr 1 started = Ret tt s' /\
    v_work (view_of s') = after ++
      [Pause 1; WCR reg_EDMANDL (u8 (Z.lor fs 0x01)); RCR reg_EDMANDL gx;
       WCR reg_EDMADSTL (PHCON1 dev_phyReg)] ++ buffers_log ++ before.
Proof.
  exact (strtDr_misses_PHCON1 started 1 mii_fuel_idle clock_fuel_idle ready_started (fun _ => eq_refl)
    eq_refl eq_refl).
Defined.

(** No chip on the bus: every byte read is zero. *)
Definition no_chip : SpiSlave := constant_slave 0.

Lemma no_chip_clear : lowest_bit_clear (H := no_chip).
Proof.
  split.
  - intros b n Hn. simpl. rewrite length_replicate. split; [lia|]. by apply Forall_replicate.
  - intros b n. by apply Forall_replicate.
Qed.

Lemma strtDr_waits_for_clock_witness :
  exists s', enc28j60_strtDr (H := no_chip) 1000 (started (H := no_chip)) = Stop OutOfFuel s'.
Proof.
  exact (@strtDr_waits_for_clock no_chip (started (H := no_chip)) 1000 no_chip_clear
    (ready_started (H := no_chip)) (fun _ => eq_refl)).
Defined.
