(* ===== verification/Safety.v ===== *)
(** Driver-wide invariants: what every sequence of driver calls keeps, for
    every device and even when a busy wait never ends. *)
From S2P Require Import Prelude Bus Regs Driver Chip DriverFacts Transfer Receive Banks Startup.

(** The public functions of [enc28j60_hwd.c], as requests. *)
Inductive request : Type :=
| RqStart
| RqReset
| RqTransmit (data : list Z) (length : Z)
| RqReceive
| RqReadPhy (addr : Z)
| RqWritePhy (addr data : Z)
| RqPhyPartNumber
| RqPhyIdentifier
| RqPhyRevNumber
| RqPhyFlag (reg : enc28j60Drv -> Z) (k : Z)
| RqPhyInterrupt
| RqWakeUpInterrupt
| RqEtherInterrupt
| RqMacInit
| RqPhyInit
| RqFilters (filter : Z)
| RqClearInterrupt (f : eth_int_flag)
| RqGlobalIntSet
| RqGlobalIntClear
| RqLinkChangeIntClear.

(** An instruction the data sheet allows: one of the instruction set, and bit
    field operations on ETH registers only. *)
Definition proper (i : instr) : Prop :=
  match i with
  | Malformed _ => False
  | BFS r _ | BFC r _ => mac_mii r = false
  | _ => True
  end.

(** A transmit request names bytes the caller has. *)
Definition valid_request (q : request) : Prop :=
  match q with RqTransmit data length => length <= Z.of_nat (List.length data) | _ => True end.

Section Safety.
Context `{SpiSlave} (fuel : nat).

Definition serve (q : request) : M drv unit :=
  match q with
  | RqStart => enc28j60_strtDr fuel
  | RqReset => enc28j60_sftRst
  | RqTransmit data length => enc28j60_etherTransmit data length;; mret tt
  | RqReceive => enc28j60_etherReceive;; mret tt
  | RqReadPhy addr => enc28j60_readPhyReg fuel addr;; mret tt
  | RqWritePhy addr data => enc28j60_writePhyReg fuel addr data
  | RqPhyPartNumber => enc28j60_getPhyPartNumber fuel;; mret tt
  | RqPhyIdentifier => enc28j60_getPhyIdentifier fuel;; mret tt
  | RqPhyRevNumber => enc28j60_getPhyRevNumber fuel;; mret tt
  | RqPhyFlag reg k => phy_flag fuel reg k;; mret tt
  | RqPhyInterrupt => enc28j60_getPhyInterrupt fuel;; mret tt
  | RqWakeUpInterrupt => enc28j60_getwakeUpInterrupt;; mret tt
  | RqEtherInterrupt => enc28j60_getEtherInterrupt;; mret tt
  | RqMacInit => enc2860_macInit
  | RqPhyInit => enc2860_phyInit fuel
  | RqFilters filter => enc28j60_rxSetFilters filter
  | RqClearInterrupt f => enc28j60_clear_interrupt f
  | RqGlobalIntSet => enc28j60_global_Int_Set
  | RqGlobalIntClear => enc28j60_global_int_Clear
  | RqLinkChangeIntClear => enc28j60_link_change_int_clear
  end.

Record driver_inv (s : drv) : Prop := {
  di_ready : ready s;
  di_bank : bank_inv (view_of s);
  di_proper : Forall proper (v_work (view_of s))
}.

(** A computation that keeps the invariant, wherever it ends. *)
Definition keeps {A} (m : M drv A) : Prop := forall s, driver_inv s -> safe driver_inv m (fun _ _ => True) s.

Lemma keeps_bind {A B} (m : M drv A) (f : A -> M drv B) :
  keeps m -> (forall a, keeps (f a)) -> keeps (m ≫= f).
Proof.
  intros Hm Hf s Hs. apply safe_bind. eapply safe_mono; [by apply Hm|]. intros a s' _ Hs'. by apply Hf.
Qed.

Lemma keeps_ret {A} (a : A) : keeps (mret a).
Proof. by intros s Hs. Qed.

Lemma keeps_wp {A} (m : M drv A) :
  (forall s, driver_inv s -> wp m (fun _ s' => driver_inv s') s) -> keeps m.
Proof.
  intros Hm s Hs. apply safe_wp. eapply wp_mono; [by apply Hm|]. by intros a s' Hs'.
Qed.

Lemma keeps_when b (m : M drv unit) : keeps m -> keeps (when b m).
Proof. destruct b; [done|]. intros _. apply keeps_ret. Qed.

Lemma keeps_dev {A} (f : enc28j60Drv -> M drv A) :
  (forall d, configured d -> keeps (f d)) -> keeps (d ← gets ddev; f d).
Proof.
  intros Hf s Hs. apply safe_bind, safe_gets; [done|]. intros _. apply Hf; [by apply rd_conf, di_ready|done].
Qed.

Lemma keeps_gets {A} (f : drv -> A) : keeps (gets f).
Proof. by intros s Hs. Qed.

Lemma keeps_while n (c : M drv bool) : keeps c -> keeps (while_busy n c).
Proof.
  intros Hc s Hs. apply (safe_while _ _ _ (fun _ => True)); [done..|]. intros s1 H1 _.
  eapply safe_mono; [by apply Hc|]. by intros [].
Qed.

(** ** Accesses *)

Lemma inv_do i v s' :
  ready s' -> bank_inv v -> Forall proper (v_work v) -> bank_select i = false ->
  bank_after (v_bank v) i = v_bank v -> proper i -> view_of s' = v_do i v -> driver_inv s'.
Proof.
  intros R Hb Hw Hs Ha Hp V. split; [done|rewrite V|rewrite V]; unfold v_do.
  - rewrite Ha. exact Hb.
  - rewrite Hs. by constructor.
Qed.

Lemma inv_access f r s s' :
  driver_inv s -> ready s' -> view_of s' = v_access f r (view_of s) ->
  (forall k, bank_select (f (reg_at k (r mod 32))) = false /\
             bank_after k (f (reg_at k (r mod 32))) = k /\ proper (f (reg_at k (r mod 32)))) ->
  driver_inv s'.
Proof.
  intros [R B P] R' V Hf. eapply (inv_do _ (v_select (convertRegValToBank r) (view_of s))); [done| | | | | |exact V].
  - apply bank_inv_select; [apply convert_not_undef|done].
  - by rewrite v_select_work.
  - apply Hf.
  - apply Hf.
  - apply Hf.
Qed.

Lemma keeps_writeReg r v : r mod 32 <> 31 -> keeps (enc28j60_writeReg r v).
Proof.
  intros Hr. apply keeps_wp. intros s Hs. apply wp_writeReg; [by apply di_ready|]. intros s' R' V'.
  apply (inv_access _ _ _ _ Hs R' V'). intros k. split_and!; [done| |done]. simpl.
  rewrite decide_False; [done|]. unfold reg_at, reg_ECON1. case_match; congruence.
Qed.

Lemma keeps_readMacMIIReg r : keeps (enc28j60_readMacMIIReg r).
Proof.
  apply keeps_wp. intros s Hs. apply wp_readMacMIIReg; [by apply di_ready|]. intros a got s' R' _ _ V'.
  by apply (inv_access _ _ _ _ Hs R' V').
Qed.

Lemma keeps_readEtherReg r : keeps (enc28j60_readEtherReg r).
Proof.
  apply keeps_wp. intros s Hs. apply wp_readEtherReg; [by apply di_ready|]. intros a got s' R' _ _ V'.
  by apply (inv_access _ _ _ _ Hs R' V').
Qed.

Lemma inv_zero i s s' :
  driver_inv s -> ready s' -> proper i -> view_of s' = v_zero i (view_of s) -> driver_inv s'.
Proof. intros [R B P] R' Hi V. split; [done|rewrite V; by left|rewrite V; by constructor]. Qed.

Lemma mac_mii_reg0 a : mac_mii (reg_at 0 a) = false.
Proof. unfold reg_at. by case_match. Qed.

Lemma keeps_BitFieldSet r v :
  convertRegValToBank r = bank_0 -> plain (BFS (reg_at 0 (r mod 32)) v) -> keeps (enc28j60_BitFieldSet r v).
Proof.
  intros Hr Hp. apply keeps_wp. intros s Hs.
  apply wp_set0; [by apply di_ready|by apply bank_inv_coherent0, di_bank|done..|].
  intros s' R' V'. eapply inv_zero; [done..| |done]. apply mac_mii_reg0.
Qed.

Lemma keeps_BitFieldClear r v :
  convertRegValToBank r = bank_0 -> plain (BFC (reg_at 0 (r mod 32)) v) -> keeps (enc28j60_BitFieldClear r v).
Proof.
  intros Hr Hp. apply keeps_wp. intros s Hs.
  apply wp_clear0; [by apply di_ready|by apply bank_inv_coherent0, di_bank|done..|].
  intros s' R' V'. eapply inv_zero; [done..| |done]. apply mac_mii_reg0.
Qed.

Lemma keeps_Delay ms : keeps (Delay ms).
Proof.
  apply keeps_wp. intros s [R B P]. apply wp_pause; [done|]. intros s' R' V'.
  split; [done|by rewrite V'|rewrite V'; by constructor].
Qed.

Lemma keeps_sftRst : keeps enc28j60_sftRst.
Proof.
  apply keeps_wp. intros s [R B P]. apply wp_sftRst; [done|]. intros s' R' V'.
  split; [done|rewrite V'; by left|rewrite V'; by constructor].
Qed.

Lemma keeps_etherTransmit data length :
  length <= Z.of_nat (List.length data) -> keeps (enc28j60_etherTransmit data length).
Proof.
  intros Hl. apply keeps_wp. intros s [R B P].
  eapply wp_mono; [by apply etherTransmit_wp; [|apply bank_inv_coherent0|]|].
  intros ok s' (_ & R' & V'). split; [done|rewrite V'; by left|rewrite V'].
  apply Forall_app. split; [|done]. by repeat constructor.
Qed.

Lemma keeps_etherReceive : keeps enc28j60_etherReceive.
Proof.
  apply keeps_wp. intros s [R B P].
  eapply wp_mono; [by apply etherReceive_wp; [|apply bank_inv_coherent0]|].
  intros ok s' (R' & _ & hdr & stat & body & d1 & [_ _ _ _ _ V']).
  split; [done|rewrite V'; by left|rewrite V']. by repeat constructor.
Qed.
End Safety.

(** The registers of a configured object are the constants of [dev]. *)
Ltac known_registers C :=
  rewrite ?(cf_bank0 _ C), ?(cf_bank1 _ C), ?(cf_bank2 _ C), ?(cf_bank3 _ C), ?(cf_phy _ C).

Create HintDb keeps.
#[export] Hint Resolve keeps_ret keeps_when keeps_gets keeps_while keeps_readMacMIIReg
  keeps_readEtherReg keeps_Delay keeps_sftRst keeps_etherTransmit keeps_etherReceive : keeps.
#[export] Hint Extern 1 (keeps (enc28j60_writeReg _ _)) => apply keeps_writeReg; vm_compute; congruence : keeps.
#[export] Hint Extern 1 (keeps (enc28j60_BitFieldSet _ _)) =>
  apply keeps_BitFieldSet; [reflexivity|split; reflexivity] : keeps.
#[export] Hint Extern 1 (keeps (enc28j60_BitFieldClear _ _)) =>
  apply keeps_BitFieldClear; [reflexivity|split; reflexivity] : keeps.
#[export] Hint Extern 2 (keeps (gets ddev ≫= _)) =>
  let d := fresh "d" in let C := fresh "C" in apply keeps_dev; intros d C; known_registers C : keeps.
#[export] Hint Extern 3 (keeps (_ ≫= _)) => apply keeps_bind; [|intros ?] : keeps.

Section Requests.
Context `{SpiSlave} (fuel : nat).

Lemma keeps_wait_MISTAT : keeps (wait_MISTAT fuel).
Proof. unfold wait_MISTAT. auto 10 with keeps. Qed.
#[local] Hint Resolve keeps_wait_MISTAT : keeps.

Lemma keeps_readPhyReg addr : keeps (enc28j60_readPhyReg fuel addr).
Proof. unfold enc28j60_readPhyReg. auto 30 with keeps. Qed.

Lemma keeps_writePhyReg addr data : keeps (enc28j60_writePhyReg fuel addr data).
Proof. unfold enc28j60_writePhyReg. auto 30 with keeps. Qed.
#[local] Hint Resolve keeps_readPhyReg keeps_writePhyReg : keeps.

Lemma keeps_getPhy : keeps (enc28j60_getPhyRevNumber fuel) /\ keeps (enc28j60_getPhyPartNumber fuel) /\
  keeps (enc28j60_getPhyIdentifier fuel).
Proof.
  unfold enc28j60_getPhyRevNumber, enc28j60_getPhyPartNumber, enc28j60_getPhyIdentifier.
  split_and!; auto 10 with keeps.
Qed.

Lemma keeps_macInit : keeps enc2860_macInit.
Proof. unfold enc2860_macInit. auto 40 with keeps. Qed.

Lemma keeps_phyInit : keeps (enc2860_phyInit fuel).
Proof. unfold enc2860_phyInit. auto 20 with keeps. Qed.

Lemma keeps_rxSetFilters filter : keeps (enc28j60_rxSetFilters filter).
Proof. unfold enc28j60_rxSetFilters. auto 20 with keeps. Qed.

Lemma keeps_program_buffers d : configured d -> keeps (program_buffers d).
Proof. intros C. unfold program_buffers. known_registers C. auto 30 with keeps. Qed.
#[local] Hint Resolve keeps_macInit keeps_phyInit keeps_rxSetFilters keeps_program_buffers : keeps.

Lemma keeps_strtDr : keeps (enc28j60_strtDr fuel).
Proof.
  destruct keeps_getPhy as (P1 & P2 & P3).
  unfold enc28j60_strtDr. auto 40 with keeps.
Qed.

Lemma keeps_etherInterrupt : keeps enc28j60_getEtherInterrupt.
Proof. unfold enc28j60_getEtherInterrupt. apply keeps_dev. intros d C. case_match; auto with keeps. Qed.

Lemma keeps_clear_interrupt f : keeps (enc28j60_clear_interrupt f).
Proof.
  unfold enc28j60_clear_interrupt. apply keeps_dev. intros d C. known_registers C.
  apply keeps_when. case_decide; [auto with keeps|].
  apply keeps_BitFieldClear; [done|]. by destruct f.
Qed.

Lemma keeps_serve q : valid_request q -> keeps (serve fuel q).
Proof.
  pose proof keeps_strtDr. pose proof keeps_etherInterrupt. pose proof keeps_clear_interrupt.
  destruct keeps_getPhy as (? & ? & ?).
  destruct q; intros Hq; unfold serve, phy_flag, enc28j60_getPhyInterrupt, enc28j60_getwakeUpInterrupt,
    enc28j60_global_Int_Set, enc28j60_global_int_Clear, enc28j60_link_change_int_clear; auto 10 with keeps.
Qed.

(** C25.  Driver-wide safety.  Every sequence of driver calls, started on a
    configured driver in a coherent bank state, against any device, with any
    fuel, and wherever it stops: the driver object stays configured, the
    chip's bank is 0 or the one the driver recorded, every byte sequence
    between two chip selects was an instruction of the set, and no bit field
    operation hit a MAC or MII register (where the chip does not support it). *)
Theorem driver_requests_safe (qs : list request) s :
  Forall valid_request qs -> driver_inv s ->
  driver_inv (outcome_state (for_each qs (serve fuel) s)).
Proof.
  intros Hq. revert s. induction Hq as [|q qs Hq _ IH]; intros s Hs; [done|]. simpl.
  pose proof (keeps_serve q Hq s Hs) as K. unfold safe in K.
  unfold mbind, M_bind. destruct (serve fuel q s) as [[] s1|w s1]; [apply IH, K|exact K].
Qed.
End Requests.

Lemma driver_inv_started `{SpiSlave} : driver_inv started.
Proof. split; [apply ready_started|by left|constructor]. Qed.

Lemma driver_requests_safe_witness :
  driver_inv (H := idle_chip) (outcome_state (for_each [RqStart; RqTransmit [1; 2; 3] 2; RqReceive; RqReadPhy 3]
    (serve (H := idle_chip) 1) (started (H := idle_chip)))).
Proof.
  apply (@driver_requests_safe idle_chip 1).
  - by repeat constructor.
  - apply (@driver_inv_started idle_chip).
Defined.
