(* ===== verification/Memp.v ===== *)
(** lwIP's pool allocator: [src/lwip-2.2.1/src/core/memp.c].

    The pools of this configuration ([NO_SYS], IPv4 only, no overflow checks,
    no statistics).  A pool is the free list of its elements, newest first; an
    element is named by its index in the pool's array. *)
From stdpp Require Import functions.
From S2P Require Import Prelude.

Inductive memp_t : Type :=
| MEMP_UDP_PCB | MEMP_TCP_PCB | MEMP_TCP_PCB_LISTEN | MEMP_TCP_SEG | MEMP_REASSDATA
| MEMP_FRAG_PBUF | MEMP_SYS_TIMEOUT | MEMP_PBUF | MEMP_PBUF_POOL.

#[global] Instance memp_t_eq_dec : EqDecision memp_t.
Proof. solve_decision. Defined.

Definition memp_index (t : memp_t) : nat :=
  match t with
  | MEMP_UDP_PCB => 0 | MEMP_TCP_PCB => 1 | MEMP_TCP_PCB_LISTEN => 2 | MEMP_TCP_SEG => 3
  | MEMP_REASSDATA => 4 | MEMP_FRAG_PBUF => 5 | MEMP_SYS_TIMEOUT => 6 | MEMP_PBUF => 7
  | MEMP_PBUF_POOL => 8
  end.

Definition memp_all : list memp_t :=
  [MEMP_UDP_PCB; MEMP_TCP_PCB; MEMP_TCP_PCB_LISTEN; MEMP_TCP_SEG; MEMP_REASSDATA;
   MEMP_FRAG_PBUF; MEMP_SYS_TIMEOUT; MEMP_PBUF; MEMP_PBUF_POOL].

#[global] Program Instance memp_t_countable : Countable memp_t :=
  {| encode t := encode (memp_index t); decode p := n ← decode p; memp_all !! (n : nat) |}.
Next Obligation. by intros []. Qed.

(** [LWIP_NUM_SYS_TIMEOUT_INTERNAL]: TCP, IP reassembly, ARP, twice DHCP and
    DNS; address conflict detection, IGMP, PPP and IPv6 are off. *)
Definition LWIP_NUM_SYS_TIMEOUT_INTERNAL : nat := 1 + 1 + 1 + 2 * 1 + 0 + 0 + 1 + 0 + 0.

(** [desc->num]. *)
Definition memp_num (t : memp_t) : nat :=
  match t with
  | MEMP_UDP_PCB => 4
  | MEMP_TCP_PCB => 5
  | MEMP_TCP_PCB_LISTEN => 8
  | MEMP_TCP_SEG => 16
  | MEMP_REASSDATA => 5
  | MEMP_FRAG_PBUF => 15
  | MEMP_SYS_TIMEOUT => LWIP_NUM_SYS_TIMEOUT_INTERNAL
  | MEMP_PBUF => 16
  | MEMP_PBUF_POOL => 16
  end.

(** [*desc->tab] of every pool. *)
Abbreviation memp_pools := (memp_t -> list nat).

(** [for (i = 0; i < num; ++i) { memp->next = *tab; *tab = memp; ... }]. *)
Definition memp_init_pool (t : memp_t) (ps : memp_pools) : memp_pools :=
  <[t := foldl (fun tab i => i :: tab) [] (seq 0 (memp_num t))]> ps.

Definition memp_init (ps : memp_pools) : memp_pools := foldl (fun ps t => memp_init_pool t ps) ps memp_all.

Definition do_memp_malloc_pool (t : memp_t) : M memp_pools (option nat) :=
  ps ← get;
  match ps t with
  | memp :: next => put (<[t := next]> ps);; mret (Some memp)
  | [] => mret None
  end.

Definition memp_malloc (t : memp_t) : M memp_pools (option nat) := do_memp_malloc_pool t.

Definition do_memp_free_pool (t : memp_t) (mem : nat) : M memp_pools unit :=
  modify (fun ps => <[t := mem :: ps t]> ps).

Definition memp_free (t : memp_t) (mem : option nat) : M memp_pools unit :=
  match mem with None => mret tt | Some m => do_memp_free_pool t m end.

(** ** The pools hand out each element once *)

(** The elements of a pool are either free or [used], never both. *)
Definition pool_ok (t : memp_t) (free used : list nat) : Prop :=
  free ++ used ≡ₚ seq 0 (memp_num t).

Lemma pool_ok_init t ps : pool_ok t (memp_init ps t) [].
Proof.
  unfold pool_ok. rewrite app_nil_r.
  destruct t; vm_compute; (etransitivity; [apply Permutation_rev|reflexivity]).
Qed.

Lemma pool_ok_fresh t i free used : pool_ok t (i :: free) used -> (i ∉ free) /\ (i ∉ used).
Proof.
  intros H. assert (N : NoDup (i :: free ++ used)).
  { unfold pool_ok in H. change (NoDup ((i :: free) ++ used)). rewrite H. apply NoDup_seq. }
  apply NoDup_cons in N as [N _]. rewrite elem_of_app in N. tauto.
Qed.

Lemma pool_ok_malloc t i free used : pool_ok t (i :: free) used -> pool_ok t free (i :: used).
Proof. unfold pool_ok. by rewrite <- Permutation_middle. Qed.

Lemma pool_ok_free t i free used used' :
  used ≡ₚ i :: used' -> pool_ok t free used -> pool_ok t (i :: free) used'.
Proof. unfold pool_ok. intros -> <-. by rewrite <- Permutation_middle. Qed.

Lemma pool_ok_length t free used : pool_ok t free used -> (length free + length used = memp_num t)%nat.
Proof. unfold pool_ok. intros H. rewrite <- length_app, H. apply length_seq. Qed.

Lemma wp_memp_malloc t (Q : option nat -> memp_pools -> Prop) ps :
  (ps t = [] -> Q None ps) ->
  (forall i next, ps t = i :: next -> Q (Some i) (<[t := next]> ps)) -> wp (memp_malloc t) Q ps.
Proof.
  intros HN HS. unfold memp_malloc, do_memp_malloc_pool. apply wp_bind, wp_get.
  destruct (ps t) as [|i next]; [by apply HN|]. apply wp_bind. by apply HS.
Qed.
