(* ===== verification/Timeouts.v ===== *)
(** lwIP's software timers, [src/lwip-2.2.1/src/core/timeouts.c], over the
    port's clock, [src/lwip-2.2.1/contrib/ports/STM32F401re/src/sys_arch.c].

    The list [next_timeout] is a Rocq list, head first; each entry carries the
    pool element that stores it.  What the timer functions do to the rest of
    the system is the class [TimerEnv]. *)
From stdpp Require Import functions.
From S2P Require Import Prelude Memp.

Definition LWIP_MAX_TIMEOUT : Z := 0x7fffffff.
Definition TIME_LESS_THAN (t compare_to : Z) : bool := LWIP_MAX_TIMEOUT <? u32 (t - compare_to).

Definition TCP_TMR_INTERVAL : Z := 250.
Definition IP_TMR_INTERVAL : Z := 1000.
Definition ARP_TMR_INTERVAL : Z := 1000.
Definition DHCP_COARSE_TIMER_MSECS : Z := 60 * 1000.
Definition DHCP_FINE_TIMER_MSECS : Z := 500.
Definition DNS_TMR_INTERVAL : Z := 1000.

(** The functions of the cyclic table. *)
Inductive timer_fn : Type :=
| tcp_tmr | ip_reass_tmr | etharp_tmr | dhcp_coarse_tmr | dhcp_fine_tmr | dns_tmr.

(** [struct lwip_cyclic_timer]. *)
Record lwip_cyclic_timer_t : Type := { interval_ms : Z; cyclic_handler : timer_fn }.

Definition lwip_cyclic_timers : list lwip_cyclic_timer_t := [
  {| interval_ms := TCP_TMR_INTERVAL; cyclic_handler := tcp_tmr |};
  {| interval_ms := IP_TMR_INTERVAL; cyclic_handler := ip_reass_tmr |};
  {| interval_ms := ARP_TMR_INTERVAL; cyclic_handler := etharp_tmr |};
  {| interval_ms := DHCP_COARSE_TIMER_MSECS; cyclic_handler := dhcp_coarse_tmr |};
  {| interval_ms := DHCP_FINE_TIMER_MSECS; cyclic_handler := dhcp_fine_tmr |};
  {| interval_ms := DNS_TMR_INTERVAL; cyclic_handler := dns_tmr |}
].

(** The handlers that are registered: the two of this file and those of
    clients, by address; a handler may be NULL. *)
Inductive sys_timeout_handler : Type :=
| H_lwip_cyclic_timer
| H_tcpip_tcp_timer
| H_client (f : Z).

(** [void *arg]. *)
Inductive timer_arg : Type :=
| ArgNull
| ArgCyclic (i : nat)   (** [&lwip_cyclic_timers[i]] *)
| ArgPtr (p : Z).

#[global] Instance sys_timeout_handler_eq_dec : EqDecision sys_timeout_handler.
Proof. solve_decision. Defined.
#[global] Instance timer_arg_eq_dec : EqDecision timer_arg.
Proof. solve_decision. Defined.

(** [struct sys_timeo]; [elem] is the element of MEMP_SYS_TIMEOUT it occupies. *)
Record sys_timeo : Type := Timeo {
  time : Z;
  h : option sys_timeout_handler;
  arg : timer_arg;
  elem : nat
}.

(** The statics of timeouts.c and sys_arch.c, the pools, and the rest [world]. *)
Record sys (W : Type) : Type := Sys {
  millisec : Z;
  next_timeout : list sys_timeo;
  current_timeout_due_time : Z;
  tcpip_tcp_timer_active : bool;
  pools : memp_pools;
  world : W
}.
Arguments Sys {W} _ _ _ _ _ _.
Arguments millisec {W} _.
Arguments next_timeout {W} _.
Arguments current_timeout_due_time {W} _.
Arguments tcpip_tcp_timer_active {W} _.
Arguments pools {W} _.
Arguments world {W} _.

Section Updates.
Context {W : Type}.

Definition set_timeouts (l : list sys_timeo) (s : sys W) : sys W :=
  Sys (millisec s) l (current_timeout_due_time s) (tcpip_tcp_timer_active s) (pools s) (world s).
Definition set_due (t : Z) (s : sys W) : sys W :=
  Sys (millisec s) (next_timeout s) t (tcpip_tcp_timer_active s) (pools s) (world s).
Definition set_active (b : bool) (s : sys W) : sys W :=
  Sys (millisec s) (next_timeout s) (current_timeout_due_time s) b (pools s) (world s).
Definition set_pools (ps : memp_pools) (s : sys W) : sys W :=
  Sys (millisec s) (next_timeout s) (current_timeout_due_time s) (tcpip_tcp_timer_active s) ps (world s).
Definition set_millisec (t : Z) (s : sys W) : sys W :=
  Sys t (next_timeout s) (current_timeout_due_time s) (tcpip_tcp_timer_active s) (pools s) (world s).
Definition set_world (w : W) (s : sys W) : sys W :=
  Sys (millisec s) (next_timeout s) (current_timeout_due_time s) (tcpip_tcp_timer_active s) (pools s) w.

Definition memp {A} (m : M memp_pools A) : M (sys W) A := zoom pools set_pools m.
End Updates.

(** What the timers call: the cyclic functions and the clients' handlers may
    do anything to the system, timers included; [tcp_pcbs] is
    [tcp_active_pcbs || tcp_tw_pcbs]; [PBUF_CHECK_FREE_OOSEQ] is pbuf.h's. *)
Class TimerEnv (W : Type) : Type := {
  run_timer : timer_fn -> M (sys W) unit;
  client_timer : Z -> timer_arg -> M (sys W) unit;
  tcp_pcbs : W -> bool;
  PBUF_CHECK_FREE_OOSEQ : M (sys W) unit
}.

(** Insert before the first later entry: the [else] branch of
    [sys_timeout_abs], from the entry [t] of the loop on. *)
Fixpoint insert_after (timeout t : sys_timeo) (rest : list sys_timeo) : list sys_timeo :=
  match rest with
  | [] => [t; timeout]
  | t' :: rest' =>
    if TIME_LESS_THAN (time timeout) (time t') then t :: timeout :: rest
    else t :: insert_after timeout t' rest'
  end.

Definition insert_timeout (timeout : sys_timeo) (l : list sys_timeo) : list sys_timeo :=
  match l with
  | [] => [timeout]
  | t :: rest =>
    if TIME_LESS_THAN (time timeout) (time t) then timeout :: l
    else insert_after timeout t rest
  end.

(** Remove the first entry with this handler and argument. *)
Fixpoint remove_timeout (handler : sys_timeout_handler) (a : timer_arg) (l : list sys_timeo) :
    option (sys_timeo * list sys_timeo) :=
  match l with
  | [] => None
  | t :: rest =>
    if decide (h t = Some handler /\ arg t = a) then Some (t, rest)
    else '(x, rest') ← remove_timeout handler a rest; Some (x, t :: rest')
  end.

Section Timeouts.
Context {W : Type} `{TimerEnv W}.

(** ** The port's clock *)

Definition sys_now : M (sys W) Z := gets millisec.

Definition sys_now_increment : M (sys W) unit := modify (fun s => set_millisec (u32 (millisec s + 500)) s).

(** ** The list of timeouts *)

Definition sys_timeout_abs (abs_time : Z) (handler : option sys_timeout_handler) (a : timer_arg) :
    M (sys W) unit :=
  timeout ← memp (memp_malloc MEMP_SYS_TIMEOUT);
  match timeout with
  | None => mret tt
  | Some e =>
    let timeout := {| time := abs_time; h := handler; arg := a; elem := e |} in
    modify (fun s => set_timeouts (insert_timeout timeout (next_timeout s)) s)
  end.

Definition sys_timeout (msecs : Z) (handler : option sys_timeout_handler) (a : timer_arg) : M (sys W) unit :=
  now ← sys_now;
  sys_timeout_abs (u32 (now + msecs)) handler a.

Definition sys_untimeout (handler : sys_timeout_handler) (a : timer_arg) : M (sys W) unit :=
  l ← gets next_timeout;
  match remove_timeout handler a l with
  | None => mret tt
  | Some (t, rest) =>
    modify (set_timeouts rest);;
    memp (memp_free MEMP_SYS_TIMEOUT (Some (elem t)))
  end.

(** ** The handlers of this file *)

Definition lwip_cyclic_timer (cyclic : lwip_cyclic_timer_t) (a : timer_arg) : M (sys W) unit :=
  run_timer (cyclic_handler cyclic);;
  now ← sys_now;
  due ← gets current_timeout_due_time;
  let next_timeout_time := u32 (due + interval_ms cyclic) in
  if TIME_LESS_THAN next_timeout_time now then
    sys_timeout_abs (u32 (now + interval_ms cyclic)) (Some H_lwip_cyclic_timer) a
  else
    sys_timeout_abs next_timeout_time (Some H_lwip_cyclic_timer) a.

Definition tcpip_tcp_timer : M (sys W) unit :=
  run_timer tcp_tmr;;
  w ← gets world;
  if tcp_pcbs w then sys_timeout TCP_TMR_INTERVAL (Some H_tcpip_tcp_timer) ArgNull
  else modify (set_active false).

Definition tcp_timer_needed : M (sys W) unit :=
  s ← get;
  when (negb (tcpip_tcp_timer_active s) && tcp_pcbs (world s))
    (modify (set_active true);;
     sys_timeout TCP_TMR_INTERVAL (Some H_tcpip_tcp_timer) ArgNull).

(** [handler(arg)]. *)
Definition call_handler (handler : sys_timeout_handler) (a : timer_arg) : M (sys W) unit :=
  match handler with
  | H_lwip_cyclic_timer =>
    match a with
    | ArgCyclic i => c ← deref BadPointer (lwip_cyclic_timers !! i); lwip_cyclic_timer c a
    | ArgNull => halt NullDeref
    | ArgPtr _ => halt BadPointer
    end
  | H_tcpip_tcp_timer => tcpip_tcp_timer
  | H_client f => client_timer f a
  end.

(** [for (i = LWIP_TCP ? 1 : 0; ...)]: the TCP timer is started on demand. *)
Definition sys_timeouts_init : M (sys W) unit :=
  for_each (seq 1 (length lwip_cyclic_timers - 1)) (fun i =>
    c ← deref BadPointer (lwip_cyclic_timers !! i);
    sys_timeout (interval_ms c) (Some H_lwip_cyclic_timer) (ArgCyclic i)).

(** One round of the loop of [sys_check_timeouts]; [now] is read once, before it. *)
Definition check_round (now : Z) (_ : unit) : M (sys W) (unit + unit) :=
  PBUF_CHECK_FREE_OOSEQ;;
  l ← gets next_timeout;
  match l with
  | [] => mret (inr tt)
  | tmptimeout :: rest =>
    if TIME_LESS_THAN now (time tmptimeout) then mret (inr tt)
    else
      modify (set_timeouts rest);;
      modify (set_due (time tmptimeout));;
      memp (memp_free MEMP_SYS_TIMEOUT (Some (elem tmptimeout)));;
      match h tmptimeout with
      | Some handler => call_handler handler (arg tmptimeout);; mret (inl tt)
      | None => mret (inl tt)
      end
  end.

Definition sys_check_timeouts (fuel : nat) : M (sys W) unit :=
  now ← sys_now;
  iter fuel (check_round now) tt.

Definition sys_restart_timeouts : M (sys W) unit :=
  l ← gets next_timeout;
  match l with
  | [] => mret tt
  | head :: _ =>
    now ← sys_now;
    let base := time head in
    modify (set_timeouts (map (fun t =>
      {| time := u32 (u32 (time t - base) + now); h := h t; arg := arg t; elem := elem t |}) l))
  end.

Definition SYS_TIMEOUTS_SLEEPTIME_INFINITE : Z := 0xFFFFFFFF.

Definition sys_timeouts_sleeptime : M (sys W) Z :=
  l ← gets next_timeout;
  match l with
  | [] => mret SYS_TIMEOUTS_SLEEPTIME_INFINITE
  | head :: _ =>
    now ← sys_now;
    mret (if TIME_LESS_THAN (time head) now then 0 else u32 (time head - now))
  end.
End Timeouts.
