(* ===== verification/TimeoutFacts.v ===== *)
(** The timers: order of the list, conservation of the pool, termination of
    [sys_check_timeouts], and the size of the pool against its users. *)
From stdpp Require Import functions sorting.
From S2P Require Import Prelude Memp Timeouts.

(** ** Times as distances from a base, modulo 2^32 *)

Definition delta (b t : Z) : Z := u32 (t - b).

Lemma TIME_LESS_THAN_delta b t c :
  delta b t < 2 ^ 31 -> delta b c < 2 ^ 31 -> TIME_LESS_THAN t c = (delta b t <? delta b c).
Proof.
  unfold TIME_LESS_THAN, LWIP_MAX_TIMEOUT, delta. intros Ht Hc.
  assert (E : u32 (t - c) = u32 (u32 (t - b) - u32 (c - b))).
  { unfold u32. rewrite <- Zminus_mod. f_equal. lia. }
  rewrite E. pose proof (u32_range (t - b)). pose proof (u32_range (c - b)).
  set (x := u32 (t - b)) in *. set (y := u32 (c - b)) in *.
  destruct (Z.ltb_spec x y) as [Hl|Hl].
  - apply Z.ltb_lt. unfold u32. rewrite <- (Z_mod_plus_full _ 1), Z.mod_small by lia. lia.
  - apply Z.ltb_ge. rewrite u32_small by lia. lia.
Qed.

(** All times are less than 2^31 ms after [b]. *)
Definition in_window (b : Z) (l : list sys_timeo) : Prop := Forall (fun t => delta b (time t) < 2 ^ 31) l.

Definition by_time (b : Z) (x y : sys_timeo) : Prop := delta b (time x) <= delta b (time y).

(** The reference: behind every entry that is not later, before the others. *)
Definition insert_spec (b : Z) (x : sys_timeo) (l : list sys_timeo) : list sys_timeo :=
  filter (fun t => delta b (time t) <= delta b (time x)) l ++ x ::
  filter (fun t => ~ delta b (time t) <= delta b (time x)) l.

Lemma insert_spec_first b x l :
  Forall (fun t => delta b (time x) < delta b (time t)) l -> insert_spec b x l = x :: l.
Proof.
  intros Hl. unfold insert_spec. rewrite filter_none, filter_all; [done|..];
    (eapply Forall_impl; [exact Hl|]; simpl; lia).
Qed.

Lemma insert_spec_skip b x t l :
  delta b (time t) <= delta b (time x) -> insert_spec b x (t :: l) = t :: insert_spec b x l.
Proof. intros Hl. unfold insert_spec. rewrite filter_cons_True, filter_cons_False by (done || lia). done. Qed.

Lemma insert_after_spec b x t l :
  delta b (time x) < 2 ^ 31 -> in_window b (t :: l) -> StronglySorted (by_time b) (t :: l) ->
  delta b (time t) <= delta b (time x) -> insert_after x t l = insert_spec b x (t :: l).
Proof.
  intros Hx. revert t. induction l as [|t' l IH]; intros t Hw Hs Ht.
  - rewrite insert_spec_skip by done. done.
  - rewrite insert_spec_skip by done. simpl. inversion_clear Hw as [|? ? _ Hw'].
    inversion_clear Hs as [|? ? Hs' _]. inversion_clear Hw' as [|? ? Ht' Hw].
    rewrite (TIME_LESS_THAN_delta b) by done. destruct (Z.ltb_spec (delta b (time x)) (delta b (time t'))).
    + rewrite insert_spec_first; [done|]. constructor; [done|].
      inversion_clear Hs' as [|? ? _ Ha]. eapply Forall_impl; [exact Ha|]. unfold by_time. lia.
    + rewrite IH; [done|by constructor|done|done].
Qed.

Lemma insert_timeout_spec b x l :
  delta b (time x) < 2 ^ 31 -> in_window b l -> StronglySorted (by_time b) l ->
  insert_timeout x l = insert_spec b x l.
Proof.
  intros Hx Hw Hs. destruct l as [|t l]; [done|]. simpl.
  pose proof Hw as Hw'. inversion_clear Hw' as [|? ? Ht _]. rewrite (TIME_LESS_THAN_delta b) by done.
  destruct (Z.ltb_spec (delta b (time x)) (delta b (time t))).
  - rewrite insert_spec_first; [done|]. constructor; [done|].
    inversion_clear Hs as [|? ? _ Ha]. eapply Forall_impl; [exact Ha|]. unfold by_time. lia.
  - by apply insert_after_spec.
Qed.

Lemma insert_spec_sorted b x l : StronglySorted (by_time b) l -> StronglySorted (by_time b) (insert_spec b x l).
Proof.
  unfold insert_spec. induction 1 as [|t l Hs IH Ht]; [by repeat constructor|].
  destruct (decide (delta b (time t) <= delta b (time x))) as [Hl|Hl].
  - rewrite filter_cons_True, filter_cons_False by (done || lia). simpl. constructor; [done|].
    rewrite Forall_app, Forall_cons. split_and!; [by apply Forall_filter_keep|done|by apply Forall_filter_keep].
  - assert (Hall : Forall (fun t' => delta b (time x) < delta b (time t')) (t :: l)).
    { constructor; [lia|]. eapply Forall_impl; [exact Ht|]. unfold by_time. lia. }
    rewrite filter_none, filter_all by (eapply Forall_impl; [exact Hall|]; simpl; lia). simpl.
    constructor; [by constructor|]. eapply Forall_impl; [exact Hall|]. unfold by_time. lia.
Qed.

Lemma insert_after_perm x t l : insert_after x t l ≡ₚ x :: t :: l.
Proof.
  revert t. induction l as [|t' l IH]; intros t; simpl; [by rewrite Permutation_swap|].
  case_match; [by rewrite Permutation_swap|]. rewrite IH. by rewrite Permutation_swap.
Qed.

Lemma insert_timeout_perm x l : insert_timeout x l ≡ₚ x :: l.
Proof. destruct l as [|t l]; [done|]. simpl. case_match; [done|]. apply insert_after_perm. Qed.

Lemma remove_timeout_perm hd a l t rest : remove_timeout hd a l = Some (t, rest) -> l ≡ₚ t :: rest.
Proof.
  revert rest. induction l as [|x l IH]; intros rest; simpl; [done|]. case_decide; [by intros [= -> ->]|].
  intros ([t' rest'] & E & [= -> <-])%bind_Some. rewrite (IH rest' E). by rewrite Permutation_swap.
Qed.

(** ** Invariant: every pool element is either free or in the list *)

Section Facts.
Context {W : Type} `{TimerEnv W}.

Definition timers_ok (s : sys W) : Prop :=
  pool_ok MEMP_SYS_TIMEOUT (pools s MEMP_SYS_TIMEOUT) (map elem (next_timeout s)).

Lemma wp_sys_timeout_abs t hd a (Q : unit -> sys W -> Prop) s :
  (pools s MEMP_SYS_TIMEOUT = [] -> Q tt s) ->
  (forall e next, pools s MEMP_SYS_TIMEOUT = e :: next ->
     Q tt (set_timeouts (insert_timeout (Timeo t hd a e) (next_timeout s))
            (set_pools (<[MEMP_SYS_TIMEOUT := next]> (pools s)) s))) ->
  wp (sys_timeout_abs t hd a) Q s.
Proof.
  intros HN HS. unfold sys_timeout_abs, memp, zoom, memp_malloc, do_memp_malloc_pool.
  unfold wp, mbind, M_bind, get, put, mret, M_ret. destruct (pools s MEMP_SYS_TIMEOUT) as [|e next] eqn:E.
  - destruct s. simpl in *. by apply HN.
  - by apply (HS e next).
Qed.

Lemma timers_ok_add t hd a e next s :
  timers_ok s -> pools s MEMP_SYS_TIMEOUT = e :: next ->
  timers_ok (set_timeouts (insert_timeout (Timeo t hd a e) (next_timeout s))
              (set_pools (<[MEMP_SYS_TIMEOUT := next]> (pools s)) s)).
Proof.
  unfold timers_ok. intros Hs E. simpl. rewrite fn_lookup_insert. rewrite E in Hs.
  apply pool_ok_malloc in Hs. unfold pool_ok in *. by rewrite (insert_timeout_perm _ _), map_cons.
Qed.

Lemma timers_ok_drop t rest s :
  timers_ok s -> next_timeout s ≡ₚ t :: rest -> 
  timers_ok (set_pools (<[MEMP_SYS_TIMEOUT := elem t :: pools s MEMP_SYS_TIMEOUT]> (pools s))
              (set_timeouts rest s)).
Proof.
  unfold timers_ok. intros Hs E. simpl. rewrite fn_lookup_insert.
  eapply pool_ok_free; [|exact Hs]. by rewrite E.
Qed.

(** C32.  Registering a timeout.  With a free pool element and all due times
    less than 2^31 ms after some base, [sys_timeout] returns with a list that
    is still ordered by due time, across the wrap-around of the 32-bit clock:
    the new entry is behind every entry due no later and before all others
    (first come, first served), and nothing else changes. *)
Theorem sys_timeout_inserts msecs hd a b (s : sys W) e next :
  pools s MEMP_SYS_TIMEOUT = e :: next ->
  in_window b (next_timeout s) -> StronglySorted (by_time b) (next_timeout s) ->
  delta b (u32 (millisec s + msecs)) < 2 ^ 31 ->
  let x := Timeo (u32 (millisec s + msecs)) hd a e in
  exists s', sys_timeout msecs hd a s = Ret tt s' /\ next_timeout s' = insert_spec b x (next_timeout s) /\
    in_window b (next_timeout s') /\ StronglySorted (by_time b) (next_timeout s') /\
    pools s' MEMP_SYS_TIMEOUT = next /\ millisec s' = millisec s /\ world s' = world s.
Proof.
  intros E Hw Hs Hx x.
  assert (Wp : wp (sys_timeout msecs hd a) (fun _ s' => next_timeout s' = insert_timeout x (next_timeout s) /\
    pools s' MEMP_SYS_TIMEOUT = next /\ millisec s' = millisec s /\ world s' = world s) s).
  { apply wp_bind, wp_gets, wp_sys_timeout_abs; [congruence|]. intros e' next' E'.
    rewrite E in E'. injection E' as <- <-. simpl. by rewrite fn_lookup_insert. }
  destruct (wp_elim _ _ _ Wp) as ([] & s' & E' & En & Ep & Em & Ew). exists s'.
  rewrite (insert_timeout_spec b) in En by done. split_and!; try done.
  - rewrite En. unfold in_window, insert_spec. apply Forall_app. split; [by apply Forall_filter_keep|].
    constructor; [done|by apply Forall_filter_keep].
  - rewrite En. by apply insert_spec_sorted.
Qed.

Lemma wp_sys_untimeout hd a (Q : unit -> sys W -> Prop) s :
  (remove_timeout hd a (next_timeout s) = None -> Q tt s) ->
  (forall t rest, remove_timeout hd a (next_timeout s) = Some (t, rest) ->
     Q tt (set_pools (<[MEMP_SYS_TIMEOUT := elem t :: pools s MEMP_SYS_TIMEOUT]> (pools s))
            (set_timeouts rest s))) ->
  wp (sys_untimeout hd a) Q s.
Proof.
  intros HN HS. unfold sys_untimeout. apply wp_bind, wp_gets.
  destruct (remove_timeout hd a (next_timeout s)) as [[t rest]|] eqn:E; [|by apply HN].
  apply wp_bind, wp_modify. by apply HS.
Qed.

(** What a timer function that leaves the timers alone may do. *)
Definition world_only (m : M (sys W) unit) : Prop := forall s, wp m (fun _ s' => exists w, s' = set_world w s) s.

Class QuietTimers : Prop := {
  quiet_run f : world_only (run_timer f);
  quiet_client f a : world_only (client_timer f a);
  quiet_ooseq : world_only PBUF_CHECK_FREE_OOSEQ
}.

(** ** Termination of [sys_check_timeouts] *)

(** How often an entry can still fire before the clock read at [now]. *)
Definition weight (now : Z) (t : sys_timeo) : nat :=
  if TIME_LESS_THAN now (time t) then 0%nat else if time t =? now then 1%nat else 2%nat.

Fixpoint total_weight (now : Z) (l : list sys_timeo) : nat :=
  match l with [] => 0%nat | t :: l => (weight now t + total_weight now l)%nat end.

Lemma total_weight_perm now l k : l ≡ₚ k -> total_weight now l = total_weight now k.
Proof. induction 1; simpl; lia. Qed.

Lemma total_weight_bound now l : (total_weight now l <= 2 * length l)%nat.
Proof. induction l as [|t l IH]; simpl; [lia|]. unfold weight. repeat case_match; lia. Qed.

(** Cyclic entries point into the table; due times are 32-bit. *)
Definition entry_ok (t : sys_timeo) : Prop :=
  0 <= time t < 2 ^ 32 /\
  (h t = Some H_lwip_cyclic_timer -> exists i, arg t = ArgCyclic i /\ is_Some (lwip_cyclic_timers !! i)).

Lemma interval_range i c : lwip_cyclic_timers !! i = Some c -> 0 < interval_ms c < 2 ^ 31.
Proof. do 6 (destruct i as [|i]; [intros [= <-]; by vm_compute|]). done. Qed.

Lemma TIME_LESS_THAN_iff t c : TIME_LESS_THAN t c = true <-> 2 ^ 31 <= u32 (t - c).
Proof. unfold TIME_LESS_THAN, LWIP_MAX_TIMEOUT. rewrite Z.ltb_lt. lia. Qed.

Lemma u32_shift x k : u32 (u32 x + k) = u32 (x + k).
Proof. unfold u32. by rewrite Zplus_mod_idemp_l. Qed.

Lemma future_weight now hd a e i : 0 <= now < 2 ^ 32 -> 0 < i < 2 ^ 31 ->
  weight now (Timeo (u32 (now + i)) hd a e) = 0%nat.
Proof.
  intros Hn Hi. unfold weight. cbn [time]. rewrite (proj2 (TIME_LESS_THAN_iff _ _)); [done|].
  assert (E : u32 (now - u32 (now + i)) = 2 ^ 32 - i).
  { unfold u32. rewrite Zminus_mod_idemp_r. replace (now - (now + i)) with (2 ^ 32 - i + -1 * 2 ^ 32) by lia.
    rewrite Z_mod_plus_full. apply Z.mod_small. lia. }
  rewrite E. lia.
Qed.

(** Rearming a cyclic timer lowers its weight. *)
Lemma rearm_weight now due hd a e i :
  0 <= now < 2 ^ 32 -> 0 <= due < 2 ^ 32 -> 0 < i < 2 ^ 31 -> TIME_LESS_THAN now due = false ->
  let t' := u32 (due + i) in
  (weight now (Timeo (if TIME_LESS_THAN t' now then u32 (now + i)%Z else t') hd a e) <
   (if (due =? now)%Z then 1 else 2))%nat.
Proof.
  intros Hn Hd Hi Hp t'. destruct (TIME_LESS_THAN t' now) eqn:E.
  { rewrite future_weight by done. case_match; lia. }
  destruct (Z.eqb_spec due now) as [->|Hne].
  { unfold t'. rewrite future_weight by done. lia. }
  unfold weight. cbn [time]. destruct (Z.eqb_spec t' now) as [Et|Ht]; [repeat case_match; lia|].
  rewrite (proj2 (TIME_LESS_THAN_iff _ _)); [lia|].
  assert (E' : ~ 2 ^ 31 <= u32 (t' - now)) by (rewrite <- TIME_LESS_THAN_iff; congruence).
  pose proof (u32_range (due + i)) as Hr. fold t' in Hr. pose proof (u32_range (t' - now)).
  unfold u32 in *. Z.div_mod_to_equations. lia.
Qed.

(** The cyclic timers registered, by their table entry. *)
Definition cyclics (l : list sys_timeo) : list timer_arg :=
  map arg (filter (fun t => h t = Some H_lwip_cyclic_timer) l).

#[local] Instance cyclics_proper : Proper ((≡ₚ) ==> (≡ₚ)) cyclics.
Proof. intros l k E. unfold cyclics. by rewrite E. Qed.

Lemma cyclics_cons t l : cyclics (t :: l) =
  if decide (h t = Some H_lwip_cyclic_timer) then arg t :: cyclics l else cyclics l.
Proof. unfold cyclics. rewrite filter_cons. by case_decide. Qed.

(** What the rounds of the loop keep: the clock reading, the pool, the shape
    of the entries and the set [cs] of cyclic timers. *)
Record round_inv (now : Z) (cs : list timer_arg) (s : sys W) : Prop := {
  ri_ok : timers_ok s;
  ri_now : millisec s = now;
  ri_range : 0 <= now < 2 ^ 32;
  ri_entries : Forall entry_ok (next_timeout s);
  ri_cyclics : cyclics (next_timeout s) ≡ₚ cs
}.

Lemma round_inv_world now cs w s : round_inv now cs s -> round_inv now cs (set_world w s).
Proof. by intros [*]. Qed.

Lemma wp_world_only (m : M (sys W) unit) (Q : unit -> sys W -> Prop) s :
  world_only m -> (forall w, Q tt (set_world w s)) -> wp m Q s.
Proof. intros Hm HQ. eapply wp_mono; [apply Hm|]. intros [] s' [w ->]. apply HQ. Qed.

(** Adding an entry to the state a handler runs in. *)
Lemma wp_rearm t hd a cs cs' now n (Q : unit -> sys W -> Prop) s :
  round_inv now cs s -> pools s MEMP_SYS_TIMEOUT <> [] ->
  (forall e, entry_ok (Timeo t hd a e) /\ (weight now (Timeo t hd a e) < n)%nat) ->
  (if decide (hd = Some H_lwip_cyclic_timer) then a :: cs else cs) ≡ₚ cs' ->
  (forall s', round_inv now cs' s' ->
     (total_weight now (next_timeout s') < n + total_weight now (next_timeout s))%nat -> Q tt s') ->
  wp (sys_timeout_abs t hd a) Q s.
Proof.
  intros [Hok Hn Hr He Hc] Hp Hw Hcs HQ. apply wp_sys_timeout_abs; [done|]. intros e next E.
  destruct (Hw e) as [Hx Hwe]. apply HQ.
  - split; simpl; [by apply timers_ok_add|done|done| |].
    + rewrite (insert_timeout_perm _ _). by constructor.
    + rewrite (insert_timeout_perm _ _), cyclics_cons. simpl. rewrite <- Hcs. case_decide; by rewrite Hc.
  - simpl. rewrite (total_weight_perm _ _ _ (insert_timeout_perm _ _)). simpl. lia.
Qed.

Lemma cyclic_round `{!QuietTimers} now cs c i n due (Q : unit -> sys W -> Prop) s :
  round_inv now cs s -> pools s MEMP_SYS_TIMEOUT <> [] -> current_timeout_due_time s = due ->
  0 <= due < 2 ^ 32 -> TIME_LESS_THAN now due = false -> lwip_cyclic_timers !! i = Some c ->
  n = (if (due =? now)%Z then 1 else 2)%nat ->
  (forall s', round_inv now (ArgCyclic i :: cs) s' ->
     (total_weight now (next_timeout s') < n + total_weight now (next_timeout s))%nat -> Q tt s') ->
  wp (lwip_cyclic_timer c (ArgCyclic i)) Q s.
Proof.
  intros R Hp Hd Hdr Hdue Hi Hn HQ. unfold lwip_cyclic_timer.
  apply wp_bind, wp_world_only; [apply quiet_run|]. intros w.
  apply wp_bind, wp_gets, wp_bind, wp_gets. cbn [millisec current_timeout_due_time set_world].
  rewrite (ri_now _ _ _ R), Hd. pose proof (interval_range _ _ Hi) as Hir.
  pose proof (fun e => rearm_weight now due (Some H_lwip_cyclic_timer) (ArgCyclic i) e _
    (ri_range _ _ _ R) Hdr Hir Hdue) as Hw. cbn zeta in Hw.
  assert (Hrange : forall x, 0 <= u32 x < 2 ^ 32) by apply u32_range.
  case_match; (eapply (wp_rearm _ _ _ cs _ now n); [by apply round_inv_world|done| | |exact HQ]);
    try (intros e; split; [split; [apply Hrange|]; intros _; by exists i|rewrite Hn; apply Hw]);
    by rewrite decide_True.
Qed.

Lemma tcp_round `{!QuietTimers} now cs n (Q : unit -> sys W -> Prop) s :
  round_inv now cs s -> pools s MEMP_SYS_TIMEOUT <> [] -> (0 < n)%nat ->
  (forall s', round_inv now cs s' ->
     (total_weight now (next_timeout s') < n + total_weight now (next_timeout s))%nat -> Q tt s') ->
  wp tcpip_tcp_timer Q s.
Proof.
  intros R Hp Hn HQ. unfold tcpip_tcp_timer.
  apply wp_bind, wp_world_only; [apply quiet_run|]. intros w. apply wp_bind, wp_gets.
  apply (round_inv_world _ _ w) in R. destruct (tcp_pcbs _).
  - apply wp_bind, wp_gets. rewrite (ri_now _ _ _ R).
    eapply (wp_rearm _ _ _ cs _ now n); [done|done| | |exact HQ]; [|by rewrite decide_False].
    intros e. split; [split; [apply u32_range|done]|]. rewrite future_weight; [done|apply R|].
    unfold TCP_TMR_INTERVAL. lia.
  - apply wp_modify, HQ; [|simpl; lia]. by destruct R.
Qed.

(** One round: either the loop ends with the first entry in the future, or an
    entry fires and the total weight drops. *)
Lemma wp_check_round `{!QuietTimers} now cs s :
  round_inv now cs s ->
  wp (check_round now tt) (fun r s' => round_inv now cs s' /\
    match r with
    | inl _ => (total_weight now (next_timeout s') < total_weight now (next_timeout s))%nat
    | inr _ => forall t rest, next_timeout s' = t :: rest -> TIME_LESS_THAN now (time t) = true
    end) s.
Proof.
  intros R. unfold check_round. apply wp_bind, wp_world_only; [apply quiet_ooseq|]. intros w.
  apply (round_inv_world _ _ w) in R. set (s1 := set_world w s) in *.
  change (next_timeout s) with (next_timeout s1). apply wp_bind, wp_gets.
  destruct (next_timeout s1) as [|t rest] eqn:E; [apply wp_ret; split; [done|]; by rewrite E|].
  destruct (TIME_LESS_THAN now (time t)) eqn:El.
  { apply wp_ret. split; [done|]. rewrite E. by intros ? ? [= <- <-]. }
  apply wp_bind, wp_modify, wp_bind, wp_modify. apply wp_bind.
  match goal with |- wp (memp _) ?Q ?x => change (Q tt (set_pools
    (<[MEMP_SYS_TIMEOUT := elem t :: pools s1 MEMP_SYS_TIMEOUT]> (pools s1)) x)) end. cbv beta.
  destruct R as [Hok Hn Hr He Hc]. rewrite E in He, Hc.
  inversion_clear He as [|? ? [Ht Hcy] He']. rewrite cyclics_cons in Hc.
  set (s2 := set_pools _ _).
  assert (R2 : round_inv now (cyclics rest) s2).
  { split; [|done..]. apply (timers_ok_drop t rest s1); [done|by rewrite E]. }
  assert (Hp2 : pools s2 MEMP_SYS_TIMEOUT <> []) by (simpl; by rewrite fn_lookup_insert).
  set (n := weight now t). assert (Hw : (0 < n)%nat) by (unfold n, weight; rewrite El; destruct (time t =? now)%Z; lia).
  assert (Hfin : forall s', round_inv now cs s' ->
    (total_weight now (next_timeout s') < n + total_weight now (next_timeout s2))%nat ->
    wp (mret (inl tt)) (fun (r : unit + unit) s' => round_inv now cs s' /\ match r with
       | inl _ => (total_weight now (next_timeout s') < total_weight now (t :: rest))%nat
       | inr _ => forall t rest, next_timeout s' = t :: rest -> TIME_LESS_THAN now (time t) = true end) s').
  { intros s' R' Hlt. by apply wp_ret. }
  destruct (h t) as [[| |f]|] eqn:Eh.
  - destruct (Hcy eq_refl) as (i & Ea & c & Ec). rewrite decide_True, Ea in Hc by done.
    apply wp_bind. simpl. rewrite Ea. unfold deref. rewrite Ec. apply wp_bind, wp_ret.
    eapply (cyclic_round now (cyclics rest) c i n (time t)); [done..| |].
    { unfold n, weight. by rewrite El. }
    intros s' R' Hlt. apply Hfin; [|done]. destruct R' as [? ? ? ? Hc']. split; try done. by rewrite Hc'.
  - rewrite decide_False in Hc by done. apply wp_bind, (tcp_round now (cyclics rest) n); [done..|].
    intros s' R' Hlt. apply Hfin; [|done]. destruct R' as [? ? ? ? Hc']. split; try done. by rewrite Hc'.
  - rewrite decide_False in Hc by done. apply wp_bind. simpl. apply wp_world_only; [apply quiet_client|].
    intros w'. apply Hfin; [|simpl; lia]. apply round_inv_world.
    by destruct R2; split.
  - rewrite decide_False in Hc by done. apply Hfin; [|simpl; lia].
    by destruct R2; split.
Qed.

(** C33.  [sys_check_timeouts] terminates.  When the timer functions leave the
    timers alone, it returns after at most two rounds per entry, whatever the
    due times; then the first entry is in the future, every pool element is
    still free or in the list, and every cyclic timer is registered again as
    often as before. *)
Theorem sys_check_timeouts_terminates `{!QuietTimers} fuel (s : sys W) :
  timers_ok s -> Forall entry_ok (next_timeout s) -> 0 <= millisec s < 2 ^ 32 ->
  (2 * length (next_timeout s) < fuel)%nat ->
  exists s', sys_check_timeouts fuel s = Ret tt s' /\ timers_ok s' /\
    (forall t rest, next_timeout s' = t :: rest -> TIME_LESS_THAN (millisec s) (time t) = true) /\
    cyclics (next_timeout s') ≡ₚ cyclics (next_timeout s).
Proof.
  intros Hok He Hn Hf. set (now := millisec s).
  assert (Wp : wp (sys_check_timeouts fuel) (fun _ s' => round_inv now (cyclics (next_timeout s)) s' /\
    forall t rest, next_timeout s' = t :: rest -> TIME_LESS_THAN now (time t) = true) s).
  { unfold sys_check_timeouts. apply wp_bind, wp_gets.
    apply (wp_iter _ (fun n _ s' => n = total_weight now (next_timeout s') /\
      round_inv now (cyclics (next_timeout s)) s') _ (total_weight now (next_timeout s))).
    - by split.
    - pose proof (total_weight_bound now (next_timeout s)). lia.
    - intros n [] s1 [-> R]. eapply wp_mono; [by apply wp_check_round|].
      intros [[]|[]] s2 [R2 H2]; [|done]. by exists (total_weight now (next_timeout s2)). }
  destruct (wp_elim _ _ _ Wp) as ([] & s' & E & [Hok' _ _ _ Hc] & Hh). by exists s'.
Qed.

(** ** The pool against its users *)

Lemma sys_timeout_full msecs hd a (s : sys W) :
  timers_ok s -> length (next_timeout s) = memp_num MEMP_SYS_TIMEOUT -> sys_timeout msecs hd a s = Ret tt s.
Proof.
  intros Hok Hl. apply pool_ok_length in Hok. rewrite length_map, Hl in Hok.
  assert (Wp : wp (sys_timeout msecs hd a) (fun _ s' => s' = s) s).
  { apply wp_bind, wp_gets, wp_sys_timeout_abs; [done|]. intros e next E. rewrite E in Hok. simpl in Hok. lia. }
  by destruct (wp_elim _ _ _ Wp) as ([] & s' & E & ->).
Qed.

Lemma wp_sys_timeout_length msecs hd a (Q : unit -> sys W -> Prop) s :
  timers_ok s -> (length (next_timeout s) < memp_num MEMP_SYS_TIMEOUT)%nat ->
  (forall s', timers_ok s' -> length (next_timeout s') = S (length (next_timeout s)) ->
     tcpip_tcp_timer_active s' = tcpip_tcp_timer_active s -> world s' = world s -> Q tt s') ->
  wp (sys_timeout msecs hd a) Q s.
Proof.
  intros Hok Hl HQ. pose proof (pool_ok_length _ _ _ Hok) as Hlen. rewrite length_map in Hlen.
  apply wp_bind, wp_gets, wp_sys_timeout_abs.
  { intros E. rewrite E in Hlen. simpl in *. lia. }
  intros e next E. apply HQ; [by apply timers_ok_add| |done..].
  simpl. by rewrite (insert_timeout_perm _ _).
Qed.

(** The pool of timeouts is one short.  [MEMP_NUM_SYS_TIMEOUT] keeps its
    default, one element per timer of the core.  After [sys_timeouts_init] and
    the start of the TCP timer (a TCP connection exists, as MQTT needs one) the
    pool is exhausted, and every further [sys_timeout], such as MQTT's cyclic
    timer for keep-alive and time-outs, returns without registering anything. *)
Theorem sys_timeout_pool_exhausted (s : sys W) :
  timers_ok s -> next_timeout s = [] -> tcpip_tcp_timer_active s = false -> tcp_pcbs (world s) = true ->
  exists s', (sys_timeouts_init;; tcp_timer_needed) s = Ret tt s' /\
    length (next_timeout s') = 6%nat /\
    forall msecs handler a, sys_timeout msecs handler a s' = Ret tt s'.
Proof.
  intros Hok Hn Ha Hp.
  assert (Wp : wp (sys_timeouts_init;; tcp_timer_needed) (fun _ s' => timers_ok s' /\
    length (next_timeout s') = 6%nat) s).
  { apply wp_bind. unfold sys_timeouts_init. simpl length. cbn [for_each seq Nat.sub].
    do 5 (apply wp_bind, wp_bind, wp_ret, wp_sys_timeout_length; [done|rewrite Hn; vm_compute; lia|];
      let s' := fresh "s" in let Hok' := fresh "Hok" in
      intros s' Hok' Hl Ha' Hp'; rewrite Hn in Hl; rewrite Ha in Ha'; rewrite <- Hp' in Hp;
      clear Hok Hn Ha Hp'; rename Ha' into Ha; rename Hl into Hn; rename Hok' into Hok).
    apply wp_ret, wp_bind, wp_get. rewrite Ha, Hp. apply wp_when_true, wp_bind, wp_modify.
    apply wp_sys_timeout_length; [done|simpl; rewrite Hn; vm_compute; lia|]. intros s' Hok' Hl _ _.
    split; [done|]. rewrite Hl. simpl. by rewrite Hn. }
  destruct (wp_elim _ _ _ Wp) as ([] & s' & E & Hok' & Hl'). exists s'. split_and!; [done..|].
  intros msecs hd a. by apply sys_timeout_full.
Qed.
End Facts.

(** ** Example: timer functions without effect, a TCP connection *)

Definition idle_env : TimerEnv unit := {|
  run_timer := fun _ => mret tt;
  client_timer := fun _ _ => mret tt;
  tcp_pcbs := fun _ => true;
  PBUF_CHECK_FREE_OOSEQ := mret tt
|}.
#[local] Existing Instance idle_env.

(** After [memp_init], 200 ms before the clock wraps around. *)
Definition boot : sys unit := Sys (2 ^ 32 - 200) [] 0 false (memp_init (fun _ => [])) tt.

Lemma idle_env_quiet : QuietTimers.
Proof. split; [intros f|intros f a|]; intros s; by exists (world s); destruct s. Qed.

Lemma boot_ok : timers_ok boot.
Proof. apply pool_ok_init. Qed.

Lemma sys_timeout_inserts_witness :
  let x := Timeo 50 (Some (H_client 1)) ArgNull 5 in
  exists s', sys_timeout 250 (Some (H_client 1)) ArgNull boot = Ret tt s' /\
    next_timeout s' = insert_spec (2 ^ 32 - 200) x [] /\
    in_window (2 ^ 32 - 200) (next_timeout s') /\
    StronglySorted (by_time (2 ^ 32 - 200)) (next_timeout s') /\
    pools s' MEMP_SYS_TIMEOUT = [4; 3; 2; 1; 0]%nat /\ millisec s' = millisec boot /\ world s' = world boot.
Proof.
  exact (sys_timeout_inserts 250 (Some (H_client 1)) ArgNull (2 ^ 32 - 200) boot 5 [4; 3; 2; 1; 0]%nat
    eq_refl (Forall_nil_2 _) (SSorted_nil _) eq_refl).
Defined.

(** All timers of the core registered, at time 0. *)
Definition registered : sys unit := outcome_state (sys_timeouts_init boot).

Lemma sys_check_timeouts_terminates_witness :
  let s := set_millisec 3000 registered in
  exists s', sys_check_timeouts 100 s = Ret tt s' /\ timers_ok s' /\
    (forall t rest, next_timeout s' = t :: rest -> TIME_LESS_THAN (millisec s) (time t) = true) /\
    cyclics (next_timeout s') ≡ₚ cyclics (next_timeout s).
Proof.
  apply (@sys_check_timeouts_terminates unit idle_env idle_env_quiet 100 (set_millisec 3000 registered)).
  - apply NoDup_Permutation; [apply (bool_decide_unpack _); by vm_compute|apply NoDup_seq|].
    intros x. vm_compute app. vm_compute seq. rewrite !elem_of_cons, elem_of_nil. tauto.
  - repeat constructor; try (vm_compute; congruence); intros _; eexists; (split; [reflexivity|]);
      by eexists.
  - vm_compute. split; congruence.
  - vm_compute. lia.
Defined.

Lemma sys_timeout_pool_exhausted_witness :
  exists s', (sys_timeouts_init;; tcp_timer_needed) boot = Ret tt s' /\
    length (next_timeout s') = 6%nat /\
    forall msecs handler a, sys_timeout msecs handler a s' = Ret tt s'.
Proof. exact (sys_timeout_pool_exhausted boot boot_ok eq_refl eq_refl eq_refl). Defined.
