(* ===== verification/Pbuf.v ===== *)
(** lwIP's packet buffers: [src/lwip-2.2.1/src/core/pbuf.c].

    Memory is a store of pbuf structures and of byte areas, by location.  A
    structure of a pool element or of a heap block has the area that follows
    it in the same element or block; payload pointers are an area and an
    offset into it.  The pools are [Memp.v]'s; the heap of mem.c is the class
    [HeapOps].  Assertions are off in this configuration
    ([LWIP_PLATFORM_ASSERT] is empty); [LWIP_ERROR] handlers are on. *)
From stdpp Require Import functions.
From S2P Require Import Prelude Memp.

(** Where an object lies: an element of a pool, a heap block (by its offset),
    or memory of a caller. *)
Inductive loc : Type :=
| Pool (t : memp_t) (i : nat)
| Heap (off : Z)
| Ext (k : Z).

#[global] Instance loc_eq_dec : EqDecision loc.
Proof. solve_decision. Defined.

#[global] Program Instance loc_countable : Countable loc :=
  inj_countable'
    (fun l => match l with Pool t i => inl (inl (t, i)) | Heap o => inl (inr o) | Ext k => inr k end)
    (fun x => match x with inl (inl (t, i)) => Pool t i | inl (inr o) => Heap o | inr k => Ext k end) _.
Next Obligation. by intros []. Qed.

(** A pointer to bytes. *)
Definition ptr : Type := loc * Z.

(** ** pbuf.h *)

Definition PBUF_LINK_ENCAPSULATION_HLEN : Z := 0.
Definition PBUF_LINK_HLEN : Z := 14.
Definition PBUF_IP_HLEN : Z := 20.
Definition PBUF_TRANSPORT_HLEN : Z := 20.

Inductive pbuf_layer : Type := PBUF_TRANSPORT | PBUF_IP | PBUF_LINK | PBUF_RAW_TX | PBUF_RAW.

Definition pbuf_layer_value (l : pbuf_layer) : Z :=
  match l with
  | PBUF_TRANSPORT => PBUF_LINK_ENCAPSULATION_HLEN + PBUF_LINK_HLEN + PBUF_IP_HLEN + PBUF_TRANSPORT_HLEN
  | PBUF_IP => PBUF_LINK_ENCAPSULATION_HLEN + PBUF_LINK_HLEN + PBUF_IP_HLEN
  | PBUF_LINK => PBUF_LINK_ENCAPSULATION_HLEN + PBUF_LINK_HLEN
  | PBUF_RAW_TX => PBUF_LINK_ENCAPSULATION_HLEN
  | PBUF_RAW => 0
  end.

Definition PBUF_TYPE_FLAG_STRUCT_DATA_CONTIGUOUS : Z := 0x80.
Definition PBUF_TYPE_FLAG_DATA_VOLATILE : Z := 0x40.
Definition PBUF_TYPE_ALLOC_SRC_MASK : Z := 0x0F.
Definition PBUF_ALLOC_FLAG_RX : Z := 0x0100.
Definition PBUF_ALLOC_FLAG_DATA_CONTIGUOUS : Z := 0x0200.
Definition PBUF_TYPE_ALLOC_SRC_MASK_STD_HEAP : Z := 0x00.
Definition PBUF_TYPE_ALLOC_SRC_MASK_STD_MEMP_PBUF : Z := 0x01.
Definition PBUF_TYPE_ALLOC_SRC_MASK_STD_MEMP_PBUF_POOL : Z := 0x02.

Inductive pbuf_type : Type := PBUF_RAM | PBUF_ROM | PBUF_REF | PBUF_POOL.

Definition pbuf_type_value (t : pbuf_type) : Z :=
  match t with
  | PBUF_RAM => Z.lor (Z.lor PBUF_ALLOC_FLAG_DATA_CONTIGUOUS PBUF_TYPE_FLAG_STRUCT_DATA_CONTIGUOUS)
                  PBUF_TYPE_ALLOC_SRC_MASK_STD_HEAP
  | PBUF_ROM => PBUF_TYPE_ALLOC_SRC_MASK_STD_MEMP_PBUF
  | PBUF_REF => Z.lor PBUF_TYPE_FLAG_DATA_VOLATILE PBUF_TYPE_ALLOC_SRC_MASK_STD_MEMP_PBUF
  | PBUF_POOL => Z.lor (Z.lor PBUF_ALLOC_FLAG_RX PBUF_TYPE_FLAG_STRUCT_DATA_CONTIGUOUS)
                   PBUF_TYPE_ALLOC_SRC_MASK_STD_MEMP_PBUF_POOL
  end.

Definition PBUF_FLAG_IS_CUSTOM : Z := 0x02.
Definition NETIF_NO_INDEX : Z := 0.

(** [struct pbuf]; [None] is NULL. *)
Record pbuf : Type := Pbuf {
  next : option loc;
  payload : option ptr;
  tot_len : Z;
  len : Z;
  type_internal : Z;
  flags : Z;
  ref : Z;
  if_idx : Z
}.

Definition set_next (n : option loc) (p : pbuf) : pbuf :=
  Pbuf n (payload p) (tot_len p) (len p) (type_internal p) (flags p) (ref p) (if_idx p).
Definition set_payload (x : option ptr) (p : pbuf) : pbuf :=
  Pbuf (next p) x (tot_len p) (len p) (type_internal p) (flags p) (ref p) (if_idx p).
Definition set_tot_len (n : Z) (p : pbuf) : pbuf :=
  Pbuf (next p) (payload p) n (len p) (type_internal p) (flags p) (ref p) (if_idx p).
Definition set_len (n : Z) (p : pbuf) : pbuf :=
  Pbuf (next p) (payload p) (tot_len p) n (type_internal p) (flags p) (ref p) (if_idx p).
Definition set_ref (n : Z) (p : pbuf) : pbuf :=
  Pbuf (next p) (payload p) (tot_len p) (len p) (type_internal p) (flags p) n (if_idx p).

(** err.h, as far as this file returns them. *)
Definition ERR_OK : Z := 0.
Definition ERR_MEM : Z := -1.
Definition ERR_BUF : Z := -2.
Definition ERR_INPROGRESS : Z := -5.
Definition ERR_VAL : Z := -6.
Definition ERR_ARG : Z := -16.

(** opt.h and mem.h *)
Definition MEM_ALIGNMENT : Z := 4.
Definition LWIP_MEM_ALIGN_SIZE (size : Z) : Z := u32 (Z.land (size + MEM_ALIGNMENT - 1) (Z.lnot (MEM_ALIGNMENT - 1))).
Definition SIZEOF_STRUCT_PBUF : Z := LWIP_MEM_ALIGN_SIZE 16.
Definition TCP_MSS : Z := 536.
Definition PBUF_POOL_BUFSIZE : Z := LWIP_MEM_ALIGN_SIZE (TCP_MSS + PBUF_IP_HLEN + PBUF_TRANSPORT_HLEN
                                      + PBUF_LINK_ENCAPSULATION_HLEN + PBUF_LINK_HLEN).
Definition PBUF_POOL_BUFSIZE_ALIGNED : Z := LWIP_MEM_ALIGN_SIZE PBUF_POOL_BUFSIZE.

(** The heap of mem.c: a block is named by its offset in the heap; an
    allocation says what bytes the block holds. *)
Class HeapOps : Type := {
  hstate : Type;
  heap_malloc : Z -> hstate -> option (Z * list Z) * hstate;
  heap_free : Z -> hstate -> hstate;
  heap_trim : Z -> Z -> hstate -> hstate
}.

(** [originals] is the field [original] of the elements of MEMP_FRAG_PBUF,
    [struct pbuf_custom_ref]. *)
Record mem `{HeapOps} : Type := Mem {
  mpools : memp_pools;
  heap : hstate;
  pbufs : gmap loc pbuf;
  bytes : gmap loc (list Z);
  pbuf_free_ooseq_pending : bool;
  originals : gmap loc (option loc)
}.

(** [pc->custom_free_function] of the pbufs marked custom. *)
Class CustomFree `{HeapOps} : Type := custom_free_function : loc -> M mem unit.

Section Memory.
Context `{HeapOps}.

Definition set_pbufs (x : gmap loc pbuf) (m : mem) : mem :=
  Mem _ (mpools m) (heap m) x (bytes m) (pbuf_free_ooseq_pending m) (originals m).
Definition set_bytes (x : gmap loc (list Z)) (m : mem) : mem :=
  Mem _ (mpools m) (heap m) (pbufs m) x (pbuf_free_ooseq_pending m) (originals m).
Definition set_mpools (x : memp_pools) (m : mem) : mem :=
  Mem _ x (heap m) (pbufs m) (bytes m) (pbuf_free_ooseq_pending m) (originals m).
Definition set_heap (x : hstate) (m : mem) : mem :=
  Mem _ (mpools m) x (pbufs m) (bytes m) (pbuf_free_ooseq_pending m) (originals m).
Definition set_pending (x : bool) (m : mem) : mem :=
  Mem _ (mpools m) (heap m) (pbufs m) (bytes m) x (originals m).
Definition set_originals (x : gmap loc (option loc)) (m : mem) : mem :=
  Mem _ (mpools m) (heap m) (pbufs m) (bytes m) (pbuf_free_ooseq_pending m) x.

(** [*p] and [p->field = ...]. *)
Definition getp (l : loc) : M mem pbuf := b ← gets (fun m => pbufs m !! l); deref BadPointer b.
Definition setp (l : loc) (f : pbuf -> pbuf) : M mem unit :=
  b ← getp l; modify (fun m => set_pbufs (<[l := f b]> (pbufs m)) m).

(** [memcpy] from and to a payload. *)
Definition area (x : ptr) (n : Z) : M mem (list Z) :=
  a ← gets (fun m => bytes m !! x.1);
  a ← deref BadPointer a;
  if (0 <=? x.2) && (0 <=? n) && (x.2 + n <=? Z.of_nat (length a)) then mret a else halt OutOfBounds.

Definition read_at (x : option ptr) (off n : Z) : M mem (list Z) :=
  if n =? 0 then mret []
  else
    x ← deref NullDeref x;
    a ← area (x.1, x.2 + off) n;
    mret (take (Z.to_nat n) (drop (Z.to_nat (x.2 + off)) a)).

Definition splice (i : nat) (new l : list Z) : list Z := take i l ++ new ++ drop (i + length new) l.

Definition write_at (x : option ptr) (off : Z) (bs : list Z) : M mem unit :=
  if Z.of_nat (length bs) =? 0 then mret tt
  else
    x ← deref NullDeref x;
    a ← area (x.1, x.2 + off) (Z.of_nat (length bs));
    modify (fun m => set_bytes (<[x.1 := splice (Z.to_nat (x.2 + off)) bs a]> (bytes m)) m).

(** How often a loop over [p->next] can go round: the store's size. *)
Definition chain_fuel : M mem nat := gets (fun m => S (size (pbufs m))).

Definition pools_m {A} (x : M memp_pools A) : M mem A := zoom mpools set_mpools x.
Definition memp_malloc_at (t : memp_t) : M mem (option loc) :=
  r ← pools_m (memp_malloc t); mret (Pool t <$> r).
Definition memp_free_at (t : memp_t) (l : loc) : M mem unit :=
  match l with
  | Pool t' i => if decide (t' = t) then pools_m (memp_free t (Some i)) else halt BadPointer
  | _ => halt BadPointer
  end.

Definition mem_malloc_at (size : Z) : M mem (option loc) :=
  m ← get;
  let '(r, h') := heap_malloc size (heap m) in
  put (set_heap h' m);;
  match r with
  | None => mret None
  | Some (o, content) =>
    modify (fun m => set_bytes (<[Heap o := drop (Z.to_nat SIZEOF_STRUCT_PBUF) content]> (bytes m)) m);;
    mret (Some (Heap o))
  end.

Definition mem_free_at (l : loc) : M mem unit :=
  match l with
  | Heap o => modify (fun m => set_bytes (delete l (bytes m)) (set_heap (heap_free o (heap m)) m))
  | _ => halt BadPointer
  end.

Definition mem_trim_at (l : loc) (newsize : Z) : M mem unit :=
  match l with
  | Heap o => modify (fun m =>
      set_bytes (alter (take (Z.to_nat (newsize - SIZEOF_STRUCT_PBUF))) l (bytes m))
        (set_heap (heap_trim o newsize (heap m)) m))
  | _ => halt BadPointer
  end.

(** ** Allocation *)

Definition pbuf_pool_is_empty : M mem unit := modify (set_pending true).

Definition pbuf_init_alloced_pbuf (p : loc) (pl : option ptr) (tot_len len type_flags flags : Z) : M mem unit :=
  modify (fun m => set_pbufs (<[p := {| next := None; payload := pl; tot_len := tot_len; len := len;
    type_internal := u8 type_flags; flags := flags; ref := 1; if_idx := NETIF_NO_INDEX |}]> (pbufs m)) m).

Definition pbuf_alloc_reference (pl : option ptr) (length : Z) (type : pbuf_type) : M mem (option loc) :=
  p ← memp_malloc_at MEMP_PBUF;
  match p with
  | None => mret None
  | Some p => pbuf_init_alloced_pbuf p pl length length (pbuf_type_value type) 0;; mret (Some p)
  end.

(** [struct pbuf_custom *p] is given by the caller. *)
Definition pbuf_alloced_custom (l : pbuf_layer) (length : Z) (type : pbuf_type) (p : loc)
    (payload_mem : option ptr) (payload_mem_len : Z) : M mem (option loc) :=
  let offset := pbuf_layer_value l in
  if payload_mem_len <? LWIP_MEM_ALIGN_SIZE offset + length then mret None
  else
    let pl := (fun x : ptr => (x.1, x.2 + LWIP_MEM_ALIGN_SIZE offset)) <$> payload_mem in
    pbuf_init_alloced_pbuf p pl length length (pbuf_type_value type) PBUF_FLAG_IS_CUSTOM;;
    mret (Some p).

Definition pbuf_get_allocsrc (p : pbuf) : Z := Z.land (type_internal p) PBUF_TYPE_ALLOC_SRC_MASK.
Definition pbuf_match_allocsrc (p : pbuf) (type : Z) : bool :=
  pbuf_get_allocsrc p =? Z.land type PBUF_TYPE_ALLOC_SRC_MASK.
End Memory.

Section Pbuf.
Context `{CustomFree}.

(** The deallocation of one pbuf, once its count is zero. *)
Definition pbuf_dealloc (p : loc) (b : pbuf) : M mem unit :=
  let alloc_src := pbuf_get_allocsrc b in
  (if has (flags b) PBUF_FLAG_IS_CUSTOM then custom_free_function p
   else if alloc_src =? PBUF_TYPE_ALLOC_SRC_MASK_STD_MEMP_PBUF_POOL then memp_free_at MEMP_PBUF_POOL p
   else if alloc_src =? PBUF_TYPE_ALLOC_SRC_MASK_STD_MEMP_PBUF then memp_free_at MEMP_PBUF p
   else if alloc_src =? PBUF_TYPE_ALLOC_SRC_MASK_STD_HEAP then mem_free_at p
   else mret tt);;
  modify (fun m => set_pbufs (delete p (pbufs m)) m).

Definition pbuf_free_body (x : option loc * Z) : M mem ((option loc * Z) + Z) :=
  let '(p, count) := x in
  match p with
  | None => mret (inr count)
  | Some p =>
    b ← getp p;
    let r := u8 (ref b - 1) in
    setp p (set_ref r);;
    if r =? 0 then
      pbuf_dealloc p b;;
      mret (inl (next b, u8 (count + 1)))
    else mret (inl (None, count))
  end.

Definition pbuf_free (p : option loc) : M mem Z :=
  match p with
  | None => mret 0
  | Some _ => fuel ← chain_fuel; iter (S fuel) pbuf_free_body (p, 0)
  end.

(** One round of the loop of [pbuf_alloc] for PBUF_POOL; the locals are
    [p], [last], [rem_len] and [offset]. *)
Definition pbuf_alloc_body (x : option loc * option loc * Z * Z) :
    M mem ((option loc * option loc * Z * Z) + option loc) :=
  let '(p, last, rem_len, offset) := x in
  q ← memp_malloc_at MEMP_PBUF_POOL;
  match q with
  | None =>
    pbuf_pool_is_empty;;
    match p with
    | Some _ => pbuf_free p;; mret (inr None)
    | None => mret (inr None)
    end
  | Some q =>
    let qlen := Z.min rem_len (u16 (PBUF_POOL_BUFSIZE_ALIGNED - LWIP_MEM_ALIGN_SIZE offset)) in
    pbuf_init_alloced_pbuf q (Some (q, LWIP_MEM_ALIGN_SIZE offset)) rem_len qlen
      (pbuf_type_value PBUF_POOL) 0;;
    match p, last with
    | None, _ => mret tt
    | Some _, Some last => setp last (set_next (Some q))
    | Some _, None => halt NullDeref
    end;;
    let p := match p with None => Some q | Some _ => p end in
    let rem_len := u16 (rem_len - qlen) in
    mret (if 0 <? rem_len then inl (p, Some q, rem_len, 0) else inr p)
  end.

Definition pbuf_alloc (layer : pbuf_layer) (length : Z) (type : pbuf_type) : M mem (option loc) :=
  let offset := pbuf_layer_value layer in
  match type with
  | PBUF_REF | PBUF_ROM => pbuf_alloc_reference None length type
  | PBUF_POOL =>
    n ← gets (fun m => List.length (mpools m MEMP_PBUF_POOL));
    iter (S n) pbuf_alloc_body (None, None, length, offset)
  | PBUF_RAM =>
    let payload_len := u16 (LWIP_MEM_ALIGN_SIZE offset + LWIP_MEM_ALIGN_SIZE length) in
    let alloc_len := u16 (LWIP_MEM_ALIGN_SIZE SIZEOF_STRUCT_PBUF + payload_len) in
    if (payload_len <? LWIP_MEM_ALIGN_SIZE length) || (alloc_len <? LWIP_MEM_ALIGN_SIZE length)
    then mret None
    else
      p ← mem_malloc_at alloc_len;
      match p with
      | None => mret None
      | Some p =>
        pbuf_init_alloced_pbuf p (Some (p, LWIP_MEM_ALIGN_SIZE offset)) length length
          (pbuf_type_value PBUF_RAM) 0;;
        mret (Some p)
      end
  end.

(** [while (rem_len > q->len)] of [pbuf_realloc]. *)
Definition pbuf_realloc_body (shrink : Z) (x : loc * Z) : M mem ((loc * Z) + (loc * Z)) :=
  let '(q, rem_len) := x in
  b ← getp q;
  if len b <? rem_len then
    setp q (set_tot_len (u16 (tot_len b - shrink)));;
    n ← deref NullDeref (next b);
    mret (inl (n, u16 (rem_len - len b)))
  else mret (inr (q, rem_len)).

Definition pbuf_realloc (p : loc) (new_len : Z) : M mem unit :=
  b ← getp p;
  if tot_len b <=? new_len then mret tt
  else
    let shrink := u16 (tot_len b - new_len) in
    fuel ← chain_fuel;
    '(q, rem_len) ← iter fuel (pbuf_realloc_body shrink) (p, new_len);
    b ← getp q;
    when (pbuf_match_allocsrc b PBUF_TYPE_ALLOC_SRC_MASK_STD_HEAP && negb (rem_len =? len b)
          && negb (has (flags b) PBUF_FLAG_IS_CUSTOM))
      (x ← deref NullDeref (payload b);
       if decide (x.1 = q) then mem_trim_at q (u16 (SIZEOF_STRUCT_PBUF + x.2 + rem_len)) else halt BadPointer);;
    setp q (set_len rem_len);;
    setp q (set_tot_len rem_len);;
    b ← getp q;
    match next b with
    | Some n => pbuf_free (Some n);; mret tt
    | None => mret tt
    end;;
    setp q (set_next None).
End Pbuf.

(** ** Headers *)

Section Headers.
Context `{HeapOps}.

Definition pbuf_add_header_impl (p : option loc) (header_size_increment : Z) (force : bool) : M mem Z :=
  match p with
  | None => mret 1
  | Some l =>
    if 0xFFFF <? header_size_increment then mret 1
    else if header_size_increment =? 0 then mret 0
    else
      b ← getp l;
      let increment_magnitude := u16 header_size_increment in
      if u16 (increment_magnitude + tot_len b) <? increment_magnitude then mret 1
      else
        let moved := (fun x : ptr => (x.1, x.2 - header_size_increment)) <$> payload b in
        let update :=
          setp l (fun b => set_tot_len (u16 (tot_len b + increment_magnitude))
                     (set_len (u16 (len b + increment_magnitude)) (set_payload moved b)));;
          mret 0 in
        if has (type_internal b) PBUF_TYPE_FLAG_STRUCT_DATA_CONTIGUOUS then
          x ← deref BadPointer moved;
          if decide (x.1 = l) then (if x.2 <? 0 then mret 1 else update) else halt BadPointer
        else if force then update else mret 1
  end.

Definition pbuf_add_header (p : option loc) (header_size_increment : Z) : M mem Z :=
  pbuf_add_header_impl p header_size_increment false.

Definition pbuf_add_header_force (p : option loc) (header_size_increment : Z) : M mem Z :=
  pbuf_add_header_impl p header_size_increment true.

Definition pbuf_remove_header (p : option loc) (header_size_decrement : Z) : M mem Z :=
  match p with
  | None => mret 1
  | Some l =>
    if 0xFFFF <? header_size_decrement then mret 1
    else if header_size_decrement =? 0 then mret 0
    else
      let increment_magnitude := u16 header_size_decrement in
      b ← getp l;
      if increment_magnitude <=? len b then
        setp l (fun b => set_tot_len (u16 (tot_len b - increment_magnitude))
                   (set_len (u16 (len b - increment_magnitude))
                   (set_payload ((fun x : ptr => (x.1, x.2 + header_size_decrement)) <$> payload b) b)));;
        mret 0
      else mret 1
  end.

(** [header_size_increment] is an [s16_t], converted to [size_t]. *)
Definition pbuf_header_impl (p : option loc) (header_size_increment : Z) (force : bool) : M mem Z :=
  if header_size_increment <? 0 then pbuf_remove_header p (u32 (- header_size_increment))
  else pbuf_add_header_impl p (u32 header_size_increment) force.

Definition pbuf_header (p : option loc) (header_size_increment : Z) : M mem Z :=
  pbuf_header_impl p header_size_increment false.
Definition pbuf_header_force (p : option loc) (header_size_increment : Z) : M mem Z :=
  pbuf_header_impl p header_size_increment true.

(** ** Chains *)

Definition pbuf_clen (p : option loc) : M mem Z :=
  fuel ← chain_fuel;
  iter fuel (fun '(p, n) =>
    match p with
    | None => mret (inr n)
    | Some l => b ← getp l; mret (inl (next b, u16 (n + 1)))
    end) (p, 0).

Definition pbuf_ref (p : option loc) : M mem unit :=
  match p with None => mret tt | Some l => setp l (fun b => set_ref (u8 (ref b + 1)) b) end.

(** [for (p = h; p->next != NULL; p = p->next)] of [pbuf_cat]. *)
Definition pbuf_cat_body (t p : loc) : M mem (loc + loc) :=
  b ← getp p;
  match next b with
  | Some n => tb ← getp t; setp p (set_tot_len (u16 (tot_len b + tot_len tb)));; mret (inl n)
  | None => mret (inr p)
  end.

Definition pbuf_cat (h t : option loc) : M mem unit :=
  match h, t with
  | Some h, Some t =>
    fuel ← chain_fuel;
    last ← iter fuel (pbuf_cat_body t) h;
    b ← getp last;
    tb ← getp t;
    setp last (set_tot_len (u16 (tot_len b + tot_len tb)));;
    setp last (set_next (Some t))
  | _, _ => mret tt
  end.

Definition pbuf_chain (h t : option loc) : M mem unit := pbuf_cat h t;; pbuf_ref t.

(** ** Access by offset *)

Definition pbuf_skip_body (x : option loc * Z) : M mem ((option loc * Z) + (option loc * Z)) :=
  let '(q, offset_left) := x in
  match q with
  | None => mret (inr (q, offset_left))
  | Some l =>
    b ← getp l;
    mret (if len b <=? offset_left then inl (next b, u16 (offset_left - len b)) else inr (q, offset_left))
  end.

(** The pbuf and the offset in it. *)
Definition pbuf_skip_const (p : option loc) (in_offset : Z) : M mem (option loc * Z) :=
  fuel ← chain_fuel; iter fuel pbuf_skip_body (p, in_offset).
Definition pbuf_skip (p : option loc) (in_offset : Z) : M mem (option loc * Z) := pbuf_skip_const p in_offset.

Definition pbuf_try_get_at (p : option loc) (offset : Z) : M mem Z :=
  '(q, q_idx) ← pbuf_skip_const p offset;
  match q with
  | None => mret (-1)
  | Some q =>
    b ← getp q;
    if q_idx <? len b then bs ← read_at (payload b) q_idx 1; mret (nth 0 bs 0) else mret (-1)
  end.

Definition pbuf_get_at (p : option loc) (offset : Z) : M mem Z :=
  r ← pbuf_try_get_at p offset;
  mret (if 0 <=? r then u8 r else 0).

Definition pbuf_put_at (p : option loc) (offset data : Z) : M mem unit :=
  '(q, q_idx) ← pbuf_skip p offset;
  match q with
  | None => mret tt
  | Some q => b ← getp q; when (q_idx <? len b) (write_at (payload b) q_idx [data])
  end.

(** ** Copies out of and into a chain *)

Definition pbuf_copy_partial_body (x : option loc * Z * Z * list Z * Z) :
    M mem ((option loc * Z * Z * list Z * Z) + (list Z * Z)) :=
  let '(p, n, offset, out, copied_total) := x in
  match p with
  | None => mret (inr (out, copied_total))
  | Some l =>
    if n =? 0 then mret (inr (out, copied_total))
    else
      b ← getp l;
      if negb (offset =? 0) && (len b <=? offset) then
        mret (inl (next b, n, u16 (offset - len b), out, copied_total))
      else
        let buf_copy_len := Z.min (u16 (len b - offset)) n in
        bs ← read_at (payload b) offset buf_copy_len;
        mret (inl (next b, u16 (n - buf_copy_len), 0, out ++ bs, u16 (copied_total + buf_copy_len)))
  end.

(** The bytes stored at [dataptr], and the result. *)
Definition pbuf_copy_partial (p : option loc) (n offset : Z) : M mem (list Z * Z) :=
  match p with
  | None => mret ([], 0)
  | Some _ => fuel ← chain_fuel; iter fuel pbuf_copy_partial_body (p, n, offset, [], 0)
  end.

Definition pbuf_take_body (x : option loc * list Z) : M mem ((option loc * list Z) + unit) :=
  let '(p, data) := x in
  match data with
  | [] => mret (inr tt)
  | _ =>
    l ← deref NullDeref p;
    b ← getp l;
    let buf_copy_len := Z.min (Z.of_nat (length data)) (len b) in
    write_at (payload b) 0 (take (Z.to_nat buf_copy_len) data);;
    mret (inl (next b, drop (Z.to_nat buf_copy_len) data))
  end.

(** [dataptr] and [len]: the bytes [data], or a NULL [dataptr]. *)
Definition pbuf_take (p : option loc) (data : option (list Z)) (n : Z) : M mem Z :=
  match p, data with
  | Some l, Some data =>
    b ← getp l;
    if tot_len b <? n then mret ERR_MEM
    else
      if Z.of_nat (length data) <? n then halt OutOfBounds
      else
        fuel ← chain_fuel;
        iter fuel pbuf_take_body (p, take (Z.to_nat n) data);;
        mret ERR_OK
  | _, _ => mret ERR_ARG
  end.

Definition pbuf_take_at (p : option loc) (data : list Z) (n offset : Z) : M mem Z :=
  '(q, target_offset) ← pbuf_skip p offset;
  match q with
  | None => mret ERR_MEM
  | Some l =>
    b ← getp l;
    if tot_len b <? target_offset + n then mret ERR_MEM
    else if Z.of_nat (length data) <? n then halt OutOfBounds
    else
      let first_copy_len := u16 (Z.min (len b - target_offset) n) in
      write_at (payload b) target_offset (take (Z.to_nat first_copy_len) data);;
      let remaining_len := u16 (n - first_copy_len) in
      if 0 <? remaining_len then
        pbuf_take (next b) (Some (drop (Z.to_nat first_copy_len) data)) remaining_len
      else mret ERR_OK
  end.

Definition pbuf_copy_body (x : option loc * option loc * Z * Z * Z) :
    M mem ((option loc * option loc * Z * Z * Z) + Z) :=
  let '(p_to, p_from, offset_to, offset_from, copy_len) := x in
  lt ← deref NullDeref p_to; lf ← deref NullDeref p_from;
  bt ← getp lt; bf ← getp lf;
  let n := if u32 (len bf - offset_from) <=? u32 (len bt - offset_to)
           then u32 (len bf - offset_from) else u32 (len bt - offset_to) in
  let n := Z.min copy_len n in
  bs ← read_at (payload bf) offset_from n;
  write_at (payload bt) offset_to bs;;
  let offset_to := u32 (offset_to + n) in
  let offset_from := u32 (offset_from + n) in
  let copy_len := u16 (copy_len - n) in
  let '(p_from, offset_from) := if len bf <=? offset_from then (next bf, 0) else (p_from, offset_from) in
  if bool_decide (p_from = None) && negb (copy_len =? 0) then mret (inr ERR_ARG)
  else
    let '(p_to, offset_to) := if offset_to =? len bt then (next bt, 0) else (p_to, offset_to) in
    if bool_decide (p_to = None) && negb (copy_len =? 0) then mret (inr ERR_ARG)
    else
      let queue p :=
        match p with
        | None => mret false
        | Some l => b ← getp l; mret ((len b =? tot_len b) && negb (bool_decide (next b = None)))
        end in
      qf ← queue p_from;
      if (qf : bool) then mret (inr ERR_VAL)
      else
        qt ← queue p_to;
        if (qt : bool) then mret (inr ERR_VAL)
        else mret (if copy_len =? 0 then inr ERR_OK else inl (p_to, p_from, offset_to, offset_from, copy_len)).

Definition pbuf_copy_partial_pbuf (p_to p_from : option loc) (copy_len offset : Z) : M mem Z :=
  match p_from with
  | None => mret ERR_ARG
  | Some lf =>
    bf ← getp lf;
    if tot_len bf <? copy_len then mret ERR_ARG
    else
      match p_to with
      | None => mret ERR_ARG
      | Some lt =>
        bt ← getp lt;
        if tot_len bt <? offset + copy_len then mret ERR_ARG
        else
          fuel ← chain_fuel;
          iter (2 * fuel) pbuf_copy_body (p_to, p_from, offset, 0, copy_len)
      end
  end.

Definition pbuf_copy (p_to p_from : option loc) : M mem Z :=
  match p_from with
  | None => mret ERR_ARG
  | Some lf => bf ← getp lf; pbuf_copy_partial_pbuf p_to p_from (tot_len bf) 0
  end.

(** A pointer to contiguous bytes: into a payload, or to [buffer] after a copy
    of the bytes into it. *)
Inductive contiguous : Type := CNull | CPayload (x : ptr) | CBuffer (copied : list Z).

Definition pbuf_get_contiguous (p : option loc) (buffer : bool) (bufsize n offset : Z) : M mem contiguous :=
  match p with
  | None => mret CNull
  | Some _ =>
    if buffer && (bufsize <? n) then mret CNull
    else
      '(q, out_offset) ← pbuf_skip_const p offset;
      match q with
      | None => mret CNull
      | Some l =>
        b ← getp l;
        if out_offset + n <=? len b then
          x ← deref NullDeref (payload b); mret (CPayload (x.1, x.2 + out_offset))
        else if negb buffer then mret CNull
        else
          '(out, r) ← pbuf_copy_partial q n out_offset;
          mret (if r =? n then CBuffer out else CNull)
      end
  end.

(** ** Comparison and search *)

(** [for (i = 0; i < n; i++)] of [pbuf_memcmp], with [k = n - i] rounds left. *)
Fixpoint memcmp_loop (k : nat) (q : option loc) (start i : Z) (s2 : list Z) : M mem Z :=
  match k with
  | O => mret 0
  | S k =>
    a ← pbuf_get_at q (u16 (start + i));
    let b := nth (Z.to_nat i) s2 0 in
    if a =? b then memcmp_loop k q start (i + 1) s2 else mret (u16 (Z.min (i + 1) 0xFFFF))
  end.

(** [s2] has the [n] bytes to compare. *)
Definition pbuf_memcmp (p : loc) (offset : Z) (s2 : list Z) (n : Z) : M mem Z :=
  b ← getp p;
  if tot_len b <? offset + n then mret 0xffff
  else
    '(q, start) ← pbuf_skip_const (Some p) offset;
    if Z.of_nat (length s2) <? n then halt OutOfBounds
    else memcmp_loop (Z.to_nat n) q start 0 s2.

(** [for (i = start_offset; i <= max_cmp_start; i++)], [k] rounds left. *)
Fixpoint memfind_loop (k : nat) (p : loc) (i : Z) (s : list Z) (mem_len : Z) : M mem Z :=
  match k with
  | O => mret 0xFFFF
  | S k =>
    plus ← pbuf_memcmp p i s mem_len;
    if plus =? 0 then mret i else memfind_loop k p (i + 1) s mem_len
  end.

Definition pbuf_memfind (p : loc) (s : list Z) (mem_len start_offset : Z) : M mem Z :=
  b ← getp p;
  let max_cmp_start := u16 (tot_len b - mem_len) in
  if mem_len + start_offset <=? tot_len b then
    memfind_loop (Z.to_nat (max_cmp_start - start_offset + 1)) p start_offset s mem_len
  else mret 0xFFFF.

(** [substr] without its terminating zero, or NULL. *)
Definition pbuf_strstr (p : loc) (substr : option (list Z)) : M mem Z :=
  match substr with
  | None | Some [] => mret 0xFFFF
  | Some s =>
    b ← getp p;
    if (tot_len b =? 0xFFFF) || (0xFFFF <=? Z.of_nat (length s)) then mret 0xFFFF
    else pbuf_memfind p s (u16 (Z.of_nat (length s))) 0
  end.
End Headers.

Section Release.
Context `{CustomFree}.

Definition pbuf_free_header_body (x : option loc * Z) : M mem ((option loc * Z) + option loc) :=
  let '(p, free_left) := x in
  match p with
  | None => mret (inr p)
  | Some l =>
    if free_left =? 0 then mret (inr p)
    else
      b ← getp l;
      if len b <=? free_left then
        setp l (set_next None);;
        pbuf_free (Some l);;
        mret (inl (next b, u16 (free_left - len b)))
      else
        pbuf_remove_header (Some l) free_left;;
        mret (inl (Some l, 0))
  end.

Definition pbuf_free_header (q : option loc) (size : Z) : M mem (option loc) :=
  fuel ← chain_fuel; iter (S fuel) pbuf_free_header_body (q, size).

Definition pbuf_dechain (p : loc) : M mem (option loc) :=
  b ← getp p;
  match next b with
  | None => mret None
  | Some q =>
    setp q (set_tot_len (u16 (tot_len b - len b)));;
    setp p (set_next None);;
    setp p (fun b => set_tot_len (len b) b);;
    tail_gone ← pbuf_free (Some q);
    mret (if 0 <? tail_gone then None else Some q)
  end.

Definition pbuf_clone (layer : pbuf_layer) (type : pbuf_type) (p : loc) : M mem (option loc) :=
  b ← getp p;
  q ← pbuf_alloc layer (tot_len b) type;
  match q with
  | None => mret None
  | Some _ => pbuf_copy q (Some p);; mret q
  end.

Definition pbuf_coalesce (p : loc) (layer : pbuf_layer) : M mem loc :=
  b ← getp p;
  match next b with
  | None => mret p
  | Some _ =>
    q ← pbuf_clone layer PBUF_RAM p;
    match q with
    | None => mret p
    | Some q => pbuf_free (Some p);; mret q
    end
  end.
End Release.
