(* ===== verification/PbufFacts.v ===== *)
(** Packet buffers: what a well-formed chain is, and the accesses to its
    bytes. *)
From stdpp Require Import functions.
From S2P Require Import Prelude Memp Pbuf.

(** ** Chains *)

(** A pbuf of a chain: where it is, its structure, the bytes its payload holds. *)
Record node : Type := Node { n_loc : loc; n_buf : pbuf; n_data : list Z }.

Definition contents (c : list node) : list Z := concat (map n_data c).

Definition total (c : list node) : Z := Z.of_nat (length (contents c)).

(** The area a payload lies in. *)
Definition node_area (n : node) : option loc := fst <$> payload (n_buf n).

Lemma areas_cons n c : omap node_area (n :: c) =
  match node_area n with Some blk => blk :: omap node_area c | None => omap node_area c end.
Proof. done. Qed.

Lemma contents_cons n c : contents (n :: c) = n_data n ++ contents c.
Proof. done. Qed.

Lemma total_cons n c : total (n :: c) = Z.of_nat (length (n_data n)) + total c.
Proof. unfold total. rewrite contents_cons, length_app. lia. Qed.

Lemma total_nonneg c : 0 <= total c.
Proof. unfold total. lia. Qed.

Section Chains.
Context `{HeapOps}.

(** The payload of [b] holds [data]. *)
Definition holds (m : mem) (b : pbuf) (data : list Z) : Prop :=
  Z.of_nat (length data) = len b /\
  match payload b with
  | None => data = []
  | Some (blk, off) => exists a, bytes m !! blk = Some a /\ 0 <= off /\
      off + len b <= Z.of_nat (length a) /\ data = take (length data) (drop (Z.to_nat off) a)
  end.

Fixpoint chain (m : mem) (p : option loc) (c : list node) : Prop :=
  match c with
  | [] => p = None
  | n :: c => p = Some (n_loc n) /\ pbufs m !! n_loc n = Some (n_buf n) /\
      holds m (n_buf n) (n_data n) /\ chain m (next (n_buf n)) c
  end.

(** [tot_len] is the length from this pbuf to the end of the chain. *)
Fixpoint totals (c : list node) : Prop :=
  match c with [] => True | n :: c' => tot_len (n_buf n) = total c /\ totals c' end.

(** A packet: a chain of distinct pbufs with disjoint payload areas. *)
Record packet (m : mem) (p : option loc) (c : list node) : Prop := {
  pk_chain : chain m p c;
  pk_totals : totals c;
  pk_locs : NoDup (map n_loc c);
  pk_areas : NoDup (omap node_area c);
  pk_bound : total c < 65536
}.

Lemma chain_size m p c : chain m p c -> NoDup (map n_loc c) -> (length c <= size (pbufs m))%nat.
Proof.
  intros Hc Hn. rewrite <- (length_map n_loc c), <- (size_list_to_set (C := gset loc)) by done.
  rewrite <- size_dom. apply subseteq_size. clear Hn. revert p Hc.
  induction c as [|n c IH]; intros p; simpl; [set_solver|].
  intros (_ & Hl & _ & Hc). apply IH in Hc. apply elem_of_dom_2 in Hl. set_solver.
Qed.

(** Only the structures and areas of the chain matter. *)
Lemma chain_frame m m' p c :
  (forall n, n ∈ c -> pbufs m' !! n_loc n = pbufs m !! n_loc n) ->
  (forall n blk, n ∈ c -> node_area n = Some blk -> bytes m' !! blk = bytes m !! blk) ->
  chain m p c -> chain m' p c.
Proof.
  revert p. induction c as [|n c IH]; intros p Hp Hb; [done|]. simpl. intros (E & Hl & Hh & Hc).
  split_and!; [done|rewrite Hp; [done|by left]| |].
  - destruct Hh as [L Hh]. split; [done|]. destruct (payload (n_buf n)) as [[blk off]|] eqn:P; [|done].
    rewrite (Hb n blk); [done|by left|unfold node_area; by rewrite P].
  - apply IH; [intros; apply Hp; by right|intros n' blk Hn'; apply Hb; by right|done].
Qed.

(** ** Steps *)

Lemma wp_getp l b (Q : pbuf -> mem -> Prop) m : pbufs m !! l = Some b -> Q b m -> wp (getp l) Q m.
Proof. intros E HQ. apply wp_bind, wp_gets. rewrite E. by apply wp_ret. Qed.

Lemma wp_setp l f b (Q : unit -> mem -> Prop) m :
  pbufs m !! l = Some b -> Q tt (set_pbufs (<[l := f b]> (pbufs m)) m) -> wp (setp l f) Q m.
Proof. intros E HQ. apply wp_bind, (wp_getp _ b); [done|]. by apply wp_modify. Qed.

Lemma wp_memp_malloc_at t (Q : option loc -> mem -> Prop) m :
  (mpools m t = [] -> Q None m) ->
  (forall i rest, mpools m t = i :: rest -> Q (Some (Pool t i)) (set_mpools (<[t := rest]> (mpools m)) m)) ->
  wp (memp_malloc_at t) Q m.
Proof.
  intros HN HS. unfold memp_malloc_at, pools_m, zoom, wp, mbind, M_bind, mret, M_ret.
  destruct (mpools m t) as [|i rest] eqn:E; unfold memp_malloc, do_memp_malloc_pool, mbind, M_bind, get, put, mret, M_ret.
  - rewrite E. destruct m. by apply HN.
  - rewrite E. by apply (HS i rest).
Qed.

Lemma wp_chain_fuel (Q : nat -> mem -> Prop) m : Q (S (size (pbufs m))) m -> wp chain_fuel Q m.
Proof. done. Qed.

Lemma wp_area x n a (Q : list Z -> mem -> Prop) m :
  bytes m !! x.1 = Some a -> 0 <= x.2 -> 0 <= n -> x.2 + n <= Z.of_nat (length a) -> Q a m ->
  wp (area x n) Q m.
Proof.
  intros E H1 H2 H3 HQ. apply wp_bind, wp_gets. rewrite E. apply wp_bind, wp_ret.
  rewrite (proj2 (Z.leb_le _ _) H1), (proj2 (Z.leb_le _ _) H2), (proj2 (Z.leb_le _ _) H3). by apply wp_ret.
Qed.

Lemma wp_read_at b data off n (Q : list Z -> mem -> Prop) m :
  holds m b data -> 0 <= off -> 0 <= n -> off + n <= len b ->
  Q (take (Z.to_nat n) (drop (Z.to_nat off) data)) m -> wp (read_at (payload b) off n) Q m.
Proof.
  intros [L Hh] Ho Hn Hl HQ. unfold read_at. destruct (Z.eqb_spec n 0) as [->|Hn0]; [done|].
  destruct (payload b) as [[blk o]|]; [|subst data; simpl in L; lia].
  destruct Hh as (a & Ea & H1 & H2 & E). apply wp_bind, wp_ret, wp_bind, (wp_area _ _ a); simpl; [done|lia..|].
  apply wp_ret. rewrite E, skipn_firstn_comm, take_take, drop_drop in HQ.
  rewrite Nat.min_l in HQ by lia.
  by replace (Z.to_nat (o + off)) with (Z.to_nat o + Z.to_nat off)%nat by lia.
Qed.

Lemma splice_length i new (l : list Z) : (i + length new <= length l)%nat -> length (splice i new l) = length l.
Proof. intros Hl. unfold splice. rewrite !length_app, length_take, length_drop. lia. Qed.

Lemma splice_lookup i new (l : list Z) k : (i + length new <= length l)%nat ->
  splice i new l !! k = if decide (i <= k < i + length new)%nat then new !! (k - i)%nat else l !! k.
Proof.
  intros Hl. unfold splice. assert (Hi : length (take i l) = i) by (rewrite length_take; lia).
  case_decide as Hk.
  - rewrite lookup_app_r, Hi, lookup_app_l by lia. done.
  - destruct (decide (k < i)%nat).
    + rewrite lookup_app_l by lia. by rewrite lookup_take_lt.
    + rewrite !lookup_app_r, lookup_drop, Hi by lia. f_equal. lia.
Qed.

Lemma splice_view (o off n : nat) (new a : list Z) :
  (off + length new <= n)%nat -> (o + n <= length a)%nat ->
  take n (drop o (splice (o + off) new a)) = splice off new (take n (drop o a)).
Proof.
  intros H1 H2. apply list_eq. intros k.
  rewrite splice_lookup by (rewrite length_take, length_drop; lia).
  rewrite !lookup_take, !lookup_drop, splice_lookup by lia.
  repeat case_decide; try lia; try done. f_equal. lia.
Qed.

Lemma splice_outside (o n i : nat) (new a : list Z) :
  (i + length new <= length a)%nat -> (o + n <= i \/ i + length new <= o)%nat ->
  take n (drop o (splice i new a)) = take n (drop o a).
Proof.
  intros H1 H2. apply list_eq. intros k. rewrite !lookup_take, !lookup_drop, splice_lookup by lia.
  repeat case_decide; try lia; done.
Qed.

(** A write into a payload. *)
Lemma wp_write_at b data off new (Q : unit -> mem -> Prop) m :
  holds m b data -> 0 <= off -> off + Z.of_nat (length new) <= len b ->
  (forall m', pbufs m' = pbufs m -> heap m' = heap m -> mpools m' = mpools m ->
     holds m' b (splice (Z.to_nat off) new data) ->
     (forall blk, fst <$> payload b <> Some blk -> bytes m' !! blk = bytes m !! blk) ->
     Q tt m') ->
  wp (write_at (payload b) off new) Q m.
Proof.
  intros [L Hh] Ho Hl HQ. unfold write_at. destruct (Z.eqb_spec (Z.of_nat (length new)) 0) as [Hn|Hn].
  { apply wp_ret, HQ; [done..| |done]. destruct new; [|simpl in Hn; lia].
    unfold splice. rewrite app_nil_l, Nat.add_0_r, take_drop. by split. }
  destruct (payload b) as [[blk o]|] eqn:P; [|subst data; simpl in L; lia].
  destruct Hh as (a & Ea & H1 & H2 & E). apply wp_bind, wp_ret, wp_bind, (wp_area _ _ a); simpl; [done|lia..|].
  apply wp_modify, HQ; try done.
  - assert (Hs : length (splice (Z.to_nat off) new data) = length data) by (apply splice_length; lia).
    split; [by rewrite Hs|]. rewrite P. simpl.
    exists (splice (Z.to_nat (o + off)) new a). rewrite lookup_insert_eq. split_and!; [done|lia| |].
    { rewrite splice_length by lia. lia. }
    rewrite Hs. replace (Z.to_nat (o + off)) with (Z.to_nat o + Z.to_nat off)%nat by lia.
    rewrite splice_view by lia. by rewrite <- E.
  - intros blk' Hne. simpl. rewrite lookup_insert_ne; [done|]. intros ->. by apply Hne.
Qed.

(** ** Reading out of a chain *)

Lemma copy_partial_loop m c : forall p fuel n offset out k,
  chain m p c -> total c < 65536 -> (length c < fuel)%nat -> 0 <= n -> 0 <= offset < 65536 ->
  0 <= k -> k + n < 65536 ->
  iter fuel pbuf_copy_partial_body (p, n, offset, out, k) m =
    Ret (out ++ take (Z.to_nat n) (drop (Z.to_nat offset) (contents c)),
         k + Z.of_nat (length (take (Z.to_nat n) (drop (Z.to_nat offset) (contents c))))) m.
Proof.
  induction c as [|nd c IH]; intros p fuel n offset out k Hc Ht Hf Hn Ho Hk Hkn;
    destruct fuel as [|fuel]; try (simpl in Hf; lia).
  - simpl in Hc. subst p. change (contents []) with (@nil Z). rewrite drop_nil, take_nil.
    simpl. unfold mbind, M_bind, mret, M_ret.
    by rewrite app_nil_r, Z.add_0_r.
  - destruct Hc as (-> & Hl & Hh & Hc). pose proof Hh as [L _]. rewrite total_cons in Ht.
    pose proof (total_nonneg c). rewrite contents_cons. simpl in Hf. cbn [iter].
    assert (W : wp (pbuf_copy_partial_body (Some (n_loc nd), n, offset, out, k)) (fun r m' => m' = m /\ r = (if n =? 0 then inr (out, k)
          else if negb (offset =? 0) && (len (n_buf nd) <=? offset)
               then inl (next (n_buf nd), n, offset - len (n_buf nd), out, k)
               else let cl := Z.min (len (n_buf nd) - offset) n in
                 inl (next (n_buf nd), n - cl, 0, out ++ take (Z.to_nat cl) (drop (Z.to_nat offset) (n_data nd)),
                      k + cl))) m).
    { simpl. destruct (n =? 0); [done|]. apply wp_bind, (wp_getp _ (n_buf nd)); [done|].
      destruct (negb (offset =? 0) && (len (n_buf nd) <=? offset)) eqn:E.
      - apply andb_true_iff in E as [_ E%Z.leb_le]. apply wp_ret. rewrite u16_small by lia. done.
      - assert (offset <= len (n_buf nd)) by (apply andb_false_iff in E as [E|E];
          [apply negb_false_iff, Z.eqb_eq in E; lia|apply Z.leb_gt in E; lia]).
        rewrite (u16_small (len (n_buf nd) - offset)) by lia.
        apply wp_bind, (wp_read_at _ (n_data nd)); [done|lia..|]. apply wp_ret.
        rewrite !u16_small by lia. done. }
    destruct (wp_elim _ _ _ W) as (r & m' & E & -> & ->). erewrite bind_Ret by exact E. clear W E.
    destruct (Z.eqb_spec n 0) as [->|Hn0].
    { simpl. rewrite take_0, app_nil_r. by rewrite Z.add_0_r. }
    destruct (negb (offset =? 0) && (len (n_buf nd) <=? offset)) eqn:E.
    + apply andb_true_iff in E as [_ E%Z.leb_le]. rewrite IH by (done || lia).
      rewrite drop_app_ge by lia. by replace (Z.to_nat offset - length (n_data nd))%nat
        with (Z.to_nat (offset - len (n_buf nd))) by lia.
    + assert (offset <= len (n_buf nd)) by (apply andb_false_iff in E as [E|E];
        [apply negb_false_iff, Z.eqb_eq in E; lia|apply Z.leb_gt in E; lia]).
      cbv beta iota zeta. set (cl := Z.min (len (n_buf nd) - offset) n). rewrite IH by (done || lia).
      rewrite drop_app_le by lia. rewrite drop_0.
      set (d := drop (Z.to_nat offset) (n_data nd)).
      assert (Hd : Z.of_nat (length d) = len (n_buf nd) - offset) by (unfold d; rewrite length_drop; lia).
      assert (Hcat : take (Z.to_nat n) (d ++ contents c) =
        take (Z.to_nat cl) d ++ take (Z.to_nat (n - cl)) (contents c)).
      { rewrite take_app. destruct (Z.le_gt_cases n (Z.of_nat (length d))).
        - replace (Z.to_nat cl) with (Z.to_nat n) by lia. replace (Z.to_nat n - length d)%nat with 0%nat by lia.
          replace (Z.to_nat (n - cl)) with 0%nat by lia. done.
        - rewrite !(take_ge d) by lia. do 2 f_equal. lia. }
      rewrite Hcat, app_assoc, length_app, !length_take. do 2 f_equal. lia.
Qed.

(** Copying out.  For a packet, [pbuf_copy_partial] returns, without
    changing anything, the bytes of the chain from [offset] on, at most [n] of
    them, wherever the pbuf boundaries lie, and their number. *)
Theorem pbuf_copy_partial_reads m p c n offset :
  packet m (Some p) c -> 0 <= n < 65536 -> 0 <= offset < 65536 ->
  let out := take (Z.to_nat n) (drop (Z.to_nat offset) (contents c)) in
  pbuf_copy_partial (Some p) n offset m = Ret (out, Z.of_nat (length out)) m.
Proof.
  intros [Hc _ Hn _ Hb] Hl Ho out. unfold pbuf_copy_partial. erewrite bind_Ret by reflexivity.
  rewrite (copy_partial_loop m c); [done|done|done| |lia..].
  pose proof (chain_size _ _ _ Hc Hn). lia.
Qed.

(** ** Finding a byte *)

(** The part of the chain that starts with the pbuf [offset] lies in, and the
    offset in that pbuf. *)
Fixpoint skip_spec (c : list node) (offset : Z) : list node * Z :=
  match c with
  | [] => ([], offset)
  | n :: c' => if len (n_buf n) <=? offset then skip_spec c' (offset - len (n_buf n)) else (c, offset)
  end.

Definition first_loc (c : list node) : option loc := n_loc <$> head c.

Lemma skip_loop m c : forall p fuel offset,
  chain m p c -> (length c < fuel)%nat -> 0 <= offset < 65536 ->
  iter fuel pbuf_skip_body (p, offset) m =
    Ret (first_loc (skip_spec c offset).1, (skip_spec c offset).2) m.
Proof.
  induction c as [|nd c IH]; intros p fuel offset Hc Hf Ho; destruct fuel as [|fuel]; try (simpl in Hf; lia).
  - simpl in Hc. by subst p.
  - destruct Hc as (-> & Hl & [L _] & Hc). simpl in Hf. cbn [iter].
    assert (W : wp (pbuf_skip_body (Some (n_loc nd), offset)) (fun r m' => m' = m /\
      r = (if len (n_buf nd) <=? offset then inl (next (n_buf nd), u16 (offset - len (n_buf nd)))
           else inr (Some (n_loc nd), offset))) m).
    { simpl. by apply wp_bind, (wp_getp _ (n_buf nd)). }
    destruct (wp_elim _ _ _ W) as (r & m' & E & -> & ->). erewrite bind_Ret by exact E. simpl.
    destruct (Z.leb_spec (len (n_buf nd)) offset); [|done]. rewrite u16_small by lia.
    apply IH; [done|lia|lia].
Qed.

Lemma skip_run m p c offset :
  packet m p c -> 0 <= offset < 65536 ->
  pbuf_skip_const p offset m = Ret (first_loc (skip_spec c offset).1, (skip_spec c offset).2) m.
Proof.
  intros [Hc _ Hn _ _] Ho. unfold pbuf_skip_const. erewrite bind_Ret by reflexivity.
  apply skip_loop; [done| |done]. pose proof (chain_size _ _ _ Hc Hn). lia.
Qed.

(** What is left behind [offset]. *)
Lemma skip_spec_inv m c : forall p offset,
  chain m p c -> 0 <= offset ->
  exists c1, c = c1 ++ (skip_spec c offset).1 /\ chain m (first_loc (skip_spec c offset).1) (skip_spec c offset).1 /\
    offset = total c1 + (skip_spec c offset).2 /\ 0 <= (skip_spec c offset).2 /\
    match (skip_spec c offset).1 with
    | [] => total c <= offset
    | nd :: _ => (skip_spec c offset).2 < len (n_buf nd)
    end.
Proof.
  induction c as [|nd c IH]; intros p offset Hc Ho; simpl.
  - exists []. split_and!; try done.
  - pose proof Hc as Hc'. destruct Hc as (-> & Hl & [L _] & Hc).
    destruct (Z.leb_spec (len (n_buf nd)) offset).
    + destruct (IH (next (n_buf nd)) (offset - len (n_buf nd)) Hc) as (c1 & E1 & H1 & H2 & H3 & H4); [lia|].
      exists (nd :: c1). rewrite total_cons. split_and!; [simpl; by f_equal|done|lia|done|].
      case_match; [rewrite total_cons; lia|done].
    + exists []. split_and!; [done|done|done|done|done].
Qed.

Lemma skip_spec_byte m p c offset :
  chain m p c -> 0 <= offset ->
  contents c !! Z.to_nat offset =
    match (skip_spec c offset).1 with
    | [] => None
    | nd :: _ => n_data nd !! Z.to_nat (skip_spec c offset).2
    end.
Proof.
  intros Hc Ho. destruct (skip_spec_inv m c p offset Hc Ho) as (c1 & E & H1 & H2 & H3 & H4).
  destruct (skip_spec c offset) as [cr o]. simpl in *. destruct cr as [|nd cr].
  - apply lookup_ge_None_2. unfold total in H4. lia.
  - rewrite E. unfold contents. rewrite map_app, concat_app. fold (contents c1).
    destruct H1 as (_ & _ & [L _] & _). unfold total in H2.
    rewrite lookup_app_r by lia. simpl. rewrite lookup_app_l by lia. f_equal. lia.
Qed.

Lemma packet_suffix m p c c1 c2 : packet m p c -> c = c1 ++ c2 -> chain m (first_loc c2) c2 -> packet m (first_loc c2) c2.
Proof.
  intros [_ Ht Hl Ha Hb] -> Hc. split; [done| | | |].
  - clear -Ht. induction c1 as [|n c1 IH]; [done|]. apply IH. apply Ht.
  - rewrite map_app in Hl. by apply NoDup_app in Hl as (_ & _ & Hl).
  - rewrite omap_app in Ha. by apply NoDup_app in Ha as (_ & _ & Ha).
  - unfold total, contents in *. rewrite map_app, concat_app, length_app in Hb. lia.
Qed.

(** The byte at [offset], or -1 behind the end. *)
Lemma wp_try_get_at m p c offset (Q : Z -> mem -> Prop) :
  packet m p c -> 0 <= offset < 65536 -> Q (default (-1) (contents c !! Z.to_nat offset)) m ->
  wp (pbuf_try_get_at p offset) Q m.
Proof.
  intros Hp Ho HQ. unfold pbuf_try_get_at. pose proof (pk_chain _ _ _ Hp) as Hc.
  rewrite (skip_spec_byte m p) in HQ by (done || lia).
  destruct (skip_spec_inv m c p offset Hc) as (c1 & E & H1 & H2 & H3 & H4); [lia|].
  apply wp_bind. eapply wp_of_run; [by apply (skip_run m p c)|].
  destruct (skip_spec c offset) as [cr o]. simpl in *. destruct cr as [|nd cr]; [done|].
  destruct H1 as (_ & Hl & Hh & _). simpl. apply wp_bind, (wp_getp _ (n_buf nd)); [done|].
  rewrite (proj2 (Z.ltb_lt _ _)) by done. apply wp_bind, (wp_read_at _ (n_data nd)); [done|lia..|].
  apply wp_ret. destruct Hh as [L _].
  destruct (lookup_lt_is_Some_2 (n_data nd) (Z.to_nat o)) as [x Hx]; [lia|]. rewrite Hx in HQ. simpl in HQ.
  rewrite (drop_S _ x) by done. done.
Qed.

(** Reading one byte: [pbuf_get_at] returns the byte of the chain at the
    offset, and zero behind its end; [pbuf_try_get_at] tells the two apart. *)
Theorem pbuf_get_at_reads m p c offset :
  packet m p c -> Forall byte (contents c) -> 0 <= offset < 65536 ->
  pbuf_try_get_at p offset m = Ret (default (-1) (contents c !! Z.to_nat offset)) m /\
  pbuf_get_at p offset m = Ret (default 0 (contents c !! Z.to_nat offset)) m.
Proof.
  intros Hp Hb Ho.
  assert (W1 : wp (pbuf_try_get_at p offset)
    (fun r m' => r = default (-1) (contents c !! Z.to_nat offset) /\ m' = m) m) by (by eapply wp_try_get_at).
  destruct (wp_elim _ _ _ W1) as (r & m' & E & -> & ->). split; [done|].
  unfold pbuf_get_at. erewrite bind_Ret by exact E. unfold mret, M_ret. f_equal.
  destruct (contents c !! Z.to_nat offset) as [x|] eqn:Ex; [|done]. simpl.
  rewrite Forall_lookup in Hb. specialize (Hb _ _ Ex). unfold byte in Hb.
  rewrite (proj2 (Z.leb_le _ _)) by lia. apply u8_small. lia.
Qed.
End Chains.
