(* ===== verification/PbufUpdate.v ===== *)
(** Packet buffers: writing into a chain. *)
From stdpp Require Import functions.
From S2P Require Import Prelude Memp Pbuf PbufFacts.

(** The same pbufs with other bytes. *)
Definition same_shape (c c' : list node) : Prop :=
  Forall2 (fun n n' => n_loc n' = n_loc n /\ n_buf n' = n_buf n /\ length (n_data n') = length (n_data n)) c c'.

Lemma same_shape_refl c : same_shape c c.
Proof. induction c; constructor; done. Qed.

Lemma same_shape_areas c c' : same_shape c c' -> omap node_area c' = omap node_area c.
Proof.
  induction 1 as [|n n' c c' (_ & E & _) _ IH]; [done|]. rewrite !areas_cons, IH.
  unfold node_area. by rewrite E.
Qed.

Lemma same_shape_locs c c' : same_shape c c' -> map n_loc c' = map n_loc c.
Proof. induction 1 as [|n n' c c' (E & _ & _) _ IH]; [done|]. simpl. by rewrite E, IH. Qed.

Lemma same_shape_total c c' : same_shape c c' -> total c' = total c.
Proof. induction 1 as [|n n' c c' (_ & _ & E) _ IH]; [done|]. rewrite !total_cons. lia. Qed.

Lemma same_shape_totals c c' : same_shape c c' -> totals c -> totals c'.
Proof.
  induction 1 as [|n n' c c' E Hs IH]; [done|]. simpl. intros [Ht Hc]. split; [|auto].
  destruct E as (_ & -> & E). rewrite Ht, !total_cons, (same_shape_total c c') by done. lia.
Qed.

Section Update.
Context `{HeapOps}.

(** Only bytes in the areas [A] differ. *)
Record only_bytes (A : list loc) (m m' : mem) : Prop := {
  ob_pbufs : pbufs m' = pbufs m;
  ob_heap : heap m' = heap m;
  ob_pools : mpools m' = mpools m;
  ob_bytes : forall blk, blk ∉ A -> bytes m' !! blk = bytes m !! blk
}.

Lemma only_bytes_refl A m : only_bytes A m m.
Proof. done. Qed.

Lemma only_bytes_trans A m1 m2 m3 : only_bytes A m1 m2 -> only_bytes A m2 m3 -> only_bytes A m1 m3.
Proof. intros [P1 H1 Q1 B1] [P2 H2 Q2 B2]. split; try congruence. intros blk Hb. by rewrite B2, B1. Qed.

Lemma only_bytes_mono A A' m m' : (forall x, x ∈ A -> x ∈ A') -> only_bytes A m m' -> only_bytes A' m m'.
Proof. intros HA [P1 H1 Q1 B1]. split; try done. intros blk Hb. apply B1. auto. Qed.

Lemma chain_only_bytes A m m' p c :
  only_bytes A m m' -> (forall blk, blk ∈ A -> blk ∉ omap node_area c) -> chain m p c -> chain m' p c.
Proof.
  intros [P1 _ _ B1] HA. apply chain_frame; [by rewrite P1|].
  intros n blk Hn Hb. apply B1. intros Hin. apply (HA _ Hin). apply list_elem_of_omap. by exists n.
Qed.

Lemma holds_only_bytes A m m' b data :
  only_bytes A m m' -> (forall blk, fst <$> payload b = Some blk -> blk ∉ A) -> holds m b data -> holds m' b data.
Proof.
  intros [_ _ _ B] HA [L Hh]. split; [done|]. destruct (payload b) as [[blk off]|]; [|done].
  rewrite B; [done|]. by apply HA.
Qed.

(** Writing a piece of data to the start of each payload in turn. *)
Lemma take_loop c : forall p fuel data m,
  chain m p c -> NoDup (omap node_area c) -> Z.of_nat (length data) <= total c -> (length c < fuel)%nat ->
  wp (iter fuel pbuf_take_body (p, data)) (fun _ m' => only_bytes (omap node_area c) m m' /\
    exists c', chain m' p c' /\ same_shape c c' /\ contents c' = data ++ drop (length data) (contents c)) m.
Proof.
  induction c as [|nd c IH]; intros p fuel data m Hc Hn Hd Hf; destruct fuel as [|fuel]; try (simpl in Hf; lia).
  - destruct data; [|unfold total in Hd; simpl in Hd; lia]. simpl. split; [done|]. exists []. split_and!; [done|apply same_shape_refl|done].
  - cbn [iter]. destruct data as [|x data].
    { simpl. split; [done|]. exists (nd :: c). split_and!; [done|apply same_shape_refl|done]. }
    set (new := x :: data) in *. destruct Hc as (-> & Hl & Hh & Hc). pose proof Hh as [L _].
    rewrite total_cons in Hd. simpl in Hf. pose proof (total_nonneg c).
    set (k := Z.to_nat (Z.min (Z.of_nat (length new)) (len (n_buf nd)))).
    assert (Ek : k = Z.to_nat (Z.min (Z.of_nat (length new)) (len (n_buf nd)))) by done.
    assert (Hk : (k <= length new /\ k <= length (n_data nd))%nat) by lia.
    apply wp_bind. unfold pbuf_take_body, new at 1. apply wp_bind, wp_ret, wp_bind, (wp_getp _ (n_buf nd)); [done|].
    fold new. fold k. apply wp_bind, (wp_write_at _ (n_data nd)); [done|lia|rewrite length_take; lia|].
    intros m1 P1 H1 Q1 Hh1 B1. apply wp_ret. cbv beta iota.
    assert (F1 : only_bytes (omap node_area (nd :: c)) m m1).
    { split; [done..|]. intros blk Hb. apply B1. intros E. apply Hb. apply list_elem_of_omap.
      exists nd. split; [by left|done]. }
    assert (Hnd : forall blk, node_area nd = Some blk -> blk ∉ omap node_area c).
    { intros blk E Hin. simpl in Hn. rewrite E in Hn. apply NoDup_cons in Hn as [Hn _]. done. }
    assert (Hc1 : chain m1 (next (n_buf nd)) c).
    { revert Hc. apply chain_frame; [by rewrite P1|]. intros n blk Hin Hb. apply B1. intros E.
      apply (Hnd blk); [done|]. apply list_elem_of_omap. by exists n. }
    assert (Hn' : NoDup (omap node_area c)).
    { rewrite areas_cons in Hn. destruct (node_area nd); [by apply NoDup_cons in Hn as [_ Hn]|done]. }
    eapply wp_mono; [apply (IH (next (n_buf nd))); [done|done|rewrite length_drop; lia|lia]|].
    intros [] m2 (F2 & c' & Hc' & Hs' & Ec'). split.
    { eapply only_bytes_trans; [exact F1|]. eapply only_bytes_mono; [|exact F2].
      intros y Hy. rewrite areas_cons. case_match; [by right|done]. }
    set (d := splice 0 (take k new) (n_data nd)) in *.
    assert (Hd' : length d = length (n_data nd)) by (apply splice_length; rewrite length_take; lia).
    exists (Node (n_loc nd) (n_buf nd) d :: c'). split_and!.
    + simpl. split_and!; [done|by rewrite (ob_pbufs _ _ _ F2), P1| |done].
      eapply holds_only_bytes; [exact F2|exact Hnd|done].
    + constructor; [done|done].
    + rewrite contents_cons. simpl n_data. rewrite Ec', contents_cons. unfold d, splice. rewrite take_0, app_nil_l.
      rewrite length_take, Nat.min_l, length_drop by lia. simpl Nat.add.
      destruct (Nat.le_gt_cases (length new) (length (n_data nd))).
      * replace k with (length new) by lia. rewrite !drop_all, take_ge, Nat.sub_diag, drop_0 by lia.
        rewrite drop_app_le by lia. by rewrite app_nil_l, app_assoc.
      * replace k with (length (n_data nd)) by lia.
        rewrite drop_all, app_nil_r, drop_app_ge, app_assoc, take_drop by lia. done.
Qed.

Lemma packet_same_shape A m m' p c c' :
  packet m p c -> same_shape c c' -> chain m' p c' -> only_bytes A m m' -> packet m' p c'.
Proof.
  intros [_ Ht Hl Ha Hb] Hs Hc _. split; [done|by eapply same_shape_totals|by erewrite same_shape_locs|
    by erewrite same_shape_areas|by erewrite same_shape_total].
Qed.

Lemma pbuf_take_run m p c data n :
  packet m (Some p) c -> 0 <= n <= total c -> n <= Z.of_nat (length data) ->
  exists m' c', pbuf_take (Some p) (Some data) n m = Ret ERR_OK m' /\
    only_bytes (omap node_area c) m m' /\ packet m' (Some p) c' /\ same_shape c c' /\
    contents c' = take (Z.to_nat n) data ++ drop (Z.to_nat n) (contents c).
Proof.
  intros Hp Hn Hd. pose proof Hp as [Hc Ht Hl Ha Hb].
  assert (W : wp (pbuf_take (Some p) (Some data) n) (fun r m' => r = ERR_OK /\
    only_bytes (omap node_area c) m m' /\ exists c', chain m' (Some p) c' /\ same_shape c c' /\
    contents c' = take (Z.to_nat n) data ++ drop (Z.to_nat n) (contents c)) m).
  { destruct c as [|nd c]; [done|]. pose proof Hc as Hc'. destruct Hc as (E & Hl' & _ & _).
    injection E as ->. apply wp_bind, (wp_getp _ (n_buf nd)); [done|].
    destruct Ht as [Ht _]. rewrite Ht, (proj2 (Z.ltb_ge _ _)), (proj2 (Z.ltb_ge _ _)) by lia.
    apply wp_bind, wp_chain_fuel, wp_bind.
    assert (Hlen : length (take (Z.to_nat n) data) = Z.to_nat n) by (rewrite length_take; lia).
    eapply wp_mono; [apply (take_loop (nd :: c)); [done|done|rewrite Hlen; lia|]|].
    - pose proof (chain_size _ _ _ Hc' Hl). lia.
    - intros [] m' (F & c' & Hc1 & Hs & Ec). apply wp_ret. split_and!; [done..|]. exists c'.
      rewrite Hlen in Ec. done. }
  destruct (wp_elim _ _ _ W) as (r & m' & E & -> & F & c' & Hc' & Hs & Ec).
  exists m', c'. split_and!; [done|done|by eapply packet_same_shape|done|done].
Qed.

(** Storing into a packet.  [pbuf_take] of [n] bytes that fit returns
    ERR_OK; the packet then holds the [n] bytes followed by what it held
    behind them, wherever the pbuf boundaries lie; no structure changes, and no
    byte outside the packet's payload areas.  When the bytes do not fit, it
    returns ERR_MEM and changes nothing. *)
Theorem pbuf_take_stores m p c data n :
  packet m (Some p) c -> 0 <= n <= Z.of_nat (length data) ->
  (n <= total c -> exists m' c', pbuf_take (Some p) (Some data) n m = Ret ERR_OK m' /\
    only_bytes (omap node_area c) m m' /\ packet m' (Some p) c' /\ same_shape c c' /\
    contents c' = take (Z.to_nat n) data ++ drop (Z.to_nat n) (contents c)) /\
  (total c < n -> pbuf_take (Some p) (Some data) n m = Ret ERR_MEM m).
Proof.
  intros Hp Hn. split; [intros; apply pbuf_take_run; [done|lia|lia]|]. intros Hlt.
  destruct Hp as [Hc Ht _ _ _]. destruct c as [|nd c]; [done|]. destruct Hc as (E & Hl & _ & _).
  injection E as ->. destruct Ht as [Ht _].
  assert (W : wp (pbuf_take (Some (n_loc nd)) (Some data) n) (fun r m' => r = ERR_MEM /\ m' = m) m).
  { apply wp_bind, (wp_getp _ (n_buf nd)); [done|]. rewrite Ht, (proj2 (Z.ltb_lt _ _)) by lia. by apply wp_ret. }
  by destruct (wp_elim _ _ _ W) as (r & m' & E & -> & ->).
Qed.

(** Round trip: what [pbuf_take] stores, [pbuf_copy_partial] returns. *)
Theorem pbuf_take_copy_partial m p c data :
  packet m (Some p) c -> Z.of_nat (length data) <= total c ->
  let n := Z.of_nat (length data) in
  exists m', pbuf_take (Some p) (Some data) n m = Ret ERR_OK m' /\
    pbuf_copy_partial (Some p) n 0 m' = Ret (data, n) m'.
Proof.
  intros Hp Hl n. destruct (pbuf_take_run m p c data n Hp) as (m' & c' & E & _ & Hp' & Hs & Ec); [lia|lia|].
  exists m'. split; [done|].
  destruct Hp as [_ _ _ _ Hb].
  assert (W : wp (pbuf_copy_partial (Some p) n 0) (fun r m1 => r = (data, n) /\ m1 = m') m').
  { unfold pbuf_copy_partial. apply wp_bind, wp_chain_fuel. destruct Hp' as [Hc' _ Hn' _ Hb'].
    eapply wp_of_run; [apply (copy_partial_loop m' c'); [done|done| |lia..]|].
    - pose proof (chain_size _ _ _ Hc' Hn'). lia.
    - rewrite Ec, drop_0. unfold n. rewrite Nat2Z.id, firstn_all, take_app_length. done. }
  by destruct (wp_elim _ _ _ W) as (r & m1 & E1 & -> & ->).
Qed.
End Update.
