(* ===== verification/PbufAlloc.v ===== *)
(** Packet buffers: release and allocation. *)
From stdpp Require Import functions.
From S2P Require Import Prelude Memp Pbuf PbufFacts.

Section Release.
Context `{CustomFree}.

(** ** Release *)

(** The memory after the pbuf at [l] went back to where it came from. *)
Definition freed (l : loc) (m : mem) : mem :=
  set_pbufs (delete l (pbufs m))
    match l with
    | Pool t i => set_mpools (<[t := i :: mpools m t]> (mpools m)) m
    | Heap o => set_bytes (delete l (bytes m)) (set_heap (heap_free o (heap m)) m)
    | Ext _ => m
    end.

(** A pbuf whose type says where it lies. *)
Definition well_typed (l : loc) (b : pbuf) : Prop :=
  has (flags b) PBUF_FLAG_IS_CUSTOM = false /\
  match l with
  | Pool MEMP_PBUF_POOL _ => pbuf_get_allocsrc b = PBUF_TYPE_ALLOC_SRC_MASK_STD_MEMP_PBUF_POOL
  | Pool MEMP_PBUF _ => pbuf_get_allocsrc b = PBUF_TYPE_ALLOC_SRC_MASK_STD_MEMP_PBUF
  | Heap _ => pbuf_get_allocsrc b = PBUF_TYPE_ALLOC_SRC_MASK_STD_HEAP
  | _ => False
  end.

Lemma pbuf_dealloc_run l b m : well_typed l b -> pbuf_dealloc l b m = Ret tt (freed l m).
Proof.
  intros [Hf Hl]. unfold pbuf_dealloc. rewrite Hf.
  destruct l as [t i|o|k]; [|by rewrite Hl|done].
  by destruct t; rewrite ?Hl.
Qed.

Lemma freed_set_ref l b' m : freed l (set_pbufs (<[l := b']> (pbufs m)) m) = freed l m.
Proof.
  unfold freed. destruct l; unfold set_pbufs, set_mpools, set_bytes, set_heap; simpl; f_equal;
    by rewrite delete_insert_eq || by rewrite delete_insert_delete.
Qed.

Lemma freed_pbufs l m : pbufs (freed l m) = delete l (pbufs m).
Proof. done. Qed.

Definition free_all (c : list node) (m : mem) : mem := foldl (fun m n => freed (n_loc n) m) m c.

Lemma free_all_pbufs c : forall m l, pbufs (free_all c m) !! l = if decide (l ∈ map n_loc c) then None else pbufs m !! l.
Proof.
  induction c as [|n c IH]; intros m l.
  - rewrite decide_False; [done|]. apply not_elem_of_nil.
  - change (free_all (n :: c) m) with (free_all c (freed (n_loc n) m)). rewrite map_cons, IH, freed_pbufs. destruct (decide (l ∈ map n_loc c)).
    + by rewrite decide_True by (right; done).
    + destruct (decide (l = n_loc n)) as [->|Hl].
      * rewrite lookup_delete_eq. by rewrite decide_True by left.
      * rewrite lookup_delete_ne by done. rewrite decide_False; [done|]. by rewrite elem_of_cons; intros [?|?].
Qed.

(** The pbufs that go: those up to the first one with another reference. *)
Fixpoint released (c : list node) : list node :=
  match c with
  | [] => []
  | n :: c => if ref (n_buf n) =? 1 then n :: released c else []
  end.

Definition remaining (c : list node) : list node := drop (length (released c)) c.

(** Dropping one reference of the first pbuf that stays. *)
Definition drop_ref (c : list node) (m : mem) : mem :=
  match c with
  | [] => m
  | n :: _ => set_pbufs (<[n_loc n := set_ref (ref (n_buf n) - 1) (n_buf n)]> (pbufs m)) m
  end.

Lemma free_loop c : forall m p fuel k,
  (forall n, n ∈ c -> pbufs m !! n_loc n = Some (n_buf n)) -> NoDup (map n_loc c) ->
  p = first_loc c -> (forall n c1 c2, c = c1 ++ n :: c2 -> next (n_buf n) = first_loc c2) ->
  Forall (fun n => 1 <= ref (n_buf n) < 256 /\ well_typed (n_loc n) (n_buf n)) c ->
  (S (length c) < fuel)%nat ->
  iter fuel pbuf_free_body (p, k) m =
    Ret (foldl (fun k _ => u8 (k + 1)) k (released c)) (drop_ref (remaining c) (free_all (released c) m)).
Proof.
  induction c as [|nd c IH]; intros m p fuel k Hp Hn -> Hnext Hw Hf; destruct fuel as [|fuel]; try (simpl in Hf; lia).
  { done. }
  inversion_clear Hw as [|? ? [Hr Hwt] Hw']. cbn [iter].
  pose proof (Hp nd ltac:(by left)) as Hl. rewrite map_cons in Hn. apply NoDup_cons in Hn as [Hnd Hn].
  assert (W : wp (pbuf_free_body (Some (n_loc nd), k)) (fun r m' =>
    if decide (ref (n_buf nd) = 1) then r = inl (next (n_buf nd), u8 (k + 1)) /\ m' = freed (n_loc nd) m
    else r = inl (None, k) /\
      m' = set_pbufs (<[n_loc nd := set_ref (ref (n_buf nd) - 1) (n_buf nd)]> (pbufs m)) m) m).
  { simpl. apply wp_bind, (wp_getp _ (n_buf nd)); [done|]. apply wp_bind, (wp_setp _ _ (n_buf nd)); [done|].
    rewrite u8_small by lia. destruct (Z.eqb_spec (ref (n_buf nd) - 1) 0).
    - apply wp_bind. eapply wp_of_run; [by apply pbuf_dealloc_run|].
      apply wp_ret. cbv beta. rewrite decide_True by lia. by rewrite freed_set_ref.
    - apply wp_ret. cbv beta. by rewrite decide_False by lia. }
  destruct (wp_elim _ _ _ W) as (r & m' & E & Hr'). erewrite bind_Ret by exact E. clear W.
  unfold released, remaining. fold released. simpl. destruct (decide (ref (n_buf nd) = 1)) as [E1|E1].
  - destruct Hr' as [-> ->]. rewrite (proj2 (Z.eqb_eq _ _)) by done. simpl.
    apply IH; [|done| | |done|simpl in Hf; lia].
    + intros n Hin. rewrite freed_pbufs, lookup_delete_ne; [apply Hp; by right|].
      intros E2. apply Hnd. rewrite E2. apply list_elem_of_fmap. by exists n.
    + apply (Hnext nd [] c). done.
    + intros n c1 c2 ->. by apply (Hnext n (nd :: c1) c2).
  - destruct Hr' as [-> ->]. rewrite (proj2 (Z.eqb_neq _ _)) by done. simpl.
    by destruct fuel; [simpl in Hf; lia|].
Qed.

Lemma count_u8 {A} (l : list A) k : 0 <= k -> k + Z.of_nat (length l) < 256 ->
  foldl (fun k _ => u8 (k + 1)) k l = k + Z.of_nat (length l).
Proof.
  revert k. induction l as [|x l IH]; intros k Hk Hl; [simpl in *; lia|]. simpl in Hl. simpl foldl.
  rewrite u8_small, IH by lia. simpl. lia.
Qed.

Lemma chain_next m p c : chain m p c -> p = first_loc c /\
  (forall n, n ∈ c -> pbufs m !! n_loc n = Some (n_buf n)) /\
  (forall n c1 c2, c = c1 ++ n :: c2 -> next (n_buf n) = first_loc c2).
Proof.
  revert p. induction c as [|nd c IH]; intros p; simpl.
  - intros ->. split_and!; [done|set_solver|]. by intros n [].
  - intros (-> & Hl & _ & Hc). destruct (IH _ Hc) as (Hn & H1 & H2). split_and!; [done| |].
    + intros n [->|Hin]%elem_of_cons; auto.
    + intros n [|x c1] c2 [= -> Ec]; [by subst c2|by eapply H2].
Qed.

Lemma pbuf_free_run m p c :
  chain m (Some p) c -> NoDup (map n_loc c) ->
  Forall (fun n => 1 <= ref (n_buf n) < 256 /\ well_typed (n_loc n) (n_buf n)) c ->
  pbuf_free (Some p) m =
    Ret (foldl (fun k _ => u8 (k + 1)) 0 (released c)) (drop_ref (remaining c) (free_all (released c) m)).
Proof.
  intros Hc Hn Hw. pose proof (chain_size _ _ _ Hc Hn). destruct (chain_next _ _ _ Hc) as (Hp & Hat & Hnx).
  unfold pbuf_free. erewrite bind_Ret by reflexivity. by rewrite (free_loop c) by (done || lia).
Qed.

Lemma released_length c : (length (released c) <= length c)%nat.
Proof. induction c; simpl; [lia|case_match; simpl; lia]. Qed.

Lemma released_remaining c : c = released c ++ remaining c.
Proof.
  unfold remaining. induction c as [|n c IH]; [done|]. simpl. case_match; [|done]. simpl. by f_equal.
Qed.

(** Releasing a packet.  [pbuf_free] returns how many pbufs it released:
    those from the first up to the first one that has another reference.  They
    are gone from the store, each one back in the pool or heap it came from;
    the pbuf that stops the walk only loses one reference, and it and everything
    behind it stay as they are. *)
Theorem pbuf_free_releases m p c :
  chain m (Some p) c -> NoDup (map n_loc c) -> (length c < 256)%nat ->
  Forall (fun n => 1 <= ref (n_buf n) < 256 /\ well_typed (n_loc n) (n_buf n)) c ->
  pbuf_free (Some p) m =
    Ret (Z.of_nat (length (released c))) (drop_ref (remaining c) (free_all (released c) m)) /\
  c = released c ++ remaining c /\
  forall l, pbufs (drop_ref (remaining c) (free_all (released c) m)) !! l =
    if decide (l ∈ map n_loc (released c)) then None
    else match remaining c with
         | n :: _ => if decide (l = n_loc n) then Some (set_ref (ref (n_buf n) - 1) (n_buf n)) else pbufs m !! l
         | [] => pbufs m !! l
         end.
Proof.
  intros Hc Hn Hl Hw. split.
  { rewrite (pbuf_free_run _ _ c) by done. pose proof (released_length c). by rewrite count_u8 by lia. }
  pose proof (released_remaining c) as E.
  split; [done|]. intros l. pose proof (free_all_pbufs (released c) m) as Hall.
  rewrite E, map_app in Hn. apply NoDup_app in Hn as (_ & Hd & _).
  destruct (remaining c) as [|n cr]; [apply Hall|]. cbn [drop_ref]. unfold set_pbufs. cbn [pbufs].
  destruct (decide (l = n_loc n)) as [->|Hln].
  - rewrite lookup_insert_eq, decide_False; [done|]. intros Hin. apply (Hd _ Hin). by left.
  - rewrite lookup_insert_ne by done. by rewrite Hall.
Qed.
End Release.

(** ** Allocation from the pool *)

(** A node just allocated from PBUF_POOL: its own area, no flags, one reference. *)
Definition pool_node (n : node) : Prop :=
  (exists i, n_loc n = Pool MEMP_PBUF_POOL i) /\ node_area n = Some (n_loc n) /\
  type_internal (n_buf n) = u8 (pbuf_type_value PBUF_POOL) /\ flags (n_buf n) = 0 /\ ref (n_buf n) = 1.

Definition pool_index (l : loc) : nat := match l with Pool _ i => i | _ => 0%nat end.

Lemma pool_node_loc n : pool_node n -> n_loc n = Pool MEMP_PBUF_POOL (pool_index (n_loc n)).
Proof. intros ((i & ->) & _). done. Qed.

Lemma pool_node_typed n : pool_node n -> well_typed (n_loc n) (n_buf n).
Proof.
  intros ((i & ->) & _ & Et & Ef & _). unfold well_typed, pbuf_get_allocsrc. rewrite Et, Ef. done.
Qed.

Lemma pool_nodes_areas c : Forall pool_node c -> omap node_area c = map n_loc c.
Proof.
  induction 1 as [|n c (_ & Ha & _) _ IH]; [done|]. by rewrite areas_cons, Ha, IH.
Qed.

Section Alloc.
Context `{CustomFree}.

(** The elements of PBUF_POOL: each has its area, the free ones are distinct
    and hold no live pbuf. *)
Record pool_ready (m : mem) : Prop := {
  pr_nodup : NoDup (mpools m MEMP_PBUF_POOL);
  pr_free : forall i, i ∈ mpools m MEMP_PBUF_POOL -> pbufs m !! Pool MEMP_PBUF_POOL i = None;
  pr_area : forall i, i ∈ mpools m MEMP_PBUF_POOL ->
      exists a, bytes m !! Pool MEMP_PBUF_POOL i = Some a /\ Z.of_nat (length a) = PBUF_POOL_BUFSIZE_ALIGNED
}.

(** [tot_len] of the chain so far, when [r] more bytes are to come. *)
Fixpoint totals_plus (r : Z) (c : list node) : Prop :=
  match c with [] => True | n :: c' => tot_len (n_buf n) = total c + r /\ totals_plus r c' end.

(** The state [m] of an allocation that started in [m0] and has built [c],
    with [r] bytes to come. *)
Record built (m0 m : mem) (c : list node) (r : Z) : Prop := {
  bu_chain : chain m (first_loc c) c;
  bu_totals : totals_plus r c;
  bu_nodes : Forall pool_node c;
  bu_free : mpools m0 MEMP_PBUF_POOL = map (fun n => pool_index (n_loc n)) c ++ mpools m MEMP_PBUF_POOL;
  bu_pools : forall t, t <> MEMP_PBUF_POOL -> mpools m t = mpools m0 t;
  bu_rest : forall l, l ∉ map n_loc c -> pbufs m !! l = pbufs m0 !! l;
  bu_bytes : bytes m = bytes m0;
  bu_heap : heap m = heap m0
}.

Lemma built_locs c : Forall pool_node c ->
  map n_loc c = map (fun i => Pool MEMP_PBUF_POOL i) (map (fun n => pool_index (n_loc n)) c).
Proof. induction 1 as [|n c Hn _ IH]; [done|]. simpl. rewrite <- IH. f_equal. by apply pool_node_loc. Qed.

Lemma built_nodup m0 m c r : pool_ready m0 -> built m0 m c r -> NoDup (map n_loc c).
Proof.
  intros [Hn _ _] B. rewrite (built_locs c (bu_nodes _ _ _ _ B)).
  rewrite (bu_free _ _ _ _ B) in Hn. apply NoDup_app in Hn as (Hn & _ & _).
  apply NoDup_fmap_2; [|done]. by intros x y [= ->].
Qed.

Lemma built_fresh m0 m c r n : pool_ready m0 -> built m0 m c r -> n ∈ c -> pbufs m0 !! n_loc n = None.
Proof.
  intros P B Hin. rewrite (pool_node_loc n).
  - apply (pr_free _ P). rewrite (bu_free _ _ _ _ B). apply elem_of_app. left.
    apply list_elem_of_fmap. by exists n.
  - pose proof (bu_nodes _ _ _ _ B) as Hf. rewrite Forall_forall in Hf. by apply Hf.
Qed.

(** One more pbuf at the end of the chain. *)
Lemma chain_snoc m p c nd q :
  chain m p (c ++ [nd]) -> NoDup (map n_loc (c ++ [nd; q])) ->
  pbufs m !! n_loc q = Some (n_buf q) -> holds m (n_buf q) (n_data q) -> next (n_buf q) = None ->
  chain (set_pbufs (<[n_loc nd := set_next (Some (n_loc q)) (n_buf nd)]> (pbufs m)) m) p
    (c ++ [Node (n_loc nd) (set_next (Some (n_loc q)) (n_buf nd)) (n_data nd); q]).
Proof.
  intros Hc Hn Hq Hh Hnx. revert p Hc. induction c as [|n c IH]; intros p; simpl.
  - intros (-> & Hl & Hnd & _). simpl in Hn. apply NoDup_cons in Hn as [Hne _].
    split_and!; [done|by rewrite lookup_insert_eq|done|done| |done|done].
    rewrite lookup_insert_ne; [done|]. intros E. apply Hne. rewrite E. by left.
  - intros (-> & Hl & Hn' & Hc). simpl in Hn. apply NoDup_cons in Hn as [Hne Hn].
    split_and!; [done| |done|by apply IH].
    rewrite lookup_insert_ne; [done|]. intros E. apply Hne. rewrite <- E, map_app. apply elem_of_app. right. by left.
Qed.

Lemma contents_app c1 c2 : contents (c1 ++ c2) = contents c1 ++ contents c2.
Proof. unfold contents. by rewrite map_app, concat_app. Qed.

Lemma total_app c1 c2 : total (c1 ++ c2) = total c1 + total c2.
Proof. unfold total. rewrite contents_app, length_app. lia. Qed.

Lemma totals_plus_snoc r q : forall c nd nd', totals_plus (Z.of_nat (length (n_data q)) + r) (c ++ [nd]) ->
  n_data nd' = n_data nd -> tot_len (n_buf nd') = tot_len (n_buf nd) ->
  tot_len (n_buf q) = Z.of_nat (length (n_data q)) + r -> totals_plus r (c ++ [nd'; q]).
Proof.
  intros c nd nd' Ht Hd Htl Hq. revert Ht. induction c as [|n c IH]; simpl; rewrite ?total_cons.
  - intros [E _]. rewrite Htl, E, Hd, Hq. change (total []) with 0. lia.
  - intros [E Hc]. split; [|auto]. rewrite E, !total_app, !total_cons, Hd. change (total []) with 0. lia.
Qed.

Lemma totals_plus_0 c : totals_plus 0 c -> totals c.
Proof. induction c as [|n c IH]; [done|]. simpl. intros [-> Hc]. split; [lia|auto]. Qed.

Definition last_loc (c : list node) : option loc := n_loc <$> last c.

Lemma last_loc_snoc c n : last_loc (c ++ [n]) = Some (n_loc n).
Proof. unfold last_loc. by rewrite last_snoc. Qed.

Lemma first_loc_snoc c n n' : n_loc n' = n_loc n -> first_loc (c ++ [n']) = first_loc (c ++ [n]).
Proof. intros E. destruct c; simpl; [unfold first_loc; simpl; by rewrite E|done]. Qed.

Lemma align_layer l : 0 <= LWIP_MEM_ALIGN_SIZE (pbuf_layer_value l) <= 56.
Proof. destruct l; vm_compute; split; congruence. Qed.

Lemma bufsize_value : PBUF_POOL_BUFSIZE_ALIGNED = 592.
Proof. reflexivity. Qed.

(** A round that gets an element. *)
Lemma alloc_round m0 m c rem offset i rest :
  pool_ready m0 -> built m0 m c rem -> mpools m MEMP_PBUF_POOL = i :: rest ->
  0 <= rem < 65536 -> 0 <= LWIP_MEM_ALIGN_SIZE offset <= 56 ->
  let qlen := Z.min rem (592 - LWIP_MEM_ALIGN_SIZE offset) in
  wp (pbuf_alloc_body (first_loc c, last_loc c, rem, offset)) (fun r m' => exists c',
    built m0 m' c' (rem - qlen) /\ total c' = total c + qlen /\ mpools m' MEMP_PBUF_POOL = rest /\
    r = (if 0 <? rem - qlen then inl (first_loc c', last_loc c', rem - qlen, 0) else inr (first_loc c'))) m.
Proof.
  intros P B Ei Hr Ho qlen. set (off := LWIP_MEM_ALIGN_SIZE offset) in *.
  assert (Hq : 0 <= qlen <= rem) by lia.
  unfold pbuf_alloc_body. rewrite bufsize_value. fold off. rewrite (u16_small (592 - off)) by lia. fold qlen.
  destruct (pr_area _ P i) as (a & Ea & La).
  { rewrite (bu_free _ _ _ _ B), Ei. apply elem_of_app. right. by left. }
  rewrite bufsize_value in La.
  apply wp_bind, wp_memp_malloc_at; [congruence|]. intros i' rest' E. rewrite Ei in E. injection E as <- <-.
  apply wp_bind, wp_modify.
  set (b := Pbuf None (Some (Pool MEMP_PBUF_POOL i, off)) rem qlen (u8 (pbuf_type_value PBUF_POOL)) 0 1 NETIF_NO_INDEX).
  set (q := Node (Pool MEMP_PBUF_POOL i) b (take (Z.to_nat qlen) (drop (Z.to_nat off) a))).
  set (m2 := set_pbufs _ _).
  assert (Hlen : Z.of_nat (length (n_data q)) = qlen).
  { simpl. rewrite length_take, length_drop. lia. }
  assert (Hqn : pool_node q) by (split_and!; [by exists i|done|done|done|done]).
  assert (Hi : (i ∉ map (fun n => pool_index (n_loc n)) c) /\ NoDup (i :: rest)).
  { pose proof (pr_nodup _ P) as Hn. rewrite (bu_free _ _ _ _ B), Ei in Hn.
    apply NoDup_app in Hn as (_ & Hd & Hn). split; [|done]. intros Hin. apply (Hd _ Hin). by left. }
  assert (Hql : n_loc q ∉ map n_loc c).
  { rewrite (built_locs c (bu_nodes _ _ _ _ B)). intros (j & [= <-] & Hj)%list_elem_of_fmap. by apply Hi. }
  assert (Hh : forall mm, bytes mm = bytes m0 -> holds mm b (n_data q)).
  { intros mm Emm. split; [done|]. simpl. exists a. rewrite Emm. split_and!; [done|lia|lia|].
    f_equal. rewrite length_take, length_drop. lia. }
  assert (Hu : u16 (rem - qlen) = rem - qlen) by (apply u16_small; lia).
  assert (Hmp : forall t, t <> MEMP_PBUF_POOL -> mpools m2 t = mpools m0 t).
  { intros t Ht. simpl. rewrite fn_lookup_insert_ne by done. by apply (bu_pools _ _ _ _ B). }
  assert (Hm2 : mpools m2 MEMP_PBUF_POOL = rest) by (simpl; by rewrite fn_lookup_insert).
  destruct c as [|nd c _] using rev_ind.
  - (* the first pbuf *)
    apply wp_bind, wp_ret, wp_ret. exists [q]. rewrite Hu, total_cons, Hlen.
    change (total []) with 0. split_and!; [|lia|done|done].
    split; [|simpl; split; [rewrite total_cons, Hlen; change (total []) with 0; lia|done]|by constructor| |done| | |].
    + simpl. split_and!; [done|by rewrite lookup_insert_eq| |done]. apply Hh. apply (bu_bytes _ _ _ _ B).
    + rewrite (bu_free _ _ _ _ B), Ei, Hm2. done.
    + intros l Hl. simpl. rewrite lookup_insert_ne; [apply (bu_rest _ _ _ _ B), not_elem_of_nil|].
      intros <-. apply Hl. by left.
    + apply (bu_bytes _ _ _ _ B).
    + apply (bu_heap _ _ _ _ B).
  - (* the next one *)
    pose proof (bu_chain _ _ _ _ B) as Hc.
    assert (Hne : first_loc (c ++ [nd]) = Some (default (n_loc nd) (first_loc c))) by (by destruct c).
    rewrite last_loc_snoc, Hne.
    assert (Hn2 : NoDup (map n_loc (c ++ [nd; q]))).
    { replace (c ++ [nd; q]) with ((c ++ [nd]) ++ [q]) by (by rewrite <- app_assoc).
      rewrite map_app. apply NoDup_app. split_and!; [by eapply built_nodup| |apply NoDup_singleton].
      intros l Hl ->%list_elem_of_singleton. done. }
    assert (Hnd : pbufs m2 !! n_loc nd = Some (n_buf nd)).
    { simpl. rewrite lookup_insert_ne.
      - destruct (chain_next _ _ _ Hc) as (_ & Hat & _). apply Hat, elem_of_app. right. by left.
      - intros E. apply Hql. rewrite (E : n_loc q = n_loc nd), map_app. apply elem_of_app. right. by left. }
    apply wp_bind, (wp_setp _ _ (n_buf nd)); [done|]. apply wp_ret. rewrite Hu.
    set (nd' := Node (n_loc nd) (set_next (Some (n_loc q)) (n_buf nd)) (n_data nd)).
    exists (c ++ [nd'; q]).
    assert (Hloc : map n_loc (c ++ [nd'; q]) = map n_loc (c ++ [nd]) ++ [n_loc q]) by (by rewrite !map_app, <- app_assoc).
    assert (Hf : first_loc (c ++ [nd'; q]) = first_loc (c ++ [nd])) by (by destruct c).
    assert (Hla : last_loc (c ++ [nd'; q]) = Some (n_loc q)).
    { replace (c ++ [nd'; q]) with ((c ++ [nd']) ++ [q]) by (by rewrite <- app_assoc). apply last_loc_snoc. }
    rewrite Hf, Hla, Hne. split_and!; [|rewrite !total_app, !total_cons, Hlen; simpl; change (total []) with 0; lia|done|done].
    split.
    + rewrite Hf. apply (chain_snoc m2 (first_loc (c ++ [nd])) c nd q); [|done|simpl; by rewrite lookup_insert_eq|by apply Hh, (bu_bytes _ _ _ _ B)|done].
      revert Hc. apply chain_frame; [|done]. intros n Hin. simpl. rewrite lookup_insert_ne; [done|].
      intros E. apply Hql. rewrite (E : n_loc q = n_loc n). apply list_elem_of_fmap. by exists n.
    + apply (totals_plus_snoc _ q c nd nd'); [|done|done|rewrite Hlen; simpl; lia].
      rewrite Hlen. replace (qlen + (rem - qlen)) with rem by lia. apply (bu_totals _ _ _ _ B).
    + pose proof (bu_nodes _ _ _ _ B) as Hall. apply Forall_app in Hall as [H1 H2].
      inversion_clear H2 as [|? ? Hnd' _]. apply Forall_app. split; [done|]. constructor; [exact Hnd'|by constructor].
    + rewrite (bu_free _ _ _ _ B), Ei. cbn [mpools set_pbufs]. rewrite Hm2. rewrite !map_app. simpl.
      by rewrite <- !app_assoc.
    + exact Hmp.
    + intros l Hl. rewrite Hloc in Hl. apply not_elem_of_app in Hl as [Hl1 Hl2].
      simpl. rewrite !lookup_insert_ne; [by apply (bu_rest _ _ _ _ B)| |].
      * intros <-. apply Hl2. by left.
      * intros <-. apply Hl1. rewrite map_app. apply elem_of_app. right. by left.
    + apply (bu_bytes _ _ _ _ B).
    + apply (bu_heap _ _ _ _ B).
Qed.

Lemma released_all c : Forall pool_node c -> released c = c.
Proof. induction 1 as [|n c (_ & _ & _ & _ & E) _ IH]; [done|]. simpl. by rewrite E, IH. Qed.

Lemma free_all_pool c m : Forall pool_node c ->
  mpools (free_all c m) MEMP_PBUF_POOL = rev (map (fun n => pool_index (n_loc n)) c) ++ mpools m MEMP_PBUF_POOL /\
  (forall t, t <> MEMP_PBUF_POOL -> mpools (free_all c m) t = mpools m t) /\
  bytes (free_all c m) = bytes m /\ heap (free_all c m) = heap m.
Proof.
  intros Hc. revert m. induction Hc as [|n c Hn _ IH]; intros m; [done|].
  change (free_all (n :: c) m) with (free_all c (freed (n_loc n) m)).
  destruct (IH (freed (n_loc n) m)) as (E1 & E2 & E3 & E4). rewrite (pool_node_loc n Hn) in *. simpl in *.
  rewrite E1, E3, E4. split_and!; [|intros t Ht; rewrite E2 by done; by rewrite fn_lookup_insert_ne|done|done].
  rewrite fn_lookup_insert, <- app_assoc. done.
Qed.

(** What a failed allocation leaves: the same pbufs and bytes, the same free
    elements (in another order), and the request to free out-of-sequence data. *)
Record alloc_failed (m0 m : mem) : Prop := {
  af_pbufs : pbufs m = pbufs m0;
  af_free : mpools m MEMP_PBUF_POOL ≡ₚ mpools m0 MEMP_PBUF_POOL;
  af_pools : forall t, t <> MEMP_PBUF_POOL -> mpools m t = mpools m0 t;
  af_bytes : bytes m = bytes m0;
  af_heap : heap m = heap m0
}.

Lemma alloc_fail_round m0 m c rem offset :
  pool_ready m0 -> built m0 m c rem -> mpools m MEMP_PBUF_POOL = [] ->
  wp (pbuf_alloc_body (first_loc c, last_loc c, rem, offset)) (fun r m' => r = inr None /\ alloc_failed m0 m') m.
Proof.
  intros P B E. pose proof B as [Hc _ Hn Hf Hp Hr Hb Hh]. unfold pbuf_alloc_body.
  apply wp_bind, wp_memp_malloc_at; [|congruence]. intros _. apply wp_bind, wp_modify.
  rewrite E, app_nil_r in Hf.
  destruct c as [|nd c].
  - apply wp_ret. split; [done|]. split; try done; simpl; [|by rewrite E, Hf].
    apply map_eq. intros l. apply Hr, not_elem_of_nil.
  - cbn [first_loc head fmap option_fmap option_map].
    assert (Hc' : chain (set_pending true m) (Some (n_loc nd)) (nd :: c)).
    { revert Hc. by apply chain_frame. }
    apply wp_bind. eapply wp_of_run; [apply (pbuf_free_run _ _ (nd :: c)); [done|by eapply built_nodup|]|].
    { eapply Forall_impl; [exact Hn|]. intros n Hpn. split; [|by apply pool_node_typed].
      destruct Hpn as (_ & _ & _ & _ & ->). lia. }
    apply wp_ret. split; [done|]. unfold remaining. rewrite released_all, drop_all by done.
    change (drop_ref [] ?x) with x.
    destruct (free_all_pool (nd :: c) (set_pending true m) Hn) as (E1 & E2 & E3 & E4).
    split.
    + apply map_eq. intros l. rewrite free_all_pbufs. case_decide as Hl; [|by apply Hr].
      apply list_elem_of_fmap in Hl as (n & -> & Hin). symmetry. by eapply built_fresh.
    + rewrite E1. simpl mpools. rewrite E, app_nil_r, Hf. symmetry. apply Permutation_rev.
    + intros t Ht. rewrite E2 by done. by apply Hp.
    + by rewrite E3.
    + by rewrite E4.
Qed.

Lemma alloc_loop fuel : forall m0 m c rem offset length,
  pool_ready m0 -> built m0 m c rem -> total c + rem = length -> 0 <= rem < 65536 ->
  (c <> [] -> 0 < rem) -> 0 <= LWIP_MEM_ALIGN_SIZE offset <= 56 ->
  (List.length (mpools m MEMP_PBUF_POOL) < fuel)%nat ->
  wp (iter fuel pbuf_alloc_body (first_loc c, last_loc c, rem, offset)) (fun r m' =>
    match r with
    | Some p => exists c', built m0 m' c' 0 /\ first_loc c' = Some p /\ total c' = length
    | None => alloc_failed m0 m'
    end) m.
Proof.
  induction fuel as [|fuel IH]; intros m0 m c rem offset length P B Ht Hr Hpos Ho Hf; [lia|].
  cbn [iter]. apply wp_bind. destruct (mpools m MEMP_PBUF_POOL) as [|i rest] eqn:E.
  - eapply wp_mono; [by eapply alloc_fail_round|]. intros r m' [-> Hfail]. by apply wp_ret.
  - eapply wp_mono; [by eapply alloc_round|]. cbv beta zeta.
    intros r m' (c' & B' & Ht' & E' & ->). set (qlen := Z.min _ _) in *.
    assert (Hq : 0 <= qlen <= rem /\ (0 < rem -> 0 < qlen)) by lia.
    assert (Hne : c' <> []).
    { intros ->. pose proof (bu_free _ _ _ _ B') as F'. pose proof (bu_free _ _ _ _ B) as F.
      rewrite F, E', E in F'. apply (f_equal List.length) in F'. rewrite !length_app, !length_map in F'.
      simpl in F'. lia. }
    destruct (Z.ltb_spec 0 (rem - qlen)).
    + apply (IH m0 m' c' (rem - qlen) 0 length); [done|done|lia|lia|lia|by vm_compute|rewrite E'; simpl in Hf; lia].
    + apply wp_ret. destruct c' as [|n c']; [done|]. simpl. exists (n :: c').
      replace (rem - qlen) with 0 in B' by lia. split_and!; [done|done|lia].
Qed.

(** What a successful allocation leaves: a packet of [length] bytes in pool
    elements that were free, and everything else as it was. *)
Record allocated (m m' : mem) (length : Z) (p : loc) (c : list node) : Prop := {
  al_packet : packet m' (Some p) c;
  al_total : total c = length;
  al_nodes : Forall pool_node c;
  al_fresh : forall n, n ∈ c -> pbufs m !! n_loc n = None;
  al_rest : forall l, l ∉ map n_loc c -> pbufs m' !! l = pbufs m !! l;
  al_free : mpools m MEMP_PBUF_POOL = map (fun n => pool_index (n_loc n)) c ++ mpools m' MEMP_PBUF_POOL;
  al_pools : forall t, t <> MEMP_PBUF_POOL -> mpools m' t = mpools m t;
  al_bytes : bytes m' = bytes m;
  al_heap : heap m' = heap m
}.

Lemma wp_pbuf_alloc m layer length (Q : option loc -> mem -> Prop) :
  pool_ready m -> 0 <= length < 65536 ->
  (forall p c m', allocated m m' length p c -> Q (Some p) m') ->
  (forall m', alloc_failed m m' -> Q None m') ->
  wp (pbuf_alloc layer length PBUF_POOL) Q m.
Proof.
  intros P Hl HS HN. unfold pbuf_alloc. apply wp_bind, wp_gets. change (None, None) with (first_loc [], last_loc []).
  assert (B0 : built m m [] length) by (by split).
  eapply wp_mono; [eapply (alloc_loop _ m m [] length _ length P B0);
    [done|lia|done|apply align_layer|lia]|].
  intros [p|] m' Hr; [|by apply HN]. destruct Hr as (c & B & Hp & Ht). apply (HS p c).
  pose proof (built_nodup _ _ _ _ P B) as Hn. pose proof B as [Hc Htot Hnodes Hfree Hpools Hrest Hb Hh].
  rewrite Hp in Hc. split; try done.
  - split; [done|by apply totals_plus_0|done|by rewrite pool_nodes_areas|lia].
  - intros n Hin. by eapply built_fresh.
Qed.

(** Allocation from the pool.  [pbuf_alloc] for PBUF_POOL always returns.
    When it returns a pointer, that is a packet of exactly [length] bytes, in
    pool elements that were free, with one reference each, and every other pbuf,
    byte and pool is as before.  When it returns NULL, nothing leaks: the pbufs
    already taken are back, and all is as before but the order of the free list. *)
Theorem pbuf_alloc_pool m layer length :
  pool_ready m -> 0 <= length < 65536 ->
  exists r m', pbuf_alloc layer length PBUF_POOL m = Ret r m' /\
    match r with
    | Some p => exists c, allocated m m' length p c
    | None => alloc_failed m m'
    end.
Proof.
  intros P Hl. assert (W : wp (pbuf_alloc layer length PBUF_POOL) (fun r m' =>
    match r with Some p => exists c, allocated m m' length p c | None => alloc_failed m m' end) m).
  { apply wp_pbuf_alloc; eauto. }
  destruct (wp_elim _ _ _ W) as (r & m' & E & Hr). by exists r, m'.
Qed.
End Alloc.
