(* ===== verification/PbufChain.v ===== *)
(** Packet buffers: joining and separating chains. *)
From stdpp Require Import functions.
From S2P Require Import Prelude Memp Pbuf PbufFacts PbufUpdate PbufAlloc.

Section Structure.
Context `{HeapOps}.

(** Only the structures of the pbufs [L] differ. *)
Record only_pbufs (L : list loc) (m m' : mem) : Prop := {
  op_bytes : bytes m' = bytes m;
  op_heap : heap m' = heap m;
  op_pools : mpools m' = mpools m;
  op_pending : pbuf_free_ooseq_pending m' = pbuf_free_ooseq_pending m;
  op_originals : originals m' = originals m;
  op_pbufs : forall l, l ∉ L -> pbufs m' !! l = pbufs m !! l
}.

Lemma only_pbufs_refl L m : only_pbufs L m m.
Proof. done. Qed.

Lemma only_pbufs_trans L m1 m2 m3 : only_pbufs L m1 m2 -> only_pbufs L m2 m3 -> only_pbufs L m1 m3.
Proof. intros [B1 H1 Q1 R1 O1 P1] [B2 H2 Q2 R2 O2 P2]. split; try congruence. intros l Hl. by rewrite P2, P1. Qed.

Lemma only_pbufs_mono L L' m m' : (forall x, x ∈ L -> x ∈ L') -> only_pbufs L m m' -> only_pbufs L' m m'.
Proof. intros HL [B1 H1 Q1 R1 O1 P1]. split; try done. intros l Hl. apply P1. auto. Qed.

Lemma only_pbufs_insert l b m : only_pbufs [l] m (set_pbufs (<[l := b]> (pbufs m)) m).
Proof.
  split; try done. intros l' Hl. simpl. rewrite lookup_insert_ne; [done|]. intros ->. apply Hl. by left.
Qed.

Lemma chain_only_pbufs L m m' p c :
  only_pbufs L m m' -> (forall l, l ∈ L -> l ∉ map n_loc c) -> chain m p c -> chain m' p c.
Proof.
  intros [B1 _ _ _ _ P1] HL. apply chain_frame; [|by rewrite B1].
  intros n Hn. apply P1. intros Hin. apply (HL _ Hin). apply list_elem_of_fmap. by exists n.
Qed.

Lemma holds_same_bytes m m' b b' data :
  bytes m' = bytes m -> payload b' = payload b -> len b' = len b -> holds m b data -> holds m' b' data.
Proof. unfold holds. by intros -> -> ->. Qed.

(** A node with its structure changed outside [payload] and [len]. *)
Definition rebuf (f : pbuf -> pbuf) (n : node) : node := Node (n_loc n) (f (n_buf n)) (n_data n).

Lemma rebuf_contents f c : contents (map (rebuf f) c) = contents c.
Proof. induction c as [|n c IH]; [done|]. simpl. by rewrite !contents_cons, IH. Qed.

Lemma rebuf_locs f c : map n_loc (map (rebuf f) c) = map n_loc c.
Proof. induction c as [|n c IH]; [done|]. simpl. by rewrite IH. Qed.

Lemma areas_ext c c' : Forall2 (fun n n' => payload (n_buf n') = payload (n_buf n)) c c' ->
  omap node_area c' = omap node_area c.
Proof.
  induction 1 as [|n n' c c' E _ IH]; [done|]. rewrite !areas_cons, IH. unfold node_area. by rewrite E.
Qed.

(** ** pbuf_cat *)

Definition grow (t : Z) : node -> node := rebuf (fun b => set_tot_len (tot_len b + t) b).

Lemma cat_loop t tb c : forall p fuel m,
  chain m (Some p) c -> NoDup (map n_loc c) -> t ∉ map n_loc c -> pbufs m !! t = Some tb ->
  Forall (fun n => 0 <= tot_len (n_buf n) + tot_len tb < 65536) c -> (length c < fuel)%nat ->
  wp (iter fuel (pbuf_cat_body t) p) (fun r m' => exists c0 nd, c = c0 ++ [nd] /\ r = n_loc nd /\
    chain m' (Some p) (map (grow (tot_len tb)) c0 ++ [nd]) /\ only_pbufs (map n_loc c0) m m') m.
Proof.
  induction c as [|nd c IH]; intros p fuel m Hc Hn Ht Hl Hw Hf; [done|].
  destruct fuel as [|fuel]; [simpl in Hf; lia|]. pose proof Hc as Hc0. destruct Hc as (E & Hnd & Hh & Hc).
  injection E as ->. inversion_clear Hw as [|? ? Hb Hw']. rewrite map_cons in Hn, Ht.
  apply NoDup_cons in Hn as [Hni Hn]. apply not_elem_of_cons in Ht as [Htn Ht].
  cbn [iter]. apply wp_bind. unfold pbuf_cat_body. apply wp_bind, (wp_getp _ (n_buf nd)); [done|].
  destruct (next (n_buf nd)) as [n|] eqn:En.
  - apply wp_bind, (wp_getp _ tb); [done|]. apply wp_bind, (wp_setp _ _ (n_buf nd)); [done|]. apply wp_ret.
    rewrite u16_small by done. set (m1 := set_pbufs _ m).
    assert (F1 : only_pbufs [n_loc nd] m m1) by apply only_pbufs_insert.
    eapply wp_mono; [apply (IH n fuel m1)|].
    + revert Hc. apply (chain_only_pbufs _ _ _ _ _ F1). intros l ->%list_elem_of_singleton. done.
    + done.
    + done.
    + rewrite (op_pbufs _ _ _ F1); [done|]. by intros ->%list_elem_of_singleton.
    + done.
    + simpl in Hf. lia.
    + intros r m' (c0 & nd' & -> & -> & Hc' & F2). exists (nd :: c0), nd'.
      assert (Hni' : n_loc nd ∉ map n_loc c0).
      { intros Hin. apply Hni. rewrite map_app. apply elem_of_app. by left. }
      split_and!; [done|done| |].
      * simpl. split_and!; [done| | |by rewrite En].
        -- rewrite (op_pbufs _ _ _ F2) by done. simpl. by rewrite lookup_insert_eq.
        -- revert Hh. by apply holds_same_bytes; [rewrite (op_bytes _ _ _ F2)|..].
      * eapply only_pbufs_trans; (eapply only_pbufs_mono; [|eassumption]);
          intros l Hin; rewrite map_cons; [apply list_elem_of_singleton in Hin as ->; by left|by right].
  - apply wp_ret. destruct c; [|by destruct Hc]. by exists [], nd.
Qed.

(** The chain [c] with the packet of [T] bytes at [t] behind it. *)
Fixpoint joined (t : loc) (T : Z) (c : list node) : list node :=
  match c with
  | [] => []
  | [nd] => [rebuf (fun b => set_next (Some t) (set_tot_len (tot_len b + T) b)) nd]
  | nd :: c => grow T nd :: joined t T c
  end.

Lemma joined_snoc t T c nd : joined t T (c ++ [nd]) =
  map (grow T) c ++ [rebuf (fun b => set_next (Some t) (set_tot_len (tot_len b + T) b)) nd].
Proof. induction c as [|n c IH]; [done|]. simpl. rewrite IH. by destruct c. Qed.

Lemma joined_contents t T c : contents (joined t T c) = contents c.
Proof.
  destruct c as [|nd c _] using rev_ind; [done|]. rewrite joined_snoc, !contents_app.
  unfold grow. by rewrite rebuf_contents.
Qed.

Lemma joined_locs t T c : map n_loc (joined t T c) = map n_loc c.
Proof.
  destruct c as [|nd c _] using rev_ind; [done|]. rewrite joined_snoc, !map_app.
  unfold grow. by rewrite rebuf_locs.
Qed.

Lemma joined_payloads t T c : Forall2 (fun n n' => payload (n_buf n') = payload (n_buf n)) c (joined t T c).
Proof. induction c as [|n [|n' c] IH]; [constructor|by repeat constructor|]. by constructor. Qed.

Lemma joined_total t T c : total (joined t T c) = total c.
Proof. unfold total. by rewrite joined_contents. Qed.

(** The totals of a chain that can grow by [T] bytes. *)
Lemma totals_bound T c : totals c -> 0 <= T -> total c + T < 65536 ->
  Forall (fun n => 0 <= tot_len (n_buf n) + T < 65536) c.
Proof.
  intros Ht HT. induction c as [|n c IH]; [constructor|]. destruct Ht as [E Ht]. intros Hb.
  pose proof (total_nonneg (n :: c)). rewrite total_cons in *. constructor; [lia|apply IH; [done|lia]].
Qed.

Lemma totals_joined t c1 c2 : totals c1 -> totals c2 -> totals (joined t (total c2) c1 ++ c2).
Proof.
  intros H1 H2. induction c1 as [|n c IH]; [done|]. destruct H1 as [E Hc]. specialize (IH Hc).
  assert (Hj : tot_len (n_buf n) + total c2 = total (joined t (total c2) (n :: c) ++ c2)).
  { by rewrite total_app, joined_total, E. }
  by destruct c.
Qed.

Lemma chain_joined m m' p t c0 nd c2 T :
  chain m p (map (grow T) c0 ++ [nd]) -> only_pbufs [n_loc nd] m m' ->
  pbufs m' !! n_loc nd = Some (set_next (Some t) (set_tot_len (tot_len (n_buf nd) + T) (n_buf nd))) ->
  chain m' (Some t) c2 -> n_loc nd ∉ map n_loc c0 ->
  chain m' p (joined t T (c0 ++ [nd]) ++ c2).
Proof.
  intros Hc F Hnd H2. rewrite joined_snoc, <- app_assoc. simpl.
  revert p Hc. induction c0 as [|n c0 IH]; intros p; simpl.
  - intros (-> & _ & Hh & _) _. split_and!; [done|done| |done].
    revert Hh. by apply holds_same_bytes; [rewrite (op_bytes _ _ _ F)|..].
  - intros (-> & Hl & Hh & Hc) [Hne Hni]%not_elem_of_cons. split_and!; [done| | |by apply IH].
    + rewrite (op_pbufs _ _ _ F); [done|]. intros E%list_elem_of_singleton. by destruct Hne.
    + revert Hh. by apply holds_same_bytes; [rewrite (op_bytes _ _ _ F)|..].
Qed.

(** The joined chain, [tot_len] and [next] apart the pbufs of both. *)
Lemma pbuf_cat_run m h c1 t c2 :
  packet m (Some h) c1 -> packet m (Some t) c2 ->
  NoDup (map n_loc (c1 ++ c2)) -> NoDup (omap node_area (c1 ++ c2)) -> total c1 + total c2 < 65536 ->
  exists m', pbuf_cat (Some h) (Some t) m = Ret tt m' /\ packet m' (Some h) (joined t (total c2) c1 ++ c2) /\ only_pbufs (map n_loc c1) m m'.
Proof.
  intros [Hc1 Ht1 Hn1 Ha1 Hb1] [Hc2 Ht2 Hn2 Ha2 Hb2] Hn Ha Hb.
  destruct c2 as [|nt c2]; [done|]. pose proof Hc2 as Hc2'. destruct Hc2' as (E & Hlt & _ & _). injection E as ->.
  destruct Ht2 as [Et Ht2]. set (T := total (nt :: c2)) in *.
  assert (Hd : forall l, l ∈ map n_loc c1 -> l ∉ map n_loc (nt :: c2)).
  { rewrite map_app in Hn. by apply NoDup_app in Hn as (_ & Hd & _). }
  assert (W : wp (pbuf_cat (Some h) (Some (n_loc nt))) (fun _ m' =>
    chain m' (Some h) (joined (n_loc nt) T c1 ++ nt :: c2) /\ only_pbufs (map n_loc c1) m m') m).
  { unfold pbuf_cat. apply wp_bind, wp_chain_fuel, wp_bind.
    eapply wp_mono; [apply (cat_loop _ (n_buf nt) c1); try done|].
    - intros Hin. by apply (Hd _ Hin); left.
    - rewrite Et. by apply (totals_bound T); [done|apply total_nonneg|].
    - pose proof (chain_size _ _ _ Hc1 Hn1). lia.
    - intros r m1 (c0 & nd & -> & -> & Hc & F1). rewrite Et in Hc.
      rewrite map_app in Hn1. apply NoDup_app in Hn1 as (_ & Hd1 & _).
      assert (Hnd0 : n_loc nd ∉ map n_loc c0) by (intros Hin; apply (Hd1 _ Hin); by left).
      assert (Hnd : pbufs m1 !! n_loc nd = Some (n_buf nd)).
      { destruct (chain_next _ _ _ Hc) as (_ & Hat & _). apply Hat, elem_of_app. right. by left. }
      apply wp_bind, (wp_getp _ (n_buf nd)); [done|]. apply wp_bind, (wp_getp _ (n_buf nt)).
      { rewrite (op_pbufs _ _ _ F1); [done|]. intros Hin. apply (Hd (n_loc nt)); [|by left].
        rewrite map_app. apply elem_of_app. by left. }
      apply wp_bind, (wp_setp _ _ (n_buf nd)); [done|].
      apply (wp_setp _ _ (set_tot_len (u16 (tot_len (n_buf nd) + T)) (n_buf nd))).
      { simpl. by rewrite lookup_insert_eq, Et. }
      rewrite Et, u16_small.
      2:{ pose proof (totals_bound T _ Ht1 (total_nonneg _) Hb) as Hbd. apply Forall_app in Hbd as [_ Hbd].
          by inversion_clear Hbd. }
      assert (F2 : forall b1 b2, only_pbufs [n_loc nd] m1
        (set_pbufs (<[n_loc nd := b1]> (<[n_loc nd := b2]> (pbufs m1))) m1)).
      { intros. rewrite insert_insert_eq. apply only_pbufs_insert. }
      split.
      + eapply chain_joined; [exact Hc|apply F2|simpl; by rewrite lookup_insert_eq| |done].
        eapply chain_only_pbufs; [apply F2| |eapply chain_only_pbufs; [exact F1| |exact Hc2]].
        * intros l ->%list_elem_of_singleton. apply Hd. rewrite map_app. apply elem_of_app. right. by left.
        * intros l Hl. apply Hd. rewrite map_app. apply elem_of_app. by left.
      + rewrite map_app. eapply only_pbufs_trans; (eapply only_pbufs_mono; [|first [exact F1|apply F2]]);
          intros l Hl; apply elem_of_app; [by left|by right]. }
  destruct (wp_elim _ _ _ W) as ([] & m' & E & Hc & F). exists m'. split_and!; [done| |done].
  split; [done|by apply totals_joined|by rewrite map_app, joined_locs, <- map_app| |].
  - rewrite omap_app, (areas_ext c1) by apply joined_payloads. by rewrite <- omap_app.
  - rewrite total_app. unfold total at 1. rewrite joined_contents. done.
Qed.
(** Joining two packets.  [pbuf_cat] makes one packet of two disjoint
    ones whose lengths add up to less than 64 KiB: the first chain's pbufs
    followed by the second's, so the bytes of the one followed by those of the
    other, every [tot_len] right again; only structures of the first chain
    change, and no byte. *)
Theorem pbuf_cat_joins m h c1 t c2 :
  packet m (Some h) c1 -> packet m (Some t) c2 ->
  NoDup (map n_loc (c1 ++ c2)) -> NoDup (omap node_area (c1 ++ c2)) -> total c1 + total c2 < 65536 ->
  exists m' c1', pbuf_cat (Some h) (Some t) m = Ret tt m' /\
    packet m' (Some h) (c1' ++ c2) /\ map n_loc c1' = map n_loc c1 /\
    contents (c1' ++ c2) = contents c1 ++ contents c2 /\ only_pbufs (map n_loc c1) m m'.
Proof.
  intros H1 H2 Hn Ha Hb. destruct (pbuf_cat_run m h c1 t c2 H1 H2 Hn Ha Hb) as (m' & E & Hp & F).
  exists m', (joined t (total c2) c1). split_and!; [done|done|apply joined_locs|by rewrite contents_app, joined_contents|done].
Qed.

(** The number of pbufs of a chain. *)
Lemma wp_pbuf_clen m p c (Q : Z -> mem -> Prop) : chain m p c -> NoDup (map n_loc c) -> Z.of_nat (length c) < 65536 ->
  Q (Z.of_nat (length c)) m -> wp (pbuf_clen p) Q m.
Proof.
  intros Hc Hn Hl HQ. unfold pbuf_clen. apply wp_bind, wp_chain_fuel. pose proof (chain_size _ _ _ Hc Hn) as Hs.
  assert (Hf : (length c < S (size (pbufs m)))%nat) by lia. clear Hs Hn. revert Hf. generalize (S (size (pbufs m))). intros fuel Hf.
  replace (Z.of_nat (length c)) with (0 + Z.of_nat (length c)) in HQ by lia.
  assert (Hb : 0 + Z.of_nat (length c) < 65536) by lia. assert (H0 : 0 <= 0) by lia. clear Hl.
  revert p fuel Hc Hf HQ Hb H0. generalize 0 at 1 2 4 5 as k. induction c as [|n c IH]; intros k p fuel Hc Hf HQ Hb Hk; (destruct fuel as [|fuel]; [simpl in Hf; lia|]).
  - simpl in Hc. subst p. simpl. apply wp_ret, wp_ret. by rewrite Z.add_0_r in HQ.
  - destruct Hc as (-> & Hl & _ & Hc). cbn [iter]. apply wp_bind, wp_bind, (wp_getp _ (n_buf n)); [done|]. apply wp_ret. cbn [length] in *.
    apply (IH (u16 (k + 1))); rewrite ?u16_small by lia; [done|lia| |lia|lia].
    by replace (k + 1 + Z.of_nat (length c)) with (k + Z.of_nat (S (length c))) by lia.
Qed.
End Structure.

(** ** pbuf_chain and pbuf_dechain *)

Section Dechain.
Context `{CustomFree}.

Lemma mem_eq m m' : mpools m' = mpools m -> heap m' = heap m -> bytes m' = bytes m ->
  pbuf_free_ooseq_pending m' = pbuf_free_ooseq_pending m -> originals m' = originals m ->
  (forall l, pbufs m' !! l = pbufs m !! l) -> m' = m.
Proof. destruct m, m'. simpl. intros -> -> -> -> -> Hp. f_equal. by apply map_eq. Qed.

(** A pbuf with more than one reference only loses one. *)
Lemma wp_pbuf_free_shared l b (Q : Z -> mem -> Prop) m :
  pbufs m !! l = Some b -> 1 < ref b < 256 ->
  Q 0 (set_pbufs (<[l := set_ref (ref b - 1) b]> (pbufs m)) m) -> wp (pbuf_free (Some l)) Q m.
Proof.
  intros Hl Hr HQ. unfold pbuf_free. apply wp_bind, wp_chain_fuel.
  assert (E : exists k, size (pbufs m) = S k).
  { destruct (size (pbufs m)) eqn:E; [|eauto]. apply map_size_empty_iff in E. by rewrite E in Hl. }
  destruct E as [k ->]. cbn [iter]. apply wp_bind. unfold pbuf_free_body at 1.
  apply wp_bind, (wp_getp _ b); [done|]. apply wp_bind, (wp_setp _ _ b); [done|].
  rewrite u8_small, (proj2 (Z.eqb_neq _ _)) by lia. apply wp_ret. apply wp_bind, wp_ret. done.
Qed.

(** Round trip: chaining a packet behind a single pbuf, with
    [pbuf_chain], and separating the two again, with [pbuf_dechain], returns
    the second packet and restores the memory exactly, reference counts and
    [tot_len]s included, whatever the second chain looks like. *)
Theorem pbuf_chain_dechain m nh t bt :
  pbufs m !! n_loc nh = Some (n_buf nh) -> next (n_buf nh) = None -> tot_len (n_buf nh) = len (n_buf nh) ->
  pbufs m !! t = Some bt -> t <> n_loc nh -> 1 <= ref bt < 255 ->
  0 <= len (n_buf nh) -> 0 <= tot_len bt -> len (n_buf nh) + tot_len bt < 65536 ->
  (pbuf_chain (Some (n_loc nh)) (Some t);; pbuf_dechain (n_loc nh)) m = Ret (Some t) m.
Proof.
  destruct nh as [h bh dh]. simpl. intros Hh Hnx Htl Ht Hne Hr Hlh Hlt Hb.
  assert (Hne' : h <> t) by congruence.
  assert (W : wp (pbuf_chain (Some h) (Some t);; pbuf_dechain h) (fun r m' => r = Some t /\ m' = m) m).
  { unfold pbuf_chain, pbuf_cat. apply wp_bind, wp_bind, wp_bind, wp_chain_fuel, wp_bind.
    cbn [iter]. apply wp_bind. unfold pbuf_cat_body at 1. apply wp_bind, (wp_getp _ bh); [done|].
    rewrite Hnx. apply wp_ret, wp_ret. apply wp_bind, (wp_getp _ bh); [done|].
    apply wp_bind, (wp_getp _ bt); [done|]. apply wp_bind, (wp_setp _ _ bh); [done|].
    rewrite u16_small by lia.
    eapply wp_setp; [simpl; by rewrite lookup_insert_eq|]. cbn [pbufs set_pbufs].
    eapply wp_setp; [simpl; by rewrite !lookup_insert_ne by done|]. rewrite u8_small by lia.
    unfold pbuf_dechain. apply wp_bind. eapply wp_getp.
    { simpl. rewrite lookup_insert_ne by done. by rewrite lookup_insert_eq. }
    cbn [next set_next set_tot_len tot_len len].
    apply wp_bind. eapply wp_setp; [simpl; by rewrite lookup_insert_eq|].
    apply wp_bind. eapply wp_setp.
    { simpl. rewrite !lookup_insert_ne by done. by rewrite lookup_insert_eq. }
    apply wp_bind. eapply wp_setp; [simpl; by rewrite lookup_insert_eq|].
    apply wp_bind. eapply wp_pbuf_free_shared.
    { simpl. rewrite !lookup_insert_ne by done. by rewrite lookup_insert_eq. }
    { simpl. lia. }
    apply wp_ret. split; [done|]. apply mem_eq; try done. intros l. simpl.
    destruct (decide (l = t)) as [->|Hlt']; [|destruct (decide (l = h)) as [->|Hlh']];
      repeat first [rewrite lookup_insert_eq|rewrite lookup_insert_ne by congruence]; [| |done].
    - rewrite Ht. f_equal. destruct bt; unfold set_ref, set_tot_len; simpl in *.
      rewrite u16_small by lia. f_equal; lia.
    - rewrite Hh. f_equal. destruct bh; unfold set_next, set_tot_len; simpl in *. by subst. }
  destruct (wp_elim _ _ _ W) as (r & m' & E & -> & ->). done.
Qed.
End Dechain.

Section Header.
Context `{HeapOps}.

(** The first pbuf after its payload moved back by [k] bytes. *)
Definition moved (k : Z) (b : pbuf) : pbuf :=
  set_tot_len (tot_len b + k) (set_len (len b + k)
    (set_payload ((fun x : ptr => (x.1, x.2 - k)) <$> payload b) b)).

Lemma moved_moved k b : moved (- k) (moved k b) = b.
Proof.
  destruct b as [n p t l ty f r i]. unfold moved, set_tot_len, set_len, set_payload. simpl.
  f_equal; [|lia..]. destruct p as [[blk o]|]; [|done]. simpl. do 2 f_equal. lia.
Qed.

Lemma moved_payload k b blk off : payload b = Some (blk, off) -> payload (moved k b) = Some (blk, off - k).
Proof. intros E. unfold moved. simpl. by rewrite E. Qed.

(** The room in front of the payload holds bytes too. *)
Lemma holds_moved m b data blk off k :
  holds m b data -> payload b = Some (blk, off) -> 0 <= k <= off ->
  exists hdr, Z.of_nat (length hdr) = k /\ holds m (moved k b) (hdr ++ data).
Proof.
  intros [L Hh] E Hk. rewrite E in Hh. destruct Hh as (a & Ea & Ho & Hla & Hd).
  exists (take (Z.to_nat k) (drop (Z.to_nat (off - k)) a)).
  assert (Hl : Z.of_nat (length (take (Z.to_nat k) (drop (Z.to_nat (off - k)) a))) = k).
  { rewrite length_take, length_drop. lia. }
  split; [done|]. split.
  { rewrite length_app. simpl. lia. }
  rewrite (moved_payload k b blk off E). exists a. split_and!; [done|lia|simpl; lia|].
  rewrite length_app. set (n := length (take _ _)) in *. rewrite Hd at 1.
  replace (Z.to_nat off) with (Z.to_nat (off - k) + n)%nat by lia. rewrite <- drop_drop.
  replace (Z.to_nat k) with n by lia. by rewrite take_take_drop.
Qed.

Lemma holds_moved_back m b data k :
  holds m b data -> 0 <= k <= len b -> holds m (moved (- k) b) (drop (Z.to_nat k) data).
Proof.
  intros [L Hh] Hk. split; [rewrite length_drop; simpl; lia|].
  destruct (payload b) as [[blk off]|] eqn:E.
  - destruct Hh as (a & Ea & Ho & Hla & Hd). rewrite (moved_payload (- k) b blk off E). exists a.
    split_and!; [done|lia|simpl; lia|]. rewrite Hd at 1. rewrite skipn_firstn_comm, drop_drop, length_drop.
    do 2 f_equal; lia.
  - unfold moved. simpl. rewrite E. simpl. subst data. apply drop_nil.
Qed.

(** A packet with the first structure replaced. *)
Lemma packet_head m nd c b' data' :
  packet m (Some (n_loc nd)) (nd :: c) ->
  next b' = next (n_buf nd) -> fst <$> payload b' = node_area nd ->
  tot_len b' = Z.of_nat (length data') + total c -> Z.of_nat (length data') + total c < 65536 ->
  holds m b' data' ->
  packet (set_pbufs (<[n_loc nd := b']> (pbufs m)) m) (Some (n_loc nd)) (Node (n_loc nd) b' data' :: c).
Proof.
  intros [Hc Ht Hn Ha Hb] En Ea Et Hb' Hh. destruct Hc as (_ & Hl & _ & Hc). destruct Ht as [_ Ht].
  rewrite map_cons in Hn. pose proof Hn as Hn'. apply NoDup_cons in Hn' as [Hni _]. split.
  - simpl. split_and!; [done|by rewrite lookup_insert_eq|done|]. rewrite En. revert Hc.
    eapply chain_only_pbufs; [apply only_pbufs_insert|]. by intros l ->%list_elem_of_singleton.
  - simpl. by rewrite total_cons.
  - done.
  - rewrite areas_cons in Ha |- *. unfold node_area at 1. simpl. by rewrite Ea.
  - by rewrite total_cons.
Qed.

Lemma pbuf_add_header_run l b k m :
  pbufs m !! l = Some b -> has (type_internal b) PBUF_TYPE_FLAG_STRUCT_DATA_CONTIGUOUS = true ->
  (exists off, payload b = Some (l, off) /\ k <= off) ->
  0 < k <= 0xFFFF -> 0 <= len b <= tot_len b -> tot_len b + k < 65536 ->
  pbuf_add_header (Some l) k m = Ret 0 (set_pbufs (<[l := moved k b]> (pbufs m)) m).
Proof.
  intros Hl Hf (off & Ep & Ho) Hk Hlen Hb.
  assert (W : wp (pbuf_add_header (Some l) k)
    (fun r m' => r = 0 /\ m' = set_pbufs (<[l := moved k b]> (pbufs m)) m) m).
  { unfold pbuf_add_header, pbuf_add_header_impl.
    rewrite (proj2 (Z.ltb_ge _ _)), (proj2 (Z.eqb_neq _ _)) by lia.
    apply wp_bind, (wp_getp _ b); [done|]. rewrite !(u16_small k), (u16_small (k + _)) by lia.
    rewrite (proj2 (Z.ltb_ge _ _)), Hf, Ep by lia. apply wp_bind, wp_ret. simpl.
    rewrite decide_True, (proj2 (Z.ltb_ge _ _)) by (done || lia).
    apply wp_bind, (wp_setp _ _ b); [done|]. apply wp_ret. split; [done|].
    rewrite !u16_small by lia. unfold moved. by rewrite Ep. }
  destruct (wp_elim _ _ _ W) as (r & m' & E & -> & ->). done.
Qed.

Lemma pbuf_remove_header_run l b k m :
  pbufs m !! l = Some b -> 0 < k <= 0xFFFF -> 0 <= len b <= tot_len b -> tot_len b < 65536 ->
  pbuf_remove_header (Some l) k m =
    if k <=? len b then Ret 0 (set_pbufs (<[l := moved (- k) b]> (pbufs m)) m) else Ret 1 m.
Proof.
  intros Hl Hk Hlen Hb.
  assert (W : wp (pbuf_remove_header (Some l) k) (fun r m' =>
    Ret r m' = if k <=? len b then Ret 0 (set_pbufs (<[l := moved (- k) b]> (pbufs m)) m) else Ret 1 m) m).
  { unfold pbuf_remove_header. rewrite (proj2 (Z.ltb_ge _ _)), (proj2 (Z.eqb_neq _ _)) by lia.
    apply wp_bind, (wp_getp _ b); [done|]. rewrite (u16_small k) by lia.
    destruct (Z.leb_spec k (len b)); [|by apply wp_ret].
    apply wp_bind, (wp_setp _ _ b); [done|]. apply wp_ret. rewrite !u16_small by lia.
    unfold moved. rewrite !Z.add_opp_r. destruct (payload b) as [[blk o]|]; [|done]. simpl.
    by rewrite Z.sub_opp_r. }
  destruct (wp_elim _ _ _ W) as (r & m' & E & <-). done.
Qed.

(** Headers.  In a pbuf whose payload follows its structure, with room
    for [k] bytes in front of the payload, [pbuf_add_header] succeeds: the
    packet gains exactly [k] bytes in front and keeps all others, and
    [pbuf_remove_header] of [k] bytes restores the memory exactly.  Without
    the room it returns 1 and changes nothing. *)
Theorem pbuf_add_remove_header m nd c off k :
  packet m (Some (n_loc nd)) (nd :: c) ->
  has (type_internal (n_buf nd)) PBUF_TYPE_FLAG_STRUCT_DATA_CONTIGUOUS = true ->
  payload (n_buf nd) = Some (n_loc nd, off) -> 0 < k -> total (nd :: c) + k < 65536 ->
  (k <= off -> exists m' nd' hdr,
     pbuf_add_header (Some (n_loc nd)) k m = Ret 0 m' /\
     packet m' (Some (n_loc nd)) (nd' :: c) /\ Z.of_nat (length hdr) = k /\
     contents (nd' :: c) = hdr ++ contents (nd :: c) /\
     pbuf_remove_header (Some (n_loc nd)) k m' = Ret 0 m) /\
  (off < k -> pbuf_add_header (Some (n_loc nd)) k m = Ret 1 m).
Proof.
  intros Hp Hf Ep Hk Hb. pose proof Hp as [Hc Ht _ _ Hb0]. destruct Hc as (_ & Hl & Hh & _).
  destruct Ht as [Et _]. pose proof Hh as [L _]. pose proof (total_nonneg c). rewrite total_cons in *. split.
  - intros Hko. destruct (holds_moved m _ _ _ _ k Hh Ep) as (hdr & Hhdr & Hh'); [lia|].
    assert (Lh : Z.of_nat (length (hdr ++ n_data nd)) = k + len (n_buf nd)) by (rewrite length_app; lia).
    exists (set_pbufs (<[n_loc nd := moved k (n_buf nd)]> (pbufs m)) m),
      (Node (n_loc nd) (moved k (n_buf nd)) (hdr ++ n_data nd)), hdr. split_and!.
    + apply pbuf_add_header_run; [done|done|by exists off|lia..].
    + apply (packet_head m nd c); [done|done| |simpl; lia|lia|done].
      unfold node_area, moved. simpl. by rewrite Ep.
    + done.
    + rewrite !contents_cons. simpl. by rewrite app_assoc.
    + rewrite (pbuf_remove_header_run _ (moved k (n_buf nd)));
        [|simpl; by rewrite lookup_insert_eq|lia|simpl; lia|simpl; lia].
      rewrite (proj2 (Z.leb_le _ _)) by (simpl; lia). rewrite moved_moved. f_equal.
      apply mem_eq; try done. intros l. simpl. rewrite insert_insert_eq.
      destruct (decide (l = n_loc nd)) as [->|]; [by rewrite lookup_insert_eq|by rewrite lookup_insert_ne].
  - intros Hko.
    assert (W : wp (pbuf_add_header (Some (n_loc nd)) k) (fun r m' => r = 1 /\ m' = m) m).
    { unfold pbuf_add_header, pbuf_add_header_impl. destruct (0xFFFF <? k); [done|].
      rewrite (proj2 (Z.eqb_neq _ _)) by lia. apply wp_bind, (wp_getp _ (n_buf nd)); [done|].
      case_match; [done|]. rewrite Hf, Ep. apply wp_bind, wp_ret. simpl.
      rewrite decide_True, (proj2 (Z.ltb_lt _ _)) by (done || lia). done. }
    destruct (wp_elim _ _ _ W) as (r & m' & E & -> & ->). done.
Qed.

(** Removing a header of [k] bytes drops exactly the first [k] bytes of
    the packet when the first pbuf holds as many; otherwise the call returns 1
    and changes nothing. *)
Theorem pbuf_remove_header_drops m nd c k :
  packet m (Some (n_loc nd)) (nd :: c) -> 0 < k <= 0xFFFF ->
  if k <=? len (n_buf nd) then exists m' nd',
     pbuf_remove_header (Some (n_loc nd)) k m = Ret 0 m' /\ only_pbufs [n_loc nd] m m' /\
     packet m' (Some (n_loc nd)) (nd' :: c) /\ contents (nd' :: c) = drop (Z.to_nat k) (contents (nd :: c))
  else pbuf_remove_header (Some (n_loc nd)) k m = Ret 1 m.
Proof.
  intros Hp Hk. pose proof Hp as [Hc Ht _ _ Hb0]. destruct Hc as (_ & Hl & Hh & _).
  destruct Ht as [Et _]. pose proof Hh as [L _]. pose proof (total_nonneg c). rewrite total_cons in *.
  rewrite (pbuf_remove_header_run _ (n_buf nd)) by (done || lia).
  destruct (Z.leb_spec k (len (n_buf nd))); [|done].
  pose proof (holds_moved_back m _ _ k Hh ltac:(lia)) as Hh'. pose proof Hh' as [L' _].
  exists (set_pbufs (<[n_loc nd := moved (- k) (n_buf nd)]> (pbufs m)) m),
    (Node (n_loc nd) (moved (- k) (n_buf nd)) (drop (Z.to_nat k) (n_data nd))).
  split_and!; [done|apply only_pbufs_insert| |].
  - simpl in L'. apply (packet_head m nd c); [done|done| |simpl; lia|lia|done].
    unfold node_area, moved. simpl. by destruct (payload (n_buf nd)).
  - rewrite !contents_cons. simpl. rewrite drop_app_le by lia. done.
Qed.
End Header.
