(* ===== verification/PbufRealloc.v ===== *)
(** Packet buffers: shortening a packet, and searching in one. *)
From stdpp Require Import functions.
From S2P Require Import Prelude Memp Pbuf PbufFacts PbufUpdate PbufAlloc PbufChain.

Section Realloc.
Context `{CustomFree}.

(** A pbuf whose heap block, if it has one, holds its payload. *)
Definition own_payload (n : node) : Prop :=
  match n_loc n with
  | Heap _ => exists off, payload (n_buf n) = Some (n_loc n, off) /\ SIZEOF_STRUCT_PBUF + off + len (n_buf n) < 65536
  | _ => True
  end.

Definition shrunk (s : Z) : node -> node := rebuf (fun b => set_tot_len (tot_len b - s) b).

(** Walking to the pbuf in which the new end lies. *)
Lemma realloc_loop s c : forall p fuel rem m,
  chain m (Some p) c -> totals c -> NoDup (map n_loc c) -> total c < 65536 ->
  total c = rem + s -> 0 < s -> 0 <= rem -> (length c < fuel)%nat ->
  wp (iter fuel (pbuf_realloc_body s) (p, rem)) (fun r m' => exists c0 nd ct,
    c = c0 ++ nd :: ct /\ r.1 = n_loc nd /\ 0 <= r.2 <= len (n_buf nd) /\ rem = total c0 + r.2 /\
    chain m' (Some p) (map (shrunk s) c0 ++ nd :: ct) /\ only_pbufs (map n_loc c0) m m') m.
Proof.
  induction c as [|nd c IH]; intros p fuel rem m Hc Ht Hn Hb Es Hs Hr Hf; [done|].
  destruct fuel as [|fuel]; [simpl in Hf; lia|]. pose proof Hc as Hc0. destruct Hc as (E & Hl & Hh & Hc).
  injection E as ->. destruct Ht as [Et Ht]. pose proof Hh as [L _]. pose proof (total_nonneg c).
  rewrite map_cons in Hn. apply NoDup_cons in Hn as [Hni Hn]. rewrite total_cons in *.
  cbn [iter]. apply wp_bind. unfold pbuf_realloc_body at 1. apply wp_bind, (wp_getp _ (n_buf nd)); [done|].
  destruct (Z.ltb_spec (len (n_buf nd)) rem).
  - apply wp_bind, (wp_setp _ _ (n_buf nd)); [done|]. rewrite !u16_small by lia. set (m1 := set_pbufs _ m).
    destruct (next (n_buf nd)) as [n|] eqn:En; [|destruct c; [change (total []) with 0 in *; lia|by destruct Hc]].
    apply wp_bind, wp_ret, wp_ret.
    assert (F1 : only_pbufs [n_loc nd] m m1) by apply only_pbufs_insert.
    eapply wp_mono; [apply (IH n fuel (rem - len (n_buf nd)) m1); try done; try (simpl in Hf; lia)|].
    { revert Hc. apply (chain_only_pbufs _ _ _ _ _ F1). by intros l ->%list_elem_of_singleton. }
    intros r m' (c0 & nd' & ct & -> & -> & Hr2 & Er & Hc' & F2). exists (nd :: c0), nd', ct.
    assert (Hni' : n_loc nd ∉ map n_loc c0).
    { intros Hin. apply Hni. rewrite map_app. apply elem_of_app. by left. }
    split_and!; [done|done|lia|lia|rewrite total_cons; lia| |].
    + simpl. split_and!; [done| | |by rewrite En].
      * rewrite (op_pbufs _ _ _ F2) by done. simpl. by rewrite lookup_insert_eq.
      * revert Hh. by apply holds_same_bytes; [rewrite (op_bytes _ _ _ F2)|..].
    + eapply only_pbufs_trans; (eapply only_pbufs_mono; [|eassumption]); intros l Hin; rewrite map_cons;
        [apply list_elem_of_singleton in Hin as ->; by left|by right].
  - apply wp_ret. exists [], nd, c. simpl. split_and!; try done; try lia. 
Qed.

(** Cutting the payload of the last pbuf that stays. *)
Lemma trim_step m nd rem (Q : unit -> mem -> Prop) :
  holds m (n_buf nd) (n_data nd) -> well_typed (n_loc nd) (n_buf nd) -> own_payload nd ->
  0 <= rem <= len (n_buf nd) ->
  (forall m', pbufs m' = pbufs m -> (forall blk, node_area nd <> Some blk -> bytes m' !! blk = bytes m !! blk) ->
     holds m' (set_len rem (n_buf nd)) (take (Z.to_nat rem) (n_data nd)) -> Q tt m') ->
  wp (when (pbuf_match_allocsrc (n_buf nd) PBUF_TYPE_ALLOC_SRC_MASK_STD_HEAP && negb (rem =? len (n_buf nd))
          && negb (has (flags (n_buf nd)) PBUF_FLAG_IS_CUSTOM))
      (x ← deref NullDeref (payload (n_buf nd));
       if decide (x.1 = n_loc nd) then mem_trim_at (n_loc nd) (u16 (SIZEOF_STRUCT_PBUF + x.2 + rem))
       else halt BadPointer)) Q m.
Proof.
  intros Hh Hw Ho Hr HQ. pose proof Hh as [L Hh'].
  assert (Hkeep : holds m (set_len rem (n_buf nd)) (take (Z.to_nat rem) (n_data nd))).
  { split; [rewrite length_take; simpl; lia|]. simpl. destruct (payload (n_buf nd)) as [[blk off]|].
    - destruct Hh' as (a & Ea & H1 & H2 & Ed). exists a. split_and!; [done|done|lia|].
      rewrite Ed at 1. by rewrite take_take, length_take.
    - by rewrite Hh', take_nil. }
  destruct (pbuf_match_allocsrc _ _ && _ && _) eqn:Ec; [|by apply wp_ret, HQ].
  apply andb_true_iff in Ec as [[Em%Z.eqb_eq _]%andb_true_iff _].
  destruct Hw as [_ Hw]. unfold own_payload in Ho. change (Z.land _ _) with 0 in Em.
  destruct (n_loc nd) as [[]|o|] eqn:El; try (by rewrite Hw in Em); try done.
  destruct Ho as (off & Ep & Hoff). rewrite Ep. apply wp_bind, wp_ret. simpl. rewrite decide_True by done.
  rewrite Ep in Hh'. destruct Hh' as (a & Ea & H1 & H2 & Ed). change SIZEOF_STRUCT_PBUF with 16 in *.
  rewrite u16_small by lia. apply wp_modify, HQ; [done| |].
  - intros blk Hb. simpl. rewrite lookup_alter_ne; [done|]. intros <-. apply Hb. unfold node_area. by rewrite Ep.
  - destruct Hkeep as [Lk _]. split; [done|]. simpl. rewrite Ep.
    exists (take (Z.to_nat (off + rem)) a). rewrite lookup_alter_eq, Ea. simpl.
    split_and!; [do 2 f_equal; lia|done|rewrite length_take; lia|].
    rewrite Ed at 1. rewrite take_take, length_take, skipn_firstn_comm, take_take. f_equal. lia.
Qed.

Lemma free_all_bytes c : forall m blk, (forall o, blk = Heap o -> blk ∉ map n_loc c) ->
  bytes (free_all c m) !! blk = bytes m !! blk.
Proof.
  induction c as [|n c IH]; intros m blk Hb; [done|].
  change (free_all (n :: c) m) with (free_all c (freed (n_loc n) m)).
  rewrite IH.
  - unfold freed. destruct (n_loc n) as [| o |] eqn:El; simpl; try done.
    rewrite lookup_delete_ne; [done|]. intros <-. apply (Hb o); [done|]. rewrite map_cons, El. by left.
  - intros o E Hin. apply (Hb o E). by right.
Qed.

(** The bytes that releasing part of a chain leaves alone. *)
Lemma released_bytes c m blk : (forall o, blk = Heap o -> blk ∉ map n_loc c) ->
  bytes (drop_ref (remaining c) (free_all (released c) m)) !! blk = bytes m !! blk.
Proof.
  intros Hb. transitivity (bytes (free_all (released c) m) !! blk); [by destruct (remaining c)|].
  apply free_all_bytes. intros o E Hin. apply (Hb o E). rewrite (released_remaining c), map_app.
  apply elem_of_app. by left.
Qed.

Lemma released_pbufs c m l : l ∉ map n_loc c ->
  pbufs (drop_ref (remaining c) (free_all (released c) m)) !! l = pbufs m !! l.
Proof.
  intros Hl. rewrite (released_remaining c), map_app in Hl. apply not_elem_of_app in Hl as [H1 H2].
  transitivity (pbufs (free_all (released c) m) !! l).
  - destruct (remaining c) as [|n cr]; [done|]. simpl. rewrite lookup_insert_ne; [done|].
    intros <-. apply H2. by left.
  - by rewrite free_all_pbufs, decide_False.
Qed.

(** One pbuf of a chain replaced. *)
Lemma chain_replace m m' a nd nd' b : forall p,
  chain m p (a ++ nd :: b) -> NoDup (map n_loc (a ++ nd :: b)) -> NoDup (omap node_area (a ++ nd :: b)) ->
  n_loc nd' = n_loc nd -> next (n_buf nd') = next (n_buf nd) ->
  (forall l, l <> n_loc nd -> pbufs m' !! l = pbufs m !! l) ->
  (forall blk, node_area nd <> Some blk -> bytes m' !! blk = bytes m !! blk) ->
  pbufs m' !! n_loc nd = Some (n_buf nd') -> holds m' (n_buf nd') (n_data nd') ->
  chain m' p (a ++ nd' :: b).
Proof.
  induction a as [|n a IH]; intros p Hc Hn Ha El En Hp Hby Hl Hh; simpl app in *.
  - destruct Hc as (-> & _ & _ & Hc). rewrite map_cons in Hn. apply NoDup_cons in Hn as [Hn _].
    simpl. rewrite El, En. split_and!; [done..|]. revert Hc. apply chain_frame.
    + intros n Hin. apply Hp. intros E. apply Hn. rewrite <- E. apply list_elem_of_fmap. by exists n.
    + intros n blk Hin Eb. apply Hby. intros E. rewrite areas_cons, E in Ha.
      apply NoDup_cons in Ha as [Ha _]. apply Ha. apply list_elem_of_omap. by exists n.
  - destruct Hc as (-> & Hln & [L Hhn] & Hc). rewrite map_cons in Hn. apply NoDup_cons in Hn as [Hni Hn].
    assert (Hin : nd ∈ a ++ nd :: b) by (apply elem_of_app; right; by left).
    split_and!; [done| |split; [done|]|].
    + rewrite Hp; [done|]. intros E. apply Hni. rewrite E. apply list_elem_of_fmap. by exists nd.
    + destruct (payload (n_buf n)) as [[blk off]|] eqn:Ep; [|done]. rewrite Hby; [done|].
      intros E. rewrite areas_cons in Ha. unfold node_area in Ha at 1. rewrite Ep in Ha. simpl in Ha.
      apply NoDup_cons in Ha as [Ha _]. apply Ha. apply list_elem_of_omap. by exists nd.
    + apply IH; try done. rewrite areas_cons in Ha. case_match; [by apply NoDup_cons in Ha as [_ Ha]|done].
Qed.

Lemma chain_tail m p a nd b : chain m p (a ++ nd :: b) -> chain m (next (n_buf nd)) b.
Proof. revert p. induction a as [|n a IH]; intros p; [by intros (_ & _ & _ & Hc)|]. intros (_ & _ & _ & Hc). by eapply IH. Qed.

Lemma chain_holds m p c n : chain m p c -> n ∈ c -> holds m (n_buf n) (n_data n).
Proof.
  revert p. induction c as [|n' c IH]; intros p Hc Hin; [by apply elem_of_nil in Hin|].
  destruct Hc as (_ & _ & Hh & Hc). apply elem_of_cons in Hin as [->|Hin]; [done|by eapply IH].
Qed.

Lemma rebuf_payloads f c : (forall b, payload (f b) = payload b) ->
  Forall2 (fun n n' => payload (n_buf n') = payload (n_buf n)) c (map (rebuf f) c).
Proof. intros Hf. induction c; constructor; [apply Hf|done]. Qed.

Lemma shrunk_total s c : total (map (shrunk s) c) = total c.
Proof. unfold total, shrunk. by rewrite rebuf_contents. Qed.

Lemma shrunk_locs s c : map n_loc (map (shrunk s) c) = map n_loc c.
Proof. apply rebuf_locs. Qed.

Lemma shrunk_areas s c : omap node_area (map (shrunk s) c) = omap node_area c.
Proof. by apply areas_ext, rebuf_payloads. Qed.

(** The last pbuf that stays, with what is behind it cut off. *)
Lemma chain_cut m m' a nd nd' b : forall p,
  chain m p (a ++ nd :: b) -> n_loc nd' = n_loc nd -> next (n_buf nd') = None ->
  (forall n, n ∈ a -> pbufs m' !! n_loc n = pbufs m !! n_loc n) ->
  (forall n blk, n ∈ a -> node_area n = Some blk -> bytes m' !! blk = bytes m !! blk) ->
  pbufs m' !! n_loc nd = Some (n_buf nd') -> holds m' (n_buf nd') (n_data nd') -> chain m' p (a ++ [nd']).
Proof.
  intros p Hc El En Hp Hb Hl Hh. revert p Hc Hp Hb. induction a as [|n a IH]; intros p Hc Hp Hb; simpl app in *.
  - destruct Hc as (-> & _). simpl. by rewrite El.
  - destruct Hc as (-> & Hln & [L Hhn] & Hc). split_and!; [done|rewrite Hp; [done|by left]|split; [done|]|].
    + destruct (payload (n_buf n)) as [[blk off]|] eqn:Ep; [|done].
      rewrite (Hb n blk); [done|by left|]. unfold node_area. by rewrite Ep.
    + apply IH; [done| |]; intros; [apply Hp|eapply Hb; [|done]]; by right.
Qed.

Lemma own_heap c blk : Forall own_payload c -> blk ∉ omap node_area c ->
  forall o, blk = Heap o -> blk ∉ map n_loc c.
Proof.
  intros Hown Hb o -> (n & El & Hin)%list_elem_of_fmap. apply Hb. apply list_elem_of_omap. exists n.
  split; [done|]. rewrite Forall_forall in Hown. specialize (Hown n Hin). unfold own_payload in Hown.
  rewrite <- El in Hown. destruct Hown as (off & Ep & _). unfold node_area. by rewrite Ep.
Qed.

Lemma shrunk_totals s c0 nd ct r nd' : totals (c0 ++ nd :: ct) -> total (nd :: ct) = r + s ->
  Z.of_nat (length (n_data nd')) = r -> tot_len (n_buf nd') = r -> totals (map (shrunk s) c0 ++ [nd']).
Proof.
  intros Ht Hs Hd Hr. induction c0 as [|n c0 IH]; simpl.
  - by rewrite total_cons, Hd, Hr, Z.add_0_r.
  - destruct Ht as [E Ht]. split; [|by apply IH]. simpl. rewrite E, !total_cons, !total_app, Hs, shrunk_total.
    rewrite (total_cons nd' []), Hd. change (total []) with 0. simpl. lia.
Qed.

(** The last pbuf that stays, and the memory after the rest is released. *)
Definition cut (r : Z) (nd : node) : node :=
  Node (n_loc nd) (set_tot_len r (set_len r (n_buf nd))) (take (Z.to_nat r) (n_data nd)).

Definition cut_off (r : Z) (nd : node) (ct : list node) (m : mem) : mem :=
  let m' := drop_ref (remaining ct) (free_all (released ct) m) in
  set_pbufs (<[n_loc nd := set_next None (n_buf (cut r nd))]> (pbufs m')) m'.

Definition releasable (n : node) : Prop :=
  1 <= ref (n_buf n) < 256 /\ well_typed (n_loc n) (n_buf n) /\ own_payload n.

Lemma pbuf_realloc_walk m p c new_len :
  packet m (Some p) c -> 0 <= new_len < total c -> Forall releasable c ->
  wp (pbuf_realloc p new_len) (fun _ m' => exists c0 nd ct r m3,
    c = c0 ++ nd :: ct /\ new_len = total c0 + r /\ 0 <= r <= len (n_buf nd) /\
    chain m3 (Some p) (map (shrunk (total c - new_len)) c0 ++ cut r nd :: ct) /\
    (forall l, l ∉ map n_loc (c0 ++ [nd]) -> pbufs m3 !! l = pbufs m !! l) /\
    m' = cut_off r nd ct m3) m.
Proof.
  intros Hp Hn Hw. pose proof Hp as [Hc Ht Hl Ha Hb]. set (s := total c - new_len).
  destruct c as [|n0 c']; [done|]. pose proof Hc as (E0 & Hl0 & _ & _). injection E0 as E0. subst p.
  pose proof Ht as [Et0 _]. set (c := n0 :: c') in *.
  unfold pbuf_realloc. apply wp_bind, (wp_getp _ (n_buf n0)); [done|].
  rewrite Et0, (proj2 (Z.leb_gt _ _)), u16_small by lia. fold s.
  apply wp_bind, wp_chain_fuel, wp_bind.
  eapply wp_mono; [apply (realloc_loop s c); try done; try lia|].
  { pose proof (chain_size _ _ _ Hc Hl). lia. }
  intros [q r] m1 (c0 & nd & ct & Ec & Eq & Hr & Er & Hc1 & F1). simpl in Eq, Hr, Er. subst q.
  rewrite Ec in Hl, Ha, Hw. apply Forall_app in Hw as [Hw0 Hw1]. inversion_clear Hw1 as [|? ? (Hrf & Hwt & Hown) Hwt'].
  pose proof Hl as Hl'. rewrite map_app in Hl'. apply NoDup_app in Hl' as (_ & Hd & Hlt).
  rewrite map_cons in Hlt. apply NoDup_cons in Hlt as [Hni Hlt].
  destruct (chain_next _ _ _ Hc1) as (_ & Hat & _).
  assert (Hnd : nd ∈ map (shrunk s) c0 ++ nd :: ct) by (apply elem_of_app; right; by left).
  pose proof (Hat nd Hnd) as Hlk.
  apply wp_bind, (wp_getp _ (n_buf nd)); [done|]. apply wp_bind.
  apply trim_step; [by eapply chain_holds|done|done|done|].
  intros m2 P2 B2 Hh2. apply wp_bind, (wp_setp _ _ (n_buf nd)); [by rewrite P2|].
  apply wp_bind. eapply wp_setp; [simpl; by rewrite lookup_insert_eq|]. cbn [pbufs set_pbufs].
  set (nd' := cut r nd).
  set (m3 := set_pbufs _ _).
  assert (Hm3 : pbufs m3 !! n_loc nd = Some (n_buf nd')) by (simpl; by rewrite lookup_insert_eq).
  assert (Ho3 : forall l, l <> n_loc nd -> pbufs m3 !! l = pbufs m1 !! l).
  { intros l0 Hne. simpl. rewrite !lookup_insert_ne by done. by rewrite P2. }
  assert (Hc3 : chain m3 (Some (n_loc n0)) (map (shrunk s) c0 ++ nd' :: ct)).
  { apply (chain_replace m1 m3 _ nd); try done.
    - by rewrite map_app, shrunk_locs, <- map_app.
    - by rewrite omap_app, shrunk_areas, <- omap_app. }
  apply wp_bind, (wp_getp _ (n_buf nd')); [done|]. apply wp_bind.
  assert (Ht3 : chain m3 (next (n_buf nd)) ct) by (by apply (chain_tail _ _ _ nd' ct) in Hc3).
  set (m4 := drop_ref (remaining ct) (free_all (released ct) m3)).
  assert (W4 : wp (match next (n_buf nd) with Some n => pbuf_free (Some n);; mret tt | None => mret tt end)
    (fun _ m' => m' = m4) m3).
  { destruct (next (n_buf nd)) as [n|]; [|destruct ct; [done|by destruct Ht3]].
    apply wp_bind. eapply wp_of_run; [apply (pbuf_free_run _ _ ct); [done|done|]|done].
    eapply Forall_impl; [exact Hwt'|]. intros ? (? & ? & _). done. }
  eapply wp_mono; [exact W4|]. intros _ m' ->.
  apply (wp_setp _ _ (n_buf nd')); [by unfold m4; rewrite released_pbufs|].
  exists c0, nd, ct, r, m3. split_and!; [done|done|lia|lia|done| |done].
  intros l0 Hnl. rewrite map_app in Hnl. apply not_elem_of_app in Hnl as [Hn0 Hn1].
  rewrite Ho3 by (intros ->; apply Hn1; by left). by apply (op_pbufs _ _ _ F1).
Qed.

Lemma cut_off_result m m3 p c0 nd ct r s :
  packet m (Some p) (c0 ++ nd :: ct) -> 0 <= r <= len (n_buf nd) -> total (nd :: ct) = r + s -> 0 <= s ->
  Forall releasable ct ->
  chain m3 (Some p) (map (shrunk s) c0 ++ cut r nd :: ct) ->
  (forall l, l ∉ map n_loc (c0 ++ [nd]) -> pbufs m3 !! l = pbufs m !! l) ->
  let c' := map (shrunk s) c0 ++ [rebuf (set_next None) (cut r nd)] in
  let m' := cut_off r nd ct m3 in
  packet m' (Some p) c' /\
  contents c' = take (Z.to_nat (total c0 + r)) (contents (c0 ++ nd :: ct)) /\
  map n_loc c' = take (length c') (map n_loc (c0 ++ nd :: ct)) /\
  (forall l, l ∉ map n_loc (c0 ++ nd :: ct) -> pbufs m' !! l = pbufs m !! l) /\
  (forall n, n ∈ released (drop (length c') (c0 ++ nd :: ct)) -> pbufs m' !! n_loc n = None).
Proof.
  intros Hp Hr Es Hs Hwt Hc3 F3. pose proof Hp as [Hc Ht Hl Ha Hb]. rewrite total_app in Hb. cbv zeta.
  set (nd' := cut r nd) in *. set (last := rebuf _ nd'). set (m5 := cut_off r nd ct m3).
  set (m4 := drop_ref (remaining ct) (free_all (released ct) m3)).
  assert (Hnd : nd ∈ c0 ++ nd :: ct) by (apply elem_of_app; right; by left).
  destruct (chain_holds _ _ _ nd Hc Hnd) as [L _].
  assert (Ld : Z.of_nat (length (n_data nd')) = r) by (simpl; rewrite length_take; lia).
  assert (Hlen : length (map (shrunk s) c0 ++ [last]) = length (c0 ++ [nd])) by (rewrite !length_app, length_map; done).
  assert (Esplit : c0 ++ nd :: ct = (c0 ++ [nd]) ++ ct) by (by rewrite <- app_assoc).
  assert (Hloc : map n_loc (map (shrunk s) c0 ++ [last]) = map n_loc (c0 ++ [nd])).
  { by rewrite !map_app, shrunk_locs. }
  assert (Har : omap node_area (map (shrunk s) c0 ++ [last]) = omap node_area (c0 ++ [nd])).
  { by rewrite !omap_app, shrunk_areas. }
  assert (Htot : total (map (shrunk s) c0 ++ [last]) = total c0 + r).
  { rewrite total_app, shrunk_total, total_cons. change (total []) with 0. simpl in *. lia. }
  pose proof (total_nonneg (nd :: ct)). rewrite Esplit in Hl, Ha. rewrite map_app in Hl. rewrite omap_app in Ha.
  apply NoDup_app in Hl as (Hl1 & Hd & Hl2), Ha as (Ha1 & Hda & Ha2).
  assert (Hkeep : forall blk, blk ∈ omap node_area (c0 ++ [nd]) -> bytes m5 !! blk = bytes m3 !! blk).
  { intros blk Hin. apply released_bytes. apply own_heap; [|by apply Hda].
    eapply Forall_impl; [exact Hwt|]. by intros ? (_ & _ & ?). }
  assert (Hpb : forall l, l <> n_loc nd -> l ∉ map n_loc ct -> pbufs m5 !! l = pbufs m3 !! l).
  { intros l Hne Hni. simpl. rewrite lookup_insert_ne by done. by apply released_pbufs. }
  split_and!.
  - split; [| |by rewrite Hloc|by rewrite Har|lia].
    + apply (chain_cut m3 m5 _ nd' last ct); [done|done|done| | |by simpl; rewrite lookup_insert_eq|].
      * intros n Hin. assert (Hn0 : n_loc n ∈ map n_loc c0).
        { rewrite <- (shrunk_locs s c0). apply list_elem_of_fmap. by exists n. }
        apply Hpb; [|apply Hd; rewrite map_app; apply elem_of_app; by left].
        rewrite map_app in Hl1. apply NoDup_app in Hl1 as (_ & Hd0 & _). intros E1. apply (Hd0 _ Hn0).
        rewrite E1. by left.
      * intros n blk Hin Eb. apply Hkeep. rewrite omap_app. apply elem_of_app. left.
        rewrite <- (shrunk_areas s c0). apply list_elem_of_omap. by exists n.
      * pose proof (chain_holds _ _ _ nd' Hc3 ltac:(apply elem_of_app; right; by left)) as [_ Hh'].
        split; [done|]. simpl in *. destruct (payload (n_buf nd)) as [[blk off]|] eqn:Ep; [|done].
        rewrite Hkeep; [done|]. rewrite omap_app. apply elem_of_app. right.
        rewrite areas_cons. unfold node_area at 1. rewrite Ep. by left.
    + by apply (shrunk_totals s c0 nd ct r).
  - rewrite !contents_app, !contents_cons. unfold shrunk at 1. rewrite rebuf_contents. unfold total. change (contents []) with (@nil Z).
    rewrite app_nil_r, take_app, take_ge by lia. f_equal. simpl.
    rewrite take_app_le by lia. f_equal. lia.
  - by rewrite Hloc, Hlen, Esplit, <- (length_map n_loc (c0 ++ [nd])), (map_app n_loc (c0 ++ [nd])), take_app_length.
  - intros l Hnl. rewrite Esplit, map_app in Hnl. apply not_elem_of_app in Hnl as [Hn1 Hn2].
    rewrite Hpb, F3 by done || (intros ->; apply Hn1; rewrite map_app; apply elem_of_app; right; by left). done.
  - rewrite Hlen, Esplit, drop_app_length. intros n Hin.
    assert (Hnt : n_loc n ∈ map n_loc (released ct)) by (apply list_elem_of_fmap; by exists n).
    pose proof (free_all_pbufs (released ct) m3 (n_loc n)) as Hfa. rewrite decide_True in Hfa by done.
    unfold m5, cut_off. fold m4. cbn [pbufs set_pbufs]. rewrite lookup_insert_ne.
    + unfold m4. rewrite (released_remaining ct), map_app in Hl2. apply NoDup_app in Hl2 as (_ & Hdr & _).
      destruct (remaining ct) as [|x cr]; [done|]. cbn [drop_ref pbufs set_pbufs].
      rewrite lookup_insert_ne; [done|]. intros E1. apply (Hdr _ Hnt). rewrite <- E1. by left.
    + intros E1. apply (Hd (n_loc nd)); [rewrite map_app; apply elem_of_app; right; by left|].
      rewrite E1, (released_remaining ct), map_app. apply elem_of_app. by left.
Qed.

(** Shortening.  [pbuf_realloc] to a smaller length always returns, and
    leaves a packet that is exactly the first [new_len] bytes of the old one,
    in the first pbufs of the old chain; the pbufs behind are released as
    [pbuf_free] does; payloads of other memory are untouched. *)
Theorem pbuf_realloc_truncates m p c new_len :
  packet m (Some p) c -> 0 <= new_len < total c ->
  Forall releasable c ->
  exists m' c', pbuf_realloc p new_len m = Ret tt m' /\ packet m' (Some p) c' /\
    contents c' = take (Z.to_nat new_len) (contents c) /\ map n_loc c' = take (length c') (map n_loc c) /\
    (forall l, l ∉ map n_loc c -> pbufs m' !! l = pbufs m !! l) /\
    (forall n, n ∈ released (drop (length c') c) -> pbufs m' !! n_loc n = None).
Proof.
  intros Hp Hn Hw. destruct (wp_elim _ _ _ (pbuf_realloc_walk _ _ _ _ Hp Hn Hw)) as
    ([] & m' & E & c0 & nd & ct & r & m3 & -> & -> & Hr & Hc3 & F3 & ->).
  apply Forall_app in Hw as [_ Hw]. inversion_clear Hw as [|? ? _ Hwt]. pose proof (total_nonneg c0).
  rewrite total_app in Hn, Hc3. eexists _, _. split; [exact E|].
  eapply (cut_off_result m m3); [done|done| | |done|exact Hc3|done]; lia.
Qed.
End Realloc.

Section Search.
Context `{HeapOps}.

(** The bytes [l] occur in the packet [c] at [i]. *)
Definition occurs (l : list Z) (c : list node) (i : Z) : Prop :=
  take (length l) (drop (Z.to_nat i) (contents c)) = l.

Lemma wp_get_at m p c offset (Q : Z -> mem -> Prop) :
  packet m p c -> Forall byte (contents c) -> 0 <= offset < 65536 ->
  Q (default 0 (contents c !! Z.to_nat offset)) m -> wp (pbuf_get_at p offset) Q m.
Proof.
  intros Hp Hb Ho HQ. unfold pbuf_get_at. apply wp_bind, (wp_try_get_at m p c); [done|done|].
  apply wp_ret. destruct (contents c !! Z.to_nat offset) as [x|] eqn:E; [|done]. simpl in *.
  rewrite Forall_lookup in Hb. destruct (Hb _ _ E). rewrite (proj2 (Z.leb_le _ _)), u8_small by lia. done.
Qed.

(** The comparison, [k] bytes from the end, with [bs] and [s] left. *)
Lemma memcmp_loop_run m q c start s2 k : forall i bs s,
  packet m q c -> Forall byte (contents c) -> 0 <= start -> 0 <= i -> start + i + Z.of_nat k <= total c ->
  bs = take k (drop (Z.to_nat (start + i)) (contents c)) -> s = take k (drop (Z.to_nat i) s2) -> length s = k ->
  wp (memcmp_loop k q start i s2) (fun r m' => m' = m /\ 0 <= r < 65536 /\ (r = 0 <-> bs = s)) m.
Proof.
  induction k as [|k IH]; intros i bs s Hp Hb Hs Hi Ht Ebs Es Hl; simpl.
  - subst bs s. by rewrite !take_0.
  - pose proof (pk_bound _ _ _ Hp). rewrite (u16_small (start + i)) by lia.
    apply wp_bind, (wp_get_at m q c); [done|done|lia|].
    destruct (lookup_lt_is_Some_2 (contents c) (Z.to_nat (start + i))) as [x Hx]; [unfold total in Ht; lia|].
    assert (Hi2 : (Z.to_nat i < length s2)%nat).
    { rewrite Es, length_take, length_drop in Hl. clear -Hl. lia. }
    destruct (lookup_lt_is_Some_2 s2 (Z.to_nat i) Hi2) as [y Hy].
    rewrite (drop_S _ _ _ Hx) in Ebs. rewrite (drop_S _ _ _ Hy) in Es. simpl in Ebs, Es.
    rewrite Hx, (nth_lookup_Some _ _ _ _ Hy). simpl. destruct (Z.eqb_spec x y) as [->|Hne].
    + eapply wp_mono; [apply (IH (i + 1) (tail bs) (tail s)); try done; try lia|].
      * rewrite Ebs. simpl. do 2 f_equal. lia.
      * rewrite Es. simpl. do 2 f_equal. lia.
      * rewrite Es in Hl |- *. simpl in *. lia.
      * intros r m' (-> & Hr & E). split_and!; [done|lia|lia|]. rewrite E, Ebs, Es. simpl. split; [intros ->; done|by intros [= ?]].
    + apply wp_ret. rewrite u16_small by lia. split_and!; [done|lia|lia|]. rewrite Ebs, Es.
      split; [lia|]. by intros [= E].
Qed.

Lemma occurs_drop l c c1 c2 offset o :
  c = c1 ++ c2 -> offset = total c1 + o -> 0 <= o -> occurs l c offset <-> occurs l c2 o.
Proof.
  intros -> -> Ho. unfold occurs, total. rewrite contents_app, drop_app_ge by lia.
  by replace (Z.to_nat (Z.of_nat (length (contents c1)) + o) - length (contents c1))%nat with (Z.to_nat o) by lia.
Qed.

(** [pbuf_memcmp] is zero exactly when the bytes occur at the offset. *)
Lemma wp_memcmp m p c offset l (Q : Z -> mem -> Prop) :
  packet m (Some p) c -> Forall byte (contents c) -> 0 <= offset -> offset + Z.of_nat (length l) <= total c ->
  (0 < length l)%nat ->
  (forall r, 0 <= r < 65536 -> r = 0 <-> occurs l c offset -> Q r m) ->
  wp (pbuf_memcmp p offset l (Z.of_nat (length l))) Q m.
Proof.
  intros Hp Hb Ho Hl Hpos HQ. pose proof Hp as [Hc Ht _ _ Hbd]. unfold pbuf_memcmp.
  assert (Hfirst : exists nd c', c = nd :: c' /\ p = n_loc nd /\ pbufs m !! p = Some (n_buf nd) /\ tot_len (n_buf nd) = total c).
  { destruct c as [|nd c']; [done|]. destruct Hc as (E & Hln & _ & _). injection E as ->.
    destruct Ht as [Et _]. eauto 10. }
  destruct Hfirst as (nd & c' & Ec & Ep & Hln & Et). apply wp_bind, (wp_getp _ (n_buf nd)); [done|].
  rewrite Et, (proj2 (Z.ltb_ge _ _)) by lia. apply wp_bind.
  destruct (skip_spec_inv m c (Some p) offset Hc Ho) as (c1 & E1 & H1 & H2 & H3 & H4).
  eapply wp_of_run; [apply (skip_run m (Some p) c); [done|lia]|].
  destruct (skip_spec c offset) as [c2 o]. simpl in *. rewrite (proj2 (Z.ltb_ge _ _)), Nat2Z.id by lia.
  assert (Htot : total c = total c1 + total c2) by (rewrite E1 at 1; apply total_app).
  eapply wp_mono; [apply (memcmp_loop_run m (first_loc c2) c2 o l (length l) 0 (take (length l) (drop (Z.to_nat o) (contents c2))) l)|].
  - by eapply packet_suffix.
  - rewrite E1, contents_app in Hb. by apply Forall_app in Hb as [_ Hb].
  - done.
  - lia.
  - lia.
  - by rewrite Z.add_0_r.
  - by rewrite drop_0, firstn_all.
  - done.
  - intros r m' (-> & Hr & E). apply HQ; [done|]. rewrite E. symmetry. by eapply occurs_drop.
Qed.

Lemma memfind_loop_run m p c l k : forall i,
  packet m (Some p) c -> Forall byte (contents c) -> 0 <= i -> (0 < length l)%nat ->
  i + Z.of_nat k = total c - Z.of_nat (length l) + 1 ->
  wp (memfind_loop k p i l (Z.of_nat (length l))) (fun r m' => m' = m /\
    ((r = 0xFFFF /\ forall j, i <= j < i + Z.of_nat k -> ~ occurs l c j) \/
     (i <= r < i + Z.of_nat k /\ occurs l c r /\ forall j, i <= j < r -> ~ occurs l c j))) m.
Proof.
  induction k as [|k IH]; intros i Hp Hb Hi Hpos Hk.
  - apply wp_ret. split; [done|]. left. split; [done|lia].
  - cbn [memfind_loop]. apply wp_bind, (wp_memcmp m p c); [done|done|lia|lia|done|]. intros r _ Hr.
    destruct (Z.eqb_spec r 0) as [E|E].
    + apply wp_ret. split; [done|]. right. split; [lia|]. split; [by apply Hr|lia].
    + eapply wp_mono; [apply (IH (i + 1)); try done; lia|].
      assert (Hni : ~ occurs l c i) by (by rewrite <- Hr).
      intros x m' (-> & [[-> Hx]|(Hx & Hox & Hx')]); (split; [done|]); [left|right].
      * split; [done|]. intros j Hj. destruct (decide (j = i)) as [->|]; [done|]. apply Hx. lia.
      * split_and!; [lia|lia|done|]. intros j Hj. destruct (decide (j = i)) as [->|]; [done|]. apply Hx'. lia.
Qed.

(** Searching.  [pbuf_memfind] returns the first offset at or after
    [start] where the whole pattern lies in the packet, wherever the pbuf
    boundaries fall, and 0xFFFF when there is none; nothing changes. *)
Theorem pbuf_memfind_finds m p c l start :
  packet m (Some p) c -> Forall byte (contents c) -> 0 < Z.of_nat (length l) < 65536 -> 0 <= start < 65536 ->
  let fits j := start <= j /\ j + Z.of_nat (length l) <= total c in
  exists r, pbuf_memfind p l (Z.of_nat (length l)) start m = Ret r m /\
    ((r = 0xFFFF /\ forall j, fits j -> ~ occurs l c j) \/
     (fits r /\ occurs l c r /\ forall j, start <= j < r -> ~ occurs l c j)).
Proof.
  intros Hp Hb Hl Hs fits. pose proof (pk_bound _ _ _ Hp). pose proof Hp as [Hc Ht _ _ _].
  assert (W : wp (pbuf_memfind p l (Z.of_nat (length l)) start) (fun r m' => m' = m /\
    ((r = 0xFFFF /\ forall j, fits j -> ~ occurs l c j) \/
     (fits r /\ occurs l c r /\ forall j, start <= j < r -> ~ occurs l c j))) m).
  { unfold pbuf_memfind. destruct c as [|nd c]; [done|]. pose proof Hc as Hc'. destruct Hc' as (E & Hln & _ & _).
    injection E as ->. destruct Ht as [Et _]. apply wp_bind, (wp_getp _ (n_buf nd)); [done|]. rewrite Et.
    destruct (Z.leb_spec (Z.of_nat (length l) + start) (total (nd :: c))).
    - rewrite u16_small by lia. set (k := Z.to_nat _).
      assert (Ek : Z.of_nat k = total (nd :: c) - Z.of_nat (length l) - start + 1) by lia.
      eapply wp_mono; [apply (memfind_loop_run m (n_loc nd) (nd :: c) l k start); try done; lia|].
      unfold fits. intros r m' (-> & [[-> Hx]|(Hx & Hox & Hx')]); (split; [done|]); [left|right].
      + split; [done|]. intros j Hj. apply Hx. lia.
      + split_and!; [lia|lia|done|done].
    - apply wp_ret. split; [done|]. left. split; [done|]. unfold fits. lia. }
  destruct (wp_elim _ _ _ W) as (r & m' & E & -> & Hr). by exists r.
Qed.
End Search.
