(* ===== verification/PbufExamples.v ===== *)
(** Packet buffers: a concrete memory, and the theorems at work on it. *)
From stdpp Require Import functions.
From S2P Require Import Prelude Memp Pbuf PbufFacts PbufUpdate PbufAlloc PbufChain PbufRealloc.

(** A heap that only grows. *)
#[local] Instance bump_heap : HeapOps := {|
  hstate := Z;
  heap_malloc size top := (Some (top, replicate (Z.to_nat size) 0), top + size);
  heap_free _ top := top;
  heap_trim _ _ top := top
|}.

#[local] Instance no_custom : CustomFree := fun _ => mret tt.

Abbreviation elem i := (Pool MEMP_PBUF_POOL i).

Definition ex_buf (n : option loc) (l : loc) (off tot ln : Z) : pbuf :=
  Pbuf n (Some (l, off)) tot ln (u8 (pbuf_type_value PBUF_POOL)) 0 1 NETIF_NO_INDEX.

(** A packet of five bytes in two pbufs, and one of two bytes in one. *)
Definition ex_n1 : node := Node (elem 0) (ex_buf (Some (elem 1)) (elem 0) 2 5 3) [10; 11; 12].
Definition ex_n2 : node := Node (elem 1) (ex_buf None (elem 1) 0 2 2) [13; 14].
Definition ex_n3 : node := Node (elem 2) (ex_buf None (elem 2) 1 2 2) [20; 21].

Definition ex_mem : mem :=
  Mem _ (memp_init (fun _ => [])) 0
    {[ elem 0 := n_buf ex_n1; elem 1 := n_buf ex_n2; elem 2 := n_buf ex_n3 ]}
    {[ elem 0 := [1; 2; 10; 11; 12]; elem 1 := [13; 14; 3; 4]; elem 2 := [5; 20; 21] ]} false ∅.

Lemma ex_packet : packet ex_mem (Some (elem 0)) [ex_n1; ex_n2].
Proof.
  split; [|done|by apply (bool_decide_unpack _); vm_compute|by apply (bool_decide_unpack _); vm_compute|done].
  repeat split; eexists; repeat split; try reflexivity; simpl; lia.
Qed.

Lemma ex_packet3 : packet ex_mem (Some (elem 2)) [ex_n3].
Proof.
  split; [|done|by apply (bool_decide_unpack _); vm_compute|by apply (bool_decide_unpack _); vm_compute|done].
  repeat split; eexists; repeat split; try reflexivity; simpl; lia.
Qed.

Lemma ex_bytes : Forall byte (contents [ex_n1; ex_n2]).
Proof. repeat constructor; done. Qed.

Lemma pbuf_copy_partial_reads_witness :
  pbuf_copy_partial (Some (elem 0)) 3 1 ex_mem = Ret ([11; 12; 13], 3) ex_mem.
Proof. exact (pbuf_copy_partial_reads ex_mem _ _ 3 1 ex_packet ltac:(lia) ltac:(lia)). Defined.

Lemma pbuf_get_at_reads_witness :
  pbuf_try_get_at (Some (elem 0)) 4 ex_mem = Ret 14 ex_mem /\
  pbuf_get_at (Some (elem 0)) 4 ex_mem = Ret 14 ex_mem.
Proof. exact (pbuf_get_at_reads ex_mem _ _ 4 ex_packet ex_bytes ltac:(lia)). Defined.

Lemma pbuf_take_stores_witness :
  exists m' c', pbuf_take (Some (elem 0)) (Some [1; 2; 3; 4]) 4 ex_mem = Ret ERR_OK m' /\
    only_bytes [elem 0; elem 1] ex_mem m' /\ packet m' (Some (elem 0)) c' /\ same_shape [ex_n1; ex_n2] c' /\
    contents c' = [1; 2; 3; 4; 14].
Proof.
  exact (proj1 (pbuf_take_stores ex_mem _ _ [1; 2; 3; 4] 4 ex_packet ltac:(simpl; lia)) ltac:(vm_compute; congruence)).
Defined.

Lemma pbuf_take_copy_partial_witness :
  exists m', pbuf_take (Some (elem 0)) (Some [1; 2; 3; 4]) 4 ex_mem = Ret ERR_OK m' /\
    pbuf_copy_partial (Some (elem 0)) 4 0 m' = Ret ([1; 2; 3; 4], 4) m'.
Proof.
  exact (pbuf_take_copy_partial ex_mem _ _ [1; 2; 3; 4] ex_packet ltac:(vm_compute; congruence)).
Defined.

Lemma ex_releasable : Forall releasable [ex_n1; ex_n2].
Proof. repeat constructor; simpl; done || lia. Qed.

Lemma pbuf_free_releases_witness :
  pbuf_free (Some (elem 0)) ex_mem = Ret 2 (free_all [ex_n1; ex_n2] ex_mem).
Proof.
  refine (proj1 (pbuf_free_releases ex_mem _ [ex_n1; ex_n2] (pk_chain _ _ _ ex_packet) (pk_locs _ _ _ ex_packet)
    ltac:(simpl; lia) _)).
  eapply Forall_impl; [exact ex_releasable|]. by intros n (? & ? & _).
Defined.

(** The memory at start-up: nothing allocated, an area for each pool element. *)
Definition fresh_mem : mem :=
  Mem _ (memp_init (fun _ => [])) 0 ∅
    (list_to_map ((fun i => (elem i, replicate 592 0)) <$> seq 0 16)) false ∅.

Lemma fresh_ready : pool_ready fresh_mem.
Proof.
  split.
  - assert (E : mpools fresh_mem MEMP_PBUF_POOL ≡ₚ seq 0 16).
    { pose proof (pool_ok_init MEMP_PBUF_POOL (fun _ => [])) as P. unfold pool_ok in P. by rewrite app_nil_r in P. }
    rewrite E. apply NoDup_seq.
  - intros i _. apply lookup_empty.
  - intros i Hi. exists (replicate 592 0). split; [|done].
    assert (Hi' : i ∈ seq 0 16).
    { pose proof (pool_ok_init MEMP_PBUF_POOL (fun _ => [])) as P. unfold pool_ok in P. rewrite app_nil_r in P.
      by rewrite <- P. }
    apply elem_of_seq in Hi' as [_ Hi'].
    do 16 (destruct i as [|i]; [reflexivity|]). lia.
Qed.

Lemma pbuf_alloc_pool_witness :
  exists r m', pbuf_alloc PBUF_RAW 1000 PBUF_POOL fresh_mem = Ret r m' /\
    match r with
    | Some p => exists c, allocated fresh_mem m' 1000 p c
    | None => alloc_failed fresh_mem m'
    end.
Proof. exact (pbuf_alloc_pool fresh_mem PBUF_RAW 1000 fresh_ready ltac:(lia)). Defined.

Lemma pbuf_cat_joins_witness :
  exists m' c1', pbuf_cat (Some (elem 0)) (Some (elem 2)) ex_mem = Ret tt m' /\
    packet m' (Some (elem 0)) (c1' ++ [ex_n3]) /\ map n_loc c1' = [elem 0; elem 1] /\
    contents (c1' ++ [ex_n3]) = [10; 11; 12; 13; 14; 20; 21] /\ only_pbufs [elem 0; elem 1] ex_mem m'.
Proof.
  refine (pbuf_cat_joins ex_mem (elem 0) [ex_n1; ex_n2] (elem 2) [ex_n3] ex_packet ex_packet3 _ _ _);
    [by apply (bool_decide_unpack _); vm_compute|by apply (bool_decide_unpack _); vm_compute|done].
Defined.

Lemma pbuf_chain_dechain_witness :
  (pbuf_chain (Some (elem 2)) (Some (elem 0));; pbuf_dechain (elem 2)) ex_mem = Ret (Some (elem 0)) ex_mem.
Proof.
  refine (pbuf_chain_dechain ex_mem ex_n3 (elem 0) (n_buf ex_n1) _ _ _ _ _ _ _ _ _); done || (simpl; lia).
Defined.

Lemma pbuf_add_remove_header_witness :
  exists m' nd' hdr, pbuf_add_header (Some (elem 0)) 2 ex_mem = Ret 0 m' /\
    packet m' (Some (elem 0)) (nd' :: [ex_n2]) /\ Z.of_nat (length hdr) = 2 /\
    contents (nd' :: [ex_n2]) = hdr ++ [10; 11; 12; 13; 14] /\
    pbuf_remove_header (Some (elem 0)) 2 m' = Ret 0 ex_mem.
Proof.
  exact (proj1 (pbuf_add_remove_header ex_mem ex_n1 [ex_n2] 2 2 ex_packet eq_refl eq_refl ltac:(lia)
    ltac:(vm_compute; reflexivity)) ltac:(lia)).
Defined.

Lemma pbuf_remove_header_drops_witness :
  exists m' nd', pbuf_remove_header (Some (elem 0)) 2 ex_mem = Ret 0 m' /\ only_pbufs [elem 0] ex_mem m' /\
     packet m' (Some (elem 0)) (nd' :: [ex_n2]) /\ contents (nd' :: [ex_n2]) = [12; 13; 14].
Proof. exact (pbuf_remove_header_drops ex_mem ex_n1 [ex_n2] 2 ex_packet ltac:(lia)). Defined.

Lemma pbuf_realloc_truncates_witness :
  exists m' c', pbuf_realloc (elem 0) 2 ex_mem = Ret tt m' /\ packet m' (Some (elem 0)) c' /\
    contents c' = [10; 11] /\ map n_loc c' = take (length c') [elem 0; elem 1] /\
    (forall l, l ∉ [elem 0; elem 1] -> pbufs m' !! l = pbufs ex_mem !! l) /\
    (forall n, n ∈ released (drop (length c') [ex_n1; ex_n2]) -> pbufs m' !! n_loc n = None).
Proof.
  exact (pbuf_realloc_truncates ex_mem _ _ 2 ex_packet ltac:(vm_compute; split; congruence) ex_releasable).
Defined.

Lemma pbuf_memfind_finds_witness :
  exists r, pbuf_memfind (elem 0) [12; 13] 2 0 ex_mem = Ret r ex_mem /\
    ((r = 0xFFFF /\ forall j, 0 <= j /\ j + 2 <= 5 -> ~ occurs [12; 13] [ex_n1; ex_n2] j) \/
     ((0 <= r /\ r + 2 <= 5) /\ occurs [12; 13] [ex_n1; ex_n2] r /\
      forall j, 0 <= j < r -> ~ occurs [12; 13] [ex_n1; ex_n2] j)).
Proof.
  exact (pbuf_memfind_finds ex_mem _ _ [12; 13] 0 ex_packet ex_bytes ltac:(simpl; lia) ltac:(lia)).
Defined.
