(* ===== verification/Heap.v ===== *)
(** lwIP's heap: [src/lwip-2.2.1/src/core/mem.c].

    The heap is the array [ram] of bytes; its blocks are headed by [struct mem]
    (two 16-bit offsets and a byte) that lie in the array itself, between the
    clients' data.  A pointer is an offset from [ram], which is aligned;
    [mem_size_t] is [u16_t], MEM_SIZE being below 64000.  There is one context
    ([NO_SYS]): the mutex and the re-scans of
    [LWIP_ALLOW_MEM_FREE_FROM_OTHER_CONTEXT] are empty, and so are the
    statistics, the sanity checks and the assertions of this configuration. *)
From S2P Require Import Prelude Memp Pbuf.

Definition MEM_SIZE : Z := 1600.
Definition MIN_SIZE : Z := 12.
Definition MIN_SIZE_ALIGNED : Z := LWIP_MEM_ALIGN_SIZE MIN_SIZE.
(** [struct mem]: [next], [prev] and [used], padded to the alignment. *)
Definition SIZEOF_STRUCT_MEM : Z := LWIP_MEM_ALIGN_SIZE 6.
Definition MEM_SIZE_ALIGNED : Z := LWIP_MEM_ALIGN_SIZE MEM_SIZE.

(** [static u8_t *ram] with the bytes behind it; [static struct mem *lfree]. *)
Record heap_state : Type := HeapState { ram : list Z; lfree : Z }.

Definition set_ram (x : list Z) (h : heap_state) : heap_state := HeapState x (lfree h).
Definition set_lfree_to (x : Z) (h : heap_state) : heap_state := HeapState (ram h) x.

(** [LWIP_DECLARE_MEMORY_ALIGNED(ram_heap, ...)]: the bytes from [ram] on. *)
Definition ram_heap_size : Z := MEM_SIZE_ALIGNED + 2 * SIZEOF_STRUCT_MEM.

(** ** Bytes and words of the array *)

Definition rd8 (r : list Z) (a : Z) : Z := default 0 (r !! Z.to_nat a).
Definition rd16 (r : list Z) (a : Z) : Z := rd8 r a + 256 * rd8 r (a + 1).
Definition wr8 (r : list Z) (a v : Z) : list Z := <[Z.to_nat a := u8 v]> r.
Definition wr16 (r : list Z) (a v : Z) : list Z := wr8 (wr8 r a v) (a + 1) (Z.shiftr v 8).

Definition in_ram (a n : Z) : M heap_state unit :=
  r ← gets ram; if (0 <=? a) && (a + n <=? Z.of_nat (length r)) then mret tt else halt OutOfBounds.

Definition ram_load8 (a : Z) : M heap_state Z := in_ram a 1;; gets (fun h => rd8 (ram h) a).
Definition ram_load16 (a : Z) : M heap_state Z := in_ram a 2;; gets (fun h => rd16 (ram h) a).
Definition ram_store8 (a v : Z) : M heap_state unit := in_ram a 1;; modify (fun h => set_ram (wr8 (ram h) a v) h).
Definition ram_store16 (a v : Z) : M heap_state unit := in_ram a 2;; modify (fun h => set_ram (wr16 (ram h) a v) h).

(** [mem->next], [mem->prev], [mem->used], as values and as places. *)
Definition mem_next (mem : Z) : M heap_state Z := ram_load16 mem.
Definition mem_prev (mem : Z) : M heap_state Z := ram_load16 (mem + 2).
Definition mem_used (mem : Z) : M heap_state Z := ram_load8 (mem + 4).
Definition set_mem_next (mem v : Z) : M heap_state unit := ram_store16 mem v.
Definition set_mem_prev (mem v : Z) : M heap_state unit := ram_store16 (mem + 2) v.
Definition set_mem_used (mem v : Z) : M heap_state unit := ram_store8 (mem + 4) v.
Definition set_lfree (mem : Z) : M heap_state unit := modify (set_lfree_to mem).

Definition ptr_to_mem (ptr : Z) : Z := ptr.
Definition mem_to_ptr (mem : Z) : Z := u16 mem.
(** [static struct mem *ram_end], set once. *)
Definition ram_end : Z := ptr_to_mem MEM_SIZE_ALIGNED.

(** ** The functions of mem.c *)

Definition plug_forward (mem : Z) : M heap_state unit :=
  mnext ← mem_next mem;
  let nmem := ptr_to_mem mnext in
  nused ← mem_used nmem;
  when (negb (mem =? nmem) && (nused =? 0) && negb (nmem =? ram_end))
    (lf ← gets lfree;
     when (lf =? nmem) (set_lfree mem);;
     nnext ← mem_next nmem;
     set_mem_next mem nnext;;
     when (negb (nnext =? MEM_SIZE_ALIGNED)) (set_mem_prev (ptr_to_mem nnext) (mem_to_ptr mem))).

Definition plug_backward (mem : Z) : M heap_state unit :=
  mprev ← mem_prev mem;
  let pmem := ptr_to_mem mprev in
  pused ← mem_used pmem;
  when (negb (pmem =? mem) && (pused =? 0))
    (lf ← gets lfree;
     when (lf =? mem) (set_lfree pmem);;
     mnext ← mem_next mem;
     set_mem_next pmem mnext;;
     when (negb (mnext =? MEM_SIZE_ALIGNED)) (set_mem_prev (ptr_to_mem mnext) (mem_to_ptr pmem))).

Definition plug_holes (mem : Z) : M heap_state unit := plug_forward mem;; plug_backward mem.

Definition mem_init : M heap_state unit :=
  set_mem_next 0 MEM_SIZE_ALIGNED;;
  set_mem_prev 0 0;;
  set_mem_used 0 0;;
  set_mem_used ram_end 1;;
  set_mem_next ram_end MEM_SIZE_ALIGNED;;
  set_mem_prev ram_end MEM_SIZE_ALIGNED;;
  set_lfree 0.

Definition mem_link_valid (mem : Z) : M heap_state bool :=
  let rmem_idx := mem_to_ptr mem in
  mnext ← mem_next mem;
  mprev ← mem_prev mem;
  let nmem := ptr_to_mem mnext in
  let pmem := ptr_to_mem mprev in
  if (MEM_SIZE_ALIGNED <? mnext) || (MEM_SIZE_ALIGNED <? mprev) then mret false
  else
    pnext ← (if negb (mprev =? rmem_idx) then mem_next pmem else mret rmem_idx);
    if negb (pnext =? rmem_idx) then mret false
    else
      nprev ← (if negb (nmem =? ram_end) then mem_prev nmem else mret rmem_idx);
      mret (nprev =? rmem_idx).

(** [rmem] is NULL or an offset from [ram]. *)
Definition mem_free (rmem : option Z) : M heap_state unit :=
  match rmem with
  | None => mret tt
  | Some rmem =>
    if negb (Z.land rmem (MEM_ALIGNMENT - 1) =? 0) then mret tt
    else
      let mem := rmem - SIZEOF_STRUCT_MEM in
      if (mem <? 0) || (ram_end <? rmem + MIN_SIZE_ALIGNED) then mret tt
      else
        used ← mem_used mem;
        if used =? 0 then mret tt
        else
          valid ← mem_link_valid mem;
          if negb valid then mret tt
          else
            set_mem_used mem 0;;
            lf ← gets lfree;
            when (mem <? lf) (set_lfree mem);;
            plug_holes mem
  end.

(** The size of a block for a request, [newsize] of [mem_trim] and [size] of
    [mem_malloc]. *)
Definition block_size (size_in : Z) : Z :=
  let size := u16 (LWIP_MEM_ALIGN_SIZE size_in) in
  if size <? MIN_SIZE_ALIGNED then MIN_SIZE_ALIGNED else size.

(** The next block is free: its header moves down. *)
Definition trim_move (mem ptr mem2 newsize : Z) : M heap_state unit :=
  next ← mem_next mem2;
  let ptr2 := u16 (ptr + SIZEOF_STRUCT_MEM + newsize) in
  lf ← gets lfree;
  when (lf =? mem2) (set_lfree (ptr_to_mem ptr2));;
  let mem2 := ptr_to_mem ptr2 in
  set_mem_used mem2 0;;
  set_mem_next mem2 next;;
  set_mem_prev mem2 ptr;;
  set_mem_next mem ptr2;;
  when (negb (next =? MEM_SIZE_ALIGNED)) (set_mem_prev (ptr_to_mem next) ptr2).

(** The next block is used: a free block is made of what is cut off. *)
Definition trim_split (mem ptr newsize : Z) : M heap_state unit :=
  let ptr2 := u16 (ptr + SIZEOF_STRUCT_MEM + newsize) in
  let mem2 := ptr_to_mem ptr2 in
  lf ← gets lfree;
  when (mem2 <? lf) (set_lfree mem2);;
  set_mem_used mem2 0;;
  next ← mem_next mem;
  set_mem_next mem2 next;;
  set_mem_prev mem2 ptr;;
  set_mem_next mem ptr2;;
  when (negb (next =? MEM_SIZE_ALIGNED)) (set_mem_prev (ptr_to_mem next) ptr2).

Definition mem_trim (rmem new_size : Z) : M heap_state (option Z) :=
  let newsize := block_size new_size in
  if (MEM_SIZE_ALIGNED <? newsize) || (newsize <? new_size) then mret None
  else if (rmem <? 0) || (ram_end <=? rmem) then mret (Some rmem)
  else
    let mem := rmem - SIZEOF_STRUCT_MEM in
    let ptr := mem_to_ptr mem in
    mnext ← mem_next mem;
    let size := u16 (u16 (mnext - ptr) - SIZEOF_STRUCT_MEM) in
    if size <? newsize then mret None
    else if newsize =? size then mret (Some rmem)
    else
      let mem2 := ptr_to_mem mnext in
      used2 ← mem_used mem2;
      (if used2 =? 0 then trim_move mem ptr mem2 newsize
       else when (newsize + SIZEOF_STRUCT_MEM + MIN_SIZE_ALIGNED <=? size) (trim_split mem ptr newsize));;
      mret (Some rmem).

(** [mem->next - (ptr + SIZEOF_STRUCT_MEM)], in 32 bits. *)
Definition room (mnext ptr : Z) : Z := u32 (mnext - (ptr + SIZEOF_STRUCT_MEM)).

(** What becomes of the block found for a request. *)
Definition malloc_take (mem ptr size : Z) : M heap_state unit :=
  mnext ← mem_next mem;
  if size + SIZEOF_STRUCT_MEM + MIN_SIZE_ALIGNED <=? room mnext ptr then
    let ptr2 := u16 (ptr + SIZEOF_STRUCT_MEM + size) in
    let mem2 := ptr_to_mem ptr2 in
    set_mem_used mem2 0;;
    set_mem_next mem2 mnext;;
    set_mem_prev mem2 ptr;;
    set_mem_next mem ptr2;;
    set_mem_used mem 1;;
    when (negb (mnext =? MEM_SIZE_ALIGNED)) (set_mem_prev (ptr_to_mem mnext) ptr2)
  else set_mem_used mem 1.

(** [while (cur->used && cur != ram_end) cur = ptr_to_mem(cur->next);] *)
Definition lfree_body (cur : Z) : M heap_state (Z + Z) :=
  used ← mem_used cur;
  if negb (used =? 0) && negb (cur =? ram_end) then cnext ← mem_next cur; mret (inl (ptr_to_mem cnext))
  else mret (inr cur).

Definition malloc_adjust_lfree (fuel : nat) (mem : Z) : M heap_state unit :=
  lf ← gets lfree;
  when (mem =? lf) (cur ← iter fuel lfree_body lf; set_lfree cur).

Definition malloc_body (fuel : nat) (size ptr : Z) : M heap_state (Z + option Z) :=
  if negb (ptr <? MEM_SIZE_ALIGNED - size) then mret (inr None)
  else
    let mem := ptr_to_mem ptr in
    used ← mem_used mem;
    mnext ← mem_next mem;
    if (used =? 0) && (size <=? room mnext ptr) then
      malloc_take mem ptr size;;
      malloc_adjust_lfree fuel mem;;
      mret (inr (Some (mem + SIZEOF_STRUCT_MEM)))
    else mret (inl mnext).

(** How often the scans can go round in a heap that is linked as it should be:
    a block takes [SIZEOF_STRUCT_MEM + MIN_SIZE_ALIGNED] bytes at least. *)
Definition heap_fuel : nat := Z.to_nat (MEM_SIZE_ALIGNED / (SIZEOF_STRUCT_MEM + MIN_SIZE_ALIGNED) + 2).

Definition mem_malloc (size_in : Z) : M heap_state (option Z) :=
  if size_in =? 0 then mret None
  else
    let size := block_size size_in in
    if (MEM_SIZE_ALIGNED <? size) || (size <? size_in) then mret None
    else
      lf ← gets lfree;
      iter heap_fuel (malloc_body heap_fuel size) (mem_to_ptr lf).

Definition mem_calloc (count size : Z) : M heap_state (option Z) :=
  let alloc_size := u32 (count * size) in
  if negb (u16 alloc_size =? alloc_size) then mret None
  else
    p ← mem_malloc (u16 alloc_size);
    match p with
    | None => mret None
    | Some p =>
      for_each (seqZ 0 alloc_size) (fun i => ram_store8 (p + i) 0);;
      mret (Some p)
    end.
