(* ===== verification/HeapFacts.v ===== *)
(** The heap of mem.c refines a store of objects: the blocks tile the array,
    no two free blocks are neighbours, and what a client has in one block is
    not touched by what happens to the others. *)
From S2P Require Import Prelude Memp Pbuf Heap.

(** ** The array *)

Lemma rd8_wr8_same r a v : 0 <= a < Z.of_nat (length r) -> rd8 (wr8 r a v) a = u8 v.
Proof. intros Ha. unfold rd8, wr8. rewrite list_lookup_insert_eq by lia. done. Qed.

Lemma rd8_wr8_other r a v b : 0 <= a -> 0 <= b -> a <> b -> rd8 (wr8 r a v) b = rd8 r b.
Proof. intros Ha Hb Hn. unfold rd8, wr8. rewrite list_lookup_insert_ne by lia. done. Qed.

Lemma wr8_length r a v : length (wr8 r a v) = length r.
Proof. apply length_insert. Qed.

Lemma wr16_length r a v : length (wr16 r a v) = length r.
Proof. unfold wr16. by rewrite !wr8_length. Qed.

Lemma rd8_wr16_other r a v b : 0 <= a -> 0 <= b -> b < a \/ a + 2 <= b -> rd8 (wr16 r a v) b = rd8 r b.
Proof. intros Ha Hb Hn. unfold wr16. rewrite !rd8_wr8_other by lia. done. Qed.

Lemma rd16_wr8_other r a v b : 0 <= a -> 0 <= b -> b + 2 <= a \/ a + 1 <= b -> rd16 (wr8 r a v) b = rd16 r b.
Proof. intros Ha Hb Hn. unfold rd16. rewrite !rd8_wr8_other by lia. done. Qed.

Lemma rd16_wr16_other r a v b : 0 <= a -> 0 <= b -> b + 2 <= a \/ a + 2 <= b -> rd16 (wr16 r a v) b = rd16 r b.
Proof. intros Ha Hb Hn. unfold wr16. rewrite !rd16_wr8_other by lia. done. Qed.

Lemma rd16_wr16_same r a v : 0 <= a -> a + 2 <= Z.of_nat (length r) -> 0 <= v < 65536 -> rd16 (wr16 r a v) a = v.
Proof.
  intros Ha Hl Hv. unfold rd16, wr16.
  rewrite rd8_wr8_other by lia. rewrite rd8_wr8_same by lia.
  rewrite rd8_wr8_same by (rewrite wr8_length; lia).
  unfold u8. rewrite Z.shiftr_div_pow2 by lia. change (2 ^ 8) with 256.
  rewrite (Z.mod_small (v / 256)) by (split; [apply Z.div_pos; lia|apply Z.div_lt_upper_bound; lia]).
  pose proof (Z.div_mod v 256). lia.
Qed.

Create Rewrite HintDb ram.
#[export] Hint Rewrite wr8_length wr16_length : ram.

(** Reads of what was written, and of what was not. *)
Ltac ram_step :=
  first [ rewrite rd16_wr16_same by (autorewrite with ram; lia)
        | rewrite rd8_wr8_same by (autorewrite with ram; lia)
        | rewrite rd16_wr16_other by lia
        | rewrite rd16_wr8_other by lia
        | rewrite rd8_wr16_other by lia
        | rewrite rd8_wr8_other by lia ].
Ltac ram := repeat ram_step.

(** ** The configuration's numbers *)
Lemma MEM_SIZE_ALIGNED_eq : MEM_SIZE_ALIGNED = 1600. Proof. done. Qed.
Lemma ram_end_eq : ram_end = 1600. Proof. done. Qed.
Lemma SIZEOF_STRUCT_MEM_eq : SIZEOF_STRUCT_MEM = 8. Proof. done. Qed.
Lemma MIN_SIZE_ALIGNED_eq : MIN_SIZE_ALIGNED = 12. Proof. done. Qed.
Ltac heap_consts :=
  rewrite ?MEM_SIZE_ALIGNED_eq, ?ram_end_eq, ?SIZEOF_STRUCT_MEM_eq, ?MIN_SIZE_ALIGNED_eq in *.

(** ** Rules for the accesses *)
Section Access.
Implicit Types h : heap_state.

Lemma wp_in_ram a n (Q : unit -> heap_state -> Prop) h :
  0 <= a -> a + n <= Z.of_nat (length (ram h)) -> Q tt h -> wp (in_ram a n) Q h.
Proof.
  intros Ha Hl HQ. unfold in_ram. apply wp_bind, wp_gets.
  by rewrite (proj2 (Z.leb_le 0 a)), (proj2 (Z.leb_le _ _) Hl).
Qed.

Lemma wp_load8 a (Q : Z -> heap_state -> Prop) h :
  0 <= a -> a + 1 <= Z.of_nat (length (ram h)) -> Q (rd8 (ram h) a) h -> wp (ram_load8 a) Q h.
Proof. intros. by apply wp_bind, wp_in_ram, wp_gets. Qed.

Lemma wp_load16 a (Q : Z -> heap_state -> Prop) h :
  0 <= a -> a + 2 <= Z.of_nat (length (ram h)) -> Q (rd16 (ram h) a) h -> wp (ram_load16 a) Q h.
Proof. intros. by apply wp_bind, wp_in_ram, wp_gets. Qed.

Lemma wp_store8 a v (Q : unit -> heap_state -> Prop) h :
  0 <= a -> a + 1 <= Z.of_nat (length (ram h)) -> Q tt (set_ram (wr8 (ram h) a v) h) -> wp (ram_store8 a v) Q h.
Proof. intros. by apply wp_bind, wp_in_ram, wp_modify. Qed.

Lemma wp_store16 a v (Q : unit -> heap_state -> Prop) h :
  0 <= a -> a + 2 <= Z.of_nat (length (ram h)) -> Q tt (set_ram (wr16 (ram h) a v) h) -> wp (ram_store16 a v) Q h.
Proof. intros. by apply wp_bind, wp_in_ram, wp_modify. Qed.
End Access.

(** One step of a computation on the heap, its bounds by [lia]. *)
Ltac hbounds := cbn [ram set_ram set_lfree_to]; autorewrite with ram; lia.
Ltac hstep :=
  cbn [ram lfree set_ram set_lfree_to];
  lazymatch goal with
  | |- wp (mbind _ _) _ _ => apply wp_bind; hstep
  | |- wp (gets _) _ _ => apply wp_gets
  | |- wp (modify _) _ _ => apply wp_modify
  | |- wp (mret _) _ _ => apply wp_ret
  | |- wp (ram_load16 _) _ _ => apply wp_load16; [hbounds..|]
  | |- wp (ram_load8 _) _ _ => apply wp_load8; [hbounds..|]
  | |- wp (ram_store16 _ _) _ _ => apply wp_store16; [hbounds..|]
  | |- wp (ram_store8 _ _) _ _ => apply wp_store8; [hbounds..|]
  | |- wp (mem_next _) _ _ => unfold mem_next; hstep
  | |- wp (mem_prev _) _ _ => unfold mem_prev; hstep
  | |- wp (mem_used _) _ _ => unfold mem_used; hstep
  | |- wp (set_mem_next _ _) _ _ => unfold set_mem_next; hstep
  | |- wp (set_mem_prev _ _) _ _ => unfold set_mem_prev; hstep
  | |- wp (set_mem_used _ _) _ _ => unfold set_mem_used; hstep
  | |- wp (set_lfree _) _ _ => unfold set_lfree; hstep
  | |- wp (when false _) _ _ => apply wp_ret
  | |- wp (when true _) _ _ => apply wp_when_true; hstep
  end; cbn [ram lfree set_ram set_lfree_to].

(** ** The blocks *)

(** A block: its size with its header, and whether it is used. *)
Abbreviation block := (Z * bool)%type.

Definition span (bs : list block) : Z := foldr (fun b n => b.1 + n) 0 bs.

(** The blocks that start at [p], after one that starts at [prv]. *)
Fixpoint blocks (r : list Z) (p prv : Z) (bs : list block) : Prop :=
  match bs with
  | [] => p = MEM_SIZE_ALIGNED
  | (n, u) :: bs =>
    (20 <= n /\ n mod 4 = 0) /\
    (rd16 r p = p + n /\ rd16 r (p + 2) = prv /\ rd8 r (p + 4) = Z.b2z u) /\
    blocks r (p + n) p bs
  end.

(** The same as a segment that ends at [q], where [prv'] is the last start. *)
Fixpoint segment (r : list Z) (p prv : Z) (bs : list block) (q prv' : Z) : Prop :=
  match bs with
  | [] => p = q /\ prv = prv'
  | (n, u) :: bs =>
    (20 <= n /\ n mod 4 = 0) /\
    (rd16 r p = p + n /\ rd16 r (p + 2) = prv /\ rd8 r (p + 4) = Z.b2z u) /\
    segment r (p + n) p bs q prv'
  end.

(** No two free blocks in a row. *)
Fixpoint separate (bs : list block) : Prop :=
  match bs with
  | (_, false) :: (((_, u) :: _) as bs') => u = true /\ separate bs'
  | _ :: bs' => separate bs'
  | [] => True
  end.

Fixpoint first_free (p : Z) (bs : list block) : Z :=
  match bs with [] => p | (n, u) :: bs => if (u : bool) then first_free (p + n) bs else p end.

(** The links, the lowest free block, the end. *)
Record heap_shape (h : heap_state) (bs : list block) : Prop := HeapShape {
  ok_size : Z.of_nat (length (ram h)) = ram_heap_size;
  ok_blocks : blocks (ram h) 0 0 bs;
  ok_lfree : lfree h = first_free 0 bs;
  ok_end : rd8 (ram h) (MEM_SIZE_ALIGNED + 4) = 1
}.

Definition heap_ok (h : heap_state) (bs : list block) : Prop := heap_shape h bs /\ separate bs.

(** What the used blocks hold, by the pointer their client has. *)
Definition stored (r : list Z) (a n : Z) : list Z := rd8 r <$> seqZ a n.

Fixpoint data (r : list Z) (p : Z) (bs : list block) : gmap Z (list Z) :=
  match bs with
  | [] => ∅
  | (n, u) :: bs =>
    if (u : bool) then <[p + SIZEOF_STRUCT_MEM := stored r (p + SIZEOF_STRUCT_MEM) (n - SIZEOF_STRUCT_MEM)]>
                         (data r (p + n) bs)
    else data r (p + n) bs
  end.

Lemma span_app a b : span (a ++ b) = span a + span b.
Proof. induction a as [|[n u] a IH]; simpl in *; lia. Qed.

Lemma segment_end r bs : forall p prv q prv', segment r p prv bs q prv' -> q = p + span bs.
Proof.
  induction bs as [|[n u] bs IH]; intros p prv q prv'; simpl; [lia|].
  intros (_ & _ & Hs). apply IH in Hs. lia.
Qed.

Lemma segment_span r bs : forall p prv q prv', segment r p prv bs q prv' -> 20 * Z.of_nat (length bs) <= span bs.
Proof.
  induction bs as [|[n u] bs IH]; intros p prv q prv'; simpl; [lia|].
  intros ([? _] & _ & Hs). apply IH in Hs. lia.
Qed.

Lemma blocks_app r a b : forall p prv,
  blocks r p prv (a ++ b) <-> exists q prv', segment r p prv a q prv' /\ blocks r q prv' b.
Proof.
  induction a as [|[n u] a IH]; intros p prv; simpl.
  - split; [eauto|]. by intros (? & ? & [-> ->] & ?).
  - rewrite IH. split; [intros (? & ? & ? & ? & ? & ?)|intros (? & ? & (? & ? & ?) & ?)]; eauto 8.
Qed.

Lemma segment_app r a b : forall p prv q prv',
  segment r p prv (a ++ b) q prv' <-> exists q1 prv1, segment r p prv a q1 prv1 /\ segment r q1 prv1 b q prv'.
Proof.
  induction a as [|[n u] a IH]; intros p prv q prv'; simpl.
  - split; [eauto|]. by intros (? & ? & [-> ->] & ?).
  - rewrite IH. split; [intros (? & ? & ? & ? & ? & ?)|intros (? & ? & (? & ? & ?) & ?)]; eauto 8.
Qed.

Lemma blocks_span r bs : forall p prv, blocks r p prv bs -> p + span bs = MEM_SIZE_ALIGNED /\ 20 * Z.of_nat (length bs) <= span bs.
Proof.
  induction bs as [|[n u] bs IH]; intros p prv; simpl; [intros ->; lia|].
  intros ([? _] & _ & Hs). apply IH in Hs. lia.
Qed.

Lemma segment_frame r r' bs : forall p prv q prv',
  segment r p prv bs q prv' -> 0 <= p -> (forall b, p <= b < q -> rd8 r' b = rd8 r b) -> segment r' p prv bs q prv'.
Proof.
  induction bs as [|[n u] bs IH]; intros p prv q prv' Hs Hp Hr; [done|]. simpl in *.
  destruct Hs as ((Hn & Hm) & (H1 & H2 & H3) & Hs).
  pose proof (segment_end _ _ _ _ _ _ Hs). pose proof (segment_span _ _ _ _ _ _ Hs).
  unfold rd16 in *. rewrite !Hr by lia. repeat (split; [done|]).
  apply IH; [done|lia|]. intros b Hb. apply Hr. lia.
Qed.

Lemma blocks_frame r r' bs : forall p prv,
  blocks r p prv bs -> 0 <= p -> (forall b, p <= b < MEM_SIZE_ALIGNED -> rd8 r' b = rd8 r b) -> blocks r' p prv bs.
Proof.
  induction bs as [|[n u] bs IH]; intros p prv Hs Hp Hr; [done|]. simpl in *.
  destruct Hs as ((Hn & Hm) & (H1 & H2 & H3) & Hs).
  pose proof (blocks_span _ _ _ _ Hs). heap_consts.
  unfold rd16 in *. rewrite !Hr by lia. repeat (split; [done|]).
  apply IH; [done|lia|]. intros b Hb. apply Hr. lia.
Qed.

(** [ptr_to_mem(q)->prev = v], unless [q] is the end. *)
Definition relink (q v : Z) (r : list Z) : list Z := if q =? MEM_SIZE_ALIGNED then r else wr16 r (q + 2) v.

Lemma relink_length q v r : length (relink q v r) = length r.
Proof. unfold relink. case_match; [done|apply wr16_length]. Qed.
#[export] Hint Rewrite relink_length : ram.

Lemma relink_other q v r b : 0 <= q -> 0 <= b -> b < q + 2 \/ q + 4 <= b -> rd8 (relink q v r) b = rd8 r b.
Proof. intros. unfold relink. case_match; [done|]. by ram. Qed.

Lemma relink_blocks r q prv v bs :
  blocks r q prv bs -> 0 <= q -> Z.of_nat (length r) = ram_heap_size -> 0 <= v < 65536 -> blocks (relink q v r) q v bs.
Proof.
  intros Hs Hq Hl Hv. change ram_heap_size with 1616 in Hl. unfold relink.
  pose proof (blocks_span _ _ _ _ Hs) as Hsp. heap_consts.
  destruct bs as [|[n u] bs]; simpl in *; heap_consts.
  - by subst.
  - destruct Hs as ((Hn & Hm) & (H1 & H2 & H3) & Hs). pose proof (blocks_span _ _ _ _ Hs). heap_consts.
    rewrite (proj2 (Z.eqb_neq _ _)) by lia. split; [done|].
    split; [split_and!; ram; done|]. eapply blocks_frame; [done|lia|]. intros b Hb. by ram.
Qed.

Lemma wp_relink q v (Q : unit -> heap_state -> Prop) h :
  0 <= q -> q + 4 <= Z.of_nat (length (ram h)) -> Q tt (set_ram (relink q v (ram h)) h) ->
  wp (when (negb (q =? MEM_SIZE_ALIGNED)) (set_mem_prev (ptr_to_mem q) v)) Q h.
Proof.
  intros Hq Hl HQ. unfold relink in HQ. destruct (q =? MEM_SIZE_ALIGNED); [by destruct h|].
  cbn [negb when]. unfold set_mem_prev, ptr_to_mem. apply wp_store16; [lia..|done].
Qed.

(** ** The lowest free block *)

Lemma first_free_app a b p : first_free p (a ++ b) =
  if forallb snd a then first_free (p + span a) b else first_free p a.
Proof.
  revert p. induction a as [|[n u] a IH]; intros p; simpl; [by rewrite Z.add_0_r|].
  destruct u; simpl; [|done]. rewrite IH. by rewrite Z.add_assoc.
Qed.

Lemma span_nonneg bs : Forall (fun b => 20 <= b.1) bs -> 0 <= span bs.
Proof. induction 1 as [|[n u] bs Hn Hf IH]; simpl in *; lia. Qed.

Lemma first_free_bounds bs p : Forall (fun b => 20 <= b.1) bs -> p <= first_free p bs <= p + span bs.
Proof.
  intros Hf. revert p. induction Hf as [|[n u] bs Hn Hf IH]; intros p; simpl in *; [lia|].
  pose proof (span_nonneg _ Hf). destruct u; [specialize (IH (p + n))|]; lia.
Qed.

Lemma first_free_lt bs p : Forall (fun b => 20 <= b.1) bs -> forallb snd bs = false -> first_free p bs < p + span bs.
Proof.
  intros Hf. revert p. induction Hf as [|[n u] bs Hn Hf IH]; intros p; simpl in *; [done|].
  pose proof (span_nonneg _ Hf). destruct u; simpl; [intros Hb; specialize (IH (p + n) Hb); lia|lia].
Qed.

Lemma separate_app_used a n b : separate (a ++ (n, true) :: b) <-> separate a /\ separate b.
Proof.
  induction a as [|[m u] a IH]; simpl; [naive_solver|].
  destruct u; [naive_solver|]. destruct a as [|[k w] a]; simpl in *; [naive_solver|]. naive_solver.
Qed.

(** ** The contents of the blocks *)

Lemma stored_frame r r' a n : (forall b, a <= b < a + n -> rd8 r' b = rd8 r b) -> stored r' a n = stored r a n.
Proof. intros Hr. apply list_fmap_ext. intros i x Hx. apply lookup_seqZ in Hx. apply Hr. lia. Qed.

Lemma stored_length r a n : 0 <= n -> Z.of_nat (length (stored r a n)) = n.
Proof. intros Hn. unfold stored. rewrite length_fmap, length_seqZ. lia. Qed.

Lemma data_app r a b : forall p, data r p (a ++ b) = data r p a ∪ data r (p + span a) b.
Proof.
  induction a as [|[n u] a IH]; intros p; simpl.
  - by rewrite Z.add_0_r, (left_id_L ∅ (∪)).
  - rewrite IH, Z.add_assoc.
    destruct u; [by rewrite insert_union_l|done].
Qed.

(** A change of the first link leaves the contents alone. *)
Lemma data_frame r r' bs : forall p,
  Forall (fun b => 20 <= b.1) bs -> (forall b, p + 4 <= b < p + span bs -> rd8 r' b = rd8 r b) ->
  data r' p bs = data r p bs.
Proof.
  induction bs as [|[n u] bs IH]; intros p Hf Hr; [done|]. inversion Hf as [|? ? Hn Hf']; subst. simpl in *.
  pose proof (span_nonneg _ Hf').
  rewrite IH by (try done; intros b Hb; apply Hr; lia). destruct u; [|done].
  f_equal. apply stored_frame. heap_consts. intros b Hb. apply Hr. lia.
Qed.

Lemma data_bound r bs : forall p x c,
  Forall (fun b => 20 <= b.1) bs -> data r p bs !! x = Some c ->
  p + SIZEOF_STRUCT_MEM <= x /\ x + Z.of_nat (length c) <= p + span bs /\ MIN_SIZE_ALIGNED <= Z.of_nat (length c).
Proof.
  induction bs as [|[n u] bs IH]; intros p x c Hf; simpl; [by rewrite lookup_empty|].
  inversion Hf as [|? ? Hn Hf']; subst. simpl in Hn. heap_consts.
  pose proof (span_nonneg _ Hf').
  destruct u; [rewrite lookup_insert_Some; intros [[<- <-]|[_ Hx]]|intros Hx].
  - rewrite stored_length by lia. lia.
  - apply IH in Hx; [lia|done].
  - apply IH in Hx; [lia|done].
Qed.

Lemma data_out r bs p x :
  Forall (fun b => 20 <= b.1) bs -> x < p + SIZEOF_STRUCT_MEM \/ p + span bs <= x -> data r p bs !! x = None.
Proof.
  intros Hf Hx. destruct (data r p bs !! x) as [c|] eqn:E; [|done].
  apply data_bound in E; [|done]. heap_consts. lia.
Qed.

Lemma segment_20 r bs : forall p prv q prv', segment r p prv bs q prv' -> Forall (fun b => 20 <= b.1) bs.
Proof.
  induction bs as [|[n u] bs IH]; intros p prv q prv'; simpl; [constructor|].
  intros ([? _] & _ & Hs). constructor; [simpl; lia|eauto].
Qed.

Lemma blocks_20 r bs : forall p prv, blocks r p prv bs -> Forall (fun b => 20 <= b.1) bs.
Proof.
  induction bs as [|[n u] bs IH]; intros p prv; simpl; [constructor|].
  intros ([? _] & _ & Hs). constructor; [simpl; lia|eauto].
Qed.

(** ** One block of the heap, with what is around it *)

Record at_block (h : heap_state) (pre : list block) (n : Z) (u : bool) (post : list block) (prv : Z) : Prop := AtBlock {
  ab_len : Z.of_nat (length (ram h)) = 1616;
  ab_pre : segment (ram h) 0 0 pre (span pre) prv;
  ab_size : 20 <= n;
  ab_mod : n mod 4 = 0;
  ab_next : rd16 (ram h) (span pre) = span pre + n;
  ab_prev : rd16 (ram h) (span pre + 2) = prv;
  ab_used : rd8 (ram h) (span pre + 4) = Z.b2z u;
  ab_post : blocks (ram h) (span pre + n) (span pre) post;
  ab_span : span pre + n + span post = 1600;
  ab_span_pre : 0 <= span pre;
  ab_span_post : 0 <= span post
}.

Lemma shape_at h pre n u post :
  heap_shape h (pre ++ (n, u) :: post) -> exists prv, at_block h pre n u post prv.
Proof.
  intros [Hl Hb _ _]. apply blocks_app in Hb as (q & prv & Hs & Hb). simpl in Hb.
  destruct Hb as ((Hn & Hm) & (H1 & H2 & H3) & Hb).
  pose proof (segment_end _ _ _ _ _ _ Hs) as Hq. pose proof (blocks_span _ _ _ _ Hb) as [Hsp _]. heap_consts.
  pose proof (span_nonneg _ (segment_20 _ _ _ _ _ _ Hs)). pose proof (span_nonneg _ (blocks_20 _ _ _ _ Hb)).
  replace q with (span pre) in * by lia. change ram_heap_size with 1616 in Hl. exists prv. by constructor.
Qed.

(** The heap with other blocks at that place. *)
Lemma shape_replace r lf pre mid post prv :
  Z.of_nat (length r) = 1616 -> segment r 0 0 pre (span pre) prv ->
  blocks r (span pre) prv (mid ++ post) -> lf = first_free 0 (pre ++ mid ++ post) -> rd8 r 1604 = 1 ->
  heap_shape (HeapState r lf) (pre ++ mid ++ post).
Proof.
  intros Hl Hs Hb Hlf He. constructor; [done| |done|done].
  apply blocks_app. eauto.
Qed.

Definition fwd (n : Z) (post : list block) : list block :=
  match post with (m, false) :: post' => (n + m, false) :: post' | _ => (n, false) :: post end.

(** Only the blocks in the middle, and the link behind them, have changed. *)
Lemma data_around r r' pre mid post :
  Forall (fun b => 20 <= b.1) pre -> Forall (fun b => 20 <= b.1) mid -> Forall (fun b => 20 <= b.1) post ->
  (forall b, 0 <= b -> b < span pre \/ span pre + span mid + 4 <= b -> rd8 r' b = rd8 r b) ->
  data r' 0 (pre ++ mid ++ post) = data r 0 pre ∪ (data r' (span pre) mid ∪ data r (span pre + span mid) post).
Proof.
  intros Hpre Hmid Hpost Hr. rewrite !data_app, Z.add_0_l.
  pose proof (span_nonneg _ Hpre). pose proof (span_nonneg _ Hmid).
  rewrite (data_frame r r' pre) by (try done; intros b Hb; apply Hr; lia).
  rewrite (data_frame r r' post) by (try done; intros b Hb; apply Hr; lia). done.
Qed.

Lemma lfree_le r pre n post prv q :
  segment r 0 0 pre q prv -> first_free 0 (pre ++ (n, false) :: post) <= span pre.
Proof.
  intros Hs. rewrite first_free_app. destruct (forallb snd pre) eqn:E; simpl; [lia|].
  pose proof (first_free_lt _ 0 (segment_20 _ _ _ _ _ _ Hs) E). lia.
Qed.

Lemma first_free_same pre n m post post' :
  first_free 0 (pre ++ (n, false) :: post) = first_free 0 (pre ++ (m, false) :: post').
Proof. rewrite !first_free_app. by destruct (forallb snd pre). Qed.

Lemma u16_id x : 0 <= x < 65536 -> u16 x = x.
Proof. intros. by apply Z.mod_small. Qed.

(** The header of a free block that follows a free block is taken out. *)
Lemma wp_merge h pre n m post (Q : unit -> heap_state -> Prop) q :
  q = span pre ->
  heap_shape h (pre ++ (n, false) :: (m, false) :: post) ->
  (forall h', heap_shape h' (pre ++ (n + m, false) :: post) ->
     data (ram h') 0 (pre ++ (n + m, false) :: post) = data (ram h) 0 (pre ++ (n, false) :: (m, false) :: post) ->
     Q tt h') ->
  wp (nnext ← mem_next (q + n);
      set_mem_next q nnext;;
      when (negb (nnext =? MEM_SIZE_ALIGNED)) (set_mem_prev (ptr_to_mem nnext) (mem_to_ptr q))) Q h.
Proof.
  intros -> Hok HQ. destruct (shape_at _ _ _ _ _ Hok) as [prv []]. simpl in ab_post0, ab_span0, ab_span_post0.
  destruct ab_post0 as ((Hm & Hmm) & (Hn2 & Hp2 & Hu2) & Hb).
  pose proof (blocks_span _ _ _ _ Hb) as [Hsp Hsl]. destruct Hok as [_ _ Hlf He]. heap_consts.
  hstep. rewrite Hn2. hstep. apply wp_relink; [lia|hbounds|]. simpl.
  unfold mem_to_ptr. rewrite u16_id by lia.
  set (r1 := wr16 (ram h) (span pre) (span pre + n + m)). set (r2 := relink (span pre + n + m) (span pre) r1).
  assert (Hout : forall b, 0 <= b -> b < span pre \/ span pre + 2 <= b < span pre + n + m + 2 \/ span pre + n + m + 4 <= b ->
    rd8 r2 b = rd8 (ram h) b).
  { intros b Hb0 Hb1. unfold r2, r1. rewrite relink_other by lia. by ram. }
  assert (Hnx : rd16 r2 (span pre) = span pre + n + m).
  { transitivity (rd16 r1 (span pre)); [|unfold r1; by ram].
    unfold rd16, r2. by rewrite !relink_other by lia. }
  apply HQ; simpl.
  - apply (shape_replace r2 _ pre [(n + m, false)] post prv).
    + unfold r2, r1. by autorewrite with ram.
    + eapply segment_frame; [done|lia|]. intros x Hx. apply Hout; lia.
    + simpl. split; [split; [lia|by rewrite Z.add_mod, ab_mod0, Hmm by lia]|]. split.
      * rewrite Hnx. unfold rd16. rewrite !Hout by lia. by split_and!; [lia| |].
      * unfold r2. rewrite Z.add_assoc. eapply relink_blocks; [|lia|unfold r1; by autorewrite with ram|lia].
        eapply blocks_frame; [done|lia|]. intros x Hx. unfold r1. by ram.
    + cbn [lfree set_ram]. rewrite Hlf. apply first_free_same.
    + by rewrite Hout by lia.
  - assert (Forall (fun b => 20 <= b.1) pre) by eauto using segment_20.
    assert (Forall (fun b => 20 <= b.1) post) by eauto using blocks_20.
    change (pre ++ (n + m, false) :: post) with (pre ++ [(n + m, false)] ++ post).
    change (pre ++ (n, false) :: (m, false) :: post) with (pre ++ [(n, false); (m, false)] ++ post).
    rewrite (data_around (ram h) r2), (data_around (ram h) (ram h)); try done; try (by repeat constructor; simpl; lia).
    + simpl. by rewrite !Z.add_0_r.
    + simpl. intros x Hx0 Hx1. apply Hout; lia.
Qed.

Lemma wp_plug_forward h pre n post (Q : unit -> heap_state -> Prop) :
  heap_shape h (pre ++ (n, false) :: post) ->
  (forall h', heap_shape h' (pre ++ fwd n post) ->
     data (ram h') 0 (pre ++ fwd n post) = data (ram h) 0 (pre ++ (n, false) :: post) -> Q tt h') ->
  wp (plug_forward (span pre)) Q h.
Proof.
  intros Hok HQ. destruct (shape_at _ _ _ _ _ Hok) as [prv []].
  unfold plug_forward, ptr_to_mem. hstep. rewrite ab_next0. hstep. rewrite (proj2 (Z.eqb_neq (span pre) _)) by lia.
  destruct post as [|[m w] post]; simpl in *; heap_consts.
  { rewrite ab_post0, andb_false_r. by apply HQ. }
  destruct ab_post0 as (Hm & (_ & _ & Hu2) & Hb). rewrite Hu2.
  pose proof (blocks_span _ _ _ _ Hb) as [Hsp Hsl]. heap_consts.
  destruct w; simpl; [by apply HQ|]. rewrite (proj2 (Z.eqb_neq (_ + n) 1600)) by lia. simpl.
  hstep. pose proof (lfree_le _ pre n ((m, false) :: post) _ _ ab_pre0) as Hle.
  rewrite (ok_lfree _ _ Hok), (proj2 (Z.eqb_neq (first_free _ _) _)) by lia. hstep.
  by apply (wp_merge h pre n m post).
Qed.

Definition bwd (pre : list block) (x : block) : list block :=
  match last pre with
  | Some (a, false) => removelast pre ++ [(a + x.1, x.2)]
  | _ => pre ++ [x]
  end.

Lemma wp_plug_backward h pre n post (Q : unit -> heap_state -> Prop) :
  heap_shape h (pre ++ (n, false) :: post) ->
  (forall h', heap_shape h' (bwd pre (n, false) ++ post) ->
     data (ram h') 0 (bwd pre (n, false) ++ post) = data (ram h) 0 (pre ++ (n, false) :: post) -> Q tt h') ->
  wp (plug_backward (span pre)) Q h.
Proof.
  intros Hok HQ. destruct (shape_at _ _ _ _ _ Hok) as [prv []].
  unfold plug_backward, ptr_to_mem, bwd in *.
  destruct pre as [|[a w] pre _] using rev_ind.
  { simpl in *. destruct ab_pre0 as [_ <-]. do 2 (hstep; rewrite ?ab_prev0). by apply HQ. }
  rewrite last_snoc in HQ. rewrite span_app in *. simpl in *. rewrite Z.add_0_r in *.
  apply segment_app in ab_pre0 as (q1 & prv1 & Hs1 & Hs2). simpl in Hs2.
  destruct Hs2 as ((Ha & Ham) & (_ & _ & Hu) & Hq & Hprv). pose proof (segment_end _ _ _ _ _ _ Hs1) as Hq1.
  pose proof (span_nonneg _ (segment_20 _ _ _ _ _ _ Hs1)).
  hstep. rewrite ab_prev0. hstep. subst prv. replace q1 with (span pre) in * by lia. rewrite Hu.
  rewrite (proj2 (Z.eqb_neq (span pre) _)) by lia. simpl.
  destruct w; [apply HQ; rewrite <- !app_assoc in *; done|].
  rewrite removelast_last in HQ. rewrite <- !app_assoc in HQ. rewrite <- app_assoc in Hok. simpl in *.
  hstep. pose proof (lfree_le _ pre a ((n, false) :: post) _ _ Hs1) as Hle.
  rewrite (ok_lfree _ _ Hok), (proj2 (Z.eqb_neq (first_free _ _) _)) by lia. hstep.
  apply (wp_merge h pre a n post); done.
Qed.

(** ** Releasing a block *)

Lemma segment_mod4 r bs : forall p prv q prv', segment r p prv bs q prv' -> p mod 4 = 0 -> q mod 4 = 0.
Proof.
  induction bs as [|[n u] bs IH]; intros p prv q prv'; simpl; [by intros [-> _]|].
  intros ((_ & Hm) & _ & Hs) Hp. apply (IH _ _ _ _ Hs). by rewrite Z.add_mod, Hp, Hm by lia.
Qed.

Lemma segment_prv r bs : forall p prv q prv', segment r p prv bs q prv' -> 0 <= prv <= p ->
  (bs = [] /\ prv' = prv) \/ (0 <= prv' < q /\ rd16 r prv' = q /\ prv' + 20 <= q).
Proof.
  induction bs as [|[n u] bs IH]; intros p prv q prv'; simpl; [intros [_ ->]; eauto|].
  intros ((Hn & _) & (Hn2 & _) & Hs) Hp. right. destruct (IH _ _ _ _ Hs) as [[-> ->]|?]; [lia| |done].
  simpl in Hs. destruct Hs as [<- _]. lia.
Qed.

Lemma land_3 x : Z.land x (MEM_ALIGNMENT - 1) = x mod 4.
Proof. apply (Z.land_ones x 2). lia. Qed.

Lemma wp_mem_link_valid h pre n u post (Q : bool -> heap_state -> Prop) :
  heap_shape h (pre ++ (n, u) :: post) -> Q true h -> wp (mem_link_valid (span pre)) Q h.
Proof.
  intros Hok HQ. destruct (shape_at _ _ _ _ _ Hok) as [prv []].
  unfold mem_link_valid, mem_to_ptr, ptr_to_mem. rewrite u16_id by lia. heap_consts.
  hstep. rewrite ab_next0. hstep. rewrite ab_prev0.
  pose proof (segment_prv _ _ _ _ _ _ ab_pre0) as Hprv.
  assert (0 <= prv <= span pre) by (destruct Hprv as [[_ ->]|?]; lia).
  rewrite (proj2 (Z.ltb_ge _ _)), (proj2 (Z.ltb_ge _ _)) by lia. simpl.
  apply wp_bind. apply (wp_mono _ (fun x s => x = span pre /\ s = h)).
  { destruct (prv =? span pre) eqn:E; simpl; [by hstep|]. apply Z.eqb_neq in E. hstep.
    destruct Hprv as [[-> ->]|(_ & ? & _)]; [lia|done..]. }
  intros ? ? [-> ->]. rewrite Z.eqb_refl. simpl. apply wp_bind.
  apply (wp_mono _ (fun x s => x = span pre /\ s = h)).
  { destruct (span pre + n =? 1600) eqn:E; simpl; [by hstep|]. apply Z.eqb_neq in E. hstep.
    destruct post as [|[m w] post]; simpl in *; heap_consts; [lia|]. by destruct ab_post0 as (_ & (_ & ? & _) & _). }
  intros ? ? [-> ->]. rewrite Z.eqb_refl. by apply wp_ret.
Qed.

(** A used block becomes a free one. *)
Lemma shape_release h pre n post :
  heap_shape h (pre ++ (n, true) :: post) ->
  heap_shape (HeapState (wr8 (ram h) (span pre + 4) 0) (if span pre <? lfree h then span pre else lfree h))
    (pre ++ (n, false) :: post) /\
  data (wr8 (ram h) (span pre + 4) 0) 0 (pre ++ (n, false) :: post) =
    delete (span pre + SIZEOF_STRUCT_MEM) (data (ram h) 0 (pre ++ (n, true) :: post)).
Proof.
  intros Hok. destruct (shape_at _ _ _ _ _ Hok) as [prv []]. destruct Hok as [_ _ Hlf He].
  assert (Hpre : Forall (fun b => 20 <= b.1) pre) by eauto using segment_20.
  assert (Hpost : Forall (fun b => 20 <= b.1) post) by eauto using blocks_20.
  heap_consts. split.
  - apply (shape_replace _ _ pre [(n, false)] post prv).
    + by autorewrite with ram.
    + eapply segment_frame; [done|lia|]. intros x Hx. by ram.
    + simpl. split; [done|]. split; [split_and!; ram; done|].
      eapply blocks_frame; [done|lia|]. intros x Hx. by ram.
    + rewrite Hlf, !first_free_app, Z.add_0_l. destruct (forallb snd pre) eqn:E; simpl.
      * pose proof (first_free_bounds _ (span pre + n) Hpost). by rewrite (proj2 (Z.ltb_lt _ _)) by lia.
      * pose proof (first_free_lt _ 0 Hpre E). by rewrite (proj2 (Z.ltb_ge _ _)) by lia.
    + by ram.
  - change (pre ++ (n, false) :: post) with (pre ++ [(n, false)] ++ post).
    change (pre ++ (n, true) :: post) with (pre ++ [(n, true)] ++ post).
    rewrite (data_around (ram h) (wr8 _ _ _)), (data_around (ram h) (ram h)); try done;
      try (by repeat constructor; simpl; lia); [|simpl; intros x Hx0 Hx1; by ram].
    simpl. rewrite Z.add_0_r, <- insert_union_l, !(left_id_L ∅ (∪)), delete_union, delete_insert_eq.
    heap_consts. by rewrite !delete_id by (apply data_out; [done|heap_consts; lia]).
Qed.

Definition free_head (bs : list block) : Prop := exists m bs', bs = (m, false) :: bs'.
Definition free_last (bs : list block) : Prop := exists m bs', bs = bs' ++ [(m, false)].

Lemma separate_tail b bs : separate (b :: bs) -> separate bs.
Proof. destruct b as [m []]; [done|]. destruct bs as [|[k w] bs]; [done|]. by intros [_ ?]. Qed.

Lemma separate_snoc_free a n b :
  separate a -> separate b -> ~ free_last a -> ~ free_head b -> separate (a ++ (n, false) :: b).
Proof.
  intros Ha Hb Hla Hhb. induction a as [|[m u] a IH]; simpl.
  - destruct b as [|[k []] b]; [done..|]. destruct Hhb. by exists k, b.
  - assert (~ free_last a) as Hla' by (intros (k & a' & ->); apply Hla; by exists k, ((m, u) :: a')).
    specialize (IH (separate_tail _ _ Ha) Hla'). destruct u; [done|].
    destruct a as [|[k w] a]; simpl in *; [destruct Hla; by exists m, []|]. by destruct Ha as [-> Ha].
Qed.

Lemma separate_app_free a n b : separate (a ++ (n, false) :: b) -> separate a /\ separate b /\ ~ free_last a /\ ~ free_head b.
Proof.
  induction a as [|[m u] a IH]; simpl.
  - intros H. split; [done|]. split; [exact (separate_tail (n, false) b H)|]. split; [by intros (? & [|? ?] & ?)|].
    intros (k & b' & ->). by destruct H.
  - intros H. assert (Ha : separate (a ++ (n, false) :: b)) by (destruct u; [done|exact (separate_tail (m, false) _ H)]).
    destruct (IH Ha) as (H1 & H2 & H3 & H4). split_and!; [|done| |done].
    + destruct u; [done|]. destruct a as [|[k w] a]; [done|]. simpl in *. split; [by destruct H|done].
    + intros (k & [|x a'] & E); simplify_eq/=; [by destruct H|]. apply H3. by exists k, a'.
Qed.

Lemma fwd_shape n post : separate post ->
  exists k tl, fwd n post = (k, false) :: tl /\ separate tl /\ ~ free_head tl.
Proof.
  intros Hp. unfold fwd. destruct post as [|[m []] post].
  - exists n, []. split_and!; [done|done|]. by intros (? & ? & ?).
  - exists n, ((m, true) :: post). split_and!; [done|done|]. by intros (? & ? & ?).
  - exists (n + m), post. split_and!; [done|by eapply separate_tail|]. intros (k & b & ->). by destruct Hp.
Qed.

Lemma separate_bwd pre k tl : separate pre -> separate tl -> ~ free_head tl -> separate (bwd pre (k, false) ++ tl).
Proof.
  intros Hp Ht Hh. unfold bwd. destruct pre as [|[a w] pre _] using rev_ind.
  - simpl. apply (separate_snoc_free [] k tl); [done..| |done]. by intros (? & [] & ?).
  - rewrite last_snoc. destruct w.
    + rewrite <- app_assoc. apply separate_snoc_free; [done|done| |done].
      intros (m & b & E). by apply app_inj_tail in E as [_ ?].
    + rewrite removelast_last, <- app_assoc. simpl.
      apply separate_app_free in Hp as (H1 & _ & H3 & _). by apply separate_snoc_free.
Qed.

Lemma wp_mem_free h pre n post (Q : unit -> heap_state -> Prop) :
  heap_ok h (pre ++ (n, true) :: post) ->
  (forall h' bs', heap_ok h' bs' ->
     data (ram h') 0 bs' = delete (span pre + SIZEOF_STRUCT_MEM) (data (ram h) 0 (pre ++ (n, true) :: post)) ->
     Q tt h') ->
  wp (mem_free (Some (span pre + SIZEOF_STRUCT_MEM))) Q h.
Proof.
  intros [Hok Hsep] HQ. destruct (shape_at _ _ _ _ _ Hok) as [prv []]. unfold mem_free.
  rewrite land_3. pose proof (segment_mod4 _ _ _ _ _ _ ab_pre0 eq_refl) as Hm4.
  destruct (shape_release _ _ _ _ Hok) as [Hrel Hdata]. apply separate_app_used in Hsep as [Hs1 Hs2].
  destruct (fwd_shape n post Hs2) as (k & tl & Hfwd & Hs3 & Hh).
  heap_consts. rewrite Z.add_mod, Hm4 by lia. simpl.
  rewrite (proj2 (Z.ltb_ge _ 0)), (proj2 (Z.ltb_ge _ _)) by lia. simpl.
  replace (span pre + 8 - 8) with (span pre) by lia.
  hstep. rewrite ab_used0. simpl. apply wp_bind. eapply wp_mem_link_valid; [done|]. simpl.
  hstep. hstep. apply wp_bind.
  apply (wp_mono _ (fun _ s => s = HeapState (wr8 (ram h) (span pre + 4) 0) (if span pre <? lfree h then span pre else lfree h))).
  { destruct (span pre <? lfree h); simpl; by hstep. }
  intros _ ? ->. apply wp_bind. eapply wp_plug_forward; [done|]. rewrite Hfwd. intros h1 Hok1 Hd1.
  eapply wp_plug_backward; [done|]. intros h2 Hok2 Hd2. apply (HQ h2 (bwd pre (k, false) ++ tl)).
  - split; [done|]. by apply separate_bwd.
  - rewrite Hd2, Hd1. done.
Qed.
