(* ===== verification/HeapAlloc.v ===== *)
(** The heap of mem.c: allocation and trimming of blocks. *)
From S2P Require Import Prelude Memp Pbuf Heap HeapFacts.

(** ** The block that is found *)

Definition taken (n size : Z) : list block :=
  if size + 20 <=? n - 8 then [(8 + size, true); (n - 8 - size, false)] else [(n, true)].

Definition granted (n size : Z) : Z := if size + 20 <=? n - 8 then size else n - 8.

Lemma span_taken n size : span (taken n size) = n.
Proof. unfold taken. case_match; simpl; lia. Qed.

Lemma shape_take h pre n post size (Q : unit -> heap_state -> Prop) :
  heap_shape h (pre ++ (n, false) :: post) -> 12 <= size <= n - 8 -> size mod 4 = 0 ->
  (forall r', Z.of_nat (length r') = ram_heap_size -> blocks r' 0 0 (pre ++ taken n size ++ post) ->
     rd8 r' (MEM_SIZE_ALIGNED + 4) = 1 ->
     data r' 0 (pre ++ taken n size ++ post) =
       <[span pre + SIZEOF_STRUCT_MEM := stored r' (span pre + SIZEOF_STRUCT_MEM) (granted n size)]>
         (data (ram h) 0 (pre ++ (n, false) :: post)) ->
     Q tt (HeapState r' (lfree h))) ->
  wp (malloc_take (span pre) (span pre) size) Q h.
Proof.
  intros Hok Hsz Hm4 HQ. destruct (shape_at _ _ _ _ _ Hok) as [prv [Hlen Hseg Hn Hnm Hnext Hprev Hused Hblk Hsum Hq0 Hp0]].
  destruct Hok as [_ _ _ He].
  assert (Hpre : Forall (fun b => 20 <= b.1) pre) by eauto using segment_20.
  assert (Hpost : Forall (fun b => 20 <= b.1) post) by eauto using blocks_20.
  assert (Hdata : forall r' c, (forall x, 0 <= x -> x < span pre \/ span pre + n + 4 <= x -> rd8 r' x = rd8 (ram h) x) ->
    data r' (span pre) (taken n size) = {[span pre + 8 := c]} ->
    data r' 0 (pre ++ taken n size ++ post) = <[span pre + 8 := c]> (data (ram h) 0 (pre ++ (n, false) :: post))).
  { intros r' c Hr Hc. change (pre ++ (n, false) :: post) with (pre ++ [(n, false)] ++ post).
    rewrite (data_around (ram h) r' pre (taken n size) post), (data_around (ram h) (ram h)), Hc; rewrite ?span_taken; try done;
      try (by repeat constructor; simpl; lia); [|by unfold taken; case_match; repeat constructor; simpl; lia].
    simpl. rewrite Z.add_0_r, (left_id_L ∅ (∪)), insert_union_r by (apply data_out; [done|heap_consts; lia]).
    by rewrite insert_union_singleton_l. }
  unfold malloc_take, ptr_to_mem, room. heap_consts. hstep. rewrite Hnext.
  unfold u32. rewrite Z.mod_small by lia. rewrite u16_id by lia.
  replace (size + 8 + 12 <=? span pre + n - (span pre + 8)) with (size + 20 <=? n - 8)
    by (f_equal; lia). unfold taken, granted in *.
  destruct (size + 20 <=? n - 8) eqn:Hsplit.
  - apply Z.leb_le in Hsplit. do 5 hstep. apply wp_relink; [lia|hbounds|]. cbn [ram lfree set_ram].
    set (q := span pre) in *. set (q2 := q + 8 + size). set (e := q + n) in *.
    set (r1 := wr8 _ (q + 4) 1). set (r2 := relink _ _ _).
    assert (H1 : forall x, 0 <= x -> x < q \/ e <= x -> rd8 r1 x = rd8 (ram h) x) by (intros; unfold r1; by ram).
    assert (H2 : forall x, 0 <= x -> x < e + 2 \/ e + 4 <= x -> rd8 r2 x = rd8 r1 x)
      by (intros; unfold r2; apply relink_other; lia).
    assert (H2w : forall x, 0 <= x -> x < e + 1 \/ e + 4 <= x -> rd16 r2 x = rd16 r1 x)
      by (intros; unfold rd16; rewrite !H2 by lia; done).
    apply HQ.
    + unfold r2, r1. by autorewrite with ram.
    + apply blocks_app. exists q, prv. split.
      { eapply segment_frame; [done|lia|]. intros x Hx. rewrite H2, H1 by lia. done. }
      simpl. fold q2. replace (q + (8 + size)) with q2 by lia.
      split; [split; [lia|by rewrite Z.add_mod, Hm4 by lia]|].
      split; [rewrite !H2w, H2 by lia; unfold r1; ram; by split_and!|].
      split; [split; [lia|]|].
      { rewrite (Zminus_mod (n - 8)), (Zminus_mod n), Hnm, Hm4. done. }
      split; [rewrite !H2w, H2 by lia; unfold r1; ram; split_and!; try done; lia|].
      replace (q2 + (n - 8 - size)) with e by lia. unfold r2.
      eapply relink_blocks; [|lia|unfold r1; by autorewrite with ram|lia].
      eapply blocks_frame; [done|lia|]. intros x Hx. by rewrite H1 by lia.
    + rewrite H2, H1 by lia. done.
    + apply Hdata; [intros x Hx0 Hx1; rewrite H2, H1 by lia; done|]. simpl.
      heap_consts. by replace (8 + size - 8) with size by lia.
  - hstep. set (r1 := wr8 _ _ 1). apply HQ.
    + unfold r1. by autorewrite with ram.
    + apply blocks_app. exists (span pre), prv. split.
      { eapply segment_frame; [done|lia|]. intros x Hx. unfold r1. by ram. }
      simpl. split; [done|]. split; [unfold r1; ram; by split_and!|].
      eapply blocks_frame; [done|lia|]. intros x Hx. unfold r1. by ram.
    + unfold r1. by ram.
    + apply Hdata; [intros x Hx0 Hx1; unfold r1; by ram|done].
Qed.

(** ** The lowest free block is looked for again *)

Lemma lfree_walk h bs : forall p prv fuel (Q : Z -> heap_state -> Prop),
  Z.of_nat (length (ram h)) = ram_heap_size -> rd8 (ram h) (MEM_SIZE_ALIGNED + 4) = 1 ->
  blocks (ram h) p prv bs -> 0 <= p -> (length bs < fuel)%nat ->
  Q (first_free p bs) h -> wp (iter fuel lfree_body p) Q h.
Proof.
  induction bs as [|[n u] bs IH]; intros p prv fuel Q Hl He Hb Hp Hf HQ; (destruct fuel as [|fuel]; simpl in Hf; [lia|]);
    change (Z.of_nat (length (ram h)) = 1616) in Hl; cbn [iter]; apply wp_bind; wp_unfold lfree_body; unfold ptr_to_mem; heap_consts.
  - simpl in Hb. heap_consts. subst p. hstep. change (1600 + 4) with 1604 in *. rewrite He.
    change (negb (1 =? 0) && negb (1600 =? 1600)) with false. cbv iota. hstep. by hstep.
  - pose proof (blocks_span _ _ _ _ Hb) as [Hsp _]. simpl in Hb, Hsp. destruct Hb as ((Hn & Hm) & (H1 & H2 & H3) & Hb).
    pose proof (blocks_span _ _ _ _ Hb) as [_ Hsl]. heap_consts.
    hstep. rewrite H3. rewrite (proj2 (Z.eqb_neq p 1600)) by lia. destruct u; [change (negb (Z.b2z true =? 0) && negb false) with true|change (negb (Z.b2z false =? 0) && negb false) with false]; cbv iota.
    + hstep. rewrite H1. hstep. eapply (IH (p + n)); [done|done|done|lia|lia|done].
    + hstep. by hstep.
Qed.

Lemma heap_fuel_enough r bs p prv : blocks r p prv bs -> 0 <= p -> (length bs < heap_fuel)%nat.
Proof. intros Hb Hp. pose proof (blocks_span _ _ _ _ Hb). heap_consts. change heap_fuel with 82%nat. lia. Qed.

Lemma wp_adjust_lfree r pre n post bs (Q : unit -> heap_state -> Prop) lf :
  Z.of_nat (length r) = ram_heap_size -> rd8 r (MEM_SIZE_ALIGNED + 4) = 1 ->
  blocks r 0 0 (pre ++ bs) -> lf = first_free 0 (pre ++ (n, false) :: post) ->
  Q tt (HeapState r (first_free 0 (pre ++ bs))) ->
  wp (malloc_adjust_lfree heap_fuel (span pre)) Q (HeapState r lf).
Proof.
  intros Hl He Hb Hlf HQ. pose proof Hb as Hall. apply blocks_app in Hb as (q & prv & Hs & Hb).
  pose proof (segment_end _ _ _ _ _ _ Hs) as Hq. pose proof (segment_20 _ _ _ _ _ _ Hs) as H20.
  pose proof (span_nonneg _ H20).
  rewrite !first_free_app, Z.add_0_l in *. simpl in Hlf. unfold malloc_adjust_lfree. hstep.
  destruct (forallb snd pre) eqn:E; rewrite ?E in *.
  - subst lf. rewrite Z.eqb_refl. apply wp_bind. replace q with (span pre) in * by lia.
    eapply lfree_walk; [done|done|done|lia|eapply heap_fuel_enough; [done|lia]|]. by hstep.
  - pose proof (first_free_lt _ 0 H20 E). rewrite (proj2 (Z.eqb_neq (span pre) _)) by lia. hstep. by subst lf.
Qed.

(** ** First fit *)

(** The first free block from [p] on with room for [size]. *)
Fixpoint fit (size p : Z) (bs : list block) : option Z :=
  match bs with
  | [] => None
  | (n, u) :: bs => if negb u && (size <=? n - 8) then Some p else fit size (p + n) bs
  end.

Lemma fit_none size bs : forall p, p + span bs = 1600 -> 1600 - size <= p -> Forall (fun b => 20 <= b.1) bs ->
  fit size p bs = None.
Proof.
  induction bs as [|[n u] bs IH]; intros p Hs Hp Hf; simpl in *; [done|]. inversion Hf as [|? ? Hn Hf']; subst.
  simpl in *. pose proof (span_nonneg _ Hf'). rewrite (proj2 (Z.leb_gt size _)) by lia. rewrite andb_false_r.
  apply IH; [lia|lia|done].
Qed.

Lemma fit_app size a b p : forallb snd a = true -> fit size p (a ++ b) = fit size (p + span a) b.
Proof.
  revert p. induction a as [|[n u] a IH]; intros p; simpl; [by rewrite Z.add_0_r|].
  destruct u; simpl; [|done]. intros Ha. by rewrite IH, Z.add_assoc.
Qed.

Lemma fit_some size bs : forall p q, fit size p bs = Some q ->
  exists pre n post, bs = pre ++ (n, false) :: post /\ q = p + span pre /\ size <= n - 8.
Proof.
  induction bs as [|[n u] bs IH]; intros p q; simpl; [done|].
  destruct (negb u && (size <=? n - 8)) eqn:E.
  - intros [= <-]. destruct u; [done|]. exists [], n, bs. simpl in *. split_and!; [done|lia|lia].
  - intros H. apply IH in H as (pre & m & post & -> & -> & ?). exists ((n, u) :: pre), m, post.
    simpl. split_and!; [done|lia|done].
Qed.

(** The scan from [p] on finds the first fit of the blocks there. *)
Lemma malloc_scan h size bs : forall p prv fuel (Q : option Z -> heap_state -> Prop),
  Z.of_nat (length (ram h)) = ram_heap_size -> blocks (ram h) p prv bs -> 0 <= p -> 12 <= size <= 1600 ->
  (length bs < fuel)%nat ->
  match fit size p bs with
  | None => Q None h
  | Some q => wp (malloc_take q q size) (fun _ => wp (malloc_adjust_lfree heap_fuel q) (fun _ => Q (Some (q + SIZEOF_STRUCT_MEM)))) h
  end ->
  wp (iter fuel (malloc_body heap_fuel size) p) Q h.
Proof.
  induction bs as [|[n u] bs IH]; intros p prv fuel Q Hl Hb Hp Hsz Hf HQ; (destruct fuel as [|fuel]; simpl in Hf; [lia|]);
    change (Z.of_nat (length (ram h)) = 1616) in Hl; cbn [iter]; apply wp_bind; wp_unfold malloc_body; heap_consts.
  - simpl in Hb. heap_consts. subst p. rewrite (proj2 (Z.ltb_ge _ _)) by lia. cbn [negb]. hstep. by hstep.
  - pose proof (blocks_span _ _ _ _ Hb) as [Hsp _]. pose proof (blocks_20 _ _ _ _ Hb) as H20.
    simpl in Hb, Hsp. destruct Hb as ((Hn & Hm) & (H1 & H2 & H3) & Hb).
    pose proof (blocks_span _ _ _ _ Hb) as [_ Hsl]. heap_consts.
    destruct (p <? 1600 - size) eqn:E; simpl negb; cbv iota.
    2:{ apply Z.ltb_ge in E. rewrite fit_none in HQ by (simpl; try done; lia). hstep. by hstep. }
    unfold ptr_to_mem. hstep. rewrite H3. hstep. rewrite H1.
    unfold room, u32. heap_consts. rewrite Z.mod_small by lia. simpl in HQ.
    replace (p + n - (p + 8)) with (n - 8) by lia.
    destruct u; [|destruct (size <=? n - 8) eqn:Hfit].
    + change (Z.b2z true =? 0) with false. cbn [andb]. hstep. eapply IH; try done; lia.
    + change (Z.b2z false =? 0) with true. cbn [andb negb] in HQ |- *. apply wp_bind.
      eapply wp_mono; [exact HQ|]. intros ? s Hs. apply wp_bind. eapply wp_mono; [exact Hs|]. intros ? s' Hs'. by do 2 hstep.
    + change (Z.b2z false =? 0) with true. cbn [andb]. hstep. eapply IH; try done; lia.
Qed.

Lemma used_prefix bs : exists a b, bs = a ++ b /\ forallb snd a = true /\ forall p, first_free p bs = p + span a.
Proof.
  induction bs as [|[n u] bs (a & b & -> & Ha & Hf)].
  - exists [], []. split_and!; [done..|]. intros p. simpl. lia.
  - destruct u.
    + exists ((n, true) :: a), b. split_and!; [done..|]. intros p. simpl. rewrite Hf. lia.
    + exists [], ((n, false) :: a ++ b). split_and!; [done..|]. intros p. simpl. lia.
Qed.

Lemma separate_taken pre n size post : separate (pre ++ (n, false) :: post) -> separate (pre ++ taken n size ++ post).
Proof.
  intros Hs. apply separate_app_free in Hs as (H1 & H2 & H3 & H4). unfold taken. case_match.
  - apply separate_app_used. split; [done|]. apply (separate_snoc_free [] _ post); [done..| |done].
    by intros (? & [|? ?] & ?).
  - by apply separate_app_used.
Qed.

(** ** The size of a request *)

Lemma align_eq x : 0 <= x < 2 ^ 32 - 4 -> LWIP_MEM_ALIGN_SIZE x = (x + 3) / 4 * 4.
Proof.
  intros Hx. unfold LWIP_MEM_ALIGN_SIZE. change (MEM_ALIGNMENT - 1) with (Z.ones 2).
  rewrite <- Z.ldiff_land, Z.ldiff_ones_r by lia. rewrite Z.shiftl_mul_pow2, Z.shiftr_div_pow2 by lia.
  change MEM_ALIGNMENT with 4. replace (x + 4 - 1) with (x + 3) by lia. unfold u32. apply Z.mod_small. 
  change (2 ^ 2) with 4. Z.div_mod_to_equations. lia.
Qed.

Lemma block_size_spec x : 0 <= x <= 65535 ->
  block_size x mod 4 = 0 /\ 12 <= block_size x < 65536 /\
  (x <= 1600 -> x <= block_size x <= 1600) /\ (1600 < x -> 1600 < block_size x \/ block_size x < x).
Proof.
  intros Hx. unfold block_size. rewrite align_eq by lia. heap_consts. unfold u16. change (2 ^ 16) with 65536.
  destruct (_ <? 12) eqn:E; [|apply Z.ltb_ge in E]; [apply Z.ltb_lt in E|];
    split_and!; try done; Z.div_mod_to_equations; lia.
Qed.

Lemma block_size_least x k : 0 <= x <= 65535 -> x <= k -> 12 <= k < 65536 -> k mod 4 = 0 -> block_size x <= k.
Proof.
  intros Hx Hk Hkb Hk4. unfold block_size. rewrite align_eq by lia. heap_consts. unfold u16. change (2 ^ 16) with 65536.
  destruct (_ <? 12) eqn:E; [lia|]. clear E. Z.div_mod_to_equations. lia.
Qed.

Lemma wp_mem_malloc h bs size_in (Q : option Z -> heap_state -> Prop) :
  heap_ok h bs -> 0 <= size_in <= 65535 ->
  (size_in = 0 \/ 1600 < size_in \/ fit (block_size size_in) 0 bs = None -> Q None h) ->
  (forall h' pre n post, 0 < size_in <= 1600 -> bs = pre ++ (n, false) :: post ->
     20 <= n /\ block_size size_in <= n - 8 /\ size_in <= granted n (block_size size_in) ->
     heap_ok h' (pre ++ taken n (block_size size_in) ++ post) ->
     data (ram h') 0 (pre ++ taken n (block_size size_in) ++ post) =
       <[span pre + SIZEOF_STRUCT_MEM :=
           stored (ram h') (span pre + SIZEOF_STRUCT_MEM) (granted n (block_size size_in))]> (data (ram h) 0 bs) ->
     Q (Some (span pre + SIZEOF_STRUCT_MEM)) h') ->
  wp (mem_malloc size_in) Q h.
Proof.
  intros [Hok Hsep] Hsz HN HS. unfold mem_malloc. destruct (size_in =? 0) eqn:E0; [apply HN; lia|].
  destruct (block_size_spec size_in Hsz) as (Hm4 & Hb & Hle & Hgt). heap_consts.
  destruct (_ || _) eqn:E1; [apply HN; right; left; apply orb_true_iff in E1; lia|].
  apply orb_false_iff in E1 as [E1 E2]. apply Z.ltb_ge in E1, E2. assert (size_in <= 1600) by lia.
  destruct (used_prefix bs) as (a & b & Hab & Ha & Hff). destruct Hok as [Hl Hbl Hlf He].
  pose proof Hbl as Hbl'. rewrite Hab in Hbl'. apply blocks_app in Hbl' as (q & prv & Hs & Hbb).
  pose proof (segment_end _ _ _ _ _ _ Hs) as Hq. pose proof (span_nonneg _ (segment_20 _ _ _ _ _ _ Hs)).
  pose proof (blocks_span _ _ _ _ Hbb) as [? ?]. heap_consts.
  hstep. rewrite Hlf, Hff, Z.add_0_l. unfold mem_to_ptr. rewrite u16_id by lia. replace q with (span a) in * by lia.
  eapply malloc_scan; [done|done|lia|lia|by eapply heap_fuel_enough; [done|lia]|].
  replace (fit _ (span a) b) with (fit (block_size size_in) 0 bs) by (by rewrite Hab, fit_app, Z.add_0_l by done).
  destruct (fit (block_size size_in) 0 bs) as [p|] eqn:Hfit; [|apply HN; eauto].
  apply fit_some in Hfit as (pre & n & post & -> & -> & Hn). rewrite Z.add_0_l.
  eapply shape_take; [by constructor|lia|done|]. intros r' Hl' Hbl2 He' Hd'.
  eapply wp_adjust_lfree; [done|done|done|done|]. eapply HS; [lia|done|split_and!; [|done|]|split; [by constructor|by apply separate_taken]|done].
  { pose proof (blocks_20 _ _ _ _ Hbl) as H20. rewrite Forall_app, Forall_cons in H20. simpl in H20. lia. }
  unfold granted. case_match; lia.
Qed.

(** ** Trimming *)

(** The block at [q] ends at a new free block, which reaches to [e]. *)
Lemma cut_ram r pre prv a u k post x : let q := span pre in let q2 := q + 8 + a in let e := q2 + k in
  Z.of_nat (length r) = 1616 -> segment r 0 0 pre q prv -> 0 <= q -> 12 <= a -> a mod 4 = 0 -> 20 <= k -> k mod 4 = 0 ->
  rd16 r (q + 2) = prv -> rd8 r (q + 4) = Z.b2z u -> blocks r e x post -> rd8 r 1604 = 1 ->
  forall r', r' = relink e q2 (wr16 (wr16 (wr16 (wr8 r (q2 + 4) 0) q2 e) (q2 + 2) q) q q2) ->
  Z.of_nat (length r') = 1616 /\ blocks r' 0 0 (pre ++ [(8 + a, u); (k, false)] ++ post) /\ rd8 r' 1604 = 1 /\
  (forall y, 0 <= y -> y < q \/ q + 2 <= y < q2 \/ e + 4 <= y -> rd8 r' y = rd8 r y).
Proof.
  intros q q2 e Hl Hs Hq Ha Ham Hk Hkm Hp Hu Hb He r' ->.
  pose proof (blocks_span _ _ _ _ Hb) as [Hsp Hsl]. heap_consts.
  set (r1 := wr16 _ q q2). set (r2 := relink _ _ _).
  assert (H1 : forall y, 0 <= y -> y < q \/ q + 2 <= y < q2 \/ e <= y -> rd8 r1 y = rd8 r y) by (intros; unfold r1; by ram).
  assert (H2 : forall y, 0 <= y -> y < e + 2 \/ e + 4 <= y -> rd8 r2 y = rd8 r1 y)
    by (intros; unfold r2; apply relink_other; lia).
  assert (H2w : forall y, 0 <= y -> y < e + 1 \/ e + 4 <= y -> rd16 r2 y = rd16 r1 y)
    by (intros; unfold rd16; rewrite !H2 by lia; done).
  split; [unfold r2, r1; by autorewrite with ram|].
  split; [|split; [by rewrite H2, H1 by lia|intros y Hy0 Hy1; by rewrite H2, H1 by lia]].
  apply blocks_app. exists q, prv. split.
  { eapply segment_frame; [done|lia|]. intros y Hy. by rewrite H2, H1 by lia. }
  simpl. replace (q + (8 + a)) with q2 by lia.
  split; [split; [lia|by rewrite Z.add_mod, Ham by lia]|].
  split; [rewrite !H2w, H2 by lia; unfold r1; ram; by split_and!|].
  split; [done|]. split; [rewrite !H2w, H2 by lia; unfold r1; ram; split_and!; try done; lia|].
  fold e. unfold r2. eapply relink_blocks; [|lia|unfold r1; by autorewrite with ram|lia].
  eapply blocks_frame; [done|lia|]. intros y Hy. by rewrite H1 by lia.
Qed.

Lemma stored_take r r' a n k : 0 <= k <= n -> (forall b, a <= b < a + k -> rd8 r' b = rd8 r b) ->
  stored r' a k = take (Z.to_nat k) (stored r a n).
Proof.
  intros Hk Hr. rewrite (stored_frame r r') by done. unfold stored. rewrite <- fmap_take. f_equal.
  apply list_eq. intros i. rewrite lookup_take. case_decide; rewrite ?lookup_seqZ_ge by lia; [|done].
  rewrite !lookup_seqZ_lt by lia. done.
Qed.

Lemma cut_data r r' pre n a k rest post :
  Forall (fun b => 20 <= b.1) pre -> Forall (fun b => 20 <= b.1) post -> rest = [] \/ (exists m, 20 <= m /\ rest = [(m, false)]) ->
  12 <= a <= n - 8 -> 20 <= k -> 8 + a + k = n + span rest ->
  (forall y, 0 <= y -> y < span pre \/ span pre + 2 <= y < span pre + 8 + a \/ span pre + 8 + a + k + 4 <= y -> rd8 r' y = rd8 r y) ->
  data r' 0 (pre ++ [(8 + a, true); (k, false)] ++ post) =
    <[span pre + 8 := take (Z.to_nat a) (stored r (span pre + 8) (n - 8))]> (data r 0 (pre ++ ((n, true) :: rest) ++ post)).
Proof.
  intros Hpre Hpost Hrest Ha Hk Hsum Hr.
  assert (Hmid : Forall (fun b => 20 <= b.1) ((n, true) :: rest)).
  { constructor; [simpl; lia|]. destruct Hrest as [->|(m & ? & ->)]; repeat constructor. simpl. lia. }
  rewrite (data_around r r' pre [(8 + a, true); (k, false)] post), (data_around r r pre _ post); try done;
    try (by repeat constructor; simpl; lia); [|simpl; intros y Hy0 Hy1; apply Hr; lia].
  simpl. replace (8 + a + (k + 0)) with (n + span rest) by lia. heap_consts.
  pose proof (span_nonneg _ Hpre).
  assert (Hre : data r (span pre + n) rest = ∅) by (destruct Hrest as [->|(m & ? & ->)]; done).
  rewrite Hre, <- !insert_union_l, !(left_id_L ∅ (∪)).
  rewrite <- !insert_union_r by (apply data_out; [done|heap_consts; lia]). rewrite insert_insert_eq. f_equal.
  replace (8 + a - 8) with a by lia. apply stored_take; [lia|]. intros b Hb. apply Hr; lia.
Qed.

(** What the two ways of trimming leave. *)
Lemma trim_result h pre n rest post a k x :
  heap_ok h (pre ++ (n, true) :: rest ++ post) -> rest = [] \/ (exists m, 20 <= m /\ rest = [(m, false)]) ->
  blocks (ram h) (span pre + n + span rest) x post -> ~ free_head post ->
  12 <= a <= n - 8 -> a mod 4 = 0 -> 20 <= k -> k mod 4 = 0 -> 8 + a + k = n + span rest ->
  let q2 := span pre + 8 + a in let e := q2 + k in
  let h' := HeapState (relink e q2 (wr16 (wr16 (wr16 (wr8 (ram h) (q2 + 4) 0) q2 e) (q2 + 2) (span pre)) (span pre) q2))
              (if forallb snd pre then q2 else lfree h) in
  heap_ok h' (pre ++ [(8 + a, true); (k, false)] ++ post) /\
  data (ram h') 0 (pre ++ [(8 + a, true); (k, false)] ++ post) =
    <[span pre + 8 := take (Z.to_nat a) (stored (ram h) (span pre + 8) (n - 8))]>
      (data (ram h) 0 (pre ++ (n, true) :: rest ++ post)).
Proof.
  intros [Hok Hsep] Hrest Hbl Hh Ha Ham Hk Hkm Hsum q2 e h'. pose proof Hok as [_ _ Hlf He].
  destruct (shape_at _ _ _ _ _ Hok) as [prv [Hlen Hseg Hn Hnm Hnext Hprev Hused _ _ Hq0 _]].
  assert (Hpre : Forall (fun b => 20 <= b.1) pre) by eauto using segment_20.
  assert (Hpost : Forall (fun b => 20 <= b.1) post) by eauto using blocks_20.
  destruct (cut_ram (ram h) pre prv a true k post x Hlen Hseg Hq0 (proj1 Ha) Ham Hk Hkm Hprev Hused
    ltac:(replace (span pre + 8 + a + k) with (span pre + n + span rest) by lia; exact Hbl) He _ eq_refl) as (C1 & C2 & C3 & C4).
  apply separate_app_used in Hsep as [Hs1 Hs2].
  assert (Hs3 : separate post) by (destruct Hrest as [->|(m & _ & ->)]; [done|exact (separate_tail (m, false) _ Hs2)]).
  split; [split; [constructor; [done|done| |done]|]|].
  - simpl. rewrite Hlf, !first_free_app, Z.add_0_l. simpl. unfold q2. rewrite Z.add_assoc. by destruct (forallb snd pre).
  - apply (proj2 (separate_app_used pre (8 + a) ((k, false) :: post))). split; [done|].
    apply (separate_snoc_free [] k post); [done..| |done]. by intros (? & [|? ?] & ?).
  - apply (cut_data (ram h) _ pre n a k rest post); try done; lia.
Qed.

(** Trimming to the size the block has. *)
Lemma trim_same h pre n post :
  heap_ok h (pre ++ (n, true) :: post) ->
  data (ram h) 0 (pre ++ (n, true) :: post) =
    <[span pre + 8 := take (Z.to_nat (n - 8)) (stored (ram h) (span pre + 8) (n - 8))]> (data (ram h) 0 (pre ++ (n, true) :: post)).
Proof.
  intros [Hok _]. destruct (shape_at _ _ _ _ _ Hok) as [prv [Hlen Hseg Hn Hnm Hnext Hprev Hused Hblk Hsum Hq0 Hp0]].
  rewrite take_ge by (apply Nat2Z.inj_le; rewrite stored_length by lia; lia). symmetry. apply insert_id.
  change (pre ++ (n, true) :: post) with (pre ++ [(n, true)] ++ post).
  rewrite data_app, lookup_union_r by (apply data_out; [by eauto using segment_20|heap_consts; lia]).
  simpl. heap_consts. apply lookup_insert_eq.
Qed.

Lemma wp_trim_move h pre n m post a (Q : unit -> heap_state -> Prop) :
  heap_ok h (pre ++ (n, true) :: (m, false) :: post) -> 12 <= a < n - 8 -> a mod 4 = 0 ->
  (forall h' bs', heap_ok h' bs' ->
     data (ram h') 0 bs' = <[span pre + 8 := take (Z.to_nat a) (stored (ram h) (span pre + 8) (n - 8))]>
         (data (ram h) 0 (pre ++ (n, true) :: (m, false) :: post)) -> Q tt h') ->
  wp (trim_move (span pre) (span pre) (span pre + n) a) Q h.
Proof.
  intros Hok Ha Ham HQ. pose proof Hok as [Hsh Hsep].
  destruct (shape_at _ _ _ _ _ Hsh) as [prv [Hlen Hseg Hn Hnm Hnext Hprev Hused Hblk Hsum Hq0 Hp0]].
  simpl in Hblk, Hsum. destruct Hblk as ((Hm & Hmm) & (Hm1 & Hm2 & Hm3) & Hbl).
  pose proof (blocks_span _ _ _ _ Hbl) as [Hsp Hsl]. heap_consts.
  destruct (trim_result h pre n [(m, false)] post a (n + m - 8 - a) (span pre + n) Hok) as [R1 R2]; simpl; try lia; try done; [by eauto| | | |].
  { by rewrite Z.add_0_r. }
  { apply separate_app_used in Hsep as [_ Hsep]. intros (k & b & ->). by destruct Hsep. }
  { clear -Hnm Hmm Ham. Z.div_mod_to_equations. lia. }
  unfold trim_move, ptr_to_mem. heap_consts. rewrite u16_id by lia.
  hstep. rewrite Hm1. hstep. apply wp_bind.
  apply (wp_mono _ (fun _ s => s = HeapState (ram h) (if forallb snd pre then span pre + 8 + a else lfree h))).
  { rewrite (ok_lfree _ _ Hsh), first_free_app, Z.add_0_l. destruct (forallb snd pre) eqn:E; simpl.
    - rewrite Z.eqb_refl. by hstep.
    - pose proof (first_free_lt _ 0 (segment_20 _ _ _ _ _ _ Hseg) E).
      rewrite (proj2 (Z.eqb_neq _ _)) by lia. hstep. destruct h; simpl. f_equal.
      apply (ok_lfree _ _) in Hsh. simpl in Hsh. by rewrite Hsh, first_free_app, E. }
  intros _ ? ->. do 4 hstep. apply wp_relink; [lia|hbounds|]. simpl in *.
  replace (span pre + 8 + a + (n + m - 8 - a)) with (span pre + n + m) in R1, R2 by lia. by eapply HQ.
Qed.

Lemma wp_trim_split h pre n post a (Q : unit -> heap_state -> Prop) :
  heap_ok h (pre ++ (n, true) :: post) -> ~ free_head post -> 12 <= a -> a + 20 <= n - 8 -> a mod 4 = 0 ->
  (forall h' bs', heap_ok h' bs' ->
     data (ram h') 0 bs' = <[span pre + 8 := take (Z.to_nat a) (stored (ram h) (span pre + 8) (n - 8))]>
         (data (ram h) 0 (pre ++ (n, true) :: post)) -> Q tt h') ->
  wp (trim_split (span pre) (span pre) a) Q h.
Proof.
  intros Hok Hh Ha Han Ham HQ. pose proof Hok as [Hsh Hsep].
  destruct (shape_at _ _ _ _ _ Hsh) as [prv [Hlen Hseg Hn Hnm Hnext Hprev Hused Hblk Hsum Hq0 Hp0]].
  pose proof (blocks_span _ _ _ _ Hblk) as [Hsp Hsl]. heap_consts.
  destruct (trim_result h pre n [] post a (n - 8 - a) (span pre) Hok) as [R1 R2]; simpl; try lia; try done; [by left| | |].
  { by rewrite Z.add_0_r. }
  { clear -Hnm Ham. Z.div_mod_to_equations. lia. }
  unfold trim_split, ptr_to_mem. heap_consts. rewrite u16_id by lia. hstep. apply wp_bind.
  apply (wp_mono _ (fun _ s => s = HeapState (ram h) (if forallb snd pre then span pre + 8 + a else lfree h))).
  { pose proof (ok_lfree _ _ Hsh) as Hlf. rewrite first_free_app, Z.add_0_l in Hlf. destruct (forallb snd pre) eqn:E; simpl in Hlf.
    - pose proof (first_free_bounds post (span pre + n) (blocks_20 _ _ _ _ Hblk)).
      rewrite (proj2 (Z.ltb_lt _ _)) by lia. by hstep.
    - pose proof (first_free_lt _ 0 (segment_20 _ _ _ _ _ _ Hseg) E).
      rewrite (proj2 (Z.ltb_ge _ _)) by lia. hstep. by destruct h. }
  intros _ ? ->. hstep. hstep. rewrite rd16_wr8_other, Hnext by lia. do 3 hstep. apply wp_relink; [lia|hbounds|]. simpl in *.
  replace (span pre + 8 + a + (n - 8 - a)) with (span pre + n) in R1, R2 by lia. by eapply HQ.
Qed.

Lemma wp_mem_trim h pre n post new_size (Q : option Z -> heap_state -> Prop) :
  heap_ok h (pre ++ (n, true) :: post) -> 0 <= new_size <= 65535 ->
  (n - 8 < new_size \/ n - 8 < block_size new_size -> Q None h) ->
  (forall h' bs' k, new_size <= k <= n - 8 -> heap_ok h' bs' ->
     data (ram h') 0 bs' =
       <[span pre + 8 := take (Z.to_nat k) (stored (ram h) (span pre + 8) (n - 8))]>
         (data (ram h) 0 (pre ++ (n, true) :: post)) ->
     Q (Some (span pre + 8)) h') ->
  wp (mem_trim (span pre + 8) new_size) Q h.
Proof.
  intros Hok Hsz HN HS. pose proof Hok as [Hsh Hsep].
  destruct (shape_at _ _ _ _ _ Hsh) as [prv [Hlen Hseg Hn Hnm Hnext Hprev Hused Hblk Hsum Hq0 Hp0]].
  pose proof (ok_end _ _ Hsh) as He. destruct (block_size_spec new_size Hsz) as (Hm4 & Hb & Hle & Hgt).
  unfold mem_trim. set (a := block_size new_size) in *. heap_consts.
  destruct (_ || _) eqn:E1; [apply HN; apply orb_true_iff in E1; lia|].
  apply orb_false_iff in E1 as [E1 E2]. apply Z.ltb_ge in E1, E2.
  rewrite (proj2 (Z.ltb_ge _ 0)), (proj2 (Z.leb_gt _ _)) by lia. simpl.
  replace (span pre + 8 - 8) with (span pre) by lia. unfold mem_to_ptr, ptr_to_mem. rewrite u16_id by lia.
  hstep. rewrite Hnext. replace (span pre + n - span pre) with n by lia. rewrite !u16_id by (rewrite ?u16_id; lia).
  destruct (n - 8 <? a) eqn:E3; [apply HN; lia|]. apply Z.ltb_ge in E3.
  destruct (a =? n - 8) eqn:E4; [apply Z.eqb_eq in E4|apply Z.eqb_neq in E4].
  { apply (HS h (pre ++ (n, true) :: post) (n - 8)); [lia|done|by apply trim_same]. }
  assert (Hcase : (rd8 (ram h) (span pre + n + 4) = 1 /\ ~ free_head post) \/
    (rd8 (ram h) (span pre + n + 4) = 0 /\ exists m post', post = (m, false) :: post')).
  { destruct post as [|[m []] post]; simpl in Hblk; heap_consts.
    - left. rewrite Hblk. split; [done|by intros (? & ? & ?)].
    - left. split; [apply Hblk|by intros (? & ? & ?)].
    - right. split; [apply Hblk|eauto]. }
  pose proof (span_nonneg _ (blocks_20 _ _ _ _ Hblk)). hstep.
  destruct Hcase as [[-> Hh]|[-> (m & post' & ->)]]; simpl; apply wp_bind.
  - destruct (a + 8 + 12 <=? n - 8) eqn:E5.
    + apply Z.leb_le in E5. apply wp_when_true. apply (wp_trim_split h pre n post a); [done|done|lia..|done|].
      intros h' bs' ? ?. apply wp_ret. by apply (HS h' bs' a); [lia|..].
    + apply wp_ret, wp_ret, (HS h (pre ++ (n, true) :: post) (n - 8)); [lia|done|by apply trim_same].
  - apply (wp_trim_move h pre n m post' a); [done|lia|done|].
    intros h' bs' ? ?. apply wp_ret. by apply (HS h' bs' a); [lia|..].
Qed.
