(* ===== verification/HeapSpec.v ===== *)
(** What the heap of mem.c promises: a store of objects, by the pointer the
    client has, that the detailed definitions refine for every client. *)
From S2P Require Import Prelude Memp Pbuf Heap HeapFacts HeapAlloc.

(** ** The abstract store *)

(** The live objects: what each holds, by its pointer. *)
Abbreviation objects := (gmap Z (list Z)).

Inductive request : Type :=
| Malloc (size : Z)
| Calloc (count size : Z)
| Free (p : option Z)
| Trim (p size : Z)
| Store (p i v : Z)
| Load (p i : Z).

Inductive answer : Type := Done | Pointer (p : option Z) | Byte (v : Z).

(** What a client may ask for: it uses the objects it has. *)
Definition legal (μ : objects) (q : request) : Prop :=
  match q with
  | Malloc size => 0 <= size <= 65535
  | Calloc count size => 0 <= count <= 65535 /\ 0 <= size <= 65535
  | Free None => True
  | Free (Some p) => is_Some (μ !! p)
  | Trim p size => is_Some (μ !! p) /\ 0 <= size <= 65535
  | Store p i _ | Load p i => exists c, μ !! p = Some c /\ 0 <= i < Z.of_nat (length c)
  end.

(** A place for a new object: aligned, in the array, apart from the others. *)
Definition fresh (μ : objects) (p : Z) (c : list Z) : Prop :=
  μ !! p = None /\ p mod 4 = 0 /\ 0 <= p /\ p + Z.of_nat (length c) <= MEM_SIZE_ALIGNED /\
  forall q d, μ !! q = Some d -> p + Z.of_nat (length c) <= q \/ q + Z.of_nat (length d) <= p.

(** No interval that could hold a block of that size is free of objects and
    their headers. *)
Definition no_room (μ : objects) (size : Z) : Prop :=
  forall a, 0 <= a -> a + SIZEOF_STRUCT_MEM + block_size size <= MEM_SIZE_ALIGNED ->
  exists q d, μ !! q = Some d /\ q - SIZEOF_STRUCT_MEM < a + SIZEOF_STRUCT_MEM + block_size size /\ a < q + Z.of_nat (length d).

Inductive step (μ : objects) : request -> answer -> objects -> Prop :=
| step_malloc size p c :
    0 < size <= Z.of_nat (length c) -> fresh μ p c -> step μ (Malloc size) (Pointer (Some p)) (<[p := c]> μ)
| step_malloc_null size :
    size = 0 \/ MEM_SIZE_ALIGNED < size \/ no_room μ size -> step μ (Malloc size) (Pointer None) μ
| step_calloc count size p c :
    0 < count * size <= Z.of_nat (length c) -> fresh μ p c -> Forall (fun b => b = 0) (take (Z.to_nat (count * size)) c) ->
    step μ (Calloc count size) (Pointer (Some p)) (<[p := c]> μ)
| step_calloc_null count size :
    count * size = 0 \/ MEM_SIZE_ALIGNED < count * size \/ no_room μ (count * size) ->
    step μ (Calloc count size) (Pointer None) μ
| step_free_null : step μ (Free None) Done μ
| step_free p : step μ (Free (Some p)) Done (delete p μ)
| step_trim p size c k :
    μ !! p = Some c -> size <= k <= Z.of_nat (length c) -> step μ (Trim p size) (Pointer (Some p)) (<[p := take (Z.to_nat k) c]> μ)
| step_trim_null p size c :
    μ !! p = Some c -> Z.of_nat (length c) < size -> step μ (Trim p size) (Pointer None) μ
| step_store p i v c :
    μ !! p = Some c -> step μ (Store p i v) Done (<[p := <[Z.to_nat i := u8 v]> c]> μ)
| step_load p i c v :
    μ !! p = Some c -> c !! Z.to_nat i = Some v -> step μ (Load p i) (Byte v) μ.

(** The same requests to mem.c, loads and stores through the pointers. *)
Definition serve (q : request) : M heap_state answer :=
  match q with
  | Malloc size => p ← mem_malloc size; mret (Pointer p)
  | Calloc count size => p ← mem_calloc count size; mret (Pointer p)
  | Free p => mem_free p;; mret Done
  | Trim p size => p ← mem_trim p size; mret (Pointer p)
  | Store p i v => ram_store8 (p + i) v;; mret Done
  | Load p i => v ← ram_load8 (p + i); mret (Byte v)
  end.

(** A client: what it asks next depends on the answers. *)
Inductive client : Type := End | Ask (q : request) (k : answer -> client).

Fixpoint well_behaved (μ : objects) (c : client) : Prop :=
  match c with
  | End => True
  | Ask q k => legal μ q /\ forall a μ', step μ q a μ' -> well_behaved μ' (k a)
  end.

Fixpoint serve_client (c : client) : M heap_state (list (request * answer)) :=
  match c with
  | End => mret []
  | Ask q k => a ← serve q; tr ← serve_client (k a); mret ((q, a) :: tr)
  end.

Inductive steps (μ : objects) : list (request * answer) -> objects -> Prop :=
| steps_nil : steps μ [] μ
| steps_cons q a tr μ1 μ2 : step μ q a μ1 -> steps μ1 tr μ2 -> steps μ ((q, a) :: tr) μ2.

(** The heap holds these objects. *)
Definition represents (h : heap_state) (μ : objects) : Prop := exists bs, heap_ok h bs /\ data (ram h) 0 bs = μ.

(** ** Objects and blocks *)

Lemma data_lookup r bs : forall p prv x c, blocks r p prv bs -> data r p bs !! x = Some c ->
  exists pre n post, bs = pre ++ (n, true) :: post /\ x = p + span pre + 8 /\ c = stored r x (n - 8).
Proof.
  induction bs as [|[n u] bs IH]; intros p prv x c Hb Hx; simpl in *; [done|].
  destruct Hb as (_ & _ & Hb). heap_consts.
  assert (Hrest : data r (p + n) bs !! x = Some c ->
    exists pre m post, (n, u) :: bs = pre ++ (m, true) :: post /\ x = p + span pre + 8 /\ c = stored r x (m - 8)).
  { intros Hx'. destruct (IH _ _ _ _ Hb Hx') as (pre & m & post & -> & -> & ->).
    exists ((n, u) :: pre), m, post. simpl. split_and!; [done|lia|done]. }
  destruct u; [|by apply Hrest]. apply lookup_insert_Some in Hx as [[<- <-]|[_ Hx]]; [|by apply Hrest].
  exists [], n, bs. simpl. split_and!; [done|lia|done].
Qed.

Lemma data_no_room r size bs : forall p prv a, blocks r p prv bs -> separate bs -> fit size p bs = None ->
  p <= a -> a + 8 + size <= 1600 -> 12 <= size ->
  exists q d, data r p bs !! q = Some d /\ q - 8 < a + 8 + size /\ a < q + Z.of_nat (length d).
Proof.
  induction bs as [|[n u] bs IH]; intros p prv a Hb Hsep Hfit Hp Ha Hsz; simpl in Hb; heap_consts; [lia|].
  destruct Hb as ((Hn & _) & _ & Hb). pose proof (blocks_20 _ _ _ _ Hb) as H20.
  assert (Hrest : p + n <= a -> fit size (p + n) bs = None ->
    exists q d, data r p ((n, u) :: bs) !! q = Some d /\ q - 8 < a + 8 + size /\ a < q + Z.of_nat (length d)).
  { intros Hpn Hf. destruct (IH _ _ a Hb (separate_tail _ _ Hsep) Hf Hpn Ha Hsz) as (q & d & Hq & ?).
    exists q, d. split; [|done]. simpl. destruct u; [|done]. rewrite lookup_insert_ne; [done|].
    apply data_bound in Hq; [|done]. heap_consts. lia. }
  simpl in Hfit. destruct u; simpl in Hfit.
  - destruct (decide (p + n <= a)); [by apply Hrest|].
    exists (p + 8), (stored r (p + 8) (n - 8)). simpl. heap_consts. rewrite lookup_insert_eq, stored_length by lia. split_and!; [done|lia..].
  - destruct (size <=? n - 8) eqn:E; [done|]. apply Z.leb_gt in E.
    destruct (decide (p + n <= a)); [by apply Hrest|].
    destruct bs as [|[m w] bs]; [simpl in Hb; heap_consts; lia|].
    destruct Hsep as [-> _]. simpl in Hb. destruct Hb as ((Hm & _) & _).
    exists (p + n + 8), (stored r (p + n + 8) (m - 8)). simpl. heap_consts.
    rewrite lookup_insert_eq, stored_length by lia. split_and!; [done|lia..].
Qed.

Lemma no_room_fit h bs size : heap_ok h bs -> 0 <= size <= 65535 -> fit (block_size size) 0 bs = None ->
  no_room (data (ram h) 0 bs) size.
Proof.
  intros [Hok Hsep] Hsz Hfit a Ha Hle. destruct (block_size_spec size Hsz) as (_ & ? & _). heap_consts.
  eapply data_no_room; [by eapply ok_blocks|done|done|lia|lia|lia].
Qed.

(** The place of a free block is fresh. *)
Lemma fresh_block h pre n u post r : heap_ok h (pre ++ (n, false) :: post) -> 12 <= u <= n - 8 ->
  fresh (data (ram h) 0 (pre ++ (n, false) :: post)) (span pre + 8) (stored r (span pre + 8) u).
Proof.
  intros [Hok _] Hu.
  destruct (shape_at _ _ _ _ _ Hok) as [prv [Hlen Hseg Hn Hnm Hnext Hprev Hused Hblk Hsum Hq0 Hp0]].
  pose proof (segment_20 _ _ _ _ _ _ Hseg) as Hpre. pose proof (blocks_20 _ _ _ _ Hblk) as Hpost.
  change (pre ++ (n, false) :: post) with (pre ++ [(n, false)] ++ post). rewrite !data_app, Z.add_0_l. simpl.
  rewrite Z.add_0_r, (left_id_L ∅ (∪)). unfold fresh. rewrite stored_length by lia. heap_consts. split_and!.
  - apply lookup_union_None. split; apply data_out; heap_consts; try done; lia.
  - rewrite Z.add_mod, (segment_mod4 _ _ _ _ _ _ Hseg) by done. done.
  - lia.
  - lia.
  - intros q d Hq. apply lookup_union_Some_raw in Hq as [Hq|[_ Hq]]; apply data_bound in Hq; heap_consts; try done; lia.
Qed.

Lemma data_block r pre n post : Forall (fun b => 20 <= b.1) pre -> 20 <= n -> 0 <= span pre ->
  data r 0 (pre ++ (n, true) :: post) !! (span pre + 8) = Some (stored r (span pre + 8) (n - 8)).
Proof.
  intros Hpre Hn Hs. change (pre ++ (n, true) :: post) with (pre ++ [(n, true)] ++ post).
  rewrite data_app, lookup_union_r by (apply data_out; [done|heap_consts; lia]). simpl. heap_consts. apply lookup_insert_eq.
Qed.

(** ** Loads and stores through a client's pointer *)

Lemma stored_insert r a n i v : 0 <= a -> 0 <= i < n -> a + n <= Z.of_nat (length r) ->
  stored (wr8 r (a + i) v) a n = <[Z.to_nat i := u8 v]> (stored r a n).
Proof.
  intros Ha Hi Hl. apply list_eq. intros k. destruct (decide (k = Z.to_nat i)) as [->|Hk].
  - rewrite list_lookup_insert_eq by (apply Nat2Z.inj_lt; rewrite stored_length by lia; lia).
    unfold stored. rewrite list_lookup_fmap, lookup_seqZ_lt by lia. simpl. rewrite Z2Nat.id by lia.
    by rewrite rd8_wr8_same by lia.
  - rewrite list_lookup_insert_ne by done. unfold stored. rewrite !list_lookup_fmap.
    destruct (seqZ a n !! k) as [x|] eqn:E; [|done]. simpl. apply lookup_seqZ in E. by rewrite rd8_wr8_other by lia.
Qed.

Lemma shape_store h pre n post i v :
  heap_ok h (pre ++ (n, true) :: post) -> 0 <= i < n - 8 ->
  let h' := set_ram (wr8 (ram h) (span pre + 8 + i) v) h in
  heap_ok h' (pre ++ (n, true) :: post) /\
  data (ram h') 0 (pre ++ (n, true) :: post) =
    <[span pre + 8 := <[Z.to_nat i := u8 v]> (stored (ram h) (span pre + 8) (n - 8))]>
      (data (ram h) 0 (pre ++ (n, true) :: post)).
Proof.
  intros [Hok Hsep] Hi h'. pose proof Hok as [_ _ Hlf He].
  destruct (shape_at _ _ _ _ _ Hok) as [prv [Hlen Hseg Hn Hnm Hnext Hprev Hused Hblk Hsum Hq0 Hp0]].
  pose proof (segment_20 _ _ _ _ _ _ Hseg) as Hpre. pose proof (blocks_20 _ _ _ _ Hblk) as Hpost.
  heap_consts. split; [split; [|done]|].
  - apply (shape_replace _ _ pre [(n, true)] post prv); simpl.
    + by autorewrite with ram.
    + eapply segment_frame; [done|lia|]. intros x Hx. by ram.
    + split; [done|]. split; [split_and!; ram; done|]. eapply blocks_frame; [done|lia|]. intros x Hx. by ram.
    + done.
    + by ram.
  - change (pre ++ (n, true) :: post) with (pre ++ [(n, true)] ++ post).
    rewrite (data_around (ram h) (ram h')), (data_around (ram h) (ram h)); try done;
      try (by repeat constructor; simpl; lia); [|simpl; intros x Hx0 Hx1; by ram].
    simpl. rewrite Z.add_0_r. heap_consts. rewrite stored_insert by lia.
    rewrite <- !insert_union_l, !(left_id_L ∅ (∪)).
    rewrite <- !insert_union_r by (apply data_out; [done|heap_consts; lia]). by rewrite insert_insert_eq.
Qed.

Lemma represents_object h μ p c : represents h μ -> μ !! p = Some c ->
  exists pre n post, heap_ok h (pre ++ (n, true) :: post) /\ data (ram h) 0 (pre ++ (n, true) :: post) = μ /\
    p = span pre + 8 /\ c = stored (ram h) p (n - 8) /\ Z.of_nat (length c) = n - 8 /\
    0 <= span pre /\ span pre + n <= 1600 /\ 20 <= n /\ n mod 4 = 0 /\ Z.of_nat (length (ram h)) = 1616.
Proof.
  intros (bs & [Hok Hsep] & <-) Hp. destruct (data_lookup _ _ _ _ _ _ (ok_blocks _ _ Hok) Hp) as (pre & n & post & -> & -> & ->).
  destruct (shape_at _ _ _ _ _ Hok) as [prv [Hlen Hseg Hn Hnm Hnext Hprev Hused Hblk Hsum Hq0 Hp0]].
  exists pre, n, post. rewrite stored_length by lia. rewrite Z.add_0_l in *. split_and!; try done; lia.
Qed.

Lemma wp_store h μ p c i v (Q : unit -> heap_state -> Prop) :
  represents h μ -> μ !! p = Some c -> 0 <= i < Z.of_nat (length c) ->
  (forall h', represents h' (<[p := <[Z.to_nat i := u8 v]> c]> μ) -> Q tt h') -> wp (ram_store8 (p + i) v) Q h.
Proof.
  intros HR Hp Hi HQ. destruct (represents_object _ _ _ _ HR Hp) as (pre & n & post & Hok & <- & -> & Hc & Hl & ? & ? & ? & ? & ?).
  rewrite Hl in Hi. destruct (shape_store h pre n post i v Hok Hi) as [Hok' Hd'].
  apply wp_store8; [lia|lia|]. apply HQ. eexists. split; [exact Hok'|]. by rewrite Hd', Hc.
Qed.

Lemma wp_memset h μ p k : forall i c (Q : unit -> heap_state -> Prop) μ',
  represents h μ' -> μ' = <[p := c]> μ -> 0 <= i -> i + Z.of_nat k <= Z.of_nat (length c) ->
  Forall (fun b => b = 0) (take (Z.to_nat i) c) ->
  (forall h' c', represents h' (<[p := c']> μ) -> length c' = length c ->
     Forall (fun b => b = 0) (take (Z.to_nat i + k) c') -> Q tt h') ->
  wp (for_each (seqZ i (Z.of_nat k)) (fun i => ram_store8 (p + i) 0)) Q h.
Proof.
  revert h. induction k as [|k IH]; intros h i c Q μ' HR -> Hi Hk Hz HQ.
  - simpl. apply wp_ret. apply (HQ _ c); [done|done|]. by rewrite Nat.add_0_r.
  - rewrite seqZ_cons by lia. cbn [for_each]. apply wp_bind.
    eapply (wp_store _ _ p c); [done|apply lookup_insert_eq|lia|]. intros h1 HR1. rewrite insert_insert_eq in HR1.
    replace (Z.pred (Z.of_nat (S k))) with (Z.of_nat k) by lia. eapply (IH h1 (Z.succ i)); [done|done|lia|rewrite length_insert; lia| |].
    + apply Forall_lookup. intros j x Hx. apply lookup_take_Some in Hx as [Hx Hj].
      destruct (decide (j = Z.to_nat i)) as [->|Hji].
      * rewrite list_lookup_insert_eq in Hx by lia. by injection Hx.
      * rewrite list_lookup_insert_ne in Hx by done. rewrite Forall_lookup in Hz. apply (Hz j). apply lookup_take_Some. split; [done|lia].
    + intros h' c' HR' Hl' Hz'. apply (HQ h' c'); [done|by rewrite Hl', length_insert|].
      by replace (Z.to_nat i + S k)%nat with (Z.to_nat (Z.succ i) + k)%nat by lia.
Qed.

Lemma granted_bounds n size : 12 <= size <= n - 8 -> 12 <= granted n size <= n - 8.
Proof. unfold granted. case_match; lia. Qed.

(** Allocation against the abstract store. *)
Lemma wp_malloc h μ size (Q : option Z -> heap_state -> Prop) :
  represents h μ -> 0 <= size <= 65535 ->
  (size = 0 \/ MEM_SIZE_ALIGNED < size \/ no_room μ size -> Q None h) ->
  (forall h' p c, 0 < size <= Z.of_nat (length c) -> fresh μ p c -> represents h' (<[p := c]> μ) -> Q (Some p) h') ->
  wp (mem_malloc size) Q h.
Proof.
  intros (bs & Hok & <-) Hsz HN HS. eapply wp_mem_malloc; [done|done| |].
  - intros Hn. apply HN. destruct Hn as [?|[?|Hfit]]; [by left|right; left; done|right; right].
    by apply no_room_fit.
  - intros h' pre n post Hs -> (Hn & Hb & Hg) Hok' Hd'. heap_consts. destruct (block_size_spec size Hsz) as (_ & ? & _).
    destruct (granted_bounds n (block_size size)) as [Hg1 Hg2]; [lia|].
    apply (HS h' _ (stored (ram h') (span pre + 8) (granted n (block_size size)))).
    + rewrite stored_length; lia.
    + by apply fresh_block.
    + eexists. split; [exact Hok'|done].
Qed.

Lemma wp_calloc h μ count size (Q : option Z -> heap_state -> Prop) :
  represents h μ -> 0 <= count <= 65535 -> 0 <= size <= 65535 ->
  (count * size = 0 \/ MEM_SIZE_ALIGNED < count * size \/ no_room μ (count * size) -> Q None h) ->
  (forall h' p c, 0 < count * size <= Z.of_nat (length c) -> fresh μ p c ->
     Forall (fun b => b = 0) (take (Z.to_nat (count * size)) c) -> represents h' (<[p := c]> μ) -> Q (Some p) h') ->
  wp (mem_calloc count size) Q h.
Proof.
  intros HR Hc Hs HN HS. unfold mem_calloc. assert (0 <= count * size <= 65535 * 65535) by nia.
  set (k := count * size) in *. replace (u32 k) with k by (symmetry; apply Z.mod_small; lia).
  destruct (u16 k =? k) eqn:E; simpl; [apply Z.eqb_eq in E|apply HN; right; left; apply Z.eqb_neq in E].
  - rewrite E. assert (0 <= k < 65536) by (rewrite <- E; apply u16_range).
    apply wp_bind. eapply wp_malloc; [done|lia|done|]. intros h' p c Hk Hf HR'. apply wp_bind.
    replace k with (Z.of_nat (Z.to_nat k)) at 1 by lia.
    eapply (wp_memset _ μ p (Z.to_nat k) 0 c); [done|done|done|lia|constructor|].
    intros h2 c' HR2 Hl Hz. apply wp_ret. apply (HS h2 p c'); [lia| |done|done].
    destruct Hf as (? & ? & ? & ? & Hd). unfold fresh. rewrite Hl. by split_and!.
  - unfold u16 in E. heap_consts. destruct (decide (k < 65536)); [|lia]. by rewrite Z.mod_small in E by lia.
Qed.

(** ** The refinement *)

Lemma wp_serve h μ q (Q : answer -> heap_state -> Prop) :
  represents h μ -> legal μ q ->
  (forall a μ' h', step μ q a μ' -> represents h' μ' -> Q a h') -> wp (serve q) Q h.
Proof.
  intros HR Hq HQ. destruct q as [size|count size|p|p size|p i v|p i]; simpl serve; apply wp_bind.
  - eapply wp_malloc; [done|done| |].
    + intros Hn. apply wp_ret. by eapply HQ; [constructor|].
    + intros h' p c Hs Hf HR'. apply wp_ret. by eapply HQ; [constructor|].
  - destruct Hq as [Hc Hs]. eapply wp_calloc; [done|done|done| |].
    + intros Hn. apply wp_ret. by eapply HQ; [constructor|].
    + intros h' p c Hk Hf Hz HR'. apply wp_ret. by eapply HQ; [constructor|].
  - destruct p as [p|]; [|apply wp_ret, wp_ret; by eapply HQ; [constructor|]].
    destruct Hq as [c Hp]. destruct (represents_object _ _ _ _ HR Hp) as (pre & n & post & Hok & <- & -> & _).
    eapply wp_mem_free; [done|]. intros h' bs' Hok' Hd'. apply wp_ret. eapply HQ; [constructor|]. by eexists.
  - destruct Hq as [[c Hp] Hs]. destruct (represents_object _ _ _ _ HR Hp) as (pre & n & post & Hok & <- & -> & Hc & Hl & ? & ? & ? & Hm & ?).
    eapply wp_mem_trim; [done|done| |].
    + intros Hn. apply wp_ret. eapply HQ; [|done]. econstructor; [done|].
      destruct (decide (n - 8 < size)); [lia|]. pose proof (block_size_least size (n - 8)).
      assert ((n - 8) mod 4 = 0) by (by rewrite Zminus_mod, Hm). lia.
    + intros h' bs' k Hk Hok' Hd'. apply wp_ret. eapply HQ; [eapply (step_trim _ _ _ c k); [done|lia]|].
      eexists. split; [done|]. by rewrite Hd', Hc.
  - destruct Hq as (c & Hp & Hi). eapply wp_store; [done..|]. intros h' HR'. apply wp_ret. by eapply HQ; [constructor|].
  - destruct Hq as (c & Hp & Hi). destruct (represents_object _ _ _ _ HR Hp) as (pre & n & post & Hok & <- & -> & Hc & Hl & ? & ? & ? & Hm & ?).
    apply wp_load8; [lia..|]. apply wp_ret. eapply HQ; [|by eexists]. econstructor; [done|].
    rewrite Hc. unfold stored. rewrite list_lookup_fmap, lookup_seqZ_lt by lia. simpl. by rewrite Z2Nat.id by lia.
Qed.

Lemma serve_client_refines c : forall h μ, represents h μ -> well_behaved μ c ->
  wp (serve_client c) (fun tr h' => exists μ', steps μ tr μ' /\ represents h' μ') h.
Proof.
  induction c as [|q k IH]; intros h μ HR Hc.
  - apply wp_ret. exists μ. split; [constructor|done].
  - destruct Hc as [Hq Hk]. cbn [serve_client]. apply wp_bind. eapply wp_serve; [done|done|].
    intros a μ1 h1 Hs HR1. apply wp_bind. eapply wp_mono; [apply (IH a h1 μ1); eauto|].
    intros tr h2 (μ2 & Hs2 & HR2). apply wp_ret. exists μ2. split; [by econstructor|done].
Qed.

Lemma wp_mem_init h (Q : unit -> heap_state -> Prop) :
  Z.of_nat (length (ram h)) = ram_heap_size -> (forall h', represents h' ∅ -> Q tt h') -> wp mem_init Q h.
Proof.
  intros Hl HQ. change ram_heap_size with 1616 in Hl. unfold mem_init. heap_consts. do 7 hstep. apply HQ.
  exists [(1600, false)]. split; [split; [constructor|done]|done]; simpl.
  - by autorewrite with ram.
  - split; [done|]. split; [split_and!; ram; done|done].
  - done.
  - heap_consts. by ram.
Qed.

(** C3. Refinement of the store of objects. Whatever the heap's array holds
    before [mem_init], and whatever requests a client makes that uses only the
    objects it was given and within their bounds - its next request may
    depend on all answers - the functions of mem.c run to their end, without
    an access outside the array, and answer as the abstract store does: a new
    object is aligned and apart from all others, NULL is returned only when
    there is no room, and what is stored in an object stays there, whatever
    happens to the others, until it is freed. *)
Theorem heap_refines h c :
  Z.of_nat (length (ram h)) = ram_heap_size -> well_behaved ∅ c ->
  wp (mem_init;; serve_client c) (fun tr h' => exists μ, steps ∅ tr μ /\ represents h' μ) h.
Proof. intros Hl Hc. apply wp_bind, wp_mem_init; [done|]. intros h' HR. by apply serve_client_refines. Qed.

Lemma empty_blocks r bs p prv : blocks r p prv bs -> separate bs -> data r p bs = ∅ ->
  bs = [] \/ exists n, bs = [(n, false)].
Proof.
  destruct bs as [|[n []] bs]; simpl; [by left|..].
  - intros _ _ He. exfalso. revert He. apply insert_non_empty.
  - intros (_ & _ & Hb) Hs He. right. destruct bs as [|[m w] bs]; [by eexists|].
    destruct Hs as [-> _]. simpl in He. exfalso. revert He. apply insert_non_empty.
Qed.

Lemma wp_frees ps : forall h μ (Q : unit -> heap_state -> Prop),
  represents h μ -> ps ≡ₚ (map_to_list μ).*1 -> (forall h', represents h' ∅ -> Q tt h') ->
  wp (for_each ps (fun p => mem_free (Some p))) Q h.
Proof.
  induction ps as [|p ps IH]; intros h μ Q HR Hps HQ; cbn [for_each].
  - apply wp_ret, HQ. symmetry in Hps. apply Permutation_nil_r, fmap_nil_inv, map_to_list_empty_iff in Hps. by subst.
  - assert (Hin : p ∈ (map_to_list μ).*1) by (rewrite <- Hps; left).
    apply list_elem_of_fmap in Hin as ([x c] & -> & Hin). apply elem_of_map_to_list in Hin. simpl in *.
    destruct (represents_object _ _ _ _ HR Hin) as (pre & n & post & Hok & Hd & -> & _).
    apply wp_bind. eapply wp_mem_free; [done|]. intros h' bs' Hok' Hd'.
    apply (IH h' (delete (span pre + SIZEOF_STRUCT_MEM) μ)); [|rewrite <- (map_to_list_delete _ _ _ Hin) in Hps|done].
    + eexists. split; [exact Hok'|]. by rewrite Hd', Hd.
    + by eapply Permutation_cons_inv.
Qed.

(** The heap has become one block again: any size up to the whole array less
    one header is granted at its start. *)
Lemma wp_malloc_empty h size :
  represents h ∅ -> 0 < size <= MEM_SIZE_ALIGNED - SIZEOF_STRUCT_MEM ->
  wp (mem_malloc size) (fun p h' => p = Some SIZEOF_STRUCT_MEM /\
    exists c, size <= Z.of_nat (length c) /\ represents h' {[SIZEOF_STRUCT_MEM := c]}) h.
Proof.
  intros (bs & Hok & Hd) Hsz. heap_consts. pose proof Hok as [Hsh Hsep].
  pose proof (blocks_span _ _ _ _ (ok_blocks _ _ Hsh)) as [Hsp _]. heap_consts.
  destruct (block_size_spec size ltac:(lia)) as (? & Hb & _).
  pose proof (block_size_least size 1592 ltac:(lia) ltac:(lia) ltac:(lia) eq_refl).
  destruct (empty_blocks _ _ _ _ (ok_blocks _ _ Hsh) Hsep Hd) as [->|[n ->]]; [done|]. simpl in Hsp.
  eapply wp_mem_malloc; [done|lia| |].
  - intros [?|[?|Hf]]; [lia..|]. simpl in Hf. by rewrite (proj2 (Z.leb_le _ _)) in Hf by lia.
  - intros h' pre m post _ E (? & ? & ?) Hok' Hd'. destruct pre as [|x [|y pre]]; simplify_eq.
    heap_consts. split; [done|]. exists (stored (ram h') 8 (granted m (block_size size))). split.
    + rewrite stored_length; [done|]. destruct (granted_bounds m (block_size size)); lia.
    + eexists. split; [exact Hok'|]. cbn [span foldr] in Hd'. rewrite Hd, Z.add_0_l in Hd'. exact Hd'.
Qed.

(** C26. No fragmentation is left behind. Let the heap hold any objects, in
    blocks of any sizes and with any free blocks among them (whatever a client
    has done since [mem_init], see C3). When [mem_free] is run on each of these
    objects, in whatever order, every call merges the block it frees with its
    free neighbours, so that [mem_malloc] then grants an object of any size up
    to the whole array less one header, at the array's start. *)
Theorem heap_recovers h μ ps size :
  represents h μ -> ps ≡ₚ (map_to_list μ).*1 -> 0 < size <= MEM_SIZE_ALIGNED - SIZEOF_STRUCT_MEM ->
  wp (for_each ps (fun p => mem_free (Some p));; mem_malloc size) (fun p h' => p = Some SIZEOF_STRUCT_MEM /\
    exists c, size <= Z.of_nat (length c) /\ represents h' {[SIZEOF_STRUCT_MEM := c]}) h.
Proof. intros HR Hps Hs. apply wp_bind. eapply wp_frees; [done|done|]. intros h' HR'. by apply wp_malloc_empty. Qed.

(** A pointer that is not that of an allocated object - NULL, not
    aligned, outside the array, or that of a block that is free already - is
    refused by [mem_free], and the heap is left as it was. *)
Theorem mem_free_refuses h bs p :
  heap_ok h bs ->
  match p with
  | None => True
  | Some x => x mod MEM_ALIGNMENT <> 0 \/ x < SIZEOF_STRUCT_MEM \/ MEM_SIZE_ALIGNED - MIN_SIZE_ALIGNED < x \/
      exists pre n post, bs = pre ++ (n, false) :: post /\ x = span pre + SIZEOF_STRUCT_MEM
  end ->
  mem_free p h = Ret tt h.
Proof.
  intros [Hok _] Hp. enough (Hw : wp (mem_free p) (fun _ s => s = h) h).
  { apply wp_elim in Hw as ([] & s & E & ->). done. }
  unfold mem_free. destruct p as [x|]; [|done]. rewrite land_3. change MEM_ALIGNMENT with 4 in Hp. heap_consts.
  destruct (x mod 4 =? 0) eqn:E1; [|done]. apply Z.eqb_eq in E1. simpl.
  destruct ((x - 8 <? 0) || (1600 <? x + 12)) eqn:E2; [done|]. apply orb_false_iff in E2 as [E2 E3].
  apply Z.ltb_ge in E2, E3. destruct Hp as [?|[?|[?|(pre & n & post & -> & ->)]]]; [done|lia..|].
  destruct (shape_at _ _ _ _ _ Hok) as [prv [Hlen Hseg Hn Hnm Hnext Hprev Hused Hblk Hsum Hq0 Hp0]].
  replace (span pre + 8 - 8) with (span pre) by lia. hstep. by rewrite Hused.
Qed.

(** ** Instances *)

Definition raw_heap : heap_state := HeapState (replicate 1616 0xAA) 0.

(** A client that keeps two objects, cuts one, and frees both. *)
Definition demo : client :=
  Ask (Malloc 100) (fun a => match a with
  | Pointer (Some p) =>
    Ask (Calloc 3 5) (fun b => match b with
    | Pointer (Some q) =>
      Ask (Store p 99 300) (fun _ => Ask (Load q 14) (fun _ => Ask (Trim p 41) (fun _ =>
      Ask (Free (Some p)) (fun _ => Ask (Free (Some q)) (fun _ => End)))))
    | _ => End
    end)
  | _ => End
  end).

Lemma well_behaved_malloc μ size k : 0 <= size <= 65535 -> well_behaved μ (k (Pointer None)) ->
  (forall p c, size <= Z.of_nat (length c) -> fresh μ p c -> well_behaved (<[p := c]> μ) (k (Pointer (Some p)))) ->
  well_behaved μ (Ask (Malloc size) k).
Proof. intros Hs Hn Hk. split; [done|]. intros a μ' Hst. inversion Hst; subst; [apply Hk; [lia|done]|done]. Qed.

Lemma well_behaved_calloc μ count size k : 0 <= count <= 65535 -> 0 <= size <= 65535 -> well_behaved μ (k (Pointer None)) ->
  (forall p c, count * size <= Z.of_nat (length c) -> fresh μ p c -> well_behaved (<[p := c]> μ) (k (Pointer (Some p)))) ->
  well_behaved μ (Ask (Calloc count size) k).
Proof. intros Hc Hs Hn Hk. split; [done|]. intros a μ' Hst. inversion Hst; subst; [apply Hk; [lia|done]|done]. Qed.

Lemma demo_well_behaved : well_behaved ∅ demo.
Proof.
  apply well_behaved_malloc; [lia|done|]. intros p c Hc Hf. apply well_behaved_calloc; [lia|lia|done|].
  intros q d Hd (Hfresh & _). assert (Hqp : q <> p) by (intros ->; by rewrite lookup_insert_eq in Hfresh).
  split; [exists c; rewrite lookup_insert_ne, lookup_insert_eq by done; split; [done|lia]|].
  intros ? μ Hu. inversion Hu; subst.
  split; [exists d; rewrite lookup_insert_ne, lookup_insert_eq by done; split; [done|lia]|].
  intros ? μ Hl. inversion Hl; subst. split; [split; [eexists; apply lookup_insert_eq|lia]|].
  intros ? μ Hv. inversion Hv; subst; (split; [eexists; rewrite ?lookup_insert_eq; reflexivity|]);
    intros ? μ Hw; inversion Hw; subst;
    (split; [exists d; by rewrite ?lookup_delete_ne, ?lookup_insert_ne, ?lookup_insert_eq by done|done]).
Qed.

Lemma heap_refines_witness :
  outcome_val ((mem_init;; serve_client demo) raw_heap) =
    Some [(Malloc 100, Pointer (Some 8)); (Calloc 3 5, Pointer (Some 116)); (Store 8 99 300, Done);
          (Load 116 14, Byte 0); (Trim 8 41, Pointer (Some 8)); (Free (Some 8), Done); (Free (Some 116), Done)] /\
  wp (mem_init;; serve_client demo) (fun tr h' => exists μ, steps ∅ tr μ /\ represents h' μ) raw_heap.
Proof. split; [vm_compute; reflexivity|]. apply heap_refines; [reflexivity|exact demo_well_behaved]. Defined.

Definition fresh_heap : heap_state := outcome_state (mem_init raw_heap).

Lemma fresh_represents : represents fresh_heap ∅.
Proof.
  assert (Hw : wp mem_init (fun _ h' => represents h' ∅) raw_heap) by (by apply wp_mem_init).
  apply wp_elim in Hw as (a & s & E & HR). unfold fresh_heap. by rewrite E.
Qed.

(** Four objects one after another, that fill part of the array, none of which
    is freed yet. *)
Definition four_objects : M heap_state (list (option Z)) :=
  p ← mem_malloc 100; q ← mem_malloc 700; r ← mem_malloc 13; t ← mem_malloc 300; mret [p; q; r; t].

Definition full_heap : heap_state := outcome_state (four_objects fresh_heap).

Definition full_objects : objects := data (ram full_heap) 0 [(108, true); (708, true); (24, true); (308, true); (452, false)].

Lemma full_represents : represents full_heap full_objects.
Proof. eexists. split; [|reflexivity]. by repeat split; vm_compute. Qed.

Lemma full_keys : [116; 824; 8; 848] ≡ₚ (map_to_list full_objects).*1.
Proof. by apply (bool_decide_unpack _); vm_compute. Qed.

(** The second and the third object first, then the first, then the last. *)
Lemma heap_recovers_witness :
  represents full_heap full_objects /\
  wp (for_each [116; 824; 8; 848] (fun p => mem_free (Some p));; mem_malloc 1592) (fun p h' => p = Some SIZEOF_STRUCT_MEM /\
    exists c, 1592 <= Z.of_nat (length c) /\ represents h' {[SIZEOF_STRUCT_MEM := c]}) full_heap.
Proof.
  split; [exact full_represents|].
  apply (heap_recovers full_heap full_objects); [exact full_represents|exact full_keys|split; [reflexivity|discriminate]].
Defined.

Lemma fresh_heap_ok : heap_ok fresh_heap [(1600, false)].
Proof. by repeat split; vm_compute. Qed.

Lemma mem_free_refuses_witness : mem_free (Some 8) fresh_heap = Ret tt fresh_heap.
Proof.
  apply (mem_free_refuses fresh_heap [(1600, false)] (Some 8) fresh_heap_ok).
  right; right; right. exists [], 1600, []. split; reflexivity.
Defined.
