(* ===== verification/PbufRam.v ===== *)
(** Packet buffers from the heap: the interface between [pbuf.c] and [mem.c],
    what [pbuf.c] gets through it, and that [mem.c] provides it. *)
From stdpp Require Import functions.
From S2P Require Import Prelude Memp Pbuf PbufFacts PbufAlloc Heap HeapFacts HeapAlloc HeapSpec.

(** ** The interface *)

(** What a heap promises, in terms of the sizes of the live blocks. *)
Class HeapLaws `{HeapOps} : Type := {
  owns : hstate -> gmap Z Z -> Prop;
  law_malloc n h σ : owns h σ -> 0 < n <= 65535 ->
    match heap_malloc n h with
    | (Some (o, bs), h') => σ !! o = None /\ Z.of_nat (length bs) = n /\ exists k, n <= k /\ owns h' (<[o := k]> σ)
    | (None, h') => owns h' σ
    end;
  law_free o h σ : owns h σ -> is_Some (σ !! o) -> owns (heap_free o h) (delete o σ);
  law_trim o n k h σ : owns h σ -> σ !! o = Some k -> 0 <= n <= k -> n <= 65535 ->
    exists k', n <= k' <= k /\ owns (heap_trim o n h) (<[o := k']> σ)
}.

(** ** The client *)
Section Client.
Context `{HL : HeapLaws} `{CF : !CustomFree}.

(** The heap's live blocks are [σ]; pbufs and areas in the heap are in them. *)
Definition heap_ready (m : mem) (σ : gmap Z Z) : Prop :=
  owns (heap m) σ /\ forall o, σ !! o = None -> pbufs m !! Heap o = None /\ bytes m !! Heap o = None.

(** Only the heap's own state may differ. *)
Definition same_but_heap (m m' : mem) : Prop :=
  mpools m' = mpools m /\ pbufs m' = pbufs m /\ bytes m' = bytes m /\
  pbuf_free_ooseq_pending m' = pbuf_free_ooseq_pending m /\ originals m' = originals m.

(** A pbuf of its own heap block. *)
Definition ram_buf (o : Z) (layer : pbuf_layer) (length : Z) : pbuf :=
  Pbuf None (Some (Heap o, LWIP_MEM_ALIGN_SIZE (pbuf_layer_value layer))) length length
    (u8 (pbuf_type_value PBUF_RAM)) 0 1 NETIF_NO_INDEX.

Lemma layer_room layer : pbuf_layer_value layer <= LWIP_MEM_ALIGN_SIZE (pbuf_layer_value layer) <= 56.
Proof. by destruct layer. Qed.

Lemma ram_buf_typed o layer n : well_typed (Heap o) (ram_buf o layer n).
Proof. done. Qed.

Lemma ram_buf_packet m o layer n a :
  0 <= n < 65536 -> pbufs m !! Heap o = Some (ram_buf o layer n) -> bytes m !! Heap o = Some a ->
  LWIP_MEM_ALIGN_SIZE (pbuf_layer_value layer) + n <= Z.of_nat (length a) ->
  packet m (Some (Heap o)) [Node (Heap o) (ram_buf o layer n)
    (take (Z.to_nat n) (drop (Z.to_nat (LWIP_MEM_ALIGN_SIZE (pbuf_layer_value layer))) a))].
Proof.
  intros Hn Hp Ha Hl. pose proof (layer_room layer) as [_ Hlr]. assert (0 <= LWIP_MEM_ALIGN_SIZE (pbuf_layer_value layer)) by (by destruct layer).
  set (off := LWIP_MEM_ALIGN_SIZE (pbuf_layer_value layer)) in *.
  assert (Hd : Z.of_nat (length (take (Z.to_nat n) (drop (Z.to_nat off) a))) = n)
    by (rewrite length_take, length_drop; lia).
  split; simpl.
  - split_and!; [done|done| |done]. split; [done|]. simpl. exists a. fold off. split_and!; [done|lia|done|].
    f_equal. lia.
  - split; [|done]. unfold total, contents. simpl. by rewrite app_nil_r.
  - apply NoDup_singleton.
  - apply NoDup_singleton.
  - unfold total, contents. simpl. rewrite app_nil_r. lia.
Qed.

Lemma alloc_len_bounds layer n : 0 <= n <= 65535 ->
  let payload_len := u16 (LWIP_MEM_ALIGN_SIZE (pbuf_layer_value layer) + LWIP_MEM_ALIGN_SIZE n) in
  let alloc_len := u16 (LWIP_MEM_ALIGN_SIZE SIZEOF_STRUCT_PBUF + payload_len) in
  (payload_len <? LWIP_MEM_ALIGN_SIZE n) || (alloc_len <? LWIP_MEM_ALIGN_SIZE n) = false ->
  0 < alloc_len <= 65535 /\ LWIP_MEM_ALIGN_SIZE (pbuf_layer_value layer) + n <= alloc_len - SIZEOF_STRUCT_PBUF.
Proof.
  intros Hn payload_len alloc_len Hb. apply orb_false_iff in Hb as [H1 H2]. apply Z.ltb_ge in H1, H2.
  pose proof (layer_room layer). assert (0 <= LWIP_MEM_ALIGN_SIZE (pbuf_layer_value layer)) by (by destruct layer).
  change SIZEOF_STRUCT_PBUF with 16. unfold alloc_len, payload_len in *. change (LWIP_MEM_ALIGN_SIZE SIZEOF_STRUCT_PBUF) with 16 in *.
  set (off := LWIP_MEM_ALIGN_SIZE _) in *. rewrite !align_eq in * by lia. unfold u16 in *. change (2 ^ 16) with 65536 in *.
  clearbody off. clear payload_len alloc_len. Z.div_mod_to_equations. lia.
Qed.

(** The memory after an allocation of the block [o] with the bytes [a]. *)
Definition ram_alloced (o : Z) (layer : pbuf_layer) (length : Z) (a : list Z) (h' : hstate) (m : mem) : mem :=
  set_pbufs (<[Heap o := ram_buf o layer length]> (pbufs m)) (set_bytes (<[Heap o := a]> (bytes m)) (set_heap h' m)).

Lemma wp_pbuf_alloc_ram m σ layer length (Q : option loc -> mem -> Prop) :
  heap_ready m σ -> 0 <= length < 65536 ->
  (forall h', owns h' σ -> Q None (set_heap h' m)) ->
  (forall o k a h', σ !! o = None -> owns h' (<[o := k]> σ) ->
     LWIP_MEM_ALIGN_SIZE (pbuf_layer_value layer) + length <= Z.of_nat (List.length a) ->
     Q (Some (Heap o)) (ram_alloced o layer length a h' m)) ->
  wp (pbuf_alloc layer length PBUF_RAM) Q m.
Proof.
  intros [Ho Hr] Hlen HN HS. unfold pbuf_alloc. case_match eqn:Hov.
  { apply wp_ret. replace m with (set_heap (heap m) m) by (by destruct m). by apply HN. }
  destruct (alloc_len_bounds layer length ltac:(lia) Hov) as [Hab Hroom]. clear Hov. set (n := u16 (_ + u16 _)) in *.
  pose proof (law_malloc n (heap m) σ Ho Hab) as Hlaw. unfold wp, mem_malloc_at, mbind, M_bind, get.
  destruct (heap_malloc n (heap m)) as [[[o bs]|] h'] eqn:Em; [|by apply HN].
  destruct Hlaw as (Hfresh & Hbs & k & Hk & Hown). apply (HS o k); [done|done|].
  rewrite length_drop. change SIZEOF_STRUCT_PBUF with 16 in *. lia.
Qed.

Lemma ram_alloced_packet o layer n a h' m : 0 <= n < 65536 ->
  LWIP_MEM_ALIGN_SIZE (pbuf_layer_value layer) + n <= Z.of_nat (length a) ->
  let data := take (Z.to_nat n) (drop (Z.to_nat (LWIP_MEM_ALIGN_SIZE (pbuf_layer_value layer))) a) in
  packet (ram_alloced o layer n a h' m) (Some (Heap o)) [Node (Heap o) (ram_buf o layer n) data] /\ Z.of_nat (length data) = n.
Proof.
  intros Hn Ha data.
  assert (Hp : packet (ram_alloced o layer n a h' m) (Some (Heap o)) [Node (Heap o) (ram_buf o layer n) data])
    by (apply ram_buf_packet; [lia|apply lookup_insert_eq|apply lookup_insert_eq|done]).
  split; [done|]. by destruct (pk_chain _ _ _ Hp) as (_ & _ & [Hd _] & _).
Qed.

Lemma ram_alloced_ready o k layer n a h' m σ : heap_ready m σ -> owns h' (<[o := k]> σ) ->
  heap_ready (ram_alloced o layer n a h' m) (<[o := k]> σ).
Proof.
  intros [_ Hr] Ho. split; [done|]. intros o' Ho'. apply lookup_insert_None in Ho' as [Ho' Hne]. simpl.
  rewrite !lookup_insert_ne by congruence. by apply Hr.
Qed.

(** Its release, after whatever was done to the block alone. *)
Lemma ram_release m0 m o k σ b data : heap_ready m0 σ -> σ !! o = None -> owns (heap m) (<[o := k]> σ) ->
  pbufs m !! Heap o = Some b -> holds m b data -> next b = None -> ref b = 1 -> well_typed (Heap o) b ->
  (forall l, l <> Heap o -> pbufs m !! l = pbufs m0 !! l /\ bytes m !! l = bytes m0 !! l) ->
  mpools m = mpools m0 -> pbuf_free_ooseq_pending m = pbuf_free_ooseq_pending m0 -> originals m = originals m0 ->
  pbuf_free (Some (Heap o)) m = Ret 1 (freed (Heap o) m) /\
  same_but_heap m0 (freed (Heap o) m) /\ heap_ready (freed (Heap o) m) σ.
Proof.
  intros [_ Hr0] Hfresh Hown Hl Hh Hn Href Hty Hsame Hpools Hpend Horig. destruct (Hr0 o Hfresh) as [Hp0 Hb0].
  assert (Hdel : forall {A} (x y : gmap loc A), (forall l, l <> Heap o -> x !! l = y !! l) -> y !! Heap o = None -> delete (Heap o) x = y).
  { intros A x y Hxy Hy. apply map_eq. intros l. destruct (decide (l = Heap o)) as [->|Hne].
    - by rewrite lookup_delete_eq. - rewrite lookup_delete_ne by done. by apply Hxy. }
  assert (Ep : delete (Heap o) (pbufs m) = pbufs m0) by (apply Hdel; [intros; by apply Hsame|done]).
  assert (Eb : delete (Heap o) (bytes m) = bytes m0) by (apply Hdel; [intros; by apply Hsame|done]).
  split_and!.
  - rewrite (pbuf_free_run m (Heap o) [Node (Heap o) b data]).
    + unfold remaining. simpl. rewrite Href. done.
    + simpl. by rewrite Hn.
    + apply NoDup_singleton.
    + apply Forall_singleton. simpl. by rewrite Href.
  - unfold same_but_heap, freed. simpl. by split_and!.
  - unfold heap_ready, freed. simpl. rewrite Ep, Eb. split; [|done].
    rewrite <- (delete_insert_id σ o k) by done. apply law_free; [done|]. rewrite lookup_insert_eq. eauto.
Qed.

(** A packet buffer in the heap and back. [pbuf_alloc] for PBUF_RAM either
    returns NULL and has changed nothing that a client of the heap can see, or
    a single pbuf of the asked length in a block that was not in use, with
    room for the headers of the layer in front of the payload; releasing it
    gives back the block, and the store is as it was. *)
Theorem pbuf_alloc_ram m σ layer length :
  heap_ready m σ -> 0 <= length < 65536 ->
  exists r m', pbuf_alloc layer length PBUF_RAM m = Ret r m' /\
    match r with
    | None => same_but_heap m m' /\ owns (heap m') σ
    | Some p => exists o k data m'', p = Heap o /\ σ !! o = None /\ heap_ready m' (<[o := k]> σ) /\
        packet m' (Some p) [Node p (ram_buf o layer length) data] /\
        Z.of_nat (List.length data) = length /\
        (forall l, l <> p -> pbufs m' !! l = pbufs m !! l /\ bytes m' !! l = bytes m !! l) /\
        pbuf_free (Some p) m' = Ret 1 m'' /\ same_but_heap m m'' /\ heap_ready m'' σ
    end.
Proof.
  intros Hr Hlen. apply wp_elim, (wp_pbuf_alloc_ram m σ); [done|done|by intros h' Hh|].
  intros o k a h' Hf Hown Ha. destruct (ram_alloced_packet o layer length a h' m Hlen Ha) as [Hp Hd].
  set (m' := ram_alloced _ _ _ _ _ _) in *. set (data := take _ _) in *.
  assert (Hsame : forall l, l <> Heap o -> pbufs m' !! l = pbufs m !! l /\ bytes m' !! l = bytes m !! l)
    by (intros l Hl; simpl; by rewrite !lookup_insert_ne by done).
  destruct (ram_release m m' o k σ (ram_buf o layer length) data) as (E & S & R);
    [done|done|done|apply lookup_insert_eq|apply Hp|done|done|done|done|done|done|done|].
  exists o, k, data, (freed (Heap o) m'). split_and!; try done. by apply ram_alloced_ready.
Qed.
End Client.

(** ** mem.c keeps the promise *)

#[export] Instance mem_c : HeapOps := {|
  hstate := heap_state;
  heap_malloc n h := match mem_malloc n h with
    | Ret (Some p) h' => (Some (p, stored (ram h') p n), h')
    | Ret None h' | Stop _ h' => (None, h')
    end;
  heap_free o h := outcome_state (mem_free (Some o) h);
  heap_trim o n h := outcome_state (mem_trim o n h)
|}.

#[export] Program Instance mem_c_laws : HeapLaws := {|
  owns h σ := exists μ, represents h μ /\ σ = (fun c => Z.of_nat (length c)) <$> μ
|}.
Next Obligation.
  intros n h σ (μ & HR & ->) Hn. cbn [heap_malloc mem_c].
  assert (Hw : wp (mem_malloc n) (fun p h' => match p with
    | None => represents h' μ
    | Some p => exists c, n <= Z.of_nat (length c) /\ fresh μ p c /\ represents h' (<[p := c]> μ)
    end) h) by (eapply wp_malloc; [done|lia|done|]; intros h' p c [_ ?] ? ?; by exists c).
  apply wp_elim in Hw as ([p|] & h' & -> & Hp); [|by exists μ].
  destruct Hp as (c & Hc & (Hf & _) & HR'). split_and!; [by rewrite lookup_fmap, Hf|by apply stored_length; lia|].
  exists (Z.of_nat (length c)). split; [done|]. eexists. split; [exact HR'|]. by rewrite fmap_insert.
Qed.
Next Obligation.
  intros o h σ (μ & HR & ->) [k Hk]. cbn [heap_free mem_c]. rewrite lookup_fmap in Hk. destruct (μ !! o) as [c|] eqn:Ho; [|done].
  assert (Hw : wp (serve (Free (Some o))) (fun _ h' => represents h' (delete o μ)) h).
  { eapply wp_serve; [done|by eexists|]. intros a μ' h' Hs HR'. by inversion Hs; subst. }
  unfold wp, serve, mbind, M_bind in Hw. destruct (mem_free (Some o) h) as [[] h'|]; [|done]. cbn [outcome_state].
  eexists. split; [exact Hw|]. by rewrite fmap_delete.
Qed.
Next Obligation.
  intros o n k h σ (μ & HR & ->) Ho Hn Hn2. cbn [heap_trim mem_c]. rewrite lookup_fmap in Ho.
  destruct (μ !! o) as [c|] eqn:Ec; [|done]. simplify_eq/=.
  assert (Hw : wp (serve (Trim o n)) (fun _ h' => exists k', n <= k' <= Z.of_nat (length c) /\
    represents h' (<[o := take (Z.to_nat k') c]> μ)) h).
  { eapply wp_serve; [done|split; [by eexists|lia]|]. intros a μ' h' Hs HR'. inversion Hs; subst; simplify_eq; [by eexists|lia]. }
  unfold wp, serve, mbind, M_bind in Hw. destruct (mem_trim o n h) as [r h'|]; [|done]. cbn [outcome_state].
  destruct Hw as (k' & Hk' & HR'). exists k'. split; [done|]. eexists. split; [exact HR'|].
  rewrite fmap_insert, length_take. f_equal. lia.
Qed.

(** ** An instance *)

#[local] Instance custom_free_none : CustomFree := fun _ => mret tt.

Definition ram_mem : mem := Mem mem_c (memp_init (fun _ => [])) fresh_heap ∅ ∅ false ∅.

Lemma ram_mem_ready : heap_ready ram_mem ∅.
Proof. split; [|done]. exists ∅. split; [exact fresh_represents|by rewrite fmap_empty]. Qed.

Lemma pbuf_alloc_ram_witness :
  outcome_val (pbuf_alloc PBUF_TRANSPORT 100 PBUF_RAM ram_mem) = Some (Some (Heap 8)) /\
  exists r m', pbuf_alloc PBUF_TRANSPORT 100 PBUF_RAM ram_mem = Ret r m' /\
    match r with
    | None => same_but_heap ram_mem m' /\ owns (heap m') ∅
    | Some p => exists o k data m'', p = Heap o /\ (∅ : gmap Z Z) !! o = None /\ heap_ready m' (<[o := k]> ∅) /\
        packet m' (Some p) [Node p (ram_buf o PBUF_TRANSPORT 100) data] /\
        Z.of_nat (List.length data) = 100 /\
        (forall l, l <> p -> pbufs m' !! l = pbufs ram_mem !! l /\ bytes m' !! l = bytes ram_mem !! l) /\
        pbuf_free (Some p) m' = Ret 1 m'' /\ same_but_heap ram_mem m'' /\ heap_ready m'' ∅
    end.
Proof.
  split; [vm_compute; reflexivity|].
  exact (pbuf_alloc_ram ram_mem ∅ PBUF_TRANSPORT 100 ram_mem_ready ltac:(lia)).
Defined.
