(* ===== verification/Chksum.v ===== *)
(** The Internet checksum: [src/lwip-2.2.1/src/core/inet_chksum.c] (algorithm
    2, the default), and the byte order functions of
    [src/lwip-2.2.1/src/core/def.c], on a little-endian machine.

    The address of a buffer matters only through its lowest bit; a theorem
    holds for every alignment. *)
From stdpp Require Import functions.
From S2P Require Import Prelude Memp Pbuf PbufFacts.

Definition FOLD_U32T (u : Z) : Z := u32 (Z.shiftr u 16 + Z.land u 0xffff).
Definition SWAP_BYTES_IN_WORD (w : Z) : Z := Z.lor (Z.shiftl (Z.land w 0xff) 8) (Z.shiftr (Z.land w 0xff00) 8).

Definition PP_HTONS (x : Z) : Z :=
  u16 (Z.lor (Z.shiftl (Z.land x 0x00ff) 8) (Z.shiftr (Z.land x 0xff00) 8)).
Definition PP_HTONL (x : Z) : Z :=
  u32 (Z.lor (Z.shiftl (Z.land x 0x000000ff) 24)
      (Z.lor (Z.shiftl (Z.land x 0x0000ff00) 8)
      (Z.lor (Z.shiftr (Z.land x 0x00ff0000) 8) (Z.shiftr (Z.land x 0xff000000) 24)))).
Definition lwip_htons (n : Z) : Z := PP_HTONS n.
Definition lwip_htonl (n : Z) : Z := PP_HTONL n.

(** [*ps] for a [const u16_t *]. *)
Definition load16 (lo hi : Z) : Z := lo + 256 * hi.

(** [while (len > 1) { sum += *ps++; len -= 2; }]: the sum, and what is left. *)
Fixpoint sum_words (sum : Z) (ps : list Z) : Z * list Z :=
  match ps with
  | lo :: hi :: ps => sum_words (u32 (sum + load16 lo hi)) ps
  | _ => (sum, ps)
  end.

(** [odd] is [(mem_ptr_t)pb & 1]; the [len] bytes are [data]. *)
Definition lwip_standard_chksum (odd : bool) (data : list Z) : Z :=
  let '(t, pb) :=
    match data with
    | b :: data' => if odd then (load16 0 b, data') else (0, data)
    | [] => (0, [])
    end in
  let '(sum, ps) := sum_words 0 pb in
  let t := match ps with b :: _ => load16 b (Z.shiftr t 8) | [] => t end in
  let sum := u32 (sum + t) in
  let sum := FOLD_U32T sum in
  let sum := FOLD_U32T sum in
  let sum := if odd then SWAP_BYTES_IN_WORD sum else sum in
  u16 sum.

(** [(u16_t)~(unsigned int)LWIP_CHKSUM(dataptr, len)]. *)
Definition inet_chksum (odd : bool) (data : list Z) : Z := u16 (Z.lnot (lwip_standard_chksum odd data)).

Section Chain.
Context `{HeapOps} (odd_at : option ptr -> bool).

(** One round of the loops over the chain; [n] is the number of bytes summed. *)
Definition chksum_pbuf (acc : Z) (swapped : bool) (b : pbuf) (n : Z) : M mem (Z * bool) :=
  data ← read_at (payload b) 0 n;
  let acc := u32 (acc + lwip_standard_chksum (odd_at (payload b)) data) in
  let acc := FOLD_U32T acc in
  mret (if negb (len b mod 2 =? 0) then (SWAP_BYTES_IN_WORD acc, negb swapped) else (acc, swapped)).

Definition chksum_body (x : option loc * Z * bool) : M mem ((option loc * Z * bool) + (Z * bool)) :=
  let '(q, acc, swapped) := x in
  match q with
  | None => mret (inr (acc, swapped))
  | Some l =>
    b ← getp l;
    '(acc, swapped) ← chksum_pbuf acc swapped b (len b);
    mret (inl (next b, acc, swapped))
  end.

Definition inet_chksum_pbuf (p : option loc) : M mem Z :=
  fuel ← chain_fuel;
  '(acc, swapped) ← iter fuel chksum_body (p, 0, false);
  let acc := if (swapped : bool) then SWAP_BYTES_IN_WORD acc else acc in
  mret (u16 (Z.lnot (Z.land acc 0xffff))).

Definition inet_cksum_pseudo_base (p : option loc) (proto proto_len acc : Z) : M mem Z :=
  fuel ← chain_fuel;
  '(acc, swapped) ← iter fuel chksum_body (p, acc, false);
  let acc := if (swapped : bool) then SWAP_BYTES_IN_WORD acc else acc in
  let acc := u32 (acc + lwip_htons (u16 proto)) in
  let acc := u32 (acc + lwip_htons proto_len) in
  let acc := FOLD_U32T acc in
  let acc := FOLD_U32T acc in
  mret (u16 (Z.lnot (Z.land acc 0xffff))).

(** The two addresses of the pseudo header, as 32-bit words. *)
Definition addresses_acc (src dest : Z) : Z :=
  let acc := Z.land src 0xffff in
  let acc := u32 (acc + Z.land (Z.shiftr src 16) 0xffff) in
  let acc := u32 (acc + Z.land dest 0xffff) in
  let acc := u32 (acc + Z.land (Z.shiftr dest 16) 0xffff) in
  FOLD_U32T (FOLD_U32T acc).

Definition inet_chksum_pseudo (p : option loc) (proto proto_len src dest : Z) : M mem Z :=
  inet_cksum_pseudo_base p proto proto_len (addresses_acc src dest).

Definition ip_chksum_pseudo (p : option loc) (proto proto_len src dest : Z) : M mem Z :=
  inet_chksum_pseudo p proto proto_len src dest.

Definition chksum_partial_body (x : option loc * Z * bool * Z) :
    M mem ((option loc * Z * bool * Z) + (Z * bool)) :=
  let '(q, acc, swapped, chksum_len) := x in
  match q with
  | None => mret (inr (acc, swapped))
  | Some l =>
    if chksum_len <=? 0 then mret (inr (acc, swapped))
    else
      b ← getp l;
      let chklen := if chksum_len <? len b then chksum_len else len b in
      '(acc, swapped) ← chksum_pbuf acc swapped b chklen;
      mret (inl (next b, acc, swapped, u16 (chksum_len - chklen)))
  end.

Definition inet_cksum_pseudo_partial_base (p : option loc) (proto proto_len chksum_len acc : Z) : M mem Z :=
  fuel ← chain_fuel;
  '(acc, swapped) ← iter fuel chksum_partial_body (p, acc, false, chksum_len);
  let acc := if (swapped : bool) then SWAP_BYTES_IN_WORD acc else acc in
  let acc := u32 (acc + lwip_htons (u16 proto)) in
  let acc := u32 (acc + lwip_htons proto_len) in
  let acc := FOLD_U32T acc in
  let acc := FOLD_U32T acc in
  mret (u16 (Z.lnot (Z.land acc 0xffff))).

Definition inet_chksum_pseudo_partial (p : option loc) (proto proto_len chksum_len src dest : Z) : M mem Z :=
  inet_cksum_pseudo_partial_base p proto proto_len chksum_len (addresses_acc src dest).

Definition ip_chksum_pseudo_partial (p : option loc) (proto proto_len chksum_len src dest : Z) : M mem Z :=
  inet_chksum_pseudo_partial p proto proto_len chksum_len src dest.
End Chain.

(** [lwip_memcmp_consttime]. *)
Definition lwip_memcmp_consttime (s1 s2 : list Z) : Z :=
  foldl (fun ret '(a1, a2) => u8 (Z.lor ret (Z.lxor a1 a2))) 0 (zip s1 s2).

(** The 16- and the 32-bit word with these bytes in memory. *)
Definition word16 (a b : Z) : Z := a + 256 * b.
Definition word32 (a b c d : Z) : Z := a + 256 * (b + 256 * (c + 256 * d)).

(** The bytes of a word, in the order of memory. *)
Definition bytes16 (x : Z) : list Z := [x mod 256; x / 256 mod 256].
Definition bytes32 (x : Z) : list Z := [x mod 256; x / 256 mod 256; x / 65536 mod 256; x / 16777216 mod 256].

(** The value a load of these bytes gives. *)
Definition load_word16 (l : list Z) : Z := match l with [a; b] => word16 a b | _ => 0 end.
Definition load_word32 (l : list Z) : Z := match l with [a; b; c; d] => word32 a b c d | _ => 0 end.

Lemma word32_range a b c d : byte a -> byte b -> byte c -> byte d -> 0 <= word32 a b c d < 2 ^ 32.
Proof. unfold byte, word32. lia. Qed.

Lemma word16_range a b : byte a -> byte b -> 0 <= word16 a b < 65536.
Proof. unfold byte, word16. lia. Qed.

Lemma load_bytes16 x : 0 <= x < 65536 -> load_word16 (bytes16 x) = x.
Proof. intros Hx. cbn [load_word16 bytes16]. unfold word16. Z.div_mod_to_equations. lia. Qed.

Lemma load_bytes32 x : 0 <= x < 2 ^ 32 -> load_word32 (bytes32 x) = x.
Proof. intros Hx. cbn [load_word32 bytes32]. unfold word32. Z.div_mod_to_equations. lia. Qed.

Lemma bytes32_word a b c d : byte a -> byte b -> byte c -> byte d -> bytes32 (word32 a b c d) = [a; b; c; d].
Proof. unfold byte, bytes32, word32. intros. repeat f_equal; Z.div_mod_to_equations; lia. Qed.

Lemma bytes16_word a b : byte a -> byte b -> bytes16 (word16 a b) = [a; b].
Proof. unfold byte, bytes16, word16. intros. repeat f_equal; Z.div_mod_to_equations; lia. Qed.

Lemma bytes16_bytes x : Forall byte (bytes16 x).
Proof. repeat constructor; apply Z.mod_pos_bound; lia. Qed.

Lemma bytes32_bytes x : Forall byte (bytes32 x).
Proof. repeat constructor; apply Z.mod_pos_bound; lia. Qed.

(** A byte of a word, in its place. *)
Lemma land_field x k : 0 <= k -> Z.land x (Z.shiftl 255 k) = x / 2 ^ k mod 256 * 2 ^ k.
Proof.
  intros Hk. rewrite <- Z.shiftr_div_pow2 by done. change 256 with (2 ^ 8). rewrite <- Z.land_ones by lia.
  rewrite <- Z.shiftl_mul_pow2 by done. change (Z.ones 8) with 255. apply Z.bits_inj'. intros n Hn.
  rewrite Z.land_spec, !Z.shiftl_spec, Z.land_spec by done.
  destruct (Z.ltb_spec n k).
  - rewrite (Z.testbit_neg_r 255), (Z.testbit_neg_r (Z.shiftr x k)) by lia. by rewrite andb_false_r.
  - rewrite Z.shiftr_spec by lia. by replace (n - k + k) with n by lia.
Qed.

Lemma lor_low a b n : 0 <= n -> 0 <= a < 2 ^ n -> Z.lor a (b * 2 ^ n) = a + b * 2 ^ n.
Proof. intros Hn Ha. rewrite Z.lor_comm, lor_shift_add by done. lia. Qed.

(** Four bytes put together. *)
Lemma lor_word32 a b c d : byte a -> byte b -> byte c -> byte d ->
  Z.lor (d * 16777216) (Z.lor (c * 65536) (Z.lor (b * 256) a)) = word32 a b c d.
Proof.
  unfold byte, word32. intros Ha Hb Hc Hd.
  pose proof (lor_shift_add b a 8 ltac:(lia) ltac:(lia)) as E1. change (2 ^ 8) with 256 in E1. rewrite E1.
  pose proof (lor_shift_add c (b * 256 + a) 16 ltac:(lia) ltac:(lia)) as E2. change (2 ^ 16) with 65536 in E2. rewrite E2.
  pose proof (lor_shift_add d (c * 65536 + (b * 256 + a)) 24 ltac:(lia) ltac:(lia)) as E3.
  change (2 ^ 24) with 16777216 in E3. rewrite E3. lia.
Qed.

Lemma PP_HTONL_word32 a b c d : byte a -> byte b -> byte c -> byte d -> PP_HTONL (word32 a b c d) = word32 d c b a.
Proof.
  intros Ha Hb Hc Hd. unfold PP_HTONL.
  change 0x000000ff with (Z.shiftl 255 0). change 0x0000ff00 with (Z.shiftl 255 8).
  change 0x00ff0000 with (Z.shiftl 255 16). change 0xff000000 with (Z.shiftl 255 24).
  rewrite !land_field by lia. rewrite !Z.shiftr_div_pow2, !Z.shiftl_mul_pow2 by lia.
  assert (E0 : word32 a b c d / 2 ^ 0 mod 256 * 2 ^ 0 * 2 ^ 24 = a * 16777216)
    by (unfold word32, byte in *; Z.div_mod_to_equations; lia).
  assert (E1 : word32 a b c d / 2 ^ 8 mod 256 * 2 ^ 8 * 2 ^ 8 = b * 65536)
    by (unfold word32, byte in *; Z.div_mod_to_equations; lia).
  assert (E2 : word32 a b c d / 2 ^ 16 mod 256 * 2 ^ 16 / 2 ^ 8 = c * 256)
    by (unfold word32, byte in *; Z.div_mod_to_equations; lia).
  assert (E3 : word32 a b c d / 2 ^ 24 mod 256 * 2 ^ 24 / 2 ^ 24 = d)
    by (unfold word32, byte in *; Z.div_mod_to_equations; lia).
  rewrite E0, E1, E2, E3, lor_word32 by done. apply u32_small. by apply word32_range.
Qed.

Lemma PP_HTONS_word16 a b : byte a -> byte b -> PP_HTONS (word16 a b) = word16 b a.
Proof.
  intros Ha Hb. unfold PP_HTONS. change 0x00ff with (Z.shiftl 255 0). change 0xff00 with (Z.shiftl 255 8).
  rewrite !land_field by lia. rewrite Z.shiftr_div_pow2, !Z.shiftl_mul_pow2 by lia.
  assert (E0 : word16 a b / 2 ^ 0 mod 256 * 2 ^ 0 * 2 ^ 8 = a * 2 ^ 8)
    by (unfold word16, byte in *; Z.div_mod_to_equations; lia).
  assert (E1 : word16 a b / 2 ^ 8 mod 256 * 2 ^ 8 / 2 ^ 8 = b)
    by (unfold word16, byte in *; Z.div_mod_to_equations; lia).
  rewrite E0, E1, lor_shift_add by (unfold byte in *; lia). unfold word16, byte in *. rewrite u16_small; lia.
Qed.

Lemma word32_split x : 0 <= x < 2 ^ 32 -> exists a b c d, byte a /\ byte b /\ byte c /\ byte d /\ x = word32 a b c d.
Proof.
  intros Hx. exists (x mod 256), (x / 256 mod 256), (x / 65536 mod 256), (x / 16777216 mod 256).
  pose proof (bytes32_bytes x) as Hb. unfold bytes32 in Hb. rewrite !Forall_cons in Hb. destruct Hb as (? & ? & ? & ? & _).
  split_and!; [done..|]. by rewrite <- (load_bytes32 x) at 1.
Qed.

Lemma word16_split x : 0 <= x < 65536 -> exists a b, byte a /\ byte b /\ x = word16 a b.
Proof.
  intros Hx. exists (x mod 256), (x / 256 mod 256). pose proof (bytes16_bytes x) as Hb. unfold bytes16 in Hb.
  rewrite !Forall_cons in Hb. destruct Hb as (? & ? & _). split_and!; [done..|]. by rewrite <- (load_bytes16 x) at 1.
Qed.
