(* ===== verification/ChksumFacts.v ===== *)
(** The Internet checksum: the optimised routines compute the one's
    complement sum of RFC 1071, whatever the alignment of the buffer and the
    boundaries of the chain. *)
From stdpp Require Import functions.
From S2P Require Import Prelude Memp Pbuf PbufFacts PbufAlloc Chksum.

(** ** The reference *)

(** The sum of RFC 1071: 16-bit words, the last byte padded with zero, added
    with end-around carry. *)
Definition carry_add (a b : Z) : Z := if a + b <? 65536 then a + b else a + b - 65535.

Fixpoint rfc1071 (data : list Z) : Z :=
  match data with
  | lo :: hi :: data => carry_add (load16 lo hi) (rfc1071 data)
  | [b] => load16 b 0
  | [] => 0
  end.

(** ** One's complement numbers

    [a] stands for [N]: the representative modulo 65535, with zero for zero
    only. *)
Definition stands (a N : Z) : Prop := 0 <= a < 65536 /\ (exists k, N = a + 65535 * k) /\ (a = 0 <-> N = 0) /\ 0 <= N.

Lemma stands_unique a b N : stands a N -> stands b N -> a = b.
Proof. intros (Ha & (k & Hk) & Za & _) (Hb & (j & Hj) & Zb & _). lia. Qed.

Lemma stands_self a : 0 <= a < 65536 -> stands a a.
Proof. intros Ha. split_and!; [lia|lia|exists 0; lia|done|lia]. Qed.

Lemma stands_carry a b N K : stands a N -> stands b K -> stands (carry_add a b) (N + K).
Proof.
  intros (Ha & (k & Hk) & Za & Na) (Hb & (j & Hj) & Zb & Nb). unfold carry_add.
  destruct (Z.ltb_spec (a + b) 65536); split_and!; try lia; [exists (k + j)|exists (k + j + 1)]; lia.
Qed.

(** Adding a multiple of 65535 to a number that is not zero. *)
Lemma stands_shift a N K j : stands a N -> K = N + 65535 * j -> 0 <= K -> (N = 0 <-> K = 0) -> stands a K.
Proof. intros (Ha & (k & Hk) & Za & Na) -> HK Hz. split_and!; [lia|lia|exists (k + j); lia|lia|lia]. Qed.

Lemma fold_value u : 0 <= u < 2 ^ 32 -> FOLD_U32T u = u / 65536 + u mod 65536.
Proof.
  intros Hu. unfold FOLD_U32T. rewrite land_65535, Z.shiftr_div_pow2 by lia. change (2 ^ 16) with 65536.
  unfold u16. change (2 ^ 16) with 65536. apply u32_small. Z.div_mod_to_equations. lia.
Qed.

(** One fold is enough below 0x1FFFF, two are enough for any 32-bit sum. *)
Lemma stands_fold1 u N : 0 <= u < 0x1FFFF -> (exists k, N = u + 65535 * k) -> (u = 0 <-> N = 0) -> 0 <= N ->
  stands (FOLD_U32T u) N.
Proof.
  intros Hu (k & Hk) Hz Hn. rewrite fold_value by lia.
  assert (E : u / 65536 + u mod 65536 = u - 65535 * (u / 65536)) by (Z.div_mod_to_equations; lia).
  assert (Hq : u / 65536 = 0 \/ u / 65536 = 1) by (Z.div_mod_to_equations; lia).
  rewrite E. split_and!; [| |exists (k + u / 65536); lia| |done]; try (Z.div_mod_to_equations; lia).
Qed.

Lemma stands_fold2 u : 0 <= u < 2 ^ 32 -> stands (FOLD_U32T (FOLD_U32T u)) u.
Proof.
  intros Hu. rewrite (fold_value u) by done. set (v := u / 65536 + u mod 65536).
  assert (Hv : 0 <= v < 0x1FFFF /\ u = v + 65535 * (u / 65536) /\ (v = 0 <-> u = 0)).
  { unfold v. Z.div_mod_to_equations. lia. }
  destruct Hv as (H1 & H2 & H3). apply stands_fold1; [done|by exists (u / 65536)|done|lia].
Qed.

Lemma swap_value w : 0 <= w < 65536 -> SWAP_BYTES_IN_WORD w = 256 * (w mod 256) + w / 256.
Proof.
  intros Hw. unfold SWAP_BYTES_IN_WORD. rewrite land_255. unfold u8. change (2 ^ 8) with 256.
  assert (E : Z.shiftr (Z.land w 0xff00) 8 = w / 256).
  { rewrite Z.shiftr_land. change (Z.shiftr 0xff00 8) with 255. rewrite shiftr_8, land_255.
    apply u8_small. Z.div_mod_to_equations. lia. }
  rewrite E, shiftl_8. change 256 with (2 ^ 8) at 2. rewrite lor_shift_add; [lia|lia|].
  change (2 ^ 8) with 256. Z.div_mod_to_equations. lia.
Qed.

Lemma stands_swap a N : stands a N -> stands (SWAP_BYTES_IN_WORD a) (256 * N).
Proof.
  intros (Ha & (k & Hk) & Za & Na). rewrite swap_value by done.
  assert (E : 256 * a = 256 * (a mod 256) + a / 256 + 65535 * (a / 256)) by (Z.div_mod_to_equations; lia).
  assert (Hr : 0 <= a mod 256 < 256 /\ 0 <= a / 256 < 256 /\ a = 256 * (a / 256) + a mod 256)
    by (Z.div_mod_to_equations; lia).
  split_and!; [lia|lia|exists (a / 256 + 256 * k); lia|lia|lia].
Qed.

(** ** Buffers as numbers *)

(** The buffer read as a little-endian number: its class modulo 65535 is the
    one's complement sum. *)
Fixpoint le_val (data : list Z) : Z := match data with [] => 0 | b :: data => b + 256 * le_val data end.

Lemma le_val_nonneg data : Forall byte data -> 0 <= le_val data.
Proof. induction 1 as [|b data [? ?] _ IH]; simpl; lia. Qed.

Lemma stands_rfc1071 data : Forall byte data -> stands (rfc1071 data) (le_val data).
Proof.
  assert (Hn : forall n data, (length data <= n)%nat -> Forall byte data -> stands (rfc1071 data) (le_val data)).
  { induction n as [|n IH]; intros [|b [|b' l]] Hl Hb; try (simpl in Hl; lia).
    1,2: by apply (stands_self 0).
    - inversion_clear Hb as [|? ? [? ?] _]. simpl. unfold load16. apply stands_self. lia.
    - inversion_clear Hb as [|? ? [? ?] Hb']. inversion_clear Hb' as [|? ? [? ?] Hb''].
      cbn [rfc1071 le_val]. simpl in Hl. pose proof (le_val_nonneg _ Hb'').
      eapply (stands_shift _ (load16 b b' + le_val l) _ (le_val l)).
      + apply stands_carry; [apply stands_self; unfold load16; lia|]. apply IH; [lia|done].
      + unfold load16. lia.
      + lia.
      + unfold load16. lia. }
  intros Hb. by apply (Hn (length data)).
Qed.

Lemma rfc1071_value data a : Forall byte data -> stands a (le_val data) -> a = rfc1071 data.
Proof. intros Hb Ha. by eapply stands_unique; [|apply stands_rfc1071]. Qed.

(** A power of 256 is 1 or 256 modulo 65535. *)
Lemma pow256 (n : nat) : exists k, 256 ^ Z.of_nat n = (if Nat.even n then 1 else 256) + 65535 * k /\ 0 <= k.
Proof.
  induction n as [|n (k & IH & Hk)]; [by exists 0|].
  rewrite Nat2Z.inj_succ, Z.pow_succ_r, IH by lia. rewrite Nat.even_succ, <- Nat.negb_even.
  destruct (Nat.even n); simpl; [exists (256 * k)|exists (1 + 256 * k)]; lia.
Qed.

Lemma le_val_app a b : le_val (a ++ b) = le_val a + 256 ^ Z.of_nat (length a) * le_val b.
Proof.
  induction a as [|x a IH]; [simpl length; simpl; lia|]. cbn [app le_val length]. rewrite IH, Nat2Z.inj_succ, Z.pow_succ_r by lia. lia.
Qed.

(** ** One buffer *)

Lemma sum_words_spec ps : forall sum n, (length ps <= n)%nat -> Forall byte ps -> 0 <= sum ->
  sum + 65535 * Z.of_nat n < 2 ^ 32 ->
  exists l, let '(s, rest) := sum_words sum ps in
    (length rest <= 1)%nat /\ Forall byte rest /\ sum <= s <= sum + 65535 * Z.of_nat n /\
    s + match rest with b :: _ => b | [] => 0 end + 65535 * l = sum + le_val ps /\ 0 <= l /\
    (s = 0 /\ match rest with b :: _ => b | [] => 0 end = 0 <-> sum = 0 /\ le_val ps = 0).
Proof.
  assert (Hn : forall m ps sum n, (length ps <= m)%nat -> (length ps <= n)%nat -> Forall byte ps -> 0 <= sum ->
    sum + 65535 * Z.of_nat n < 2 ^ 32 ->
    exists l, let '(s, rest) := sum_words sum ps in
      (length rest <= 1)%nat /\ Forall byte rest /\ sum <= s <= sum + 65535 * Z.of_nat n /\
      s + match rest with b :: _ => b | [] => 0 end + 65535 * l = sum + le_val ps /\ 0 <= l /\
      (s = 0 /\ match rest with b :: _ => b | [] => 0 end = 0 <-> sum = 0 /\ le_val ps = 0)).
  { induction m as [|m IH]; intros [|b [|b' l]] sum n Hm Hl Hb Hs Hbd; try (simpl in Hm; lia).
    1,2: exists 0; simpl; split_and!; [lia|done|lia|lia|lia|lia|lia].
    - exists 0. inversion_clear Hb as [|? ? [? ?] _]. simpl. split_and!; try lia. by repeat constructor.
    - inversion_clear Hb as [|? ? [? ?] Hb']. inversion_clear Hb' as [|? ? [? ?] Hb''].
      cbn [sum_words le_val]. simpl in Hl, Hm. pose proof (le_val_nonneg _ Hb'') as Hnn.
      assert (Hld : 0 <= load16 b b' <= 65535) by (unfold load16; lia).
      rewrite u32_small by lia.
      destruct (IH l (sum + load16 b b') (n - 1)%nat) as (k & Hk); [lia|lia|done|lia|lia|].
      exists (k + le_val l). destruct (sum_words _ l) as [s rest].
      destruct Hk as (Q1 & Q2 & Q3 & Q4 & Q5 & Q6). unfold load16 in *. split_and!; [done|done|lia|lia|lia|lia|].
      rewrite Q6. lia. }
  intros sum n. by apply (Hn (length ps)).
Qed.

Lemma load16_both b b0 : byte b0 -> load16 b (Z.shiftr (load16 0 b0) 8) = b + 256 * b0.
Proof. intros [? ?]. unfold load16. rewrite shiftr_8. f_equal. f_equal. Z.div_mod_to_equations. lia. Qed.

(** The bytes of the last, incomplete word. *)
Definition tail_val (rest : list Z) : Z := match rest with b :: _ => b | [] => 0 end.

Lemma sum_words_run d : Forall byte d -> Z.of_nat (length d) <= 0x10000 ->
  exists l s rest, sum_words 0 d = (s, rest) /\ (length rest <= 1)%nat /\ 0 <= tail_val rest < 256 /\
    0 <= s <= 2 ^ 32 - 65536 /\ 0 <= l /\ s + tail_val rest + 65535 * l = le_val d /\
    (s + tail_val rest = 0 <-> le_val d = 0).
Proof.
  intros Hd Hl. destruct (sum_words_spec d 0 (length d)) as (l & Hs); [lia|done|lia|lia|].
  destruct (sum_words 0 d) as [s rest] eqn:E. destruct Hs as (Q1 & Q2 & Q3 & Q4 & Q5 & Q6).
  assert (Ht : 0 <= tail_val rest < 256) by (destruct Q2 as [|b ? [? ?]]; simpl; lia).
  exists l, s, rest. fold (tail_val rest) in *. split_and!; try done; try lia.
Qed.

Lemma standard_chksum_stands odd data : Forall byte data -> Z.of_nat (length data) <= 0x10000 ->
  stands (lwip_standard_chksum odd data) (le_val data).
Proof.
  intros Hb Hlen. unfold lwip_standard_chksum.
  assert (Hres : forall a N, stands a N -> stands (u16 a) N).
  { intros a N Ha. rewrite u16_small; [done|apply Ha]. }
  destruct odd, data as [|b0 d]; try done.
  1: by apply Hres, stands_self.
  - inversion_clear Hb as [|? ? Hb0 Hd]. simpl length in Hlen.
    destruct (sum_words_run d Hd) as (l & s & rest & -> & Hr & Ht & Hs & Hl & E & Hz); [lia|].
    assert (Hlast : match rest with b :: _ => load16 b (Z.shiftr (load16 0 b0) 8) | [] => load16 0 b0 end =
      tail_val rest + 256 * b0).
    { destruct rest as [|b rest]; [unfold load16; simpl; lia|]. by rewrite load16_both. }
    rewrite Hlast. pose proof (le_val_nonneg _ Hd). destruct Hb0 as [? ?]. rewrite u32_small by lia.
    apply Hres. eapply (stands_shift _ _ _ (256 * l - b0)); [apply stands_swap, stands_fold2; lia| | |];
      cbn [le_val]; lia.
  - by apply Hres, stands_self.
  - destruct (sum_words_run (b0 :: d) Hb Hlen) as (l & s & rest & -> & Hr & Ht & Hs & Hl & E & Hz).
    assert (Hlast : match rest with b :: _ => load16 b (Z.shiftr 0 8) | [] => 0 end = tail_val rest).
    { destruct rest as [|b rest]; [done|]. unfold load16. change (Z.shiftr 0 8) with 0. simpl. lia. }
    rewrite Hlast, u32_small by lia. pose proof (le_val_nonneg _ Hb).
    apply Hres. eapply (stands_shift _ _ _ l); [apply stands_fold2; lia|lia|lia|lia].
Qed.

(** The checksum of a buffer.  [lwip_standard_chksum], which sums whole
    halfwords, treats the first and the last byte apart when they are not
    aligned, and defers carries, computes the one's complement sum of RFC 1071
    of any buffer of at most 64 KiB, at even and at odd addresses alike. *)
Theorem lwip_standard_chksum_rfc1071 odd data :
  Forall byte data -> Z.of_nat (length data) <= 0x10000 -> lwip_standard_chksum odd data = rfc1071 data.
Proof. intros Hb Hl. apply rfc1071_value; [done|by apply standard_chksum_stands]. Qed.

(** ** A chain *)

Section Chain.
Context `{HeapOps} (odd_at : option ptr -> bool).

(** The accumulator after [n] bytes that sum to [N]: swapped when [n] is odd. *)
Definition parity (swapped : bool) : Z := if swapped then 256 else 1.

Lemma parity_app a b (swapped : bool) : Forall byte a -> Forall byte b -> swapped = Nat.odd (length a) ->
  exists k, parity swapped * le_val (a ++ b) = parity swapped * le_val a + le_val b + 65535 * k /\ 0 <= k.
Proof.
  intros Ha Hb ->. rewrite le_val_app. destruct (pow256 (length a)) as (k & E & Hk). rewrite E.
  rewrite <- Nat.negb_even. pose proof (le_val_nonneg b Hb).
  destruct (Nat.even (length a)); simpl; [exists (k * le_val b)|exists ((1 + 256 * k) * le_val b)]; split; nia.
Qed.

Lemma le_val_app_zero a b : Forall byte a -> Forall byte b -> le_val (a ++ b) = 0 <-> le_val a = 0 /\ le_val b = 0.
Proof.
  intros Ha Hb. rewrite le_val_app. pose proof (le_val_nonneg a Ha). pose proof (le_val_nonneg b Hb).
  assert (0 < 256 ^ Z.of_nat (length a)) by (apply Z.pow_pos_nonneg; lia). nia.
Qed.

Lemma chksum_step acc swapped a b :
  Forall byte a -> Forall byte b -> Z.of_nat (length b) <= 0x10000 -> swapped = Nat.odd (length a) ->
  stands acc (parity swapped * le_val a) ->
  forall odd, let acc' := FOLD_U32T (u32 (acc + lwip_standard_chksum odd b)) in
  let swapped' := if negb (Z.of_nat (length b) mod 2 =? 0) then negb swapped else swapped in
  stands (if negb (Z.of_nat (length b) mod 2 =? 0) then SWAP_BYTES_IN_WORD acc' else acc')
    (parity swapped' * le_val (a ++ b)) /\ swapped' = Nat.odd (length (a ++ b)).
Proof.
  intros Ha Hb Hl Hsw Hacc odd acc' swapped'.
  pose proof (standard_chksum_stands odd b Hb Hl) as Hchk. set (chk := lwip_standard_chksum odd b) in *.
  pose proof Hacc as (Ra & (ka & Ea) & Za & Na). pose proof Hchk as (Rb & (kb & Eb) & Zb & Nb).
  assert (Hpar : 0 < parity swapped) by (unfold parity; destruct swapped; lia).
  destruct (parity_app a b swapped Ha Hb Hsw) as (k & Ek & Hk).
  assert (Hfold : stands acc' (parity swapped * le_val (a ++ b))).
  { unfold acc'. rewrite u32_small by lia. apply stands_fold1; [lia|exists (ka + kb + k); lia| |].
    - pose proof (le_val_app_zero a b Ha Hb). pose proof (le_val_nonneg a Ha). nia.
    - pose proof (le_val_nonneg a Ha). nia. }
  assert (Hodd : negb (Z.of_nat (length b) mod 2 =? 0) = Nat.odd (length b)).
  { rewrite <- Nat.negb_even. f_equal. destruct (Nat.even (length b)) eqn:E.
    - apply Nat.even_spec in E as [j ->]. apply Z.eqb_eq. Z.div_mod_to_equations. lia.
    - assert (Ho : Nat.odd (length b) = true) by (by rewrite <- Nat.negb_even, E).
      apply Nat.odd_spec in Ho as [j ->]. apply Z.eqb_neq. Z.div_mod_to_equations. lia. }
  unfold swapped'. rewrite Hodd, length_app, Nat.odd_add, Hsw. destruct (Nat.odd (length b)) eqn:Eb'.
  - split; [|by rewrite xorb_true_r]. pose proof (stands_swap _ _ Hfold) as Hswap.
    rewrite Hsw in Hswap. pose proof (le_val_nonneg (a ++ b) (Forall_app_2 _ _ _ Ha Hb)).
    destruct (Nat.odd (length a)); unfold parity in *; cbn [negb].
    + eapply (stands_shift _ _ _ (- le_val (a ++ b))); [exact Hswap|lia|lia|lia].
    + by replace (256 * le_val (a ++ b)) with (256 * (1 * le_val (a ++ b))) by lia.
  - split; [by rewrite <- Hsw|by rewrite xorb_false_r].
Qed.

Lemma chksum_loop m c : forall p fuel acc swapped done_,
  chain m p c -> Forall byte done_ -> Forall byte (contents c) -> total c <= 0x10000 -> (length c < fuel)%nat ->
  swapped = Nat.odd (length done_) -> stands acc (parity swapped * le_val done_) ->
  exists acc' swapped', iter fuel (chksum_body odd_at) (p, acc, swapped) m = Ret (acc', swapped') m /\
    swapped' = Nat.odd (length (done_ ++ contents c)) /\
    stands acc' (parity swapped' * le_val (done_ ++ contents c)).
Proof.
  induction c as [|nd c IH]; intros p fuel acc swapped done_ Hc Hd Hb Hl Hf Hsw Hacc;
    (destruct fuel as [|fuel]; [simpl in Hf; lia|]).
  - simpl in Hc. subst p. exists acc, swapped. change (contents []) with (@nil Z). by rewrite app_nil_r.
  - destruct Hc as (-> & Hln & Hh & Hc). pose proof Hh as [L _]. rewrite contents_cons in *.
    apply Forall_app in Hb as [Hb1 Hb2]. rewrite total_cons in Hl. pose proof (total_nonneg c). simpl in Hf.
    destruct (chksum_step acc swapped done_ (n_data nd) Hd Hb1 ltac:(lia) Hsw Hacc (odd_at (payload (n_buf nd))))
      as [S1 S2].
    assert (W : wp (chksum_body odd_at (Some (n_loc nd), acc, swapped)) (fun r m' => m' = m /\
      r = inl (next (n_buf nd),
        (if negb (Z.of_nat (length (n_data nd)) mod 2 =? 0)
         then SWAP_BYTES_IN_WORD (FOLD_U32T (u32 (acc + lwip_standard_chksum (odd_at (payload (n_buf nd))) (n_data nd))))
         else FOLD_U32T (u32 (acc + lwip_standard_chksum (odd_at (payload (n_buf nd))) (n_data nd)))),
        (if negb (Z.of_nat (length (n_data nd)) mod 2 =? 0) then negb swapped else swapped))) m).
    { apply wp_bind, (wp_getp _ (n_buf nd)); [done|]. apply wp_bind, wp_bind, (wp_read_at _ (n_data nd)); [done|lia..|].
      apply wp_ret. rewrite drop_0, take_ge, L by lia. destruct (len (n_buf nd) mod 2 =? 0); by apply wp_ret. }
    destruct (wp_elim _ _ _ W) as (r & m' & E & -> & ->). cbn [iter]. erewrite bind_Ret by exact E. cbv beta iota.
    destruct (IH (next (n_buf nd)) fuel _ _ (done_ ++ n_data nd) Hc (Forall_app_2 _ _ _ Hd Hb1) Hb2
      ltac:(lia) ltac:(lia) S2 S1) as (acc' & swapped' & E' & H1 & H2).
    exists acc', swapped'. rewrite app_assoc. done.
Qed.

Lemma stands_unswap acc swapped N : stands acc (parity swapped * N) -> 0 <= N ->
  stands (if swapped then SWAP_BYTES_IN_WORD acc else acc) N.
Proof.
  intros Hacc HN. destruct swapped; unfold parity in *.
  - eapply (stands_shift _ _ _ (- N)); [by apply stands_swap|lia|lia|lia].
  - by rewrite Z.mul_1_l in Hacc.
Qed.

(** What both checksums of a chain return for the sum [acc]. *)
Lemma chksum_result acc data (m : mem) : Forall byte data -> stands acc (le_val data) ->
  (mret (u16 (Z.lnot (Z.land acc 0xffff))) : M mem Z) m = Ret (0xffff - rfc1071 data) m.
Proof.
  intros Hb Hacc. pose proof (rfc1071_value _ _ Hb Hacc) as Ev. destruct Hacc as (Hr & _).
  unfold mret, M_ret. f_equal. rewrite Ev in Hr |- *. rewrite land_65535, (u16_small (rfc1071 _)) by done.
  unfold Z.lnot. rewrite <- (u16_small (0xffff - rfc1071 data)) by lia. unfold u16.
  rewrite <- (Z.mod_add (Z.pred (- _)) 1) by lia. f_equal. lia.
Qed.

(** The loop over a packet, when [done_] has been summed before. *)
Lemma chksum_packet m p c acc done_ : packet m (Some p) c -> Forall byte (contents c) -> Forall byte done_ -> Nat.odd (length done_) = false ->
  stands acc (le_val done_) ->
  exists acc' swapped, iter (S (size (pbufs m))) (chksum_body odd_at) (Some p, acc, false) m = Ret (acc', swapped) m /\
    stands (if swapped then SWAP_BYTES_IN_WORD acc' else acc') (le_val (done_ ++ contents c)).
Proof.
  intros [Hc _ Hn _ Hb] Hbytes Hd Ho Hacc.
  destruct (chksum_loop m c (Some p) (S (size (pbufs m))) acc false done_ Hc Hd Hbytes) as (acc' & swapped & E & _ & Hacc');
    [lia|pose proof (chain_size _ _ _ Hc Hn); lia|done|by unfold parity; rewrite Z.mul_1_l|].
  exists acc', swapped. split; [done|]. apply stands_unswap; [done|]. apply le_val_nonneg, Forall_app. by split.
Qed.

Lemma wp_inet_chksum_pbuf m p c (Q : Z -> mem -> Prop) : packet m (Some p) c -> Forall byte (contents c) ->
  Q (0xffff - rfc1071 (contents c)) m -> wp (inet_chksum_pbuf odd_at (Some p)) Q m.
Proof.
  intros Hp Hbytes HQ. unfold inet_chksum_pbuf. apply wp_bind, wp_gets.
  destruct (chksum_packet m p c 0 [] Hp Hbytes) as (acc & swapped & E & Hacc); [constructor|done|by apply stands_self|].
  apply wp_bind. eapply wp_of_run; [exact E|]. eapply wp_of_run; [by apply (chksum_result _ _ m Hbytes Hacc)|done].
Qed.

(** The pseudo header of UDP and TCP. *)
Definition pseudo_header (src dst proto plen : Z) : list Z := bytes32 src ++ bytes32 dst ++ [0; proto] ++ bytes16 (lwip_htons plen).

Lemma le_val_word x : 0 <= x < 2 ^ 32 -> le_val (bytes32 x) = x.
Proof. intros Hx. change (2 ^ 32) with 4294967296 in Hx. unfold bytes32. cbn [le_val]. Z.div_mod_to_equations. lia. Qed.

Lemma addresses_stand src dst : 0 <= src < 2 ^ 32 -> 0 <= dst < 2 ^ 32 -> stands (addresses_acc src dst) (le_val (bytes32 src ++ bytes32 dst)).
Proof.
  intros Hs Hd. rewrite le_val_app, !le_val_word by done. change (256 ^ Z.of_nat (length (bytes32 src))) with (2 ^ 32).
  unfold addresses_acc. rewrite !land_65535, !Z.shiftr_div_pow2 by lia. unfold u16. change (2 ^ 16) with 65536. change (2 ^ 32) with 4294967296 in *.
  rewrite (Z.mod_small (src / 65536)), (Z.mod_small (dst / 65536)) by (Z.div_mod_to_equations; lia).
  set (a0 := src mod 65536). set (a1 := src / 65536). set (b0 := dst mod 65536). set (b1 := dst / 65536).
  assert (Ea : src = a0 + 65536 * a1) by (unfold a0, a1; Z.div_mod_to_equations; lia).
  assert (Eb : dst = b0 + 65536 * b1) by (unfold b0, b1; Z.div_mod_to_equations; lia).
  assert (Ra : 0 <= a0 < 65536 /\ 0 <= a1 < 65536) by (unfold a0, a1; Z.div_mod_to_equations; lia).
  assert (Rb : 0 <= b0 < 65536 /\ 0 <= b1 < 65536) by (unfold b0, b1; Z.div_mod_to_equations; lia).
  clearbody a0 a1 b0 b1. rewrite Ea, Eb. rewrite (u32_small (a0 + a1)), (u32_small (a0 + a1 + b0)), (u32_small (a0 + a1 + b0 + b1)) by (change (2 ^ 32) with 4294967296; lia).
  eapply (stands_shift _ _ _ (a1 + 65537 * b0 + 4295032833 * b1)); [apply stands_fold2; change (2 ^ 32) with 4294967296; lia|lia|lia|lia].
Qed.

(** The rest of the pseudo header. *)
Lemma pseudo_stands acc N proto plen rest : 0 <= proto < 256 -> 0 <= plen < 65536 -> Forall byte N -> Forall byte rest -> length N = 8%nat ->
  stands acc (le_val (N ++ rest)) ->
  stands (FOLD_U32T (FOLD_U32T (u32 (u32 (acc + lwip_htons (u16 proto)) + lwip_htons plen)))) (le_val ((N ++ [0; proto] ++ bytes16 (lwip_htons plen)) ++ rest)).
Proof.
  intros Hp Hl HN Hrest L Hacc. pose proof Hacc as (Ra & (k & Ek) & Za & Na).
  assert (Eh : lwip_htons (u16 proto) = 256 * proto).
  { rewrite u16_small by lia. replace proto with (word16 proto 0) at 1 by (unfold word16; lia). unfold lwip_htons. rewrite PP_HTONS_word16 by done. done. }
  assert (Rh : 0 <= lwip_htons plen < 65536).
  { destruct (word16_split plen Hl) as (x & y & Hx & Hy & ->). unfold lwip_htons. rewrite PP_HTONS_word16 by done. by apply word16_range. }
  set (h := lwip_htons plen) in *. clearbody h. rewrite Eh, (u32_small (acc + 256 * proto)), (u32_small (acc + 256 * proto + h)) by (change (2 ^ 32) with 4294967296; lia).
  pose proof (le_val_nonneg _ HN) as PN. pose proof (le_val_nonneg _ Hrest) as PR.
  assert (Et : le_val ((N ++ [0; proto] ++ bytes16 h) ++ rest) = le_val N + 256 ^ 8 * (256 * proto + 65536 * h) + 256 ^ 12 * le_val rest).
  { assert (Eb : le_val (bytes16 h) = h) by (unfold bytes16; cbn [le_val]; Z.div_mod_to_equations; lia).
    rewrite (le_val_app _ rest), (le_val_app N), length_app, L. change (Z.of_nat (8 + length ([0; proto] ++ bytes16 h))) with 12. change (Z.of_nat 8) with 8.
    rewrite le_val_app, Eb. change (256 ^ Z.of_nat (length [0; proto])) with 65536. cbn [le_val]. do 2 f_equal. f_equal. lia. }
  rewrite Et. rewrite le_val_app, L in Ek, Za, Na. change (256 ^ Z.of_nat 8) with (256 ^ 8) in *.
  assert (E8 : exists j, 256 ^ 8 = 1 + 65535 * j /\ 0 <= j) by (exists ((256 ^ 8 - 1) / 65535); by split).
  assert (E12 : exists j, 256 ^ 12 = 1 + 65535 * j /\ 0 <= j) by (exists ((256 ^ 12 - 1) / 65535); by split).
  destruct E8 as (j8 & E8 & P8), E12 as (j12 & E12 & P12). rewrite E8, E12. rewrite E8 in Ek, Za, Na. clear E8 E12.
  set (LN := le_val N) in *. set (LR := le_val rest) in *. clearbody LN LR. clear Et Eh Hacc HN Hrest L. set (w := 256 * proto + 65536 * h).
  assert (Q1 : 0 <= j8 * LR) by nia. assert (Q2 : 0 <= j12 * LR) by nia. assert (Q3 : 0 <= j8 * w) by (unfold w; nia).
  eapply (stands_shift _ _ _ (k + j8 * w + h + j12 * LR - j8 * LR)); [apply stands_fold2; change (2 ^ 32) with 4294967296; lia|unfold w in *; lia|unfold w in *; lia|].
  split; intros E0.
  - assert (LN = 0 /\ LR = 0) as [-> ->] by lia. assert (w = 0) as -> by (unfold w; lia). lia.
  - assert (w = 0 /\ LN = 0 /\ LR = 0) as (Ew & -> & ->) by (assert (0 <= w) by (unfold w; lia); lia). unfold w in Ew. lia.
Qed.

Lemma pseudo_header_bytes src dst proto plen : byte proto -> Forall byte (pseudo_header src dst proto plen).
Proof.
  intros Hp. unfold pseudo_header. rewrite !Forall_app. split_and!; [apply bytes32_bytes..| |apply bytes16_bytes].
  apply Forall_cons. split; [done|by apply Forall_singleton].
Qed.

Lemma wp_ip_chksum_pseudo m p c proto plen src dst (Q : Z -> mem -> Prop) : packet m (Some p) c -> Forall byte (contents c) ->
  byte proto -> 0 <= plen < 65536 -> 0 <= src < 2 ^ 32 -> 0 <= dst < 2 ^ 32 ->
  Q (0xffff - rfc1071 (pseudo_header src dst proto plen ++ contents c)) m -> wp (ip_chksum_pseudo odd_at (Some p) proto plen src dst) Q m.
Proof.
  intros Hp Hbytes Hpr Hl Hs Hd HQ. unfold ip_chksum_pseudo, inet_chksum_pseudo, inet_cksum_pseudo_base. apply wp_bind, wp_gets.
  assert (HN : Forall byte (bytes32 src ++ bytes32 dst)) by (apply Forall_app; split; apply bytes32_bytes).
  destruct (chksum_packet m p c _ _ Hp Hbytes HN eq_refl (addresses_stand src dst Hs Hd)) as (acc & swapped & E & Hacc).
  apply wp_bind. eapply wp_of_run; [exact E|]. cbv beta iota zeta.
  pose proof (pseudo_stands _ _ proto plen (contents c) Hpr Hl HN Hbytes eq_refl Hacc) as Hst.
  assert (Eh : (bytes32 src ++ bytes32 dst) ++ [0; proto] ++ bytes16 (lwip_htons plen) = pseudo_header src dst proto plen) by (unfold pseudo_header; by rewrite <- !app_assoc).
  rewrite Eh in Hst. eapply wp_of_run; [eapply (chksum_result _ (pseudo_header src dst proto plen ++ contents c) m); [|exact Hst]|exact HQ].
  apply Forall_app. split; [by apply pseudo_header_bytes|done].
Qed.

(** C30.  The checksums of a chain.  [inet_chksum_pbuf] returns the complement
    of the one's complement sum of the bytes of the packet, wherever they are
    split into pbufs, odd lengths included, and however the payloads are
    aligned; [ip_chksum_pseudo] returns that of the pseudo header of UDP and TCP
    followed by these bytes; they change nothing. *)
Theorem inet_chksum_pbuf_rfc1071 m p c :
  packet m (Some p) c -> Forall byte (contents c) ->
  inet_chksum_pbuf odd_at (Some p) m = Ret (0xffff - rfc1071 (contents c)) m /\
  forall proto plen src dst, byte proto -> 0 <= plen < 65536 -> 0 <= src < 2 ^ 32 -> 0 <= dst < 2 ^ 32 ->
    ip_chksum_pseudo odd_at (Some p) proto plen src dst m = Ret (0xffff - rfc1071 (pseudo_header src dst proto plen ++ contents c)) m.
Proof.
  intros Hp Hbytes. split.
  - destruct (wp_elim (inet_chksum_pbuf odd_at (Some p)) (fun r m' => r = 0xffff - rfc1071 (contents c) /\ m' = m) m) as (r & m' & E & -> & ->);
      [by apply (wp_inet_chksum_pbuf m p c)|done].
  - intros proto plen src dst Hpr Hl Hs Hd. set (r0 := 0xffff - _).
    destruct (wp_elim (ip_chksum_pseudo odd_at (Some p) proto plen src dst) (fun r m' => r = r0 /\ m' = m) m) as (r & m' & E & -> & ->);
      [by apply (wp_ip_chksum_pseudo m p c)|done].
Qed.
End Chain.

(** ** Checking a checksum *)

Lemma complement r : 0 <= r < 65536 -> u16 (Z.lnot r) = 0xffff - r.
Proof.
  intros Hr. unfold Z.lnot, u16. rewrite <- (Z.mod_small (0xffff - r) (2 ^ 16)) by lia.
  rewrite <- (Z.mod_add (Z.pred (- r)) 1) by lia. f_equal. lia.
Qed.

(** Round trip: a message that carries its checksum verifies.  When the
    checksum of a message with a zero checksum field at an even offset is
    stored in that field, low byte first, [inet_chksum] of the message is
    zero, whatever the alignments the two sums are computed at. *)
Theorem inet_chksum_verifies odd odd' a b :
  Forall byte a -> Forall byte b -> Nat.even (length a) = true ->
  Z.of_nat (length (a ++ [0; 0] ++ b)) <= 0x10000 ->
  let ck := inet_chksum odd (a ++ [0; 0] ++ b) in
  inet_chksum odd' (a ++ [ck mod 256; ck / 256] ++ b) = 0.
Proof.
  intros Ha Hb Hev Hlen ck.
  assert (H0 : Forall byte (a ++ [0; 0] ++ b)) by (repeat apply Forall_app_2; repeat constructor; done).
  pose proof (standard_chksum_stands odd _ H0 Hlen) as S0. set (r := lwip_standard_chksum odd _) in *.
  assert (Hck : ck = 0xffff - r) by (apply complement, S0).
  destruct S0 as (Rr & (k & Ek) & Zr & Nr).
  assert (Hck' : 0 <= ck mod 256 < 256 /\ 0 <= ck / 256 < 256 /\ ck = ck mod 256 + 256 * (ck / 256))
    by (Z.div_mod_to_equations; lia).
  assert (H1 : Forall byte (a ++ [ck mod 256; ck / 256] ++ b)).
  { repeat apply Forall_app_2; try done. repeat constructor; lia. }
  assert (Hv : exists j, le_val (a ++ [ck mod 256; ck / 256] ++ b) = le_val (a ++ [0; 0] ++ b) + (1 + 65535 * j) * ck
    /\ 0 <= j).
  { rewrite !le_val_app. destruct (pow256 (length a)) as (j & -> & Hj). rewrite Hev. exists j.
    cbn [app le_val length]. split; [lia|done]. }
  destruct Hv as (j & Ev & Hj).
  assert (S1 : stands 65535 (le_val (a ++ [ck mod 256; ck / 256] ++ b))).
  { rewrite Ev, Ek. split_and!; [lia|lia|exists (k + j * ck); lia|split; nia|nia]. }
  assert (Hlen' : Z.of_nat (length (a ++ [ck mod 256; ck / 256] ++ b)) <= 0x10000).
  { rewrite !length_app in *. done. }
  unfold inet_chksum. rewrite (stands_unique _ _ _ (standard_chksum_stands odd' _ H1 Hlen') S1). done.
Qed.

(** ** The theorems at work *)

Lemma lwip_standard_chksum_rfc1071_witness :
  lwip_standard_chksum true [0x45; 0x00; 0x00; 0x73; 0x01] = rfc1071 [0x45; 0x00; 0x00; 0x73; 0x01] /\
  rfc1071 [0x45; 0x00; 0x00; 0x73; 0x01] = 0x7346.
Proof.
  split; [|reflexivity].
  exact (lwip_standard_chksum_rfc1071 true [0x45; 0x00; 0x00; 0x73; 0x01] ltac:(repeat constructor; done) ltac:(simpl; lia)).
Defined.

Lemma inet_chksum_verifies_witness :
  let ck := inet_chksum false ([1; 2] ++ [0; 0] ++ [3]) in
  inet_chksum true ([1; 2] ++ [ck mod 256; ck / 256] ++ [3]) = 0.
Proof.
  exact (inet_chksum_verifies false true [1; 2] [3] ltac:(repeat constructor; done) ltac:(repeat constructor; done)
    eq_refl ltac:(simpl; lia)).
Defined.
