(* ===== verification/Ip4Addr.v ===== *)
(** IPv4 addresses: [src/lwip-2.2.1/src/core/ipv4/ip4_addr.c] and the macros of
    [ip4_addr.h].

    An address is the 32-bit word [addr] of [ip4_addr_t]: network byte order
    in memory, so that on this little-endian machine its first byte is the
    lowest.  A C string is the list of its characters without the terminator;
    [char] is unsigned on this machine. *)
From S2P Require Import Prelude Memp Pbuf Chksum.

(** ** netif.h *)

Definition NETIF_FLAG_BROADCAST : Z := 0x02.
Definition NETIF_FLAG_LINK_UP : Z := 0x04.
Definition NETIF_FLAG_ETHARP : Z := 0x08.
Definition NETIF_FLAG_IGMP : Z := 0x20.

(** ** ip4_addr.h and arch.h *)

Definition IPADDR_NONE : Z := 0xffffffff.
Definition IPADDR_ANY : Z := 0x00000000.
Definition IPADDR_BROADCAST : Z := 0xffffffff.
Definition IP4ADDR_STRLEN_MAX : Z := 16.

Definition ip4_addr_get_byte (addr idx : Z) : Z := u8 (Z.shiftr addr (idx * 8)).
Definition ip4_addr1 (addr : Z) : Z := ip4_addr_get_byte addr 0.
Definition ip4_addr2 (addr : Z) : Z := ip4_addr_get_byte addr 1.
Definition ip4_addr3 (addr : Z) : Z := ip4_addr_get_byte addr 2.
Definition ip4_addr4 (addr : Z) : Z := ip4_addr_get_byte addr 3.

Definition ip4_addr_eq (addr1 addr2 : Z) : bool := addr1 =? addr2.
Definition ip4_addr_isany_val (addr : Z) : bool := addr =? IPADDR_ANY.
Definition ip4_addr_net_eq (addr1 addr2 mask : Z) : bool := Z.land addr1 mask =? Z.land addr2 mask.
Definition ip4_addr_ismulticast (addr : Z) : bool := Z.land addr (PP_HTONL 0xf0000000) =? PP_HTONL 0xe0000000.
Definition ip4_addr_islinklocal (addr : Z) : bool := Z.land addr (PP_HTONL 0xffff0000) =? PP_HTONL 0xa9fe0000.

Definition lwip_in_range (c lo up : Z) : bool := (lo <=? c) && (c <=? up).
Definition lwip_isdigit (c : Z) : bool := lwip_in_range c 48 57.
Definition lwip_islower (c : Z) : bool := lwip_in_range c 97 122.
Definition lwip_isxdigit (c : Z) : bool := lwip_isdigit c || lwip_in_range c 97 102 || lwip_in_range c 65 70.
Definition lwip_isspace (c : Z) : bool :=
  (c =? 32) || (c =? 12) || (c =? 10) || (c =? 13) || (c =? 9) || (c =? 11).

(** ** Broadcast addresses and masks *)

(** [flags], [ip] and [netmask] of the interface. *)
Definition ip4_addr_isbroadcast_u32 (addr flags ip netmask : Z) : bool :=
  if (u32 (Z.lnot addr) =? IPADDR_ANY) || (addr =? IPADDR_ANY) then true
  else if Z.land flags NETIF_FLAG_BROADCAST =? 0 then false
  else if addr =? ip then false
  else if ip4_addr_net_eq addr ip netmask
       && (Z.land addr (u32 (Z.lnot netmask)) =? Z.land IPADDR_BROADCAST (u32 (Z.lnot netmask))) then true
  else false.

(** [for (mask = 1UL << 31; mask != 0; mask >>= 1)]: the bits from [k - 1] down. *)
Fixpoint first_zero (k : nat) (nm : Z) : nat :=
  match k with
  | O => O
  | S k' => if Z.land nm (bit (Z.of_nat k')) =? 0 then k else first_zero k' nm
  end.

Fixpoint no_one (k : nat) (nm : Z) : bool :=
  match k with
  | O => true
  | S k' => if negb (Z.land nm (bit (Z.of_nat k')) =? 0) then false else no_one k' nm
  end.

Definition ip4_addr_netmask_valid (netmask : Z) : bool :=
  let nm_hostorder := lwip_htonl netmask in no_one (first_zero 32 nm_hostorder) nm_hostorder.

(** ** From text *)

(** [c = *cp]; the terminator when nothing is left. *)
Definition char_at (cp : list Z) : Z := hd 0 cp.

(** The inner [for (;;)]: the number's value, and [cp] behind it. *)
Fixpoint aton_digits (base val : Z) (cp : list Z) : Z * list Z :=
  match cp with
  | [] => (val, [])
  | c :: cp' =>
    if lwip_isdigit c then
      if (base =? 8) && (8 <=? c - 48) then (val, cp) else aton_digits base (u32 (u32 (val * base) + (c - 48))) cp'
    else if (base =? 16) && lwip_isxdigit c then
      aton_digits base (Z.lor (u32 (Z.shiftl val 4)) (u32 (c + 10 - (if lwip_islower c then 97 else 65)))) cp'
    else (val, cp)
  end.

(** The prefix that sets the base. *)
Definition aton_base (cp : list Z) : Z * list Z :=
  if char_at cp =? 48 then
    let cp := tl cp in
    if (char_at cp =? 120) || (char_at cp =? 88) then (16, tl cp) else (8, cp)
  else (10, cp).

(** The outer [for (;;)], [k] the places left in [parts]: the parts before the
    last number, that number, and [cp]; or the return with 0. *)
Fixpoint aton_parts (k : nat) (parts : list Z) (cp : list Z) : option (list Z * Z * list Z) :=
  if negb (lwip_isdigit (char_at cp)) then None
  else
    let '(base, cp) := aton_base cp in
    let '(val, cp) := aton_digits base 0 cp in
    if char_at cp =? 46 then
      match k with
      | O => None
      | S k => aton_parts k (parts ++ [val]) (tl cp)
      end
    else Some (parts, val, cp).

(** The switch over the number of parts. *)
Definition aton_combine (parts : list Z) (val : Z) : option Z :=
  match parts with
  | [] => Some val
  | [a] => if (0xffffff <? val) || (0xff <? a) then None else Some (Z.lor val (u32 (Z.shiftl a 24)))
  | [a; b] =>
    if (0xffff <? val) || (0xff <? a) || (0xff <? b) then None
    else Some (Z.lor val (Z.lor (u32 (Z.shiftl a 24)) (u32 (Z.shiftl b 16))))
  | [a; b; c] =>
    if (0xff <? val) || (0xff <? a) || (0xff <? b) || (0xff <? c) then None
    else Some (Z.lor val (Z.lor (Z.lor (u32 (Z.shiftl a 24)) (u32 (Z.shiftl b 16))) (u32 (Z.shiftl c 8))))
  | _ => Some val
  end.

(** The address stored, or [None] for the result 0. *)
Definition ip4addr_aton (cp : list Z) : option Z :=
  match aton_parts 3 [] cp with
  | None => None
  | Some (parts, val, cp) =>
    if negb (char_at cp =? 0) && negb (lwip_isspace (char_at cp)) then None
    else val ← aton_combine parts val; Some (lwip_htonl val)
  end.

Definition ipaddr_addr (cp : list Z) : Z := default IPADDR_NONE (ip4addr_aton cp).

(** ** To text *)

(** [do { rem = *ap % 10; *ap /= 10; inv[i++] = '0' + rem; } while ( *ap);]
    with the digits in the order in which they are put out; a byte has three
    digits at most. *)
Fixpoint ntoa_digits (k : nat) (b : Z) (inv : list Z) : list Z :=
  match k with
  | O => inv
  | S k =>
    let inv := (48 + b mod 10) :: inv in
    if b / 10 =? 0 then inv else ntoa_digits k (b / 10) inv
  end.

(** [if (len++ >= buflen) return NULL; *rp++ = c;] for each character. *)
Fixpoint ntoa_put (buflen : Z) (cs : list Z) (st : option (list Z)) : option (list Z) :=
  match cs with
  | [] => st
  | c :: cs => out ← st; if buflen <=? Z.of_nat (length out) then None else ntoa_put buflen cs (Some (out ++ [c]))
  end.

(** The string in [buf] after [*--rp = 0], or NULL. *)
Definition ip4addr_ntoa_r (addr buflen : Z) : option (list Z) :=
  out ← foldl (fun st n => ntoa_put buflen (ntoa_digits 3 (ip4_addr_get_byte addr n) [] ++ [46]) st) (Some []) [0; 1; 2; 3];
  Some (removelast out).

Definition ip4addr_ntoa (addr : Z) : option (list Z) := ip4addr_ntoa_r addr IP4ADDR_STRLEN_MAX.
