(* ===== verification/Ip4AddrFacts.v ===== *)
(** IPv4 addresses: text and back, masks. *)
From S2P Require Import Prelude Memp Pbuf Chksum Ip4Addr.

(** ** Dotted notation *)

Definition dotted (addr : Z) : list Z :=
  ntoa_digits 3 (ip4_addr1 addr) [] ++ 46 :: ntoa_digits 3 (ip4_addr2 addr) [] ++ 46 ::
  ntoa_digits 3 (ip4_addr3 addr) [] ++ 46 :: ntoa_digits 3 (ip4_addr4 addr) [].

Definition ends_number (cp : list Z) : bool := match cp with [] => true | c :: _ => c =? 46 end.

(** The digits of [b] are read as the number [b]. *)
Definition number_read (b : Z) : Prop :=
  (1 <= length (ntoa_digits 3 b []) <= 3)%nat /\ forall r,
  lwip_isdigit (char_at (ntoa_digits 3 b [] ++ r)) = true /\
  (ends_number r = true -> exists base cp, aton_base (ntoa_digits 3 b [] ++ r) = (base, cp) /\ aton_digits base 0 cp = (b, r)).

Lemma byte_number b : byte b -> number_read b.
Proof.
  intros Hb. assert (Hin : b ∈ seqZ 0 256) by (apply elem_of_seqZ; unfold byte in Hb; lia).
  revert b Hb Hin. assert (H : Forall number_read (seqZ 0 256)).
  { vm_compute seqZ. repeat (constructor; [split; [simpl; lia|]; intros r; split; [reflexivity|]; destruct r as [|c r]; intros Hc;
      [do 2 eexists; split; reflexivity
      |simpl in Hc; apply Z.eqb_eq in Hc as ->; do 2 eexists; split; reflexivity]|]). constructor. }
  rewrite Forall_forall in H. eauto.
Qed.

Lemma byte_read k parts b r : byte b -> ends_number r = true ->
  aton_parts k parts (ntoa_digits 3 b [] ++ r) =
    match r with
    | [] => Some (parts, b, [])
    | _ => match k with O => None | S k => aton_parts k (parts ++ [b]) (tl r) end
    end.
Proof.
  intros Hb Hr. destruct (byte_number b Hb) as [_ Hn]. destruct (Hn r) as [Hd Hv]. destruct (Hv Hr) as (base & cp & Hbase & Hdig).
  destruct k; cbn [aton_parts]; rewrite Hd, Hbase, Hdig; cbn [negb]; destruct r as [|c r]; try done;
    simpl in Hr; apply Z.eqb_eq in Hr as ->; done.
Qed.

Lemma get_byte_range x n : byte (ip4_addr_get_byte x n).
Proof. apply u8_range. Qed.

Lemma get_byte_word a b c d : byte a -> byte b -> byte c -> byte d ->
  ip4_addr1 (word32 a b c d) = a /\ ip4_addr2 (word32 a b c d) = b /\
  ip4_addr3 (word32 a b c d) = c /\ ip4_addr4 (word32 a b c d) = d.
Proof.
  unfold byte, ip4_addr1, ip4_addr2, ip4_addr3, ip4_addr4, ip4_addr_get_byte, word32, u8. intros.
  rewrite !Z.shiftr_div_pow2 by lia. split_and!; Z.div_mod_to_equations; lia.
Qed.

Lemma combine_word a b c d : byte a -> byte b -> byte c -> byte d -> aton_combine [a; b; c] d = Some (word32 d c b a).
Proof.
  unfold byte. intros Ha Hb Hc Hd. unfold aton_combine.
  rewrite !(proj2 (Z.ltb_ge 0xff _)) by lia. cbn [orb]. f_equal.
  rewrite !Z.shiftl_mul_pow2 by lia.
  rewrite (u32_small (a * 2 ^ 24)), (u32_small (b * 2 ^ 16)), (u32_small (c * 2 ^ 8)) by lia.
  rewrite <- (lor_word32 d c b a) by done. change (2 ^ 24) with 16777216. change (2 ^ 16) with 65536. change (2 ^ 8) with 256.
  by rewrite Z.lor_comm, <- !Z.lor_assoc.
Qed.

Lemma ntoa_put_spec buflen c cs : forall out, ntoa_put buflen (c :: cs) (Some out) =
  if Z.of_nat (length out + S (length cs)) <=? buflen then Some (out ++ c :: cs) else None.
Proof.
  revert c. induction cs as [|c' cs IH]; intros c out.
  - cbn [ntoa_put mbind option_bind]. simpl length.
    destruct (Z.leb_spec buflen (Z.of_nat (length out))), (Z.leb_spec (Z.of_nat (length out + 1)) buflen); try lia; done.
  - cbn [ntoa_put mbind option_bind] in IH |- *. rewrite IH, length_app, <- app_assoc. simpl length.
    replace (length out + 1 + S (length cs))%nat with (length out + S (S (length cs)))%nat by lia.
    destruct (Z.leb_spec buflen (Z.of_nat (length out))), (Z.leb_spec (Z.of_nat (length out + S (S (length cs)))) buflen); try lia; done.
Qed.

Lemma ntoa_put_byte buflen b out : byte b ->
  ntoa_put buflen (ntoa_digits 3 b [] ++ [46]) (Some out) =
    if Z.of_nat (length (out ++ ntoa_digits 3 b [] ++ [46])) <=? buflen then Some (out ++ ntoa_digits 3 b [] ++ [46]) else None.
Proof.
  intros Hb. destruct (byte_number b Hb) as [[Hl _] _]. revert Hl. generalize (ntoa_digits 3 b []). intros ds Hl.
  destruct ds as [|c cs]; [simpl in Hl; lia|]. cbn [app]. rewrite ntoa_put_spec, (length_app out). done.
Qed.

Lemma ntoa_put_none buflen cs : ntoa_put buflen cs None = None.
Proof. by destruct cs. Qed.

(** The digits of a byte, behind which nothing is computed. *)
Definition digits (b : Z) : list Z := ntoa_digits 3 b [].

Lemma digits_length b : byte b -> (1 <= length (digits b) <= 3)%nat.
Proof. intros Hb. exact (proj1 (byte_number b Hb)). Qed.

Lemma dotted_digits addr : dotted addr = digits (ip4_addr1 addr) ++ 46 :: digits (ip4_addr2 addr) ++ 46 ::
  digits (ip4_addr3 addr) ++ 46 :: digits (ip4_addr4 addr).
Proof. done. Qed.

Lemma dotted_length addr : (7 <= length (dotted addr) <= 15)%nat.
Proof.
  rewrite dotted_digits.
  pose proof (digits_length _ (get_byte_range addr 0)) as H0. pose proof (digits_length _ (get_byte_range addr 1)) as H1.
  pose proof (digits_length _ (get_byte_range addr 2)) as H2. pose proof (digits_length _ (get_byte_range addr 3)) as H3.
  fold (ip4_addr1 addr) in H0. fold (ip4_addr2 addr) in H1. fold (ip4_addr3 addr) in H2. fold (ip4_addr4 addr) in H3.
  revert H0 H1 H2 H3. generalize (digits (ip4_addr1 addr)), (digits (ip4_addr2 addr)), (digits (ip4_addr3 addr)), (digits (ip4_addr4 addr)).
  intros d0 d1 d2 d3 H0 H1 H2 H3. rewrite !length_app. cbn [length]. rewrite !length_app. cbn [length]. rewrite !length_app. cbn [length]. lia.
Qed.

Lemma put_digits buflen b out : byte b ->
  ntoa_put buflen (digits b ++ [46]) (Some out) =
    if Z.of_nat (length out + length (digits b) + 1) <=? buflen then Some (out ++ digits b ++ [46]) else None.
Proof.
  intros Hb. unfold digits. rewrite (ntoa_put_byte buflen b out Hb). fold (digits b).
  generalize (digits b). intros ds. rewrite !length_app, Nat.add_assoc. done.
Qed.

(** The text fits with its terminator, or the result is NULL. *)
Lemma ip4addr_ntoa_r_dotted addr buflen :
  ip4addr_ntoa_r addr buflen = if Z.of_nat (length (dotted addr)) <? buflen then Some (dotted addr) else None.
Proof.
  unfold ip4addr_ntoa_r. cbn [foldl]. rewrite dotted_digits.
  fold (ip4_addr1 addr) (ip4_addr2 addr) (ip4_addr3 addr) (ip4_addr4 addr).
  fold (digits (ip4_addr1 addr)) (digits (ip4_addr2 addr)) (digits (ip4_addr3 addr)) (digits (ip4_addr4 addr)).
  assert (Hput : forall n st, ntoa_put buflen (digits (ip4_addr_get_byte addr n) ++ [46]) st =
    out ← st; if Z.of_nat (length out + length (digits (ip4_addr_get_byte addr n)) + 1) <=? buflen
              then Some (out ++ digits (ip4_addr_get_byte addr n) ++ [46]) else None).
  { intros n [out|]; [|apply ntoa_put_none]. apply put_digits, get_byte_range. }
  rewrite (Hput 0), (Hput 1), (Hput 2), (Hput 3).
  fold (ip4_addr1 addr) (ip4_addr2 addr) (ip4_addr3 addr) (ip4_addr4 addr).
  generalize (digits (ip4_addr1 addr)), (digits (ip4_addr2 addr)), (digits (ip4_addr3 addr)), (digits (ip4_addr4 addr)).
  intros d0 d1 d2 d3. cbn [mbind option_bind app length].
  set (l := length (d0 ++ 46 :: d1 ++ 46 :: d2 ++ 46 :: d3)).
  assert (Hl : l = (length d0 + length d1 + length d2 + length d3 + 3)%nat).
  { subst l. rewrite !length_app. cbn [length]. rewrite !length_app. cbn [length]. rewrite !length_app. cbn [length]. lia. }
  clearbody l.
  repeat (match goal with |- context[if ?c <=? ?d then _ else _] => destruct (Z.leb_spec c d) end; cbn [mbind option_bind];
    try (destruct (Z.ltb_spec (Z.of_nat l) buflen); [rewrite ?length_app in *; cbn [length] in *; lia|done])).
  rewrite (proj2 (Z.ltb_lt _ _)) by (rewrite !length_app in *; cbn [length] in *; lia).
  f_equal. replace ((((d0 ++ [46]) ++ d1 ++ [46]) ++ d2 ++ [46]) ++ d3 ++ [46]) with ((d0 ++ 46 :: d1 ++ 46 :: d2 ++ 46 :: d3) ++ [46])
    by (rewrite <- !app_assoc; cbn [app]; rewrite <- !app_assoc; cbn [app]; rewrite <- !app_assoc; done).
  apply removelast_last.
Qed.

Lemma parts_digits k parts b r : byte b -> ends_number r = true ->
  aton_parts k parts (digits b ++ r) =
    match r with
    | [] => Some (parts, b, [])
    | _ => match k with O => None | S k => aton_parts k (parts ++ [b]) (tl r) end
    end.
Proof. apply byte_read. Qed.

(** C35. [ip4addr_ntoa_r] writes the dotted form of every address, with its
    terminator, exactly when the buffer has room for it, and returns NULL
    otherwise; sixteen characters are enough for every address; and
    [ip4addr_aton] reads the address back from the text. *)
Theorem ntoa_aton addr buflen : 0 <= addr < 2 ^ 32 ->
  ip4addr_ntoa_r addr buflen = (if Z.of_nat (length (dotted addr)) <? buflen then Some (dotted addr) else None) /\
  ip4addr_ntoa addr = Some (dotted addr) /\
  ip4addr_aton (dotted addr) = Some addr.
Proof.
  intros Ha. split; [apply ip4addr_ntoa_r_dotted|]. pose proof (dotted_length addr) as Hl. split.
  { unfold ip4addr_ntoa. rewrite ip4addr_ntoa_r_dotted, (proj2 (Z.ltb_lt _ _)); [done|]. unfold IP4ADDR_STRLEN_MAX. lia. }
  clear Hl. destruct (word32_split addr Ha) as (a & b & c & d & Hba & Hbb & Hbc & Hbd & ->).
  rewrite dotted_digits. destruct (get_byte_word a b c d Hba Hbb Hbc Hbd) as (-> & -> & -> & ->).
  unfold ip4addr_aton. rewrite parts_digits by done. cbn [tl app]. rewrite parts_digits by done. cbn [tl app].
  rewrite parts_digits by done. cbn [tl app]. rewrite <- (app_nil_r (digits d)), parts_digits by done.
  cbn [char_at hd negb Z.eqb andb]. rewrite combine_word by done. cbn [mbind option_bind].
  unfold lwip_htonl. by rewrite PP_HTONL_word32.
Qed.

Lemma ntoa_aton_witness : 0 <= word32 192 168 10 2 < 2 ^ 32 /\
  ip4addr_aton (dotted (word32 192 168 10 2)) = Some (word32 192 168 10 2) /\
  ip4addr_ntoa_r (word32 192 168 10 2) 12 = None.
Proof.
  assert (H : 0 <= word32 192 168 10 2 < 2 ^ 32) by (vm_compute; split; [discriminate|reflexivity]).
  split; [exact H|]. destruct (ntoa_aton (word32 192 168 10 2) 12 H) as (H1 & _ & H2). split; [exact H2|].
  rewrite H1. vm_compute. reflexivity.
Defined.

Example dotted_text : dotted (word32 192 168 10 2) = [49; 57; 50; 46; 49; 54; 56; 46; 49; 48; 46; 50].
Proof. reflexivity. Qed.

(** ** Masks *)

(** The bits [n] and above set, of 32. *)
Definition high_ones (n : nat) : Z := 2 ^ 32 - 2 ^ Z.of_nat n.

Lemma land_bit_zero nm k : (Z.land nm (bit (Z.of_nat k)) =? 0) = negb (Z.testbit nm (Z.of_nat k)).
Proof.
  unfold bit. destruct (Z.testbit nm (Z.of_nat k)) eqn:E; cbn [negb].
  - apply Z.eqb_neq. intros H. assert (Z.testbit (Z.land nm (Z.shiftl 1 (Z.of_nat k))) (Z.of_nat k) = false) by (by rewrite H, Z.bits_0).
    rewrite Z.land_spec, E, Z.shiftl_spec, Z.sub_diag in * by lia. done.
  - apply Z.eqb_eq. apply Z.bits_inj'. intros n Hn. rewrite Z.land_spec, Z.shiftl_spec, Z.bits_0 by done.
    destruct (decide (n = Z.of_nat k)) as [->|]; [by rewrite E|].
    destruct (Z.ltb_spec n (Z.of_nat k)); [rewrite (Z.testbit_neg_r 1) by lia; apply andb_false_r|].
    change 1 with (2 ^ 0). rewrite Z.pow2_bits_false by lia. apply andb_false_r.
Qed.

Lemma no_one_spec k nm : no_one k nm = true <-> forall j, (j < k)%nat -> Z.testbit nm (Z.of_nat j) = false.
Proof.
  induction k as [|k IH]; cbn [no_one]; [split; [lia|done]|]. rewrite land_bit_zero, negb_involutive.
  destruct (Z.testbit nm (Z.of_nat k)) eqn:E.
  - split; [done|]. intros H. by rewrite H in E by lia.
  - rewrite IH. split; intros H j Hj; [|apply H; lia]. destruct (decide (j = k)) as [->|]; [done|]. apply H. lia.
Qed.

Lemma first_zero_spec k nm : (first_zero k nm <= k)%nat /\
  (forall j, (first_zero k nm <= j < k)%nat -> Z.testbit nm (Z.of_nat j) = true) /\
  (first_zero k nm <> O -> Z.testbit nm (Z.of_nat (pred (first_zero k nm))) = false).
Proof.
  induction k as [|k IH]; cbn [first_zero]; [split_and!; [lia|lia|done]|]. rewrite land_bit_zero.
  destruct (Z.testbit nm (Z.of_nat k)) eqn:E; cbn [negb].
  - destruct IH as (H1 & H2 & H3). split_and!; [lia| |done].
    intros j Hj. destruct (decide (j = k)) as [->|]; [done|]. apply H2. lia.
  - split_and!; [lia|lia|done].
Qed.

Lemma high_ones_bits n j : (n <= 32)%nat -> 0 <= j ->
  Z.testbit (high_ones n) j = (Z.of_nat n <=? j) && (j <? 32).
Proof.
  intros Hn Hj. replace (high_ones n) with (Z.shiftl (Z.ones (32 - Z.of_nat n)) (Z.of_nat n)).
  2:{ unfold high_ones. rewrite Z.shiftl_mul_pow2, Z.ones_equiv by lia.
      replace 32 with ((32 - Z.of_nat n) + Z.of_nat n) at 2 by lia. rewrite Z.pow_add_r by lia. lia. }
  rewrite Z.shiftl_spec by done. destruct (Z.leb_spec (Z.of_nat n) j); cbn [andb].
  - rewrite Z.testbit_ones_nonneg by lia. destruct (Z.ltb_spec j 32), (Z.ltb_spec (j - Z.of_nat n) (32 - Z.of_nat n)); lia || done.
  - apply Z.testbit_neg_r. lia.
Qed.

Lemma testbit_above m j : 0 <= m < 2 ^ 32 -> 32 <= j -> Z.testbit m j = false.
Proof.
  intros Hm Hj. destruct (decide (m = 0)) as [->|]; [apply Z.bits_0|]. apply Z.bits_above_log2; [lia|].
  assert (Z.log2 m < 32) by (apply Z.log2_lt_pow2; lia). lia.
Qed.

Lemma lwip_htonl_involutive m : 0 <= m < 2 ^ 32 -> lwip_htonl (lwip_htonl m) = m.
Proof.
  intros Hm. destruct (word32_split m Hm) as (a & b & c & d & ? & ? & ? & ? & ->). unfold lwip_htonl.
  by rewrite !PP_HTONL_word32.
Qed.

(** [ip4_addr_netmask_valid] accepts exactly the masks that, in host
    order, are ones from the top down to some bit and zeros below it: /0 to
    /32. *)
Theorem netmask_valid_iff m : 0 <= m < 2 ^ 32 ->
  ip4_addr_netmask_valid (lwip_htonl m) = true <-> exists n, (n <= 32)%nat /\ m = high_ones n.
Proof.
  intros Hm. unfold ip4_addr_netmask_valid. rewrite lwip_htonl_involutive by done. rewrite no_one_spec.
  destruct (first_zero_spec 32 m) as (H1 & H2 & H3). split.
  - intros H. exists (first_zero 32 m). split; [done|]. apply Z.bits_inj'. intros j Hj.
    rewrite high_ones_bits by done. destruct (Z.ltb_spec j 32); [|rewrite andb_false_r; by apply testbit_above].
    rewrite andb_true_r. rewrite <- (Z2Nat.id j) in * by done. destruct (Z.leb_spec (Z.of_nat (first_zero 32 m)) (Z.of_nat (Z.to_nat j))).
    + apply H2. lia.
    + apply H. lia.
  - intros (n & Hn & ->) j Hj. rewrite high_ones_bits by lia.
    destruct (decide (first_zero 32 (high_ones n) = O)) as [E|E]; [lia|]. specialize (H3 E).
    rewrite high_ones_bits in H3 by lia. apply andb_false_iff in H3 as [H3|H3]; [|apply Z.ltb_ge in H3; lia].
    apply Z.leb_gt in H3. apply andb_false_iff. left. apply Z.leb_gt. lia.
Qed.

Lemma netmask_valid_iff_witness : 0 <= 0xffffff00 < 2 ^ 32 /\ ip4_addr_netmask_valid (lwip_htonl 0xffffff00) = true /\
  ~ (exists n, (n <= 32)%nat /\ 0xff00ff00 = high_ones n).
Proof.
  split; [lia|]. split; [apply (netmask_valid_iff 0xffffff00 ltac:(lia)); exists 8%nat; split; [lia|reflexivity]|].
  intros H. apply (netmask_valid_iff 0xff00ff00 ltac:(lia)) in H. vm_compute in H. discriminate.
Defined.
