(* ===== verification/Ethernet.v ===== *)
(** The link layer's state and Ethernet output:
    [src/lwip-2.2.1/src/netif/ethernet.c], with the data of
    [src/lwip-2.2.1/src/core/ipv4/etharp.c].

    Of an interface the link layer reads the addresses, the flags and the
    number; it is named by an index that stands for the [struct netif *].
    Statistics and MIB2 counters are off in this configuration. *)
From S2P Require Import Prelude Memp Pbuf Chksum Ip4Addr.

(** ** prot/ethernet.h, prot/ieee.h, prot/iana.h, netif.h *)

Definition SIZEOF_ETH_HDR : Z := 14.
Definition ETHTYPE_IP : Z := 0x0800.
Definition ETHTYPE_ARP : Z := 0x0806.
Definition LWIP_IANA_HWTYPE_ETHERNET : Z := 1.
Definition LL_IP4_MULTICAST_ADDR_0 : Z := 0x01.
Definition LL_IP4_MULTICAST_ADDR_1 : Z := 0x00.
Definition LL_IP4_MULTICAST_ADDR_2 : Z := 0x5e.
Definition PBUF_FLAG_LLBCAST : Z := 0x08.
Definition PBUF_FLAG_LLMCAST : Z := 0x10.

Definition ethbroadcast : list Z := [0xff; 0xff; 0xff; 0xff; 0xff; 0xff].
Definition ethzero : list Z := [0; 0; 0; 0; 0; 0].

(** [eth_addr_eq]. *)
Definition eth_addr_eq (addr1 addr2 : list Z) : bool := bool_decide (addr1 = addr2).

(** The fields of [struct netif] the link layer reads. *)
Record link_if : Type := LinkIf {
  if_ip_addr : Z;
  if_netmask : Z;
  if_gw : Z;
  if_hwaddr : list Z;
  if_flags : Z;
  if_num : Z
}.

Definition netif_get_index (n : link_if) : Z := u8 (if_num n + 1).

(** ** The ARP table *)

Inductive etharp_state : Type :=
| ETHARP_STATE_EMPTY
| ETHARP_STATE_PENDING
| ETHARP_STATE_STABLE
| ETHARP_STATE_STABLE_REREQUESTING_1
| ETHARP_STATE_STABLE_REREQUESTING_2.

#[global] Instance etharp_state_eq_dec : EqDecision etharp_state.
Proof. solve_decision. Defined.

(** [state >= ETHARP_STATE_STABLE]. *)
Definition stable_state (st : etharp_state) : bool :=
  match st with ETHARP_STATE_EMPTY | ETHARP_STATE_PENDING => false | _ => true end.

Record etharp_entry : Type := ArpEntry {
  q : option loc;
  ipaddr : Z;
  netif_ : option nat;
  ethaddr : list Z;
  ctime : Z;
  state : etharp_state
}.

Definition set_q (x : option loc) (e : etharp_entry) : etharp_entry :=
  ArpEntry x (ipaddr e) (netif_ e) (ethaddr e) (ctime e) (state e).
Definition set_ipaddr (x : Z) (e : etharp_entry) : etharp_entry :=
  ArpEntry (q e) x (netif_ e) (ethaddr e) (ctime e) (state e).
Definition set_netif (x : option nat) (e : etharp_entry) : etharp_entry :=
  ArpEntry (q e) (ipaddr e) x (ethaddr e) (ctime e) (state e).
Definition set_ethaddr (x : list Z) (e : etharp_entry) : etharp_entry :=
  ArpEntry (q e) (ipaddr e) (netif_ e) x (ctime e) (state e).
Definition set_ctime (x : Z) (e : etharp_entry) : etharp_entry :=
  ArpEntry (q e) (ipaddr e) (netif_ e) (ethaddr e) x (state e).
Definition set_state (x : etharp_state) (e : etharp_entry) : etharp_entry :=
  ArpEntry (q e) (ipaddr e) (netif_ e) (ethaddr e) (ctime e) x.

(** ** The state *)

(** [netif->linkoutput], with a state of its own. *)
Class LinkOutput `{HeapOps} : Type := {
  lstate : Type;
  linkoutput : nat -> loc -> M (mem * lstate) Z
}.

Record eth `{LinkOutput} : Type := Eth {
  emem : mem;
  elink : lstate;
  netifs : nat -> link_if;
  arp_table : list etharp_entry;
  etharp_cached_entry : Z
}.

Section Output.
Context `{LinkOutput}.

Definition set_emem (x : mem) (s : eth) : eth :=
  Eth _ _ x (elink s) (netifs s) (arp_table s) (etharp_cached_entry s).
Definition set_elink (x : lstate) (s : eth) : eth :=
  Eth _ _ (emem s) x (netifs s) (arp_table s) (etharp_cached_entry s).
Definition set_netifs (x : nat -> link_if) (s : eth) : eth :=
  Eth _ _ (emem s) (elink s) x (arp_table s) (etharp_cached_entry s).
Definition set_arp_table (x : list etharp_entry) (s : eth) : eth :=
  Eth _ _ (emem s) (elink s) (netifs s) x (etharp_cached_entry s).
Definition set_cached (x : Z) (s : eth) : eth :=
  Eth _ _ (emem s) (elink s) (netifs s) (arp_table s) x.

Definition on_pbuf {A} (x : M mem A) : M eth A := zoom emem set_emem x.

(** [netif->linkoutput(netif, p)]. *)
Definition call_linkoutput (netif : nat) (p : loc) : M eth Z :=
  zoom (fun s => (emem s, elink s)) (fun x s => set_elink x.2 (set_emem x.1 s)) (linkoutput netif p).

Definition the_netif (netif : nat) : M eth link_if := gets (fun s => netifs s netif).

Definition ethernet_output (netif : nat) (p : loc) (src dst : list Z) (eth_type : Z) : M eth Z :=
  let eth_type_be := lwip_htons eth_type in
  r ← on_pbuf (pbuf_add_header (Some p) SIZEOF_ETH_HDR);
  if negb (r =? 0) then mret ERR_BUF
  else
    b ← on_pbuf (getp p);
    on_pbuf (write_at (payload b) 12 (bytes16 eth_type_be));;
    on_pbuf (write_at (payload b) 0 dst);;
    on_pbuf (write_at (payload b) 6 src);;
    call_linkoutput netif p.
End Output.
