(* ===== verification/Etharp.v ===== *)
(** Address resolution and Ethernet input:
    [src/lwip-2.2.1/src/core/ipv4/etharp.c] and [ethernet_input] of
    [src/lwip-2.2.1/src/netif/ethernet.c].

    In this configuration a pending entry queues one packet
    ([ARP_QUEUEING] is 0), there are no static entries, entries are matched by
    interface too, and address conflict detection is off.  An Ethernet address
    is the list of its six bytes. *)
From S2P Require Import Prelude Memp Pbuf Chksum Ip4Addr Ethernet.

Definition ARP_TABLE_SIZE : Z := 10.
Definition ARP_MAXAGE : Z := 300.
Definition ARP_AGE_REREQUEST_USED_UNICAST : Z := ARP_MAXAGE - 30.
Definition ARP_AGE_REREQUEST_USED_BROADCAST : Z := ARP_MAXAGE - 15.
Definition ARP_MAXPENDING : Z := 5.
Definition ETHARP_FLAG_TRY_HARD : Z := 1.
Definition ETHARP_FLAG_FIND_ONLY : Z := 2.
Definition SIZEOF_ETHARP_HDR : Z := 28.
Definition ARP_REQUEST : Z := 1.
Definition ARP_REPLY : Z := 2.
Definition ERR_RTE : Z := -4.

(** [PBUF_NEEDS_COPY]. *)
Definition PBUF_NEEDS_COPY (p : pbuf) : bool := has (type_internal p) PBUF_TYPE_FLAG_DATA_VOLATILE.

Definition set_flags (f : Z) (p : pbuf) : pbuf :=
  Pbuf (next p) (payload p) (tot_len p) (len p) (type_internal p) f (ref p) (if_idx p).
Definition set_if_idx (i : Z) (p : pbuf) : pbuf :=
  Pbuf (next p) (payload p) (tot_len p) (len p) (type_internal p) (flags p) (ref p) i.

(** [a || b] where evaluating [b] reads memory. *)
Definition orM {S} (a : M S bool) (b : M S bool) : M S bool := x ← a; if (x : bool) then mret true else b.

(** The symbol [LWIP_DEBUG]: the debug build of the project defines it. *)
Class Build : Type := { LWIP_DEBUG : bool }.

(** ** The search for an entry *)

(** The locals of [etharp_find_entry]. *)
Record candidates : Type := Cand {
  c_empty : Z;
  old_pending : Z; age_pending : Z;
  old_stable : Z; age_stable : Z;
  old_queue : Z; age_queue : Z
}.

Definition no_candidates : candidates := Cand ARP_TABLE_SIZE ARP_TABLE_SIZE 0 ARP_TABLE_SIZE 0 ARP_TABLE_SIZE 0.

(** [ip4_addr_eq(ipaddr, ...) && ((netif == NULL) || (netif == ...))]. *)
Definition entry_matches (ip : option Z) (netif : option nat) (e : etharp_entry) : bool :=
  match ip with
  | None => false
  | Some a => ip4_addr_eq a (ipaddr e) && (bool_decide (netif = None) || bool_decide (netif = netif_ e))
  end.

(** One round of the search; [None] is the return with the match. *)
Definition find_step (ip : option Z) (netif : option nat) (i : Z) (e : etharp_entry) (c : candidates) : option candidates :=
  if (c_empty c =? ARP_TABLE_SIZE) && bool_decide (state e = ETHARP_STATE_EMPTY) then
    Some (Cand i (old_pending c) (age_pending c) (old_stable c) (age_stable c) (old_queue c) (age_queue c))
  else if bool_decide (state e <> ETHARP_STATE_EMPTY) then
    if entry_matches ip netif e then None
    else if bool_decide (state e = ETHARP_STATE_PENDING) then
      if bool_decide (q e <> None) then
        if age_queue c <=? ctime e then
          Some (Cand (c_empty c) (old_pending c) (age_pending c) (old_stable c) (age_stable c) i (ctime e))
        else Some c
      else
        if age_pending c <=? ctime e then
          Some (Cand (c_empty c) i (ctime e) (old_stable c) (age_stable c) (old_queue c) (age_queue c))
        else Some c
    else if stable_state (state e) then
      if age_stable c <=? ctime e then
        Some (Cand (c_empty c) (old_pending c) (age_pending c) i (ctime e) (old_queue c) (age_queue c))
      else Some c
    else Some c
  else Some c.

(** The loop over the table from index [i] on. *)
Fixpoint find_loop (ip : option Z) (netif : option nat) (i : Z) (t : list etharp_entry) (c : candidates) : Z + candidates :=
  match t with
  | [] => inr c
  | e :: t =>
    match find_step ip netif i e c with
    | None => inl i
    | Some c => find_loop ip netif (i + 1) t c
    end
  end.

(** The loop of [etharp_output] for a stable entry. *)
Fixpoint find_stable (dst : Z) (netif : nat) (i : Z) (t : list etharp_entry) : option Z :=
  match t with
  | [] => None
  | e :: t =>
    if stable_state (state e) && bool_decide (netif_ e = Some netif) && ip4_addr_eq dst (ipaddr e) then Some i
    else find_stable dst netif (i + 1) t
  end.

Section Etharp.
Context `{LinkOutput, !CustomFree, Build}.

(** [arp_table[i]]. *)
Definition get_entry (i : Z) : M eth etharp_entry :=
  t ← gets arp_table; if 0 <=? i then deref OutOfBounds (t !! Z.to_nat i) else halt OutOfBounds.
Definition set_entry (i : Z) (f : etharp_entry -> etharp_entry) : M eth unit :=
  e ← get_entry i; modify (fun s => set_arp_table (<[Z.to_nat i := f e]> (arp_table s)) s).

Definition free_etharp_q (p : option loc) : M eth Z := on_pbuf (pbuf_free p).

Definition etharp_free_entry (i : Z) : M eth unit :=
  e ← get_entry i;
  when (bool_decide (q e <> None)) (free_etharp_q (q e);; set_entry i (set_q None));;
  set_entry i (set_state ETHARP_STATE_EMPTY);;
  when LWIP_DEBUG
    (set_entry i (set_ctime 0);;
     set_entry i (set_netif None);;
     set_entry i (set_ipaddr 0);;
     set_entry i (set_ethaddr ethzero)).

(** ** Packets *)

Definition etharp_raw (netif : nat) (ethsrc_addr ethdst_addr hwsrc_addr : list Z) (ipsrc_addr : Z)
    (hwdst_addr : list Z) (ipdst_addr opcode : Z) : M eth Z :=
  p ← on_pbuf (pbuf_alloc PBUF_LINK SIZEOF_ETHARP_HDR PBUF_RAM);
  match p with
  | None => mret ERR_MEM
  | Some p =>
    b ← on_pbuf (getp p);
    let hdr := payload b in
    on_pbuf (write_at hdr 6 (bytes16 (lwip_htons opcode)));;
    on_pbuf (write_at hdr 8 hwsrc_addr);;
    on_pbuf (write_at hdr 18 hwdst_addr);;
    on_pbuf (write_at hdr 14 (bytes32 ipsrc_addr));;
    on_pbuf (write_at hdr 24 (bytes32 ipdst_addr));;
    on_pbuf (write_at hdr 0 (bytes16 (PP_HTONS LWIP_IANA_HWTYPE_ETHERNET)));;
    on_pbuf (write_at hdr 2 (bytes16 (PP_HTONS ETHTYPE_IP)));;
    on_pbuf (write_at hdr 4 [6]);;
    on_pbuf (write_at hdr 5 [4]);;
    ethernet_output netif p ethsrc_addr ethdst_addr ETHTYPE_ARP;;
    on_pbuf (pbuf_free (Some p));;
    mret ERR_OK
  end.

Definition etharp_request_dst (netif : nat) (ip : Z) (hw_dst_addr : list Z) : M eth Z :=
  n ← the_netif netif;
  etharp_raw netif (if_hwaddr n) hw_dst_addr (if_hwaddr n) (if_ip_addr n) ethzero ip ARP_REQUEST.

Definition etharp_request (netif : nat) (ip : Z) : M eth Z := etharp_request_dst netif ip ethbroadcast.

(** ** The table *)

(** One round of the loop of [etharp_tmr]. *)
Definition tmr_entry (i : Z) : M eth unit :=
  e ← get_entry i;
  when (bool_decide (state e <> ETHARP_STATE_EMPTY))
    (set_entry i (fun e => set_ctime (u16 (ctime e + 1)) e);;
     e ← get_entry i;
     if (ARP_MAXAGE <=? ctime e)
        || (bool_decide (state e = ETHARP_STATE_PENDING) && (ARP_MAXPENDING <=? ctime e)) then
       etharp_free_entry i
     else
       match state e with
       | ETHARP_STATE_STABLE_REREQUESTING_1 => set_entry i (set_state ETHARP_STATE_STABLE_REREQUESTING_2)
       | ETHARP_STATE_STABLE_REREQUESTING_2 => set_entry i (set_state ETHARP_STATE_STABLE)
       | ETHARP_STATE_PENDING => n ← deref NullDeref (netif_ e); etharp_request n (ipaddr e);; mret tt
       | _ => mret tt
       end).

Definition etharp_tmr : M eth unit := for_each (seqZ 0 ARP_TABLE_SIZE) tmr_entry.

Definition etharp_find_entry (ip : option Z) (flags : Z) (netif : option nat) : M eth Z :=
  t ← gets arp_table;
  match find_loop ip netif 0 t no_candidates with
  | inl i => mret i
  | inr c =>
    if has flags ETHARP_FLAG_FIND_ONLY || ((c_empty c =? ARP_TABLE_SIZE) && negb (has flags ETHARP_FLAG_TRY_HARD)) then
      mret ERR_MEM
    else
      i ← (if c_empty c <? ARP_TABLE_SIZE then mret (c_empty c)
           else if old_stable c <? ARP_TABLE_SIZE then etharp_free_entry (old_stable c);; mret (old_stable c)
           else if old_pending c <? ARP_TABLE_SIZE then etharp_free_entry (old_pending c);; mret (old_pending c)
           else if old_queue c <? ARP_TABLE_SIZE then etharp_free_entry (old_queue c);; mret (old_queue c)
           else mret ERR_MEM);
      if i <? 0 then mret ERR_MEM
      else
        match ip with
        | Some a => set_entry i (set_ipaddr a)
        | None => mret tt
        end;;
        set_entry i (set_ctime 0);;
        set_entry i (set_netif netif);;
        mret i
  end.

Definition etharp_update_arp_entry (netif : nat) (ip : Z) (addr : list Z) (flags : Z) : M eth Z :=
  n ← the_netif netif;
  if ip4_addr_isany_val ip || ip4_addr_isbroadcast_u32 ip (if_flags n) (if_ip_addr n) (if_netmask n)
     || ip4_addr_ismulticast ip then mret ERR_ARG
  else
    i ← etharp_find_entry (Some ip) flags (Some netif);
    if i <? 0 then mret i
    else
      set_entry i (set_state ETHARP_STATE_STABLE);;
      set_entry i (set_netif (Some netif));;
      set_entry i (set_ethaddr addr);;
      set_entry i (set_ctime 0);;
      e ← get_entry i;
      match q e with
      | None => mret tt
      | Some p =>
        set_entry i (set_q None);;
        n ← the_netif netif;
        ethernet_output netif p (if_hwaddr n) addr ETHTYPE_IP;;
        on_pbuf (pbuf_free (Some p));;
        mret tt
      end;;
      mret ERR_OK.

Definition etharp_cleanup_netif (netif : nat) : M eth unit :=
  for_each (seqZ 0 ARP_TABLE_SIZE) (fun i =>
    e ← get_entry i;
    when (bool_decide (state e <> ETHARP_STATE_EMPTY) && bool_decide (netif_ e = Some netif)) (etharp_free_entry i)).

(** The index with what is stored at [eth_ret] and [ip_ret], or [None] for -1. *)
Definition etharp_find_addr (netif : nat) (ip : Z) : M eth (option (Z * list Z * Z)) :=
  i ← etharp_find_entry (Some ip) ETHARP_FLAG_FIND_ONLY (Some netif);
  if 0 <=? i then
    e ← get_entry i;
    mret (if stable_state (state e) then Some (i, ethaddr e, ipaddr e) else None)
  else mret None.

(** What is stored at the return pointers, or [None] for 0. *)
Definition etharp_get_entry (i : Z) : M eth (option (Z * option nat * list Z)) :=
  if i <? ARP_TABLE_SIZE then
    e ← get_entry i;
    mret (if stable_state (state e) then Some (ipaddr e, netif_ e, ethaddr e) else None)
  else mret None.

(** ** Output *)

Definition etharp_output_to_arp_index (netif : nat) (p : loc) (arp_idx : Z) : M eth Z :=
  e ← get_entry arp_idx;
  when (bool_decide (state e = ETHARP_STATE_STABLE))
    (if ARP_AGE_REREQUEST_USED_BROADCAST <=? ctime e then
       r ← etharp_request netif (ipaddr e);
       when (r =? ERR_OK) (set_entry arp_idx (set_state ETHARP_STATE_STABLE_REREQUESTING_1))
     else when (ARP_AGE_REREQUEST_USED_UNICAST <=? ctime e)
       (r ← etharp_request_dst netif (ipaddr e) (ethaddr e);
        when (r =? ERR_OK) (set_entry arp_idx (set_state ETHARP_STATE_STABLE_REREQUESTING_1))));;
  n ← the_netif netif;
  e ← get_entry arp_idx;
  ethernet_output netif p (if_hwaddr n) (ethaddr e) ETHTYPE_IP.

(** [while (p)] over the packet: must it be copied? *)
Definition needs_copy_body (p : option loc) : M mem (option loc + bool) :=
  match p with
  | None => mret (inr false)
  | Some l => b ← getp l; mret (if PBUF_NEEDS_COPY b then inr true else inl (next b))
  end.

Definition copy_needed (p : loc) : M mem bool := fuel ← chain_fuel; iter fuel needs_copy_body (Some p).

(** The packet taken over for the queue: a copy, or one more reference. *)
Definition take_over (p : loc) : M eth (option loc) :=
  c ← on_pbuf (copy_needed p);
  if (c : bool) then on_pbuf (pbuf_clone PBUF_LINK PBUF_RAM p)
  else on_pbuf (pbuf_ref (Some p));; mret (Some p).

Definition etharp_query (netif : nat) (ip : Z) (packet : option loc) : M eth Z :=
  n ← the_netif netif;
  let srcaddr := if_hwaddr n in
  if ip4_addr_isbroadcast_u32 ip (if_flags n) (if_ip_addr n) (if_netmask n)
     || ip4_addr_ismulticast ip || ip4_addr_isany_val ip then mret ERR_ARG
  else
    i ← etharp_find_entry (Some ip) ETHARP_FLAG_TRY_HARD (Some netif);
    if i <? 0 then mret i
    else
      e ← get_entry i;
      let is_new_entry := bool_decide (state e = ETHARP_STATE_EMPTY) in
      when is_new_entry
        (set_entry i (set_state ETHARP_STATE_PENDING);; set_entry i (set_netif (Some netif)));;
      result ← (if is_new_entry || bool_decide (packet = None) then
                  r ← etharp_request netif ip;
                  when (r =? ERR_OK)
                    (e ← get_entry i;
                     when (bool_decide (state e = ETHARP_STATE_PENDING) && negb is_new_entry)
                       (set_entry i (set_ctime 0)));;
                  mret r
                else mret ERR_MEM);
      match packet with
      | None => mret result
      | Some p =>
        e ← get_entry i;
        if stable_state (state e) then
          modify (set_cached i);;
          e ← get_entry i;
          ethernet_output netif p srcaddr (ethaddr e) ETHTYPE_IP
        else if bool_decide (state e = ETHARP_STATE_PENDING) then
          p' ← take_over p;
          match p' with
          | Some p' =>
            e ← get_entry i;
            when (bool_decide (q e <> None)) (free_etharp_q (q e);; mret tt);;
            set_entry i (set_q (Some p'));;
            mret ERR_OK
          | None => mret ERR_MEM
          end
        else mret result
      end.

(** The unicast part of [etharp_output], once the next hop is known. *)
Definition output_unicast (netif : nat) (p : loc) (dst_addr : Z) : M eth Z :=
  k ← gets etharp_cached_entry;
  e ← get_entry k;
  if stable_state (state e) && bool_decide (netif_ e = Some netif) && ip4_addr_eq dst_addr (ipaddr e) then
    etharp_output_to_arp_index netif p k
  else
    t ← gets arp_table;
    match find_stable dst_addr netif 0 t with
    | Some i => modify (set_cached i);; etharp_output_to_arp_index netif p i
    | None => etharp_query netif dst_addr (Some p)
    end.

Definition etharp_output (netif : nat) (p : loc) (ip : Z) : M eth Z :=
  n ← the_netif netif;
  if ip4_addr_isbroadcast_u32 ip (if_flags n) (if_ip_addr n) (if_netmask n) then
    ethernet_output netif p (if_hwaddr n) ethbroadcast ETHTYPE_IP
  else if ip4_addr_ismulticast ip then
    let mcastaddr := [LL_IP4_MULTICAST_ADDR_0; LL_IP4_MULTICAST_ADDR_1; LL_IP4_MULTICAST_ADDR_2;
                      Z.land (ip4_addr2 ip) 0x7f; ip4_addr3 ip; ip4_addr4 ip] in
    ethernet_output netif p (if_hwaddr n) mcastaddr ETHTYPE_IP
  else if negb (ip4_addr_net_eq ip (if_ip_addr n) (if_netmask n)) && negb (ip4_addr_islinklocal ip) then
    if negb (ip4_addr_isany_val (if_gw n)) then output_unicast netif p (if_gw n) else mret ERR_RTE
  else output_unicast netif p ip.

(** ** Input *)

Definition read_field (x : option ptr) (off n : Z) : M eth (list Z) := on_pbuf (read_at x off n).

Definition etharp_input (p : loc) (netif : nat) : M eth unit :=
  b ← on_pbuf (getp p);
  let hdr := payload b in
  wrong ← orM (x ← read_field hdr 0 2; mret (negb (load_word16 x =? PP_HTONS LWIP_IANA_HWTYPE_ETHERNET)))
         (orM (x ← read_field hdr 4 1; mret (negb (bool_decide (x = [6]))))
         (orM (x ← read_field hdr 5 1; mret (negb (bool_decide (x = [4]))))
              (x ← read_field hdr 2 2; mret (negb (load_word16 x =? PP_HTONS ETHTYPE_IP)))));
  if (wrong : bool) then on_pbuf (pbuf_free (Some p));; mret tt
  else
    x ← read_field hdr 14 4; let sipaddr := load_word32 x in
    x ← read_field hdr 24 4; let dipaddr := load_word32 x in
    n ← the_netif netif;
    let configured := negb (ip4_addr_isany_val (if_ip_addr n)) in
    let for_us := configured && ip4_addr_eq dipaddr (if_ip_addr n) in
    let from_us := configured && ip4_addr_eq sipaddr (if_ip_addr n) in
    shwaddr ← read_field hdr 8 6;
    etharp_update_arp_entry netif sipaddr shwaddr (if for_us then ETHARP_FLAG_TRY_HARD else ETHARP_FLAG_FIND_ONLY);;
    x ← read_field hdr 6 2;
    when (load_word16 x =? PP_HTONS ARP_REQUEST)
      (when (for_us && negb from_us)
         (n ← the_netif netif;
          shwaddr ← read_field hdr 8 6;
          etharp_raw netif (if_hwaddr n) shwaddr (if_hwaddr n) (if_ip_addr n) shwaddr sipaddr ARP_REPLY;;
          mret tt));;
    on_pbuf (pbuf_free (Some p));;
    mret tt.

(** ** Ethernet input *)

Context (ip4_input : loc -> nat -> M eth unit).

(** The link-layer flags of the destination address. *)
Definition mark_llcast (p : loc) (dest : list Z) : M eth unit :=
  when (has (nth 0 dest 0) 1)
    (if nth 0 dest 0 =? LL_IP4_MULTICAST_ADDR_0 then
       when ((nth 1 dest 0 =? LL_IP4_MULTICAST_ADDR_1) && (nth 2 dest 0 =? LL_IP4_MULTICAST_ADDR_2))
         (on_pbuf (setp p (fun b => set_flags (Z.lor (flags b) PBUF_FLAG_LLMCAST) b)))
     else when (eth_addr_eq dest ethbroadcast)
       (on_pbuf (setp p (fun b => set_flags (Z.lor (flags b) PBUF_FLAG_LLBCAST) b)))).

(** [free_and_return]. *)
Definition free_and_return (p : loc) : M eth Z := on_pbuf (pbuf_free (Some p));; mret ERR_OK.

Definition ethernet_input (p : loc) (netif : nat) : M eth Z :=
  b ← on_pbuf (getp p);
  if len b <=? SIZEOF_ETH_HDR then free_and_return p
  else
    let ethhdr := payload b in
    x ← read_field ethhdr 12 2;
    let type := load_word16 x in
    n ← the_netif netif;
    when (if_idx b =? NETIF_NO_INDEX) (on_pbuf (setp p (set_if_idx (netif_get_index n))));;
    dest ← read_field ethhdr 0 6;
    mark_llcast p dest;;
    if (type =? PP_HTONS ETHTYPE_IP) || (type =? PP_HTONS ETHTYPE_ARP) then
      if negb (has (if_flags n) NETIF_FLAG_ETHARP) then free_and_return p
      else
        r ← on_pbuf (pbuf_remove_header (Some p) SIZEOF_ETH_HDR);
        if negb (r =? 0) then free_and_return p
        else
          (if type =? PP_HTONS ETHTYPE_IP then ip4_input p netif else etharp_input p netif);;
          mret ERR_OK
    else free_and_return p.
End Etharp.
