(* ===== verification/EtharpTable.v ===== *)
(** Address resolution: the choice of a table entry by [etharp_find_entry]. *)
From S2P Require Import Prelude Memp Pbuf Chksum Ip4Addr Ethernet Etharp.

Section Link.
Context `{LinkOutput, !CustomFree, Build}.

(** ** Computations that touch the packet memory and the link only *)

Definition same_table (s s' : eth) : Prop :=
  arp_table s' = arp_table s /\ etharp_cached_entry s' = etharp_cached_entry s /\ netifs s' = netifs s.

Lemma same_table_refl s : same_table s s.
Proof. done. Qed.

Lemma same_table_trans s1 s2 s3 : same_table s1 s2 -> same_table s2 s3 -> same_table s1 s3.
Proof. intros (? & ? & ?) (? & ? & ?). split_and!; congruence. Qed.

Definition link_only {A} (m : M eth A) : Prop := forall s, same_table s (outcome_state (m s)).

Lemma link_only_bind {A B} (m : M eth A) (f : A -> M eth B) :
  link_only m -> (forall a, link_only (f a)) -> link_only (m ≫= f).
Proof.
  intros Hm Hf s. specialize (Hm s). unfold mbind, M_bind. destruct (m s) as [a s'|w s']; [|done].
  eapply same_table_trans; [exact Hm|apply Hf].
Qed.

Lemma link_only_ret {A} (a : A) : link_only (mret a).
Proof. by intros s. Qed.

Lemma link_only_gets {A} (f : eth -> A) : link_only (gets f).
Proof. by intros s. Qed.

Lemma link_only_on_pbuf {A} (x : M mem A) : link_only (on_pbuf x).
Proof. intros s. unfold on_pbuf, zoom. by destruct (x (emem s)). Qed.

Lemma link_only_linkoutput n p : link_only (call_linkoutput n p).
Proof. intros s. unfold call_linkoutput, zoom. by destruct (linkoutput n p (emem s, elink s)). Qed.

Lemma link_only_if {A} (b : bool) (m1 m2 : M eth A) : link_only m1 -> link_only m2 -> link_only (if b then m1 else m2).
Proof. by destruct b. Qed.

Lemma link_only_option {A B} (o : option B) (f : B -> M eth A) (m : M eth A) :
  (forall x, link_only (f x)) -> link_only m -> link_only (match o with Some x => f x | None => m end).
Proof. intros. by destruct o. Qed.
End Link.

Create HintDb link.
#[export] Hint Resolve link_only_ret link_only_gets link_only_on_pbuf link_only_linkoutput : link.

(** Steps through a computation that only calls into memory and driver. *)
Ltac link_step :=
  first [ apply link_only_bind; [|intros ?]
        | apply link_only_if
        | apply link_only_option; [intros ?|]
        | solve [auto with link] ].
Ltac link_solve := intros; repeat link_step.

Section LinkOps.
Context `{LinkOutput, !CustomFree, Build}.

Lemma link_only_ethernet_output n p src dst t : link_only (ethernet_output n p src dst t).
Proof. unfold ethernet_output. link_solve. Qed.
#[local] Hint Resolve link_only_ethernet_output : link.

Lemma link_only_etharp_raw n a b c d e f g : link_only (etharp_raw n a b c d e f g).
Proof. unfold etharp_raw. link_solve. Qed.
#[local] Hint Resolve link_only_etharp_raw : link.

Lemma link_only_request_dst n ip hw : link_only (etharp_request_dst n ip hw).
Proof. unfold etharp_request_dst, the_netif. link_solve. Qed.

Lemma link_only_request n ip : link_only (etharp_request n ip).
Proof. apply link_only_request_dst. Qed.

Lemma link_only_read_field x o n : link_only (read_field x o n).
Proof. apply link_only_on_pbuf. Qed.

Lemma link_only_orM a b : link_only a -> link_only b -> link_only (orM a b).
Proof. intros. apply link_only_bind; [done|]. intros []; auto with link. Qed.

Lemma link_only_take_over p : link_only (take_over p).
Proof. unfold take_over. link_step; [link_step|]. destruct a; link_solve. Qed.

Lemma link_only_free_q p : link_only (free_etharp_q p).
Proof. apply link_only_on_pbuf. Qed.

(** What a read returns. *)
Lemma read_at_length x o n m l m' : 0 <= n -> read_at x o n m = Ret l m' -> Z.of_nat (length l) = n.
Proof.
  intros Hn. unfold read_at. destruct (Z.eqb_spec n 0) as [->|]; [by intros [= <- _]|].
  intros (y & m1 & E1 & E)%bind_inv. unfold deref in E1. destruct x as [[blk off]|]; [|done]. injection E1 as <- <-.
  apply bind_inv in E as (a & m2 & E2 & E). injection E as <- _. unfold area in E2.
  apply bind_inv in E2 as (oa & m3 & [= <- <-] & E2). apply bind_inv in E2 as (a' & m4 & E3 & E2).
  unfold deref in E3. destruct (bytes m !! _) as [b|]; [|discriminate E3]. injection E3 as -> ->. cbn [fst snd] in *.
  destruct (Z.leb_spec 0 (off + o)), (Z.leb_spec 0 n), (Z.leb_spec (off + o + n) (Z.of_nat (length a'))); try done.
  injection E2 as -> _. rewrite length_take, length_drop. lia.
Qed.
End LinkOps.
#[export] Hint Resolve link_only_ethernet_output link_only_etharp_raw link_only_request_dst link_only_request
  link_only_read_field link_only_orM link_only_take_over link_only_free_q : link.

(** ** What the search looks for *)

Definition live (e : etharp_entry) : Prop := state e <> ETHARP_STATE_EMPTY.
Definition is_stable (e : etharp_entry) : Prop := stable_state (state e) = true.
Definition idle_pending (e : etharp_entry) : Prop := state e = ETHARP_STATE_PENDING /\ q e = None.
Definition busy_pending (e : etharp_entry) : Prop := state e = ETHARP_STATE_PENDING /\ q e <> None.

Lemma stable_live e : is_stable e -> live e.
Proof. unfold is_stable, live. by destruct (state e). Qed.

(** The oldest entry with [P]; the last one of equals. *)
Definition oldest (P : etharp_entry -> Prop) (t : list etharp_entry) (i : Z) : Prop :=
  0 <= i /\ exists e, t !! Z.to_nat i = Some e /\ P e /\
  forall j e', t !! j = Some e' -> P e' -> ctime e' < ctime e \/ (ctime e' = ctime e /\ Z.of_nat j <= i).

Definition none (P : etharp_entry -> Prop) (t : list etharp_entry) : Prop := forall j e, t !! j = Some e -> ~ P e.

(** The first entry with [P]. *)
Definition first_with (P : etharp_entry -> Prop) (t : list etharp_entry) (i : Z) : Prop :=
  0 <= i /\ exists e, t !! Z.to_nat i = Some e /\ P e /\ forall j e', (j < Z.to_nat i)%nat -> t !! j = Some e' -> ~ P e'.

(** An index and an age found so far. *)
Definition best (P : etharp_entry -> Prop) (t : list etharp_entry) (i age : Z) : Prop :=
  (i = ARP_TABLE_SIZE /\ age = 0 /\ none P t) \/
  (oldest P t i /\ i < Z.of_nat (length t) /\ exists e, t !! Z.to_nat i = Some e /\ age = ctime e).

Lemma snoc_lookup (t : list etharp_entry) e j e' :
  (t ++ [e]) !! j = Some e' -> t !! j = Some e' \/ (j = length t /\ e' = e).
Proof.
  intros [E|[Hj E]]%lookup_app_Some; [by left|]. apply list_lookup_singleton_Some in E as [Hz ->]. right. split; [lia|done].
Qed.

Lemma none_snoc P t e : none P t -> ~ P e -> none P (t ++ [e]).
Proof. intros Hn He j e' [E|[_ ->]]%snoc_lookup; [by eapply Hn|done]. Qed.

Lemma best_keep P t i age e : 0 <= ctime e -> best P t i age -> ~ P e \/ ctime e < age -> best P (t ++ [e]) i age.
Proof.
  intros H0 [(-> & -> & Hn)|((Hi & e0 & E0 & P0 & Ho) & Hlt & e1 & E1 & ->)] He.
  - left. split_and!; [done|done|]. apply none_snoc; [done|]. destruct He; [done|lia].
  - right. simplify_eq. split_and!; [|rewrite length_app; simpl; lia|exists e0; split; [by apply lookup_app_l_Some|done]].
    split; [done|]. exists e0. split_and!; [by apply lookup_app_l_Some|done|].
    intros j e' [E|[-> ->]]%snoc_lookup Pe'; [by apply Ho|]. destruct He; [done|by left].
Qed.

Lemma best_new P t i age e : best P t i age -> P e -> age <= ctime e -> best P (t ++ [e]) (Z.of_nat (length t)) (ctime e).
Proof.
  intros Hb Pe Ha. right.
  assert (E : (t ++ [e]) !! Z.to_nat (Z.of_nat (length t)) = Some e) by (rewrite Nat2Z.id; by apply list_lookup_middle).
  split_and!; [|rewrite length_app; simpl; lia|by exists e].
  split; [lia|]. exists e. split_and!; [done|done|]. intros j e' [E'|[-> ->]]%snoc_lookup Pe'; [|right; lia].
  pose proof (lookup_lt_Some _ _ _ E'). destruct Hb as [(_ & _ & Hn)|((Hi & e0 & E0 & P0 & Ho) & _ & e1 & E1 & ->)].
  - destruct (Hn _ _ E' Pe').
  - simplify_eq. destruct (Ho j e' E' Pe') as [|[]]; [left; lia|]. destruct (decide (ctime e' < ctime e)); [by left|right; lia].
Qed.

(** The first empty entry found so far. *)
Definition found_empty (t : list etharp_entry) (i : Z) : Prop :=
  (i = ARP_TABLE_SIZE /\ Forall live t) \/ (first_with (fun e => state e = ETHARP_STATE_EMPTY) t i /\ i < Z.of_nat (length t)).

Lemma found_empty_snoc t i e : found_empty t i -> live e \/ i <> ARP_TABLE_SIZE -> found_empty (t ++ [e]) i.
Proof.
  intros [(-> & Hl)|((Hi & e0 & E0 & P0 & Ho) & Hlt)] He.
  - left. split; [done|]. apply Forall_app. split; [done|]. destruct He; [by constructor|done].
  - right. split; [|rewrite length_app; simpl; lia]. split; [done|]. exists e0. split_and!; [by apply lookup_app_l_Some|done|].
    intros j e' Hj [E|[-> _]]%snoc_lookup; [by apply (Ho j)|lia].
Qed.

Lemma found_empty_new t e : found_empty t ARP_TABLE_SIZE -> (length t < 10)%nat -> state e = ETHARP_STATE_EMPTY ->
  found_empty (t ++ [e]) (Z.of_nat (length t)).
Proof.
  intros [(_ & Hl)|((Hi & e0 & E0 & _) & Hlt)] Ht He; [|unfold ARP_TABLE_SIZE in Hlt; lia].
  right. split; [|rewrite length_app; simpl; lia]. split; [lia|]. exists e.
  split_and!; [rewrite Nat2Z.id; by apply list_lookup_middle|done|].
  intros j e' Hj [E|[-> _]]%snoc_lookup; [|lia]. rewrite Forall_lookup in Hl. by apply (Hl j).
Qed.

(** What the locals of the search say about the entries seen. *)
Record seen (t : list etharp_entry) (c : candidates) : Prop := {
  sn_empty : found_empty t (c_empty c);
  sn_stable : best is_stable t (old_stable c) (age_stable c);
  sn_pending : best idle_pending t (old_pending c) (age_pending c);
  sn_queue : best busy_pending t (old_queue c) (age_queue c)
}.

Lemma not_stable_pending e : state e = ETHARP_STATE_PENDING -> ~ is_stable e.
Proof. unfold is_stable. by intros ->. Qed.

Lemma not_pending_stable e : is_stable e -> ~ idle_pending e /\ ~ busy_pending e.
Proof. unfold is_stable, idle_pending, busy_pending. destruct (state e); naive_solver. Qed.

Lemma not_empty_any e : state e = ETHARP_STATE_EMPTY -> ~ is_stable e /\ ~ idle_pending e /\ ~ busy_pending e.
Proof. unfold is_stable, idle_pending, busy_pending. intros ->. naive_solver. Qed.

Ltac keeps := first [assumption | left; tauto].

Lemma find_step_seen ip n t e c c' : seen t c -> (length t < 10)%nat -> 0 <= ctime e ->
  find_step ip n (Z.of_nat (length t)) e c = Some c' -> seen (t ++ [e]) c' /\ (live e -> entry_matches ip n e = false).
Proof.
  intros [Se Ss Sp Sq] Ht H0. unfold find_step. destruct (bool_decide_reflect (state e = ETHARP_STATE_EMPTY)) as [He|He].
  - destruct (not_empty_any e He) as (N1 & N2 & N3). rewrite (bool_decide_false (state e <> _)) by tauto.
    destruct (Z.eqb_spec (c_empty c) ARP_TABLE_SIZE) as [Ec|Ec]; cbn [andb]; intros [= <-]; (split; [|done]); split; cbn;
      try (by apply best_keep; [done|done|by left]).
    + rewrite Ec in Se. by apply found_empty_new.
    + apply found_empty_snoc; [done|by right].
  - rewrite andb_false_r, bool_decide_true by done. destruct (entry_matches ip n e) eqn:Em; [done|].
    pose proof (found_empty_snoc _ _ e Se (or_introl He)) as Se'.
    destruct (bool_decide_reflect (state e = ETHARP_STATE_PENDING)) as [Hp|Hp].
    + pose proof (not_stable_pending e Hp) as N1. destruct (bool_decide_reflect (q e <> None)) as [Hq|Hq].
      * assert (~ idle_pending e) by (unfold idle_pending; tauto). assert (busy_pending e) by done.
        destruct (Z.leb_spec (age_queue c) (ctime e)); intros [= <-]; (split; [|done]); split; cbn; try done;
          try (apply best_keep; [done|done|tauto || lia]); by eapply best_new.
      * assert (~ busy_pending e) by (unfold busy_pending; tauto).
        assert (idle_pending e) by (split; [done|]; destruct (q e); [destruct Hq|]; done).
        destruct (Z.leb_spec (age_pending c) (ctime e)); intros [= <-]; (split; [|done]); split; cbn; try done;
          try (apply best_keep; [done|done|tauto || lia]); by eapply best_new.
    + assert (Hst : is_stable e) by (unfold is_stable; by destruct (state e)). pose proof (not_pending_stable e Hst) as [N2 N3].
      unfold is_stable in Hst. rewrite Hst.
      destruct (Z.leb_spec (age_stable c) (ctime e)); intros [= <-]; (split; [|done]); split; cbn; try done;
        try (apply best_keep; [done|done|tauto || lia]); by eapply best_new.
Qed.

(** [i] is the first live entry for the address. *)
Definition match_at (t : list etharp_entry) (ip : option Z) (n : option nat) (i : Z) : Prop :=
  first_with (fun e => live e /\ entry_matches ip n e = true) t i.

Definition no_match (t : list etharp_entry) (ip : option Z) (n : option nat) : Prop :=
  none (fun e => live e /\ entry_matches ip n e = true) t.

Lemma find_loop_seen ip n t : forall pre c,
  seen pre c -> no_match pre ip n -> (length pre + length t <= 10)%nat -> Forall (fun e => 0 <= ctime e) t ->
  match find_loop ip n (Z.of_nat (length pre)) t c with
  | inl i => match_at (pre ++ t) ip n i
  | inr c' => seen (pre ++ t) c' /\ no_match (pre ++ t) ip n
  end.
Proof.
  induction t as [|e t IH]; intros pre c Hs Hn Hl Ht; cbn [find_loop]; [by rewrite app_nil_r|].
  apply Forall_cons in Ht as [H0 Ht]. simpl in Hl. destruct (find_step ip n _ e c) as [c'|] eqn:Es.
  - destruct (find_step_seen ip n pre e c c' Hs ltac:(lia) H0 Es) as [Hs' Hm].
    specialize (IH (pre ++ [e]) c' Hs'). rewrite length_app, <- app_assoc in IH. simpl in IH.
    replace (Z.of_nat (length pre + 1)) with (Z.of_nat (length pre) + 1) in IH by lia. apply IH; [|lia|done].
    apply none_snoc; [done|]. intros [Hv Hm']. by rewrite Hm in Hm'.
  - assert (Hm : live e /\ entry_matches ip n e = true).
    { unfold find_step in Es. destruct (_ && _); [done|]. unfold live.
      destruct (bool_decide_reflect (state e <> ETHARP_STATE_EMPTY)); [|done].
      destruct (entry_matches ip n e); [done|]. by repeat case_match. }
    split; [lia|]. exists e. rewrite Nat2Z.id. split; [by apply list_lookup_middle|]. split; [done|].
    intros j e' Hj E. apply (Hn j). rewrite lookup_app_l in E by lia. done.
Qed.

Lemma seen_nil : seen [] no_candidates.
Proof. split; left; by split_and!. Qed.

(** ** The choice *)

Inductive choice : Type :=
| Found (i : Z)      (** the entry of the address *)
| Fresh (i : Z)      (** an empty entry *)
| Recycled (i : Z)   (** an entry that is given up *)
| Refused.

(** Which entry [etharp_find_entry] is to choose. *)
Inductive chooses (t : list etharp_entry) (ip : option Z) (n : option nat) (flags : Z) : choice -> Prop :=
| ch_found i : match_at t ip n i -> chooses t ip n flags (Found i)
| ch_only : no_match t ip n -> has flags ETHARP_FLAG_FIND_ONLY = true -> chooses t ip n flags Refused
| ch_fresh i : no_match t ip n -> has flags ETHARP_FLAG_FIND_ONLY = false ->
    first_with (fun e => state e = ETHARP_STATE_EMPTY) t i -> chooses t ip n flags (Fresh i)
| ch_full : no_match t ip n -> Forall live t -> has flags ETHARP_FLAG_TRY_HARD = false -> chooses t ip n flags Refused
| ch_stable i : no_match t ip n -> has flags ETHARP_FLAG_FIND_ONLY = false -> has flags ETHARP_FLAG_TRY_HARD = true ->
    Forall live t -> oldest is_stable t i -> chooses t ip n flags (Recycled i)
| ch_pending i : no_match t ip n -> has flags ETHARP_FLAG_FIND_ONLY = false -> has flags ETHARP_FLAG_TRY_HARD = true ->
    Forall live t -> none is_stable t -> oldest idle_pending t i -> chooses t ip n flags (Recycled i)
| ch_queue i : no_match t ip n -> has flags ETHARP_FLAG_FIND_ONLY = false -> has flags ETHARP_FLAG_TRY_HARD = true ->
    Forall live t -> none is_stable t -> none idle_pending t -> oldest busy_pending t i -> chooses t ip n flags (Recycled i).

Section Choice.
Context `{LinkOutput, !CustomFree, Build}.

(** The fields of a new entry. *)
Definition claim (i : Z) (ip : option Z) (netif : option nat) : M eth Z :=
  match ip with Some a => set_entry i (set_ipaddr a) | None => mret tt end;;
  set_entry i (set_ctime 0);; set_entry i (set_netif netif);; mret i.

(** What is done with the choice. *)
Definition act_on (ip : option Z) (netif : option nat) (c : choice) : M eth Z :=
  match c with
  | Found i => mret i
  | Refused => mret ERR_MEM
  | Fresh i => claim i ip netif
  | Recycled i => etharp_free_entry i;; claim i ip netif
  end.

Lemma first_with_bound P t i : first_with P t i -> 0 <= i < Z.of_nat (length t).
Proof. intros (Hi & e & E & _). apply lookup_lt_Some in E. lia. Qed.

Lemma oldest_bound P t i : oldest P t i -> 0 <= i < Z.of_nat (length t).
Proof. intros (Hi & e & E & _). apply lookup_lt_Some in E. lia. Qed.

Lemma live_cases e : live e -> is_stable e \/ idle_pending e \/ busy_pending e.
Proof. unfold live, is_stable, idle_pending, busy_pending. destruct (state e), (q e); naive_solver. Qed.

(** The search and what follows it, on a table of the right size. *)
Lemma find_entry_choice s ip flags netif :
  length (arp_table s) = 10%nat -> Forall (fun e => 0 <= ctime e) (arp_table s) ->
  exists c, chooses (arp_table s) ip netif flags c /\
    etharp_find_entry ip flags netif s = act_on ip netif c s.
Proof.
  intros Hl Hage. pose proof (find_loop_seen ip netif (arp_table s) [] no_candidates seen_nil) as Hf. simpl in Hf.
  specialize (Hf ltac:(by intros j e Hj) ltac:(lia) Hage). change (Z.of_nat 0) with 0 in Hf. unfold etharp_find_entry. erewrite bind_Ret by reflexivity.
  destruct (find_loop ip netif 0 (arp_table s) no_candidates) as [i|c]; [by exists (Found i); split; [by apply ch_found|]|].
  destruct Hf as [[Se Ss Sp Sq] Hn]. destruct (has flags ETHARP_FLAG_FIND_ONLY) eqn:Fo; cbn [orb].
  { exists Refused. split; [by apply ch_only|done]. }
  destruct Se as [[-> Hv]|[Hem Hlt]].
  2:{ exists (Fresh (c_empty c)). split; [by apply ch_fresh|]. rewrite Hl in Hlt.
      rewrite (proj2 (Z.eqb_neq _ _)), (proj2 (Z.ltb_lt (c_empty c) ARP_TABLE_SIZE)) by (unfold ARP_TABLE_SIZE; lia).
      cbn [andb]. erewrite bind_Ret by reflexivity. rewrite (proj2 (Z.ltb_ge _ _)) by (destruct Hem; lia). done. }
  rewrite Z.eqb_refl, Z.ltb_irrefl. cbn [andb]. destruct (has flags ETHARP_FLAG_TRY_HARD) eqn:Th; cbn [negb].
  2:{ exists Refused. split; [by apply ch_full|done]. }
  assert (Hrec : forall i, 0 <= i ->
    ((etharp_free_entry i;; mret i) ≫= (fun i => if i <? 0 then mret ERR_MEM else claim i ip netif)) s =
    act_on ip netif (Recycled i) s).
  { intros i Hi. cbn [act_on]. unfold mbind, M_bind, mret, M_ret. destruct (etharp_free_entry i s); [|done].
    by rewrite (proj2 (Z.ltb_ge _ _)) by lia. }
  destruct Ss as [(-> & _ & Hns)|(Ho & Hlt & _)].
  2:{ exists (Recycled (old_stable c)). split; [by apply ch_stable|]. rewrite (proj2 (Z.ltb_lt _ _)) by (unfold ARP_TABLE_SIZE; lia).
      apply (Hrec _ (proj1 Ho)). }
  rewrite Z.ltb_irrefl. destruct Sp as [(-> & _ & Hnp)|(Ho & Hlt & _)].
  2:{ exists (Recycled (old_pending c)). split; [by apply ch_pending|]. rewrite (proj2 (Z.ltb_lt _ _)) by (unfold ARP_TABLE_SIZE; lia).
      apply (Hrec _ (proj1 Ho)). }
  rewrite Z.ltb_irrefl. destruct Sq as [(_ & _ & Hnq)|(Ho & Hlt & _)].
  2:{ exists (Recycled (old_queue c)). split; [by apply ch_queue|]. rewrite (proj2 (Z.ltb_lt _ _)) by (unfold ARP_TABLE_SIZE; lia).
      apply (Hrec _ (proj1 Ho)). }
  exfalso. destruct (arp_table s) as [|e t]; [done|]. apply Forall_cons in Hv as [Hv _].
  destruct (live_cases e Hv) as [?|[?|?]]; [by apply (Hns 0%nat e)|by apply (Hnp 0%nat e)|by apply (Hnq 0%nat e)].
Qed.
End Choice.
