(* ===== verification/EtharpInv.v ===== *)
(** Address resolution: the invariant of the table, kept by every call. *)
From S2P Require Import Prelude Memp Pbuf Chksum Ip4Addr Ethernet Etharp EtharpTable.

(** An entry as the code may leave it: a six-byte address, a 16-bit age, a
    packet only while the entry is pending, and, when it is in use, an interface
    and a unicast address. *)
Record entry_ok (e : etharp_entry) : Prop := {
  eo_addr : length (ethaddr e) = 6%nat;
  eo_age : 0 <= ctime e < 65536;
  eo_queue : q e <> None -> state e = ETHARP_STATE_PENDING;
  eo_live : live e -> is_Some (netif_ e) /\ ip4_addr_isany_val (ipaddr e) = false /\ ip4_addr_ismulticast (ipaddr e) = false
}.

(** Between calls an entry is younger than the limits. *)
Definition young (e : etharp_entry) : Prop :=
  (live e -> ctime e < ARP_MAXAGE) /\ (state e = ETHARP_STATE_PENDING -> ctime e < ARP_MAXPENDING).

(** The entries in use are for different addresses. *)
Definition same_key (e e' : etharp_entry) : Prop := ipaddr e = ipaddr e' /\ netif_ e = netif_ e'.
Definition distinct (t : list etharp_entry) : Prop :=
  forall i j e e', t !! i = Some e -> t !! j = Some e' -> live e -> live e' -> same_key e e' -> i = j.

Record table_ok (t : list etharp_entry) : Prop := {
  to_length : length t = 10%nat;
  to_entries : Forall entry_ok t;
  to_distinct : distinct t
}.

Lemma table_ok_entry t i e : table_ok t -> t !! i = Some e -> entry_ok e.
Proof. intros [_ Hf _] E. rewrite Forall_lookup in Hf. eauto. Qed.

Lemma table_ok_lookup t i : table_ok t -> 0 <= i < 10 -> exists e, t !! Z.to_nat i = Some e /\ entry_ok e.
Proof.
  intros Ht Hi. destruct (lookup_lt_is_Some_2 t (Z.to_nat i)) as [e E]; [rewrite (to_length _ Ht); lia|].
  exists e. split; [done|by eapply table_ok_entry].
Qed.

Lemma table_ok_insert t i e : table_ok t -> entry_ok e ->
  (live e -> forall j e', j <> i -> t !! j = Some e' -> live e' -> ~ same_key e' e) ->
  table_ok (<[i := e]> t).
Proof.
  intros [Hl Hf Hd] He Hk. split; [by rewrite length_insert|by apply Forall_insert|].
  intros j k e1 e2 E1 E2 L1 L2 S12.
  pose proof E1 as E1'. pose proof E2 as E2'.
  apply list_lookup_insert_Some in E1' as [(<- & <- & _)|[N1 E1']];
    apply list_lookup_insert_Some in E2' as [(<- & <- & _)|[N2 E2']]; [done|..].
  - destruct (Hk L1 k e2 (not_eq_sym N2) E2' L2). by destruct S12.
  - destruct (Hk L2 j e1 (not_eq_sym N1) E1' L1). done.
  - by apply (Hd j k e1 e2).
Qed.

(** An entry replaced by one with its key, or by an empty one. *)
Lemma table_ok_update t i e e' : table_ok t -> t !! i = Some e -> entry_ok e' ->
  (live e' -> live e /\ same_key e e') -> table_ok (<[i := e']> t).
Proof.
  intros Ht E He Hk. apply table_ok_insert; [done|done|]. intros Lv j e1 Hj E1 L1 S1. destruct (Hk Lv) as [L S2].
  destruct Hj. apply (to_distinct _ Ht j i e1 e); [done..|]. destruct S1, S2. split; congruence.
Qed.

Lemma table_ok_init : table_ok (replicate 10 (ArpEntry None 0 None ethzero 0 ETHARP_STATE_EMPTY)).
Proof.
  split; [done| |].
  - apply Forall_replicate. by split; cbn.
  - intros i j e e' [-> _]%lookup_replicate _ []. done.
Qed.

Section Invariant.
Context `{LinkOutput, !CustomFree, Build}.

Definition arp_ok (s : eth) : Prop := table_ok (arp_table s) /\ 0 <= etharp_cached_entry s < 10.

Lemma arp_ok_same s s' : same_table s s' -> arp_ok s -> arp_ok s'.
Proof. intros (E1 & E2 & _) [Ht Hc]. split; [by rewrite E1|by rewrite E2]. Qed.

Lemma safe_link {A} (m : M eth A) (Q : A -> eth -> Prop) s :
  link_only m -> arp_ok s -> (forall a s', same_table s s' -> m s = Ret a s' -> Q a s') -> safe arp_ok m Q s.
Proof.
  intros Hm Hi HQ. specialize (Hm s). unfold safe. destruct (m s) as [a s'|w s']; simpl in Hm.
  - split; [by eapply arp_ok_same|by apply HQ].
  - by eapply arp_ok_same.
Qed.

(** ** One entry *)

Definition entry_at (i : Z) (e : etharp_entry) (s : eth) : Prop := 0 <= i < 10 /\ arp_table s !! Z.to_nat i = Some e.
Definition put_entry (i : Z) (e : etharp_entry) (s : eth) : eth :=
  set_arp_table (<[Z.to_nat i := e]> (arp_table s)) s.

Lemma put_put i e e' s : put_entry i e' (put_entry i e s) = put_entry i e' s.
Proof. unfold put_entry, set_arp_table. simpl. by rewrite list_insert_insert_eq. Qed.

Lemma put_at i e e' s : entry_at i e s -> entry_at i e' (put_entry i e' s).
Proof. intros [Hi E]. split; [done|]. simpl. apply list_lookup_insert_eq. by apply lookup_lt_Some in E. Qed.

Lemma at_same i e s s' : same_table s s' -> entry_at i e s -> entry_at i e s'.
Proof. intros (E & _ & _) [Hi Ha]. split; [done|by rewrite E]. Qed.

Lemma at_exists i s : table_ok (arp_table s) -> 0 <= i < 10 -> exists e, entry_at i e s /\ entry_ok e.
Proof. intros Ht Hi. destruct (table_ok_lookup _ i Ht Hi) as (e & E & He). by exists e. Qed.

Lemma at_ok i e s : table_ok (arp_table s) -> entry_at i e s -> entry_ok e.
Proof. intros Ht [_ E]. by eapply table_ok_entry. Qed.

Lemma get_entry_run i e s : entry_at i e s -> get_entry i s = Ret e s.
Proof.
  intros [Hi E]. unfold get_entry. erewrite bind_Ret by reflexivity.
  rewrite (proj2 (Z.leb_le _ _)) by lia. by rewrite E.
Qed.

Lemma set_entry_run i f e s : entry_at i e s -> set_entry i f s = Ret tt (put_entry i (f e) s).
Proof. intros Ha. unfold set_entry. erewrite bind_Ret by by apply get_entry_run. done. Qed.

Lemma wp_get_entry i e (Q : etharp_entry -> eth -> Prop) s : entry_at i e s -> Q e s -> wp (get_entry i) Q s.
Proof. intros Ha HQ. eapply wp_of_run; [by apply get_entry_run|done]. Qed.

Lemma wp_set_entry i f e (Q : unit -> eth -> Prop) s :
  entry_at i e s -> (entry_at i (f e) (put_entry i (f e) s) -> Q tt (put_entry i (f e) s)) -> wp (set_entry i f) Q s.
Proof. intros Ha HQ. eapply wp_of_run; [by apply set_entry_run|]. by eapply HQ, put_at. Qed.

(** The same inside a computation that keeps the invariant. *)
Lemma safe_get_entry i e (Q : etharp_entry -> eth -> Prop) s :
  arp_ok s -> entry_at i e s -> Q e s -> safe arp_ok (get_entry i) Q s.
Proof. intros Hi Ha HQ. apply safe_wp. by eapply wp_get_entry. Qed.

Lemma safe_set_entry i f e (Q : unit -> eth -> Prop) s :
  arp_ok s -> entry_at i e s -> entry_ok (f e) -> (live (f e) -> live e /\ same_key e (f e)) ->
  (entry_at i (f e) (put_entry i (f e) s) -> Q tt (put_entry i (f e) s)) -> safe arp_ok (set_entry i f) Q s.
Proof.
  intros [Ht Hc] Ha He Hk HQ. apply safe_wp. eapply wp_set_entry; [done|]. intros Ha'. split; [|by apply HQ].
  split; [|done]. eapply table_ok_update; [done|apply Ha|done|done].
Qed.

(** ** Giving an entry up *)

Definition freed_entry (e : etharp_entry) : etharp_entry :=
  if LWIP_DEBUG then ArpEntry None 0 None ethzero 0 ETHARP_STATE_EMPTY
  else ArpEntry None (ipaddr e) (netif_ e) (ethaddr e) (ctime e) ETHARP_STATE_EMPTY.

Lemma freed_entry_ok e : entry_ok e -> entry_ok (freed_entry e) /\ ~ live (freed_entry e) /\ q (freed_entry e) = None.
Proof.
  intros [H1' H2' H3 H4]. unfold freed_entry. destruct LWIP_DEBUG; (split_and!; [split; cbn; try done; by intros []|by intros []|done]).
Qed.

(** The part of [etharp_free_entry] after the queue. *)
Lemma free_entry_tail i e s (Q : unit -> eth -> Prop) : entry_at i e s -> q e = None ->
  Q tt (put_entry i (freed_entry e) s) ->
  wp (set_entry i (set_state ETHARP_STATE_EMPTY);;
      when LWIP_DEBUG
        (set_entry i (set_ctime 0);; set_entry i (set_netif None);;
         set_entry i (set_ipaddr 0);; set_entry i (set_ethaddr ethzero))) Q s.
Proof.
  intros Ha Hq HQ. apply wp_bind. eapply wp_set_entry; [done|]. intros Ha1. unfold freed_entry in HQ.
  destruct LWIP_DEBUG; cbn [when]; [|by destruct e; simpl in Hq; subst].
  apply wp_bind. eapply wp_set_entry; [done|]. intros Ha2. apply wp_bind. eapply wp_set_entry; [done|]. intros Ha3.
  apply wp_bind. eapply wp_set_entry; [done|]. intros Ha4. eapply wp_set_entry; [done|]. intros _.
  rewrite !put_put. by destruct e; simpl in Hq; subst.
Qed.

Lemma safe_free_entry i e (Q : unit -> eth -> Prop) s : arp_ok s -> entry_at i e s ->
  (forall s', same_table s s' -> Q tt (put_entry i (freed_entry e) s')) -> safe arp_ok (etharp_free_entry i) Q s.
Proof.
  intros Hi Ha HQ. pose proof (at_ok i e s (proj1 Hi) Ha) as He. unfold etharp_free_entry.
  apply safe_bind, (safe_get_entry _ e); [done|done|]. intros _.
  assert (Htail : forall s' e', same_table s s' -> e' = e \/ e' = set_q None e -> q e' = None ->
    safe arp_ok (set_entry i (set_state ETHARP_STATE_EMPTY);;
      when LWIP_DEBUG (set_entry i (set_ctime 0);; set_entry i (set_netif None);;
         set_entry i (set_ipaddr 0);; set_entry i (set_ethaddr ethzero))) Q (if bool_decide (q e <> None) then put_entry i e' s' else s')).
  { intros s' e' Hs' He' Hq. set (s1 := if bool_decide (q e <> None) then put_entry i e' s' else s').
    assert (Ha1 : entry_at i e' s1).
    { subst s1. destruct (bool_decide_reflect (q e <> None)); [by eapply put_at, at_same|].
      assert (e' = e) as -> by (destruct He' as [|He']; [done|]; destruct e as [[] ? ? ? ? ?]; [naive_solver|done]).
      by eapply at_same. }
    assert (Ef : put_entry i (freed_entry e') s1 = put_entry i (freed_entry e) s').
    { transitivity (put_entry i (freed_entry e') s').
      - subst s1. case_match; [apply put_put|done].
      - f_equal. unfold freed_entry. by destruct He' as [->| ->]. }
    apply safe_wp. eapply free_entry_tail; [done|done|]. rewrite Ef. split; [|by apply HQ].
    destruct (freed_entry_ok e He) as (Hok & Hnl & _). pose proof (arp_ok_same _ _ Hs' Hi) as [Ht' Hc'].
    split; [|done]. eapply table_ok_update; [done|by apply (at_same i e s s')|done|done]. }
  apply safe_bind. destruct (bool_decide_reflect (q e <> None)) as [Hq|Hq]; cbn [when].
  - apply safe_bind, safe_link; [auto with link|done|]. intros _ s' Hs' _ Hi'.
    apply (safe_set_entry _ _ e); [done|by eapply at_same| |done|].
    + destruct He. split; cbn; try done.
    + intros _ _. apply (Htail s' (set_q None e)); [done|by right|done].
  - apply safe_ret; [done|]. intros _. apply (Htail s e); [done|by left|]. destruct (q e); [destruct Hq|]; done.
Qed.

(** ** A new entry *)

Definition new_entry (e : etharp_entry) (ip : option Z) (netif : option nat) : etharp_entry :=
  ArpEntry (q e) (default (ipaddr e) ip) netif (ethaddr e) 0 (state e).

Lemma claim_run i e ip netif s : entry_at i e s -> claim i ip netif s = Ret i (put_entry i (new_entry e ip netif) s).
Proof.
  intros Ha. assert (W : wp (claim i ip netif) (fun r s' => r = i /\ s' = put_entry i (new_entry e ip netif) s) s).
  { unfold claim. apply wp_bind. destruct ip as [a|].
    - eapply wp_set_entry; [done|]. intros Ha1. apply wp_bind. eapply wp_set_entry; [done|]. intros Ha2.
      apply wp_bind. eapply wp_set_entry; [done|]. intros _. apply wp_ret. split; [done|]. by rewrite !put_put.
    - apply wp_ret, wp_bind. eapply wp_set_entry; [done|]. intros Ha1.
      apply wp_bind. eapply wp_set_entry; [done|]. intros _. apply wp_ret. split; [done|]. by rewrite !put_put. }
  destruct (wp_elim _ _ _ W) as (r & s' & E & -> & ->). done.
Qed.

Lemma new_entry_ok e ip netif : entry_ok e -> ~ live e -> q e = None -> entry_ok (new_entry e ip netif).
Proof. intros [A1 A2 A3 A4] Hl Hq. by split; cbn. Qed.

Lemma not_live_queue e : entry_ok e -> ~ live e -> q e = None.
Proof.
  intros He Hl. destruct (q e) eqn:Eq; [|done]. pose proof (eo_queue e He ltac:(by rewrite Eq)) as Hp.
  destruct Hl. unfold live. by rewrite Hp.
Qed.

Lemma not_live_empty e : state e = ETHARP_STATE_EMPTY -> ~ live e.
Proof. unfold live. tauto. Qed.

(** The address and the interface of an entry found. *)
Lemma entry_matches_key a n e : entry_matches (Some a) (Some n) e = true <-> ipaddr e = a /\ netif_ e = Some n.
Proof.
  unfold entry_matches, ip4_addr_eq. rewrite andb_true_iff, orb_true_iff, Z.eqb_eq, !bool_decide_eq_true. naive_solver.
Qed.

(** No entry in use but the one at [i] is for the address. *)
Definition alone (i : Z) (e : etharp_entry) (s : eth) : Prop :=
  forall j e', j <> Z.to_nat i -> arp_table s !! j = Some e' -> live e' -> ~ same_key e' e.

Lemma alone_new a n i e s s' : no_match (arp_table s) (Some a) (Some n) -> same_table s s' ->
  forall e', alone i (new_entry e (Some a) (Some n)) (put_entry i e' s').
Proof.
  intros Hn (E & _ & _) e' j e1 Hj E1 L1 [K1 K2]. simpl in E1. rewrite list_lookup_insert_ne, E in E1 by done.
  apply (Hn j e1 E1). split; [done|]. by apply entry_matches_key.
Qed.

Lemma safe_find_entry a n flags (Q : Z -> eth -> Prop) s : arp_ok s ->
  Q ERR_MEM s ->
  (forall i e, entry_at i e s -> live e -> ipaddr e = a -> netif_ e = Some n -> Q i s) ->
  (forall i e s', arp_ok s' -> entry_at i e s' -> ~ live e -> q e = None -> ipaddr e = a -> netif_ e = Some n ->
     ctime e = 0 -> alone i e s' -> netifs s' = netifs s ->
     (Forall young (arp_table s) -> Forall young (arp_table s')) -> Q i s') ->
  safe arp_ok (etharp_find_entry (Some a) flags (Some n)) Q s.
Proof.
  intros Hi HR HF HN. pose proof Hi as [Ht _].
  destruct (find_entry_choice s (Some a) flags (Some n)) as (c & Hc & E).
  { apply Ht. } { eapply Forall_impl; [apply Ht|]. intros e He. apply He. }
  assert (Hbound : forall P i, first_with P (arp_table s) i \/ oldest P (arp_table s) i -> 0 <= i < 10).
  { intros P i Hb. pose proof (to_length _ Ht). destruct Hb as [?%first_with_bound|?%oldest_bound]; lia. }
  assert (Hclaim : forall i e s', same_table s s' -> entry_at i e s -> no_match (arp_table s) (Some a) (Some n) ->
    forall e', entry_ok e' -> ~ live e' -> q e' = None -> arp_ok (put_entry i e' s') ->
    safe arp_ok (claim i (Some a) (Some n)) Q (put_entry i e' s')).
  { intros i e s' Hs Ha Hn e' He' Hl' Hq' Hok'. pose proof (put_at i e e' s' (at_same _ _ _ _ Hs Ha)) as Ha'.
    assert (Hne : entry_ok (new_entry e' (Some a) (Some n))) by (by apply new_entry_ok).
    apply safe_wp. eapply wp_of_run; [by apply claim_run|]. rewrite put_put.
    assert (Hok2 : arp_ok (put_entry i (new_entry e' (Some a) (Some n)) s')).
    { split; [|apply Hok']. rewrite <- (put_put i e'). eapply table_ok_update; [apply Hok'|apply Ha'|done|done]. }
    split; [done|]. eapply HN; [done|eapply put_at; by eapply at_same|done|done|done|done|done|by eapply alone_new|apply Hs|].
    intros Hy. simpl. apply Forall_insert; [by rewrite (proj1 Hs)|]. by split. }
  unfold safe. rewrite E. change (safe arp_ok (act_on (Some a) (Some n) c) Q s).
  destruct c as [i|i|i|]; cbn [act_on].
  - inversion Hc as [? Hm| | | | | |]; subst. destruct Hm as (Hi0 & e & Ee & [Lv Hm] & _). apply entry_matches_key in Hm as [? ?].
    apply safe_ret; [done|]. apply (HF i e); [|done..]. split; [|done]. split; [done|].
    apply lookup_lt_Some in Ee. rewrite (to_length _ Ht) in Ee. lia.
  - inversion Hc as [| |? Hn _ Hf| | | |]; subst. destruct (at_exists i s Ht) as (e & Ha & He); [eapply Hbound; by left|].
    assert (Hl : ~ live e). { destruct Hf as (_ & e' & E' & Hs' & _). destruct Ha as [_ Ha]. simplify_eq. by apply not_live_empty. }
    assert (Es : s = put_entry i e s).
    { unfold put_entry. rewrite list_insert_id by apply Ha. by destruct s. }
    rewrite Es. eapply (Hclaim i e s); [done|done|done|done|done|by apply not_live_queue|by rewrite <- Es].
  - assert (Hio : no_match (arp_table s) (Some a) (Some n) /\ 0 <= i < 10).
    { inversion Hc; subst; (split; [done|eapply Hbound; by right]). }
    destruct Hio as [Hn Hio]. destruct (at_exists i s Ht Hio) as (e & Ha & He).
    apply safe_bind. eapply safe_free_entry; [done|done|]. intros s' Hs' Hok'.
    destruct (freed_entry_ok e He) as (F1 & F2 & F3). by eapply (Hclaim i e s').
  - apply safe_ret; done.
Qed.

Lemma alone_live i e s : arp_ok s -> entry_at i e s -> live e -> alone i e s.
Proof.
  intros [Ht _] [Hi E] Hl j e' Hj E' L' S'. destruct Hj. by apply (to_distinct _ Ht j (Z.to_nat i) e' e).
Qed.

(** The entry a search for the address gives: in use, or new. *)
Record entry_for (i a : Z) (n : nat) (e : etharp_entry) (s : eth) : Prop := {
  ef_at : entry_at i e s;
  ef_alone : alone i e s;
  ef_ip : ipaddr e = a;
  ef_netif : netif_ e = Some n;
  ef_new : live e \/ (state e = ETHARP_STATE_EMPTY /\ q e = None /\ ctime e = 0)
}.

Lemma safe_find_entry_for a n flags (Q : Z -> eth -> Prop) s : arp_ok s ->
  Q ERR_MEM s ->
  (forall i e s', arp_ok s' -> netifs s' = netifs s -> (Forall young (arp_table s) -> Forall young (arp_table s')) ->
     entry_for i a n e s' -> Q i s') ->
  safe arp_ok (etharp_find_entry (Some a) flags (Some n)) Q s.
Proof.
  intros Hi HR HE. apply safe_find_entry; [done|done| |].
  - intros i e Ha Hl Ei En. apply (HE i e); [done|done|done|]. split; [done|by apply alone_live|done|done|by left].
  - intros i e s' Hok Ha Hl Hq Ei En Hc Hal Hn Hy. apply (HE i e); [done|done|done|]. split; [done..|]. right. split; [|done].
    unfold live in Hl. destruct (state e); [done|by destruct Hl..].
Qed.

Lemma put_ok i a n e e' s : arp_ok s -> entry_for i a n e s -> entry_ok e' -> same_key e e' -> arp_ok (put_entry i e' s).
Proof.
  intros [Ht Hc] [Ha Hal _ _ _] He Hk. split; [|done]. apply table_ok_insert; [done|done|].
  intros _ j e1 Hj E1 L1 S1. apply (Hal j e1 Hj E1 L1). destruct S1, Hk. split; congruence.
Qed.

Lemma entry_for_same i a n e s s' : same_table s s' -> entry_for i a n e s -> entry_for i a n e s'.
Proof.
  intros Hs [Ha Hal E1 E2 E3]. split; [by eapply at_same| |done..]. intros j e' Hj E'. destruct Hs as (E & _ & _).
  rewrite E in E'. by apply (Hal j).
Qed.

Lemma entry_for_put i a n e e' s : entry_for i a n e s -> same_key e e' -> live e' -> entry_for i a n e' (put_entry i e' s).
Proof.
  intros [Ha Hal E1 E2 E3] Hk Hl. pose proof Hk as [K1 K2]. split; [by eapply put_at| |congruence|congruence|by left].
  intros j e1 Hj Ej L1 S1. simpl in Ej. rewrite list_lookup_insert_ne in Ej by done. apply (Hal j e1 Hj Ej L1).
  destruct S1. split; congruence.
Qed.

(** ** Every operation keeps the invariant *)

Definition young_table (s : eth) : Prop := Forall young (arp_table s).

(** Whatever happens the table is in order; on return it is young too. *)
Definition keeps {A} (m : M eth A) : Prop :=
  forall s, arp_ok s -> young_table s -> safe arp_ok m (fun _ s' => young_table s') s.

Lemma young_same s s' : same_table s s' -> young_table s -> young_table s'.
Proof. intros (E & _ & _). unfold young_table. by rewrite E. Qed.

Lemma young_put i e s : young e -> young_table s -> young_table (put_entry i e s).
Proof. intros He Hy. by apply Forall_insert. Qed.

Lemma keeps_link {A} (m : M eth A) : link_only m -> keeps m.
Proof. intros Hm s Hi Hy. apply safe_link; [done|done|]. intros a s' Hs _. by eapply young_same. Qed.

Lemma arp_bind {A B} (m : M eth A) (f : A -> M eth B) : keeps m -> (forall a, keeps (f a)) -> keeps (m ≫= f).
Proof.
  intros Hm Hf s Hi Hy. apply safe_bind. eapply safe_mono; [by apply Hm|]. intros a s' Hy' Hi'. by apply Hf.
Qed.

Lemma arp_ret {A} (a : A) : keeps (mret a).
Proof. by intros s Hi. Qed.

Lemma keeps_if {A} (b : bool) (m1 m2 : M eth A) : keeps m1 -> keeps m2 -> keeps (if b then m1 else m2).
Proof. by destruct b. Qed.

Lemma arp_when b (m : M eth unit) : keeps m -> keeps (when b m).
Proof. by destruct b; [|intros _; apply arp_ret]. Qed.

Lemma keeps_for_each {A} (l : list A) (f : A -> M eth unit) : (forall x, x ∈ l -> keeps (f x)) -> keeps (for_each l f).
Proof.
  induction l as [|x l IH]; intros Hf; [apply arp_ret|]. apply arp_bind; [apply Hf; by left|].
  intros _. apply IH. intros y Hy. apply Hf. by right.
Qed.

Lemma freed_young e : young (freed_entry e).
Proof. unfold freed_entry. by destruct LWIP_DEBUG. Qed.

Lemma keeps_free_entry i : 0 <= i < 10 -> keeps (etharp_free_entry i).
Proof.
  intros Hio s Hi Hy. destruct (at_exists i s (proj1 Hi) Hio) as (e & Ha & He).
  eapply safe_free_entry; [done|done|]. intros s' Hs. apply young_put; [apply freed_young|by eapply young_same].
Qed.

(** The entry at [i] replaced, and the rest of the step. *)
Lemma keeps_tmr_entry i : 0 <= i < 10 -> keeps (tmr_entry i).
Proof.
  intros Hio s Hi Hy. destruct (at_exists i s (proj1 Hi) Hio) as (e & Ha & He). pose proof He as [E1 E2 E4 E5].
  assert (Ye : young e). { unfold young_table in Hy. rewrite Forall_lookup in Hy. destruct Ha as [_ Ha]. by apply (Hy _ _ Ha). }
  unfold tmr_entry. apply safe_bind, (safe_get_entry _ e); [done|done|]. intros _.
  destruct (bool_decide_reflect (state e <> ETHARP_STATE_EMPTY)) as [Hl|Hl]; [|by apply safe_ret]. cbn [when].
  set (e1 := set_ctime (u16 (ctime e + 1)) e). assert (He1 : entry_ok e1).
  { split; cbn; [done|apply u16_range|done|done]. }
  apply safe_bind. apply (safe_set_entry _ _ e); [done|done|done|done|]. intros Ha1 Hi1.
  apply safe_bind, (safe_get_entry _ e1); [done|done|]. intros _.
  assert (Hyp : forall e2, young e2 -> young_table (put_entry i e2 (put_entry i e1 s))).
  { intros e2 Y2. rewrite put_put. by apply young_put. }
  destruct ((ARP_MAXAGE <=? ctime e1) || _) eqn:Eold.
  - eapply safe_free_entry; [done|done|]. intros s' (Es & _ & _). unfold young_table. simpl. rewrite Es. apply Hyp, freed_young.
  - apply orb_false_iff in Eold as [Eo1 Eo2]. apply Z.leb_gt in Eo1.
    assert (Y1 : young e1). { split; [done|]. intros Hp. rewrite bool_decide_true in Eo2 by done. by apply Z.leb_gt in Eo2. }
    assert (Hst : forall st, st <> ETHARP_STATE_PENDING -> st <> ETHARP_STATE_EMPTY -> state e <> ETHARP_STATE_PENDING ->
      safe arp_ok (set_entry i (set_state st)) (fun _ s' => young_table s') (put_entry i e1 s)).
    { intros st N1 N2 N3. apply (safe_set_entry _ _ e1); [done|done| | |].
      - destruct He1 as [X1 X2 X3 X4]. split; cbn; [done|done| |by intros _; apply X4]. intros Hq. by apply E4 in Hq.
      - intros _. by split.
      - intros _. apply Hyp. split; [done|]. intros Hp. by destruct N1. }
    destruct (state e1) eqn:Est; change (state e1) with (state e) in Est.
    + by apply safe_ret; [|apply young_put].
    + change (netif_ e1) with (netif_ e). destruct (E5 Hl) as ([n ->] & _). cbn [deref].
      apply safe_bind, safe_ret; [done|]. intros _. apply safe_bind.
      apply safe_link; [auto with link|done|]. intros _ s' Hs _ Hi'. apply safe_ret; [done|].
      eapply young_same; [done|]. by apply young_put.
    + by apply safe_ret; [|apply young_put].
    + apply Hst; [done|done|by rewrite Est].
    + apply Hst; [done|done|by rewrite Est].
Qed.

Lemma keeps_tmr : keeps etharp_tmr.
Proof. apply keeps_for_each. intros i Hi%elem_of_seqZ. apply keeps_tmr_entry. unfold ARP_TABLE_SIZE in Hi. lia. Qed.

Lemma keeps_cleanup n : keeps (etharp_cleanup_netif n).
Proof.
  apply keeps_for_each. intros i Hi%elem_of_seqZ s Hok Hy. unfold ARP_TABLE_SIZE in Hi.
  destruct (at_exists i s (proj1 Hok)) as (e & Ha & _); [lia|].
  apply safe_bind, (safe_get_entry _ e); [done|done|]. intros _. apply arp_when; [apply keeps_free_entry; lia|done|done].
Qed.

(** A new link address for the entry found, and what was queued on it. *)
Definition resolved (e : etharp_entry) (n : nat) (addr : list Z) : etharp_entry :=
  ArpEntry None (ipaddr e) (Some n) addr 0 ETHARP_STATE_STABLE.

Lemma resolved_ok i a n e s addr : entry_for i a n e s -> length addr = 6%nat ->
  ip4_addr_isany_val a = false -> ip4_addr_ismulticast a = false ->
  entry_ok (resolved e n addr) /\ same_key e (resolved e n addr) /\ young (resolved e n addr).
Proof.
  intros [_ _ E1 E2 _] Hl Ha Hm. subst a. split_and!; [|by split|by split].
  split; cbn; [done|lia|done|]. intros _. split_and!; [by eexists|done|done].
Qed.

(** The four assignments of [etharp_update_arp_entry]. *)
Lemma update_entry_run i e n addr s (f : etharp_entry -> M eth Z) (Q : Z -> eth -> Prop) : entry_at i e s ->
  safe arp_ok (f (set_q (q e) (resolved e n addr))) Q (put_entry i (set_q (q e) (resolved e n addr)) s) ->
  safe arp_ok (set_entry i (set_state ETHARP_STATE_STABLE);; set_entry i (set_netif (Some n));;
    set_entry i (set_ethaddr addr);; set_entry i (set_ctime 0);; e ← get_entry i; f e) Q s.
Proof.
  intros Ha HQ. unfold safe in *. erewrite bind_Ret by by apply set_entry_run.
  erewrite bind_Ret by by eapply set_entry_run, put_at. erewrite bind_Ret by (eapply set_entry_run, put_at, put_at, Ha).
  erewrite bind_Ret by (eapply set_entry_run, put_at, put_at, put_at, Ha).
  erewrite bind_Ret by (eapply get_entry_run, put_at, put_at, put_at, put_at, Ha). rewrite !put_put. exact HQ.
Qed.

Lemma keeps_update n a addr flags : length addr = 6%nat -> keeps (etharp_update_arp_entry n a addr flags).
Proof.
  intros Hl s Hi Hy. unfold etharp_update_arp_entry. apply safe_bind, safe_gets; [done|]. intros _.
  destruct (ip4_addr_isany_val a) eqn:Hany; [by apply safe_ret|]. cbn [orb].
  destruct (ip4_addr_isbroadcast_u32 _ _ _ _); [by apply safe_ret|]. cbn [orb].
  destruct (ip4_addr_ismulticast a) eqn:Hm; [by apply safe_ret|].
  apply safe_bind, safe_find_entry_for; [done|by intros _; apply safe_ret|].
  intros i e s1 Hi1 _ Hy1 He _. pose proof (ef_at _ _ _ _ _ He) as Ha. rewrite (proj2 (Z.ltb_ge _ _)) by (destruct Ha; lia).
  destruct (resolved_ok i a n e s1 addr He Hl Hany Hm) as (R1 & R2 & R3).
  assert (Hput : forall s', same_table s1 s' -> arp_ok (put_entry i (resolved e n addr) s') /\ young_table (put_entry i (resolved e n addr) s')).
  { intros s' Hs. split; [eapply put_ok; [by eapply arp_ok_same|by eapply entry_for_same|done|done]|].
    apply young_put; [done|]. eapply young_same; [done|]. by apply Hy1. }
  apply (update_entry_run i e); [done|]. destruct (Hput s1 (same_table_refl _)) as [P1 P2].
  change (q (set_q (q e) (resolved e n addr))) with (q e). destruct (q e) as [p|] eqn:Eq.
  - (* the packet leaves the queue before it is sent *)
    assert (P3 : put_entry i (set_q None (set_q (Some p) (resolved e n addr))) (put_entry i (set_q (Some p) (resolved e n addr)) s1)
      = put_entry i (resolved e n addr) s1) by apply put_put.
    assert (Hsend : keeps (n' ← the_netif n; ethernet_output n p (if_hwaddr n') addr ETHTYPE_IP;;
      on_pbuf (pbuf_free (Some p));; mret tt)) by (apply keeps_link; unfold the_netif; link_solve).
    apply safe_bind. unfold safe. erewrite bind_Ret by (eapply set_entry_run, put_at, Ha). rewrite P3.
    eapply safe_mono; [by apply Hsend|]. intros ? s2 Y2 I2. by apply safe_ret.
  - apply safe_bind, safe_ret; [exact P1|]. intros _. apply safe_ret; [exact P1|exact P2].
Qed.

(** A change between the stable states. *)
Lemma safe_set_stable i e s : arp_ok s -> young_table s -> entry_at i e s -> is_stable e ->
  safe arp_ok (set_entry i (set_state ETHARP_STATE_STABLE_REREQUESTING_1)) (fun _ s' => young_table s') s.
Proof.
  intros Hi Hy Ha Hs. pose proof (at_ok _ _ _ (proj1 Hi) Ha) as He. pose proof He as [X1 X2 X3 X4].
  apply (safe_set_entry _ _ e); [done|done| | |].
  - split; cbn; [done|done| |intros _; by apply X4, stable_live]. intros Hq. apply X3 in Hq. unfold is_stable in Hs. by rewrite Hq in Hs.
  - intros _. split; [by apply stable_live|done].
  - intros _. apply young_put; [|done]. split; [|done]. intros _. destruct Ha as [_ Ha].
    unfold young_table in Hy. rewrite Forall_lookup in Hy. by apply (Hy _ _ Ha), stable_live.
Qed.

Lemma keeps_output_to i n p : 0 <= i < 10 -> keeps (etharp_output_to_arp_index n p i).
Proof.
  intros Hio s Hi Hy. unfold etharp_output_to_arp_index. destruct (at_exists i s (proj1 Hi) Hio) as (e & Ha & He).
  apply safe_bind, (safe_get_entry _ e); [done|done|]. intros _.
  assert (Hrest : keeps (n' ← the_netif n; e ← get_entry i; ethernet_output n p (if_hwaddr n') (ethaddr e) ETHTYPE_IP)).
  { intros s1 Hi1 Hy1. apply safe_bind, safe_gets; [done|]. intros _.
    destruct (at_exists i s1 (proj1 Hi1) Hio) as (e1 & Ha1 & He1). apply safe_bind, (safe_get_entry _ e1); [done|done|].
    intros _. by apply keeps_link; [auto with link|..]. }
  apply safe_bind. apply (safe_mono _ _ (fun _ s' => young_table s')); [|intros ? s' Y' I'; by apply Hrest].
  destruct (bool_decide_reflect (state e = ETHARP_STATE_STABLE)) as [Hs|]; [|by apply safe_ret]. cbn [when].
  assert (Hst : is_stable e) by (unfold is_stable; by rewrite Hs).
  assert (Hre : forall m : M eth Z, link_only m -> safe arp_ok (r ← m; when (r =? ERR_OK)
    (set_entry i (set_state ETHARP_STATE_STABLE_REREQUESTING_1))) (fun _ s' => young_table s') s).
  { intros m Hm. apply safe_bind, safe_link; [done|done|]. intros r s' Hs' _ Hi'. pose proof (young_same _ _ Hs' Hy) as Hy'.
    destruct (r =? ERR_OK); cbn [when]; [|by apply safe_ret]. eapply safe_set_stable; [done|done|by eapply at_same|done]. }
  destruct (_ <=? ctime e); [by apply Hre, link_only_request|]. destruct (_ <=? ctime e); cbn [when]; [|by apply safe_ret].
  by apply Hre, link_only_request_dst.
Qed.

(** ** Queries *)

(** An entry in use for the address, in a table in order. *)
Definition in_use (i a : Z) (n : nat) (e : etharp_entry) (s : eth) : Prop :=
  entry_for i a n e s /\ live e /\ entry_ok e /\ young_table s.

Lemma in_use_same i a n e s s' : same_table s s' -> in_use i a n e s -> in_use i a n e s'.
Proof. intros Hs (H1' & H2' & H3' & H4'). split_and!; [by eapply entry_for_same|done|done|by eapply young_same]. Qed.

Lemma in_use_put i a n e e' s : arp_ok s -> in_use i a n e s -> entry_ok e' -> same_key e e' -> live e' -> young e' ->
  arp_ok (put_entry i e' s) /\ in_use i a n e' (put_entry i e' s).
Proof.
  intros Hi (H1' & H2' & H3' & H4') He Hk Hl Hy. split; [by eapply put_ok|].
  split_and!; [by eapply entry_for_put|done|done|by apply young_put].
Qed.

Lemma in_use_young i a n e s : in_use i a n e s -> young e.
Proof.
  intros ([[_ E] _ _ _ _] & _ & _ & Hy). unfold young_table in Hy. rewrite Forall_lookup in Hy. by apply (Hy _ _ E).
Qed.

(** The entry a query works on: a new one becomes pending. *)
Lemma safe_query_entry i a n e s (Q : unit -> eth -> Prop) : arp_ok s -> young_table s -> entry_for i a n e s ->
  ip4_addr_isany_val a = false -> ip4_addr_ismulticast a = false ->
  (forall e' s', arp_ok s' -> in_use i a n e' s' -> Q tt s') ->
  safe arp_ok (when (bool_decide (state e = ETHARP_STATE_EMPTY))
    (set_entry i (set_state ETHARP_STATE_PENDING);; set_entry i (set_netif (Some n)))) Q s.
Proof.
  intros Hi Hy He Hany Hm HQ. pose proof (ef_at _ _ _ _ _ He) as Ha. pose proof (at_ok _ _ _ (proj1 Hi) Ha) as Hok.
  destruct (bool_decide_reflect (state e = ETHARP_STATE_EMPTY)) as [Hs|Hs]; cbn [when].
  - pose proof He as [_ _ E1 E2 [Hl|(_ & Hq & Hc)]]; [done|].
    set (e' := set_netif (Some n) (set_state ETHARP_STATE_PENDING e)).
    assert (Hok' : entry_ok e'). { destruct Hok as [X1 X2 X3 X4]. split; cbn; [done|done|done|]. intros _. rewrite E1. split_and!; [by eexists|done|done]. }
    assert (Hk : same_key e e') by (split; [done|by rewrite E2]).
    assert (Hy' : young e') by (split; cbn; rewrite Hc; done).
    assert (Hp : arp_ok (put_entry i e' s)) by (by eapply put_ok).
    unfold safe. erewrite bind_Ret by by apply set_entry_run. erewrite set_entry_run by by eapply put_at. rewrite put_put.
    split; [done|]. apply (HQ e'); [done|]. split_and!; [by eapply entry_for_put|done|done|by apply young_put].
  - apply safe_ret; [done|]. by apply (HQ e).
Qed.

(** The request for it. *)
Lemma safe_query_request i a n e new (packet : option loc) s (Q : Z -> eth -> Prop) : arp_ok s -> in_use i a n e s ->
  (forall r e' s', arp_ok s' -> in_use i a n e' s' -> Q r s') ->
  safe arp_ok (if new || bool_decide (packet = None) then
                  r ← etharp_request n a;
                  when (r =? ERR_OK)
                    (e ← get_entry i;
                     when (bool_decide (state e = ETHARP_STATE_PENDING) && negb new) (set_entry i (set_ctime 0)));;
                  mret r
                else mret ERR_MEM) Q s.
Proof.
  intros Hi Hu HQ. destruct (new || _); [|apply safe_ret; [done|by apply (HQ _ e)]].
  apply safe_bind, safe_link; [auto with link|done|]. intros r s1 Hs1 _ Hi1. pose proof (in_use_same _ _ _ _ _ _ Hs1 Hu) as Hu1.
  pose proof Hu1 as (Hf1 & Hl1 & Hok1 & Hy1). pose proof (ef_at _ _ _ _ _ Hf1) as Ha1.
  apply safe_bind. destruct (r =? ERR_OK); cbn [when].
  - apply safe_bind, (safe_get_entry _ e); [done|done|]. intros _. destruct (bool_decide _ && negb new); cbn [when].
    + set (e' := set_ctime 0 e). assert (Hok' : entry_ok e') by (destruct Hok1; by split; cbn).
      assert (Hy' : young e') by (by split).
      destruct (in_use_put i a n e e' s1 Hi1 Hu1 Hok' ltac:(done) Hl1 Hy') as [P1 P2].
      unfold safe. erewrite set_entry_run by done. split; [done|]. intros _. apply safe_ret; [done|]. by apply (HQ _ e').
    + apply safe_ret; [done|]. intros _. apply safe_ret; [done|]. by apply (HQ _ e).
  - apply safe_ret; [done|]. intros _. apply safe_ret; [done|]. by apply (HQ _ e).
Qed.

(** The packet is queued. *)
Lemma safe_enqueue i a n e p s : arp_ok s -> in_use i a n e s -> state e = ETHARP_STATE_PENDING ->
  safe arp_ok (e ← get_entry i; when (bool_decide (q e <> None)) (free_etharp_q (q e);; mret tt);;
    set_entry i (set_q (Some p));; mret ERR_OK) (fun _ s' => young_table s') s.
Proof.
  intros Hi Hu Hs. pose proof Hu as (Hf & Hl & Hok & Hy). pose proof (ef_at _ _ _ _ _ Hf) as Ha.
  apply safe_bind, (safe_get_entry _ e); [done|done|]. intros _.
  assert (Hset : forall s', same_table s s' -> arp_ok s' -> safe arp_ok (set_entry i (set_q (Some p));; mret ERR_OK) (fun _ s' => young_table s') s').
  { intros s' Hs' Hi'. pose proof (in_use_same _ _ _ _ _ _ Hs' Hu) as Hu'. pose proof (in_use_young _ _ _ _ _ Hu') as Y.
    assert (Hok' : entry_ok (set_q (Some p) e)) by (destruct Hok; by split; cbn).
    destruct (in_use_put i a n e (set_q (Some p) e) s' Hi' Hu' Hok' ltac:(done) Hl Y) as [P1 P2].
    unfold safe. erewrite bind_Ret by (apply set_entry_run; by eapply at_same). split; [done|apply P2]. }
  apply safe_bind. destruct (bool_decide (q e <> None)); cbn [when].
  - apply safe_link; [link_solve|done|]. intros _ s' Hs' _ Hi'. by apply Hset.
  - apply safe_ret; [done|]. intros _. by apply Hset.
Qed.

Lemma keeps_query n a (packet : option loc) : keeps (etharp_query n a packet).
Proof.
  intros s Hi Hy. unfold etharp_query. apply safe_bind, safe_gets; [done|]. intros _.
  destruct (ip4_addr_isbroadcast_u32 _ _ _ _); [by apply safe_ret|]. cbn [orb].
  destruct (ip4_addr_ismulticast a) eqn:Hm; [by apply safe_ret|]. cbn [orb].
  destruct (ip4_addr_isany_val a) eqn:Hany; [by apply safe_ret|].
  apply safe_bind, safe_find_entry_for; [done|by intros _; apply safe_ret|].
  intros i e s1 Hi1 _ Hy1 He _. specialize (Hy1 Hy). pose proof (ef_at _ _ _ _ _ He) as Ha.
  rewrite (proj2 (Z.ltb_ge _ _)) by (destruct Ha; lia).
  apply safe_bind, (safe_get_entry _ e); [done|done|]. intros _.
  apply safe_bind, (safe_query_entry i a n e); [done..|]. intros e2 s2 _ Hu2 Hi2.
  apply safe_bind, (safe_query_request i a n e2); [done..|]. intros r e3 s3 _ Hu3 Hi3.
  pose proof Hu3 as (Hf3 & Hl3 & Hok3 & Hy3). pose proof (ef_at _ _ _ _ _ Hf3) as Ha3.
  destruct packet as [p|]; [|by apply safe_ret].
  apply safe_bind, (safe_get_entry _ e3); [done|done|]. intros _. destruct (stable_state (state e3)).
  - apply safe_bind, safe_wp. assert (Hi4 : arp_ok (set_cached i s3)) by (destruct Hi3; split; [done|apply Ha3]).
    split; [done|]. intros _. apply safe_bind, (safe_get_entry _ e3); [done|done|]. intros _. by apply keeps_link; [auto with link|..].
  - destruct (bool_decide_reflect (state e3 = ETHARP_STATE_PENDING)) as [Hp|]; [|by apply safe_ret].
    apply safe_bind, safe_link; [auto with link|done|]. intros p' s4 Hs4 _ Hi4.
    pose proof (in_use_same _ _ _ _ _ _ Hs4 Hu3) as Hu4. destruct p' as [p'|]; [by eapply safe_enqueue|].
    apply safe_ret; [done|]. apply Hu4.
Qed.

(** ** Output and input *)

Lemma find_stable_bound dst n t : forall i j, find_stable dst n i t = Some j -> i <= j < i + Z.of_nat (length t).
Proof.
  induction t as [|e t IH]; intros i j; cbn [find_stable]; [done|]. destruct (_ && _); [intros [= ->]; simpl; lia|].
  intros Hj%IH. simpl. lia.
Qed.

Lemma keeps_output_unicast n p dst : keeps (output_unicast n p dst).
Proof.
  intros s Hi Hy. unfold output_unicast. apply safe_bind, safe_gets; [done|]. intros _.
  destruct (at_exists (etharp_cached_entry s) s (proj1 Hi) (proj2 Hi)) as (e & Ha & _).
  apply safe_bind, (safe_get_entry _ e); [done|done|]. intros _. destruct (_ && _); [apply keeps_output_to; [apply Hi|done|done]|].
  apply safe_bind, safe_gets; [done|]. intros _. destruct (find_stable dst n 0 (arp_table s)) as [i|] eqn:Ef; [|by apply keeps_query].
  apply find_stable_bound in Ef. rewrite (to_length _ (proj1 Hi)) in Ef.
  assert (Hi' : arp_ok (set_cached i s)) by (split; [apply Hi|simpl; lia]).
  apply safe_bind, safe_wp. split; [done|]. intros _. apply keeps_output_to; [lia|done|done].
Qed.

Lemma keeps_output n p a : keeps (etharp_output n p a).
Proof.
  apply arp_bind; [apply keeps_link, link_only_gets|]. intros n'.
  repeat apply keeps_if; try apply keeps_output_unicast; try apply arp_ret; apply keeps_link; auto with link.
Qed.

Lemma keeps_find_addr n a : keeps (etharp_find_addr n a).
Proof.
  intros s Hi Hy. unfold etharp_find_addr. apply safe_bind, safe_find_entry_for; [done| |].
  - intros _. by apply safe_ret.
  - intros i e s' Hi' _ Hy' Hf _. rewrite (proj2 (Z.leb_le _ _)) by (destruct Hf as [[]]; lia).
    apply safe_bind, (safe_get_entry _ e); [done|apply Hf|]. intros _. apply safe_ret; [done|]. by apply Hy'.
Qed.

Lemma keeps_input p n : keeps (etharp_input p n).
Proof.
  unfold etharp_input. apply arp_bind; [apply keeps_link; auto with link|]. intros b. cbv zeta.
  apply arp_bind; [apply keeps_link; repeat (apply link_only_orM || link_solve)|]. intros wrong.
  apply keeps_if; [apply keeps_link; link_solve|].
  apply arp_bind; [apply keeps_link; auto with link|]. intros x.
  apply arp_bind; [apply keeps_link; auto with link|]. intros y.
  apply arp_bind; [apply keeps_link, link_only_gets|]. intros n'.
  intros s Hi Hy. apply safe_bind, safe_link; [auto with link|done|]. intros addr s1 Hs1 Er Hi1.
  assert (Hl : length addr = 6%nat).
  { unfold read_field, on_pbuf, zoom in Er. destruct (read_at (payload b) 8 6 (emem s)) as [l m'|] eqn:El; [|done].
    injection Er as -> _. apply read_at_length in El; lia. }
  apply (arp_bind (etharp_update_arp_entry n (load_word32 x) addr _)); [by apply keeps_update| |done|by eapply young_same].
  intros _. apply keeps_link. unfold when, the_netif. link_solve.
Qed.

Lemma link_only_mark p dest : link_only (mark_llcast p dest).
Proof. unfold mark_llcast, when. link_solve. Qed.

Lemma keeps_ethernet_input ip4_input p n : (forall p n, keeps (ip4_input p n)) -> keeps (ethernet_input ip4_input p n).
Proof.
  intros Hip. assert (Hfree : keeps (free_and_return p)) by (apply keeps_link; unfold free_and_return; link_solve).
  unfold ethernet_input. apply arp_bind; [apply keeps_link; auto with link|]. intros b. apply keeps_if; [done|]. cbv zeta.
  apply arp_bind; [apply keeps_link; auto with link|]. intros x.
  apply arp_bind; [apply keeps_link, link_only_gets|]. intros n'.
  apply arp_bind; [apply keeps_link; unfold when; link_solve|]. intros _.
  apply arp_bind; [apply keeps_link; auto with link|]. intros dest.
  apply arp_bind; [apply keeps_link, link_only_mark|]. intros _.
  apply keeps_if; [|done]. apply keeps_if; [done|].
  apply arp_bind; [apply keeps_link; auto with link|]. intros r. apply keeps_if; [done|].
  apply arp_bind; [|intros; apply arp_ret]. apply keeps_if; [done|apply keeps_input].
Qed.

(** ** Clients of the table *)

(** The calls by which the rest of the program reaches the table, and what it
    may do to the other parts of the state. *)
Inductive arp_call : Type :=
| C_tmr
| C_output (n : nat) (p : loc) (ip : Z)
| C_query (n : nat) (ip : Z) (packet : option loc)
| C_find_addr (n : nat) (ip : Z)
| C_cleanup (n : nat)
| C_memory (m : mem)               (** it works on the packet memory *)
| C_link (l : lstate)              (** on the driver and on variables of its own *)
| C_netifs (f : nat -> link_if)    (** it changes addresses or flags *)
| C_stop (w : stop).               (** it stops *)

Definition do_call (c : arp_call) : M eth unit :=
  match c with
  | C_tmr => etharp_tmr
  | C_output n p ip => etharp_output n p ip;; mret tt
  | C_query n ip packet => etharp_query n ip packet;; mret tt
  | C_find_addr n ip => etharp_find_addr n ip;; mret tt
  | C_cleanup n => etharp_cleanup_netif n
  | C_memory m => modify (set_emem m)
  | C_link l => modify (set_elink l)
  | C_netifs f => modify (set_netifs f)
  | C_stop w => halt w
  end.

(** Code that reaches the table by these calls only: whatever it does to the
    state, and where it stops, some sequence of them does. *)
Definition arp_client {A} (m : M eth A) : Prop := forall s, exists cs,
  for_each cs do_call s = match m s with Ret _ s' => Ret tt s' | Stop w s' => Stop w s' end.

Lemma keeps_call c : keeps (do_call c).
Proof.
  assert (Hb : forall A (m : M eth A), keeps m -> keeps (m;; mret tt))
    by (intros A m Hm; apply arp_bind; [done|intros; apply arp_ret]).
  destruct c; cbn [do_call]; [apply keeps_tmr|apply Hb, keeps_output|apply Hb, keeps_query
    |apply Hb, keeps_find_addr|apply keeps_cleanup|by intros s Hi Hy..].
Qed.

Lemma client_calls cs1 cs2 s : for_each (cs1 ++ cs2) do_call s =
  match for_each cs1 do_call s with Ret _ s' => for_each cs2 do_call s' | Stop w s' => Stop w s' end.
Proof.
  revert s. induction cs1 as [|c cs1 IH]; intros s; [done|]. cbn [app for_each]. unfold mbind, M_bind.
  destruct (do_call c s) as [[] s'|w s']; [apply IH|done].
Qed.

Lemma client_link {A} (m : M eth A) : link_only m -> arp_client m.
Proof.
  intros Hm s. specialize (Hm s). assert (E : forall s', same_table s s' ->
    for_each [C_memory (emem s'); C_link (elink s')] do_call s = Ret tt s').
  { intros s' (E1 & E2 & E3). destruct s, s'. cbn in *. by subst. }
  destruct (m s) as [a s'|w s']; simpl in Hm; [by eexists; apply E|].
  exists ([C_memory (emem s'); C_link (elink s')] ++ [C_stop w]). by rewrite client_calls, (E s' Hm).
Qed.

Lemma client_bind {A B} (m : M eth A) (f : A -> M eth B) : arp_client m -> (forall a, arp_client (f a)) -> arp_client (m ≫= f).
Proof.
  intros Hm Hf s. destruct (Hm s) as [cs E]. unfold mbind, M_bind. destruct (m s) as [a s'|w s'].
  - destruct (Hf a s') as [cs' E']. exists (cs ++ cs'). by rewrite client_calls, E.
  - by exists cs.
Qed.

Lemma client_query n a (packet : option loc) : arp_client (etharp_query n a packet).
Proof. intros s. exists [C_query n a packet]. cbn [for_each do_call]. unfold mbind, M_bind. by destruct (etharp_query n a packet s). Qed.

Lemma keeps_client {A} (m : M eth A) : arp_client m -> keeps m.
Proof.
  intros Hm s Hi Hy. destruct (Hm s) as [cs E]. pose proof (keeps_for_each cs do_call (fun c _ => keeps_call c) s Hi Hy) as Hk.
  unfold safe in *. rewrite E in Hk. by destruct (m s).
Qed.

(** ** The choice and the state it leaves *)

Lemma free_entry_run i e s : entry_at i e s -> q e = None -> etharp_free_entry i s = Ret tt (put_entry i (freed_entry e) s).
Proof.
  intros Ha Hq. unfold etharp_free_entry. erewrite bind_Ret by by apply get_entry_run. rewrite Hq. cbn [when].
  erewrite bind_Ret by reflexivity.
  destruct (wp_elim _ _ _ (free_entry_tail i e s (fun _ s' => s' = put_entry i (freed_entry e) s) Ha Hq eq_refl)) as ([] & s' & E & ->).
  exact E.
Qed.

Lemma free_entry_run_queue i e p s k s1 : entry_at i e s -> q e = Some p -> same_table s s1 ->
  free_etharp_q (Some p) s = Ret k s1 -> etharp_free_entry i s = Ret tt (put_entry i (freed_entry e) s1).
Proof.
  intros Ha Hq Hs Ek. unfold etharp_free_entry. erewrite bind_Ret by by apply get_entry_run. rewrite Hq. cbn [when bool_decide].
  rewrite bool_decide_true by done. cbn [when]. pose proof (at_same _ _ _ _ Hs Ha) as Ha1.
  erewrite bind_Ret; [|erewrite bind_Ret by exact Ek; by apply set_entry_run].
  assert (Ef : put_entry i (freed_entry (set_q None e)) (put_entry i (set_q None e) s1) = put_entry i (freed_entry e) s1) by apply put_put.
  destruct (wp_elim _ _ _ (free_entry_tail i (set_q None e) (put_entry i (set_q None e) s1)
    (fun _ s' => s' = put_entry i (freed_entry (set_q None e)) (put_entry i (set_q None e) s1)) (put_at i e _ _ Ha1) eq_refl eq_refl)) as ([] & s' & E & ->).
  by rewrite <- Ef.
Qed.

(** C28. [etharp_find_entry] chooses as its comment promises: the first entry in
    use for the address and interface; else, unless it may only search, the
    first empty entry; else, when it may try hard, the oldest stable entry, the
    oldest pending entry without a packet, or the oldest pending entry with one,
    in this order.  An empty entry is set up with the address; an entry given up
    is freed first, and nothing else changes. *)
Theorem etharp_find_entry_chooses s ip flags netif : table_ok (arp_table s) ->
  exists c, chooses (arp_table s) ip netif flags c /\
    match c with
    | Found i => etharp_find_entry ip flags netif s = Ret i s
    | Refused => etharp_find_entry ip flags netif s = Ret ERR_MEM s
    | Fresh i => exists e, entry_at i e s /\
        etharp_find_entry ip flags netif s = Ret i (put_entry i (new_entry e ip netif) s)
    | Recycled i => exists e, entry_at i e s /\
        match q e with
        | None => etharp_find_entry ip flags netif s = Ret i (put_entry i (new_entry (freed_entry e) ip netif) s)
        | Some p => forall k s1, free_etharp_q (Some p) s = Ret k s1 ->
            etharp_find_entry ip flags netif s = Ret i (put_entry i (new_entry (freed_entry e) ip netif) s1)
        end
    end.
Proof.
  intros Ht. destruct (find_entry_choice s ip flags netif) as (c & Hc & E).
  { apply Ht. } { eapply Forall_impl; [apply Ht|]. intros e He. apply He. }
  exists c. split; [done|]. rewrite E.
  destruct c as [i|i|i|]; [done| | |done].
  - assert (Hio : 0 <= i < 10). { pose proof (to_length _ Ht). inversion Hc; subst. match goal with Hf : first_with _ _ _ |- _ => pose proof (first_with_bound _ _ _ Hf) end. lia. }
    destruct (at_exists i s Ht Hio) as (e & Ha & _). exists e. split; [done|]. by apply claim_run.
  - assert (Hio : 0 <= i < 10). { pose proof (to_length _ Ht). inversion Hc; subst; match goal with Ho : oldest _ _ _ |- _ => pose proof (oldest_bound _ _ _ Ho) end; lia. }
    destruct (at_exists i s Ht Hio) as (e & Ha & _). exists e. split; [done|]. cbn [act_on].
    destruct (q e) as [p|] eqn:Eq.
    + intros k s1 Ek. pose proof (link_only_free_q (Some p) s) as Hs. rewrite Ek in Hs.
      erewrite bind_Ret by by eapply free_entry_run_queue.
      erewrite claim_run by (eapply put_at, at_same; done). by rewrite put_put.
    + erewrite bind_Ret by by apply free_entry_run. erewrite claim_run by by eapply put_at. by rewrite put_put.
Qed.
End Invariant.
