(* ===== verification/EtharpSend.v ===== *)
(** Ethernet output and ARP packets on the wire: what the driver is given, and
    that the memory comes back. *)
From stdpp Require Import functions.
From S2P Require Import Prelude Memp Pbuf PbufFacts PbufUpdate PbufAlloc PbufChain PbufRam Chksum Ip4Addr.
From S2P Require Import Ethernet Etharp.

(** ** The interface to the driver *)

(** What [netif->linkoutput] promises for a packet a frame can carry: it
    returns, leaves the packet memory alone, and has put the bytes out or
    refused, as [output_rel] of the driver says. *)
Class LinkLaws `{LinkOutput} : Type := {
  link_ok : lstate -> Prop;
  output_rel : nat -> list Z -> lstate -> Z -> lstate -> Prop;
  law_linkoutput n p c m l : link_ok l -> packet m (Some p) c -> total c <= 1500 ->
    wp (linkoutput n p) (fun r x => x.1 = m /\ link_ok x.2 /\ output_rel n (contents c) l r x.2) (m, l)
}.

(** ** Frames *)

(** A 16-bit field in network byte order. *)
Definition be16 (x : Z) : list Z := [x / 256; x mod 256].

Definition frame (dst src : list Z) (type : Z) (data : list Z) : list Z := dst ++ src ++ be16 type ++ data.

(** RFC 826, for Ethernet and IPv4; the protocol addresses as they lie in memory. *)
Definition arp_packet (opcode : Z) (sha : list Z) (spa : Z) (tha : list Z) (tpa : Z) : list Z :=
  be16 1 ++ be16 0x0800 ++ [6; 4] ++ be16 opcode ++ sha ++ bytes32 spa ++ tha ++ bytes32 tpa.

Lemma htons_bytes x : 0 <= x < 65536 -> bytes16 (lwip_htons x) = be16 x.
Proof.
  intros Hx. destruct (word16_split x Hx) as (a & b & Ha & Hb & ->). unfold lwip_htons. rewrite PP_HTONS_word16, bytes16_word by done.
  unfold be16, word16, byte in *. repeat f_equal; Z.div_mod_to_equations; lia.
Qed.

(** A list of a known length, element by element. *)
Ltac list_cons l := destruct l as [|? l]; [discriminate|].
Ltac list_nil l := destruct l as [|? l]; [|discriminate].

Lemma splice_header hdr data dst src t : length hdr = 14%nat -> length dst = 6%nat -> length src = 6%nat -> length t = 2%nat ->
  splice 6 src (splice 0 dst (splice 12 t (hdr ++ data))) = dst ++ src ++ t ++ data.
Proof.
  intros H1 H2 H3 H4. do 14 list_cons hdr. list_nil hdr. do 6 list_cons dst. list_nil dst.
  do 6 list_cons src. list_nil src. do 2 list_cons t. list_nil t.
  unfold splice. cbn [length Nat.add take drop app]. by rewrite !drop_0.
Qed.

(** The memory part of the state after some writes. *)
Ltac emem_simpl := repeat match goal with
  | |- context [emem (set_emem ?m ?s)] => change (emem (set_emem m s)) with m
  | |- context [set_emem ?m (set_emem ?m' ?s)] => change (set_emem m (set_emem m' s)) with (set_emem m s)
  end.

Section Send.
Context `{LL : LinkLaws} `{HL : !HeapLaws} `{CF : !CustomFree}.

(** Only the pbuf [l] and the area of the same block differ. *)
Definition only_block (l : loc) (m m' : mem) : Prop :=
  heap m' = heap m /\ mpools m' = mpools m /\ pbuf_free_ooseq_pending m' = pbuf_free_ooseq_pending m /\ originals m' = originals m /\
  forall l', l' <> l -> pbufs m' !! l' = pbufs m !! l' /\ bytes m' !! l' = bytes m !! l'.

Lemma only_block_trans l m1 m2 m3 : only_block l m1 m2 -> only_block l m2 m3 -> only_block l m1 m3.
Proof.
  intros (A1 & A2 & A3 & Ao & A4) (B1 & B2 & B3 & Bo & B4). split_and!; [congruence..|].
  intros l' Hl. destruct (A4 l' Hl), (B4 l' Hl). split; congruence.
Qed.

Lemma write_at_pending x o l m : match write_at x o l m with Ret _ m' => pbuf_free_ooseq_pending m' = pbuf_free_ooseq_pending m /\ originals m' = originals m | Stop _ _ => True end.
Proof.
  unfold write_at. destruct (_ =? 0); [done|]. destruct x as [[blk off]|]; [|done]. unfold area, mbind, M_bind, deref. cbn.
  destruct (bytes m !! blk); cbn; [|done]. by destruct (_ && _).
Qed.

(** A write into a block of one pbuf. *)
Lemma wp_write_block l b data off new (Q : unit -> mem -> Prop) m :
  holds m b data -> fst <$> payload b = Some l -> 0 <= off -> off + Z.of_nat (length new) <= len b ->
  (forall m', only_block l m m' -> pbufs m' = pbufs m -> holds m' b (splice (Z.to_nat off) new data) -> Q tt m') ->
  wp (write_at (payload b) off new) Q m.
Proof.
  intros Hh Hb Ho Hl HQ. pose proof (write_at_pending (payload b) off new m) as Hp.
  assert (W : wp (write_at (payload b) off new) (fun _ m' => pbufs m' = pbufs m /\ heap m' = heap m /\ mpools m' = mpools m /\
    holds m' b (splice (Z.to_nat off) new data) /\ forall blk, blk <> l -> bytes m' !! blk = bytes m !! blk) m).
  { apply (wp_write_at b data); [done..|]. intros m' E1 E2 E3 E4 E5. split_and!; try done.
    intros blk Hblk. apply E5. rewrite Hb. by intros [= ->]. }
  unfold wp in *. destruct (write_at (payload b) off new m) as [[] m'|]; [|done].
  destruct W as (E1 & E2 & E3 & E4 & E5), Hp as [Hp Ho']. apply HQ; [|done|done]. split_and!; [done..|].
  intros l' Hl'. split; [by rewrite E1|by apply E5].
Qed.

(** A packet whose first block was written. *)
Lemma packet_block_write m m' l b data data' c : packet m (Some l) (Node l b data :: c) ->
  holds m' b data' -> only_block l m m' -> pbufs m' = pbufs m -> fst <$> payload b = Some l ->
  length data' = length data -> packet m' (Some l) (Node l b data' :: c).
Proof.
  intros Hp Hh (Eh & Em & _ & _ & Ho) Ep Ha Hl. pose proof Hp as [Hc _ _ Hn _]. destruct Hc as (_ & Hl1 & _ & Hc).
  apply (packet_same_shape [l] m m' _ (Node l b data :: c)); [done| | |].
  - constructor; [done|apply same_shape_refl].
  - simpl. split_and!; [done|by rewrite Ep|done|]. revert Hc. apply chain_frame; [by rewrite Ep|].
    intros n blk Hin Hb. apply Ho. intros ->. rewrite areas_cons in Hn. unfold node_area in Hn at 1. simpl in Hn.
    rewrite Ha in Hn. apply NoDup_cons in Hn as [Hn _]. apply Hn, list_elem_of_omap. by exists n.
  - split; [done|done|done|]. intros blk Hblk. apply Ho. intros ->. apply Hblk. by left.
Qed.

Lemma wp_zoom {S T A} (view : T -> S) (upd : S -> T -> T) (m : M S A) (Q : A -> T -> Prop) t :
  wp m (fun a s => Q a (upd s t)) (view t) -> wp (zoom view upd m) Q t.
Proof. unfold wp, zoom. by destruct (m (view t)). Qed.

(** ** Ethernet output *)

Lemma wp_on_pbuf {A} (x : M mem A) (Q : A -> eth -> Prop) s :
  wp x (fun a m => Q a (set_emem m s)) (emem s) -> wp (on_pbuf x) Q s.
Proof. unfold wp, on_pbuf, zoom. by destruct (x (emem s)). Qed.

Lemma set_emem_emem m m' s : set_emem m (set_emem m' s) = set_emem m s.
Proof. done. Qed.

(** A first pbuf with its own block and room in front of the payload. *)
Record roomy (nd : node) (k : Z) : Prop := {
  ro_contiguous : has (type_internal (n_buf nd)) PBUF_TYPE_FLAG_STRUCT_DATA_CONTIGUOUS = true;
  ro_payload : exists off, payload (n_buf nd) = Some (n_loc nd, off) /\ k <= off
}.

Lemma wp_ethernet_output n nd c src dst type (Q : Z -> eth -> Prop) s :
  packet (emem s) (Some (n_loc nd)) (nd :: c) -> roomy nd SIZEOF_ETH_HDR -> total (nd :: c) + SIZEOF_ETH_HDR <= 1500 ->
  length src = 6%nat -> length dst = 6%nat -> 0 <= type < 65536 -> link_ok (elink s) ->
  (forall r m' l' data, only_block (n_loc nd) (emem s) m' -> link_ok l' ->
     packet m' (Some (n_loc nd)) (Node (n_loc nd) (moved SIZEOF_ETH_HDR (n_buf nd)) data :: c) ->
     contents (Node (n_loc nd) (moved SIZEOF_ETH_HDR (n_buf nd)) data :: c) = frame dst src type (contents (nd :: c)) ->
     output_rel n (frame dst src type (contents (nd :: c))) (elink s) r l' ->
     Q r (set_elink l' (set_emem m' s))) ->
  wp (ethernet_output n (n_loc nd) src dst type) Q s.
Proof.
  intros Hp [Hf (off & Ep & Ho)] Ht Hs Hd Hty Hlk HQ. pose proof (pk_chain _ _ _ Hp) as (_ & Hl & Hh & _).
  pose proof (pk_totals _ _ _ Hp) as [Et _]. pose proof Hh as [L _]. rewrite total_cons in *. pose proof (total_nonneg c).
  unfold SIZEOF_ETH_HDR in *. unfold ethernet_output. apply wp_bind, wp_on_pbuf.
  eapply wp_of_run; [apply (pbuf_add_header_run _ (n_buf nd)); [done|done|by exists off|unfold SIZEOF_ETH_HDR; lia..]|].
  cbn [Z.eqb negb]. unfold SIZEOF_ETH_HDR. set (b := moved 14 (n_buf nd)). set (m1 := set_pbufs _ _).
  destruct (holds_moved (emem s) _ _ _ _ 14 Hh Ep) as (hdr & Hhdr & Hh1); [lia|]. fold b in Hh1.
  assert (Hb : fst <$> payload b = Some (n_loc nd)) by (unfold b, moved; simpl; by rewrite Ep).
  assert (Lb : len b = len (n_buf nd) + 14) by done.
  emem_simpl. apply wp_bind, wp_on_pbuf. emem_simpl. apply (wp_getp _ b); [apply lookup_insert_eq|]. emem_simpl.
  apply wp_bind, wp_on_pbuf. emem_simpl.
  apply (wp_write_block (n_loc nd) b (hdr ++ n_data nd)); [done|done|lia|change (length (bytes16 _)) with 2%nat; lia|].
  intros m2 O2 E2 H2. emem_simpl. apply wp_bind, wp_on_pbuf. emem_simpl.
  eapply (wp_write_block (n_loc nd) b); [exact H2|done|lia|lia|].
  intros m3 O3 E3 H3. emem_simpl. apply wp_bind, wp_on_pbuf. emem_simpl.
  eapply (wp_write_block (n_loc nd) b); [exact H3|done|lia|lia|].
  intros m4 O4 E4 H4. emem_simpl.
  change (Z.to_nat 0) with 0%nat in H4. change (Z.to_nat 6) with 6%nat in H4. change (Z.to_nat 12) with 12%nat in H4.
  rewrite splice_header, htons_bytes in H4 by (done || lia).
  assert (O1 : only_block (n_loc nd) (emem s) m1).
  { split_and!; [done..|]. intros l' Hl'. split; [|done]. simpl. by rewrite lookup_insert_ne. }
  assert (O : only_block (n_loc nd) (emem s) m4) by eauto using only_block_trans.
  set (data := dst ++ src ++ be16 type ++ n_data nd) in *.
  assert (Hpk : packet m4 (Some (n_loc nd)) (Node (n_loc nd) b data :: c)).
  { apply (packet_block_write m1 m4 _ _ (hdr ++ n_data nd)); [|done|by eauto using only_block_trans|congruence|done|].
    - apply (packet_head (emem s) nd c); [done|done|by rewrite Hb; unfold node_area; rewrite Ep|rewrite length_app; simpl; lia|rewrite length_app; lia|done].
    - subst data. rewrite !length_app. simpl length. rewrite Hs, Hd. lia. }
  assert (Hct : contents (Node (n_loc nd) b data :: c) = frame dst src type (contents (nd :: c))).
  { rewrite !contents_cons. unfold frame. subst data. simpl n_data. by rewrite <- !app_assoc. }
  unfold call_linkoutput. apply wp_zoom. simpl.
  eapply wp_mono; [apply (law_linkoutput n (n_loc nd) (Node (n_loc nd) b data :: c) m4 (elink s)); [done|exact Hpk|]|].
  { rewrite total_cons. simpl n_data. subst data. rewrite !length_app. simpl length. rewrite Hs, Hd. lia. }
  intros r [m' l'] (Em & Hok & Hrel). simpl in Em, Hok, Hrel. subst m'. rewrite Hct in Hrel. by apply (HQ r m4 l' data).
Qed.

(** ** ARP packets *)

(** The block of a pbuf holds [data]; nothing else has changed. *)
Record written (l : loc) (b : pbuf) (m0 m : mem) (data : list Z) : Prop := {
  wr_only : only_block l m0 m;
  wr_pbufs : pbufs m = pbufs m0;
  wr_holds : holds m b data
}.

Lemma wp_write_field l b m0 m s data off new (Q : unit -> eth -> Prop) :
  written l b m0 m data -> fst <$> payload b = Some l -> 0 <= off -> off + Z.of_nat (length new) <= len b ->
  (forall m', written l b m0 m' (splice (Z.to_nat off) new data) -> Q tt (set_emem m' s)) ->
  wp (on_pbuf (write_at (payload b) off new)) Q (set_emem m s).
Proof.
  intros [W1 W2 W3] Hb Ho Hl HQ. apply wp_on_pbuf. emem_simpl. apply (wp_write_block l b data); [done..|].
  intros m' O E Hh. apply HQ. split; [by eapply only_block_trans|congruence|done].
Qed.

Lemma splice_arp data op hs ips hd ipd : length data = 28%nat -> length hs = 6%nat -> length hd = 6%nat ->
  splice 5 [4] (splice 4 [6] (splice 2 (be16 0x0800) (splice 0 (be16 1) (splice 24 (bytes32 ipd) (splice 14 (bytes32 ips)
    (splice 18 hd (splice 8 hs (splice 6 (be16 op) data)))))))) = arp_packet op hs ips hd ipd.
Proof.
  intros H1 H2 H3. do 28 list_cons data. list_nil data. do 6 list_cons hs. list_nil hs. do 6 list_cons hd. list_nil hd.
  unfold splice, be16, bytes32, arp_packet. cbn [length Nat.add take drop app]. reflexivity.
Qed.

Lemma arp_packet_length op hs ips hd ipd : length hs = 6%nat -> length hd = 6%nat -> length (arp_packet op hs ips hd ipd) = 28%nat.
Proof. intros H1 H2. unfold arp_packet. rewrite !length_app, H1, H2. done. Qed.

(** A pbuf of its own in the heap, with a payload of [data]. *)
Lemma ram_buf_written o n a h' m0 : 0 <= n < 65536 -> 16 + n <= Z.of_nat (length a) ->
  exists data, Z.of_nat (length data) = n /\
    packet (ram_alloced o PBUF_LINK n a h' m0) (Some (Heap o)) [Node (Heap o) (ram_buf o PBUF_LINK n) data].
Proof. intros Hn Ha. destruct (ram_alloced_packet o PBUF_LINK n a h' m0 Hn Ha) as [Hp Hl]. eauto. Qed.

Lemma wp_etharp_raw n es ed hs ips hd ipd op σ (Q : Z -> eth -> Prop) s :
  heap_ready (emem s) σ -> link_ok (elink s) ->
  length es = 6%nat -> length ed = 6%nat -> length hs = 6%nat -> length hd = 6%nat -> 0 <= op < 65536 ->
  (forall h', owns h' σ -> Q ERR_MEM (set_emem (set_heap h' (emem s)) s)) ->
  (forall r m' l', same_but_heap (emem s) m' -> heap_ready m' σ -> link_ok l' ->
     output_rel n (frame ed es ETHTYPE_ARP (arp_packet op hs ips hd ipd)) (elink s) r l' ->
     Q ERR_OK (set_elink l' (set_emem m' s))) ->
  wp (etharp_raw n es ed hs ips hd ipd op) Q s.
Proof.
  intros Hr Hlk L1 L2 L3 L4 Hop HN HS. unfold etharp_raw. apply wp_bind, wp_on_pbuf.
  apply (wp_pbuf_alloc_ram _ σ); [done|done|exact HN|]. intros o k a h' Hf Hown Ha.
  destruct (ram_buf_written o SIZEOF_ETHARP_HDR a h' (emem s) ltac:(done) Ha) as (data & Hd & Hp).
  set (b := ram_buf o PBUF_LINK SIZEOF_ETHARP_HDR) in *. set (m1 := ram_alloced _ _ _ _ _ _) in *. cbv beta iota.
  apply wp_bind, wp_on_pbuf. emem_simpl. apply (wp_getp _ b); [apply lookup_insert_eq|]. emem_simpl.
  pose proof (pk_chain _ _ _ Hp) as (_ & _ & Hh & _). simpl n_buf in Hh. simpl n_data in Hh.
  assert (Hb : fst <$> payload b = Some (Heap o)) by done. assert (Lb : len b = 28) by done.
  assert (W : written (Heap o) b m1 m1 data) by (split; [by split_and!|done|done]).
  do 9 (apply wp_bind; eapply (wp_write_field (Heap o) b m1); [exact W|exact Hb|lia|
    rewrite Lb, ?L3, ?L4; cbn [length bytes16 bytes32]; lia|clear W; intros ? W]).
  lazymatch type of W with written _ _ _ ?m _ => rename m into mw end. destruct W as [O Ep Hw]. rewrite (htons_bytes op) in Hw by done.
  change (Z.to_nat 6) with 6%nat in Hw. change (Z.to_nat 8) with 8%nat in Hw. change (Z.to_nat 18) with 18%nat in Hw.
  change (Z.to_nat 14) with 14%nat in Hw. change (Z.to_nat 24) with 24%nat in Hw. change (Z.to_nat 0) with 0%nat in Hw.
  change (Z.to_nat 2) with 2%nat in Hw. change (Z.to_nat 4) with 4%nat in Hw. change (Z.to_nat 5) with 5%nat in Hw.
  change (bytes16 (PP_HTONS LWIP_IANA_HWTYPE_ETHERNET)) with (be16 1) in Hw.
  change (bytes16 (PP_HTONS ETHTYPE_IP)) with (be16 0x0800) in Hw.
  rewrite splice_arp in Hw by (done || unfold SIZEOF_ETHARP_HDR in Hd; lia).
  pose proof (arp_packet_length op hs ips hd ipd L3 L4) as La. set (pkt := arp_packet op hs ips hd ipd) in *.
  assert (Hp2 : packet mw (Some (Heap o)) [Node (Heap o) b pkt]).
  { apply (packet_block_write m1 mw _ _ data); [done|done|done|done|done|]. unfold SIZEOF_ETHARP_HDR in Hd. lia. }
  set (nd := Node (Heap o) b pkt) in *.
  assert (Ht : total [nd] = 28) by (unfold total, contents, nd; cbn [map concat n_data]; by rewrite app_nil_r, La).
  apply wp_bind, (wp_ethernet_output n nd [] es ed ETHTYPE_ARP); [done| |by rewrite Ht|done|done|done|done|].
  { split; [done|]. exists 16. done. }
  intros r m2 l' data' O2 Hlk' Hp3 Hc3 Hrel. emem_simpl.
  assert (Oall : only_block (Heap o) m1 m2) by (by eapply only_block_trans).
  apply wp_bind, wp_on_pbuf. change (emem (set_elink l' (set_emem m2 (set_emem mw s)))) with m2.
  pose proof (pk_chain _ _ _ Hp3) as (_ & Hl3 & Hh3 & _). simpl n_loc in *. simpl n_buf in *. simpl n_data in *.
  destruct Oall as (Oh & Om & Opd & Oor & Osame).
  destruct (ram_release (emem s) m2 o k σ (moved SIZEOF_ETH_HDR b) data') as (Efree & Hsame & Hready);
    [done|done|by rewrite Oh|done|done|done|done|done| |done|done|done|].
  { intros l Hl. destruct (Osame l Hl) as [-> ->]. simpl. by rewrite !lookup_insert_ne by done. }
  eapply wp_of_run; [exact Efree|]. apply wp_ret.
  replace (set_emem (freed (Heap o) m2) (set_elink l' (set_emem m2 (set_emem mw s))))
    with (set_elink l' (set_emem (freed (Heap o) m2) s)) by done.
  apply (HS r); [done|done|done|]. unfold contents in Hrel. simpl in Hrel. by rewrite app_nil_r in Hrel.
Qed.
End Send.
