(* ===== verification/EtharpReply.v ===== *)
(** Address resolution, end to end: what an incoming ARP frame does. *)
From stdpp Require Import functions.
From S2P Require Import Prelude Memp Pbuf PbufFacts PbufUpdate PbufAlloc PbufChain PbufRam Chksum Ip4Addr.
From S2P Require Import Ethernet Etharp EtharpTable EtharpInv EtharpSend.

Section Bindings.
Context `{LinkOutput, !CustomFree, Build}.

(** ** Bindings *)

Definition binding (a : Z) (n : nat) (addr : list Z) : etharp_entry :=
  ArpEntry None a (Some n) addr 0 ETHARP_STATE_STABLE.

(** An entry of that address is found again. *)
Lemma find_addr_bound s i a n addr : table_ok (arp_table s) -> entry_at i (binding a n addr) s ->
  etharp_find_addr n a s = Ret (Some (i, addr, a)) s.
Proof.
  intros Ht [Hi E]. destruct (find_entry_choice s (Some a) ETHARP_FLAG_FIND_ONLY (Some n)) as (c & Hc & Ec).
  { apply Ht. } { eapply Forall_impl; [apply Ht|]. intros e He. apply He. }
  assert (Hm : live (binding a n addr) /\ entry_matches (Some a) (Some n) (binding a n addr) = true)
    by (split; [done|by apply entry_matches_key]).
  assert (c = Found i) as ->.
  { inversion Hc as [j Hj| | | | | |]; subst; try (exfalso; match goal with Hn : no_match _ _ _ |- _ => by apply (Hn _ _ E) end).
    destruct Hj as (Hj0 & e & Ej & [Lv Mv] & _). f_equal. apply entry_matches_key in Mv as [K1 K2].
    assert (Z.to_nat j = Z.to_nat i); [|lia].
    apply (to_distinct _ Ht _ _ e (binding a n addr)); [done|done|done|done|split; [done|by rewrite K2]]. }
  unfold etharp_find_addr. erewrite bind_Ret by exact Ec. rewrite (proj2 (Z.leb_le _ _)) by lia.
  erewrite bind_Ret by by apply get_entry_run. done.
Qed.

(** ** Learning an address, nothing being queued *)

Definition idle (s : eth) : Prop := Forall (fun e => q e = None) (arp_table s).

Definition unicast (s : eth) (n : nat) (a : Z) : Prop :=
  ip4_addr_isany_val a = false /\ ip4_addr_ismulticast a = false /\
  ip4_addr_isbroadcast_u32 a (if_flags (netifs s n)) (if_ip_addr (netifs s n)) (if_netmask (netifs s n)) = false.

(** The assignments of [etharp_update_arp_entry], when nothing is queued. *)
Lemma update_entry_idle i e n addr s : entry_at i e s -> q e = None ->
  (set_entry i (set_state ETHARP_STATE_STABLE);; set_entry i (set_netif (Some n));;
    set_entry i (set_ethaddr addr);; set_entry i (set_ctime 0);; e ← get_entry i;
    match q e with
    | None => mret tt
    | Some p => set_entry i (set_q None);; n' ← the_netif n;
        ethernet_output n p (if_hwaddr n') addr ETHTYPE_IP;; on_pbuf (pbuf_free (Some p));; mret tt
    end;; mret ERR_OK) s = Ret ERR_OK (put_entry i (binding (ipaddr e) n addr) s).
Proof.
  intros Ha Hq. erewrite bind_Ret by by apply set_entry_run.
  erewrite bind_Ret by by eapply set_entry_run, put_at. erewrite bind_Ret by (eapply set_entry_run, put_at, put_at, Ha).
  erewrite bind_Ret by (eapply set_entry_run, put_at, put_at, put_at, Ha).
  erewrite bind_Ret by (eapply get_entry_run, put_at, put_at, put_at, put_at, Ha). rewrite !put_put.
  change (q (set_ctime 0 _)) with (q e). rewrite Hq. by destruct e; simpl in *; subst.
Qed.

Lemma binding_ok a n addr : length addr = 6%nat -> ip4_addr_isany_val a = false -> ip4_addr_ismulticast a = false ->
  entry_ok (binding a n addr).
Proof. intros Hl Ha Hm. split; cbn; [done|lia|done|]. intros _. split_and!; [by eexists|done|done]. Qed.

Lemma binding_fresh s i a n addr : table_ok (arp_table s) -> entry_ok (binding a n addr) ->
  no_match (arp_table s) (Some a) (Some n) -> table_ok (<[Z.to_nat i := binding a n addr]> (arp_table s)).
Proof.
  intros Ht He Hn. apply table_ok_insert; [done|done|]. intros _ j e' Hj E' L' [K1 K2]. apply (Hn j e' E'). split; [done|].
  by apply entry_matches_key.
Qed.

(** With [ETHARP_FLAG_TRY_HARD] the address is always learned. *)
Lemma update_learns s n a addr : table_ok (arp_table s) -> idle s -> unicast s n a -> length addr = 6%nat ->
  exists i, 0 <= i < 10 /\ table_ok (<[Z.to_nat i := binding a n addr]> (arp_table s)) /\
    etharp_update_arp_entry n a addr ETHARP_FLAG_TRY_HARD s = Ret ERR_OK (put_entry i (binding a n addr) s).
Proof.
  intros Ht Hq (U1 & U2 & U3) Hl. pose proof (binding_ok a n addr Hl U1 U2) as Hbind.
  unfold etharp_update_arp_entry. erewrite bind_Ret by reflexivity. rewrite U1, U3, U2. cbn [orb].
  destruct (find_entry_choice s (Some a) ETHARP_FLAG_TRY_HARD (Some n)) as (c & Hc & Ec).
  { apply Ht. } { eapply Forall_impl; [apply Ht|]. intros e He. apply He. }
  pose proof (to_length _ Ht) as Hlen.
  assert (Hat : forall i, 0 <= i < Z.of_nat (length (arp_table s)) -> exists e, entry_at i e s /\ q e = None).
  { intros i Hi. destruct (at_exists i s Ht) as (e & Ha & _); [lia|]. exists e. split; [done|].
    unfold idle in Hq. rewrite Forall_lookup in Hq. destruct Ha as [_ Ha]. by apply (Hq _ _ Ha). }
  assert (Hfin : forall i e s1, entry_at i e s1 -> q e = None -> ipaddr e = a -> etharp_find_entry (Some a) ETHARP_FLAG_TRY_HARD (Some n) s = Ret i s1 ->
    (forall e', put_entry i e' s1 = put_entry i e' s) -> table_ok (<[Z.to_nat i := binding a n addr]> (arp_table s)) ->
    exists i, 0 <= i < 10 /\ table_ok (<[Z.to_nat i := binding a n addr]> (arp_table s)) /\
    (i ← etharp_find_entry (Some a) ETHARP_FLAG_TRY_HARD (Some n);
     if i <? 0 then mret i
     else set_entry i (set_state ETHARP_STATE_STABLE);; set_entry i (set_netif (Some n));;
      set_entry i (set_ethaddr addr);; set_entry i (set_ctime 0);; e ← get_entry i;
      match q e with
      | None => mret tt
      | Some p => set_entry i (set_q None);; n' ← the_netif n;
          ethernet_output n p (if_hwaddr n') addr ETHTYPE_IP;; on_pbuf (pbuf_free (Some p));; mret tt
      end;; mret ERR_OK) s = Ret ERR_OK (put_entry i (binding a n addr) s)).
  { intros i e s1 Ha1 Hq1 <- Ef Hput Htb. exists i. split; [apply Ha1|]. split; [done|].
    erewrite bind_Ret by exact Ef. rewrite (proj2 (Z.ltb_ge _ _)) by (destruct Ha1; lia).
    rewrite <- Hput. by apply update_entry_idle. }
  destruct c as [i|i|i|]; cbn [act_on] in Ec.
  - inversion Hc as [? Hm| | | | | |]; subst. pose proof (first_with_bound _ _ _ Hm) as Hio. destruct (Hat i Hio) as (e & Ha & Hqe).
    destruct Hm as (_ & e' & E' & [Lv Mv] & _). apply entry_matches_key in Mv as [K1 K2].
    pose proof (proj2 Ha) as Ea. rewrite E' in Ea. injection Ea as ->.
    apply (Hfin i e s); [done|done|done|done|done|]. by eapply table_ok_update.
  - inversion Hc as [| |? Hn _ Hf| | | |]; subst. destruct (Hat i (first_with_bound _ _ _ Hf)) as (e & Ha & Hqe).
    rewrite (claim_run i e) in Ec by done.
    apply (Hfin i (new_entry e (Some a) (Some n)) (put_entry i (new_entry e (Some a) (Some n)) s));
      [by eapply put_at|done|done|done|intros; apply put_put|by apply binding_fresh].
  - assert (Hio : no_match (arp_table s) (Some a) (Some n) /\ 0 <= i < 10).
    { inversion Hc; subst; (split; [done|]); match goal with Ho : oldest _ _ _ |- _ => pose proof (oldest_bound _ _ _ Ho) end; lia. }
    destruct Hio as [Hn Hio]. destruct (Hat i ltac:(lia)) as (e & Ha & Hqe).
    erewrite bind_Ret in Ec by by apply free_entry_run. erewrite claim_run in Ec by by eapply put_at. rewrite put_put in Ec.
    apply (Hfin i (new_entry (freed_entry e) (Some a) (Some n)) (put_entry i (new_entry (freed_entry e) (Some a) (Some n)) s));
      [by eapply put_at| |done|done|intros; apply put_put|by apply binding_fresh].
    unfold freed_entry. by destruct LWIP_DEBUG.
  - inversion Hc; done.
Qed.
End Bindings.

(** ** Incoming ARP packets *)

(** The fields of an ARP packet, at their offsets. *)
Lemma arp_fields op sha spa tha tpa : length sha = 6%nat -> length tha = 6%nat ->
  0 <= spa < 2 ^ 32 -> 0 <= tpa < 2 ^ 32 ->
  let data := arp_packet op sha spa tha tpa in
  let field o k := take (Z.to_nat k) (drop (Z.to_nat o) data) in
  field 0 2 = be16 1 /\ field 2 2 = be16 0x0800 /\ field 4 1 = [6] /\ field 5 1 = [4] /\ field 6 2 = be16 op /\
  field 8 6 = sha /\ load_word32 (field 14 4) = spa /\ load_word32 (field 24 4) = tpa.
Proof.
  intros L1 L2 H1 H2 data field. do 6 list_cons sha. list_nil sha. do 6 list_cons tha. list_nil tha.
  subst data field. unfold arp_packet, be16. cbv beta.
  split_and!; try reflexivity; [exact (load_bytes32 spa H1)|exact (load_bytes32 tpa H2)].
Qed.

Lemma frame_length dst src type data : length dst = 6%nat -> length src = 6%nat ->
  length (frame dst src type data) = (14 + length data)%nat.
Proof. intros L1 L2. unfold frame. rewrite !length_app, L1, L2. simpl. lia. Qed.

Lemma exists2_wp {S A B} (m : M S A) (s : S) r (P : S -> B -> Prop) :
  wp m (fun r' s' => r' = r /\ exists b, P s' b) s -> exists s' b, m s = Ret r s' /\ P s' b.
Proof. intros W. destruct (wp_elim _ _ _ W) as (r' & s' & E & -> & b & H). by exists s', b. Qed.

Section Reply.
Context `{LL : LinkLaws} `{HL : !HeapLaws} `{CF : !CustomFree} `{BU : !Build}.

Lemma wp_read_field b data off k (Q : list Z -> eth -> Prop) s :
  holds (emem s) b data -> 0 <= off -> 0 <= k -> off + k <= len b ->
  Q (take (Z.to_nat k) (drop (Z.to_nat off) data)) s -> wp (read_field (payload b) off k) Q s.
Proof.
  intros Hh Ho Hk Hl HQ. apply wp_on_pbuf, (wp_read_at _ data); [done..|]. by destruct s.
Qed.

(** The pbufs of a packet can be released. *)
Definition releasable (c : list node) : Prop :=
  Forall (fun n => 1 <= ref (n_buf n) < 256 /\ well_typed (n_loc n) (n_buf n)) c.

(** The packet at [p] has been released, the heap in order until then. *)
Definition released_from (p : loc) (m : mem) (σ : gmap Z Z) (m' : mem) : Prop :=
  exists m1 k, same_but_heap m m1 /\ heap_ready m1 σ /\ pbuf_free (Some p) m1 = Ret k m'.

Lemma packet_same_but_heap m m' p c : same_but_heap m m' -> packet m p c -> packet m' p c.
Proof.
  intros (_ & Ep & Eb & _) [Hc Ht Hl Ha Hb]. split; [|done..]. revert Hc. apply chain_frame; [by rewrite Ep|by rewrite Eb].
Qed.

Lemma same_but_heap_refl m : same_but_heap m m.
Proof. done. Qed.

Lemma wp_release p c m σ m1 (Q : Z -> mem -> Prop) : packet m (Some p) c -> releasable c ->
  same_but_heap m m1 -> heap_ready m1 σ ->
  (forall k m2, released_from p m σ m2 -> Q k m2) -> wp (pbuf_free (Some p)) Q m1.
Proof.
  intros Hp Hr Hs Hh HQ. pose proof (packet_same_but_heap _ _ _ _ Hs Hp) as Hp1.
  pose proof (pbuf_free_run m1 p c (pk_chain _ _ _ Hp1) (pk_locs _ _ _ Hp1) Hr) as E.
  eapply wp_of_run; [exact E|]. apply HQ. by exists m1, (foldl (fun k _ => u8 (k + 1)) 0 (released c)).
Qed.

(** What the driver was given in answer: one frame, or nothing for want of
    memory. *)
Definition answered (n : nat) (bytes : list Z) (l l' : lstate) : Prop :=
  l' = l \/ exists r, output_rel n bytes l r l'.

(** An ARP packet for this host: its sender is learned; a request from another
    host is answered; the packet is released. *)
Lemma wp_etharp_input s p nd c n σ op sha spa tha (Q : unit -> eth -> Prop) :
  let me := netifs s n in
  table_ok (arp_table s) -> idle s -> heap_ready (emem s) σ -> link_ok (elink s) -> length (if_hwaddr me) = 6%nat ->
  packet (emem s) (Some p) (nd :: c) -> releasable (nd :: c) ->
  holds (emem s) (set_len SIZEOF_ETHARP_HDR (n_buf nd)) (arp_packet op sha spa tha (if_ip_addr me)) ->
  op = ARP_REQUEST \/ op = ARP_REPLY ->
  length sha = 6%nat -> length tha = 6%nat -> 0 <= spa < 2 ^ 32 -> 0 <= if_ip_addr me < 2 ^ 32 ->
  ip4_addr_isany_val (if_ip_addr me) = false -> unicast s n spa ->
  (forall i s', entry_at i (binding spa n sha) s' -> arp_table s' = <[Z.to_nat i := binding spa n sha]> (arp_table s) ->
     table_ok (arp_table s') -> netifs s' = netifs s -> link_ok (elink s') -> released_from p (emem s) σ (emem s') ->
     (if (op =? ARP_REQUEST) && negb (spa =? if_ip_addr me) then
        answered n (frame sha (if_hwaddr me) ETHTYPE_ARP (arp_packet ARP_REPLY (if_hwaddr me) (if_ip_addr me) sha spa)) (elink s) (elink s')
      else elink s' = elink s) -> Q tt s') ->
  wp (etharp_input p n) Q s.
Proof.
  intros me Ht Hi Hr Hlk Lme Hp Hrel Hh Hop L1 L2 Rs Rd Hany Hu HQ.
  pose proof (pk_chain _ _ _ Hp) as (Ep & Hl & _ & _). injection Ep as ->.
  destruct (arp_fields op sha spa tha (if_ip_addr me) L1 L2 Rs Rd) as (F0 & F2 & F4 & F5 & F6 & F8 & F14 & F24).
  set (data := arp_packet op sha spa tha (if_ip_addr me)) in *. set (b := set_len SIZEOF_ETHARP_HDR (n_buf nd)) in *.
  assert (Hlb : 28 <= len b) by done.
  unfold etharp_input. apply wp_bind, wp_on_pbuf, (wp_getp _ (n_buf nd)); [done|].
  replace (set_emem (emem s) s) with s by (by destruct s). change (payload (n_buf nd)) with (payload b).
  apply wp_bind. unfold orM.
  apply wp_bind, wp_bind, (wp_read_field _ data); [done|lia..|]. rewrite F0. apply wp_ret.
  change (negb (load_word16 (be16 1) =? PP_HTONS LWIP_IANA_HWTYPE_ETHERNET)) with false. cbv iota.
  apply wp_bind, wp_bind, (wp_read_field _ data); [done|lia..|]. rewrite F4. apply wp_ret.
  change (negb (bool_decide ([6] = [6]))) with false. cbv iota.
  apply wp_bind, wp_bind, (wp_read_field _ data); [done|lia..|]. rewrite F5. apply wp_ret.
  change (negb (bool_decide ([4] = [4]))) with false. cbv iota.
  apply wp_bind, (wp_read_field _ data); [done|lia..|]. rewrite F2. apply wp_ret.
  change (negb (load_word16 (be16 0x0800) =? PP_HTONS ETHTYPE_IP)) with false. cbv iota.
  apply wp_bind, (wp_read_field _ data); [done|lia..|]. rewrite F14.
  apply wp_bind, (wp_read_field _ data); [done|lia..|]. rewrite F24.
  apply wp_bind, wp_gets. fold me. cbv zeta. rewrite Hany. cbn [negb andb].
  change (ip4_addr_eq (if_ip_addr me) (if_ip_addr me)) with (if_ip_addr me =? if_ip_addr me). rewrite Z.eqb_refl.
  apply wp_bind, (wp_read_field _ data); [done|lia..|]. rewrite F8.
  destruct (update_learns s n spa sha Ht Hi Hu L1) as (i & Hio & Htb & Eu).
  apply wp_bind. eapply wp_of_run; [exact Eu|]. set (s1 := put_entry i (binding spa n sha) s).
  apply wp_bind, (wp_read_field _ data); [exact Hh|lia..|]. rewrite F6.
  assert (Hat : forall s', arp_table s' = arp_table s1 -> entry_at i (binding spa n sha) s').
  { intros s' E. split; [done|]. rewrite E. simpl. apply list_lookup_insert_eq. rewrite (to_length _ Ht). lia. }
  assert (Hend : forall m' l', same_but_heap (emem s) m' -> heap_ready m' σ -> link_ok l' ->
     (if (op =? ARP_REQUEST) && negb (spa =? if_ip_addr me) then
        answered n (frame sha (if_hwaddr me) ETHTYPE_ARP (arp_packet ARP_REPLY (if_hwaddr me) (if_ip_addr me) sha spa)) (elink s) l'
      else l' = elink s) ->
     wp (on_pbuf (pbuf_free (Some (n_loc nd)));; mret tt) Q (set_elink l' (set_emem m' s1))).
  { intros m' l' Hs Hhr Hlk' Hans. apply wp_bind, wp_on_pbuf. eapply (wp_release _ (nd :: c) (emem s) σ); [done|done|done|done|].
    intros k m2 Hrf. apply wp_ret. by apply (HQ i); [apply Hat|..]. }
  assert (Hop1 : (load_word16 (be16 op) =? PP_HTONS ARP_REQUEST) = (op =? ARP_REQUEST)) by (by destruct Hop as [->| ->]).
  rewrite Hop1. apply wp_bind. change (ip4_addr_eq spa (if_ip_addr me)) with (spa =? if_ip_addr me).
  destruct (op =? ARP_REQUEST); cbn [when andb] in *; [|apply wp_ret; by apply (Hend (emem s) (elink s))].
  destruct (negb (spa =? if_ip_addr me)); cbn [when] in *; [|apply wp_ret; by apply (Hend (emem s) (elink s))].
  apply wp_bind, wp_gets. change (netifs s1 n) with me.
  apply wp_bind, (wp_read_field _ data); [exact Hh|lia..|]. rewrite F8.
  apply wp_bind, (wp_etharp_raw _ _ _ _ _ _ _ _ σ); [exact Hr|exact Hlk|done|done|done|done|done| |].
  - intros h' Hown. apply wp_ret. apply (Hend (set_heap h' (emem s)) (elink s)); [done|by split; [|apply Hr]|done|by left].
  - intros r m' l' Hs Hhr Hlk' Ho. apply wp_ret. apply (Hend m' l'); [done|done|done|right; by exists r].
Qed.

(** ** Incoming frames *)

(** The head of a packet relabelled: its flags and interface index. *)
Definition relabel (f i : Z) (b : pbuf) : pbuf := set_if_idx i (set_flags f b).

Definition put_buf (l : loc) (b : pbuf) (s : eth) : eth := set_emem (set_pbufs (<[l := b]> (pbufs (emem s))) (emem s)) s.

Lemma put_buf_id l b s : pbufs (emem s) !! l = Some b -> put_buf l b s = s.
Proof. intros E. unfold put_buf. rewrite insert_id by done. destruct s as [[] ? ? ? ?]. done. Qed.

Lemma put_buf_put l b b' s : put_buf l b' (put_buf l b s) = put_buf l b' s.
Proof. unfold put_buf, set_emem, set_pbufs. simpl. by rewrite insert_insert_eq. Qed.

Lemma wp_put_buf l b f (Q : unit -> eth -> Prop) s : pbufs (emem s) !! l = Some b -> Q tt (put_buf l (f b) s) ->
  wp (on_pbuf (setp l f)) Q s.
Proof. intros E HQ. by apply wp_on_pbuf, (wp_setp _ _ b). Qed.

Lemma has_lor f k : Z.land k PBUF_FLAG_IS_CUSTOM = 0 -> has (Z.lor f k) PBUF_FLAG_IS_CUSTOM = has f PBUF_FLAG_IS_CUSTOM.
Proof. intros E. unfold has. by rewrite Z.land_lor_distr_l, E, Z.lor_0_r. Qed.

Lemma wp_mark_llcast l dest b (Q : unit -> eth -> Prop) s : pbufs (emem s) !! l = Some b ->
  (forall f, has f PBUF_FLAG_IS_CUSTOM = has (flags b) PBUF_FLAG_IS_CUSTOM -> Q tt (put_buf l (relabel f (if_idx b) b) s)) ->
  wp (mark_llcast l dest) Q s.
Proof.
  intros E HQ. assert (Hid : wp (mret tt) Q s).
  { apply wp_ret. rewrite <- (put_buf_id l b s) by done. replace b with (relabel (flags b) (if_idx b) b) at 1 by (by destruct b). by apply HQ. }
  assert (Hset : forall k, Z.land k PBUF_FLAG_IS_CUSTOM = 0 -> wp (on_pbuf (setp l (fun b => set_flags (Z.lor (flags b) k) b))) Q s).
  { intros k Hk. apply (wp_put_buf l b); [done|]. replace (set_flags (Z.lor (flags b) k) b) with (relabel (Z.lor (flags b) k) (if_idx b) b)
      by (by destruct b). apply HQ. by apply has_lor. }
  unfold mark_llcast. destruct (has (nth 0 dest 0) 1); [|exact Hid]. cbn [when].
  destruct (nth 0 dest 0 =? LL_IP4_MULTICAST_ADDR_0); [destruct (_ && _)|destruct (eth_addr_eq dest ethbroadcast)];
    cbn [when]; try exact Hid; by apply Hset.
Qed.

Lemma packet_relabel m l b data c f i : packet m (Some l) (Node l b data :: c) ->
  packet (set_pbufs (<[l := relabel f i b]> (pbufs m)) m) (Some l) (Node l (relabel f i b) data :: c).
Proof.
  intros Hp. pose proof Hp as [Hc Ht _ _ Hb]. destruct Hc as (_ & Hl & Hh & _). destruct Ht as [Et _].
  rewrite total_cons in *. apply (packet_head m (Node l b data) c); [done|done|done|done|done|].
  by apply (holds_same_bytes m m b).
Qed.

Lemma heap_ready_put m σ l b b0 : heap_ready m σ -> pbufs m !! l = Some b0 -> heap_ready (set_pbufs (<[l := b]> (pbufs m)) m) σ.
Proof.
  intros [Ho Hr] E. split; [done|]. intros o Hf. simpl. destruct (Hr o Hf) as [E1 E2]. split; [|done].
  rewrite lookup_insert_ne; [done|]. intros ->. congruence.
Qed.

Lemma frame_fields dst src type data : length dst = 6%nat -> length src = 6%nat ->
  take (Z.to_nat 2) (drop (Z.to_nat 12) (frame dst src type data)) = be16 type /\
  drop (Z.to_nat 14) (frame dst src type data) = data.
Proof. intros L1 L2. do 6 list_cons dst. list_nil dst. do 6 list_cons src. list_nil src. done. Qed.

(** The part of [ethernet_input] before the protocol, for a frame with more
    than its header in the first pbuf: the header is gone and the head
    relabelled. *)
Record delivered (m : mem) (nd : node) (c : list node) (m1 : mem) (nd1 : node) : Prop := {
  dv_only : only_pbufs [n_loc nd] m m1;
  dv_loc : n_loc nd1 = n_loc nd;
  dv_packet : packet m1 (Some (n_loc nd)) (nd1 :: c);
  dv_data : n_data nd1 = drop 14 (n_data nd);
  dv_buf : exists f i, n_buf nd1 = moved (-14) (relabel f i (n_buf nd));
  dv_view k data : holds m (set_len k (n_buf nd)) data -> 14 <= k -> holds m1 (set_len (k - 14) (n_buf nd1)) (drop 14 data);
  dv_release : releasable (nd :: c) -> releasable (nd1 :: c);
  dv_ready σ : heap_ready m σ -> heap_ready m1 σ
}.

Lemma moved_relabel k f i b : moved k (relabel f i b) = relabel f i (moved k b).
Proof. done. Qed.

Lemma releasable_relabel l b data d' c f i k : has f PBUF_FLAG_IS_CUSTOM = has (flags b) PBUF_FLAG_IS_CUSTOM ->
  releasable (Node l b data :: c) -> releasable (Node l (moved k (relabel f i b)) d' :: c).
Proof.
  intros Hf [[Hr Hw] Hc]%Forall_cons. apply Forall_cons. split; [|done]. split; [done|].
  unfold well_typed in *. simpl in *. by rewrite Hf.
Qed.

Lemma wp_ethernet_header ip4_input s nd c n type (Q : Z -> eth -> Prop) :
  packet (emem s) (Some (n_loc nd)) (nd :: c) -> 14 < len (n_buf nd) -> type = ETHTYPE_IP \/ type = ETHTYPE_ARP ->
  take 2 (drop 12 (n_data nd)) = be16 type -> has (if_flags (netifs s n)) NETIF_FLAG_ETHARP = true ->
  (forall m1 nd1, delivered (emem s) nd c m1 nd1 ->
    wp (if type =? ETHTYPE_IP then ip4_input (n_loc nd) n else etharp_input (n_loc nd) n) (fun _ s' => Q ERR_OK s') (set_emem m1 s)) ->
  wp (ethernet_input ip4_input (n_loc nd) n) Q s.
Proof.
  intros Hp Hlen Hty Htype Hfl HQ. pose proof (pk_chain _ _ _ Hp) as (_ & Hl & Hh & _). pose proof Hh as [L _].
  pose proof (pk_totals _ _ _ Hp) as [Et _]. pose proof (pk_bound _ _ _ Hp) as Hbd. rewrite total_cons in Et, Hbd.
  pose proof (total_nonneg c) as Hc0. set (b := n_buf nd) in *.
  unfold ethernet_input. apply wp_bind, wp_on_pbuf, (wp_getp _ b); [done|]. replace (set_emem (emem s) s) with s by (by destruct s).
  unfold SIZEOF_ETH_HDR. rewrite (proj2 (Z.leb_gt _ _)) by lia. cbv zeta.
  apply wp_bind, (wp_read_field _ (n_data nd)); [done|lia..|]. change (Z.to_nat 2) with 2%nat. change (Z.to_nat 12) with 12%nat. rewrite Htype.
  apply wp_bind, wp_gets.
  assert (Hifx : forall (R : unit -> eth -> Prop), (forall i, R tt (put_buf (n_loc nd) (relabel (flags b) i b) s)) ->
    wp (when (if_idx b =? NETIF_NO_INDEX) (on_pbuf (setp (n_loc nd) (set_if_idx (netif_get_index (netifs s n)))))) R s).
  { intros R HR. destruct (if_idx b =? NETIF_NO_INDEX); cbn [when].
    - apply (wp_put_buf _ b); [done|]. replace (set_if_idx _ b) with (relabel (flags b) (netif_get_index (netifs s n)) b) by (by destruct b). apply HR.
    - apply wp_ret. rewrite <- (put_buf_id (n_loc nd) b s) by done. replace b with (relabel (flags b) (if_idx b) b) at 1 by (by destruct b). apply HR. }
  apply wp_bind, Hifx. intros i.
  assert (Hp1 : packet (emem (put_buf (n_loc nd) (relabel (flags b) i b) s)) (Some (n_loc nd)) (Node (n_loc nd) (relabel (flags b) i b) (n_data nd) :: c)).
  { apply packet_relabel. by destruct nd. }
  pose proof (pk_chain _ _ _ Hp1) as (_ & Hl1 & Hh1 & _). simpl n_loc in Hl1. simpl n_buf in Hl1, Hh1. simpl n_data in Hh1.
  apply wp_bind. change (payload b) with (payload (relabel (flags b) i b)). apply (wp_read_field _ (n_data nd)); [exact Hh1|lia|lia|simpl; lia|].
  apply wp_bind, (wp_mark_llcast _ _ (relabel (flags b) i b)); [exact Hl1|]. intros f Hf. rewrite put_buf_put.
  change (relabel f (if_idx (relabel (flags b) i b)) (relabel (flags b) i b)) with (relabel f i b).
  change (has (flags (relabel (flags b) i b)) PBUF_FLAG_IS_CUSTOM) with (has (flags b) PBUF_FLAG_IS_CUSTOM) in Hf.
  assert (Hcond : (load_word16 (be16 type) =? PP_HTONS ETHTYPE_IP) = (type =? ETHTYPE_IP) /\
    (load_word16 (be16 type) =? PP_HTONS ETHTYPE_IP) || (load_word16 (be16 type) =? PP_HTONS ETHTYPE_ARP) = true)
    by (by destruct Hty as [->| ->]).
  destruct Hcond as [C1 C2]. rewrite C2, C1, Hfl. cbn [negb].
  set (s1 := put_buf (n_loc nd) (relabel f i b) s). set (b2 := moved (- 14) (relabel f i b)).
  apply wp_bind, wp_on_pbuf. eapply wp_of_run.
  { rewrite (pbuf_remove_header_run (n_loc nd) (relabel f i b) 14); [|simpl; apply lookup_insert_eq|lia|simpl; lia|simpl; lia].
    rewrite (proj2 (Z.leb_le _ _)) by (simpl; lia). reflexivity. }
  cbn [Z.eqb negb]. apply wp_bind.
  replace (set_emem _ s1) with (set_emem (set_pbufs (<[n_loc nd := b2]> (pbufs (emem s))) (emem s)) s).
  2:{ unfold s1, put_buf, set_emem, set_pbufs. simpl. by rewrite insert_insert_eq. }
  apply (HQ _ (Node (n_loc nd) b2 (drop 14 (n_data nd)))). split; try done.
  - apply only_pbufs_insert.
  - pose proof (holds_moved_back (emem s) (relabel f i b) (n_data nd) 14) as Hmb.
    apply (packet_head (emem s) nd c); [done|done| | | |].
    + unfold node_area, b2, moved, relabel. subst b. simpl. by destruct (payload (n_buf nd)).
    + rewrite length_drop. simpl. lia.
    + rewrite length_drop. lia.
    + apply Hmb; [by apply (holds_same_bytes (emem s) (emem s) b)|simpl; lia].
  - by exists f, i.
  - intros k data Hv Hk. pose proof (holds_moved_back (emem s) _ _ 14 Hv) as Hm. revert Hm.
    intros Hm. apply (holds_same_bytes (emem s) _ (moved (- 14) (set_len k b))); [done|done|done|]. apply Hm. simpl. lia.
  - intros Hr. apply (releasable_relabel _ b (n_data nd)); [done|by destruct nd].
  - intros σ Hr. by eapply heap_ready_put.
Qed.

(** What an ARP frame that carries our address does, and in which case. *)
Definition resolved_frame (ip4_input : loc -> nat -> M eth unit) (s : eth) (nd : node) (c : list node) (n : nat)
    (σ : gmap Z Z) (op : Z) (sha : list Z) (spa : Z) : Prop :=
  let me := netifs s n in
  exists s' i, ethernet_input ip4_input (n_loc nd) n s = Ret ERR_OK s' /\
    etharp_find_addr n spa s' = Ret (Some (i, sha, spa)) s' /\
    arp_table s' = <[Z.to_nat i := binding spa n sha]> (arp_table s) /\ table_ok (arp_table s') /\
    (if (op =? ARP_REQUEST) && negb (spa =? if_ip_addr me) then
       answered n (frame sha (if_hwaddr me) ETHTYPE_ARP (arp_packet ARP_REPLY (if_hwaddr me) (if_ip_addr me) sha spa))
         (elink s) (elink s')
     else elink s' = elink s) /\
    exists m1 nd1, delivered (emem s) nd c m1 nd1 /\ released_from (n_loc nd) m1 σ (emem s').

(** The host: its table in order and nothing queued, heap and driver ready, an
    address, and ARP switched on. *)
Record host (s : eth) (n : nat) (σ : gmap Z Z) : Prop := {
  ho_table : table_ok (arp_table s);
  ho_idle : idle s;
  ho_heap : heap_ready (emem s) σ;
  ho_link : link_ok (elink s);
  ho_hwaddr : length (if_hwaddr (netifs s n)) = 6%nat;
  ho_flags : has (if_flags (netifs s n)) NETIF_FLAG_ETHARP = true;
  ho_range : 0 <= if_ip_addr (netifs s n) < 2 ^ 32;
  ho_ip : ip4_addr_isany_val (if_ip_addr (netifs s n)) = false
}.

(** The sender of an ARP message. *)
Record sender (s : eth) (n : nat) (sha : list Z) (spa : Z) : Prop := {
  se_hwaddr : length sha = 6%nat;
  se_range : 0 <= spa < 2 ^ 32;
  se_unicast : unicast s n spa
}.

Lemma holds_prefix m b d1 d2 : holds m b (d1 ++ d2) -> holds m (set_len (Z.of_nat (length d1)) b) d1.
Proof.
  intros [L Hh]. split; [done|]. change (payload (set_len _ b)) with (payload b). destruct (payload b) as [[blk off]|].
  - destruct Hh as (a & Ea & Ho & Hl & Hd). rewrite length_app in L, Hd. exists a. split_and!; [done|done|simpl; lia|].
    rewrite <- (take_app_length d1 d2), Hd at 1. rewrite take_take. f_equal. lia.
  - by destruct (app_nil d1 d2) as [[-> _] _].
Qed.

Lemma holds_view m b data n view : holds m b data -> holds m (set_len n b) view -> len b <= n -> payload b <> None ->
  data = take (length data) view.
Proof.
  intros [L Hh] [Lv Hv] Hn Hp. change (payload (set_len n b)) with (payload b) in Hv. simpl in Lv.
  destruct (payload b) as [[blk off]|]; [|done]. destruct Hh as (a & Ea & _ & _ & Hd), Hv as (a' & Ea' & _ & _ & Hw).
  rewrite Ea in Ea'. injection Ea' as <-. rewrite Hw, take_take. replace (length data `min` length view)%nat with (length data) by lia.
  exact Hd.
Qed.

(** Whatever the length of the frame, what lies where an ARP packet would is
    what counts. *)
Lemma arp_frame_view ip4_input s nd c n σ op dst src sha spa tha : host s n σ -> sender s n sha spa ->
  packet (emem s) (Some (n_loc nd)) (nd :: c) -> releasable (nd :: c) ->
  14 < len (n_buf nd) -> take 2 (drop 12 (n_data nd)) = be16 ETHTYPE_ARP ->
  holds (emem s) (set_len 42 (n_buf nd)) (frame dst src ETHTYPE_ARP (arp_packet op sha spa tha (if_ip_addr (netifs s n)))) ->
  op = ARP_REQUEST \/ op = ARP_REPLY -> length dst = 6%nat -> length src = 6%nat -> length tha = 6%nat ->
  resolved_frame ip4_input s nd c n σ op sha spa.
Proof.
  intros [] [] Hp Hrel Hlen Hty Hv Hop L1 L2 L4. unfold resolved_frame.
  destruct (frame_fields dst src ETHTYPE_ARP (arp_packet op sha spa tha (if_ip_addr (netifs s n))) L1 L2) as [_ F2].
  apply (exists2_wp (ethernet_input ip4_input (n_loc nd) n) s).
  apply (wp_ethernet_header _ _ _ c _ ETHTYPE_ARP); [done|done|by right|done|done|].
  intros m1 nd1 Dv. change (ETHTYPE_ARP =? ETHTYPE_IP) with false. cbv iota.
  apply (wp_etharp_input _ _ nd1 c n σ op sha spa tha); try done.
  - by apply (dv_ready _ _ _ _ _ Dv).
  - apply (dv_packet _ _ _ _ _ Dv).
  - by apply (dv_release _ _ _ _ _ Dv).
  - pose proof (dv_view _ _ _ _ _ Dv 42 _ Hv ltac:(lia)) as Hv1. change (Z.to_nat 14) with 14%nat in F2. by rewrite F2 in Hv1.
  - intros i s' Hat Htab Htok Hn Hlk' Hrf Hans. split; [done|]. exists i.
    split_and!; [by apply find_addr_bound|done|done|done|by exists m1, nd1].
Qed.


(** [etharp_input] does not look at the length. A frame that is too short to
    hold an ARP packet is processed all the same, with whatever the buffer held
    behind it, an older frame for instance: the sender that these bytes name is
    learned, and answered. *)
Theorem short_arp_frame_accepted ip4_input s nd c n σ op dst src sha spa tha : host s n σ -> sender s n sha spa ->
  packet (emem s) (Some (n_loc nd)) (nd :: c) -> releasable (nd :: c) -> 14 < len (n_buf nd) < 42 ->
  holds (emem s) (set_len 42 (n_buf nd)) (frame dst src ETHTYPE_ARP (arp_packet op sha spa tha (if_ip_addr (netifs s n)))) ->
  op = ARP_REQUEST \/ op = ARP_REPLY -> length dst = 6%nat -> length src = 6%nat -> length tha = 6%nat ->
  resolved_frame ip4_input s nd c n σ op sha spa.
Proof.
  intros Hh Hs Hp Hrel Hlen Hv Hop L1 L2 L3. pose proof (pk_chain _ _ _ Hp) as (_ & _ & Hn & _). pose proof Hn as [L Hn'].
  apply (arp_frame_view ip4_input s nd c n σ op dst src sha spa tha); try done; [lia|].
  rewrite (holds_view _ _ _ _ _ Hn Hv); [|lia|].
  - rewrite skipn_firstn_comm, take_take. replace (2 `min` (length (n_data nd) - 12))%nat with 2%nat by lia.
    unfold frame. do 6 list_cons dst. list_nil dst. do 6 list_cons src. list_nil src. done.
  - intros E. rewrite E in Hn'. rewrite Hn' in L. simpl in L. lia.
Qed.
End Reply.
