(* ===== verification/EtharpTimer.v ===== *)
(** Address resolution: the timer. *)
From stdpp Require Import functions.
From S2P Require Import Prelude Memp Pbuf PbufFacts PbufUpdate PbufAlloc PbufChain PbufRam Chksum Ip4Addr.
From S2P Require Import Ethernet Etharp EtharpTable EtharpInv EtharpSend EtharpReply.

(** How long an entry may stay. *)
Definition limit (e : etharp_entry) : Z :=
  if bool_decide (state e = ETHARP_STATE_PENDING) then ARP_MAXPENDING else ARP_MAXAGE.

Definition next_state (st : etharp_state) : etharp_state :=
  match st with
  | ETHARP_STATE_STABLE_REREQUESTING_1 => ETHARP_STATE_STABLE_REREQUESTING_2
  | ETHARP_STATE_STABLE_REREQUESTING_2 => ETHARP_STATE_STABLE
  | st => st
  end.

Section Tick.
Context `{Build}.

(** An entry after one second. *)
Definition tick (e : etharp_entry) : etharp_entry :=
  if bool_decide (state e = ETHARP_STATE_EMPTY) then e
  else
    let e1 := set_ctime (u16 (ctime e + 1)) e in
    if limit e <=? ctime e1 then freed_entry e1 else set_state (next_state (state e)) e1.

Lemma tick_empty e : ~ live e -> tick e = e.
Proof. unfold live, tick. intros Hl. rewrite bool_decide_true; [done|]. destruct (decide (state e = ETHARP_STATE_EMPTY)); tauto. Qed.

Lemma tick_live e : entry_ok e -> young e -> live e ->
  if ctime e + 1 <? limit e
  then live (tick e) /\ ctime (tick e) = ctime e + 1 /\ limit (tick e) = limit e /\ same_key e (tick e) /\
       ethaddr (tick e) = ethaddr e /\ q (tick e) = q e
  else ~ live (tick e).
Proof.
  intros He [Hy _] Hl. specialize (Hy Hl). pose proof (eo_age _ He). unfold tick. rewrite bool_decide_false by done.
  unfold ARP_MAXAGE in Hy. cbn [ctime set_ctime]. rewrite u16_small by lia.
  destruct (Z.ltb_spec (ctime e + 1) (limit e)), (Z.leb_spec (limit e) (ctime e + 1)); try lia.
  - unfold live, limit, same_key in *. cbn. split_and!; try done; by destruct (state e).
  - intros Hlv. unfold live, freed_entry in Hlv. by destruct LWIP_DEBUG.
Qed.
End Tick.

Section Timer.
Context `{LL : LinkLaws} `{HL : !HeapLaws} `{CF : !CustomFree} `{BU : !Build}.

(** What a timer call starts from: nothing queued, the heap and the driver in
    order. *)
Record calm (σ : gmap Z Z) (s : eth) : Prop := {
  ca_table : table_ok (arp_table s);
  ca_cached : 0 <= etharp_cached_entry s < 10;
  ca_young : young_table s;
  ca_idle : idle s;
  ca_heap : heap_ready (emem s) σ;
  ca_link : link_ok (elink s);
  ca_hwaddr : forall n, length (if_hwaddr (netifs s n)) = 6%nat
}.

(** The same up to the table, which is [t]. *)
Record calm_with (σ : gmap Z Z) (s0 : eth) (t : list etharp_entry) (s : eth) : Prop := {
  cw_table : arp_table s = t;
  cw_mem : same_but_heap (emem s0) (emem s);
  cw_heap : heap_ready (emem s) σ;
  cw_link : link_ok (elink s);
  cw_netifs : netifs s = netifs s0;
  cw_cached : etharp_cached_entry s = etharp_cached_entry s0
}.

Lemma same_but_heap_trans m1 m2 m3 : same_but_heap m1 m2 -> same_but_heap m2 m3 -> same_but_heap m1 m3.
Proof. intros (? & ? & ? & ? & ?) (? & ? & ? & ? & ?). split_and!; congruence. Qed.

Lemma calm_with_put σ s0 t s i e : calm_with σ s0 t s -> calm_with σ s0 (<[Z.to_nat i := e]> t) (put_entry i e s).
Proof. intros [E1 E2 E3 E4 E5 E6]. split; try done. simpl. by rewrite E1. Qed.

Lemma wp_request_calm σ s0 t s n ip (Q : Z -> eth -> Prop) : calm_with σ s0 t s -> length (if_hwaddr (netifs s0 n)) = 6%nat ->
  (forall r s', calm_with σ s0 t s' -> Q r s') -> wp (etharp_request n ip) Q s.
Proof.
  intros [E1 E2 E3 E4 E5 E6] Hl HQ. unfold etharp_request, etharp_request_dst. apply wp_bind, wp_gets. rewrite E5.
  apply (wp_etharp_raw _ _ _ _ _ _ _ _ σ); [done|done|done|done|done|done|done| |].
  - intros h' Hown. apply HQ. split; try done. by split; [|apply E3].
  - intros r m' l' Hs Hh Hk _. apply HQ. split; try done. by eapply same_but_heap_trans.
Qed.

Lemma wp_tmr_entry σ s0 t s i e (Q : unit -> eth -> Prop) : calm_with σ s0 t s -> entry_at i e s -> entry_ok e -> young e -> q e = None ->
  (forall n, length (if_hwaddr (netifs s0 n)) = 6%nat) ->
  (forall s', calm_with σ s0 (<[Z.to_nat i := tick e]> t) s' -> Q tt s') -> wp (tmr_entry i) Q s.
Proof.
  intros Hc Ha He Hy Hq Hhw HQ. unfold tmr_entry. apply wp_bind. eapply wp_get_entry; [done|]. unfold tick in HQ.
  destruct (bool_decide_reflect (state e = ETHARP_STATE_EMPTY)) as [Hs|Hs].
  { rewrite bool_decide_false by tauto. apply wp_ret, HQ. rewrite list_insert_id; [done|]. rewrite <- (cw_table _ _ _ _ Hc). apply Ha. }
  rewrite bool_decide_true by done. cbn [when]. set (e1 := set_ctime (u16 (ctime e + 1)) e) in *. cbv zeta in HQ.
  apply wp_bind. eapply wp_set_entry; [done|]. fold e1. intros Ha1. apply wp_bind. eapply wp_get_entry; [done|].
  assert (Hold : ((ARP_MAXAGE <=? ctime e1) || (bool_decide (state e1 = ETHARP_STATE_PENDING) && (ARP_MAXPENDING <=? ctime e1)))
    = (limit e <=? ctime e1)).
  { unfold limit. change (state e1) with (state e). destruct (bool_decide_reflect (state e = ETHARP_STATE_PENDING)); cbn [andb].
    - unfold ARP_MAXAGE, ARP_MAXPENDING. destruct (Z.leb_spec 300 (ctime e1)), (Z.leb_spec 5 (ctime e1)); try done; lia.
    - apply orb_false_r. }
  rewrite Hold. destruct (limit e <=? ctime e1) eqn:Elim.
  { eapply wp_of_run; [by apply free_entry_run|]. rewrite put_put. by apply HQ, calm_with_put. }
  change (state e1) with (state e) in *.
  assert (Hset : forall st, wp (set_entry i (set_state st)) (fun _ s' => s' = put_entry i (set_state st e1) s) (put_entry i e1 s)).
  { intros st. eapply wp_set_entry; [done|]. intros _. apply put_put. }
  assert (Hsame : set_state (state e) e1 = e1) by done.
  destruct (state e) eqn:Est; cbn [next_state] in HQ; try rewrite Hsame in HQ.
  - done.
  - destruct (eo_live _ He) as ([n Hn] & _); [unfold live; by rewrite Est|]. change (netif_ e1) with (netif_ e). rewrite Hn.
    apply wp_bind, wp_ret, wp_bind. eapply wp_request_calm; [by apply calm_with_put|done|]. intros r s' Hc'. by apply wp_ret, HQ.
  - by apply wp_ret, HQ, calm_with_put.
  - eapply wp_mono; [apply Hset|]. intros [] s' ->. by apply HQ, calm_with_put.
  - eapply wp_mono; [apply Hset|]. intros [] s' ->. by apply HQ, calm_with_put.
Qed.

Lemma wp_tmr_from σ s0 (Q : unit -> eth -> Prop) : (forall n, length (if_hwaddr (netifs s0 n)) = 6%nat) ->
  forall m k t s, calm_with σ s0 t s -> length t = 10%nat -> (k + m = 10)%nat ->
  Forall (fun e => entry_ok e /\ young e /\ q e = None) (drop k t) ->
  (forall s', calm_with σ s0 (take k t ++ (tick <$> drop k t)) s' -> Q tt s') ->
  wp (for_each (seqZ (Z.of_nat k) (Z.of_nat m)) tmr_entry) Q s.
Proof.
  intros Hhw m. induction m as [|m IH]; intros k t s Hc Hl Hkm Hf HQ.
  - rewrite drop_ge, take_ge in HQ by lia. simpl. apply HQ. by rewrite app_nil_r.
  - destruct (lookup_lt_is_Some_2 t k) as [e E]; [lia|].
    rewrite (drop_S _ _ _ E) in Hf, HQ. apply Forall_cons in Hf as [(He & Hy & Hq) Hf].
    rewrite seqZ_cons by lia. cbn [for_each]. apply wp_bind.
    apply (wp_tmr_entry σ s0 t s (Z.of_nat k) e); [done| |done|done|done|done|].
    { split; [lia|]. rewrite (cw_table _ _ _ _ Hc), Nat2Z.id. done. }
    intros s' Hc'. rewrite Nat2Z.id in Hc'.
    replace (Z.succ (Z.of_nat k)) with (Z.of_nat (S k)) by lia. replace (Z.pred (Z.of_nat (S m))) with (Z.of_nat m) by lia.
    apply (IH (S k) (<[k := tick e]> t) s' Hc'); [by rewrite length_insert|lia| |].
    + by rewrite drop_insert_lt by lia.
    + intros s'' Hc''. apply HQ. rewrite drop_insert_lt in Hc'' by lia.
      assert (Et : take (S k) (<[k := tick e]> t) = take k t ++ [tick e]).
      { rewrite (take_S_r _ _ (tick e)) by (apply list_lookup_insert_eq; lia). by rewrite take_insert_ge by lia. }
      rewrite Et, <- app_assoc in Hc''. exact Hc''.
Qed.

(** One call of the timer. *)
Lemma tmr_run σ s : calm σ s -> exists s', etharp_tmr s = Ret tt s' /\ arp_table s' = tick <$> arp_table s /\ calm σ s' /\
  same_but_heap (emem s) (emem s').
Proof.
  intros [Ht Hcd Hy Hi Hr Hk Hhw].
  assert (W : wp etharp_tmr (fun _ s' => calm_with σ s (tick <$> arp_table s) s') s).
  { apply (wp_tmr_from σ s _ Hhw 10 0 (arp_table s)); [by split|apply Ht|done| |by intros s' Hc].
    apply Forall_lookup. intros i e E. unfold young_table, idle in *. rewrite Forall_lookup in Hy, Hi.
    split_and!; [by eapply table_ok_entry|by eapply Hy|by eapply Hi]. }
  destruct (wp_elim _ _ _ W) as ([] & s' & E & [C1 C2 C3 C4 C5 C6]). exists s'. split_and!; [done|done| |done].
  pose proof (keeps_tmr s (conj Ht Hcd) Hy) as Hs. unfold safe in Hs. rewrite E in Hs. destruct Hs as [[Ht' Hcd'] Hy'].
  split; [done|done|done| |done|done|by rewrite C5].
  unfold idle in *. rewrite C1. apply Forall_fmap. eapply Forall_impl; [exact Hi|]. intros e Hq. simpl.
  unfold tick. case_bool_decide; [done|]. case_match; [|done]. unfold freed_entry. by destruct LWIP_DEBUG.
Qed.

(** [k] seconds. *)
Definition seconds (k : nat) : M eth unit := for_each (replicate k tt) (fun _ => etharp_tmr).

(** C29. Expiry. While no packet waits in the table and whatever memory there is
    for requests, [etharp_tmr] always returns, with the packet memory as it was,
    and after [k] seconds without news an entry is still there, with its binding,
    exactly when its age is below the limit: 300 seconds for a resolved entry, 5
    for a pending one, for which the comment at ARP_MAXPENDING says 10.  So every
    entry is gone after 300 seconds at most. *)
Theorem arp_entries_expire σ s k : calm σ s ->
  exists s', seconds k s = Ret tt s' /\ calm σ s' /\ same_but_heap (emem s) (emem s') /\
    forall i e, arp_table s !! i = Some e -> exists e', arp_table s' !! i = Some e' /\
      (~ live e -> e' = e) /\
      (live e -> if ctime e + Z.of_nat k <? limit e
                 then live e' /\ ctime e' = ctime e + Z.of_nat k /\ same_key e e' /\ ethaddr e' = ethaddr e
                 else ~ live e').
Proof.
  revert s. induction k as [|k IH]; intros s Hc.
  - exists s. split_and!; [done|done|done|]. intros i e E. exists e. split_and!; [done|done|]. intros Hl.
    assert (Hy : young e). { pose proof (ca_young _ _ Hc) as Hy. unfold young_table in Hy. rewrite Forall_lookup in Hy. by eapply Hy. }
    rewrite Z.add_0_r, (proj2 (Z.ltb_lt _ _)); [done|]. unfold limit. destruct Hy as [Hy1 Hy2].
    case_bool_decide; [by apply Hy2|by apply Hy1].
  - destruct (tmr_run σ s Hc) as (s1 & E1 & Et & Hc1 & Hm1). destruct (IH s1 Hc1) as (s' & E2 & Hc' & Hm2 & Hall).
    exists s'. split_and!; [|done|by eapply same_but_heap_trans|].
    { unfold seconds. cbn [replicate for_each]. by erewrite bind_Ret by exact E1. }
    intros i e E. destruct (Hall i (tick e)) as (e' & E' & Hd & Hl); [by rewrite Et, list_lookup_fmap, E|].
    exists e'. split; [done|]. split; [by intros Hn; rewrite tick_empty in Hd by done; apply Hd|].
    intros Hlv. pose proof (ca_young _ _ Hc) as Hy. unfold young_table in Hy. rewrite Forall_lookup in Hy.
    pose proof (tick_live e (table_ok_entry _ _ _ (ca_table _ _ Hc) E) (Hy _ _ E) Hlv) as Ht.
    destruct (Z.ltb_spec (ctime e + 1) (limit e)).
    + destruct Ht as (T1 & T2 & T3 & T4 & T5 & _). specialize (Hl T1). rewrite T2, T3, T5 in Hl.
      replace (ctime e + 1 + Z.of_nat k) with (ctime e + Z.of_nat (S k)) in Hl by lia.
      destruct (_ <? limit e); [|done]. destruct Hl as (L1 & L2 & L3 & L4). split_and!; try done.
      destruct T4, L3. split; congruence.
    + rewrite (proj2 (Z.ltb_ge _ _)) by lia. by rewrite (Hd Ht).
Qed.
End Timer.
