(* ===== verification/EtharpOutput.v ===== *)
(** Address resolution: where outgoing packets go. *)
From stdpp Require Import functions.
From S2P Require Import Prelude Memp Pbuf PbufFacts PbufUpdate PbufAlloc PbufChain PbufRam Chksum Ip4Addr.
From S2P Require Import Ethernet Etharp EtharpTable EtharpInv EtharpSend EtharpReply.

(** ** The next hop *)

Inductive hop : Type :=
| Direct (dst : list Z)  (** a hardware address that needs no resolution *)
| Via (a : Z)            (** the hardware address of [a] *)
| NoRoute.

(** RFC 1112: the low 23 bits of the group address. *)
Definition group_addr (ip : Z) : list Z := [1; 0; 0x5e; ip4_addr2 ip mod 128; ip4_addr3 ip; ip4_addr4 ip].

Definition next_hop (me : link_if) (ip : Z) : hop :=
  if ip4_addr_isbroadcast_u32 ip (if_flags me) (if_ip_addr me) (if_netmask me) then Direct ethbroadcast
  else if ip4_addr_ismulticast ip then Direct (group_addr ip)
  else if ip4_addr_net_eq ip (if_ip_addr me) (if_netmask me) || ip4_addr_islinklocal ip then Via ip
  else if ip4_addr_isany_val (if_gw me) then NoRoute
  else Via (if_gw me).

Section Output.
Context `{LL : LinkLaws} `{HL : !HeapLaws} `{CF : !CustomFree} `{BU : !Build}.

(** The packet went to [dst]: the driver got it in a frame, its head has
    the header in front, and nothing else changed but the hint. *)
Definition framed (n : nat) (nd : node) (c : list node) (dst : list Z) (s : eth) (r : Z) (s' : eth) : Prop :=
  exists k m' l' data, s' = set_elink l' (set_emem m' (set_cached k s)) /\ 0 <= k < 10 /\ link_ok l' /\ only_block (n_loc nd) (emem s) m' /\
    packet m' (Some (n_loc nd)) (Node (n_loc nd) (moved SIZEOF_ETH_HDR (n_buf nd)) data :: c) /\
    contents (Node (n_loc nd) (moved SIZEOF_ETH_HDR (n_buf nd)) data :: c) =
      frame dst (if_hwaddr (netifs s n)) ETHTYPE_IP (contents (nd :: c)) /\
    output_rel n (frame dst (if_hwaddr (netifs s n)) ETHTYPE_IP (contents (nd :: c))) (elink s) r l'.

(** A packet that can be framed. *)
Record sendable (s : eth) (nd : node) (c : list node) : Prop := {
  sd_packet : packet (emem s) (Some (n_loc nd)) (nd :: c);
  sd_room : roomy nd SIZEOF_ETH_HDR;
  sd_size : total (nd :: c) + SIZEOF_ETH_HDR <= 1500;
  sd_link : link_ok (elink s)
}.

Lemma set_cached_same s : set_cached (etharp_cached_entry s) s = s.
Proof. by destruct s. Qed.

Lemma wp_frame n nd c dst s k : 0 <= k < 10 -> sendable s nd c -> length (if_hwaddr (netifs s n)) = 6%nat -> length dst = 6%nat ->
  wp (ethernet_output n (n_loc nd) (if_hwaddr (netifs s n)) dst ETHTYPE_IP) (fun r s' => framed n nd c dst s r s') (set_cached k s).
Proof.
  intros Hk [Hp Hr Ht Hl] L1 L2. apply (wp_ethernet_output n nd c); [done|done|done|done|done|done|done|].
  intros r m' l' data O Hlk Hpk Hc Hrel. exists k, m', l', data. done.
Qed.

Lemma wp_frame_here n nd c dst s : arp_ok s -> sendable s nd c -> length (if_hwaddr (netifs s n)) = 6%nat -> length dst = 6%nat ->
  wp (ethernet_output n (n_loc nd) (if_hwaddr (netifs s n)) dst ETHTYPE_IP) (fun r s' => framed n nd c dst s r s') s.
Proof. intros [_ Hk] Hs L1 L2. pose proof (wp_frame n nd c dst s (etharp_cached_entry s) Hk Hs L1 L2) as W. by rewrite set_cached_same in W. Qed.

(** An entry whose binding is used without a new request: younger than 270
    seconds, or asked for again already. *)
Definition usable (e : etharp_entry) (a : Z) (n : nat) : Prop :=
  is_stable e /\ netif_ e = Some n /\ ipaddr e = a /\
  (state e = ETHARP_STATE_STABLE -> ctime e < ARP_AGE_REREQUEST_USED_UNICAST).

Lemma wp_output_to n nd c i e a s k : 0 <= k < 10 -> sendable s nd c -> length (if_hwaddr (netifs s n)) = 6%nat -> table_ok (arp_table s) ->
  entry_at i e s -> usable e a n ->
  wp (etharp_output_to_arp_index n (n_loc nd) i) (fun r s' => framed n nd c (ethaddr e) s r s') (set_cached k s).
Proof.
  intros Hk Hs L1 Ht Ha (U1 & U2 & U3 & U4). pose proof (at_ok _ _ _ Ht Ha) as He.
  assert (Ha' : entry_at i e (set_cached k s)) by exact Ha.
  unfold etharp_output_to_arp_index. apply wp_bind. eapply wp_get_entry; [done|]. apply wp_bind.
  assert (Hrest : wp (n' ← the_netif n; e ← get_entry i; ethernet_output n (n_loc nd) (if_hwaddr n') (ethaddr e) ETHTYPE_IP)
    (fun r s' => framed n nd c (ethaddr e) s r s') (set_cached k s)).
  { apply wp_bind, wp_gets, wp_bind. eapply wp_get_entry; [exact Ha'|].
    exact (wp_frame n nd c (ethaddr e) s k Hk Hs L1 (eo_addr e He)). }
  destruct (bool_decide_reflect (state e = ETHARP_STATE_STABLE)) as [Est|]; cbn [when]; [|exact Hrest].
  specialize (U4 Est). unfold ARP_AGE_REREQUEST_USED_BROADCAST, ARP_AGE_REREQUEST_USED_UNICAST in *.
  rewrite (proj2 (Z.leb_gt _ _)) by lia. rewrite (proj2 (Z.leb_gt _ _)) by lia. exact Hrest.
Qed.

Lemma find_stable_hit a n t e j : t !! j = Some e -> is_stable e -> netif_ e = Some n -> ipaddr e = a ->
  forall i, exists j' e', find_stable a n i t = Some (i + Z.of_nat j') /\ t !! j' = Some e' /\ is_stable e' /\ netif_ e' = Some n /\ ipaddr e' = a.
Proof.
  revert j. induction t as [|e0 t IH]; intros j Hj Hs Hn Hi i; [done|]. cbn [find_stable].
  destruct (stable_state (state e0) && bool_decide (netif_ e0 = Some n) && ip4_addr_eq a (ipaddr e0)) eqn:Em.
  - apply andb_true_iff in Em as [[E1 E2]%andb_true_iff E3]. apply bool_decide_eq_true in E2. apply Z.eqb_eq in E3.
    exists 0%nat, e0. split_and!; [f_equal; lia|done|done|done|done].
  - destruct j as [|j]; [exfalso|].
    { injection Hj as ->. unfold is_stable in Hs. rewrite Hs, bool_decide_true in Em by done. cbn in Em. unfold ip4_addr_eq in Em.
      subst a. by rewrite Z.eqb_refl in Em. }
    destruct (IH j Hj Hs Hn Hi (i + 1)) as (j' & e' & E & H1 & H2 & H3 & H4). exists (S j'), e'.
    split_and!; [rewrite E; f_equal; lia|done|done|done|done].
Qed.

Lemma wp_output_unicast n nd c i e a s : sendable s nd c -> length (if_hwaddr (netifs s n)) = 6%nat -> arp_ok s ->
  entry_at i e s -> usable e a n ->
  wp (output_unicast n (n_loc nd) a) (fun r s' => framed n nd c (ethaddr e) s r s') s.
Proof.
  intros Hs L1 [Ht Hc] Ha Hu. pose proof Hu as (U1 & U2 & U3 & _).
  assert (Huniq : forall j e', arp_table s !! j = Some e' -> is_stable e' -> netif_ e' = Some n -> ipaddr e' = a -> e' = e).
  { intros j e' E' S' N' I'. destruct Ha as [_ Ea]. assert (j = Z.to_nat i); [|congruence].
    apply (to_distinct _ Ht j _ e' e); [done|done|by apply stable_live|by apply stable_live|]. split; congruence. }
  unfold output_unicast. apply wp_bind, wp_gets, wp_bind.
  destruct (at_exists (etharp_cached_entry s) s Ht Hc) as (e0 & Ha0 & _). eapply wp_get_entry; [done|].
  destruct (stable_state (state e0) && bool_decide (netif_ e0 = Some n) && ip4_addr_eq a (ipaddr e0)) eqn:Em.
  - apply andb_true_iff in Em as [[E1 E2]%andb_true_iff E3]. apply bool_decide_eq_true in E2. apply Z.eqb_eq in E3.
    assert (e0 = e) as -> by (eapply Huniq; [apply Ha0|done|done|done]).
    pose proof (wp_output_to n nd c _ e a s (etharp_cached_entry s) Hc Hs L1 Ht Ha0 Hu) as W. by rewrite set_cached_same in W.
  - apply wp_bind, wp_gets. destruct (find_stable_hit a n (arp_table s) e (Z.to_nat i) (proj2 Ha) U1 U2 U3 0) as (j & e' & -> & Ej & S' & N' & I').
    assert (e' = e) as -> by (by eapply Huniq). apply wp_bind, wp_modify.
    apply lookup_lt_Some in Ej as Hlt. rewrite (to_length _ Ht) in Hlt. unfold ARP_TABLE_SIZE in *.
    apply (wp_output_to n nd c _ e a); [lia|done|done|done| |done]. split; [lia|]. by replace (Z.to_nat (0 + Z.of_nat j)) with j by lia.
Qed.

Lemma group_addr_eq ip : [LL_IP4_MULTICAST_ADDR_0; LL_IP4_MULTICAST_ADDR_1; LL_IP4_MULTICAST_ADDR_2;
  Z.land (ip4_addr2 ip) 0x7f; ip4_addr3 ip; ip4_addr4 ip] = group_addr ip.
Proof. unfold group_addr. by rewrite (Z.land_ones _ 7) by lia. Qed.

(** The packet goes to [hw], the next hop's hardware address. *)
Definition hop_address (n : nat) (ip : Z) (hw : list Z) (s : eth) : Prop :=
  match next_hop (netifs s n) ip with
  | Direct d => hw = d
  | Via a => exists i e, entry_at i e s /\ usable e a n /\ hw = ethaddr e
  | NoRoute => False
  end.

Lemma wp_etharp_output s n nd c ip hw : arp_ok s -> sendable s nd c -> length (if_hwaddr (netifs s n)) = 6%nat -> hop_address n ip hw s ->
  wp (etharp_output n (n_loc nd) ip) (fun r s' => framed n nd c hw s r s') s.
Proof.
  intros Hi Hs L1. unfold hop_address, next_hop, etharp_output. intros Hhw. apply wp_bind, wp_gets. cbv zeta beta. rewrite group_addr_eq.
  destruct (ip4_addr_isbroadcast_u32 _ _ _ _); [subst hw; by apply wp_frame_here|].
  destruct (ip4_addr_ismulticast ip); [subst hw; by apply wp_frame_here|].
  destruct (ip4_addr_net_eq _ _ _), (ip4_addr_islinklocal ip); cbn [orb negb andb] in *;
    try (destruct Hhw as (i & e & Ha & Hu & ->); by eapply wp_output_unicast).
  destruct (ip4_addr_isany_val (if_gw _)); cbn [negb]; [done|]. destruct Hhw as (i & e & Ha & Hu & ->). by eapply wp_output_unicast.
Qed.

(** C22. Where [etharp_output] sends a packet. Broadcast and multicast addresses
    go to the matching hardware address, everything on our network and every
    link-local address to the hardware address of the destination, the rest to
    that of the gateway, or nowhere without one: ERR_RTE and nothing happens.
    When the hop's address is resolved and younger than 270 seconds, or already
    asked for again, the packet leaves at once and alone, in an Ethernet frame
    with exactly these addresses, and the memory outside its first block is
    untouched. In particular nothing is asked for from 240 to 269 seconds, where
    the comment at ARP_AGE_REREQUEST_USED_UNICAST promises a request: 1 minute
    before the entry expires. *)
Theorem etharp_output_routes s n nd c ip : arp_ok s -> sendable s nd c -> length (if_hwaddr (netifs s n)) = 6%nat ->
  match next_hop (netifs s n) ip with
  | Direct dst => exists r s', etharp_output n (n_loc nd) ip s = Ret r s' /\ framed n nd c dst s r s'
  | Via a => forall i e, entry_at i e s -> usable e a n ->
      exists r s', etharp_output n (n_loc nd) ip s = Ret r s' /\ framed n nd c (ethaddr e) s r s'
  | NoRoute => etharp_output n (n_loc nd) ip s = Ret ERR_RTE s
  end.
Proof.
  intros Hi Hs L1. pose proof (fun hw Hh => wp_elim _ _ _ (wp_etharp_output s n nd c ip hw Hi Hs L1 Hh)) as W. unfold hop_address in W.
  destruct (next_hop (netifs s n) ip) as [|a|] eqn:Eh.
  - by apply W.
  - intros i e Ha Hu. apply W. by exists i, e.
  - clear W. unfold next_hop in Eh. unfold etharp_output. erewrite bind_Ret by reflexivity. cbv zeta beta.
    destruct (ip4_addr_isbroadcast_u32 _ _ _ _); [done|]. destruct (ip4_addr_ismulticast ip); [done|].
    destruct (ip4_addr_net_eq _ _ _), (ip4_addr_islinklocal ip); cbn [orb negb andb] in *; try done. by destruct (ip4_addr_isany_val _).
Qed.
End Output.
