(* ===== verification/Ip.v ===== *)
(** IPv4: the state and the way out, [src/lwip-2.2.1/src/core/ipv4/ip4.c].

    IP keeps its variables beside the driver's: the link layer's functions run
    over [eth], whose driver part is here the pair of the driver behind the
    wire and of [ip_vars], so that IP calls ARP and ARP calls the driver in
    one state.

    Configuration: one address family, no forwarding, no options sent, no
    multicast options, no loopback, header checksums computed on the way out
    and checked on the way in.  A packet longer than the interface takes is
    given to [ip4_frag], an argument here, which [Frag.v] defines. *)
From S2P Require Import Prelude Memp Pbuf Chksum Ip4Addr Ethernet Etharp.

(** ** prot/ip4.h, prot/ip.h, ip4_addr.h, netif.h, opt.h *)

Definition IP_HLEN : Z := 20.
Definition IP_DF : Z := 0x4000.
Definition IP_MF : Z := 0x2000.
Definition IP_OFFMASK : Z := 0x1fff.

(** A field as loaded, in network byte order. *)
Definition lwip_ntohs (x : Z) : Z := lwip_htons x.
Definition PP_NTOHS (x : Z) : Z := PP_HTONS x.
Definition IPH_V (v_hl : Z) : Z := Z.shiftr v_hl 4.
Definition IPH_HL (v_hl : Z) : Z := Z.land v_hl 0x0f.
Definition IPH_HL_BYTES (v_hl : Z) : Z := u8 (IPH_HL v_hl * 4).
Definition IPH_OFFSET_BYTES (offset : Z) : Z := u16 (Z.land (lwip_ntohs offset) IP_OFFMASK * 8).

Definition IP_PROTO_ICMP : Z := 1.
Definition IP_PROTO_UDP : Z := 17.
Definition IP_PROTO_TCP : Z := 6.
Definition IP_DEFAULT_TTL : Z := 255.
Definition NETIF_FLAG_UP : Z := 0x01.
Definition netif_is_up (n : link_if) : bool := has (if_flags n) NETIF_FLAG_UP.
Definition netif_is_link_up (n : link_if) : bool := has (if_flags n) NETIF_FLAG_LINK_UP.
Definition ip4_addr_isloopback (addr : Z) : bool := Z.land addr (PP_HTONL 0xff000000) =? PP_HTONL (Z.shiftl 127 24).
Definition ip4_addr_isbroadcast (addr : Z) (n : link_if) : bool :=
  ip4_addr_isbroadcast_u32 addr (if_flags n) (if_ip_addr n) (if_netmask n).

(** ** The state *)

(** What lies below IP and above it: the driver of the interfaces, and the
    variables of the transport protocols. *)
Class Wire `{HeapOps} : Type := {
  wstate : Type;
  wire_output : nat -> loc -> M (mem * wstate) Z;
  tstate : Type
}.

(** [ip_data]. *)
Record ip_globals : Type := IpGlobals {
  current_netif : option nat;
  current_input_netif : option nat;
  current_ip4_header : option ptr;
  current_ip_header_tot_len : Z;
  current_iphdr_src : Z;
  current_iphdr_dest : Z
}.

(** [struct ip_reassdata] of ip4_frag.h, an element of its pool. *)
Record ip_reassdata : Type := ReassData {
  rd_next : option loc;
  rd_p : option loc;
  rd_iphdr : list Z;
  rd_datagram_len : Z;
  rd_flags : Z;
  rd_timer : Z
}.

(** The variables of ip4.c and ip4_frag.c, and of netif.c what they read.  The
    pointer [next_pbuf] that ip4_frag.c stores in the first bytes of a
    fragment's header has no bytes here: [next_pbufs] has it by the address of
    the header. *)
Record ip_vars `{Wire} : Type := IpVars {
  ip_id : Z;
  ip_data : ip_globals;
  netif_list : list nat;
  netif_default : option nat;
  netif_mtu : nat -> Z;
  reassdatagrams : option loc;
  reass_pool : gmap loc ip_reassdata;
  next_pbufs : gmap ptr (option loc);
  ip_reass_pbufcount : Z;
  above : tstate
}.

(** The link below ARP: the driver, with IP's variables carried along. *)
#[export] Instance ip_link `{Wire} : LinkOutput := {|
  lstate := wstate * ip_vars;
  linkoutput n p := zoom (fun x => (x.1, x.2.1)) (fun y x => (y.1, (y.2, x.2.2))) (wire_output n p)
|}.

Section Vars.
Context `{W : Wire}.

Definition set_ip_id (x : Z) (v : ip_vars) : ip_vars :=
  IpVars _ _ x (ip_data v) (netif_list v) (netif_default v) (netif_mtu v) (reassdatagrams v) (reass_pool v)
    (next_pbufs v) (ip_reass_pbufcount v) (above v).
Definition set_ip_data (x : ip_globals) (v : ip_vars) : ip_vars :=
  IpVars _ _ (ip_id v) x (netif_list v) (netif_default v) (netif_mtu v) (reassdatagrams v) (reass_pool v)
    (next_pbufs v) (ip_reass_pbufcount v) (above v).
Definition set_reassdatagrams (x : option loc) (v : ip_vars) : ip_vars :=
  IpVars _ _ (ip_id v) (ip_data v) (netif_list v) (netif_default v) (netif_mtu v) x (reass_pool v)
    (next_pbufs v) (ip_reass_pbufcount v) (above v).
Definition set_reass_pool (x : gmap loc ip_reassdata) (v : ip_vars) : ip_vars :=
  IpVars _ _ (ip_id v) (ip_data v) (netif_list v) (netif_default v) (netif_mtu v) (reassdatagrams v) x
    (next_pbufs v) (ip_reass_pbufcount v) (above v).
Definition set_next_pbufs (x : gmap ptr (option loc)) (v : ip_vars) : ip_vars :=
  IpVars _ _ (ip_id v) (ip_data v) (netif_list v) (netif_default v) (netif_mtu v) (reassdatagrams v) (reass_pool v)
    x (ip_reass_pbufcount v) (above v).
Definition set_pbufcount (x : Z) (v : ip_vars) : ip_vars :=
  IpVars _ _ (ip_id v) (ip_data v) (netif_list v) (netif_default v) (netif_mtu v) (reassdatagrams v) (reass_pool v)
    (next_pbufs v) x (above v).
Definition set_above (x : tstate) (v : ip_vars) : ip_vars :=
  IpVars _ _ (ip_id v) (ip_data v) (netif_list v) (netif_default v) (netif_mtu v) (reassdatagrams v) (reass_pool v)
    (next_pbufs v) (ip_reass_pbufcount v) x.

Definition ipv (s : eth) : ip_vars := (elink s).2.
Definition set_ipv (v : ip_vars) (s : eth) : eth := set_elink ((elink s).1, v) s.
Definition ip_var {A} (f : ip_vars -> A) : M eth A := gets (fun s => f (ipv s)).
Definition mod_ipv (f : ip_vars -> ip_vars) : M eth unit := modify (fun s => set_ipv (f (ipv s)) s).

(** [ip4_current_src_addr], [ip4_current_dest_addr]. *)
Definition ip4_current_src_addr : M eth Z := ip_var (fun v => current_iphdr_src (ip_data v)).
Definition ip4_current_dest_addr : M eth Z := ip_var (fun v => current_iphdr_dest (ip_data v)).

(** Fields of a header in memory. *)
Definition load8 (x : option ptr) (off : Z) : M eth Z := l ← read_field x off 1; mret (nth 0 l 0).
Definition load16_at (x : option ptr) (off : Z) : M eth Z := l ← read_field x off 2; mret (load_word16 l).
Definition load32_at (x : option ptr) (off : Z) : M eth Z := l ← read_field x off 4; mret (load_word32 l).
Definition store_field (x : option ptr) (off : Z) (bs : list Z) : M eth unit := on_pbuf (write_at x off bs).

(** ** Routing *)

(** The interface reaches [dest] directly. *)
Definition route_match (dest : Z) (n : link_if) : bool :=
  netif_is_up n && netif_is_link_up n && negb (ip4_addr_isany_val (if_ip_addr n)) &&
  (ip4_addr_net_eq dest (if_ip_addr n) (if_netmask n) ||
   (Z.land (if_flags n) NETIF_FLAG_BROADCAST =? 0) && ip4_addr_eq dest (if_gw n)).

(** [NETIF_FOREACH(netif)]. *)
Fixpoint route_foreach (ifs : nat -> link_if) (dest : Z) (l : list nat) : option nat :=
  match l with
  | [] => None
  | n :: l => if route_match dest (ifs n) then Some n else route_foreach ifs dest l
  end.

Definition ip4_route (dest : Z) : M eth (option nat) :=
  ifs ← gets netifs;
  l ← ip_var netif_list;
  match route_foreach ifs dest l with
  | Some n => mret (Some n)
  | None =>
    d ← ip_var netif_default;
    match d with
    | None => mret None
    | Some d =>
      if negb (netif_is_up (ifs d)) || negb (netif_is_link_up (ifs d)) || ip4_addr_isany_val (if_ip_addr (ifs d))
         || ip4_addr_isloopback dest then mret None
      else mret (Some d)
    end
  end.
End Vars.

(** ** Output *)

Section Output.
Context `{W : Wire} `{CF : !CustomFree} `{BU : !Build}.
Context (ip4_frag : loc -> nat -> Z -> M eth Z).

(** The header in front of the payload; [src] is NULL or points to an address. *)
Definition ip4_write_header (p : loc) (src : option Z) (dest ttl tos proto : Z) : M eth unit :=
  b ← on_pbuf (getp p);
  let iphdr := payload b in
  store_field iphdr 8 [u8 ttl];;
  store_field iphdr 9 [u8 proto];;
  let chk_sum := u32 (0 + PP_NTOHS (Z.lor proto (Z.shiftl ttl 8))) in
  store_field iphdr 16 (bytes32 dest);;
  let chk_sum := u32 (chk_sum + Z.land dest 0xFFFF) in
  let chk_sum := u32 (chk_sum + Z.shiftr dest 16) in
  let v_hl := u8 (Z.lor (Z.shiftl 4 4) (IP_HLEN / 4)) in
  store_field iphdr 0 [v_hl];;
  store_field iphdr 1 [tos];;
  let chk_sum := u32 (chk_sum + PP_NTOHS (Z.lor tos (Z.shiftl v_hl 8))) in
  let len_ := lwip_htons (tot_len b) in
  store_field iphdr 2 (bytes16 len_);;
  let chk_sum := u32 (chk_sum + len_) in
  store_field iphdr 6 (bytes16 0);;
  id ← ip_var ip_id;
  let id_ := lwip_htons id in
  store_field iphdr 4 (bytes16 id_);;
  let chk_sum := u32 (chk_sum + id_) in
  mod_ipv (fun v => set_ip_id (u16 (ip_id v + 1)) v);;
  let src_ := default IPADDR_ANY src in
  store_field iphdr 12 (bytes32 src_);;
  let chk_sum := u32 (chk_sum + Z.land src_ 0xFFFF) in
  let chk_sum := u32 (chk_sum + Z.shiftr src_ 16) in
  let chk_sum := u32 (Z.shiftr chk_sum 16 + Z.land chk_sum 0xFFFF) in
  let chk_sum := u32 (Z.shiftr chk_sum 16 + chk_sum) in
  let chk_sum := u32 (Z.lnot chk_sum) in
  store_field iphdr 10 (bytes16 (u16 chk_sum)).

(** [netif->output] of an Ethernet interface. *)
Definition netif_output (netif : nat) (p : loc) (dest : Z) : M eth Z := etharp_output netif p dest.

(** [dest] is [None] for [LWIP_IP_HDRINCL]. *)
Definition ip4_output_if_src (p : loc) (src dest : option Z) (ttl tos proto : Z) (netif : nat) : M eth Z :=
  let send dest :=
    b ← on_pbuf (getp p);
    mtu ← ip_var (fun v => netif_mtu v netif);
    if negb (mtu =? 0) && (mtu <? tot_len b) then ip4_frag p netif dest
    else netif_output netif p dest in
  match dest with
  | Some dest =>
    r ← on_pbuf (pbuf_add_header (Some p) IP_HLEN);
    if negb (r =? 0) then mret ERR_BUF
    else ip4_write_header p src dest ttl tos proto;; send dest
  | None =>
    b ← on_pbuf (getp p);
    if len b <? IP_HLEN then mret ERR_BUF
    else dest ← load32_at (payload b) 16; send dest
  end.

Definition ip4_output_if (p : loc) (src dest : option Z) (ttl tos proto : Z) (netif : nat) : M eth Z :=
  n ← the_netif netif;
  let src_used :=
    match dest, src with
    | Some _, None => Some (if_ip_addr n)
    | Some _, Some a => if ip4_addr_isany_val a then Some (if_ip_addr n) else src
    | None, _ => src
    end in
  ip4_output_if_src p src_used dest ttl tos proto netif.

(** [ip4_route_src] is [ip4_route] of the destination in this configuration;
    with [LWIP_IP_HDRINCL] the code would read an address behind NULL. *)
Definition ip4_output (p : loc) (src dest : option Z) (ttl tos proto : Z) : M eth Z :=
  d ← deref NullDeref dest;
  n ← ip4_route d;
  match n with
  | None => mret ERR_RTE
  | Some n => ip4_output_if p src dest ttl tos proto n
  end.
End Output.
