(* ===== verification/Icmp.v ===== *)
(** ICMP: [src/lwip-2.2.1/src/core/ipv4/icmp.c].

    Configuration: no answers to broadcast or multicast pings, checksums
    computed and checked, and a received echo request is moved to a new pbuf
    when it has no room for the headers of the answer. *)
From S2P Require Import Prelude Memp Pbuf Chksum Ip4Addr Ethernet Etharp Ip.

(** ** prot/icmp.h, icmp.h, opt.h *)

Definition ICMP_ER : Z := 0.
Definition ICMP_DUR : Z := 3.
Definition ICMP_ECHO : Z := 8.
Definition ICMP_TE : Z := 11.
Definition ICMP_DUR_PROTO : Z := 2.
Definition ICMP_DUR_PORT : Z := 3.
Definition ICMP_TE_FRAG : Z := 1.
Definition ICMP_TTL : Z := IP_DEFAULT_TTL.
Definition ICMP_DEST_UNREACH_DATASIZE : Z := 8.
Definition SIZEOF_ICMP_HDR : Z := 8.
Definition SIZEOF_ICMP_ECHO_HDR : Z := 8.

Section Icmp.
Context `{W : Wire} `{CF : !CustomFree} `{BU : !Build}.
Context (odd_at : option ptr -> bool) (ip4_frag : loc -> nat -> Z -> M eth Z).

(** ** Messages about a packet *)

Definition icmp_send_response (p : loc) (type code : Z) : M eth unit :=
  b ← on_pbuf (getp p);
  let response_pkt_len := IP_HLEN + ICMP_DEST_UNREACH_DATASIZE in
  let response_pkt_len := if tot_len b <? response_pkt_len then tot_len b else response_pkt_len in
  q ← on_pbuf (pbuf_alloc PBUF_IP (SIZEOF_ICMP_HDR + response_pkt_len) PBUF_RAM);
  match q with
  | None => mret tt
  | Some q =>
    let iphdr := payload b in
    bq ← on_pbuf (getp q);
    let icmphdr := payload bq in
    store_field icmphdr 0 [type];;
    store_field icmphdr 1 [code];;
    store_field icmphdr 4 (bytes32 0);;
    on_pbuf (pbuf_copy_partial_pbuf (Some q) (Some p) response_pkt_len SIZEOF_ICMP_HDR);;
    iphdr_src ← load32_at iphdr 12;
    netif ← ip4_route iphdr_src;
    match netif with
    | Some netif =>
      store_field icmphdr 2 (bytes16 0);;
      bq ← on_pbuf (getp q);
      data ← read_field icmphdr 0 (len bq);
      store_field icmphdr 2 (bytes16 (inet_chksum (odd_at icmphdr) data));;
      ip4_output_if ip4_frag q None (Some iphdr_src) ICMP_TTL 0 IP_PROTO_ICMP netif;;
      mret tt
    | None => mret tt
    end;;
    on_pbuf (pbuf_free (Some q));;
    mret tt
  end.

Definition icmp_dest_unreach (p : loc) (t : Z) : M eth unit := icmp_send_response p ICMP_DUR t.
Definition icmp_time_exceeded (p : loc) (t : Z) : M eth unit := icmp_send_response p ICMP_TE t.

(** ** Input *)

(** [goto lenerr] and [goto icmperr], and the end of [icmp_input]. *)
Definition icmp_done (p : loc) : M eth unit := on_pbuf (pbuf_free (Some p));; mret tt.

(** The packet with room for the headers in front: itself, or a copy;
    [None] is [goto icmperr]. *)
Definition icmp_make_room (p : loc) (iphdr_in : option ptr) (hlen : Z) : M eth (option loc) :=
  r ← on_pbuf (pbuf_add_header (Some p) (hlen + PBUF_LINK_HLEN + PBUF_LINK_ENCAPSULATION_HLEN));
  if negb (r =? 0) then
    b ← on_pbuf (getp p);
    let alloc_len := u16 (tot_len b + hlen) in
    if alloc_len <? tot_len b then mret None
    else
      r ← on_pbuf (pbuf_alloc PBUF_LINK alloc_len PBUF_RAM);
      match r with
      | None => mret None
      | Some r =>
        br ← on_pbuf (getp r);
        if len br <? hlen + SIZEOF_ICMP_ECHO_HDR then on_pbuf (pbuf_free (Some r));; mret None
        else
          hdr ← read_field iphdr_in 0 hlen;
          store_field (payload br) 0 hdr;;
          e ← on_pbuf (pbuf_remove_header (Some r) hlen);
          if negb (e =? 0) then on_pbuf (pbuf_free (Some r));; mret None
          else
            e ← on_pbuf (pbuf_copy (Some r) (Some p));
            if negb (e =? ERR_OK) then on_pbuf (pbuf_free (Some r));; mret None
            else on_pbuf (pbuf_free (Some p));; mret (Some r)
      end
  else
    r ← on_pbuf (pbuf_remove_header (Some p) (hlen + PBUF_LINK_HLEN + PBUF_LINK_ENCAPSULATION_HLEN));
    mret (if negb (r =? 0) then None else Some p).

(** The checksum of the reply: the type has changed from ICMP_ECHO to ICMP_ER. *)
Definition icmp_adjust_chksum (chksum : Z) : Z :=
  if PP_HTONS (0xffff - Z.shiftl ICMP_ECHO 8) <? chksum then u16 (chksum + PP_HTONS (u16 (Z.shiftl ICMP_ECHO 8)) + 1)
  else u16 (chksum + PP_HTONS (Z.shiftl ICMP_ECHO 8)).

(** The answer, written over the request. *)
Definition icmp_echo_reply (p : loc) (src hlen : Z) (inp : nat) : M eth unit :=
  b ← on_pbuf (getp p);
  let iecho := payload b in
  r ← on_pbuf (pbuf_add_header (Some p) hlen);
  if negb (r =? 0) then mret tt
  else
    b ← on_pbuf (getp p);
    let iphdr := payload b in
    store_field iphdr 12 (bytes32 src);;
    to ← ip4_current_src_addr;
    store_field iphdr 16 (bytes32 to);;
    store_field iecho 0 [ICMP_ER];;
    on_pbuf (setp p (set_if_idx NETIF_NO_INDEX));;
    chksum ← load16_at iecho 2;
    store_field iecho 2 (bytes16 (icmp_adjust_chksum chksum));;
    store_field iphdr 8 [ICMP_TTL];;
    store_field iphdr 10 (bytes16 0);;
    hdr ← read_field iphdr 0 hlen;
    store_field iphdr 10 (bytes16 (inet_chksum (odd_at iphdr) hdr));;
    ip4_output_if ip4_frag p (Some src) None ICMP_TTL 0 IP_PROTO_ICMP inp;;
    mret tt.

Definition icmp_input (p : loc) (inp : nat) : M eth unit :=
  iphdr_in ← ip_var (fun v => current_ip4_header (ip_data v));
  v_hl ← load8 iphdr_in 0;
  let hlen := IPH_HL_BYTES v_hl in
  b ← on_pbuf (getp p);
  if (hlen <? IP_HLEN) || (len b <? 2 * 2) then icmp_done p
  else
    type ← load8 (payload b) 0;
    if type =? ICMP_ECHO then
      src ← ip4_current_dest_addr;
      current ← ip_var (fun v => current_netif (ip_data v));
      if ip4_addr_ismulticast src then icmp_done p
      else
        c ← deref NullDeref current;
        n ← the_netif c;
        if ip4_addr_isbroadcast src n then icmp_done p
        else if tot_len b <? SIZEOF_ICMP_ECHO_HDR then icmp_done p
        else
          ck ← on_pbuf (inet_chksum_pbuf odd_at (Some p));
          if negb (ck =? 0) then icmp_done p
          else
            p' ← icmp_make_room p iphdr_in hlen;
            match p' with
            | None => icmp_done p
            | Some p' => icmp_echo_reply p' src hlen inp;; icmp_done p'
            end
    else icmp_done p.
End Icmp.
