(* ===== verification/Reass.v ===== *)
(** Reassembly of IP fragments: [src/lwip-2.2.1/src/core/ipv4/ip4_frag.c].

    A queued fragment's header gives way to [struct ip_reass_helper]: the
    offsets [start] and [end] are in the header's bytes 4 to 7 as the code puts
    them there, the pointer [next_pbuf] is in the variable [next_pbufs].
    Configuration: overlapping fragments are refused, and the oldest datagram
    makes room for a new one. *)
From S2P Require Import Prelude Memp Pbuf Chksum Ip4Addr Ethernet Etharp Ip Icmp.

Definition IP_REASS_MAXAGE : Z := 15.
Definition IP_REASS_MAX_PBUFS : Z := 10.
Definition IP_REASS_FLAG_LASTFRAG : Z := 0x01.

(** The results of the validation. *)
Inductive reass_verdict : Type :=
| IP_REASS_VALIDATE_TELEGRAM_FINISHED
| IP_REASS_VALIDATE_PBUF_QUEUED
| IP_REASS_VALIDATE_PBUF_DROPPED.

Definition set_rd_next (x : option loc) (r : ip_reassdata) : ip_reassdata :=
  ReassData x (rd_p r) (rd_iphdr r) (rd_datagram_len r) (rd_flags r) (rd_timer r).
Definition set_rd_p (x : option loc) (r : ip_reassdata) : ip_reassdata :=
  ReassData (rd_next r) x (rd_iphdr r) (rd_datagram_len r) (rd_flags r) (rd_timer r).
Definition set_rd_iphdr (x : list Z) (r : ip_reassdata) : ip_reassdata :=
  ReassData (rd_next r) (rd_p r) x (rd_datagram_len r) (rd_flags r) (rd_timer r).
Definition set_rd_last (x : Z) (r : ip_reassdata) : ip_reassdata :=
  ReassData (rd_next r) (rd_p r) (rd_iphdr r) x (Z.lor (rd_flags r) IP_REASS_FLAG_LASTFRAG) (rd_timer r).
Definition set_rd_timer (x : Z) (r : ip_reassdata) : ip_reassdata :=
  ReassData (rd_next r) (rd_p r) (rd_iphdr r) (rd_datagram_len r) (rd_flags r) x.

(** A field of a header held as bytes: [&ipr->iphdr]. *)
Definition hdr_field (off n : nat) (hdr : list Z) : list Z := take n (drop off hdr).
Definition hdr_src (hdr : list Z) : Z := load_word32 (hdr_field 12 4 hdr).
Definition hdr_dest (hdr : list Z) : Z := load_word32 (hdr_field 16 4 hdr).
Definition hdr_id (hdr : list Z) : Z := load_word16 (hdr_field 4 2 hdr).
Definition hdr_offset (hdr : list Z) : Z := load_word16 (hdr_field 6 2 hdr).

Definition IP_ADDRESSES_AND_ID_MATCH (a b : list Z) : bool :=
  ip4_addr_eq (hdr_src a) (hdr_src b) && ip4_addr_eq (hdr_dest a) (hdr_dest b) && (hdr_id a =? hdr_id b).

Section Reass.
Context `{W : Wire} `{CF : !CustomFree} `{BU : !Build}.
Context (odd_at : option ptr -> bool) (ip4_frag : loc -> nat -> Z -> M eth Z).

(** [ipr->...]. *)
Definition get_rd (l : loc) : M eth ip_reassdata :=
  p ← ip_var reass_pool; deref BadPointer (p !! l).
Definition set_rd (l : loc) (f : ip_reassdata -> ip_reassdata) : M eth unit :=
  r ← get_rd l; mod_ipv (fun v => set_reass_pool (<[l := f r]> (reass_pool v)) v).

(** How often a loop over the datagrams can go round. *)
Definition reass_fuel : M eth nat := ip_var (fun v => S (size (reass_pool v))).
(** How often a loop over the fragments of a datagram can go round. *)
Definition frags_fuel : M eth nat := ip_var (fun v => S (size (next_pbufs v))).

(** [iprh->...] for the helper at [x]. *)
Definition iprh_next (x : option ptr) : M eth (option loc) :=
  x ← deref NullDeref x; m ← ip_var next_pbufs; deref BadPointer (m !! x).
Definition set_iprh_next (x : option ptr) (n : option loc) : M eth unit :=
  x ← deref NullDeref x; mod_ipv (fun v => set_next_pbufs (<[x := n]> (next_pbufs v)) v).
Definition iprh_start (x : option ptr) : M eth Z := load16_at x 4.
Definition iprh_end (x : option ptr) : M eth Z := load16_at x 6.

(** [(struct ip_reass_helper * )q->payload]. *)
Definition iprh_of (q : loc) : M eth (option ptr) := b ← on_pbuf (getp q); mret (payload b).

(** ** Datagrams *)

Definition ip_reass_dequeue_datagram (ipr : loc) (prev : option loc) : M eth unit :=
  r ← get_rd ipr;
  h ← ip_var reassdatagrams;
  (if bool_decide (h = Some ipr) then mod_ipv (set_reassdatagrams (rd_next r))
   else prev ← deref NullDeref prev; set_rd prev (set_rd_next (rd_next r)));;
  on_pbuf (memp_free_at MEMP_REASSDATA ipr);;
  mod_ipv (fun v => set_reass_pool (delete ipr (reass_pool v)) v).

(** [while (p != NULL)] over the queued fragments. *)
Definition free_fragments_body (x : option loc * Z) : M eth ((option loc * Z) + Z) :=
  let '(p, pbufs_freed) := x in
  match p with
  | None => mret (inr pbufs_freed)
  | Some pcur =>
    iprh ← iprh_of pcur;
    p ← iprh_next iprh;
    clen ← on_pbuf (pbuf_clen (Some pcur));
    on_pbuf (pbuf_free (Some pcur));;
    mret (inl (p, u16 (pbufs_freed + clen)))
  end.

Definition ip_reass_free_complete_datagram (ipr : loc) (prev : option loc) : M eth Z :=
  r ← get_rd ipr;
  p ← deref NullDeref (rd_p r);
  iprh ← iprh_of p;
  start ← iprh_start iprh;
  pbufs_freed ← (if start =? 0 then
      n ← iprh_next iprh;
      set_rd ipr (set_rd_p n);;
      r ← get_rd ipr;
      store_field iprh 0 (rd_iphdr r);;
      icmp_time_exceeded odd_at ip4_frag p ICMP_TE_FRAG;;
      clen ← on_pbuf (pbuf_clen (Some p));
      on_pbuf (pbuf_free (Some p));;
      mret (u16 (0 + clen))
    else mret 0);
  r ← get_rd ipr;
  fuel ← frags_fuel;
  pbufs_freed ← iter fuel free_fragments_body (rd_p r, pbufs_freed);
  ip_reass_dequeue_datagram ipr prev;;
  mod_ipv (fun v => set_pbufcount (u16 (ip_reass_pbufcount v - pbufs_freed)) v);;
  mret pbufs_freed.

(** [while (r != NULL)] of the timer. *)
Definition reass_tmr_body (x : option loc * option loc) : M eth ((option loc * option loc) + unit) :=
  let '(r, prev) := x in
  match r with
  | None => mret (inr tt)
  | Some l =>
    d ← get_rd l;
    if 0 <? rd_timer d then
      set_rd l (set_rd_timer (u8 (rd_timer d - 1)));;
      mret (inl (rd_next d, Some l))
    else
      ip_reass_free_complete_datagram l prev;;
      mret (inl (rd_next d, prev))
  end.

Definition ip_reass_tmr : M eth unit :=
  h ← ip_var reassdatagrams;
  fuel ← reass_fuel;
  iter fuel reass_tmr_body (h, None).

(** The scan for the oldest: [r], [oldest], [prev], [oldest_prev] and
    [other_datagrams]. *)
Definition find_oldest_body (fraghdr : list Z) (x : option loc * option loc * option loc * option loc * Z) :
    M eth ((option loc * option loc * option loc * option loc * Z) + (option loc * option loc * Z)) :=
  let '(r, oldest, prev, oldest_prev, other_datagrams) := x in
  match r with
  | None => mret (inr (oldest, oldest_prev, other_datagrams))
  | Some l =>
    d ← get_rd l;
    '(oldest, oldest_prev, other_datagrams) ←
      (if negb (IP_ADDRESSES_AND_ID_MATCH (rd_iphdr d) fraghdr) then
         match oldest with
         | None => mret (Some l, prev, other_datagrams + 1)
         | Some o =>
           od ← get_rd o;
           mret (if rd_timer d <=? rd_timer od then (Some l, prev, other_datagrams + 1)
                 else (oldest, oldest_prev, other_datagrams + 1))
         end
       else mret (oldest, oldest_prev, other_datagrams));
    let prev := match rd_next d with Some _ => Some l | None => prev end in
    mret (inl (rd_next d, oldest, prev, oldest_prev, other_datagrams))
  end.

(** One round of the [do] loop. *)
Definition remove_oldest_body (fraghdr : list Z) (pbufs_needed pbufs_freed : Z) : M eth (Z + Z) :=
  h ← ip_var reassdatagrams;
  fuel ← reass_fuel;
  '(oldest, oldest_prev, other_datagrams) ← iter fuel (find_oldest_body fraghdr) (h, None, None, None, 0);
  pbufs_freed ← match oldest with
    | Some o => k ← ip_reass_free_complete_datagram o oldest_prev; mret (pbufs_freed + k)
    | None => mret pbufs_freed
    end;
  mret (if (pbufs_freed <? pbufs_needed) && (1 <? other_datagrams) then inl pbufs_freed else inr pbufs_freed).

Definition ip_reass_remove_oldest_datagram (fraghdr : list Z) (pbufs_needed : Z) : M eth Z :=
  fuel ← reass_fuel;
  iter fuel (remove_oldest_body fraghdr pbufs_needed) 0.

Definition ip_reass_enqueue_new_datagram (fraghdr : list Z) (clen : Z) : M eth (option loc) :=
  ipr ← on_pbuf (memp_malloc_at MEMP_REASSDATA);
  ipr ← match ipr with
    | Some l => mret (Some l)
    | None =>
      k ← ip_reass_remove_oldest_datagram fraghdr clen;
      if clen <=? k then on_pbuf (memp_malloc_at MEMP_REASSDATA) else mret None
    end;
  match ipr with
  | None => mret None
  | Some l =>
    h ← ip_var reassdatagrams;
    mod_ipv (fun v => set_reass_pool (<[l := ReassData h None (take (Z.to_nat IP_HLEN) fraghdr) 0 0 IP_REASS_MAXAGE]> (reass_pool v)) v);;
    mod_ipv (set_reassdatagrams (Some l));;
    mret (Some l)
  end.

(** ** Fragments *)

(** The search for the place of a new fragment: [None] is the return with
    IP_REASS_VALIDATE_PBUF_DROPPED; else [q], [iprh_prev] and [valid]. *)
Definition place_body (ipr new_p : loc) (iprh : option ptr) (x : option loc * option (option ptr) * bool) :
    M eth ((option loc * option (option ptr) * bool) + option (option loc * option (option ptr) * bool)) :=
  let '(q, iprh_prev, valid) := x in
  match q with
  | None => mret (inr (Some (q, iprh_prev, valid)))
  | Some ql =>
    iprh_tmp ← iprh_of ql;
    start ← iprh_start iprh;
    end_ ← iprh_end iprh;
    tmp_start ← iprh_start iprh_tmp;
    tmp_end ← iprh_end iprh_tmp;
    if start <? tmp_start then
      set_iprh_next iprh q;;
      match iprh_prev with
      | Some prev =>
        prev_end ← iprh_end prev;
        if (start <? prev_end) || (tmp_start <? end_) then mret (inr None)
        else
          set_iprh_next prev (Some new_p);;
          mret (inr (Some (q, iprh_prev, valid && (prev_end =? start))))
      | None =>
        if tmp_start <? end_ then mret (inr None)
        else
          set_rd ipr (set_rd_p (Some new_p));;
          mret (inr (Some (q, iprh_prev, valid)))
      end
    else if start =? tmp_start then mret (inr None)
    else if start <? tmp_end then mret (inr None)
    else
      valid ← match iprh_prev with
        | Some prev => prev_end ← iprh_end prev; mret (valid && (prev_end =? tmp_start))
        | None => mret valid
        end;
      q ← iprh_next iprh_tmp;
      mret (inl (q, Some iprh_tmp, valid))
  end.

(** [while (q != NULL)]: no holes behind the new fragment. *)
Definition no_holes_body (x : option loc * option ptr) : M eth ((option loc * option ptr) + bool) :=
  let '(q, iprh_prev) := x in
  match q with
  | None => mret (inr true)
  | Some q =>
    iprh ← iprh_of q;
    prev_end ← iprh_end iprh_prev;
    start ← iprh_start iprh;
    if negb (prev_end =? start) then mret (inr false)
    else q ← iprh_next iprh; mret (inl (q, iprh))
  end.

(** The validation, once the fragment is in its place. *)
Definition reass_validate (ipr : loc) (iprh : option ptr) (valid is_last : bool) : M eth reass_verdict :=
  r ← get_rd ipr;
  if is_last || has (rd_flags r) IP_REASS_FLAG_LASTFRAG then
    valid ← (if valid then
        match rd_p r with
        | None => mret false
        | Some p =>
          first ← iprh_of p;
          start ← iprh_start first;
          if negb (start =? 0) then mret false
          else q ← iprh_next iprh; fuel ← frags_fuel; iter fuel no_holes_body (q, iprh)
        end
      else mret false);
    mret (if (valid : bool) then IP_REASS_VALIDATE_TELEGRAM_FINISHED else IP_REASS_VALIDATE_PBUF_QUEUED)
  else mret IP_REASS_VALIDATE_PBUF_QUEUED.

Definition ip_reass_chain_frag_into_datagram_and_validate (ipr new_p : loc) (is_last : bool) : M eth reass_verdict :=
  fraghdr ← iprh_of new_p;
  len_ ← load16_at fraghdr 2;
  v_hl ← load8 fraghdr 0;
  let len := lwip_ntohs len_ in
  let hlen := IPH_HL_BYTES v_hl in
  if len <? hlen then mret IP_REASS_VALIDATE_PBUF_DROPPED
  else
    let len := u16 (len - hlen) in
    offset_ ← load16_at fraghdr 6;
    let offset := IPH_OFFSET_BYTES offset_ in
    let iprh := fraghdr in
    set_iprh_next iprh None;;
    store_field iprh 4 (bytes16 offset);;
    store_field iprh 6 (bytes16 (u16 (offset + len)));;
    if u16 (offset + len) <? offset then mret IP_REASS_VALIDATE_PBUF_DROPPED
    else
      r ← get_rd ipr;
      fuel ← frags_fuel;
      place ← iter fuel (place_body ipr new_p iprh) (rd_p r, None, true);
      match place with
      | None => mret IP_REASS_VALIDATE_PBUF_DROPPED
      | Some (q, iprh_prev, valid) =>
        valid ← match q, iprh_prev with
          | Some _, _ => mret valid
          | None, Some prev =>
            set_iprh_next prev (Some new_p);;
            prev_end ← iprh_end prev;
            start ← iprh_start iprh;
            mret (valid && (prev_end =? start))
          | None, None => set_rd ipr (set_rd_p (Some new_p));; mret valid
          end;
        reass_validate ipr iprh valid is_last
      end.

(** [while (r != NULL)]: the pbufs of the fragments chained together. *)
Definition chain_pbufs_body (p : loc) (r : option loc) : M eth (option loc + unit) :=
  match r with
  | None => mret (inr tt)
  | Some r =>
    iprh ← iprh_of r;
    on_pbuf (pbuf_remove_header (Some r) IP_HLEN);;
    on_pbuf (pbuf_cat (Some p) (Some r));;
    r ← iprh_next iprh;
    mret (inl r)
  end.

(** [for (ipr = reassdatagrams; ipr != NULL; ipr = ipr->next)], and the search
    for the one before. *)
Definition find_datagram_body (fraghdr : list Z) (ipr : option loc) : M eth (option loc + option loc) :=
  match ipr with
  | None => mret (inr None)
  | Some l => r ← get_rd l; mret (if IP_ADDRESSES_AND_ID_MATCH (rd_iphdr r) fraghdr then inr (Some l) else inl (rd_next r))
  end.

Definition find_prev_body (ipr : loc) (prev : option loc) : M eth (option loc + option loc) :=
  match prev with
  | None => mret (inr None)
  | Some l => r ← get_rd l; mret (if bool_decide (rd_next r = Some ipr) then inr (Some l) else inl (rd_next r))
  end.

(** The datagram is complete: its header in front of the joined fragments. *)
Definition reass_finish (ipr : loc) : M eth loc :=
  r ← get_rd ipr;
  let datagram_len := u16 (rd_datagram_len r + IP_HLEN) in
  p ← deref NullDeref (rd_p r);
  fraghdr ← iprh_of p;
  q ← iprh_next fraghdr;
  store_field fraghdr 0 (rd_iphdr r);;
  store_field fraghdr 2 (bytes16 (lwip_htons datagram_len));;
  store_field fraghdr 6 (bytes16 0);;
  store_field fraghdr 10 (bytes16 0);;
  hdr ← read_field fraghdr 0 IP_HLEN;
  store_field fraghdr 10 (bytes16 (inet_chksum (odd_at fraghdr) hdr));;
  fuel ← frags_fuel;
  iter fuel (chain_pbufs_body p) q;;
  h ← ip_var reassdatagrams;
  ipr_prev ← (if bool_decide (h = Some ipr) then mret None
              else fuel ← reass_fuel; iter fuel (find_prev_body ipr) h);
  ip_reass_dequeue_datagram ipr ipr_prev;;
  clen ← on_pbuf (pbuf_clen (Some p));
  mod_ipv (fun v => set_pbufcount (u16 (ip_reass_pbufcount v - clen)) v);;
  mret p.

(** [nullreturn]. *)
Definition nullreturn (p : loc) : M eth (option loc) := on_pbuf (pbuf_free (Some p));; mret None.

(** [nullreturn_ipr]. *)
Definition nullreturn_ipr (ipr p : loc) : M eth (option loc) :=
  r ← get_rd ipr;
  match rd_p r with
  | None => ip_reass_dequeue_datagram ipr None
  | Some _ => mret tt
  end;;
  nullreturn p.

(** The fragment in the datagram [ipr]. *)
Definition reass_add (ipr p : loc) (offset_ offset len clen : Z) : M eth (option loc) :=
  let is_last := Z.land offset_ (PP_NTOHS IP_MF) =? 0 in
  let datagram_len := u16 (offset + len) in
  if is_last && ((datagram_len <? offset) || (0xFFFF - IP_HLEN <? datagram_len)) then nullreturn_ipr ipr p
  else
    valid ← ip_reass_chain_frag_into_datagram_and_validate ipr p is_last;
    match valid with
    | IP_REASS_VALIDATE_PBUF_DROPPED => nullreturn_ipr ipr p
    | _ =>
      mod_ipv (fun v => set_pbufcount (u16 (ip_reass_pbufcount v + clen)) v);;
      when is_last (set_rd ipr (set_rd_last datagram_len));;
      match valid with
      | IP_REASS_VALIDATE_TELEGRAM_FINISHED => p ← reass_finish ipr; mret (Some p)
      | _ => mret None
      end
    end.

Definition ip4_reass (p : loc) : M eth (option loc) :=
  fraghdr ← iprh_of p;
  v_hl ← load8 fraghdr 0;
  if negb (IPH_HL_BYTES v_hl =? IP_HLEN) then nullreturn p
  else
    offset_ ← load16_at fraghdr 6;
    let offset := IPH_OFFSET_BYTES offset_ in
    len_ ← load16_at fraghdr 2;
    let len := lwip_ntohs len_ in
    let hlen := IPH_HL_BYTES v_hl in
    if len <? hlen then nullreturn p
    else
      let len := u16 (len - hlen) in
      clen ← on_pbuf (pbuf_clen (Some p));
      hdr ← read_field fraghdr 0 IP_HLEN;
      count ← ip_var ip_reass_pbufcount;
      full ← (if IP_REASS_MAX_PBUFS <? count + clen then
                k ← ip_reass_remove_oldest_datagram hdr clen;
                if k =? 0 then mret true
                else count ← ip_var ip_reass_pbufcount; mret (IP_REASS_MAX_PBUFS <? count + clen)
              else mret false);
      if (full : bool) then nullreturn p
      else
        h ← ip_var reassdatagrams;
        fuel ← reass_fuel;
        ipr ← iter fuel (find_datagram_body hdr) h;
        match ipr with
        | None =>
          ipr ← ip_reass_enqueue_new_datagram hdr clen;
          match ipr with
          | None => nullreturn p
          | Some ipr => reass_add ipr p offset_ offset len clen
          end
        | Some ipr =>
          r ← get_rd ipr;
          when ((Z.land (lwip_ntohs (hdr_offset hdr)) IP_OFFMASK =? 0)
                && negb (Z.land (lwip_ntohs (hdr_offset (rd_iphdr r))) IP_OFFMASK =? 0))
            (set_rd ipr (set_rd_iphdr hdr));;
          reass_add ipr p offset_ offset len clen
        end.
End Reass.
