(* ===== verification/IpInput.v ===== *)
(** IP input: [ip4_input] of [src/lwip-2.2.1/src/core/ipv4/ip4.c].

    [udp_input] and [tcp_input] are arguments.  Configuration: DHCP is in, so
    that packets to its client port pass whatever their address; no IGMP, no
    raw sockets. *)
From S2P Require Import Prelude Memp Pbuf Chksum Ip4Addr Ethernet Etharp Ip Icmp Reass.

(** prot/iana.h, and the offset of [dest] in [struct udp_hdr]. *)
Definition LWIP_IANA_PORT_DHCP_CLIENT : Z := 68.
Definition IP_ACCEPT_LINK_LAYER_ADDRESSED_PORT (port : Z) : bool := port =? PP_NTOHS LWIP_IANA_PORT_DHCP_CLIENT.

(** [dest] is the current destination address. *)
Definition ip4_input_accept (dest : Z) (n : link_if) : bool :=
  netif_is_up n && negb (ip4_addr_isany_val (if_ip_addr n)) &&
  (ip4_addr_eq dest (if_ip_addr n) || ip4_addr_isbroadcast dest n).

(** [NETIF_FOREACH(netif)] without [inp]. *)
Fixpoint accept_foreach (ifs : nat -> link_if) (dest : Z) (inp : nat) (l : list nat) : option nat :=
  match l with
  | [] => None
  | n :: l =>
    if bool_decide (n = inp) then accept_foreach ifs dest inp l
    else if ip4_input_accept dest (ifs n) then Some n else accept_foreach ifs dest inp l
  end.

(** The interface a packet is for. *)
Definition match_netif (ifs : nat -> link_if) (dest : Z) (inp : nat) (l : list nat) : option nat :=
  if ip4_addr_ismulticast dest then
    if netif_is_up (ifs inp) && negb (ip4_addr_isany_val (if_ip_addr (ifs inp))) then Some inp else None
  else if ip4_input_accept dest (ifs inp) then Some inp
  else if ip4_addr_isloopback dest then None
  else accept_foreach ifs dest inp l.

Definition no_ip_data : ip_globals := IpGlobals None None None 0 IPADDR_ANY IPADDR_ANY.

Section Input.
Context `{W : Wire} `{CF : !CustomFree} `{BU : !Build}.
Context (odd_at : option ptr -> bool) (ip4_frag : loc -> nat -> Z -> M eth Z).
Context (udp_input tcp_input : loc -> nat -> M eth unit).

(** [pbuf_free(p); return ERR_OK;] *)
Definition ip4_drop (p : loc) : M eth unit := on_pbuf (pbuf_free (Some p));; mret tt.

(** [switch (IPH_PROTO(iphdr))]. *)
Definition ip4_deliver (p : loc) (proto iphdr_hlen : Z) (netif inp : nat) : M eth unit :=
  if proto =? IP_PROTO_UDP then udp_input p inp
  else if proto =? IP_PROTO_TCP then tcp_input p inp
  else if proto =? IP_PROTO_ICMP then icmp_input odd_at ip4_frag p inp
  else
    dest ← ip4_current_dest_addr;
    n ← the_netif netif;
    when (negb (ip4_addr_isbroadcast dest n) && negb (ip4_addr_ismulticast dest))
      (on_pbuf (pbuf_header_force (Some p) (s16 iphdr_hlen));;
       icmp_dest_unreach odd_at ip4_frag p ICMP_DUR_PROTO);;
    ip4_drop p.

(** From [send to upper layers] on. *)
Definition ip4_upper (p : loc) (iphdr_hlen : Z) (netif inp : nat) : M eth unit :=
  b ← on_pbuf (getp p);
  let iphdr := payload b in
  v_hl ← load8 iphdr 0;
  mod_ipv (fun v => set_ip_data (IpGlobals (Some netif) (Some inp) iphdr (IPH_HL_BYTES v_hl)
    (current_iphdr_src (ip_data v)) (current_iphdr_dest (ip_data v))) v);;
  on_pbuf (pbuf_remove_header (Some p) iphdr_hlen);;
  proto ← load8 iphdr 9;
  ip4_deliver p proto iphdr_hlen netif inp;;
  mod_ipv (set_ip_data no_ip_data).

(** From the match of the destination on; [iphdr] is the header. *)
Definition ip4_accept (p : loc) (iphdr : option ptr) (iphdr_hlen : Z) (inp : nat) : M eth unit :=
  dest ← ip4_current_dest_addr;
  src ← ip4_current_src_addr;
  ifs ← gets netifs;
  l ← ip_var netif_list;
  '(netif, check_ip_src) ← match match_netif ifs dest inp l with
    | Some n => mret (Some n, true)
    | None =>
      proto ← load8 iphdr 9;
      if proto =? IP_PROTO_UDP then
        port ← load16_at iphdr (iphdr_hlen + 2);
        mret (if IP_ACCEPT_LINK_LAYER_ADDRESSED_PORT port then (Some inp, false) else (None, true))
      else mret (None, true)
    end;
  if (check_ip_src : bool) && negb (ip4_addr_isany_val src)
     && (ip4_addr_isbroadcast src (ifs inp) || ip4_addr_ismulticast src) then ip4_drop p
  else
    match netif with
    | None => ip4_drop p
    | Some netif =>
      offset ← load16_at iphdr 6;
      if negb (Z.land offset (PP_HTONS (Z.lor IP_OFFMASK IP_MF)) =? 0) then
        p ← ip4_reass odd_at ip4_frag p;
        match p with
        | None => mret tt
        | Some p => ip4_upper p iphdr_hlen netif inp
        end
      else ip4_upper p iphdr_hlen netif inp
    end.

Definition ip4_input (p : loc) (inp : nat) : M eth unit :=
  b ← on_pbuf (getp p);
  let iphdr := payload b in
  v_hl ← load8 iphdr 0;
  if negb (IPH_V v_hl =? 4) then ip4_drop p
  else
    let iphdr_hlen := IPH_HL_BYTES v_hl in
    len_ ← load16_at iphdr 2;
    let iphdr_len := lwip_ntohs len_ in
    when (iphdr_len <? tot_len b) (on_pbuf (pbuf_realloc p iphdr_len));;
    b ← on_pbuf (getp p);
    if (len b <? iphdr_hlen) || (tot_len b <? iphdr_len) || (iphdr_hlen <? IP_HLEN) then ip4_drop p
    else
      hdr ← read_field iphdr 0 iphdr_hlen;
      if negb (inet_chksum (odd_at iphdr) hdr =? 0) then ip4_drop p
      else
        dest ← load32_at iphdr 16;
        src ← load32_at iphdr 12;
        mod_ipv (fun v => let d := ip_data v in set_ip_data (IpGlobals (current_netif d) (current_input_netif d)
          (current_ip4_header d) (current_ip_header_tot_len d) src dest) v);;
        ip4_accept p iphdr iphdr_hlen inp.
End Input.
