(* ===== verification/Frag.v ===== *)
(** The fragmentation of packets that are too long for an interface:
    [ip4_frag] of [src/lwip-2.2.1/src/core/ipv4/ip4_frag.c].

    Configuration: [LWIP_NETIF_TX_SINGLE_PBUF] is off, so a fragment is a pbuf
    from the heap with the header and behind it pbufs that refer to the bytes
    of the packet, one for each pbuf of the packet that the fragment has bytes
    of. *)
From S2P Require Import Prelude Memp Pbuf Chksum Ip4Addr Ethernet Etharp Ip.

(** ** The pbufs that refer to the packet *)

Section Custom.
Context `{HeapOps}.

Definition ip_frag_alloc_pbuf_custom_ref : M mem (option loc) := memp_malloc_at MEMP_FRAG_PBUF.
Definition ip_frag_free_pbuf_custom_ref (p : loc) : M mem unit := memp_free_at MEMP_FRAG_PBUF p.

(** [free] is [pbuf_free]. *)
Definition ipfrag_free_pbuf_custom (free : option loc -> M mem Z) (p : loc) : M mem unit :=
  o ← gets (fun m => originals m !! p);
  original ← deref BadPointer o;
  match original with
  | Some q => free (Some q);; mret tt
  | None => mret tt
  end;;
  ip_frag_free_pbuf_custom_ref p.

(** [custom_free_function] of every custom pbuf of this program. It calls
    [pbuf_free], which calls it; [depth] bounds how deep. *)
Fixpoint frag_custom_free (depth : nat) : CustomFree :=
  fun p => match depth with
  | O => halt OutOfFuel
  | S depth => ipfrag_free_pbuf_custom (@pbuf_free _ (frag_custom_free depth)) p
  end.
End Custom.

(** ** Fragmentation *)

Section Frag.
Context `{W : Wire} `{CF : !CustomFree} `{BU : !Build}.
Context (odd_at : option ptr -> bool).

(** [while (left_to_copy)]: [p], [poff], [left_to_copy] and [newpbuflen]. The
    result is [p], [poff] and [newpbuflen], or [None] for [goto memerr]. *)
Definition frag_copy_body (rambuf : loc) (x : option loc * Z * Z * Z) :
    M mem ((option loc * Z * Z * Z) + option (option loc * Z * Z)) :=
  let '(p, poff, left_to_copy, newpbuflen) := x in
  if left_to_copy =? 0 then mret (inr (Some (p, poff, newpbuflen)))
  else
    q ← deref NullDeref p;
    b ← getp q;
    let plen := u16 (len b - poff) in
    let newpbuflen := Z.min left_to_copy plen in
    if newpbuflen =? 0 then mret (inl (next b, 0, left_to_copy, newpbuflen))
    else
      pcr ← ip_frag_alloc_pbuf_custom_ref;
      match pcr with
      | None => pbuf_free (Some rambuf);; mret (inr None)
      | Some pcr =>
        newpbuf ← pbuf_alloced_custom PBUF_RAW newpbuflen PBUF_REF pcr
                    ((fun a : ptr => (a.1, a.2 + poff)) <$> payload b) newpbuflen;
        match newpbuf with
        | None => ip_frag_free_pbuf_custom_ref pcr;; pbuf_free (Some rambuf);; mret (inr None)
        | Some newpbuf =>
          pbuf_ref p;;
          modify (fun m => set_originals (<[pcr := p]> (originals m)) m);;
          pbuf_cat (Some rambuf) (Some newpbuf);;
          let left_to_copy := u16 (left_to_copy - newpbuflen) in
          if left_to_copy =? 0 then mret (inl (p, poff, left_to_copy, newpbuflen))
          else b ← getp q; mret (inl (next b, 0, left_to_copy, newpbuflen))
        end
      end.

(** How often the loop can go round: once for each pbuf of the packet, and
    once more to end. *)
Definition frag_copy (rambuf : loc) (p : option loc) (poff fragsize newpbuflen : Z) : M mem (option (option loc * Z * Z)) :=
  fuel ← chain_fuel;
  iter (S fuel) (frag_copy_body rambuf) (p, poff, fragsize, newpbuflen).

(** The header of the packet is copied in; the result is its address. *)
Definition frag_begin (rambuf : loc) (original_iphdr : option ptr) : M eth (option ptr) :=
  r ← on_pbuf (getp rambuf);
  let iphdr := payload r in
  hdr ← read_field original_iphdr 0 IP_HLEN;
  store_field iphdr 0 hdr;;
  mret iphdr.

(** The header of the fragment; [iphdr] is its address. *)
Definition frag_fill_header (iphdr : option ptr) (tmp fragsize : Z) : M eth unit :=
  store_field iphdr 6 (bytes16 (lwip_htons tmp));;
  store_field iphdr 2 (bytes16 (lwip_htons (u16 (fragsize + IP_HLEN))));;
  store_field iphdr 10 (bytes16 0);;
  hdr ← read_field iphdr 0 IP_HLEN;
  store_field iphdr 10 (bytes16 (inet_chksum (odd_at iphdr) hdr)).

(** [while (left)]: [p], [poff], [left], [ofo] and [newpbuflen]. *)
Definition frag_body (netif : nat) (dest : Z) (original_iphdr : option ptr) (nfb : Z) (mf_set : bool)
    (x : option loc * Z * Z * Z * Z) : M eth ((option loc * Z * Z * Z * Z) + Z) :=
  let '(p, poff, left_, ofo, newpbuflen) := x in
  if left_ =? 0 then mret (inr ERR_OK)
  else
    let fragsize := Z.min left_ (u16 (nfb * 8)) in
    rambuf ← on_pbuf (pbuf_alloc PBUF_LINK IP_HLEN PBUF_RAM);
    match rambuf with
    | None => mret (inr ERR_MEM)
    | Some rambuf =>
      iphdr ← frag_begin rambuf original_iphdr;
      copied ← on_pbuf (frag_copy rambuf p poff fragsize newpbuflen);
      match copied with
      | None => mret (inr ERR_MEM)
      | Some (p, poff, newpbuflen) =>
        let poff := u16 (poff + newpbuflen) in
        mtu ← ip_var (fun v => netif_mtu v netif);
        let last := left_ <=? mtu - IP_HLEN in
        let tmp := Z.land IP_OFFMASK ofo in
        let tmp := if negb last || mf_set then Z.lor tmp IP_MF else tmp in
        frag_fill_header iphdr tmp fragsize;;
        netif_output netif rambuf dest;;
        on_pbuf (pbuf_free (Some rambuf));;
        mret (inl (p, poff, u16 (left_ - fragsize), u16 (ofo + nfb), newpbuflen))
      end
    end.

(** The loop goes round once for every fragment, and [left] gets smaller; with
    an interface that takes no data (an mtu below 28) it would not. *)
Definition ip4_frag (p : loc) (netif : nat) (dest : Z) : M eth Z :=
  mtu ← ip_var (fun v => netif_mtu v netif);
  let nfb := u16 (Z.quot (mtu - IP_HLEN) 8) in
  b ← on_pbuf (getp p);
  let original_iphdr := payload b in
  v_hl ← load8 original_iphdr 0;
  if negb (IPH_HL_BYTES v_hl =? IP_HLEN) then mret ERR_VAL
  else if len b <? IP_HLEN then mret ERR_VAL
  else
    offset ← load16_at original_iphdr 6;
    let tmp := lwip_ntohs offset in
    let ofo := Z.land tmp IP_OFFMASK in
    let mf_set := has tmp IP_MF in
    let left_ := u16 (tot_len b - IP_HLEN) in
    iter (S (Z.to_nat left_)) (frag_body netif dest original_iphdr nfb mf_set) (Some p, IP_HLEN, left_, ofo, 0).
End Frag.
