(* ===== verification/FragCopy.v ===== *)
(** Fragmentation: the pbufs of a fragment, as they are made and released. *)
From stdpp Require Import functions.
From S2P Require Import Prelude Memp Pbuf PbufFacts PbufUpdate PbufAlloc PbufChain PbufRam Chksum Ip4Addr Ethernet Etharp Ip Frag.

(** Three steps as one. *)
Lemma wp_then3 {S A B C D} (x : M S A) (y : M S B) (z : M S C) (k : M S D) Q s : wp (x;; y;; z) (fun _ s' => wp k Q s') s -> wp (x;; y;; z;; k) Q s.
Proof.
  unfold wp, mbind, M_bind. destruct (x s) as [? s1|]; [|done]. destruct (y s1) as [? s2|]; [|done]. by destruct (z s2).
Qed.

(** ** References to the packet *)

Definition extra_ref (b : pbuf) : pbuf := set_ref (ref b + 1) b.

(** The custom pbuf [n] refers to bytes of [s]. *)
Record refers (os : gmap loc (option loc)) (s n : node) : Prop := {
  rf_slot : n_loc n = Pool MEMP_FRAG_PBUF (pool_index (n_loc n));
  rf_custom : has (flags (n_buf n)) PBUF_FLAG_IS_CUSTOM = true;
  rf_ref : ref (n_buf n) = 1;
  rf_original : os !! n_loc n = Some (Some (n_loc s))
}.

(** The structures [P] are [P0], with one more reference to each of the pbufs
    [srcs], and with the pbufs [c], which are not in [P0]. *)
Record mounted (P0 : gmap loc pbuf) (srcs c : list node) (P : gmap loc pbuf) : Prop := {
  mo_rest : forall l, l ∉ map n_loc c -> l ∉ map n_loc srcs -> P !! l = P0 !! l;
  mo_srcs : Forall (fun s => P0 !! n_loc s = Some (n_buf s) /\ P !! n_loc s = Some (extra_ref (n_buf s)) /\ 1 <= ref (n_buf s) < 255) srcs;
  mo_fresh : Forall (fun n => P0 !! n_loc n = None) c;
  mo_locs : NoDup (map n_loc srcs)
}.

Section Free.
Context `{HeapOps} (depth : nat).
#[local] Instance free_refs : CustomFree := frag_custom_free (S depth).

Lemma mounted_apart P0 srcs c P s n : mounted P0 srcs c P -> s ∈ srcs -> n ∈ c -> n_loc s <> n_loc n.
Proof.
  intros [_ Hs Hf _] Is In E. rewrite Forall_forall in Hs, Hf. destruct (Hs s Is) as [E0 _]. specialize (Hf n In). congruence.
Qed.

(** One custom pbuf goes: its packet loses the reference. *)
Lemma wp_free_ref l i b s bs k (Q : (option loc * Z) + Z -> mem -> Prop) m :
  l = Pool MEMP_FRAG_PBUF i -> pbufs m !! l = Some b -> has (flags b) PBUF_FLAG_IS_CUSTOM = true -> ref b = 1 ->
  originals m !! l = Some (Some s) -> s <> l -> pbufs m !! s = Some bs -> 1 < ref bs < 256 ->
  Q (inl (next b, u8 (k + 1))) (set_pbufs (delete l (<[s := set_ref (ref bs - 1) bs]> (<[l := set_ref 0 b]> (pbufs m))))
    (set_mpools (<[MEMP_FRAG_PBUF := i :: mpools m MEMP_FRAG_PBUF]> (mpools m)) m)) ->
  wp (pbuf_free_body (Some l, k)) Q m.
Proof.
  intros El Hl Hc Hr Ho Hne Hs Hrs HQ. simpl. apply wp_bind, (wp_getp _ b); [done|]. apply wp_bind, (wp_setp _ _ b); [done|].
  rewrite Hr. change (u8 (1 - 1)) with 0. cbn [Z.eqb]. apply wp_bind. unfold pbuf_dealloc. rewrite Hc. apply wp_bind.
  unfold custom_free_function, free_refs. cbn [frag_custom_free]. unfold ipfrag_free_pbuf_custom.
  apply wp_bind, wp_gets. cbn [originals set_pbufs]. rewrite Ho. apply wp_bind, wp_ret, wp_bind, wp_bind.
  apply (wp_pbuf_free_shared s bs); [cbn [pbufs set_pbufs]; by rewrite lookup_insert_ne|done|].
  apply wp_ret. unfold ip_frag_free_pbuf_custom_ref, memp_free_at. rewrite El, decide_True by done.
  unfold pools_m, zoom, memp_free. apply wp_modify. rewrite <- El. apply wp_ret. exact HQ.
Qed.

(** The memory [m'] is [m] with the structures [P] and with the elements [sl]
    back in their pool. *)
Record returned (P : gmap loc pbuf) (sl : list nat) (m m' : mem) : Prop := {
  rt_pbufs : pbufs m' = P;
  rt_bytes : bytes m' = bytes m;
  rt_heap : heap m' = heap m;
  rt_pending : pbuf_free_ooseq_pending m' = pbuf_free_ooseq_pending m;
  rt_pools : forall t, t <> MEMP_FRAG_PBUF -> mpools m' t = mpools m t;
  rt_frags : mpools m' MEMP_FRAG_PBUF = sl ++ mpools m MEMP_FRAG_PBUF
}.

Definition slots (c : list node) : list nat := map (fun n => pool_index (n_loc n)) c.

(** The structures after [n], which refers to [s], is gone. *)
Definition unref (P : gmap loc pbuf) (s n : node) : gmap loc pbuf :=
  delete (n_loc n) (<[n_loc s := n_buf s]> (<[n_loc n := set_ref 0 (n_buf n)]> P)).

Lemma mounted_unref P0 s srcs n c P : mounted P0 (s :: srcs) (n :: c) P -> NoDup (map n_loc (n :: c)) -> mounted P0 srcs c (unref P s n).
Proof.
  intros Hm Hn. assert (Hsn : n_loc s <> n_loc n) by (eapply mounted_apart; [done|by left|by left]). destruct Hm as [Hr Hs Hf Hd].
  cbn [map] in Hn, Hd. apply NoDup_cons in Hn as [Hn1 Hn2]. apply NoDup_cons in Hd as [Hd1 Hd2].
  apply Forall_cons in Hs as [(Es & _ & _) Hs]. apply Forall_cons in Hf as [En Hf]. split; [|apply Forall_forall; intros x Hx|done|done].
  - intros l Hc Hl. unfold unref. destruct (decide (l = n_loc n)) as [->|Hne1]; [by rewrite lookup_delete_eq|].
    rewrite lookup_delete_ne by done. destruct (decide (l = n_loc s)) as [->|Hne2]; [by rewrite lookup_insert_eq|].
    rewrite !lookup_insert_ne by done. apply Hr; apply not_elem_of_cons; done.
  - rewrite Forall_forall in Hs. destruct (Hs x Hx) as (E1 & E2 & E3). split; [exact E1|split; [|exact E3]]. unfold unref.
    assert (Hxs : n_loc x ∈ map n_loc srcs) by (apply list_elem_of_fmap; by exists x).
    rewrite lookup_delete_ne by congruence. rewrite !lookup_insert_ne by congruence. done.
Qed.

Lemma extra_ref_back b : set_ref (ref (extra_ref b) - 1) (extra_ref b) = b.
Proof. destruct b. unfold extra_ref, set_ref. simpl. f_equal. lia. Qed.

(** All of them go, and the memory is as it was. *)
Lemma wp_free_refs P0 srcs : forall c m fuel k (Q : Z -> mem -> Prop),
  chain m (first_loc c) c -> NoDup (map n_loc c) -> Forall2 (refers (originals m)) srcs c -> mounted P0 srcs c (pbufs m) ->
  (length c < fuel)%nat -> (forall r m', returned P0 (rev (slots c)) m m' -> Q r m') ->
  wp (iter fuel pbuf_free_body (first_loc c, k)) Q m.
Proof.
  induction srcs as [|s srcs IH]; intros c m fuel k Q Hc Hn Hr Hm Hf HQ; (destruct fuel as [|fuel]; [lia|]).
  - apply Forall2_nil_inv_l in Hr as ->. cbn [first_loc iter]. apply wp_bind, wp_ret, wp_ret. apply HQ. split; try done.
    apply map_eq. intros l. apply (mo_rest _ _ _ _ Hm); apply not_elem_of_nil.
  - apply Forall2_cons_inv_l in Hr as (n & c' & Hsn & Hr & ->). pose proof (mounted_unref _ _ _ _ _ _ Hm Hn) as Hm'.
    assert (Hne : n_loc s <> n_loc n) by (apply (mounted_apart P0 (s :: srcs) (n :: c') (pbufs m)); [done|by left|by left]).
    pose proof (mo_srcs _ _ _ _ Hm) as [(_ & Es & Rs) _]%Forall_cons. destruct Hc as (_ & Hl & _ & Hc).
    pose proof (mo_fresh _ _ _ _ Hm) as [Efr Hfr]%Forall_cons. pose proof Hn as [Hn1 Hn2]%NoDup_cons.
    pose proof (mo_srcs _ _ _ _ Hm) as [(Es0 & _ & _) _]%Forall_cons.
    cbn [first_loc iter]. apply wp_bind. destruct Hsn as [R1 R2 R3 R4].
    apply (wp_free_ref (n_loc n) _ (n_buf n) (n_loc s) (extra_ref (n_buf s)) _ _ m R1 Hl R2 R3 R4 Hne Es); [simpl; lia|].
    rewrite extra_ref_back. fold (unref (pbufs m) s n). cbv iota. set (m1 := set_pbufs _ _).
    assert (Hc1 : chain m1 (next (n_buf n)) c').
    { revert Hc. apply chain_frame; [|done]. intros x Hx. cbn [m1 pbufs set_pbufs]. unfold unref.
      assert (Hxc : n_loc x ∈ map n_loc c') by (apply list_elem_of_fmap; by exists x). rewrite Forall_forall in Hfr. specialize (Hfr x Hx).
      assert (n_loc n <> n_loc x) by (by intros E; apply Hn1; rewrite E). assert (n_loc s <> n_loc x) by congruence. by rewrite lookup_delete_ne, !lookup_insert_ne by done. }
    destruct (chain_next _ _ _ Hc1) as (En & _). rewrite En in *.
    apply (IH c' m1); [done|done|done|exact Hm'|simpl in Hf; lia|]. intros r m' [T1 T2 T3 T4 T5 T6]. apply HQ. split; try done.
    + intros t Ht. rewrite T5 by done. cbn [m1 mpools set_pbufs set_mpools]. by rewrite fn_lookup_insert_ne.
    + rewrite T6. cbn [m1 mpools set_pbufs set_mpools]. rewrite fn_lookup_insert. unfold slots. cbn [map rev]. by rewrite <- app_assoc.
Qed.
End Free.

(** ** A fragment in the making *)

(** The same pbuf, but for its place in a chain. *)
Record linked (n n' : node) : Prop := {
  lk_loc : n_loc n' = n_loc n;
  lk_data : n_data n' = n_data n;
  lk_payload : payload (n_buf n') = payload (n_buf n);
  lk_len : len (n_buf n') = len (n_buf n);
  lk_type : type_internal (n_buf n') = type_internal (n_buf n);
  lk_flags : flags (n_buf n') = flags (n_buf n);
  lk_ref : ref (n_buf n') = ref (n_buf n)
}.

Lemma linked_refl n : linked n n.
Proof. done. Qed.

Lemma linked_trans n1 n2 n3 : linked n1 n2 -> linked n2 n3 -> linked n1 n3.
Proof. intros [] []. split; congruence. Qed.

Lemma joined_linked t T c : Forall2 linked c (joined t T c).
Proof. induction c as [|n [|n' c] IH]; [constructor|by repeat constructor|]. by constructor. Qed.

Lemma linked_refers os srcs c c' : Forall2 (refers os) srcs c -> Forall2 linked c c' -> Forall2 (refers os) srcs c'.
Proof.
  intros Hr Hl. revert srcs Hr. induction Hl as [|n n' c c' [L1 _ _ _ _ L6 L7] _ IH]; intros srcs Hr.
  - by apply Forall2_nil_inv_r in Hr as ->.
  - apply Forall2_cons_inv_r in Hr as (s & srcs' & [R1 R2 R3 R4] & Hr & ->). constructor; [|by apply IH]. split; congruence.
Qed.

Lemma refers_insert os srcs c l x : Forall2 (refers os) srcs c -> l ∉ map n_loc c -> Forall2 (refers (<[l := x]> os)) srcs c.
Proof.
  induction 1 as [|s n srcs c [R1 R2 R3 R4] _ IH]; intros Hl; constructor; cbn [map] in Hl; apply not_elem_of_cons in Hl as [Hne Hl]; [|by apply IH].
  split; [done..|]. by rewrite lookup_insert_ne.
Qed.

Lemma linked_locs c c' : Forall2 linked c c' -> map n_loc c' = map n_loc c.
Proof. induction 1 as [|n n' c c' [L1 _ _ _ _ _ _] _ IH]; [done|]. cbn [map]. congruence. Qed.

Lemma linked_slots c c' : Forall2 linked c c' -> slots c' = slots c.
Proof. intros Hl. apply linked_locs in Hl. unfold slots. rewrite <- !(map_map n_loc pool_index). by rewrite Hl. Qed.

Lemma linked_contents c c' : Forall2 linked c c' -> contents c' = contents c.
Proof. induction 1 as [|n n' c c' [_ L2 _ _ _ _ _] _ IH]; [done|]. rewrite !contents_cons. congruence. Qed.

Lemma linked_areas c c' : Forall2 linked c c' -> omap node_area c' = omap node_area c.
Proof. intros Hl. apply areas_ext. eapply Forall2_impl; [exact Hl|]. by intros n n' []. Qed.

Section Build.
Context `{HeapOps}.

(** The memory [m] while the fragment is built behind the header's pbuf [ram];
    it was [m1]. The pbufs [c] refer to [srcs]. *)
Record copying (m1 : mem) (ram : node) (srcs c : list node) (m : mem) : Prop := {
  cp_packet : exists ram', linked ram ram' /\ packet m (Some (n_loc ram)) (ram' :: c);
  cp_refs : Forall2 (refers (originals m)) srcs c;
  cp_mounted : mounted (delete (n_loc ram) (pbufs m1)) srcs c (delete (n_loc ram) (pbufs m));
  cp_areas : omap node_area c = omap node_area srcs;
  cp_bytes : bytes m = bytes m1;
  cp_heap : heap m = heap m1;
  cp_pending : pbuf_free_ooseq_pending m = pbuf_free_ooseq_pending m1;
  cp_pools : forall t, t <> MEMP_FRAG_PBUF -> mpools m t = mpools m1 t;
  cp_frags : mpools m1 MEMP_FRAG_PBUF = slots c ++ mpools m MEMP_FRAG_PBUF
}.

(** The free elements of the pool hold nothing. *)
Record frags_ready (m : mem) : Prop := {
  fr_nodup : NoDup (mpools m MEMP_FRAG_PBUF);
  fr_free : forall i, i ∈ mpools m MEMP_FRAG_PBUF -> pbufs m !! Pool MEMP_FRAG_PBUF i = None
}.

Lemma copying_start m1 ram : packet m1 (Some (n_loc ram)) [ram] -> copying m1 ram [] [] m1.
Proof. intros Hp. split; try done; [by exists ram|]. split; try done; constructor. Qed.

Lemma packet_frame m m' p c : packet m p c -> bytes m' = bytes m ->
  (forall n, n ∈ c -> pbufs m' !! n_loc n = pbufs m !! n_loc n) -> packet m' p c.
Proof.
  intros [Hc Ht Hl Ha Hb] Eb Hp. split; try done. revert Hc. apply chain_frame; [done|]. intros n blk _ _. by rewrite Eb.
Qed.

(** A pbuf of the packet that a fragment can refer to. *)
Record source_ok (m1 : mem) (ram s : node) : Prop := {
  so_here : pbufs m1 !! n_loc s = Some (n_buf s);
  so_holds : holds m1 (n_buf s) (n_data s);
  so_loc : n_loc s <> n_loc ram;
  so_area : forall a, node_area s = Some a -> node_area ram <> Some a;
  so_ref : 1 <= ref (n_buf s) < 255
}.

Lemma copying_source m1 ram srcs c m s : copying m1 ram srcs c m -> frags_ready m1 -> source_ok m1 ram s -> n_loc s ∉ map n_loc srcs ->
  pbufs m !! n_loc s = Some (n_buf s) /\ n_loc s ∉ map n_loc c.
Proof.
  intros Hc Hf Hs Hn. assert (Hnc : n_loc s ∉ map n_loc c).
  { intros (n & E & Hin)%list_elem_of_fmap. pose proof (mo_fresh _ _ _ _ (cp_mounted _ _ _ _ _ Hc)) as Hfr. rewrite Forall_forall in Hfr.
    specialize (Hfr n Hin). rewrite <- E, lookup_delete_ne in Hfr by (apply not_eq_sym, (so_loc _ _ _ Hs)).
    by rewrite (so_here _ _ _ Hs) in Hfr. }
  split; [|done]. pose proof (mo_rest _ _ _ _ (cp_mounted _ _ _ _ _ Hc) (n_loc s) Hnc Hn) as E.
  rewrite !lookup_delete_ne in E by (apply not_eq_sym, (so_loc _ _ _ Hs)). rewrite E. apply Hs.
Qed.

(** An element that is still free. *)
Lemma copying_free m1 ram srcs c m i : copying m1 ram srcs c m -> frags_ready m1 -> i ∈ mpools m MEMP_FRAG_PBUF ->
  pbufs m1 !! Pool MEMP_FRAG_PBUF i = None /\ Pool MEMP_FRAG_PBUF i ∉ map n_loc c.
Proof.
  intros Hc [Hn Hf] Hi. rewrite (cp_frags _ _ _ _ _ Hc) in Hn, Hf. split; [apply Hf, elem_of_app; by right|].
  intros (n & E & Hin)%list_elem_of_fmap. apply NoDup_app in Hn as (_ & Hn & _). apply (Hn i); [|done].
  apply list_elem_of_fmap. exists n. split; [by rewrite <- E|done].
Qed.

(** The pbuf for [k] bytes of [s] from [off] on. *)
Definition ref_buf (s : node) (off k : Z) : pbuf :=
  Pbuf None ((fun a : ptr => (a.1, a.2 + off)) <$> payload (n_buf s)) k k (u8 (pbuf_type_value PBUF_REF)) PBUF_FLAG_IS_CUSTOM 1 NETIF_NO_INDEX.
Definition ref_node (i : nat) (s : node) (off k : Z) : node :=
  Node (Pool MEMP_FRAG_PBUF i) (ref_buf s off k) (take (Z.to_nat k) (drop (Z.to_nat off) (n_data s))).

Lemma ref_buf_holds m s off k : holds m (n_buf s) (n_data s) -> 0 <= off -> 0 < k -> off + k <= len (n_buf s) ->
  holds m (ref_buf s off k) (take (Z.to_nat k) (drop (Z.to_nat off) (n_data s))).
Proof.
  intros [L Hh] Ho Hk Hl. assert (El : Z.of_nat (length (take (Z.to_nat k) (drop (Z.to_nat off) (n_data s)))) = k)
    by (rewrite length_take, length_drop; lia).
  split; [done|]. cbn [ref_buf payload]. destruct (payload (n_buf s)) as [[blk o]|]; [|rewrite Hh in L; simpl in L; lia]. cbn [fmap option_fmap option_map].
  destruct Hh as (a & Ea & H1 & H2 & E). cbn [len ref_buf fst snd]. exists a. split_and!; [done|lia|lia|].
  replace (length (take _ _)) with (Z.to_nat k) by lia.
  rewrite E, skipn_firstn_comm, take_take, drop_drop. rewrite Nat.min_l by lia. do 2 f_equal. lia.
Qed.

Lemma mounted_more P0 srcs c c' P P' s n : mounted P0 srcs c P -> map n_loc c' = map n_loc c ->
  P0 !! n_loc s = Some (n_buf s) -> 1 <= ref (n_buf s) < 255 -> P0 !! n_loc n = None -> n_loc s ∉ map n_loc srcs ->
  P' !! n_loc s = Some (extra_ref (n_buf s)) -> (forall l, l ∉ map n_loc c -> l <> n_loc n -> l <> n_loc s -> P' !! l = P !! l) ->
  mounted P0 (srcs ++ [s]) (c' ++ [n]) P'.
Proof.
  intros Hm El Es Hr En Hs Es' Hrest. split.
  - intros l Hlc Hls. rewrite map_app, not_elem_of_app in Hlc, Hls. destruct Hlc as [Hlc Hln], Hls as [Hls Hlx]. rewrite El in Hlc.
    rewrite Hrest; [by apply (mo_rest _ _ _ _ Hm)|done|intros ->; apply Hln; by left|intros ->; apply Hlx; by left].
  - apply Forall_app. split; [|by apply Forall_singleton]. apply Forall_forall. intros x Hx. pose proof (mo_srcs _ _ _ _ Hm) as Hf.
    rewrite Forall_forall in Hf. destruct (Hf x Hx) as (E1 & E2 & E3). split; [done|]. split; [|done].
    assert (Hxs : n_loc x ∈ map n_loc srcs) by (apply list_elem_of_fmap; by exists x).
    rewrite Hrest; [done| |congruence|intros E; apply Hs; by rewrite <- E].
    intros (y & Ey & Hy)%list_elem_of_fmap. by apply (mounted_apart P0 srcs c P x y Hm Hx Hy).
  - apply Forall_app. split; [|by apply Forall_singleton]. pose proof (mo_fresh _ _ _ _ Hm) as Hf.
    apply (Forall_map n_loc (fun l => P0 !! l = None)) in Hf. apply (Forall_map n_loc (fun l => P0 !! l = None)). change (n_loc <$> c') with (map n_loc c'). by rewrite El.
  - rewrite map_app. apply NoDup_app. split_and!; [apply (mo_locs _ _ _ _ Hm)|intros l Hl1 ->%list_elem_of_singleton; by apply Hs|apply NoDup_singleton].
Qed.

(** The memory with one more piece, before it is joined to the others. *)
Definition one_more (i : nat) (rest : list nat) (s : node) (off k : Z) (m : mem) : mem :=
  let slot := Pool MEMP_FRAG_PBUF i in
  set_originals (<[slot := Some (n_loc s)]> (originals m))
    (set_pbufs (<[n_loc s := extra_ref (n_buf s)]> (<[slot := ref_buf s off k]> (pbufs m)))
      (set_mpools (<[MEMP_FRAG_PBUF := rest]> (mpools m)) m)).

Lemma ref_node_area i s off k : node_area (ref_node i s off k) = node_area s.
Proof. unfold node_area, ref_node, ref_buf. cbn [n_buf payload]. by destruct (payload (n_buf s)). Qed.

Lemma ref_node_packet m1 m ram s i rest off k : bytes m = bytes m1 -> source_ok m1 ram s -> n_loc s <> Pool MEMP_FRAG_PBUF i ->
  0 <= off -> 0 < k < 65536 -> off + k <= len (n_buf s) ->
  packet (one_more i rest s off k m) (Some (Pool MEMP_FRAG_PBUF i)) [ref_node i s off k] /\ total [ref_node i s off k] = k.
Proof.
  intros Eb Hs Hss Ho Hk Hl. set (nn := ref_node i s off k).
  assert (Hhn : holds (one_more i rest s off k m) (n_buf nn) (n_data nn)).
  { apply (holds_same_bytes m1 _ (n_buf nn)); [exact Eb|done|done|]. apply ref_buf_holds; [apply Hs|done|lia|done]. }
  assert (Hln : Z.of_nat (length (n_data nn)) = k) by apply Hhn.
  assert (Htn : total [nn] = k) by (rewrite total_cons; change (total []) with 0; rewrite Hln; apply Z.add_0_r).
  split; [|done]. split; [|split; [by rewrite Htn|done]|apply NoDup_singleton| |lia].
  - split_and!; [done| |exact Hhn|done]. simpl. by rewrite lookup_insert_ne, lookup_insert_eq by done.
  - cbn [omap list_omap]. destruct (node_area nn); [apply NoDup_singleton|constructor].
Qed.

Lemma mount_areas m1 ram ram' srcs c s i off k : linked ram ram' -> source_ok m1 ram s -> NoDup (omap node_area (ram' :: c)) ->
  omap node_area c = omap node_area srcs -> (forall a, node_area s = Some a -> a ∉ omap node_area srcs) ->
  NoDup (omap node_area ((ram' :: c) ++ [ref_node i s off k])).
Proof.
  intros [_ _ L3 _ _ _ _] Hs Hn Har Ha. rewrite omap_app. apply NoDup_app. split_and!; [done| |rewrite areas_cons, ref_node_area; destruct (node_area s); [apply NoDup_singleton|constructor]].
  intros a Ha1. rewrite areas_cons, ref_node_area. destruct (node_area s) as [as_|] eqn:Eas; [|by intros ?%elem_of_nil].
  intros ->%list_elem_of_singleton. rewrite areas_cons, Har in Ha1.
  assert (Era : node_area ram' = node_area ram) by (unfold node_area; congruence). rewrite Era in Ha1.
  destruct (node_area ram) as [ar|] eqn:Ear; [apply elem_of_cons in Ha1 as [->|Ha1]|]; [by apply (so_area _ _ _ Hs ar)|by apply (Ha as_)|by apply (Ha as_)].
Qed.

(** The memory [m'] after the join. *)
Lemma copying_more m1 ram srcs c s off k i rest m m' ram2 c2 : let nn := ref_node i s off k in
  copying m1 ram srcs c m -> frags_ready m1 -> source_ok m1 ram s -> n_loc s ∉ map n_loc srcs ->
  mpools m MEMP_FRAG_PBUF = i :: rest -> n_loc ram <> n_loc nn -> linked ram ram2 -> Forall2 linked c c2 -> packet m' (Some (n_loc ram)) (ram2 :: c2 ++ [nn]) ->
  only_pbufs (map n_loc (ram :: c)) (one_more i rest s off k m) m' -> copying m1 ram (srcs ++ [s]) (c2 ++ [nn]) m'.
Proof.
  intros nn Hc Hf Hs Hn Em Hrs Lr Lc Hp F. destruct (copying_source _ _ _ _ _ _ Hc Hf Hs Hn) as [Es Hsc].
  destruct (copying_free _ _ _ _ _ i Hc Hf) as [Hfree Hic]; [rewrite Em; by left|]. fold nn in Hfree, Hic.
  assert (Hss : n_loc s <> n_loc nn) by (intros E; pose proof (so_here _ _ _ Hs) as Eh; rewrite E in Eh; unfold nn in Eh; cbn [n_loc ref_node] in Eh; congruence).
  pose proof Hc as [_ Hrf Hm Har Eb Eh Ep Epl Efr]. split.
  - by exists ram2.
  - rewrite (op_originals _ _ _ F). apply Forall2_app; [|repeat constructor; apply lookup_insert_eq].
    eapply linked_refers; [|exact Lc]. by apply (refers_insert _ _ _ _ _ Hrf).
  - apply (mounted_more _ srcs c c2 (delete (n_loc ram) (pbufs m))); [done|by apply linked_locs|rewrite lookup_delete_ne by (apply not_eq_sym, Hs); apply Hs|apply Hs| |done| |].
    + by rewrite lookup_delete_ne.
    + rewrite lookup_delete_ne by (apply not_eq_sym, Hs). rewrite (op_pbufs _ _ _ F); [simpl; by rewrite lookup_insert_eq|].
      apply not_elem_of_cons. split; [apply Hs|done].
    + intros l Hlc N1 N2. destruct (decide (l = n_loc ram)) as [->|Hne]; [by rewrite !lookup_delete_eq|].
      rewrite !lookup_delete_ne by done. rewrite (op_pbufs _ _ _ F) by (by apply not_elem_of_cons). simpl. by rewrite !lookup_insert_ne by done.
  - rewrite !omap_app, (linked_areas _ _ Lc), Har. f_equal. rewrite !areas_cons. unfold nn. by rewrite ref_node_area.
  - by rewrite (op_bytes _ _ _ F).
  - by rewrite (op_heap _ _ _ F).
  - by rewrite (op_pending _ _ _ F).
  - intros t Hnt. rewrite (op_pools _ _ _ F). simpl. rewrite fn_lookup_insert_ne by done. by apply Epl.
  - rewrite (op_pools _ _ _ F). simpl. rewrite fn_lookup_insert, Efr, Em. unfold slots. rewrite map_app, <- app_assoc.
    fold (slots c2) (slots c). by rewrite (linked_slots _ _ Lc).
Qed.

(** One more piece. *)
Lemma wp_mount m1 ram srcs c s off k i rest m (Q : unit -> mem -> Prop) :
  copying m1 ram srcs c m -> frags_ready m1 -> source_ok m1 ram s -> n_loc s ∉ map n_loc srcs ->
  (forall a, node_area s = Some a -> a ∉ omap node_area srcs) ->
  mpools m MEMP_FRAG_PBUF = i :: rest -> (forall t j, n_loc ram = Pool t j -> t <> MEMP_FRAG_PBUF) ->
  0 <= off -> 0 < k -> off + k <= len (n_buf s) -> total (ram :: c) + k < 65536 ->
  (forall m' c', copying m1 ram (srcs ++ [s]) c' m' -> contents c' = contents c ++ take (Z.to_nat k) (drop (Z.to_nat off) (n_data s)) -> Q tt m') ->
  wp (pbuf_ref (Some (n_loc s));; modify (fun m => set_originals (<[Pool MEMP_FRAG_PBUF i := Some (n_loc s)]> (originals m)) m);;
      pbuf_cat (Some (n_loc ram)) (Some (Pool MEMP_FRAG_PBUF i))) Q
    (set_pbufs (<[Pool MEMP_FRAG_PBUF i := ref_buf s off k]> (pbufs m)) (set_mpools (<[MEMP_FRAG_PBUF := rest]> (mpools m)) m)).
Proof.
  intros Hc Hf Hs Hn Ha Em Hram Ho Hk Hl Ht HQ. destruct (copying_source _ _ _ _ _ _ Hc Hf Hs Hn) as [Es Hsc].
  destruct (copying_free _ _ _ _ _ i Hc Hf) as [Hfree Hic]; [rewrite Em; by left|].
  assert (Hss : n_loc s <> Pool MEMP_FRAG_PBUF i) by (intros E; pose proof (so_here _ _ _ Hs) as Eh; rewrite E in Eh; congruence).
  assert (Hrs : n_loc ram <> Pool MEMP_FRAG_PBUF i) by (intros E; by apply (Hram _ _ E)).
  apply wp_bind, (wp_setp _ _ (n_buf s)); [simpl; by rewrite lookup_insert_ne|]. pose proof (so_ref _ _ _ Hs) as Hsr.
  rewrite u8_small by lia. apply wp_bind, wp_modify. fold (extra_ref (n_buf s)). change (set_originals _ _) with (one_more i rest s off k m).
  pose proof Hc as [(ram' & Lr & Hp) _ _ Har Eb _ _ _ _]. pose proof Lr as [L1 L2 _ _ _ _ _]. pose proof (total_nonneg (ram :: c)).
  destruct (ref_node_packet m1 m ram s i rest off k Eb Hs Hss Ho ltac:(lia) Hl) as [HpN Htn].
  assert (Hlocs : (n_loc s ∉ map n_loc (ram' :: c)) /\ Pool MEMP_FRAG_PBUF i ∉ map n_loc (ram' :: c)).
  { cbn [map]. rewrite L1. split; apply not_elem_of_cons; (split; [|done]); [apply Hs|by apply not_eq_sym]. }
  destruct Hlocs as [Hls Hli]. destruct (pbuf_cat_run (one_more i rest s off k m) (n_loc ram) (ram' :: c) (Pool MEMP_FRAG_PBUF i) [ref_node i s off k]) as (m' & E & Hp' & F).
  - apply (packet_frame m); [done|done|]. intros n Hin. simpl. rewrite !lookup_insert_ne; [done| |];
      intros E; [apply Hli|apply Hls]; rewrite E; apply list_elem_of_fmap; by exists n.
  - done.
  - rewrite map_app. apply NoDup_app. split_and!; [apply Hp|intros l Hl1 ->%list_elem_of_singleton; by apply Hli|apply NoDup_singleton].
  - by apply (mount_areas m1 ram ram' srcs); [| |apply Hp| |].
  - assert (Htot : total (ram' :: c) = total (ram :: c)) by (rewrite !total_cons; congruence). lia.
  - eapply wp_of_run; [exact E|]. pose proof (joined_linked (Pool MEMP_FRAG_PBUF i) (total [ref_node i s off k]) (ram' :: c)) as Hlk.
    apply Forall2_cons_inv_l in Hlk as (ram2 & c2 & Lr2 & Lc & Ej). rewrite Ej in Hp'. apply (HQ m' (c2 ++ [ref_node i s off k])).
    + apply (copying_more m1 ram srcs c s off k i rest m m' ram2 c2); try done; [by eapply linked_trans|]. cbn [map] in F. by rewrite L1 in F.
    + rewrite contents_app, (linked_contents _ _ Lc), contents_cons. unfold contents at 2. cbn. by rewrite app_nil_r.
Qed.

End Build.

(** ** The release *)

Section Release.
Context `{HeapOps} (depth : nat).
#[local] Instance release_refs : CustomFree := frag_custom_free (S depth).

(** The fragment is gone: the structures are [P], the block of the header is
    free, the elements of the pool are back. *)
Record released_to (P : gmap loc pbuf) (o : Z) (c : list node) (m m' : mem) : Prop := {
  rl_pbufs : pbufs m' = P;
  rl_bytes : bytes m' = delete (Heap o) (bytes m);
  rl_heap : heap m' = heap_free o (heap m);
  rl_pending : pbuf_free_ooseq_pending m' = pbuf_free_ooseq_pending m;
  rl_pools : forall t, t <> MEMP_FRAG_PBUF -> mpools m' t = mpools m t;
  rl_frags : mpools m' MEMP_FRAG_PBUF = rev (slots c) ++ mpools m MEMP_FRAG_PBUF
}.

Lemma wp_release_fragment P0 o ram srcs c (Q : Z -> mem -> Prop) m :
  chain m (Some (Heap o)) (ram :: c) -> NoDup (map n_loc (ram :: c)) -> Heap o ∉ omap node_area c ->
  ref (n_buf ram) = 1 -> well_typed (Heap o) (n_buf ram) ->
  Forall2 (refers (originals m)) srcs c -> mounted P0 srcs c (delete (Heap o) (pbufs m)) ->
  (forall r m', released_to P0 o c m m' -> Q r m') -> wp (pbuf_free (Some (Heap o))) Q m.
Proof.
  intros Hc Hn Ha Hr Hw Hrf Hm HQ. pose proof (chain_size _ _ _ Hc Hn) as Hsz. destruct Hc as (E & Hl & _ & Hc). injection E as El.
  cbn [map] in Hn. apply NoDup_cons in Hn as [Hn1 Hn]. rewrite <- El in *.
  assert (Hf : (length c < S (size (pbufs m)))%nat) by (simpl in Hsz; lia). clear Hsz.
  unfold pbuf_free. apply wp_bind, wp_chain_fuel. revert Hf. generalize (S (size (pbufs m))). intros fuel Hf.
  cbn [iter]. apply wp_bind. unfold pbuf_free_body at 1. apply wp_bind, (wp_getp _ (n_buf ram)); [done|]. apply wp_bind, (wp_setp _ _ (n_buf ram)); [done|]. rewrite Hr.
  change (u8 (1 - 1)) with 0. cbn [Z.eqb]. apply wp_bind. eapply wp_of_run; [by apply pbuf_dealloc_run|]. apply wp_ret. cbv beta iota.
  rewrite freed_set_ref. set (m1 := freed (Heap o) m).
  assert (Hc1 : chain m1 (next (n_buf ram)) c).
  { revert Hc. apply chain_frame.
    - intros n Hin. simpl. rewrite lookup_delete_ne; [done|]. intros E. apply Hn1. rewrite E. apply list_elem_of_fmap. by exists n.
    - intros n blk Hin Hb. simpl. rewrite lookup_delete_ne; [done|]. intros <-. apply Ha, list_elem_of_omap. by exists n. }
  destruct (chain_next _ _ _ Hc1) as (En & _). rewrite En in *.
  apply (wp_free_refs depth P0 srcs c); [done..|].
  intros r m' [T1 T2 T3 T4 T5 T6]. apply HQ. by split.
Qed.
End Release.

(** ** The loop *)

Section Loop.
Context `{HeapOps} (depth : nat).
#[local] Instance loop_refs : CustomFree := frag_custom_free (S depth).

(** The memory [m1] without the fragment that was begun in the block [o]. *)
Record undone (o : Z) (m1 m' : mem) : Prop := {
  un_pbufs : pbufs m' = delete (Heap o) (pbufs m1);
  un_bytes : bytes m' = delete (Heap o) (bytes m1);
  un_heap : heap m' = heap_free o (heap m1);
  un_pending : pbuf_free_ooseq_pending m' = pbuf_free_ooseq_pending m1;
  un_pools : forall t, t <> MEMP_FRAG_PBUF -> mpools m' t = mpools m1 t;
  un_frags : mpools m' MEMP_FRAG_PBUF ≡ₚ mpools m1 MEMP_FRAG_PBUF
}.

(** The pbuf of the header. *)
Record header_pbuf (o : Z) (ram : node) : Prop := {
  hp_loc : n_loc ram = Heap o;
  hp_area : node_area ram = Some (Heap o);
  hp_ref : ref (n_buf ram) = 1;
  hp_typed : well_typed (Heap o) (n_buf ram)
}.

(** Giving up, or done with the fragment: [m2] is [m] but for the block. *)
Lemma wp_undo o ram srcs c m1 m m2 ram2 (Q : Z -> mem -> Prop) :
  copying m1 ram srcs c m -> header_pbuf o ram -> header_pbuf o ram2 -> packet m2 (Some (Heap o)) (ram2 :: c) -> originals m2 = originals m ->
  delete (Heap o) (pbufs m2) = delete (Heap o) (pbufs m) -> delete (Heap o) (bytes m2) = delete (Heap o) (bytes m) ->
  heap m2 = heap m -> pbuf_free_ooseq_pending m2 = pbuf_free_ooseq_pending m -> mpools m2 = mpools m ->
  (forall r m', undone o m1 m' -> Q r m') -> wp (pbuf_free (Some (Heap o))) Q m2.
Proof.
  intros [Hp0 Hr Hm Ha Eb Eh Ep Epl Ef] Hram [R1 R2 R3 R4] Hp Eo Dp Db Eh2 Ep2 Em2 HQ. rewrite (hp_loc _ _ Hram) in Hm.
  apply (wp_release_fragment depth (delete (Heap o) (pbufs m1)) o ram2 srcs c); [apply Hp|apply Hp| |done|done|by rewrite Eo|by rewrite Dp|].
  - pose proof (pk_areas _ _ _ Hp) as Hn. rewrite areas_cons, R2 in Hn. by apply NoDup_cons in Hn as [Hn _].
  - intros r m' [T1 T2 T3 T4 T5 T6]. apply (HQ r). split; [done|congruence|congruence|congruence| |].
    + intros t Ht. by rewrite T5, Em2, Epl.
    + rewrite T6, Em2, Ef. by rewrite <- Permutation_rev.
Qed.

Lemma header_linked o ram ram' : header_pbuf o ram -> linked ram ram' -> header_pbuf o ram'.
Proof.
  intros [R1 R2 R3 R4] [L1 L2 L3 L4 L5 L6 L7]. split; [congruence| |congruence|].
  - revert R2. unfold node_area. by rewrite L3.
  - revert R4. unfold well_typed, pbuf_get_allocsrc. by rewrite L5, L6.
Qed.

Lemma wp_give_up o ram srcs c m1 m (Q : Z -> mem -> Prop) : copying m1 ram srcs c m -> header_pbuf o ram ->
  (forall r m', undone o m1 m' -> Q r m') -> wp (pbuf_free (Some (Heap o))) Q m.
Proof.
  intros Hc Hram HQ. pose proof (cp_packet _ _ _ _ _ Hc) as (ram' & Lr & Hp). rewrite (hp_loc _ _ Hram) in Hp.
  apply (wp_undo o ram srcs c m1 m m ram'); try done. by eapply header_linked.
Qed.

(** The pbufs that are to be copied from, behind those already used. *)
Record sources (m1 : mem) (ram : node) (srcs c0 : list node) : Prop := {
  sr_chain : chain m1 (first_loc c0) c0;
  sr_locs : NoDup (map n_loc (srcs ++ c0));
  sr_areas : NoDup (omap node_area (srcs ++ c0));
  sr_ok : Forall (source_ok m1 ram) c0;
  sr_total : total c0 < 65536
}.

Lemma sources_next m1 ram srcs s c0 : sources m1 ram srcs (s :: c0) -> sources m1 ram srcs c0 /\ sources m1 ram (srcs ++ [s]) c0.
Proof.
  intros [Hc Hl Ha Ho Ht]. destruct Hc as (_ & _ & _ & Hc). destruct (chain_next _ _ _ Hc) as (E & _). rewrite E in Hc.
  apply Forall_cons in Ho as [_ Ho]. rewrite total_cons in Ht. assert (Ht' : total c0 < 65536) by lia. split; split; try done.
  - rewrite map_app in *. cbn [map] in Hl. apply NoDup_app in Hl as (H1 & H2 & [_ H3]%NoDup_cons). apply NoDup_app. split_and!; [done| |done].
    intros x Hx1 Hx2. apply (H2 x Hx1). by right.
  - rewrite omap_app in *. rewrite areas_cons in Ha. destruct (node_area s); [|done]. apply NoDup_app in Ha as (H1 & H2 & [_ H3]%NoDup_cons).
    apply NoDup_app. split_and!; [done| |done]. intros x Hx1 Hx2. apply (H2 x Hx1). by right.
  - by rewrite <- app_assoc.
  - by rewrite <- app_assoc.
Qed.

Lemma sources_new m1 ram srcs s c0 : sources m1 ram srcs (s :: c0) ->
  n_loc s ∉ map n_loc srcs /\ forall a, node_area s = Some a -> a ∉ omap node_area srcs.
Proof.
  intros [_ Hl Ha _ _]. rewrite map_app in Hl. rewrite omap_app, areas_cons in Ha. split.
  - intros Hin. apply NoDup_app in Hl as (_ & Hl & _). apply (Hl _ Hin). by left.
  - intros a E Hin. rewrite E in Ha. apply NoDup_app in Ha as (_ & Ha & _). apply (Ha _ Hin). by left.
Qed.

Lemma sources_head m1 ram srcs c0 : sources m1 ram srcs c0 -> match c0 with s :: _ => 0 <= len (n_buf s) | [] => True end.
Proof. intros Hs. pose proof (sr_ok _ _ _ _ Hs) as Ho. destruct c0 as [|s c0]; [done|]. apply Forall_cons in Ho as [[_ [L _] _ _ _] _]. lia. Qed.

(** What the loop leaves: the fragment with [k] more bytes, and the place
    where the next one begins; or nothing of the fragment. *)
Definition copy_outcome (o : Z) (ram : node) (m1 : mem) (c c0 : list node) (off k : Z) (r : option (option loc * Z * Z)) (m' : mem) : Prop :=
  match r with
  | None => undone o m1 m'
  | Some (p, poff, n) => exists srcs' c' c1 nd c2, c0 = c1 ++ nd :: c2 /\ p = Some (n_loc nd) /\ 0 <= poff /\ 0 < n /\ poff + n <= len (n_buf nd) /\
      copying m1 ram srcs' c' m' /\ contents c' = contents c ++ take (Z.to_nat k) (drop (Z.to_nat off) (contents c0)) /\
      drop (Z.to_nat (poff + n)) (contents (nd :: c2)) = drop (Z.to_nat (off + k)) (contents c0)
  end.

Lemma custom_alloc i s off k m : 0 < k ->
  pbuf_alloced_custom PBUF_RAW k PBUF_REF (Pool MEMP_FRAG_PBUF i) ((fun a : ptr => (a.1, a.2 + off)) <$> payload (n_buf s)) k m =
  Ret (Some (Pool MEMP_FRAG_PBUF i)) (set_pbufs (<[Pool MEMP_FRAG_PBUF i := ref_buf s off k]> (pbufs m)) m).
Proof.
  intros Hk. unfold pbuf_alloced_custom. change (LWIP_MEM_ALIGN_SIZE (pbuf_layer_value PBUF_RAW)) with 0. rewrite Z.add_0_l, Z.ltb_irrefl.
  unfold ref_buf. destruct (payload (n_buf s)) as [[a o]|]; [|done]. cbn [fmap option_fmap option_map fst snd]. by rewrite Z.add_0_r.
Qed.

Lemma copy_outcome_next o ram m1 c ca s c0 off j k r m' : Z.of_nat (length (n_data s)) = off + j -> 0 <= off -> 0 <= j <= k ->
  contents ca = contents c ++ take (Z.to_nat j) (drop (Z.to_nat off) (n_data s)) ->
  copy_outcome o ram m1 ca c0 0 (k - j) r m' -> copy_outcome o ram m1 c (s :: c0) off k r m'.
Proof.
  intros Hl Ho Hj Eca. destruct r as [[[p poff] n]|]; [|done]. intros (srcs' & c' & c1 & nd & c2 & -> & Hp & Hpo & Hn & Hpn & Hc & Ec & Ed).
  exists srcs', c', (s :: c1), nd, c2. split_and!; [done|done|done|done|done|done| |].
  - rewrite Ec, Eca, <- app_assoc, drop_0. f_equal. rewrite (contents_cons s), drop_app_le by lia.
    rewrite take_app_ge by (rewrite length_drop; lia). rewrite (take_ge (drop _ _)) by (rewrite length_drop; lia). f_equal. f_equal. rewrite length_drop. lia.
  - rewrite Ed, (contents_cons s), drop_app_ge by lia. f_equal. lia.
Qed.

Lemma frag_copy_loop o ram m1 c0 : header_pbuf o ram -> frags_ready m1 -> forall srcs c off k n fuel m,
  copying m1 ram srcs c m -> sources m1 ram srcs c0 -> 0 <= off -> match c0 with s :: _ => off <= len (n_buf s) | [] => True end ->
  0 < k -> off + k <= total c0 -> total (ram :: c) + k < 65536 -> (S (length c0) < fuel)%nat ->
  wp (iter fuel (frag_copy_body (Heap o)) (first_loc c0, off, k, n)) (copy_outcome o ram m1 c c0 off k) m.
Proof.
  intros Hram Hf. induction c0 as [|s c0 IH]; intros srcs c off k n fuel m Hc Hsr Ho Hoff Hk Hl Ht Hfu; [unfold total, contents in Hl; simpl in Hl; lia|].
  destruct fuel as [|fuel]; [lia|]. cbn [iter first_loc head fmap option_fmap option_map]. apply wp_bind. unfold frag_copy_body at 1.
  rewrite (proj2 (Z.eqb_neq _ _)) by lia. apply wp_bind, wp_ret.
  destruct (sources_new _ _ _ _ _ Hsr) as [Hn1 Hn2]. destruct (sources_next _ _ _ _ _ Hsr) as [Hsr1 Hsr2].
  pose proof (sr_ok _ _ _ _ Hsr) as [Hso _]%Forall_cons. destruct (copying_source _ _ _ _ _ _ Hc Hf Hso Hn1) as [Es Hsc].
  pose proof (sr_total _ _ _ _ Hsr) as Htot. pose proof (so_holds _ _ _ Hso) as [Ls _]. rewrite total_cons in Hl, Htot. pose proof (total_nonneg c0).
  apply wp_bind, (wp_getp _ (n_buf s)); [done|]. cbv zeta. rewrite u16_small by lia.
  destruct (Z.eqb_spec (Z.min k (len (n_buf s) - off)) 0) as [Ez|Ez].
  - apply wp_ret. cbv beta iota. pose proof (sr_chain _ _ _ _ Hsr) as (_ & _ & _ & Hch). destruct (chain_next _ _ _ Hch) as (-> & _).
    eapply wp_mono; [apply (IH srcs c 0 k); [done|done|done|by eapply sources_head|done|lia|done|simpl in Hfu; lia]|].
    intros r m' Hr. apply (copy_outcome_next o ram m1 c c s c0 off 0); [lia|done|lia|by rewrite app_nil_r|by rewrite Z.sub_0_r].
  - set (j := Z.min k (len (n_buf s) - off)) in *. assert (Hj : 0 < j /\ j <= k /\ off + j <= len (n_buf s) /\ (j = k \/ off + j = len (n_buf s))) by lia. clearbody j.
    apply wp_bind, wp_memp_malloc_at; [intros _; apply wp_bind, (wp_give_up o ram srcs c m1); [done|done|]; intros r m' Hu; by apply wp_ret, wp_ret|].
    intros i rest Em. apply wp_bind. eapply wp_of_run; [apply (custom_alloc i s off j (set_mpools (<[MEMP_FRAG_PBUF := rest]> (mpools m)) m)); lia|]. rewrite <- (hp_loc _ _ Hram). cbv beta iota.
    change (pbufs (set_mpools _ m)) with (pbufs m). apply wp_then3. apply (wp_mount m1 ram srcs c s off j i rest); try done; try lia.
    { intros t x E. by rewrite (hp_loc _ _ Hram) in E. }
    intros m' c' Hc' Ec'. rewrite u16_small by lia. destruct (Z.eqb_spec (k - j) 0) as [E0|E0].
    + apply wp_ret. cbv beta iota. destruct fuel as [|fuel]; [simpl in Hfu; lia|]. cbn [iter]. apply wp_bind. unfold frag_copy_body at 1.
      rewrite E0. cbn [Z.eqb]. apply wp_ret, wp_ret. exists (srcs ++ [s]), c', [], s, c0. replace k with j in * by lia.
      split_and!; [done|done|done|lia|lia|done| |done]. rewrite Ec', contents_cons. f_equal. rewrite drop_app_le by lia.
      rewrite take_app_le by (rewrite length_drop; lia). done.
    + assert (Es' : pbufs m' !! n_loc s = Some (extra_ref (n_buf s))).
      { pose proof (mo_srcs _ _ _ _ (cp_mounted _ _ _ _ _ Hc')) as Hsf. apply Forall_app in Hsf as [_ [(_ & E & _) _]%Forall_cons].
        by rewrite lookup_delete_ne in E by (apply not_eq_sym, Hso). }
      apply wp_bind, (wp_getp _ (extra_ref (n_buf s))); [done|]. apply wp_ret. cbv beta iota. change (next (extra_ref (n_buf s))) with (next (n_buf s)).
      pose proof (sr_chain _ _ _ _ Hsr) as (_ & _ & _ & Hch). destruct (chain_next _ _ _ Hch) as (-> & _). rewrite (hp_loc _ _ Hram).
      assert (Hct : total (ram :: c') = total (ram :: c) + j).
      { rewrite !total_cons. unfold total. rewrite Ec', length_app, length_take, length_drop. lia. }
      eapply wp_mono; [apply (IH (srcs ++ [s]) c' 0 (k - j)); [done|done|done|by eapply sources_head|lia|lia|lia|simpl in Hfu; lia]|].
      intros r m2 Hr. apply (copy_outcome_next o ram m1 c c' s c0 off j); [lia|done|lia|done|done].
Qed.

(** The whole loop, from the pbuf of the header on. *)
Lemma wp_frag_copy o ram m1 c0 off k n : header_pbuf o ram -> frags_ready m1 -> packet m1 (Some (Heap o)) [ram] -> sources m1 ram [] c0 ->
  0 <= off -> match c0 with s :: _ => off <= len (n_buf s) | [] => True end -> 0 < k -> off + k <= total c0 -> total [ram] + k < 65536 ->
  wp (frag_copy (Heap o) (first_loc c0) off k n) (copy_outcome o ram m1 [] c0 off k) m1.
Proof.
  intros Hram Hf Hp Hsr Ho Hoff Hk Hl Ht. unfold frag_copy. apply wp_bind, wp_chain_fuel. rewrite <- (hp_loc _ _ Hram) in Hp.
  apply (frag_copy_loop o ram m1 c0 Hram Hf [] []); try done; [by apply copying_start|].
  pose proof (chain_size _ _ _ (sr_chain _ _ _ _ Hsr) (sr_locs _ _ _ _ Hsr)). lia.
Qed.
End Loop.
