(* ===== verification/IpFacts.v ===== *)
(** IP output: the header on the wire. *)
From stdpp Require Import functions.
From S2P Require Import Prelude Memp Pbuf PbufFacts PbufUpdate PbufAlloc PbufChain PbufRam Chksum ChksumFacts Ip4Addr.
From S2P Require Import Ethernet Etharp EtharpTable EtharpInv EtharpSend EtharpReply EtharpOutput Ip.

(** A computation at a state that runs like another at another state. *)
Lemma wp_eq_at {S A} (m m' : M S A) s s' (Q : A -> S -> Prop) : m s = m' s' -> wp m' Q s' -> wp m Q s.
Proof. unfold wp. by intros ->. Qed.

(** ** The interface to the driver *)

(** What the driver promises, as in [LinkLaws]. *)
Class WireLaws `{Wire} : Type := {
  wire_ok : wstate -> Prop;
  wire_rel : nat -> list Z -> wstate -> Z -> wstate -> Prop;
  law_wire n p c m l : wire_ok l -> packet m (Some p) c -> total c <= 1500 ->
    wp (wire_output n p) (fun r x => x.1 = m /\ wire_ok x.2 /\ wire_rel n (contents c) l r x.2) (m, l)
}.

(** The driver with IP's variables beside it keeps the promise to ARP. *)
#[export] Program Instance ip_link_laws `{WL : WireLaws} : LinkLaws := {|
  link_ok x := wire_ok x.1;
  output_rel n bs x r x' := wire_rel n bs x.1 r x'.1 /\ x'.2 = x.2
|}.
Next Obligation.
  intros HO W WL n p c m [w v] Hl Hp Ht. unfold linkoutput, ip_link. apply wp_zoom. simpl.
  eapply wp_mono; [by apply law_wire|]. intros r [m' w'] (E & Hok & Hrel). simpl in *. by subst.
Qed.

(** ** The header *)

(** RFC 791, without options; the checksum is that of RFC 1071. *)
Definition header_fields (tos len id off ttl proto : Z) (ck : list Z) (src dst : Z) : list Z :=
  [0x45; tos] ++ be16 len ++ be16 id ++ be16 off ++ [ttl; proto] ++ ck ++ bytes32 src ++ bytes32 dst.
Definition ip_header (tos len id off ttl proto src dst : Z) : list Z :=
  header_fields tos len id off ttl proto
    (bytes16 (0xffff - rfc1071 (header_fields tos len id off ttl proto [0; 0] src dst))) src dst.

Lemma header_fields_length tos len id off ttl proto ck src dst : length ck = 2%nat ->
  length (header_fields tos len id off ttl proto ck src dst) = 20%nat.
Proof. intros L. unfold header_fields. rewrite !length_app, L. done. Qed.

Lemma ip_header_length tos len id off ttl proto src dst : length (ip_header tos len id off ttl proto src dst) = 20%nat.
Proof. by apply header_fields_length. Qed.

Lemma be16_bytes x : 0 <= x < 65536 -> Forall byte (be16 x).
Proof. intros Hx. unfold be16, byte. repeat constructor; Z.div_mod_to_equations; lia. Qed.

Lemma header_fields_bytes tos len id off ttl proto ck src dst : byte tos -> byte ttl -> byte proto -> Forall byte ck ->
  0 <= len < 65536 -> 0 <= id < 65536 -> 0 <= off < 65536 ->
  Forall byte (header_fields tos len id off ttl proto ck src dst).
Proof.
  intros. unfold header_fields. rewrite !Forall_app. split_and!; auto using be16_bytes, bytes32_bytes.
  rewrite !Forall_cons. split_and!; [unfold byte; lia|done|constructor].
Qed.

(** The sum of the words of a list of even length. *)
Fixpoint word_sum (data : list Z) : Z :=
  match data with lo :: hi :: data => load16 lo hi + word_sum data | _ => 0 end.

Lemma word_sum_le_val n : forall data, length data = (2 * n)%nat -> Forall byte data ->
  exists j, le_val data = word_sum data + 65535 * j /\ 0 <= j /\ 0 <= word_sum data <= 65535 * Z.of_nat n.
Proof.
  induction n as [|n IH]; intros data Hl Hb; [destruct data; [|discriminate]; by exists 0|].
  destruct data as [|lo [|hi data]]; [discriminate|simpl in Hl; lia|]. rewrite !Forall_cons in Hb. destruct Hb as (B1 & B2 & Hb).
  destruct (IH data ltac:(simpl in Hl; lia) Hb) as (j & Ej & Hj & Hs). unfold byte in *.
  cbn [le_val word_sum]. rewrite Ej. exists (word_sum data + 65536 * j). unfold load16. lia.
Qed.

(** The end of the code's computation: two folds and a complement. *)
Lemma chksum_folded n data : Forall byte data -> length data = (2 * n)%nat -> (n <= 60)%nat -> 0 < word_sum data ->
  let c := u32 (Z.shiftr (word_sum data) 16 + Z.land (word_sum data) 0xFFFF) in
  u16 (u32 (Z.lnot (u32 (Z.shiftr c 16 + c)))) = 0xffff - rfc1071 data.
Proof.
  intros Hb Hl Hn Hpos c. destruct (word_sum_le_val n data Hl Hb) as (j & Ej & Hj & Hs). set (S := word_sum data) in *.
  assert (Hc : c = S / 65536 + S mod 65536).
  { unfold c. rewrite Z.shiftr_div_pow2, land_65535 by lia. unfold u16. change (2 ^ 16) with 65536.
    apply u32_small. Z.div_mod_to_equations. lia. }
  assert (Hc1 : 0 < c < 65536 + 60) by (rewrite Hc; Z.div_mod_to_equations; lia).
  set (d := if c <? 65536 then c else c - 65535).
  assert (Hd : u16 (u32 (Z.lnot (u32 (Z.shiftr c 16 + c)))) = 0xffff - d).
  { rewrite Z.shiftr_div_pow2 by lia. change (2 ^ 16) with 65536. unfold Z.lnot, d, u16, u32.
    destruct (Z.ltb_spec c 65536); Z.div_mod_to_equations; lia. }
  rewrite Hd. f_equal. apply rfc1071_value; [done|]. unfold stands, d. rewrite Ej. destruct (Z.ltb_spec c 65536).
  - split_and!; [lia|lia| |lia|lia]. exists (j + S / 65536). rewrite Hc. Z.div_mod_to_equations. lia.
  - split_and!; [lia|lia| |lia|lia]. exists (j + S / 65536 + 1). rewrite Hc. Z.div_mod_to_equations. lia.
Qed.

(** ** Writing the header *)

Lemma splice_ip (data : list Z) tos len id off ttl proto ck src dst : (20 <= length data)%nat -> length ck = 2%nat ->
  splice 10 ck (splice 12 (bytes32 src) (splice 4 (be16 id) (splice 6 (be16 off) (splice 2 (be16 len) (splice 1 [tos]
    (splice 0 [0x45] (splice 16 (bytes32 dst) (splice 9 [proto] (splice 8 [ttl] data))))))))) =
  header_fields tos len id off ttl proto ck src dst ++ drop 20 data.
Proof.
  intros H1 H2. do 20 (destruct data as [|? data]; [simpl in H1; lia|]). do 2 list_cons ck. list_nil ck.
  unfold splice, be16, bytes32, header_fields. cbn [length Nat.add take drop app]. by rewrite !drop_0.
Qed.

(** A 16-bit field given byte by byte. *)
Lemma ntohs_pair hi lo : byte hi -> byte lo -> PP_NTOHS (Z.lor lo (Z.shiftl hi 8)) = word16 hi lo.
Proof.
  intros Hh Hl. unfold PP_NTOHS. rewrite Z.shiftl_mul_pow2, (lor_low lo hi 8) by (done || lia).
  change (lo + hi * 2 ^ 8) with (lo + hi * 256). replace (lo + hi * 256) with (word16 lo hi) by (unfold word16; lia).
  by apply PP_HTONS_word16.
Qed.

Lemma htons_word x : 0 <= x < 65536 -> lwip_htons x = word16 (x / 256) (x mod 256).
Proof.
  intros Hx. destruct (word16_split x Hx) as (a & b & Ha & Hb & ->). unfold lwip_htons. rewrite PP_HTONS_word16 by done.
  unfold word16, byte in *. f_equal; [|f_equal]; Z.div_mod_to_equations; lia.
Qed.

Lemma ntohs_be16 x : 0 <= x < 65536 -> lwip_ntohs (load_word16 (be16 x)) = x.
Proof.
  intros Hx. change (load_word16 (be16 x)) with (word16 (x / 256) (x mod 256)). unfold lwip_ntohs, lwip_htons.
  rewrite PP_HTONS_word16 by (unfold byte; Z.div_mod_to_equations; lia). unfold word16. Z.div_mod_to_equations. lia.
Qed.

Lemma land_shift_word x : 0 <= x < 2 ^ 32 -> Z.land x 0xFFFF + Z.shiftr x 16 = word_sum (bytes32 x) /\ 0 <= Z.land x 0xFFFF < 65536 /\ 0 <= Z.shiftr x 16 < 65536.
Proof.
  intros Hx. rewrite land_65535, Z.shiftr_div_pow2 by lia. unfold u16. change (2 ^ 16) with 65536. unfold bytes32. cbn [word_sum].
  unfold load16. Z.div_mod_to_equations. lia.
Qed.

Lemma header_word_sum tos len id off ttl proto ck src dst : length ck = 2%nat ->
  word_sum (header_fields tos len id off ttl proto ck src dst) =
    word16 0x45 tos + word16 (len / 256) (len mod 256) + word16 (id / 256) (id mod 256) + word16 (off / 256) (off mod 256) +
    word16 ttl proto + word_sum ck + word_sum (bytes32 src) + word_sum (bytes32 dst).
Proof.
  intros H. do 2 list_cons ck. list_nil ck. unfold header_fields, be16, bytes32. cbn [app word_sum]. unfold word16, load16. lia.
Qed.

(** What the header of an outgoing packet is made from. *)
Record header_args (src dst ttl tos proto : Z) : Prop := {
  ha_src : 0 <= src < 2 ^ 32;
  ha_dst : 0 <= dst < 2 ^ 32;
  ha_ttl : byte ttl;
  ha_tos : byte tos;
  ha_proto : byte proto
}.

Lemma header_chksum src dst ttl tos proto len id : header_args src dst ttl tos proto -> 0 <= len < 65536 -> 0 <= id < 65536 ->
  let chk_sum := u32 (0 + PP_NTOHS (Z.lor proto (Z.shiftl ttl 8))) in
  let chk_sum := u32 (chk_sum + Z.land dst 0xFFFF) in
  let chk_sum := u32 (chk_sum + Z.shiftr dst 16) in
  let v_hl := u8 (Z.lor (Z.shiftl 4 4) (IP_HLEN / 4)) in
  let chk_sum := u32 (chk_sum + PP_NTOHS (Z.lor tos (Z.shiftl v_hl 8))) in
  let chk_sum := u32 (chk_sum + lwip_htons len) in
  let chk_sum := u32 (chk_sum + lwip_htons id) in
  let chk_sum := u32 (chk_sum + Z.land src 0xFFFF) in
  let chk_sum := u32 (chk_sum + Z.shiftr src 16) in
  let chk_sum := u32 (Z.shiftr chk_sum 16 + Z.land chk_sum 0xFFFF) in
  let chk_sum := u32 (Z.shiftr chk_sum 16 + chk_sum) in
  u16 (u32 (Z.lnot chk_sum)) = 0xffff - rfc1071 (header_fields tos len id 0 ttl proto [0; 0] src dst).
Proof.
  intros [Hs Hd Ht Hto Hp] Hl Hi.
  destruct (land_shift_word src Hs) as (Es & Es1 & Es2), (land_shift_word dst Hd) as (Ed & Ed1 & Ed2).
  change (u8 (Z.lor (Z.shiftl 4 4) (IP_HLEN / 4))) with 0x45. cbv zeta.
  rewrite !ntohs_pair, !htons_word by (done || unfold byte in *; lia).
  assert (B1 : 0 <= word16 (len / 256) (len mod 256) < 65536) by (unfold word16; Z.div_mod_to_equations; lia).
  assert (B2 : 0 <= word16 (id / 256) (id mod 256) < 65536) by (unfold word16; Z.div_mod_to_equations; lia).
  assert (B3 : 0 <= word16 ttl proto < 65536) by (unfold word16, byte in *; lia).
  assert (B4 : 0 < word16 69 tos < 65536) by (unfold word16, byte in *; lia).
  pose proof (header_word_sum tos len id 0 ttl proto [0; 0] src dst eq_refl) as E.
  change (word16 (0 / 256) (0 mod 256)) with 0 in E. change (word_sum [0; 0]) with 0 in E. rewrite <- Es, <- Ed in E.
  set (data := header_fields _ _ _ _ _ _ _ _ _) in *.
  rewrite <- (chksum_folded 10 data); [|apply header_fields_bytes; try done; try lia; by repeat constructor|by apply header_fields_length|lia|lia].
  cbv zeta. do 4 f_equal; repeat f_equal; try (rewrite E);
    repeat match goal with |- context [u32 (?a + ?b)] => rewrite (u32_small (a + b)) by lia end; lia.
Qed.

Section Out.
Context `{WL : WireLaws} `{HL : !HeapLaws} `{CF : !CustomFree} `{BU : !Build}.

Lemma wp_ip_var {A} (f : ip_vars -> A) (Q : A -> eth -> Prop) s : Q (f (ipv s)) s -> wp (ip_var f) Q s.
Proof. done. Qed.

Lemma wp_mod_ipv f (Q : unit -> eth -> Prop) s : Q tt (set_ipv (f (ipv s)) s) -> wp (mod_ipv f) Q s.
Proof. done. Qed.

(** One more packet has been given an identification. *)
Definition next_id (v : ip_vars) : ip_vars := set_ip_id (u16 (ip_id v + 1)) v.

Lemma wp_store_field l b m0 m s data off new (Q : unit -> eth -> Prop) :
  written l b m0 m data -> fst <$> payload b = Some l -> 0 <= off -> off + Z.of_nat (length new) <= len b ->
  (forall m', written l b m0 m' (splice (Z.to_nat off) new data) -> Q tt (set_emem m' s)) ->
  wp (store_field (payload b) off new) Q (set_emem m s).
Proof. apply wp_write_field. Qed.

Lemma wp_write_header l b m data src dest ttl tos proto (Q : unit -> eth -> Prop) s :
  emem s = m -> pbufs m !! l = Some b -> holds m b data -> fst <$> payload b = Some l -> 20 <= len b ->
  header_args src dest ttl tos proto -> 0 <= tot_len b < 65536 -> 0 <= ip_id (ipv s) < 65536 ->
  (forall m', written l b m m' (ip_header tos (tot_len b) (ip_id (ipv s)) 0 ttl proto src dest ++ drop 20 data) ->
     Q tt (set_emem m' (set_ipv (next_id (ipv s)) s))) ->
  wp (ip4_write_header l (Some src) dest ttl tos proto) Q s.
Proof.
  intros Em Hl Hh Hb Hlen Ha Ht Hid HQ. pose proof Ha as [Hs Hd Htt Hto Hpr]. pose proof Hh as [Ld _].
  unfold ip4_write_header. apply wp_bind, wp_on_pbuf. rewrite Em. apply (wp_getp _ b); [done|]. cbv zeta. cbn [default].
  assert (Wr : written l b m m data) by (split; [by split_and!|done|done]).
  do 7 (apply wp_bind; eapply (wp_store_field l b m); [exact Wr|exact Hb|lia|cbn [length bytes16 bytes32]; lia|clear Wr; intros ? Wr]).
  apply wp_bind, wp_ip_var. change (ipv (set_emem _ _)) with (ipv s).
  apply wp_bind; eapply (wp_store_field l b m); [exact Wr|exact Hb|lia|cbn [length bytes16 bytes32]; lia|clear Wr; intros ? Wr].
  apply wp_bind, wp_mod_ipv. change (ipv (set_emem _ _)) with (ipv s).
  match goal with |- wp _ _ (set_ipv ?v (set_emem ?m' _)) => change (set_ipv v (set_emem m' s)) with (set_emem m' (set_ipv v s)) end.
  apply wp_bind; eapply (wp_store_field l b m); [exact Wr|exact Hb|lia|cbn [length bytes16 bytes32]; lia|clear Wr; intros ? Wr].
  eapply (wp_store_field l b m); [exact Wr|exact Hb|lia|cbn [length bytes16 bytes32]; lia|clear Wr; intros ? Wr].
  apply HQ. rewrite (header_chksum src dest ttl tos proto) in Wr by done.
  change (u8 (Z.lor (Z.shiftl 4 4) (IP_HLEN / 4))) with 0x45 in Wr.
  rewrite (u8_small ttl), (u8_small proto), !htons_bytes in Wr by done. change (bytes16 0) with (be16 0) in Wr.
  change (Z.to_nat 8) with 8%nat in Wr. change (Z.to_nat 9) with 9%nat in Wr. change (Z.to_nat 16) with 16%nat in Wr.
  change (Z.to_nat 0) with 0%nat in Wr. change (Z.to_nat 1) with 1%nat in Wr. change (Z.to_nat 2) with 2%nat in Wr.
  change (Z.to_nat 6) with 6%nat in Wr. change (Z.to_nat 4) with 4%nat in Wr. change (Z.to_nat 12) with 12%nat in Wr.
  change (Z.to_nat 10) with 10%nat in Wr. rewrite splice_ip in Wr by (done || lia). exact Wr.
Qed.
(** ** To the wire *)

(** The hardware address for [ip] is known on interface [n] and not about to
    expire. *)
Definition resolved (s : eth) (n : nat) (ip : Z) (hw : list Z) : Prop := hop_address n ip hw s.

(** The IP packet [pkt], which ends with the packet [nd :: c], went to the
    hardware address [hw]: the driver got it in one frame, [k] bytes of headers
    are in front of the packet in its first block, nothing else in the packet
    memory changed, and IP's variables are [v]. *)
Definition ip_sent (n : nat) (nd : node) (c : list node) (k : Z) (v : ip_vars) (pkt hw : list Z) (s : eth) (r : Z) (s' : eth) : Prop :=
  exists j m' w' data, s' = set_elink (w', v) (set_emem m' (set_cached j s)) /\ 0 <= j < 10 /\ wire_ok w' /\ only_block (n_loc nd) (emem s) m' /\
    packet m' (Some (n_loc nd)) (Node (n_loc nd) (moved k (n_buf nd)) data :: c) /\
    contents (Node (n_loc nd) (moved k (n_buf nd)) data :: c) = frame hw (if_hwaddr (netifs s n)) ETHTYPE_IP pkt /\
    wire_rel n (frame hw (if_hwaddr (netifs s n)) ETHTYPE_IP pkt) (elink s).1 r w'.

Lemma moved_add j k b : moved j (moved k b) = moved (k + j) b.
Proof.
  destruct b as [? p ? ? ? ? ? ?]. unfold moved, set_tot_len, set_len, set_payload. simpl. f_equal; [|lia..].
  destruct p as [[blk o]|]; [|done]. simpl. do 2 f_equal. lia.
Qed.

Lemma wp_netif_output n nd c ip hw s : arp_ok s -> sendable s nd c -> length (if_hwaddr (netifs s n)) = 6%nat -> resolved s n ip hw ->
  wp (netif_output n (n_loc nd) ip) (fun r s' => ip_sent n nd c SIZEOF_ETH_HDR (ipv s) (contents (nd :: c)) hw s r s') s.
Proof.
  intros Hi Hs L1 Hr. eapply wp_mono; [exact (wp_etharp_output s n nd c ip hw Hi Hs L1 Hr)|].
  intros r s' (k & m' & [w' v'] & data & -> & Hk & Hlk & O & Hp & Hc & Hrel & Hv). simpl in Hlk, Hv. subst v'. by exists k, m', w', data.
Qed.

(** A packet that IP can send: room for both headers, and not too long. *)
Record ip_sendable (s : eth) (n : nat) (nd : node) (c : list node) : Prop := {
  is_packet : packet (emem s) (Some (n_loc nd)) (nd :: c);
  is_room : roomy nd (IP_HLEN + SIZEOF_ETH_HDR);
  is_size : total (nd :: c) + IP_HLEN + SIZEOF_ETH_HDR <= 1500;
  is_mtu : netif_mtu (ipv s) n = 0 \/ total (nd :: c) + IP_HLEN <= netif_mtu (ipv s) n;
  is_arp : arp_ok s;
  is_wire : wire_ok (elink s).1;
  is_hwaddr : length (if_hwaddr (netifs s n)) = 6%nat;
  is_id : 0 <= ip_id (ipv s) < 65536
}.

Lemma wp_ip_send ip4_frag n nd c ip hw s (Q : Z -> eth -> Prop) : arp_ok s -> sendable s nd c ->
  length (if_hwaddr (netifs s n)) = 6%nat -> resolved s n ip hw ->
  (netif_mtu (ipv s) n = 0 \/ total (nd :: c) <= netif_mtu (ipv s) n) ->
  (forall r s', ip_sent n nd c SIZEOF_ETH_HDR (ipv s) (contents (nd :: c)) hw s r s' -> Q r s') ->
  wp (b ← on_pbuf (getp (n_loc nd)); mtu ← ip_var (fun v => netif_mtu v n);
      if negb (mtu =? 0) && (mtu <? tot_len b) then ip4_frag (n_loc nd) n ip else netif_output n (n_loc nd) ip) Q s.
Proof.
  intros Hi Hs L Hr Hm HQ. pose proof (sd_packet _ _ _ Hs) as Hp. pose proof (pk_chain _ _ _ Hp) as (_ & Hl & _).
  pose proof (pk_totals _ _ _ Hp) as [Et _]. apply wp_bind, wp_on_pbuf, (wp_getp _ (n_buf nd)); [done|].
  replace (set_emem (emem s) s) with s by (by destruct s). apply wp_bind, wp_ip_var. rewrite Et.
  replace (negb (netif_mtu (ipv s) n =? 0) && (netif_mtu (ipv s) n <? total (nd :: c))) with false.
  - eapply wp_mono; [by apply wp_netif_output|done].
  - destruct Hm as [->|Hm]; [done|]. rewrite (proj2 (Z.ltb_ge _ _)) by lia. by rewrite andb_false_r.
Qed.

Lemma wp_ip4_output_if_src ip4_frag n nd c src dest ttl tos proto hw s : ip_sendable s n nd c -> header_args src dest ttl tos proto ->
  resolved s n dest hw ->
  wp (ip4_output_if_src ip4_frag (n_loc nd) (Some src) (Some dest) ttl tos proto n) (fun r s' =>
    ip_sent n nd c (IP_HLEN + SIZEOF_ETH_HDR) (next_id (ipv s))
      (ip_header tos (IP_HLEN + total (nd :: c)) (ip_id (ipv s)) 0 ttl proto src dest ++ contents (nd :: c)) hw s r s') s.
Proof.
  intros [Hp [Hf (off & Ep & Ho)] Hsz Hm Hi Hw L Hid] Ha Hr. pose proof (pk_chain _ _ _ Hp) as (_ & Hl & Hh & _).
  pose proof (pk_totals _ _ _ Hp) as [Et _]. pose proof Hh as [Ld _]. rewrite total_cons in *. pose proof (total_nonneg c).
  unfold IP_HLEN, SIZEOF_ETH_HDR in *. set (b := moved 20 (n_buf nd)).
  unfold ip4_output_if_src. apply wp_bind, wp_on_pbuf.
  eapply wp_of_run; [apply (pbuf_add_header_run _ (n_buf nd)); [done|done|exists off; split; [done|unfold IP_HLEN; lia]|unfold IP_HLEN; lia..]|].
  cbn [Z.eqb negb]. unfold IP_HLEN. fold b. set (m1 := set_pbufs _ _).
  destruct (holds_moved (emem s) _ _ _ _ 20 Hh Ep) as (hdr & Hhdr & Hh1); [lia|]. fold b in Hh1.
  assert (Hb : fst <$> payload b = Some (n_loc nd)) by (unfold b, moved; simpl; by rewrite Ep).
  assert (Lb : len b = len (n_buf nd) + 20 /\ tot_len b = tot_len (n_buf nd) + 20) by done. destruct Lb as [Lb Tb].
  assert (Hp1 : packet m1 (Some (n_loc nd)) (Node (n_loc nd) b (hdr ++ n_data nd) :: c)).
  { apply (packet_head (emem s) nd c); [done|done|by rewrite Hb; unfold node_area; rewrite Ep|rewrite length_app; simpl; lia|rewrite length_app; lia|done]. }
  apply wp_bind. eapply (wp_write_header (n_loc nd) b m1 (hdr ++ n_data nd)); [done|apply lookup_insert_eq|done|done|lia|done|lia|done|].
  intros m2 [O2 E2 H2]. change (ipv (set_emem m1 s)) with (ipv s) in *.
  assert (E20 : drop 20 (hdr ++ n_data nd) = n_data nd) by (apply drop_app_length'; lia). rewrite E20 in H2.
  set (h := ip_header _ _ _ _ _ _ _ _) in *.
  assert (Lh : length h = 20%nat) by apply ip_header_length.
  assert (Eh : h = ip_header tos (20 + (Z.of_nat (length (n_data nd)) + total c)) (ip_id (ipv s)) 0 ttl proto src dest)
    by (unfold h; f_equal; lia). clearbody h.
  assert (Hp2 : packet m2 (Some (n_loc nd)) (Node (n_loc nd) b (h ++ n_data nd) :: c)).
  { eapply packet_block_write; [exact Hp1|exact H2|exact O2|exact E2|done|rewrite !length_app; lia]. }
  assert (Hc2 : contents (Node (n_loc nd) b (h ++ n_data nd) :: c) = h ++ contents (nd :: c)) by (rewrite !contents_cons; symmetry; apply app_assoc).
  assert (O1 : only_block (n_loc nd) (emem s) m1).
  { split_and!; [done..|]. intros l' Hl'. split; [|done]. simpl. by rewrite lookup_insert_ne. }
  match goal with |- wp _ _ ?st => set (s2 := st) end.
  apply (wp_ip_send ip4_frag n (Node (n_loc nd) b (h ++ n_data nd)) c dest hw); [exact Hi| |exact L|exact Hr| |].
  - split; [exact Hp2| |rewrite total_cons; simpl n_data; rewrite length_app; unfold SIZEOF_ETH_HDR; lia|exact Hw].
    split; [done|]. exists (off - 20). split; [by apply moved_payload|]. unfold SIZEOF_ETH_HDR. lia.
  - change (netif_mtu (ipv s2) n) with (netif_mtu (ipv s) n). rewrite total_cons. simpl n_data. rewrite length_app. lia.
  - intros r s' (j & m' & w' & data & -> & Hj & Hw' & O3 & Hp3 & Hc3 & Hrel). simpl n_loc in *. simpl n_buf in *.
    rewrite Hc2 in Hc3, Hrel. unfold b in Hp3, Hc3. rewrite moved_add in Hp3, Hc3.
    rewrite <- Eh.
    exists j, m', w', data. split_and!; [done|lia|lia|done|by eauto using only_block_trans|done|done|done].
Qed.
End Out.

(** ** Routes *)

Section Route.
Context `{WL : WireLaws} `{HL : !HeapLaws} `{CF : !CustomFree} `{BU : !Build}.

(** An interface that packets can leave by at all. *)
Definition usable_if (n : link_if) : bool :=
  netif_is_up n && netif_is_link_up n && negb (ip4_addr_isany_val (if_ip_addr n)).

Lemma route_foreach_spec ifs dest l :
  match route_foreach ifs dest l with
  | Some n => exists l1 l2, l = l1 ++ n :: l2 /\ route_match dest (ifs n) = true /\ Forall (fun k => route_match dest (ifs k) = false) l1
  | None => Forall (fun k => route_match dest (ifs k) = false) l
  end.
Proof.
  induction l as [|k l IH]; [constructor|]. cbn [route_foreach]. destruct (route_match dest (ifs k)) eqn:E; [by exists [], l|].
  destruct (route_foreach ifs dest l); [|by constructor]. destruct IH as (l1 & l2 & -> & Hm & Hf).
  exists (k :: l1), l2. by split_and!; [| |constructor].
Qed.

(** Which interface a packet leaves by. [ip4_route] returns and changes
    nothing; its result is the first interface in the list that is up, has a
    link and an address and whose network holds the destination (or whose
    gateway it is, on an interface without broadcast); without one, the default
    interface, provided it is up, has a link and an address and the destination
    is not a loopback address; and NULL only when there is neither. *)
Theorem ip4_route_choice dest s :
  exists r, ip4_route dest s = Ret r s /\
    match r with
    | Some n => usable_if (netifs s n) = true /\
        ((exists l1 l2, netif_list (ipv s) = l1 ++ n :: l2 /\ route_match dest (netifs s n) = true /\
            Forall (fun k => route_match dest (netifs s k) = false) l1) \/
         (Forall (fun k => route_match dest (netifs s k) = false) (netif_list (ipv s)) /\
          netif_default (ipv s) = Some n /\ ip4_addr_isloopback dest = false))
    | None => Forall (fun k => route_match dest (netifs s k) = false) (netif_list (ipv s)) /\
        (ip4_addr_isloopback dest = true \/ forall n, netif_default (ipv s) = Some n -> usable_if (netifs s n) = false)
    end.
Proof.
  unfold ip4_route. erewrite bind_Ret by reflexivity. erewrite bind_Ret by reflexivity.
  pose proof (route_foreach_spec (netifs s) dest (netif_list (ipv s))) as Hs. destruct (route_foreach _ _ _) as [n|].
  { exists (Some n). split; [done|]. destruct Hs as (l1 & l2 & E & Hm & Hf). split; [|left; by eauto].
    unfold route_match in Hm. by apply andb_true_iff in Hm as [Hm _]. }
  erewrite bind_Ret by reflexivity. destruct (netif_default (ipv s)) as [d|] eqn:Ed.
  - destruct (negb (netif_is_up _) || negb (netif_is_link_up _) || ip4_addr_isany_val _ || ip4_addr_isloopback dest) eqn:E.
    + exists None. split; [done|]. split; [done|]. apply orb_true_iff in E as [E|E]; [right|by left].
      intros n [= <-]. unfold usable_if. revert E. by destruct (netif_is_up _), (netif_is_link_up _), (ip4_addr_isany_val _).
    + exists (Some d). split; [done|]. apply orb_false_iff in E as [E1 E2]. split; [|by right].
      unfold usable_if. revert E1. by destruct (netif_is_up _), (netif_is_link_up _), (ip4_addr_isany_val _).
  - exists None. split; [done|]. split; [done|]. right. done.
Qed.

(** The source address of a packet that is sent from [src]. *)
Definition source (me : link_if) (src : option Z) : Z :=
  match src with Some a => if ip4_addr_isany_val a then if_ip_addr me else a | None => if_ip_addr me end.

Lemma ip_header_verifies odd tos len id off ttl proto src dst : byte tos -> byte ttl -> byte proto ->
  0 <= len < 65536 -> 0 <= id < 65536 -> 0 <= off < 65536 -> inet_chksum odd (ip_header tos len id off ttl proto src dst) = 0.
Proof.
  intros B1 B2 B3 R1 R2 R3. set (a := [0x45; tos] ++ be16 len ++ be16 id ++ be16 off ++ [ttl; proto]).
  set (b := bytes32 src ++ bytes32 dst).
  assert (E : forall ck, header_fields tos len id off ttl proto ck src dst = a ++ ck ++ b).
  { intros ck. unfold header_fields, a, b. by rewrite <- !app_assoc. }
  assert (Hall : Forall byte (header_fields tos len id off ttl proto [0; 0] src dst)).
  { apply header_fields_bytes; try done. repeat constructor; done. }
  pose proof Hall as Hall'. rewrite E in Hall'. rewrite !Forall_app in Hall'. destruct Hall' as (Ha & _ & Hb).
  unfold ip_header. rewrite <- (complement (rfc1071 _)).
  2:{ destruct (stands_rfc1071 _ Hall) as [Hr _]. exact Hr. }
  rewrite <- (lwip_standard_chksum_rfc1071 odd _ Hall) by (rewrite header_fields_length; [lia|done]).
  change (u16 (Z.lnot (lwip_standard_chksum odd (header_fields tos len id off ttl proto [0; 0] src dst))))
    with (inet_chksum odd (header_fields tos len id off ttl proto [0; 0] src dst)).
  rewrite !E. set (ck := inet_chksum odd (a ++ [0; 0] ++ b)).
  assert (Hck : bytes16 ck = [ck mod 256; ck / 256]).
  { assert (Hr : 0 <= ck < 65536) by apply u16_range. unfold bytes16. rewrite (Z.mod_small (ck / 256)); [done|]. Z.div_mod_to_equations. lia. }
  rewrite Hck. by apply inet_chksum_verifies.
Qed.

(** A packet that IP sends. When there is no route, ERR_RTE and nothing
    happens. Else, with room for the headers in front of the packet and the
    next hop's hardware address known, the driver is given exactly one frame,
    with the IP header of RFC 791 in front of the packet: total length, the
    next identification, no fragmentation, the source address asked for or
    that of the interface, and a checksum that the receiver will find correct;
    the rest of the packet memory is untouched and the identification counts
    up. *)
Theorem ip4_output_sends ip4_frag s nd c src dest ttl tos proto n hw :
  (ip4_route dest s = Ret None s -> ip4_output ip4_frag (n_loc nd) src (Some dest) ttl tos proto s = Ret ERR_RTE s) /\
  (ip4_route dest s = Ret (Some n) s -> ip_sendable s n nd c -> resolved s n dest hw ->
   let from := source (netifs s n) src in let h := ip_header tos (IP_HLEN + total (nd :: c)) (ip_id (ipv s)) 0 ttl proto from dest in
   header_args from dest ttl tos proto ->
   exists r s', ip4_output ip4_frag (n_loc nd) src (Some dest) ttl tos proto s = Ret r s' /\
     ip_sent n nd c (IP_HLEN + SIZEOF_ETH_HDR) (next_id (ipv s)) (h ++ contents (nd :: c)) hw s r s' /\
     forall odd, inet_chksum odd h = 0).
Proof.
  split.
  - intros E. unfold ip4_output. erewrite bind_Ret by reflexivity. by erewrite bind_Ret by exact E.
  - intros E Hs Hr from h Ha. pose proof (wp_elim _ _ _ (wp_ip4_output_if_src ip4_frag n nd c from dest ttl tos proto hw s Hs Ha Hr)) as (r & s' & E' & Hsent).
    exists r, s'. split_and!; [|done|].
    + unfold ip4_output. erewrite bind_Ret by reflexivity. erewrite bind_Ret by exact E.
      unfold ip4_output_if. erewrite bind_Ret by reflexivity. cbv zeta.
      destruct src as [a|]; cbn [source] in *; [|exact E']. unfold from, source in E'. by destruct (ip4_addr_isany_val a).
    + intros odd. destruct Hs, Ha. pose proof (total_nonneg (nd :: c)). unfold IP_HLEN, SIZEOF_ETH_HDR in *.
      apply ip_header_verifies; try done; lia.
Qed.
End Route.
