(* ===== verification/IcmpFacts.v ===== *)
(** ICMP: the answer to an echo request. *)
From stdpp Require Import functions.
From S2P Require Import Prelude Memp Pbuf PbufFacts PbufUpdate PbufAlloc PbufChain PbufRam Chksum ChksumFacts Ip4Addr.
From S2P Require Import Ethernet Etharp EtharpTable EtharpInv EtharpSend EtharpReply EtharpOutput Ip IpFacts Icmp.

(** ** The message *)

(** An echo message: type, code, checksum, and the rest. *)
Definition echo_message (type code chksum : Z) (rest : list Z) : list Z := [type; code] ++ bytes16 chksum ++ rest.

(** The checksum after the change of the type: the sum of the words is the same
    modulo 65535, and not zero. *)
Lemma adjust_carry code ck R : byte code -> 0 <= ck < 65536 -> 0 <= R < 65536 ->
  carry_add (load16 ICMP_ECHO code) (carry_add ck R) = 0xffff ->
  0 <= icmp_adjust_chksum ck < 65536 /\
  carry_add (load16 ICMP_ER code) (carry_add (icmp_adjust_chksum ck) R) = 0xffff.
Proof.
  intros Hc Hck HR. unfold icmp_adjust_chksum. change (PP_HTONS (0xffff - Z.shiftl ICMP_ECHO 8)) with 0xfff7.
  change (PP_HTONS (u16 (Z.shiftl ICMP_ECHO 8))) with 8. change (PP_HTONS (Z.shiftl ICMP_ECHO 8)) with 8.
  unfold carry_add, load16, byte, ICMP_ECHO, ICMP_ER, u16 in *. change (2 ^ 16) with 65536.
  destruct (Z.ltb_spec 65527 ck).
  - assert ((ck + 8 + 1) mod 65536 = ck + 9 - 65536) as -> by (Z.div_mod_to_equations; lia).
    repeat case_match; rewrite ?Z.ltb_lt, ?Z.ltb_ge in *; lia.
  - rewrite (Z.mod_small (ck + 8)) by lia. repeat case_match; rewrite ?Z.ltb_lt, ?Z.ltb_ge in *; lia.
Qed.

Lemma rfc1071_message type code ck rest : 0 <= ck < 65536 ->
  rfc1071 (echo_message type code ck rest) = carry_add (load16 type code) (carry_add ck (rfc1071 rest)).
Proof.
  intros Hck. unfold echo_message, bytes16. cbn [app rfc1071]. do 2 f_equal. unfold load16. Z.div_mod_to_equations. lia.
Qed.

(** A message whose checksum is right, and its answer. *)
Definition good_message (msg : list Z) : Prop := Forall byte msg /\ rfc1071 msg = 0xffff.

Lemma good_reply code ck rest : 0 <= ck < 65536 -> good_message (echo_message ICMP_ECHO code ck rest) ->
  0 <= icmp_adjust_chksum ck < 65536 /\ good_message (echo_message ICMP_ER code (icmp_adjust_chksum ck) rest).
Proof.
  intros Hck [Hb Hr]. rewrite rfc1071_message in Hr by done. pose proof Hb as Hb'.
  unfold echo_message in Hb'. rewrite !Forall_app, !Forall_cons in Hb'. destruct Hb' as ((_ & Hc & _) & _ & Hrest).
  destruct (stands_rfc1071 rest Hrest) as [HR _]. destruct (adjust_carry code ck (rfc1071 rest) Hc Hck HR Hr) as [A1 A2].
  split; [done|]. split; [|by rewrite rfc1071_message].
  unfold echo_message. rewrite !Forall_app, !Forall_cons. split_and!; [done|done|constructor|apply bytes16_bytes|done].
Qed.

(** ** Pointers into the same block *)

(** [y] points [k] bytes behind [x]. *)
Definition ahead (k : Z) (x y : option ptr) : Prop := y = (fun p : ptr => (p.1, p.2 + k)) <$> x.

Lemma write_at_ahead `{HeapOps} k x y off bs : ahead k x y -> write_at y off bs = write_at x (k + off) bs.
Proof.
  intros ->. unfold write_at. case_match; [done|]. destruct x as [[l o]|]; [|done].
  unfold deref, mbind, M_bind, mret, M_ret. cbn. by rewrite Z.add_assoc.
Qed.

Lemma read_at_ahead `{HeapOps} k x y off n : ahead k x y -> read_at y off n = read_at x (k + off) n.
Proof.
  intros ->. unfold read_at. case_match; [done|]. destruct x as [[l o]|]; [|done].
  unfold deref, mbind, M_bind, mret, M_ret. cbn. by rewrite Z.add_assoc.
Qed.

(** The bytes of an echo request, with its IP header, turned into the answer. *)
Lemma splice_reply tos len id off ttl ck src dst code ck0 ck1 rest ck' hck :
  length ck = 2%nat -> length ck' = 2%nat -> length hck = 2%nat ->
  splice 10 hck (splice 10 [0; 0] (splice 8 [ICMP_TTL] (splice 22 ck' (splice 20 [ICMP_ER] (splice 16 (bytes32 src) (splice 12 (bytes32 dst)
    (header_fields tos len id off ttl IP_PROTO_ICMP ck src dst ++ [ICMP_ECHO; code; ck0; ck1] ++ rest))))))) =
  header_fields tos len id off ICMP_TTL IP_PROTO_ICMP hck dst src ++ [ICMP_ER; code] ++ ck' ++ rest.
Proof.
  intros L1 L2 L3. do 2 list_cons ck. list_nil ck. do 2 list_cons ck'. list_nil ck'. do 2 list_cons hck. list_nil hck.
  unfold splice, be16, bytes32, header_fields. cbn [length Nat.add take drop app]. reflexivity.
Qed.

Lemma splice_reply0 tos len id off ttl ck src dst code ck0 ck1 rest ck' :
  length ck = 2%nat -> length ck' = 2%nat ->
  splice 10 [0; 0] (splice 8 [ICMP_TTL] (splice 22 ck' (splice 20 [ICMP_ER] (splice 16 (bytes32 src) (splice 12 (bytes32 dst)
    (header_fields tos len id off ttl IP_PROTO_ICMP ck src dst ++ [ICMP_ECHO; code; ck0; ck1] ++ rest)))))) =
  header_fields tos len id off ICMP_TTL IP_PROTO_ICMP [0; 0] dst src ++ [ICMP_ER; code] ++ ck' ++ rest.
Proof.
  intros L1 L2. do 2 list_cons ck. list_nil ck. do 2 list_cons ck'. list_nil ck'.
  unfold splice, be16, bytes32, header_fields. cbn [length Nat.add take drop app]. reflexivity.
Qed.

Lemma loaded_chksum tos len id off ttl ck src dst code ick rest : length ck = 2%nat -> 0 <= ick < 65536 ->
  load_word16 (take 2 (drop 22 (splice 20 [ICMP_ER] (splice 16 (bytes32 src) (splice 12 (bytes32 dst)
    (header_fields tos len id off ttl IP_PROTO_ICMP ck src dst ++ echo_message ICMP_ECHO code ick rest)))))) = ick.
Proof. intros L Hi. do 2 list_cons ck. list_nil ck. exact (load_bytes16 ick Hi). Qed.

Lemma take_header tos len id off ttl proto ck src dst rest : length ck = 2%nat ->
  take 20 (header_fields tos len id off ttl proto ck src dst ++ rest) = header_fields tos len id off ttl proto ck src dst.
Proof. intros L. do 2 list_cons ck. by list_nil ck. Qed.

Lemma splice_chksum tos len id off ttl proto hck src dst rest : length hck = 2%nat ->
  splice 10 hck (header_fields tos len id off ttl proto [0; 0] src dst ++ rest) =
  header_fields tos len id off ttl proto hck src dst ++ rest.
Proof. intros L. do 2 list_cons hck. by list_nil hck. Qed.

Section Echo.
Context `{WL : WireLaws} `{HL : !HeapLaws} `{CF : !CustomFree} `{BU : !Build}.
Context (odd_at : option ptr -> bool) (ip4_frag : loc -> nat -> Z -> M eth Z).

(** A pbuf that is on its way out again. *)
Definition reused (nd : node) : node := Node (n_loc nd) (set_if_idx NETIF_NO_INDEX (n_buf nd)) (n_data nd).

Lemma wp_store_ahead k l b m0 m s data y off new (Q : unit -> eth -> Prop) : ahead k (payload b) y ->
  written l b m0 m data -> fst <$> payload b = Some l -> 0 <= k + off -> k + off + Z.of_nat (length new) <= len b ->
  (forall m', written l b m0 m' (splice (Z.to_nat (k + off)) new data) -> Q tt (set_emem m' s)) ->
  wp (store_field y off new) Q (set_emem m s).
Proof. intros Hy. unfold store_field. rewrite (write_at_ahead k (payload b)) by done. apply wp_store_field. Qed.

Lemma wp_load16_ahead k b y data off (Q : Z -> eth -> Prop) s : ahead k (payload b) y ->
  holds (emem s) b data -> 0 <= k + off -> k + off + 2 <= len b ->
  Q (load_word16 (take 2 (drop (Z.to_nat (k + off)) data))) s -> wp (load16_at y off) Q s.
Proof.
  intros Hy Hh Ho Hl HQ. unfold load16_at, read_field. rewrite (read_at_ahead k (payload b)) by done.
  apply wp_bind, (wp_read_field b data); [done|lia..|]. by apply wp_ret.
Qed.

(** A packet with its header in front, to be sent as it is. *)
Lemma wp_ip4_output_hdrincl nd c n dest hw src ttl tos proto s : arp_ok s -> sendable s nd c ->
  length (if_hwaddr (netifs s n)) = 6%nat -> 20 <= len (n_buf nd) ->
  load_word32 (take 4 (drop 16 (n_data nd))) = dest -> resolved s n dest hw ->
  (netif_mtu (ipv s) n = 0 \/ total (nd :: c) <= netif_mtu (ipv s) n) ->
  wp (ip4_output_if ip4_frag (n_loc nd) src None ttl tos proto n)
    (fun r s' => ip_sent n nd c SIZEOF_ETH_HDR (ipv s) (contents (nd :: c)) hw s r s') s.
Proof.
  intros Hi Hs L Hlen Hd Hr Hm. pose proof (sd_packet _ _ _ Hs) as Hp. pose proof (pk_chain _ _ _ Hp) as (_ & Hl & Hh & _).
  assert (Hid : set_emem (emem s) s = s) by (by destruct s).
  unfold ip4_output_if. apply wp_bind, wp_gets. cbv zeta.
  replace (match src with Some _ => src | None => None end) with src by (by destruct src).
  unfold ip4_output_if_src. apply wp_bind, wp_on_pbuf, (wp_getp _ (n_buf nd)); [done|]. rewrite Hid.
  unfold IP_HLEN. rewrite (proj2 (Z.ltb_ge _ _)) by lia. unfold load32_at. apply wp_bind, wp_bind.
  apply (wp_read_field _ (n_data nd)); [done|lia|lia|lia|]. apply wp_ret. change (Z.to_nat 4) with 4%nat. change (Z.to_nat 16) with 16%nat.
  rewrite Hd. by apply (wp_ip_send ip4_frag n nd c dest hw).
Qed.
(** The request as it arrives: the echo message in the packet, its IP header,
    without options, in front of the payload. *)
Record echo_request (s : eth) (n : nat) (nd : node) (c : list node) (tos len id off ttl : Z) (ck : list Z) (src dst code ick : Z)
    (rest hw : list Z) : Prop := {
  er_packet : packet (emem s) (Some (n_loc nd)) (nd :: c);
  er_data : n_data nd = echo_message ICMP_ECHO code ick rest;
  er_header : holds (emem s) (moved 20 (n_buf nd)) (header_fields tos len id off ttl IP_PROTO_ICMP ck src dst ++ n_data nd);
  er_ck : length ck = 2%nat;
  er_good : good_message (contents (nd :: c));
  er_fields : byte tos /\ 0 <= len < 65536 /\ 0 <= id < 65536 /\ 0 <= off < 65536 /\ 0 <= ick < 65536 /\ 0 <= src < 2 ^ 32;
  er_room : roomy nd (IP_HLEN + SIZEOF_ETH_HDR);
  er_long : SIZEOF_ICMP_ECHO_HDR <= total (nd :: c);
  er_size : total (nd :: c) + IP_HLEN + SIZEOF_ETH_HDR <= 1500;
  er_mtu : netif_mtu (ipv s) n = 0 \/ total (nd :: c) + IP_HLEN <= netif_mtu (ipv s) n;
  er_arp : arp_ok s;
  er_wire : wire_ok (elink s).1;
  er_hwaddr : length (if_hwaddr (netifs s n)) = 6%nat;
  er_src : current_iphdr_src (ip_data (ipv s)) = src;
  er_resolved : resolved s n src hw
}.

Definition echo_answer (tos len id off src dst code ick : Z) (rest : list Z) : list Z :=
  ip_header tos len id off ICMP_TTL IP_PROTO_ICMP dst src ++ echo_message ICMP_ER code (icmp_adjust_chksum ick) rest.

Lemma chksum_rfc odd data : Forall byte data -> Z.of_nat (length data) <= 0x10000 -> inet_chksum odd data = 0xffff - rfc1071 data.
Proof.
  intros Hb Hl. unfold inet_chksum. rewrite lwip_standard_chksum_rfc1071 by done. apply complement. by destruct (stands_rfc1071 data Hb).
Qed.

Lemma load_dest tos len id off ttl proto ck src dst rest : length ck = 2%nat -> 0 <= dst < 2 ^ 32 ->
  load_word32 (take 4 (drop 16 (header_fields tos len id off ttl proto ck src dst ++ rest))) = dst.
Proof. intros L Hd. do 2 list_cons ck. list_nil ck. exact (load_bytes32 dst Hd). Qed.

Lemma only_block_head l b m : only_block l m (set_pbufs (<[l:=b]> (pbufs m)) m).
Proof. split_and!; [done..|]. intros l' Hl'. split; [|done]. simpl. by rewrite lookup_insert_ne. Qed.

(** The writes of the answer: [K] is what follows, at the memory with the
    answer in place of the request. *)
Lemma wp_echo_written s n nd c tos len_ id off ttl ck src dst code ick rest hw (Q : unit -> eth -> Prop) :
  echo_request s n nd c tos len_ id off ttl ck src dst code ick rest hw ->
  (forall m, only_block (n_loc nd) (emem s) m -> pbufs m = <[n_loc nd := moved 20 (n_buf (reused nd))]> (pbufs (emem s)) ->
     holds m (moved 20 (n_buf (reused nd)))
       (ip_header tos len_ id off ICMP_TTL IP_PROTO_ICMP dst src ++ echo_message ICMP_ER code (icmp_adjust_chksum ick) rest) ->
     wp (ip4_output_if ip4_frag (n_loc nd) (Some dst) None ICMP_TTL 0 IP_PROTO_ICMP n;; mret tt) Q (set_emem m s)) ->
  wp (icmp_echo_reply odd_at ip4_frag (n_loc nd) dst 20 n) Q s.
Proof.
  intros [Hp Ed Hh0 Lck Hgood (Rtos & Rlen & Rid & Roff & Rick & Rsrc) [Hf (o & Ep & Ho)] _ Hsz Hm Hi Hw L Esrc Hr] HQ.
  pose proof (pk_chain _ _ _ Hp) as (_ & Hl & Hh & _). pose proof (pk_totals _ _ _ Hp) as [Et _]. pose proof Hh as [Ld _].
  rewrite total_cons in *. pose proof (total_nonneg c). unfold IP_HLEN, SIZEOF_ETH_HDR in *.
  assert (Hid : forall m, set_emem (emem (set_emem m s)) s = set_emem m s) by done.
  set (b := n_buf nd) in *. set (b0 := moved 20 b) in *. set (l := n_loc nd) in *.
  assert (Ep0 : payload b0 = Some (l, o - 20)) by (by apply moved_payload).
  assert (Epb : ahead 20 (payload b0) (payload b)) by (unfold ahead; rewrite Ep, Ep0; simpl; do 2 f_equal; lia).
  assert (Hb : fst <$> payload b0 = Some l) by (by rewrite Ep0).
  assert (Lb : len b0 = len b + 20 /\ tot_len b0 = tot_len b + 20) by done. destruct Lb as [Lb Tb].
  assert (L4 : 4 <= len b) by (rewrite <- Ld, Ed; unfold echo_message; rewrite !length_app; simpl length; lia).
  unfold icmp_echo_reply. apply wp_bind, wp_on_pbuf, (wp_getp _ b); [done|]. replace (set_emem (emem s) s) with s by (by destruct s).
  apply wp_bind, wp_on_pbuf. eapply wp_of_run; [apply (pbuf_add_header_run _ b); [done|done|exists o; split; [done|lia]|lia..]|].
  cbn [Z.eqb negb]. fold b0. set (m1 := set_pbufs _ _).
  apply wp_bind, wp_on_pbuf. change (emem (set_emem m1 s)) with m1. apply (wp_getp _ b0); [apply lookup_insert_eq|].
  change (set_emem m1 (set_emem m1 s)) with (set_emem m1 s).
  assert (Hh1 : holds m1 b0 (header_fields tos len_ id off ttl IP_PROTO_ICMP ck src dst ++ n_data nd)) by exact Hh0.
  assert (Wr : written l b0 m1 m1 (header_fields tos len_ id off ttl IP_PROTO_ICMP ck src dst ++ n_data nd)) by (split; [by split_and!|done|done]).
  apply wp_bind; eapply (wp_store_field l b0 m1); [exact Wr|exact Hb|lia|cbn [length bytes32]; lia|clear Wr; intros ma Wr].
  apply wp_bind, wp_ip_var. change (ipv (set_emem ma s)) with (ipv s). rewrite Esrc.
  apply wp_bind; eapply (wp_store_field l b0 m1); [exact Wr|exact Hb|lia|cbn [length bytes32]; lia|clear Wr ma; intros ma Wr].
  apply wp_bind; eapply (wp_store_ahead 20 l b0 m1); [exact Epb|exact Wr|exact Hb|lia|cbn [length]; lia|clear Wr ma; intros ma [Oa Epa Hha]].
  set (b1 := set_if_idx NETIF_NO_INDEX b0). apply wp_bind, wp_on_pbuf, (wp_setp _ _ b0).
  { change (emem (set_emem ma s)) with ma. rewrite Epa. apply lookup_insert_eq. }
  change (emem (set_emem ma s)) with ma. set (m2 := set_pbufs _ ma). change (set_emem m2 (set_emem ma s)) with (set_emem m2 s).
  change (payload b0) with (payload b1) in *. change (len b0) with (len b1) in *.
  assert (Wr : written l b1 m2 m2 (splice (Z.to_nat (20 + 0)) [ICMP_ER] (splice (Z.to_nat 16) (bytes32 src) (splice (Z.to_nat 12) (bytes32 dst)
    (header_fields tos len_ id off ttl IP_PROTO_ICMP ck src dst ++ n_data nd))))) by (split; [by split_and!|done|done]).
  pose proof (wr_holds _ _ _ _ _ Wr) as Hh2.
  apply wp_bind. eapply (wp_load16_ahead 20 b1 (payload b)); [exact Epb|exact Hh2|lia|lia|].
  change (Z.to_nat (20 + 2)) with 22%nat. change (Z.to_nat (20 + 0)) with 20%nat in *. change (Z.to_nat 16) with 16%nat in *.
  change (Z.to_nat 12) with 12%nat in *. rewrite Ed in Wr |- *. rewrite loaded_chksum by done.
  apply wp_bind; eapply (wp_store_ahead 20 l b1 m2); [exact Epb|exact Wr|exact Hb|lia|cbn [length bytes16]; lia|clear Wr; intros mb Wr].
  apply wp_bind; eapply (wp_store_field l b1 m2); [exact Wr|exact Hb|lia|cbn [length]; lia|clear Wr mb; intros mb Wr].
  apply wp_bind; eapply (wp_store_field l b1 m2); [exact Wr|exact Hb|lia|cbn [length bytes16]; lia|clear Wr mb; intros mb Wr].
  change (Z.to_nat (20 + 2)) with 22%nat in Wr. change (Z.to_nat 8) with 8%nat in Wr. change (Z.to_nat 10) with 10%nat in Wr.
  change (bytes16 0) with [0; 0] in Wr. unfold echo_message in Wr.
  change ([ICMP_ECHO; code] ++ bytes16 ick ++ rest) with ([ICMP_ECHO; code; ick mod 256; ick / 256 mod 256] ++ rest) in Wr.
  rewrite splice_reply0 in Wr by done. set (h0 := header_fields tos len_ id off ICMP_TTL IP_PROTO_ICMP [0; 0] dst src) in *.
  pose proof (wr_holds _ _ _ _ _ Wr) as Hhb. apply wp_bind; eapply (wp_read_field b1); [exact Hhb|lia|lia|lia|].
  change (Z.to_nat 20) with 20%nat. change (Z.to_nat 0) with 0%nat. rewrite drop_0. unfold h0 at 1. rewrite take_header by done. fold h0.
  assert (Bh : Forall byte h0) by (apply header_fields_bytes; [done|done|done|repeat constructor; done|done..]).
  rewrite chksum_rfc; [|done|unfold h0; rewrite header_fields_length; [lia|done]].
  apply wp_bind; eapply (wp_store_field l b1 m2); [exact Wr|exact Hb|lia|cbn [length bytes16]; lia|clear Wr Hhb mb; intros mc Wr].
  change (Z.to_nat 10) with 10%nat in Wr. unfold h0 in Wr. rewrite splice_chksum in Wr by done. destruct Wr as [Oc Ec Hc].
  change (header_fields tos len_ id off ICMP_TTL IP_PROTO_ICMP (bytes16 _) dst src) with (ip_header tos len_ id off ICMP_TTL IP_PROTO_ICMP dst src) in Hc.
  apply HQ.
  - eauto 6 using only_block_trans, only_block_head.
  - rewrite Ec. simpl. rewrite Epa. apply insert_insert_eq.
  - exact Hc.
Qed.

(** The memory then holds the answer. *)
Lemma echo_packet s n nd c tos len_ id off ttl ck src dst code ick rest hw m :
  echo_request s n nd c tos len_ id off ttl ck src dst code ick rest hw ->
  let b1 := moved 20 (n_buf (reused nd)) in
  let data := ip_header tos len_ id off ICMP_TTL IP_PROTO_ICMP dst src ++ echo_message ICMP_ER code (icmp_adjust_chksum ick) rest in
  only_block (n_loc nd) (emem s) m -> pbufs m = <[n_loc nd := b1]> (pbufs (emem s)) -> holds m b1 data ->
  packet m (Some (n_loc nd)) (Node (n_loc nd) b1 data :: c).
Proof.
  intros [Hp Ed Hh0 Lck _ _ [Hf (o & Ep & Ho)] _ Hsz Hm _ _ _ _ _] b1 data O E H1.
  pose proof (pk_chain _ _ _ Hp) as (_ & Hl & Hh & _). pose proof (pk_totals _ _ _ Hp) as [Et _]. pose proof Hh as [Ld _].
  rewrite total_cons in *. pose proof (total_nonneg c). unfold IP_HLEN, SIZEOF_ETH_HDR in *.
  set (old := header_fields tos len_ id off ttl IP_PROTO_ICMP ck src dst ++ n_data nd).
  assert (Lf : length old = (20 + length (n_data nd))%nat) by (unfold old; rewrite length_app, header_fields_length by done; lia).
  assert (Ldat : length data = length old).
  { rewrite Lf, Ed. unfold data, echo_message. rewrite !length_app, ip_header_length. done. }
  assert (Epb : payload b1 = Some (n_loc nd, o - 20)) by (by apply moved_payload).
  set (mB := set_pbufs (<[n_loc nd:=b1]> (pbufs (emem s))) (emem s)).
  assert (OB : only_block (n_loc nd) mB m).
  { destruct O as (Q1 & Q2 & Q3 & Qo & Q4). split_and!; [done..|]. intros l' Hl'. destruct (Q4 l' Hl') as [-> ->]. split; [|done].
    simpl. by rewrite lookup_insert_ne. }
  apply (packet_block_write mB m (n_loc nd) b1 old); [|done|done|done|by rewrite Epb|done].
  apply (packet_head (emem s) nd c); [done|done|unfold node_area; by rewrite Epb, Ep| | |].
  - change (tot_len b1) with (tot_len (n_buf nd) + 20). rewrite Lf. lia.
  - rewrite Lf. lia.
  - by apply (holds_same_bytes (emem s) _ (moved 20 (n_buf nd))).
Qed.

Lemma wp_echo_reply s n nd c tos len_ id off ttl ck src dst code ick rest hw :
  echo_request s n nd c tos len_ id off ttl ck src dst code ick rest hw ->
  wp (icmp_echo_reply odd_at ip4_frag (n_loc nd) dst 20 n)
    (fun _ s' => exists r, ip_sent n (reused nd) c (IP_HLEN + SIZEOF_ETH_HDR) (ipv s) (echo_answer tos len_ id off src dst code ick (rest ++ contents c)) hw s r s') s.
Proof.
  intros Hreq. eapply wp_echo_written; [exact Hreq|]. intros mc O E Hh1.
  pose proof (echo_packet s n nd c tos len_ id off ttl ck src dst code ick rest hw mc Hreq O E Hh1) as Hp1.
  destruct Hreq as [Hp Ed _ Lck _ (Rtos & Rlen & Rid & Roff & Rick & Rsrc) [Hf (o & Ep & Ho)] _ Hsz Hm Hi Hw L Esrc Hr].
  pose proof (pk_chain _ _ _ Hp) as (_ & _ & [Ld _] & _). rewrite total_cons in *. pose proof (total_nonneg c). unfold IP_HLEN, SIZEOF_ETH_HDR in *.
  remember (ip_header tos len_ id off ICMP_TTL IP_PROTO_ICMP dst src) as h eqn:Eh. assert (Lh : length h = 20%nat) by (rewrite Eh; apply ip_header_length).
  set (msg := echo_message ICMP_ER code (icmp_adjust_chksum ick) rest) in *. set (b1 := moved 20 (n_buf (reused nd))) in *. set (l := n_loc nd) in *.
  assert (Hdst : load_word32 (take 4 (drop 16 (h ++ msg))) = src) by (rewrite Eh; by apply load_dest).
  set (nd1 := Node l b1 (h ++ msg)) in *.
  assert (Ld1 : length (n_data nd1) = (20 + length (n_data nd))%nat).
  { unfold nd1, msg. rewrite Ed. unfold echo_message. cbn [n_data]. rewrite !length_app, Lh. done. }
  assert (Ec1 : contents (nd1 :: c) = echo_answer tos len_ id off src dst code ick (rest ++ contents c)).
  { rewrite contents_cons. unfold echo_answer, nd1, msg, echo_message. cbn [n_data]. rewrite <- Eh. by rewrite <- !app_assoc. }
  assert (Lt : total (nd1 :: c) = total (nd :: c) + 20) by (rewrite !total_cons, Ld1; lia).
  apply wp_bind. eapply wp_mono; [apply (wp_ip4_output_hdrincl nd1 c n src hw (Some dst) ICMP_TTL 0 IP_PROTO_ICMP (set_emem mc s)); [done| |done| |done|done|]|].
  - split; [exact Hp1| |rewrite Lt, total_cons; unfold SIZEOF_ETH_HDR; lia|exact Hw]. split; [done|].
    exists (o - 20). split; [by apply moved_payload|unfold SIZEOF_ETH_HDR; lia].
  - change (len (n_buf nd1)) with (len (n_buf nd) + 20). lia.
  - change (netif_mtu (ipv (set_emem mc s)) n) with (netif_mtu (ipv s) n). rewrite Lt, total_cons. lia.
  - intros r s' (j & m' & w' & data & -> & Hj & Hw' & Os & Hp' & Hc' & Hrel). apply wp_ret. exists r. rewrite Ec1 in Hc', Hrel.
    change (n_loc nd1) with (n_loc (reused nd)) in *. change (n_buf nd1) with (moved 20 (n_buf (reused nd))) in *. rewrite moved_add in *.
    exists j, m', w', data. split_and!; [done|lia|lia|done|by eapply only_block_trans|done|done|done].
Qed.
Lemma wp_make_room s nd c iphdr hlen (Q : option loc -> eth -> Prop) :
  packet (emem s) (Some (n_loc nd)) (nd :: c) -> roomy nd (hlen + 14) -> 0 <= hlen -> total (nd :: c) + hlen + 14 < 65536 ->
  Q (Some (n_loc nd)) s -> wp (icmp_make_room (n_loc nd) iphdr hlen) Q s.
Proof.
  intros Hp [Hf (o & Ep & Ho)] Hh Ht HQ. unfold icmp_make_room, PBUF_LINK_HLEN, PBUF_LINK_ENCAPSULATION_HLEN.
  destruct (pbuf_add_remove_header (emem s) nd c o (hlen + 14 + 0) Hp Hf Ep) as [Hadd _]; [lia|lia|].
  destruct (Hadd ltac:(lia)) as (m' & nd' & hdr & Ea & _ & _ & _ & Er).
  apply wp_bind, wp_on_pbuf. eapply wp_of_run; [exact Ea|]. cbn [Z.eqb negb].
  apply wp_bind, wp_on_pbuf. eapply wp_of_run; [exact Er|]. cbn [Z.eqb negb]. apply wp_ret.
  change (set_emem (emem s) (set_emem m' s)) with (set_emem (emem s) s). by replace (set_emem (emem s) s) with s by (by destruct s).
Qed.

(** The interface and the addresses of the packet that is being processed. *)
Record addressed (s : eth) (a : nat) (iphdr : option ptr) (dst : Z) : Prop := {
  ad_header : current_ip4_header (ip_data (ipv s)) = iphdr;
  ad_netif : current_netif (ip_data (ipv s)) = Some a;
  ad_dest : current_iphdr_dest (ip_data (ipv s)) = dst;
  ad_multicast : ip4_addr_ismulticast dst = false;
  ad_broadcast : ip4_addr_isbroadcast dst (netifs s a) = false
}.

(** The packet has been answered by the IP packet [pkt], sent to [hw], and then
    released. *)
Definition answered_with (n : nat) (nd : node) (c : list node) (v : ip_vars) (pkt hw : list Z) (s s' : eth) : Prop :=
  exists r s1 k m', ip_sent n nd c (IP_HLEN + SIZEOF_ETH_HDR) v pkt hw s r s1 /\
    pbuf_free (Some (n_loc nd)) (emem s1) = Ret k m' /\ s' = set_emem m' s1.

Lemma releasable_moved k nd c data : releasable (nd :: c) -> releasable (Node (n_loc nd) (moved k (n_buf (reused nd))) data :: c).
Proof. intros [[Hr Ht] Hc]%Forall_cons. by apply Forall_cons. Qed.

Lemma header_first tos len id off ttl proto ck src dst rest : length ck = 2%nat ->
  take 1 (header_fields tos len id off ttl proto ck src dst ++ rest) = [0x45].
Proof. done. Qed.

Lemma wp_icmp_echo s n a nd c tos len_ id off ttl ck src dst code ick rest hw :
  echo_request s n nd c tos len_ id off ttl ck src dst code ick rest hw -> releasable (nd :: c) ->
  addressed s a (payload (moved 20 (n_buf nd))) dst ->
  wp (icmp_input odd_at ip4_frag (n_loc nd) n)
    (fun _ s' => answered_with n (reused nd) c (ipv s) (echo_answer tos len_ id off src dst code ick (rest ++ contents c)) hw s s') s.
Proof.
  intros Hreq Hrel [Eh En Ed Hmc Hbc]. pose proof Hreq as [Hp Edata Hh0 Lck [Hby Hsum] _ Hroom H8 Hsz _ _ _ _ _ _].
  pose proof (pk_chain _ _ _ Hp) as (_ & Hl & Hh & _). pose proof (pk_totals _ _ _ Hp) as [Et _]. pose proof Hh as [Ld _].
  pose proof (total_nonneg c). assert (Hid : set_emem (emem s) s = s) by (by destruct s).
  assert (L4 : 4 <= len (n_buf nd)) by (rewrite <- Ld, Edata; unfold echo_message; rewrite !length_app; simpl length; lia).
  unfold IP_HLEN, SIZEOF_ETH_HDR in *. unfold icmp_input. apply wp_bind, wp_ip_var. rewrite Eh. unfold load8 at 1.
  apply wp_bind, wp_bind. eapply wp_read_field; [exact Hh0|lia|lia|simpl; lia|]. change (Z.to_nat 1) with 1%nat. change (Z.to_nat 0) with 0%nat.
  rewrite drop_0, header_first by done. apply wp_ret. change (IPH_HL_BYTES (nth 0 [0x45] 0)) with 20. cbv zeta.
  apply wp_bind, wp_on_pbuf, (wp_getp _ (n_buf nd)); [done|]. rewrite Hid. change (20 <? IP_HLEN) with false. cbn [orb].
  rewrite (proj2 (Z.ltb_ge _ _)) by lia. unfold load8. apply wp_bind, wp_bind.
  apply (wp_read_field _ (n_data nd)); [done|lia|lia|lia|]. apply wp_ret. change (Z.to_nat 1) with 1%nat. change (Z.to_nat 0) with 0%nat.
  rewrite drop_0, Edata. change (nth 0 (take 1 (echo_message ICMP_ECHO code ick rest)) 0 =? ICMP_ECHO) with true. cbv iota.
  unfold ip4_current_dest_addr. apply wp_bind, wp_ip_var. rewrite Ed. apply wp_bind, wp_ip_var. rewrite Hmc, En.
  apply wp_bind, wp_ret, wp_bind, wp_gets. rewrite Hbc, Et.
  rewrite (proj2 (Z.ltb_ge _ _)) by done.
  apply wp_bind, wp_on_pbuf. eapply wp_inet_chksum_pbuf; [exact Hp|exact Hby|]. rewrite Hsum, Hid.
  cbn [Z.sub Z.eqb negb]. change (negb (65535 - 65535 =? 0)) with false. cbv iota.
  apply wp_bind, (wp_make_room s nd c); [done|done|lia|lia|]. cbv iota.
  apply wp_bind. eapply wp_mono; [by apply (wp_echo_reply s n nd c tos len_ id off ttl ck src dst code ick rest hw)|].
  intros [] s' [r Hsent]. pose proof Hsent as (j & m' & w' & data & -> & _ & _ & _ & Hp' & _). unfold icmp_done.
  apply wp_bind, wp_on_pbuf. change (emem (set_elink _ (set_emem m' _))) with m'.
  pose proof (pbuf_free_run m' _ _ (pk_chain _ _ _ Hp') (pk_locs _ _ _ Hp') (releasable_moved _ nd c data Hrel)) as Ef.
  eapply wp_of_run; [exact Ef|]. apply wp_ret. eexists r, _, _, _. split_and!; [exact Hsent|exact Ef|reflexivity].
Qed.
End Echo.
