(* ===== verification/FragFacts.v ===== *)
(** Fragmentation: what [ip4_frag] sends, and that the packet is left as it
    was. *)
From stdpp Require Import functions.
From S2P Require Import Prelude Memp Pbuf PbufFacts PbufUpdate PbufAlloc PbufChain PbufRealloc PbufRam Chksum ChksumFacts Ip4Addr Ethernet.
From S2P Require Import Etharp EtharpTable EtharpInv EtharpSend EtharpReply EtharpOutput Ip Icmp Frag FragCopy IpFacts IcmpFacts.

(** ** The fragments *)

(** The data of a packet cut up: the offset field of each fragment, with MF,
    and its bytes. [fits] is what the code takes for room enough for the rest. *)
Fixpoint cut (fuel : nat) (nfb fits : Z) (mf : bool) (ofo : Z) (data : list Z) : list (Z * list Z) :=
  match fuel, data with
  | S fuel, _ :: _ =>
      let k := Z.min (Z.of_nat (length data)) (nfb * 8) in
      let last := Z.of_nat (length data) <=? fits in
      let field := if negb last || mf then Z.lor (Z.land IP_OFFMASK ofo) IP_MF else Z.land IP_OFFMASK ofo in
      (field, take (Z.to_nat k) data) :: cut fuel nfb fits mf (u16 (ofo + nfb)) (drop (Z.to_nat k) data)
  | _, _ => []
  end.

(** A fragment as an IP packet. *)
Definition frag_packet (tos id ttl proto src dst : Z) (f : Z * list Z) : list Z :=
  ip_header tos (20 + Z.of_nat (length f.2)) id f.1 ttl proto src dst ++ f.2.

(** The fragments of a packet with the offset field [off] on an interface that
    takes [mtu] bytes. *)
Definition cut_packet (mtu off : Z) (data : list Z) : list (Z * list Z) :=
  cut (length data) ((mtu - 20) / 8) (mtu - 20) (has off IP_MF) (Z.land off IP_OFFMASK) data.

(** ** The header of a fragment *)

Lemma splice_frag (data : list Z) tos len id off ttl proto ck src dst len' off' ck' : length ck = 2%nat -> length ck' = 2%nat ->
  splice 10 [0; 0] (splice 2 (be16 len') (splice 6 (be16 off') (header_fields tos len id off ttl proto ck src dst))) =
    header_fields tos len' id off' ttl proto [0; 0] src dst /\
  splice 10 ck' (header_fields tos len' id off' ttl proto [0; 0] src dst) = header_fields tos len' id off' ttl proto ck' src dst.
Proof. intros L L'. do 2 list_cons ck. list_nil ck. do 2 list_cons ck'. list_nil ck'. by split. Qed.

Section Facts.
Context `{WL : WireLaws} `{HL : !HeapLaws} `{BU : !Build} (depth : nat) (odd_at : option ptr -> bool).
#[local] Instance facts_refs : CustomFree := frag_custom_free (S depth).

Lemma wp_fill_header s nd c tos len_ id off ttl proto ck src dst tmp k (Q : unit -> eth -> Prop) :
  packet (emem s) (Some (n_loc nd)) (nd :: c) -> node_area nd = Some (n_loc nd) ->
  n_data nd = header_fields tos len_ id off ttl proto ck src dst -> length ck = 2%nat -> byte tos -> byte ttl -> byte proto ->
  0 <= id < 65536 -> 0 <= tmp < 65536 -> 0 <= k -> 20 + k < 65536 ->
  (forall m', only_block (n_loc nd) (emem s) m' -> pbufs m' = pbufs (emem s) ->
     packet m' (Some (n_loc nd)) (Node (n_loc nd) (n_buf nd) (ip_header tos (20 + k) id tmp ttl proto src dst) :: c) -> Q tt (set_emem m' s)) ->
  wp (frag_fill_header odd_at (payload (n_buf nd)) tmp k) Q s.
Proof.
  intros Hp Ho Ed Lck B1 B2 B3 Rid Rtmp Hk Hk2 HQ. pose proof (pk_chain _ _ _ Hp) as (_ & Hl & Hh & _). pose proof Hh as [L _].
  assert (L20 : length (n_data nd) = 20%nat) by (rewrite Ed; by apply header_fields_length).
  assert (Wr : written (n_loc nd) (n_buf nd) (emem s) (emem s) (n_data nd)) by (split; [by split_and!|done|done]).
  unfold frag_fill_header. replace s with (set_emem (emem s) s) at 1 by (by destruct s).
  do 3 (apply wp_bind; eapply (wp_store_field (n_loc nd) (n_buf nd) (emem s)); [exact Wr|exact Ho|lia|cbn [length bytes16]; lia|clear Wr; intros ? Wr]).
  rewrite u16_small, Z.add_comm, !htons_bytes in Wr by (unfold IP_HLEN; lia). change (bytes16 0) with [0; 0] in Wr. change (IP_HLEN + k) with (20 + k) in Wr.
  change (Z.to_nat 10) with 10%nat in Wr. change (Z.to_nat 6) with 6%nat in Wr. change (Z.to_nat 2) with 2%nat in Wr.
  set (h0 := header_fields tos (20 + k) id tmp ttl proto [0; 0] src dst) in *.
  destruct (splice_frag (n_data nd) tos len_ id off ttl proto ck src dst (20 + k) tmp (bytes16 (0xffff - rfc1071 h0)) Lck eq_refl) as [E1 E2].
  fold h0 in E1, E2. rewrite Ed, E1 in Wr. assert (L0 : length h0 = 20%nat) by (by apply header_fields_length).
  pose proof (wr_holds _ _ _ _ _ Wr) as Hh1. unfold IP_HLEN. apply wp_bind; eapply (wp_read_field (n_buf nd)); [exact Hh1|lia|lia|lia|].
  change (Z.to_nat 20) with 20%nat. change (Z.to_nat 0) with 0%nat. rewrite drop_0, take_ge by lia.
  assert (Bh : Forall byte h0) by (apply header_fields_bytes; try done; try lia; repeat constructor; done). rewrite chksum_rfc; [|done|lia].
  eapply (wp_store_field (n_loc nd) (n_buf nd) (emem s)); [exact Wr|exact Ho|lia|cbn [length bytes16]; lia|clear Wr Hh1; intros m2 [O E Hh2]].
  change (Z.to_nat 10) with 10%nat in Hh2. rewrite E2 in Hh2. apply HQ; [done|done|].
  apply (packet_block_write (emem s) m2 _ _ (n_data nd)); [destruct nd; exact Hp|exact Hh2|exact O|exact E|exact Ho|].
  by rewrite ip_header_length.
Qed.

(** ** The memory around a fragment *)

(** Nothing a client of the memory can see has changed. *)
Record settled (m m' : mem) : Prop := {
  se_pbufs : pbufs m' = pbufs m;
  se_bytes : bytes m' = bytes m;
  se_pending : pbuf_free_ooseq_pending m' = pbuf_free_ooseq_pending m;
  se_pools : forall t, t <> MEMP_FRAG_PBUF -> mpools m' t = mpools m t;
  se_frags : mpools m' MEMP_FRAG_PBUF ≡ₚ mpools m MEMP_FRAG_PBUF
}.

Lemma settled_refl m : settled m m.
Proof. done. Qed.

Lemma settled_trans m1 m2 m3 : settled m1 m2 -> settled m2 m3 -> settled m1 m3.
Proof.
  intros [P1 B1 N1 Q1 F1] [P2 B2 N2 Q2 F2]. split; try congruence; [intros t Ht; by rewrite Q2, Q1|by rewrite F2].
Qed.

Lemma settled_ready m m' σ : settled m m' -> owns (heap m') σ -> heap_ready m σ -> heap_ready m' σ.
Proof. intros [P1 B1 _ _ _] Ho [_ Hr]. split; [done|]. by rewrite P1, B1. Qed.

Lemma settled_packet m m' p c : settled m m' -> packet m p c -> packet m' p c.
Proof. intros [P1 B1 _ _ _] Hp. apply (packet_frame m); [done|done|]. by rewrite P1. Qed.

Lemma settled_frags m m' : settled m m' -> frags_ready m -> frags_ready m'.
Proof. intros [P1 _ _ _ F1] [Hn Hf]. split; [by rewrite F1|]. intros i. rewrite F1, P1. apply Hf. Qed.

(** The block of the header while nothing else of the memory has changed. *)
Record opened (o k : Z) (σ : gmap Z Z) (m0 m1 : mem) : Prop := {
  op_fresh : σ !! o = None;
  op_owns : owns (heap m1) (<[o := k]> σ);
  op_frame : forall l, l <> Heap o -> pbufs m1 !! l = pbufs m0 !! l /\ bytes m1 !! l = bytes m0 !! l;
  op_pools0 : mpools m1 = mpools m0;
  op_pend : pbuf_free_ooseq_pending m1 = pbuf_free_ooseq_pending m0
}.

Lemma undone_settled o k σ m0 m1 m' : heap_ready m0 σ -> opened o k σ m0 m1 -> undone o m1 m' -> settled m0 m' /\ heap_ready m' σ.
Proof.
  intros Hr [Hf Ho Hfr Hpl Hpd] [U1 U2 U3 U4 U5 U6]. pose proof Hr as [_ Hr0]. destruct (Hr0 o Hf) as [Hp0 Hb0].
  assert (Hs : settled m0 m').
  { split; [| |congruence|intros t Ht; by rewrite U5, Hpl|by rewrite U6, Hpl].
    - rewrite U1. apply map_eq. intros l. destruct (decide (l = Heap o)) as [->|Hne]; [by rewrite lookup_delete_eq|].
      rewrite lookup_delete_ne by done. by apply Hfr.
    - rewrite U2. apply map_eq. intros l. destruct (decide (l = Heap o)) as [->|Hne]; [by rewrite lookup_delete_eq|].
      rewrite lookup_delete_ne by done. by apply Hfr. }
  split; [done|]. apply (settled_ready m0); [done| |done]. rewrite U3, <- (delete_insert_id σ o k) by done.
  apply law_free; [done|]. rewrite lookup_insert_eq. eauto.
Qed.

(** What the block does not hold is as it was. *)
Lemma opened_holds o k σ m0 m1 b data : heap_ready m0 σ -> opened o k σ m0 m1 -> holds m0 b data ->
  holds m1 b data /\ fst <$> payload b <> Some (Heap o).
Proof.
  intros [_ Hr] Hop [L Hh]. destruct (Hr o (op_fresh _ _ _ _ _ Hop)) as [_ Hb0].
  split.
  - split; [done|]. destruct (payload b) as [[blk off]|]; [|done]. destruct Hh as (a & Ea & Hh). exists a. split; [|done].
    rewrite (proj2 (op_frame _ _ _ _ _ Hop blk ltac:(intros ->; congruence))). done.
  - destruct (payload b) as [[blk off]|]; [|done]. destruct Hh as (a & Ea & _). intros [= ->]. congruence.
Qed.

Lemma chain_suffix m a b : forall p, chain m p (a ++ b) -> chain m (first_loc b) b.
Proof.
  induction a as [|n a IH]; intros p Hc; [|destruct Hc as (_ & _ & _ & Hc); by eapply IH].
  cbn [app] in Hc. by destruct (chain_next _ _ _ Hc) as (<- & _).
Qed.

Lemma opened_sources o k σ m0 m1 ram whole used c0 : heap_ready m0 σ -> opened o k σ m0 m1 -> header_pbuf o ram ->
  packet m0 (first_loc whole) whole -> Forall (fun x => 1 <= ref (n_buf x) < 255) whole -> whole = used ++ c0 -> sources m1 ram [] c0.
Proof.
  intros Hr Hop [L A _ _] [Hc Ht Hl Ha Hb] Href ->. pose proof Hr as [_ Hr0]. destruct (Hr0 o (op_fresh _ _ _ _ _ Hop)) as [Hp0 Hb0].
  destruct (chain_next _ _ _ Hc) as (_ & Hat & _).
  assert (Hok : Forall (source_ok m1 ram) c0).
  { apply Forall_forall. intros x Hx. assert (Hxw : x ∈ used ++ c0) by (apply elem_of_app; by right). specialize (Hat x Hxw).
    assert (Hne : n_loc x <> Heap o) by congruence. pose proof (chain_holds _ _ _ _ Hc Hxw) as Hxh.
    destruct (opened_holds _ _ _ _ _ _ _ Hr Hop Hxh) as [Hh1 Hna]. rewrite Forall_forall in Href. split; [|done|by rewrite L| |by apply Href].
    - by rewrite (proj1 (op_frame _ _ _ _ _ Hop _ Hne)).
    - rewrite A. intros a E E'. apply Hna. unfold node_area in E. congruence. }
  assert (Hc0 : chain m0 (first_loc c0) c0) by (by eapply chain_suffix).
  split; [|rewrite map_app in Hl; by apply NoDup_app in Hl as (_ & _ & ?)|rewrite omap_app in Ha; by apply NoDup_app in Ha as (_ & _ & ?)|done|].
  - revert Hc0. apply chain_frame.
    + intros x Hx. rewrite Forall_forall in Hok. specialize (Hok x Hx). rewrite (so_here _ _ _ Hok). symmetry. apply Hat, elem_of_app. by right.
    + intros x blk Hx Ebl. apply (op_frame _ _ _ _ _ Hop). intros ->. rewrite Forall_forall in Hok. apply (so_area _ _ _ (Hok x Hx) _ Ebl), A.
  - rewrite total_app in Hb. pose proof (total_nonneg used). lia.
Qed.

(** ** One fragment *)

(** The pbuf of the header, as allocated. *)
Lemma wp_frag_begin s o k a h' σ bh dh hdr (Q : option ptr -> eth -> Prop) : heap_ready (emem s) σ -> σ !! o = None -> owns h' (<[o := k]> σ) ->
  16 + 20 <= Z.of_nat (length a) -> holds (emem s) bh dh -> 20 <= len bh -> take 20 dh = hdr ->
  (forall m1, let ram := Node (Heap o) (ram_buf o PBUF_LINK 20) hdr in opened o k σ (emem s) m1 -> packet m1 (Some (Heap o)) [ram] ->
     Q (payload (n_buf ram)) (set_emem m1 s)) ->
  wp (frag_begin (Heap o) (payload bh)) Q (set_emem (ram_alloced o PBUF_LINK 20 a h' (emem s)) s).
Proof.
  intros Hr Hf Ho Ha Hh Hl Eh HQ. set (m1 := ram_alloced _ _ _ _ _ _). set (b := ram_buf o PBUF_LINK 20).
  destruct (ram_buf_written o 20 a h' (emem s) ltac:(done) Ha) as (data & Ld & Hp). fold b m1 in Hp.
  assert (Hop : opened o k σ (emem s) m1).
  { split; [done|done| |done|done]. intros l Hne. cbn [m1 ram_alloced pbufs bytes set_pbufs set_bytes set_heap]. by rewrite !lookup_insert_ne. }
  destruct (opened_holds _ _ _ _ _ _ _ Hr Hop Hh) as [Hh1 _]. pose proof (pk_chain _ _ _ Hp) as (_ & Hlk & Hhb & _). cbn [n_loc n_buf n_data] in *.
  assert (L20 : length hdr = 20%nat) by (subst hdr; rewrite length_take; destruct Hh as [L _]; lia).
  unfold frag_begin. apply wp_bind, wp_on_pbuf, (wp_getp _ b); [done|]. cbv zeta. emem_simpl.
  apply wp_bind, (wp_read_field bh dh); [exact Hh1|done|done|done|]. change (Z.to_nat 0) with 0%nat. rewrite drop_0. change (Z.to_nat IP_HLEN) with 20%nat.
  rewrite Eh. apply wp_bind. eapply (wp_store_field (Heap o) b m1 m1 _ data); [by split|done|done|cbn [len b ram_buf]; lia|].
  intros m2 [O E Hh2]. apply wp_ret. change (Z.to_nat 0) with 0%nat in Hh2.
  assert (Es : splice 0 hdr data = hdr) by (unfold splice; rewrite take_0, drop_ge by lia; by rewrite app_nil_r). rewrite Es in Hh2.
  destruct O as (O1 & O2 & O3 & O4 & O5). apply HQ.
  - split; [done|by rewrite O1| |by rewrite O2|by rewrite O3]. intros l Hne. destruct (O5 l Hne) as [-> ->]. by apply (op_frame _ _ _ _ _ Hop).
  - apply (packet_block_write m1 m2 _ _ data); [done|done|by split_and!|done|done|lia].
Qed.

(** The state [s'] is [s] after the packet [pkt] went to [hw] in a frame. *)
Definition frag_sent (n : nat) (hw pkt : list Z) (σ : gmap Z Z) (s s' : eth) : Prop := exists j m' w' r,
  s' = set_elink (w', ipv s) (set_emem m' (set_cached j s)) /\ settled (emem s) m' /\ heap_ready m' σ /\ wire_ok w' /\
  arp_ok s' /\ young_table s' /\ wire_rel n (frame hw (if_hwaddr (netifs s n)) ETHTYPE_IP pkt) (elink s).1 r w'.

Lemma wp_both {S A} (m : M S A) Q1 Q2 s : wp m Q1 s -> (forall a s', m s = Ret a s' -> Q2 a s') -> wp m (fun a s' => Q1 a s' /\ Q2 a s') s.
Proof. unfold wp. destruct (m s) as [a s'|]; [|done]. intros H1 H2. split; [done|by apply H2]. Qed.

(** The interface is ready to send to [ip]. *)
Record ready_to (s : eth) (n : nat) (ip : Z) (hw : list Z) : Prop := {
  rd_arp : arp_ok s;
  rd_young : young_table s;
  rd_wire : wire_ok (elink s).1;
  rd_hwaddr : length (if_hwaddr (netifs s n)) = 6%nat;
  rd_resolved : resolved s n ip hw
}.

(** [etharp_output] of a packet, and the state of ARP behind it. *)
Lemma wp_output_keeps s n nd c ip hw : ready_to s n ip hw -> sendable s nd c ->
  wp (netif_output n (n_loc nd) ip) (fun r s' => framed n nd c hw s r s' /\ arp_ok s' /\ young_table s') s.
Proof.
  intros [Hi Hy _ L Hr] Hs. apply (wp_both (etharp_output n (n_loc nd) ip)).
  - by apply wp_etharp_output.
  - intros r s' E. pose proof (keeps_output n (n_loc nd) ip s Hi Hy) as Hk. unfold safe in Hk. by rewrite E in Hk.
Qed.

Lemma wp_frag_send s o k σ m1 ram srcs c mC n ip hw tos len_ id off ttl proto ck src dst tmp :
  heap_ready (emem s) σ -> opened o k σ (emem s) m1 -> copying m1 ram srcs c mC -> ready_to s n ip hw ->
  ram = Node (Heap o) (ram_buf o PBUF_LINK 20) (header_fields tos len_ id off ttl proto ck src dst) ->
  length ck = 2%nat -> byte tos -> byte ttl -> byte proto -> 0 <= id < 65536 -> 0 <= tmp < 65536 -> total c + 34 <= 1500 ->
  wp (frag_fill_header odd_at (payload (n_buf ram)) tmp (total c);; netif_output n (Heap o) ip;; on_pbuf (pbuf_free (Some (Heap o))))
    (fun _ s' => frag_sent n hw (ip_header tos (20 + total c) id tmp ttl proto src dst ++ contents c) σ s s') (set_emem mC s).
Proof.
  intros Hr Hop Hc Hrd Eram Lck B1 B2 B3 Rid Rtmp Hlen. pose proof (total_nonneg c) as Hc0.
  pose proof (cp_packet _ _ _ _ _ Hc) as (ram' & Lr & Hp). assert (Hram : header_pbuf o ram) by (by rewrite Eram).
  pose proof (header_linked o ram ram' Hram Lr) as Hram'. rewrite (hp_loc _ _ Hram) in Hp. pose proof Lr as [L1 L2 L3 L4 L5 L6 L7].
  rewrite <- L3. rewrite <- (hp_loc _ _ Hram') in Hp.
  apply wp_bind, (wp_fill_header _ ram' c tos len_ id off ttl proto ck src dst); try done; [by rewrite (hp_loc _ _ Hram'), (hp_area _ _ Hram')|by rewrite L2, Eram|lia|].
  intros m2 O2 E2 Hp2. emem_simpl. rewrite (hp_loc _ _ Hram') in *. set (h := ip_header _ _ _ _ _ _ _ _) in *. set (nd := Node (Heap o) (n_buf ram') h) in *.
  assert (Lh : length h = 20%nat) by apply ip_header_length.
  assert (Hs : sendable (set_emem m2 s) nd c).
  { split; [exact Hp2| |rewrite total_cons; cbn [n_data nd]; unfold SIZEOF_ETH_HDR; lia|apply Hrd].
    split; [cbn [n_buf nd]; by rewrite L5, Eram|]. exists 16. cbn [n_buf nd n_loc]. by rewrite L3, Eram. }
  apply wp_bind. eapply wp_mono; [apply (wp_output_keeps (set_emem m2 s) n nd c ip hw); [by destruct Hrd|done]|].
  intros r s' ((j & m3 & [w' v'] & data3 & -> & _ & Hlk & O3 & Hp3 & _ & Hrel) & Ha & Hy). cbn in Hrel, Hlk. destruct Hrel as [Hrel Ev]. change (ipv (set_emem m2 s)) with (ipv s) in Ev.
  assert (O : only_block (Heap o) mC m3) by (eapply only_block_trans; [exact O2|exact O3]). destruct O as (Q1 & Q2 & Q3 & Q4 & Q5).
  apply wp_on_pbuf. cbn [emem set_elink set_emem set_cached]. cbn [n_loc n_buf nd] in Hp3.
  apply (wp_undo depth o ram srcs c m1 mC m3 (Node (Heap o) (moved SIZEOF_ETH_HDR (n_buf ram')) data3)); try done.
  - destruct Hram' as [_ A1 A2 A3]. split; [done| |done|done]. unfold node_area, moved in *. cbn [n_buf payload set_tot_len set_len set_payload]. by destruct (payload (n_buf ram')) as [[]|].
  - apply map_eq. intros l. destruct (decide (l = Heap o)) as [->|Hne]; [by rewrite !lookup_delete_eq|]. rewrite !lookup_delete_ne by done. by apply Q5.
  - apply map_eq. intros l. destruct (decide (l = Heap o)) as [->|Hne]; [by rewrite !lookup_delete_eq|]. rewrite !lookup_delete_ne by done. by apply Q5.
  - intros x m' Hu. destruct (undone_settled o k σ (emem s) m1 m' Hr Hop Hu) as [Hse Hre].
    exists j, m', w', r. split_and!; [by rewrite Ev|done|done|done|exact Ha|exact Hy|]. exact Hrel.
Qed.

(** ** All fragments *)

(** The driver was given the frames, one after the other. *)
Inductive wires (n : nat) : list (list Z) -> wstate -> wstate -> Prop :=
| wires_none w : wires n [] w w
| wires_more f fs w r w1 w2 : wire_rel n f w r w1 -> wires n fs w1 w2 -> wires n (f :: fs) w w2.

(** The packet [whole] in the state in which it is fragmented. *)
Record frag_env (whole : list node) (n : nat) (ip : Z) (hw : list Z) (mtu : Z) (σ : gmap Z Z) (s : eth) : Prop := {
  fe_packet : packet (emem s) (first_loc whole) whole;
  fe_refs : Forall (fun x => 1 <= ref (n_buf x) < 255) whole;
  fe_heap : heap_ready (emem s) σ;
  fe_frags : frags_ready (emem s);
  fe_ready : ready_to s n ip hw;
  fe_mtu : netif_mtu (ipv s) n = mtu
}.

(** Only the driver, ARP's hint and the free memory may differ. *)
Definition sent_all (n : nat) (hw : list Z) (pkts : list (list Z)) (s s' : eth) : Prop := exists j m' w',
  s' = set_elink (w', ipv s) (set_emem m' (set_cached j s)) /\ settled (emem s) m' /\
  wires n (map (frame hw (if_hwaddr (netifs s n)) ETHTYPE_IP) pkts) (elink s).1 w'.

Lemma sent_nothing n hw s m' : settled (emem s) m' -> sent_all n hw [] s (set_emem m' s).
Proof. intros Hs. exists (etharp_cached_entry s), m', (elink s).1. split_and!; [by destruct s as [? [] ? ? ?]|done|constructor]. Qed.

Lemma sent_more n hw σ pkt pkts s s1 s2 : frag_sent n hw pkt σ s s1 -> sent_all n hw pkts s1 s2 -> sent_all n hw (pkt :: pkts) s s2.
Proof.
  intros (j & m1 & w1 & r & -> & Hs1 & _ & _ & _ & _ & Hw) (j2 & m2 & w2 & -> & Hs2 & Hws). cbn in Hs2, Hws. exists j2, m2, w2.
  split_and!; [done|by eapply settled_trans|]. cbn [map]. by econstructor.
Qed.

Lemma env_settled whole n ip hw mtu σ s j m' w' : frag_env whole n ip hw mtu σ s -> settled (emem s) m' -> heap_ready m' σ ->
  wire_ok w' -> arp_ok (set_elink (w', ipv s) (set_emem m' (set_cached j s))) -> young_table s ->
  frag_env whole n ip hw mtu σ (set_elink (w', ipv s) (set_emem m' (set_cached j s))).
Proof.
  intros [Hp Hr Hh Hf [R1 R2 R3 R4 R5] Hm] Hs Hh' Hw Ha Hy.
  split; [by eapply settled_packet|done|done|by eapply settled_frags| |done]. by split.
Qed.

Lemma field_range (b : bool) x : 0 <= (if b then Z.lor (Z.land IP_OFFMASK x) IP_MF else Z.land IP_OFFMASK x) < 65536.
Proof.
  unfold IP_OFFMASK, IP_MF. change 0x1fff with (Z.ones 13). rewrite (Z.land_comm _ x), Z.land_ones by lia. pose proof (Z.mod_pos_bound x (2 ^ 13)) as Hb. destruct b; [|lia].
  change 0x2000 with (1 * 2 ^ 13). rewrite (lor_low _ 1 13) by lia. lia.
Qed.

(** The header of the packet, in its first pbuf. *)
Record frag_header (h0 : node) (tos len_ id off ttl proto : Z) (ck : list Z) (src dst : Z) : Prop := {
  fh_bytes : take 20 (n_data h0) = header_fields tos len_ id off ttl proto ck src dst;
  fh_ck : length ck = 2%nat;
  fh_args : header_args src dst ttl tos proto;
  fh_id : 0 <= id < 65536;
  fh_off : 0 <= off < 65536
}.

Lemma frag_header_room h0 tos len_ id off ttl proto ck src dst : frag_header h0 tos len_ id off ttl proto ck src dst -> (20 <= length (n_data h0))%nat.
Proof. intros [E L _ _ _]. apply (f_equal length) in E. rewrite header_fields_length, length_take in E by done. lia. Qed.

(** Where the next fragment begins. *)
Record cursor (whole : list node) (poff : Z) (data : list Z) (used c0 : list node) : Prop := {
  cu_whole : whole = used ++ c0;
  cu_off : 0 <= poff;
  cu_head : match c0 with s :: _ => poff <= len (n_buf s) | [] => True end;
  cu_data : data = drop (Z.to_nat poff) (contents c0)
}.

Lemma cursor_total whole poff data used c0 : cursor whole poff data used c0 -> data <> [] -> poff + Z.of_nat (length data) = total c0.
Proof.
  intros [_ Ho _ ->] Hd. unfold total. destruct (decide (Z.to_nat poff < length (contents c0))%nat); [rewrite length_drop; lia|].
  rewrite drop_ge in Hd by lia. done.
Qed.

Lemma opened_frags o k σ m0 m1 : opened o k σ m0 m1 -> frags_ready m0 -> frags_ready m1.
Proof.
  intros Hop [Hn Hf]. split; rewrite (op_pools0 _ _ _ _ _ Hop); [done|]. intros i Hi.
  rewrite (proj1 (op_frame _ _ _ _ _ Hop (Pool MEMP_FRAG_PBUF i) ltac:(discriminate))). by apply Hf.
Qed.

(** What a round of the loop leaves, with [k] bytes sent as [pkt]; or, for want
    of memory, the end. *)
Definition round_done (whole : list node) (n : nat) (ip : Z) (hw : list Z) (mtu : Z) (σ : gmap Z Z) (data pkt : list Z) (k ofo' : Z) (s : eth)
    (r : (option loc * Z * Z * Z * Z) + Z) (s' : eth) : Prop :=
  match r with
  | inr x => x = ERR_MEM /\ sent_all n hw [] s s' /\ frag_env whole n ip hw mtu σ s'
  | inl (p', poff', left', o', _) => exists used' c0', cursor whole poff' (drop (Z.to_nat k) data) used' c0' /\ p' = first_loc c0' /\
      left' = Z.of_nat (length (drop (Z.to_nat k) data)) /\ o' = ofo' /\ frag_sent n hw pkt σ s s' /\ frag_env whole n ip hw mtu σ s'
  end.

Lemma round_failed whole n ip hw mtu σ data pkt k ofo' s m' : frag_env whole n ip hw mtu σ s -> settled (emem s) m' -> heap_ready m' σ ->
  round_done whole n ip hw mtu σ data pkt k ofo' s (inr ERR_MEM) (set_emem m' s).
Proof.
  intros He Hs Hh. split; [done|]. split; [by apply sent_nothing|]. pose proof He as [_ _ _ _ [R1 R2 R3 _ _] _].
  replace (set_emem m' s) with (set_elink ((elink s).1, ipv s) (set_emem m' (set_cached (etharp_cached_entry s) s))) by (by destruct s as [? [] ? ? ?]).
  apply env_settled; [done|done|done|exact R3|exact R1|exact R2].
Qed.

Lemma cursor_next whole poff data used c0 k c1 nd c2 poff' : cursor whole poff data used c0 -> 0 <= k -> c0 = c1 ++ nd :: c2 -> 0 <= poff' <= len (n_buf nd) ->
  drop (Z.to_nat poff') (contents (nd :: c2)) = drop (Z.to_nat (poff + k)) (contents c0) -> cursor whole poff' (drop (Z.to_nat k) data) (used ++ c1) (nd :: c2).
Proof.
  intros [Ew Ho _ Ed] Hk Ec Hp E. split; [by rewrite Ew, Ec, <- app_assoc|lia|lia|]. rewrite E, Ed, drop_drop. f_equal. lia.
Qed.

Lemma wp_frag_round h0 whole n ip hw mtu σ tos len_ id off ttl proto ck src dst nfb mf s used c0 poff data ofo npl :
  let k := Z.min (Z.of_nat (length data)) (nfb * 8) in
  let last := Z.of_nat (length data) <=? mtu - 20 in
  let field := if negb last || mf then Z.lor (Z.land IP_OFFMASK ofo) IP_MF else Z.land IP_OFFMASK ofo in
  let pkt := frag_packet tos id ttl proto src dst (field, take (Z.to_nat k) data) in
  head whole = Some h0 -> frag_header h0 tos len_ id off ttl proto ck src dst -> frag_env whole n ip hw mtu σ s -> cursor whole poff data used c0 ->
  data <> [] -> 1 <= nfb -> nfb * 8 + 34 <= 1500 ->
  wp (frag_body odd_at n ip (payload (n_buf h0)) nfb mf (first_loc c0, poff, Z.of_nat (length data), ofo, npl))
    (round_done whole n ip hw mtu σ data pkt k (u16 (ofo + nfb)) s) s.
Proof.
  intros k last field pkt Hh0 Hhd He Hcu Hd Hn1 Hn2. pose proof He as [Hp Href Hheap Hfr Hrd Hmtu].
  assert (Hdl : 0 < Z.of_nat (length data)) by (destruct data; [done|simpl; lia]).
  pose proof (cursor_total _ _ _ _ _ Hcu Hd) as Htot. pose proof Hcu as [Ew Ho Hhead Ed].
  assert (Ht0 : total c0 < 65536) by (pose proof (pk_bound _ _ _ Hp) as Hb; rewrite Ew, total_app in Hb; pose proof (total_nonneg used); lia).
  unfold frag_body. rewrite (proj2 (Z.eqb_neq _ _)) by lia. cbv zeta. rewrite (u16_small (nfb * 8)) by lia. fold k.
  apply wp_bind, wp_on_pbuf, (wp_pbuf_alloc_ram _ σ); [done|done| |].
  { intros h' Hown. cbv beta iota. apply wp_ret, round_failed; [done|by split|by destruct Hheap]. }
  intros o kb a h' Hf Hown Ha. cbv beta iota.
  assert (Hh : holds (emem s) (n_buf h0) (n_data h0)).
  { eapply (chain_holds _ _ whole); [apply Hp|]. destruct whole; [done|]. injection Hh0 as ->. by left. }
  pose proof (frag_header_room _ _ _ _ _ _ _ _ _ _ Hhd) as H20. pose proof Hhd as [Eh Lck [Hsrc Hdst Bttl Btos Bpr] Rid Roff].
  apply wp_bind. eapply (wp_frag_begin s o kb a h' σ (n_buf h0) (n_data h0)); [done|done|done|exact Ha|done|destruct Hh; lia|exact Eh|].
  intros m1 ram Hop Hpr. assert (Hram : header_pbuf o ram) by done.
  pose proof (opened_sources o kb σ (emem s) m1 ram whole used c0 Hheap Hop Hram Hp Href Ew) as Hsrcs.
  assert (Lram : total [ram] = 20) by (rewrite total_cons; cbn [n_data ram]; rewrite header_fields_length by done; done).
  apply wp_bind, wp_on_pbuf. emem_simpl. eapply wp_mono; [apply (wp_frag_copy depth o ram m1 c0 poff k npl); try done; try lia; by eapply opened_frags|].
  intros [[[p' poff'] npl']|] mC Hcopy; cbv beta iota; emem_simpl.
  2:{ destruct (undone_settled _ _ _ _ _ _ Hheap Hop Hcopy) as [Hse Hre]. by apply wp_ret, round_failed. }
  destruct Hcopy as (srcs & c & c1 & nd & c2 & Ec & -> & Hpo & Hnp & Hle & Hc & Ecc & Edd). rewrite app_nil_l, <- Ed in Ecc.
  assert (Ek : total c = k) by (unfold total; rewrite Ecc, length_take; lia).
  apply wp_bind, wp_ip_var. change (netif_mtu (ipv (set_emem mC s)) n) with (netif_mtu (ipv s) n). rewrite Hmtu. change (mtu - IP_HLEN) with (mtu - 20). fold last field.
  apply wp_then3. rewrite <- Ek. eapply wp_mono; [apply (wp_frag_send s o kb σ m1 ram srcs c mC n ip hw tos len_ id off ttl proto ck src dst field); try done; [by apply field_range|lia]|].
  intros x s' Hsent. cbv beta in Hsent. apply wp_ret. exists (used ++ c1), (nd :: c2).
  assert (Hnd : nd ∈ whole) by (rewrite Ew, Ec; apply elem_of_app; right; apply elem_of_app; right; by left).
  destruct (chain_holds _ _ _ _ (pk_chain _ _ _ Hp) Hnd) as [Lnd _].
  assert (Hcap : len (n_buf nd) < 65536) by (rewrite Ec, total_app, total_cons in Ht0; pose proof (total_nonneg c1); pose proof (total_nonneg c2); lia).
  rewrite Ek, (u16_small (poff' + npl')), u16_small by lia. split_and!; [|done|rewrite length_drop; lia|done| |].
  - eapply cursor_next; [exact Hcu|lia|exact Ec|lia|exact Edd].
  - unfold pkt, frag_packet. cbn [fst snd]. rewrite Ecc in Hsent.
    replace (Z.of_nat (length (take (Z.to_nat k) data))) with (total c) by (unfold total; by rewrite Ecc). exact Hsent.
  - destruct Hsent as (j & m' & w' & r & -> & Hse & Hre & Hw & Hao & Hy & _). by apply env_settled.
Qed.

(** The fragments that were sent, and those for which there was no memory. *)
Definition frags_done (whole : list node) (n : nat) (ip : Z) (hw : list Z) (mtu : Z) (σ : gmap Z Z) (tos id ttl proto src dst : Z)
    (frags : list (Z * list Z)) (s : eth) (r : Z) (s' : eth) : Prop := exists sent lost,
  frags = sent ++ lost /\ (r = ERR_OK /\ lost = [] \/ r = ERR_MEM /\ lost <> []) /\
  sent_all n hw (map (frag_packet tos id ttl proto src dst) sent) s s' /\ frag_env whole n ip hw mtu σ s'.

Lemma sent_none n hw s : sent_all n hw [] s s.
Proof. replace s with (set_emem (emem s) s) at 2 by (by destruct s). by apply sent_nothing. Qed.

Lemma wp_frag_loop h0 whole n ip hw mtu σ tos len_ id off ttl proto ck src dst nfb mf :
  head whole = Some h0 -> frag_header h0 tos len_ id off ttl proto ck src dst -> 1 <= nfb -> nfb * 8 + 34 <= 1500 ->
  forall f data s used c0 poff ofo npl fuel, (length data <= f)%nat -> (length data < fuel)%nat -> frag_env whole n ip hw mtu σ s ->
  cursor whole poff data used c0 ->
  wp (iter fuel (frag_body odd_at n ip (payload (n_buf h0)) nfb mf) (first_loc c0, poff, Z.of_nat (length data), ofo, npl))
    (frags_done whole n ip hw mtu σ tos id ttl proto src dst (cut f nfb (mtu - 20) mf ofo data) s) s.
Proof.
  intros Hh0 Hhd Hn1 Hn2. induction f as [|f IH]; intros data s used c0 poff ofo npl fuel Hlf Hlu He Hcu; (destruct fuel as [|fuel]; [lia|]);
    cbn [iter]; apply wp_bind.
  { destruct data; [|simpl in Hlf; lia]. apply wp_ret, wp_ret. exists [], []. split_and!; [done|by left|apply sent_none|done]. }
  destruct data as [|x data].
  { apply wp_ret, wp_ret. exists [], []. split_and!; [done|by left|apply sent_none|done]. }
  set (all := x :: data) in *. assert (Hd : all <> []) by done.
  eapply wp_mono; [by apply (wp_frag_round h0 whole n ip hw mtu σ tos len_ id off ttl proto ck src dst nfb mf s used c0 poff all ofo npl)|].
  change (cut (S f) nfb (mtu - 20) mf ofo all) with
    ((if negb (Z.of_nat (length all) <=? mtu - 20) || mf then Z.lor (Z.land IP_OFFMASK ofo) IP_MF else Z.land IP_OFFMASK ofo,
      take (Z.to_nat (Z.min (Z.of_nat (length all)) (nfb * 8))) all) ::
     cut f nfb (mtu - 20) mf (u16 (ofo + nfb)) (drop (Z.to_nat (Z.min (Z.of_nat (length all)) (nfb * 8))) all)).
  assert (Hlen : (0 < length all)%nat) by (subst all; simpl; lia). set (k := Z.min _ _). lazymatch goal with |- context [(?a, take (Z.to_nat k) all)] => set (fld := a) end.
  intros [[[[[p' poff'] left'] o'] npl']|y] s1 Hr.
  - destruct Hr as (used' & c0' & Hcu' & -> & -> & -> & Hsent & He'). cbv beta iota.
    eapply wp_mono; [apply (IH _ s1 used' c0'); [rewrite length_drop; lia|rewrite length_drop; lia|done|done]|].
    intros r s2 (sent & lost & E & Hcase & Hall & He2). exists ((fld, take (Z.to_nat k) all) :: sent), lost.
    split_and!; [by rewrite E|done|by eapply sent_more|done].
  - destruct Hr as (-> & Hall & He'). apply wp_ret. exists [], ((fld, take (Z.to_nat k) all) :: cut f nfb (mtu - 20) mf (u16 (ofo + nfb)) (drop (Z.to_nat k) all)).
    split_and!; [done|by right|exact Hall|exact He'].
Qed.

Lemma wp_ip4_frag whole h0 n ip hw mtu σ tos len_ id off ttl proto ck src dst s :
  head whole = Some h0 -> frag_header h0 tos len_ id off ttl proto ck src dst -> frag_env whole n ip hw mtu σ s ->
  28 <= mtu -> (mtu - 20) / 8 * 8 + 34 <= 1500 ->
  wp (ip4_frag odd_at (n_loc h0) n ip) (frags_done whole n ip hw mtu σ tos id ttl proto src dst (cut_packet mtu off (drop 20 (contents whole))) s) s.
Proof.
  intros Hh0 Hhd He Hm1 Hm2. pose proof He as [Hp Href Hheap Hfr Hrd Hmtu]. destruct whole as [|h rest]; [done|]. injection Hh0 as ->.
  pose proof (frag_header_room _ _ _ _ _ _ _ _ _ _ Hhd) as H20. pose proof Hhd as [Eh Lck _ _ Roff].
  pose proof (pk_chain _ _ _ Hp) as (_ & Hl & Hh & _). pose proof (pk_totals _ _ _ Hp) as [Et _]. pose proof (pk_bound _ _ _ Hp) as Hb.
  pose proof Hh as [Ld _]. rewrite total_cons in Et, Hb. pose proof (total_nonneg rest) as Hrest. assert (Hdiv : 1 <= (mtu - 20) / 8) by (Z.div_mod_to_equations; lia).
  unfold ip4_frag. apply wp_bind, wp_ip_var. rewrite Hmtu. cbv zeta. change IP_HLEN with 20.
  rewrite Z.quot_div_nonneg, u16_small by lia. apply wp_bind, wp_on_pbuf, (wp_getp _ (n_buf h0)); [done|]. emem_simpl.
  replace (set_emem (emem s) s) with s by (by destruct s).
  apply wp_bind. unfold load8. apply wp_bind, (wp_read_field (n_buf h0) (n_data h0)); [done|lia|lia|lia|]. apply wp_ret.
  assert (E0 : n_data h0 = header_fields tos len_ id off ttl proto ck src dst ++ drop 20 (n_data h0)) by (by rewrite <- Eh, take_drop).
  rewrite E0. change (nth 0 (take (Z.to_nat 1) (drop (Z.to_nat 0) (header_fields tos len_ id off ttl proto ck src dst ++ drop 20 (n_data h0)))) 0) with 0x45.
  change (IPH_HL_BYTES 0x45 =? 20) with true. cbn [negb]. rewrite (proj2 (Z.ltb_ge _ _)) by lia.
  apply wp_bind. unfold load16_at. apply wp_bind, (wp_read_field (n_buf h0) (n_data h0)); [done|lia|lia|lia|]. apply wp_ret.
  rewrite E0. change (take (Z.to_nat 2) (drop (Z.to_nat 6) (header_fields tos len_ id off ttl proto ck src dst ++ drop 20 (n_data h0)))) with (be16 off).
  rewrite ntohs_be16 by done. set (data := drop 20 (contents (h0 :: rest))).
  assert (El : u16 (tot_len (n_buf h0) - 20) = Z.of_nat (length data)).
  { unfold data. rewrite length_drop, contents_cons, length_app, u16_small by lia. unfold total in *. lia. }
  rewrite El. change (Some (n_loc h0)) with (first_loc (h0 :: rest)). unfold cut_packet. fold data.
  apply (wp_frag_loop h0 (h0 :: rest) n ip hw mtu σ tos len_ id off ttl proto ck src dst) with (used := []); [done|done|lia|lia|lia|lia|done|].
  split; [done|lia|lia|]. unfold data. by change (Z.to_nat 20) with 20%nat.
Qed.
(** C6. What [ip4_frag] sends. A packet with a header without options, in
    whatever pbufs it lies, is cut into pieces of as many bytes as the
    interface takes, in multiples of eight. The driver gets them in their
    order, each in one frame to the next hop's hardware address, with a copy of
    the header that has the piece's own length, offset, MF flag and checksum.
    The result is ERR_OK when all of them were sent, and ERR_MEM when the heap
    or the pool of references ran out first. In both cases no pbuf, no byte and
    no reference count of the packet or of the rest of the memory has changed,
    and nothing that was allocated is kept. The frames have at most the 1500
    bytes that the driver's buffer holds: an mtu below 1492. *)
Theorem ip4_frag_sends whole h0 n ip hw mtu σ tos len_ id off ttl proto ck src dst s :
  head whole = Some h0 -> frag_header h0 tos len_ id off ttl proto ck src dst -> frag_env whole n ip hw mtu σ s ->
  28 <= mtu -> (mtu - 20) / 8 * 8 + 34 <= 1500 ->
  exists r s', ip4_frag odd_at (n_loc h0) n ip s = Ret r s' /\
    frags_done whole n ip hw mtu σ tos id ttl proto src dst (cut_packet mtu off (drop 20 (contents whole))) s r s'.
Proof. intros Hh0 Hhd He Hm1 Hm2. by apply wp_elim, (wp_ip4_frag whole h0 n ip hw mtu σ tos len_ id off ttl proto ck src dst). Qed.

Lemma cut_rounded mtu data : 28 <= mtu -> (mtu - 20) / 8 * 8 < Z.of_nat (length data) <= mtu - 20 -> mtu <= 65535 ->
  let k := Z.to_nat ((mtu - 20) / 8 * 8) in cut_packet mtu 0 data = [(0, take k data); ((mtu - 20) / 8, drop k data)].
Proof.
  intros Hm Hl Hm2 k. assert (Hn : 1 <= (mtu - 20) / 8 < 8190) by (Z.div_mod_to_equations; lia). assert (Hr : mtu - 20 < (mtu - 20) / 8 * 8 + 8) by (Z.div_mod_to_equations; lia).
  unfold cut_packet. change (Z.land 0 IP_OFFMASK) with 0. change (has 0 IP_MF) with false. unfold k. set (nfb := (mtu - 20) / 8) in *. clearbody nfb.
  destruct (length data) as [|[|f]] eqn:El; [lia|lia|]. destruct data as [|x data]; [done|]. set (all := x :: data) in *.
  assert (Hall : (0 < length all)%nat) by (subst all; simpl; lia). assert (Hd : (0 < length (drop (Z.to_nat (nfb * 8)) all))%nat) by (rewrite length_drop; lia).
  assert (Ed : length (drop (Z.to_nat (nfb * 8)) all) = (length all - Z.to_nat (nfb * 8))%nat) by apply length_drop.
  cbn [cut]. subst all. cbv beta iota. set (all := x :: data) in *. rewrite Z.min_r by lia. rewrite (proj2 (Z.leb_le _ _)) by lia.
  cbn [negb orb]. f_equal. destruct (drop (Z.to_nat (nfb * 8)) all) as [|y rest] eqn:Er; [simpl in Hd; lia|]. set (r := y :: rest) in *.
  rewrite (proj2 (Z.leb_le _ _)), Z.min_l by lia. cbn [negb orb]. rewrite Nat2Z.id, take_ge, drop_ge, u16_small by lia.
  assert (Ec : forall o, cut f nfb (mtu - 20) false o [] = []) by (by destruct f). rewrite Ec. do 2 f_equal.
  rewrite Z.land_comm. change IP_OFFMASK with (Z.ones 13). rewrite Z.land_ones by lia. apply Z.mod_small. lia.
Qed.

(** C38. An interface whose mtu leaves a number of bytes that eight does not
    divide. The code takes a fragment for the last one when the rest would fit
    without the rounding. Data that fit without it and not with it go out as
    two fragments, and neither has MF set: the receiver takes the first for the
    end of the datagram. *)
Theorem ip4_frag_two_last whole h0 n ip hw mtu σ tos len_ id ttl proto ck src dst s :
  head whole = Some h0 -> frag_header h0 tos len_ id 0 ttl proto ck src dst -> frag_env whole n ip hw mtu σ s ->
  28 <= mtu -> (mtu - 20) / 8 * 8 + 34 <= 1500 -> (mtu - 20) / 8 * 8 < total whole - 20 <= mtu - 20 ->
  exists r s' d1 d2, ip4_frag odd_at (n_loc h0) n ip s = Ret r s' /\ drop 20 (contents whole) = d1 ++ d2 /\ d2 <> [] /\
    frags_done whole n ip hw mtu σ tos id ttl proto src dst [(0, d1); ((mtu - 20) / 8, d2)] s r s'.
Proof.
  intros Hh0 Hhd He Hm1 Hm2 Hl. pose proof (wp_ip4_frag whole h0 n ip hw mtu σ tos len_ id 0 ttl proto ck src dst s Hh0 Hhd He Hm1 Hm2) as W.
  apply wp_elim in W as (r & s' & E & Hd). pose proof (Z.div_pos (mtu - 20) 8 ltac:(lia) ltac:(lia)) as Hpos. assert (El : Z.of_nat (length (drop 20 (contents whole))) = total whole - 20) by (unfold total in *; rewrite length_drop; lia).
  assert (Hm3 : mtu <= 65535) by (Z.div_mod_to_equations; lia). rewrite cut_rounded in Hd by lia. cbv zeta in Hd. set (k := Z.to_nat ((mtu - 20) / 8 * 8)) in *.
  assert (Hk : Z.of_nat k = (mtu - 20) / 8 * 8) by lia.
  exists r, s', (take k (drop 20 (contents whole))), (drop k (drop 20 (contents whole))).
  split_and!; [done|by rewrite take_drop| |done]. intros En. apply (f_equal length) in En. rewrite length_drop in En. simpl in En. lia.
Qed.
End Facts.
