(* ===== verification/IpInputFacts.v ===== *)
(** IP input: what becomes of a received packet. *)
From stdpp Require Import functions.
From S2P Require Import Prelude Memp Pbuf PbufFacts PbufUpdate PbufAlloc PbufChain PbufRealloc PbufRam Chksum ChksumFacts Ip4Addr Ethernet Etharp.
From S2P Require Import EtharpTable EtharpInv EtharpSend EtharpReply EtharpOutput Ip Icmp Reass IpInput IpFacts IcmpFacts.

(** ** Trimming *)

(** A head that was shortened: the same block, the same place. *)
Definition head_kept (nd nd' : node) : Prop :=
  n_loc nd' = n_loc nd /\ payload (n_buf nd') = payload (n_buf nd) /\ type_internal (n_buf nd') = type_internal (n_buf nd) /\
  n_data nd' = take (length (n_data nd')) (n_data nd).

(** The pbufs of a packet that can be shortened and released. *)
Definition trimmable (c : list node) : Prop := Forall PbufRealloc.releasable c.

Lemma trimmable_releasable c : trimmable c -> EtharpReply.releasable c.
Proof. intros Hc. eapply Forall_impl; [exact Hc|]. by intros nd (? & ? & _). Qed.

Section Trim.
Context `{HO : HeapOps} `{CF : !CustomFree}.

(** The length of the first pbuf after the packet was cut to [n] bytes. *)
Definition cut_len (nd : node) (n : Z) : Z := Z.min (len (n_buf nd)) n.

Lemma wp_trim m nd c n (Q : unit -> mem -> Prop) : packet m (Some (n_loc nd)) (nd :: c) -> trimmable (nd :: c) -> 0 <= n <= total (nd :: c) ->
  (forall m' nd' c', packet m' (Some (n_loc nd)) (nd' :: c') -> EtharpReply.releasable (nd' :: c') -> head_kept nd nd' ->
     contents (nd' :: c') = take (Z.to_nat n) (contents (nd :: c)) -> len (n_buf nd') = cut_len nd n ->
     (forall l, l ∉ map n_loc (nd :: c) -> pbufs m' !! l = pbufs m !! l) -> Q tt m') ->
  wp (when (n <? total (nd :: c)) (pbuf_realloc (n_loc nd) n)) Q m.
Proof.
  intros Hp Ht Hn HQ. destruct (Z.ltb_spec n (total (nd :: c))); cbn [when].
  - eapply wp_mono; [apply (pbuf_realloc_walk m _ _ _ Hp); [lia|done]|].
    intros [] m' (c0 & nd0 & ct & r & m3 & Ec & -> & Hr & Hc3 & F3 & ->).
    assert (Hct : Forall PbufRealloc.releasable (c0 ++ nd0 :: ct)) by (by rewrite <- Ec).
    apply Forall_app in Hct as [Hc0 [Hnd0 Hct]%Forall_cons]. pose proof (total_nonneg c0). pose proof Hp as Hp'. rewrite Ec in Hp', H.
    rewrite total_app in H. rewrite Ec, total_app in Hc3.
    destruct (cut_off_result m m3 (n_loc nd) c0 nd0 ct r (total c0 + total (nd0 :: ct) - (total c0 + r)) Hp' Hr ltac:(lia) ltac:(lia) Hct Hc3 F3)
      as (Hp2 & Hcont & _ & Hother & _).
    set (s := total c0 + total (nd0 :: ct) - (total c0 + r)) in *.
    assert (Hrel : EtharpReply.releasable (map (shrunk s) c0 ++ [rebuf (set_next None) (cut r nd0)])).
    { apply Forall_app. split; [|apply Forall_singleton; by destruct Hnd0 as (? & ? & _)].
      apply Forall_map. eapply Forall_impl; [exact Hc0|]. intros x (? & ? & _). done. }
    destruct c0 as [|nd1 c0]; cbn [map app] in *.
    + injection Ec as <- <-. change (total []) with 0 in *.
      eapply (HQ _ (rebuf (set_next None) (cut r nd)) []); [done|done| |done|unfold cut_len; simpl; lia|done].
      split_and!; [done|done|done|]. simpl. rewrite length_take. by rewrite <- take_take, firstn_all.
    + injection Ec as <- ->. rewrite total_cons in *. pose proof (pk_chain _ _ _ Hp) as (_ & _ & [L _] & _). pose proof (total_nonneg c0).
      eapply (HQ _ (shrunk s nd) _); [done|done| |done|unfold cut_len; simpl; lia|done].
      split_and!; [done|done|done|]. simpl. by rewrite firstn_all.
  - apply wp_ret. pose proof (pk_chain _ _ _ Hp) as (_ & _ & [L _] & _). rewrite total_cons in *. pose proof (total_nonneg c).
    eapply (HQ m nd c); [done|by apply trimmable_releasable| |rewrite take_ge; [done|rewrite contents_cons, length_app; unfold total in *; lia]|unfold cut_len; lia|done].
    split_and!; [done..|by rewrite firstn_all].
Qed.
End Trim.

(** ** The fate of a packet *)

Inductive fate : Type :=
| Discarded
| ToReassembly (a : nat)  (** a fragment, for interface [a] *)
| ToUpper (a : nat).      (** a whole packet, for interface [a] *)

Definition hdr_proto (hdr : list Z) : Z := nth 9 hdr 0.
Definition hdr_hlen (hdr : list Z) : Z := IPH_HL_BYTES (nth 0 hdr 0).
Definition hdr_len (hdr : list Z) : Z := lwip_ntohs (load_word16 (hdr_field 2 2 hdr)).

(** A header as RFC 1122 wants it: version 4, and lengths that agree with each
    other and with what was received, [len] bytes of it in one piece; the
    checksum over [hdr], the header with its options. *)
Definition lengths_ok (view : list Z) (len tot : Z) : Prop :=
  IPH_V (nth 0 view 0) = 4 /\ 20 <= hdr_hlen view /\ hdr_hlen view <= len /\ hdr_hlen view <= hdr_len view /\ hdr_len view <= tot.

(** RFC 1122: a source that is a broadcast or a multicast address. *)
Definition bad_source (n : link_if) (src : Z) : bool :=
  negb (ip4_addr_isany_val src) && (ip4_addr_isbroadcast src n || ip4_addr_ismulticast src).

(** For a packet with a good header: which interface it is for, [port] being
    the UDP port it may go to. *)
Definition packet_fate (ifs : nat -> link_if) (l : list nat) (n : nat) (hdr : list Z) (port : Z) : fate :=
  let rest (a : nat) := if Z.land (hdr_offset hdr) (PP_HTONS (Z.lor IP_OFFMASK IP_MF)) =? 0 then ToUpper a else ToReassembly a in
  match match_netif ifs (hdr_dest hdr) n l with
  | Some a => if bad_source (ifs n) (hdr_src hdr) then Discarded else rest a
  | None =>
    if (hdr_proto hdr =? IP_PROTO_UDP) && IP_ACCEPT_LINK_LAYER_ADDRESSED_PORT port then rest n
    else Discarded
  end.

Section Input.
Context `{WL : WireLaws} `{HL : !HeapLaws} `{CF : !CustomFree} `{BU : !Build}.
Context (odd_at : option ptr -> bool) (ip4_frag : loc -> nat -> Z -> M eth Z).
Context (udp_input tcp_input : loc -> nat -> M eth unit).

(** The addresses of the packet that is being processed. *)
Definition note_addresses (hdr : list Z) (v : ip_vars) : ip_vars :=
  let d := ip_data v in
  set_ip_data (IpGlobals (current_netif d) (current_input_netif d) (current_ip4_header d) (current_ip_header_tot_len d)
    (hdr_src hdr) (hdr_dest hdr)) v.

(** The packet, cut to its length, with its header in front: what the rest of
    [ip4_input] works on. *)
Record trimmed (m : mem) (nd : node) (c : list node) (n : Z) (m1 : mem) (nd1 : node) (c1 : list node) : Prop := {
  tr_packet : packet m1 (Some (n_loc nd)) (nd1 :: c1);
  tr_release : EtharpReply.releasable (nd1 :: c1);
  tr_head : head_kept nd nd1;
  tr_contents : contents (nd1 :: c1) = take (Z.to_nat n) (contents (nd :: c));
  tr_len : len (n_buf nd1) = cut_len nd n;
  tr_rest l : l ∉ map n_loc (nd :: c) -> pbufs m1 !! l = pbufs m !! l
}.

(** Where a computation leads, step by step. *)
Lemma leads_bind {S A B} (R : outcome S B -> Prop) (m : M S A) (f : A -> M S B) s :
  wp m (fun a s' => R (f a s')) s -> R ((m ≫= f) s).
Proof. apply wp_through. Qed.

(** A received packet: a header of 20 bytes at least in the first pbuf. *)
Record arrived (s : eth) (nd : node) (c : list node) : Prop := {
  av_packet : packet (emem s) (Some (n_loc nd)) (nd :: c);
  av_trim : trimmable (nd :: c);
  av_len : 20 <= len (n_buf nd)
}.

Lemma nth_take_lt (k i : nat) (l : list Z) : (i < k)%nat -> nth i (take k l) 0 = nth i l 0.
Proof.
  revert i l. induction k as [|k IH]; intros i l Hi; [lia|]. destruct l as [|x l]; [done|]. destruct i as [|i]; [done|]. cbn. apply IH. lia.
Qed.

(** A field of the header, for a header that lies in the first pbuf. *)
Lemma field_of_prefix (k : nat) (o n : nat) (data : list Z) : (o + n <= k)%nat -> hdr_field o n (take k data) = hdr_field o n data.
Proof. intros Hk. unfold hdr_field. rewrite skipn_firstn_comm, take_take. f_equal. lia. Qed.

Lemma wp_load8_at b data off (Q : Z -> eth -> Prop) s : holds (emem s) b data -> 0 <= off -> off + 1 <= len b ->
  Q (nth (Z.to_nat off) data 0) s -> wp (load8 (payload b) off) Q s.
Proof.
  intros Hh Ho Hl HQ. pose proof Hh as [L _]. unfold load8. apply wp_bind, (wp_read_field b data); [done|lia..|]. apply wp_ret.
  replace (nth 0 (take (Z.to_nat 1) (drop (Z.to_nat off) data)) 0) with (nth (Z.to_nat off) data 0); [done|].
  rewrite <- (take_drop (Z.to_nat off) data) at 1. rewrite app_nth2; rewrite length_take; [|lia].
  replace (Z.to_nat off - Z.to_nat off `min` length data)%nat with 0%nat by lia. by destruct (drop (Z.to_nat off) data).
Qed.

Lemma wp_load16_at b data off (Q : Z -> eth -> Prop) s : holds (emem s) b data -> 0 <= off -> off + 2 <= len b ->
  Q (load_word16 (hdr_field (Z.to_nat off) 2 data)) s -> wp (load16_at (payload b) off) Q s.
Proof. intros Hh Ho Hl HQ. unfold load16_at. apply wp_bind, (wp_read_field b data); [done|lia..|]. by apply wp_ret. Qed.

Lemma wp_load32_at b data off (Q : Z -> eth -> Prop) s : holds (emem s) b data -> 0 <= off -> off + 4 <= len b ->
  Q (load_word32 (hdr_field (Z.to_nat off) 4 data)) s -> wp (load32_at (payload b) off) Q s.
Proof. intros Hh Ho Hl HQ. unfold load32_at. apply wp_bind, (wp_read_field b data); [done|lia..|]. by apply wp_ret. Qed.

Lemma drop_run p nd c s : packet (emem s) (Some p) (nd :: c) -> EtharpReply.releasable (nd :: c) ->
  exists k m', pbuf_free (Some p) (emem s) = Ret k m' /\ ip4_drop p s = Ret tt (set_emem m' s).
Proof.
  intros Hp Hr. pose proof (pbuf_free_run _ _ _ (pk_chain _ _ _ Hp) (pk_locs _ _ _ Hp) Hr) as E. eexists _, _. split; [exact E|].
  unfold ip4_drop. erewrite bind_Ret by (unfold on_pbuf, zoom; by rewrite E). done.
Qed.

Lemma hlen_range data : 0 <= hdr_hlen data < 256.
Proof. apply u8_range. Qed.

Lemma iplen_range data : 0 <= hdr_len data < 65536.
Proof. apply u16_range. Qed.

Lemma wp_when_on_pbuf b (x : M mem unit) (Q : unit -> eth -> Prop) s :
  wp (when b x) (fun a m => Q a (set_emem m s)) (emem s) -> wp (when b (on_pbuf x)) Q s.
Proof. destruct b; [apply wp_on_pbuf|]. cbn [when]. intros HQ. apply wp_ret. by replace s with (set_emem (emem s) s) by (by destruct s). Qed.

(** The test of the lengths, after the packet was cut. *)
Lemma lengths_test nd c nd1 c1 m m1 : packet m (Some (n_loc nd)) (nd :: c) -> IPH_V (nth 0 (n_data nd) 0) = 4 ->
  hdr_len (n_data nd) <= total (nd :: c) -> trimmed m nd c (hdr_len (n_data nd)) m1 nd1 c1 ->
  (len (n_buf nd1) <? hdr_hlen (n_data nd)) || (tot_len (n_buf nd1) <? hdr_len (n_data nd)) || (hdr_hlen (n_data nd) <? IP_HLEN) = false <->
  lengths_ok (n_data nd) (len (n_buf nd)) (total (nd :: c)).
Proof.
  intros Hp Hv Hle [T1 _ _ T4 T5 _]. pose proof (pk_totals _ _ _ T1) as [Et1 _]. pose proof (iplen_range (n_data nd)).
  assert (E : tot_len (n_buf nd1) = hdr_len (n_data nd)).
  { rewrite Et1. unfold total. rewrite T4, length_take. unfold total in *. lia. }
  rewrite E, T5. unfold cut_len, lengths_ok, IP_HLEN. rewrite !orb_false_iff, !Z.ltb_ge. lia.
Qed.

Definition good_header (nd : node) (c : list node) : Prop :=
  lengths_ok (n_data nd) (len (n_buf nd)) (total (nd :: c)) /\
  rfc1071 (take (Z.to_nat (hdr_hlen (n_data nd))) (n_data nd)) = 0xffff.

(** What is left of a packet, released. *)
Definition dropped (p : loc) (nd : node) (c : list node) (s s' : eth) : Prop :=
  exists m1 nd1 c1 j k m2, packet m1 (Some p) (nd1 :: c1) /\ contents (nd1 :: c1) = take j (contents (nd :: c)) /\
    (forall l, l ∉ map n_loc (nd :: c) -> pbufs m1 !! l = pbufs (emem s) !! l) /\
    pbuf_free (Some p) m1 = Ret k m2 /\ s' = set_emem m2 s.

(** The part of [ip4_input] that looks at the header only. *)
Lemma leads_checked (R : outcome eth unit -> Prop) s nd c n : arrived s nd c -> Forall byte (n_data nd) ->
  (forall s', ~ good_header nd c -> dropped (n_loc nd) nd c s s' -> R (Ret tt s')) ->
  (forall m1 nd1 c1, good_header nd c -> trimmed (emem s) nd c (hdr_len (n_data nd)) m1 nd1 c1 ->
     R (ip4_accept odd_at ip4_frag udp_input tcp_input (n_loc nd) (payload (n_buf nd)) (hdr_hlen (n_data nd)) n
         (set_emem m1 (set_ipv (note_addresses (n_data nd) (ipv s)) s)))) ->
  R (ip4_input odd_at ip4_frag udp_input tcp_input (n_loc nd) n s).
Proof.
  intros [Hp Htrim Hlen] Hby Hbad Hgood. pose proof (pk_chain _ _ _ Hp) as (_ & Hl & Hh & _). pose proof (pk_totals _ _ _ Hp) as [Et _].
  assert (Hid : set_emem (emem s) s = s) by (by destruct s). set (data := n_data nd) in *.
  pose proof (hlen_range data) as Rh. pose proof (iplen_range data) as Rl. pose proof (pk_bound _ _ _ Hp) as Hbd.
  unfold ip4_input. apply leads_bind, wp_on_pbuf, (wp_getp _ (n_buf nd)); [done|]. rewrite Hid.
  apply leads_bind, (wp_load8_at _ data); [done|lia|lia|]. change (nth (Z.to_nat 0) data 0) with (nth 0 data 0).
  destruct (Z.eqb_spec (IPH_V (nth 0 data 0)) 4) as [Ev|Ev]; cbn [negb].
  2:{ destruct (drop_run (n_loc nd) nd c s Hp (trimmable_releasable _ Htrim)) as (k & m' & Ef & ->). apply Hbad; [by intros [[? _] _]|].
      exists (emem s), nd, c, (length (contents (nd :: c))), k, m'. rewrite firstn_all. done. }
  apply leads_bind, (wp_load16_at _ data); [done|lia|lia|]. change (Z.to_nat 2) with 2%nat. fold (hdr_len data). cbv zeta.
  fold (hdr_hlen data). set (hlen := hdr_hlen data) in *. set (iplen := hdr_len data) in *.
  apply leads_bind. rewrite Et.
  destruct (Z.le_gt_cases iplen (total (nd :: c))) as [Hle|Hgt].
  2:{ rewrite (proj2 (Z.ltb_ge _ _)) by lia. apply wp_ret. apply leads_bind, wp_on_pbuf, (wp_getp _ (n_buf nd)); [done|]. rewrite Hid, Et.
      rewrite (proj2 (Z.ltb_lt (total (nd :: c)) _)) by lia. rewrite orb_true_r. cbn [orb].
      destruct (drop_run (n_loc nd) nd c s Hp (trimmable_releasable _ Htrim)) as (k & m' & Ef & ->).
      apply Hbad; [intros [(_ & _ & _ & _ & Hx) _]; change (iplen <= total (nd :: c)) in Hx; lia|].
      exists (emem s), nd, c, (length (contents (nd :: c))), k, m'. rewrite firstn_all. done. }
  apply wp_when_on_pbuf, (wp_trim _ nd c iplen); [done|done|lia|]. intros m1 nd1 c1 T1 T2 T3 T4 T5 T6.
  assert (T : trimmed (emem s) nd c iplen m1 nd1 c1) by done. pose proof (pk_chain _ _ _ T1) as (El1 & Hl1 & Hh1 & _). injection El1 as El1.
  assert (Hdone : ~ good_header nd c -> R (ip4_drop (n_loc nd) (set_emem m1 s))).
  { intros Hb. destruct (drop_run (n_loc nd) nd1 c1 (set_emem m1 s) T1 T2) as (k & m' & Ef & ->).
    apply Hbad; [done|]. by exists m1, nd1, c1, (Z.to_nat iplen), k, m'. }
  apply leads_bind, wp_on_pbuf, (wp_getp _ (n_buf nd1)); [by rewrite El1|]. change (set_emem _ (set_emem m1 s)) with (set_emem m1 s).
  pose proof (lengths_test nd c nd1 c1 (emem s) m1 Hp Ev Hle T) as Htest. fold data hlen iplen in Htest.
  destruct (_ || _ || _) eqn:Eb.
  { apply Hdone. intros [Hok _]. apply Htest in Hok. by rewrite Hok in *. }
  apply proj1 in Htest. specialize (Htest eq_refl). pose proof Htest as (_ & B1 & B2 & B3 & _). fold data hlen iplen in B1, B2, B3.
  destruct T3 as (_ & Epl & _ & Edata1). fold data in Edata1. pose proof Hh1 as [L1 _]. rewrite <- Epl.
  assert (L1' : hlen <= len (n_buf nd1)) by (rewrite T5; unfold cut_len; lia).
  apply leads_bind, (wp_read_field _ (n_data nd1)); [done|lia|lia|lia|]. change (Z.to_nat 0) with 0%nat. rewrite drop_0.
  assert (Eh : take (Z.to_nat hlen) (n_data nd1) = take (Z.to_nat hlen) data) by (rewrite Edata1, take_take; f_equal; lia). rewrite Eh.
  assert (Hbh : Forall byte (take (Z.to_nat hlen) data)) by (by apply Forall_take).
  rewrite chksum_rfc; [|done|rewrite length_take; lia].
  destruct (stands_rfc1071 _ Hbh) as [Rr _].
  destruct (Z.eqb_spec (0xffff - rfc1071 (take (Z.to_nat hlen) data)) 0) as [Ec|Ec]; cbn [negb].
  2:{ apply Hdone. intros [_ Hc]. fold data hlen in Hc. lia. }
  assert (Hg : good_header nd c) by (split; [done|fold data hlen; lia]).
  apply leads_bind, (wp_load32_at _ (n_data nd1)); [done|lia|lia|]. apply leads_bind, (wp_load32_at _ (n_data nd1)); [done|lia|lia|].
  rewrite Edata1, !field_of_prefix by lia. apply leads_bind, wp_mod_ipv. rewrite Epl. by apply (Hgood m1 nd1 c1).
Qed.
(** The UDP port a packet would go to. *)
Definition port_of (data : list Z) : Z := load_word16 (hdr_field (Z.to_nat (hdr_hlen data + 2)) 2 data).

(** For a UDP packet that is for none of the interfaces the code looks at the
    port without a check of the length; here it is long enough. *)
Definition port_there (s : eth) (n : nat) (nd : node) : Prop :=
  let data := n_data nd in
  match_netif (netifs s) (hdr_dest data) n (netif_list (ipv s)) = None -> hdr_proto data = IP_PROTO_UDP ->
  hdr_hlen data + 4 <= cut_len nd (hdr_len data).

(** What [ip4_input] does with a good header. *)
Definition take_fate (f : fate) (p : loc) (hlen : Z) (n : nat) : M eth unit :=
  match f with
  | Discarded => ip4_drop p
  | ToReassembly a =>
    p ← ip4_reass odd_at ip4_frag p;
    match p with None => mret tt | Some p => ip4_upper odd_at ip4_frag udp_input tcp_input p hlen a n end
  | ToUpper a => ip4_upper odd_at ip4_frag udp_input tcp_input p hlen a n
  end.

Lemma accept_run s nd c n m1 nd1 c1 : trimmed (emem s) nd c (hdr_len (n_data nd)) m1 nd1 c1 -> good_header nd c -> port_there s n nd ->
  let v1 := note_addresses (n_data nd) (ipv s) in
  ip4_accept odd_at ip4_frag udp_input tcp_input (n_loc nd) (payload (n_buf nd)) (hdr_hlen (n_data nd)) n (set_emem m1 (set_ipv v1 s)) =
  take_fate (packet_fate (netifs s) (netif_list (ipv s)) n (n_data nd) (port_of (n_data nd))) (n_loc nd) (hdr_hlen (n_data nd)) n
    (set_emem m1 (set_ipv v1 s)).
Proof.
  intros [T1 T2 (El & Epl & _ & Edata1) T4 T5 T6] [(_ & B1 & B2 & B3 & B4) _] Hport v1. pose proof (pk_chain _ _ _ T1) as (_ & _ & Hh1 & _).
  unfold port_there in Hport. set (data := n_data nd) in *. set (hlen := hdr_hlen data) in *. pose proof Hh1 as [L1 _].
  assert (L1' : hlen <= len (n_buf nd1)) by (rewrite T5; unfold cut_len; lia).
  set (s1 := set_emem m1 (set_ipv v1 s)). unfold ip4_accept, ip4_current_dest_addr, ip4_current_src_addr, packet_fate.
  erewrite bind_Ret by reflexivity. erewrite bind_Ret by reflexivity. erewrite bind_Ret by reflexivity. erewrite bind_Ret by reflexivity.
  change (current_iphdr_dest (ip_data (ipv s1))) with (hdr_dest data). change (current_iphdr_src (ip_data (ipv s1))) with (hdr_src data).
  change (netifs s1) with (netifs s). change (netif_list (ipv s1)) with (netif_list (ipv s)). rewrite <- Epl.
  assert (Hrest : forall a, (offset ← load16_at (payload (n_buf nd1)) 6;
      if negb (Z.land offset (PP_HTONS (Z.lor IP_OFFMASK IP_MF)) =? 0) then
        p ← ip4_reass odd_at ip4_frag (n_loc nd);
        match p with None => mret tt | Some p => ip4_upper odd_at ip4_frag udp_input tcp_input p hlen a n end
      else ip4_upper odd_at ip4_frag udp_input tcp_input (n_loc nd) hlen a n) s1 =
    take_fate (if Z.land (hdr_offset data) (PP_HTONS (Z.lor IP_OFFMASK IP_MF)) =? 0 then ToUpper a else ToReassembly a) (n_loc nd) hlen n s1).
  { intros a. eapply (leads_bind (fun o => o = _)), (wp_load16_at _ (n_data nd1)); [exact Hh1|lia|lia|].
    rewrite Edata1, field_of_prefix by lia. change (load_word16 (hdr_field (Z.to_nat 6) 2 data)) with (hdr_offset data).
    by destruct (_ =? 0). }
  assert (Hchoice : forall (a : nat) (b : bool), (if b && negb (ip4_addr_isany_val (hdr_src data)) && (ip4_addr_isbroadcast (hdr_src data) (netifs s n) || ip4_addr_ismulticast (hdr_src data))
     then ip4_drop (n_loc nd)
     else offset ← load16_at (payload (n_buf nd1)) 6;
      if negb (Z.land offset (PP_HTONS (Z.lor IP_OFFMASK IP_MF)) =? 0) then
        p ← ip4_reass odd_at ip4_frag (n_loc nd);
        match p with None => mret tt | Some p => ip4_upper odd_at ip4_frag udp_input tcp_input p hlen a n end
      else ip4_upper odd_at ip4_frag udp_input tcp_input (n_loc nd) hlen a n) s1 =
    take_fate (if b && bad_source (netifs s n) (hdr_src data) then Discarded else
      if Z.land (hdr_offset data) (PP_HTONS (Z.lor IP_OFFMASK IP_MF)) =? 0 then ToUpper a else ToReassembly a) (n_loc nd) hlen n s1).
  { intros a b. unfold bad_source. rewrite andb_assoc. destruct (_ && _ && _); [done|apply Hrest]. }
  destruct (match_netif _ _ _ _) as [a|] eqn:Em.
  { erewrite bind_Ret by reflexivity. exact (Hchoice a true). }
  assert (Hnone : (x ← mret (None, true); let '(netif, check_ip_src) := (x : option nat * bool) in
     if check_ip_src && negb (ip4_addr_isany_val (hdr_src data)) && (ip4_addr_isbroadcast (hdr_src data) (netifs s n) || ip4_addr_ismulticast (hdr_src data))
     then ip4_drop (n_loc nd)
     else match netif with
       | None => ip4_drop (n_loc nd)
       | Some netif => offset ← load16_at (payload (n_buf nd1)) 6;
          if negb (Z.land offset (PP_HTONS (Z.lor IP_OFFMASK IP_MF)) =? 0) then
            p ← ip4_reass odd_at ip4_frag (n_loc nd);
            match p with None => mret tt | Some p => ip4_upper odd_at ip4_frag udp_input tcp_input p hlen netif n end
          else ip4_upper odd_at ip4_frag udp_input tcp_input (n_loc nd) hlen netif n
       end) s1 = ip4_drop (n_loc nd) s1).
  { erewrite bind_Ret by reflexivity. cbv beta iota. by destruct (_ && _). }
  eapply (leads_bind (fun o => o = _)), wp_bind, (wp_load8_at _ (n_data nd1)); [exact Hh1|lia|lia|].
  assert (E9 : nth (Z.to_nat 9) (n_data nd1) 0 = hdr_proto data) by (rewrite Edata1; apply nth_take_lt; lia). rewrite E9.
  destruct (Z.eqb_spec (hdr_proto data) IP_PROTO_UDP) as [Eu|Eu]; cbn [andb].
  - specialize (Hport eq_refl Eu). apply wp_bind, (wp_load16_at _ (n_data nd1)); [exact Hh1|lia|lia|].
    rewrite Edata1, field_of_prefix by lia. change (load_word16 (hdr_field (Z.to_nat (hlen + 2)) 2 data)) with (port_of data).
    destruct (IP_ACCEPT_LINK_LAYER_ADDRESSED_PORT (port_of data)); apply wp_ret; [exact (Hchoice n false)|exact Hnone].
  - apply wp_ret. exact Hnone.
Qed.
(** The packet as the protocol above gets it: the payload of the IP packet, the
    header still in front of it in memory. *)
Record for_upper (m : mem) (nd : node) (c : list node) (m2 : mem) (nd2 : node) (c2 : list node) : Prop := {
  up_loc : n_loc nd2 = n_loc nd;
  up_packet : packet m2 (Some (n_loc nd)) (nd2 :: c2);
  up_release : EtharpReply.releasable (nd2 :: c2);
  up_contents : contents (nd2 :: c2) = drop (Z.to_nat (hdr_hlen (n_data nd))) (take (Z.to_nat (hdr_len (n_data nd))) (contents (nd :: c)));
  up_header : holds m2 (moved (hdr_hlen (n_data nd)) (n_buf nd2)) (take (Z.to_nat (hdr_hlen (n_data nd))) (n_data nd) ++ n_data nd2);
  up_payload : payload (moved (hdr_hlen (n_data nd)) (n_buf nd2)) = payload (n_buf nd);
  up_type : type_internal (n_buf nd2) = type_internal (n_buf nd);
  up_len : len (n_buf nd2) = cut_len nd (hdr_len (n_data nd)) - hdr_hlen (n_data nd);
  up_rest l : l ∉ map n_loc (nd :: c) -> pbufs m2 !! l = pbufs m !! l
}.

(** IP's variables while the protocol above runs. *)
Definition current (a n : nat) (nd : node) (v : ip_vars) : ip_vars :=
  set_ip_data (IpGlobals (Some a) (Some n) (payload (n_buf nd)) (hdr_hlen (n_data nd)) (hdr_src (n_data nd)) (hdr_dest (n_data nd))) v.

Lemma upper_run s nd c a n m1 nd1 c1 : trimmed (emem s) nd c (hdr_len (n_data nd)) m1 nd1 c1 -> good_header nd c ->
  let data := n_data nd in
  exists m2 nd2 c2, for_upper (emem s) nd c m2 nd2 c2 /\
    ip4_upper odd_at ip4_frag udp_input tcp_input (n_loc nd) (hdr_hlen data) a n (set_emem m1 (set_ipv (note_addresses data (ipv s)) s)) =
    (ip4_deliver odd_at ip4_frag udp_input tcp_input (n_loc nd) (hdr_proto data) (hdr_hlen data) a n;; mod_ipv (set_ip_data no_ip_data))
      (set_emem m2 (set_ipv (current a n nd (ipv s)) s)).
Proof.
  intros [T1 T2 (El & Epl & Ety & Edata1) T4 T5 T6] [(_ & B1 & B2 & B3 & B4) _] data.
  pose proof (pk_chain _ _ _ T1) as (El1 & Hl1 & Hh1 & _). pose proof Hh1 as [L1 _]. pose proof (pk_totals _ _ _ T1) as [Et1 _].
  pose proof (pk_bound _ _ _ T1) as Hbd1. rewrite total_cons in Et1, Hbd1. pose proof (total_nonneg c1).
  set (hlen := hdr_hlen data) in *. fold data in B1, B2, B3, B4, Edata1. fold hlen in B1, B2, B3.
  assert (L1' : hlen <= len (n_buf nd1)) by (rewrite T5; unfold cut_len; fold data; lia).
  pose proof (hlen_range data) as Rh. fold hlen in Rh.
  set (b2 := moved (- hlen) (n_buf nd1)). set (nd2 := Node (n_loc nd) b2 (drop (Z.to_nat hlen) (n_data nd1))).
  set (m2 := set_pbufs (<[n_loc nd := b2]> (pbufs m1)) m1). rewrite El in *.
  assert (Eth : take (Z.to_nat hlen) (n_data nd1) = take (Z.to_nat hlen) data) by (rewrite Edata1, take_take; f_equal; lia).
  exists m2, nd2, c1. split.
  - split.
    + done.
    + assert (Hp1 : packet m1 (Some (n_loc nd1)) (nd1 :: c1)) by (by rewrite El).
      pose proof (packet_head m1 nd1 c1 b2 (drop (Z.to_nat hlen) (n_data nd1)) Hp1) as Hph. rewrite El in Hph.
      apply Hph; [done| | | |apply holds_moved_back; [done|lia]].
      * unfold node_area, b2, moved. simpl. by destruct (payload (n_buf nd1)).
      * rewrite length_drop. simpl. lia.
      * rewrite length_drop. lia.
    + apply Forall_cons in T2 as [[R1 R2] T2]. apply Forall_cons. rewrite El in R2. split; [by split|done].
    + rewrite <- T4. fold data hlen. rewrite !contents_cons. cbn [n_data nd2]. by rewrite drop_app_le by lia.
    + fold data hlen. cbn [n_buf n_data nd2]. rewrite <- Eth, take_drop.
      replace (moved hlen b2) with (n_buf nd1); [exact Hh1|]. unfold b2. pose proof (moved_moved (- hlen) (n_buf nd1)) as E. by rewrite Z.opp_involutive in E.
    + fold data hlen. cbn [n_buf nd2]. rewrite <- Epl. replace (moved hlen b2) with (n_buf nd1); [done|]. unfold b2.
      pose proof (moved_moved (- hlen) (n_buf nd1)) as E. by rewrite Z.opp_involutive in E.
    + done.
    + fold data hlen. cbn [n_buf nd2]. unfold b2, moved. cbn. rewrite T5. fold data. lia.
    + intros l Hin. rewrite <- (T6 l Hin). simpl. rewrite lookup_insert_ne; [done|]. intros <-. apply Hin. by left.
  - unfold ip4_upper. set (s1 := set_emem m1 _).
    eapply (leads_bind (fun o => o = _)), wp_on_pbuf, (wp_getp _ (n_buf nd1)); [done|].
    change (set_emem (emem s1) s1) with s1. cbv zeta.
    eapply (leads_bind (fun o => o = _)), (wp_load8_at _ (n_data nd1)); [exact Hh1|lia|lia|].
    assert (E0 : IPH_HL_BYTES (nth (Z.to_nat 0) (n_data nd1) 0) = hlen) by (unfold hlen, hdr_hlen; rewrite Edata1, nth_take_lt by lia; done). rewrite E0.
    eapply (leads_bind (fun o => o = _)), wp_mod_ipv.
    eapply (leads_bind (fun o => o = _)), wp_on_pbuf. eapply wp_of_run.
    { rewrite (pbuf_remove_header_run _ (n_buf nd1)); [|exact Hl1|lia|lia|lia]. rewrite (proj2 (Z.leb_le _ _)) by lia. reflexivity. }
    fold b2. eapply (leads_bind (fun o => o = _)), (wp_load8_at _ (n_data nd1)); [exact Hh1|lia|lia|].
    assert (E9 : nth (Z.to_nat 9) (n_data nd1) 0 = hdr_proto data) by (rewrite Edata1; apply nth_take_lt; lia). rewrite E9, Epl. done.
Qed.

(** ** What becomes of a packet *)

(** C23. [ip4_input], whatever arrives. A packet whose version or lengths are
    wrong, or whose header checksum is, is released, and nothing else happens.
    For a good one the outcome is [packet_fate] of its header: a packet for
    none of the interfaces (DHCP to the client port apart), or with a broadcast
    or multicast source, is released; a fragment goes to reassembly; everything
    else, cut to its length, to the protocol above. In each case the addresses
    have been noted and nothing else happened before. *)
Theorem ip4_input_fate s nd c n : arrived s nd c -> Forall byte (n_data nd) -> port_there s n nd ->
  let data := n_data nd in let v1 := note_addresses data (ipv s) in
  let run := ip4_input odd_at ip4_frag udp_input tcp_input (n_loc nd) n s in
  (exists s', ~ good_header nd c /\ dropped (n_loc nd) nd c s s' /\ run = Ret tt s') \/
  (good_header nd c /\ exists m1 nd1 c1, trimmed (emem s) nd c (hdr_len data) m1 nd1 c1 /\
     run = take_fate (packet_fate (netifs s) (netif_list (ipv s)) n data (port_of data)) (n_loc nd) (hdr_hlen data) n
             (set_emem m1 (set_ipv v1 s)) /\
     (packet_fate (netifs s) (netif_list (ipv s)) n data (port_of data) = Discarded ->
        exists s', dropped (n_loc nd) nd c (set_ipv v1 s) s' /\ run = Ret tt s')).
Proof.
  intros Ha Hb Hport data v1 run. unfold run. clear run.
  pattern (ip4_input odd_at ip4_frag udp_input tcp_input (n_loc nd) n s). apply (leads_checked _ s nd c); [done|done| |].
  - intros s' Hbad Hd. left. by exists s'.
  - intros m1 nd1 c1 Hg T. right. split; [done|]. exists m1, nd1, c1. split; [done|].
    pose proof (accept_run s nd c n m1 nd1 c1 T Hg Hport) as E. fold data v1 in E. split; [exact E|].
    intros Ef. fold data v1. rewrite E, Ef. cbn [take_fate]. destruct T as [T1 T2 _ T4 _ T6].
    destruct (drop_run (n_loc nd) nd1 c1 (set_emem m1 (set_ipv v1 s)) T1 T2) as (k & m' & Efree & ->).
    eexists. split; [|reflexivity]. by exists m1, nd1, c1, (Z.to_nat (hdr_len (n_data nd))), k, m'.
Qed.

Lemma wp_ip4_input_upper s nd c a n (Q : unit -> eth -> Prop) : arrived s nd c -> Forall byte (n_data nd) -> port_there s n nd -> good_header nd c ->
  packet_fate (netifs s) (netif_list (ipv s)) n (n_data nd) (port_of (n_data nd)) = ToUpper a ->
  (forall m2 nd2 c2, for_upper (emem s) nd c m2 nd2 c2 ->
     wp (ip4_deliver odd_at ip4_frag udp_input tcp_input (n_loc nd) (hdr_proto (n_data nd)) (hdr_hlen (n_data nd)) a n;; mod_ipv (set_ip_data no_ip_data)) Q
       (set_emem m2 (set_ipv (current a n nd (ipv s)) s))) ->
  wp (ip4_input odd_at ip4_frag udp_input tcp_input (n_loc nd) n) Q s.
Proof.
  intros Ha Hb Hport Hg Hf HQ. unfold wp. pattern (ip4_input odd_at ip4_frag udp_input tcp_input (n_loc nd) n s).
  apply (leads_checked _ s nd c); [done|done|by intros|]. intros m1 nd1 c1 _ T.
  destruct (upper_run s nd c a n m1 nd1 c1 T Hg) as (m2 & nd2 & c2 & Hu & E). specialize (HQ m2 nd2 c2 Hu). unfold wp in HQ.
  rewrite (accept_run s nd c n m1 nd1 c1 T Hg Hport), Hf. cbn [take_fate]. rewrite E. exact HQ.
Qed.

(** What the protocol above gets. For a whole packet that is for interface
    [a], [ip4_input] is the call of that protocol's input function, with the
    payload of the packet: cut to the length the header gives, so that padding
    of the frame is gone, and without header and options; [ip_data] tells the
    function interface, header and addresses, and is cleared afterwards. *)
Theorem ip4_input_delivers s nd c a n : arrived s nd c -> Forall byte (n_data nd) -> port_there s n nd -> good_header nd c ->
  let data := n_data nd in
  packet_fate (netifs s) (netif_list (ipv s)) n data (port_of data) = ToUpper a ->
  exists m2 nd2 c2, for_upper (emem s) nd c m2 nd2 c2 /\
    ip4_input odd_at ip4_frag udp_input tcp_input (n_loc nd) n s =
    (ip4_deliver odd_at ip4_frag udp_input tcp_input (n_loc nd) (hdr_proto data) (hdr_hlen data) a n;; mod_ipv (set_ip_data no_ip_data))
      (set_emem m2 (set_ipv (current a n nd (ipv s)) s)).
Proof.
  intros Ha Hb Hport Hg data Hf. pattern (ip4_input odd_at ip4_frag udp_input tcp_input (n_loc nd) n s).
  apply (leads_checked _ s nd c); [done|done|by intros|]. intros m1 nd1 c1 _ T.
  destruct (upper_run s nd c a n m1 nd1 c1 T Hg) as (m2 & nd2 & c2 & Hu & E). exists m2, nd2, c2. split; [done|].
  rewrite (accept_run s nd c n m1 nd1 c1 T Hg Hport). fold data. rewrite Hf. exact E.
Qed.
End Input.

(** The fields of a header, read back. *)
Lemma header_view tos len id off ttl proto ck src dst rest : length ck = 2%nat -> 0 <= len < 65536 -> 0 <= off < 65536 ->
  0 <= src < 2 ^ 32 -> 0 <= dst < 2 ^ 32 ->
  let data := header_fields tos len id off ttl proto ck src dst ++ rest in
  IPH_V (nth 0 data 0) = 4 /\ hdr_hlen data = 20 /\ hdr_len data = len /\ hdr_proto data = proto /\ hdr_src data = src /\ hdr_dest data = dst /\
  lwip_ntohs (hdr_offset data) = off.
Proof.
  intros L Hl Ho Hs Hd. do 2 list_cons ck. list_nil ck. cbv zeta. split_and!; [done|done| |done| | |].
  - unfold hdr_len. change (load_word16 _) with (word16 (len / 256) (len mod 256)). unfold lwip_ntohs, lwip_htons.
    rewrite PP_HTONS_word16 by (unfold byte; Z.div_mod_to_equations; lia). unfold word16. Z.div_mod_to_equations. lia.
  - exact (load_bytes32 src Hs).
  - exact (load_bytes32 dst Hd).
  - change (hdr_offset _) with (word16 (off / 256) (off mod 256)). unfold lwip_ntohs, lwip_htons.
    rewrite PP_HTONS_word16 by (unfold byte; Z.div_mod_to_equations; lia). unfold word16. Z.div_mod_to_equations. lia.
Qed.

Section Frame.
Context `{WL : WireLaws} `{HL : !HeapLaws} `{CF : !CustomFree} `{BU : !Build}.
Context (odd_at : option ptr -> bool) (ip4_frag : loc -> nat -> Z -> M eth Z).
Context (udp_input tcp_input : loc -> nat -> M eth unit).

(** The frame: a packet of protocol [proto] from [src] to [dst] with the payload
    [msg] and a correct header checksum, padded to any length. *)
Record ip_frame (s : eth) (nd : node) (c : list node) (me peer : list Z) (tos id off ttl proto : Z) (ck : list Z)
    (src dst : Z) (msg pad : list Z) : Prop := {
  fr_packet : packet (emem s) (Some (n_loc nd)) (nd :: c);
  fr_trim : trimmable (nd :: c);
  fr_first : 34 <= len (n_buf nd);
  fr_contents : contents (nd :: c) = frame me peer ETHTYPE_IP
     (header_fields tos (20 + Z.of_nat (length msg)) id off ttl proto ck src dst ++ msg ++ pad);
  fr_addrs : length me = 6%nat /\ length peer = 6%nat;
  fr_ck : length ck = 2%nat;
  fr_bytes : Forall byte (contents (nd :: c));
  fr_header : rfc1071 (header_fields tos (20 + Z.of_nat (length msg)) id off ttl proto ck src dst) = 0xffff;
  fr_fields : (off = 0 \/ off = IP_DF) /\ 0 <= src < 2 ^ 32 /\ 0 <= dst < 2 ^ 32;
  fr_size : Z.of_nat (length msg) <= 1480
}.

(** The host takes it: interface [a] is addressed, from a proper source. *)
Record hears (s : eth) (n a : nat) (src dst : Z) : Prop := {
  he_etharp : has (if_flags (netifs s n)) NETIF_FLAG_ETHARP = true;
  he_for_us : match_netif (netifs s) dst n (netif_list (ipv s)) = Some a;
  he_source : bad_source (netifs s n) src = false
}.

(** The received packet behind its Ethernet header. *)
Lemma trimmable_delivered m nd c m1 nd1 : delivered m nd c m1 nd1 -> trimmable (nd :: c) -> 14 <= len (n_buf nd) -> trimmable (nd1 :: c).
Proof.
  intros Dv Ht Hl. pose proof (dv_release _ _ _ _ _ Dv (trimmable_releasable _ Ht)) as Hr. apply Forall_cons in Hr as [[R1 R2] _].
  apply Forall_cons in Ht as [(_ & _ & Ho) Ht]. apply Forall_cons. split; [|done]. split_and!; [lia..|done|].
  unfold own_payload in *. rewrite (dv_loc _ _ _ _ _ Dv). destruct (n_loc nd) as [|o|]; [done| |done].
  destruct Ho as (off & Ep & Hb). destruct (dv_buf _ _ _ _ _ Dv) as (f & i & ->). exists (off + 14). cbn. rewrite Ep. cbn.
  split; [do 2 f_equal; lia|lia].
Qed.

Lemma frame_arrives s nd c me peer tos id off ttl proto ck src dst msg pad m1 nd1 :
  ip_frame s nd c me peer tos id off ttl proto ck src dst msg pad -> delivered (emem s) nd c m1 nd1 ->
  let hd := header_fields tos (20 + Z.of_nat (length msg)) id off ttl proto ck src dst in
  contents (nd1 :: c) = hd ++ msg ++ pad /\ arrived (set_emem m1 s) nd1 c /\
  len (n_buf nd1) = len (n_buf nd) - 14 /\ Forall byte (n_data nd1) /\
  exists t, n_data nd1 = hd ++ t.
Proof.
  intros [Hp Htrim Hf Hc [Lm Lp] Lck Hb _ _ _] Dv hd. pose proof (pk_chain _ _ _ Hp) as (_ & _ & [L _] & _).
  pose proof (dv_packet _ _ _ _ _ Dv) as Hp1. pose proof (pk_chain _ _ _ Hp1) as (_ & _ & [L1 _] & _).
  assert (Hlen : len (n_buf nd1) = len (n_buf nd) - 14) by (destruct (dv_buf _ _ _ _ _ Dv) as (f & i & ->); simpl; lia).
  assert (Hcont : contents (nd1 :: c) = hd ++ msg ++ pad).
  { rewrite contents_cons, (dv_data _ _ _ _ _ Dv). rewrite contents_cons in Hc. rewrite <- drop_app_le by lia. rewrite Hc.
    destruct (frame_fields me peer ETHTYPE_IP (hd ++ msg ++ pad) Lm Lp) as [_ F]. exact F. }
  split_and!; [done| |done| |].
  - split; [by rewrite (dv_loc _ _ _ _ _ Dv)|by eapply trimmable_delivered; [done..|lia]|lia].
  - rewrite (dv_data _ _ _ _ _ Dv). apply Forall_drop. rewrite contents_cons in Hb. by apply Forall_app in Hb as [? _].
  - exists (drop 20 (n_data nd1)). rewrite <- (take_drop 20 (n_data nd1)) at 1. f_equal.
    rewrite contents_cons in Hcont. assert (LH : length hd = 20%nat) by (by apply header_fields_length).
    rewrite <- (take_app_le (n_data nd1) (contents c) 20) by lia. rewrite Hcont. by rewrite take_app_length'.
Qed.

(** The fate of the packet, once the Ethernet header is gone. *)
Lemma frame_good s nd c me peer tos id off ttl proto ck src dst msg pad m1 nd1 n a :
  ip_frame s nd c me peer tos id off ttl proto ck src dst msg pad -> delivered (emem s) nd c m1 nd1 -> hears s n a src dst ->
  let hd := header_fields tos (20 + Z.of_nat (length msg)) id off ttl proto ck src dst in
  good_header nd1 c /\ take 20 (n_data nd1) = hd /\ hdr_hlen (n_data nd1) = 20 /\ hdr_len (n_data nd1) = 20 + Z.of_nat (length msg) /\
  hdr_proto (n_data nd1) = proto /\ hdr_src (n_data nd1) = src /\ hdr_dest (n_data nd1) = dst /\
  packet_fate (netifs s) (netif_list (ipv s)) n (n_data nd1) (port_of (n_data nd1)) = ToUpper a.
Proof.
  intros Hf Dv [_ Hus Hsrc] hd. destruct (frame_arrives s nd c me peer tos id off ttl proto ck src dst msg pad m1 nd1 Hf Dv)
    as (Hcont & _ & Hlen & _ & t & Et). fold hd in Hcont, Et.
  destruct Hf as [_ _ H34 _ _ Lck _ Hck (Hoff & Rsrc & Rdst) Hsz].
  assert (LH : length hd = 20%nat) by (by apply header_fields_length).
  destruct (header_view tos (20 + Z.of_nat (length msg)) id off ttl proto ck src dst t) as (V1 & V2 & V3 & V4 & V5 & V6 & V7);
    [done|lia|destruct Hoff as [->| ->]; done|done|done|]. fold hd in V1, V2, V3, V4, V5, V6, V7. rewrite <- Et in V1, V2, V3, V4, V5, V6, V7.
  assert (Etake : take 20 (n_data nd1) = hd) by (rewrite Et; by apply take_app_length').
  split_and!; try done.
  - split; [|rewrite V2; change (Z.to_nat 20) with 20%nat; by rewrite Etake]. unfold lengths_ok. rewrite V1, V2, V3.
    unfold total. rewrite Hcont. rewrite !length_app, LH. lia.
  - unfold packet_fate. rewrite V5, V6, Hus, Hsrc.
    assert (E0 : Z.land (hdr_offset (n_data nd1)) (PP_HTONS (Z.lor IP_OFFMASK IP_MF)) = 0).
    { rewrite Et. change (hdr_offset (hd ++ t)) with (word16 (off / 256) (off mod 256)). by destruct Hoff as [->| ->]. }
    by rewrite E0.
Qed.

(** What the protocol above gets: the payload, with the IP header [hd] still in
    front of it in memory, at [x]. *)
Record upper_gets (s : eth) (nd : node) (c : list node) (hd msg : list Z) (x : option ptr) (m2 : mem) (nd2 : node) (c2 : list node) : Prop := {
  ug_loc : n_loc nd2 = n_loc nd;
  ug_packet : packet m2 (Some (n_loc nd)) (nd2 :: c2);
  ug_release : EtharpReply.releasable (nd2 :: c2);
  ug_contents : contents (nd2 :: c2) = msg;
  ug_header : holds m2 (moved 20 (n_buf nd2)) (hd ++ n_data nd2);
  ug_at : payload (moved 20 (n_buf nd2)) = x /\ x = (fun p : ptr => (p.1, p.2 + 14)) <$> payload (n_buf nd);
  ug_type : type_internal (n_buf nd2) = type_internal (n_buf nd);
  ug_len : len (n_buf nd2) = Z.min (len (n_buf nd) - 34) (Z.of_nat (length msg));
  ug_rest l : l ∉ map n_loc (nd :: c) -> pbufs m2 !! l = pbufs (emem s) !! l
}.

(** The state then. *)
Definition with_packet (a n : nat) (x : option ptr) (src dst : Z) (m2 : mem) (s : eth) : eth :=
  set_emem m2 (set_ipv (set_ip_data (IpGlobals (Some a) (Some n) x 20 src dst) (ipv s)) s).

Lemma wp_ip_frame s nd c me peer tos id off ttl proto ck src dst msg pad n a (Q : eth -> Prop) :
  ip_frame s nd c me peer tos id off ttl proto ck src dst msg pad -> hears s n a src dst ->
  (forall x m2 nd2 c2, upper_gets s nd c (header_fields tos (20 + Z.of_nat (length msg)) id off ttl proto ck src dst) msg x m2 nd2 c2 ->
     wp (ip4_deliver odd_at ip4_frag udp_input tcp_input (n_loc nd) proto 20 a n;; mod_ipv (set_ip_data no_ip_data)) (fun _ s' => Q s')
       (with_packet a n x src dst m2 s)) ->
  wp (ethernet_input (ip4_input odd_at ip4_frag udp_input tcp_input) (n_loc nd) n) (fun r s' => r = ERR_OK /\ Q s') s.
Proof.
  intros Hf He HQ. pose proof Hf as [Hp _ H34 Hc [Lm Lp] _ _ _ _ _]. pose proof (pk_chain _ _ _ Hp) as (_ & _ & [L _] & _).
  apply (wp_ethernet_header _ _ _ c _ ETHTYPE_IP); [done|lia|by left| |apply He|].
  { rewrite <- (take_app_le (drop 12 (n_data nd)) (contents c) 2) by (rewrite length_drop; lia).
    rewrite <- drop_app_le by lia. rewrite <- contents_cons, Hc.
    match goal with |- context [frame me peer ETHTYPE_IP ?d] => destruct (frame_fields me peer ETHTYPE_IP d Lm Lp) as [F _] end. exact F. }
  intros m1 nd1 Dv. change (ETHTYPE_IP =? ETHTYPE_IP) with true. cbv iota.
  destruct (frame_arrives _ _ _ _ _ _ _ _ _ _ _ _ _ _ _ m1 nd1 Hf Dv) as (Hcont & Harr & Hlen & Hby & _).
  destruct (frame_good _ _ _ _ _ _ _ _ _ _ _ _ _ _ _ m1 nd1 n a Hf Dv He) as (Hgood & Etake & V2 & V3 & V4 & V5 & V6 & Hfate).
  pose proof (dv_loc _ _ _ _ _ Dv) as El. rewrite <- El in *.
  apply (wp_ip4_input_upper odd_at ip4_frag udp_input tcp_input (set_emem m1 s) nd1 c a n); [done|done| |done|done|];
    [unfold port_there; change (netifs (set_emem m1 s)) with (netifs s); change (ipv (set_emem m1 s)) with (ipv s); rewrite V6, (he_for_us _ _ _ _ _ He); done|].
  intros m2 nd2 c2 [U1 U2 U3 U4 U5 U6 U7 U8 U9]. rewrite V2 in *. rewrite V3 in *. rewrite V4.
  eapply (wp_mono _ (fun _ s' => Q s')); [|done]. replace (current a n nd1 (ipv (set_emem m1 s)))
    with (set_ip_data (IpGlobals (Some a) (Some n) (payload (n_buf nd1)) 20 src dst) (ipv s)) by (unfold current; by rewrite V2, V5, V6).
  change (set_emem m2 (set_ipv ?v (set_emem m1 s))) with (set_emem m2 (set_ipv v s)). apply (HQ (payload (n_buf nd1)) m2 nd2 c2).
  pose proof (header_fields_length tos (20 + Z.of_nat (length msg)) id off ttl proto ck src dst (fr_ck _ _ _ _ _ _ _ _ _ _ _ _ _ _ _ Hf)) as LH.
  destruct (dv_buf _ _ _ _ _ Dv) as (f & i & Eb). split; rewrite <- ?El; try done.
  - rewrite U4, Hcont, (assoc (++)). rewrite take_app_length' by (rewrite !length_app, LH; lia). by apply drop_app_length'.
  - change (Z.to_nat 20) with 20%nat in U5. by rewrite Etake in U5.
  - split; [done|]. rewrite Eb. cbn. destruct (payload (n_buf nd)) as [[blk o]|]; done.
  - by rewrite U7, Eb.
  - unfold cut_len in U8. rewrite Hlen in U8. lia.
  - intros l Hin. rewrite map_cons in Hin. rewrite U9 by (by rewrite map_cons, El). change (emem (set_emem m1 s)) with m1.
    apply (op_pbufs _ _ _ (dv_only _ _ _ _ _ Dv)). intros ->%list_elem_of_singleton. apply Hin. left.
Qed.
End Frame.
