(* ===== verification/Ping.v ===== *)
(** A ping, from the frame that comes in to the frame that goes out. *)
From stdpp Require Import functions.
From S2P Require Import Prelude Memp Pbuf PbufFacts PbufUpdate PbufAlloc PbufChain PbufRealloc PbufRam Chksum ChksumFacts Ip4Addr.
From S2P Require Import Ethernet Etharp EtharpTable EtharpInv EtharpSend EtharpReply EtharpOutput.
From S2P Require Import Ip IpFacts Icmp IcmpFacts Reass IpInput IpInputFacts.

Section Ping.
Context `{WL : WireLaws} `{HL : !HeapLaws} `{CF : !CustomFree} `{BU : !Build}.
Context (odd_at : option ptr -> bool) (ip4_frag : loc -> nat -> Z -> M eth Z).
Context (udp_input tcp_input : loc -> nat -> M eth unit).

(** An interface that answers pings: its host's table, its driver and its
    hardware address in order, ARP switched on. *)
Record pingable (s : eth) (n a : nat) (dst : Z) : Prop := {
  pg_arp : arp_ok s;
  pg_wire : wire_ok (elink s).1;
  pg_hwaddr : length (if_hwaddr (netifs s n)) = 6%nat;
  pg_etharp : has (if_flags (netifs s n)) NETIF_FLAG_ETHARP = true;
  pg_for_us : match_netif (netifs s) dst n (netif_list (ipv s)) = Some a;
  pg_unicast : ip4_addr_ismulticast dst = false /\ ip4_addr_isbroadcast dst (netifs s a) = false;
  pg_range : 0 <= dst < 2 ^ 32
}.

(** The frame: an echo request from [src] to [dst], with a correct checksum in
    the IP header and in the message, padded to any length. *)
Record ping_frame (s : eth) (nd : node) (c : list node) (me peer : list Z) (tos id off ttl : Z) (ck : list Z)
    (src dst code ick : Z) (rest pad : list Z) : Prop := {
  pf_packet : packet (emem s) (Some (n_loc nd)) (nd :: c);
  pf_trim : trimmable (nd :: c);
  pf_room : has (type_internal (n_buf nd)) PBUF_TYPE_FLAG_STRUCT_DATA_CONTIGUOUS = true /\
            exists o, payload (n_buf nd) = Some (n_loc nd, o) /\ 0 <= o;
  pf_first : 38 <= len (n_buf nd);
  pf_contents : contents (nd :: c) = frame me peer ETHTYPE_IP
     (header_fields tos (24 + Z.of_nat (length rest)) id off ttl IP_PROTO_ICMP ck src dst ++ echo_message ICMP_ECHO code ick rest ++ pad);
  pf_addrs : length me = 6%nat /\ length peer = 6%nat;
  pf_ck : length ck = 2%nat;
  pf_bytes : Forall byte (contents (nd :: c));
  pf_header : rfc1071 (header_fields tos (24 + Z.of_nat (length rest)) id off ttl IP_PROTO_ICMP ck src dst) = 0xffff;
  pf_message : good_message (echo_message ICMP_ECHO code ick rest);
  pf_fields : byte tos /\ 0 <= id < 65536 /\ (off = 0 \/ off = IP_DF) /\ 0 <= ick < 65536 /\ 0 <= src < 2 ^ 32;
  pf_size : (4 <= length rest)%nat /\ 38 + Z.of_nat (length rest) <= 1500
}.

(** The answer went out: one frame to [hw] with the IP packet [pkt]; the
    received packet has been released; nothing else of the state has changed. *)
Definition replied (s s' : eth) (n : nat) (nd : node) (c : list node) (hw pkt : list Z) : Prop :=
  (exists r, wire_rel n (frame hw (if_hwaddr (netifs s n)) ETHTYPE_IP pkt) (elink s).1 r (elink s').1) /\
  ipv s' = set_ip_data no_ip_data (ipv s) /\ arp_table s' = arp_table s /\ netifs s' = netifs s /\
  exists m3 c3 k, packet m3 (Some (n_loc nd)) c3 /\ (forall l, l ∉ map n_loc (nd :: c) -> pbufs m3 !! l = pbufs (emem s) !! l) /\
    pbuf_free (Some (n_loc nd)) m3 = Ret k (emem s').

Lemma echo_message_length type code ck rest : 20 + Z.of_nat (length (echo_message type code ck rest)) = 24 + Z.of_nat (length rest).
Proof. unfold echo_message. rewrite !length_app. simpl length. lia. Qed.

Lemma ping_ip_frame s nd c me peer tos id off ttl ck src dst code ick rest pad :
  ping_frame s nd c me peer tos id off ttl ck src dst code ick rest pad -> 0 <= dst < 2 ^ 32 ->
  ip_frame s nd c me peer tos id off ttl IP_PROTO_ICMP ck src dst (echo_message ICMP_ECHO code ick rest) pad.
Proof.
  intros [Hp Htrim _ Hf Hc HL2 Lck Hb Hh _ (_ & _ & Hoff & _ & Rsrc) [Hr4 Hsz]] Rdst.
  split; rewrite ?echo_message_length; try done; [lia|]. pose proof (echo_message_length ICMP_ECHO code ick rest). lia.
Qed.

Lemma message_split (l1 l2 : list Z) type code ck rest : l1 ++ l2 = echo_message type code ck rest -> (4 <= length l1)%nat ->
  exists r, l1 = echo_message type code ck r /\ r ++ l2 = rest.
Proof.
  unfold echo_message, bytes16. cbn [app]. intros E Hl. do 4 (destruct l1 as [|? l1]; [simpl in Hl; lia|]). cbn [app] in E.
  injection E as -> -> -> -> E. by exists l1.
Qed.

(** What ICMP does with the request. *)
Lemma wp_ping s nd c me peer tos id off ttl ck src dst code ick rest pad n a hw x m2 nd2 c2 :
  ping_frame s nd c me peer tos id off ttl ck src dst code ick rest pad -> pingable s n a dst -> resolved s n src hw ->
  (netif_mtu (ipv s) n = 0 \/ 24 + Z.of_nat (length rest) <= netif_mtu (ipv s) n) ->
  upper_gets s nd c (header_fields tos (24 + Z.of_nat (length rest)) id off ttl IP_PROTO_ICMP ck src dst) (echo_message ICMP_ECHO code ick rest) x m2 nd2 c2 ->
  wp (ip4_deliver odd_at ip4_frag udp_input tcp_input (n_loc nd) IP_PROTO_ICMP 20 a n;; mod_ipv (set_ip_data no_ip_data))
    (fun _ s' => replied s s' n nd c hw (echo_answer tos (24 + Z.of_nat (length rest)) id off src dst code ick rest)) (with_packet a n x src dst m2 s).
Proof.
  intros Hf Hg Hres Hmtu [U1 U2 U3 U4 U5 [U6 Ex] U7 U8 U9]. destruct Hg as [Hi Hw L Heth Hus [Hm1 Hm2] Rdst].
  set (s2 := with_packet a n x src dst m2 s). pose proof (pk_chain _ _ _ U2) as (_ & _ & [L2 _] & _). pose proof (total_nonneg c2) as Ht2.
  destruct Hf as [Hp _ [Hct (o & Epl & Ho)] H38 _ _ Lck _ _ Hmsg (Rtos & Rid & Hoff & Rick & Rsrc) [Hr4 Hsz]].
  assert (Lmsg : Z.of_nat (length (echo_message ICMP_ECHO code ick rest)) = 4 + Z.of_nat (length rest)) by (pose proof (echo_message_length ICMP_ECHO code ick rest); lia).
  pose proof U4 as Emsg. rewrite contents_cons in Emsg. rewrite Lmsg in U8.
  destruct (message_split (n_data nd2) (contents c2) ICMP_ECHO code ick rest Emsg) as (rest2 & Ed2 & Er2); [lia|].
  assert (Etot : total (nd2 :: c2) = 4 + Z.of_nat (length rest)) by (unfold total; by rewrite U4).
  assert (Hreq : echo_request s2 n nd2 c2 tos (24 + Z.of_nat (length rest)) id off ttl ck src dst code ick rest2 hw).
  { split; try done.
    - by rewrite U1.
    - by rewrite U4.
    - destruct Hoff as [->| ->]; split_and!; try done; try lia; unfold IP_DF; lia.
    - split; [by rewrite U7|]. rewrite Ex, Epl in U6. unfold moved in U6. cbn in U6. destruct (payload (n_buf nd2)) as [[blk o2]|]; [|done].
      cbn in U6. injection U6 as -> E6. exists (o + 34). rewrite U1. split; [do 2 f_equal; lia|unfold IP_HLEN, SIZEOF_ETH_HDR; lia].
    - unfold SIZEOF_ICMP_ECHO_HDR. lia.
    - unfold IP_HLEN, SIZEOF_ETH_HDR. lia.
    - unfold IP_HLEN. change (netif_mtu (ipv s2) n) with (netif_mtu (ipv s) n). lia. }
  assert (Had : addressed s2 a (payload (moved 20 (n_buf nd2))) dst) by (split; [by rewrite U6|done..]).
  apply wp_bind. unfold ip4_deliver. change (IP_PROTO_ICMP =? IP_PROTO_UDP) with false.
  change (IP_PROTO_ICMP =? IP_PROTO_TCP) with false. change (IP_PROTO_ICMP =? IP_PROTO_ICMP) with true. cbv iota. rewrite <- U1.
  eapply wp_mono; [apply (wp_icmp_echo odd_at ip4_frag s2 n a nd2 c2 tos (24 + Z.of_nat (length rest)) id off ttl ck src dst code ick rest2 hw Hreq U3 Had)|].
  intros [] s' (r & s3 & k & m' & Hsent & Efree & ->). destruct Hsent as (j & m3 & w' & data & -> & _ & _ & O3 & Hp3 & _ & Hrel).
  apply wp_mod_ipv. rewrite Er2 in Hrel. cbn [reused n_loc] in *. split; [by exists r|]. split_and!; [done|done|done|].
  rewrite U1 in *. eexists m3, _, k. split_and!; [exact Hp3| |exact Efree].
  intros l Hl. destruct O3 as (_ & _ & _ & _ & O3). rewrite (proj1 (O3 l ltac:(intros ->; apply Hl; by left))). by apply U9.
Qed.

(** C7. Ping. An echo request for this host, in a frame of any length and any
    chain of pbufs that keeps its headers in the first one, is answered: with
    the sender's hardware address known, [ethernet_input] returns ERR_OK and the
    driver has been given exactly one frame, to that address: the request with
    the IP addresses exchanged, a new time to live and header checksum, the
    type of a reply and a checksum that is right for it. The padding is gone,
    the request has been released, and IP's and ARP's variables are what they
    were. *)
Theorem ping_is_answered s nd c me peer tos id off ttl ck src dst code ick rest pad n a hw :
  ping_frame s nd c me peer tos id off ttl ck src dst code ick rest pad ->
  pingable s n a dst -> bad_source (netifs s n) src = false -> resolved s n src hw ->
  (netif_mtu (ipv s) n = 0 \/ 24 + Z.of_nat (length rest) <= netif_mtu (ipv s) n) ->
  let answer := echo_answer tos (24 + Z.of_nat (length rest)) id off src dst code ick rest in
  (exists s', ethernet_input (ip4_input odd_at ip4_frag udp_input tcp_input) (n_loc nd) n s = Ret ERR_OK s' /\
     replied s s' n nd c hw answer) /\
  good_message (drop 20 answer).
Proof.
  intros Hf Hg Hsrc Hres Hmtu answer. pose proof Hf as [Hp _ _ H38 Hc [Lm Lp] _ _ _ Hmsg (_ & _ & _ & Rick & _) _].
  pose proof (pk_chain _ _ _ Hp) as (_ & _ & [L _] & _). split.
  - assert (W : wp (ethernet_input (ip4_input odd_at ip4_frag udp_input tcp_input) (n_loc nd) n) (fun r s' => r = ERR_OK /\ replied s s' n nd c hw answer) s).
    { eapply (wp_ip_frame odd_at ip4_frag udp_input tcp_input s nd c me peer _ _ _ _ _ _ _ _ _ _ n a _ (ping_ip_frame _ _ _ _ _ _ _ _ _ _ _ _ _ _ _ _ Hf (pg_range _ _ _ _ Hg)));
        [split; [apply Hg|apply Hg|done]|].
      intros x m2 nd2 c2 Hu. rewrite echo_message_length in Hu. by eapply wp_ping. }
    destruct (wp_elim _ _ _ W) as (r & s' & E & -> & Hr). by exists s'.
  - destruct (good_reply code ick rest Rick Hmsg) as [_ Hgr]. unfold answer, echo_answer.
    rewrite drop_app_length' by (by rewrite ip_header_length). exact Hgr.
Qed.
End Ping.
