(* ===== verification/Udp.v ===== *)
(** UDP: [src/lwip-2.2.1/src/core/udp.c], every function this configuration
    compiles.

    A control block is named by its element of the pool MEMP_UDP_PCB; a receive
    function and its argument are numbers that the class [UdpUser] knows what to
    do with.  Configuration: IPv4 only, no UDP-Lite, no multicast options, no
    shared ports ([SO_REUSE]), no broadcast filter, checksums computed and
    checked; [LWIP_RAND] is not defined, so that [udp_init] does nothing. *)
From S2P Require Import Prelude Memp Pbuf Chksum Ip4Addr Ethernet Etharp Ip Icmp.

(** ** udp.h, prot/udp.h, opt.h, err.h *)

Definition UDP_HLEN : Z := 8.
Definition UDP_TTL : Z := IP_DEFAULT_TTL.
Definition UDP_FLAGS_NOCHKSUM : Z := 0x01.
Definition UDP_FLAGS_CONNECTED : Z := 0x04.
Definition UDP_LOCAL_PORT_RANGE_START : Z := 0xc000.
Definition UDP_LOCAL_PORT_RANGE_END : Z := 0xffff.
Definition ERR_USE : Z := -8.

Record udp_pcb : Type := UdpPcb {
  local_ip : Z;
  remote_ip : Z;
  netif_idx : Z;
  so_options : Z;
  tos : Z;
  ttl : Z;
  pcb_next : option loc;
  pcb_flags : Z;
  local_port : Z;
  remote_port : Z;
  recv : option Z;
  recv_arg : Z
}.

Definition set_local (ip port : Z) (p : udp_pcb) : udp_pcb :=
  UdpPcb ip (remote_ip p) (netif_idx p) (so_options p) (tos p) (ttl p) (pcb_next p) (pcb_flags p) port (remote_port p) (recv p) (recv_arg p).
Definition set_remote (ip port : Z) (p : udp_pcb) : udp_pcb :=
  UdpPcb (local_ip p) ip (netif_idx p) (so_options p) (tos p) (ttl p) (pcb_next p) (pcb_flags p) (local_port p) port (recv p) (recv_arg p).
Definition set_netif_idx (x : Z) (p : udp_pcb) : udp_pcb :=
  UdpPcb (local_ip p) (remote_ip p) x (so_options p) (tos p) (ttl p) (pcb_next p) (pcb_flags p) (local_port p) (remote_port p) (recv p) (recv_arg p).
Definition set_ttl (x : Z) (p : udp_pcb) : udp_pcb :=
  UdpPcb (local_ip p) (remote_ip p) (netif_idx p) (so_options p) (tos p) x (pcb_next p) (pcb_flags p) (local_port p) (remote_port p) (recv p) (recv_arg p).
Definition set_pcb_next (x : option loc) (p : udp_pcb) : udp_pcb :=
  UdpPcb (local_ip p) (remote_ip p) (netif_idx p) (so_options p) (tos p) (ttl p) x (pcb_flags p) (local_port p) (remote_port p) (recv p) (recv_arg p).
Definition set_pcb_flags (x : Z) (p : udp_pcb) : udp_pcb :=
  UdpPcb (local_ip p) (remote_ip p) (netif_idx p) (so_options p) (tos p) (ttl p) (pcb_next p) x (local_port p) (remote_port p) (recv p) (recv_arg p).
Definition set_recv (f : option Z) (a : Z) (p : udp_pcb) : udp_pcb :=
  UdpPcb (local_ip p) (remote_ip p) (netif_idx p) (so_options p) (tos p) (ttl p) (pcb_next p) (pcb_flags p) (local_port p) (remote_port p) f a.

(** A control block of zeros. *)
Definition zero_pcb : udp_pcb := UdpPcb 0 0 0 0 0 0 None 0 0 0 None 0.

(** ** The state *)

(** The variables of udp.c and the control blocks in use. *)
Record udp_vars : Type := UdpVars {
  udp_port : Z;
  udp_pcbs : option loc;
  udp_pool : gmap loc udp_pcb
}.

Definition set_udp_port (x : Z) (v : udp_vars) : udp_vars := UdpVars x (udp_pcbs v) (udp_pool v).
Definition set_udp_pcbs (x : option loc) (v : udp_vars) : udp_vars := UdpVars (udp_port v) x (udp_pool v).
Definition set_udp_pool (x : gmap loc udp_pcb) (v : udp_vars) : udp_vars := UdpVars (udp_port v) (udp_pcbs v) x.

(** UDP's variables among those of the protocols above IP. *)
Class UdpState `{Wire} : Type := {
  udp_part : tstate -> udp_vars;
  put_udp_part : udp_vars -> tstate -> tstate;
  udp_part_put : forall v t, udp_part (put_udp_part v t) = v;
  put_udp_part_put : forall v w t, put_udp_part v (put_udp_part w t) = put_udp_part v t;
  put_udp_part_same : forall t, put_udp_part (udp_part t) t = t
}.

(** What the receive functions do: [recv(arg, pcb, p, addr, port)]. *)
Class UdpUser `{Wire} : Type := {
  udp_recv_fn : Z -> Z -> loc -> loc -> Z -> Z -> M eth unit
}.

(** ** netif.c *)

(** [NETIF_FOREACH(netif)]. *)
Fixpoint netif_get_by_index (ifs : nat -> link_if) (idx : Z) (l : list nat) : option nat :=
  if idx =? NETIF_NO_INDEX then None
  else match l with
  | [] => None
  | n :: l => if idx =? netif_get_index (ifs n) then Some n else netif_get_by_index ifs idx l
  end.

Section Udp.
Context `{W : Wire} `{CF : !CustomFree} `{BU : !Build} `{US : !UdpState} `{UU : !UdpUser}.
Context (odd_at : option ptr -> bool) (ip4_frag : loc -> nat -> Z -> M eth Z).

Definition udpv (s : eth) : udp_vars := udp_part (above (ipv s)).
Definition udp_var {A} (f : udp_vars -> A) : M eth A := gets (fun s => f (udpv s)).
Definition mod_udpv (f : udp_vars -> udp_vars) : M eth unit :=
  mod_ipv (fun v => set_above (put_udp_part (f (udp_part (above v))) (above v)) v).

(** [pcb->...]. *)
Definition get_pcb (l : loc) : M eth udp_pcb := p ← udp_var udp_pool; deref BadPointer (p !! l).
Definition set_pcb (l : loc) (f : udp_pcb -> udp_pcb) : M eth unit :=
  p ← get_pcb l; mod_udpv (fun v => set_udp_pool (<[l := f p]> (udp_pool v)) v).

(** How often a loop over the control blocks can go round. *)
Definition pcbs_fuel : M eth nat := udp_var (fun v => S (size (udp_pool v))).

(** ** Ports *)

(** [for (pcb = udp_pcbs; pcb != NULL; pcb = pcb->next)]: is the port taken? *)
Definition port_taken_body (port : Z) (pcb : option loc) : M eth (option loc + bool) :=
  match pcb with
  | None => mret (inr false)
  | Some l => p ← get_pcb l; mret (if local_port p =? port then inr true else inl (pcb_next p))
  end.

(** [again:]. *)
Definition new_port_body (n : Z) : M eth (Z + Z) :=
  port ← udp_var udp_port;
  mod_udpv (set_udp_port (u16 (port + 1)));;
  when (port =? UDP_LOCAL_PORT_RANGE_END) (mod_udpv (set_udp_port UDP_LOCAL_PORT_RANGE_START));;
  port ← udp_var udp_port;
  h ← udp_var udp_pcbs;
  fuel ← pcbs_fuel;
  taken ← iter fuel (port_taken_body port) h;
  if (taken : bool) then
    let n := u16 (n + 1) in
    mret (if UDP_LOCAL_PORT_RANGE_END - UDP_LOCAL_PORT_RANGE_START <? n then inr 0 else inl n)
  else mret (inr port).

Definition new_port_fuel : nat := S (Z.to_nat (UDP_LOCAL_PORT_RANGE_END - UDP_LOCAL_PORT_RANGE_START)).

Definition udp_new_port : M eth Z := iter new_port_fuel new_port_body 0.

(** ** Control blocks *)

Definition udp_new : M eth (option loc) :=
  pcb ← on_pbuf (memp_malloc_at MEMP_UDP_PCB);
  match pcb with
  | None => mret None
  | Some l => mod_udpv (fun v => set_udp_pool (<[l := set_ttl UDP_TTL zero_pcb]> (udp_pool v)) v);; mret (Some l)
  end.

Definition udp_new_ip_type (type : Z) : M eth (option loc) := udp_new.

(** [for (ipcb = udp_pcbs; ipcb != NULL; ipcb = ipcb->next)]: is [pcb] there? *)
Definition find_pcb_body (pcb : loc) (ipcb : option loc) : M eth (option loc + bool) :=
  match ipcb with
  | None => mret (inr false)
  | Some l =>
    if bool_decide (pcb = l) then mret (inr true)
    else p ← get_pcb l; mret (inl (pcb_next p))
  end.

(** The same loop: does another control block have [ipaddr] and [port]? *)
Definition in_use_body (pcb : loc) (ipaddr port : Z) (ipcb : option loc) : M eth (option loc + bool) :=
  match ipcb with
  | None => mret (inr false)
  | Some l =>
    p ← get_pcb l;
    mret (if negb (bool_decide (pcb = l)) && (local_port p =? port)
             && (ip4_addr_eq (local_ip p) ipaddr || ip4_addr_isany_val ipaddr || ip4_addr_isany_val (local_ip p))
          then inr true else inl (pcb_next p))
  end.

(** [pcb->next = udp_pcbs; udp_pcbs = pcb;] *)
Definition push_pcb (pcb : loc) : M eth unit :=
  h ← udp_var udp_pcbs; set_pcb pcb (set_pcb_next h);; mod_udpv (set_udp_pcbs (Some pcb)).

(** [ipaddr] NULL means any address. *)
Definition udp_bind (pcb : option loc) (ipaddr : option Z) (port : Z) : M eth Z :=
  let ipaddr := default IPADDR_ANY ipaddr in
  match pcb with
  | None => mret ERR_ARG
  | Some pcb =>
    h ← udp_var udp_pcbs;
    fuel ← pcbs_fuel;
    rebind ← iter fuel (find_pcb_body pcb) h;
    port ← (if port =? 0 then
        port ← udp_new_port; mret (if port =? 0 then None else Some port)
      else
        h ← udp_var udp_pcbs;
        used ← iter fuel (in_use_body pcb ipaddr port) h;
        mret (if (used : bool) then None else Some port));
    match port with
    | None => mret ERR_USE
    | Some port =>
      set_pcb pcb (set_local ipaddr port);;
      when (negb rebind) (push_pcb pcb);;
      mret ERR_OK
    end
  end.

Definition udp_bind_netif (pcb : loc) (netif : option nat) : M eth unit :=
  match netif with
  | Some n => i ← the_netif n; set_pcb pcb (set_netif_idx (netif_get_index i))
  | None => set_pcb pcb (set_netif_idx NETIF_NO_INDEX)
  end.

Definition udp_connect (pcb : option loc) (ipaddr : option Z) (port : Z) : M eth Z :=
  match pcb, ipaddr with
  | Some pcb, Some ipaddr =>
    p ← get_pcb pcb;
    err ← (if local_port p =? 0 then udp_bind (Some pcb) (Some (local_ip p)) (local_port p) else mret ERR_OK);
    if negb (err =? ERR_OK) then mret err
    else
      set_pcb pcb (fun p => set_remote ipaddr port p);;
      set_pcb pcb (fun p => set_pcb_flags (Z.lor (pcb_flags p) UDP_FLAGS_CONNECTED) p);;
      h ← udp_var udp_pcbs;
      fuel ← pcbs_fuel;
      there ← iter fuel (find_pcb_body pcb) h;
      when (negb there) (push_pcb pcb);;
      mret ERR_OK
  | _, _ => mret ERR_ARG
  end.

Definition udp_disconnect (pcb : option loc) : M eth unit :=
  match pcb with
  | None => mret tt
  | Some pcb =>
    set_pcb pcb (fun p => set_pcb_flags (Z.land (pcb_flags p) (u8 (Z.lnot UDP_FLAGS_CONNECTED)))
      (set_netif_idx NETIF_NO_INDEX (set_remote IPADDR_ANY 0 p)))
  end.

Definition udp_recv (pcb : option loc) (f : option Z) (arg : Z) : M eth unit :=
  match pcb with None => mret tt | Some pcb => set_pcb pcb (set_recv f arg) end.

(** The search for the block before [pcb], and its removal there. *)
Definition unlink_pcb_body (pcb : loc) (pcb2 : option loc) : M eth (option loc + unit) :=
  match pcb2 with
  | None => mret (inr tt)
  | Some l =>
    p2 ← get_pcb l;
    if bool_decide (pcb_next p2 = Some pcb) then
      p ← get_pcb pcb; set_pcb l (set_pcb_next (pcb_next p));; mret (inr tt)
    else mret (inl (pcb_next p2))
  end.

Definition udp_remove (pcb : option loc) : M eth unit :=
  match pcb with
  | None => mret tt
  | Some pcb =>
    h ← udp_var udp_pcbs;
    (if bool_decide (h = Some pcb) then p ← get_pcb pcb; mod_udpv (set_udp_pcbs (pcb_next p))
     else fuel ← pcbs_fuel; iter fuel (unlink_pcb_body pcb) h);;
    on_pbuf (memp_free_at MEMP_UDP_PCB pcb);;
    mod_udpv (fun v => set_udp_pool (delete pcb (udp_pool v)) v)
  end.

Definition addr_changed_body (old_addr new_addr : Z) (upcb : option loc) : M eth (option loc + unit) :=
  match upcb with
  | None => mret (inr tt)
  | Some l =>
    p ← get_pcb l;
    when (ip4_addr_eq (local_ip p) old_addr) (set_pcb l (fun p => set_local new_addr (local_port p) p));;
    mret (inl (pcb_next p))
  end.

(** A NULL address counts as any. *)
Definition udp_netif_ip_addr_changed (old_addr new_addr : option Z) : M eth unit :=
  match old_addr, new_addr with
  | Some old_addr, Some new_addr =>
    if negb (ip4_addr_isany_val old_addr) && negb (ip4_addr_isany_val new_addr) then
      h ← udp_var udp_pcbs; fuel ← pcbs_fuel; iter fuel (addr_changed_body old_addr new_addr) h
    else mret tt
  | _, _ => mret tt
  end.

(** ** Output *)

(** From the port on: the header, in front of [p] or in a new pbuf. *)
Definition udp_write_header (q : loc) (src_port dst_port : Z) (nochksum : bool) (src_ip dst_ip : Z) : M eth unit :=
  b ← on_pbuf (getp q);
  let udphdr := payload b in
  store_field udphdr 0 (bytes16 (lwip_htons src_port));;
  store_field udphdr 2 (bytes16 (lwip_htons dst_port));;
  store_field udphdr 6 (bytes16 0);;
  store_field udphdr 4 (bytes16 (lwip_htons (tot_len b)));;
  when (negb nochksum) (
    udpchksum ← on_pbuf (ip_chksum_pseudo odd_at (Some q) IP_PROTO_UDP (tot_len b) src_ip dst_ip);
    let udpchksum := if udpchksum =? 0 then 0xffff else udpchksum in
    store_field udphdr 6 (bytes16 udpchksum)).

(** The packet with room for the header; [None] is ERR_MEM. *)
Definition udp_make_room (p : loc) (b : pbuf) : M eth (option loc) :=
  r ← on_pbuf (pbuf_add_header (Some p) UDP_HLEN);
  if negb (r =? 0) then
    q ← on_pbuf (pbuf_alloc PBUF_IP UDP_HLEN PBUF_RAM);
    match q with
    | None => mret None
    | Some q => when (negb (tot_len b =? 0)) (on_pbuf (pbuf_chain (Some q) (Some p)));; mret (Some q)
    end
  else mret (Some p).

Definition udp_sendto_if_src (pcb p : option loc) (dst_ip : option Z) (dst_port : Z) (netif : option nat) (src_ip : option Z) : M eth Z :=
  match pcb, p, dst_ip, src_ip, netif with
  | Some pcb, Some p, Some dst_ip, Some src_ip, Some netif =>
    u ← get_pcb pcb;
    err ← (if local_port u =? 0 then udp_bind (Some pcb) (Some (local_ip u)) (local_port u) else mret ERR_OK);
    if negb (err =? ERR_OK) then mret err
    else
      b ← on_pbuf (getp p);
      if u16 (tot_len b + UDP_HLEN) <? tot_len b then mret ERR_MEM
      else
        q ← udp_make_room p b;
        match q with
        | None => mret ERR_MEM
        | Some q =>
          u ← get_pcb pcb;
          udp_write_header q (local_port u) dst_port (has (pcb_flags u) UDP_FLAGS_NOCHKSUM) src_ip dst_ip;;
          err ← ip4_output_if_src ip4_frag q (Some src_ip) (Some dst_ip) (ttl u) (tos u) IP_PROTO_UDP netif;
          when (negb (bool_decide (q = p))) (on_pbuf (pbuf_free (Some q));; mret tt);;
          mret err
        end
  | _, _, _, _, _ => mret ERR_ARG
  end.

Definition udp_sendto_if (pcb p : option loc) (dst_ip : option Z) (dst_port : Z) (netif : option nat) : M eth Z :=
  match pcb, p, dst_ip, netif with
  | Some l, Some _, Some _, Some n =>
    u ← get_pcb l;
    i ← the_netif n;
    if ip4_addr_isany_val (local_ip u) || ip4_addr_ismulticast (local_ip u) then
      udp_sendto_if_src pcb p dst_ip dst_port netif (Some (if_ip_addr i))
    else if negb (ip4_addr_eq (local_ip u) (if_ip_addr i)) then mret ERR_RTE
    else udp_sendto_if_src pcb p dst_ip dst_port netif (Some (local_ip u))
  | _, _, _, _ => mret ERR_ARG
  end.

(** [ip_route] is [ip4_route] of the destination. *)
Definition udp_sendto (pcb p : option loc) (dst_ip : option Z) (dst_port : Z) : M eth Z :=
  match pcb, p, dst_ip with
  | Some l, Some _, Some dst =>
    u ← get_pcb l;
    netif ← (if negb (netif_idx u =? NETIF_NO_INDEX) then
        ifs ← gets netifs; nl ← ip_var netif_list; mret (netif_get_by_index ifs (netif_idx u) nl)
      else ip4_route dst);
    match netif with
    | None => mret ERR_RTE
    | Some n => udp_sendto_if pcb p dst_ip dst_port (Some n)
    end
  | _, _, _ => mret ERR_ARG
  end.

Definition udp_send (pcb p : option loc) : M eth Z :=
  match pcb, p with
  | Some l, Some _ => u ← get_pcb l; udp_sendto pcb p (Some (remote_ip u)) (remote_port u)
  | _, _ => mret ERR_ARG
  end.

(** ** Input *)

(** [dest] is the current destination address, [cur] the index of the current
    input interface, [mask] the netmask of [inp]. *)
Definition udp_input_local_match (p : udp_pcb) (dest cur mask : Z) (broadcast : bool) : bool :=
  if negb (netif_idx p =? NETIF_NO_INDEX) && negb (netif_idx p =? cur) then false
  else if broadcast then
    ip4_addr_isany_val (local_ip p) || (dest =? IPADDR_BROADCAST) || ip4_addr_net_eq (local_ip p) dest mask
  else ip4_addr_isany_val (local_ip p) || ip4_addr_eq (local_ip p) dest.

(** What the search compares with. *)
Record udp_key : Type := UdpKey {
  k_src : Z;
  k_sport : Z;
  k_dest : Z;
  k_dport : Z;
  k_cur : Z;
  k_if_ip : Z;
  k_mask : Z;
  k_broadcast : bool
}.

Definition local_match (k : udp_key) (p : udp_pcb) : bool :=
  (local_port p =? k_dport k) && udp_input_local_match p (k_dest k) (k_cur k) (k_mask k) (k_broadcast k).

(** The remote side of [p]. *)
Definition remote_match (k : udp_key) (p : udp_pcb) : bool :=
  (remote_port p =? k_sport k) && (ip4_addr_isany_val (remote_ip p) || ip4_addr_eq (remote_ip p) (k_src k)).

(** [uncon_pcb] after the control block [l]. *)
Definition next_uncon (k : udp_key) (uncon : option loc) (l : loc) (p : udp_pcb) : M eth (option loc) :=
  if negb (has (pcb_flags p) UDP_FLAGS_CONNECTED) then
    match uncon with
    | None => mret (Some l)
    | Some u =>
      if k_broadcast k && (k_dest k =? IPADDR_BROADCAST) then
        pu ← get_pcb u;
        mret (if negb (ip4_addr_eq (local_ip pu) (k_if_ip k)) && ip4_addr_eq (local_ip p) (k_if_ip k) then Some l else uncon)
      else mret uncon
    end
  else mret uncon.

(** [for (pcb = udp_pcbs; pcb != NULL; pcb = pcb->next)]: the result is [pcb]
    and [uncon_pcb]. *)
Definition find_match_body (k : udp_key) (x : option loc * option loc * option loc) :
    M eth ((option loc * option loc * option loc) + (option loc * option loc)) :=
  let '(pcb, prev, uncon) := x in
  match pcb with
  | None => mret (inr (None, uncon))
  | Some l =>
    p ← get_pcb l;
    if local_match k p then
      uncon ← next_uncon k uncon l p;
      if remote_match k p then
        match prev with
        | Some pl =>
          set_pcb pl (set_pcb_next (pcb_next p));;
          push_pcb l;;
          mret (inr (Some l, uncon))
        | None => mret (inr (Some l, uncon))
        end
      else mret (inl (pcb_next p, Some l, uncon))
    else mret (inl (pcb_next p, Some l, uncon))
  end.

(** [pbuf_free(p)], and the end. *)
Definition udp_drop (p : loc) : M eth unit := on_pbuf (pbuf_free (Some p));; mret tt.

(** The datagram for [pcb], or for nobody. *)
Definition udp_deliver (p : loc) (pcb : option loc) (broadcast : bool) (src dest sport : Z) : M eth unit :=
  r ← on_pbuf (pbuf_remove_header (Some p) UDP_HLEN);
  if negb (r =? 0) then udp_drop p
  else
    match pcb with
    | Some l =>
      u ← get_pcb l;
      match recv u with
      | Some f => udp_recv_fn f (recv_arg u) l p src sport
      | None => udp_drop p
      end
    | None =>
      hl ← ip_var (fun v => current_ip_header_tot_len (ip_data v));
      when (negb broadcast && negb (ip4_addr_ismulticast dest))
        (on_pbuf (pbuf_header_force (Some p) (s16 (hl + UDP_HLEN)));;
         icmp_dest_unreach odd_at ip4_frag p ICMP_DUR_PORT);;
      udp_drop p
    end.

(** [ip_data] has both interfaces while a packet is delivered; the code reads
    [current_input_netif] only for a block that is bound to an interface. *)
Definition udp_input (p : loc) (inp : nat) : M eth unit :=
  b ← on_pbuf (getp p);
  if len b <? UDP_HLEN then udp_drop p
  else
    let udphdr := payload b in
    dest_ip ← ip4_current_dest_addr;
    src_ip ← ip4_current_src_addr;
    current ← ip_var (fun v => current_netif (ip_data v));
    c ← deref NullDeref current;
    nc ← the_netif c;
    let broadcast := ip4_addr_isbroadcast dest_ip nc in
    src_ ← load16_at udphdr 0;
    dest_ ← load16_at udphdr 2;
    let src := lwip_ntohs src_ in
    let dest := lwip_ntohs dest_ in
    input ← ip_var (fun v => current_input_netif (ip_data v));
    ci ← deref NullDeref input;
    ni ← the_netif ci;
    i ← the_netif inp;
    h ← udp_var udp_pcbs;
    fuel ← pcbs_fuel;
    '(pcb, uncon) ← iter fuel (find_match_body (UdpKey src_ip src dest_ip dest (netif_get_index ni) (if_ip_addr i) (if_netmask i) broadcast))
      (h, None, None);
    let pcb := match pcb with Some _ => pcb | None => uncon end in
    let for_us := match pcb with Some _ => true | None => ip4_addr_eq (if_ip_addr i) dest_ip end in
    if for_us then
      chksum ← load16_at udphdr 6;
      ck ← (if negb (chksum =? 0) then on_pbuf (ip_chksum_pseudo odd_at (Some p) IP_PROTO_UDP (tot_len b) src_ip dest_ip) else mret 0);
      if negb (ck =? 0) then udp_drop p
      else udp_deliver p pcb broadcast src_ip dest_ip src
    else udp_drop p.
End Udp.
