(* ===== verification/ArpSystem.v ===== *)
(** The ARP table in the whole stack: frames in, through [ethernet_input],
    [ip4_input], ICMP, reassembly and UDP, datagrams out, and the clocks. *)
From S2P Require Import Prelude Memp Pbuf Chksum Ip4Addr Ethernet Etharp EtharpTable EtharpInv Ip Icmp Reass IpInput Frag Udp.

Section Steps.
Context `{LinkOutput, !CustomFree, Build}.

Lemma arp_gets {A} (f : eth -> A) : keeps (gets f).
Proof. apply keeps_link, link_only_gets. Qed.

Lemma keeps_on_pbuf {A} (x : M mem A) : keeps (on_pbuf x).
Proof. apply keeps_link, link_only_on_pbuf. Qed.

Lemma keeps_read_field x o n : keeps (read_field x o n).
Proof. apply keeps_link, link_only_read_field. Qed.

Lemma keeps_deref {A} w (o : option A) : keeps (deref w o).
Proof. by destruct o; intros s Hi Hy. Qed.

Lemma keeps_halt {A} w : keeps (halt w : M eth A).
Proof. by intros s Hi Hy. Qed.

Lemma keeps_iter {A R} (body : A -> M eth (A + R)) fuel : (forall a, keeps (body a)) -> forall a, keeps (iter fuel body a).
Proof.
  intros Hb. induction fuel as [|fuel IH]; intros a; cbn [iter]; [apply keeps_halt|]. apply arp_bind; [done|].
  intros [a'|x]; [apply IH|apply arp_ret].
Qed.
End Steps.

Create HintDb arp discriminated.
#[export] Hint Constants Opaque : arp.
#[export] Hint Resolve arp_ret arp_gets keeps_on_pbuf keeps_read_field keeps_deref keeps_halt keeps_output : arp.

(** Through a computation, to the functions it calls. *)
Ltac keeps_step :=
  first [ solve [auto with arp nocore]
        | apply arp_bind; [|intros ?]
        | apply arp_when
        | apply keeps_iter; intros ?
        | match goal with |- keeps (match ?x with _ => _ end) => destruct x end
        | progress cbv beta zeta ].
Ltac keeps_solve := intros; repeat keeps_step.

Section System.
Context `{W : Wire} `{CF : !CustomFree} `{BU : !Build} `{US : !UdpState} `{UU : !UdpUser}.
Context (odd_at : option ptr -> bool).

(** ** Each function of the stack *)

Lemma keeps_ip_var {A} (f : ip_vars -> A) : keeps (ip_var f).
Proof. apply arp_gets. Qed.

Lemma keeps_mod_ipv f : keeps (mod_ipv f).
Proof. apply keeps_link. intros s. by split_and!. Qed.

#[local] Hint Resolve keeps_ip_var keeps_mod_ipv : arp.

Lemma keeps_udp_var {A} (f : udp_vars -> A) : keeps (udp_var f).
Proof. apply arp_gets. Qed.

Lemma keeps_mod_udpv f : keeps (mod_udpv f).
Proof. apply keeps_mod_ipv. Qed.

Lemma keeps_the_netif n : keeps (the_netif n).
Proof. apply arp_gets. Qed.

Lemma keeps_load8 x o : keeps (load8 x o).
Proof. unfold load8. keeps_solve. Qed.

Lemma keeps_load16_at x o : keeps (load16_at x o).
Proof. unfold load16_at. keeps_solve. Qed.

Lemma keeps_load32_at x o : keeps (load32_at x o).
Proof. unfold load32_at. keeps_solve. Qed.

Lemma keeps_store_field x o bs : keeps (store_field x o bs).
Proof. apply keeps_on_pbuf. Qed.

#[local] Hint Resolve keeps_udp_var keeps_mod_udpv keeps_the_netif keeps_load8 keeps_load16_at keeps_load32_at keeps_store_field : arp.

Lemma keeps_ip4_route d : keeps (ip4_route d).
Proof. unfold ip4_route. keeps_solve. Qed.

Lemma keeps_ip4_frag p n dest : keeps (ip4_frag odd_at p n dest).
Proof. unfold ip4_frag, frag_body, frag_begin, frag_fill_header, netif_output. keeps_solve. Qed.

#[local] Hint Resolve keeps_ip4_route keeps_ip4_frag : arp.

Local Notation frag := (ip4_frag odd_at).

Lemma keeps_write_header p src dest ttl tos proto : keeps (ip4_write_header p src dest ttl tos proto).
Proof. unfold ip4_write_header. keeps_solve. Qed.

#[local] Hint Resolve keeps_write_header : arp.

Lemma keeps_output_if_src p src dest ttl tos proto n : keeps (ip4_output_if_src frag p src dest ttl tos proto n).
Proof. unfold ip4_output_if_src, netif_output. keeps_solve. Qed.

#[local] Hint Resolve keeps_output_if_src : arp.

Lemma keeps_output_if p src dest ttl tos proto n : keeps (ip4_output_if frag p src dest ttl tos proto n).
Proof. unfold ip4_output_if. keeps_solve. Qed.

#[local] Hint Resolve keeps_output_if : arp.

Lemma keeps_send_response p t c : keeps (icmp_send_response odd_at frag p t c).
Proof. unfold icmp_send_response. keeps_solve. Qed.

Lemma keeps_icmp_input p n : keeps (icmp_input odd_at frag p n).
Proof.
  unfold icmp_input, icmp_echo_reply, icmp_make_room, icmp_done, ip4_current_src_addr, ip4_current_dest_addr. keeps_solve.
Qed.

#[local] Hint Resolve keeps_send_response keeps_icmp_input : arp.

(** Reassembly, with the messages it sends when datagrams are given up. *)

Lemma keeps_get_rd l : keeps (get_rd l).
Proof. unfold get_rd. keeps_solve. Qed.

Lemma keeps_set_rd l f : keeps (set_rd l f).
Proof. unfold set_rd, get_rd. keeps_solve. Qed.

Lemma keeps_iprh_of q : keeps (iprh_of q).
Proof. unfold iprh_of. keeps_solve. Qed.

Lemma keeps_iprh_next x : keeps (iprh_next x).
Proof. unfold iprh_next. keeps_solve. Qed.

Lemma keeps_set_iprh_next x n : keeps (set_iprh_next x n).
Proof. unfold set_iprh_next. keeps_solve. Qed.

Lemma keeps_iprh_start x : keeps (iprh_start x).
Proof. apply keeps_load16_at. Qed.

Lemma keeps_iprh_end x : keeps (iprh_end x).
Proof. apply keeps_load16_at. Qed.

Lemma keeps_reass_fuel : keeps reass_fuel.
Proof. apply keeps_ip_var. Qed.

Lemma keeps_frags_fuel : keeps frags_fuel.
Proof. apply keeps_ip_var. Qed.

#[local] Hint Resolve keeps_get_rd keeps_set_rd keeps_iprh_of keeps_iprh_next keeps_set_iprh_next keeps_iprh_start keeps_iprh_end
  keeps_reass_fuel keeps_frags_fuel : arp.

Lemma keeps_dequeue l prev : keeps (ip_reass_dequeue_datagram l prev).
Proof. unfold ip_reass_dequeue_datagram. keeps_solve. Qed.

#[local] Hint Resolve keeps_dequeue : arp.

Lemma keeps_free_datagram l prev : keeps (ip_reass_free_complete_datagram odd_at frag l prev).
Proof. unfold ip_reass_free_complete_datagram, free_fragments_body, icmp_time_exceeded. keeps_solve. Qed.

#[local] Hint Resolve keeps_free_datagram : arp.

Lemma keeps_reass_tmr : keeps (ip_reass_tmr odd_at frag).
Proof. unfold ip_reass_tmr, reass_tmr_body. keeps_solve. Qed.

Lemma keeps_remove_oldest hdr k : keeps (ip_reass_remove_oldest_datagram odd_at frag hdr k).
Proof. unfold ip_reass_remove_oldest_datagram, remove_oldest_body, find_oldest_body. keeps_solve. Qed.

#[local] Hint Resolve keeps_remove_oldest : arp.

Lemma keeps_enqueue_datagram hdr k : keeps (ip_reass_enqueue_new_datagram odd_at frag hdr k).
Proof. unfold ip_reass_enqueue_new_datagram. keeps_solve. Qed.

Lemma keeps_validate l x v b : keeps (reass_validate l x v b).
Proof. unfold reass_validate, no_holes_body. keeps_solve. Qed.

#[local] Hint Resolve keeps_enqueue_datagram keeps_validate : arp.

Lemma keeps_chain_frag l p b : keeps (ip_reass_chain_frag_into_datagram_and_validate l p b).
Proof. unfold ip_reass_chain_frag_into_datagram_and_validate, place_body. keeps_solve. Qed.

Lemma keeps_finish l : keeps (reass_finish odd_at l).
Proof. unfold reass_finish, chain_pbufs_body, find_prev_body. keeps_solve. Qed.

Lemma keeps_nullreturn_ipr l p : keeps (nullreturn_ipr l p).
Proof. unfold nullreturn_ipr, nullreturn. keeps_solve. Qed.

#[local] Hint Resolve keeps_chain_frag keeps_finish keeps_nullreturn_ipr : arp.

Lemma keeps_reass_add l p o1 o2 k c : keeps (reass_add odd_at l p o1 o2 k c).
Proof. unfold reass_add. keeps_solve. Qed.

#[local] Hint Resolve keeps_reass_add : arp.

Lemma keeps_ip4_reass p : keeps (ip4_reass odd_at frag p).
Proof. unfold ip4_reass, find_datagram_body, nullreturn. keeps_solve. Qed.

#[local] Hint Resolve keeps_ip4_reass keeps_reass_tmr : arp.

(** UDP, out and in. *)

Lemma keeps_get_pcb l : keeps (get_pcb l).
Proof. unfold get_pcb. keeps_solve. Qed.

Lemma keeps_set_pcb l f : keeps (set_pcb l f).
Proof. unfold set_pcb, get_pcb. keeps_solve. Qed.

Lemma keeps_pcbs_fuel : keeps pcbs_fuel.
Proof. apply keeps_udp_var. Qed.

#[local] Hint Resolve keeps_get_pcb keeps_set_pcb keeps_pcbs_fuel : arp.

Lemma keeps_new_port : keeps udp_new_port.
Proof. apply keeps_iter. intros k. unfold new_port_body, port_taken_body. keeps_solve. Qed.

#[local] Hint Resolve keeps_new_port : arp.

Lemma keeps_udp_bind pcb ip port : keeps (udp_bind pcb ip port).
Proof. unfold udp_bind, find_pcb_body, in_use_body, push_pcb. keeps_solve. Qed.

Lemma keeps_make_room p b : keeps (udp_make_room p b).
Proof. unfold udp_make_room. keeps_solve. Qed.

Lemma keeps_udp_header p sp dp b si di : keeps (udp_write_header odd_at p sp dp b si di).
Proof. unfold udp_write_header. keeps_solve. Qed.

#[local] Hint Resolve keeps_udp_bind keeps_make_room keeps_udp_header : arp.

Lemma keeps_sendto_if_src pcb p dst port n src : keeps (udp_sendto_if_src odd_at frag pcb p dst port n src).
Proof. unfold udp_sendto_if_src. keeps_solve. Qed.

#[local] Hint Resolve keeps_sendto_if_src : arp.

Lemma keeps_sendto_if pcb p dst port n : keeps (udp_sendto_if odd_at frag pcb p dst port n).
Proof. unfold udp_sendto_if. keeps_solve. Qed.

#[local] Hint Resolve keeps_sendto_if : arp.

Lemma keeps_udp_sendto pcb p dst port : keeps (udp_sendto odd_at frag pcb p dst port).
Proof. unfold udp_sendto. keeps_solve. Qed.

(** What is not of this model: the input of TCP, and the receive functions of
    UDP's users. They reach the table by its own functions only. *)
Context (tcp_input : loc -> nat -> M eth unit).
Context (tcp_client : forall p n, arp_client (tcp_input p n)).
Context (recv_client : forall f arg l p addr port, arp_client (udp_recv_fn f arg l p addr port)).

Lemma keeps_recv_fn f arg l p addr port : keeps (udp_recv_fn f arg l p addr port).
Proof. apply keeps_client, recv_client. Qed.

Lemma keeps_tcp p n : keeps (tcp_input p n).
Proof. apply keeps_client, tcp_client. Qed.

#[local] Hint Resolve keeps_recv_fn keeps_tcp : arp.

Lemma keeps_udp_input p n : keeps (udp_input odd_at frag p n).
Proof.
  unfold udp_input, udp_deliver, udp_drop, find_match_body, next_uncon, push_pcb, icmp_dest_unreach, ip4_current_dest_addr, ip4_current_src_addr.
  keeps_solve.
Qed.

#[local] Hint Resolve keeps_udp_input keeps_udp_sendto : arp.

Lemma keeps_upper p hlen n inp : keeps (ip4_upper odd_at frag (udp_input odd_at frag) tcp_input p hlen n inp).
Proof. unfold ip4_upper, ip4_deliver, ip4_drop, ip4_current_dest_addr, icmp_dest_unreach. keeps_solve. Qed.

#[local] Hint Resolve keeps_upper : arp.

Lemma keeps_ip4_input p n : keeps (ip4_input odd_at frag (udp_input odd_at frag) tcp_input p n).
Proof. unfold ip4_input, ip4_accept, ip4_drop, ip4_current_dest_addr, ip4_current_src_addr. keeps_solve. Qed.

(** ** What happens in the stack *)

(** A frame comes in, a datagram is sent, the timers of reassembly and of ARP
    go off, and the rest of the program calls ARP or works on its own state. *)
Inductive event : Type :=
| E_frame (p : loc) (n : nat)
| E_sendto (pcb p : option loc) (dst_ip : option Z) (dst_port : Z)
| E_reass_tmr
| E_call (c : arp_call).

Definition do_event (e : event) : M eth unit :=
  match e with
  | E_frame p n => ethernet_input (ip4_input odd_at frag (udp_input odd_at frag) tcp_input) p n;; mret tt
  | E_sendto pcb p dst_ip dst_port => udp_sendto odd_at frag pcb p dst_ip dst_port;; mret tt
  | E_reass_tmr => ip_reass_tmr odd_at frag
  | E_call c => do_call c
  end.

Lemma keeps_event e : keeps (do_event e).
Proof.
  destruct e; cbn [do_event]; [|keeps_solve|keeps_solve|apply keeps_call]. apply arp_bind; [|intros; apply arp_ret].
  apply keeps_ethernet_input, keeps_ip4_input.
Qed.

Lemma keeps_events es : keeps (for_each es do_event).
Proof. apply keeps_for_each. intros e _. apply keeps_event. Qed.

(** C27. The ARP table stays well formed in the whole stack. Let any sequence of
    frames come in, whatever their bytes, through [ethernet_input] and the
    modelled [ip4_input] with ICMP, reassembly, fragmentation and UDP, let
    datagrams be sent, the timers of ARP and of reassembly go off, and the rest
    of the program call ARP and work on the other parts of the state. Whatever
    the driver does, and in whatever state a call may stop, there are ten
    entries, each with a six-byte address, a packet only while it is pending,
    and an interface and a unicast address when it is in use. Of [tcp_input] and
    of the receive functions, which are arguments here, it is assumed that they
    reach the table by ARP's functions only ([arp_client]); nothing is assumed
    of what they leave there. *)
Theorem arp_table_well_formed es s : table_ok (arp_table s) -> 0 <= etharp_cached_entry s < 10 -> young_table s ->
  length (arp_table (outcome_state (for_each es do_event s))) = 10%nat /\
  Forall entry_ok (arp_table (outcome_state (for_each es do_event s))) /\
  0 <= etharp_cached_entry (outcome_state (for_each es do_event s)) < 10.
Proof.
  intros Ht Hc Hy. pose proof (keeps_events es s (conj Ht Hc) Hy) as Hk. unfold safe in Hk.
  destruct (for_each es do_event s) as [[] s'|w s']; [destruct Hk as [[[] ?] _]|destruct Hk as [[] ?]]; done.
Qed.

(** C21. At most one entry in use for each address and interface, after any
    sequence of the events of [do_event]: frames through the modelled IP, ICMP
    and UDP input, datagrams out, timers, and calls of ARP. When they have
    returned no stable entry has reached 300 seconds and no pending entry 5 (the
    comment at ARP_MAXPENDING says 10). As above [tcp_input] and the receive
    functions are assumed to reach the table by ARP's functions only. *)
Theorem arp_table_coherent es s : table_ok (arp_table s) -> 0 <= etharp_cached_entry s < 10 -> young_table s ->
  distinct (arp_table (outcome_state (for_each es do_event s))) /\
  forall s', for_each es do_event s = Ret tt s' -> Forall young (arp_table s').
Proof.
  intros Ht Hc Hy. pose proof (keeps_events es s (conj Ht Hc) Hy) as Hk. unfold safe in Hk.
  destruct (for_each es do_event s) as [[] s'|w s']; simpl.
  - destruct Hk as [[[_ _ Hd] _] Hy']. split; [done|]. by intros s'' [= <-].
  - destruct Hk as [[_ _ Hd] _]. done.
Qed.
End System.
