(* ===== verification/UdpFacts.v ===== *)
(** UDP: the control blocks as a list, ports, and the invariant of the list under
    every sequence of calls. *)
From stdpp Require Import functions.
From S2P Require Import Prelude Memp Pbuf PbufFacts PbufUpdate PbufAlloc PbufChain PbufRam Chksum ChksumFacts Ip4Addr Ethernet Etharp.
From S2P Require Import EtharpTable EtharpInv EtharpSend EtharpReply EtharpOutput Ip Icmp IpFacts IpInputFacts Udp.

(** ** The list *)

(** A control block without its place in the list. *)
Notation bare := (set_pcb_next None).

(** The control blocks from [h] on. *)
Fixpoint pcb_chain (pool : gmap loc udp_pcb) (h : option loc) (ps : list (loc * udp_pcb)) : Prop :=
  match ps with
  | [] => h = None
  | (l, p) :: ps => h = Some l /\ exists n, pool !! l = Some (set_pcb_next n p) /\ pcb_chain pool n ps
  end.

(** The list [udp_pcbs]. *)
Definition listed (v : udp_vars) (ps : list (loc * udp_pcb)) : Prop :=
  pcb_chain (udp_pool v) (udp_pcbs v) ps /\ NoDup ps.*1.

(** The block [l] holds [p]. *)
Definition holds_pcb (v : udp_vars) (l : loc) (p : udp_pcb) : Prop := exists n, udp_pool v !! l = Some (set_pcb_next n p).

Lemma pcb_chain_in pool ps l p : forall h, pcb_chain pool h ps -> (l, p) ∈ ps -> exists n, pool !! l = Some (set_pcb_next n p).
Proof.
  induction ps as [|[l' p'] ps IH]; intros h; [by intros _ ?%elem_of_nil|]. intros (_ & n & E & Hc) [[= -> ->]|Hin]%elem_of_cons; [by exists n|by eapply IH].
Qed.

(** The chain lives in its own blocks. *)
Lemma pcb_chain_frame pool pool' ps : forall h, (forall l, l ∈ ps.*1 -> pool' !! l = pool !! l) -> pcb_chain pool h ps -> pcb_chain pool' h ps.
Proof.
  induction ps as [|[l p] ps IH]; intros h Hp; [done|]. intros (-> & n & E & Hc). split; [done|]. exists n. split; [rewrite Hp; [done|by left]|].
  apply IH; [|done]. intros l' Hin. apply Hp. by right.
Qed.

Lemma pcb_chain_insert pool l q ps h : l ∉ ps.*1 -> pcb_chain pool h ps -> pcb_chain (<[l := q]> pool) h ps.
Proof. intros Hl. apply pcb_chain_frame. intros l' Hl'. rewrite lookup_insert_ne; [done|]. by intros ->. Qed.

Lemma pcb_chain_size pool ps h : pcb_chain pool h ps -> NoDup ps.*1 -> (length ps <= size pool)%nat.
Proof.
  intros Hc Hn. rewrite <- (length_fmap fst ps), <- size_dom, <- (size_list_to_set (C := gset loc)) by done.
  apply subseteq_size. intros l Hl%elem_of_list_to_set. apply list_elem_of_fmap in Hl as ([l' p] & -> & Hin).
  destruct (pcb_chain_in _ _ _ _ _ Hc Hin) as [n E]. by eapply elem_of_dom_2.
Qed.

(** The list with [f] applied to the block [l]. *)
Definition alter_pcb (l : loc) (f : udp_pcb -> udp_pcb) (ps : list (loc * udp_pcb)) : list (loc * udp_pcb) :=
  map (fun x => if bool_decide (x.1 = l) then (x.1, f x.2) else x) ps.

(** [f] has nothing to do with the list. *)
Definition off_list (f : udp_pcb -> udp_pcb) : Prop := forall n p, f (set_pcb_next n p) = set_pcb_next n (f p).

Lemma alter_locs l f ps : (alter_pcb l f ps).*1 = ps.*1.
Proof. induction ps as [|[l' p] ps IH]; [done|]. cbn. f_equal; [by case_bool_decide|exact IH]. Qed.

Lemma alter_absent l f ps : l ∉ ps.*1 -> alter_pcb l f ps = ps.
Proof. induction ps as [|[l' p] ps IH]; [done|]. cbn. intros [Hne Hl]%not_elem_of_cons. rewrite bool_decide_false by (by intros ->). f_equal. by apply IH. Qed.

Lemma pcb_chain_alter pool l f ps p0 : off_list f -> pool !! l = Some p0 -> NoDup ps.*1 -> forall h, pcb_chain pool h ps ->
  pcb_chain (<[l := f p0]> pool) h (alter_pcb l f ps).
Proof.
  intros Hf E0. induction ps as [|[l' p] ps IH]; intros Hn h; [done|]. intros (-> & n & E & Hc). cbn in Hn. apply NoDup_cons in Hn as [Hl' Hn].
  cbn [alter_pcb map fst snd]. case_bool_decide as Eq.
  - subst l'. split; [done|]. rewrite E in E0. injection E0 as <-. exists n. rewrite lookup_insert_eq. split; [by rewrite Hf|].
    change (pcb_chain (<[l := f (set_pcb_next n p)]> pool) n (alter_pcb l f ps)). rewrite alter_absent by done. by apply pcb_chain_insert.
  - split; [done|]. exists n. rewrite lookup_insert_ne by done. split; [done|]. by apply IH.
Qed.

Section Vars.
Context `{WL : WireLaws} `{US : !UdpState} `{UU : !UdpUser}.

(** The state with UDP's variables [v]. *)
Definition put_udp (v : udp_vars) (s : eth) : eth := set_ipv (set_above (put_udp_part v (above (ipv s))) (ipv s)) s.

Lemma udpv_put v s : udpv (put_udp v s) = v.
Proof. apply udp_part_put. Qed.

Lemma put_udp_put v w s : put_udp v (put_udp w s) = put_udp v s.
Proof. unfold put_udp. cbn. by rewrite put_udp_part_put. Qed.

Lemma put_udp_same s : put_udp (udpv s) s = s.
Proof. unfold put_udp, udpv. rewrite put_udp_part_same. by destruct s as [? [? []] ? ? ?]. Qed.

Lemma wp_udp_var {A} (f : udp_vars -> A) (Q : A -> eth -> Prop) s : Q (f (udpv s)) s -> wp (udp_var f) Q s.
Proof. apply (wp_gets (fun s => f (udpv s))). Qed.

Lemma wp_mod_udpv f (Q : unit -> eth -> Prop) s : Q tt (put_udp (f (udpv s)) s) -> wp (mod_udpv f) Q s.
Proof. intros HQ. unfold mod_udpv. apply wp_mod_ipv. exact HQ. Qed.

Lemma wp_get_pcb l p (Q : udp_pcb -> eth -> Prop) s : udp_pool (udpv s) !! l = Some p -> Q p s -> wp (get_pcb l) Q s.
Proof. intros E HQ. unfold get_pcb. apply wp_bind, wp_udp_var. rewrite E. by apply wp_ret. Qed.

(** The block [l] becomes [q]. *)
Definition upd_pcb (l : loc) (q : udp_pcb) (v : udp_vars) : udp_vars := set_udp_pool (<[l := q]> (udp_pool v)) v.

Lemma wp_set_pcb l p f (Q : unit -> eth -> Prop) s : udp_pool (udpv s) !! l = Some p -> Q tt (put_udp (upd_pcb l (f p) (udpv s)) s) -> wp (set_pcb l f) Q s.
Proof. intros E HQ. unfold set_pcb. apply wp_bind. eapply wp_get_pcb; [done|]. by apply wp_mod_udpv. Qed.

(** ** Loops over the list *)

(** A loop that looks at one block after the other, until [look] has an
    answer. *)
Definition scan (look : loc -> udp_pcb -> bool) (h : option loc) : M eth (option loc + bool) :=
  match h with
  | None => mret (inr false)
  | Some l => p ← get_pcb l; mret (if look l p then inr true else inl (pcb_next p))
  end.

Lemma wp_scan look body s ps : (forall h Q, wp (scan look h) Q s -> wp (body h) Q s) -> (forall l n p, look l (set_pcb_next n p) = look l p) ->
  listed (udpv s) ps -> forall Q : bool -> eth -> Prop, Q (existsb (fun x => look x.1 x.2) ps) s ->
  forall fuel, (S (size (udp_pool (udpv s))) <= fuel)%nat -> wp (iter fuel body (udp_pcbs (udpv s))) Q s.
Proof.
  intros Hb Hlook [Hc Hn] Q HQ fuel Hf. pose proof (pcb_chain_size _ _ _ Hc Hn) as Hsz. assert (Hfuel : (length ps < fuel)%nat) by lia. clear Hf Hsz Hn.
  revert fuel Hfuel HQ. generalize (udp_pcbs (udpv s)), Hc. clear Hc. induction ps as [|[l p] ps IH]; intros h Hc fuel Hf HQ;
    (destruct fuel as [|fuel]; [simpl in Hf; lia|]); cbn [iter]; apply wp_bind, Hb.
  - simpl in Hc. subst h. by apply wp_ret, wp_ret.
  - destruct Hc as (-> & n & E & Hc). apply wp_bind. eapply wp_get_pcb; [done|]. apply wp_ret. cbn [existsb fst snd] in HQ. rewrite Hlook.
    destruct (look l p); [by apply wp_ret|]. apply IH; [done|simpl in Hf; lia|done].
Qed.
End Vars.

(** ** Ports *)

Definition taken (port : Z) (ps : list (loc * udp_pcb)) : bool := existsb (fun x => local_port x.2 =? port) ps.

Definition in_range (port : Z) : Prop := UDP_LOCAL_PORT_RANGE_START <= port <= UDP_LOCAL_PORT_RANGE_END.

(** The [i]th port that is tried after [u]. *)
Definition candidate (u : Z) (i : nat) : Z := UDP_LOCAL_PORT_RANGE_START + (u - UDP_LOCAL_PORT_RANGE_START + 1 + Z.of_nat i) mod 0x4000.

Lemma candidate_range u i : in_range (candidate u i).
Proof. unfold candidate, in_range, UDP_LOCAL_PORT_RANGE_START, UDP_LOCAL_PORT_RANGE_END. pose proof (Z.mod_pos_bound (u - 0xc000 + 1 + Z.of_nat i) 0x4000 ltac:(lia)). lia. Qed.

Lemma candidate_next u i : candidate (candidate u 0) i = candidate u (S i).
Proof.
  unfold candidate, UDP_LOCAL_PORT_RANGE_START. f_equal. change (Z.of_nat 0) with 0. rewrite Z.add_0_r.
  replace (0xc000 + (u - 0xc000 + 1) mod 0x4000 - 0xc000 + 1 + Z.of_nat i) with ((u - 0xc000 + 1) mod 0x4000 + (1 + Z.of_nat i)) by lia.
  rewrite Z.add_mod_idemp_l by lia. f_equal. lia.
Qed.

Lemma candidate_inj u i j : (Z.of_nat i < 0x4000) -> (Z.of_nat j < 0x4000) -> candidate u i = candidate u j -> i = j.
Proof.
  unfold candidate. set (a := u - UDP_LOCAL_PORT_RANGE_START + 1). intros Hi Hj E.
  pose proof (Z.div_mod (a + Z.of_nat i) 0x4000 ltac:(lia)). pose proof (Z.div_mod (a + Z.of_nat j) 0x4000 ltac:(lia)). lia.
Qed.

Lemma next_port u : in_range u -> (if u =? UDP_LOCAL_PORT_RANGE_END then UDP_LOCAL_PORT_RANGE_START else u16 (u + 1)) = candidate u 0.
Proof.
  unfold in_range, candidate, UDP_LOCAL_PORT_RANGE_START, UDP_LOCAL_PORT_RANGE_END. intros Hu. destruct (Z.eqb_spec u 0xffff) as [->|Hne]; [done|].
  rewrite u16_small by lia. rewrite Z.mod_small by lia. lia.
Qed.

(** Not every port is taken. *)
Lemma ports_left u ps : Z.of_nat (length ps) < 0x4000 -> ~ (forall i, Z.of_nat i < 0x4000 -> taken (candidate u i) ps = true).
Proof.
  intros Hl Hall. set (cs := map (candidate u) (seq 0 (Z.to_nat 0x4000))).
  assert (Hn : NoDup cs).
  { apply NoDup_fmap_2_strong; [|apply NoDup_seq]. intros i j [_ Hi]%elem_of_seq [_ Hj]%elem_of_seq. apply candidate_inj; lia. }
  assert (Hsub : cs ⊆ map (fun x => local_port x.2) ps).
  { intros c (i & -> & [_ Hi]%elem_of_seq)%list_elem_of_fmap. specialize (Hall i ltac:(lia)). apply existsb_exists in Hall as (x & Hx & E%Z.eqb_eq).
    apply list_elem_of_fmap. exists x. split; [done|]. by apply list_elem_of_In. }
  apply NoDup_submseteq in Hsub; [|done]. apply submseteq_length in Hsub. unfold cs in Hsub. rewrite !length_map, length_seq in Hsub. lia.
Qed.

Section Ports.
Context `{WL : WireLaws} `{US : !UdpState} `{UU : !UdpUser}.

Lemma wp_new_port_loop s ps (Q : Z -> eth -> Prop) : forall (k fuel : nat) n u, 
  listed (udpv s) ps -> in_range u -> Z.of_nat k + n = 0x4000 -> 0 <= n -> (0 < k <= fuel)%nat ->
  (forall port, in_range port -> taken port ps = false -> Q port (put_udp (set_udp_port port (udpv s)) s)) ->
  ((forall i, (i < k)%nat -> taken (candidate u i) ps = true) -> forall w, Q 0 (put_udp (set_udp_port w (udpv s)) s)) ->
  wp (iter fuel new_port_body n) Q (put_udp (set_udp_port u (udpv s)) s).
Proof.
  induction k as [|k IH]; intros fuel n u Hl Hu Hk Hn Hf HQ1 HQ2; [lia|]. destruct fuel as [|fuel]; [lia|]. cbn [iter]. apply wp_bind. unfold new_port_body.
  apply wp_bind, wp_udp_var, wp_bind, wp_mod_udpv. rewrite put_udp_put, udpv_put. cbn [udp_port set_udp_port].
  set (v := udpv s). set (s' := put_udp (set_udp_port (candidate u 0) v) s).
  apply wp_bind. match goal with |- wp _ ?R _ => assert (HR : R tt s') end.
  { apply wp_bind, wp_udp_var, wp_bind, wp_udp_var, wp_bind. unfold pcbs_fuel. apply wp_udp_var, wp_bind.
    assert (Ep : udp_port (udpv s') = candidate u 0) by (unfold s'; by rewrite udpv_put). rewrite Ep.
    apply (wp_scan (fun _ p => local_port p =? candidate u 0) _ s' ps); [intros h R HR; exact HR|by intros|unfold s'; rewrite udpv_put; exact Hl| |lia].
    { change (existsb _ ps) with (taken (candidate u 0) ps). destruct (taken (candidate u 0) ps) eqn:Et.
      + assert (En : UDP_LOCAL_PORT_RANGE_END - UDP_LOCAL_PORT_RANGE_START = 0x3fff) by done. rewrite En. rewrite u16_small by lia.
        destruct (Z.ltb_spec 0x3fff (n + 1)); apply wp_ret.
        * apply wp_ret. apply HQ2. intros i Hi. replace i with 0%nat by lia. done.
        * apply IH; [done|apply candidate_range|lia|lia|lia|done|]. intros Hall. apply HQ2. intros [|i] Hi; [done|]. rewrite <- candidate_next. apply Hall. lia.
      + apply wp_ret, wp_ret. apply HQ1; [apply candidate_range|done]. } }
  pose proof (next_port u Hu) as En. destruct (u =? UDP_LOCAL_PORT_RANGE_END); cbn [when].
  - apply wp_mod_udpv. rewrite put_udp_put, udpv_put. unfold s' in HR. rewrite <- En in HR. exact HR.
  - apply wp_ret. unfold s' in HR. rewrite <- En in HR. exact HR.
Qed.

Lemma wp_udp_new_port s ps (Q : Z -> eth -> Prop) : listed (udpv s) ps -> in_range (udp_port (udpv s)) -> Z.of_nat (length ps) < 0x4000 ->
  (forall port, in_range port -> taken port ps = false -> Q port (put_udp (set_udp_port port (udpv s)) s)) -> wp udp_new_port Q s.
Proof.
  intros Hl Hu Hlen HQ. assert (Es : put_udp (set_udp_port (udp_port (udpv s)) (udpv s)) s = s).
  { replace (set_udp_port (udp_port (udpv s)) (udpv s)) with (udpv s) by (by destruct (udpv s)). apply put_udp_same. }
  assert (W : wp (iter new_port_fuel new_port_body 0) Q (put_udp (set_udp_port (udp_port (udpv s)) (udpv s)) s)); [|by rewrite Es in W].
  apply (wp_new_port_loop s ps Q (Z.to_nat 0x4000)); [done|done|lia|lia|unfold new_port_fuel, UDP_LOCAL_PORT_RANGE_START, UDP_LOCAL_PORT_RANGE_END; lia|done|].
  intros Hall. exfalso. apply (ports_left (udp_port (udpv s)) ps Hlen). intros i Hi. apply Hall. lia.
Qed.
End Ports.

(** ** Changes of one block *)

(** [v'] is [v] with [q] in the block [l], and the list [ps']. *)
Record changed (v : udp_vars) (l : loc) (q : udp_pcb) (ps' : list (loc * udp_pcb)) (v' : udp_vars) : Prop := {
  cg_listed : listed v' ps';
  cg_pcb : holds_pcb v' l q;
  cg_rest l' : l' <> l -> udp_pool v' !! l' = udp_pool v !! l'
}.

(** The block [l] in the list, at its place or in front. *)
Definition enlist (l : loc) (p : udp_pcb) (ps : list (loc * udp_pcb)) : list (loc * udp_pcb) :=
  if bool_decide (l ∈ ps.*1) then ps else (l, bare p) :: ps.

(** The addresses [a] and [b] on the same port get in each other's way. *)
Definition clash (a b : Z) : bool := ip4_addr_eq a b || ip4_addr_isany_val b || ip4_addr_isany_val a.

(** A block other than [l] has the port [port] and an address that clashes. *)
Definition in_use (l : loc) (ip port : Z) (ps : list (loc * udp_pcb)) : bool :=
  existsb (fun x => negb (bool_decide (l = x.1)) && (local_port x.2 =? port) && clash (local_ip x.2) ip) ps.

Lemma holds_bare v l p : holds_pcb v l p <-> holds_pcb v l (bare p).
Proof. done. Qed.

Lemma holds_listed v l p ps : listed v ps -> (l, p) ∈ ps -> holds_pcb v l p.
Proof. intros [Hc _] Hin. by eapply pcb_chain_in. Qed.

Section Changes.
Context `{WL : WireLaws} `{US : !UdpState} `{UU : !UdpUser}.

Lemma wp_get_pcb_inv {A} l (k : udp_pcb -> M eth A) (Q : A -> eth -> Prop) s : wp (get_pcb l ≫= k) Q s ->
  exists p, udp_pool (udpv s) !! l = Some p /\ wp (k p) Q s.
Proof.
  unfold wp, get_pcb, udp_var, mbind, M_bind, gets, deref. destruct (udp_pool (udpv s) !! l) as [p|] eqn:E; [|done]. intros Hk. by exists p.
Qed.

Lemma wp_find_pcb l s ps (Q : bool -> eth -> Prop) fuel : listed (udpv s) ps -> (S (size (udp_pool (udpv s))) <= fuel)%nat ->
  Q (bool_decide (l ∈ ps.*1)) s -> wp (iter fuel (find_pcb_body l) (udp_pcbs (udpv s))) Q s.
Proof.
  intros Hl Hf HQ. apply (wp_scan (fun l' _ => bool_decide (l = l')) _ s ps); [|done|done| |done].
  - intros [l'|] R HR; [|exact HR]. apply wp_get_pcb_inv in HR as (p & E & HR). cbn [find_pcb_body]. destruct (bool_decide (l = l')); [exact HR|].
    apply wp_bind. eapply wp_get_pcb; [exact E|exact HR].
  - replace (existsb _ ps) with (bool_decide (l ∈ ps.*1)); [done|]. clear. induction ps as [|[l' p] ps IH]; [done|]. cbn [existsb fst]. rewrite <- IH.
    rewrite <- (bool_decide_or (l = l') (l ∈ ps.*1)). apply bool_decide_ext. cbn. by rewrite elem_of_cons.
Qed.

Lemma wp_in_use l ip port s ps (Q : bool -> eth -> Prop) fuel : listed (udpv s) ps -> (S (size (udp_pool (udpv s))) <= fuel)%nat ->
  Q (in_use l ip port ps) s -> wp (iter fuel (in_use_body l ip port) (udp_pcbs (udpv s))) Q s.
Proof.
  intros Hl Hf HQ. apply (wp_scan (fun l' p => negb (bool_decide (l = l')) && (local_port p =? port) && clash (local_ip p) ip) _ s ps); [|done|done|exact HQ|done].
  intros h R HR. exact HR.
Qed.

Lemma wp_alter l f p s ps (Q : unit -> eth -> Prop) : off_list f -> listed (udpv s) ps -> holds_pcb (udpv s) l p ->
  (forall v, changed (udpv s) l (f p) (alter_pcb l f ps) v -> udp_port v = udp_port (udpv s) -> Q tt (put_udp v s)) -> wp (set_pcb l f) Q s.
Proof.
  intros Hf [Hc Hn] [n E] HQ. eapply wp_set_pcb; [exact E|]. apply HQ; [|done]. split.
  - split; [by apply pcb_chain_alter|]. by rewrite alter_locs.
  - exists n. cbn. by rewrite lookup_insert_eq, Hf.
  - intros l' Hne. cbn. by rewrite lookup_insert_ne.
Qed.

Lemma wp_push l p s ps (Q : unit -> eth -> Prop) : l ∉ ps.*1 -> listed (udpv s) ps -> holds_pcb (udpv s) l p ->
  (forall v, changed (udpv s) l p ((l, bare p) :: ps) v -> udp_port v = udp_port (udpv s) -> Q tt (put_udp v s)) -> wp (push_pcb l) Q s.
Proof.
  intros Hl [Hc Hn] [n E] HQ. unfold push_pcb. apply wp_bind, wp_udp_var, wp_bind. eapply wp_set_pcb; [exact E|]. apply wp_mod_udpv.
  rewrite put_udp_put, udpv_put. apply HQ; [|done]. split.
  - split; [|cbn; by apply NoDup_cons]. split; [done|]. exists (udp_pcbs (udpv s)). cbn. rewrite lookup_insert_eq. split; [done|]. by apply pcb_chain_insert.
  - exists (udp_pcbs (udpv s)). cbn. by rewrite lookup_insert_eq.
  - intros l' Hne. cbn. by rewrite lookup_insert_ne.
Qed.

(** The block is put in front unless it is listed. *)
Lemma wp_enlist l p s ps (Q : unit -> eth -> Prop) : listed (udpv s) ps -> holds_pcb (udpv s) l p ->
  (forall v, changed (udpv s) l p (enlist l p ps) v -> udp_port v = udp_port (udpv s) -> Q tt (put_udp v s)) ->
  wp (when (negb (bool_decide (l ∈ ps.*1))) (push_pcb l)) Q s.
Proof.
  intros Hl Hp HQ. unfold enlist in HQ. destruct (bool_decide_reflect (l ∈ ps.*1)); cbn [negb when].
  - apply wp_ret. rewrite <- (put_udp_same s). apply HQ; [|done]. by split.
  - by apply (wp_push l p s ps).
Qed.

(** ** udp_bind *)

(** The list once [l] is bound. *)
Definition bound (l : loc) (p : udp_pcb) (ip port : Z) (ps : list (loc * udp_pcb)) : list (loc * udp_pcb) :=
  enlist l (set_local ip port p) (alter_pcb l (set_local ip port) ps).

Lemma changed_trans v1 v2 v3 l q r ps ps' : changed v1 l q ps v2 -> changed v2 l r ps' v3 -> changed v1 l r ps' v3.
Proof. intros [_ _ H1] [H2 H3 H4]. split; [done|done|]. intros l' Hne. by rewrite H4, H1. Qed.

Lemma wp_set_bound l p ip port s ps (Q : Z -> eth -> Prop) : listed (udpv s) ps -> holds_pcb (udpv s) l p ->
  (forall v, changed (udpv s) l (set_local ip port p) (bound l p ip port ps) v -> udp_port v = udp_port (udpv s) -> Q ERR_OK (put_udp v s)) ->
  wp (set_pcb l (set_local ip port);; when (negb (bool_decide (l ∈ ps.*1))) (push_pcb l);; mret ERR_OK) Q s.
Proof.
  intros Hl Hp HQ. apply wp_bind, (wp_alter l _ p s ps); [done|done|done|]. intros v Hv Ev.
  replace (bool_decide (l ∈ ps.*1)) with (bool_decide (l ∈ (alter_pcb l (set_local ip port) ps).*1)) by (by rewrite alter_locs).
  apply wp_bind, (wp_enlist l (set_local ip port p) (put_udp v s)); [rewrite udpv_put; apply Hv|rewrite udpv_put; apply Hv|].
  intros v' Hv' Ev'. apply wp_ret. rewrite put_udp_put. rewrite udpv_put in Hv', Ev'. apply HQ; [by eapply changed_trans|congruence].
Qed.

Lemma wp_udp_bind l p ip port s ps (Q : Z -> eth -> Prop) : listed (udpv s) ps -> holds_pcb (udpv s) l p ->
  (port = 0 -> in_range (udp_port (udpv s)) /\ Z.of_nat (length ps) < 0x4000) ->
  (port <> 0 -> in_use l (default IPADDR_ANY ip) port ps = true -> Q ERR_USE s) ->
  (forall port' v, (if port =? 0 then in_range port' /\ taken port' ps = false /\ udp_port v = port'
                    else port' = port /\ in_use l (default IPADDR_ANY ip) port ps = false /\ udp_port v = udp_port (udpv s)) ->
     changed (udpv s) l (set_local (default IPADDR_ANY ip) port' p) (bound l p (default IPADDR_ANY ip) port' ps) v -> Q ERR_OK (put_udp v s)) ->
  wp (udp_bind (Some l) ip port) Q s.
Proof.
  intros Hl Hp Hport HQ1 HQ2. unfold udp_bind. cbv zeta. set (a := default IPADDR_ANY ip) in *. apply wp_bind, wp_udp_var, wp_bind. unfold pcbs_fuel. apply wp_udp_var, wp_bind.
  apply (wp_find_pcb l s ps); [done|lia|]. apply wp_bind. destruct (Z.eqb_spec port 0) as [->|Hne].
  - destruct (Hport eq_refl) as [Hr Hlen]. apply wp_bind, (wp_udp_new_port s ps); [done|done|done|]. intros port' Hrange Htk. apply wp_ret.
    rewrite (proj2 (Z.eqb_neq port' 0)) by (unfold in_range, UDP_LOCAL_PORT_RANGE_START in Hrange; lia).
    set (s1 := put_udp (set_udp_port port' (udpv s)) s). assert (E1 : udpv s1 = set_udp_port port' (udpv s)) by apply udpv_put.
    apply (wp_set_bound l p a port' s1 ps); [by rewrite E1|by rewrite E1|]. intros v Hv Ev. unfold s1. rewrite put_udp_put. rewrite E1 in Hv, Ev.
    apply (HQ2 port' v); [done|]. by destruct Hv.
  - apply wp_bind, wp_udp_var, wp_bind, (wp_in_use l a port s ps); [done|lia|]. destruct (in_use l a port ps) eqn:Eu; apply wp_ret.
    + apply wp_ret. by apply HQ1.
    + apply (wp_set_bound l p a port s ps); [done|done|]. intros v Hv Ev. by apply (HQ2 port v).
Qed.

(** ** udp_remove *)

Lemma in_locs l p (ps : list (loc * udp_pcb)) : (l, p) ∈ ps -> l ∈ ps.*1.
Proof. intros Hin. apply list_elem_of_fmap. by exists (l, p). Qed.

(** The list without [l]. *)
Definition without (l : loc) (ps : list (loc * udp_pcb)) : list (loc * udp_pcb) := filter (fun x => x.1 <> l) ps.

Lemma without_absent l ps : l ∉ ps.*1 -> without l ps = ps.
Proof.
  intros Hl. apply filter_all, Forall_forall. intros [l' p] Hin E. apply Hl. cbn in E. subst l'. apply list_elem_of_fmap. by exists (l, p).
Qed.

Lemma without_middle l p a b : l ∉ a.*1 -> l ∉ b.*1 -> without l (a ++ (l, p) :: b) = a ++ b.
Proof.
  intros Ha Hb. unfold without. rewrite filter_app, filter_cons_False by (cbn; tauto).
  fold (without l a) (without l b). by rewrite !without_absent.
Qed.

(** A chain up to a block of it. *)
Lemma pcb_chain_split pool a l p b : forall h, pcb_chain pool h (a ++ (l, p) :: b) ->
  exists n, pool !! l = Some (set_pcb_next n p) /\ pcb_chain pool n b.
Proof. induction a as [|[l' p'] a IH]; intros h; [by intros (_ & n & E & Hc); exists n|]. intros (_ & n & _ & Hc). by eapply IH. Qed.

(** The block before [l] now leads to what comes behind [l]. *)
Lemma pcb_chain_unlink pool a l0 p0 l p b n : forall h, pcb_chain pool h (a ++ (l0, p0) :: (l, p) :: b) -> NoDup (a ++ (l0, p0) :: (l, p) :: b).*1 ->
  pool !! l = Some (set_pcb_next n p) -> pcb_chain (<[l0 := set_pcb_next n p0]> pool) h (a ++ (l0, p0) :: b).
Proof.
  induction a as [|[l' p'] a IH]; intros h; cbn [app fmap list_fmap fst].
  - intros (-> & n0 & E0 & -> & n1 & E1 & Hc) [Hl0 [_ Hn]%NoDup_cons]%NoDup_cons E. rewrite E1 in E.
    split; [done|]. exists n. rewrite lookup_insert_eq. split; [done|]. apply pcb_chain_insert; [by intros ?; apply Hl0; right|].
    assert (n1 = n) as -> by (apply (f_equal (fun o => pcb_next <$> o)) in E; by injection E). done.
  - intros (-> & n' & E' & Hc) [Hl' Hn]%NoDup_cons E. split; [done|]. exists n'. split; [|by apply IH].
    rewrite lookup_insert_ne; [done|]. intros <-. apply Hl'. refine (in_locs l0 p0 (a ++ (l0, p0) :: (l, p) :: b) _). apply elem_of_app. right. by left.
Qed.

Lemma wp_unlink_loop l p n s b (Q : unit -> eth -> Prop) ps : udp_pool (udpv s) !! l = Some (set_pcb_next n p) -> NoDup ps.*1 -> listed (udpv s) ps ->
  forall a x fuel h done_, ps = done_ ++ a ++ x :: (l, p) :: b -> pcb_chain (udp_pool (udpv s)) h (a ++ x :: (l, p) :: b) -> (S (length a) < fuel)%nat ->
  Q tt (put_udp (upd_pcb x.1 (set_pcb_next n x.2) (udpv s)) s) -> wp (iter fuel (unlink_pcb_body l) h) Q s.
Proof.
  intros El Hn Hlist. induction a as [|[l' p'] a IH]; intros [l0 p0] fuel h done_ Eps Hc Hf HQ; (destruct fuel as [|fuel]; [lia|]); cbn [iter]; apply wp_bind.
  - destruct Hc as (-> & n0 & E0 & -> & _). apply wp_bind. eapply wp_get_pcb; [exact E0|]. rewrite bool_decide_true by done.
    apply wp_bind. eapply wp_get_pcb; [exact El|]. apply wp_bind. eapply wp_set_pcb; [exact E0|]. by apply wp_ret, wp_ret.
  - destruct Hc as (-> & n' & E' & Hc). apply wp_bind. eapply wp_get_pcb; [exact E'|].
    assert (Hne : n' <> Some l).
    { intros ->. assert (Eh : fst <$> head (a ++ (l0, p0) :: (l, p) :: b) = Some l) by (destruct a as [|[l1 p1] a]; cbn [app] in Hc; destruct Hc as ([= ->] & _); done).
      rewrite Eps in Hn. rewrite !fmap_app in Hn. apply NoDup_app in Hn as (_ & _ & Hn). cbn in Hn. apply NoDup_cons in Hn as [_ Hn].
      destruct a as [|[l1 p1] a]; cbn in Eh, Hn; injection Eh as ->; apply NoDup_cons in Hn as [Hn _]; apply Hn; [by left|].
      apply elem_of_app. right. right. by left. }
    cbn [pcb_next set_pcb_next]. rewrite bool_decide_false by done. apply wp_ret. apply (IH (l0, p0) fuel n' (done_ ++ [(l', p')])); [by rewrite <- app_assoc|done|simpl in Hf; lia|done].
Qed.

Lemma wp_unlink_absent l s (Q : unit -> eth -> Prop) : Q tt s -> forall ps fuel h, pcb_chain (udp_pool (udpv s)) h ps -> l ∉ ps.*1 -> (length ps < fuel)%nat ->
  wp (iter fuel (unlink_pcb_body l) h) Q s.
Proof.
  intros HQ. induction ps as [|[l' p] ps IH]; intros fuel h Hc Hl Hf; (destruct fuel as [|fuel]; [simpl in Hf; lia|]); cbn [iter]; apply wp_bind.
  - simpl in Hc. subst h. by apply wp_ret, wp_ret.
  - destruct Hc as (-> & n & E & Hc). apply not_elem_of_cons in Hl as [Hne Hl]. apply wp_bind. eapply wp_get_pcb; [exact E|].
    cbn [pcb_next set_pcb_next]. rewrite bool_decide_false; [|intros ->; destruct ps as [|[l1 p1] ps]; [done|destruct Hc as ([= ->] & _); apply Hl; by left]].
    apply wp_ret. apply IH; [done|done|simpl in Hf; lia].
Qed.

(** [v'] is [v] with [l] taken off the list. *)
Record unlinked_pcb (v : udp_vars) (l : loc) (ps : list (loc * udp_pcb)) (v' : udp_vars) : Prop := {
  ul_listed : listed v' (without l ps);
  ul_rest l' q : l' <> l -> holds_pcb v l' q -> holds_pcb v' l' q;
  ul_dom : dom (udp_pool v') = dom (udp_pool v);
  ul_port : udp_port v' = udp_port v
}.

Lemma wp_unlink l p n s ps {A} (k : M eth A) (Q : A -> eth -> Prop) : listed (udpv s) ps -> udp_pool (udpv s) !! l = Some (set_pcb_next n p) ->
  (forall v, unlinked_pcb (udpv s) l ps v -> wp k Q (put_udp v s)) ->
  wp (h ← udp_var udp_pcbs;
      (if bool_decide (h = Some l) then p ← get_pcb l; mod_udpv (set_udp_pcbs (pcb_next p))
       else fuel ← pcbs_fuel; iter fuel (unlink_pcb_body l) h);; k) Q s.
Proof.
  intros Hl E HQ. pose proof Hl as [Hc Hn]. apply wp_bind, wp_udp_var. destruct (decide (l ∈ ps.*1)) as [Hin|Hout].
  - apply list_elem_of_fmap in Hin as ([l1 p1] & -> & Hin). cbn in *. apply list_elem_of_split in Hin as (a & b & ->).
    assert (Hab : l1 ∉ a.*1 /\ l1 ∉ b.*1).
    { rewrite fmap_app, fmap_cons in Hn. apply NoDup_app in Hn as (_ & Ha & [Hb _]%NoDup_cons). split; [|done]. intros Hin. apply (Ha _ Hin). by left. }
    destruct Hab as [Ha Hb]. destruct (pcb_chain_split _ _ _ _ _ _ Hc) as (n1 & E1 & Hc1). pose proof E1 as Hc2. assert (n1 = n) as -> by (rewrite E in E1; apply (f_equal (fun o => pcb_next <$> o)) in E1; by injection E1).
    destruct a as [|x a _] using rev_ind.
    + destruct Hc as (Eh & _). rewrite Eh, bool_decide_true by done. apply wp_bind, wp_bind. eapply wp_get_pcb; [exact E|]. apply wp_mod_udpv, HQ. split; try done.
      rewrite (without_middle l1 p1 [] b) by done. cbn in Hn. apply NoDup_cons in Hn as [_ Hn]. split; [exact Hc1|exact Hn].
    + destruct x as [l0 p0]. rewrite <- app_assoc in *. cbn [app] in *. rewrite bool_decide_false.
      2:{ intros Eh. destruct a as [|[l2 p2] a]; destruct Hc as (E2 & _); rewrite Eh in E2; injection E2 as <-; apply Ha; [by left|]. rewrite fmap_app. apply elem_of_app. left. by left. }
      apply wp_bind, wp_bind. unfold pcbs_fuel. apply wp_udp_var. pose proof (pcb_chain_size _ _ _ Hc Hn) as Hsz. rewrite length_app in Hsz. cbn [length] in Hsz.
      destruct (pcb_chain_in _ _ l0 p0 _ Hc) as [n0 E0]; [apply elem_of_app; right; by left|].
      apply (wp_unlink_loop l1 p1 n s b _ (a ++ (l0, p0) :: (l1, p1) :: b) Hc2 Hn Hl a (l0, p0) _ _ [] eq_refl Hc); [lia|].
      apply HQ. rewrite fmap_app in Ha. apply not_elem_of_app in Ha as [Ha Ha0]. cbn in Ha0. apply not_elem_of_cons in Ha0 as [Hne _]. split.
      * change (a ++ (l0, p0) :: (l1, p1) :: b) with (a ++ [(l0, p0)] ++ (l1, p1) :: b) at 1. rewrite (assoc (++)), (without_middle l1 p1).
        -- rewrite <- app_assoc. split; [cbn; by eapply (pcb_chain_unlink _ a l0 p0 l1 p1 b n)|].
           rewrite fmap_app in Hn |- *. cbn in *. apply NoDup_app in Hn as (H1 & H2 & [H3 [_ H4]%NoDup_cons]%NoDup_cons).
           apply NoDup_app. split; [done|]. split; [|apply NoDup_cons; split; [|done]].
           ++ intros x Hx Hx'. apply (H2 x Hx). apply elem_of_cons in Hx' as [->|Hx']; [by left|right; by right].
           ++ intros ?. apply H3. by right.
        -- rewrite fmap_app. apply not_elem_of_app. split; [done|]. cbn. apply not_elem_of_cons. split; [done|apply not_elem_of_nil].
        -- done.
      * intros l' q Hne' [n' E']. cbn. unfold holds_pcb. cbn. destruct (decide (l' = l0)) as [->|Hn0].
        -- exists n. rewrite lookup_insert_eq. rewrite E0 in E'. exact (f_equal (option_map (set_pcb_next n)) E').
        -- exists n'. by rewrite lookup_insert_ne.
      * cbn. rewrite dom_insert_lookup_L; [done|]. by eexists.
      * done.
  - rewrite bool_decide_false by (intros Eh; apply Hout; destruct ps as [|[l2 p2] ps]; [simpl in Hc; congruence|destruct Hc as (E2 & _); rewrite Eh in E2; injection E2 as <-; by left]).
    apply wp_bind, wp_bind. unfold pcbs_fuel. apply wp_udp_var. pose proof (pcb_chain_size _ _ _ Hc Hn) as Hsz. eapply wp_unlink_absent; [|exact Hc|done|lia].
    rewrite <- (put_udp_same s). apply HQ. split; try done. by rewrite without_absent.
Qed.

(** [v'] is [v] without the block [l]. *)
Record gone (v : udp_vars) (l : loc) (ps : list (loc * udp_pcb)) (v' : udp_vars) : Prop := {
  gn_listed : listed v' (without l ps);
  gn_rest l' q : l' <> l -> holds_pcb v l' q -> holds_pcb v' l' q;
  gn_dom : dom (udp_pool v') = dom (udp_pool v) ∖ {[ l ]};
  gn_port : udp_port v' = udp_port v
}.

(** The element [i] of the pool is free again. *)
Definition pcb_freed (i : nat) (m : mem) : mem := set_mpools (<[MEMP_UDP_PCB := i :: mpools m MEMP_UDP_PCB]> (mpools m)) m.

Lemma without_locs l ps : l ∉ (without l ps).*1.
Proof. intros ([l' p] & -> & [Hne _]%list_elem_of_filter)%list_elem_of_fmap. by apply Hne. Qed.

Lemma wp_udp_remove i p s ps (Q : unit -> eth -> Prop) : let l := Pool MEMP_UDP_PCB i in listed (udpv s) ps -> holds_pcb (udpv s) l p ->
  (forall v, gone (udpv s) l ps v -> Q tt (put_udp v (set_emem (pcb_freed i (emem s)) s))) -> wp (udp_remove (Some l)) Q s.
Proof.
  intros l Hl [n E] HQ. unfold udp_remove. apply (wp_unlink l p n s ps); [done|done|]. intros v [[Hc Hn] U2 U3 U4].
  apply wp_bind, wp_on_pbuf. unfold memp_free_at, l at 1. rewrite decide_True by done. apply wp_zoom, wp_modify. apply wp_mod_udpv.
  change (udpv (set_emem ?m (put_udp v s))) with (udpv (put_udp v s)).
  change (put_udp ?w (set_emem ?m (put_udp v s))) with (put_udp w (put_udp v (set_emem m s))). rewrite put_udp_put, udpv_put.
  apply HQ. split.
  - split; [|done]. cbn. eapply pcb_chain_frame; [|exact Hc]. intros l' Hl'. rewrite lookup_delete_ne; [done|]. intros <-. by eapply without_locs.
  - intros l' q Hne Hq. destruct (U2 l' q Hne Hq) as [n' E']. exists n'. cbn. by rewrite lookup_delete_ne.
  - cbn. by rewrite dom_delete_L, U3.
  - done.
Qed.
End Changes.

(** ** The invariant *)

(** Two blocks that a datagram cannot tell apart. *)
Definition collide (p q : udp_pcb) : bool := (local_port p =? local_port q) && clash (local_ip p) (local_ip q).

Lemma clash_sym a b : clash a b = clash b a.
Proof. unfold clash, ip4_addr_eq. rewrite Z.eqb_sym. by destruct (b =? a), (ip4_addr_isany_val a), (ip4_addr_isany_val b). Qed.

Lemma collide_sym p q : collide p q = collide q p.
Proof. unfold collide. by rewrite Z.eqb_sym, clash_sym. Qed.

(** No two blocks of the list collide. *)
Definition all_apart (ps : list (loc * udp_pcb)) : Prop :=
  forall l p l' p', (l, p) ∈ ps -> (l', p') ∈ ps -> l <> l' -> collide p p' = false.

Definition pcb_elem (i : nat) : loc := Pool MEMP_UDP_PCB i.

Section Sockets.
Context `{WL : WireLaws} `{US : !UdpState} `{UU : !UdpUser}.

(** The blocks in use are those that the pool does not have, those that are
    bound are on the list, and no two of these collide. *)
Record sockets (s : eth) (ps : list (loc * udp_pcb)) : Prop := {
  so_listed : listed (udpv s) ps;
  so_port : in_range (udp_port (udpv s));
  so_apart : all_apart ps;
  so_bound : Forall (fun x => 0 < local_port x.2 < 65536) ps;
  so_loose : forall l p, holds_pcb (udpv s) l p -> l ∉ ps.*1 -> local_port p = 0;
  so_pool : exists used, pool_ok MEMP_UDP_PCB (mpools (emem s) MEMP_UDP_PCB) used /\
    dom (udp_pool (udpv s)) = list_to_set (pcb_elem <$> used)
}.

Lemma holds_dom v l p : holds_pcb v l p -> l ∈ dom (udp_pool v).
Proof. intros [n E]. by eapply elem_of_dom_2. Qed.

Lemma dom_holds v l : l ∈ dom (udp_pool v) -> exists p, holds_pcb v l p.
Proof. intros [p E]%elem_of_dom. exists p, (pcb_next p). rewrite E. by destruct p. Qed.

Lemma holds_same v l p q : holds_pcb v l p -> holds_pcb v l q -> bare p = bare q.
Proof. intros [n E] [n' E']. rewrite E in E'. exact (f_equal (default p) (f_equal (option_map bare) E')). Qed.

(** There are four blocks. *)
Lemma sockets_few s ps : sockets s ps -> Z.of_nat (length ps) < 0x4000.
Proof.
  intros [[Hc Hn] _ _ _ _ (used & Hp & Hd)]. pose proof (pcb_chain_size _ _ _ Hc Hn) as Hs. pose proof (pool_ok_length _ _ _ Hp) as Hu.
  assert (Hz : (size (udp_pool (udpv s)) <= length used)%nat).
  { assert (Hnd : NoDup (mpools (emem s) MEMP_UDP_PCB ++ used)) by (unfold pool_ok in Hp; rewrite Hp; apply NoDup_seq). apply NoDup_app in Hnd as (_ & _ & Hnd).
    rewrite <- size_dom, Hd, size_list_to_set, length_fmap; [done|]. apply NoDup_fmap_2; [by intros x y [= ->]|done]. }
  change (memp_num MEMP_UDP_PCB) with 4%nat in Hu. lia.
Qed.

Lemma changed_dom v l p q ps v' : holds_pcb v l p -> changed v l q ps v' -> dom (udp_pool v') = dom (udp_pool v).
Proof.
  intros Hp [_ Hq Hr]. apply set_eq. intros x. destruct (decide (x = l)) as [->|Hne].
  - split; intros _; by eapply holds_dom.
  - by rewrite !elem_of_dom, Hr.
Qed.

(** ** What the calls leave of the list *)

Lemma apart_replace l ip port ps ps' : all_apart ps ->
  (forall x, x ∈ ps' -> (x ∈ ps /\ x.1 <> l) \/ (x.1 = l /\ local_ip x.2 = ip /\ local_port x.2 = port)) ->
  (forall l' p', (l', p') ∈ ps -> l' <> l -> (local_port p' =? port) && clash (local_ip p') ip = false) -> all_apart ps'.
Proof.
  intros Ha Hin Hno l1 p1 l2 p2 H1 H2 Hne. destruct (Hin _ H1) as [[I1 N1]|(E1 & A1 & P1)], (Hin _ H2) as [[I2 N2]|(E2 & A2 & P2)]; cbn in *.
  - by apply (Ha l1 p1 l2 p2).
  - unfold collide. rewrite A2, P2. by apply (Hno l1).
  - rewrite collide_sym. unfold collide. rewrite A1, P1. by apply (Hno l2).
  - congruence.
Qed.

Lemma alter_in l f ps x : x ∈ alter_pcb l f ps -> (x ∈ ps /\ x.1 <> l) \/ exists p, (l, p) ∈ ps /\ x = (l, f p).
Proof.
  intros ([l' p] & -> & Hin)%list_elem_of_fmap. cbn. case_bool_decide as E; [subst l'; right; by exists p|left; by split].
Qed.

Lemma bound_in l p ip port ps x : x ∈ bound l p ip port ps -> (x ∈ ps /\ x.1 <> l) \/ (x.1 = l /\ local_ip x.2 = ip /\ local_port x.2 = port).
Proof.
  unfold bound, enlist. intros Hx. case_bool_decide; [|apply elem_of_cons in Hx as [->|Hx]; [by right|]];
    (apply alter_in in Hx as [?|(q & _ & ->)]; [by left|by right]).
Qed.

Lemma bound_listed l p ip port ps : l ∈ (bound l p ip port ps).*1 /\ forall l', l' ∈ ps.*1 -> l' ∈ (bound l p ip port ps).*1.
Proof.
  unfold bound, enlist. rewrite alter_locs. case_bool_decide as Hin; [rewrite alter_locs; by split|]. cbn. split; [by left|]. intros l' Hl'. right.
  by rewrite alter_locs.
Qed.

(** [f] leaves the local side alone. *)
Definition keeps_local (f : udp_pcb -> udp_pcb) : Prop := forall p, local_ip (f p) = local_ip p /\ local_port (f p) = local_port p.

Lemma sockets_alter s ps l p f v : sockets s ps -> holds_pcb (udpv s) l p -> keeps_local f -> changed (udpv s) l (f p) (alter_pcb l f ps) v ->
  udp_port v = udp_port (udpv s) -> sockets (put_udp v s) (alter_pcb l f ps).
Proof.
  intros [Hl Hr Ha Hb Hlo (used & Hu & Hd)] Hp Hf Hc Ep. split; rewrite ?udpv_put.
  - apply Hc.
  - by rewrite Ep.
  - assert (Hall : forall l1 q1, (l1, q1) ∈ alter_pcb l f ps -> exists p1, (l1, p1) ∈ ps /\ local_ip q1 = local_ip p1 /\ local_port q1 = local_port p1).
    { intros l1 q1 [[Hin _]|(p1 & Hin & [= -> ->])]%alter_in; [by exists q1|]. exists p1. split; [done|]. apply Hf. }
    intros l1 q1 l2 q2 (p1 & I1 & A1 & P1)%Hall (p2 & I2 & A2 & P2)%Hall Hne. unfold collide. rewrite A1, P1, A2, P2. by apply (Ha l1 p1 l2 p2).
  - rewrite Forall_forall in Hb |- *. intros x [[Hin _]|(p1 & Hin & ->)]%alter_in; [by apply Hb|]. cbn. destruct (Hf p1) as [_ ->]. exact (Hb _ Hin).
  - intros l' q Hq Hin. rewrite alter_locs in Hin. destruct (decide (l' = l)) as [->|Hne].
    + destruct (Hf p) as [_ Epp]. rewrite <- (Hlo l p Hp Hin), <- Epp. exact (f_equal local_port (holds_same _ _ _ _ Hq (cg_pcb _ _ _ _ _ Hc))).
    + destruct Hq as [n E]. rewrite (cg_rest _ _ _ _ _ Hc) in E by done. apply (Hlo l'); [by exists n|done].
  - exists used. split; [done|]. rewrite (changed_dom (udpv s) l p _ _ v) by done. exact Hd.
Qed.

Lemma sockets_bound s ps l p ip port v : sockets s ps -> holds_pcb (udpv s) l p -> 0 < port < 65536 -> in_range (udp_port v) ->
  (forall l' p', (l', p') ∈ ps -> l' <> l -> (local_port p' =? port) && clash (local_ip p') ip = false) ->
  changed (udpv s) l (set_local ip port p) (bound l p ip port ps) v -> sockets (put_udp v s) (bound l p ip port ps).
Proof.
  intros [Hl Hr Ha Hb Hlo (used & Hu & Hd)] Hp Hport Hrange Hno Hc. split; rewrite ?udpv_put.
  - apply Hc.
  - done.
  - eapply (apart_replace l ip port ps); [done|apply bound_in|done].
  - rewrite Forall_forall in Hb |- *. intros x [[Hin _]|(_ & _ & ->)]%bound_in; [by apply Hb|done].
  - intros l' q [n E] Hin. destruct (bound_listed l p ip port ps) as [H1 H2]. assert (Hne : l' <> l) by (by intros ->).
    rewrite (cg_rest _ _ _ _ _ Hc) in E by done. apply (Hlo l'); [by exists n|]. intros Hin'. by apply Hin, H2.
  - exists used. split; [done|]. rewrite (changed_dom (udpv s) l p _ _ v) by done. exact Hd.
Qed.

(** ** The calls *)

Definition kept_sockets (s' : eth) : Prop := exists ps', sockets s' ps'.

Lemma in_use_none l ip port ps l' p' : in_use l ip port ps = false -> (l', p') ∈ ps -> l' <> l -> (local_port p' =? port) && clash (local_ip p') ip = false.
Proof.
  intros Hu Hin Hne. unfold in_use in Hu. apply not_true_iff_false. intros E. apply not_true_iff_false in Hu. apply Hu. apply existsb_exists.
  exists (l', p'). split; [by apply list_elem_of_In|]. cbn. rewrite bool_decide_false by (by intros ->). exact E.
Qed.

Lemma taken_none port ps l' p' ip : taken port ps = false -> (l', p') ∈ ps -> (local_port p' =? port) && clash (local_ip p') ip = false.
Proof.
  intros Ht Hin. destruct (local_port p' =? port) eqn:E; [|done]. apply not_true_iff_false in Ht. exfalso. apply Ht, existsb_exists.
  exists (l', p'). split; [by apply list_elem_of_In|done].
Qed.

(** A call of [udp_bind]: refused and nothing happens, or the block is on the
    list with its address and port. *)
Lemma wp_bind_sockets l p ip port s ps (Q : Z -> eth -> Prop) : sockets s ps -> holds_pcb (udpv s) l p -> 0 <= port < 65536 ->
  (port <> 0 -> in_use l (default IPADDR_ANY ip) port ps = true -> Q ERR_USE s) ->
  (forall port' v, let a := default IPADDR_ANY ip in
     (if port =? 0 then in_range port' /\ taken port' ps = false else port' = port /\ in_use l a port ps = false) -> 0 < port' < 65536 ->
     changed (udpv s) l (set_local a port' p) (bound l p a port' ps) v -> sockets (put_udp v s) (bound l p a port' ps) -> Q ERR_OK (put_udp v s)) ->
  wp (udp_bind (Some l) ip port) Q s.
Proof.
  intros Hs Hp Hport HQ1 HQ2. pose proof Hs as [Hl Hr _ _ _ _]. apply (wp_udp_bind l p ip port s ps); [done|done|intros _; split; [done|by apply sockets_few in Hs]|done|].
  intros port' v Hcase Hc. cbv zeta in HQ2. destruct (Z.eqb_spec port 0) as [->|Hne].
  - destruct Hcase as (R & Ht & Ep). assert (0 < port' < 65536) by (unfold in_range, UDP_LOCAL_PORT_RANGE_START, UDP_LOCAL_PORT_RANGE_END in R; lia).
    apply (HQ2 port' v); [done|done|done|]. apply (sockets_bound s ps l p _ port'); [done|done|done|by rewrite Ep| |done]. intros l' p' Hin _. by eapply taken_none.
  - destruct Hcase as (-> & Hu & Ep). apply (HQ2 port v); [done|lia|done|]. apply (sockets_bound s ps l p); [done|done|lia|by rewrite Ep| |done].
    intros l' p' Hin Hnl. by eapply in_use_none.
Qed.

(** A call that changes something else in the block. *)
Lemma wp_alter_sockets l p f s ps (Q : unit -> eth -> Prop) : sockets s ps -> holds_pcb (udpv s) l p -> off_list f -> keeps_local f ->
  (forall v, changed (udpv s) l (f p) (alter_pcb l f ps) v -> sockets (put_udp v s) (alter_pcb l f ps) -> Q tt (put_udp v s)) -> wp (set_pcb l f) Q s.
Proof.
  intros Hs Hp Hf Hk HQ. apply (wp_alter l f p s ps); [done|apply Hs|done|]. intros v Hc Ep. apply HQ; [done|]. by apply (sockets_alter s ps l p f v).
Qed.

Lemma wp_connect_sockets l p ip port s ps : sockets s ps -> holds_pcb (udpv s) l p ->
  wp (udp_connect (Some l) (Some ip) port) (fun _ s' => kept_sockets s') s.
Proof.
  intros Hs Hp. pose proof Hp as [n E]. unfold udp_connect. apply wp_bind. eapply wp_get_pcb; [exact E|]. cbn [local_port local_ip set_pcb_next].
  assert (Hrest : forall q s1 ps1, sockets s1 ps1 -> holds_pcb (udpv s1) l q -> l ∈ ps1.*1 ->
    wp (set_pcb l (fun p => set_remote ip port p);; set_pcb l (fun p => set_pcb_flags (Z.lor (pcb_flags p) UDP_FLAGS_CONNECTED) p);;
        h ← udp_var udp_pcbs; fuel ← pcbs_fuel; there ← iter fuel (find_pcb_body l) h; when (negb there) (push_pcb l);; mret ERR_OK) (fun _ s' => kept_sockets s') s1).
  { intros q s1 ps1 Hs1 Hq Hin. apply wp_bind, (wp_alter_sockets l q _ s1 ps1); [done|done|done|done|]. intros v Hc Hs2.
    apply wp_bind. eapply (wp_alter_sockets l _ _ _ (alter_pcb l (fun p => set_remote ip port p) ps1)); [done|rewrite udpv_put; apply Hc|done|done|]. intros v' Hc' Hs3.
    apply wp_bind, wp_udp_var, wp_bind. unfold pcbs_fuel. apply wp_udp_var, wp_bind. eapply wp_find_pcb; [apply Hs3|lia|].
    rewrite bool_decide_true by (by rewrite !alter_locs). apply wp_bind, wp_ret, wp_ret. by eexists. }
  apply wp_bind. destruct (Z.eqb_spec (local_port p) 0) as [E0|Hne].
  - rewrite E0. apply (wp_bind_sockets l p (Some (local_ip p)) 0 s ps); [done|done|lia|done|]. intros port' v a _ _ Hc Hs'. change (negb (ERR_OK =? ERR_OK)) with false. cbv iota.
    eapply Hrest; [done|rewrite udpv_put; apply Hc|]. by destruct (bound_listed l p a port' ps).
  - apply wp_ret. change (negb (ERR_OK =? ERR_OK)) with false. cbv iota. apply (Hrest p s ps); [done|done|].
    destruct (decide (l ∈ ps.*1)) as [|Hout]; [done|]. exfalso. by apply Hne, (so_loose _ _ Hs l).
Qed.

Lemma wp_new_sockets s ps : sockets s ps -> wp udp_new (fun r s' => kept_sockets s' /\ match r with
    | Some l => holds_pcb (udpv s') l (set_ttl UDP_TTL zero_pcb) /\ l ∉ dom (udp_pool (udpv s)) | None => s' = s /\ mpools (emem s) MEMP_UDP_PCB = [] end) s.
Proof.
  intros Hs. pose proof Hs as [[Hc Hn] Hr Ha Hb Hlo (used & Hu & Hd)]. unfold udp_new. apply wp_bind, wp_on_pbuf, wp_memp_malloc_at.
  - intros Em. apply wp_ret. replace (set_emem (emem s) s) with s by (by destruct s). split; [by exists ps|done].
  - intros i rest Em. apply wp_bind, wp_mod_udpv, wp_ret. set (l := Pool MEMP_UDP_PCB i). rewrite Em in Hu.
    assert (Hi : l ∉ dom (udp_pool (udpv s))).
    { rewrite Hd. intros (j & [= <-] & Hj)%elem_of_list_to_set%list_elem_of_fmap. destruct (pool_ok_fresh _ _ _ _ Hu) as [_ Hnu]. done. }
    assert (Hnl : l ∉ ps.*1).
    { intros ([l' p] & El & Hin)%list_elem_of_fmap. cbn in El. subst l'. destruct (pcb_chain_in _ _ _ _ _ Hc Hin) as [n E]. apply Hi. by eapply elem_of_dom_2. }
    match goal with |- context [put_udp ?v ?s1] => set (s2 := put_udp v s1); assert (E2 : udpv s2 = v) by apply udpv_put end.
    assert (Hh : holds_pcb (udpv s2) l (set_ttl UDP_TTL zero_pcb)) by (rewrite E2; exists None; cbn; by rewrite lookup_insert_eq).
    split; [|by split]. exists ps. split; rewrite ?E2.
    + split; [|done]. by apply pcb_chain_insert.
    + done.
    + done.
    + done.
    + intros l' p [n E] Hout. cbn in E. destruct (decide (l' = l)) as [->|Hne].
      * rewrite lookup_insert_eq in E. exact (eq_sym (f_equal (fun o => local_port (default zero_pcb o)) E)).
      * rewrite lookup_insert_ne in E by done. apply (Hlo l'); [by exists n|done].
    + exists (i :: used). split; [change (pool_ok MEMP_UDP_PCB (<[MEMP_UDP_PCB := rest]> (mpools (emem s)) MEMP_UDP_PCB) (i :: used)); rewrite fn_lookup_insert; by apply pool_ok_malloc|].
      rewrite fmap_cons, list_to_set_cons, <- Hd. exact (dom_insert_L (udp_pool (udpv s)) l (set_ttl UDP_TTL zero_pcb)).
Qed.

Lemma wp_remove_sockets l p s ps : sockets s ps -> holds_pcb (udpv s) l p -> wp (udp_remove (Some l)) (fun _ s' => kept_sockets s') s.
Proof.
  intros [Hl Hr Ha Hb Hlo (used & Hu & Hd)] Hp. pose proof (holds_dom _ _ _ Hp) as Hin. rewrite Hd in Hin.
  apply elem_of_list_to_set, list_elem_of_fmap in Hin as (i & -> & Hi). apply (wp_udp_remove i p s ps); [done|done|]. intros v [G1 G2 G3 G4].
  assert (Hsub : forall x, x ∈ without (pcb_elem i) ps -> x ∈ ps) by (by intros x [_ ?]%list_elem_of_filter).
  exists (without (pcb_elem i) ps). split; rewrite ?udpv_put.
  - done.
  - by rewrite G4.
  - intros l1 p1 l2 p2 H1 H2. by apply Ha; apply Hsub.
  - rewrite Forall_forall in Hb |- *. intros x Hx. by apply Hb, Hsub.
  - intros l' q Hq Hout. destruct (decide (l' = pcb_elem i)) as [->|Hne].
    { exfalso. apply holds_dom in Hq. change (pcb_elem i ∈ dom (udp_pool v)) in Hq. rewrite G3 in Hq. set_solver. }
    assert (Hl' : exists q', holds_pcb (udpv s) l' q').
    { apply dom_holds. apply holds_dom in Hq. rewrite G3 in Hq. set_solver. }
    destruct Hl' as [q' Hq']. pose proof (G2 l' q' Hne Hq') as Hq2. transitivity (local_port q'); [exact (f_equal local_port (holds_same _ _ _ _ Hq Hq2))|].
    apply (Hlo l' q' Hq'). intros Hin. apply Hout. apply list_elem_of_fmap in Hin as ([l1 p1] & -> & Hin). apply (in_locs l1 p1). by apply list_elem_of_filter.
  - apply elem_of_Permutation in Hi as [used' Hperm]. exists used'. split; [change (pool_ok MEMP_UDP_PCB (<[MEMP_UDP_PCB := i :: mpools (emem s) MEMP_UDP_PCB]> (mpools (emem s)) MEMP_UDP_PCB) used'); rewrite fn_lookup_insert; by eapply pool_ok_free|].
    rewrite G3, Hd, Hperm, fmap_cons, list_to_set_cons. assert (pcb_elem i ∉ (list_to_set (pcb_elem <$> used') : gset loc)); [|set_solver].
    intros (j & [= <-] & Hj)%elem_of_list_to_set%list_elem_of_fmap. assert (Hnd : NoDup (mpools (emem s) MEMP_UDP_PCB ++ used)) by (unfold pool_ok in Hu; rewrite Hu; apply NoDup_seq).
    apply NoDup_app in Hnd as (_ & _ & Hnd). rewrite Hperm in Hnd. apply NoDup_cons in Hnd as [Hnd _]. done.
Qed.

(** ** Every sequence of calls *)

Inductive udp_call : Type :=
| CallNew
| CallBind (l : loc) (ip : option Z) (port : Z)
| CallConnect (l : loc) (ip port : Z)
| CallDisconnect (l : loc)
| CallRecv (l : loc) (f : option Z) (arg : Z)
| CallBindNetif (l : loc) (n : option nat)
| CallRemove (l : loc).

Definition make_call (c : udp_call) : M eth unit :=
  match c with
  | CallNew => udp_new;; mret tt
  | CallBind l ip port => udp_bind (Some l) ip port;; mret tt
  | CallConnect l ip port => udp_connect (Some l) (Some ip) port;; mret tt
  | CallDisconnect l => udp_disconnect (Some l)
  | CallRecv l f arg => udp_recv (Some l) f arg
  | CallBindNetif l n => udp_bind_netif l n
  | CallRemove l => udp_remove (Some l)
  end.

(** The call names a block that is in use, and a port. *)
Definition allowed (c : udp_call) (s : eth) : Prop :=
  match c with
  | CallNew => True
  | CallBind l _ port => l ∈ dom (udp_pool (udpv s)) /\ 0 <= port < 65536
  | CallConnect l _ _ | CallDisconnect l | CallRecv l _ _ | CallBindNetif l _ | CallRemove l => l ∈ dom (udp_pool (udpv s))
  end.

Inductive calls : eth -> eth -> Prop :=
| calls_none s : calls s s
| calls_one c s s1 s2 : allowed c s -> make_call c s = Ret tt s1 -> calls s1 s2 -> calls s s2.

Lemma wp_call c s ps : sockets s ps -> allowed c s -> wp (make_call c) (fun _ s' => kept_sockets s') s.
Proof.
  intros Hs Ha.
  assert (Hset : forall l f, l ∈ dom (udp_pool (udpv s)) -> off_list f -> keeps_local f -> wp (set_pcb l f) (fun _ s' => kept_sockets s') s).
  { intros l f Hl Hf Hk. destruct (dom_holds _ _ Hl) as [p Hp]. apply (wp_alter_sockets l p f s ps); [done|done|done|done|]. intros v _ Hs'. by eexists. }
  destruct c as [|l ip port|l ip port|l|l f arg|l [n|]|l]; cbn [make_call allowed] in *.
  - apply wp_bind. eapply wp_mono; [by apply (wp_new_sockets s ps)|]. intros r s' [Hs' _]. by apply wp_ret.
  - destruct Ha as [Hl Hport]. destruct (dom_holds _ _ Hl) as [p Hp]. apply wp_bind, (wp_bind_sockets l p ip port s ps); [done|done|done| |].
    + intros _ _. apply wp_ret. by exists ps.
    + intros port' v a _ _ _ Hs'. apply wp_ret. by eexists.
  - destruct (dom_holds _ _ Ha) as [p Hp]. apply wp_bind. eapply wp_mono; [by apply (wp_connect_sockets l p ip port s ps)|]. intros r s' Hs'. by apply wp_ret.
  - by apply Hset.
  - by apply Hset.
  - unfold udp_bind_netif. apply wp_bind, wp_gets. by apply Hset.
  - by apply Hset.
  - destruct (dom_holds _ _ Ha) as [p Hp]. by apply (wp_remove_sockets l p s ps).
Qed.

Lemma calls_sockets s s' : calls s s' -> kept_sockets s -> kept_sockets s'.
Proof.
  induction 1 as [|c s s1 s2 Ha E _ IH]; [done|]. intros [ps Hs]. apply IH. destruct (wp_elim _ _ _ (wp_call c s ps Hs Ha)) as (r & s1' & E' & Hs').
  rewrite E in E'. by injection E' as _ <-.
Qed.

(** UDP at the start. *)
Definition udp_fresh (s : eth) : Prop := udpv s = UdpVars UDP_LOCAL_PORT_RANGE_START None ∅ /\ pool_ok MEMP_UDP_PCB (mpools (emem s) MEMP_UDP_PCB) [].

Lemma fresh_sockets s : udp_fresh s -> kept_sockets s.
Proof.
  intros [E Hp]. exists []. split; rewrite ?E; try done.
  - split; [done|constructor].
  - intros l p l' p' H1. by apply elem_of_nil in H1.
  - intros l p [n E']. cbn in E'. by rewrite lookup_empty in E'.
  - exists []. split; [done|]. exact (dom_empty_L (M := gmap loc)).
Qed.

(** C14. Control blocks under every sequence of calls. Whatever calls a program
    makes, of [udp_new], [udp_bind], [udp_connect], [udp_disconnect],
    [udp_recv], [udp_bind_netif] and [udp_remove] on blocks it has, every
    further such call returns, and the state stays well formed: the list has no
    cycle and no stray block, the pool and the blocks in use are disjoint, a
    block with a port is on the list, and no two blocks of the list have the
    same port with addresses that clash, so that a datagram never has two
    unconnected owners by address. *)
Theorem udp_sockets_apart s s' : udp_fresh s -> calls s s' ->
  exists ps, sockets s' ps /\ forall c, allowed c s' -> exists s'', make_call c s' = Ret tt s'' /\ kept_sockets s''.
Proof.
  intros Hf Hc. destruct (calls_sockets s s' Hc (fresh_sockets s Hf)) as [ps Hs]. exists ps. split; [done|].
  intros c Ha. destruct (wp_elim _ _ _ (wp_call c s' ps Hs Ha)) as ([] & s'' & E & Hs''). by exists s''.
Qed.

(** [udp_bind]. Port 0 asks for any: the block gets a port of the dynamic
    range that no block of the list has. Another port is refused with ERR_USE,
    and nothing happens, exactly if a different block of the list has it with
    the same address or one of the two addresses is any. Else the block has the
    address and port, is on the list (where it was, or in front), and every
    other block is what it was. *)
Theorem udp_bind_claims l p ip port s ps : sockets s ps -> holds_pcb (udpv s) l p -> 0 <= port < 65536 ->
  let a := default IPADDR_ANY ip in
  if negb (port =? 0) && in_use l a port ps then udp_bind (Some l) ip port s = Ret ERR_USE s
  else exists port' v, udp_bind (Some l) ip port s = Ret ERR_OK (put_udp v s) /\
    (if port =? 0 then in_range port' /\ taken port' ps = false else port' = port) /\
    changed (udpv s) l (set_local a port' p) (bound l p a port' ps) v.
Proof.
  intros Hs Hp Hport a. subst a. set (a := default IPADDR_ANY ip).
  assert (W : wp (udp_bind (Some l) ip port) (fun r s' => if negb (port =? 0) && in_use l a port ps then r = ERR_USE /\ s' = s
    else r = ERR_OK /\ exists port' v, s' = put_udp v s /\ (if port =? 0 then in_range port' /\ taken port' ps = false else port' = port) /\
      changed (udpv s) l (set_local a port' p) (bound l p a port' ps) v) s).
  { apply (wp_bind_sockets l p ip port s ps); [done|done|done| |].
    - intros Hne Hu. fold a in Hu. rewrite (proj2 (Z.eqb_neq _ _) Hne), Hu. done.
    - intros port' v a' Hcase _ Hc _. change a' with a in *. destruct (port =? 0) eqn:E; cbn [negb andb].
      + split; [done|]. by exists port', v.
      + destruct Hcase as [-> Hu]. rewrite Hu. split; [done|]. by exists port, v. }
  destruct (wp_elim _ _ _ W) as (r & s' & E & Hr). destruct (_ && _); [by destruct Hr as [-> ->]|].
  destruct Hr as (-> & port' & v & -> & H1 & H2). by exists port', v.
Qed.
End Sockets.
