(* ===== verification/UdpInput.v ===== *)
(** UDP: which control block gets a datagram, and what it gets. *)
From stdpp Require Import functions.
From S2P Require Import Prelude Memp Pbuf PbufFacts PbufUpdate PbufAlloc PbufChain PbufRam Chksum ChksumFacts Ip4Addr Ethernet.
From S2P Require Import Etharp EtharpTable EtharpInv EtharpSend EtharpReply EtharpOutput Ip IpFacts Icmp Reass IpInput IpInputFacts Udp UdpFacts.

(** ** The owner of a datagram *)

(** Local and remote side fit. *)
Definition perfect (k : udp_key) (p : udp_pcb) : bool := local_match k p && remote_match k p.

(** The local side fits, and no peer has been set. *)
Definition open_match (k : udp_key) (p : udp_pcb) : bool := local_match k p && negb (has (pcb_flags p) UDP_FLAGS_CONNECTED).

(** The block has the address of the interface. *)
Definition at_home (k : udp_key) (p : udp_pcb) : bool := ip4_addr_eq (local_ip p) (k_if_ip k).

Definition first (f : udp_pcb -> bool) (ps : list (loc * udp_pcb)) : option (loc * udp_pcb) := head (filter (fun x => f x.2 = true) ps).

(** Without a perfect match: the first open block; for a datagram to
    255.255.255.255 one with the address of the interface comes first. *)
Definition fallback (k : udp_key) (ps : list (loc * udp_pcb)) : option (loc * udp_pcb) :=
  if k_broadcast k && (k_dest k =? IPADDR_BROADCAST) then
    match first (fun p => open_match k p && at_home k p) ps with Some x => Some x | None => first (open_match k) ps end
  else first (open_match k) ps.

Definition owner (k : udp_key) (ps : list (loc * udp_pcb)) : option (loc * udp_pcb) :=
  match first (perfect k) ps with Some x => Some x | None => fallback k ps end.

(** The list afterwards: the perfect match has come to the front. *)
Definition promote (k : udp_key) (ps : list (loc * udp_pcb)) : list (loc * udp_pcb) :=
  match first (perfect k) ps with Some x => x :: without x.1 ps | None => ps end.

(** [uncon_pcb], one block after the other. *)
Definition better (k : udp_key) (u : option (loc * udp_pcb)) (x : loc * udp_pcb) : option (loc * udp_pcb) :=
  if open_match k x.2 then
    match u with
    | None => Some x
    | Some y => if k_broadcast k && (k_dest k =? IPADDR_BROADCAST) then if negb (at_home k y.2) && at_home k x.2 then Some x else u else u
    end
  else u.

Lemma first_app f a b : first f (a ++ b) = match first f a with Some x => Some x | None => first f b end.
Proof. unfold first. rewrite filter_app. by destruct (filter _ a). Qed.

Lemma first_nil f : first f [] = None.
Proof. done. Qed.

Lemma first_cons f x ps : first f (x :: ps) = if f x.2 then Some x else first f ps.
Proof. unfold first. rewrite filter_cons. by destruct (f x.2). Qed.

Lemma first_some f ps x : first f ps = Some x -> x ∈ ps /\ f x.2 = true.
Proof.
  induction ps as [|y ps IH]; [done|]. rewrite first_cons. destruct (f y.2) eqn:E; [intros [= <-]; split; [by left|done]|].
  intros Hx. destruct (IH Hx). split; [by right|done].
Qed.

Lemma better_fallback k ps : fold_left (better k) ps None = fallback k ps.
Proof.
  induction ps as [|x ps IH] using rev_ind; [unfold fallback; by destruct (_ && _)|]. rewrite fold_left_app. cbn [fold_left]. rewrite IH. clear IH.
  unfold better, fallback. rewrite !first_app, !first_cons, !first_nil.
  destruct (k_broadcast k && (k_dest k =? IPADDR_BROADCAST)).
  - destruct (first (fun p => open_match k p && at_home k p) ps) as [y|] eqn:E.
    + apply first_some in E as [_ [_ Hy]%andb_prop]. rewrite Hy. by destruct (open_match k x.2).
    + destruct (open_match k x.2), (first (open_match k) ps) as [y|] eqn:E2; cbn [andb]; try by destruct (at_home k x.2).
      * assert (Hy : at_home k y.2 = false); [|rewrite Hy; by destruct (at_home k x.2)].
        apply first_some in E2 as [Hin Ho]. apply not_true_iff_false. intros Ha. apply list_elem_of_split in Hin as (a & b & ->).
        rewrite first_app, first_cons in E. rewrite Ho, Ha in E. by destruct (first _ a).
  - destruct (open_match k x.2), (first (open_match k) ps); done.
Qed.

Lemma first_none f ps : first f ps = None -> forall x, x ∈ ps -> f x.2 = false.
Proof.
  intros E x (a & b & ->)%list_elem_of_split. rewrite first_app, first_cons in E. destruct (first f a); [done|]. by destruct (f x.2).
Qed.

Lemma first_here f pre x post : first f pre = None -> f x.2 = true -> first f (pre ++ x :: post) = Some x.
Proof. intros Hp Hx. by rewrite first_app, Hp, first_cons, Hx. Qed.

Lemma promote_here k pre x post : NoDup (pre ++ x :: post).*1 -> first (perfect k) pre = None -> perfect k x.2 = true ->
  promote k (pre ++ x :: post) = x :: pre ++ post.
Proof.
  intros Hn Hp Hx. unfold promote. rewrite first_here by done. f_equal. destruct x as [l p]. rewrite fmap_app, fmap_cons in Hn.
  apply NoDup_app in Hn as (_ & Hd & [Hb _]%NoDup_cons). apply without_middle; [|done]. intros Hin. apply (Hd _ Hin). by left.
Qed.

Lemma promote_perm k ps : NoDup ps.*1 -> promote k ps ≡ₚ ps.
Proof.
  intros Hn. unfold promote. destruct (first (perfect k) ps) as [x|] eqn:E; [|done]. apply first_some in E as [(a & b & ->)%list_elem_of_split _].
  destruct x as [l p]. rewrite fmap_app, fmap_cons in Hn. apply NoDup_app in Hn as (_ & Hd & [Hb _]%NoDup_cons).
  cbn [fst]. rewrite without_middle; [by rewrite Permutation_middle| |done]. intros Hin. apply (Hd _ Hin). by left.
Qed.

(** [v'] is [v] with the list in the order [ps']. *)
Record reordered (v : udp_vars) (ps' : list (loc * udp_pcb)) (v' : udp_vars) : Prop := {
  ro_listed : listed v' ps';
  ro_same l q : holds_pcb v l q -> holds_pcb v' l q;
  ro_dom : dom (udp_pool v') = dom (udp_pool v);
  ro_port : udp_port v' = udp_port v
}.

Section Search.
Context `{WL : WireLaws} `{US : !UdpState} `{UU : !UdpUser}.

Lemma local_match_next k n p : local_match k (set_pcb_next n p) = local_match k p.
Proof. done. Qed.

(** One step of [uncon_pcb]. *)
Lemma wp_next_uncon k u l n p s (Q : option loc -> eth -> Prop) : local_match k p = true ->
  (forall y, u = Some y -> holds_pcb (udpv s) y.1 y.2) -> Q (fst <$> better k u (l, p)) s -> wp (next_uncon k (fst <$> u) l (set_pcb_next n p)) Q s.
Proof.
  intros Hl Hu HQ. unfold next_uncon, better, open_match in *. cbn [snd] in HQ. rewrite Hl in HQ. cbn [andb] in HQ.
  change (pcb_flags (set_pcb_next n p)) with (pcb_flags p). destruct (negb (has _ _)); [|by apply wp_ret].
  destruct u as [[lu pu]|]; cbn [fmap option_fmap option_map fst]; [|by apply wp_ret]. destruct (_ && _); [|by apply wp_ret].
  destruct (Hu _ eq_refl) as [n' E]. apply wp_bind. eapply wp_get_pcb; [exact E|]. apply wp_ret.
  change (ip4_addr_eq (local_ip (set_pcb_next n' (lu, pu).2)) (k_if_ip k)) with (at_home k pu).
  change (ip4_addr_eq (local_ip (set_pcb_next n p)) (k_if_ip k)) with (at_home k p). cbn [snd] in HQ.
  by destruct (negb (at_home k pu) && at_home k p).
Qed.

Lemma fold_better_in k ps : forall u y, fold_left (better k) ps u = Some y -> u = Some y \/ y ∈ ps.
Proof.
  induction ps as [|x ps IH]; intros u y E; [by left|]. apply IH in E as [E|Hin]; [|right; by right].
  unfold better in E. destruct (open_match k x.2); [|by left]. destruct u as [z|]; [destruct (_ && _); [destruct (_ && _)|]|];
    first [by left|injection E as <-; right; by left].
Qed.

Lemma last_locs (pre : list (loc * udp_pcb)) x : last (pre ++ [x]) = Some x.
Proof. apply last_snoc. Qed.

(** The perfect match goes to the front. *)
Lemma wp_to_front (r : option loc * option loc) k pre l p post n s (Q : option loc * option loc -> eth -> Prop) :
  listed (udpv s) (pre ++ (l, p) :: post) -> udp_pool (udpv s) !! l = Some (set_pcb_next n p) ->
  first (perfect k) pre = None -> perfect k p = true ->
  (forall v, reordered (udpv s) (promote k (pre ++ (l, p) :: post)) v -> Q r (put_udp v s)) ->
  wp (match fst <$> last pre with
      | Some pl => set_pcb pl (set_pcb_next n);; push_pcb l;; mret (inr r)
      | None => mret (inr r)
      end : M eth ((option loc * option loc * option loc) + (option loc * option loc))) (fun x s' => match x with inr r => Q r s' | inl _ => False end) s.
Proof.
  intros Hl E Hp Hx HQ. pose proof Hl as [Hc Hn]. rewrite promote_here in HQ by done. destruct pre as [|[l0 p0] pre _] using rev_ind.
  - apply wp_ret. rewrite <- (put_udp_same s). apply HQ. by split.
  - rewrite last_snoc. cbn [fmap option_fmap option_map fst]. rewrite <- app_assoc in *. cbn [app] in *.
    destruct (pcb_chain_in _ _ l0 p0 _ Hc) as [n0 E0]; [apply elem_of_app; right; by left|].
    assert (Hnd : NoDup ((pre ++ (l0, p0) :: post).*1) /\ l ∉ (pre ++ (l0, p0) :: post).*1 /\ l <> l0).
    { rewrite !fmap_app, !fmap_cons in *. cbn [fst] in *. assert (Hpm : pre.*1 ++ l0 :: l :: post.*1 ≡ₚ l :: pre.*1 ++ l0 :: post.*1).
      { change (l0 :: l :: post.*1) with ([l0] ++ l :: post.*1). rewrite (assoc (++)), <- Permutation_middle. by rewrite <- app_assoc. }
      rewrite Hpm in Hn. apply NoDup_cons in Hn as [Hn1 Hn2]. split_and!; [done|done|]. intros ->. apply Hn1. apply elem_of_app. right. by left. }
    destruct Hnd as (Hn1 & Hn2 & Hne).
    apply wp_bind. eapply wp_set_pcb; [exact E0|]. change (set_pcb_next n (set_pcb_next n0 p0)) with (set_pcb_next n p0).
    set (v1 := upd_pcb l0 (set_pcb_next n p0) (udpv s)).
    apply wp_bind, (wp_push l p (put_udp v1 s) (pre ++ (l0, p0) :: post)); [done| | |].
    + rewrite udpv_put. split; [|done]. cbn. by eapply pcb_chain_unlink.
    + rewrite udpv_put. exists n. cbn. by rewrite lookup_insert_ne.
    + intros v [G1 G2 G3] Ep. rewrite udpv_put in G3, Ep. rewrite put_udp_put. apply wp_ret. apply HQ.
      assert (Hrest : forall l', l' <> l -> udp_pool v !! l' = udp_pool v1 !! l') by done. split.
      * destruct G1 as [G1 G1']. split; [|exact G1']. destruct G1 as (Eh & n' & E' & Hc'). split; [done|]. by exists n'.
      * intros l' q [n' E']. destruct (decide (l' = l)) as [->|Hl']; [|unfold holds_pcb; rewrite Hrest by done; cbn].
        -- destruct G2 as [n2 E2]. exists n2. rewrite E2. rewrite E in E'. exact (f_equal (option_map (set_pcb_next n2)) E').
        -- destruct (decide (l' = l0)) as [->|Hl0]; [|exists n'; by rewrite lookup_insert_ne].
           exists n. rewrite lookup_insert_eq. rewrite E0 in E'. exact (f_equal (option_map (set_pcb_next n)) E').
      * apply set_eq. intros x. destruct (decide (x = l)) as [->|Hl'].
        -- destruct G2 as [n2 E2]. split; intros _; by eapply elem_of_dom_2.
        -- rewrite !elem_of_dom, Hrest by done. cbn. rewrite lookup_insert. case_decide as Ex; [|done]. subst x. rewrite E0. split; intros _; by eexists.
      * by rewrite Ep.
Qed.

(** The search. *)
Lemma wp_find_match_loop k s ps (Q : option loc * option loc -> eth -> Prop) : listed (udpv s) ps ->
  (first (perfect k) ps = None -> Q (None, fst <$> fallback k ps) s) ->
  (forall x u v, first (perfect k) ps = Some x -> reordered (udpv s) (promote k ps) v -> Q (Some x.1, u) (put_udp v s)) ->
  forall post pre h fuel, ps = pre ++ post -> pcb_chain (udp_pool (udpv s)) h post -> first (perfect k) pre = None -> (length post < fuel)%nat ->
  wp (iter fuel (find_match_body k) (h, fst <$> last pre, fst <$> fold_left (better k) pre None)) Q s.
Proof.
  intros Hl HQ1 HQ2. induction post as [|[l p] post IH]; intros pre h fuel Eps Hc Hp Hf; (destruct fuel as [|fuel]; [simpl in Hf; lia|]); cbn [iter]; apply wp_bind.
  - simpl in Hc. subst h. rewrite app_nil_r in Eps. subst ps. apply wp_ret, wp_ret. rewrite better_fallback. by apply HQ1.
  - destruct Hc as (-> & n & E & Hc). cbn [find_match_body]. apply wp_bind. eapply wp_get_pcb; [exact E|]. rewrite local_match_next.
    change (remote_match k (set_pcb_next n p)) with (remote_match k p). cbn [pcb_next set_pcb_next].
    assert (Hnext : perfect k p = false ->
      wp (iter fuel (find_match_body k) (n, Some l, fst <$> fold_left (better k) (pre ++ [(l, p)]) None)) Q s).
    { intros Hx. assert (W := IH (pre ++ [(l, p)]) n fuel). rewrite last_snoc in W. apply W; [by rewrite <- app_assoc|done| |simpl in Hf; lia].
      rewrite first_app, Hp, first_cons. cbn [snd]. by rewrite Hx. }
    unfold perfect in Hnext. destruct (local_match k p) eqn:Em; cbn [andb] in Hnext.
    + apply wp_bind, wp_next_uncon; [done| |].
      { intros y Ey. apply fold_better_in in Ey as [?|Hin]; [done|]. destruct y as [ly py]. eapply holds_listed; [exact Hl|]. rewrite Eps. apply elem_of_app. by left. }
      assert (Ef : better k (fold_left (better k) pre None) (l, p) = fold_left (better k) (pre ++ [(l, p)]) None) by (by rewrite fold_left_app). rewrite Ef. clear Ef.
      destruct (remote_match k p) eqn:Er.
      * assert (Hx : perfect k p = true) by (unfold perfect; by rewrite Em, Er). subst ps.
        eapply wp_mono; [apply (wp_to_front (Some l, fst <$> fold_left (better k) (pre ++ [(l, p)]) None) k pre l p post n s Q)|]; [done|done|done|done| |].
        -- intros v Hv. apply (HQ2 (l, p) _ v); [by apply first_here|done].
        -- intros [x|r] s' Hr; [done|]. by apply wp_ret.
      * apply wp_ret. by apply Hnext.
    + apply wp_ret. assert (Ef : fold_left (better k) (pre ++ [(l, p)]) None = fold_left (better k) pre None).
      { rewrite fold_left_app. cbn. unfold better, open_match. cbn. by rewrite Em. }
      rewrite <- Ef. by apply Hnext.
Qed.

Lemma wp_find_match k s ps (Q : option loc * option loc -> eth -> Prop) fuel : listed (udpv s) ps -> (S (size (udp_pool (udpv s))) <= fuel)%nat ->
  (forall x u v, match x with Some _ => x | None => u end = fst <$> owner k ps -> reordered (udpv s) (promote k ps) v -> Q (x, u) (put_udp v s)) ->
  wp (iter fuel (find_match_body k) (udp_pcbs (udpv s), None, None)) Q s.
Proof.
  intros Hl Hf HQ. pose proof Hl as [Hc Hn]. pose proof (pcb_chain_size _ _ _ Hc Hn) as Hsz.
  apply (wp_find_match_loop k s ps _ Hl) with (post := ps) (pre := []); [| |done|done|done|lia].
  - intros Ef. rewrite <- (put_udp_same s). apply HQ; [unfold owner; by rewrite Ef|]. unfold promote. rewrite Ef. by split.
  - intros x u v Ef Hv. apply HQ; [unfold owner; by rewrite Ef|done].
Qed.

Lemma sockets_reordered s ps k v : sockets s ps -> reordered (udpv s) (promote k ps) v -> sockets (put_udp v s) (promote k ps).
Proof.
  intros [Hl Hr Ha Hb Hlo Hu] [R1 R2 R3 R4]. pose proof (promote_perm k ps (proj2 Hl)) as Hp. split; rewrite ?udpv_put.
  - done.
  - by rewrite R4.
  - intros l1 p1 l2 p2 H1 H2. rewrite Hp in H1, H2. by apply Ha.
  - by rewrite Hp.
  - intros l p Hq Hin. assert (Hd : l ∈ dom (udp_pool (udpv s))) by (rewrite <- R3; by eapply holds_dom).
    destruct (dom_holds _ _ Hd) as [q Hq']. transitivity (local_port q); [exact (f_equal local_port (holds_same _ _ _ _ Hq (R2 _ _ Hq')))|].
    apply (Hlo l q Hq'). intros Hin'. apply Hin. assert (Hp1 : (promote k ps).*1 ≡ₚ ps.*1) by (by rewrite Hp). by rewrite Hp1.
  - destruct Hu as (used & Hu & Hd). exists used. by rewrite R3.
Qed.
End Search.

(** ** udp_input *)

Inductive udp_fate : Type :=
| UdpDropped
| UdpToSocket (l : loc) (f arg : Z)
| UdpUnreachable.

(** [good] tells whether the checksum is. *)
Definition datagram_fate (k : udp_key) (ps : list (loc * udp_pcb)) (good : bool) : udp_fate :=
  match owner k ps with
  | Some (l, p) => match recv p with Some f => if good then UdpToSocket l f (recv_arg p) else UdpDropped | None => UdpDropped end
  | None =>
    if ip4_addr_eq (k_if_ip k) (k_dest k) && good && negb (k_broadcast k) && negb (ip4_addr_ismulticast (k_dest k))
    then UdpUnreachable else UdpDropped
  end.

Definition src_port (data : list Z) : Z := lwip_ntohs (load_word16 (hdr_field 0 2 data)).
Definition dst_port (data : list Z) : Z := lwip_ntohs (load_word16 (hdr_field 2 2 data)).

(** The datagram has no checksum, or a correct one. *)
Definition good_datagram (src dst : Z) (data msg : list Z) : bool :=
  (load_word16 (hdr_field 6 2 data) =? 0) || (rfc1071 (pseudo_header src dst IP_PROTO_UDP (Z.of_nat (length msg)) ++ msg) =? 0xffff).

Section Input.
Context `{WL : WireLaws} `{HL : !HeapLaws} `{CF : !CustomFree} `{BU : !Build} `{US : !UdpState} `{UU : !UdpUser}.
Context (odd_at : option ptr -> bool) (ip4_frag : loc -> nat -> Z -> M eth Z).

(** While a packet is delivered: it came in on [n] and is for [a]. *)
Definition delivering (s : eth) (a n : nat) (src dst : Z) : Prop :=
  let d := ip_data (ipv s) in
  current_netif d = Some a /\ current_input_netif d = Some n /\ current_iphdr_src d = src /\ current_iphdr_dest d = dst /\
  0 <= src < 2 ^ 32 /\ 0 <= dst < 2 ^ 32.

Definition key_of (s : eth) (a n : nat) (src dst : Z) (data : list Z) : udp_key :=
  UdpKey src (src_port data) dst (dst_port data) (netif_get_index (netifs s n)) (if_ip_addr (netifs s n)) (if_netmask (netifs s n))
    (ip4_addr_isbroadcast dst (netifs s a)).

(** The first pbuf without its first [k] bytes. *)
Definition beheaded (k : Z) (nd : node) : node := Node (n_loc nd) (moved (- k) (n_buf nd)) (drop (Z.to_nat k) (n_data nd)).
Definition behead (k : Z) (nd : node) (m : mem) : mem := set_pbufs (<[n_loc nd := moved (- k) (n_buf nd)]> (pbufs m)) m.

Lemma behead_packet k nd c m : packet m (Some (n_loc nd)) (nd :: c) -> 0 <= k <= len (n_buf nd) ->
  packet (behead k nd m) (Some (n_loc nd)) (beheaded k nd :: c) /\ contents (beheaded k nd :: c) = drop (Z.to_nat k) (contents (nd :: c)).
Proof.
  intros Hp Hk. pose proof (pk_chain _ _ _ Hp) as (_ & _ & Hh & _). pose proof Hh as [L _]. pose proof (pk_totals _ _ _ Hp) as [Et _].
  pose proof (pk_bound _ _ _ Hp) as Hb. rewrite total_cons in Et, Hb. pose proof (total_nonneg c). split.
  - apply packet_head; [done|done| | | |by apply holds_moved_back].
    + unfold node_area, moved. simpl. by destruct (payload (n_buf nd)).
    + rewrite length_drop. simpl. lia.
    + rewrite length_drop. lia.
  - rewrite !contents_cons. cbn [beheaded n_data]. by rewrite drop_app_le by lia.
Qed.

Lemma behead_releasable k nd c : releasable (nd :: c) -> releasable (beheaded k nd :: c).
Proof. intros [[R1 R2] R]%Forall_cons. apply Forall_cons. by split. Qed.

(** What happens in the end. *)
Definition udp_outcome (f : udp_fate) (p : loc) (src sport : Z) : M eth unit :=
  match f with
  | UdpDropped => udp_drop p
  | UdpToSocket l f arg => udp_recv_fn f arg l p src sport
  | UdpUnreachable =>
    hl ← ip_var (fun v => current_ip_header_tot_len (ip_data v));
    (on_pbuf (pbuf_header_force (Some p) (s16 (hl + UDP_HLEN)));; icmp_dest_unreach odd_at ip4_frag p ICMP_DUR_PORT);;
    udp_drop p
  end.

(** The packet has been released, as it is in [m]. *)
Definition released (p : loc) (m : mem) (s : eth) (o : outcome eth unit) : Prop :=
  exists j m', pbuf_free (Some p) m = Ret j m' /\ o = Ret tt (set_emem m' s).

Lemma drop_released nd c s : packet (emem s) (Some (n_loc nd)) (nd :: c) -> releasable (nd :: c) -> released (n_loc nd) (emem s) s (udp_drop (n_loc nd) s).
Proof. intros Hp Hr. destruct (drop_run (n_loc nd) nd c s Hp Hr) as (k & m' & E1 & E2). by exists k, m'. Qed.

Lemma wp_off_udp_head nd c (Q : Z -> eth -> Prop) s : packet (emem s) (Some (n_loc nd)) (nd :: c) -> 8 <= len (n_buf nd) ->
  Q 0 (set_emem (behead 8 nd (emem s)) s) -> wp (on_pbuf (pbuf_remove_header (Some (n_loc nd)) UDP_HLEN)) Q s.
Proof.
  intros Hp Hlen HQ. pose proof (pk_chain _ _ _ Hp) as (_ & Hl & [L _] & _). pose proof (pk_totals _ _ _ Hp) as [Et _].
  pose proof (pk_bound _ _ _ Hp) as Hb. rewrite total_cons in Et, Hb. pose proof (total_nonneg c). apply wp_on_pbuf. eapply wp_of_run; [|exact HQ].
  unfold UDP_HLEN. rewrite (pbuf_remove_header_run _ (n_buf nd)) by (done || lia). by rewrite (proj2 (Z.leb_le _ _)) by lia.
Qed.

(** [udp_deliver], with the owner of the datagram. *)
Lemma deliver_run (R : outcome eth unit -> Prop) nd c s k ps ps' : packet (emem s) (Some (n_loc nd)) (nd :: c) -> releasable (nd :: c) -> 8 <= len (n_buf nd) ->
  listed (udpv s) ps' -> ps' ≡ₚ ps -> (owner k ps = None -> ip4_addr_eq (k_if_ip k) (k_dest k) = true) ->
  let m1 := behead 8 nd (emem s) in let f := datagram_fate k ps true in
  (f = UdpDropped -> forall o, released (n_loc nd) m1 s o -> R o) ->
  (f <> UdpDropped -> R (udp_outcome f (n_loc nd) (k_src k) (k_sport k) (set_emem m1 s))) ->
  R (udp_deliver odd_at ip4_frag (n_loc nd) (fst <$> owner k ps) (k_broadcast k) (k_src k) (k_dest k) (k_sport k) s).
Proof.
  intros Hp Hr Hlen Hl Hperm Hus m1 f HR1 HR2. pose proof (behead_packet 8 nd c (emem s) Hp ltac:(lia)) as [Hp1 _]. fold m1 in Hp1.
  set (s1 := set_emem m1 s) in *. assert (Hd : released (n_loc nd) m1 s (udp_drop (n_loc nd) s1)).
  { destruct (drop_released (beheaded 8 nd) c s1 Hp1 (behead_releasable 8 nd c Hr)) as (j & m' & E1 & E2). by exists j, m'. }
  unfold udp_deliver. eapply (leads_bind R), (wp_off_udp_head nd c); [done|done|]. fold m1 s1. cbn [Z.eqb negb]. unfold f, datagram_fate in HR1, HR2. clear f.
  destruct (owner k ps) as [[l p]|] eqn:Eo; cbn [fmap option_fmap option_map fst].
  - assert (Hin : (l, p) ∈ ps') by (rewrite Hperm; unfold owner, fallback in Eo; repeat case_match; simplify_eq; match goal with E : first _ _ = Some _ |- _ => by apply first_some in E as [? _] end).
    destruct (holds_listed _ _ _ _ Hl Hin) as [n E]. eapply (leads_bind R), wp_get_pcb; [exact E|]. change (recv (set_pcb_next n p)) with (recv p).
    change (recv_arg (set_pcb_next n p)) with (recv_arg p). destruct (recv p) as [g|]; [by apply HR2|by apply HR1].
  - rewrite (Hus eq_refl) in HR1, HR2. cbn [andb] in HR1, HR2. eapply (leads_bind R), wp_ip_var.
    destruct (negb (k_broadcast k) && negb (ip4_addr_ismulticast (k_dest k))); cbn [when].
    + apply HR2. done.
    + by apply HR1.
Qed.

Lemma fate_bad k ps : datagram_fate k ps false = UdpDropped.
Proof. unfold datagram_fate. destruct (owner k ps) as [[l p]|]; [by destruct (recv p)|]. by rewrite andb_false_r. Qed.

Lemma fate_nobody k ps good : match fst <$> owner k ps with Some _ => true | None => ip4_addr_eq (k_if_ip k) (k_dest k) end = false ->
  datagram_fate k ps good = UdpDropped.
Proof. unfold datagram_fate. destruct (owner k ps) as [x|]; [done|]. cbn. by intros ->. Qed.

Lemma short_run s nd c n : packet (emem s) (Some (n_loc nd)) (nd :: c) -> releasable (nd :: c) -> len (n_buf nd) < 8 ->
  released (n_loc nd) (emem s) s (udp_input odd_at ip4_frag (n_loc nd) n s).
Proof.
  intros Hp Hr Hlen. pattern (udp_input odd_at ip4_frag (n_loc nd) n s). unfold udp_input. eapply leads_bind, wp_on_pbuf, wp_getp; [apply (pk_chain _ _ _ Hp)|].
  unfold UDP_HLEN. rewrite (proj2 (Z.ltb_lt _ _)) by lia. replace (set_emem (emem s) s) with s by (by destruct s). by apply (drop_released nd c).
Qed.

(** Where [udp_input] leads, for a complete header. *)
Lemma input_run (R : outcome eth unit -> Prop) s nd c a n src dst ps : packet (emem s) (Some (n_loc nd)) (nd :: c) -> releasable (nd :: c) ->
  Forall byte (contents (nd :: c)) -> delivering s a n src dst -> listed (udpv s) ps -> 8 <= len (n_buf nd) ->
  let k := key_of s a n src dst (n_data nd) in let m1 := behead 8 nd (emem s) in
  let f := datagram_fate k ps (good_datagram src dst (n_data nd) (contents (nd :: c))) in
  (forall v, reordered (udpv s) (promote k ps) v ->
     (f = UdpDropped -> forall m, (m = emem s \/ m = m1) -> forall o, released (n_loc nd) m (put_udp v s) o -> R o) /\
     (f <> UdpDropped -> R (udp_outcome f (n_loc nd) src (src_port (n_data nd)) (set_emem m1 (put_udp v s))))) ->
  R (udp_input odd_at ip4_frag (n_loc nd) n s).
Proof.
  intros Hp Hr Hby (Ea & En & Es & Ed & Rs & Rd) Hl Hlen k m1. set (good := good_datagram _ _ _ _). intros f Hout.
  pose proof (pk_chain _ _ _ Hp) as (_ & Hnd & Hh & _). pose proof Hh as [L _].
  unfold udp_input. eapply (leads_bind R), wp_on_pbuf, wp_getp; [exact Hnd|].
  replace (set_emem (emem s) s) with s by (by destruct s). unfold UDP_HLEN. rewrite (proj2 (Z.ltb_ge _ _)) by lia. cbv zeta.
  eapply (leads_bind R), wp_ip_var. eapply (leads_bind R), wp_ip_var. eapply (leads_bind R), wp_ip_var. rewrite Es, Ed, Ea.
  eapply (leads_bind R), wp_ret. eapply (leads_bind R), wp_gets.
  eapply (leads_bind R), (wp_load16_at _ (n_data nd)); [exact Hh|lia|lia|]. eapply (leads_bind R), (wp_load16_at _ (n_data nd)); [exact Hh|lia|lia|].
  eapply (leads_bind R), wp_ip_var. rewrite En. eapply (leads_bind R), wp_ret. eapply (leads_bind R), wp_gets. eapply (leads_bind R), wp_gets.
  eapply (leads_bind R), wp_udp_var. unfold pcbs_fuel. eapply (leads_bind R), wp_udp_var.
  match goal with |- context [find_match_body ?K] => change K with k end.
  eapply (leads_bind R), (wp_find_match k s ps); [done|done|]. intros x u v Ex Hv. cbv beta iota. rewrite Ex.
  destruct (Hout v Hv) as [HR HR2]. clear Hout.
  assert (Hdrop : released (n_loc nd) (emem s) (put_udp v s) (udp_drop (n_loc nd) (put_udp v s))) by (by apply (drop_released nd c (put_udp v s))).
  assert (Ef : f = datagram_fate k ps good) by done. assert (Eg : good = good_datagram src dst (n_data nd) (contents (nd :: c))) by done.
  clearbody f good.
  match goal with |- R ((if ?b then _ else _) _) => assert (Hus : owner k ps = None -> b = ip4_addr_eq (k_if_ip k) (k_dest k)) end.
  { intros ->. done. }
  match goal with |- R ((if ?b then _ else _) _) => destruct b eqn:Eb end.
  - eapply (leads_bind R), (wp_load16_at _ (n_data nd)); [exact Hh|lia|lia|]. change (Z.to_nat 6) with 6%nat.
    assert (Hck : forall ck, (ck =? 0) = good ->
      R ((if negb (ck =? 0) then udp_drop (n_loc nd)
          else udp_deliver odd_at ip4_frag (n_loc nd) (fst <$> owner k ps) (k_broadcast k) (k_src k) (k_dest k) (k_sport k)) (put_udp v s))).
    { intros ck Eck. rewrite Eck. destruct good; cbn [negb]; rewrite Ef in HR, HR2.
      - apply (deliver_run R nd c (put_udp v s) k ps (promote k ps)); try done.
        + rewrite udpv_put. apply Hv.
        + apply promote_perm, Hl.
        + intros Eo. by rewrite <- Hus.
        + intros Ef' o Ho. apply (HR Ef' m1); [by right|done].
      - apply (HR (fate_bad k ps) (emem s)); [by left|done]. }
    rewrite Eg in Hck. unfold good_datagram in Hck. pose proof (pk_totals _ _ _ Hp) as [Et _]. destruct (load_word16 _ =? 0).
    + eapply (leads_bind R), wp_ret. by apply Hck.
    + cbn [negb orb] in *. eapply (leads_bind R), wp_on_pbuf, (wp_ip_chksum_pseudo odd_at (emem s) (n_loc nd) (nd :: c)); [done|done|done| |done|done|].
      { rewrite Et. split; [apply total_nonneg|]. apply (pk_bound _ _ _ Hp). }
      change (set_emem (emem s) (put_udp v s)) with (set_emem (emem (put_udp v s)) (put_udp v s)).
      replace (set_emem (emem (put_udp v s)) (put_udp v s)) with (put_udp v s) by (by destruct s). apply Hck. rewrite Et.
      change (Z.of_nat (length (contents (nd :: c)))) with (total (nd :: c)).
      match goal with |- (0xffff - ?r =? 0) = _ => destruct (Z.eqb_spec r 0xffff) as [->|Hne]; [done|] end. apply Z.eqb_neq. lia.
  - rewrite Ef in HR. apply (HR (fate_nobody k ps good Eb) (emem s)); [by left|done].
Qed.

(** C12. [udp_input], for any datagram. One without a complete header is
    released. Otherwise [owner] is the control block for it: the first that has
    the local address and port and whose peer is the sender; without one the
    first that has no peer, for 255.255.255.255 rather one with the address of
    the interface. A perfect match comes to the front of the list; the blocks
    stay what they are, and well formed. A datagram that nobody owns and that
    is not for the interface, or whose checksum over pseudo header and bytes is
    wrong, or whose owner has no receive function, is released, and that is
    all; an owner's receive function gets the datagram without its header, the
    sender's address and port; a datagram for the address of the interface that
    nobody owns goes back as ICMP port unreachable, except if it was a broadcast
    or multicast. *)
Theorem udp_input_demux s nd c a n src dst ps : packet (emem s) (Some (n_loc nd)) (nd :: c) -> releasable (nd :: c) ->
  Forall byte (contents (nd :: c)) -> delivering s a n src dst -> listed (udpv s) ps ->
  let run := udp_input odd_at ip4_frag (n_loc nd) n s in
  (len (n_buf nd) < 8 -> released (n_loc nd) (emem s) s run) /\
  (8 <= len (n_buf nd) ->
   let k := key_of s a n src dst (n_data nd) in let m1 := behead 8 nd (emem s) in
   let f := datagram_fate k ps (good_datagram src dst (n_data nd) (contents (nd :: c))) in
   exists v, reordered (udpv s) (promote k ps) v /\ (sockets s ps -> sockets (put_udp v s) (promote k ps)) /\
     (f = UdpDropped -> exists m, (m = emem s \/ m = m1) /\ released (n_loc nd) m (put_udp v s) run) /\
     (f <> UdpDropped -> run = udp_outcome f (n_loc nd) src (src_port (n_data nd)) (set_emem m1 (put_udp v s)) /\
        packet m1 (Some (n_loc nd)) (beheaded 8 nd :: c) /\ releasable (beheaded 8 nd :: c) /\
        contents (beheaded 8 nd :: c) = drop 8 (contents (nd :: c)))).
Proof.
  intros Hp Hr Hby Hd Hl run. subst run. split; [by apply (short_run s nd c)|]. intros Hlen k m1 f.
  pattern (udp_input odd_at ip4_frag (n_loc nd) n s). apply (input_run _ s nd c a n src dst ps); try done.
  intros v Hv. destruct (behead_packet 8 nd c (emem s) Hp ltac:(lia)) as [G1 G2].
  assert (Hv2 : sockets s ps -> sockets (put_udp v s) (promote k ps)) by (by intros; apply sockets_reordered). split; intros Ef.
  - intros m Hm o Ho. exists v. split_and!; [done|done|intros _; by exists m|done].
  - exists v. split_and!; [done|done|done|]. intros _. split_and!; [done|done|by apply behead_releasable|exact G2].
Qed.
End Input.
