(* ===== verification/UdpFlow.v ===== *)
(** UDP: what is sent, and the way of a datagram from the frame to the receive
    function of its control block. *)
From stdpp Require Import functions.
From S2P Require Import Prelude Memp Pbuf PbufFacts PbufUpdate PbufAlloc PbufChain PbufRam Chksum ChksumFacts Ip4Addr Ethernet.
From S2P Require Import Etharp EtharpTable EtharpInv EtharpSend EtharpReply EtharpOutput Ip IpFacts Icmp Reass IpInput IpInputFacts Udp UdpFacts UdpInput.

(** ** The header *)

Definition udp_header (sport dport len ck : Z) : list Z := be16 sport ++ be16 dport ++ be16 len ++ bytes16 ck.

(** The checksum that is sent: never zero, which would mean that there is
    none. *)
Definition udp_checksum (src dst sport dport : Z) (msg : list Z) : Z :=
  let len := 8 + Z.of_nat (length msg) in
  let ck := 0xffff - rfc1071 (pseudo_header src dst IP_PROTO_UDP len ++ udp_header sport dport len 0 ++ msg) in
  if ck =? 0 then 0xffff else ck.

Definition udp_message (src dst sport dport : Z) (msg : list Z) : list Z :=
  udp_header sport dport (8 + Z.of_nat (length msg)) (udp_checksum src dst sport dport msg) ++ msg.

Lemma udp_header_length sport dport len ck : length (udp_header sport dport len ck) = 8%nat.
Proof. done. Qed.

Lemma udp_header_bytes sport dport len ck : 0 <= sport < 65536 -> 0 <= dport < 65536 -> 0 <= len < 65536 -> Forall byte (udp_header sport dport len ck).
Proof. intros. unfold udp_header. rewrite !Forall_app. split_and!; auto using be16_bytes, bytes16_bytes. Qed.

(** A checksum in its field, at an even offset, makes the sum come out. *)
Lemma rfc1071_filled a b : Forall byte a -> Forall byte b -> Nat.even (length a) = true ->
  let ck := 0xffff - rfc1071 (a ++ bytes16 0 ++ b) in rfc1071 (a ++ bytes16 (if ck =? 0 then 0xffff else ck) ++ b) = 0xffff.
Proof.
  intros Ha Hb Hev ck. assert (H0 : Forall byte (a ++ bytes16 0 ++ b)) by (rewrite !Forall_app; auto using bytes16_bytes).
  pose proof (stands_rfc1071 _ H0) as (Rr & (k & Ek) & Zr & Nr). set (r := rfc1071 (a ++ bytes16 0 ++ b)) in *. set (w := if ck =? 0 then 0xffff else ck).
  assert (Rw : 0 < w < 65536 /\ exists i, w = 65535 * i - r + 65535 /\ 0 <= i).
  { unfold w. destruct (Z.eqb_spec ck 0); [split; [lia|]; exists 1; lia|]. split; [lia|]. exists 0. lia. }
  destruct Rw as (Rw & i & Ew & Hi). symmetry. apply rfc1071_value; [rewrite !Forall_app; auto using bytes16_bytes|].
  assert (Ev : exists j, le_val (a ++ bytes16 w ++ b) = le_val (a ++ bytes16 0 ++ b) + (1 + 65535 * j) * w /\ 0 <= j).
  { rewrite !le_val_app. destruct (pow256 (length a)) as (j & -> & Hj). rewrite Hev. exists j. split; [|done].
    assert (E1 : le_val (bytes16 w) = w) by (unfold bytes16; cbn [le_val]; Z.div_mod_to_equations; lia). rewrite E1.
    change (le_val (bytes16 0)) with 0. change (length (bytes16 w)) with 2%nat. change (length (bytes16 0)) with 2%nat. lia. }
  destruct Ev as (j & -> & Hj). rewrite Ek. split_and!; [lia|lia| |split; nia|nia]. exists (k + i + j * w). lia.
Qed.

Lemma udp_message_good src dst sport dport msg : 0 <= sport < 65536 -> 0 <= dport < 65536 -> 8 + Z.of_nat (length msg) < 65536 -> Forall byte msg ->
  rfc1071 (pseudo_header src dst IP_PROTO_UDP (Z.of_nat (length (udp_message src dst sport dport msg))) ++ udp_message src dst sport dport msg) = 0xffff /\
  0 < udp_checksum src dst sport dport msg < 65536.
Proof.
  intros Hs Hd Hl Hm. unfold udp_message. rewrite length_app, udp_header_length. rewrite Nat2Z.inj_add. change (Z.of_nat 8) with 8.
  set (len := 8 + Z.of_nat (length msg)) in *.
  set (a := pseudo_header src dst IP_PROTO_UDP len ++ be16 sport ++ be16 dport ++ be16 len).
  assert (Ea : forall ck, pseudo_header src dst IP_PROTO_UDP len ++ udp_header sport dport len ck ++ msg = a ++ bytes16 ck ++ msg).
  { intros ck. unfold a, udp_header. by rewrite <- !app_assoc. }
  assert (Ha : Forall byte a).
  { unfold a. rewrite !Forall_app. split_and!; [by apply pseudo_header_bytes| |..]; apply be16_bytes; unfold len; lia. }
  unfold udp_checksum. fold len. rewrite !Ea. split; [by apply rfc1071_filled|].
  assert (H0 : Forall byte (a ++ bytes16 0 ++ msg)) by (rewrite !Forall_app; auto using bytes16_bytes).
  destruct (stands_rfc1071 _ H0) as (Rr & _). destruct (Z.eqb_spec (0xffff - rfc1071 (a ++ bytes16 0 ++ msg)) 0); lia.
Qed.

(** The four fields, one by one. *)
Lemma splice_udp (data : list Z) f0 f1 f2 f3 f4 : (8 <= length data)%nat -> length f0 = 2%nat -> length f1 = 2%nat -> length f2 = 2%nat -> length f3 = 2%nat -> length f4 = 2%nat ->
  splice 4 f3 (splice 6 f2 (splice 2 f1 (splice 0 f0 data))) = f0 ++ f1 ++ f3 ++ f2 ++ drop 8 data /\
  splice 6 f4 (f0 ++ f1 ++ f3 ++ f2 ++ drop 8 data) = f0 ++ f1 ++ f3 ++ f4 ++ drop 8 data.
Proof.
  intros L L0 L1 L2 L3 L4. do 8 (destruct data as [|? data]; [simpl in L; lia|]). clear L. do 2 list_cons f0. list_nil f0. do 2 list_cons f1. list_nil f1. do 2 list_cons f2. list_nil f2.
  do 2 list_cons f3. list_nil f3. do 2 list_cons f4. list_nil f4.
  unfold splice. cbn [length Nat.add take drop app]. by rewrite !drop_0.
Qed.

Section Output.
Context `{WL : WireLaws} `{HL : !HeapLaws} `{CF : !CustomFree} `{BU : !Build} `{US : !UdpState} `{UU : !UdpUser}.
Context (odd_at : option ptr -> bool) (ip4_frag : loc -> nat -> Z -> M eth Z).

(** Eight bytes in front of a packet become its header. *)
Lemma wp_udp_write_header nd c m s hdr sport dport src dst (Q : unit -> eth -> Prop) :
  packet m (Some (n_loc nd)) (Node (n_loc nd) (n_buf nd) (hdr ++ n_data nd) :: c) -> fst <$> payload (n_buf nd) = Some (n_loc nd) ->
  length hdr = 8%nat -> Forall byte (n_data nd ++ contents c) -> emem s = m ->
  0 <= sport < 65536 -> 0 <= dport < 65536 -> 0 <= src < 2 ^ 32 -> 0 <= dst < 2 ^ 32 ->
  (forall m', let h := udp_header sport dport (8 + Z.of_nat (length (n_data nd ++ contents c))) (udp_checksum src dst sport dport (n_data nd ++ contents c)) in
     only_block (n_loc nd) m m' -> packet m' (Some (n_loc nd)) (Node (n_loc nd) (n_buf nd) (h ++ n_data nd) :: c) -> Q tt (set_emem m' s)) ->
  wp (udp_write_header odd_at (n_loc nd) sport dport false src dst) Q s.
Proof.
  intros Hp Hb Lh Hby Em Rs Rd Rsrc Rdst HQ. pose proof (pk_chain _ _ _ Hp) as (_ & Hl & Hh & _). cbn [n_loc n_buf n_data] in *. pose proof Hh as [Ld _].
  pose proof (pk_totals _ _ _ Hp) as [Et _]. pose proof (pk_bound _ _ _ Hp) as Hbd. rewrite total_cons in Et, Hbd. cbn [n_data n_buf] in Et, Hbd.
  rewrite length_app in Ld, Et, Hbd. pose proof (total_nonneg c). set (msg := n_data nd ++ contents c) in *. set (b := n_buf nd) in *. set (l := n_loc nd) in *.
  assert (El : tot_len b = 8 + Z.of_nat (length msg)) by (unfold msg; rewrite length_app; change (Z.of_nat (length (contents c))) with (total c) in *; unfold total in *; lia).
  assert (Lm : 8 + Z.of_nat (length msg) < 65536) by (rewrite <- El; lia). rewrite El in *. clear Et. unfold udp_write_header. apply wp_bind, wp_on_pbuf. rewrite Em. apply (wp_getp _ b); [done|]. cbv zeta.
  assert (Wr : written l b m m (hdr ++ n_data nd)) by (split; [by split_and!|done|done]).
  do 4 (apply wp_bind; eapply (wp_store_field l b m); [exact Wr|exact Hb|lia|cbn [length bytes16]; lia|clear Wr; intros ? Wr]).
  rewrite El in Wr. change (Z.to_nat 0) with 0%nat in Wr. change (Z.to_nat 2) with 2%nat in Wr. change (Z.to_nat 6) with 6%nat in Wr. change (Z.to_nat 4) with 4%nat in Wr.
  rewrite !htons_bytes in Wr by (lia || done).
  match type of Wr with written _ _ _ ?m1 _ => set (m1' := m1) in * end.
  set (len := 8 + Z.of_nat (length msg)) in *. set (ck := udp_checksum src dst sport dport msg).
  destruct (splice_udp (hdr ++ n_data nd) (be16 sport) (be16 dport) (bytes16 0) (be16 len) (bytes16 ck)) as [E1 E2]; try done; [rewrite length_app; lia|].
  rewrite E1 in Wr. rewrite drop_app_length' in Wr, E2 by done.
  assert (Eh : forall k, be16 sport ++ be16 dport ++ be16 len ++ bytes16 k ++ n_data nd = udp_header sport dport len k ++ n_data nd) by (intros k; unfold udp_header; by rewrite <- !app_assoc).
  rewrite !Eh in Wr, E2. pose proof Wr as [O1 P1 Hw1].
  assert (Hp1 : packet m1' (Some l) (Node l b (udp_header sport dport len 0 ++ n_data nd) :: c)).
  { eapply packet_block_write; [exact Hp|exact Hw1|exact O1|exact P1|done|rewrite !length_app, udp_header_length; lia]. }
  assert (Ec : contents (Node l b (udp_header sport dport len 0 ++ n_data nd) :: c) = udp_header sport dport len 0 ++ msg) by (rewrite contents_cons; symmetry; apply app_assoc).
  cbn [negb when]. apply wp_bind, wp_on_pbuf. change (emem (set_emem m1' _)) with m1'.
  rewrite El. fold len. eapply (wp_ip_chksum_pseudo odd_at m1' l); [exact Hp1| |done|unfold len; lia|done|done|].
  { rewrite Ec. apply Forall_app. split; [apply udp_header_bytes; unfold len; lia|done]. }
  rewrite Ec. cbv zeta. change (if _ =? 0 then 65535 else _) with ck.
  change (set_emem m1' (set_emem m1' ?x)) with (set_emem m1' x).
  match goal with |- wp _ _ (set_emem m1' ?x) => eapply (wp_store_field l b m m1' x) end; [exact Wr|exact Hb|lia|cbn [length bytes16]; lia|].
  intros mb Wr'. change (Z.to_nat 6) with 6%nat in Wr'. rewrite E2 in Wr'. destruct Wr' as [O2 P2 Hw2].
  change (set_emem mb (set_emem ?x s)) with (set_emem mb s). apply HQ; [done|].
  eapply packet_block_write; [exact Hp|exact Hw2|exact O2|exact P2|done|rewrite !length_app, udp_header_length; lia].
Qed.

(** A packet that UDP can send: room for the three headers. *)
Record udp_sendable (s : eth) (n : nat) (nd : node) (c : list node) : Prop := {
  us_packet : packet (emem s) (Some (n_loc nd)) (nd :: c);
  us_room : roomy nd (UDP_HLEN + (IP_HLEN + SIZEOF_ETH_HDR));
  us_size : total (nd :: c) + UDP_HLEN + IP_HLEN + SIZEOF_ETH_HDR <= 1500;
  us_mtu : netif_mtu (ipv s) n = 0 \/ total (nd :: c) + UDP_HLEN + IP_HLEN <= netif_mtu (ipv s) n;
  us_arp : arp_ok s;
  us_wire : wire_ok (elink s).1;
  us_hwaddr : length (if_hwaddr (netifs s n)) = 6%nat;
  us_id : 0 <= ip_id (ipv s) < 65536;
  us_bytes : Forall byte (contents (nd :: c))
}.

(** The datagram went out: UDP, IP and Ethernet header in front of the data. *)
Definition udp_sent (n : nat) (nd : node) (c : list node) (u : udp_pcb) (src dst sport dport : Z) (hw : list Z) (s : eth) (r : Z) (s' : eth) : Prop :=
  ip_sent n nd c (UDP_HLEN + (IP_HLEN + SIZEOF_ETH_HDR)) (next_id (ipv s))
    (ip_header (tos u) (IP_HLEN + UDP_HLEN + total (nd :: c)) (ip_id (ipv s)) 0 (ttl u) IP_PROTO_UDP src dst ++
     udp_message src dst sport dport (contents (nd :: c))) hw s r s'.

Lemma wp_sendto_bound nd c l u n s src dst dport hw : udp_sendable s n nd c -> holds_pcb (udpv s) l u ->
  0 < local_port u < 65536 -> 0 <= dport < 65536 -> has (pcb_flags u) UDP_FLAGS_NOCHKSUM = false -> header_args src dst (ttl u) (tos u) IP_PROTO_UDP ->
  resolved s n dst hw ->
  wp (b ← on_pbuf (getp (n_loc nd));
      if u16 (tot_len b + UDP_HLEN) <? tot_len b then mret ERR_MEM
      else
        q ← udp_make_room (n_loc nd) b;
        match q with
        | None => mret ERR_MEM
        | Some q =>
          u ← get_pcb l;
          udp_write_header odd_at q (local_port u) dport (has (pcb_flags u) UDP_FLAGS_NOCHKSUM) src dst;;
          err ← ip4_output_if_src ip4_frag q (Some src) (Some dst) (ttl u) (tos u) IP_PROTO_UDP n;
          when (negb (bool_decide (q = n_loc nd))) (on_pbuf (pbuf_free (Some q));; mret tt);;
          mret err
        end) (fun r s' => udp_sent n nd c u src dst (local_port u) dport hw s r s') s.
Proof.
  intros [Hp [Hf (off & Ep & Ho)] Hsz Hm Hi Hw L6 Hid Hby] [nx E] Hport Hd Hck Ha Hres.
  pose proof (pk_chain _ _ _ Hp) as (_ & Hl & Hh & _). pose proof (pk_totals _ _ _ Hp) as [Et _]. pose proof Hh as [Ld _]. rewrite total_cons in *.
  pose proof (total_nonneg c). unfold UDP_HLEN, IP_HLEN, SIZEOF_ETH_HDR in *. apply wp_bind, wp_on_pbuf, (wp_getp _ (n_buf nd)); [done|].
  replace (set_emem (emem s) s) with s by (by destruct s). rewrite u16_small by lia. rewrite (proj2 (Z.ltb_ge _ _)) by lia.
  unfold udp_make_room, UDP_HLEN. apply wp_bind, wp_bind, wp_on_pbuf.
  eapply wp_of_run; [apply (pbuf_add_header_run _ (n_buf nd)); [done|done|exists off; split; [done|lia]|lia..]|]. cbn [Z.eqb negb]. apply wp_ret.
  set (b := moved 8 (n_buf nd)). set (m1 := set_pbufs _ _). set (s1 := set_emem m1 s).
  destruct (holds_moved (emem s) _ _ _ _ 8 Hh Ep) as (hdr & Hhdr & Hh1); [lia|]. fold b in Hh1.
  assert (Hb : fst <$> payload b = Some (n_loc nd)) by (unfold b, moved; simpl; by rewrite Ep).
  assert (Hp1 : packet m1 (Some (n_loc nd)) (Node (n_loc nd) b (hdr ++ n_data nd) :: c)).
  { apply (packet_head (emem s) nd c); [done|done|by rewrite Hb; unfold node_area; rewrite Ep|rewrite length_app; simpl; lia|rewrite length_app; lia|done]. }
  assert (O1 : only_block (n_loc nd) (emem s) m1).
  { split_and!; [done..|]. intros l' Hl'. split; [|done]. simpl. by rewrite lookup_insert_ne. }
  apply wp_bind. eapply wp_get_pcb; [exact E|]. change (pcb_flags (set_pcb_next nx u)) with (pcb_flags u). rewrite Hck.
  change (local_port (set_pcb_next nx u)) with (local_port u). change (ttl (set_pcb_next nx u)) with (ttl u). change (tos (set_pcb_next nx u)) with (tos u).
  apply wp_bind. eapply (wp_udp_write_header (Node (n_loc nd) b (n_data nd)) c m1 s1 hdr); [exact Hp1|exact Hb|lia|by rewrite contents_cons in Hby|done|lia|done|apply Ha|apply Ha|].
  intros m2 h O2 Hp2. cbn [n_loc n_buf n_data] in *. change (set_emem m2 s1) with (set_emem m2 s).
  set (nd2 := Node (n_loc nd) b (h ++ n_data nd)) in *. assert (Lh : length h = 8%nat) by done.
  assert (Tot : total (nd2 :: c) = 8 + total (nd :: c)) by (rewrite !total_cons; cbn [n_data nd2]; rewrite length_app; lia).
  assert (Ec : contents (nd2 :: c) = udp_message src dst (local_port u) dport (contents (nd :: c))) by (unfold udp_message; rewrite !contents_cons; symmetry; apply app_assoc).
  assert (Hs2 : ip_sendable (set_emem m2 s) n nd2 c).
  { split; try done.
    - split; [done|]. exists (off - 8). split; [by apply moved_payload|]. unfold IP_HLEN, SIZEOF_ETH_HDR. lia.
    - rewrite Tot, total_cons. unfold IP_HLEN, SIZEOF_ETH_HDR. lia.
    - rewrite Tot, total_cons. unfold IP_HLEN. change (ipv (set_emem m2 s)) with (ipv s). lia. }
  apply wp_bind. change (n_loc nd) with (n_loc nd2) at 1.
  eapply wp_mono; [by apply (wp_ip4_output_if_src ip4_frag n nd2 c src dst (ttl u) (tos u) IP_PROTO_UDP hw (set_emem m2 s))|].
  intros r s' (j & m3 & w' & data & -> & Hj & Hw' & O3 & Hp3 & Hc3 & Hrel). cbn [n_loc n_buf nd2] in *. rewrite bool_decide_true by done. cbn [negb when].
  apply wp_bind, wp_ret, wp_ret. unfold b in Hp3, Hc3. rewrite moved_add in Hp3, Hc3. rewrite Tot, Ec in Hc3, Hrel. rewrite total_cons in Hc3, Hrel.
  exists j, m3, w', data. rewrite total_cons. unfold UDP_HLEN, IP_HLEN, SIZEOF_ETH_HDR in *. rewrite !Z.add_assoc in *. split_and!; [done|lia|lia|done| |done|done|done].
  eauto using only_block_trans.
Qed.

(** ** udp_sendto *)

(** The interface that a datagram to [dst] leaves by. *)
Definition chosen_if (u : udp_pcb) (dst : Z) (s : eth) (r : option nat) : Prop :=
  if netif_idx u =? NETIF_NO_INDEX then ip4_route dst s = Ret r s
  else r = netif_get_by_index (netifs s) (netif_idx u) (netif_list (ipv s)).

(** Its source address there. *)
Definition udp_source (u : udp_pcb) (i : link_if) : option Z :=
  if ip4_addr_isany_val (local_ip u) || ip4_addr_ismulticast (local_ip u) then Some (if_ip_addr i)
  else if ip4_addr_eq (local_ip u) (if_ip_addr i) then Some (local_ip u) else None.

(** The local port: the one it has, or a new one that nobody else has. *)
Definition sends_from (s : eth) (ps : list (loc * udp_pcb)) (l : loc) (u : udp_pcb) (port : Z) (v : udp_vars) : Prop :=
  if local_port u =? 0 then
    in_range port /\ taken port ps = false /\ changed (udpv s) l (set_local (local_ip u) port u) (bound l u (local_ip u) port ps) v
  else port = local_port u /\ v = udpv s.

Lemma udp_sendable_put v s n nd c : udp_sendable s n nd c -> udp_sendable (put_udp v s) n nd c.
Proof. intros [A1 A2 A3 A4 A5 A6 A7 A8 A9]. by split. Qed.

Lemma sockets_port s ps l u : sockets s ps -> holds_pcb (udpv s) l u -> local_port u <> 0 -> 0 < local_port u < 65536.
Proof.
  intros Hs Hu Hne. destruct (decide (l ∈ ps.*1)) as [Hin|Hout]; [|exfalso; by apply Hne, (so_loose _ _ Hs l)].
  apply list_elem_of_fmap in Hin as ([l' p] & -> & Hin). cbn in *. pose proof (so_bound _ _ Hs) as Hb. rewrite Forall_forall in Hb. specialize (Hb _ Hin). cbn in Hb.
  pose proof (holds_same _ _ _ _ Hu (holds_listed _ _ _ _ (so_listed _ _ Hs) Hin)) as E. by rewrite (f_equal local_port E : local_port u = local_port p).
Qed.

Lemma wp_udp_sendto_if_src nd c l u n s ps src dst dport hw : sockets s ps -> holds_pcb (udpv s) l u -> udp_sendable s n nd c -> 0 <= dport < 65536 ->
  has (pcb_flags u) UDP_FLAGS_NOCHKSUM = false -> header_args src dst (ttl u) (tos u) IP_PROTO_UDP -> resolved s n dst hw ->
  wp (udp_sendto_if_src odd_at ip4_frag (Some l) (Some (n_loc nd)) (Some dst) dport (Some n) (Some src)) (fun r s' => exists port v,
    0 < port < 65536 /\ sends_from s ps l u port v /\ udp_sent n nd c u src dst port dport hw (put_udp v s) r s') s.
Proof.
  intros Hs Hu Hsend Hd Hck Ha Hres. pose proof Hu as [nx E]. unfold udp_sendto_if_src, sends_from. apply wp_bind. eapply wp_get_pcb; [exact E|].
  change (local_port (set_pcb_next nx u)) with (local_port u). change (local_ip (set_pcb_next nx u)) with (local_ip u).
  destruct (Z.eqb_spec (local_port u) 0) as [E0|Hne].
  - rewrite E0. apply wp_bind, (wp_bind_sockets l u (Some (local_ip u)) 0 s ps); [done|done|lia|done|]. intros port v a [Hr Ht] Hport Hc Hs'. cbn [default] in *.
    change (negb (ERR_OK =? ERR_OK)) with false. cbv iota.
    eapply wp_mono; [apply (wp_sendto_bound nd c l (set_local (local_ip u) port u) n (put_udp v s) src dst dport hw)|];
      [by apply udp_sendable_put|rewrite udpv_put; apply Hc|exact Hport|done|done|done|exact Hres|].
    intros r s' Hsent. by exists port, v.
  - apply wp_bind, wp_ret. change (negb (ERR_OK =? ERR_OK)) with false. cbv iota. pose proof (sockets_port s ps l u Hs Hu Hne).
    eapply wp_mono; [by apply (wp_sendto_bound nd c l u n s src dst dport hw)|]. intros r s' Hsent. exists (local_port u), (udpv s).
    by rewrite put_udp_same.
Qed.

(** [udp_sendto] up to the choice of interface and source. *)
Lemma sendto_leads l u p dst dport s r (R : outcome eth Z -> Prop) : holds_pcb (udpv s) l u -> chosen_if u dst s r ->
  R (match r ≫= (fun n => src ← udp_source u (netifs s n); Some (n, src)) with
     | None => (mret ERR_RTE : M eth Z) s
     | Some (n, src) => udp_sendto_if_src odd_at ip4_frag (Some l) (Some p) (Some dst) dport (Some n) (Some src) s
     end) -> R (udp_sendto odd_at ip4_frag (Some l) (Some p) (Some dst) dport s).
Proof.
  intros [nx E] Hr HR. unfold udp_sendto. eapply (leads_bind R), wp_get_pcb; [exact E|]. change (netif_idx (set_pcb_next nx u)) with (netif_idx u).
  assert (Hb : R (match r with None => (mret ERR_RTE : M eth Z) s | Some n => udp_sendto_if odd_at ip4_frag (Some l) (Some p) (Some dst) dport (Some n) s end)).
  { destruct r as [n|]; [|exact HR]. cbn [mbind option_bind] in HR. unfold udp_sendto_if. eapply (leads_bind R), wp_get_pcb; [exact E|]. eapply (leads_bind R), wp_gets.
    change (local_ip (set_pcb_next nx u)) with (local_ip u). unfold udp_source in HR. destruct (_ || _); [done|]. by destruct (ip4_addr_eq _ _). }
  unfold chosen_if in Hr. destruct (netif_idx u =? NETIF_NO_INDEX); cbn [negb].
  - eapply (leads_bind R). eapply wp_of_run; [exact Hr|]. by destruct r.
  - eapply (leads_bind R), wp_bind, wp_gets, wp_bind, wp_ip_var, wp_ret. rewrite <- Hr. by destruct r.
Qed.

(** C13. [udp_sendto]. Without an interface for the destination, or if the
    control block has an address that is not the interface's, the result is
    ERR_RTE and nothing happens. Otherwise, with the next hop's hardware address
    known, the driver is given exactly one frame to it, with the data behind a
    UDP header whose length counts header and data and whose checksum is right
    for pseudo header, header and data and never zero. The source port is the
    block's; one that has none is bound first, to a port of the dynamic range
    that no other block has. *)
Theorem udp_sendto_sends s nd c l u dst dport r ps : sockets s ps -> holds_pcb (udpv s) l u -> chosen_if u dst s r ->
  let run := udp_sendto odd_at ip4_frag (Some l) (Some (n_loc nd)) (Some dst) dport s in
  match r ≫= (fun n => src ← udp_source u (netifs s n); Some (n, src)) with
  | None => run = Ret ERR_RTE s
  | Some (n, src) => forall hw, udp_sendable s n nd c -> resolved s n dst hw -> 0 <= dport < 65536 ->
      has (pcb_flags u) UDP_FLAGS_NOCHKSUM = false -> header_args src dst (ttl u) (tos u) IP_PROTO_UDP ->
      exists port v ret s', run = Ret ret s' /\ sends_from s ps l u port v /\
        udp_sent n nd c u src dst port dport hw (put_udp v s) ret s' /\
        (let msg := udp_message src dst port dport (contents (nd :: c)) in
         rfc1071 (pseudo_header src dst IP_PROTO_UDP (Z.of_nat (length msg)) ++ msg) = 0xffff) /\
        0 < udp_checksum src dst port dport (contents (nd :: c)) < 65536
  end.
Proof.
  intros Hs Hu Hr run. assert (Hif : forall R : outcome eth Z -> Prop, R _ -> R run) by (intros R; by apply sendto_leads).
  destruct (r ≫= _) as [[n src]|]; [|by apply Hif].
  intros hw Hsend Hres Hd Hck Ha. pose proof (wp_udp_sendto_if_src nd c l u n s ps src dst dport hw Hs Hu Hsend Hd Hck Ha Hres) as W.
  destruct (wp_elim _ _ _ W) as (ret & s' & E' & port & v & Hport & Hfrom & Hsent). exists port, v, ret, s'.
  pose proof (us_size _ _ _ _ Hsend) as Hsz. unfold total, UDP_HLEN, IP_HLEN, SIZEOF_ETH_HDR in Hsz.
  destruct (udp_message_good src dst port dport (contents (nd :: c))) as [G1 G2]; [lia|done|lia|apply Hsend|]. split_and!; [by apply Hif|done|done|exact G1|lia|lia].
Qed.
End Output.

(** ** From the wire to the receive function *)

(** The ports of a message, from its first bytes. *)
Lemma message_ports l1 l2 src dst sport dport msg : l1 ++ l2 = udp_message src dst sport dport msg -> (8 <= length l1)%nat ->
  0 <= sport < 65536 -> 0 <= dport < 65536 -> src_port l1 = sport /\ dst_port l1 = dport.
Proof.
  intros E L Hs Hd. unfold src_port, dst_port. do 8 (destruct l1 as [|? l1]; [simpl in L; lia|]). unfold udp_message, udp_header, be16 in E.
  cbn [app bytes16] in E. injection E as -> -> -> -> _ _ _ _ _. split; by apply ntohs_be16.
Qed.

Section Flow.
Context `{WL : WireLaws} `{HL : !HeapLaws} `{CF : !CustomFree} `{BU : !Build} `{US : !UdpState} `{UU : !UdpUser}.
Context (odd_at : option ptr -> bool) (ip4_frag : loc -> nat -> Z -> M eth Z) (tcp_input : loc -> nat -> M eth unit).

Lemma frame_payload_bytes s nd c me peer tos id off ttl proto ck src dst msg pad :
  ip_frame s nd c me peer tos id off ttl proto ck src dst msg pad -> Forall byte msg.
Proof.
  intros Hf. pose proof (fr_bytes _ _ _ _ _ _ _ _ _ _ _ _ _ _ _ Hf) as Hb. rewrite (fr_contents _ _ _ _ _ _ _ _ _ _ _ _ _ _ _ Hf) in Hb.
  unfold frame in Hb. rewrite !Forall_app in Hb. tauto.
Qed.

(** What the search compares the blocks with. *)
Definition flow_key (s : eth) (a n : nat) (src dst sport dport : Z) : udp_key :=
  UdpKey src sport dst dport (netif_get_index (netifs s n)) (if_ip_addr (netifs s n)) (if_netmask (netifs s n)) (ip4_addr_isbroadcast dst (netifs s a)).

(** The state [s1] that a receive function starts in: the packet holds the data
    and nothing else, the block is at its place, the addresses can be asked for;
    the rest of the state is as before. *)
Record handed_over (s s1 : eth) (p : loc) (a n : nat) (src dst : Z) (ps : list (loc * udp_pcb)) (msg : list Z) : Prop := {
  ho_packet : exists nd c, n_loc nd = p /\ packet (emem s1) (Some p) (nd :: c) /\ releasable (nd :: c) /\ contents (nd :: c) = msg;
  ho_pcbs : reordered (udpv s) ps (udpv s1);
  ho_addresses : delivering s1 a n src dst;
  ho_same : arp_table s1 = arp_table s /\ netifs s1 = netifs s /\ (elink s1).1 = (elink s).1
}.

(** The end of [ip4_input]. *)
Definition end_packet (s : eth) : eth := set_ipv (set_ip_data no_ip_data (ipv s)) s.

(** C8. A datagram, from the frame to the receive function. For every frame with
    an IP packet for this host that carries a UDP message with a correct
    checksum, in any chain of pbufs with the headers in the first, padded to any
    length: if the block [l] owns the datagram, [ethernet_input] calls its
    receive function once, with its argument, a packet that holds exactly the
    data, and the sender's address and port; after that it returns ERR_OK and
    has only cleared IP's record of the packet. *)
Theorem udp_datagram_delivered s nd c me peer tos id off ttl ck src dst sport dport msg pad n a l p f ps :
  ip_frame s nd c me peer tos id off ttl IP_PROTO_UDP ck src dst (udp_message src dst sport dport msg) pad -> hears s n a src dst ->
  42 <= len (n_buf nd) -> 0 <= sport < 65536 -> 0 <= dport < 65536 -> listed (udpv s) ps ->
  let k := flow_key s a n src dst sport dport in
  owner k ps = Some (l, p) -> recv p = Some f ->
  let call := udp_recv_fn f (recv_arg p) l (n_loc nd) src sport in
  let received s1 := handed_over s s1 (n_loc nd) a n src dst (promote k ps) msg in
  (forall s1, received s1 -> exists s2, call s1 = Ret tt s2) ->
  exists s1 s2, received s1 /\ call s1 = Ret tt s2 /\
    ethernet_input (ip4_input odd_at ip4_frag (udp_input odd_at ip4_frag) tcp_input) (n_loc nd) n s = Ret ERR_OK (end_packet s2).
Proof.
  intros Hf He H42 Hsp Hdp Hl k Ho Hrecv call received Hret.
  pose proof (fr_size _ _ _ _ _ _ _ _ _ _ _ _ _ _ _ Hf) as Hsz. pose proof (fr_fields _ _ _ _ _ _ _ _ _ _ _ _ _ _ _ Hf) as (_ & Rsrc & Rdst).
  set (m := udp_message src dst sport dport msg) in *. assert (Lm : length m = (8 + length msg)%nat) by (unfold m, udp_message; by rewrite length_app, udp_header_length).
  assert (W : wp (ethernet_input (ip4_input odd_at ip4_frag (udp_input odd_at ip4_frag) tcp_input) (n_loc nd) n) (fun r s' => r = ERR_OK /\
    exists s1 s2, received s1 /\ call s1 = Ret tt s2 /\ s' = end_packet s2) s).
  { apply (wp_ip_frame odd_at ip4_frag _ tcp_input s nd c me peer tos id off ttl IP_PROTO_UDP ck src dst m pad n a); [done|done|].
    intros x m2 nd2 c2 [U1 U2 U3 U4 U5 [U6 Ex] U7 U8 U9]. set (s1 := with_packet a n x src dst m2 s).
    apply wp_bind. unfold ip4_deliver. change (IP_PROTO_UDP =? IP_PROTO_UDP) with true. cbv iota. rewrite <- U1 in U2 |- *.
    pose proof (pk_chain _ _ _ U2) as (_ & _ & [L2 _] & _). assert (L8 : 8 <= len (n_buf nd2)) by (rewrite U8, Lm; lia).
    pose proof U4 as Em. rewrite contents_cons in Em. destruct (message_ports (n_data nd2) (contents c2) src dst sport dport msg Em) as [Es Ed]; [lia|done|done|].
    destruct (udp_message_good src dst sport dport msg) as [Hgood _]; [done|done|rewrite Lm in Hsz; lia|by apply frame_payload_bytes, Forall_app in Hf as [_ Hf]|].
    unfold wp at 1. match goal with |- match ?o with _ => _ end => pattern o end.
    apply (input_run odd_at ip4_frag _ s1 nd2 c2 a n src dst ps); [done|done|rewrite U4; by apply frame_payload_bytes in Hf|done|done|done|].
    assert (Ek : key_of s1 a n src dst (n_data nd2) = k) by (unfold key_of; by rewrite Es, Ed). rewrite Ek, U4.
    assert (Eg : good_datagram src dst (n_data nd2) m = true) by (unfold good_datagram; fold m in Hgood; by rewrite Hgood, orb_true_r). rewrite Eg.
    assert (Ef : datagram_fate k ps true = UdpToSocket l f (recv_arg p)) by (unfold datagram_fate; by rewrite Ho, Hrecv). rewrite Ef.
    intros v Hv. split; [done|]. intros _. cbn [udp_outcome]. rewrite Es, U1. fold call.
    destruct (behead_packet 8 nd2 c2 m2 U2 ltac:(lia)) as [G1 G2]. change (emem s1) with m2.
    assert (Hrec : received (set_emem (behead 8 nd2 m2) (put_udp v s1))).
    { split.
      - exists (beheaded 8 nd2), c2. split_and!; [done|by rewrite <- U1|by apply behead_releasable|]. rewrite G2, U4. done.
      - change (udpv (set_emem _ (put_udp v s1))) with (udpv (put_udp v s1)). by rewrite udpv_put.
      - done.
      - done. }
    destruct (Hret _ Hrec) as [s2 E2]. rewrite E2. apply wp_mod_ipv. by exists (set_emem (behead 8 nd2 m2) (put_udp v s1)), s2. }
  destruct (wp_elim _ _ _ W) as (r & s' & E & -> & s1 & s2 & H1 & H2 & ->). by exists s1, s2.
Qed.
End Flow.
