(* ===== verification/Dns.v ===== *)
(** DNS: the resolver of [src/lwip-2.2.1/src/core/dns.c].

    Configuration ([LWIP_DNS_SECURE] is 0): one control block for all queries,
    the identifications count up, and a request has the index of its table
    entry. No local host list, no multicast DNS, IPv4 only. A C string is the
    list of its characters; the array [name] of an entry is the list of its 256
    bytes, the terminator among them. *)
From S2P Require Import Prelude Memp Pbuf Chksum Ip4Addr Ethernet Etharp Ip Udp.

(** ** opt.h, prot/dns.h, dns.c *)

Definition DNS_TABLE_SIZE : nat := 4.
Definition DNS_MAX_NAME_LENGTH : Z := 256.
Definition DNS_MAX_SERVERS : Z := 2.
Definition DNS_MAX_RETRIES : Z := 4.
Definition DNS_MAX_TTL : Z := 604800.
Definition DNS_SERVER_PORT : Z := 53.
Definition DNS_RRTYPE_A : Z := 1.
Definition DNS_RRCLASS_IN : Z := 1.
Definition DNS_FLAG1_RESPONSE : Z := 0x80.
Definition DNS_FLAG1_RD : Z := 0x01.
Definition DNS_FLAG2_ERR_MASK : Z := 0x0f.
Definition SIZEOF_DNS_HDR : Z := 12.
Definition SIZEOF_DNS_QUERY : Z := 4.
Definition SIZEOF_DNS_ANSWER : Z := 10.

Inductive dns_state_enum_t : Type := DNS_STATE_UNUSED | DNS_STATE_NEW | DNS_STATE_ASKING | DNS_STATE_DONE.
#[global] Instance dns_state_eq_dec : EqDecision dns_state_enum_t.
Proof. solve_decision. Defined.

Record dns_table_entry : Type := DnsEntry {
  de_ttl : Z;
  de_ipaddr : Z;
  de_txid : Z;
  de_state : dns_state_enum_t;
  de_server_idx : Z;
  de_tmr : Z;
  de_retries : Z;
  de_seqno : Z;
  de_name : list Z
}.

Definition set_de_ttl (x : Z) (e : dns_table_entry) : dns_table_entry :=
  DnsEntry x (de_ipaddr e) (de_txid e) (de_state e) (de_server_idx e) (de_tmr e) (de_retries e) (de_seqno e) (de_name e).
Definition set_de_ipaddr (x : Z) (e : dns_table_entry) : dns_table_entry :=
  DnsEntry (de_ttl e) x (de_txid e) (de_state e) (de_server_idx e) (de_tmr e) (de_retries e) (de_seqno e) (de_name e).
Definition set_de_txid (x : Z) (e : dns_table_entry) : dns_table_entry :=
  DnsEntry (de_ttl e) (de_ipaddr e) x (de_state e) (de_server_idx e) (de_tmr e) (de_retries e) (de_seqno e) (de_name e).
Definition set_de_state (x : dns_state_enum_t) (e : dns_table_entry) : dns_table_entry :=
  DnsEntry (de_ttl e) (de_ipaddr e) (de_txid e) x (de_server_idx e) (de_tmr e) (de_retries e) (de_seqno e) (de_name e).
Definition set_de_server_idx (x : Z) (e : dns_table_entry) : dns_table_entry :=
  DnsEntry (de_ttl e) (de_ipaddr e) (de_txid e) (de_state e) x (de_tmr e) (de_retries e) (de_seqno e) (de_name e).
Definition set_de_tmr (x : Z) (e : dns_table_entry) : dns_table_entry :=
  DnsEntry (de_ttl e) (de_ipaddr e) (de_txid e) (de_state e) (de_server_idx e) x (de_retries e) (de_seqno e) (de_name e).
Definition set_de_retries (x : Z) (e : dns_table_entry) : dns_table_entry :=
  DnsEntry (de_ttl e) (de_ipaddr e) (de_txid e) (de_state e) (de_server_idx e) (de_tmr e) x (de_seqno e) (de_name e).
Definition set_de_seqno (x : Z) (e : dns_table_entry) : dns_table_entry :=
  DnsEntry (de_ttl e) (de_ipaddr e) (de_txid e) (de_state e) (de_server_idx e) (de_tmr e) (de_retries e) x (de_name e).
Definition set_de_name (x : list Z) (e : dns_table_entry) : dns_table_entry :=
  DnsEntry (de_ttl e) (de_ipaddr e) (de_txid e) (de_state e) (de_server_idx e) (de_tmr e) (de_retries e) (de_seqno e) x.

(** [found] is NULL or the number of a function. *)
Record dns_req_entry : Type := DnsReq { rq_found : option Z; rq_arg : Z }.

(** The variables of dns.c; [dns_pcbs] has one element. *)
Record dns_vars : Type := DnsVars {
  dns_pcb : option loc;
  dns_seqno : Z;
  dns_table : list dns_table_entry;
  dns_requests : list dns_req_entry;
  dns_servers : list Z;
  dns_txid : Z
}.

Definition set_dns_pcb (x : option loc) (d : dns_vars) : dns_vars :=
  DnsVars x (dns_seqno d) (dns_table d) (dns_requests d) (dns_servers d) (dns_txid d).
Definition set_dns_seqno (x : Z) (d : dns_vars) : dns_vars :=
  DnsVars (dns_pcb d) x (dns_table d) (dns_requests d) (dns_servers d) (dns_txid d).
Definition set_dns_table (x : list dns_table_entry) (d : dns_vars) : dns_vars :=
  DnsVars (dns_pcb d) (dns_seqno d) x (dns_requests d) (dns_servers d) (dns_txid d).
Definition set_dns_requests (x : list dns_req_entry) (d : dns_vars) : dns_vars :=
  DnsVars (dns_pcb d) (dns_seqno d) (dns_table d) x (dns_servers d) (dns_txid d).
Definition set_dns_servers (x : list Z) (d : dns_vars) : dns_vars :=
  DnsVars (dns_pcb d) (dns_seqno d) (dns_table d) (dns_requests d) x (dns_txid d).
Definition set_dns_txid (x : Z) (d : dns_vars) : dns_vars :=
  DnsVars (dns_pcb d) (dns_seqno d) (dns_table d) (dns_requests d) (dns_servers d) x.

(** The variables at the start: zeros. *)
Definition dns_initial : dns_vars :=
  DnsVars None 0 (replicate DNS_TABLE_SIZE (DnsEntry 0 0 0 DNS_STATE_UNUSED 0 0 0 0 (replicate 256 0)))
    (replicate DNS_TABLE_SIZE (DnsReq None 0)) [0; 0] 0.

(** DNS's variables among those of the protocols above IP. *)
Class DnsState `{US : UdpState} : Type := {
  dns_part : tstate -> dns_vars;
  put_dns_part : dns_vars -> tstate -> tstate;
  dns_part_put : forall d t, dns_part (put_dns_part d t) = d;
  put_dns_part_put : forall d e t, put_dns_part d (put_dns_part e t) = put_dns_part d t;
  put_dns_part_same : forall t, put_dns_part (dns_part t) t = t;
  udp_part_dns : forall d t, udp_part (put_dns_part d t) = udp_part t;
  dns_part_udp : forall v t, dns_part (put_udp_part v t) = dns_part t
}.

(** What the callbacks do: [found(name, ipaddr, callback_arg)], [ipaddr] NULL
    or the address; and the number of the receive function [dns_recv]. *)
Class DnsUser `{Wire} : Type := {
  dns_found_fn : Z -> list Z -> option Z -> Z -> M eth unit;
  dns_recv_id : Z
}.

(** Callbacks that take note of what they are told, and do nothing to UDP and
    DNS. *)
Class DnsUserLaws `{DS : DnsState} `{DU : !DnsUser} : Type := {
  note_found : Z -> list Z -> option Z -> Z -> tstate -> tstate;
  told : tstate -> list (Z * list Z * option Z * Z);
  law_found : forall f name addr arg s, dns_found_fn f name addr arg s = Ret tt (set_ipv (set_above (note_found f name addr arg (above (ipv s))) (ipv s)) s);
  law_found_dns : forall f name addr arg t, dns_part (note_found f name addr arg t) = dns_part t;
  law_found_udp : forall f name addr arg t, udp_part (note_found f name addr arg t) = udp_part t;
  law_told : forall f name addr arg t, told (note_found f name addr arg t) = (f, name, addr, arg) :: told t;
  law_told_dns : forall d t, told (put_dns_part d t) = told t
}.

(** ** Characters and strings *)

(** [tolower] of the C library. *)
Definition lwip_tolower (c : Z) : Z := if lwip_in_range c 65 90 then c + 32 else c.

(** The string in an array; [None] if it has no end there. *)
Fixpoint c_string (a : list Z) : option (list Z) :=
  match a with
  | [] => None
  | c :: a => if c =? 0 then Some [] else cons c <$> c_string a
  end.

(** [lwip_strnicmp] of def.c; [None] if it runs past the end of an array. *)
Fixpoint lwip_strnicmp (str1 str2 : list Z) (n : Z) : option Z :=
  match str1, str2 with
  | c1 :: str1, c2 :: str2 =>
    let differ :=
      if c1 =? c2 then false
      else
        let c1_upc := Z.lor c1 0x20 in
        if (97 <=? c1_upc) && (c1_upc <=? 122) then negb (c1_upc =? Z.lor c2 0x20) else true in
    if differ then Some 1
    else
      let n := u32 (n - 1) in
      if negb (n =? 0) && negb (c1 =? 0) then lwip_strnicmp str1 str2 n else Some 0
  | _, _ => None
  end.

(** ** Names in packets *)

Section Names.
Context `{HeapOps}.

(** [while (n > 0)]: [query], [response_offset] and [n]. *)
Definition compare_label_body (p : option loc) (x : list Z * Z * Z) : M mem ((list Z * Z * Z) + option (list Z * Z)) :=
  let '(query, response_offset, n) := x in
  if n <=? 0 then mret (inr (Some (query, response_offset)))
  else
    c ← pbuf_try_get_at p response_offset;
    if c <? 0 then mret (inr None)
    else
      q ← deref OutOfBounds (head query);
      if negb (lwip_tolower q =? lwip_tolower (u8 c)) then mret (inr None)
      else if response_offset =? 0xFFFF then mret (inr None)
      else mret (inl (tail query, u16 (response_offset + 1), n - 1)).

(** [do { ... } while (n != 0)]: [query] and [response_offset]. *)
Definition compare_name_body (p : option loc) (x : list Z * Z) : M mem ((list Z * Z) + Z) :=
  let '(query, response_offset) := x in
  n ← pbuf_try_get_at p response_offset;
  if (n <? 0) || (response_offset =? 0xFFFF) then mret (inr 0xFFFF)
  else
    let response_offset := u16 (response_offset + 1) in
    if Z.land n 0xc0 =? 0xc0 then mret (inr 0xFFFF)
    else
      r ← iter (S (Z.to_nat n)) (compare_label_body p) (query, response_offset, n);
      match r with
      | None => mret (inr 0xFFFF)
      | Some (query, response_offset) =>
        n ← pbuf_try_get_at p response_offset;
        if n <? 0 then mret (inr 0xFFFF)
        else if negb (n =? 0) then mret (inl (tail query, response_offset))
        else if response_offset =? 0xFFFF then mret (inr 0xFFFF)
        else mret (inr (u16 (response_offset + 1)))
      end.

(** How often a loop over the bytes of a packet can go round. *)
Definition bytes_fuel (p : loc) : M mem nat := b ← getp p; mret (S (Z.to_nat (tot_len b))).

(** [query] is the array of the name. *)
Definition dns_compare_name (query : list Z) (p : loc) (start_offset : Z) : M mem Z :=
  fuel ← bytes_fuel p; iter fuel (compare_name_body (Some p)) (query, start_offset).

Definition skip_name_end (offset : Z) : Z := if offset =? 0xFFFF then 0xFFFF else u16 (offset + 1).

Definition skip_name_body (p : loc) (offset : Z) : M mem (Z + Z) :=
  n ← pbuf_try_get_at (Some p) offset;
  let offset := u16 (offset + 1) in
  if (n <? 0) || (offset =? 0) then mret (inr 0xFFFF)
  else if Z.land n 0xc0 =? 0xc0 then mret (inr (skip_name_end offset))
  else
    b ← getp p;
    if tot_len b <=? offset + n then mret (inr 0xFFFF)
    else
      let offset := u16 (offset + n) in
      n ← pbuf_try_get_at (Some p) offset;
      if n <? 0 then mret (inr 0xFFFF)
      else mret (if negb (n =? 0) then inl offset else inr (skip_name_end offset)).

Definition dns_skip_name (p : loc) (query_idx : Z) : M mem Z :=
  fuel ← bytes_fuel p; iter fuel (skip_name_body p) query_idx.

(** [for (n = 0; *hostname != '.' && *hostname != 0; ++hostname)]: [n] and
    [hostname] behind the label; [None] past the end of the array. *)
Fixpoint count_label (hostname : list Z) (n : Z) : option (Z * list Z) :=
  match hostname with
  | [] => None
  | c :: rest => if (c =? 46) || (c =? 0) then Some (n, hostname) else count_label rest (u8 (n + 1))
  end.

(** [do { ... } while ( *hostname != 0)]: [hostname_part] and [query_idx]; the
    result [None] is [goto overflow_return]. *)
Definition put_label_body (p : loc) (x : list Z * Z) : M mem ((list Z * Z) + option Z) :=
  let '(hostname_part, query_idx) := x in
  '(n, hostname) ← deref OutOfBounds (count_label hostname_part 0);
  let copy_len := u16 (Z.of_nat (length hostname_part) - Z.of_nat (length hostname)) in
  if 0xFFFF <? query_idx + n + 1 then mret (inr None)
  else
    pbuf_put_at (Some p) query_idx n;;
    pbuf_take_at (Some p) hostname_part copy_len (u16 (query_idx + 1));;
    let query_idx := u16 (query_idx + n + 1) in
    mret (if char_at hostname =? 0 then inr (Some query_idx) else inl (tail hostname, query_idx)).

(** The bytes of the header, of the question behind the name. *)
Definition query_hdr (txid : Z) : list Z := bytes16 (lwip_htons txid) ++ [DNS_FLAG1_RD; 0] ++ bytes16 (PP_HTONS 1) ++ [0; 0; 0; 0; 0; 0].
Definition query_end : list Z := bytes16 (PP_HTONS DNS_RRTYPE_A) ++ bytes16 (PP_HTONS DNS_RRCLASS_IN).

(** The query is written into [p]; [None] is [goto overflow_return]. *)
Definition fill_query (p : loc) (txid : Z) (name : list Z) : M mem (option unit) :=
  pbuf_take (Some p) (Some (query_hdr txid)) SIZEOF_DNS_HDR;;
  r ← iter (S (length name)) (put_label_body p) (name, SIZEOF_DNS_HDR);
  match r with
  | None => mret None
  | Some query_idx =>
    pbuf_put_at (Some p) query_idx 0;;
    pbuf_take_at (Some p) query_end SIZEOF_DNS_QUERY (u16 (query_idx + 1));;
    mret (Some tt)
  end.
End Names.

(** ** The resolver *)

Section Dns.
Context `{W : Wire} `{CF : !CustomFree} `{BU : !Build} `{US : !UdpState} `{DS : !DnsState} `{DU : !DnsUser}.
Context (odd_at : option ptr -> bool) (ip4_frag : loc -> nat -> Z -> M eth Z).

Definition dnsv (s : eth) : dns_vars := dns_part (above (ipv s)).
Definition dns_var {A} (f : dns_vars -> A) : M eth A := gets (fun s => f (dnsv s)).
Definition mod_dnsv (f : dns_vars -> dns_vars) : M eth unit :=
  mod_ipv (fun v => set_above (put_dns_part (f (dns_part (above v))) (above v)) v).

(** [dns_table[i]], [dns_requests[i]], [dns_servers[i]]. *)
Definition get_de (i : nat) : M eth dns_table_entry := t ← dns_var dns_table; deref OutOfBounds (t !! i).
Definition set_de (i : nat) (f : dns_table_entry -> dns_table_entry) : M eth unit :=
  e ← get_de i; mod_dnsv (fun d => set_dns_table (<[i := f e]> (dns_table d)) d).
Definition get_rq (i : nat) : M eth dns_req_entry := t ← dns_var dns_requests; deref OutOfBounds (t !! i).
Definition set_rq (i : nat) (f : dns_req_entry -> dns_req_entry) : M eth unit :=
  r ← get_rq i; mod_dnsv (fun d => set_dns_requests (<[i := f r]> (dns_requests d)) d).
Definition get_server (i : Z) : M eth Z := t ← dns_var dns_servers; deref OutOfBounds (t !! Z.to_nat i).

(** [IP_ANY_TYPE] is any address; the argument of the receive function is
    NULL. *)
Definition dns_init : M eth unit :=
  pcb ← dns_var dns_pcb;
  match pcb with
  | Some _ => mret tt
  | None =>
    pcb ← udp_new_ip_type 46;
    mod_dnsv (set_dns_pcb pcb);;
    udp_bind pcb (Some IPADDR_ANY) 0;;
    udp_recv pcb (Some dns_recv_id) 0
  end.

(** [dnsserver] NULL counts as any. *)
Definition dns_setserver (numdns : Z) (dnsserver : option Z) : M eth unit :=
  when (numdns <? DNS_MAX_SERVERS)
    (mod_dnsv (fun d => set_dns_servers (<[Z.to_nat numdns := default IPADDR_ANY dnsserver]> (dns_servers d)) d)).

Definition dns_getserver (numdns : Z) : M eth Z :=
  if numdns <? DNS_MAX_SERVERS then get_server numdns else mret IPADDR_ANY.

(** [for (i = 0; i < DNS_TABLE_SIZE; ++i)]: the address of the first entry that
    matches. *)
Fixpoint lookup_loop (name : list Z) (namelen : Z) (t : list dns_table_entry) : M eth (option Z) :=
  match t with
  | [] => mret None
  | e :: t =>
    if negb (bool_decide (de_state e = DNS_STATE_DONE)) then lookup_loop name namelen t
    else
      r ← deref OutOfBounds (lwip_strnicmp (name ++ [0]) (de_name e) namelen);
      if negb (r =? 0) then lookup_loop name namelen t
      else
        c ← deref OutOfBounds (de_name e !! Z.to_nat namelen);
        if negb (c =? 0) then lookup_loop name namelen t else mret (Some (de_ipaddr e))
  end.

(** [None] is ERR_ARG. *)
Definition dns_lookup (name : list Z) (hostnamelen : Z) : M eth (option Z) :=
  let namelen := Z.min hostnamelen (DNS_MAX_NAME_LENGTH - 1) in
  t ← dns_var dns_table; lookup_loop name namelen t.

Definition dns_call_found (idx : nat) (addr : option Z) : M eth unit :=
  r ← get_rq idx;
  match rq_found r with
  | Some f =>
    e ← get_de idx;
    name ← deref OutOfBounds (c_string (de_name e));
    dns_found_fn f name addr (rq_arg r)
  | None => mret tt
  end;;
  set_rq idx (fun r => DnsReq None (rq_arg r)).

Definition dns_send (idx : nat) : M eth Z :=
  e ← get_de idx;
  srv ← get_server (de_server_idx e);
  if ip4_addr_isany_val srv then
    dns_call_found idx None;;
    set_de idx (set_de_state DNS_STATE_UNUSED);;
    mret ERR_OK
  else
    name ← deref OutOfBounds (c_string (de_name e));
    p ← on_pbuf (pbuf_alloc PBUF_TRANSPORT (u16 (SIZEOF_DNS_HDR + Z.of_nat (length name) + 2 + SIZEOF_DNS_QUERY)) PBUF_RAM);
    match p with
    | None => mret ERR_MEM
    | Some p =>
      r ← on_pbuf (fill_query p (de_txid e) (de_name e));
      match r with
      | None => on_pbuf (pbuf_free (Some p));; mret ERR_VAL
      | Some _ =>
        pcb ← dns_var dns_pcb;
        err ← udp_sendto odd_at ip4_frag pcb (Some p) (Some srv) DNS_SERVER_PORT;
        on_pbuf (pbuf_free (Some p));;
        mret err
      end
    end.

(** [again:]; a candidate fails for one of the entries, so that the loop ends
    after as many as there are. *)
Definition create_txid_body (_ : unit) : M eth (unit + Z) :=
  mod_dnsv (fun d => set_dns_txid (u16 (dns_txid d + 1)) d);;
  txid ← dns_var dns_txid;
  t ← dns_var dns_table;
  mret (if existsb (fun e => bool_decide (de_state e = DNS_STATE_ASKING) && (de_txid e =? txid)) t then inl tt else inr txid).

Definition dns_create_txid : M eth Z := iter (S DNS_TABLE_SIZE) create_txid_body tt.

Definition dns_backupserver_available (e : dns_table_entry) : M eth bool :=
  if de_server_idx e + 1 <? DNS_MAX_SERVERS then
    srv ← get_server (de_server_idx e + 1); mret (negb (ip4_addr_isany_val srv))
  else mret false.

Definition dns_check_entry (i : nat) : M eth unit :=
  e ← get_de i;
  match de_state e with
  | DNS_STATE_NEW =>
    txid ← dns_create_txid;
    set_de i (fun e => set_de_retries 0 (set_de_tmr 1 (set_de_server_idx 0 (set_de_state DNS_STATE_ASKING (set_de_txid txid e)))));;
    dns_send i;; mret tt
  | DNS_STATE_ASKING =>
    set_de i (fun e => set_de_tmr (u8 (de_tmr e - 1)) e);;
    e ← get_de i;
    if de_tmr e =? 0 then
      set_de i (fun e => set_de_retries (u8 (de_retries e + 1)) e);;
      e ← get_de i;
      if de_retries e =? DNS_MAX_RETRIES then
        backup ← dns_backupserver_available e;
        if (backup : bool) then
          set_de i (fun e => set_de_retries 0 (set_de_tmr 1 (set_de_server_idx (u8 (de_server_idx e + 1)) e)));;
          dns_send i;; mret tt
        else
          dns_call_found i None;;
          set_de i (set_de_state DNS_STATE_UNUSED)
      else
        set_de i (fun e => set_de_tmr (de_retries e) e);;
        dns_send i;; mret tt
    else mret tt
  | DNS_STATE_DONE =>
    if de_ttl e =? 0 then set_de i (set_de_state DNS_STATE_UNUSED)
    else
      set_de i (fun e => set_de_ttl (u32 (de_ttl e - 1)) e);;
      e ← get_de i;
      when (de_ttl e =? 0) (set_de i (set_de_state DNS_STATE_UNUSED))
  | DNS_STATE_UNUSED => mret tt
  end.

Fixpoint check_loop (k i : nat) : M eth unit :=
  match k with
  | O => mret tt
  | S k => dns_check_entry i;; check_loop k (S i)
  end.

Definition dns_check_entries : M eth unit := check_loop DNS_TABLE_SIZE 0.
Definition dns_tmr : M eth unit := dns_check_entries.

(** ** Answers *)

Definition dns_correct_response (idx : nat) (ttl : Z) : M eth unit :=
  set_de idx (set_de_state DNS_STATE_DONE);;
  set_de idx (set_de_ttl (if DNS_MAX_TTL <? ttl then DNS_MAX_TTL else ttl));;
  e ← get_de idx;
  dns_call_found idx (Some (de_ipaddr e));;
  e ← get_de idx;
  when ((de_ttl e =? 0) && bool_decide (de_state e = DNS_STATE_DONE)) (set_de idx (set_de_state DNS_STATE_UNUSED)).

(** How the search of the answers ends: [goto ignore_packet], an address with
    its time to live, or none. *)
Inductive answer_result : Type := AnsIgnore | AnsAddr (ip ttl : Z) | AnsNone.

(** [while ((nanswers > 0) && (res_idx < p->tot_len))]. *)
Definition answers_body (p : loc) (x : Z * Z) : M mem ((Z * Z) + answer_result) :=
  let '(nanswers, res_idx) := x in
  b ← getp p;
  if negb ((0 <? nanswers) && (res_idx <? tot_len b)) then mret (inr AnsNone)
  else
    res_idx ← dns_skip_name p res_idx;
    if res_idx =? 0xFFFF then mret (inr AnsIgnore)
    else
      '(ans, n) ← pbuf_copy_partial (Some p) SIZEOF_DNS_ANSWER res_idx;
      if negb (n =? SIZEOF_DNS_ANSWER) then mret (inr AnsIgnore)
      else if 0xFFFF <? res_idx + SIZEOF_DNS_ANSWER then mret (inr AnsIgnore)
      else
        let res_idx := u16 (res_idx + SIZEOF_DNS_ANSWER) in
        let type := load_word16 (take 2 ans) in
        let cls := load_word16 (take 2 (drop 2 ans)) in
        let ttl := load_word32 (take 4 (drop 4 ans)) in
        let n := load_word16 (take 2 (drop 8 ans)) in
        if (cls =? PP_HTONS DNS_RRCLASS_IN) && ((type =? PP_HTONS DNS_RRTYPE_A) && (n =? PP_HTONS 4)) then
          '(ip4addr, k) ← pbuf_copy_partial (Some p) 4 res_idx;
          mret (inr (if negb (k =? 4) then AnsIgnore else AnsAddr (load_word32 ip4addr) (lwip_htonl ttl)))
        else if 0xFFFF <? res_idx + lwip_htons n then mret (inr AnsIgnore)
        else mret (inl (u16 (nanswers - 1), u16 (res_idx + lwip_htons n))).

(** [for (i = 0; i < DNS_TABLE_SIZE; i++)]: the entry that waits for [txid]. *)
Fixpoint find_txid (txid : Z) (t : list dns_table_entry) : option nat :=
  match t with
  | [] => None
  | e :: t => if bool_decide (de_state e = DNS_STATE_ASKING) && (de_txid e =? txid) then Some O else S <$> find_txid txid t
  end.

(** [ignore_packet:]. *)
Definition ignore_packet (p : loc) : M eth unit := on_pbuf (pbuf_free (Some p));; mret tt.

(** The packet is for entry [i]; [hdr] is its header. *)
Definition dns_recv_entry (p : loc) (addr : Z) (hdr : list Z) (i : nat) : M eth unit :=
  let flags1 := nth 2 hdr 0 in
  let flags2 := nth 3 hdr 0 in
  let nquestions := lwip_htons (load_word16 (take 2 (drop 4 hdr))) in
  let nanswers := lwip_htons (load_word16 (take 2 (drop 6 hdr))) in
  if Z.land flags1 DNS_FLAG1_RESPONSE =? 0 then ignore_packet p
  else if negb (nquestions =? 1) then ignore_packet p
  else
    e ← get_de i;
    srv ← get_server (de_server_idx e);
    if negb (ip4_addr_eq addr srv) then ignore_packet p
    else
      res_idx ← on_pbuf (dns_compare_name (de_name e) p SIZEOF_DNS_HDR);
      if res_idx =? 0xFFFF then ignore_packet p
      else
        '(qry, n) ← on_pbuf (pbuf_copy_partial (Some p) SIZEOF_DNS_QUERY res_idx);
        if negb (n =? SIZEOF_DNS_QUERY) then ignore_packet p
        else if negb (load_word16 (take 2 (drop 2 qry)) =? PP_HTONS DNS_RRCLASS_IN)
             || negb (load_word16 (take 2 qry) =? PP_HTONS DNS_RRTYPE_A) then ignore_packet p
        else if 0xFFFF <? res_idx + SIZEOF_DNS_QUERY then ignore_packet p
        else
          let res_idx := u16 (res_idx + SIZEOF_DNS_QUERY) in
          let fail := on_pbuf (pbuf_free (Some p));; dns_call_found i None;; set_de i (set_de_state DNS_STATE_UNUSED) in
          if negb (Z.land flags2 DNS_FLAG2_ERR_MASK =? 0) then
            backup ← dns_backupserver_available e;
            if (backup : bool) then
              set_de i (fun e => set_de_tmr 1 (set_de_retries (DNS_MAX_RETRIES - 1) e));;
              dns_check_entry i;;
              ignore_packet p
            else fail
          else
            r ← on_pbuf (iter (S (Z.to_nat nanswers)) (answers_body p) (nanswers, res_idx));
            match r with
            | AnsIgnore => ignore_packet p
            | AnsAddr ip ttl =>
              set_de i (set_de_ipaddr ip);;
              on_pbuf (pbuf_free (Some p));;
              dns_correct_response i ttl
            | AnsNone => fail
            end.

(** The receive function; its other arguments are not used. *)
Definition dns_recv (p : loc) (addr : Z) : M eth unit :=
  b ← on_pbuf (getp p);
  if tot_len b <? SIZEOF_DNS_HDR + SIZEOF_DNS_QUERY then ignore_packet p
  else
    '(hdr, n) ← on_pbuf (pbuf_copy_partial (Some p) SIZEOF_DNS_HDR 0);
    if negb (n =? SIZEOF_DNS_HDR) then ignore_packet p
    else
      t ← dns_var dns_table;
      match find_txid (lwip_htons (load_word16 (take 2 hdr))) t with
      | Some i => dns_recv_entry p addr hdr i
      | None => ignore_packet p
      end.

(** ** Requests *)

(** [for (i = 0; i < DNS_TABLE_SIZE; ++i)]: the first unused entry if there is
    one, and [lseqi]. *)
Fixpoint find_slot (seqno : Z) (i : nat) (lseq : Z) (lseqi : nat) (t : list dns_table_entry) : option nat * nat :=
  match t with
  | [] => (None, lseqi)
  | e :: t =>
    match de_state e with
    | DNS_STATE_UNUSED => (Some i, lseqi)
    | DNS_STATE_DONE =>
      let age := u8 (seqno - de_seqno e) in
      if lseq <? age then find_slot seqno (S i) age i t else find_slot seqno (S i) lseq lseqi t
    | _ => find_slot seqno (S i) lseq lseqi t
    end
  end.

(** The new contents of the array [name]. *)
Definition name_array (name : list Z) (namelen : Z) (old : list Z) : list Z :=
  take (Z.to_nat namelen) name ++ [0] ++ drop (Z.to_nat namelen + 1) old.

(** The loop found only entries that are DONE for [lseqi]. *)
Definition dns_enqueue (name : list Z) (hostnamelen : Z) (found : option Z) (callback_arg : Z) : M eth Z :=
  let namelen := Z.min hostnamelen (DNS_MAX_NAME_LENGTH - 1) in
  t ← dns_var dns_table;
  seqno ← dns_var dns_seqno;
  let '(unused, lseqi) := find_slot seqno 0 0 DNS_TABLE_SIZE t in
  i ← match unused with
    | Some i => mret (Some i)
    | None =>
      if (DNS_TABLE_SIZE <=? lseqi)%nat then mret None
      else e ← get_de lseqi; mret (if bool_decide (de_state e = DNS_STATE_DONE) then Some lseqi else None)
    end;
  match i with
  | None => mret ERR_MEM
  | Some i =>
    set_de i (fun e => set_de_seqno seqno (set_de_state DNS_STATE_NEW e));;
    set_rq i (fun _ => DnsReq found callback_arg);;
    set_de i (fun e => set_de_name (name_array name namelen (de_name e)) e);;
    mod_dnsv (fun d => set_dns_seqno (u8 (dns_seqno d + 1)) d);;
    dns_check_entry i;;
    mret ERR_INPROGRESS
  end.

(** [hostname] and [addr] may be NULL; the result is the return value and what
    is stored at [addr]. *)
Definition dns_gethostbyname_addrtype (hostname : option (list Z)) (addr : option Z) (found : option Z) (callback_arg dns_addrtype : Z) : M eth (Z * option Z) :=
  match addr, hostname with
  | Some _, Some ((_ :: _) as hostname) =>
    pcb ← dns_var dns_pcb;
    match pcb with
    | None => mret (ERR_ARG, addr)
    | Some _ =>
      let hostnamelen := Z.of_nat (length hostname) in
      let hostnamelen := if default 0 (last hostname) =? 46 then hostnamelen - 1 else hostnamelen in
      if DNS_MAX_NAME_LENGTH <=? hostnamelen then mret (ERR_ARG, addr)
      else
        match ip4addr_aton hostname with
        | Some ip => mret (ERR_OK, Some ip)
        | None =>
          cached ← dns_lookup hostname hostnamelen;
          match cached with
          | Some ip => mret (ERR_OK, Some ip)
          | None =>
            srv ← get_server 0;
            if ip4_addr_isany_val srv then mret (ERR_VAL, addr)
            else r ← dns_enqueue hostname hostnamelen found callback_arg; mret (r, addr)
          end
        end
    end
  | _, _ => mret (ERR_ARG, addr)
  end.

(** [LWIP_DNS_ADDRTYPE_DEFAULT] is [LWIP_DNS_ADDRTYPE_IPV4]. *)
Definition dns_gethostbyname (hostname : option (list Z)) (addr : option Z) (found : option Z) (callback_arg : Z) : M eth (Z * option Z) :=
  dns_gethostbyname_addrtype hostname addr found callback_arg 0.
End Dns.
