(* ===== verification/DnsName.v ===== *)
(** DNS: names in packets, read and written, as functions of the bytes. *)
From S2P Require Import Prelude Memp Pbuf PbufFacts PbufUpdate PbufAlloc Chksum Ip4Addr Ethernet Etharp EtharpSend Ip Udp Dns.

(** ** Reading *)

(** The end of a comparison: the names differ, the array of the name was left,
    or they are the same. *)
Inductive cmp (A : Type) : Type := Differs | Strays | Same (a : A).
Arguments Differs {A}. Arguments Strays {A}. Arguments Same {A} a.

(** A label of [n] bytes at the front of [suf]. *)
Fixpoint cmp_label (n : nat) (query suf : list Z) : cmp (list Z * list Z) :=
  match n with
  | O => Same (query, suf)
  | S n =>
    match suf, query with
    | [], _ => Differs
    | _, [] => Strays
    | c :: suf, q :: query => if lwip_tolower q =? lwip_tolower c then cmp_label n query suf else Differs
    end
  end.

(** A name at the offset [off], where the packet goes on with [suf]; the result
    is the offset behind it. *)
Fixpoint cmp_name (fuel : nat) (query : list Z) (off : Z) (suf : list Z) : cmp Z :=
  match fuel, suf with
  | S fuel, n :: suf =>
    if Z.land n 0xc0 =? 0xc0 then Differs
    else
      match cmp_label (Z.to_nat n) query suf with
      | Same (_, []) => Differs
      | Same (query, (z :: _) as suf) => if z =? 0 then Same (off + n + 2) else cmp_name fuel (tail query) (off + n + 1) suf
      | Differs => Differs
      | Strays => Strays
      end
  | _, _ => Differs
  end.

Fixpoint skip_name (fuel : nat) (off : Z) (suf : list Z) : option Z :=
  match fuel, suf with
  | S fuel, n :: suf =>
    if Z.land n 0xc0 =? 0xc0 then Some (off + 2)
    else
      match drop (Z.to_nat n) suf with
      | [] => None
      | (z :: _) as suf => if z =? 0 then Some (off + n + 2) else skip_name fuel (off + n + 1) suf
      end
  | _, _ => None
  end.

Lemma cmp_label_drop n : forall q suf q' suf', cmp_label n q suf = Same (q', suf') ->
  suf' = drop n suf /\ q' = drop n q /\ (n <= length suf)%nat /\ (n <= length q)%nat.
Proof.
  induction n as [|n IH]; intros q suf q' suf'; cbn [cmp_label]; [intros [= -> ->]; rewrite !drop_0; split_and!; [done|done|lia|lia]|].
  destruct suf as [|c suf], q as [|x q]; try done. destruct (_ =? _); [|done]. intros (-> & -> & H1 & H2)%IH. cbn. split_and!; [done|done|lia|lia].
Qed.

Section Read.
Context `{HeapOps}.

(** The packet, up to the offset that is looked at and from there on. *)
Record at_suffix (m : mem) (p : loc) (c : list node) (pre suf : list Z) : Prop := {
  as_packet : packet m (Some p) c;
  as_bytes : Forall byte (contents c);
  as_split : contents c = pre ++ suf;
  as_size : total c < 65534
}.

Definition place (pre : list Z) : Z := Z.of_nat (length pre).

Lemma suffix_next m p c pre x suf : at_suffix m p c pre (x :: suf) -> at_suffix m p c (pre ++ [x]) suf /\ byte x /\ place (pre ++ [x]) = place pre + 1.
Proof.
  intros [Hp Hb He Hs]. split_and!; [split; [done|done|by rewrite <- app_assoc|done]| |unfold place; rewrite length_app; simpl; lia].
  rewrite He, Forall_app in Hb. destruct Hb as [_ Hb]. by apply Forall_cons in Hb as [Hb _].
Qed.

Lemma suffix_more m p c pre suf n : at_suffix m p c pre suf -> (n <= length suf)%nat ->
  at_suffix m p c (pre ++ take n suf) (drop n suf) /\ place (pre ++ take n suf) = place pre + Z.of_nat n.
Proof.
  intros [Hp Hb He Hs] Hn. split; [split; [done|done|by rewrite <- app_assoc, take_drop|done]|].
  unfold place. rewrite length_app, length_take. lia.
Qed.

Lemma suffix_bound m p c pre suf : at_suffix m p c pre suf -> 0 <= place pre /\ place pre + Z.of_nat (length suf) = total c /\ total c < 65534.
Proof. intros [_ _ He Hs]. unfold total, place in *. rewrite He, length_app in *. lia. Qed.

Lemma get_next m p c pre suf : at_suffix m p c pre suf -> pbuf_try_get_at (Some p) (place pre) m = Ret (default (-1) (head suf)) m.
Proof.
  intros Hs. pose proof (suffix_bound _ _ _ _ _ Hs). destruct Hs as [Hp Hb He _].
  destruct (pbuf_get_at_reads m (Some p) c (place pre) Hp Hb) as [E _]; [lia|]. rewrite E. do 3 f_equal.
  rewrite He, lookup_app_r by (unfold place; lia). unfold place. rewrite Nat2Z.id, Nat.sub_diag. by destruct suf.
Qed.

Lemma bytes_fuel_run m p c pre suf : at_suffix m p c pre suf -> bytes_fuel p m = Ret (S (Z.to_nat (total c))) m.
Proof.
  intros [Hp _ _ _]. destruct c as [|nd c]; [by pose proof (pk_chain _ _ _ Hp)|]. pose proof (pk_totals _ _ _ Hp) as [Et _].
  destruct (pk_chain _ _ _ Hp) as (E & Hl & _). injection E as ->. unfold bytes_fuel, getp, gets, deref, mbind, M_bind, mret, M_ret.
  by rewrite Hl, Et.
Qed.

(** The outcome of a comparison. *)
Definition cmp_outcome {A B} (m : mem) (r : cmp A) (differs : B) (same : A -> B) : outcome mem B :=
  match r with Differs => Ret differs m | Strays => Stop OutOfBounds m | Same a => Ret (same a) m end.

Lemma compare_label_step m p c q pre suf n : at_suffix m p c pre suf ->
  compare_label_body (Some p) (q, place pre, Z.of_nat (S n)) m =
    match suf, q with
    | [], _ => Ret (inr None) m
    | _, [] => Stop OutOfBounds m
    | x :: _, y :: q => Ret (if lwip_tolower y =? lwip_tolower x then inl (q, place pre + 1, Z.of_nat n) else inr None) m
    end.
Proof.
  intros Hs. unfold compare_label_body. rewrite (proj2 (Z.leb_gt _ _)) by lia. pose proof (suffix_bound _ _ _ _ _ Hs) as (? & ? & ?).
  erewrite bind_Ret by (by eapply get_next). destruct suf as [|x suf]; [done|].
  destruct (suffix_next _ _ _ _ _ _ Hs) as (_ & Hx & _). cbn [head from_option id]. unfold byte in Hx. rewrite (proj2 (Z.ltb_ge _ _)) by lia.
  destruct q as [|y q]; [done|]. erewrite bind_Ret by reflexivity. rewrite u8_small by lia.
  destruct (_ =? _); cbn [negb]; [|done]. cbn [length] in *. rewrite (proj2 (Z.eqb_neq _ _)) by lia. cbn [tail].
  rewrite u16_small by lia. by replace (Z.of_nat (S n) - 1) with (Z.of_nat n) by lia.
Qed.

Lemma compare_label_run m p c n : forall q pre suf fuel, at_suffix m p c pre suf -> (n < fuel)%nat ->
  iter fuel (compare_label_body (Some p)) (q, place pre, Z.of_nat n) m =
    cmp_outcome m (cmp_label n q suf) None (fun x => Some (x.1, place pre + Z.of_nat n)).
Proof.
  induction n as [|n IH]; intros q pre suf fuel Hs Hf; (destruct fuel as [|fuel]; [lia|]); cbn [iter cmp_label].
  - cbn. by rewrite Z.add_0_r.
  - pose proof (compare_label_step m p c q pre suf n Hs) as E. destruct suf as [|x suf]; [by erewrite bind_Ret by exact E|].
    destruct q as [|y q]; [by erewrite bind_Stop by exact E|]. erewrite bind_Ret by exact E.
    destruct (_ =? _); [|done]. destruct (suffix_next _ _ _ _ _ _ Hs) as (Hs' & _ & <-).
    rewrite (IH q _ suf) by (done || lia). unfold cmp_outcome. destruct (cmp_label n q suf); [done|done|].
    unfold place. rewrite length_app. do 3 f_equal. simpl. lia.
Qed.

Lemma compare_name_step m p c q pre suf : at_suffix m p c pre suf ->
  compare_name_body (Some p) (q, place pre) m =
    match suf with
    | [] => Ret (inr 0xFFFF) m
    | n :: suf =>
      if Z.land n 0xc0 =? 0xc0 then Ret (inr 0xFFFF) m
      else match cmp_label (Z.to_nat n) q suf with
      | Same (_, []) => Ret (inr 0xFFFF) m
      | Same (q, z :: _) => Ret (if z =? 0 then inr (place pre + n + 2) else inl (tail q, place pre + n + 1)) m
      | Differs => Ret (inr 0xFFFF) m
      | Strays => Stop OutOfBounds m
      end
    end.
Proof.
  intros Hs. unfold compare_name_body. pose proof (suffix_bound _ _ _ _ _ Hs) as (? & ? & ?). erewrite bind_Ret by (by eapply get_next).
  destruct suf as [|n suf]; [done|]. destruct (suffix_next _ _ _ _ _ _ Hs) as (Hs' & Hx & E). cbn [head from_option id]. unfold byte in Hx. cbn [length] in *.
  rewrite (proj2 (Z.ltb_ge _ _)), (proj2 (Z.eqb_neq _ _)) by lia. cbn [orb]. cbv zeta. rewrite u16_small, <- E by lia.
  destruct (_ =? 192); [done|]. pose proof (compare_label_run m p c (Z.to_nat n) q _ suf (S (Z.to_nat n)) Hs' ltac:(lia)) as El.
  rewrite Z2Nat.id in El by lia. destruct (cmp_label (Z.to_nat n) q suf) as [| |[q' suf']] eqn:Ec;
    [by erewrite bind_Ret by exact El|by erewrite bind_Stop by exact El|]. erewrite bind_Ret by exact El. cbn [fst].
  apply cmp_label_drop in Ec as (-> & -> & Hn & _). destruct (suffix_more _ _ _ _ _ _ Hs' Hn) as [Hs2 E2]. rewrite Z2Nat.id in E2 by lia.
  rewrite <- E2. erewrite bind_Ret by (by eapply get_next). pose proof (suffix_bound _ _ _ _ _ Hs2) as (? & ? & ?).
  destruct (drop (Z.to_nat n) suf) as [|z suf2] eqn:Ed; [done|]. cbn [head from_option id].
  destruct (suffix_next _ _ _ _ _ _ Hs2) as (_ & Hz & _). unfold byte in Hz. rewrite (proj2 (Z.ltb_ge _ _)) by lia. cbn [length] in *.
  destruct (z =? 0); cbn [negb]; [rewrite (proj2 (Z.eqb_neq _ _)), u16_small by lia; unfold mret, M_ret; do 2 f_equal; lia|unfold mret, M_ret; do 3 f_equal; lia].
Qed.

Lemma compare_name_run m p c fuel : forall q pre suf fuel', at_suffix m p c pre suf -> (length suf < fuel)%nat -> (length suf < fuel')%nat ->
  iter fuel' (compare_name_body (Some p)) (q, place pre) m = cmp_outcome m (cmp_name fuel q (place pre) suf) 0xFFFF (fun x => x).
Proof.
  induction fuel as [|fuel IH]; intros q pre suf fuel' Hs Hf Hf'; [lia|]. destruct fuel' as [|fuel']; [lia|]. cbn [iter cmp_name].
  pose proof (compare_name_step m p c q pre suf Hs) as E. destruct suf as [|n suf]; [by erewrite bind_Ret by exact E|].
  destruct (suffix_next _ _ _ _ _ _ Hs) as (Hs' & Hx & E1). unfold byte in Hx. cbn [length] in *.
  destruct (_ =? 192); [by erewrite bind_Ret by exact E|].
  destruct (cmp_label (Z.to_nat n) q suf) as [| |[q' [|z suf2]]] eqn:Ec; [by erewrite bind_Ret by exact E|by erewrite bind_Stop by exact E|by erewrite bind_Ret by exact E|].
  erewrite bind_Ret by exact E. destruct (z =? 0); [done|].
  apply cmp_label_drop in Ec as (Ed & _ & Hn & _). destruct (suffix_more _ _ _ _ _ _ Hs' Hn) as [Hs2 E2]. rewrite Z2Nat.id in E2 by lia.
  rewrite <- Ed in Hs2. assert (Hl : (length (z :: suf2) <= length suf)%nat) by (rewrite Ed, length_drop; lia).
  replace (place pre + n + 1) with (place ((pre ++ [n]) ++ take (Z.to_nat n) suf)) by lia. by rewrite (IH _ _ (z :: suf2)) by (done || lia).
Qed.

Lemma dns_compare_name_run m p c q pre suf : at_suffix m p c pre suf ->
  dns_compare_name q p (place pre) m = cmp_outcome m (cmp_name (S (length suf)) q (place pre) suf) 0xFFFF (fun x => x).
Proof.
  intros Hs. unfold dns_compare_name. erewrite bind_Ret by (by eapply bytes_fuel_run).
  pose proof (suffix_bound _ _ _ _ _ Hs). apply (compare_name_run m p c); [done|lia|lia].
Qed.

Lemma packet_tot_len m p c : packet m (Some p) c -> exists b, getp p m = Ret b m /\ tot_len b = total c.
Proof.
  intros Hp. destruct c as [|nd c]; [by pose proof (pk_chain _ _ _ Hp)|]. pose proof (pk_totals _ _ _ Hp) as [Et _].
  destruct (pk_chain _ _ _ Hp) as (El & Hl & _). injection El as ->. exists (n_buf nd). split; [|done].
  unfold getp, gets, deref, mbind, M_bind, mret, M_ret. by rewrite Hl.
Qed.

Lemma skip_name_step m p c pre suf : at_suffix m p c pre suf ->
  skip_name_body p (place pre) m =
    match suf with
    | [] => Ret (inr 0xFFFF) m
    | n :: suf =>
      if Z.land n 0xc0 =? 0xc0 then Ret (inr (place pre + 2)) m
      else match drop (Z.to_nat n) suf with
      | [] => Ret (inr 0xFFFF) m
      | z :: _ => Ret (if z =? 0 then inr (place pre + n + 2) else inl (place pre + n + 1)) m
      end
    end.
Proof.
  intros Hs. pose proof (suffix_bound _ _ _ _ _ Hs) as (? & ? & ?). destruct (packet_tot_len m p c (as_packet _ _ _ _ _ Hs)) as (b & Eb & Et).
  unfold skip_name_body. erewrite bind_Ret by (by eapply get_next).
  destruct suf as [|n suf]; [done|]. destruct (suffix_next _ _ _ _ _ _ Hs) as (Hs' & Hx & E). cbn [head from_option id]. unfold byte in Hx. cbn [length] in *.
  rewrite (proj2 (Z.ltb_ge _ _)) by lia. cbv zeta. rewrite u16_small, <- E by lia. rewrite (proj2 (Z.eqb_neq _ _)) by lia. cbn [orb].
  destruct (_ =? 192).
  { unfold skip_name_end. rewrite (proj2 (Z.eqb_neq _ _)), u16_small by lia. unfold mret, M_ret. do 2 f_equal. lia. }
  erewrite bind_Ret by exact Eb. rewrite Et. destruct (Z.leb_spec (total c) (place (pre ++ [n]) + n)) as [Hle|Hlt]; [by rewrite drop_ge by lia|].
  destruct (suffix_more _ _ _ _ _ (Z.to_nat n) Hs') as [Hs2 E2]; [lia|]. rewrite Z2Nat.id in E2 by lia. rewrite u16_small, <- E2 by lia.
  erewrite bind_Ret by (by eapply get_next). pose proof (suffix_bound _ _ _ _ _ Hs2) as (? & ? & ?).
  destruct (drop (Z.to_nat n) suf) as [|z suf2] eqn:Ed; [done|]. cbn [head from_option id].
  destruct (suffix_next _ _ _ _ _ _ Hs2) as (_ & Hz & _). unfold byte in Hz. rewrite (proj2 (Z.ltb_ge _ _)) by lia. cbn [length] in *.
  destruct (z =? 0); cbn [negb]; [unfold skip_name_end; rewrite (proj2 (Z.eqb_neq _ _)), u16_small by lia|]; unfold mret, M_ret; do 2 f_equal; lia.
Qed.

Lemma skip_name_run m p c fuel : forall pre suf fuel', at_suffix m p c pre suf -> (length suf < fuel)%nat -> (length suf < fuel')%nat ->
  iter fuel' (skip_name_body p) (place pre) m = Ret (default 0xFFFF (skip_name fuel (place pre) suf)) m.
Proof.
  induction fuel as [|fuel IH]; intros pre suf fuel' Hs Hf Hf'; [lia|]. destruct fuel' as [|fuel']; [lia|]. cbn [iter skip_name].
  pose proof (skip_name_step m p c pre suf Hs) as E. destruct suf as [|n suf]; [by erewrite bind_Ret by exact E|].
  destruct (suffix_next _ _ _ _ _ _ Hs) as (Hs' & Hx & E1). unfold byte in Hx. cbn [length] in *.
  destruct (_ =? 192); [by erewrite bind_Ret by exact E|]. destruct (drop (Z.to_nat n) suf) as [|z suf2] eqn:Ed; erewrite bind_Ret by exact E; [done|].
  destruct (z =? 0); [done|]. assert (Hn : (Z.to_nat n <= length suf)%nat) by (destruct (decide (Z.to_nat n <= length suf)%nat); [done|rewrite drop_ge in Ed by lia; done]).
  destruct (suffix_more _ _ _ _ _ _ Hs' Hn) as [Hs2 E2]. rewrite Z2Nat.id in E2 by lia.
  rewrite Ed in Hs2. assert (Hl : (length (z :: suf2) <= length suf)%nat) by (rewrite <- Ed, length_drop; lia).
  replace (place pre + n + 1) with (place ((pre ++ [n]) ++ take (Z.to_nat n) suf)) by lia. by rewrite (IH _ (z :: suf2)) by (done || lia).
Qed.

Lemma dns_skip_name_run m p c pre suf : at_suffix m p c pre suf ->
  dns_skip_name p (place pre) m = Ret (default 0xFFFF (skip_name (S (length suf)) (place pre) suf)) m.
Proof.
  intros Hs. unfold dns_skip_name. erewrite bind_Ret by (by eapply bytes_fuel_run).
  pose proof (suffix_bound _ _ _ _ _ Hs). apply (skip_name_run m p c); [done|lia|lia].
Qed.
End Read.

(** ** Writing *)

Section Write.
Context `{HeapOps}.

(** A pbuf [b] at [l] with the bytes of its own block, [data] by now. *)
Record block (l : loc) (b : pbuf) (m0 m : mem) (data : list Z) : Prop := {
  bk_written : written l b m0 m data;
  bk_here : pbufs m0 !! l = Some b;
  bk_own : fst <$> payload b = Some l;
  bk_alone : next b = None;
  bk_len : tot_len b = len b /\ len b < 65536
}.

Lemma block_packet l b m0 m data : block l b m0 m data -> packet m (Some l) [Node l b data] /\ total [Node l b data] = len b.
Proof.
  intros [[_ E Hh] Hl Ho Hn [Et Hb]]. pose proof Hh as [L _]. assert (Ht : total [Node l b data] = len b) by (rewrite total_cons; change (total []) with 0; simpl; lia).
  split; [|done]. split; [|split; [by rewrite Ht|done]|apply NoDup_singleton| |by rewrite Ht].
  - split_and!; [done|by rewrite E|done|done].
  - unfold omap, list_omap, node_area. cbn [n_buf]. rewrite Ho. apply NoDup_singleton.
Qed.

Lemma block_skip l b m0 m data off : block l b m0 m data -> 0 <= off < len b -> pbuf_skip (Some l) off m = Ret (Some l, off) m.
Proof.
  intros Hb Ho. destruct (block_packet _ _ _ _ _ Hb) as [Hp _]. pose proof (bk_len _ _ _ _ _ Hb) as [_ Hl].
  unfold pbuf_skip. rewrite (skip_run m (Some l) _ off Hp) by lia. cbn [skip_spec n_buf]. by rewrite (proj2 (Z.leb_gt _ _)) by lia.
Qed.

Lemma wp_block_write l b m0 m data off new (Q : unit -> mem -> Prop) : block l b m0 m data -> 0 <= off -> off + Z.of_nat (length new) <= len b ->
  (forall m', block l b m0 m' (splice (Z.to_nat off) new data) -> Q tt m') -> wp (write_at (payload b) off new) Q m.
Proof.
  intros [[W1 W2 W3] H1 H2 H3 H4] Ho Hl HQ. apply (wp_write_block l b data); [done..|].
  intros m' O E Hh. apply HQ. split; [|done..]. split; [by eapply only_block_trans|congruence|done].
Qed.

Lemma block_getp l b m0 m data : block l b m0 m data -> pbufs m !! l = Some b.
Proof. intros [[_ E _] Hl _ _ _]. by rewrite E. Qed.

Lemma wp_put_at l b m0 m data off x (Q : unit -> mem -> Prop) : block l b m0 m data -> 0 <= off < len b ->
  (forall m', block l b m0 m' (splice (Z.to_nat off) [x] data) -> Q tt m') -> wp (pbuf_put_at (Some l) off x) Q m.
Proof.
  intros Hb Ho HQ. unfold pbuf_put_at. apply wp_bind. eapply wp_of_run; [by eapply block_skip|]. cbv beta iota.
  apply wp_bind, (wp_getp _ b); [by eapply block_getp|]. rewrite (proj2 (Z.ltb_lt _ _)) by lia. cbn [when].
  eapply wp_block_write; [done|lia|simpl; lia|done].
Qed.

(** The first [n] bytes of [data'] at [off]. *)
Lemma wp_take_at l b m0 m data off data' n (Q : Z -> mem -> Prop) : block l b m0 m data -> 0 <= n <= Z.of_nat (length data') -> 0 <= off < len b -> off + n <= len b ->
  (forall m', block l b m0 m' (splice (Z.to_nat off) (take (Z.to_nat n) data') data) -> Q ERR_OK m') -> wp (pbuf_take_at (Some l) data' n off) Q m.
Proof.
  intros Hb Hn Ho Hl HQ. pose proof (bk_len _ _ _ _ _ Hb) as [Et Hlen]. unfold pbuf_take_at. apply wp_bind. eapply wp_of_run; [by eapply block_skip|]. cbv beta iota.
  apply wp_bind, (wp_getp _ b); [by eapply block_getp|]. rewrite Et. rewrite !(proj2 (Z.ltb_ge _ _)) by lia. cbv zeta.
  rewrite Z.min_r by lia. rewrite (u16_small n) by lia. apply wp_bind.
  eapply wp_block_write; [done|lia|rewrite length_take; lia|]. intros m' Hb'. rewrite Z.sub_diag. change (0 <? u16 0) with false. cbv iota. apply wp_ret. by apply HQ.
Qed.

Lemma wp_take_front l b m0 m data data' (Q : Z -> mem -> Prop) : block l b m0 m data -> Z.of_nat (length data') <= len b -> data' <> [] ->
  (forall m', block l b m0 m' (splice 0 data' data) -> Q ERR_OK m') -> wp (pbuf_take (Some l) (Some data') (Z.of_nat (length data'))) Q m.
Proof.
  intros Hb Hl Hne HQ. pose proof (bk_len _ _ _ _ _ Hb) as [Et Hlen]. unfold pbuf_take. apply wp_bind, (wp_getp _ b); [by eapply block_getp|].
  rewrite Et, !(proj2 (Z.ltb_ge _ _)) by lia. apply wp_bind, wp_chain_fuel. rewrite Nat2Z.id, take_ge by lia.
  assert (Hsz : exists f, size (pbufs m) = S f).
  { destruct (size (pbufs m)) eqn:E; [|eauto]. apply map_size_empty_iff in E. pose proof (block_getp _ _ _ _ _ Hb) as Hp. rewrite E in Hp. by rewrite lookup_empty in Hp. }
  destruct Hsz as [f ->]. apply wp_bind. cbn [iter]. apply wp_bind. unfold pbuf_take_body at 1. destruct data' as [|x data']; [done|].
  apply wp_bind, wp_ret, wp_bind, (wp_getp _ b); [by eapply block_getp|]. cbv zeta. rewrite Z.min_l by lia. rewrite Nat2Z.id, take_ge, drop_ge by lia.
  apply wp_bind. eapply wp_block_write; [done|lia|done|]. intros m' Hb'. apply wp_ret. cbv beta iota. apply wp_bind. unfold pbuf_take_body at 1.
  apply wp_ret, wp_ret, wp_ret. by apply HQ.
Qed.

(** Writing behind [pre]. *)
Lemma splice_behind (pre suf new : list Z) : splice (length pre) new (pre ++ suf) = (pre ++ new) ++ drop (length new) suf.
Proof. unfold splice. rewrite take_app_length, drop_app_ge by lia. rewrite <- app_assoc. do 3 f_equal. lia. Qed.

(** ** A name as labels *)

Fixpoint join (ls : list (list Z)) : list Z :=
  match ls with [] => [] | [l] => l | l :: ls => l ++ 46 :: join ls end.

Definition encode (ls : list (list Z)) : list Z := concat (map (fun l => Z.of_nat (length l) :: l) ls).

(** A label has no dot and no zero. *)
Definition plain_label (l : list Z) : Prop := Forall (fun c => c <> 46 /\ c <> 0) l.

Lemma encode_cons l ls : encode (l :: ls) = Z.of_nat (length l) :: l ++ encode ls.
Proof. done. Qed.

Lemma join_cons l l' ls : join (l :: l' :: ls) = l ++ 46 :: join (l' :: ls).
Proof. done. Qed.

Lemma encode_length ls : ls <> [] -> length (encode ls) = S (length (join ls)).
Proof.
  induction ls as [|l ls IH]; [done|]. intros _. destruct ls as [|l' ls]; [rewrite encode_cons; simpl; rewrite length_app; simpl; lia|].
  rewrite encode_cons, join_cons. cbn [length]. rewrite !length_app. cbn [length]. rewrite IH by done. lia.
Qed.

Lemma count_label_plain l : forall c rest n, plain_label l -> c = 46 \/ c = 0 -> 0 <= n -> n + Z.of_nat (length l) < 256 ->
  count_label (l ++ c :: rest) n = Some (n + Z.of_nat (length l), c :: rest).
Proof.
  induction l as [|x l IH]; intros c rest n Hl Hc Hn Hlen; cbn [app count_label].
  - rewrite Z.add_0_r. by destruct Hc as [-> | ->].
  - apply Forall_cons in Hl as [[H1 H2] Hl]. rewrite (proj2 (Z.eqb_neq _ _) H1), (proj2 (Z.eqb_neq _ _) H2). cbn [orb length] in *.
    rewrite u8_small by lia. rewrite IH by (done || lia). do 2 f_equal. lia.
Qed.

(** The first label of an array that holds the name, and what follows it. *)
Lemma count_label_join l ls junk : plain_label l -> Z.of_nat (length (join (l :: ls))) < 256 ->
  exists c rest, count_label (join (l :: ls) ++ 0 :: junk) 0 = Some (Z.of_nat (length l), c :: rest) /\
    join (l :: ls) ++ 0 :: junk = l ++ c :: rest /\ match ls with [] => c = 0 | _ => c = 46 /\ rest = join ls ++ 0 :: junk end.
Proof.
  intros Hl Hlen. destruct ls as [|l' ls].
  - exists 0, junk. cbn [join] in *. rewrite count_label_plain by (auto || lia). done.
  - rewrite join_cons in *. rewrite length_app in Hlen. exists 46, (join (l' :: ls) ++ 0 :: junk). rewrite <- app_assoc. cbn [app].
    rewrite count_label_plain by (auto || lia). done.
Qed.

(** The loop of [dns_send]. *)
Lemma wp_put_labels l b m0 ls : forall fuel pre suf junk m (Q : option Z -> mem -> Prop), ls <> [] -> Forall plain_label ls ->
  Z.of_nat (length (join ls)) < 256 -> block l b m0 m (pre ++ suf) -> (length (encode ls) < length suf)%nat -> (length ls < fuel)%nat ->
  (forall m', block l b m0 m' ((pre ++ encode ls) ++ drop (length (encode ls)) suf) -> Q (Some (place (pre ++ encode ls))) m') ->
  wp (iter fuel (put_label_body l) (join ls ++ 0 :: junk, place pre)) Q m.
Proof.
  induction ls as [|x ls IH]; intros fuel pre suf junk m Q Hne Hpl Hlen Hb Hs Hf HQ; [done|]. destruct fuel as [|fuel]; [lia|]. clear Hne.
  apply Forall_cons in Hpl as [Hx Hpl]. destruct (count_label_join x ls junk Hx Hlen) as (c & rest & Ec & Ea & Hc).
  pose proof (bk_len _ _ _ _ _ Hb) as [_ Hl]. pose proof (wr_holds _ _ _ _ _ (bk_written _ _ _ _ _ Hb)) as [Lh _]. rewrite length_app in Lh.
  rewrite encode_cons in Hs, HQ. cbn [length] in Hs. rewrite length_app in Hs.
  assert (Hxl : (length x <= length (join (x :: ls)))%nat) by (destruct ls; [done|rewrite join_cons, length_app; lia]).
  cbn [iter]. apply wp_bind. set (K := iter fuel (put_label_body l)). unfold put_label_body. rewrite Ec. apply wp_bind, wp_ret. cbv beta iota zeta.
  rewrite Ea. rewrite length_app. replace (Z.of_nat (length x + length (c :: rest)) - Z.of_nat (length (c :: rest))) with (Z.of_nat (length x)) by lia.
  unfold place in *. rewrite (u16_small (Z.of_nat (length x))), !u16_small by lia. rewrite (proj2 (Z.ltb_ge _ _)) by lia.
  apply wp_bind. eapply wp_put_at; [exact Hb|lia|]. intros m1 Hb1. rewrite Nat2Z.id, splice_behind in Hb1. cbn [length] in Hb1.
  apply wp_bind. eapply wp_take_at; [exact Hb1|rewrite length_app; lia|lia|lia|]. intros m2 Hb2.
  replace (Z.to_nat (Z.of_nat (length pre) + 1)) with (length (pre ++ [Z.of_nat (length x)])) in Hb2 by (rewrite length_app; simpl; lia).
  rewrite splice_behind, Nat2Z.id, take_app_length in Hb2. rewrite drop_drop, <- app_assoc in Hb2. cbn [app] in Hb2.
  rewrite app_assoc in Hb2. replace ((pre ++ [Z.of_nat (length x)]) ++ x) with (pre ++ Z.of_nat (length x) :: x) in Hb2 by (by rewrite <- app_assoc). apply wp_ret.
  assert (Ep : Z.of_nat (length pre) + Z.of_nat (length x) + 1 = Z.of_nat (length (pre ++ Z.of_nat (length x) :: x))) by (rewrite length_app; simpl; lia).
  rewrite Ep. cbn [char_at hd tail]. destruct ls as [|x' ls].
  - subst c. change (0 =? 0) with true. cbv iota. apply wp_ret. change (encode []) with (@nil Z) in HQ. rewrite app_nil_r in HQ. cbn [length] in HQ. apply HQ. exact Hb2.
  - destruct Hc as [-> ->]. change (46 =? 0) with false. cbv iota. unfold K.
    rewrite join_cons, length_app in Hlen. cbn [length] in Hlen, Hf.
    apply (IH fuel (pre ++ Z.of_nat (length x) :: x) (drop (1 + length x) suf)); [done|done|lia|exact Hb2|rewrite length_drop; lia|simpl; lia|].
    assert (Eq : (pre ++ Z.of_nat (length x) :: x) ++ encode (x' :: ls) = pre ++ Z.of_nat (length x) :: x ++ encode (x' :: ls)) by (by rewrite <- app_assoc).
    intros m' Hb'. rewrite drop_drop, Eq in Hb'. unfold place. rewrite Eq. apply HQ.
    replace (length (Z.of_nat (length x) :: x ++ encode (x' :: ls))) with (1 + length x + length (encode (x' :: ls)))%nat by (cbn [length]; rewrite length_app; lia). exact Hb'.
Qed.

(** The question of a query. *)
Definition question (ls : list (list Z)) : list Z := encode ls ++ [0] ++ query_end.

Definition query_message (txid : Z) (ls : list (list Z)) : list Z := query_hdr txid ++ question ls.

Lemma query_message_length txid ls : ls <> [] -> Z.of_nat (length (query_message txid ls)) = 12 + Z.of_nat (length (join ls)) + 2 + 4.
Proof. intros Hne. unfold query_message, question. rewrite !length_app, encode_length by done. unfold query_hdr, query_end. simpl. lia. Qed.

Lemma wp_fill_query l b m0 m data txid ls junk (Q : option unit -> mem -> Prop) : ls <> [] -> Forall plain_label ls -> Z.of_nat (length (join ls)) < 256 ->
  block l b m0 m data -> len b = Z.of_nat (length (query_message txid ls)) ->
  (forall m', block l b m0 m' (query_message txid ls) -> Q (Some tt) m') -> wp (fill_query l txid (join ls ++ 0 :: junk)) Q m.
Proof.
  intros Hne Hpl Hlen Hb Hl HQ. pose proof (query_message_length txid ls Hne) as Lq. rewrite Lq in Hl. pose proof (wr_holds _ _ _ _ _ (bk_written _ _ _ _ _ Hb)) as [Lh _].
  assert (Lh12 : length (query_hdr txid) = 12%nat) by done. unfold fill_query. apply wp_bind.
  change SIZEOF_DNS_HDR with (Z.of_nat (length (query_hdr txid))) at 1. eapply wp_take_front; [exact Hb|lia|done|].
  intros m1 Hb1. change 0%nat with (length (@nil Z)) in Hb1. change data with ([] ++ data) in Hb1. rewrite splice_behind in Hb1. cbn [app] in Hb1.
  pose proof (encode_length ls Hne) as Le. apply wp_bind. change SIZEOF_DNS_HDR with (place (query_hdr txid)).
  apply (wp_put_labels l b m0 ls _ (query_hdr txid) (drop 12 data)); [done|done|done|exact Hb1|rewrite length_drop; lia| |].
  { rewrite length_app. assert ((length ls <= S (length (join ls)))%nat); [|simpl; lia]. rewrite <- Le. clear.
    induction ls as [|x ls IH]; [done|]. rewrite encode_cons. cbn [length]. rewrite length_app. lia. }
  intros m2 Hb2. cbv beta iota. unfold place. rewrite length_app, drop_drop in *. rewrite u16_small by lia.
  apply wp_bind. eapply wp_put_at; [exact Hb2|lia|]. intros m3 Hb3. rewrite Nat2Z.id in Hb3.
  replace (length (query_hdr txid) + length (encode ls))%nat with (length (query_hdr txid ++ encode ls)) in Hb3 by (by rewrite length_app).
  rewrite splice_behind, drop_drop in Hb3. apply wp_bind. eapply wp_take_at; [exact Hb3|done|lia|unfold SIZEOF_DNS_QUERY; lia|]. intros m4 Hb4. apply wp_ret.
  replace (Z.to_nat (Z.of_nat (length (query_hdr txid) + length (encode ls)) + 1)) with (length ((query_hdr txid ++ encode ls) ++ [0])) in Hb4 by (rewrite !length_app; simpl; lia).
  rewrite splice_behind in Hb4. change (take (Z.to_nat SIZEOF_DNS_QUERY) query_end) with query_end in Hb4.
  apply HQ. rewrite (drop_ge _ (length query_end)) in Hb4 by (rewrite length_drop; simpl length; lia). rewrite app_nil_r in Hb4.
  unfold query_message, question. by rewrite <- !app_assoc in Hb4.
Qed.
End Write.
