(* ===== verification/DnsInput.v ===== *)
(** DNS: what [dns_recv] does with a message, as a function of its bytes. *)
From S2P Require Import Prelude Memp Pbuf PbufFacts PbufUpdate PbufAlloc Chksum Ip4Addr Ethernet Etharp Ip4AddrFacts EtharpSend EtharpReply Ip IpFacts Udp Dns DnsName.

(** ** A message as bytes *)

Definition bytes_at (data : list Z) (off n : Z) : list Z := take (Z.to_nat n) (drop (Z.to_nat off) data).

(** The 16 bits and the 32 bits at an offset, in network order. *)
Definition word_at (data : list Z) (off : Z) : Z := lwip_htons (load_word16 (bytes_at data off 2)).
Definition long_at (data : list Z) (off : Z) : Z := lwip_htonl (load_word32 (bytes_at data off 4)).

Definition size_of {A} (data : list A) : Z := Z.of_nat (length data).

(** The first address record among the [k] records from [off] on. *)
Fixpoint find_answer (data : list Z) (k : nat) (off : Z) : answer_result :=
  match k with
  | O => AnsNone
  | S k =>
    if size_of data <=? off then AnsNone
    else
      let suf := drop (Z.to_nat off) data in
      match skip_name (S (length suf)) off suf with
      | None => AnsIgnore
      | Some off =>
        if size_of data <? off + 10 then AnsIgnore
        else
          let n := word_at data (off + 8) in
          if (word_at data (off + 2) =? DNS_RRCLASS_IN) && ((word_at data off =? DNS_RRTYPE_A) && (n =? 4)) then
            if size_of data <? off + 14 then AnsIgnore else AnsAddr (load_word32 (bytes_at data (off + 10) 4)) (long_at data (off + 4))
          else if 0xFFFF <? off + 10 + n then AnsIgnore
          else find_answer data k (off + 10 + n)
      end
  end.

(** What becomes of a message: it is dropped; the comparison of the names runs
    past the array of the request's name; the request fails, is sent again to
    the other server, or is answered. *)
Inductive dns_verdict : Type :=
  Ignored | Strayed | Failed (i : nat) | Retried (i : nat) | Resolved (i : nat) (ip ttl : Z).

(** Is there a server behind the one that is asked? *)
Definition has_backup (d : dns_vars) (e : dns_table_entry) : bool :=
  (de_server_idx e + 1 <? DNS_MAX_SERVERS) && negb (default 0 (dns_servers d !! Z.to_nat (de_server_idx e + 1)) =? 0).

(** Behind the question, which ends at [off]. *)
Definition decide_answer (d : dns_vars) (i : nat) (e : dns_table_entry) (data : list Z) (off : Z) : dns_verdict :=
  if size_of data <? off + 4 then Ignored
  else if negb (word_at data (off + 2) =? DNS_RRCLASS_IN) || negb (word_at data off =? DNS_RRTYPE_A) then Ignored
  else if negb (Z.land (nth 3 data 0) DNS_FLAG2_ERR_MASK =? 0) then (if has_backup d e then Retried i else Failed i)
  else match find_answer data (Z.to_nat (word_at data 6)) (off + 4) with
       | AnsIgnore => Ignored
       | AnsAddr ip ttl => Resolved i ip ttl
       | AnsNone => Failed i
       end.

Definition dns_decide (d : dns_vars) (addr : Z) (data : list Z) : dns_verdict :=
  if size_of data <? SIZEOF_DNS_HDR + SIZEOF_DNS_QUERY then Ignored
  else match find_txid (word_at data 0) (dns_table d) with
  | None => Ignored
  | Some i =>
    match dns_table d !! i with
    | None => Ignored
    | Some e =>
      if (Z.land (nth 2 data 0) DNS_FLAG1_RESPONSE =? 0) || negb (word_at data 4 =? 1) ||
         negb (ip4_addr_eq addr (default 0 (dns_servers d !! Z.to_nat (de_server_idx e)))) then Ignored
      else match cmp_name (S (length (drop 12 data))) (de_name e) SIZEOF_DNS_HDR (drop 12 data) with
           | Differs => Ignored
           | Strays => Strayed
           | Same off => decide_answer d i e data off
           end
    end
  end.

(** ** The state *)

(** The tables have their sizes, and an entry that is in use has a server. *)
Record dns_good (d : dns_vars) : Prop := {
  dg_table : length (dns_table d) = DNS_TABLE_SIZE;
  dg_requests : length (dns_requests d) = DNS_TABLE_SIZE;
  dg_servers : length (dns_servers d) = Z.to_nat DNS_MAX_SERVERS;
  dg_indices : Forall (fun e => 0 <= de_server_idx e < DNS_MAX_SERVERS) (dns_table d)
}.

Section Vars.
Context `{W : Wire} `{CF : !CustomFree} `{BU : !Build} `{US : !UdpState} `{DS : !DnsState} `{DU : !DnsUser}.

(** The state with DNS's variables [d]. *)
Definition put_dns (d : dns_vars) (s : eth) : eth := set_ipv (set_above (put_dns_part d (above (ipv s))) (ipv s)) s.

Lemma dnsv_put d s : dnsv (put_dns d s) = d.
Proof. apply dns_part_put. Qed.

Lemma put_dns_put d e s : put_dns d (put_dns e s) = put_dns d s.
Proof. unfold put_dns. cbn. by rewrite put_dns_part_put. Qed.

Lemma put_dns_same s : put_dns (dnsv s) s = s.
Proof. unfold put_dns, dnsv. rewrite put_dns_part_same. by destruct s as [? [? []] ? ? ?]. Qed.

Lemma udpv_put_dns d s : udpv (put_dns d s) = udpv s.
Proof. apply udp_part_dns. Qed.

Lemma mod_dnsv_run f s : mod_dnsv f s = Ret tt (put_dns (f (dnsv s)) s).
Proof. by destruct s. Qed.

Lemma get_de_run i e s : dns_table (dnsv s) !! i = Some e -> get_de i s = Ret e s.
Proof. intros E. unfold get_de. erewrite bind_Ret by reflexivity. by rewrite E. Qed.

Lemma get_rq_run i r s : dns_requests (dnsv s) !! i = Some r -> get_rq i s = Ret r s.
Proof. intros E. unfold get_rq. erewrite bind_Ret by reflexivity. by rewrite E. Qed.

Lemma get_server_run i x s : dns_servers (dnsv s) !! Z.to_nat i = Some x -> get_server i s = Ret x s.
Proof. intros E. unfold get_server. erewrite bind_Ret by reflexivity. by rewrite E. Qed.

(** Entry [i] becomes [e], the request [r]. *)
Definition upd_de (i : nat) (e : dns_table_entry) (d : dns_vars) : dns_vars := set_dns_table (<[i := e]> (dns_table d)) d.
Definition upd_rq (i : nat) (r : dns_req_entry) (d : dns_vars) : dns_vars := set_dns_requests (<[i := r]> (dns_requests d)) d.

Lemma set_de_run i e f s : dns_table (dnsv s) !! i = Some e -> set_de i f s = Ret tt (put_dns (upd_de i (f e) (dnsv s)) s).
Proof. intros E. unfold set_de. erewrite bind_Ret by (by apply get_de_run). apply mod_dnsv_run. Qed.

Lemma set_rq_run i r f s : dns_requests (dnsv s) !! i = Some r -> set_rq i f s = Ret tt (put_dns (upd_rq i (f r) (dnsv s)) s).
Proof. intros E. unfold set_rq. erewrite bind_Ret by (by apply get_rq_run). apply mod_dnsv_run. Qed.

(** A computation on pbufs that only looks. *)
Lemma on_pbuf_run {A} (x : M mem A) a s : x (emem s) = Ret a (emem s) -> on_pbuf x s = Ret a s.
Proof. intros E. unfold on_pbuf, zoom. rewrite E. by destruct s. Qed.

Lemma on_pbuf_stop {A} (x : M mem A) w s : x (emem s) = Stop w (emem s) -> on_pbuf x s = Stop w s.
Proof. intros E. unfold on_pbuf, zoom. rewrite E. by destruct s. Qed.

Lemma find_txid_some txid t i : find_txid txid t = Some i -> exists e, t !! i = Some e /\ de_state e = DNS_STATE_ASKING /\ de_txid e = txid.
Proof.
  revert i. induction t as [|e t IH]; intros i; cbn [find_txid]; [done|]. case_bool_decide as Es; cbn [andb]; [destruct (Z.eqb_spec (de_txid e) txid) as [Et|_]|].
  - intros [= <-]. by exists e.
  - destruct (find_txid txid t) as [j|]; [|done]. intros [= <-]. by apply IH.
  - destruct (find_txid txid t) as [j|]; [|done]. intros [= <-]. by apply IH.
Qed.

Lemma server_here d e i : dns_good d -> dns_table d !! i = Some e -> exists x, dns_servers d !! Z.to_nat (de_server_idx e) = Some x.
Proof.
  intros [_ _ Hs Hi] E. rewrite Forall_forall in Hi. specialize (Hi e (list_elem_of_lookup_2 _ _ _ E)). unfold DNS_MAX_SERVERS in *.
  destruct (lookup_lt_is_Some_2 (dns_servers d) (Z.to_nat (de_server_idx e))) as [x Hx]; [lia|eauto].
Qed.

Lemma backup_run e s : dns_good (dnsv s) -> 0 <= de_server_idx e -> dns_backupserver_available e s = Ret (has_backup (dnsv s) e) s.
Proof.
  intros [_ _ Hs _] H0. unfold dns_backupserver_available, has_backup, DNS_MAX_SERVERS in *. destruct (Z.ltb_spec (de_server_idx e + 1) 2); [|done].
  destruct (lookup_lt_is_Some_2 (dns_servers (dnsv s)) (Z.to_nat (de_server_idx e + 1))) as [x Hx]; [lia|].
  erewrite bind_Ret by (by apply get_server_run). by rewrite Hx.
Qed.
End Vars.

(** ** Reading the fields *)

Lemma load_word16_range l : Forall byte l -> 0 <= load_word16 l < 65536.
Proof.
  intros Hl. unfold load_word16. destruct l as [|a [|b [|? ?]]]; try lia. apply Forall_cons in Hl as [Ha Hl]. apply Forall_cons in Hl as [Hb _].
  by apply word16_range.
Qed.

Lemma bytes_at_bytes data off n : Forall byte data -> Forall byte (bytes_at data off n).
Proof. intros Hd. by apply Forall_take, Forall_drop. Qed.

Lemma bytes_at_length data off n : 0 <= off -> 0 <= n -> size_of (bytes_at data off n) = Z.min n (Z.max 0 (size_of data - off)).
Proof. intros Ho Hn. unfold size_of, bytes_at. rewrite length_take, length_drop. lia. Qed.

Lemma bytes_at_sub data off n a b : 0 <= off -> 0 <= Z.of_nat a -> Z.of_nat a + Z.of_nat b <= n ->
  take b (drop a (bytes_at data off n)) = bytes_at data (off + Z.of_nat a) (Z.of_nat b).
Proof.
  intros Ho Ha Hab. unfold bytes_at. rewrite skipn_firstn_comm, take_take, drop_drop. rewrite Nat2Z.id. f_equal; [lia|]. f_equal. lia.
Qed.

(** A field compared as it is, or in the order of the host. *)
Lemma field_is w v : 0 <= w < 65536 -> 0 <= v < 65536 -> (w =? PP_HTONS v) = (lwip_htons w =? v).
Proof.
  intros Hw Hv. change (PP_HTONS v) with (lwip_htons v). rewrite !htons_word by done. unfold word16.
  destruct (Z.eqb_spec w (v / 256 + 256 * (v mod 256))), (Z.eqb_spec (w / 256 + 256 * (w mod 256)) v); try done; exfalso; Z.div_mod_to_equations; lia.
Qed.

Lemma word_at_range data off : Forall byte data -> 0 <= word_at data off < 65536.
Proof.
  intros Hd. unfold word_at. pose proof (load_word16_range _ (bytes_at_bytes data off 2 Hd)). rewrite htons_word by done. unfold word16. Z.div_mod_to_equations. lia.
Qed.

Lemma word_is data off v : Forall byte data -> 0 <= v < 65536 -> (load_word16 (bytes_at data off 2) =? PP_HTONS v) = (word_at data off =? v).
Proof. intros Hd Hv. apply field_is; [by apply load_word16_range, bytes_at_bytes|done]. Qed.

Section Read.
Context `{HeapOps}.

(** A packet with a message that UDP can have. *)
Record message (m : mem) (p : loc) (c : list node) : Prop := {
  ms_packet : packet m (Some p) c;
  ms_bytes : Forall byte (contents c);
  ms_size : total c < 65534
}.

Lemma message_suffix m p c off : message m p c -> 0 <= off <= total c -> at_suffix m p c (take (Z.to_nat off) (contents c)) (drop (Z.to_nat off) (contents c)) /\
  place (take (Z.to_nat off) (contents c)) = off.
Proof.
  intros [Hp Hb Hs] Ho. split; [split; [done|done|by rewrite take_drop|done]|]. unfold place, total in *. rewrite length_take. lia.
Qed.

Lemma copy_run m p c n off : message m p c -> 0 <= n < 65536 -> 0 <= off < 65536 ->
  pbuf_copy_partial (Some p) n off m = Ret (bytes_at (contents c) off n, size_of (bytes_at (contents c) off n)) m.
Proof. intros [Hp _ _] Hn Ho. by apply pbuf_copy_partial_reads. Qed.

Lemma skip_name_bound fuel : forall off suf off', 0 <= off -> Forall byte suf -> skip_name fuel off suf = Some off' -> off + 2 <= off' <= off + Z.of_nat (length suf) + 1.
Proof.
  induction fuel as [|fuel IH]; intros off suf off' H0 Hb; cbn [skip_name]; [done|]. destruct suf as [|n suf]; [done|].
  apply Forall_cons in Hb as [Hn Hb]. unfold byte in Hn. cbn [length]. destruct (_ =? 192); [intros [= <-]; lia|].
  pose proof (length_drop suf (Z.to_nat n)) as L. pose proof (Forall_drop _ (Z.to_nat n) _ Hb) as Hd. destruct (drop (Z.to_nat n) suf) as [|z suf2] eqn:E; [done|]. cbn [length] in L.
  destruct (z =? 0); [intros [= <-]; lia|]. intros E2. apply IH in E2; [|lia|done]. cbn [length] in E2. lia.
Qed.

Lemma answers_step m p c k off : message m p c -> 0 <= off < 65536 -> Z.of_nat k < 65535 ->
  let data := contents c in
  answers_body p (Z.of_nat (S k), off) m = Ret (
    if size_of data <=? off then inr AnsNone
    else match skip_name (S (length (drop (Z.to_nat off) data))) off (drop (Z.to_nat off) data) with
    | None => inr AnsIgnore
    | Some off =>
      if size_of data <? off + 10 then inr AnsIgnore
      else
        let n := word_at data (off + 8) in
        if (word_at data (off + 2) =? DNS_RRCLASS_IN) && ((word_at data off =? DNS_RRTYPE_A) && (n =? 4)) then
          inr (if size_of data <? off + 14 then AnsIgnore else AnsAddr (load_word32 (bytes_at data (off + 10) 4)) (long_at data (off + 4)))
        else if 0xFFFF <? off + 10 + n then inr AnsIgnore
        else inl (Z.of_nat k, off + 10 + n)
    end) m.
Proof.
  intros Hm Ho Hk data. pose proof (ms_size _ _ _ Hm) as Hs. assert (Ht : total c = size_of data) by done. rewrite Ht in Hs.
  destruct (packet_tot_len m p c (ms_packet _ _ _ Hm)) as (b & Eb & Et). unfold answers_body. erewrite bind_Ret by exact Eb. rewrite Et, Ht.
  rewrite (proj2 (Z.ltb_lt 0 (Z.of_nat (S k)))) by lia. cbn [andb]. destruct (Z.leb_spec (size_of data) off) as [Hle|Hlt];
    [by rewrite (proj2 (Z.ltb_ge _ _)) by lia|rewrite (proj2 (Z.ltb_lt _ _)) by lia]. cbn [negb].
  destruct (message_suffix m p c off Hm) as [Hsuf Epl]; [lia|]. fold data in Hsuf, Epl. pose proof (dns_skip_name_run _ _ _ _ _ Hsuf) as Esk. rewrite Epl in Esk.
  erewrite bind_Ret by exact Esk. pose proof (ms_bytes _ _ _ Hm) as Hb. fold data in Hb.
  destruct (skip_name _ off _) as [off'|] eqn:E; cbn [from_option id]; [|done].
  apply skip_name_bound in E; [|lia|by apply Forall_drop]. rewrite length_drop in E. unfold size_of in Hlt, Hs.
  rewrite (proj2 (Z.eqb_neq off' _)) by lia. erewrite bind_Ret by (apply copy_run; [done|unfold SIZEOF_DNS_ANSWER; lia|lia]). fold data. cbv beta iota.
  rewrite bytes_at_length by (unfold SIZEOF_DNS_ANSWER; lia). unfold SIZEOF_DNS_ANSWER. fold (size_of data) in *.
  destruct (Z.ltb_spec (size_of data) (off' + 10)) as [Hsh|Hok]; [by rewrite (proj2 (Z.eqb_neq _ _)) by (unfold size_of in *; lia)|].
  rewrite (proj2 (Z.eqb_eq _ _)) by lia. cbn [negb]. rewrite (proj2 (Z.ltb_ge _ _)) by (unfold size_of in *; lia).
  rewrite u16_small by (unfold size_of in *; lia).
  assert (Hsub : forall a b, Z.of_nat a + Z.of_nat b <= 10 -> take b (drop a (bytes_at data off' 10)) = bytes_at data (off' + Z.of_nat a) (Z.of_nat b)) by (intros; apply bytes_at_sub; lia).
  pose proof (Hsub 0%nat 2%nat ltac:(lia)) as H0. rewrite drop_0 in H0. rewrite H0, !Hsub by lia. clear H0 Hsub.
  change (Z.of_nat 0) with 0. change (Z.of_nat 2) with 2. change (Z.of_nat 4) with 4. change (Z.of_nat 8) with 8. rewrite Z.add_0_r.
  rewrite !word_is by (done || (unfold DNS_RRCLASS_IN, DNS_RRTYPE_A; lia)). cbv zeta. fold (word_at data (off' + 8)). fold (long_at data (off' + 4)).
  destruct (_ && _).
  { erewrite bind_Ret by (apply copy_run; [done|lia|unfold size_of in *; lia]). fold data. cbv beta iota. rewrite bytes_at_length by lia.
    destruct (Z.ltb_spec (size_of data) (off' + 14)); [by rewrite (proj2 (Z.eqb_neq _ _)) by lia|by rewrite (proj2 (Z.eqb_eq _ _)) by lia]. }
  pose proof (word_at_range data (off' + 8) Hb). destruct (Z.ltb_spec 0xFFFF (off' + 10 + word_at data (off' + 8))); [done|].
  rewrite (u16_small (off' + 10 + _)), u16_small by lia. unfold mret, M_ret. do 3 f_equal. lia.
Qed.

Lemma answers_run m p c k : forall fuel off, message m p c -> 0 <= off < 65536 -> Z.of_nat k < 65536 -> (k < fuel)%nat ->
  iter fuel (answers_body p) (Z.of_nat k, off) m = Ret (find_answer (contents c) k off) m.
Proof.
  induction k as [|k IH]; intros fuel off Hm Ho Hk Hf; (destruct fuel as [|fuel]; [lia|]); cbn [iter find_answer].
  - destruct (packet_tot_len m p c (ms_packet _ _ _ Hm)) as (b & Eb & _). unfold answers_body. by rewrite (bind_Ret _ _ m (inr AnsNone) m) by (by erewrite bind_Ret by exact Eb).
  - erewrite bind_Ret by (apply (answers_step m p c); [done|done|lia]). cbv zeta. destruct (_ <=? off) eqn:E1; [done|].
    apply Z.leb_gt in E1. destruct (skip_name _ off _) as [off'|] eqn:E; [|done]. apply skip_name_bound in E; [|lia|by apply Forall_drop, (ms_bytes _ _ _ Hm)].
    destruct (_ <? off' + 10); [done|]. destruct (_ && _); [by destruct (_ <? off' + 14)|]. destruct (Z.ltb_spec 0xFFFF (off' + 10 + word_at (contents c) (off' + 8))); [done|].
    pose proof (word_at_range (contents c) (off' + 8) (ms_bytes _ _ _ Hm)). apply IH; [done|lia|lia|lia].
Qed.
End Read.

Lemma cmp_name_bound fuel : forall q off suf off', Forall byte suf -> cmp_name fuel q off suf = Same off' -> off < off' <= off + Z.of_nat (length suf).
Proof.
  induction fuel as [|fuel IH]; intros q off suf off' Hb; cbn [cmp_name]; [done|]. destruct suf as [|n suf]; [done|].
  apply Forall_cons in Hb as [Hn Hb]. unfold byte in Hn. destruct (_ =? 192); [done|].
  destruct (cmp_label (Z.to_nat n) q suf) as [| |[q' suf']] eqn:E; [done|done|]. apply cmp_label_drop in E as (-> & _ & Hle & _).
  pose proof (length_drop suf (Z.to_nat n)) as L. pose proof (Forall_drop _ (Z.to_nat n) _ Hb) as Hd. destruct (drop (Z.to_nat n) suf) as [|z suf2]; [done|].
  cbn [length] in *. destruct (z =? 0); [intros [= <-]; lia|]. intros E2. apply IH in E2; [|done]. cbn [length] in E2. lia.
Qed.

(** ** The decision *)

Section Decide.
Context `{W : Wire} `{CF : !CustomFree} `{BU : !Build} `{US : !UdpState} `{DS : !DnsState} `{DU : !DnsUser}.
Context (odd_at : option ptr -> bool) (ip4_frag : loc -> nat -> Z -> M eth Z).

(** What follows a decision. *)
Definition carry_out (p : loc) (v : dns_verdict) : M eth unit :=
  match v with
  | Ignored => ignore_packet p
  | Strayed => fun s => Stop OutOfBounds s
  | Failed i => on_pbuf (pbuf_free (Some p));; dns_call_found i None;; set_de i (set_de_state DNS_STATE_UNUSED)
  | Retried i =>
    set_de i (fun e => set_de_tmr 1 (set_de_retries (DNS_MAX_RETRIES - 1) e));;
    dns_check_entry odd_at ip4_frag i;;
    ignore_packet p
  | Resolved i ip ttl => set_de i (set_de_ipaddr ip);; on_pbuf (pbuf_free (Some p));; dns_correct_response i ttl
  end.

Lemma answer_decided p c hdr i e off s : message (emem s) p c -> dns_good (dnsv s) -> dns_table (dnsv s) !! i = Some e ->
  hdr = take 12 (contents c) -> 0 <= off < 65535 ->
  (let nanswers := lwip_htons (load_word16 (take 2 (drop 6 hdr))) in
   let flags2 := nth 3 hdr 0 in
   '(qry, n) ← on_pbuf (pbuf_copy_partial (Some p) SIZEOF_DNS_QUERY off);
   if negb (n =? SIZEOF_DNS_QUERY) then ignore_packet p
   else if negb (load_word16 (take 2 (drop 2 qry)) =? PP_HTONS DNS_RRCLASS_IN)
        || negb (load_word16 (take 2 qry) =? PP_HTONS DNS_RRTYPE_A) then ignore_packet p
   else if 0xFFFF <? off + SIZEOF_DNS_QUERY then ignore_packet p
   else
     let res_idx := u16 (off + SIZEOF_DNS_QUERY) in
     let fail := on_pbuf (pbuf_free (Some p));; dns_call_found i None;; set_de i (set_de_state DNS_STATE_UNUSED) in
     if negb (Z.land flags2 DNS_FLAG2_ERR_MASK =? 0) then
       backup ← dns_backupserver_available e;
       if (backup : bool) then
         set_de i (fun e => set_de_tmr 1 (set_de_retries (DNS_MAX_RETRIES - 1) e));;
         dns_check_entry odd_at ip4_frag i;;
         ignore_packet p
       else fail
     else
       r ← on_pbuf (iter (S (Z.to_nat nanswers)) (answers_body p) (nanswers, res_idx));
       match r with
       | AnsIgnore => ignore_packet p
       | AnsAddr ip ttl =>
         set_de i (set_de_ipaddr ip);;
         on_pbuf (pbuf_free (Some p));;
         dns_correct_response i ttl
       | AnsNone => fail
       end) s = carry_out p (decide_answer (dnsv s) i e (contents c) off) s.
Proof.
  intros Hm Hg He -> Ho. cbv zeta. set (data := contents c) in *. pose proof (ms_bytes _ _ _ Hm) as Hb. pose proof (ms_size _ _ _ Hm) as Hs.
  assert (Ht : total c = size_of data) by done. rewrite Ht in Hs. fold data in Hb. unfold decide_answer.
  erewrite bind_Ret by (apply on_pbuf_run, copy_run; [exact Hm|done|lia]). fold data. cbv beta iota. unfold SIZEOF_DNS_QUERY. rewrite bytes_at_length by lia.
  destruct (Z.ltb_spec (size_of data) (off + 4)); [by rewrite (proj2 (Z.eqb_neq _ _)) by lia|rewrite (proj2 (Z.eqb_eq _ _)) by lia]. cbn [negb].
  pose proof (bytes_at_sub data off 4 0 2 ltac:(lia) ltac:(lia) ltac:(lia)) as E0. rewrite drop_0, Z.add_0_r in E0. change (Z.of_nat 2) with 2 in E0.
  rewrite E0, bytes_at_sub by lia. change (Z.of_nat 2) with 2. rewrite !word_is by (done || (unfold DNS_RRCLASS_IN, DNS_RRTYPE_A; lia)).
  destruct (negb _ || negb _); [done|]. rewrite (proj2 (Z.ltb_ge _ _)) by lia. rewrite u16_small by lia.
  replace (nth 3 (take 12 data) 0) with (nth 3 data 0) by (rewrite <- (take_drop 12 data) at 1; destruct (decide (3 < length (take 12 data))%nat) as [L|L];
    [by rewrite app_nth1|rewrite (drop_ge data) by (rewrite length_take in L; lia); by rewrite app_nil_r]).
  destruct (negb (Z.land _ _ =? 0)).
  { pose proof (dg_indices _ Hg) as Hi. rewrite Forall_forall in Hi. specialize (Hi e (list_elem_of_lookup_2 _ _ _ He)).
    erewrite bind_Ret by (apply backup_run; [done|lia]). by destruct (has_backup (dnsv s) e). }
  replace (lwip_htons (load_word16 (take 2 (drop 6 (take 12 data))))) with (word_at data 6) by (unfold word_at, bytes_at; by rewrite skipn_firstn_comm, take_take).
  pose proof (word_at_range data 6 Hb) as Hw. pose proof (answers_run (emem s) p c (Z.to_nat (word_at data 6)) (S (Z.to_nat (word_at data 6))) (off + 4) Hm) as Er.
  rewrite Z2Nat.id in Er by lia. erewrite bind_Ret by (apply on_pbuf_run, Er; lia). fold data. by destruct (find_answer data _ _).
Qed.

Lemma dns_recv_run p c addr s : message (emem s) p c -> dns_good (dnsv s) ->
  dns_recv odd_at ip4_frag p addr s = carry_out p (dns_decide (dnsv s) addr (contents c)) s.
Proof.
  intros Hm Hg. pose proof (ms_size _ _ _ Hm) as Hs. destruct (packet_tot_len (emem s) p c (ms_packet _ _ _ Hm)) as (b & Eb & Et).
  unfold dns_recv, dns_decide, SIZEOF_DNS_HDR, SIZEOF_DNS_QUERY. erewrite bind_Ret by (by apply on_pbuf_run). rewrite Et. change (total c) with (size_of (contents c)) in *.
  set (data := contents c) in *. destruct (Z.ltb_spec (size_of data) (12 + 4)) as [|Hlen]; [done|].
  erewrite bind_Ret by (apply on_pbuf_run, copy_run; [exact Hm|done|lia]). fold data. cbv beta iota. rewrite bytes_at_length by lia. rewrite (proj2 (Z.eqb_eq _ _)) by lia. cbn [negb].
  set (hdr := bytes_at data 0 12). assert (Eh : hdr = take 12 data) by (unfold hdr, bytes_at; by rewrite drop_0). rewrite Eh.
  erewrite bind_Ret by reflexivity. rewrite take_take. change (2 `min` 12)%nat with 2%nat.
  change (lwip_htons (load_word16 (take 2 data))) with (word_at data 0). destruct (find_txid (word_at data 0) (dns_table (dnsv s))) as [i|] eqn:Ei; [|done].
  destruct (find_txid_some _ _ _ Ei) as (e & He & _). rewrite He. destruct (server_here _ _ _ Hg He) as [srv Esrv]. unfold dns_recv_entry.
  assert (En : forall k, (k < 12)%nat -> nth k (take 12 data) 0 = nth k data 0) by (intros k Hk; rewrite <- (take_drop 12 data) at 2; rewrite app_nth1; [done|rewrite length_take; unfold size_of in *; lia]).
  rewrite En by lia. destruct (Z.land (nth 2 data 0) DNS_FLAG1_RESPONSE =? 0); [done|]. cbn [orb].
  replace (lwip_htons (load_word16 (take 2 (drop 4 (take 12 data))))) with (word_at data 4) by (unfold word_at, bytes_at; by rewrite skipn_firstn_comm, take_take).
  destruct (negb (word_at data 4 =? 1)); [done|]. cbn [orb]. erewrite bind_Ret by (by apply get_de_run). erewrite bind_Ret by (by apply get_server_run).
  rewrite Esrv. cbn [from_option id]. destruct (negb (ip4_addr_eq addr srv)); [done|].
  destruct (message_suffix (emem s) p c 12 Hm) as [Hsuf Epl]; [change (total c) with (size_of data); lia|]. fold data in Hsuf, Epl.
  pose proof (dns_compare_name_run _ _ _ (de_name e) _ _ Hsuf) as Ec. rewrite Epl in Ec. change (Z.to_nat 12) with 12%nat in *.
  destruct (cmp_name _ _ _ _) as [| |off] eqn:En2; cbn [cmp_outcome] in Ec.
  - by erewrite bind_Ret by (by apply on_pbuf_run).
  - by erewrite bind_Stop by (by apply on_pbuf_stop).
  - erewrite bind_Ret by (by apply on_pbuf_run).
    apply cmp_name_bound in En2; [|by apply Forall_drop, (ms_bytes _ _ _ Hm)]. rewrite length_drop in En2. unfold size_of in Hs, Hlen.
    rewrite (proj2 (Z.eqb_neq off _)) by lia. apply (answer_decided p c (take 12 data) i e off s); done || lia.
Qed.

(** C17. What [dns_recv] does with a message, for every message in a packet of
    any chain of pbufs, every state of the table and every configuration of
    servers: it is a function of the message's bytes and of the table. A message
    shorter than header and question, for no request that waits, from another
    address than the asked server's, without the response flag, with another
    number of questions than one, with another name or another question, or with
    a record that is not whole before the first address, is released and changes
    nothing; an error code sends the request to the other server, or fails it
    when there is none; the first address record of class IN answers it, and a
    message without one fails it. The comparison of the names can run past the
    array of the request's name. *)
Theorem dns_recv_decides p c addr s : message (emem s) p c -> dns_good (dnsv s) ->
  dns_recv odd_at ip4_frag p addr s = carry_out p (dns_decide (dnsv s) addr (contents c)) s.
Proof. apply dns_recv_run. Qed.
End Decide.

(** ** Well-formed answers *)

(** A label that fits its length byte. *)
Definition wire_label (l : list Z) : Prop := (0 < length l < 64)%nat.

(** A name as the owner of a record: labels, and a pointer or the end. *)
Record owner : Type := Owner { ow_labels : list (list Z); ow_pointer : option Z }.

Definition owner_bytes (o : owner) : list Z := encode (ow_labels o) ++ match ow_pointer o with Some q => be16 (0xc000 + q) | None => [0] end.

(** The root alone is not among them. *)
Definition owner_ok (o : owner) : Prop :=
  Forall wire_label (ow_labels o) /\ match ow_pointer o with Some q => 0 <= q < 0x4000 | None => ow_labels o <> [] end.

Record rr : Type := RR { rr_owner : owner; rr_type : Z; rr_class : Z; rr_ttl : Z; rr_data : list Z }.

Definition rr_tail (r : rr) : list Z :=
  be16 (rr_type r) ++ be16 (rr_class r) ++ bytes32 (lwip_htonl (rr_ttl r)) ++ be16 (size_of (rr_data r)) ++ rr_data r.
Definition rr_bytes (r : rr) : list Z := owner_bytes (rr_owner r) ++ rr_tail r.

Record rr_ok (r : rr) : Prop := {
  rk_owner : owner_ok (rr_owner r);
  rk_type : 0 <= rr_type r < 65536;
  rk_class : 0 <= rr_class r < 65536;
  rk_ttl : 0 <= rr_ttl r < 2 ^ 32;
  rk_size : size_of (rr_data r) < 65536
}.

(** An address record of class IN. *)
Definition is_address (r : rr) : bool := (rr_class r =? DNS_RRCLASS_IN) && ((rr_type r =? DNS_RRTYPE_A) && (size_of (rr_data r) =? 4)).

(** The first of them. *)
Fixpoint first_address (rs : list rr) : option (Z * Z) :=
  match rs with
  | [] => None
  | r :: rs => if is_address r then Some (load_word32 (rr_data r), rr_ttl r) else first_address rs
  end.

(** A reply: its identification and flags, the counts of the other sections, the
    labels of its one question, the records, and what follows them. *)
Record reply : Type := Reply {
  rp_txid : Z;
  rp_flags1 : Z;
  rp_flags2 : Z;
  rp_counts : list Z;
  rp_labels : list (list Z);
  rp_records : list rr;
  rp_rest : list Z
}.

Definition reply_front (a : reply) : list Z :=
  be16 (rp_txid a) ++ [rp_flags1 a; rp_flags2 a] ++ be16 1 ++ be16 (size_of (rp_records a)) ++ rp_counts a.

Definition reply_bytes (a : reply) : list Z :=
  reply_front a ++ encode (rp_labels a) ++ 0 :: be16 DNS_RRTYPE_A ++ be16 DNS_RRCLASS_IN ++ concat (map rr_bytes (rp_records a)) ++ rp_rest a.

Record reply_ok (a : reply) : Prop := {
  po_txid : 0 <= rp_txid a < 65536;
  po_response : Z.land (rp_flags1 a) DNS_FLAG1_RESPONSE <> 0;
  po_counts : length (rp_counts a) = 4%nat;
  po_labels : rp_labels a <> [] /\ Forall wire_label (rp_labels a);
  po_records : Forall rr_ok (rp_records a) /\ size_of (rp_records a) < 65536;
  po_size : size_of (reply_bytes a) < 65534
}.

(** The two top bits of a length byte. *)
Lemma label_bits n : 0 <= n < 64 -> (Z.land n 0xc0 =? 0xc0) = false.
Proof.
  intros Hn. assert (C : forallb (fun k => negb (Z.land (Z.of_nat k) 0xc0 =? 0xc0)) (seq 0 64) = true) by reflexivity. rewrite forallb_forall in C.
  specialize (C (Z.to_nat n)). rewrite Z2Nat.id in C by lia. apply negb_true_iff, C, in_seq. lia.
Qed.

Lemma pointer_bits n : 192 <= n < 256 -> (Z.land n 0xc0 =? 0xc0) = true.
Proof.
  intros Hn. assert (C : forallb (fun k => Z.land (Z.of_nat k) 0xc0 =? 0xc0) (seq 192 64) = true) by reflexivity. rewrite forallb_forall in C.
  specialize (C (Z.to_nat n)). rewrite Z2Nat.id in C by lia. apply C, in_seq. lia.
Qed.

Lemma pointer_head q : 0 <= q < 0x4000 -> exists hi lo, be16 (0xc000 + q) = [hi; lo] /\ 192 <= hi < 256.
Proof. intros Hq. exists ((0xc000 + q) / 256), ((0xc000 + q) mod 256). split; [done|]. Z.div_mod_to_equations. lia. Qed.

(** What follows a label begins with a length, a pointer or the end. *)
Lemma skip_name_owner ls p rest : owner_ok (Owner ls p) -> forall fuel off, (length ls < fuel)%nat ->
  skip_name fuel off (owner_bytes (Owner ls p) ++ rest) = Some (off + size_of (owner_bytes (Owner ls p))).
Proof.
  unfold owner_ok, owner_bytes, size_of. cbn [ow_labels ow_pointer]. induction ls as [|l ls IH]; intros [Hl Hp] fuel off Hf; (destruct fuel as [|fuel]; [lia|]).
  - destruct p as [q|]; [|done]. destruct (pointer_head q Hp) as (hi & lo & -> & Hhi). cbn [encode map concat app skip_name length]. rewrite pointer_bits by done. f_equal; lia.
  - apply Forall_cons in Hl as [H1 Hl]. rewrite encode_cons. cbn [app skip_name length] in *. unfold wire_label in H1. rewrite label_bits by lia.
    set (t := match p with Some q => be16 (0xc000 + q) | None => [0] end) in *. rewrite <- !app_assoc. rewrite Nat2Z.id, drop_app_length, !length_app.
    assert (E : (ls = [] /\ p = None) \/ exists z suf, encode ls ++ t ++ rest = z :: suf /\ z <> 0).
    { destruct ls as [|l' ls].
      - destruct p as [q|]; [|by left]. right. destruct (pointer_head q Hp) as (hi & lo & E & ?). exists hi, (lo :: rest). unfold t. rewrite E. split; [done|lia].
      - right. eexists _, _. split; [done|]. apply Forall_cons in Hl as [H2 _]. unfold wire_label in H2. lia. }
    destruct E as [[-> ->]|(z & suf & E & Hz)]; [cbn; f_equal; lia|]. rewrite E, (proj2 (Z.eqb_neq _ _)) by done.
    rewrite <- E, app_assoc, IH; [f_equal; rewrite !length_app; lia| |lia]. split; [done|]. destruct p; [done|]. intros ->. unfold t in E. cbn in E. congruence.
Qed.

Lemma owner_length o : owner_ok o -> (length (ow_labels o) < length (owner_bytes o))%nat.
Proof.
  destruct o as [ls p]. intros [Hl _]. unfold owner_bytes. cbn [ow_labels ow_pointer]. rewrite length_app.
  assert (length ls <= length (encode ls))%nat; [|destruct p; simpl; lia]. clear Hl. induction ls as [|l ls IH]; [done|]. rewrite encode_cons. cbn [length]. rewrite length_app. lia.
Qed.

(** A field of a record. *)
Lemma bytes_at_app pre x rest off n : off = size_of pre -> n = size_of x -> bytes_at (pre ++ x ++ rest) off n = x.
Proof. intros -> ->. unfold bytes_at, size_of. by rewrite !Nat2Z.id, drop_app_length, take_app_length. Qed.

Lemma word_at_app pre x b rest off : off = size_of pre -> 0 <= x < 65536 -> word_at (pre ++ (be16 x ++ b) ++ rest) off = x.
Proof. intros Ho Hx. unfold word_at. rewrite <- (app_assoc (be16 x)), bytes_at_app by done. by apply ntohs_be16. Qed.

Lemma long_at_app pre x b rest off : off = size_of pre -> 0 <= x < 2 ^ 32 -> long_at (pre ++ (bytes32 (lwip_htonl x) ++ b) ++ rest) off = x.
Proof.
  intros Ho Hx. unfold long_at. rewrite <- (app_assoc (bytes32 _)), bytes_at_app by done. rewrite load_bytes32, lwip_htonl_involutive; [done|done|].
  unfold lwip_htonl, PP_HTONL, u32. apply Z.mod_pos_bound. lia.
Qed.

Lemma size_app {A} (a b : list A) : size_of (a ++ b) = size_of a + size_of b.
Proof. unfold size_of. rewrite length_app. lia. Qed.

(** The fields of a record behind its owner. *)
Lemma record_fields pre r more : rr_ok r -> let data := pre ++ rr_tail r ++ more in let off := size_of pre in
  word_at data off = rr_type r /\ word_at data (off + 2) = rr_class r /\ long_at data (off + 4) = rr_ttl r /\
  word_at data (off + 8) = size_of (rr_data r) /\ bytes_at data (off + 10) (size_of (rr_data r)) = rr_data r.
Proof.
  intros [_ Ht Hc Hl Hs] data off. assert (H0 : 0 <= size_of (rr_data r)) by (unfold size_of; lia).
  set (t := be16 (rr_type r)). set (c := be16 (rr_class r)). set (l := bytes32 (lwip_htonl (rr_ttl r))). set (n := be16 (size_of (rr_data r))).
  assert (Ea : forall a b, t ++ c ++ l ++ n ++ rr_data r = a ++ b -> data = (pre ++ a) ++ b ++ more).
  { intros a b E. unfold data, rr_tail. fold t c l n. rewrite E. by rewrite <- !app_assoc. }
  split_and!.
  - rewrite (Ea [] _ eq_refl). apply word_at_app; [by rewrite app_nil_r|done].
  - rewrite (Ea t (c ++ l ++ n ++ rr_data r)) by done. apply word_at_app; [by rewrite size_app|done].
  - rewrite (Ea (t ++ c) (l ++ n ++ rr_data r)) by (by rewrite <- app_assoc). apply long_at_app; [by rewrite !size_app|done].
  - rewrite (Ea (t ++ c ++ l) (n ++ rr_data r)) by (by rewrite <- !app_assoc). apply word_at_app; [by rewrite !size_app|done].
  - rewrite (Ea (t ++ c ++ l ++ n) (rr_data r)) by (by rewrite <- !app_assoc). apply bytes_at_app; [by rewrite !size_app|done].
Qed.

Lemma find_answer_records rs : forall pre rest off, off = size_of pre -> Forall rr_ok rs -> size_of (pre ++ concat (map rr_bytes rs) ++ rest) < 65534 ->
  find_answer (pre ++ concat (map rr_bytes rs) ++ rest) (length rs) off = match first_address rs with Some (ip, ttl) => AnsAddr ip ttl | None => AnsNone end.
Proof.
  induction rs as [|r rs IH]; intros pre rest off Ho Hrs Hsz; [done|]. apply Forall_cons in Hrs as [Hr Hrs]. pose proof (rk_owner _ Hr) as Hw.
  cbn [length find_answer first_address map concat] in *. pose proof (owner_length _ Hw) as Lo. set (more := concat (map rr_bytes rs) ++ rest).
  assert (Ed : pre ++ (rr_bytes r ++ concat (map rr_bytes rs)) ++ rest = pre ++ owner_bytes (rr_owner r) ++ rr_tail r ++ more) by (unfold rr_bytes, more; by rewrite <- !app_assoc).
  rewrite Ed in Hsz |- *. set (data := pre ++ owner_bytes (rr_owner r) ++ rr_tail r ++ more) in *.
  assert (Lt : size_of (rr_tail r) = 10 + size_of (rr_data r)) by (unfold rr_tail; rewrite !size_app; change (size_of (be16 _)) with 2; change (size_of (bytes32 _)) with 4; lia).
  assert (Ls : size_of data = off + size_of (owner_bytes (rr_owner r)) + 10 + size_of (rr_data r) + size_of more) by (unfold data; rewrite !size_app, Lt; lia).
  assert (Hpos : 0 <= size_of (rr_data r) /\ 0 <= size_of more /\ 0 <= off) by (unfold size_of in *; lia).
  rewrite (proj2 (Z.leb_gt _ _)) by (unfold size_of in *; lia).
  assert (Es : drop (Z.to_nat off) data = owner_bytes (rr_owner r) ++ rr_tail r ++ more) by (unfold data; rewrite Ho; unfold size_of; by rewrite Nat2Z.id, drop_app_length).
  rewrite Es. destruct (rr_owner r) as [ls p] eqn:Eo. cbn [ow_labels] in Lo. rewrite skip_name_owner by (try done; rewrite length_app; lia). set (o := owner_bytes (Owner ls p)) in *.
  pose proof (record_fields (pre ++ o) r more Hr) as (F1 & F2 & F3 & F4 & F5). rewrite <- !app_assoc, size_app, <- Ho in F1, F2, F3, F4, F5. fold data in F1, F2, F3, F4, F5.
  set (off' := off + size_of o) in *. rewrite (proj2 (Z.ltb_ge _ _)) by lia. cbv zeta. rewrite F1, F2, F3, F4. unfold is_address.
  destruct (_ && _) eqn:Ea.
  - apply andb_true_iff in Ea as [_ [_ Ea%Z.eqb_eq]%andb_true_iff]. rewrite Ea in F5. rewrite F5. by rewrite (proj2 (Z.ltb_ge _ _)) by lia.
  - rewrite (proj2 (Z.ltb_ge _ _)) by lia. assert (Ed2 : data = (pre ++ o ++ rr_tail r) ++ concat (map rr_bytes rs) ++ rest) by (unfold data, more; by rewrite <- !app_assoc).
    rewrite Ed2. apply IH; [rewrite !size_app, Lt; lia|done|by rewrite <- Ed2].
Qed.

(** ** The name of a request *)

(** The same letters, whatever their case. *)
Definition same_name (a b : list Z) : Prop := Forall2 (fun x y => lwip_tolower x = lwip_tolower y) a b.

Lemma cmp_label_accepts a b junk rest : same_name a b -> cmp_label (length b) (a ++ junk) (b ++ rest) = Same (junk, rest).
Proof. induction 1 as [|x y a b Hxy _ IH]; [done|]. cbn [length app cmp_label]. by rewrite Hxy, Z.eqb_refl. Qed.

(** The question is compared with as much of the array as it has letters: the
    bytes between its labels, and those behind its end, do not matter. *)
Lemma cmp_name_accepts ls ls' : Forall2 same_name ls ls' -> ls <> [] -> Forall wire_label ls' -> forall junk rest fuel off, (length ls <= fuel)%nat ->
  cmp_name fuel (join ls ++ junk) off (encode ls' ++ 0 :: rest) = Same (off + size_of (encode ls') + 1).
Proof.
  unfold size_of. induction 1 as [|l l' ls ls' Hl Hls IH]; intros Hne Hw junk rest fuel off Hf; [done|]. clear Hne. destruct fuel as [|fuel]; [simpl in Hf; lia|].
  apply Forall_cons in Hw as [H1 Hw]. unfold wire_label in H1. rewrite encode_cons. cbn [app cmp_name length]. rewrite label_bits by lia. rewrite Nat2Z.id, <- app_assoc.
  destruct ls as [|l2 ls].
  - inversion Hls; subst. cbn [join]. rewrite cmp_label_accepts by done. cbn. f_equal. rewrite app_nil_r. lia.
  - inversion Hls as [|? l2' ? ls2' Hl2 Hls2]; subst. rewrite join_cons, <- app_assoc, cmp_label_accepts by done.
    pose proof Hw as [H2 _]%Forall_cons. unfold wire_label in H2.
    rewrite (encode_cons l2') at 1. cbn [app]. rewrite (proj2 (Z.eqb_neq _ _)) by lia. cbn [tail].
    change (Z.of_nat (length l2') :: (l2' ++ encode ls2') ++ 0 :: rest) with (encode (l2' :: ls2') ++ 0 :: rest). rewrite IH by (done || simpl in *; lia).
    f_equal. rewrite length_app. lia.
Qed.

Lemma encode_labels ls : (length ls <= length (encode ls))%nat.
Proof. induction ls as [|l ls IH]; [done|]. rewrite encode_cons. cbn [length]. rewrite length_app. lia. Qed.

(** A reply from the server that the request of entry [i] is waiting for; its
    question has the labels [ls]. *)
Record replies (d : dns_vars) (addr : Z) (i : nat) (e : dns_table_entry) (ls : list (list Z)) (a : reply) : Prop := {
  rs_ok : reply_ok a;
  rs_found : find_txid (rp_txid a) (dns_table d) = Some i;
  rs_entry : dns_table d !! i = Some e;
  rs_server : dns_servers d !! Z.to_nat (de_server_idx e) = Some addr;
  rs_same : Forall2 same_name ls (rp_labels a)
}.

(** What it is decided to be. *)
Definition reply_verdict (d : dns_vars) (i : nat) (e : dns_table_entry) (a : reply) : dns_verdict :=
  if negb (Z.land (rp_flags2 a) DNS_FLAG2_ERR_MASK =? 0) then (if has_backup d e then Retried i else Failed i)
  else match first_address (rp_records a) with Some (ip, ttl) => Resolved i ip ttl | None => Failed i end.

Lemma reply_fields a q : reply_ok a -> let data := reply_front a ++ q in
  word_at data 0 = rp_txid a /\ word_at data 4 = 1 /\ word_at data 6 = size_of (rp_records a) /\ nth 2 data 0 = rp_flags1 a /\ nth 3 data 0 = rp_flags2 a.
Proof.
  intros [Ht _ _ _ [_ Hn] _] data. unfold data, reply_front. split_and!; [by apply (word_at_app [])|by apply (word_at_app (be16 (rp_txid a) ++ [_; _]) 1)| |done|done].
  apply (word_at_app (be16 (rp_txid a) ++ [rp_flags1 a; rp_flags2 a] ++ be16 1) (size_of (rp_records a))); [done|unfold size_of in *; lia].
Qed.

Lemma reply_front_size a : reply_ok a -> size_of (reply_front a) = 12.
Proof. intros [_ _ Hc _ _ _]. unfold reply_front. unfold size_of. rewrite !length_app, Hc. done. Qed.

(** The question and the records of a reply whose question begins at
    [size_of pre]. *)
Lemma reply_answer d i e a pre : reply_ok a -> let q := be16 DNS_RRTYPE_A ++ be16 DNS_RRCLASS_IN ++ concat (map rr_bytes (rp_records a)) ++ rp_rest a in
  reply_bytes a = pre ++ q -> decide_answer d i e (reply_bytes a) (size_of pre) = reply_verdict d i e a.
Proof.
  intros Ha q Eq. set (data := reply_bytes a) in *. pose proof (po_size _ Ha) as Hsz. fold data in Hsz. pose proof (po_records _ Ha) as [Hrs _].
  pose proof (reply_fields a (encode (rp_labels a) ++ 0 :: q) Ha) as (_ & _ & E6 & _ & E3). fold (reply_bytes a) in E6, E3. change (reply_front a ++ _) with data in E6, E3.
  set (records := concat (map rr_bytes (rp_records a)) ++ rp_rest a) in *. assert (Lq : size_of q = 4 + size_of records) by (unfold q, records; rewrite !size_app; change (size_of (be16 _)) with 2; lia).
  assert (Lo : size_of data = size_of pre + 4 + size_of records) by (rewrite Eq, size_app; lia). assert (0 <= size_of records) by (unfold size_of; lia).
  unfold decide_answer, reply_verdict. rewrite (proj2 (Z.ltb_ge _ _)) by lia.
  assert (Eo : word_at data (size_of pre) = DNS_RRTYPE_A) by (rewrite Eq; apply (word_at_app _ DNS_RRTYPE_A [] (be16 DNS_RRCLASS_IN ++ records)); done).
  assert (Eo2 : word_at data (size_of pre + 2) = DNS_RRCLASS_IN).
  { rewrite Eq. replace q with (be16 DNS_RRTYPE_A ++ (be16 DNS_RRCLASS_IN ++ []) ++ records) by (unfold q; by rewrite app_nil_r). rewrite app_assoc.
    apply word_at_app; [by rewrite size_app|done]. }
  rewrite Eo, Eo2, E3, E6, !Z.eqb_refl. cbn [negb orb]. destruct (negb _); [done|]. unfold size_of at 1. rewrite Nat2Z.id.
  assert (Er : data = (pre ++ be16 DNS_RRTYPE_A ++ be16 DNS_RRCLASS_IN) ++ records) by (rewrite Eq; unfold q; by rewrite <- !app_assoc).
  rewrite Er. unfold records in *. rewrite find_answer_records; [by destruct (first_address _) as [[ip ttl]|]|by rewrite size_app|done|by rewrite <- Er].
Qed.

Lemma reply_decided d addr i e ls junk a : replies d addr i e ls a -> de_name e = join ls ++ junk -> dns_decide d addr (reply_bytes a) = reply_verdict d i e a.
Proof.
  intros [Ha Hf He Hs Hsame] En. pose proof (po_labels _ Ha) as [Hne Hw]. pose proof (reply_front_size a Ha) as Lf. pose proof (encode_labels (rp_labels a)) as Le.
  set (q := be16 DNS_RRTYPE_A ++ be16 DNS_RRCLASS_IN ++ concat (map rr_bytes (rp_records a)) ++ rp_rest a).
  assert (Ed : reply_bytes a = reply_front a ++ encode (rp_labels a) ++ 0 :: q) by done. assert (Lls : length ls = length (rp_labels a)) by (by eapply Forall2_length).
  pose proof (reply_fields a (encode (rp_labels a) ++ 0 :: q) Ha) as (E0 & E4 & _ & E2 & _). rewrite <- Ed in E0, E4, E2.
  unfold dns_decide. rewrite (proj2 (Z.ltb_ge _ _)) by (rewrite Ed, !size_app, Lf; unfold SIZEOF_DNS_HDR, SIZEOF_DNS_QUERY, size_of; simpl length; lia).
  rewrite E0, Hf, He, E4, Hs, E2. rewrite (proj2 (Z.eqb_neq _ _)) by apply Ha. cbn [Z.eqb Pos.eqb negb orb from_option id].
  unfold ip4_addr_eq. rewrite Z.eqb_refl. cbn [negb]. rewrite Ed at 1 2. rewrite !drop_app_length' by (unfold size_of in Lf; lia). rewrite En. unfold SIZEOF_DNS_HDR.
  rewrite cmp_name_accepts; [|done|by destruct ls, (rp_labels a)|done|rewrite length_app; lia].
  replace (12 + size_of (encode (rp_labels a)) + 1) with (size_of (reply_front a ++ encode (rp_labels a) ++ [0])) by (rewrite !size_app, Lf; change (size_of [0]) with 1; lia).
  apply reply_answer; [done|]. rewrite Ed. unfold q. by rewrite <- !app_assoc.
Qed.

Lemma c_string_of a junk : Forall (fun c => c <> 0) a -> c_string (a ++ 0 :: junk) = Some a.
Proof. induction 1 as [|c a Hc _ IH]; [done|]. cbn [app c_string]. rewrite (proj2 (Z.eqb_neq _ _)) by done. by rewrite IH. Qed.

Lemma join_app ls more : ls <> [] -> more <> [] -> join (ls ++ more) = join ls ++ 46 :: join more.
Proof.
  intros Hne Hm. induction ls as [|l ls IH]; [done|]. destruct ls as [|l2 ls]; [by destruct more|]. cbn [app]. rewrite !join_cons. cbn [app] in IH. rewrite IH by done.
  by rewrite <- app_assoc.
Qed.

Lemma join_nonzero ls : Forall plain_label ls -> Forall (fun c => c <> 0) (join ls).
Proof.
  induction 1 as [|l ls Hl Hls IH]; [done|]. assert (Hl' : Forall (fun c => c <> 0) l) by (eapply Forall_impl; [exact Hl|]; by intros x [_ ?]).
  destruct ls as [|l2 ls]; [done|]. rewrite join_cons. apply Forall_app. split; [done|]. by apply Forall_cons.
Qed.

(** ** The answer reaches the requester *)

Section Answer.
Context `{W : Wire} `{CF : !CustomFree} `{BU : !Build} `{US : !UdpState} `{DS : !DnsState} `{DU : !DnsUser}.
Context (odd_at : option ptr -> bool) (ip4_frag : loc -> nat -> Z -> M eth Z).

(** The callback of a request. *)
Definition notify (r : dns_req_entry) (name : list Z) (addr : option Z) : M eth unit :=
  match rq_found r with Some f => dns_found_fn f name addr (rq_arg r) | None => mret tt end.

Definition no_request (i : nat) (d : dns_vars) : dns_vars :=
  match dns_requests d !! i with Some r => upd_rq i (DnsReq None (rq_arg r)) d | None => d end.

Lemma call_found_run i e r name addr s s2 : dns_requests (dnsv s) !! i = Some r -> dns_table (dnsv s) !! i = Some e -> c_string (de_name e) = Some name ->
  notify r name addr s = Ret tt s2 -> dns_good (dnsv s2) -> (i < DNS_TABLE_SIZE)%nat -> dns_call_found i addr s = Ret tt (put_dns (no_request i (dnsv s2)) s2).
Proof.
  intros Er Ee En Ec Hg Hi. unfold dns_call_found. erewrite bind_Ret by (by apply get_rq_run).
  destruct (lookup_lt_is_Some_2 (dns_requests (dnsv s2)) i) as [r2 Er2]; [by rewrite (dg_requests _ Hg)|]. unfold no_request. rewrite Er2.
  assert (E : match rq_found r with
    | Some f => e ← get_de i; name ← deref OutOfBounds (c_string (de_name e)); dns_found_fn f name addr (rq_arg r)
    | None => mret tt end s = Ret tt s2).
  { unfold notify in Ec. destruct (rq_found r); [|done]. erewrite bind_Ret by (by apply get_de_run). rewrite En. done. }
  erewrite bind_Ret by exact E. exact (set_rq_run i r2 _ s2 Er2).
Qed.

(** The request of entry [i] is over; an answer that must not be kept is
    dropped. *)
Definition settle (i : nat) (d : dns_vars) : dns_vars :=
  let d := no_request i d in
  match dns_table d !! i with
  | Some e => if (de_ttl e =? 0) && bool_decide (de_state e = DNS_STATE_DONE) then upd_de i (set_de_state DNS_STATE_UNUSED e) d else d
  | None => d
  end.

Definition cached (ip ttl : Z) (e : dns_table_entry) : dns_table_entry :=
  set_de_ttl (Z.min DNS_MAX_TTL ttl) (set_de_state DNS_STATE_DONE (set_de_ipaddr ip e)).

Lemma no_request_table i d : dns_table (no_request i d) = dns_table d.
Proof. unfold no_request. by destruct (dns_requests d !! i). Qed.

Lemma upd_de_twice i e f d : upd_de i e (upd_de i f d) = upd_de i e d.
Proof. unfold upd_de, set_dns_table. cbn. by rewrite list_insert_insert_eq. Qed.

Lemma upd_de_here i e f d : dns_table d !! i = Some f -> dns_table (upd_de i e d) !! i = Some e.
Proof. intros E. cbn. apply list_lookup_insert_eq. by eapply lookup_lt_Some. Qed.

Lemma set_de_again i d e f s0 : dns_table d !! i = Some e -> forall e1, set_de i f (put_dns (upd_de i e1 d) s0) = Ret tt (put_dns (upd_de i (f e1) d) s0).
Proof.
  intros E e1. erewrite set_de_run by (rewrite dnsv_put; by eapply upd_de_here). by rewrite dnsv_put, put_dns_put, upd_de_twice.
Qed.

Lemma correct_response_run i e r name ip ttl s s2 : dns_requests (dnsv s) !! i = Some r -> dns_table (dnsv s) !! i = Some e -> c_string (de_name e) = Some name ->
  notify r name (Some ip) (put_dns (upd_de i (cached ip ttl e) (dnsv s)) s) = Ret tt s2 -> dns_good (dnsv s2) -> (i < DNS_TABLE_SIZE)%nat ->
  dns_correct_response i ttl (put_dns (upd_de i (set_de_ipaddr ip e) (dnsv s)) s) = Ret tt (put_dns (settle i (dnsv s2)) s2).
Proof.
  intros Er Ee En Ec Hg Hi. unfold dns_correct_response. do 2 (erewrite bind_Ret by (by eapply set_de_again)).
  assert (Ek : set_de_ttl (if DNS_MAX_TTL <? ttl then DNS_MAX_TTL else ttl) (set_de_state DNS_STATE_DONE (set_de_ipaddr ip e)) = cached ip ttl e).
  { unfold cached. f_equal. destruct (Z.ltb_spec DNS_MAX_TTL ttl); lia. }
  rewrite Ek. erewrite bind_Ret by (apply get_de_run; rewrite dnsv_put; by eapply upd_de_here).
  erewrite bind_Ret by (eapply (call_found_run i (cached ip ttl e) r); [by rewrite dnsv_put|rewrite dnsv_put; by eapply upd_de_here|exact En|exact Ec|done|done]).
  destruct (lookup_lt_is_Some_2 (dns_table (dnsv s2)) i) as [e2 Ee2]; [by rewrite (dg_table _ Hg)|].
  erewrite bind_Ret by (apply get_de_run; rewrite dnsv_put, no_request_table; exact Ee2). unfold settle. rewrite no_request_table, Ee2.
  destruct (_ && _); [|done]. cbn [when]. erewrite set_de_run by (rewrite dnsv_put, no_request_table; exact Ee2). by rewrite dnsv_put, put_dns_put.
Qed.

(** C16. An answer reaches the requester. Let entry [i] wait with identification
    and server for the name with labels [ls]; let a reply come from that server,
    with that identification, without an error code, with the name in its
    question in any case of letters, and with records of any kind, owned by
    names written as labels, as a pointer or as both, among them an address
    record of class IN. Then the packet is released, the entry holds the first
    such address, for at most a week, and the request's callback is called once,
    with the name, the address and its argument; when it returns the request is
    over, and an address whose time to live is zero is forgotten. *)
Theorem dns_answer_resolves s p c addr i e r ls junk a ip ttl s2 : message (emem s) p c -> releasable c -> dns_good (dnsv s) ->
  replies (dnsv s) addr i e ls a -> de_name e = join ls ++ 0 :: junk -> Forall plain_label ls -> dns_requests (dnsv s) !! i = Some r ->
  contents c = reply_bytes a -> Z.land (rp_flags2 a) DNS_FLAG2_ERR_MASK = 0 -> first_address (rp_records a) = Some (ip, ttl) ->
  let m1 := drop_ref (remaining c) (free_all (released c) (emem s)) in
  notify r (join ls) (Some ip) (put_dns (upd_de i (cached ip ttl e) (dnsv s)) (set_emem m1 s)) = Ret tt s2 -> dns_good (dnsv s2) ->
  dns_recv odd_at ip4_frag p addr s = Ret tt (put_dns (settle i (dnsv s2)) s2).
Proof.
  intros Hm Hr Hg Ha En Hpl Er Ec Hok Hfirst m1 Hnot Hg2. pose proof (rs_entry _ _ _ _ _ _ Ha) as He.
  rewrite (dns_recv_run odd_at ip4_frag p c) by done. rewrite Ec, (reply_decided _ _ _ _ _ _ _ Ha En). unfold reply_verdict. rewrite Hok, Hfirst. cbn [Z.eqb negb carry_out].
  erewrite bind_Ret by (by apply set_de_run). pose proof (ms_packet _ _ _ Hm) as Hp.
  erewrite bind_Ret by (unfold on_pbuf, zoom; rewrite (pbuf_free_run _ p c (pk_chain _ _ _ Hp) (pk_locs _ _ _ Hp) Hr); reflexivity).
  apply (correct_response_run i e r (join ls) ip ttl (set_emem m1 s)); [done|done| |done|done|].
  - rewrite En. by apply c_string_of, join_nonzero.
  - rewrite <- (dg_table _ Hg). by eapply lookup_lt_Some.
Qed.

(** C40. The question is not compared with the end of the name: for a request
    for a name that begins with the labels [ls] and goes on with others, a reply
    from the server whose question has only the labels [ls], in any case of
    letters, counts as the reply to the request, with everything that follows
    from it; the address of [www] answers a request for [www.example.com]. *)
Theorem dns_prefix_accepted s p c addr i e ls more junk a : message (emem s) p c -> dns_good (dnsv s) -> replies (dnsv s) addr i e ls a ->
  de_name e = join (ls ++ more) ++ 0 :: junk -> more <> [] -> contents c = reply_bytes a ->
  dns_recv odd_at ip4_frag p addr s = carry_out odd_at ip4_frag p (reply_verdict (dnsv s) i e a) s.
Proof.
  intros Hm Hg Ha En Hmore Ec. rewrite (dns_recv_run odd_at ip4_frag p c) by done. rewrite Ec. f_equal. eapply reply_decided; [exact Ha|].
  rewrite En, join_app; [by rewrite <- app_assoc| |done]. pose proof (po_labels _ (rs_ok _ _ _ _ _ _ Ha)) as [Hne _]. pose proof (Forall2_length _ _ _ (rs_same _ _ _ _ _ _ Ha)).
  intros ->. by destruct (rp_labels a).
Qed.
End Answer.
