(* ===== verification/DnsSend.v ===== *)
(** DNS: a query on the wire, and a new request. *)
From S2P Require Import Prelude Memp Pbuf PbufFacts PbufUpdate PbufAlloc PbufChain PbufRam Chksum Ip4Addr Ethernet Etharp EtharpInv.
From S2P Require Import EtharpSend EtharpReply EtharpOutput Ip IpFacts IpInputFacts Udp UdpFacts UdpFlow Dns DnsName DnsInput.

(** ** Names *)

(** The array of an entry holds the name with labels [ls]. *)
Record named (a : list Z) (ls : list (list Z)) : Prop := {
  nm_array : exists junk, a = join ls ++ 0 :: junk;
  nm_labels : ls <> [] /\ Forall plain_label ls;
  nm_size : Z.of_nat (length (join ls)) < 256;
  nm_bytes : Forall byte (join ls)
}.

Lemma named_string a ls : named a ls -> c_string a = Some (join ls).
Proof. intros [[junk ->] [_ Hl] _ _]. by apply c_string_of, join_nonzero. Qed.

Lemma encode_bytes ls : Forall byte (join ls) -> Z.of_nat (length (join ls)) < 256 -> Forall byte (encode ls).
Proof.
  induction ls as [|l ls IH]; intros Hb Hl; [constructor|]. rewrite encode_cons.
  assert (E : exists r, join (l :: ls) = l ++ r /\ Forall byte (join ls) /\ (length (join ls) <= length (l ++ r))%nat).
  { destruct ls as [|l2 ls]; [exists []; cbn [join]; rewrite app_nil_r; split_and!; [done|constructor|simpl; lia]|].
    exists (46 :: join (l2 :: ls)). rewrite join_cons in *. apply Forall_app in Hb as [_ Hb]. apply Forall_cons in Hb as [_ Hb].
    split_and!; [done|done|rewrite length_app; cbn [length]; lia]. }
  destruct E as (r & E & Hb2 & Hl2). rewrite E in Hb, Hl. apply Forall_app in Hb as [Hb _]. rewrite length_app in *.
  apply Forall_cons. split; [unfold byte; lia|]. apply Forall_app. split; [done|]. apply IH; [done|lia].
Qed.

Lemma query_bytes txid ls : 0 <= txid < 65536 -> Forall byte (join ls) -> Z.of_nat (length (join ls)) < 256 -> Forall byte (query_message txid ls).
Proof.
  intros Ht Hb Hl. unfold query_message, question, query_hdr, query_end. rewrite htons_bytes by done. rewrite !Forall_app.
  split_and!; try (by apply encode_bytes); try (by apply be16_bytes); repeat constructor; done.
Qed.

Section Send.
Context `{WL : WireLaws} `{HL : !HeapLaws} `{CF : !CustomFree} `{BU : !Build} `{US : !UdpState} `{DS : !DnsState} `{DU : !DnsUser}.
Context (odd_at : option ptr -> bool) (ip4_frag : loc -> nat -> Z -> M eth Z).

(** ** What sending needs *)

(** The interface for a destination. *)
Definition route (s : eth) (dst : Z) : option nat :=
  match route_foreach (netifs s) dst (netif_list (ipv s)) with
  | Some n => Some n
  | None =>
    match netif_default (ipv s) with
    | Some d => if negb (netif_is_up (netifs s d)) || negb (netif_is_link_up (netifs s d)) || ip4_addr_isany_val (if_ip_addr (netifs s d))
                   || ip4_addr_isloopback dst then None else Some d
    | None => None
    end
  end.

Lemma ip4_route_run s dst : ip4_route dst s = Ret (route s dst) s.
Proof.
  unfold ip4_route, route. do 2 (erewrite bind_Ret by reflexivity). destruct (route_foreach _ _ _); [done|]. erewrite bind_Ret by reflexivity.
  destruct (netif_default (ipv s)); [|done]. by destruct (_ || _).
Qed.

(** A server can be reached by interface [n]: the hardware address of the next
    hop is known, and a query is not longer than the interface's packets. *)
Record way (s : eth) (u : udp_pcb) (srv : Z) (n : nat) (hw : list Z) : Prop := {
  wy_hop : resolved s n srv hw;
  wy_hwaddr : length (if_hwaddr (netifs s n)) = 6%nat;
  wy_mtu : netif_mtu (ipv s) n = 0 \/ 302 <= netif_mtu (ipv s) n;
  wy_args : header_args (if_ip_addr (netifs s n)) srv (ttl u) (tos u) IP_PROTO_UDP
}.

(** The resolver's control block, bound and unconnected, and the layers below it
    in order; the servers have a way or no interface. *)
Record resolver (σ : gmap Z Z) (l : loc) (u : udp_pcb) (s : eth) : Prop := {
  rv_pcb : dns_pcb (dnsv s) = Some l;
  rv_udp : holds_pcb (udpv s) l u;
  rv_port : 0 < local_port u < 65536;
  rv_free : ip4_addr_isany_val (local_ip u) = true /\ netif_idx u = NETIF_NO_INDEX /\ has (pcb_flags u) UDP_FLAGS_NOCHKSUM = false;
  rv_heap : heap_ready (emem s) σ;
  rv_arp : arp_ok s;
  rv_wire : wire_ok (elink s).1;
  rv_id : 0 <= ip_id (ipv s) < 65536;
  rv_ways : forall srv n, srv ∈ dns_servers (dnsv s) -> srv <> 0 -> route s srv = Some n -> exists hw, way s u srv n hw
}.

(** What does not change under the resolver. *)
Record keeps (σ : gmap Z Z) (s s' : eth) : Prop := {
  kp_netifs : netifs s' = netifs s;
  kp_table : arp_table s' = arp_table s;
  kp_ifs : netif_list (ipv s') = netif_list (ipv s) /\ netif_default (ipv s') = netif_default (ipv s) /\ netif_mtu (ipv s') = netif_mtu (ipv s);
  kp_udp : udpv s' = udpv s;
  kp_arp : arp_ok s';
  kp_wire : wire_ok (elink s').1;
  kp_id : 0 <= ip_id (ipv s') < 65536;
  kp_mem : same_but_heap (emem s) (emem s') /\ heap_ready (emem s') σ
}.

Lemma keeps_resolver σ l u s s' : keeps σ s s' -> dns_pcb (dnsv s') = dns_pcb (dnsv s) -> dns_servers (dnsv s') = dns_servers (dnsv s) ->
  resolver σ l u s -> resolver σ l u s'.
Proof.
  intros [K1 K2 (K3 & K4 & K5) K6 K7 K8 K9 [_ K10]] Ep Es [A1 A2 A3 A4 A5 A6 A7 A8 A9]. split; try done; [congruence|by rewrite K6|].
  intros srv n Hin Hne Hr. destruct (A9 srv n) as (hw & [W1 W2 W3 W4]); [congruence|done|unfold route in *; by rewrite <- K1, <- K3, <- K4|].
  exists hw. split; [unfold resolved, hop_address in *|by rewrite K1|by rewrite K5|by rewrite K1]. rewrite K1. destruct (next_hop _ _); [done| |done].
  destruct W1 as (i & e & [Hi He] & Hu). exists i, e. split; [|done]. split; [done|]. by rewrite K2.
Qed.

Lemma keeps_trans σ s1 s2 s3 : keeps σ s1 s2 -> keeps σ s2 s3 -> keeps σ s1 s3.
Proof.
  intros [A1 A2 (A3 & A4 & A5) A6 A7 A8 A9 [(B1 & B2 & B3 & B4 & B5) B6]] [C1 C2 (C3 & C4 & C5) C6 C7 C8 C9 [(D1 & D2 & D3 & D4 & D5) D6]].
  split; try done; [congruence|congruence|split_and!; congruence|congruence|]. split; [|done]. split_and!; congruence.
Qed.

Lemma resolver_keeps σ l u s : resolver σ l u s -> keeps σ s s.
Proof. intros [A1 A2 A3 A4 A5 A6 A7 A8 A9]. by split. Qed.

Lemma keeps_put σ l u s d : resolver σ l u s -> keeps σ s (put_dns d s).
Proof. intros [A1 A2 A3 A4 A5 A6 A7 A8 A9]. split; try done. apply udpv_put_dns. Qed.

(** ** A query *)

(** What became of the query: no memory, no interface, or one frame. *)
Definition queried (u : udp_pcb) (srv txid : Z) (ls : list (list Z)) (s : eth) (r : Z) (s' : eth) : Prop :=
  (r = ERR_MEM /\ (elink s').1 = (elink s).1) \/
  (r = ERR_RTE /\ route s srv = None /\ (elink s').1 = (elink s).1) \/
  exists n hw, route s srv = Some n /\ resolved s n srv hw /\
    let src := if_ip_addr (netifs s n) in
    let msg := udp_message src srv (local_port u) DNS_SERVER_PORT (query_message txid ls) in
    wire_rel n (frame hw (if_hwaddr (netifs s n)) ETHTYPE_IP
      (ip_header (tos u) (IP_HLEN + size_of msg) (ip_id (ipv s)) 0 (ttl u) IP_PROTO_UDP src srv ++ msg)) (elink s).1 r (elink s').1.

(** [udp_sendto] with the resolver's block. *)
Lemma wp_resolver_sendto l u nd s srv (Q : Z -> eth -> Prop) : holds_pcb (udpv s) l u -> 0 < local_port u < 65536 ->
  ip4_addr_isany_val (local_ip u) = true -> netif_idx u = NETIF_NO_INDEX -> has (pcb_flags u) UDP_FLAGS_NOCHKSUM = false ->
  (forall n, route s srv = Some n -> exists hw, way s u srv n hw /\ udp_sendable s n nd []) ->
  (route s srv = None -> Q ERR_RTE s) ->
  (forall n hw r s', route s srv = Some n -> resolved s n srv hw ->
     udp_sent n nd [] u (if_ip_addr (netifs s n)) srv (local_port u) DNS_SERVER_PORT hw s r s' -> Q r s') ->
  wp (udp_sendto odd_at ip4_frag (Some l) (Some (n_loc nd)) (Some srv) DNS_SERVER_PORT) Q s.
Proof.
  intros Hu Hport Hany Hidx Hck Hway HN HS. unfold wp. match goal with |- match ?o with _ => _ end => pattern o end.
  apply (sendto_leads odd_at ip4_frag l u (n_loc nd) srv DNS_SERVER_PORT s (route s srv)); [done|by unfold chosen_if; rewrite Hidx; apply ip4_route_run|].
  destruct (route s srv) as [n|] eqn:Er; cbn [mbind option_bind]; [|by apply HN]. unfold udp_source. rewrite Hany. cbn [orb mbind option_bind].
  destruct (Hway n eq_refl) as (hw & [W1 W2 W3 W4] & Hsend).
  match goal with |- match ?o with _ => _ end => change (wp (udp_sendto_if_src odd_at ip4_frag (Some l) (Some (n_loc nd)) (Some srv) DNS_SERVER_PORT (Some n) (Some (if_ip_addr (netifs s n)))) Q s) end.
  pose proof Hu as [nx E]. unfold udp_sendto_if_src. apply wp_bind. eapply wp_get_pcb; [exact E|]. change (local_port (set_pcb_next nx u)) with (local_port u).
  rewrite (proj2 (Z.eqb_neq _ _)) by lia. apply wp_bind, wp_ret. change (negb (ERR_OK =? ERR_OK)) with false. cbv iota.
  eapply wp_mono; [by apply (wp_sendto_bound odd_at ip4_frag nd [] l u n s (if_ip_addr (netifs s n)) srv DNS_SERVER_PORT hw)|]. intros r s'. by apply HS.
Qed.

(** The pbuf of a query, as it was allocated. *)
Lemma query_block m σ o k a h' n : heap_ready m σ -> owns h' (<[o := k]> σ) -> 0 <= n < 65536 ->
  LWIP_MEM_ALIGN_SIZE (pbuf_layer_value PBUF_TRANSPORT) + n <= Z.of_nat (length a) ->
  let m1 := ram_alloced o PBUF_TRANSPORT n a h' m in
  exists data, block (Heap o) (ram_buf o PBUF_TRANSPORT n) m1 m1 data.
Proof.
  intros Hr Ho Hn Ha m1. destruct (ram_alloced_packet o PBUF_TRANSPORT n a h' m Hn Ha) as [Hp _]. fold m1 in Hp. pose proof (pk_chain _ _ _ Hp) as (_ & Hl & Hh & _).
  eexists. split; [split; [by split_and!|done|exact Hh]|exact Hl|done|done|]. simpl. lia.
Qed.

Lemma query_sendable σ l u s o n data m1 m2 srv hw : resolver σ l u s -> block (Heap o) (ram_buf o PBUF_TRANSPORT (size_of data)) m1 m2 data ->
  way s u srv n hw -> size_of data < 274 -> Forall byte data -> udp_sendable (set_emem m2 s) n (Node (Heap o) (ram_buf o PBUF_TRANSPORT (size_of data)) data) [].
Proof.
  intros Hv Hb [W1 W2 W3 W4] Hsz Hby. destruct (block_packet _ _ _ _ _ Hb) as [Hp Ht]. change (len (ram_buf o PBUF_TRANSPORT (size_of data))) with (size_of data) in Ht.
  assert (Hc : contents [Node (Heap o) (ram_buf o PBUF_TRANSPORT (size_of data)) data] = data) by (unfold contents; cbn [map concat n_data]; apply app_nil_r).
  split.
  - exact Hp.
  - split; [done|]. exists (LWIP_MEM_ALIGN_SIZE (pbuf_layer_value PBUF_TRANSPORT)). split; [done|]. vm_compute. discriminate.
  - rewrite Ht. unfold UDP_HLEN, IP_HLEN, SIZEOF_ETH_HDR. lia.
  - rewrite Ht. change (ipv (set_emem m2 s)) with (ipv s). unfold UDP_HLEN, IP_HLEN. lia.
  - apply Hv.
  - apply Hv.
  - done.
  - apply Hv.
  - by rewrite Hc.
Qed.

(** After the release of the query. *)
Lemma query_released m0 σ o k a h' n m2 b data : heap_ready m0 σ -> σ !! o = None -> owns h' (<[o := k]> σ) ->
  only_block (Heap o) (ram_alloced o PBUF_TRANSPORT n a h' m0) m2 -> pbufs m2 !! Heap o = Some b -> holds m2 b data ->
  next b = None -> ref b = 1 -> well_typed (Heap o) b ->
  pbuf_free (Some (Heap o)) m2 = Ret 1 (freed (Heap o) m2) /\ same_but_heap m0 (freed (Heap o) m2) /\ heap_ready (freed (Heap o) m2) σ.
Proof.
  intros Hr Hf Ho (Oh & Om & Opd & Oor & Osame) Hl Hh Hn Hrf Ht.
  apply (ram_release m0 m2 o k σ b data); [done|done|by rewrite Oh|done|done|done|done|done| |done|done|done].
  intros l' Hl'. destruct (Osame l' Hl') as [-> ->]. simpl. by rewrite !lookup_insert_ne by done.
Qed.

Lemma keeps_sent σ l u s j m' w' v' : resolver σ l u s -> 0 <= j < 10 -> wire_ok w' -> same_but_heap (emem s) m' -> heap_ready m' σ ->
  v' = ipv s \/ v' = next_id (ipv s) -> keeps σ s (set_elink (w', v') (set_emem m' (set_cached j s))).
Proof.
  intros Hv Hj Hw Hs Hr Ev. pose proof (rv_arp _ _ _ _ Hv) as [Ht _]. pose proof (rv_id _ _ _ _ Hv).
  split; try done; [by destruct Ev as [-> | ->]|by destruct Ev as [-> | ->]|]. change (ipv _) with v'. destruct Ev as [-> | ->]; [done|]. apply u16_range.
Qed.

(** [dns_send] with a server: the layers below are in order afterwards, and the
    layers above have not changed. *)
Lemma wp_dns_send i e ls srv σ l u s : resolver σ l u s -> dns_table (dnsv s) !! i = Some e -> named (de_name e) ls ->
  dns_servers (dnsv s) !! Z.to_nat (de_server_idx e) = Some srv -> srv <> 0 -> 0 <= de_txid e < 65536 ->
  wp (dns_send odd_at ip4_frag i) (fun r s' => queried u srv (de_txid e) ls s r s' /\ keeps σ s s' /\ above (ipv s') = above (ipv s)) s.
Proof.
  intros Hv He Hn Hsrv Hne Htx. pose proof (named_string _ _ Hn) as En. destruct Hn as [[junk Ea] [Hls Hpl] Hsz Hby]. pose proof (query_message_length (de_txid e) ls Hls) as Lq.
  set (q := query_message (de_txid e) ls) in *. pose proof (query_bytes (de_txid e) ls Htx Hby Hsz) as Hq. fold q in Hq. pose proof Hv as [V1 V2 V3 (V4 & V5 & V6) V7 V8 V9 V10 V11].
  unfold dns_send. apply wp_bind. eapply wp_of_run; [by apply get_de_run|]. apply wp_bind. eapply wp_of_run; [by apply get_server_run|].
  replace (ip4_addr_isany_val srv) with false by (symmetry; by apply Z.eqb_neq). apply wp_bind. rewrite En. apply wp_ret. apply wp_bind, wp_on_pbuf.
  replace (u16 _) with (size_of q) by (unfold SIZEOF_DNS_HDR, SIZEOF_DNS_QUERY; rewrite u16_small by lia; unfold size_of; lia).
  apply (wp_pbuf_alloc_ram _ σ); [done|unfold size_of; lia| |].
  { intros h' Ho. apply wp_ret. split_and!; [by left| |done]. pose proof (keeps_sent σ l u s (etharp_cached_entry s) (set_heap h' (emem s)) (elink s).1 (ipv s) Hv) as K.
    replace (set_emem (set_heap h' (emem s)) s) with (set_elink ((elink s).1, ipv s) (set_emem (set_heap h' (emem s)) (set_cached (etharp_cached_entry s) s))) by (by destruct s as [? [? ?] ? ? ?]).
    apply K; [apply V8|done|done|split; [done|apply V7]|by left]. }
  intros o k a h' Hf Ho Ha. destruct (query_block (emem s) σ o k a h' (size_of q) V7 Ho) as [data Hb]; [unfold size_of; lia|done|]. set (b := ram_buf o PBUF_TRANSPORT (size_of q)) in *.
  set (m1 := ram_alloced _ _ _ _ _ _) in *. apply wp_bind, wp_on_pbuf. change (emem (set_emem m1 s)) with m1. rewrite Ea.
  apply (wp_fill_query (Heap o) b m1 m1 data); [done|done|lia|done|done|]. fold q. intros m2 Hb2. change (set_emem m2 (set_emem m1 s)) with (set_emem m2 s).
  apply wp_bind, wp_gets. change (dnsv (set_emem m2 s)) with (dnsv s). rewrite V1. pose proof (bk_written _ _ _ _ _ Hb2) as [O2 P2 H2].
  set (nd := Node (Heap o) b q). assert (Rq : size_of q < 274) by (unfold size_of; lia). apply wp_bind. change (Heap o) with (n_loc nd) at 1.
  apply (wp_resolver_sendto l u nd (set_emem m2 s) srv); try done.
  { intros n Er. destruct (V11 srv n) as [hw Hw]; [by eapply list_elem_of_lookup_2|done|exact Er|]. exists hw. split; [by destruct Hw; split|]. by eapply query_sendable. }
  - intros Er. apply wp_bind, wp_on_pbuf. change (emem (set_emem m2 s)) with m2. destruct (query_released (emem s) σ o k a h' (size_of q) m2 b q) as (E & S & R);
      [done|done|done|exact O2|by eapply block_getp|exact H2|done|done|done|]. eapply wp_of_run; [exact E|]. apply wp_ret. split; [right; left; by split_and!|split; [|done]].
    change (set_emem (freed (Heap o) m2) (set_emem m2 s)) with (set_emem (freed (Heap o) m2) s).
    replace (set_emem (freed (Heap o) m2) s) with (set_elink ((elink s).1, ipv s) (set_emem (freed (Heap o) m2) (set_cached (etharp_cached_entry s) s))) by (by destruct s as [? [? ?] ? ? ?]).
    apply (keeps_sent σ l u); [done|apply V8|done|done|done|by left].
  - intros n hw r s' Er Hres (j & m3 & w' & data3 & -> & Hj & Hw' & O3 & Hp3 & Hc3 & Hrel). apply wp_bind, wp_on_pbuf. cbn [n_loc n_buf nd] in *.
    change (emem (set_elink _ (set_emem m3 _))) with m3. pose proof (pk_chain _ _ _ Hp3) as (_ & Hl3 & Hh3 & _). cbn [n_loc n_buf n_data] in *.
    destruct (query_released (emem s) σ o k a h' (size_of q) m3 (moved (UDP_HLEN + (IP_HLEN + SIZEOF_ETH_HDR)) b) data3) as (E & S & R);
      [done|done|done|by eapply only_block_trans|exact Hl3|exact Hh3|done|done|done|].
    eapply wp_of_run; [exact E|]. apply wp_ret.
    match goal with |- _ /\ keeps _ _ ?st /\ _ => change st with (set_elink (w', next_id (ipv s)) (set_emem (freed (Heap o) m3) (set_cached j s))) end.
    split; [|split; [apply (keeps_sent σ l u); try done; by right|done]]. right. right. exists n, hw. split; [done|]. split; [done|].
    cbv zeta. change (ipv (set_emem m2 s)) with (ipv s) in Hrel. change (netifs (set_emem m2 s)) with (netifs s) in Hrel.
    assert (Ec : contents [nd] = q) by (unfold contents; cbn [map concat n_data nd]; apply app_nil_r). rewrite Ec in Hrel.
    assert (El : IP_HLEN + size_of (udp_message (if_ip_addr (netifs s n)) srv (local_port u) DNS_SERVER_PORT q) = IP_HLEN + UDP_HLEN + total [nd]).
    { unfold udp_message, size_of, total. rewrite length_app, udp_header_length, Ec. unfold UDP_HLEN. lia. }
    fold q. rewrite El. exact Hrel.
Qed.
End Send.

(** ** A new request *)

(** Entry [i] and its request. *)
Definition row (d : dns_vars) (i : nat) (e : dns_table_entry) (r : dns_req_entry) : Prop := dns_table d !! i = Some e /\ dns_requests d !! i = Some r.

(** An entry that waits for the answer to a query it sent. *)
Definition stage (e : dns_table_entry) (idx tmr retries : Z) : dns_table_entry :=
  DnsEntry (de_ttl e) (de_ipaddr e) (de_txid e) DNS_STATE_ASKING idx tmr retries (de_seqno e) (de_name e).

(** Characters, whatever their case: both ways to compare them agree. *)
Lemma same_letter x y : byte x -> byte y ->
  (if x =? y then false
   else let c1_upc := Z.lor x 0x20 in if (97 <=? c1_upc) && (c1_upc <=? 122) then negb (c1_upc =? Z.lor y 0x20) else true) = negb (lwip_tolower x =? lwip_tolower y).
Proof.
  intros Hx Hy.
  assert (C : forallb (fun a => forallb (fun b => Bool.eqb
    (if a =? b then false else let c1_upc := Z.lor a 0x20 in if (97 <=? c1_upc) && (c1_upc <=? 122) then negb (c1_upc =? Z.lor b 0x20) else true)
    (negb (lwip_tolower a =? lwip_tolower b))) (seqZ 0 256)) (seqZ 0 256) = true) by (vm_compute; reflexivity).
  rewrite forallb_forall in C. specialize (C x). rewrite forallb_forall in C. unfold byte in *.
  apply eqb_prop, C; apply list_elem_of_In, elem_of_seqZ; lia.
Qed.

(** The name [a] is the beginning of [b]. *)
Fixpoint begins (a b : list Z) : bool :=
  match a, b with
  | [], _ => true
  | x :: a, y :: b => (lwip_tolower x =? lwip_tolower y) && begins a b
  | _, [] => false
  end.

Lemma strnicmp_run a : forall b junk, a <> [] -> Forall (fun c => c <> 0) a -> Forall byte a -> Forall byte b -> Z.of_nat (length a) < 2 ^ 32 ->
  lwip_strnicmp (a ++ [0]) (b ++ 0 :: junk) (Z.of_nat (length a)) = Some (if begins a b then 0 else 1).
Proof.
  induction a as [|x a IH]; intros b junk Hne Hz Ha Hb Hl; [done|]. apply Forall_cons in Hz as [Hx Hz]. apply Forall_cons in Ha as [Hxb Ha]. clear Hne.
  destruct b as [|y b]; cbn [app lwip_strnicmp begins].
  - rewrite same_letter by (done || unfold byte; lia). replace (lwip_tolower x =? lwip_tolower 0) with false; [done|]. symmetry. apply Z.eqb_neq.
    change (lwip_tolower 0) with 0. unfold lwip_tolower, lwip_in_range. unfold byte in Hxb. destruct (_ && _); lia.
  - apply Forall_cons in Hb as [Hy Hb]. rewrite same_letter by done. destruct (lwip_tolower x =? lwip_tolower y); cbn [negb andb]; [|done].
    cbn [length] in *. unfold u32. rewrite Z.mod_small by lia. replace (Z.of_nat (S (length a)) - 1) with (Z.of_nat (length a)) by lia. rewrite (proj2 (Z.eqb_neq x 0)) by done.
    destruct a as [|x2 a]; [done|]. rewrite (proj2 (Z.eqb_neq (Z.of_nat (length (x2 :: a))) 0)) by (cbn [length]; lia). cbn [negb andb]. by apply IH; [..|lia].
Qed.

Lemma begins_length a : forall b, begins a b = true -> (length a <= length b)%nat.
Proof. induction a as [|x a IH]; intros [|y b]; cbn; try lia. intros [_ H%IH]%andb_true_iff. lia. Qed.

(** The same name. *)
Definition same_nameb (a b : list Z) : bool := begins a b && (length a =? length b)%nat.

Lemma same_nameb_spec a : forall b, same_nameb a b = true <-> same_name a b.
Proof.
  unfold same_nameb, same_name. induction a as [|x a IH]; intros [|y b]; cbn [begins length]; [by split|by split; [|inversion 1]|by split; [|inversion 1]|].
  change (S (length a) =? S (length b))%nat with (length a =? length b)%nat. rewrite Forall2_cons, <- IH, <- andb_assoc, andb_true_iff, Z.eqb_eq. done.
Qed.

(** The address that is kept for a name. *)
Fixpoint cached_address (name : list Z) (t : list dns_table_entry) : option Z :=
  match t with
  | [] => None
  | e :: t =>
    match de_state e, c_string (de_name e) with
    | DNS_STATE_DONE, Some b => if same_nameb name b then Some (de_ipaddr e) else cached_address name t
    | _, _ => cached_address name t
    end
  end.

(** The array of a completed entry holds a string of bytes. *)
Definition entry_string (e : dns_table_entry) : Prop :=
  de_state e = DNS_STATE_DONE -> exists b junk, de_name e = b ++ 0 :: junk /\ Forall (fun c => c <> 0) b /\ Forall byte b.

Section Request.
Context `{WL : WireLaws} `{HL : !HeapLaws} `{CF : !CustomFree} `{BU : !Build} `{US : !UdpState} `{DS : !DnsState} `{DU : !DnsUser}.
Context (odd_at : option ptr -> bool) (ip4_frag : loc -> nat -> Z -> M eth Z).

Lemma lookup_run name t s : name <> [] -> Forall (fun c => c <> 0) name -> Forall byte name -> Z.of_nat (length name) < 256 -> Forall entry_string t ->
  lookup_loop name (Z.of_nat (length name)) t s = Ret (cached_address name t) s.
Proof.
  intros Hne Hz Hb Hl. induction t as [|e t IH]; intros Ht; [done|]. apply Forall_cons in Ht as [He Ht]. cbn [lookup_loop cached_address].
  destruct (de_state e) eqn:Es; try (rewrite bool_decide_false by done; by apply IH). rewrite bool_decide_true by done. cbn [negb].
  destruct (He Es) as (b & junk & En & Hbz & Hbb). rewrite En, c_string_of by done. rewrite strnicmp_run by (done || lia). erewrite bind_Ret by reflexivity.
  unfold same_nameb. destruct (begins name b) eqn:Eb; cbn [negb andb]; [|by apply IH]. change (negb (0 =? 0)) with false. cbv iota. pose proof (begins_length _ _ Eb) as Hle.
  rewrite Nat2Z.id. destruct (Nat.eqb_spec (length name) (length b)) as [E|E].
  - rewrite E, lookup_app_r, Nat.sub_diag by lia. by erewrite bind_Ret by reflexivity.
  - destruct (lookup_lt_is_Some_2 b (length name)) as [c Hc]; [lia|]. rewrite lookup_app_l, Hc by lia. erewrite bind_Ret by reflexivity.
    rewrite (proj2 (Z.eqb_neq c 0)); [by apply IH|]. rewrite Forall_forall in Hbz. by apply Hbz, (list_elem_of_lookup_2 _ _ _ Hc).
Qed.

(** ** Identifications *)

Definition txid_used (t : list dns_table_entry) (txid : Z) : bool := existsb (fun e => bool_decide (de_state e = DNS_STATE_ASKING) && (de_txid e =? txid)) t.

(** Of five candidates in a row one is free. *)
Lemma txid_left t u : length t = DNS_TABLE_SIZE -> ~ (forall k, (k < S DNS_TABLE_SIZE)%nat -> txid_used t (u16 (u + 1 + Z.of_nat k)) = true).
Proof.
  intros Hl Hall. set (cs := map (fun k => u16 (u + 1 + Z.of_nat k)) (seq 0 (S DNS_TABLE_SIZE))).
  assert (Hn : NoDup cs).
  { apply NoDup_fmap_2_strong; [|apply NoDup_seq]. unfold DNS_TABLE_SIZE. intros i j [_ Hi]%elem_of_seq [_ Hj]%elem_of_seq. unfold u16. intros E. Z.div_mod_to_equations. lia. }
  assert (Hsub : cs ⊆ map de_txid t).
  { intros c (k & -> & [_ Hk]%elem_of_seq)%list_elem_of_fmap. specialize (Hall k ltac:(lia)). apply existsb_exists in Hall as (e & He & [_ E%Z.eqb_eq]%andb_true_iff).
    apply list_elem_of_fmap. exists e. split; [done|]. by apply list_elem_of_In. }
  apply NoDup_submseteq in Hsub; [|done]. apply submseteq_length in Hsub. unfold cs in Hsub. rewrite !length_map, length_seq in Hsub. unfold DNS_TABLE_SIZE in *. lia.
Qed.

Lemma wp_txid_loop d s (Q : Z -> eth -> Prop) fuel : forall u, ~ (forall k, (k < fuel)%nat -> txid_used (dns_table d) (u16 (u + 1 + Z.of_nat k)) = true) ->
  (forall txid, 0 <= txid < 65536 -> txid_used (dns_table d) txid = false -> Q txid (put_dns (set_dns_txid txid d) s)) ->
  wp (iter fuel create_txid_body tt) Q (put_dns (set_dns_txid u d) s).
Proof.
  induction fuel as [|fuel IH]; intros u Hn HQ; [exfalso; apply Hn; lia|]. cbn [iter]. apply wp_bind. unfold create_txid_body.
  apply wp_bind. eapply wp_of_run; [apply mod_dnsv_run|]. rewrite dnsv_put, put_dns_put. change (set_dns_txid _ (set_dns_txid u d)) with (set_dns_txid (u16 (u + 1)) d).
  apply wp_bind. unfold dns_var at 1. apply wp_gets. rewrite dnsv_put. apply wp_bind. apply wp_gets. rewrite dnsv_put. cbn [dns_txid dns_table set_dns_txid].
  fold (txid_used (dns_table d) (u16 (u + 1))). apply wp_ret. destruct (txid_used (dns_table d) (u16 (u + 1))) eqn:E.
  - apply IH; [|done]. intros Hall. apply Hn. intros [|k] Hk; [by rewrite Z.add_0_r|]. specialize (Hall k ltac:(lia)).
    replace (u16 (u + 1 + Z.of_nat (S k))) with (u16 (u16 (u + 1) + 1 + Z.of_nat k)); [done|]. unfold u16. Z.div_mod_to_equations. lia.
  - apply wp_ret, HQ; [apply u16_range|done].
Qed.

Lemma wp_create_txid d s (Q : Z -> eth -> Prop) : length (dns_table d) = DNS_TABLE_SIZE ->
  (forall txid, 0 <= txid < 65536 -> txid_used (dns_table d) txid = false -> Q txid (put_dns (set_dns_txid txid d) s)) -> wp dns_create_txid Q (put_dns d s).
Proof.
  intros Hl HQ. replace d with (set_dns_txid (dns_txid d) d) by (by destruct d). apply wp_txid_loop; [by apply txid_left|done].
Qed.

(** ** dns_gethostbyname *)

(** A new entry as it is left waiting. *)
Definition waiting_entry (txid : Z) (e : dns_table_entry) : dns_table_entry :=
  set_de_retries 0 (set_de_tmr 1 (set_de_server_idx 0 (set_de_state DNS_STATE_ASKING (set_de_txid txid e)))).

Lemma wp_check_new i e ls srv σ l u s d : resolver σ l u s -> dns_pcb d = dns_pcb (dnsv s) -> dns_servers d = dns_servers (dnsv s) ->
  length (dns_table d) = DNS_TABLE_SIZE -> dns_table d !! i = Some e -> de_state e = DNS_STATE_NEW -> named (de_name e) ls ->
  dns_servers d !! 0%nat = Some srv -> srv <> 0 ->
  wp (dns_check_entry odd_at ip4_frag i) (fun _ s' => exists txid r, txid_used (dns_table d) txid = false /\ keeps σ s s' /\
    dnsv s' = upd_de i (waiting_entry txid e) (set_dns_txid txid d) /\ queried u srv txid ls s r s') (put_dns d s).
Proof.
  intros Hv Ep Es Hl He Est Hn Hsrv Hne. unfold dns_check_entry. apply wp_bind. eapply wp_of_run; [apply get_de_run; by rewrite dnsv_put|]. rewrite Est.
  apply wp_bind, wp_create_txid; [done|]. intros txid Ht Hfree. set (d1 := set_dns_txid txid d). apply wp_bind.
  eapply wp_of_run; [apply (set_de_run i e); by rewrite dnsv_put|]. rewrite dnsv_put, put_dns_put. fold (waiting_entry txid e). set (d2 := upd_de i (waiting_entry txid e) d1).
  assert (Hv2 : resolver σ l u (put_dns d2 s)) by (apply (keeps_resolver σ l u s); [by eapply keeps_put|by rewrite dnsv_put..|done]).
  apply wp_bind. eapply wp_mono; [apply (wp_dns_send odd_at ip4_frag i (waiting_entry txid e) ls srv σ l u _ Hv2)|]; [rewrite dnsv_put; by eapply upd_de_here|done|by rewrite dnsv_put|done|done|].
  intros r s' (Hq & K & Ea). apply wp_ret. exists txid, r. split; [done|]. split; [eapply keeps_trans; [by eapply keeps_put|done]|]. split; [|done].
  unfold dnsv. rewrite Ea. apply dnsv_put.
Qed.

(** The entry that a new request takes. *)
Definition slot (d : dns_vars) : option nat :=
  match find_slot (dns_seqno d) 0 0 DNS_TABLE_SIZE (dns_table d) with
  | (Some i, _) => Some i
  | (None, k) => match dns_table d !! k with Some e => if bool_decide (de_state e = DNS_STATE_DONE) then Some k else None | None => None end
  end.

Lemma find_slot_unused seqno t : forall i0 lseq k0 i k, find_slot seqno i0 lseq k0 t = (Some i, k) -> exists e, t !! (i - i0)%nat = Some e /\ de_state e = DNS_STATE_UNUSED /\ (i0 <= i)%nat.
Proof.
  induction t as [|e t IH]; intros i0 lseq k0 i k; cbn [find_slot]; [done|].
  assert (Hgo : forall l2 k2, find_slot seqno (S i0) l2 k2 t = (Some i, k) -> exists e', (e :: t) !! (i - i0)%nat = Some e' /\ de_state e' = DNS_STATE_UNUSED /\ (i0 <= i)%nat).
  { intros l2 k2 E. destruct (IH _ _ _ _ _ E) as (e' & H1 & H2 & H3). exists e'. replace (i - i0)%nat with (S (i - S i0)) by lia. split_and!; [done|done|lia]. }
  destruct (de_state e) eqn:Es; [intros [= <- <-]; exists e; rewrite Nat.sub_diag; by split_and!| | |]; [by apply Hgo..|]. destruct (lseq <? _); by apply Hgo.
Qed.

(** The entry is there and nobody waits for it. *)
Lemma slot_free d i : slot d = Some i -> exists e, dns_table d !! i = Some e /\ de_state e <> DNS_STATE_ASKING.
Proof.
  unfold slot. destruct (find_slot _ _ _ _ _) as [[j|] k] eqn:E.
  - intros [= ->]. destruct (find_slot_unused _ _ _ _ _ _ _ E) as (e & H1 & H2 & _). rewrite Nat.sub_0_r in H1. exists e. split; [done|]. by rewrite H2.
  - destruct (dns_table d !! k) as [e|] eqn:Ek; [|done]. case_bool_decide as Ed; [|done]. intros [= <-]. exists e. split; [done|]. by rewrite Ed.
Qed.

Lemma enqueue_slot d (s : eth) : dnsv s = d -> dns_good d ->
  forall A (k : option nat -> M eth A), (let '(unused, lseqi) := find_slot (dns_seqno d) 0 0 DNS_TABLE_SIZE (dns_table d) in
    i ← match unused with
      | Some i => mret (Some i)
      | None =>
        if (DNS_TABLE_SIZE <=? lseqi)%nat then mret None
        else e ← get_de lseqi; mret (if bool_decide (de_state e = DNS_STATE_DONE) then Some lseqi else None)
      end; k i) s = k (slot d) s.
Proof.
  intros Ed Hg A k. unfold slot. destruct (find_slot _ _ _ _ _) as [[j|] m]; [done|]. destruct (Nat.leb_spec DNS_TABLE_SIZE m).
  - rewrite lookup_ge_None_2 by (rewrite (dg_table _ Hg); lia). done.
  - destruct (lookup_lt_is_Some_2 (dns_table d) m) as [e He]; [rewrite (dg_table _ Hg); lia|]. rewrite He.
    assert (E : (e ← get_de m; mret (if bool_decide (de_state e = DNS_STATE_DONE) then Some m else None)) s = Ret (if bool_decide (de_state e = DNS_STATE_DONE) then Some m else None) s)
      by (erewrite bind_Ret by (apply get_de_run; by rewrite Ed); done).
    by erewrite bind_Ret by exact E.
Qed.

(** The table with a new request in entry [i]. *)
Definition requested (i : nat) (e : dns_table_entry) (found : option Z) (arg : Z) (name : list Z) (d : dns_vars) : dns_vars :=
  set_dns_seqno (u8 (dns_seqno d + 1)) (upd_rq i (DnsReq found arg)
    (upd_de i (set_de_name (name_array name (Z.of_nat (length name)) (de_name e)) (set_de_seqno (dns_seqno d) (set_de_state DNS_STATE_NEW e))) d)).

Lemma enqueue_run i e name found arg s : dns_good (dnsv s) -> slot (dnsv s) = Some i -> dns_table (dnsv s) !! i = Some e -> Z.of_nat (length name) < 256 ->
  dns_enqueue odd_at ip4_frag name (Z.of_nat (length name)) found arg s =
    (dns_check_entry odd_at ip4_frag i;; mret ERR_INPROGRESS) (put_dns (requested i e found arg name (dnsv s)) s).
Proof.
  intros Hg Hs He Hl. destruct (lookup_lt_is_Some_2 (dns_requests (dnsv s)) i) as [r Hr]; [rewrite (dg_requests _ Hg), <- (dg_table _ Hg); by eapply lookup_lt_Some|].
  unfold dns_enqueue. cbv zeta. rewrite Z.min_l by (unfold DNS_MAX_NAME_LENGTH; lia). do 2 (erewrite bind_Ret by reflexivity).
  rewrite (enqueue_slot (dnsv s) s eq_refl Hg). rewrite Hs. erewrite bind_Ret by (by apply set_de_run).
  erewrite bind_Ret by (apply (set_rq_run i r); by rewrite dnsv_put). rewrite dnsv_put, put_dns_put.
  erewrite bind_Ret by (apply set_de_run; rewrite dnsv_put; by eapply upd_de_here). rewrite dnsv_put, put_dns_put.
  erewrite bind_Ret by apply mod_dnsv_run. rewrite dnsv_put, put_dns_put. do 2 f_equal. unfold requested, upd_de, upd_rq. cbn. by rewrite list_insert_insert_eq.
Qed.

Lemma gethostbyname_run l host a found arg srv s : dns_pcb (dnsv s) = Some l -> Forall entry_string (dns_table (dnsv s)) ->
  Forall (fun c => c <> 0) host -> Forall byte host -> 0 < Z.of_nat (length host) < 256 -> last host <> Some 46 -> dns_servers (dnsv s) !! 0%nat = Some srv ->
  dns_gethostbyname odd_at ip4_frag (Some host) (Some a) found arg s =
    match ip4addr_aton host with
    | Some ip => Ret (ERR_OK, Some ip) s
    | None =>
      match cached_address host (dns_table (dnsv s)) with
      | Some ip => Ret (ERR_OK, Some ip) s
      | None =>
        if srv =? 0 then Ret (ERR_VAL, Some a) s
        else (r ← dns_enqueue odd_at ip4_frag host (Z.of_nat (length host)) found arg; mret (r, Some a)) s
      end
    end.
Proof.
  intros Hpcb Hstr Hz Hby Hlen Hlast Hsrv. set (d := dnsv s) in *.
  assert (Hne : host <> []) by (intros E; rewrite E in Hlen; simpl in Hlen; lia).
  unfold dns_gethostbyname, dns_gethostbyname_addrtype. destruct host as [|c host'] eqn:Eh; [done|]. rewrite <- Eh in *. erewrite bind_Ret by reflexivity.
  fold d. rewrite Hpcb. cbv zeta. replace (default 0 (last host) =? 46) with false.
  2: { symmetry. apply Z.eqb_neq. destruct (last host) as [z|]; [|done]. cbn. congruence. }
  unfold DNS_MAX_NAME_LENGTH. rewrite (proj2 (Z.leb_gt _ _)) by lia. destruct (ip4addr_aton host); [done|].
  assert (El : dns_lookup host (Z.of_nat (length host)) s = Ret (cached_address host (dns_table d)) s).
  { unfold dns_lookup. cbv zeta. rewrite Z.min_l by (unfold DNS_MAX_NAME_LENGTH; lia). erewrite bind_Ret by reflexivity. apply lookup_run; done || lia. }
  erewrite bind_Ret by exact El. destruct (cached_address host (dns_table d)); [done|]. erewrite bind_Ret by (by apply (get_server_run 0)).
  change (ip4_addr_isany_val srv) with (srv =? 0). by destruct (srv =? 0).
Qed.

End Request.
