(* ===== verification/DnsTimer.v ===== *)
(** DNS: the clock of the table. *)
From S2P Require Import Prelude Memp Pbuf PbufFacts PbufUpdate PbufAlloc PbufChain PbufRam Chksum Ip4Addr Ethernet Etharp EtharpInv.
From S2P Require Import EtharpSend EtharpReply EtharpOutput Ip IpFacts IpInputFacts Udp UdpFacts UdpFlow Dns DnsName DnsInput DnsSend.

(** ** The clock *)

(** A second passes for an entry; [true] if its request is given up. *)
Definition tick_entry (d : dns_vars) (e : dns_table_entry) : dns_table_entry * bool :=
  match de_state e with
  | DNS_STATE_ASKING =>
    let e := set_de_tmr (u8 (de_tmr e - 1)) e in
    if de_tmr e =? 0 then
      let e := set_de_retries (u8 (de_retries e + 1)) e in
      if de_retries e =? DNS_MAX_RETRIES then
        if has_backup d e then (set_de_retries 0 (set_de_tmr 1 (set_de_server_idx (u8 (de_server_idx e + 1)) e)), false)
        else (set_de_state DNS_STATE_UNUSED e, true)
      else (set_de_tmr (de_retries e) e, false)
    else (e, false)
  | DNS_STATE_DONE =>
    if de_ttl e =? 0 then (set_de_state DNS_STATE_UNUSED e, false)
    else
      let e := set_de_ttl (u32 (de_ttl e - 1)) e in
      (if de_ttl e =? 0 then set_de_state DNS_STATE_UNUSED e else e, false)
  | _ => (e, false)
  end.

(** An entry between two rounds: a request that waits has a name, an
    identification and a server. *)
Record entry_ready (d : dns_vars) (e : dns_table_entry) : Prop := {
  er_settled : de_state e <> DNS_STATE_NEW;
  er_name : de_state e = DNS_STATE_ASKING -> exists ls, named (de_name e) ls;
  er_txid : 0 <= de_txid e < 65536;
  er_index : 0 <= de_server_idx e < DNS_MAX_SERVERS;
  er_server : de_state e = DNS_STATE_ASKING -> exists srv, dns_servers d !! Z.to_nat (de_server_idx e) = Some srv /\ srv <> 0
}.

(** What the requester is told when its request is given up. *)
Definition given_up (e : dns_table_entry) (r : dns_req_entry) : list (Z * list Z * option Z * Z) :=
  match rq_found r, c_string (de_name e) with Some f, Some name => [(f, name, None, rq_arg r)] | _, _ => [] end.

Definition tick (i : nat) (d : dns_vars) : dns_vars :=
  match dns_table d !! i with
  | Some e => let d' := upd_de i (tick_entry d e).1 d in if (tick_entry d e).2 then no_request i d' else d'
  | None => d
  end.

Definition tick_calls (i : nat) (d : dns_vars) : list (Z * list Z * option Z * Z) :=
  match dns_table d !! i, dns_requests d !! i with
  | Some e, Some r => if (tick_entry d e).2 then given_up e r else []
  | _, _ => []
  end.

Lemma tick_entry_ready d e : entry_ready d e -> length (dns_servers d) = 2%nat -> entry_ready d (tick_entry d e).1.
Proof.
  intros [H1 H2 H3 H4 H5] Hs. unfold tick_entry.
  destruct (de_state e) eqn:Es; [split; cbn; intros; (done || congruence || auto)|done| |].
  - destruct (_ =? 0); [|split; cbn; intros; (done || congruence || auto)]. cbn [de_retries set_de_retries set_de_tmr]. destruct (_ =? DNS_MAX_RETRIES); [|split; cbn; intros; (done || congruence || auto)].
    destruct (has_backup _ _) eqn:Eb; [|split; cbn; intros; (done || congruence || auto)]. unfold has_backup, DNS_MAX_SERVERS in *. cbn in Eb. apply andb_true_iff in Eb as [E1%Z.ltb_lt E2%negb_true_iff%Z.eqb_neq].
    split; cbn; [congruence|intros; auto|done|rewrite u8_small by lia; unfold DNS_MAX_SERVERS; lia|]. intros _. rewrite u8_small by lia.
    destruct (dns_servers d !! Z.to_nat (de_server_idx e + 1)) as [srv|]; [by exists srv|done].
  - destruct (de_ttl e =? 0); [split; cbn; intros; (done || congruence || auto)|]. cbn [de_ttl set_de_ttl]. destruct (_ =? 0); split; cbn; intros; (done || congruence || auto).
Qed.

Section Clock.
Context `{WL : WireLaws} `{HL : !HeapLaws} `{CF : !CustomFree} `{BU : !Build} `{US : !UdpState} `{DS : !DnsState} `{DU : !DnsUser} `{UL : !DnsUserLaws}.
Context (odd_at : option ptr -> bool) (ip4_frag : loc -> nat -> Z -> M eth Z).

Lemma told_put d s : told (above (ipv (put_dns d s))) = told (above (ipv s)).
Proof. apply law_told_dns. Qed.

Lemma upd_de_same i e d : dns_table d !! i = Some e -> upd_de i e d = d.
Proof. intros E. unfold upd_de, set_dns_table. rewrite list_insert_id by done. by destruct d. Qed.

Lemma no_request_upd i e d : no_request i (upd_de i e d) = upd_de i e (no_request i d).
Proof. unfold no_request. cbn. by destruct (dns_requests d !! i). Qed.

(** A query in the middle of a round: nobody is told. *)
Lemma wp_tick_send i e ls σ l u s d : resolver σ l u s -> dns_table d !! i = Some e -> dns_pcb d = dns_pcb (dnsv s) -> dns_servers d = dns_servers (dnsv s) ->
  named (de_name e) ls -> 0 <= de_txid e < 65536 -> (exists srv, dns_servers d !! Z.to_nat (de_server_idx e) = Some srv /\ srv <> 0) ->
  wp (dns_send odd_at ip4_frag i;; mret tt) (fun _ s' => keeps σ s s' /\ dnsv s' = d /\ told (above (ipv s')) = told (above (ipv s))) (put_dns d s).
Proof.
  intros Hv He Ep Es Hn Ht (srv & Hsrv & Hne). pose proof (keeps_put σ l u s d Hv) as K.
  apply wp_bind. eapply wp_mono; [apply (wp_dns_send odd_at ip4_frag i e ls srv σ l u (put_dns d s))|]; try done.
  - apply (keeps_resolver σ l u s); [done|by rewrite dnsv_put..|done].
  - by rewrite dnsv_put.
  - by rewrite dnsv_put.
  - intros r s' (_ & K' & Ea). apply wp_ret. split_and!; [by eapply keeps_trans|unfold dnsv; rewrite Ea; apply dnsv_put|rewrite Ea; apply told_put].
Qed.

Lemma keeps_above σ s s1 t : keeps σ s s1 -> udp_part t = udpv s1 -> keeps σ s (set_ipv (set_above t (ipv s1)) s1).
Proof. intros [A1 A2 A3 A4 A5 A6 A7 A8] E. split; try done. rewrite <- A4, <- E. done. Qed.

Lemma notify_run r name s : exists s', notify r name None s = Ret tt s' /\ (forall σ s0, keeps σ s0 s -> keeps σ s0 s') /\ dnsv s' = dnsv s /\
  told (above (ipv s')) = match rq_found r with Some f => [(f, name, None, rq_arg r)] | None => [] end ++ told (above (ipv s)).
Proof.
  unfold notify. destruct (rq_found r) as [f|]; [|by exists s]. eexists. split; [apply law_found|]. split_and!.
  - intros σ s0 K. apply keeps_above; [done|apply law_found_udp].
  - apply law_found_dns.
  - apply law_told.
Qed.

(** A request is given up. *)
Lemma wp_request_over i e r ls σ s s1 (Q : unit -> eth -> Prop) : keeps σ s s1 -> dns_good (dnsv s1) -> dns_table (dnsv s1) !! i = Some e -> dns_requests (dnsv s1) !! i = Some r ->
  named (de_name e) ls ->
  (forall s', keeps σ s s' -> dnsv s' = no_request i (upd_de i (set_de_state DNS_STATE_UNUSED e) (dnsv s1)) ->
     told (above (ipv s')) = given_up e r ++ told (above (ipv s1)) -> Q tt s') ->
  wp (dns_call_found i None;; set_de i (set_de_state DNS_STATE_UNUSED)) Q s1.
Proof.
  intros K Hg He Hr Hn HQ. pose proof (named_string _ _ Hn) as En. destruct (notify_run r (join ls) s1) as (s2 & E2 & K2 & D2 & T2).
  assert (Hi : (i < DNS_TABLE_SIZE)%nat) by (rewrite <- (dg_table _ Hg); by eapply lookup_lt_Some).
  apply wp_bind. eapply wp_of_run; [apply (call_found_run i e r (join ls) None s1 s2); [done|done|done|done|by rewrite D2|done]|].
  rewrite D2. eapply wp_of_run; [apply set_de_run; rewrite dnsv_put, no_request_table; exact He|]. rewrite dnsv_put, put_dns_put. apply HQ.
  - apply keeps_above; [by apply K2|apply udp_part_dns].
  - rewrite dnsv_put. by rewrite no_request_upd.
  - rewrite told_put, T2. unfold given_up. rewrite En. by destruct (rq_found r).
Qed.

Lemma wp_check_entry i e σ l u s : resolver σ l u s -> dns_good (dnsv s) -> dns_table (dnsv s) !! i = Some e -> entry_ready (dnsv s) e ->
  wp (dns_check_entry odd_at ip4_frag i) (fun _ s' => keeps σ s s' /\ dnsv s' = tick i (dnsv s) /\
    told (above (ipv s')) = tick_calls i (dnsv s) ++ told (above (ipv s))) s.
Proof.
  intros Hv Hg He [R1 R2 R3 R4 R5]. destruct (lookup_lt_is_Some_2 (dns_requests (dnsv s)) i) as [r Hr]; [rewrite (dg_requests _ Hg), <- (dg_table _ Hg); by eapply lookup_lt_Some|].
  unfold tick, tick_calls. rewrite He, Hr. set (d := dnsv s) in *. unfold dns_check_entry. apply wp_bind. eapply wp_of_run; [by apply get_de_run|].
  assert (Hset : forall f e1 (Q : unit -> eth -> Prop), Q tt (put_dns (upd_de i (f e1) d) s) -> wp (set_de i f) Q (put_dns (upd_de i e1 d) s))
    by (intros f e1 Q HQ; eapply wp_of_run; [by eapply set_de_again|done]).
  assert (Hget : forall e1 (Q : dns_table_entry -> eth -> Prop), Q e1 (put_dns (upd_de i e1 d) s) -> wp (get_de i) Q (put_dns (upd_de i e1 d) s))
    by (intros e1 Q HQ; eapply wp_of_run; [apply get_de_run; rewrite dnsv_put; by eapply upd_de_here|done]).
  assert (Hdone : forall e1, keeps σ s (put_dns (upd_de i e1 d) s) /\ dnsv (put_dns (upd_de i e1 d) s) = upd_de i e1 d /\
    told (above (ipv (put_dns (upd_de i e1 d) s))) = [] ++ told (above (ipv s))) by (intros; split_and!; [by eapply keeps_put|apply dnsv_put|apply told_put]).
  assert (Es : s = put_dns (upd_de i e d) s) by (rewrite upd_de_same by done; symmetry; apply put_dns_same).
  assert (Hsend : forall e1 ls, de_txid e1 = de_txid e -> de_name e1 = de_name e -> named (de_name e) ls -> (exists srv, dns_servers d !! Z.to_nat (de_server_idx e1) = Some srv /\ srv <> 0) ->
    wp (dns_send odd_at ip4_frag i;; mret tt) (fun _ s' => keeps σ s s' /\ dnsv s' = upd_de i e1 d /\ told (above (ipv s')) = [] ++ told (above (ipv s))) (put_dns (upd_de i e1 d) s)).
  { intros e1 ls E1 E2 Hn Hs1. apply (wp_tick_send i e1 ls σ l u s (upd_de i e1 d)); [done|by eapply upd_de_here|done|done|by rewrite E2|by rewrite E1|done]. }
  match goal with |- wp ?m ?Q s => cut (wp m Q (put_dns (upd_de i e d) s)); [by rewrite <- Es|] end.
  unfold tick_entry. destruct (de_state e) eqn:Est; [| done | |].
  - apply wp_ret, Hdone.
  - destruct (R2 eq_refl) as [ls Hn]. apply wp_bind, Hset, wp_bind, Hget. set (e1 := set_de_tmr _ e). destruct (de_tmr e1 =? 0); [|apply wp_ret, Hdone].
    apply wp_bind, Hset, wp_bind, Hget. set (e2 := set_de_retries _ e1). destruct (de_retries e2 =? DNS_MAX_RETRIES).
    + apply wp_bind. eapply wp_of_run; [apply backup_run; [rewrite dnsv_put; split; [cbn; by rewrite length_insert, (dg_table _ Hg)|apply Hg|apply Hg|]|cbn; lia]|].
      { cbn. apply Forall_insert; [apply Hg|cbn; lia]. }
      rewrite dnsv_put. change (has_backup (upd_de i e2 d) e2) with (has_backup d e2). destruct (has_backup d e2) eqn:Eb; cbn [fst snd].
      * apply wp_bind, Hset. apply (Hsend _ ls); [done|done|done|]. cbn. unfold has_backup, DNS_MAX_SERVERS in *. cbn in Eb.
        apply andb_true_iff in Eb as [E1%Z.ltb_lt E2%negb_true_iff%Z.eqb_neq]. rewrite u8_small by lia.
        destruct (dns_servers d !! Z.to_nat (de_server_idx e + 1)) as [srv|]; [by exists srv|done].
      * apply (wp_request_over i e2 r ls σ s); [by eapply keeps_put|rewrite dnsv_put|rewrite dnsv_put; by eapply upd_de_here|by rewrite dnsv_put|done|].
        { split; [cbn; by rewrite length_insert, (dg_table _ Hg)|apply Hg|apply Hg|cbn; apply Forall_insert; [apply Hg|cbn; lia]]. }
        intros s' K D T. rewrite dnsv_put, upd_de_twice in D. rewrite told_put in T. split_and!; [done|exact D|exact T].
    + apply wp_bind, Hset. apply (Hsend _ ls); [done|done|done|]. cbn. apply R5. done.
  - destruct (de_ttl e =? 0); [apply Hset, Hdone|]. apply wp_bind, Hset, wp_bind, Hget. set (e1 := set_de_ttl _ e).
    destruct (de_ttl e1 =? 0); cbn [when]; [apply Hset, Hdone|apply wp_ret, Hdone].
Qed.

(** ** Rounds *)

(** The state of the table between two rounds. *)
Definition round_ready (d : dns_vars) : Prop := dns_good d /\ Forall (entry_ready d) (dns_table d).

Lemma no_request_good i d : dns_good d -> dns_good (no_request i d).
Proof. unfold no_request. destruct (dns_requests d !! i); [|done]. intros [H1 H2 H3 H4]. split; cbn; try done. by rewrite length_insert. Qed.

Lemma tick_servers i d : dns_servers (tick i d) = dns_servers d /\ dns_pcb (tick i d) = dns_pcb d.
Proof. unfold tick, no_request. destruct (dns_table d !! i) as [e|]; [|done]. destruct (tick_entry d e).2; [|done]. cbn. by destruct (dns_requests d !! i). Qed.

Lemma entry_ready_servers d d' e : dns_servers d' = dns_servers d -> entry_ready d e -> entry_ready d' e.
Proof. intros E [H1 H2 H3 H4 H5]. split; try done. by rewrite E. Qed.

Lemma tick_table i d e : dns_table d !! i = Some e -> dns_table (tick i d) = <[i := (tick_entry d e).1]> (dns_table d).
Proof. intros E. unfold tick. rewrite E. destruct (tick_entry d e).2; [by rewrite no_request_table|done]. Qed.

Lemma tick_ready i d : round_ready d -> round_ready (tick i d).
Proof.
  intros [Hg Hr]. destruct (tick_servers i d) as [Es _]. destruct (dns_table d !! i) as [e|] eqn:E; [|unfold tick; by rewrite E].
  assert (Hr' : entry_ready d (tick_entry d e).1) by (apply tick_entry_ready; [rewrite Forall_forall in Hr; by apply Hr, (list_elem_of_lookup_2 _ i)|by rewrite (dg_servers _ Hg)]).
  split.
  - assert (G : dns_good (upd_de i (tick_entry d e).1 d)).
    { destruct Hg as [H1 H2 H3 H4]. split; cbn; [by rewrite length_insert|done|done|]. apply Forall_insert; [done|apply Hr']. }
    unfold tick. rewrite E. destruct (tick_entry d e).2; [by apply no_request_good|done].
  - rewrite (tick_table _ _ _ E). apply Forall_insert; [eapply Forall_impl; [exact Hr|]|]; intros; by apply (entry_ready_servers d).
Qed.

(** A round from entry [i] on, and what is told in it, the latest first. *)
Fixpoint tick_from (k i : nat) (d : dns_vars) : dns_vars * list (Z * list Z * option Z * Z) :=
  match k with
  | O => (d, [])
  | S k => let x := tick_from k (S i) (tick i d) in (x.1, x.2 ++ tick_calls i d)
  end.

Lemma wp_check_loop k : forall i σ l u s, resolver σ l u s -> round_ready (dnsv s) -> (i + k <= DNS_TABLE_SIZE)%nat ->
  wp (check_loop odd_at ip4_frag k i) (fun _ s' => keeps σ s s' /\ dnsv s' = (tick_from k i (dnsv s)).1 /\
    told (above (ipv s')) = (tick_from k i (dnsv s)).2 ++ told (above (ipv s))) s.
Proof.
  induction k as [|k IH]; intros i σ l u s Hv [Hg Hr] Hi; cbn [check_loop tick_from fst snd].
  - apply wp_ret. split_and!; [by eapply resolver_keeps|done|done].
  - destruct (lookup_lt_is_Some_2 (dns_table (dnsv s)) i) as [e He]; [rewrite (dg_table _ Hg); lia|].
    apply wp_bind. eapply wp_mono; [eapply (wp_check_entry i e σ l u s); [done|done|done|rewrite Forall_forall in Hr; by apply Hr, (list_elem_of_lookup_2 _ i)]|].
    intros _ s1 (K1 & D1 & T1). destruct (tick_servers i (dnsv s)) as [Es Ep].
    eapply wp_mono; [apply (IH (S i) σ l u s1); [apply (keeps_resolver σ l u s); [done|by rewrite D1|by rewrite D1|done]|rewrite D1; apply tick_ready; by split|lia]|].
    intros _ s2 (K2 & D2 & T2). rewrite D1 in D2, T2. rewrite T1, app_assoc in T2. split_and!; [by eapply keeps_trans|done|done].
Qed.

(** [n] rounds. *)
Fixpoint ticks (n : nat) : M eth unit := match n with O => mret tt | S n => dns_tmr odd_at ip4_frag;; ticks n end.

Fixpoint run_ticks (n : nat) (d : dns_vars) : dns_vars * list (Z * list Z * option Z * Z) :=
  match n with
  | O => (d, [])
  | S n => let x := tick_from DNS_TABLE_SIZE 0 d in let y := run_ticks n x.1 in (y.1, y.2 ++ x.2)
  end.

Lemma tick_from_ready k : forall i d, round_ready d -> round_ready (tick_from k i d).1 /\
  dns_servers (tick_from k i d).1 = dns_servers d /\ dns_pcb (tick_from k i d).1 = dns_pcb d.
Proof.
  induction k as [|k IH]; intros i d Hr; cbn [tick_from fst]; [done|]. destruct (IH (S i) (tick i d) (tick_ready i d Hr)) as (H1 & H2 & H3).
  destruct (tick_servers i d). split_and!; [done|congruence|congruence].
Qed.

Lemma wp_ticks n : forall σ l u s, resolver σ l u s -> round_ready (dnsv s) ->
  wp (ticks n) (fun _ s' => keeps σ s s' /\ dnsv s' = (run_ticks n (dnsv s)).1 /\ told (above (ipv s')) = (run_ticks n (dnsv s)).2 ++ told (above (ipv s))) s.
Proof.
  induction n as [|n IH]; intros σ l u s Hv Hr; cbn [ticks run_ticks fst snd].
  - apply wp_ret. split_and!; [by eapply resolver_keeps|done|done].
  - apply wp_bind. unfold dns_tmr, dns_check_entries. eapply wp_mono; [by apply (wp_check_loop DNS_TABLE_SIZE 0 σ l u s)|].
    intros _ s1 (K1 & D1 & T1). destruct (tick_from_ready DNS_TABLE_SIZE 0 (dnsv s) Hr) as (R1 & R2 & R3). rewrite <- D1 in R1, R2, R3.
    eapply wp_mono; [apply (IH σ l u s1); [by apply (keeps_resolver σ l u s)|done]|]. intros _ s2 (K2 & D2 & T2). rewrite D1 in D2, T2. rewrite T1, app_assoc in T2.
    split_and!; [by eapply keeps_trans|done|done].
Qed.

(** ** One request *)

Definition tick_request (d : dns_vars) (e : dns_table_entry) (r : dns_req_entry) : dns_req_entry :=
  if (tick_entry d e).2 then DnsReq None (rq_arg r) else r.

Lemma tick_entry_servers d d' e : dns_servers d' = dns_servers d -> tick_entry d' e = tick_entry d e.
Proof. intros E. unfold tick_entry, has_backup. by rewrite E. Qed.

Lemma tick_row d i e r : row d i e r -> row (tick i d) i (tick_entry d e).1 (tick_request d e r).
Proof.
  intros [He Hr]. split; [rewrite (tick_table _ _ _ He); apply list_lookup_insert_eq; by eapply lookup_lt_Some|].
  unfold tick, tick_request, no_request. rewrite He. destruct (tick_entry d e).2; [|done]. cbn. rewrite Hr. cbn. apply list_lookup_insert_eq. by eapply lookup_lt_Some.
Qed.

Lemma tick_row_other d i j e r : i <> j -> row (tick i d) j e r <-> row d j e r.
Proof.
  intros Hne. unfold row, tick, no_request. destruct (dns_table d !! i) as [e'|]; [|done]. destruct (tick_entry d e').2; cbn; [destruct (dns_requests d !! i); cbn|];
    by rewrite ?list_lookup_insert_ne.
Qed.

(** The calls of the function [f]. *)
Definition calls_of (f : Z) (l : list (Z * list Z * option Z * Z)) : list (Z * list Z * option Z * Z) := filter (fun c => c.1.1.1 = f) l.

(** Nobody but entry [i] has the function [f]. *)
Definition only_at (f : Z) (i : nat) (d : dns_vars) : Prop := forall j r, dns_requests d !! j = Some r -> rq_found r = Some f -> j = i.

Lemma tick_only f i j d : only_at f i d -> only_at f i (tick j d).
Proof.
  intros Ho k r Hk Hf. unfold tick, no_request in Hk. destruct (dns_table d !! j) as [e|]; [|by apply (Ho k r)]. destruct (tick_entry d e).2; [|by apply (Ho k r)].
  cbn in Hk. destruct (dns_requests d !! j) as [r'|]; cbn in Hk; [|by apply (Ho k r)]. apply list_lookup_insert_Some in Hk as [(<- & <- & _)|(Hne & Hk)]; [done|by apply (Ho k r)].
Qed.

Lemma tick_calls_other f i j d : only_at f i d -> j <> i -> calls_of f (tick_calls j d) = [].
Proof.
  intros Ho Hne. unfold tick_calls, calls_of, given_up. destruct (dns_table d !! j) as [e|]; [|done]. destruct (dns_requests d !! j) as [r|] eqn:Er; [|done].
  destruct (tick_entry d e).2; [|done]. destruct (rq_found r) as [g|] eqn:Eg; [|done]. destruct (c_string (de_name e)); [|done].
  rewrite filter_cons, decide_False; [done|]. cbn. intros ->. by apply Hne, (Ho j r).
Qed.

Definition tick_told (f : Z) (d : dns_vars) (e : dns_table_entry) (r : dns_req_entry) : list (Z * list Z * option Z * Z) :=
  if (tick_entry d e).2 then calls_of f (given_up e r) else [].

Lemma tick_from_row f i e r k : forall j d, only_at f i d -> row d i e r -> let x := tick_from k j d in
  only_at f i x.1 /\
  if bool_decide (j <= i < j + k)%nat then row x.1 i (tick_entry d e).1 (tick_request d e r) /\ calls_of f x.2 = tick_told f d e r
  else row x.1 i e r /\ calls_of f x.2 = [].
Proof.
  induction k as [|k IH]; intros j d Ho Hr; cbn [tick_from]; [rewrite bool_decide_false by lia; done|]. cbv zeta. cbn [fst snd].
  destruct (tick_servers j d) as [Es _]. destruct (decide (j = i)) as [->|Hne].
  - rewrite bool_decide_true by lia. pose proof (tick_row d i e r Hr) as Hr'.
    assert (E : calls_of f (tick_calls i d) = tick_told f d e r) by (unfold tick_calls, tick_told; destruct Hr as [-> ->]; by destruct (tick_entry d e).2).
    assert (Hlater : forall m d1 j1, only_at f i d1 -> (i < j1)%nat -> row d1 i (tick_entry d e).1 (tick_request d e r) ->
      only_at f i (tick_from m j1 d1).1 /\ row (tick_from m j1 d1).1 i (tick_entry d e).1 (tick_request d e r) /\ calls_of f (tick_from m j1 d1).2 = []).
    { clear. induction m as [|m IH]; intros d1 j1 Ho Hj Hr; cbn [tick_from fst snd]; [done|].
      destruct (IH (tick j1 d1) (S j1)) as (H1 & H2 & H3); [by apply tick_only|lia|by apply tick_row_other; [lia|]|]. split_and!; [done|done|].
      unfold calls_of in *. rewrite filter_app, H3. apply (tick_calls_other f i); [done|lia]. }
    destruct (Hlater k (tick i d) (S i)) as (H1 & H2 & H3); [by apply tick_only|lia|done|]. split_and!; [done|done|]. unfold calls_of in *. by rewrite filter_app, H3, E.
  - assert (Hr' : row (tick j d) i e r) by (by apply tick_row_other). destruct (IH (S j) (tick j d) (tick_only f i j d Ho) Hr') as [H1 H2].
    unfold tick_told, tick_request in *. rewrite (tick_entry_servers d (tick j d)) in H2 by done. split; [done|]. pose proof (tick_calls_other f i j d Ho Hne) as E.
    assert (Eb : bool_decide (S j <= i < S j + k)%nat = bool_decide (j <= i < j + S k)%nat) by (apply bool_decide_ext; lia). rewrite Eb in H2. unfold calls_of in *. rewrite filter_app, E, app_nil_r.
    done.
Qed.

(** An entry, its request and what its function is told in [n] rounds, while the
    servers stay. *)
Fixpoint aged (f : Z) (d : dns_vars) (n : nat) (e : dns_table_entry) (r : dns_req_entry) : dns_table_entry * dns_req_entry * list (Z * list Z * option Z * Z) :=
  match n with
  | O => (e, r, [])
  | S n => let x := aged f d n (tick_entry d e).1 (tick_request d e r) in (x.1, x.2 ++ tick_told f d e r)
  end.

Lemma aged_servers f d d' n : dns_servers d' = dns_servers d -> forall e r, aged f d' n e r = aged f d n e r.
Proof.
  intros E. induction n as [|n IH]; intros e r; cbn [aged]; [done|]. unfold tick_told, tick_request. rewrite (tick_entry_servers d d') by done. by rewrite IH.
Qed.

Lemma run_ticks_row f i n : forall d e r, round_ready d -> only_at f i d -> row d i e r -> let x := run_ticks n d in let a := aged f d n e r in
  row x.1 i a.1.1 a.1.2 /\ calls_of f x.2 = a.2.
Proof.
  induction n as [|n IH]; intros d e r Hr Ho He; cbn [run_ticks aged]; [done|]. cbv zeta. cbn [fst snd].
  destruct (tick_from_row f i e r DNS_TABLE_SIZE 0 d Ho He) as [O1 R1].
  assert (Hi : (i < DNS_TABLE_SIZE)%nat) by (rewrite <- (dg_table _ (proj1 Hr)); by eapply lookup_lt_Some, He).
  rewrite bool_decide_true in R1 by lia. destruct R1 as [R1 C1]. destruct (tick_from_ready DNS_TABLE_SIZE 0 d Hr) as (Hr' & Es & _).
  destruct (IH _ _ _ Hr' O1 R1) as [R2 C2]. rewrite (aged_servers f d) in R2, C2 by done. split; [done|]. unfold calls_of in *. by rewrite filter_app, C1, C2.
Qed.

(** ** How long a request waits *)

Lemma aged_plus f d m : forall n e r, aged f d (m + n) e r = let x := aged f d m e r in let y := aged f d n x.1.1 x.1.2 in (y.1, y.2 ++ x.2).
Proof.
  induction m as [|m IH]; intros n e r; cbn [Nat.add aged]; cbv zeta; cbn [fst snd]; [rewrite app_nil_r; by destruct (aged f d n e r)|].
  rewrite IH. cbv zeta. cbn [fst snd]. by rewrite <- app_assoc.
Qed.

Lemma aged_idle f d n : forall e r, de_state e = DNS_STATE_UNUSED -> aged f d n e r = (e, r, []).
Proof.
  induction n as [|n IH]; intros e r E; [done|]. assert (Et : tick_entry d e = (e, false)) by (unfold tick_entry; by rewrite E).
  cbn [aged]. unfold tick_request, tick_told. rewrite Et. cbn [fst snd]. by rewrite IH.
Qed.

(** Seven seconds with one server. *)
Lemma attempt f d e r idx n : (n < 7)%nat -> exists tmr retries, aged f d n (stage e idx 1 0) r = (stage e idx tmr retries, r, []).
Proof.
  intros Hn. exists (nth n [1; 1; 2; 1; 3; 2; 1] 0), (nth n [0; 1; 2; 2; 3; 3; 3] 0).
  do 7 (destruct n as [|n]; [vm_compute; reflexivity|]). lia.
Qed.

Lemma attempt_end f d e r idx : aged f d 7 (stage e idx 1 0) r =
  if has_backup d (stage e idx 1 0) then (stage e (u8 (idx + 1)) 1 0, r, [])
  else (set_de_state DNS_STATE_UNUSED (stage e idx 0 4), DnsReq None (rq_arg r), calls_of f (given_up e r)).
Proof.
  change 7%nat with (6 + 1)%nat. rewrite aged_plus.
  assert (E6 : aged f d 6 (stage e idx 1 0) r = (stage e idx 1 3, r, [])) by (vm_compute; reflexivity). rewrite E6.
  cbv zeta. cbn [fst snd aged]. rewrite !app_nil_r. unfold tick_told, tick_request.
  assert (E : tick_entry d (stage e idx 1 3) = if has_backup d (stage e idx 1 0) then (stage e (u8 (idx + 1)) 1 0, false) else (set_de_state DNS_STATE_UNUSED (stage e idx 0 4), true)) by done.
  rewrite E. by destruct (has_backup d (stage e idx 1 0)).
Qed.

Definition deadline (d : dns_vars) (e : dns_table_entry) : nat := if has_backup d e then 14 else 7.

Lemma patience f d e r n : let x := aged f d n (stage e 0 1 0) r in
  if (n <? deadline d (stage e 0 1 0))%nat then exists idx tmr retries, x = (stage e idx tmr retries, r, [])
  else de_state x.1.1 = DNS_STATE_UNUSED /\ x.1.2 = DnsReq None (rq_arg r) /\ x.2 = calls_of f (given_up e r).
Proof.
  intros x. unfold x, deadline. pose proof (attempt_end f d e r 0) as E0. destruct (Nat.ltb_spec n (if has_backup d (stage e 0 1 0) then 14 else 7)) as [Hlt|Hge].
  - destruct (decide (n < 7)%nat) as [H7|H7]; [destruct (attempt f d e r 0 n H7) as (t & k & ->); by eexists _, _, _|].
    destruct (has_backup d (stage e 0 1 0)); [|lia]. replace n with (7 + (n - 7))%nat by lia. rewrite aged_plus, E0. cbv zeta. cbn [fst snd].
    change (u8 (0 + 1)) with 1. destruct (attempt f d e r 1 (n - 7)) as (t & k & ->); [lia|]. cbn [fst snd]. by eexists _, _, _.
  - replace n with (7 + (n - 7))%nat by (destruct (has_backup _ _); lia). rewrite aged_plus, E0. cbv zeta. destruct (has_backup d (stage e 0 1 0)) eqn:Eb; cbn [fst snd].
    + change (u8 (0 + 1)) with 1. replace (n - 7)%nat with (7 + (n - 14))%nat by lia. rewrite aged_plus, attempt_end. change (has_backup d (stage e 1 1 0)) with false.
      cbv zeta. cbn [fst snd]. rewrite aged_idle by done. cbn [fst snd]. by rewrite app_nil_r.
    + rewrite aged_idle by done. by cbn [fst snd].
Qed.

(** C18. No request waits for ever. In every state of the table between two
    rounds of the clock, with the layers below in order, a request that has just
    been sent to the first server is kept for seven seconds, fourteen when there
    is a second server; then its entry is free again, and its function has been
    called once, with the name, no address and its argument. However long the
    clock runs, every round returns, and the memory below is as it was: whatever
    becomes of the queries, nothing is leaked. *)
Theorem dns_requests_expire σ l u s i e ls f arg n : resolver σ l u s -> round_ready (dnsv s) ->
  row (dnsv s) i e (DnsReq (Some f) arg) -> only_at f i (dnsv s) -> named (de_name e) ls ->
  de_state e = DNS_STATE_ASKING -> de_server_idx e = 0 -> de_tmr e = 1 -> de_retries e = 0 ->
  exists s' e', ticks n s = Ret tt s' /\ keeps σ s s' /\
    (if (n <? deadline (dnsv s) e)%nat then
       row (dnsv s') i e' (DnsReq (Some f) arg) /\ de_state e' = DNS_STATE_ASKING /\ de_name e' = de_name e /\
       calls_of f (told (above (ipv s'))) = calls_of f (told (above (ipv s)))
     else
       row (dnsv s') i e' (DnsReq None arg) /\ de_state e' = DNS_STATE_UNUSED /\
       calls_of f (told (above (ipv s'))) = (f, join ls, None, arg) :: calls_of f (told (above (ipv s)))).
Proof.
  intros Hv Hr He Ho Hn E1 E2 E3 E4. assert (Ee : e = stage e 0 1 0) by (destruct e; cbn in *; by subst).
  destruct (wp_elim _ _ _ (wp_ticks n σ l u s Hv Hr)) as ([] & s' & Er & K & D & T).
  destruct (run_ticks_row f i n (dnsv s) e (DnsReq (Some f) arg) Hr Ho He) as [R C]. rewrite <- D in R.
  assert (Ec : calls_of f (told (above (ipv s'))) = (aged f (dnsv s) n e (DnsReq (Some f) arg)).2 ++ calls_of f (told (above (ipv s)))) by (rewrite T, <- C; apply filter_app).
  pose proof (patience f (dnsv s) e (DnsReq (Some f) arg) n) as P. cbv zeta in P. rewrite <- Ee in P. exists s', (aged f (dnsv s) n e (DnsReq (Some f) arg)).1.1.
  split; [done|]. split; [done|]. rewrite Ec. destruct (n <? deadline (dnsv s) e)%nat.
  - destruct P as (idx & tmr & k & P). rewrite P in R |- *. done.
  - destruct P as (P1 & P2 & P3). rewrite P2 in R. split_and!; [done|done|]. rewrite P3. unfold given_up. cbn [rq_found rq_arg]. rewrite (named_string _ _ Hn).
    unfold calls_of at 1. rewrite filter_cons, decide_True by done. done.
Qed.
End Clock.
