(* ===== verification/ReassQueue.v ===== *)
(** Reassembly: the queue of a datagram as a list, a new fragment in it, and the
    join of a queue that is complete. *)
From stdpp Require Import functions.
From S2P Require Import Prelude Memp Pbuf PbufFacts PbufUpdate PbufAlloc PbufChain PbufRam Chksum ChksumFacts Ip4Addr Ethernet Etharp EtharpTable.
From S2P Require Import EtharpInv EtharpSend EtharpReply Ip Icmp Reass IpFacts IcmpFacts IpInputFacts.

(** ** Fragments *)

(** A queued fragment: its packet, and where it begins. *)
Record qfrag : Type := QF { qf_node : node; qf_rest : list node; qf_start : Z }.

Definition qf_chain (f : qfrag) : list node := qf_node f :: qf_rest f.
Definition qf_loc (f : qfrag) : loc := n_loc (qf_node f).
Definition qf_ptr (f : qfrag) : option ptr := payload (n_buf (qf_node f)).
Definition qf_data (f : qfrag) : list Z := drop 20 (contents (qf_chain f)).
Definition qf_end (f : qfrag) : Z := qf_start f + Z.of_nat (length (qf_data f)).
Definition qf_locs (f : qfrag) : list loc := map n_loc (qf_chain f).
Definition qf_areas (f : qfrag) : list loc := omap node_area (qf_chain f).

(** A new fragment goes where its offset says, unless it overlaps one that is
    there. *)
Fixpoint place (f : qfrag) (qs : list qfrag) : option (list qfrag) :=
  match qs with
  | [] => Some [f]
  | g :: qs' =>
    if qf_start f <? qf_start g then if qf_start g <? qf_end f then None else Some (f :: g :: qs')
    else if (qf_start f =? qf_start g) || (qf_start f <? qf_end g) then None
    else (cons g) <$> place f qs'
  end.

(** Each fragment begins where the one before ends. *)
Fixpoint contig (qs : list qfrag) : bool :=
  match qs with
  | f :: (g :: _) as t => (qf_end f =? qf_start g) && contig t
  | _ => true
  end.

Definition complete (qs : list qfrag) : bool :=
  match qs with [] => false | f :: _ => (qf_start f =? 0) && contig qs end.

Lemma contig_app a f b : contig (a ++ f :: b) = contig (a ++ [f]) && contig (f :: b).
Proof.
  induction a as [|g a IH]; [done|]. destruct a as [|g' a].
  - cbn [app contig]. by rewrite andb_true_r.
  - change ((g :: g' :: a) ++ f :: b) with (g :: (g' :: a) ++ f :: b). change ((g :: g' :: a) ++ [f]) with (g :: (g' :: a) ++ [f]).
    cbn [contig app] in *. rewrite IH. by rewrite andb_assoc.
Qed.

Lemma contig_snoc a g f : contig (a ++ [g; f]) = contig (a ++ [g]) && (qf_end g =? qf_start f).
Proof. rewrite (contig_app a g [f]). cbn [contig]. by rewrite andb_true_r. Qed.

Section Queue.
Context `{WL : WireLaws} `{HL : !HeapLaws} `{CF : !CustomFree} `{BU : !Build}.

(** The fragment as it lies in memory: its header has the offsets of the
    helper. *)
Record frag_in (m : mem) (f : qfrag) : Prop := {
  fi_packet : packet m (Some (qf_loc f)) (qf_chain f);
  fi_release : EtharpReply.releasable (qf_chain f);
  fi_len : 20 <= len (n_buf (qf_node f));
  fi_start : hdr_field 4 2 (n_data (qf_node f)) = bytes16 (qf_start f);
  fi_end : hdr_field 6 2 (n_data (qf_node f)) = bytes16 (qf_end f);
  fi_range : 0 <= qf_start f /\ qf_end f < 65536
}.

(** The queue from [p] on, to [tl]. *)
Fixpoint qseg (m : mem) (np : gmap ptr (option loc)) (p : option loc) (qs : list qfrag) (tl : option loc) : Prop :=
  match qs with
  | [] => p = tl
  | f :: qs => p = Some (qf_loc f) /\ frag_in m f /\ exists x n, qf_ptr f = Some x /\ np !! x = Some n /\ qseg m np n qs tl
  end.

Lemma qseg_app m np a : forall p b tl, qseg m np p (a ++ b) tl <-> exists n, qseg m np p a n /\ qseg m np n b tl.
Proof.
  induction a as [|f a IH]; intros p b tl; cbn [app qseg].
  - split; [intros H'; by exists p|by intros (n & -> & H')].
  - split.
    + intros (-> & Hf & x & n & Ex & En & (k & H1 & H2)%IH). exists k. split; [|done]. split_and!; [done|done|]. by exists x, n.
    + intros (k & (-> & Hf & x & n & Ex & En & H1) & H2). split_and!; [done|done|]. exists x, n. split_and!; [done|done|]. apply IH. by exists k.
Qed.

Lemma qseg_np m np np' p qs tl : (forall x, Some x ∈ map qf_ptr qs -> np' !! x = np !! x) -> qseg m np p qs tl -> qseg m np' p qs tl.
Proof.
  revert p. induction qs as [|f qs IH]; intros p He; [done|]. cbn [qseg]. intros (-> & Hf & x & n & Ex & En & Hs).
  split_and!; [done|done|]. exists x, n. split_and!; [done| |].
  - rewrite He; [done|]. rewrite <- Ex. by left.
  - apply IH; [|done]. intros y Hy. apply He. by right.
Qed.

Lemma qseg_insert m np p qs tl x n : Some x ∉ map qf_ptr qs -> qseg m np p qs tl -> qseg m (<[x := n]> np) p qs tl.
Proof. intros Hx. apply qseg_np. intros y Hy. rewrite lookup_insert_ne; [done|]. by intros ->. Qed.

(** The last fragment's successor is set. *)
Lemma qseg_retarget m np p a g tl tl' x : NoDup (map qf_ptr (a ++ [g])) -> qf_ptr g = Some x ->
  qseg m np p (a ++ [g]) tl -> qseg m (<[x := tl']> np) p (a ++ [g]) tl'.
Proof.
  intros Hn Ex (n & H1 & (-> & Hg & y & k & Ey & Ek & _))%qseg_app. apply qseg_app. exists (Some (qf_loc g)).
  assert (Hx : Some x ∉ map qf_ptr a).
  { rewrite map_app in Hn. apply NoDup_app in Hn as (_ & Hn & _). intros Hin. apply (Hn _ Hin). cbn. rewrite Ex. by left. }
  split; [by apply qseg_insert|]. split_and!; [done|done|]. exists x, tl'. split_and!; [done|by rewrite lookup_insert_eq|done].
Qed.

Lemma qseg_in m np p qs tl f : qseg m np p qs tl -> f ∈ qs -> frag_in m f.
Proof.
  revert p. induction qs as [|g qs IH]; intros p; [by intros _ ?%elem_of_nil|]. cbn [qseg].
  intros (_ & Hg & x & n & _ & _ & Hs) [->|Hin]%elem_of_cons; [done|by eapply IH].
Qed.

(** ** Footprints *)

(** The pbufs and the areas of a chain. *)
Definition foot (c : list node) : list loc := map n_loc c ++ omap node_area c.

Definition untouched (L : list loc) (m m' : mem) : Prop :=
  forall l, l ∈ L -> pbufs m' !! l = pbufs m !! l /\ bytes m' !! l = bytes m !! l.

Lemma untouched_refl L m : untouched L m m.
Proof. by split. Qed.

Lemma untouched_trans L m1 m2 m3 : untouched L m1 m2 -> untouched L m2 m3 -> untouched L m1 m3.
Proof. intros H1 H2 l Hl. destruct (H1 l Hl), (H2 l Hl). split; congruence. Qed.

Lemma untouched_block l L m m' : only_block l m m' -> l ∉ L -> untouched L m m'.
Proof. intros (_ & _ & _ & _ & O) Hl x Hx. apply O. by intros ->. Qed.

Lemma untouched_pbufs P L m m' : only_pbufs P m m' -> (forall l, l ∈ L -> l ∉ P) -> untouched L m m'.
Proof. intros F Hd l Hl. split; [by apply (op_pbufs _ _ _ F), Hd|by rewrite (op_bytes _ _ _ F)]. Qed.

Lemma untouched_released L c m : (forall l, l ∈ L -> l ∉ map n_loc c) ->
  untouched L m (drop_ref (remaining c) (free_all (released c) m)).
Proof. intros Hd l Hl. split; [by apply PbufRealloc.released_pbufs, Hd|]. apply PbufRealloc.released_bytes. intros o _. by apply Hd. Qed.

Lemma packet_untouched m m' p c : untouched (foot c) m m' -> packet m p c -> packet m' p c.
Proof.
  intros Hu [Hc H1 H2 H3 H4]. split; try done. revert Hc. apply chain_frame.
  - intros n Hn. apply Hu, elem_of_app. left. apply list_elem_of_fmap. by exists n.
  - intros n blk Hn Hb. apply Hu, elem_of_app. right. apply list_elem_of_omap. by exists n.
Qed.

Lemma frag_untouched m m' f : untouched (foot (qf_chain f)) m m' -> frag_in m f -> frag_in m' f.
Proof. intros Hu [Hp H1 H2 H3 H4 H5]. split; try done. by eapply packet_untouched. Qed.

Lemma qseg_untouched m m' np qs tl : forall p, Forall (fun f => untouched (foot (qf_chain f)) m m') qs -> qseg m np p qs tl -> qseg m' np p qs tl.
Proof.
  induction qs as [|f qs IH]; intros p; [done|]. intros [Hf Hqs]%Forall_cons (-> & Hin & x & n & Ex & En & Hs).
  split; [done|]. split; [by eapply frag_untouched|]. exists x, n. split_and!; [done|done|]. by apply IH.
Qed.

(** Fragments that share nothing. *)
Definition disj (f g : qfrag) : Prop := forall l, l ∈ foot (qf_chain f) -> l ∉ foot (qf_chain g).

Lemma disj_sym f g : disj f g -> disj g f.
Proof. intros H1 l Hl Hf. by apply (H1 l). Qed.

Fixpoint apart (fs : list qfrag) : Prop :=
  match fs with [] => True | f :: fs => Forall (disj f) fs /\ apart fs end.

#[export] Instance apart_perm : Proper ((≡ₚ) ==> iff) apart.
Proof.
  assert (E : forall l1 l2, l1 ≡ₚ l2 -> apart l1 -> apart l2).
  { induction 1 as [|f l1 l2 Hp IH|f g l|l1 l2 l3 _ IH1 _ IH2]; [done| | |auto].
    - intros [Hf H1]. split; [by rewrite <- Hp|by apply IH].
    - intros [[Hfg Hf]%Forall_cons [Hg H1]]. split; [|by split]. apply Forall_cons. split; [by apply disj_sym|done]. }
  intros l1 l2 Hp. split; apply E; [done|by symmetry].
Qed.

Lemma apart_app a b : apart (a ++ b) -> apart a /\ apart b /\ forall f g, f ∈ a -> g ∈ b -> disj f g.
Proof.
  induction a as [|h a IH]; cbn [app apart].
  { intros Hb. split; [done|]. split; [done|]. by intros f g ?%elem_of_nil. }
  rewrite Forall_app. intros ((H1 & H2) & H3). destruct (IH H3) as (A1 & A2 & A3). split; [done|]. split; [done|].
  intros f g [->|Hf]%elem_of_cons Hg; [|by apply A3]. rewrite Forall_forall in H2. by apply H2.
Qed.

(** ** Reading a helper *)

Lemma frag_read m f : frag_in m f -> pbufs m !! qf_loc f = Some (n_buf (qf_node f)) /\ holds m (n_buf (qf_node f)) (n_data (qf_node f)).
Proof. intros [Hp _ _ _ _ _]. by destruct (pk_chain _ _ _ Hp) as (_ & ? & ? & _). Qed.

Lemma wp_iprh_of f (Q : option ptr -> eth -> Prop) s : frag_in (emem s) f -> Q (qf_ptr f) s -> wp (iprh_of (qf_loc f)) Q s.
Proof.
  intros Hf HQ. destruct (frag_read _ _ Hf) as [Hl _]. unfold iprh_of. apply wp_bind, wp_on_pbuf, (wp_getp _ _ _ _ Hl).
  apply wp_ret. by destruct s.
Qed.

Lemma end_range f : 0 <= qf_start f /\ qf_end f < 65536 -> 0 <= qf_end f < 65536 /\ 0 <= qf_start f < 65536.
Proof. unfold qf_end. lia. Qed.

Lemma wp_iprh_start f (Q : Z -> eth -> Prop) s : frag_in (emem s) f -> Q (qf_start f) s -> wp (iprh_start (qf_ptr f)) Q s.
Proof.
  intros Hf HQ. destruct (frag_read _ _ Hf) as [_ Hh]. pose proof (end_range f (fi_range _ _ Hf)) as [_ Hr].
  apply (wp_load16_at _ _ _ _ _ Hh); [lia|pose proof (fi_len _ _ Hf); lia|]. change (Z.to_nat 4) with 4%nat.
  rewrite (fi_start _ _ Hf), load_bytes16; done.
Qed.

Lemma wp_iprh_end f (Q : Z -> eth -> Prop) s : frag_in (emem s) f -> Q (qf_end f) s -> wp (iprh_end (qf_ptr f)) Q s.
Proof.
  intros Hf HQ. destruct (frag_read _ _ Hf) as [_ Hh]. pose proof (end_range f (fi_range _ _ Hf)) as [Hr _].
  apply (wp_load16_at _ _ _ _ _ Hh); [lia|pose proof (fi_len _ _ Hf); lia|]. change (Z.to_nat 6) with 6%nat.
  rewrite (fi_end _ _ Hf), load_bytes16; done.
Qed.

Lemma wp_iprh_next x n (Q : option loc -> eth -> Prop) s : next_pbufs (ipv s) !! x = Some n -> Q n s -> wp (iprh_next (Some x)) Q s.
Proof. intros E HQ. unfold iprh_next. apply wp_bind, wp_ret, wp_bind, wp_ip_var. rewrite E. by apply wp_ret. Qed.

Definition put_next (x : ptr) (n : option loc) (s : eth) : eth := set_ipv (set_next_pbufs (<[x := n]> (next_pbufs (ipv s))) (ipv s)) s.

Lemma wp_set_iprh_next x n (Q : unit -> eth -> Prop) s : Q tt (put_next x n s) -> wp (set_iprh_next (Some x) n) Q s.
Proof. intros HQ. unfold set_iprh_next. by apply wp_bind, wp_ret, wp_mod_ipv. Qed.
End Queue.

(** ** The search for the place *)

(** [f] belongs behind [g]. *)
Definition passed (f g : qfrag) : Prop := qf_start g < qf_start f /\ qf_end g <= qf_start f.

Lemma place_pass f g qs : passed f g -> place f (g :: qs) = cons g <$> place f qs.
Proof.
  intros [H1 H2]. cbn [place]. rewrite (proj2 (Z.ltb_ge _ _)), (proj2 (Z.eqb_neq _ _)), (proj2 (Z.ltb_ge _ _)) by lia. done.
Qed.

Lemma place_app f a b : Forall (passed f) a -> place f (a ++ b) = (fun l => a ++ l) <$> place f b.
Proof.
  induction 1 as [|g a Hg _ IH]; cbn [app]; [by destruct (place f b)|]. rewrite place_pass, IH by done. by destruct (place f b).
Qed.

(** The helper of the fragment before. *)
Definition last_ptr (qs : list qfrag) : option (option ptr) := qf_ptr <$> last qs.

Lemma last_ptr_snoc qs g : last_ptr (qs ++ [g]) = Some (qf_ptr g).
Proof. unfold last_ptr. by rewrite last_snoc. Qed.

Section Place.
Context `{WL : WireLaws} `{HL : !HeapLaws} `{CF : !CustomFree} `{BU : !Build}.

(** The datagram [ipr] with its first fragment at [p] and the pointers [np]. *)
Definition with_queue (ipr : loc) (r : ip_reassdata) (p : option loc) (np : gmap ptr (option loc)) (s : eth) : eth :=
  set_ipv (set_next_pbufs np (set_reass_pool (<[ipr := set_rd_p p r]> (reass_pool (ipv s))) (ipv s))) s.

Lemma with_queue_same ipr r np s : reass_pool (ipv s) !! ipr = Some r ->
  with_queue ipr r (rd_p r) np s = set_ipv (set_next_pbufs np (ipv s)) s.
Proof.
  intros E. unfold with_queue. f_equal. f_equal. replace (set_rd_p (rd_p r) r) with r by (by destruct r).
  rewrite insert_id by done. by destruct (ipv s).
Qed.

(** [qs] is the queue of [ipr] at [s'], which differs from [s] there only. *)
Definition linked (s : eth) (ipr : loc) (r : ip_reassdata) (qs : list qfrag) (s' : eth) : Prop :=
  exists p np, s' = with_queue ipr r p np s /\ qseg (emem s) np p qs None /\
    forall x, Some x ∉ map qf_ptr qs -> np !! x = next_pbufs (ipv s) !! x.

(** What a search that ends with nothing may have changed. *)
Definition unlinked (s : eth) (x : ptr) (s' : eth) : Prop :=
  exists np, s' = set_ipv (set_next_pbufs np (ipv s)) s /\ forall y, y <> x -> np !! y = next_pbufs (ipv s) !! y.

Lemma unlinked_refl s x : unlinked s x s.
Proof. exists (next_pbufs (ipv s)). split; [|done]. by destruct s as [? [? []] ? ? ?]. Qed.

Lemma unlinked_put s x n : unlinked s x (put_next x n s).
Proof. eexists. split; [reflexivity|]. intros y Hy. by rewrite lookup_insert_ne. Qed.

(** The fragment [f] goes before [g], behind [a]. *)
Lemma linked_first s ipr r f g b x : reass_pool (ipv s) !! ipr = Some r ->
  qseg (emem s) (next_pbufs (ipv s)) (rd_p r) (g :: b) None -> qf_ptr f = Some x -> Some x ∉ map qf_ptr (g :: b) -> frag_in (emem s) f ->
  linked s ipr r (f :: g :: b) (with_queue ipr r (Some (qf_loc f)) (<[x := Some (qf_loc g)]> (next_pbufs (ipv s))) s).
Proof.
  intros Er Hs Ex Hx Hf. do 2 eexists. split; [reflexivity|]. split.
  - pose proof Hs as (Ep & _). rewrite Ep in Hs. split; [done|]. split; [done|]. exists x, (Some (qf_loc g)).
    split; [done|]. split; [apply lookup_insert_eq|]. by apply (qseg_insert _ _ _ (g :: b)).
  - intros y Hy. rewrite lookup_insert_ne; [done|]. intros <-. apply Hy. rewrite <- Ex. by left.
Qed.

Lemma linked_behind s ipr r a g0 f b x y n tl : reass_pool (ipv s) !! ipr = Some r ->
  NoDup (map qf_ptr (a ++ [g0])) -> (forall z, z ∈ map qf_ptr (a ++ [g0]) -> z ∉ map qf_ptr b) ->
  qseg (emem s) (next_pbufs (ipv s)) (rd_p r) (a ++ [g0]) n -> qseg (emem s) (next_pbufs (ipv s)) tl b None ->
  qf_ptr f = Some x -> qf_ptr g0 = Some y -> Some x ∉ map qf_ptr (a ++ [g0]) -> Some x ∉ map qf_ptr b -> frag_in (emem s) f ->
  linked s ipr r (a ++ g0 :: f :: b)
    (set_ipv (set_next_pbufs (<[y := Some (qf_loc f)]> (<[x := tl]> (next_pbufs (ipv s)))) (ipv s)) s).
Proof.
  intros Er Hn Hab Ha Hb Ex Ey Hxa Hxb Hf. eexists _, _. split; [symmetry; by apply with_queue_same|].
  assert (Hyb : Some y ∉ map qf_ptr b) by (apply Hab; rewrite map_app; apply elem_of_app; right; rewrite <- Ey; by left).
  assert (Hxy : x <> y) by (intros ->; apply Hxa; rewrite map_app; apply elem_of_app; right; rewrite <- Ey; by left).
  split.
  - change (a ++ g0 :: f :: b) with (a ++ [g0] ++ f :: b). rewrite (assoc (++)). apply qseg_app. exists (Some (qf_loc f)). split.
    + eapply qseg_retarget; [done|done|]. apply qseg_insert; [done|exact Ha].
    + split; [done|]. split; [done|]. exists x, tl. split; [done|]. split; [by rewrite lookup_insert_ne, lookup_insert_eq|].
      by do 2 (apply (qseg_insert _ _ _ b); [done|]).
  - change (a ++ g0 :: f :: b) with (a ++ [g0] ++ f :: b). intros z Hz. rewrite !map_app in Hz. apply not_elem_of_app in Hz as [_ Hz].
    apply not_elem_of_app in Hz as [Hz1 Hz2]. rewrite !lookup_insert_ne; [done| |].
    + intros <-. apply Hz2. cbn. rewrite Ex. by left.
    + intros <-. apply Hz1. cbn. rewrite Ey. by left.
Qed.

Lemma wp_set_next x y n (Q : unit -> eth -> Prop) s : x = Some y -> Q tt (put_next y n s) -> wp (set_iprh_next x n) Q s.
Proof. intros ->. apply wp_set_iprh_next. Qed.

Lemma wp_set_rd l r f (Q : unit -> eth -> Prop) s : reass_pool (ipv s) !! l = Some r ->
  Q tt (set_ipv (set_reass_pool (<[l := f r]> (reass_pool (ipv s))) (ipv s)) s) -> wp (set_rd l f) Q s.
Proof.
  intros E HQ. unfold set_rd, get_rd. apply wp_bind, wp_bind, wp_ip_var. rewrite E. apply wp_ret. by apply wp_mod_ipv.
Qed.

Lemma wp_get_rd l r (Q : ip_reassdata -> eth -> Prop) s : reass_pool (ipv s) !! l = Some r -> Q r s -> wp (get_rd l) Q s.
Proof. intros E HQ. unfold get_rd. apply wp_bind, wp_ip_var. rewrite E. by apply wp_ret. Qed.

(** The queue of the datagram [ipr], and a fragment that is not in it yet. *)
Record searching (s : eth) (ipr : loc) (r : ip_reassdata) (qs : list qfrag) (f : qfrag) (x : ptr) : Prop := {
  sg_rd : reass_pool (ipv s) !! ipr = Some r;
  sg_queue : qseg (emem s) (next_pbufs (ipv s)) (rd_p r) qs None;
  sg_ptrs : NoDup (map qf_ptr qs);
  sg_ptr : qf_ptr f = Some x;
  sg_new : Some x ∉ map qf_ptr qs;
  sg_frag : frag_in (emem s) f;
  sg_next : next_pbufs (ipv s) !! x = Some None
}.

(** What the search finds in [done ++ todo], when [done] lies behind. *)
Definition found (s : eth) (ipr : loc) (r : ip_reassdata) (done todo : list qfrag) (f : qfrag) (x : ptr)
    (res : option (option loc * option (option ptr) * bool)) (s' : eth) : Prop :=
  match res with
  | None => place f todo = None /\ unlinked s x s'
  | Some (Some q, _, valid) => exists pre g post, todo = pre ++ g :: post /\ q = qf_loc g /\ place f todo = Some (pre ++ f :: g :: post) /\
      valid = contig (done ++ pre ++ [f]) /\ linked s ipr r (done ++ pre ++ f :: g :: post) s'
  | Some (None, prev, valid) => place f todo = Some (todo ++ [f]) /\ prev = last_ptr (done ++ todo) /\ valid = contig (done ++ todo) /\
      Forall (passed f) todo /\ s' = s
  end.

Lemma found_pass s ipr r done g todo f x res s' : passed f g ->
  found s ipr r (done ++ [g]) todo f x res s' -> found s ipr r done (g :: todo) f x res s'.
Proof.
  intros Hg. unfold found. rewrite place_pass by done. destruct res as [[[[q|] prev] valid]|].
  - intros (pre & g' & post & -> & -> & -> & -> & Hl). exists (g :: pre), g', post. rewrite <- !app_assoc in *. by split_and!.
  - intros (-> & -> & -> & Hf & ->). rewrite <- !app_assoc. by split_and!; [| | |constructor|].
  - by intros (-> & Hu).
Qed.

(** [f] comes before [g]. *)
Lemma wp_place_before s ipr r done g todo f x : searching s ipr r (done ++ g :: todo) f x -> Forall (passed f) done ->
  qf_start f < qf_start g ->
  wp (place_body ipr (qf_loc f) (qf_ptr f) (Some (qf_loc g), last_ptr done, contig done))
    (fun z s' => match z with inl _ => False | inr res => found s ipr r done (g :: todo) f x res s' end) s.
Proof.
  intros [Er Hq Hn Ex Hx Hf _] Hd Hlt. pose proof Hq as Hq'. apply qseg_app in Hq' as (n & Ha & Hb).
  assert (Hg : frag_in (emem s) g) by (apply (qseg_in _ _ _ _ _ g Hq), elem_of_app; right; by left).
  assert (Epl : place f (g :: todo) = if qf_start g <? qf_end f then None else Some (f :: g :: todo)).
  { cbn [place]. by rewrite (proj2 (Z.ltb_lt _ _) Hlt). }
  unfold place_body. apply wp_bind, (wp_iprh_of g); [done|]. apply wp_bind, (wp_iprh_start f); [done|]. apply wp_bind, (wp_iprh_end f); [done|].
  apply wp_bind, (wp_iprh_start g); [done|]. apply wp_bind, (wp_iprh_end g); [done|]. rewrite (proj2 (Z.ltb_lt _ _) Hlt).
  apply wp_bind, (wp_set_next _ x); [done|].
  destruct done as [|g0 d _] using rev_ind.
  - simpl in Ha. subst n. change (last_ptr []) with (@None (option ptr)). destruct (qf_start g <? qf_end f) eqn:Eo.
    + apply wp_ret. split; [done|apply unlinked_put].
    + apply wp_bind, (wp_set_rd _ r); [done|]. apply wp_ret. exists [], g, todo. split_and!; [done..|].
      by apply (linked_first s ipr r f g todo x).
  - rewrite last_ptr_snoc. apply Forall_app in Hd as [Hd [Hg0 _]%Forall_cons].
    assert (Hg0' : frag_in (emem s) g0) by (apply (qseg_in _ _ _ _ _ g0 Ha), elem_of_app; right; by left).
    apply wp_bind, (wp_iprh_end g0); [done|]. rewrite (proj2 (Z.ltb_ge _ _)) by apply Hg0. cbn [orb].
    destruct (qf_start g <? qf_end f) eqn:Eo.
    + apply wp_ret. split; [done|apply unlinked_put].
    + apply qseg_app in Ha as Ha'. destruct Ha' as (k & _ & (_ & _ & y & k' & Ey & _)).
      apply wp_bind, (wp_set_next _ y); [done|]. apply wp_ret. exists [], g, todo. split_and!; [done|done|done| |].
      * cbn [app]. by rewrite <- contig_snoc, <- app_assoc.
      * cbn [app]. rewrite <- app_assoc. rewrite map_app in Hn, Hx. apply NoDup_app in Hn as (Hn1 & Hn2 & _).
        apply not_elem_of_app in Hx as [Hx1 Hx2].
        pose proof (linked_behind s ipr r d g0 f (g :: todo) x y n n Er Hn1 Hn2 Ha Hb Ex Ey Hx1 Hx2 Hf) as Hl.
        pose proof Hb as (-> & _). exact Hl.
Qed.

Lemma wp_place_loop ipr r f x todo : forall done q fuel s, searching s ipr r (done ++ todo) f x -> Forall (passed f) done ->
  qseg (emem s) (next_pbufs (ipv s)) q todo None -> (length todo < fuel)%nat ->
  wp (iter fuel (place_body ipr (qf_loc f) (qf_ptr f)) (q, last_ptr done, contig done)) (found s ipr r done todo f x) s.
Proof.
  induction todo as [|g todo IH]; intros done q fuel s Hs Hd Hq Hfuel; (destruct fuel as [|fuel]; [simpl in Hfuel; lia|]); cbn [iter]; apply wp_bind.
  { simpl in Hq. subst q. apply wp_ret, wp_ret. unfold found. by rewrite app_nil_r. }
  pose proof Hq as (-> & Hg & y & n & Ey & En & Hq').
  destruct (Z.ltb_spec (qf_start f) (qf_start g)) as [Hlt|Hge].
  { eapply wp_mono; [by apply (wp_place_before s ipr r done g todo f x)|]. by intros [|res] s' Hr. }
  pose proof Hs as [Er _ _ Ex _ Hf _].
  unfold place_body at 1. apply wp_bind, (wp_iprh_of g); [done|]. apply wp_bind, (wp_iprh_start f); [done|]. apply wp_bind, (wp_iprh_end f); [done|].
  apply wp_bind, (wp_iprh_start g); [done|]. apply wp_bind, (wp_iprh_end g); [done|]. rewrite (proj2 (Z.ltb_ge _ _)) by done.
  assert (Epl : (qf_start f =? qf_start g) || (qf_start f <? qf_end g) = true -> place f (g :: todo) = None).
  { intros E. cbn [place]. by rewrite (proj2 (Z.ltb_ge _ _)), E by done. }
  destruct (Z.eqb_spec (qf_start f) (qf_start g)) as [Heq|Hne]; [by apply wp_ret, wp_ret; split; [apply Epl|apply unlinked_refl]|].
  destruct (Z.ltb_spec (qf_start f) (qf_end g)) as [Hin|Hout]; [by apply wp_ret, wp_ret; split; [apply Epl|apply unlinked_refl]|].
  assert (Hpass : passed f g) by (split; lia).
  assert (HI : wp (iter fuel (place_body ipr (qf_loc f) (qf_ptr f)) (n, last_ptr (done ++ [g]), contig (done ++ [g]))) (found s ipr r done (g :: todo) f x) s).
  { eapply wp_mono; [apply (IH (done ++ [g])); [by rewrite <- app_assoc|by apply Forall_app; split; [|by apply Forall_singleton]|done|simpl in Hfuel; lia]|].
    intros res s'. by apply found_pass. }
  rewrite last_ptr_snoc in HI. destruct done as [|g0 d _] using rev_ind.
  - apply wp_bind, wp_ret, wp_bind. rewrite Ey. eapply wp_iprh_next; [done|]. apply wp_ret. by rewrite Ey in HI.
  - assert (Hg0 : frag_in (emem s) g0) by (apply (qseg_in _ _ _ _ _ g0 (sg_queue _ _ _ _ _ _ Hs)); rewrite <- app_assoc; apply elem_of_app; right; by left).
    rewrite last_ptr_snoc. apply wp_bind, wp_bind, (wp_iprh_end g0); [done|]. apply wp_ret, wp_bind. rewrite Ey. eapply wp_iprh_next; [done|]. apply wp_ret.
    rewrite Ey in HI. rewrite <- app_assoc in HI. change ([g0] ++ [g]) with [g0; g] in HI. by rewrite contig_snoc in HI.
Qed.
End Place.

(** ** The new fragment *)

Definition frag_start (nd : node) : Z := IPH_OFFSET_BYTES (hdr_offset (n_data nd)).
Definition frag_end (nd : node) (c : list node) : Z := frag_start nd + (total (nd :: c) - 20).

(** The header, with the helper in it. *)
Definition helped (nd : node) (c : list node) : node :=
  Node (n_loc nd) (n_buf nd)
    (splice 6 (bytes16 (u16 (frag_end nd c))) (splice 4 (bytes16 (frag_start nd)) (n_data nd))).
Definition as_frag (nd : node) (c : list node) : qfrag := QF (helped nd c) c (frag_start nd).

Lemma helper_fields a b data : (20 <= length data)%nat ->
  let data' := splice 6 (bytes16 b) (splice 4 (bytes16 a) data) in
  length data' = length data /\ hdr_field 4 2 data' = bytes16 a /\ hdr_field 6 2 data' = bytes16 b /\ drop 20 data' = drop 20 data.
Proof. intros L. do 8 (destruct data as [|? data]; [simpl in L; lia|]). by split_and!. Qed.

Lemma as_frag_facts nd c : (20 <= length (n_data nd))%nat ->
  qf_data (as_frag nd c) = drop 20 (contents (nd :: c)) /\ qf_end (as_frag nd c) = frag_end nd c /\
  hdr_field 4 2 (n_data (helped nd c)) = bytes16 (frag_start nd) /\ hdr_field 6 2 (n_data (helped nd c)) = bytes16 (u16 (frag_end nd c)).
Proof.
  intros L. destruct (helper_fields (frag_start nd) (u16 (frag_end nd c)) (n_data nd) L) as (Ll & H4 & H6 & Hd).
  assert (Ed : qf_data (as_frag nd c) = drop 20 (contents (nd :: c))).
  { unfold qf_data, as_frag, qf_chain. cbn [qf_node qf_rest]. rewrite !contents_cons. unfold helped. cbn [n_data].
    rewrite !drop_app_le by lia. by rewrite Hd. }
  split_and!; [done| |done|done]. unfold qf_end. rewrite Ed, length_drop. unfold frag_end, total. rewrite contents_cons, length_app.
  cbn [qf_start as_frag]. lia.
Qed.

Section Chain.
Context `{WL : WireLaws} `{HL : !HeapLaws} `{CF : !CustomFree} `{BU : !Build}.

(** A fragment that has just come: its header, without options, in the first
    pbuf and right about the length. *)
Record fragment (m : mem) (nd : node) (c : list node) : Prop := {
  fg_packet : packet m (Some (n_loc nd)) (nd :: c);
  fg_release : EtharpReply.releasable (nd :: c);
  fg_head : 20 <= len (n_buf nd);
  fg_own : fst <$> payload (n_buf nd) = Some (n_loc nd);
  fg_hlen : hdr_hlen (n_data nd) = 20;
  fg_len : hdr_len (n_data nd) = total (nd :: c)
}.

(** ** The validation *)

Lemma qseg_size m np p qs tl : qseg m np p qs tl -> NoDup (map qf_ptr qs) -> (length qs <= size np)%nat.
Proof.
  intros Hq Hn. assert (Hx : exists xs, map qf_ptr qs = Some <$> xs /\ forall x, x ∈ xs -> x ∈ dom np).
  { clear Hn. revert p Hq. induction qs as [|f qs IH]; intros p; [by intros _; exists []; split; [|set_solver]|].
    intros (_ & _ & x & n & Ex & En & Hq). destruct (IH _ Hq) as (xs & E & Hd). exists (x :: xs). simpl. rewrite Ex, E. split; [done|].
    apply elem_of_dom_2 in En. intros y [->|Hy]%elem_of_cons; auto. }
  destruct Hx as (xs & E & Hd). rewrite <- (length_map qf_ptr qs), E, length_fmap. rewrite E in Hn. apply NoDup_fmap_1 in Hn.
  rewrite <- size_dom, <- (size_list_to_set (C := gset ptr)) by done. apply subseteq_size. intros x Hx%elem_of_list_to_set. auto.
Qed.

Lemma wp_no_holes qs : forall g q fuel s, frag_in (emem s) g -> qseg (emem s) (next_pbufs (ipv s)) q qs None -> (length qs < fuel)%nat ->
  wp (iter fuel no_holes_body (q, qf_ptr g)) (fun v s' => v = contig (g :: qs) /\ s' = s) s.
Proof.
  induction qs as [|f qs IH]; intros g q fuel s Hg Hq Hf; (destruct fuel as [|fuel]; [simpl in Hf; lia|]); cbn [iter]; apply wp_bind.
  { simpl in Hq. rewrite Hq. by apply wp_ret, wp_ret. }
  destruct Hq as (-> & Hin & x & n & Ex & En & Hq). unfold no_holes_body. apply wp_bind, wp_iprh_of; [done|].
  apply wp_bind, wp_iprh_end; [done|]. apply wp_bind, wp_iprh_start; [done|]. cbn [contig].
  destruct (qf_end g =? qf_start f); cbn [negb andb]; [|by apply wp_ret, wp_ret].
  apply wp_bind. rewrite Ex. eapply wp_iprh_next; [done|]. apply wp_ret. rewrite <- Ex.
  apply IH; [done|done|simpl in Hf; lia].
Qed.

Definition verdict (b : bool) : reass_verdict := if b then IP_REASS_VALIDATE_TELEGRAM_FINISHED else IP_REASS_VALIDATE_PBUF_QUEUED.

Lemma wp_frags_fuel (Q : nat -> eth -> Prop) s : Q (S (size (next_pbufs (ipv s)))) s -> wp frags_fuel Q s.
Proof. done. Qed.

Lemma wp_reass_validate s s' ipr r a f b is_last : linked s ipr r (a ++ f :: b) s' -> NoDup (map qf_ptr (a ++ f :: b)) ->
  wp (reass_validate ipr (qf_ptr f) (contig (a ++ [f])) is_last)
    (fun v s'' => s'' = s' /\ v = verdict ((is_last || has (rd_flags r) IP_REASS_FLAG_LASTFRAG) && complete (a ++ f :: b))) s'.
Proof.
  intros (p & np & -> & Hq & _) Hn. set (s' := with_queue ipr r p np s).
  assert (Er : reass_pool (ipv s') !! ipr = Some (set_rd_p p r)) by apply lookup_insert_eq.
  change (emem s) with (emem s') in Hq. change np with (next_pbufs (ipv s')) in Hq.
  assert (Hsz := qseg_size _ _ _ _ _ Hq Hn). rewrite length_app in Hsz. cbn [length] in Hsz. pose proof Hq as Hq'. apply qseg_app in Hq' as (k & _ & (_ & Hf & x & n & Ex & En & Hb)).
  unfold reass_validate. apply wp_bind, (wp_get_rd _ (set_rd_p p r)); [done|]. change (rd_flags (set_rd_p p r)) with (rd_flags r).
  destruct (is_last || _); cbn [andb]; [|by apply wp_ret]. change (rd_p (set_rd_p p r)) with p.
  apply wp_bind.
  assert (Ec : complete (a ++ f :: b) = match a ++ [f] with g :: _ => (qf_start g =? 0) | [] => false end && contig (a ++ [f]) && contig (f :: b)).
  { unfold complete. rewrite <- andb_assoc, <- contig_app. by destruct a. }
  rewrite Ec. destruct (contig (a ++ [f])); [|apply wp_ret; rewrite andb_false_r; by apply wp_ret].
  assert (Hhd : exists g qs, a ++ [f] = g :: qs /\ p = Some (qf_loc g) /\ frag_in (emem s') g).
  { destruct a as [|g a]; [exists f, []|exists g, (a ++ [f])]; (split; [done|]); by destruct Hq as (-> & ? & _). }
  destruct Hhd as (g & qs & -> & -> & Hg). apply wp_bind, (wp_iprh_of g); [done|]. apply wp_bind, (wp_iprh_start g); [done|].
  destruct (qf_start g =? 0); cbn [negb andb]; [|by apply wp_ret, wp_ret]. apply wp_bind. rewrite Ex. eapply wp_iprh_next; [done|].
  apply wp_bind, wp_frags_fuel. rewrite <- Ex. eapply wp_mono; [apply (wp_no_holes b f n); [done|done|lia]|].
  intros v s'' [-> ->]. by apply wp_ret.
Qed.

(** ** The fragment in its datagram *)

Lemma wp_block3 {S A} (m1 m2 m3 : M S unit) (k : M S A) Q s :
  wp (m1;; m2;; m3) (fun _ s' => wp k Q s') s -> wp (m1;; m2;; m3;; k) Q s.
Proof.
  unfold wp, mbind, M_bind. destruct (m1 s) as [? s1|]; [|done]. destruct (m2 s1) as [? s2|]; [|done]. by destruct (m3 s2).
Qed.

(** The helper has been written into the header of the new fragment. *)
Record helper_in (m : mem) (nd : node) (c : list node) (m' : mem) : Prop := {
  hi_block : only_block (n_loc nd) m m';
  hi_pbufs : pbufs m' = pbufs m;
  hi_packet : packet m' (Some (n_loc nd)) (qf_chain (as_frag nd c))
}.

Lemma frag_of_helper m nd c m' : fragment m nd c -> helper_in m nd c m' -> frag_end nd c < 65536 -> frag_in m' (as_frag nd c).
Proof.
  intros [Hp Hr H20 _ _ Hlen] [_ _ Hp'] He. pose proof (pk_chain _ _ _ Hp) as (_ & _ & [L _] & _).
  destruct (as_frag_facts nd c) as (_ & Ee & H4 & H6); [lia|]. assert (R : 0 <= frag_start nd) by (unfold frag_start, IPH_OFFSET_BYTES; apply u16_range).
  pose proof (pk_totals _ _ _ Hp) as [Et _]. pose proof (total_nonneg c). rewrite total_cons in *.
  split; [done|apply Forall_cons in Hr as [? ?]; by apply Forall_cons|done|done| |rewrite Ee; split; [exact R|done]]. rewrite Ee. cbn [as_frag qf_node]. rewrite H6. f_equal.
  apply u16_small. unfold frag_end in *. rewrite total_cons in *. lia.
Qed.

(** The state with the helper written. *)
Definition helped_state (x : ptr) (m : mem) (s : eth) : eth := set_emem m (put_next x None s).

Lemma wp_write_helper s nd c x (Q : unit -> eth -> Prop) : fragment (emem s) nd c -> payload (n_buf nd) = Some x ->
  (forall m', helper_in (emem s) nd c m' -> Q tt (helped_state x m' s)) ->
  wp (set_iprh_next (payload (n_buf nd)) None;; store_field (payload (n_buf nd)) 4 (bytes16 (frag_start nd));;
      store_field (payload (n_buf nd)) 6 (bytes16 (u16 (frag_end nd c)))) Q s.
Proof.
  intros [Hp Hr H20 Ho Hh Hlen] Ex HQ. pose proof (pk_chain _ _ _ Hp) as (_ & Hl & Hhd & _). pose proof Hhd as [L _].
  apply wp_bind, (wp_set_next _ x); [done|].
  change (put_next x None s) with (set_emem (emem s) (put_next x None s)).
  assert (Wr : written (n_loc nd) (n_buf nd) (emem s) (emem s) (n_data nd)) by (split; [by split_and!|done|done]).
  apply wp_bind; eapply (wp_store_field (n_loc nd) (n_buf nd) (emem s)); [exact Wr|exact Ho|lia|cbn [length bytes16]; lia|clear Wr; intros m1 Wr].
  eapply (wp_store_field (n_loc nd) (n_buf nd) (emem s)); [exact Wr|exact Ho|lia|cbn [length bytes16]; lia|clear Wr; intros m2 [O E Hh2]].
  apply HQ. split; [done|done|]. change (Z.to_nat 4) with 4%nat in Hh2. change (Z.to_nat 6) with 6%nat in Hh2.
  destruct (helper_fields (frag_start nd) (u16 (frag_end nd c)) (n_data nd)) as (Ll & _ & _ & _); [lia|].
  eapply packet_block_write; [|exact Hh2|exact O|exact E|exact Ho|exact Ll]. destruct nd; exact Hp.
Qed.

(** The datagram has its new fragment, or has refused it. *)
Definition chained (s : eth) (ipr : loc) (r : ip_reassdata) (qs : list qfrag) (nd : node) (c : list node) (x : ptr) (is_last : bool)
    (v : reass_verdict) (s' : eth) : Prop :=
  exists m', helper_in (emem s) nd c m' /\
  match (if frag_end nd c <? 65536 then place (as_frag nd c) qs else None) with
  | None => v = IP_REASS_VALIDATE_PBUF_DROPPED /\ unlinked (helped_state x m' s) x s'
  | Some qs' => v = verdict ((is_last || has (rd_flags r) IP_REASS_FLAG_LASTFRAG) && complete qs') /\ linked (helped_state x m' s) ipr r qs' s'
  end.

(** The search is over; what the function does with its result. *)
Lemma wp_link s ipr r qs f x res is_last (Q : reass_verdict -> eth -> Prop) s1 : searching s ipr r qs f x -> found s ipr r [] qs f x res s1 ->
  match place f qs with
  | None => forall s', unlinked s x s' -> Q IP_REASS_VALIDATE_PBUF_DROPPED s'
  | Some qs' => forall s', linked s ipr r qs' s' -> Q (verdict ((is_last || has (rd_flags r) IP_REASS_FLAG_LASTFRAG) && complete qs')) s'
  end ->
  wp (match res with
      | None => mret IP_REASS_VALIDATE_PBUF_DROPPED
      | Some (q, iprh_prev, valid) =>
        valid ← match q, iprh_prev with
          | Some _, _ => mret valid
          | None, Some prev =>
            set_iprh_next prev (Some (qf_loc f));;
            prev_end ← iprh_end prev;
            start ← iprh_start (qf_ptr f);
            mret (valid && (prev_end =? start))
          | None, None => set_rd ipr (set_rd_p (Some (qf_loc f)));; mret valid
          end;
        reass_validate ipr (qf_ptr f) valid is_last
      end) Q s1.
Proof.
  intros [Er Hq Hn Ex Hx Hf Enx] Hfound HQ.
  assert (Hnew : forall a b, qs = a ++ b -> NoDup (map qf_ptr (a ++ f :: b))).
  { intros a b ->. rewrite <- Permutation_middle. apply NoDup_cons. split; [by rewrite Ex|done]. }
  assert (Hval : forall a b s', qs = a ++ b -> linked s ipr r (a ++ f :: b) s' -> place f qs = Some (a ++ f :: b) ->
    wp (reass_validate ipr (qf_ptr f) (contig (a ++ [f])) is_last) Q s').
  { intros a b s' E Hl Epl. rewrite Epl in HQ. eapply wp_mono; [by apply (wp_reass_validate s s' ipr r a f b is_last); auto|].
    intros v s'' [-> ->]. by apply HQ. }
  destruct res as [[[[q|] prev] valid]|]; cbn [found app] in Hfound.
  - destruct Hfound as (pre & g & post & E & -> & Epl & -> & Hl). apply wp_bind, wp_ret. by apply (Hval pre (g :: post)).
  - destruct Hfound as (Epl & -> & -> & _ & ->). destruct qs as [|g0 a _] using rev_ind.
    + cbn [last_ptr last fmap option_fmap option_map]. apply wp_bind, wp_bind, (wp_set_rd _ r); [done|]. apply wp_ret.
      apply (Hval [] []); [done| |done]. exists (Some (qf_loc f)), (next_pbufs (ipv s)). split; [reflexivity|]. split; [|done].
      split; [done|]. split; [done|]. by exists x, None.
    + rewrite last_ptr_snoc. apply qseg_app in Hq as Hq'. destruct Hq' as (k & Ha & (-> & Hg0 & y & k' & Ey & _)).
      apply wp_bind, wp_bind, (wp_set_next _ y); [done|]. apply wp_bind, (wp_iprh_end g0); [done|]. apply wp_bind, (wp_iprh_start f); [done|]. apply wp_ret.
      rewrite <- contig_snoc. change (a ++ [g0; f]) with (a ++ [g0] ++ [f]). rewrite (assoc (++)). apply (Hval (a ++ [g0]) []); [by rewrite app_nil_r| |done].
      pose proof (linked_behind s ipr r a g0 f [] x y None None Er Hn) as Hl. rewrite <- (app_assoc a).
      unfold put_next. rewrite <- (insert_id (next_pbufs (ipv s)) x None) at 1 by done. apply Hl; try done; [intros ? _|]; apply not_elem_of_nil.
  - destruct Hfound as (Epl & Hu). rewrite Epl in HQ. by apply wp_ret, HQ.
Qed.

(** A datagram in the table: its element of the pool, and its queue. *)
Record queued (s : eth) (ipr : loc) (r : ip_reassdata) (qs : list qfrag) : Prop := {
  qd_rd : reass_pool (ipv s) !! ipr = Some r;
  qd_queue : qseg (emem s) (next_pbufs (ipv s)) (rd_p r) qs None;
  qd_ptrs : NoDup (map qf_ptr qs)
}.

(** [ip_reass_chain_frag_into_datagram_and_validate]: the fragment is refused
    exactly if it would end behind the largest datagram, or would overlap
    a fragment that is there; else it is in its place, and the answer is that
    the datagram is finished exactly if the last fragment is known and the
    fragments follow one another from 0 on without a gap. *)
Lemma wp_chain_frag s ipr r qs nd c x is_last : queued s ipr r qs -> fragment (emem s) nd c -> payload (n_buf nd) = Some x ->
  Some x ∉ map qf_ptr qs -> Forall (fun f => n_loc nd ∉ foot (qf_chain f)) qs ->
  wp (ip_reass_chain_frag_into_datagram_and_validate ipr (n_loc nd) is_last) (chained s ipr r qs nd c x is_last) s.
Proof.
  intros [Er Hq Hn] Hfg Ex Hx Hd. pose proof Hfg as [Hp Hr H20 Ho Hh Hlen]. pose proof (pk_chain _ _ _ Hp) as (_ & Hl & Hhd & _).
  pose proof Hhd as [L _]. pose proof (pk_bound _ _ _ Hp) as Hb. pose proof (total_nonneg c). pose proof (total_cons nd c) as Et.
  unfold ip_reass_chain_frag_into_datagram_and_validate, iprh_of. apply wp_bind, wp_bind, wp_on_pbuf, (wp_getp _ (n_buf nd)); [done|].
  replace (set_emem (emem s) s) with s by (by destruct s). apply wp_ret.
  apply wp_bind, (wp_load16_at _ (n_data nd)); [done|lia|lia|]. apply wp_bind, (wp_load8_at _ (n_data nd)); [done|lia|lia|].
  change (lwip_ntohs (load_word16 (hdr_field (Z.to_nat 2) 2 (n_data nd)))) with (hdr_len (n_data nd)).
  change (IPH_HL_BYTES (nth (Z.to_nat 0) (n_data nd) 0)) with (hdr_hlen (n_data nd)). rewrite Hlen, Hh.
  rewrite (proj2 (Z.ltb_ge _ _)) by lia. rewrite (u16_small (total (nd :: c) - 20)) by lia.
  apply wp_bind, (wp_load16_at _ (n_data nd)); [done|lia|lia|].
  change (IPH_OFFSET_BYTES (load_word16 (hdr_field (Z.to_nat 6) 2 (n_data nd)))) with (frag_start nd). cbv zeta.
  change (frag_start nd + (total (nd :: c) - 20)) with (frag_end nd c).
  assert (R : 0 <= frag_start nd < 65536) by (unfold frag_start, IPH_OFFSET_BYTES; apply u16_range).
  assert (Hov : (u16 (frag_end nd c) <? frag_start nd) = negb (frag_end nd c <? 65536)).
  { unfold frag_end. destruct (Z.ltb_spec (frag_start nd + (total (nd :: c) - 20)) 65536).
    - rewrite u16_small by lia. apply Z.ltb_ge. lia.
    - apply Z.ltb_lt. unfold u16. change (2 ^ 16) with 65536. Z.div_mod_to_equations. lia. }
  rewrite Hov.
  assert (Hgo : forall K : M eth reass_verdict, (forall m', helper_in (emem s) nd c m' -> wp K (chained s ipr r qs nd c x is_last) (helped_state x m' s)) ->
    wp (set_iprh_next (payload (n_buf nd)) None;; store_field (payload (n_buf nd)) 4 (bytes16 (frag_start nd));;
        store_field (payload (n_buf nd)) 6 (bytes16 (u16 (frag_end nd c)));; K) (chained s ipr r qs nd c x is_last) s).
  { intros K HK. apply wp_block3. by apply (wp_write_helper s nd c x). }
  apply Hgo. clear Hgo. intros m' Hm. destruct (frag_end nd c <? 65536) eqn:Ee; cbn [negb].
  2:{ apply wp_ret. exists m'. split; [done|]. rewrite Ee. split; [done|apply unlinked_refl]. }
  set (s1 := helped_state x m' s). set (f := as_frag nd c).
  assert (Hs : searching s1 ipr r qs f x).
  { split; [exact Er| |exact Hn|exact Ex|exact Hx|apply (frag_of_helper (emem s)); [done|done|lia]|apply lookup_insert_eq].
    apply qseg_insert; [done|]. eapply qseg_untouched; [|exact Hq]. eapply Forall_impl; [exact Hd|]. intros g Hg. by apply (untouched_block (n_loc nd)), Hg; destruct Hm. }
  apply wp_bind, (wp_get_rd _ r); [done|]. apply wp_bind, wp_frags_fuel, wp_bind.
  pose proof (qseg_size _ _ _ _ _ (sg_queue _ _ _ _ _ _ Hs) Hn) as Hsz.
  eapply wp_mono; [apply (wp_place_loop ipr r f x qs []); [done|constructor|apply Hs|lia]|].
  intros res s2 Hfound. apply (wp_link s1 ipr r qs f x res is_last _ s2 Hs Hfound).
  destruct (place f qs) as [qs'|] eqn:Epl; intros s' Hs'; exists m'; (split; [done|]); rewrite Ee; fold f; rewrite Epl; by split.
Qed.
End Chain.

(** The bytes of the fragments, one after another. *)
Definition payload_of (qs : list qfrag) : list Z := concat (map qf_data qs).
Definition pbufs_of (qs : list qfrag) : list loc := concat (map qf_locs qs).

Lemma foot_joined t T c : foot (joined t T c) = foot c.
Proof. unfold foot. by rewrite joined_locs, (areas_ext c) by apply joined_payloads. Qed.

Lemma foot_app a b l : l ∈ foot (a ++ b) -> l ∈ foot a \/ l ∈ foot b.
Proof. unfold foot. rewrite map_app, omap_app, !elem_of_app. tauto. Qed.

Lemma foot_moved k nd c data : foot (Node (n_loc nd) (moved k (n_buf nd)) data :: c) = foot (nd :: c).
Proof.
  assert (E : node_area (Node (n_loc nd) (moved k (n_buf nd)) data) = node_area nd).
  { unfold node_area, moved. cbn. by destruct (payload (n_buf nd)). }
  unfold foot. by rewrite !areas_cons, E.
Qed.

Section Join.
Context `{WL : WireLaws} `{HL : !HeapLaws} `{CF : !CustomFree} `{BU : !Build}.

Lemma releasable_joined t T c : EtharpReply.releasable c -> EtharpReply.releasable (joined t T c).
Proof.
  destruct c as [|nd c _] using rev_ind; [done|]. rewrite joined_snoc. intros [Hc [Hnd _]%Forall_cons]%Forall_app. apply Forall_app. split.
  - apply Forall_map. eapply Forall_impl; [exact Hc|]. by intros x [? ?].
  - apply Forall_singleton. by destruct Hnd.
Qed.

(** One fragment without its header behind the packet [c]. *)
Lemma wp_append_frag s p c f (Q : unit -> mem -> Prop) : packet (emem s) (Some p) c -> EtharpReply.releasable c -> frag_in (emem s) f ->
  (forall l, l ∈ foot c -> l ∉ foot (qf_chain f)) -> total c + Z.of_nat (length (qf_data f)) < 65536 ->
  (forall m' c', packet m' (Some p) c' -> EtharpReply.releasable c' -> contents c' = contents c ++ qf_data f ->
     map n_loc c' = map n_loc c ++ qf_locs f -> (forall l, l ∈ foot c' -> l ∈ foot c \/ l ∈ foot (qf_chain f)) ->
     only_pbufs (map n_loc c ++ qf_locs f) (emem s) m' -> Q tt m') ->
  wp (pbuf_remove_header (Some (qf_loc f)) IP_HLEN;; pbuf_cat (Some p) (Some (qf_loc f))) Q (emem s).
Proof.
  intros Hp Hr [Hf Hfr H20 _ _ _] Hd Ht HQ. unfold qf_chain, qf_loc in *. destruct f as [nd rest st]. cbn [qf_node qf_rest] in *.
  pose proof (pk_chain _ _ _ Hf) as (_ & Hl & Hh & _). pose proof (pk_totals _ _ _ Hf) as [Et _]. pose proof Hh as [L _].
  pose proof (pk_bound _ _ _ Hf) as Hb. pose proof (total_nonneg rest). rewrite total_cons in *.
  apply wp_bind. eapply wp_of_run; [rewrite (pbuf_remove_header_run _ (n_buf nd)) by (done || unfold IP_HLEN; lia); unfold IP_HLEN; rewrite (proj2 (Z.leb_le _ _)) by lia; reflexivity|].
  set (nd1 := Node (n_loc nd) (moved (- 20) (n_buf nd)) (drop 20 (n_data nd))). set (m1 := set_pbufs _ (emem s)).
  assert (F1 : only_pbufs [n_loc nd] (emem s) m1) by apply only_pbufs_insert.
  assert (Hp1 : packet m1 (Some (n_loc nd)) (nd1 :: rest)).
  { apply (packet_head (emem s) nd rest); [done|done| | | |by apply (holds_moved_back _ _ _ 20 Hh); lia].
    - unfold node_area, moved. cbn. by destruct (payload (n_buf nd)).
    - cbn. rewrite length_drop. lia.
    - cbn. rewrite length_drop. lia. }
  assert (Hc1 : packet m1 (Some p) c).
  { apply (packet_untouched (emem s)); [|done]. apply (untouched_pbufs _ _ _ _ F1). intros l Hin ->%list_elem_of_singleton. apply (Hd _ Hin).
    apply elem_of_app. left. by left. }
  assert (Efoot : foot (nd1 :: rest) = foot (nd :: rest)) by apply foot_moved.
  assert (Edata : contents (nd1 :: rest) = qf_data (QF nd rest st)).
  { unfold qf_data, qf_chain. cbn [qf_node qf_rest]. rewrite !contents_cons. cbn [n_data nd1]. rewrite drop_app_le by lia. done. }
  assert (Hcross : forall l, l ∈ foot c -> l ∉ foot (nd1 :: rest)) by (intros l; rewrite Efoot; apply Hd).
  destruct (pbuf_cat_run m1 p c (n_loc nd) (nd1 :: rest) Hc1 Hp1) as (m' & E & Hp' & F2).
  - rewrite map_app. apply NoDup_app. split_and!; [apply Hp| |apply Hp1]. intros l Hl1 Hl2. apply (Hcross l); apply elem_of_app; by left.
  - rewrite omap_app. apply NoDup_app. split_and!; [apply Hp| |apply Hp1]. intros l Hl1 Hl2. apply (Hcross l); apply elem_of_app; by right.
  - unfold total at 2. rewrite Edata. done.
  - eapply wp_of_run; [exact E|]. apply (HQ m' (joined (n_loc nd) (total (nd1 :: rest)) c ++ nd1 :: rest)).
    + done.
    + apply Forall_app. split; [by apply releasable_joined|]. apply Forall_cons in Hfr as [? ?]. by apply Forall_cons.
    + by rewrite contents_app, joined_contents, Edata.
    + by rewrite map_app, joined_locs.
    + intros l Hin%foot_app. by rewrite foot_joined, Efoot in Hin.
    + eapply only_pbufs_trans; (eapply only_pbufs_mono; [|first [exact F1|exact F2]]); intros l Hin; apply elem_of_app; [right|by left].
      apply list_elem_of_singleton in Hin as ->. by left.
Qed.

Lemma wp_on_pbuf2 {A B C} (x : M mem A) (y : M mem B) (K : M eth C) Q s :
  wp (x;; y) (fun _ m' => wp K Q (set_emem m' s)) (emem s) -> wp (on_pbuf x;; on_pbuf y;; K) Q s.
Proof. unfold wp, on_pbuf, zoom, mbind, M_bind. destruct (x (emem s)) as [a m1|]; [|done]. cbn. by destruct (y m1). Qed.

Lemma payload_of_cons f qs : payload_of (f :: qs) = qf_data f ++ payload_of qs.
Proof. done. Qed.

(** The loop that joins the fragments to the packet [c]. *)
Lemma wp_join qs : forall s p c q fuel (Q : unit -> eth -> Prop), packet (emem s) (Some p) c -> EtharpReply.releasable c ->
  qseg (emem s) (next_pbufs (ipv s)) q qs None -> Forall (fun f => forall l, l ∈ foot c -> l ∉ foot (qf_chain f)) qs -> apart qs ->
  total c + Z.of_nat (length (payload_of qs)) < 65536 -> (length qs < fuel)%nat ->
  (forall m' c', packet m' (Some p) c' -> EtharpReply.releasable c' -> contents c' = contents c ++ payload_of qs ->
     map n_loc c' = map n_loc c ++ pbufs_of qs -> only_pbufs (map n_loc c ++ pbufs_of qs) (emem s) m' -> Q tt (set_emem m' s)) ->
  wp (iter fuel (chain_pbufs_body p) q) Q s.
Proof.
  induction qs as [|f qs IH]; intros s p c q fuel Q Hp Hr Hq Hd Ha Ht Hf HQ; (destruct fuel as [|fuel]; [simpl in Hf; lia|]); cbn [iter]; apply wp_bind.
  { simpl in Hq. rewrite Hq. apply wp_ret, wp_ret. replace s with (set_emem (emem s) s) by (by destruct s).
    apply (HQ _ c); rewrite ?app_nil_r; done. }
  destruct Hq as (-> & Hin & x & n & Ex & En & Hq). apply Forall_cons in Hd as [Hd Hds]. destruct Ha as [Ha Has].
  rewrite payload_of_cons, length_app in Ht. unfold chain_pbufs_body at 1. apply wp_bind, wp_iprh_of; [done|]. apply wp_on_pbuf2.
  apply (wp_append_frag s p c f); [done|done|done|done|lia|]. intros m' c' Hp' Hr' Hc' Hl' Hfoot Fr.
  apply wp_bind. rewrite Ex. eapply wp_iprh_next; [done|]. apply wp_ret.
  assert (Hu : Forall (fun g => untouched (foot (qf_chain g)) (emem s) m') qs).
  { apply Forall_forall. intros g Hg. apply (untouched_pbufs _ _ _ _ Fr). intros l Hlg [Hlc|Hlf]%elem_of_app.
    - rewrite Forall_forall in Hds. apply (Hds g Hg l); [|done]. apply elem_of_app. by left.
    - rewrite Forall_forall in Ha. apply (Ha g Hg l); [|done]. apply elem_of_app. by left. }
  apply (IH (set_emem m' s) p c'); [done|done|by apply (qseg_untouched _ _ _ _ _ _ Hu)| |done| |simpl in Hf; lia|].
  - apply Forall_forall. intros g Hg l [Hlc|Hlf]%Hfoot; rewrite ?Forall_forall in *; [by apply (Hds g Hg)|by apply (Ha g Hg)].
  - unfold total. rewrite Hc', length_app. unfold total in Ht. lia.
  - intros m2 c2 Hp2 Hr2 Hc2 Hl2 F2. apply (HQ m2 c2); [done|done| | |].
    + rewrite Hc2, Hc', payload_of_cons. by rewrite app_assoc.
    + rewrite Hl2, Hl'. by rewrite <- app_assoc.
    + rewrite Hl', <- app_assoc in F2. eapply only_pbufs_trans; [|exact F2]. eapply only_pbufs_mono; [|exact Fr].
      intros l [Hlc|Hlf]%elem_of_app; apply elem_of_app; [by left|right]. apply elem_of_app. by left.
Qed.

(** ** The header of the datagram *)

Lemma splice_header4 tos len id off ttl proto ck src dst data dl ck' : length ck = 2%nat -> length ck' = 2%nat -> (20 <= length data)%nat ->
  splice 10 [0; 0] (splice 6 [0; 0] (splice 2 (be16 dl) (splice 0 (header_fields tos len id off ttl proto ck src dst) data))) =
    header_fields tos dl id 0 ttl proto [0; 0] src dst ++ drop 20 data /\
  splice 10 ck' (header_fields tos dl id 0 ttl proto [0; 0] src dst ++ drop 20 data) = header_fields tos dl id 0 ttl proto ck' src dst ++ drop 20 data.
Proof.
  intros L L' Ld. do 2 list_cons ck. list_nil ck. do 2 list_cons ck'. list_nil ck'. do 20 (destruct data as [|? data]; [simpl in Ld; lia|]). by split.
Qed.

(** What [reass_finish] writes: the header of the first fragment with the
    length of the datagram and without the fields of a fragment. *)
Lemma wp_restore_header s nd c tos len_ id off ttl proto ck src dst dl odd (Q : unit -> eth -> Prop) :
  packet (emem s) (Some (n_loc nd)) (nd :: c) -> fst <$> payload (n_buf nd) = Some (n_loc nd) -> 20 <= len (n_buf nd) ->
  length ck = 2%nat -> byte tos -> byte ttl -> byte proto -> 0 <= dl < 65536 -> 0 <= id < 65536 ->
  (forall m', only_block (n_loc nd) (emem s) m' -> pbufs m' = pbufs (emem s) ->
     packet m' (Some (n_loc nd)) (Node (n_loc nd) (n_buf nd) (ip_header tos dl id 0 ttl proto src dst ++ drop 20 (n_data nd)) :: c) -> Q tt (set_emem m' s)) ->
  wp (store_field (payload (n_buf nd)) 0 (header_fields tos len_ id off ttl proto ck src dst);;
      store_field (payload (n_buf nd)) 2 (bytes16 (lwip_htons dl));;
      store_field (payload (n_buf nd)) 6 (bytes16 0);;
      store_field (payload (n_buf nd)) 10 (bytes16 0);;
      hdr ← read_field (payload (n_buf nd)) 0 IP_HLEN;
      store_field (payload (n_buf nd)) 10 (bytes16 (inet_chksum odd hdr))) Q s.
Proof.
  intros Hp Ho H20 Lck B1 B2 B3 Rdl Rid HQ. pose proof (pk_chain _ _ _ Hp) as (_ & Hl & Hh & _). pose proof Hh as [L _].
  assert (Lh : forall ck, length ck = 2%nat -> length (header_fields tos len_ id off ttl proto ck src dst) = 20%nat) by (intros; by apply header_fields_length).
  assert (Wr : written (n_loc nd) (n_buf nd) (emem s) (emem s) (n_data nd)) by (split; [by split_and!|done|done]).
  replace s with (set_emem (emem s) s) at 1 by (by destruct s).
  apply wp_bind; eapply (wp_store_field (n_loc nd) (n_buf nd) (emem s)); [exact Wr|exact Ho|lia|rewrite Lh by done; lia|clear Wr; intros m1 Wr].
  do 3 (apply wp_bind; eapply (wp_store_field (n_loc nd) (n_buf nd) (emem s)); [exact Wr|exact Ho|lia|cbn [length bytes16]; lia|clear Wr m1; intros m1 Wr]).
  rewrite htons_bytes in Wr by done. change (bytes16 0) with [0; 0] in Wr.
  change (Z.to_nat 10) with 10%nat in Wr. change (Z.to_nat 6) with 6%nat in Wr. change (Z.to_nat 2) with 2%nat in Wr. change (Z.to_nat 0) with 0%nat in Wr.
  set (h0 := header_fields tos dl id 0 ttl proto [0; 0] src dst) in *.
  assert (Eck : length (bytes16 (0xffff - rfc1071 h0)) = 2%nat) by done.
  destruct (splice_header4 tos len_ id off ttl proto ck src dst (n_data nd) dl _ Lck Eck) as [E1 E2]; [lia|]. fold h0 in E1, E2. rewrite E1 in Wr.
  assert (L0 : length h0 = 20%nat) by (by apply header_fields_length).
  pose proof (wr_holds _ _ _ _ _ Wr) as Hh1. unfold IP_HLEN. apply wp_bind; eapply (wp_read_field (n_buf nd)); [exact Hh1|lia|lia|lia|].
  change (Z.to_nat 20) with 20%nat. change (Z.to_nat 0) with 0%nat. rewrite drop_0, take_app_length' by done.
  assert (Bh : Forall byte h0) by (apply header_fields_bytes; try done; repeat constructor; done). rewrite chksum_rfc; [|done|lia].
  eapply (wp_store_field (n_loc nd) (n_buf nd) (emem s)); [exact Wr|exact Ho|lia|cbn [length bytes16]; lia|clear Wr Hh1; intros m2 [O E Hh2]].
  change (Z.to_nat 10) with 10%nat in Hh2. rewrite E2 in Hh2. apply HQ; [done|done|].
  apply (packet_block_write (emem s) m2 _ _ (n_data nd)); [destruct nd; exact Hp|exact Hh2|exact O|exact E|exact Ho|].
  rewrite length_app, length_drop, ip_header_length. lia.
Qed.
End Join.
