(* ===== verification/ReassSpec.v ===== *)
(** Reassembly: what [ip4_reass] does with a fragment. *)
From stdpp Require Import functions.
From S2P Require Import Prelude Memp Pbuf PbufFacts PbufUpdate PbufAlloc PbufChain PbufRam Chksum ChksumFacts Ip4Addr Ethernet Etharp.
From S2P Require Import EtharpTable EtharpInv EtharpSend EtharpReply Ip Icmp Reass IpFacts IcmpFacts IpInputFacts ReassQueue.

(** A datagram: its element of the pool without the pointers, and its
    fragments in order. *)
Record dgram : Type := Dgram {
  dg_loc : loc;
  dg_hdr : list Z;
  dg_len : Z;
  dg_flags : Z;
  dg_timer : Z;
  dg_frags : list qfrag
}.

Definition describes (d : dgram) (r : ip_reassdata) : Prop :=
  rd_iphdr r = dg_hdr d /\ rd_datagram_len r = dg_len d /\ rd_flags r = dg_flags d /\ rd_timer r = dg_timer d.

Lemma app_cons_snoc {A} (a : list A) x b : a ++ x :: b = (a ++ [x]) ++ b.
Proof. by rewrite <- app_assoc. Qed.

Section Table.
Context `{WL : WireLaws} `{HL : !HeapLaws} `{CF : !CustomFree} `{BU : !Build}.

(** The list from [h] on, [P] being what is known of each element. *)
Fixpoint table (P : dgram -> ip_reassdata -> Prop) (pool : gmap loc ip_reassdata) (h : option loc) (ds : list dgram) : Prop :=
  match ds with
  | [] => h = None
  | d :: ds => h = Some (dg_loc d) /\ exists r, pool !! dg_loc d = Some r /\ describes d r /\ P d r /\ table P pool (rd_next r) ds
  end.

(** The fragments of [d] are queued. *)
Definition in_queue (m : mem) (np : gmap ptr (option loc)) (d : dgram) (r : ip_reassdata) : Prop := qseg m np (rd_p r) (dg_frags d) None.

Lemma table_mono P P' pool pool' ds : forall h, (forall d, d ∈ ds -> pool' !! dg_loc d = pool !! dg_loc d) ->
  (forall d r, d ∈ ds -> P d r -> P' d r) -> table P pool h ds -> table P' pool' h ds.
Proof.
  induction ds as [|d ds IH]; intros h Hp Hq; [done|]. intros (-> & r & Er & Hr & Hs & Ht). split; [done|]. exists r. split_and!.
  - rewrite Hp; [done|by left].
  - done.
  - apply Hq; [by left|done].
  - apply IH; [intros; apply Hp; by right|intros ? ? ?; apply Hq; by right|done].
Qed.

Lemma table_weaken P P' pool h ds : (forall d r, d ∈ ds -> P d r -> P' d r) -> table P pool h ds -> table P' pool h ds.
Proof. by apply table_mono. Qed.

Lemma table_in P pool ds d : forall h, table P pool h ds -> d ∈ ds -> exists r, pool !! dg_loc d = Some r /\ describes d r /\ P d r.
Proof.
  induction ds as [|e ds IH]; intros h; [by intros _ ?%elem_of_nil|]. intros (_ & r & Er & Hr & Hs & Ht) [->|Hd]%elem_of_cons; [by exists r|by eapply IH].
Qed.

Lemma table_size P pool h ds : table P pool h ds -> NoDup (map dg_loc ds) -> (length ds <= size pool)%nat.
Proof.
  intros Ht Hn. rewrite <- (length_map dg_loc ds), <- size_dom, <- (size_list_to_set (C := gset loc)) by done.
  apply subseteq_size. intros l Hl%elem_of_list_to_set. apply list_elem_of_fmap in Hl as (d & -> & Hd).
  destruct (table_in _ _ _ _ _ Ht Hd) as (r & Er & _). by eapply elem_of_dom_2.
Qed.

Lemma loc_in d ds : d ∈ ds -> dg_loc d ∈ map dg_loc ds.
Proof. intros Hd. apply list_elem_of_fmap. by exists d. Qed.

(** One datagram has changed in place. *)
Lemma table_update P P' pool a d b d' r r' : forall h,
  table P pool h (a ++ d :: b) -> NoDup (map dg_loc (a ++ d :: b)) -> pool !! dg_loc d = Some r ->
  dg_loc d' = dg_loc d -> rd_next r' = rd_next r -> describes d' r' -> P' d' r' ->
  (forall e x, e ∈ a ++ b -> P e x -> P' e x) -> table P' (<[dg_loc d := r']> pool) h (a ++ d' :: b).
Proof.
  induction a as [|e a IH]; intros h Ht Hn Er El En Hd Hq Hoth; cbn [app map] in *; apply NoDup_cons in Hn as [Hni Hn].
  - destruct Ht as (-> & r0 & Er0 & _ & _ & Ht). rewrite Er in Er0. injection Er0 as <-. split; [by rewrite El|]. exists r'.
    split; [by rewrite El, lookup_insert_eq|]. split; [done|]. split; [done|]. rewrite En.
    eapply table_mono; [| |exact Ht]; [|done]. intros e He. rewrite lookup_insert_ne; [done|]. intros E. apply Hni. rewrite E. by apply loc_in.
  - destruct Ht as (-> & r0 & Er0 & Hr0 & Hs & Ht). split; [done|]. exists r0. split; [|split; [done|split]].
    + rewrite lookup_insert_ne; [done|]. intros E. apply Hni. rewrite <- E. apply loc_in, elem_of_app. right. by left.
    + apply Hoth; [by left|done].
    + apply IH; try done. intros g p Hg. apply Hoth. by right.
Qed.

(** ** Finding a datagram *)

(** The header [hdr] belongs to the datagram [d]. *)
Definition belongs (hdr : list Z) (d : dgram) : bool := IP_ADDRESSES_AND_ID_MATCH (dg_hdr d) hdr.

Lemma wp_find_datagram P hdr s ds : forall h fuel, table P (reass_pool (ipv s)) h ds -> (length ds < fuel)%nat ->
  wp (iter fuel (find_datagram_body hdr) h) (fun r s' => s' = s /\
    match r with
    | None => Forall (fun d => belongs hdr d = false) ds
    | Some l => exists a d b, ds = a ++ d :: b /\ l = dg_loc d /\ belongs hdr d = true /\ Forall (fun d => belongs hdr d = false) a
    end) s.
Proof.
  induction ds as [|d ds IH]; intros h fuel Ht Hf; (destruct fuel as [|fuel]; [simpl in Hf; lia|]); cbn [iter]; apply wp_bind.
  { simpl in Ht. rewrite Ht. by apply wp_ret, wp_ret. }
  destruct Ht as (-> & r & Er & Hr & _ & Ht). unfold find_datagram_body at 1. apply wp_bind, (wp_get_rd _ r); [done|]. apply wp_ret.
  destruct Hr as (-> & _). fold (belongs hdr d). destruct (belongs hdr d) eqn:Eb.
  - apply wp_ret. split; [done|]. by exists [], d, ds.
  - eapply wp_mono; [apply IH; [done|simpl in Hf; lia]|]. intros [l|] s' [-> Hx]; (split; [done|]).
    + destruct Hx as (a & d' & b & -> & -> & Hb & Ha). exists (d :: a), d', b. split_and!; [done|done|done|by constructor].
    + by constructor.
Qed.

(** ** Taking a datagram out *)

Definition last_loc (ds : list dgram) : option loc := dg_loc <$> last ds.

Lemma wp_find_prev P d b s a : forall pre h fuel, table P (reass_pool (ipv s)) h (a ++ d :: b) ->
  NoDup (map dg_loc (a ++ d :: b)) -> a <> [] -> (length a < fuel)%nat ->
  wp (iter fuel (find_prev_body (dg_loc d)) h) (fun r s' => s' = s /\ r = last_loc (pre ++ a)) s.
Proof.
  induction a as [|e a IH]; intros pre h fuel Ht Hn Hne Hf; [done|]. destruct fuel as [|fuel]; [lia|]. cbn [iter app map] in *.
  destruct Ht as (-> & r & Er & _ & _ & Ht). apply NoDup_cons in Hn as [Hni Hn].
  apply wp_bind. unfold find_prev_body at 1. apply wp_bind, (wp_get_rd _ r); [done|]. apply wp_ret.
  destruct a as [|g a].
  - destruct Ht as (En & _). rewrite En. rewrite bool_decide_true by done. apply wp_ret. split; [done|]. unfold last_loc. by rewrite last_snoc.
  - pose proof Ht as (En & _). rewrite En. rewrite bool_decide_false.
    + rewrite <- En, app_cons_snoc. apply IH; [done|done|done|simpl in *; lia].
    + intros [= E]. cbn [app map] in Hn. apply NoDup_cons in Hn as [Hg _]. apply Hg. rewrite E. apply loc_in, elem_of_app. right. by left.
Qed.

(** Element [i] of the pool of datagrams is free again. *)
Definition elem_freed (i : nat) (m : mem) : mem := set_mpools (<[MEMP_REASSDATA := i :: mpools m MEMP_REASSDATA]> (mpools m)) m.

Lemma wp_memp_free_rd i (Q : unit -> eth -> Prop) s : Q tt (set_emem (elem_freed i (emem s)) s) -> wp (on_pbuf (memp_free_at MEMP_REASSDATA (Pool MEMP_REASSDATA i))) Q s.
Proof. intros HQ. apply wp_on_pbuf. unfold memp_free_at. by rewrite decide_True. Qed.

Lemma qseg_same m m' np p qs tl : pbufs m' = pbufs m -> bytes m' = bytes m -> qseg m np p qs tl -> qseg m' np p qs tl.
Proof. intros E1 E2. apply qseg_untouched. apply Forall_forall. intros f _ l _. by rewrite E1, E2. Qed.

Lemma table_delete P pool h ds l : table P pool h ds -> l ∉ map dg_loc ds -> table P (delete l pool) h ds.
Proof.
  intros Ht Hl. eapply table_mono; [| |exact Ht]; [|done]. intros d Hd. rewrite lookup_delete_ne; [done|]. intros ->. by apply Hl, loc_in.
Qed.

(** The element before is linked past the one that goes. *)
Lemma table_unlink P pool a e d b re r : (forall d r n, P d r -> P d (set_rd_next n r)) -> forall h,
  table P pool h (a ++ e :: d :: b) -> NoDup (map dg_loc (a ++ e :: d :: b)) -> pool !! dg_loc e = Some re -> pool !! dg_loc d = Some r ->
  table P (<[dg_loc e := set_rd_next (rd_next r) re]> pool) h (a ++ e :: b).
Proof.
  intros HP. induction a as [|g a IH]; intros h Ht Hn Ee Ed; cbn [app map] in *; apply NoDup_cons in Hn as [Hni Hn].
  - destruct Ht as (-> & re' & Ee' & Hre & Hs & (_ & r' & Ed' & _ & _ & Ht)). rewrite Ee in Ee'. injection Ee' as <-. rewrite Ed in Ed'. injection Ed' as <-.
    split; [done|]. exists (set_rd_next (rd_next r) re). split; [apply lookup_insert_eq|]. split; [done|]. split; [by apply HP|].
    eapply table_mono; [| |exact Ht]; [|done]. intros x Hx. rewrite lookup_insert_ne; [done|]. intros E. apply Hni. rewrite E. right. by apply loc_in.
  - destruct Ht as (-> & rg & Eg & Hg & Hs & Ht). split; [done|]. exists rg. split; [|split; [done|split; [done|by apply IH]]].
    rewrite lookup_insert_ne; [done|]. intros E. apply Hni. rewrite <- E. apply loc_in, elem_of_app. right. by left.
Qed.

(** The datagram [d] is gone from the list, its element free. *)
Definition unlisted (P : dgram -> ip_reassdata -> Prop) (s : eth) (ds : list dgram) (i : nat) (s' : eth) : Prop :=
  exists h' pool', s' = set_emem (elem_freed i (emem s)) (set_ipv (set_reassdatagrams h' (set_reass_pool pool' (ipv s))) s) /\ table P pool' h' ds.

Lemma wp_dequeue P s a d b i : (forall d r n, P d r -> P d (set_rd_next n r)) ->
  table P (reass_pool (ipv s)) (reassdatagrams (ipv s)) (a ++ d :: b) ->
  NoDup (map dg_loc (a ++ d :: b)) -> dg_loc d = Pool MEMP_REASSDATA i ->
  wp (ip_reass_dequeue_datagram (dg_loc d) (last_loc a)) (fun _ s' => unlisted P s (a ++ b) i s') s.
Proof.
  intros HP Ht Hn El. destruct (table_in _ _ _ d _ Ht) as (r & Er & _); [apply elem_of_app; right; by left|].
  assert (Hni : dg_loc d ∉ map dg_loc (a ++ b)).
  { rewrite <- Permutation_middle in Hn. by apply NoDup_cons in Hn as [? _]. }
  unfold ip_reass_dequeue_datagram. apply wp_bind, (wp_get_rd _ r); [done|]. apply wp_bind, wp_ip_var.
  destruct a as [|g a' _] using rev_ind.
  - pose proof Ht as (Eh & r' & Er' & _ & _ & Ht'). rewrite Er in Er'. injection Er' as <-. rewrite bool_decide_true by done.
    apply wp_bind, wp_mod_ipv. rewrite El. apply wp_bind, wp_memp_free_rd, wp_mod_ipv. rewrite <- El.
    exists (rd_next r), (delete (dg_loc d) (reass_pool (ipv s))). split; [reflexivity|]. cbn [app] in *. apply table_delete; [|done]. exact Ht'.
  - rewrite <- app_assoc in Ht, Hn. cbn [app] in Ht, Hn.
    assert (Hg : exists rg, reass_pool (ipv s) !! dg_loc g = Some rg).
    { destruct (table_in _ _ _ g _ Ht) as (rg & Eg & _); [apply elem_of_app; right; by left|by exists rg]. }
    destruct Hg as (rg & Eg). rewrite bool_decide_false.
    + unfold last_loc. rewrite last_snoc. apply wp_bind, wp_bind, wp_ret, (wp_set_rd _ rg); [done|].
      rewrite El. apply wp_bind, wp_memp_free_rd, wp_mod_ipv. rewrite <- El.
      exists (reassdatagrams (ipv s)), (delete (dg_loc d) (<[dg_loc g := set_rd_next (rd_next r) rg]> (reass_pool (ipv s)))). split; [reflexivity|]. apply table_delete; [|done]. rewrite <- app_assoc.
      by apply (table_unlink P _ a' g d b rg r).
    + intros E. destruct a' as [|h a']; destruct Ht as (E' & _); rewrite E in E'; injection E' as E'; apply NoDup_cons in Hn as [Hg _]; apply Hg; rewrite <- E'.
      * by left.
      * apply loc_in, elem_of_app. right. right. by left.
Qed.
End Table.

(** ** The state of reassembly *)

Definition all_frags (ds : list dgram) : list qfrag := concat (map dg_frags ds).
Definition nodes_of (fs : list qfrag) : list node := concat (map qf_chain fs).

(** The head of a fragment has its bytes in its own block. *)
Definition owned (f : qfrag) : Prop := fst <$> qf_ptr f = Some (qf_loc f).

(** A header without options. *)
Definition plain_header (hdr : list Z) : Prop := exists tos len_ id off ttl proto ck src dst,
  length ck = 2%nat /\ byte tos /\ byte ttl /\ byte proto /\ 0 <= id < 65536 /\ 0 <= src < 2 ^ 32 /\ 0 <= dst < 2 ^ 32 /\ hdr = header_fields tos len_ id off ttl proto ck src dst.

(** The header of the whole datagram, [dl] bytes long with it. *)
Definition whole_header (hdr : list Z) (dl : Z) : list Z :=
  ip_header (nth 1 hdr 0) dl (nth 4 hdr 0 * 256 + nth 5 hdr 0) 0 (nth 8 hdr 0) (nth 9 hdr 0) (hdr_src hdr) (hdr_dest hdr).

Lemma whole_header_fields tos len_ id off ttl proto ck src dst dl : length ck = 2%nat -> 0 <= id < 65536 -> 0 <= src < 2 ^ 32 -> 0 <= dst < 2 ^ 32 ->
  whole_header (header_fields tos len_ id off ttl proto ck src dst) dl = ip_header tos dl id 0 ttl proto src dst.
Proof.
  intros L Hid Hs Hd. do 2 list_cons ck. list_nil ck. unfold whole_header. unfold header_fields at 1 2 3 4 5.
  change (nth 4 _ 0) with (id / 256). change (nth 5 _ 0) with (id mod 256).
  replace (id / 256 * 256 + id mod 256) with id by (Z.div_mod_to_equations; lia).
  f_equal; [exact (load_bytes32 src Hs)|exact (load_bytes32 dst Hd)].
Qed.

Lemma all_frags_middle a d b : all_frags (a ++ d :: b) ≡ₚ dg_frags d ++ all_frags (a ++ b).
Proof. unfold all_frags. rewrite !map_app, !concat_app. cbn [map concat]. by rewrite Permutation_app_swap_app. Qed.

Lemma all_frags_in f d ds : d ∈ ds -> f ∈ dg_frags d -> f ∈ all_frags ds.
Proof. intros Hd Hf. unfold all_frags. apply list_elem_of_In, in_concat. exists (dg_frags d). split; apply list_elem_of_In; [|done]. apply list_elem_of_fmap. by exists d. Qed.

Section Spec.
Context `{WL : WireLaws} `{HL : !HeapLaws} `{CF : !CustomFree} `{BU : !Build}.

Record reass_inv (s : eth) (ds : list dgram) : Prop := {
  ri_table : table (in_queue (emem s) (next_pbufs (ipv s))) (reass_pool (ipv s)) (reassdatagrams (ipv s)) ds;
  ri_locs : NoDup (map dg_loc ds);
  ri_apart : apart (all_frags ds);
  ri_own : Forall owned (all_frags ds);
  ri_ends : Forall (fun f => qf_end f < 65536) (all_frags ds);
  ri_hdrs : Forall (fun d => plain_header (dg_hdr d) /\ 0 <= dg_len d <= 65515) ds;
  ri_elems : Forall (fun d => exists i, dg_loc d = Pool MEMP_REASSDATA i) ds;
  ri_free : NoDup (mpools (emem s) MEMP_REASSDATA) /\ forall i, i ∈ mpools (emem s) MEMP_REASSDATA -> Pool MEMP_REASSDATA i ∉ map dg_loc ds;
  ri_count : ip_reass_pbufcount (ipv s) = Z.of_nat (length (nodes_of (all_frags ds)))
}.

(** What a step of reassembly may change: its own variables, and the memory of
    the packets [L]. *)
Definition reass_only (L : list loc) (s s' : eth) : Prop := exists m h pool np k,
  s' = set_emem m (set_ipv (set_pbufcount k (set_next_pbufs np (set_reass_pool pool (set_reassdatagrams h (ipv s))))) s) /\
  forall l, l ∉ L -> pbufs m !! l = pbufs (emem s) !! l /\ bytes m !! l = bytes (emem s) !! l.

Lemma reass_only_refl L s : reass_only L s s.
Proof.
  exists (emem s), (reassdatagrams (ipv s)), (reass_pool (ipv s)), (next_pbufs (ipv s)), (ip_reass_pbufcount (ipv s)).
  split; [|done]. by destruct s as [? [? []] ? ? ?].
Qed.

Lemma reass_only_trans L s1 s2 s3 : reass_only L s1 s2 -> reass_only L s2 s3 -> reass_only L s1 s3.
Proof.
  intros (m & h & pool & np & k & -> & H1) (m' & h' & pool' & np' & k' & -> & H2). exists m', h', pool', np', k'. split; [done|].
  intros l Hl. destruct (H1 l Hl), (H2 l Hl). cbn in *. split; congruence.
Qed.

Lemma reass_only_mono L L' s s' : (forall l, l ∈ L -> l ∈ L') -> reass_only L s s' -> reass_only L' s s'.
Proof. intros HLL (m & h & pool & np & k & -> & H1). exists m, h, pool, np, k. split; [done|]. auto. Qed.

Lemma foot_areas_own fs f : Forall owned fs -> f ∈ fs -> node_area (qf_node f) = Some (qf_loc f).
Proof. intros Ho Hf. rewrite Forall_forall in Ho. by apply Ho. Qed.

Lemma nodes_app a b : nodes_of (a ++ b) = nodes_of a ++ nodes_of b.
Proof. unfold nodes_of. by rewrite map_app, concat_app. Qed.

#[export] Instance nodes_perm : Proper ((≡ₚ) ==> (≡ₚ)) nodes_of.
Proof.
  intros a b Hp. induction Hp; [done| | |by etransitivity]; unfold nodes_of in *; cbn [map concat].
  - by rewrite IHHp.
  - by rewrite Permutation_app_swap_app.
Qed.

Lemma pbufs_of_nodes fs : pbufs_of fs = map n_loc (nodes_of fs).
Proof. unfold pbufs_of, nodes_of. rewrite concat_map, map_map. done. Qed.

Lemma frags_apart a d b : apart (all_frags (a ++ d :: b)) -> apart (dg_frags d) /\ apart (all_frags (a ++ b)) /\
  forall f g, f ∈ dg_frags d -> g ∈ all_frags (a ++ b) -> disj f g.
Proof. rewrite all_frags_middle. apply apart_app. Qed.

Lemma in_foot f l : l ∈ qf_locs f -> l ∈ foot (qf_chain f).
Proof. intros Hl. apply elem_of_app. by left. Qed.

Lemma in_pbufs_of l fs : l ∈ pbufs_of fs <-> exists f, f ∈ fs /\ l ∈ qf_locs f.
Proof.
  unfold pbufs_of. rewrite list_elem_of_In, in_concat. split.
  - intros (x & Hx & Hl). apply in_map_iff in Hx as (f & <- & Hf). exists f. by rewrite !list_elem_of_In.
  - intros (f & Hf & Hl). exists (qf_locs f). split; [by apply in_map, list_elem_of_In|by apply list_elem_of_In].
Qed.

(** The other datagrams are where they were when only the packets of [fs] have
    changed. *)
Lemma others_queued m m' np ds fs e r : (forall l, l ∉ pbufs_of fs -> pbufs m' !! l = pbufs m !! l /\ bytes m' !! l = bytes m !! l) ->
  (forall f g, f ∈ fs -> g ∈ all_frags ds -> disj f g) -> e ∈ ds -> in_queue m np e r -> in_queue m' np e r.
Proof.
  intros Hm Hd He. apply qseg_untouched. apply Forall_forall. intros g Hg l Hl. apply Hm. intros (f & Hf & Hlf)%in_pbufs_of.
  by apply (Hd f g Hf (all_frags_in g e ds He Hg) l); [apply in_foot|].
Qed.

(** From the search for the element before to [ip_reass_dequeue_datagram]. *)
Lemma wp_take_out {A} P s a d b i (K : M eth A) Q : (forall d r n, P d r -> P d (set_rd_next n r)) ->
  table P (reass_pool (ipv s)) (reassdatagrams (ipv s)) (a ++ d :: b) ->
  NoDup (map dg_loc (a ++ d :: b)) -> dg_loc d = Pool MEMP_REASSDATA i -> (forall s', unlisted P s (a ++ b) i s' -> wp K Q s') ->
  wp (h ← ip_var reassdatagrams;
      ipr_prev ← (if bool_decide (h = Some (dg_loc d)) then mret None
                  else fuel ← reass_fuel; iter fuel (find_prev_body (dg_loc d)) h);
      ip_reass_dequeue_datagram (dg_loc d) ipr_prev;; K) Q s.
Proof.
  intros HP Ht Hn El HK. apply wp_bind, wp_ip_var.
  assert (Hd : wp (ip_reass_dequeue_datagram (dg_loc d) (last_loc a);; K) Q s).
  { apply wp_bind. eapply wp_mono; [by apply (wp_dequeue P s a d b i)|]. intros [] s' Hsz. by apply HK. }
  destruct a as [|g a].
  - pose proof Ht as (Eh & _). rewrite bool_decide_true by done. by apply wp_bind, wp_ret.
  - pose proof Ht as (Eh & _). rewrite bool_decide_false.
    + apply wp_bind, wp_bind. unfold reass_fuel. apply wp_ip_var. pose proof (table_size _ _ _ _ Ht Hn) as Hs. rewrite length_app in Hs. cbn [length] in Hs.
      eapply wp_mono; [apply (wp_find_prev P d b s (g :: a) [] _ _ Ht Hn); [done|cbn [length]; lia]|]. intros r s' [-> ->]. exact Hd.
    + rewrite Eh. intros [= E]. cbn [app map] in Hn. apply NoDup_cons in Hn as [Hg _]. apply Hg. rewrite E. apply loc_in, elem_of_app. right. by left.
Qed.

(** A block of stores, and what follows it. *)
Lemma wp_block_read {S A B} (m1 m2 m3 m4 : M S unit) (m5 : M S B) (m6 : B -> M S unit) (k : M S A) Q s :
  wp (m1;; m2;; m3;; m4;; x ← m5; m6 x) (fun _ s' => wp k Q s') s -> wp (m1;; m2;; m3;; m4;; x ← m5; m6 x;; k) Q s.
Proof.
  unfold wp, mbind, M_bind. destruct (m1 s) as [? s1|]; [|done]. destruct (m2 s1) as [? s2|]; [|done]. destruct (m3 s2) as [? s3|]; [|done].
  destruct (m4 s3) as [? s4|]; [|done]. destruct (m5 s4) as [x s5|]; [|done]. by destruct (m6 x s5).
Qed.

(** The datagram [d] is a packet at [p], and in the table no more. *)
Definition finished (s : eth) (a : list dgram) (d : dgram) (b : list dgram) (p : loc) (s' : eth) : Prop := exists c,
  packet (emem s') (Some p) c /\ EtharpReply.releasable c /\ contents c = whole_header (dg_hdr d) (dg_len d + 20) ++ payload_of (dg_frags d) /\
  map n_loc c = pbufs_of (dg_frags d) /\ reass_inv s' (a ++ b) /\ reass_only (pbufs_of (dg_frags d)) s s'.

(** The packet of the first fragment with the header restored, and the rest
    behind it. *)
Lemma wp_join_datagram s np f qs hdr dl n odd {A} (K : M eth A) QK :
  next_pbufs (ipv s) = np -> frag_in (emem s) f -> owned f -> qseg (emem s) np n qs None -> apart (f :: qs) -> plain_header hdr -> 0 <= dl < 65536 ->
  Z.of_nat (length (payload_of (f :: qs))) <= 65515 -> NoDup (map qf_ptr qs) ->
  (forall m' c, packet m' (Some (qf_loc f)) c -> EtharpReply.releasable c -> contents c = whole_header hdr dl ++ payload_of (f :: qs) ->
     map n_loc c = pbufs_of (f :: qs) -> mpools m' = mpools (emem s) ->
     (forall l, l ∉ pbufs_of (f :: qs) -> pbufs m' !! l = pbufs (emem s) !! l /\ bytes m' !! l = bytes (emem s) !! l) -> wp K QK (set_emem m' s)) ->
  wp (store_field (qf_ptr f) 0 hdr;;
      store_field (qf_ptr f) 2 (bytes16 (lwip_htons dl));;
      store_field (qf_ptr f) 6 (bytes16 0);;
      store_field (qf_ptr f) 10 (bytes16 0);;
      hdr ← read_field (qf_ptr f) 0 IP_HLEN;
      store_field (qf_ptr f) 10 (bytes16 (inet_chksum odd hdr));;
      fuel ← frags_fuel;
      iter fuel (chain_pbufs_body (qf_loc f)) n;; K) QK s.
Proof.
  intros Enp Hf Ho Hq [Ha Hap] (tos & len_ & id & off & ttl & proto & ck & src & dst & Lck & B1 & B2 & B3 & Rid & Rs & Rd & ->) Rdl Hlen Hn HK.
  pose proof Hf as [Hp Hr H20 _ _ _]. pose proof (pk_chain _ _ _ Hp) as (_ & _ & [L _] & _).
  apply wp_block_read. destruct f as [nd rest st]. unfold qf_ptr, qf_loc, qf_chain in *. cbn [qf_node qf_rest] in *.
  apply (wp_restore_header s nd rest); try done. intros m1 O1 E1 Hp1. rewrite <- (whole_header_fields tos len_ id off ttl proto ck src dst dl) in Hp1 by done.
  set (hdr := header_fields tos len_ id off ttl proto ck src dst) in *. set (nd1 := Node (n_loc nd) (n_buf nd) _) in Hp1.
  assert (Lw : length (whole_header hdr dl) = 20%nat) by apply ip_header_length.
  assert (Efoot : foot (nd1 :: rest) = foot (nd :: rest)) by (unfold foot; by rewrite !areas_cons).
  assert (Hloc : n_loc nd ∈ foot (nd :: rest)) by (apply elem_of_app; left; by left).
  assert (Hu : Forall (fun g => untouched (foot (qf_chain g)) (emem s) m1) qs).
  { eapply Forall_impl; [exact Ha|]. intros g Hg. apply (untouched_block (n_loc nd)); [done|]. by apply Hg. }
  assert (Ec1 : contents (nd1 :: rest) = whole_header hdr dl ++ qf_data (QF nd rest st)).
  { unfold qf_data, qf_chain. cbn [qf_node qf_rest]. rewrite !contents_cons. cbn [nd1 n_data]. rewrite drop_app_le by lia. by rewrite app_assoc. }
  apply wp_bind, wp_frags_fuel, wp_bind. pose proof (qseg_size _ _ _ _ _ Hq Hn) as Hsz.
  apply (wp_join qs (set_emem m1 s) (n_loc nd) (nd1 :: rest) n); [exact Hp1| | | |done| | |].
  - apply Forall_cons in Hr as [? ?]. by apply Forall_cons.
  - change (next_pbufs (ipv (set_emem m1 s))) with (next_pbufs (ipv s)). rewrite Enp. by apply (qseg_untouched _ _ _ _ _ _ Hu).
  - eapply Forall_impl; [exact Ha|]. intros g Hg l. rewrite Efoot. apply Hg.
  - rewrite payload_of_cons, length_app in Hlen. unfold total. rewrite Ec1, length_app, Lw. lia.
  - change (next_pbufs (ipv (set_emem m1 s))) with (next_pbufs (ipv s)). rewrite Enp. lia.
  - intros m2 c Hp2 Hr2 Hc2 Hl2 F2. change (set_emem m2 (set_emem m1 s)) with (set_emem m2 s). apply (HK m2 c); [done|done| |done| |].
    + rewrite Hc2, Ec1, payload_of_cons. by rewrite app_assoc.
    + destruct O1 as (_ & Em & _). rewrite (op_pools _ _ _ F2). exact Em.
    + intros l Hl. split.
      * rewrite (op_pbufs _ _ _ F2) by exact Hl. by rewrite <- E1.
      * rewrite (op_bytes _ _ _ F2). destruct O1 as (_ & _ & _ & _ & O). apply O. intros ->. apply Hl, in_pbufs_of. exists (QF nd rest st). split; by left.
Qed.

Lemma elem_freed_free i ds m : NoDup (mpools m MEMP_REASSDATA) -> (forall j, j ∈ mpools m MEMP_REASSDATA -> Pool MEMP_REASSDATA j ∉ map dg_loc ds) ->
  Pool MEMP_REASSDATA i ∈ map dg_loc ds -> forall ds', (forall l, l ∈ map dg_loc ds' -> l ∈ map dg_loc ds /\ l <> Pool MEMP_REASSDATA i) ->
  NoDup (mpools (elem_freed i m) MEMP_REASSDATA) /\ forall j, j ∈ mpools (elem_freed i m) MEMP_REASSDATA -> Pool MEMP_REASSDATA j ∉ map dg_loc ds'.
Proof.
  intros Hn Hf Hi ds' Hds. unfold elem_freed. cbn [mpools set_mpools]. rewrite fn_lookup_insert. split.
  - apply NoDup_cons. split; [|done]. intros Hj. by apply (Hf i).
  - intros j [->|Hj]%elem_of_cons Hin; destruct (Hds _ Hin) as [H1 H2]; [done|]. by apply (Hf j).
Qed.

Lemma owned_head f : owned f -> qf_ptr f = Some (qf_loc f, default 0 (snd <$> qf_ptr f)).
Proof. unfold owned. destruct (qf_ptr f) as [[l o]|]; [|done]. cbn. by intros [= ->]. Qed.

(** Different fragments have their helpers in different places. *)
Lemma apart_ptrs fs : apart fs -> Forall owned fs -> NoDup (map qf_ptr fs).
Proof.
  induction fs as [|f fs IH]; [constructor|]. intros [Hf Ha] [Ho Hos]%Forall_cons. cbn [map]. apply NoDup_cons. split; [|by apply IH].
  intros (g & E & Hg)%list_elem_of_fmap. rewrite Forall_forall in Hf, Hos. specialize (Hos g Hg). unfold owned in Ho, Hos. rewrite E, Hos in Ho. injection Ho as El.
  apply (Hf g Hg (qf_loc f)); apply in_foot; [by left|]. rewrite <- El. by left.
Qed.

Lemma wp_finish odd_at s a d b i : reass_inv s (a ++ d :: b) -> dg_loc d = Pool MEMP_REASSDATA i -> Z.of_nat (length (payload_of (dg_frags d))) <= 65515 ->
  dg_frags d <> [] -> ip_reass_pbufcount (ipv s) < 65536 -> wp (reass_finish odd_at (dg_loc d)) (finished s a d b) s.
Proof.
  intros [Ht Hn Ha Ho He Hh Hel [Hfn Hff] Hcnt] El Hlen Hc Hk.
  assert (Hin : d ∈ a ++ d :: b) by (apply elem_of_app; right; by left).
  destruct (table_in _ _ _ _ _ Ht Hin) as (r & Er & (Eh & Elen & _) & Hq).
  pose proof (frags_apart _ _ _ Ha) as (Had & Hab & Hcross). pose proof Hh as Hh'. rewrite Forall_forall in Hh'. destruct (Hh' d Hin) as [Hph Rlen]. clear Hh'.
  rewrite all_frags_middle in Ho, He, Hcnt. apply Forall_app in Ho as [Hod Hos], He as [Hed Hes].
  rewrite nodes_app, length_app in Hcnt.
  pose proof (apart_ptrs _ Had Hod) as Hnp.
  unfold in_queue in Hq. destruct (dg_frags d) as [|f qs] eqn:Ef; [done|].
  destruct Hq as (Ep & Hf & x & n & Ex & En & Hq). apply Forall_cons in Hod as [Hof Hods]. cbn [map] in Hnp. apply NoDup_cons in Hnp as [_ Hnp].
  unfold reass_finish. apply wp_bind, (wp_get_rd _ r); [done|]. rewrite Ep. apply wp_bind, wp_ret, wp_bind, wp_iprh_of; [done|].
  apply wp_bind. rewrite Ex. eapply wp_iprh_next; [done|]. rewrite <- Ex, Eh, Elen. change (u16 (dg_len d + IP_HLEN)) with (u16 (dg_len d + 20)). rewrite (u16_small (dg_len d + 20)) by lia.
  apply (wp_join_datagram s (next_pbufs (ipv s)) f qs (dg_hdr d) (dg_len d + 20) n); [done|done|done|done|done|done|lia|done|done|].
  intros m c Hp Hr Hcont Hl Em Hm.
  set (P := fun e r => dg_loc e <> dg_loc d -> in_queue m (next_pbufs (ipv s)) e r).
  assert (HtP : table P (reass_pool (ipv s)) (reassdatagrams (ipv s)) (a ++ d :: b)).
  { eapply table_weaken; [|exact Ht]. intros e x' Hine He' Hne. apply (others_queued _ _ _ (a ++ b) (f :: qs) e x' Hm Hcross); [|done].
    apply elem_of_app in Hine as [?|[->|?]%elem_of_cons]; [apply elem_of_app; by left|done|apply elem_of_app; by right]. }
  apply (wp_take_out P (set_emem m s) a d b i); [done|exact HtP|done|done|]. intros s' (h' & pool' & -> & HtP').
  match goal with |- wp _ _ ?st => set (s2 := st) end.
  assert (Hp2 : packet (elem_freed i m) (Some (qf_loc f)) c) by (apply (packet_untouched m); [by split|done]).
  pose proof (f_equal length Hl) as Elc. rewrite pbufs_of_nodes, !length_map in Elc.
  apply wp_bind, wp_on_pbuf. apply (wp_pbuf_clen _ _ c); [apply Hp2|apply Hp2|lia|]. apply wp_bind, wp_mod_ipv, wp_ret.
  exists c. rewrite Ef. split_and!; [exact Hp2|done|done|done| |].
  - assert (Hni : dg_loc d ∉ map dg_loc (a ++ b)) by (rewrite <- Permutation_middle in Hn; by apply NoDup_cons in Hn as [? _]).
    split; [| |done|done|done| | | |].
    + eapply table_weaken; [|exact HtP']. intros e x' Hine HP. apply (qseg_same m); [done|done|]. apply HP. intros E. apply Hni. rewrite <- E. by apply loc_in.
    + rewrite <- Permutation_middle in Hn. by apply NoDup_cons in Hn as [_ ?].
    + rewrite <- Permutation_middle in Hh. by apply Forall_cons in Hh as [_ ?].
    + rewrite <- Permutation_middle in Hel. by apply Forall_cons in Hel as [_ ?].
    + apply (elem_freed_free i (a ++ d :: b) m); [by rewrite Em|by rewrite Em|rewrite <- El; by apply loc_in|].
      intros l Hinl. split; [rewrite <- Permutation_middle; by right|]. intros ->. apply Hni. by rewrite El.
    + change (ip_reass_pbufcount _) with (u16 (ip_reass_pbufcount (ipv s) - Z.of_nat (length c))). rewrite Hcnt, Elc. rewrite u16_small; lia.
  - exists (elem_freed i m), h', pool', (next_pbufs (ipv s)), (u16 (ip_reass_pbufcount (ipv s) - Z.of_nat (length c))). split; [done|]. exact Hm.
Qed.
End Spec.
