(* ===== verification/ReassStep.v ===== *)
(** Reassembly: one fragment, from [ip4_reass] to its result. *)
From stdpp Require Import functions.
From S2P Require Import Prelude Memp Pbuf PbufFacts PbufUpdate PbufAlloc PbufChain PbufRam Chksum ChksumFacts Ip4Addr.
From S2P Require Import Ethernet Etharp EtharpTable EtharpInv EtharpSend EtharpReply.
From S2P Require Import Ip IpFacts Icmp IcmpFacts Reass IpInputFacts ReassQueue ReassSpec.

(** ** The abstract step *)

(** The fragment is the last one of its datagram: MF is clear. *)
Definition frag_last (nd : node) : bool := Z.land (hdr_offset (n_data nd)) (PP_NTOHS IP_MF) =? 0.

(** The datagram with the queue [qs], [nd] being new in it. *)
Definition grown (d : dgram) (qs : list qfrag) (nd : node) (c : list node) : dgram :=
  if frag_last nd then Dgram (dg_loc d) (dg_hdr d) (frag_end nd c) (Z.lor (dg_flags d) IP_REASS_FLAG_LASTFRAG) (dg_timer d) qs
  else Dgram (dg_loc d) (dg_hdr d) (dg_len d) (dg_flags d) (dg_timer d) qs.

(** How far a fragment may reach: the last one must leave room for the header
    of the datagram, the end of any other only fits 16 bits. *)
Definition end_limit (nd : node) : Z := if frag_last nd then 65515 else 65535.

(** The datagram takes the fragment. *)
Definition accepts (d : dgram) (nd : node) (c : list node) : option (list qfrag) :=
  if end_limit nd <? frag_end nd c then None else place (as_frag nd c) (dg_frags d).

(** Nothing of the datagram is missing. *)
Definition whole (d : dgram) : bool := has (dg_flags d) IP_REASS_FLAG_LASTFRAG && complete (dg_frags d).

Lemma place_perm f qs : forall qs', place f qs = Some qs' -> qs' ≡ₚ f :: qs.
Proof.
  induction qs as [|g qs IH]; intros qs'; cbn [place]; [by intros [= <-]|].
  destruct (_ <? _); [destruct (_ <? _); [done|by intros [= <-]]|]. destruct (_ || _); [done|].
  destruct (place f qs) as [l|]; [|done]. intros [= <-]. rewrite (IH l) by done. apply Permutation_swap.
Qed.

Lemma grown_frags d qs nd c : dg_frags (grown d qs nd c) = qs /\ dg_loc (grown d qs nd c) = dg_loc d /\ dg_hdr (grown d qs nd c) = dg_hdr d.
Proof. unfold grown. by destruct (frag_last nd). Qed.

Lemma grown_last d qs nd c : has (dg_flags (grown d qs nd c)) IP_REASS_FLAG_LASTFRAG = frag_last nd || has (dg_flags d) IP_REASS_FLAG_LASTFRAG.
Proof.
  unfold grown. destruct (frag_last nd); [|done]. cbn [dg_flags orb]. unfold has, IP_REASS_FLAG_LASTFRAG. rewrite negb_true_iff. apply Z.eqb_neq.
  intros E. apply (f_equal (fun x => Z.testbit x 0)) in E. rewrite Z.land_spec, Z.lor_spec in E. change (Z.testbit 1 0) with true in E.
  rewrite orb_true_r in E. done.
Qed.

Lemma as_frag_foot nd c : foot (qf_chain (as_frag nd c)) = foot (nd :: c).
Proof. unfold foot, qf_chain. cbn [as_frag qf_node qf_rest]. by rewrite !areas_cons. Qed.

Section Step.
Context `{WL : WireLaws} `{HL : !HeapLaws} `{CF : !CustomFree} `{BU : !Build}.

(** A fragment that shares nothing with those that are queued. *)
Definition newcomer (ds : list dgram) (nd : node) (c : list node) : Prop := forall g, g ∈ all_frags ds -> disj (as_frag nd c) g.

(** The packet has been released. *)
Definition let_go (nd : node) (c : list node) (s' : eth) : Prop := exists m c1 k,
  packet m (Some (n_loc nd)) c1 /\ map n_loc c1 = map n_loc (nd :: c) /\ pbuf_free (Some (n_loc nd)) m = Ret k (emem s').

(** The fragment is queued. *)
Lemma linked_inv s a d b r nd c x m' qs p np k pool : reass_inv s (a ++ d :: b) -> fragment (emem s) nd c -> newcomer (a ++ d :: b) nd c ->
  payload (n_buf nd) = Some x -> helper_in (emem s) nd c m' -> reass_pool (ipv s) !! dg_loc d = Some r -> describes d r ->
  place (as_frag nd c) (dg_frags d) = Some qs -> frag_end nd c <= end_limit nd -> qseg m' np p qs None ->
  (forall y, Some y ∉ map qf_ptr qs -> np !! y = next_pbufs (ipv s) !! y) ->
  pool = <[dg_loc d := (if frag_last nd then set_rd_last (frag_end nd c) else id) (set_rd_p p r)]> (reass_pool (ipv s)) ->
  k = ip_reass_pbufcount (ipv s) + Z.of_nat (length (nd :: c)) ->
  reass_inv (set_emem m' (set_ipv (set_pbufcount k (set_next_pbufs np (set_reass_pool pool (ipv s)))) s)) (a ++ grown d qs nd c :: b).
Proof.
  intros [Ht Hn Ha Ho He Hh Hel [Hfn Hff] Hcnt] Hfg Hnew Ex Hm Er Hdr Epl Hend Hq Hnp -> ->.
  pose proof (place_perm _ _ _ Epl) as Hperm. destruct (grown_frags d qs nd c) as (Gf & Gl & Gh).
  assert (Hall : all_frags (a ++ grown d qs nd c :: b) ≡ₚ as_frag nd c :: all_frags (a ++ d :: b)).
  { rewrite !all_frags_middle, Gf, Hperm. done. }
  assert (Hap : apart (all_frags (a ++ grown d qs nd c :: b))).
  { rewrite Hall. split; [|done]. apply Forall_forall. intros g Hg. by apply Hnew. }
  assert (Hown : Forall owned (all_frags (a ++ grown d qs nd c :: b))).
  { rewrite Hall. apply Forall_cons. split; [|done]. unfold owned. exact (fg_own _ _ _ Hfg). }
  pose proof (fg_packet _ _ _ Hfg) as Hpk. pose proof (pk_chain _ _ _ Hpk) as (_ & _ & [L _] & _). pose proof (fg_head _ _ _ Hfg).
  destruct (as_frag_facts nd c) as (_ & Ee & _ & _); [lia|].
  assert (R : 0 <= frag_start nd) by (unfold frag_start, IPH_OFFSET_BYTES; apply u16_range).
  pose proof (fg_len _ _ _ Hfg) as Hlen. pose proof (total_cons nd c) as Et. pose proof (total_nonneg c).
  split.
  - cbn [emem set_emem ipv set_ipv]. apply (table_update (in_queue (emem s) (next_pbufs (ipv s))) _ _ a d b _ r); try done.
    + by destruct (frag_last nd).
    + destruct Hdr as (E1 & E2 & E3 & E4). unfold grown, describes. destruct (frag_last nd); cbn; by rewrite ?E1, ?E2, ?E3, ?E4.
    + unfold in_queue. rewrite Gf. by destruct (frag_last nd).
    + intros e y Hine He'. assert (Hemem : e ∈ a ++ d :: b) by (apply elem_of_app in Hine as [?|?]; apply elem_of_app; [by left|right; by right]).
      apply (qseg_np _ (next_pbufs (ipv s))).
      * intros z (g & Eg & Hg)%list_elem_of_fmap. apply Hnp. rewrite Eg. intros (f & Ef & Hf)%list_elem_of_fmap.
        pose proof (apart_ptrs _ Hap Hown) as Hnd. rewrite all_frags_middle, Gf, map_app in Hnd. apply NoDup_app in Hnd as (_ & Hnd & _).
        apply (Hnd (qf_ptr g)); [rewrite Ef; apply list_elem_of_fmap; by exists f|]. apply list_elem_of_fmap. exists g. split; [done|]. by apply (all_frags_in g e).
      * eapply qseg_untouched; [|exact He']. apply Forall_forall. intros g Hg. apply (untouched_block (n_loc nd)); [apply Hm|].
        apply Hnew; [by apply (all_frags_in g e)|]. rewrite as_frag_foot. apply elem_of_app. left. by left.
  - rewrite map_app, map_cons, Gl. by rewrite map_app, map_cons in Hn.
  - done.
  - done.
  - rewrite Hall. apply Forall_cons. split; [|done]. rewrite Ee. unfold end_limit in Hend. destruct (frag_last nd); lia.
  - rewrite <- Permutation_middle in Hh |- *. apply Forall_cons in Hh as [[Hh1 Hh2] Hh]. apply Forall_cons. split; [|done]. rewrite Gh. split; [done|].
    unfold grown. unfold end_limit in Hend. destruct (frag_last nd); [|done]. cbn [dg_len]. unfold frag_end in *. rewrite Et in *. lia.
  - rewrite <- Permutation_middle in Hel |- *. apply Forall_cons in Hel as [Hl Hel]. apply Forall_cons. by rewrite Gl.
  - cbn [emem set_emem]. destruct (hi_block _ _ _ _ Hm) as (_ & Em & _). rewrite Em. split; [done|].
    rewrite map_app, map_cons, Gl. by rewrite map_app, map_cons in Hff.
  - change (ip_reass_pbufcount (ipv s) + Z.of_nat (length (nd :: c)) = Z.of_nat (length (nodes_of (all_frags (a ++ grown d qs nd c :: b))))).
    rewrite Hall. change (nodes_of (as_frag nd c :: all_frags (a ++ d :: b))) with (qf_chain (as_frag nd c) ++ nodes_of (all_frags (a ++ d :: b))).
    rewrite length_app, Hcnt. cbn [qf_chain as_frag qf_node qf_rest length]. lia.
Qed.

(** ** A fragment that is refused *)

Lemma freed_rd c : forall m, EtharpReply.releasable c -> mpools (free_all c m) MEMP_REASSDATA = mpools m MEMP_REASSDATA.
Proof.
  induction c as [|nd c IH]; intros m; [done|]. intros [[_ [_ Hw]] Hc]%Forall_cons. change (free_all (nd :: c) m) with (free_all c (freed (n_loc nd) m)).
  rewrite (IH _ Hc). unfold freed. destruct (n_loc nd) as [t i| |]; [|done|done]. cbn. rewrite fn_lookup_insert_ne; [done|]. by intros ->.
Qed.

Lemma released_rd c m : EtharpReply.releasable c -> mpools (drop_ref (remaining c) (free_all (released c) m)) MEMP_REASSDATA = mpools m MEMP_REASSDATA.
Proof.
  intros Hr. transitivity (mpools (free_all (released c) m) MEMP_REASSDATA); [by destruct (remaining c)|]. apply freed_rd.
  rewrite (released_remaining c) in Hr. by apply Forall_app in Hr as [? _].
Qed.

(** The queues do not notice what happens elsewhere in memory. *)
Lemma inv_elsewhere s m' np ds : reass_inv s ds -> mpools m' MEMP_REASSDATA = mpools (emem s) MEMP_REASSDATA ->
  (forall g, g ∈ all_frags ds -> untouched (foot (qf_chain g)) (emem s) m') -> (forall g y, g ∈ all_frags ds -> qf_ptr g = Some y -> np !! y = next_pbufs (ipv s) !! y) ->
  reass_inv (set_emem m' (set_ipv (set_next_pbufs np (ipv s)) s)) ds.
Proof.
  intros [Ht Hn Ha Ho He Hh Hel [Hfn Hff] Hcnt] Em Hu Hnp. split; try done.
  - eapply table_weaken; [|exact Ht]. intros d r Hd Hq. apply (qseg_np _ (next_pbufs (ipv s))).
    + intros y (g & Eg & Hg)%list_elem_of_fmap. apply (Hnp g); [by apply (all_frags_in g d)|done].
    + eapply qseg_untouched; [|exact Hq]. apply Forall_forall. intros g Hg. apply Hu. by apply (all_frags_in g d).
  - cbn [emem set_emem]. rewrite Em. by split.
Qed.

Lemma set_same s : set_ipv (set_next_pbufs (next_pbufs (ipv s)) (ipv s)) s = s.
Proof. by destruct s as [? [? []] ? ? ?]. Qed.

Lemma inv_free s ds c k m' p : reass_inv s ds -> packet (emem s) (Some p) c -> EtharpReply.releasable c ->
  (forall g l, g ∈ all_frags ds -> l ∈ foot (qf_chain g) -> l ∉ map n_loc c) -> pbuf_free (Some p) (emem s) = Ret k m' -> reass_inv (set_emem m' s) ds.
Proof.
  intros Hi Hp Hr Hd E. rewrite (pbuf_free_run _ _ c) in E; [|apply Hp|apply Hp|done]. injection E as _ <-.
  rewrite <- (set_same s) at 2. apply inv_elsewhere; [done|by apply released_rd| |done].
  intros g Hg. apply untouched_released. intros l. by apply Hd.
Qed.

(** The outcome for a fragment that is refused. *)
Definition refused (s : eth) (ds : list dgram) (nd : node) (c : list node) (r : option loc) (s' : eth) : Prop :=
  r = None /\ reass_inv s' ds /\ let_go nd c s' /\ reass_only (map n_loc (nd :: c)) s s'.

Lemma wp_nullreturn s0 s ds nd c c1 : reass_inv s ds -> packet (emem s) (Some (n_loc nd)) c1 -> EtharpReply.releasable c1 -> map n_loc c1 = map n_loc (nd :: c) ->
  (forall g l, g ∈ all_frags ds -> l ∈ foot (qf_chain g) -> l ∉ map n_loc (nd :: c)) -> reass_only (map n_loc (nd :: c)) s0 s ->
  wp (nullreturn (n_loc nd)) (refused s0 ds nd c) s.
Proof.
  intros Hi Hp Hr El Hd Ho. pose proof (pbuf_free_run _ _ _ (pk_chain _ _ _ Hp) (pk_locs _ _ _ Hp) Hr) as E.
  unfold nullreturn. apply wp_bind, wp_on_pbuf. eapply wp_of_run; [exact E|]. apply wp_ret. split_and!; [done| | |].
  - eapply (inv_free s ds c1); [done|done|done| |exact E]. intros g l. rewrite El. apply Hd.
  - by exists (emem s), c1, (foldl (fun k _ => u8 (k + 1)) 0 (released c1)).
  - eapply reass_only_trans; [exact Ho|]. match goal with |- reass_only _ _ (set_emem ?m _) => set (m' := m) end.
    exists m', (reassdatagrams (ipv s)), (reass_pool (ipv s)), (next_pbufs (ipv s)), (ip_reass_pbufcount (ipv s)).
    split; [by destruct s as [? [? []] ? ? ?]|]. intros l Hl. rewrite <- El in Hl. split; [by apply PbufRealloc.released_pbufs|].
    apply PbufRealloc.released_bytes. done.
Qed.

(** The datagram [d], if it is not new, stays. *)
Definition kept (a : list dgram) (d : dgram) (b : list dgram) : list dgram := match dg_frags d with [] => a ++ b | _ => a ++ d :: b end.

Lemma wp_nullreturn_ipr s0 s a d b i nd c c1 : reass_inv s (a ++ d :: b) -> dg_loc d = Pool MEMP_REASSDATA i -> (dg_frags d = [] -> a = []) ->
  packet (emem s) (Some (n_loc nd)) c1 -> EtharpReply.releasable c1 -> map n_loc c1 = map n_loc (nd :: c) ->
  (forall g l, g ∈ all_frags (a ++ d :: b) -> l ∈ foot (qf_chain g) -> l ∉ map n_loc (nd :: c)) -> reass_only (map n_loc (nd :: c)) s0 s ->
  wp (nullreturn_ipr (dg_loc d) (n_loc nd)) (refused s0 (kept a d b) nd c) s.
Proof.
  intros Hi El Hnew Hp Hr Elc Hd Ho. pose proof Hi as [Ht Hn Ha Hown He Hh Hel [Hfn Hff] Hcnt].
  destruct (table_in _ _ _ d _ Ht) as (r & Er & _ & Hq); [apply elem_of_app; right; by left|].
  unfold nullreturn_ipr, kept. apply wp_bind, (wp_get_rd _ r); [done|]. unfold in_queue in Hq. destruct (dg_frags d) as [|f qs] eqn:Ef.
  - simpl in Hq. rewrite Hq. rewrite (Hnew eq_refl) in *. cbn [app] in *.
    apply wp_bind. eapply wp_mono; [apply (wp_dequeue (in_queue (emem s) (next_pbufs (ipv s))) s [] d b i); done|].
    intros [] s' (h' & pool' & -> & Ht'). cbn [map] in Hn. apply NoDup_cons in Hn as [Hni Hn].
    assert (Eall : all_frags (d :: b) = all_frags b) by (unfold all_frags; cbn [map concat]; by rewrite Ef).
    apply (wp_nullreturn s0 _ b nd c c1); [|apply (packet_untouched (emem s)); [by split|done]|done|done|by rewrite <- Eall|].
    + rewrite Eall in *. split; [|done|done|done|done|by apply Forall_cons in Hh as [_ ?]|by apply Forall_cons in Hel as [_ ?]| |exact Hcnt].
      * eapply table_weaken; [|exact Ht']. intros e x _. by apply qseg_same.
      * apply (elem_freed_free i (d :: b) (emem s)); [done|done|rewrite <- El; by left|]. intros l Hl. split; [by right|]. intros ->. apply Hni. by rewrite El.
    + eapply reass_only_trans; [exact Ho|]. exists (elem_freed i (emem s)), h', pool', (next_pbufs (ipv s)), (ip_reass_pbufcount (ipv s)).
      split; [by destruct s as [? [? []] ? ? ?]|by split].
  - destruct Hq as (Ep & _). rewrite Ep. apply wp_bind, wp_ret. by apply (wp_nullreturn s0 s (a ++ d :: b) nd c c1).
Qed.

(** ** The fragment in its datagram *)

(** What becomes of the fragment [nd :: c] of the datagram [d]. *)
Definition added (s : eth) (a : list dgram) (d : dgram) (b : list dgram) (nd : node) (c : list node) (r : option loc) (s' : eth) : Prop :=
  match accepts d nd c with
  | None => refused s (kept a d b) nd c r s'
  | Some qs => let d' := grown d qs nd c in
    if whole d' then exists p c', r = Some p /\ packet (emem s') (Some p) c' /\ EtharpReply.releasable c' /\
      contents c' = whole_header (dg_hdr d) (dg_len d' + 20) ++ payload_of qs /\ map n_loc c' = pbufs_of qs /\
      reass_inv s' (a ++ b) /\ reass_only (pbufs_of qs) s s'
    else r = None /\ reass_inv s' (a ++ d' :: b) /\ reass_only (map n_loc (nd :: c)) s s'
  end.

Lemma new_feet ds nd c g l : newcomer ds nd c -> g ∈ all_frags ds -> l ∈ foot (qf_chain g) -> l ∉ map n_loc (nd :: c).
Proof. intros Hnew Hg Hl Hin. apply (Hnew g Hg l); [|done]. rewrite as_frag_foot. apply elem_of_app. by left. Qed.

Lemma ptr_new ds nd c x y g : newcomer ds nd c -> fst <$> payload (n_buf nd) = Some (n_loc nd) -> payload (n_buf nd) = Some x ->
  g ∈ all_frags ds -> owned g -> qf_ptr g = Some y -> y <> x.
Proof.
  intros Hnew Ho Ex Hg Hog Ey ->. unfold owned in Hog. rewrite Ey in Hog. rewrite Ex in Ho. cbn in *. rewrite Ho in Hog. injection Hog as El.
  apply (Hnew g Hg (n_loc nd)); [rewrite as_frag_foot; apply elem_of_app; left; by left|]. rewrite El. apply in_foot. by left.
Qed.

(** The helper is written, and the fragment refused. *)
Lemma wp_dropped s a d b i nd c x m' s' : reass_inv s (a ++ d :: b) -> dg_loc d = Pool MEMP_REASSDATA i -> (dg_frags d = [] -> a = []) ->
  fragment (emem s) nd c -> newcomer (a ++ d :: b) nd c -> payload (n_buf nd) = Some x -> helper_in (emem s) nd c m' ->
  unlinked (helped_state x m' s) x s' -> wp (nullreturn_ipr (dg_loc d) (n_loc nd)) (refused s (kept a d b) nd c) s'.
Proof.
  intros Hi El Hemp Hfg Hnew Ex [Ob Ep Hp'] (np & -> & Hnp).
  change (set_ipv _ _) with (set_emem m' (set_ipv (set_next_pbufs np (ipv s)) s)). destruct Hfg as [Hp Hr H20 Ho Hh Hlen].
  assert (Hframe : forall l, l ∉ map n_loc (nd :: c) -> pbufs m' !! l = pbufs (emem s) !! l /\ bytes m' !! l = bytes (emem s) !! l).
  { intros l Hl. apply Ob. intros ->. apply Hl. by left. }
  apply (wp_nullreturn_ipr s _ a d b i nd c (qf_chain (as_frag nd c))); [|done|done|exact Hp'| |done|intros g l Hg Hl; by eapply new_feet|].
  - apply inv_elsewhere; [done|by destruct Ob as (_ & -> & _)| |].
    + intros g Hg l Hl. apply Hframe. by eapply new_feet.
    + intros g y Hg Ey. assert (Hne : y <> x) by (eapply (ptr_new _ nd c); try done; by eapply (Forall_forall owned), Hg; destruct Hi).
      rewrite Hnp by done. change (<[x:=None]> (next_pbufs (ipv s)) !! y = next_pbufs (ipv s) !! y). by rewrite lookup_insert_ne.
  - apply Forall_cons in Hr as [? ?]. by apply Forall_cons.
  - exists m', (reassdatagrams (ipv s)), (reass_pool (ipv s)), np, (ip_reass_pbufcount (ipv s)). split; [by destruct s as [? [? []] ? ? ?]|exact Hframe].
Qed.

Lemma has_last d r nd : describes d r -> (frag_last nd || has (rd_flags r) IP_REASS_FLAG_LASTFRAG) = (frag_last nd || has (dg_flags d) IP_REASS_FLAG_LASTFRAG).
Proof. by intros (_ & _ & -> & _). Qed.

(** Whether the fragment is the last one tells the same thing twice. *)
Lemma last_overflow nd c : (20 <= total (nd :: c) < 65536) ->
  (u16 (frag_end nd c) <? frag_start nd) || (0xFFFF - IP_HLEN <? u16 (frag_end nd c)) = (65515 <? frag_end nd c).
Proof.
  intros Ht. assert (R : 0 <= frag_start nd < 65536) by (unfold frag_start, IPH_OFFSET_BYTES; apply u16_range).
  unfold frag_end, IP_HLEN. destruct (Z.ltb_spec (frag_start nd + (total (nd :: c) - 20)) 65536).
  - rewrite u16_small by lia. rewrite (proj2 (Z.ltb_ge _ (frag_start nd))) by lia. done.
  - rewrite (proj2 (Z.ltb_lt (u16 _) _)); [symmetry; apply Z.ltb_lt; lia|]. unfold u16. change (2 ^ 16) with 65536. Z.div_mod_to_equations. lia.
Qed.

Section Add.
Context (odd_at : option ptr -> bool).

(** The fragment is in its place: count it, and finish if nothing is missing. *)
Lemma wp_linked s a d b i r nd c x m' qs s1 : reass_inv s (a ++ d :: b) -> dg_loc d = Pool MEMP_REASSDATA i -> fragment (emem s) nd c ->
  newcomer (a ++ d :: b) nd c -> payload (n_buf nd) = Some x -> helper_in (emem s) nd c m' -> reass_pool (ipv s) !! dg_loc d = Some r -> describes d r ->
  place (as_frag nd c) (dg_frags d) = Some qs -> frag_end nd c <= end_limit nd ->
  (whole (grown d qs nd c) = true -> Z.of_nat (length (payload_of qs)) <= 65515) -> linked (helped_state x m' s) (dg_loc d) r qs s1 ->
  ip_reass_pbufcount (ipv s) + Z.of_nat (length (nd :: c)) < 65536 ->
  wp (mod_ipv (fun v => set_pbufcount (u16 (ip_reass_pbufcount v + Z.of_nat (length (nd :: c)))) v);;
      when (frag_last nd) (set_rd (dg_loc d) (set_rd_last (frag_end nd c)));;
      match verdict ((frag_last nd || has (rd_flags r) IP_REASS_FLAG_LASTFRAG) && complete qs) with
      | IP_REASS_VALIDATE_TELEGRAM_FINISHED => p ← reass_finish odd_at (dg_loc d); mret (Some p)
      | _ => mret None
      end) (fun res s' => if whole (grown d qs nd c) then exists p c', res = Some p /\ packet (emem s') (Some p) c' /\ EtharpReply.releasable c' /\
      contents c' = whole_header (dg_hdr d) (dg_len (grown d qs nd c) + 20) ++ payload_of qs /\ map n_loc c' = pbufs_of qs /\
      reass_inv s' (a ++ b) /\ reass_only (pbufs_of qs) s s'
    else res = None /\ reass_inv s' (a ++ grown d qs nd c :: b) /\ reass_only (map n_loc (nd :: c)) s s') s1.
Proof.
  intros Hi El Hfg Hnew Ex Hm Er Hdr Epl Hend Hsize (p & np & -> & Hq & Hnp) Hcount. pose proof (ri_count _ _ Hi) as Hcnt.
  destruct (grown_frags d qs nd c) as (Gf & Gl & Gh). pose proof Hm as [Ob _ _].
  set (k := ip_reass_pbufcount (ipv s) + Z.of_nat (length (nd :: c))) in *.
  set (pool := <[dg_loc d := (if frag_last nd then set_rd_last (frag_end nd c) else id) (set_rd_p p r)]> (reass_pool (ipv s))).
  set (s3 := set_emem m' (set_ipv (set_pbufcount k (set_next_pbufs np (set_reass_pool pool (ipv s)))) s)).
  assert (Hnp' : forall y, Some y ∉ map qf_ptr qs -> np !! y = next_pbufs (ipv s) !! y).
  { intros y Hy. rewrite Hnp by done. change (<[x := None]> (next_pbufs (ipv s)) !! y = next_pbufs (ipv s) !! y). rewrite lookup_insert_ne; [done|].
    intros <-. apply Hy. rewrite (place_perm _ _ _ Epl). change (payload (n_buf nd)) with (qf_ptr (as_frag nd c)) in Ex. rewrite <- Ex. by left. }
  pose proof (linked_inv s a d b r nd c x m' qs p np k pool Hi Hfg Hnew Ex Hm Er Hdr Epl Hend Hq Hnp' eq_refl eq_refl) as Hi3. fold s3 in Hi3.
  assert (Ho3 : reass_only (map n_loc (nd :: c)) s s3).
  { exists m', (reassdatagrams (ipv s)), pool, np, k. split; [unfold s3; by destruct s as [? [? []] ? ? ?]|].
    intros l Hl. apply Ob. intros ->. apply Hl. by left. }
  assert (Hgo : wp (match verdict ((frag_last nd || has (rd_flags r) IP_REASS_FLAG_LASTFRAG) && complete qs) with
      | IP_REASS_VALIDATE_TELEGRAM_FINISHED => p ← reass_finish odd_at (dg_loc d); mret (Some p)
      | _ => mret None
      end) (fun res s' => if whole (grown d qs nd c) then exists p c', res = Some p /\ packet (emem s') (Some p) c' /\ EtharpReply.releasable c' /\
      contents c' = whole_header (dg_hdr d) (dg_len (grown d qs nd c) + 20) ++ payload_of qs /\ map n_loc c' = pbufs_of qs /\
      reass_inv s' (a ++ b) /\ reass_only (pbufs_of qs) s s'
    else res = None /\ reass_inv s' (a ++ grown d qs nd c :: b) /\ reass_only (map n_loc (nd :: c)) s s') s3).
  { rewrite (has_last d r nd Hdr), <- (grown_last d qs nd c).
    assert (Ew : whole (grown d qs nd c) = has (dg_flags (grown d qs nd c)) IP_REASS_FLAG_LASTFRAG && complete qs) by (unfold whole; by rewrite Gf).
    rewrite <- Ew. destruct (whole (grown d qs nd c)) eqn:Ewh; cbn [verdict]; [|by apply wp_ret].
    apply wp_bind. rewrite <- Gl. eapply wp_mono; [apply (wp_finish odd_at s3 a (grown d qs nd c) b i Hi3); [by rewrite Gl| | |done]|].
    - rewrite Gf. by apply Hsize.
    - rewrite Gf. symmetry in Ew. apply andb_true_iff in Ew as [_ ?]. by intros ->.
    - intros q s' (c' & H1 & H2 & H3 & H4 & H5 & H6). apply wp_ret. rewrite Gf, Gh in *. exists q, c'. split_and!; try done.
      eapply reass_only_trans; [|exact H6]. eapply reass_only_mono; [|exact Ho3]. intros l Hl. apply in_pbufs_of. exists (as_frag nd c).
      split; [|exact Hl]. rewrite (place_perm _ _ _ Epl). by left. }
  apply wp_bind, wp_mod_ipv. change (ip_reass_pbufcount (ipv _)) with (ip_reass_pbufcount (ipv s)).
  assert (Eu : u16 (ip_reass_pbufcount (ipv s) + Z.of_nat (length (nd :: c))) = k) by (apply u16_small; lia).
  match goal with |- context [set_pbufcount (u16 ?x)] => change (u16 x) with (u16 (ip_reass_pbufcount (ipv s) + Z.of_nat (length (nd :: c)))) end.
  rewrite Eu. apply wp_bind. unfold pool in *. clear pool. destruct (frag_last nd) eqn:El2; cbn [when].
  - eapply (wp_set_rd _ (set_rd_p p r)); [apply lookup_insert_eq|]. 
    match goal with |- wp _ _ ?st => replace st with s3; [exact Hgo|] end.
    unfold s3. cbn. by rewrite insert_insert_eq.
  - apply wp_ret. exact Hgo.
Qed.

Lemma wp_reass_add s a d b i nd c : reass_inv s (a ++ d :: b) -> dg_loc d = Pool MEMP_REASSDATA i -> (dg_frags d = [] -> a = []) ->
  fragment (emem s) nd c -> newcomer (a ++ d :: b) nd c ->
  (forall qs, accepts d nd c = Some qs -> whole (grown d qs nd c) = true -> Z.of_nat (length (payload_of qs)) <= 65515) ->
  ip_reass_pbufcount (ipv s) + Z.of_nat (length (nd :: c)) < 65536 ->
  wp (reass_add odd_at (dg_loc d) (n_loc nd) (hdr_offset (n_data nd)) (frag_start nd) (total (nd :: c) - 20) (Z.of_nat (length (nd :: c))))
    (added s a d b nd c) s.
Proof.
  intros Hi El Hemp Hfg Hnew Hbig Hcount. pose proof Hfg as [Hp Hr H20 Ho Hh Hlen].
  pose proof (ri_table _ _ Hi) as Ht. destruct (table_in _ _ _ d _ Ht) as (r & Er & Hdr & Hq); [apply elem_of_app; right; by left|].
  assert (Ex : exists x, payload (n_buf nd) = Some x) by (destruct (payload (n_buf nd)) as [x|]; [by exists x|done]). destruct Ex as (x & Ex).
  pose proof (pk_chain _ _ _ Hp) as (_ & _ & [L _] & _). pose proof (pk_bound _ _ _ Hp) as Hb. pose proof (total_cons nd c) as Et. pose proof (total_nonneg c).
  unfold reass_add. change (frag_start nd + (total (nd :: c) - 20)) with (frag_end nd c). fold (frag_last nd). cbv zeta.
  rewrite last_overflow by lia. unfold added, accepts. unfold end_limit in *. destruct (frag_last nd && (65515 <? frag_end nd c)) eqn:Eo.
  { apply andb_true_iff in Eo as [-> Eo]. rewrite Eo. apply (wp_nullreturn_ipr s s a d b i nd c (nd :: c)); try done.
    - intros g l Hg Hl. by eapply new_feet.
    - apply reass_only_refl. }
  apply wp_bind. pose proof (ri_apart _ _ Hi) as Ha. pose proof (frags_apart _ _ _ Ha) as (Had & _ & _).
  pose proof (ri_own _ _ Hi) as Hown. pose proof Hown as Hown'. rewrite all_frags_middle in Hown'. apply Forall_app in Hown' as [Hod _].
  assert (Hind : forall g, g ∈ dg_frags d -> g ∈ all_frags (a ++ d :: b)) by (intros g Hg; rewrite all_frags_middle; apply elem_of_app; by left).
  eapply wp_mono; [apply (wp_chain_frag s (dg_loc d) r (dg_frags d) nd c x (frag_last nd)); [by split; [| |apply apart_ptrs]|done|done| |]|].
  - intros (g & Eg & Hg)%list_elem_of_fmap. eapply (ptr_new (a ++ d :: b) nd c x x g); try done; [by apply Hind|by eapply (Forall_forall owned), Hg].
  - apply Forall_forall. intros g Hg. apply Hnew; [by apply Hind|]. rewrite as_frag_foot. apply elem_of_app. left. by left.
  - intros v s1 (m' & Hm & Hv). destruct (Z.ltb_spec (if frag_last nd then 65515 else 65535) (frag_end nd c)) as [Hov|Hfit].
    + rewrite (proj2 (Z.ltb_ge _ _)) in Hv by (destruct (frag_last nd); [apply Z.ltb_ge in Eo|]; lia).
      destruct Hv as [-> Hu]. by apply (wp_dropped s a d b i nd c x m').
    + rewrite (proj2 (Z.ltb_lt _ _)) in Hv by (destruct (frag_last nd); lia). destruct (place (as_frag nd c) (dg_frags d)) as [qs|] eqn:Epl.
      * assert (Eac : accepts d nd c = Some qs) by (unfold accepts, end_limit; by rewrite (proj2 (Z.ltb_ge _ _)) by lia).
        destruct Hv as [-> Hl]. pose proof (wp_linked s a d b i r nd c x m' qs s1 Hi El Hfg Hnew Ex Hm Er Hdr Epl Hfit (Hbig qs Eac) Hl Hcount) as HW.
        assert (R : 0 <= frag_start nd) by (unfold frag_start, IPH_OFFSET_BYTES; apply u16_range).
        rewrite (u16_small (frag_end nd c)) by (unfold frag_end in *; destruct (frag_last nd); lia).
        unfold verdict in *. destruct ((frag_last nd || _) && complete qs); [exact HW|exact HW].
      * destruct Hv as [-> Hu]. by apply (wp_dropped s a d b i nd c x m').
Qed.
End Add.
End Step.
