(* ===== verification/ReassRun.v ===== *)
(** Reassembly: [ip4_reass], for a fragment that there is room for. *)
From stdpp Require Import functions.
From S2P Require Import Prelude Memp Pbuf PbufFacts PbufUpdate PbufAlloc PbufChain PbufRam Chksum ChksumFacts Ip4Addr.
From S2P Require Import Ethernet Etharp EtharpTable EtharpInv EtharpSend EtharpReply.
From S2P Require Import Ip IpFacts Icmp IcmpFacts Reass IpInputFacts ReassQueue ReassSpec ReassStep.

(** The header of a fragment. *)
Definition frag_hdr (nd : node) : list Z := take 20 (n_data nd).

(** A header of the first fragment. *)
Definition is_first (hdr : list Z) : bool := Z.land (lwip_ntohs (hdr_offset hdr)) IP_OFFMASK =? 0.

(** The datagram takes the header of its first fragment when it comes. *)
Definition refreshed (hdr : list Z) (d : dgram) : dgram :=
  if is_first hdr && negb (is_first (dg_hdr d)) then Dgram (dg_loc d) hdr (dg_len d) (dg_flags d) (dg_timer d) (dg_frags d) else d.

(** A datagram without fragments. *)
Definition fresh (l : loc) (hdr : list Z) : dgram := Dgram l hdr 0 0 IP_REASS_MAXAGE [].

Lemma refreshed_same hdr d : dg_loc (refreshed hdr d) = dg_loc d /\ dg_frags (refreshed hdr d) = dg_frags d /\
  dg_len (refreshed hdr d) = dg_len d /\ dg_flags (refreshed hdr d) = dg_flags d.
Proof. unfold refreshed. by destruct (_ && _). Qed.

(** The first datagram that the header [hdr] belongs to, with those before and
    behind it. *)
Fixpoint datagram_of (hdr : list Z) (ds : list dgram) : option (list dgram * dgram * list dgram) :=
  match ds with
  | [] => None
  | d :: ds => if belongs hdr d then Some ([], d, ds) else (fun '(a, e, b) => (d :: a, e, b)) <$> datagram_of hdr ds
  end.

(** The datagram that takes the fragment: the one it belongs to, or a new one in
    the element [l] of the pool. *)
Definition target (hdr : list Z) (l : loc) (ds : list dgram) : list dgram * dgram * list dgram :=
  match datagram_of hdr ds with
  | Some (a, d, b) => (a, refreshed hdr d, b)
  | None => ([], fresh l hdr, ds)
  end.

Lemma datagram_found hdr a d b : Forall (fun e => belongs hdr e = false) a -> belongs hdr d = true -> datagram_of hdr (a ++ d :: b) = Some (a, d, b).
Proof. induction a as [|e a IH]; cbn [app datagram_of]; [by intros _ ->|]. intros [He Ha]%Forall_cons Hd. by rewrite He, IH. Qed.

Lemma datagram_none hdr ds : Forall (fun e => belongs hdr e = false) ds -> datagram_of hdr ds = None.
Proof. induction ds as [|d ds IH]; [done|]. intros [Hd Hds]%Forall_cons. cbn [datagram_of]. by rewrite Hd, IH. Qed.

Section Run.
Context `{WL : WireLaws} `{HL : !HeapLaws} `{CF : !CustomFree} `{BU : !Build}.
Context (odd_at : option ptr -> bool) (ip4_frag : loc -> nat -> Z -> M eth Z).

(** The table is in order and every datagram in it has a fragment. *)
Record reass_ok (s : eth) (ds : list dgram) : Prop := {
  rk_inv : reass_inv s ds;
  rk_some : Forall (fun d => dg_frags d <> []) ds
}.

Lemma fragment_untouched m m' nd c : untouched (foot (nd :: c)) m m' -> fragment m nd c -> fragment m' nd c.
Proof. intros Hu [Hp H1 H2 H3 H4 H5]. split; try done. by eapply packet_untouched. Qed.

Lemma fragment_same m m' nd c : pbufs m' = pbufs m -> bytes m' = bytes m -> fragment m nd c -> fragment m' nd c.
Proof. intros E1 E2. apply fragment_untouched. intros l _. by rewrite E1, E2. Qed.

Lemma added_trans s0 s a d b nd c r s' : reass_only [] s0 s -> added s a d b nd c r s' -> added s0 a d b nd c r s'.
Proof.
  intros Hs0. assert (Hm : forall L, reass_only L s s' -> reass_only L s0 s').
  { intros L HLL. eapply reass_only_trans; [|exact HLL]. eapply reass_only_mono; [|exact Hs0]. by intros l ?%elem_of_nil. }
  unfold added, refused. destruct (accepts d nd c) as [qs|].
  - destruct (whole _).
    + intros (p & c' & H1 & H2 & H3 & H4 & H5 & H6 & H7). exists p, c'. split_and!; auto.
    + intros (H1 & H2 & H3). split_and!; auto.
  - intros (H1 & H2 & H3 & H4). split_and!; auto.
Qed.

(** ** An element for a new datagram *)

Lemma inv_new s ds i rest hdr : reass_inv s ds -> mpools (emem s) MEMP_REASSDATA = i :: rest -> plain_header hdr ->
  let l := Pool MEMP_REASSDATA i in
  reass_inv (set_emem (set_mpools (<[MEMP_REASSDATA := rest]> (mpools (emem s))) (emem s))
    (set_ipv (set_reassdatagrams (Some l) (set_reass_pool (<[l := ReassData (reassdatagrams (ipv s)) None hdr 0 0 IP_REASS_MAXAGE]> (reass_pool (ipv s))) (ipv s))) s))
    (fresh l hdr :: ds).
Proof.
  intros [Ht Hn Ha Ho He Hh Hel [Hfn Hff] Hcnt] Em Hp l. rewrite Em in *.
  assert (Hl : l ∉ map dg_loc ds) by (apply Hff; by left). assert (Eall : all_frags (fresh l hdr :: ds) = all_frags ds) by done.
  split; rewrite ?Eall; try done.
  - split; [done|]. eexists. split; [apply lookup_insert_eq|]. split; [done|]. split; [done|].
    eapply table_mono; [| |exact Ht].
    + intros d Hd. cbn. rewrite lookup_insert_ne; [done|]. intros ->. by apply Hl, loc_in.
    + intros d r _. by apply qseg_same.
  - cbn [map]. by apply NoDup_cons.
  - apply Forall_cons. split; [|done]. split; [done|]. cbn. lia.
  - apply Forall_cons. split; [by exists i|done].
  - cbn [emem set_emem mpools set_mpools]. rewrite fn_lookup_insert. apply NoDup_cons in Hfn as [Hi Hfn]. split; [done|].
    intros j Hj Hin. cbn [map] in Hin. apply elem_of_cons in Hin as [[= ->]|Hin]; [done|]. apply (Hff j); [by right|done].
Qed.

(** The datagram has the header of its first fragment. *)
Lemma inv_refresh s a d b r hdr : reass_inv s (a ++ d :: b) -> plain_header hdr -> reass_pool (ipv s) !! dg_loc d = Some r -> describes d r ->
  reass_inv (set_ipv (set_reass_pool (<[dg_loc d := set_rd_iphdr hdr r]> (reass_pool (ipv s))) (ipv s)) s)
    (a ++ Dgram (dg_loc d) hdr (dg_len d) (dg_flags d) (dg_timer d) (dg_frags d) :: b).
Proof.
  intros [Ht Hn Ha Ho He Hh Hel [Hfn Hff] Hcnt] Hp Er Hdr. set (d' := Dgram _ _ _ _ _ _).
  assert (Eall : all_frags (a ++ d' :: b) = all_frags (a ++ d :: b)) by (unfold all_frags; by rewrite !map_app, !concat_app).
  assert (Eloc : map dg_loc (a ++ d' :: b) = map dg_loc (a ++ d :: b)) by (by rewrite !map_app).
  assert (Hin : d ∈ a ++ d :: b) by (apply elem_of_app; right; by left).
  destruct (table_in _ _ _ d _ Ht Hin) as (r0 & Er0 & _ & Hq). rewrite Er in Er0. injection Er0 as <-.
  split; rewrite ?Eall, ?Eloc; try done.
  - apply (table_update (in_queue (emem s) (next_pbufs (ipv s))) _ _ a d b d' r); try done. destruct Hdr as (E1 & E2 & E3 & E4). by split_and!.
  - rewrite <- Permutation_middle in Hh |- *. apply Forall_cons in Hh as [[_ Hd] Hh]. apply Forall_cons. by split.
  - rewrite <- Permutation_middle in Hel |- *. apply Forall_cons in Hel as [Hd Hel]. by apply Forall_cons.
Qed.

(** ** ip4_reass *)

(** There is an element of the pool for the fragment's datagram: the datagram's
    own, or the next free one, [l]. *)
Definition has_element (s : eth) (ds : list dgram) (hdr : list Z) (l : loc) : Prop :=
  match mpools (emem s) MEMP_REASSDATA with
  | i :: _ => l = Pool MEMP_REASSDATA i
  | [] => datagram_of hdr ds <> None
  end.

(** The fragment [nd :: c] does not complete more data than a datagram can have.
    It always is so when none of the datagram's fragments reaches behind 65515.
    What the code accepts beyond that, and these lemmas leave out, is one case:
    a fragment without MF has come, and behind it are others, which reach up to
    65535, so that the joined packet would be longer than 65535 bytes. *)
Definition completes_within (d : dgram) (nd : node) (c : list node) : Prop := forall qs,
  accepts d nd c = Some qs -> whole (grown d qs nd c) = true -> Z.of_nat (length (payload_of qs)) <= 65515.

(** The bytes of a contiguous queue from 0 on end with its last fragment. *)
Lemma contig_length qs : forall f, contig (f :: qs) = true -> Forall (fun f => qf_end f <= 65515) (f :: qs) ->
  qf_start f + Z.of_nat (length (payload_of (f :: qs))) <= 65515.
Proof.
  induction qs as [|g qs IH]; intros f Hc [Hf He]%Forall_cons; rewrite payload_of_cons, length_app.
  - unfold qf_end in Hf. unfold payload_of. simpl length. lia.
  - cbn [contig] in Hc. apply andb_true_iff in Hc as [E%Z.eqb_eq Hc]. specialize (IH g Hc He). unfold qf_end in E. lia.
Qed.

Lemma completes_short d nd c : (20 <= length (n_data nd))%nat -> frag_end nd c <= 65515 -> Forall (fun f => qf_end f <= 65515) (dg_frags d) ->
  completes_within d nd c.
Proof.
  intros L He Hd qs Ha Hw. unfold accepts in Ha. destruct (_ <? _); [done|]. unfold whole in Hw. destruct (grown_frags d qs nd c) as (Gf & _).
  rewrite Gf in Hw. apply andb_true_iff in Hw as [_ Hc]. destruct (as_frag_facts nd c L) as (_ & Ee & _).
  assert (Hall : Forall (fun f => qf_end f <= 65515) qs) by (rewrite (place_perm _ _ _ Ha); apply Forall_cons; split; [by rewrite Ee|done]).
  destruct qs as [|f qs]; [done|]. cbn [complete] in Hc. apply andb_true_iff in Hc as [E%Z.eqb_eq Hc]. pose proof (contig_length qs f Hc Hall). lia.
Qed.

(** A fragment that [ip4_reass] has room for. *)
Record welcome (s : eth) (ds : list dgram) (nd : node) (c : list node) (l : loc) : Prop := {
  wc_fragment : fragment (emem s) nd c;
  wc_new : newcomer ds nd c;
  wc_header : plain_header (frag_hdr nd);
  wc_room : ip_reass_pbufcount (ipv s) + Z.of_nat (length (nd :: c)) <= IP_REASS_MAX_PBUFS;
  wc_element : has_element s ds (frag_hdr nd) l;
  wc_size : completes_within (target (frag_hdr nd) l ds).1.2 nd c
}.

Lemma wp_enqueue s ds nd l (Q : option loc -> eth -> Prop) clen : reass_inv s ds -> plain_header (frag_hdr nd) -> has_element s ds (frag_hdr nd) l ->
  datagram_of (frag_hdr nd) ds = None ->
  (forall s1, reass_inv s1 (fresh l (frag_hdr nd) :: ds) -> pbufs (emem s1) = pbufs (emem s) -> bytes (emem s1) = bytes (emem s) ->
     ip_reass_pbufcount (ipv s1) = ip_reass_pbufcount (ipv s) -> reass_only [] s s1 -> Q (Some l) s1) ->
  wp (ip_reass_enqueue_new_datagram odd_at ip4_frag (frag_hdr nd) clen) Q s.
Proof.
  intros Hi Hp He Hno HQ. unfold ip_reass_enqueue_new_datagram. unfold has_element in He.
  apply wp_bind, wp_on_pbuf, wp_memp_malloc_at.
  { intros Em. by rewrite Em in He. }
  intros i rest Em. rewrite Em in He. subst l. apply wp_bind, wp_ret, wp_bind, wp_ip_var, wp_bind, wp_mod_ipv, wp_bind, wp_mod_ipv, wp_ret.
  assert (Et : take (Z.to_nat IP_HLEN) (frag_hdr nd) = frag_hdr nd) by (unfold frag_hdr; by rewrite take_take). rewrite Et.
  pose proof (inv_new s ds i rest (frag_hdr nd) Hi Em Hp) as Hi1. apply HQ; [exact Hi1|done|done|done|].
  eexists _, (Some (Pool MEMP_REASSDATA i)), _, (next_pbufs (ipv s)), (ip_reass_pbufcount (ipv s)). by split.
Qed.

Lemma wp_ip4_reass s ds nd c l : reass_ok s ds -> welcome s ds nd c l ->
  wp (ip4_reass odd_at ip4_frag (n_loc nd)) (fun r s' => let '(a, d, b) := target (frag_hdr nd) l ds in added s a d b nd c r s') s.
Proof.
  intros [Hi Hsome] [Hfg Hnew Hph Hroom Hel Hsize]. pose proof Hfg as [Hp Hr H20 Ho Hh Hlen]. unfold IP_REASS_MAX_PBUFS in Hroom.
  pose proof (pk_chain _ _ _ Hp) as (_ & Hl & Hhd & _). pose proof Hhd as [L _]. pose proof (pk_bound _ _ _ Hp) as Hb.
  pose proof (total_nonneg c). pose proof (total_cons nd c) as Et. pose proof (ri_count _ _ Hi) as Hcnt.
  unfold ip4_reass, iprh_of. apply wp_bind, wp_bind, wp_on_pbuf, (wp_getp _ (n_buf nd)); [done|].
  replace (set_emem (emem s) s) with s by (by destruct s). apply wp_ret. apply wp_bind, (wp_load8_at _ (n_data nd)); [done|lia|lia|].
  change (IPH_HL_BYTES (nth (Z.to_nat 0) (n_data nd) 0)) with (hdr_hlen (n_data nd)). rewrite Hh. change (negb (20 =? IP_HLEN)) with false. cbv iota.
  apply wp_bind, (wp_load16_at _ (n_data nd)); [done|lia|lia|]. change (load_word16 (hdr_field (Z.to_nat 6) 2 (n_data nd))) with (hdr_offset (n_data nd)).
  apply wp_bind, (wp_load16_at _ (n_data nd)); [done|lia|lia|].
  change (lwip_ntohs (load_word16 (hdr_field (Z.to_nat 2) 2 (n_data nd)))) with (hdr_len (n_data nd)). rewrite Hlen.
  rewrite (proj2 (Z.ltb_ge _ _)) by lia. rewrite (u16_small (total (nd :: c) - 20)) by lia. cbv zeta.
  apply wp_bind, wp_on_pbuf, (wp_pbuf_clen _ _ (nd :: c)); [apply Hp|apply Hp|lia|]. replace (set_emem (emem s) s) with s by (by destruct s).
  unfold IP_HLEN. apply wp_bind, (wp_read_field _ (n_data nd)); [done|lia|lia|lia|]. change (take (Z.to_nat 20) (drop (Z.to_nat 0) (n_data nd))) with (frag_hdr nd).
  apply wp_bind, wp_ip_var. unfold IP_REASS_MAX_PBUFS at 1. rewrite (proj2 (Z.ltb_ge _ _)) by lia. apply wp_bind, wp_ret. cbv iota.
  apply wp_bind, wp_ip_var, wp_bind. unfold reass_fuel. apply wp_ip_var, wp_bind.
  pose proof (ri_table _ _ Hi) as Ht. pose proof (table_size _ _ _ _ Ht (ri_locs _ _ Hi)) as Hsz.
  assert (Hc16 : ip_reass_pbufcount (ipv s) + Z.of_nat (length (nd :: c)) < 65536) by lia.
  eapply wp_mono; [apply (wp_find_datagram _ (frag_hdr nd) s ds _ _ Ht); lia|]. intros [ipr|] s0 [-> Hfind].
  - destruct Hfind as (a & d & b & -> & -> & Hb1 & Ha). unfold target in *. rewrite (datagram_found _ a d b Ha Hb1) in Hsize |- *. cbn [fst snd] in Hsize.
    destruct (table_in _ _ _ d _ Ht) as (r & Er & Hdr & _); [apply elem_of_app; right; by left|]. apply wp_bind, (wp_get_rd _ r); [done|].
    assert (Hel' : Forall (fun e => exists i, dg_loc e = Pool MEMP_REASSDATA i) (a ++ d :: b)) by apply Hi.
    apply Forall_app in Hel' as [_ [[i El] _]%Forall_cons]. apply Forall_app in Hsome as [_ [Hne _]%Forall_cons].
    fold (is_first (frag_hdr nd)). pose proof Hdr as (Ehdr & _). rewrite Ehdr. fold (is_first (dg_hdr d)). apply wp_bind.
    unfold refreshed in *. destruct (is_first (frag_hdr nd) && negb (is_first (dg_hdr d))); cbn [when].
    + eapply (wp_set_rd _ r); [done|]. set (d' := Dgram (dg_loc d) (frag_hdr nd) (dg_len d) (dg_flags d) (dg_timer d) (dg_frags d)).
      eapply wp_mono; [apply (wp_reass_add odd_at _ a d' b i nd c); [by apply inv_refresh|done|done|done| |done|done]|].
      * intros g. rewrite all_frags_middle. change (dg_frags d') with (dg_frags d). rewrite <- all_frags_middle. apply Hnew.
      * intros r' s' Hadd. eapply added_trans; [|exact Hadd]. exists (emem s), (reassdatagrams (ipv s)), (<[dg_loc d := set_rd_iphdr (frag_hdr nd) r]> (reass_pool (ipv s))), (next_pbufs (ipv s)), (ip_reass_pbufcount (ipv s)).
        split; [|done]. by destruct s as [? [? []] ? ? ?].
    + apply wp_ret. by apply (wp_reass_add odd_at s a d b i nd c).
  - unfold target in *. pose proof (datagram_none _ _ Hfind) as Hno. rewrite Hno in Hsize |- *. cbn [fst snd] in Hsize. apply wp_bind. apply (wp_enqueue s ds nd l); [done|done|done|done|].
    intros s1 Hi1 Ep Eb Ek Ho1.
    assert (Hil : exists i, l = Pool MEMP_REASSDATA i).
    { unfold has_element in Hel. destruct (mpools (emem s) MEMP_REASSDATA) as [|i rest]; [by rewrite Hno in Hel|by exists i]. }
    destruct Hil as [i El]. eapply wp_mono; [apply (wp_reass_add odd_at s1 [] (fresh l (frag_hdr nd)) ds i nd c); try done|].
    + by apply (fragment_same (emem s)).
    + by rewrite Ek.
    + intros r' s' Hadd. by eapply added_trans.
Qed.

(** The table behind the fragment. *)
Definition after (a : list dgram) (d : dgram) (b : list dgram) (nd : node) (c : list node) : list dgram :=
  match accepts d nd c with
  | None => kept a d b
  | Some qs => if whole (grown d qs nd c) then a ++ b else a ++ grown d qs nd c :: b
  end.

Lemma added_inv s a d b nd c r s' : added s a d b nd c r s' -> reass_inv s' (after a d b nd c).
Proof.
  unfold added, after. destruct (accepts d nd c) as [qs|]; [|by intros (_ & ? & _)].
  destruct (whole _); [by intros (p & c' & _ & _ & _ & _ & _ & ? & _)|by intros (_ & ? & _)].
Qed.

Lemma target_some ds hdr l : Forall (fun d => dg_frags d <> []) ds -> let '(a, d, b) := target hdr l ds in Forall (fun d => dg_frags d <> []) (a ++ b).
Proof.
  intros Hs. unfold target. destruct (datagram_of hdr ds) as [[[a d] b]|] eqn:E; [|done].
  revert a d b E. induction ds as [|e ds IH]; intros a d b; [done|]. apply Forall_cons in Hs as [He Hs]. cbn [datagram_of].
  destruct (belongs hdr e); [by intros [= <- <- <-]|]. destruct (datagram_of hdr ds) as [[[a' d'] b']|]; [|done].
  intros [= <- <- <-]. cbn [app]. apply Forall_cons. split; [done|]. by apply (IH Hs a' d' b').
Qed.

Lemma after_some a d b nd c : Forall (fun d => dg_frags d <> []) (a ++ b) -> Forall (fun d => dg_frags d <> []) (after a d b nd c).
Proof.
  intros Hs. pose proof Hs as Hs'. apply Forall_app in Hs' as [Ha Hb]. assert (Hadd : forall e, dg_frags e <> [] -> Forall (fun d => dg_frags d <> []) (a ++ e :: b)).
  { intros e He. apply Forall_app. split; [done|]. by apply Forall_cons. }
  unfold after, accepts. destruct (end_limit nd <? _).
  - unfold kept. destruct (dg_frags d) eqn:E; [done|]. apply Hadd. by rewrite E.
  - destruct (place _ _) as [qs|] eqn:Epl.
    + destruct (whole _); [done|]. apply Hadd. destruct (grown_frags d qs nd c) as (-> & _). intros ->.
      by apply place_perm, Permutation_nil_cons in Epl.
    + unfold kept. destruct (dg_frags d) eqn:E; [done|]. apply Hadd. by rewrite E.
Qed.

(** C19. [ip4_reass] refines the abstract reassembler. For every fragment there
    is room for it returns. The fragment's datagram is the first in the table
    with its addresses and identification, or a new one. The fragment is
    refused exactly if it is the last one and ends behind 65515, or any other
    and ends behind 65535, or if it overlaps one that is there: NULL, the packet
    released, the datagrams as they were. Else it
    is put in its place, and the datagram is finished exactly if the last
    fragment is known and there is no gap from 0 on: then the result is one
    packet with the first fragment's header, made that of a whole datagram
    with a right checksum, and the data of all fragments in order, and the
    datagram has left the table. Otherwise NULL, the fragment queued. The table
    stays well formed, and only the memory of these packets and reassembly's
    own variables change. Left out is a fragment that would complete a packet
    of more than 65535 bytes, which takes data behind a fragment without MF. *)
Theorem ip4_reass_refines s ds nd c l : reass_ok s ds -> welcome s ds nd c l ->
  let '(a, d, b) := target (frag_hdr nd) l ds in
  exists r s', ip4_reass odd_at ip4_frag (n_loc nd) s = Ret r s' /\ added s a d b nd c r s' /\ reass_ok s' (after a d b nd c).
Proof.
  intros Hok Hw. pose proof (wp_ip4_reass s ds nd c l Hok Hw) as W. pose proof (target_some ds (frag_hdr nd) l (rk_some _ _ Hok)) as Hs.
  destruct (target (frag_hdr nd) l ds) as [[a d] b]. destruct (wp_elim _ _ _ W) as (r & s' & E & Hadd). exists r, s'. split_and!; [done|done|].
  split; [by eapply added_inv|by apply after_some].
Qed.
End Run.
