(* ===== verification/ReassDatagram.v ===== *)
(** Reassembly: a datagram whose fragments come in any order. *)
From stdpp Require Import functions.
From S2P Require Import Prelude Memp Pbuf PbufFacts PbufUpdate PbufAlloc PbufChain PbufRam Chksum ChksumFacts Ip4Addr Ethernet.
From S2P Require Import Etharp EtharpTable EtharpInv EtharpSend EtharpReply Ip Icmp Reass IpFacts IcmpFacts IpInputFacts ReassQueue.
From S2P Require Import ReassQueue ReassSpec ReassStep ReassRun.

(** ** The fragments of one datagram *)

Lemma payload_of_app a b : payload_of (a ++ b) = payload_of a ++ payload_of b.
Proof. unfold payload_of. by rewrite map_app, concat_app. Qed.

Lemma contig_tail f qs : contig (f :: qs) = true -> contig qs = true.
Proof. destruct qs as [|g qs]; [done|]. cbn [contig]. by intros [_ ?]%andb_true_iff. Qed.

(** In a queue without gaps a fragment ends before those behind it begin. *)
Lemma contig_before f qs g : contig (f :: qs) = true -> g ∈ qs -> qf_end f <= qf_start g.
Proof.
  revert f. induction qs as [|h qs IH]; intros f Hc Hg; [by apply elem_of_nil in Hg|]. pose proof Hc as Hc'. cbn [contig] in Hc. apply andb_true_iff in Hc as [E%Z.eqb_eq Hc].
  apply elem_of_cons in Hg as [->|Hg]; [lia|]. specialize (IH h Hc Hg). unfold qf_end in *. lia.
Qed.

(** The data up to the last fragment. *)
Lemma contig_end qs f g : contig ((f :: qs) ++ [g]) = true -> qf_start f + Z.of_nat (length (payload_of ((f :: qs) ++ [g]))) = qf_end g.
Proof.
  revert f. induction qs as [|h qs IH]; intros f; cbn [app contig].
  - intros [E%Z.eqb_eq _]%andb_true_iff. rewrite !payload_of_cons, !length_app. unfold payload_of, qf_end in *. simpl length. lia.
  - intros [E%Z.eqb_eq Hc]%andb_true_iff. specialize (IH h Hc). rewrite payload_of_cons, length_app. cbn [app] in IH. unfold qf_end in E. lia.
Qed.

Lemma complete_end qs g : complete (qs ++ [g]) = true -> Z.of_nat (length (payload_of (qs ++ [g]))) = qf_end g.
Proof.
  destruct qs as [|f qs]; cbn [app complete].
  - intros [E%Z.eqb_eq _]%andb_true_iff. unfold payload_of, qf_end. cbn [map concat]. rewrite app_nil_r. lia.
  - intros [E%Z.eqb_eq Hc]%andb_true_iff. pose proof (contig_end qs f g Hc) as He. cbn [app] in He. lia.
Qed.

Section Order.
Context (full : list qfrag).
Context (full_complete : complete full = true).
Context (full_data : Forall (fun f => qf_data f <> []) full).
Context (full_locs : NoDup (map qf_loc full)).

(** The fragments that have come, in their order. *)
Definition came (L : list loc) : list qfrag := filter (fun f => qf_loc f ∈ L) full.

Lemma full_passed a f b : full = a ++ f :: b -> Forall (passed f) a /\ Forall (fun g => qf_start f < qf_start g /\ qf_end f <= qf_start g) b.
Proof.
  intros E. assert (Hc : contig full = true).
  { destruct full; [done|]. cbn [complete] in full_complete. by apply andb_true_iff in full_complete as [_ ?]. }
  assert (Hlen : forall g, g ∈ full -> qf_start g < qf_end g).
  { intros g Hg. rewrite Forall_forall in full_data. specialize (full_data g Hg). unfold qf_end. destruct (qf_data g); [done|]. simpl length. lia. }
  assert (Hsuf : forall p q, full = p ++ q -> contig q = true).
  { intros p q Epq. rewrite Epq in Hc. clear -Hc. induction p as [|h p IH]; [done|]. apply IH. by eapply contig_tail. }
  split.
  - apply Forall_forall. intros g Hg. apply list_elem_of_split in Hg as (a1 & a2 & ->).
    assert (Hin : g ∈ full) by (rewrite E; apply elem_of_app; left; apply elem_of_app; right; by left).
    pose proof (Hsuf a1 (g :: a2 ++ f :: b)) as Hg. rewrite E, <- app_assoc in Hg. specialize (Hg eq_refl).
    pose proof (contig_before g (a2 ++ f :: b) f Hg) as Hb. specialize (Hlen g Hin). unfold passed.
    assert (qf_end g <= qf_start f) by (apply Hb, elem_of_app; right; by left). lia.
  - apply Forall_forall. intros g Hg. assert (Hin : f ∈ full) by (rewrite E; apply elem_of_app; right; by left).
    pose proof (contig_before f b g (Hsuf a (f :: b) E) Hg). specialize (Hlen f Hin). lia.
Qed.

Lemma came_in L f : f ∈ came L <-> qf_loc f ∈ L /\ f ∈ full.
Proof. unfold came. by rewrite list_elem_of_filter. Qed.

Lemma came_nil : came [] = [].
Proof. unfold came. clear. induction full as [|f l IH]; [done|]. by rewrite filter_cons, decide_False by apply not_elem_of_nil. Qed.

(** A fragment goes between those that come before and those that come
    behind it. *)
Lemma came_place L f : f ∈ full -> qf_loc f ∉ L -> place f (came L) = Some (came (qf_loc f :: L)).
Proof.
  intros Hf Hl. apply list_elem_of_split in Hf as (a & b & E). destruct (full_passed a f b E) as [Ha Hb].
  assert (Hn : qf_loc f ∉ map qf_loc a /\ qf_loc f ∉ map qf_loc b).
  { rewrite E, map_app in full_locs. cbn [map] in full_locs. apply NoDup_app in full_locs as (_ & Hd & [Hb' _]%NoDup_cons). split; [|done].
    intros Hin. apply (Hd _ Hin). by left. }
  destruct Hn as [Hna Hnb].
  assert (Hext : forall l, qf_loc f ∉ map qf_loc l -> filter (fun g => qf_loc g ∈ qf_loc f :: L) l = filter (fun g => qf_loc g ∈ L) l).
  { induction l as [|g l IH]; [done|]. cbn [map]. rewrite not_elem_of_cons. intros [Hne Hnl]. rewrite !filter_cons, (IH Hnl).
    destruct (decide (qf_loc g ∈ L)) as [Hg|Hg].
    - by rewrite decide_True by (by right).
    - rewrite decide_False; [done|]. rewrite elem_of_cons. intros [Eg|?]; [by apply Hne|done]. }
  unfold came. rewrite E, !filter_app, !filter_cons. rewrite (decide_False (P := qf_loc f ∈ L)) by done.
  rewrite (decide_True (P := qf_loc f ∈ qf_loc f :: L)) by (by left). rewrite (Hext a), (Hext b) by done.
  rewrite place_app.
  - destruct (filter _ b) as [|g b'] eqn:Eb; [done|]. cbn [place].
    assert (Hg : g ∈ b) by (apply (list_elem_of_filter (fun g => qf_loc g ∈ L)); rewrite Eb; by left).
    rewrite Forall_forall in Hb. destruct (Hb g Hg) as [H1 H2]. rewrite (proj2 (Z.ltb_lt _ _)), (proj2 (Z.ltb_ge _ _)) by lia. done.
  - apply Forall_forall. intros g [_ Hg]%list_elem_of_filter. rewrite Forall_forall in Ha. by apply Ha.
Qed.

Lemma filter_payload (P : qfrag -> Prop) `{!forall f, Decision (P f)} l : Forall (fun f => qf_data f <> []) l ->
  (length (payload_of (filter P l)) <= length (payload_of l))%nat /\ (length (payload_of (filter P l)) = length (payload_of l) -> filter P l = l).
Proof.
  induction l as [|f l IH]; [done|]. intros [Hf Hl]%Forall_cons. destruct (IH Hl) as [IH1 IH2]. rewrite filter_cons.
  assert (length (qf_data f) <> 0%nat) by (by destruct (qf_data f)).
  destruct (decide (P f)); rewrite !payload_of_cons, !length_app; (split; [lia|]); intros E; [|lia]. rewrite IH2; [done|lia].
Qed.

(** With the last fragment and no gap, all have come. *)
Lemma came_complete L i g : full = i ++ [g] -> qf_loc g ∈ L -> complete (came L) = true -> came L = full.
Proof.
  intros E Hg Hc. apply filter_payload; [done|]. assert (Ec : came L = filter (fun f => qf_loc f ∈ L) i ++ [g]).
  { unfold came. rewrite E, filter_app. f_equal. rewrite filter_cons, decide_True by done. done. }
  pose proof full_complete as Hf. fold (came L). rewrite Ec in Hc |- *. apply complete_end in Hc.
  rewrite E in Hf |- *. apply complete_end in Hf. lia.
Qed.

Lemma came_all L : (forall f, f ∈ full -> qf_loc f ∈ L) -> came L = full.
Proof.
  intros Hall. unfold came. clear -Hall. induction full as [|f l IH]; [done|]. rewrite filter_cons, decide_True by (apply Hall; by left).
  rewrite IH; [done|]. intros g Hg. apply Hall. by right.
Qed.
End Order.

(** A fragment in its packet: the head and the rest of the chain. *)
Notation piece := (node * list node)%type.

Definition piece_nodes (f : piece) : list node := f.1 :: f.2.
Definition piece_loc (f : piece) : loc := n_loc f.1.
Definition piece_frag (f : piece) : qfrag := as_frag f.1 f.2.

(** The data of a datagram. *)
Definition datagram_data (fs : list piece) : list Z := concat (map (fun f => drop 20 (contents (piece_nodes f))) fs).

(** [first :: more] are the fragments of one datagram in their order. *)
Record datagram (first : piece) (more : list piece) : Prop := {
  dt_complete : complete (map piece_frag (first :: more)) = true;
  dt_data : Forall (fun f => 20 < total (piece_nodes f)) (first :: more);
  dt_last : exists i g, first :: more = i ++ [g] /\ Forall (fun f => frag_last f.1 = false) i /\ frag_last g.1 = true;
  dt_header : Forall (fun f => plain_header (frag_hdr f.1)) (first :: more);
  dt_same : forall f g, f ∈ first :: more -> g ∈ first :: more -> IP_ADDRESSES_AND_ID_MATCH (frag_hdr f.1) (frag_hdr g.1) = true;
  dt_size : Forall (fun f => frag_end f.1 f.2 <= 65515) (first :: more);
  dt_apart : apart (map piece_frag (first :: more));
  dt_pbufs : Z.of_nat (length (concat (map piece_nodes (first :: more)))) <= IP_REASS_MAX_PBUFS
}.

Section Datagram.
Context `{WL : WireLaws} `{HL : !HeapLaws} `{CF : !CustomFree} `{BU : !Build}.
Context (odd_at : option ptr -> bool) (ip4_frag : loc -> nat -> Z -> M eth Z).

(** [ip4_reass] for one packet after the other. *)
Fixpoint reass_each (ps : list loc) : M eth (list (option loc)) :=
  match ps with
  | [] => mret []
  | p :: ps => r ← ip4_reass odd_at ip4_frag p; rs ← reass_each ps; mret (r :: rs)
  end.

Section Pieces.
Context (first : piece) (more : list piece) (Hdt : datagram first more).
Local Notation all := (first :: more).
Local Notation full := (map piece_frag all).

Lemma piece_in f : f ∈ all -> piece_frag f ∈ full.
Proof. intros Hf. apply list_elem_of_fmap. by exists f. Qed.

Lemma full_in g : g ∈ full -> exists f, f ∈ all /\ g = piece_frag f.
Proof. intros (f & -> & Hf)%list_elem_of_fmap. by exists f. Qed.

Lemma apart_locs fs : apart fs -> NoDup (map qf_loc fs).
Proof.
  induction fs as [|f fs IH]; [constructor|]. intros [Hf Hfs]. cbn [map]. apply NoDup_cons. split; [|by apply IH].
  intros (g & E & Hg)%list_elem_of_fmap. rewrite Forall_forall in Hf. apply (Hf g Hg (qf_loc f)); [by apply in_foot; left|].
  rewrite E. apply in_foot. by left.
Qed.

Lemma pieces_locs : NoDup (map qf_loc full).
Proof. apply apart_locs, Hdt. Qed.

Lemma pieces_same f g : f ∈ all -> g ∈ all -> piece_loc f = piece_loc g -> f = g.
Proof.
  pose proof pieces_locs as Hn. rewrite map_map in Hn. change (map _ all) with (map piece_loc all) in Hn. revert Hn. generalize all. intros l.
  induction l as [|h l IH]; [by intros _ ?%elem_of_nil|]. cbn [map]. intros [Hh Hn]%NoDup_cons Hf Hg E.
  apply elem_of_cons in Hf as [->|Hf]; apply elem_of_cons in Hg as [->|Hg]; [done| | |by apply IH].
  - destruct Hh. rewrite E. apply list_elem_of_fmap. by exists g.
  - destruct Hh. rewrite <- E. apply list_elem_of_fmap. by exists f.
Qed.

(** The fragment that begins at 0 is the first one. *)
Lemma first_start : frag_start first.1 = 0.
Proof. pose proof (dt_complete _ _ Hdt) as Hc. cbn [map complete] in Hc. by apply andb_true_iff in Hc as [?%Z.eqb_eq _]. Qed.

Lemma piece_header f : f ∈ all -> plain_header (frag_hdr f.1) /\ (20 <= length (n_data f.1))%nat.
Proof.
  intros Hf. pose proof (dt_header _ _ Hdt) as Hh. rewrite Forall_forall in Hh. specialize (Hh f Hf). split; [done|].
  destruct Hh as (tos & len_ & id & off & ttl & proto & ck & src & dst & Lk & _ & _ & _ & _ & _ & _ & E). apply (f_equal length) in E.
  rewrite header_fields_length in E by done. unfold frag_hdr in E. rewrite length_take in E. lia.
Qed.

Lemma piece_data f : f ∈ all -> qf_data (piece_frag f) = drop 20 (contents (piece_nodes f)) /\ qf_end (piece_frag f) = frag_end f.1 f.2.
Proof. intros Hf. destruct (as_frag_facts f.1 f.2) as (E1 & E2 & _); [by apply piece_header|]. by split. Qed.

Lemma pieces_data : Forall (fun g => qf_data g <> []) full.
Proof.
  apply Forall_forall. intros g Hg. destruct (full_in g Hg) as (f & Hf & ->). destruct (piece_data f Hf) as [-> _]. intros E.
  apply (f_equal length) in E. rewrite length_drop in E. pose proof (dt_data _ _ Hdt) as Hd. rewrite Forall_forall in Hd. specialize (Hd f Hf).
  unfold total in Hd. cbn [length] in E. lia.
Qed.

Lemma full_payload : payload_of full = datagram_data all.
Proof.
  assert (Hall : forall f, f ∈ all -> f ∈ all) by done. revert Hall. generalize all at 1 3 4. intros l. induction l as [|f l IH]; [done|]. intros Hl.
  cbn [map]. rewrite payload_of_cons, IH by (intros g Hg; apply Hl; by right). destruct (piece_data f) as [-> _]; [apply Hl; by left|]. done.
Qed.

Lemma piece_disj f g : f ∈ all -> g ∈ all -> f <> g -> disj (piece_frag f) (piece_frag g).
Proof.
  intros Hf Hg Hne. assert (El : qf_loc (piece_frag f) <> qf_loc (piece_frag g)) by (intros E; by apply Hne, pieces_same).
  apply piece_in in Hf, Hg. pose proof (dt_apart _ _ Hdt) as Ha. revert Ha Hf Hg El. generalize (piece_frag f), (piece_frag g), full.
  intros x y l. induction l as [|z l IH]; [by intros _ ?%elem_of_nil|]. intros [Hz Hl] Hx Hy El. rewrite Forall_forall in Hz.
  apply elem_of_cons in Hx as [->|Hx]; apply elem_of_cons in Hy as [->|Hy]; [done|by apply Hz|by apply disj_sym, Hz|by apply IH].
Qed.

(** The last fragment is the only one without MF, and ends the data. *)
Lemma piece_last f : f ∈ all -> frag_last f.1 = true -> exists i, full = i ++ [piece_frag f].
Proof.
  destruct (dt_last _ _ Hdt) as (i & g & E & Hi & Hg). rewrite E. intros Hf Hl. exists (map piece_frag i). rewrite map_app. cbn [map].
  apply elem_of_app in Hf as [Hf| ->%list_elem_of_singleton]; [|done]. rewrite Forall_forall in Hi. by rewrite (Hi f Hf) in Hl.
Qed.

Lemma last_end f : f ∈ all -> frag_last f.1 = true -> frag_end f.1 f.2 = Z.of_nat (length (datagram_data all)).
Proof.
  intros Hf Hl. destruct (piece_last f Hf Hl) as [i E]. rewrite <- full_payload. pose proof (dt_complete _ _ Hdt) as Hc.
  rewrite E in Hc |- *. rewrite (complete_end _ _ Hc). by destruct (piece_data f Hf) as [_ ->].
Qed.

(** ** The datagram while it is being put together *)

Local Notation came_of done := (came full (map piece_loc done)).

(** What is in the table when the fragments [done] have come; [hs] are the ones
    whose header may have been kept. *)
Record building (hs done : list piece) (d : dgram) : Prop := {
  bd_frags : dg_frags d = came_of done;
  bd_hdr : exists f, f ∈ hs /\ dg_hdr d = frag_hdr f.1;
  bd_first : first ∈ hs -> dg_hdr d = frag_hdr first.1;
  bd_flags : has (dg_flags d) IP_REASS_FLAG_LASTFRAG = existsb (fun f => frag_last f.1) done;
  bd_len : forall f, f ∈ done -> frag_last f.1 = true -> dg_len d = frag_end f.1 f.2
}.

(** The table when the fragments [done] have come. *)
Definition collected (done : list piece) (ds : list dgram) : Prop :=
  match done with [] => ds = [] | _ => exists d, ds = [d] /\ building done done d end.

Lemma is_first_start nd : (20 <= length (n_data nd))%nat -> is_first (frag_hdr nd) = true <-> frag_start nd = 0.
Proof.
  intros L. unfold is_first, frag_start, IPH_OFFSET_BYTES. assert (E : hdr_offset (frag_hdr nd) = hdr_offset (n_data nd)).
  { unfold frag_hdr, hdr_offset, hdr_field. revert L. generalize (n_data nd). intros l L. do 8 (destruct l as [|? l]; [simpl in L; lia|]). done. }
  rewrite E. set (x := Z.land _ _). assert (0 <= x < 8192).
  { unfold x. change IP_OFFMASK with (Z.ones 13). rewrite Z.land_ones by lia. apply Z.mod_pos_bound. lia. }
  rewrite u16_small by lia. rewrite Z.eqb_eq. lia.
Qed.

Lemma first_header f : f ∈ all -> is_first (frag_hdr f.1) = true <-> f = first.
Proof.
  intros Hf. rewrite is_first_start by (by apply piece_header). split; [|intros ->; apply first_start]. intros E0.
  pose proof (piece_in f Hf) as Hin. apply list_elem_of_split in Hin as (a & b & E).
  destruct (full_passed full (dt_complete _ _ Hdt) pieces_data pieces_locs a (piece_frag f) b E) as [Ha _]. destruct a as [|g a].
  - apply pieces_same; [done|by left|]. apply (f_equal (fun l => qf_loc <$> head l)) in E. injection E as E. exact (eq_sym E).
  - exfalso. apply Forall_cons in Ha as [[Hlt _] _]. apply (f_equal (fun l => qf_start <$> head l)) in E. injection E as Eg. rewrite <- Eg in Hlt.
    change (frag_start first.1 < frag_start f.1) in Hlt. pose proof first_start. lia.
Qed.

(** ** One fragment more *)

(** What is known when the fragments [done] have come, and [todo] have not. *)
Record stage (todo done : list piece) (s : eth) : Prop := {
  sg_all : done ++ todo ≡ₚ all;
  sg_table : exists ds, reass_ok s ds /\ collected done ds;
  sg_todo : Forall (fun f => fragment (emem s) f.1 f.2) todo;
  sg_room : done = [] -> mpools (emem s) MEMP_REASSDATA <> []
}.

Lemma came_cons done f todo : done ++ f :: todo ≡ₚ all -> place (piece_frag f) (came_of done) = Some (came_of (f :: done)).
Proof.
  intros Hp. assert (Hf : f ∈ all) by (rewrite <- Hp; apply elem_of_app; right; by left).
  apply (came_place full (dt_complete _ _ Hdt) pieces_data pieces_locs (map piece_loc done) (piece_frag f)); [by apply piece_in|].
  intros (g & E & Hg)%list_elem_of_fmap. pose proof pieces_locs as Hn. rewrite map_map in Hn. change (map _ all) with (map piece_loc all) in Hn.
  rewrite <- Hp, map_app in Hn. apply NoDup_app in Hn as (_ & Hn & _). apply (Hn (piece_loc g)); [by apply list_elem_of_fmap; exists g|].
  rewrite <- E. by left.
Qed.

Lemma came_piece done todo g : done ++ todo ≡ₚ all -> g ∈ came_of done -> exists f, f ∈ done /\ f ∈ all /\ g = piece_frag f.
Proof.
  intros Hp (Hl & Hg)%came_in. destruct (full_in g Hg) as (f & Hf & ->). apply list_elem_of_fmap in Hl as (h & E & Hh).
  assert (Hh' : h ∈ all) by (rewrite <- Hp; apply elem_of_app; by left). rewrite (pieces_same f h Hf Hh' E). by exists h.
Qed.

Lemma pieces_nodup : NoDup all.
Proof. pose proof pieces_locs as Hn. rewrite map_map in Hn. by apply NoDup_fmap_1 in Hn. Qed.

(** A fragment that has not come is apart from those that have. *)
Lemma piece_newcomer done f todo ds : done ++ f :: todo ≡ₚ all -> collected done ds -> newcomer ds f.1 f.2.
Proof.
  intros Hp Hc g Hg. assert (Hf : f ∈ all) by (rewrite <- Hp; apply elem_of_app; right; by left).
  assert (Hin : g ∈ came_of done).
  { destruct done; cbn [collected] in Hc; [subst ds; by apply elem_of_nil in Hg|]. destruct Hc as (d & -> & Hd).
    unfold all_frags in Hg. cbn [map concat] in Hg. rewrite app_nil_r in Hg. by rewrite (bd_frags _ _ _ Hd) in Hg. }
  destruct (came_piece done (f :: todo) g Hp Hin) as (h & Hh & Hha & ->). apply piece_disj; [done|done|]. intros <-.
  pose proof pieces_nodup as Hn. rewrite <- Hp in Hn. apply NoDup_app in Hn as (_ & Hn & _). apply (Hn f Hh). by left.
Qed.

Lemma piece_untouched f g s s' : f ∈ all -> g ∈ all -> f <> g -> reass_only (map n_loc (piece_nodes f)) s s' -> fragment (emem s) g.1 g.2 -> fragment (emem s') g.1 g.2.
Proof.
  intros Hf Hg Hne (m & h & pool & np & k & -> & Hu). apply fragment_untouched. intros l Hl. apply Hu. intros Hin.
  apply (piece_disj f g Hf Hg Hne l); [|by unfold piece_frag; rewrite as_frag_foot]. unfold piece_frag. rewrite as_frag_foot. apply elem_of_app. by left.
Qed.

(** The datagram with the fragment [f] in it. *)
Lemma building_grown done f todo d : done ++ f :: todo ≡ₚ all -> dg_frags d = came_of done -> building (f :: done) done d ->
  building (f :: done) (f :: done) (grown d (came_of (f :: done)) f.1 f.2).
Proof.
  intros Hp Ef [_ Hh1 Hh2 Hfl Hlen]. assert (Hf : f ∈ all) by (rewrite <- Hp; apply elem_of_app; right; by left).
  destruct (grown_frags d (came_of (f :: done)) f.1 f.2) as (Gf & _ & Gh). split.
  - exact Gf.
  - by rewrite Gh.
  - by rewrite Gh.
  - rewrite grown_last, Hfl. done.
  - intros g Hg Hl. unfold grown. apply elem_of_cons in Hg as [->|Hg]; [by rewrite Hl|]. rewrite <- (Hlen g Hg Hl). destruct (frag_last f.1) eqn:El; [|done].
    cbn [dg_len]. rewrite (Hlen g Hg Hl), !last_end; [done| |done|done|done]. rewrite <- Hp. apply elem_of_app. by left.
Qed.

(** The fragment's datagram is the one that is being put together. *)
Lemma piece_target done f todo ds l : done ++ f :: todo ≡ₚ all -> collected done ds ->
  exists d, target (frag_hdr f.1) l ds = ([], d, []) /\ dg_frags d = came_of done /\ building (f :: done) done d /\
    (done <> [] -> datagram_of (frag_hdr f.1) ds <> None).
Proof.
  intros Hp Hc. assert (Hf : f ∈ all) by (rewrite <- Hp; apply elem_of_app; right; by left).
  assert (Hall : forall g, g ∈ done -> g ∈ all) by (intros g Hg; rewrite <- Hp; apply elem_of_app; by left).
  destruct done as [|g0 done']; cbn [collected] in Hc; [subst ds|destruct Hc as (d & -> & Hd)].
  - exists (fresh l (frag_hdr f.1)). assert (E0 : [] = came_of []) by (symmetry; apply came_nil).
    split; [done|]. split; [exact E0|]. split; [|intros []; reflexivity]. split; [exact E0| | |done|by intros ? ?%elem_of_nil].
    + exists f. split; [by left|done].
    + by intros ->%list_elem_of_singleton.
  - destruct Hd as [Hfr (g & Hg & Eh) Hfirst Hfl Hlen]. exists (refreshed (frag_hdr f.1) d).
    assert (Hb : belongs (frag_hdr f.1) d = true) by (unfold belongs; rewrite Eh; by apply (dt_same _ _ Hdt); [apply Hall|]).
    unfold target. cbn [datagram_of]. rewrite Hb. destruct (refreshed_same (frag_hdr f.1) d) as (_ & E1 & E2 & E3).
    split; [done|]. split; [by rewrite E1|]. split; [|done].
    pose proof (first_header f Hf) as Ef. pose proof (first_header g (Hall g Hg)) as Eg. rewrite <- Eh in Eg.
    split; [by rewrite E1| | |by rewrite E3|by rewrite E2]; unfold refreshed; destruct (is_first (frag_hdr f.1)) eqn:E4, (is_first (dg_hdr d)) eqn:E5;
      cbn [andb negb dg_hdr].
    1,3,4: by exists g; split; [right|].
    + exists f. by split; [left|].
    + intros _. rewrite Eh. by destruct (proj1 Eg eq_refl).
    + intros _. by destruct (proj1 Ef eq_refl).
    + intros _. rewrite Eh. by destruct (proj1 Eg eq_refl).
    + intros [E|Hin]%elem_of_cons; [|by apply Hfirst]. by pose proof (proj2 Ef (eq_sym E)).
Qed.

(** It is finished exactly with the fragment that comes last. *)
Lemma piece_whole done f todo d : done ++ f :: todo ≡ₚ all -> building (f :: done) (f :: done) d ->
  whole d = match todo with [] => true | _ => false end.
Proof.
  intros Hp [Hfr _ _ Hfl _]. unfold whole. rewrite Hfl, Hfr. assert (Hp' : (f :: done) ++ todo ≡ₚ all) by (rewrite <- Hp; solve_Permutation).
  assert (Hall : forall g, g ∈ f :: done -> g ∈ all) by (intros g Hg; rewrite <- Hp'; apply elem_of_app; by left).
  destruct todo as [|h todo].
  - rewrite app_nil_r in Hp'. apply andb_true_iff. split.
    + destruct (dt_last _ _ Hdt) as (i & g & E & _ & Hg). apply existsb_exists. exists g. split; [|done]. apply list_elem_of_In. rewrite Hp', E.
      apply elem_of_app. right. by left.
    + rewrite came_all; [by apply Hdt|]. intros q Hq. destruct (full_in q Hq) as (g & Hg & ->). apply list_elem_of_fmap. exists g. split; [done|]. by rewrite Hp'.
  - apply not_true_iff_false. intros [(g & Hg%list_elem_of_In & Hl)%existsb_exists Hc]%andb_true_iff.
    destruct (piece_last g (Hall g Hg) Hl) as [i E].
    assert (Ec : came_of (f :: done) = full) by (apply (came_complete full (dt_complete _ _ Hdt) pieces_data _ i (piece_frag g) E); [apply list_elem_of_fmap; by exists g|done]).
    assert (Hh : h ∈ all) by (rewrite <- Hp'; apply elem_of_app; right; by left). pose proof (piece_in h Hh) as Hin. rewrite <- Ec in Hin.
    destruct (came_piece (f :: done) (h :: todo) _ Hp' Hin) as (k & Hk & Hka & Ek). apply (f_equal qf_loc) in Ek.
    rewrite (pieces_same h k Hh Hka Ek) in Hp'. pose proof pieces_nodup as Hn. rewrite <- Hp' in Hn. apply NoDup_app in Hn as (_ & Hn & _).
    apply (Hn k Hk). by left.
Qed.

Lemma collected_frags done ds : collected done ds -> all_frags ds = came_of done.
Proof.
  destruct done as [|g done]; cbn [collected]; [intros ->; symmetry; apply came_nil|]. intros (d & -> & Hd). unfold all_frags. cbn [map concat].
  by rewrite app_nil_r, (bd_frags _ _ _ Hd).
Qed.

Lemma nodes_filter (P : qfrag -> Prop) `{!forall q, Decision (P q)} l : (length (nodes_of (filter P l)) <= length (nodes_of l))%nat.
Proof.
  unfold nodes_of. induction l as [|q l IH]; [done|]. rewrite filter_cons. destruct (decide (P q)); cbn [map concat]; rewrite !length_app; lia.
Qed.

Lemma full_nodes : length (nodes_of full) = length (concat (map piece_nodes all)).
Proof. unfold nodes_of. rewrite map_map. generalize all. intros l. induction l as [|f l IH]; [done|]. cbn [map concat]. rewrite !length_app, IH. done. Qed.

(** There is room for the next fragment. *)
Lemma piece_welcome f todo done s ds : stage (f :: todo) done s -> reass_ok s ds -> collected done ds -> exists l, welcome s ds f.1 f.2 l.
Proof.
  intros [Hp _ Htodo Hroom] [Hi _] Hc. assert (Hf : f ∈ all) by (rewrite <- Hp; apply elem_of_app; right; by left).
  assert (Hel : exists l, has_element s ds (frag_hdr f.1) l).
  { unfold has_element. destruct (mpools (emem s) MEMP_REASSDATA) as [|i rest] eqn:Em; [|by eexists]. exists (n_loc f.1).
    destruct (piece_target done f todo ds (n_loc f.1) Hp Hc) as (_ & _ & _ & _ & Hd). apply Hd. intros Ed. by apply (Hroom Ed). }
  destruct Hel as [l Hel]. exists l. apply Forall_cons in Htodo as [Hfg _]. pose proof (dt_size _ _ Hdt) as Hs. rewrite Forall_forall in Hs. split.
  - exact Hfg.
  - by apply (piece_newcomer done f todo).
  - by apply piece_header.
  - rewrite (ri_count _ _ Hi), (collected_frags _ _ Hc). pose proof (dt_pbufs _ _ Hdt) as Hb. rewrite <- full_nodes in Hb.
    pose proof (nodes_filter (fun q => qf_loc q ∈ map piece_loc (f :: done)) full) as Hn. fold (came_of (f :: done)) in Hn.
    assert (El : length (nodes_of (came_of (f :: done))) = (length (piece_nodes f) + length (nodes_of (came_of done)))%nat).
    { rewrite (place_perm _ _ _ (came_cons done f todo Hp)). unfold nodes_of at 1. cbn [map concat]. rewrite length_app. done. }
    unfold piece_nodes in El at 1. lia.
  - exact Hel.
  - destruct (piece_target done f todo ds l Hp Hc) as (d & -> & Ed & _). cbn [fst snd]. apply completes_short; [by apply piece_header|by apply Hs|].
    rewrite Ed. apply Forall_forall. intros g Hg. destruct (came_piece done (f :: todo) g Hp Hg) as (h & _ & Hh & ->).
    destruct (piece_data h Hh) as [_ ->]. by apply Hs.
Qed.

Lemma full_pbufs : pbufs_of full = map n_loc (concat (map piece_nodes all)).
Proof. unfold pbufs_of. rewrite concat_map, !map_map. done. Qed.

Lemma piece_pbufs f l : f ∈ all -> l ∈ map n_loc (piece_nodes f) -> l ∈ map n_loc (concat (map piece_nodes all)).
Proof.
  intros Hf (nd & -> & Hn)%list_elem_of_fmap. apply list_elem_of_fmap. exists nd. split; [done|]. apply list_elem_of_In, in_concat.
  exists (piece_nodes f). split; apply list_elem_of_In; [|done]. apply list_elem_of_fmap. by exists f.
Qed.

(** The whole datagram has come out, and the table is empty. *)
Definition finished_with (s : eth) (r : option loc) (s' : eth) : Prop := exists p c, r = Some p /\ packet (emem s') (Some p) c /\ EtharpReply.releasable c /\
  contents c = whole_header (frag_hdr first.1) (20 + Z.of_nat (length (datagram_data all))) ++ datagram_data all /\
  reass_ok s' [] /\ reass_only (map n_loc (concat (map piece_nodes all))) s s'.

(** The next fragment. *)
Lemma wp_piece s0 f todo done s : stage (f :: todo) done s -> reass_only (map n_loc (concat (map piece_nodes all))) s0 s ->
  wp (ip4_reass odd_at ip4_frag (piece_loc f)) (fun r s' =>
    match todo with
    | [] => finished_with s0 r s'
    | _ => r = None /\ stage todo (f :: done) s' /\ reass_only (map n_loc (concat (map piece_nodes all))) s0 s'
    end) s.
Proof.
  intros Hst H0s. pose proof Hst as [Hp (ds & Hok & Hc) Htodo _]. destruct (piece_welcome f todo done s ds Hst Hok Hc) as [l Hw].
  assert (Hf : f ∈ all) by (rewrite <- Hp; apply elem_of_app; right; by left).
  eapply wp_mono; [by apply (wp_ip4_reass odd_at ip4_frag s ds f.1 f.2 l)|]. destruct (piece_target done f todo ds l Hp Hc) as (d & -> & Ed & Hd & _).
  intros r s' Hadd. unfold added, accepts in Hadd. pose proof (dt_size _ _ Hdt) as Hs. rewrite Forall_forall in Hs. specialize (Hs f Hf).
  rewrite (proj2 (Z.ltb_ge _ _)) in Hadd by (unfold end_limit; destruct (frag_last f.1); lia). fold (piece_frag f) in Hadd. rewrite Ed, (came_cons done f todo Hp) in Hadd.
  pose proof (building_grown done f todo d Hp Ed Hd) as Hb. cbv zeta in Hadd. rewrite (piece_whole done f todo _ Hp Hb) in Hadd.
  destruct todo as [|h todo].
  - destruct Hadd as (p & c & -> & Hpk & Hrel & Hcont & _ & Hi & Ho). assert (Ecame : came_of (f :: done) = full).
    { apply came_all. intros q Hq. destruct (full_in q Hq) as (g & Hg & ->). apply list_elem_of_fmap. exists g. split; [done|].
      rewrite <- Hp in Hg. clear -Hg. set_solver. }
    destruct (dt_last _ _ Hdt) as (i & g & E & _ & Hl). assert (Hg : g ∈ all) by (rewrite E; apply elem_of_app; right; by left).
    assert (Hgd : g ∈ f :: done) by (rewrite <- Hp in Hg; clear -Hg; set_solver). assert (H1 : first ∈ f :: done).
    { assert (H1 : first ∈ all) by (by left). rewrite <- Hp in H1. clear -H1. set_solver. }
    exists p, c. split_and!; [done|done|done| | |].
    + rewrite Hcont, (bd_len _ _ _ Hb g Hgd Hl), (last_end g Hg Hl), Ecame, full_payload, (bd_first _ _ _ Hd H1), (Z.add_comm 20). done.
    + by split.
    + eapply reass_only_trans; [exact H0s|]. by rewrite Ecame, full_pbufs in Ho.
  - destruct Hadd as (-> & Hi & Ho). split; [done|]. split; [|eapply reass_only_trans; [exact H0s|eapply reass_only_mono; [|exact Ho]; intros x; by apply piece_pbufs]].
    split; [rewrite <- Hp; solve_Permutation| |apply Forall_forall; intros g Hg|done].
    + eexists. split; [|by eexists; split; [|exact Hb]]. split; [exact Hi|]. apply Forall_cons. split; [|done]. rewrite (bd_frags _ _ _ Hb). intros E.
      pose proof (place_perm _ _ _ (came_cons done f (h :: todo) Hp)) as Hperm. rewrite E in Hperm. by apply Permutation_nil_cons in Hperm.
    + rewrite Forall_forall in Htodo. apply (piece_untouched f g s s'); [done| | |exact Ho|apply Htodo; by right].
      * rewrite <- Hp. apply elem_of_app. right. by right.
      * intros <-. pose proof pieces_nodup as Hn. rewrite <- Hp in Hn. apply NoDup_app in Hn as (_ & _ & [Hn _]%NoDup_cons). done.
Qed.

Lemma wp_reass_each s0 todo : forall dn s, todo <> [] -> stage todo dn s -> reass_only (map n_loc (concat (map piece_nodes all))) s0 s ->
  wp (reass_each (map piece_loc todo)) (fun rs s' => exists r, rs = replicate (length todo - 1) None ++ [r] /\ finished_with s0 r s') s.
Proof.
  induction todo as [|f todo IH]; intros dn s Hne Hst H0s; [done|]. cbn [map reass_each]. apply wp_bind.
  assert (W := wp_piece s0 f todo dn s Hst H0s). eapply wp_mono; [exact W|]. intros r s' Hr. apply wp_bind. destruct todo as [|h todo].
  - cbn [map reass_each]. apply wp_ret, wp_ret. exists r. by split.
  - destruct Hr as (-> & Hst' & H0s'). eapply wp_mono; [by apply (IH (f :: dn) s')|]. intros rs s'' (r & -> & Hr). apply wp_ret. exists r. split; [|done].
    cbn [length Nat.sub replicate app]. by rewrite Nat.sub_0_r.
Qed.
End Pieces.

(** C4. A datagram is put together whatever the order of its fragments. Let
    [first :: more] be the fragments of one datagram: contiguous from 0 on,
    none empty, MF clear in the last one only, with the same addresses and
    identification, of at most ten pbufs and 65515 bytes together, and in
    memory apart from each other. Given to [ip4_reass] in any order, with
    nothing else in the table, each but the last to come gives NULL. The last
    to come gives one packet: the header of the first fragment, made that of a
    whole datagram of the right length, and all data in their order. The table
    is empty again, and only the packets' memory and reassembly's own variables
    have changed. *)
Theorem datagram_reassembled first more order s : datagram first more -> order ≡ₚ first :: more -> reass_ok s [] ->
  mpools (emem s) MEMP_REASSDATA <> [] -> Forall (fun f => fragment (emem s) f.1 f.2) order ->
  exists p c s', reass_each (map piece_loc order) s = Ret (replicate (length more) None ++ [Some p]) s' /\
    packet (emem s') (Some p) c /\
    contents c = whole_header (frag_hdr first.1) (20 + Z.of_nat (length (datagram_data (first :: more)))) ++ datagram_data (first :: more) /\
    reass_ok s' [] /\ reass_only (map n_loc (concat (map piece_nodes (first :: more)))) s s'.
Proof.
  intros Hdt Hp Hok Hm Hfg. assert (El : length order = S (length more)) by (by rewrite Hp). assert (Hne : order <> []) by (by destruct order).
  assert (Hst : stage first more order [] s) by (split; [done|by exists []|done|done]).
  destruct (wp_elim _ _ _ (wp_reass_each first more Hdt s order [] s Hne Hst (reass_only_refl _ s))) as (rs & s' & E & r & -> & p & c & -> & H1 & _ & H2 & H3 & H4).
  exists p, c, s'. rewrite El in E. cbn [Nat.sub] in E. by rewrite Nat.sub_0_r in E.
Qed.
End Datagram.
