(* ===== verification/FragTrip.v ===== *)
(** Fragmentation and reassembly: what [ip4_frag] takes apart, [ip4_reass] puts
    together. *)
From stdpp Require Import functions.
From S2P Require Import Prelude Memp Pbuf PbufFacts PbufUpdate PbufAlloc PbufChain PbufRam Chksum ChksumFacts Ip4Addr Ethernet.
From S2P Require Import Etharp EtharpTable EtharpInv EtharpSend EtharpReply Ip Icmp Frag FragCopy Reass IpFacts IcmpFacts FragFacts IpInputFacts.
From S2P Require Import ReassQueue ReassSpec ReassStep ReassRun ReassDatagram.

(** ** The fragments of a whole packet *)

(** [fs] are fragments of [data], which begins [o] times eight bytes behind the
    start of the datagram and goes up to its end. *)
Inductive pieces_of : Z -> list Z -> list (Z * list Z) -> Prop :=
| po_last o d : d <> [] -> 0 <= o < 8192 -> pieces_of o d [(o, d)]
| po_more o d rest fs j : 0 < j -> Z.of_nat (length d) = 8 * j -> 0 <= o < 8192 -> pieces_of (o + j) rest fs ->
    pieces_of o (d ++ rest) ((Z.lor o IP_MF, d) :: fs).

Lemma mask_small o : 0 <= o < 8192 -> Z.land IP_OFFMASK o = o.
Proof. intros Ho. rewrite Z.land_comm. change IP_OFFMASK with (Z.ones 13). rewrite Z.land_ones by lia. by apply Z.mod_small. Qed.

Lemma cut_pieces nfb : 1 <= nfb -> forall f o data, (length data <= f)%nat -> data <> [] -> 0 <= o -> o * 8 + Z.of_nat (length data) <= 65515 ->
  pieces_of o data (cut f nfb (nfb * 8) false o data).
Proof.
  intros Hn. induction f as [|f IH]; intros o data Hf Hd Ho Hl; (destruct data as [|x data]; [done|]); [simpl in Hf; lia|].
  cbn [cut]. set (all := x :: data) in *. assert (Hlen : (0 < length all)%nat) by (subst all; simpl; lia). clearbody all.
  rewrite mask_small, orb_false_r by lia. destruct (Z.leb_spec (Z.of_nat (length all)) (nfb * 8)) as [Hle|Hgt]; cbn [negb].
  - rewrite Z.min_l, Nat2Z.id, take_ge, drop_ge by lia. assert (Ec : cut f nfb (nfb * 8) false (u16 (o + nfb)) [] = []) by (by destruct f).
    rewrite Ec. by constructor; [|lia].
  - rewrite Z.min_r by lia. rewrite <- (take_drop (Z.to_nat (nfb * 8)) all) at 1. apply (po_more _ _ _ _ nfb); [lia|rewrite length_take; lia|lia|].
    rewrite u16_small by lia. apply IH; rewrite ?length_drop; try lia. intros E. apply (f_equal length) in E. rewrite length_drop in E. simpl in E. lia.
Qed.

Lemma pieces_concat o data fs : pieces_of o data fs -> concat (map snd fs) = data.
Proof. induction 1 as [o d|o d rest fs j _ _ _ _ IH]; cbn [map concat snd]; [apply app_nil_r|by rewrite IH]. Qed.

Lemma lor_mf o : 0 <= o < 8192 -> Z.lor o IP_MF = o + 8192.
Proof. intros Ho. unfold IP_MF. change 0x2000 with (1 * 2 ^ 13). by rewrite (lor_low o 1 13) by lia. Qed.

Lemma pieces_field o data fs : pieces_of o data fs -> Forall (fun x => 0 <= x.1 < 16384 /\ x.2 <> []) fs.
Proof.
  induction 1 as [o d Hd Ho|o d rest fs j Hj Hl Ho _ IH].
  - apply Forall_singleton. cbn [fst snd]. split; [lia|done].
  - apply Forall_cons. split; [|done]. cbn [fst snd]. rewrite lor_mf by done. split; [lia|]. intros ->. simpl in Hl. lia.
Qed.

(** ** A fragment that has come *)

(** The fields that the fragments of a packet have in common. *)
Record common (tos id ttl proto src dst : Z) : Prop := {
  cm_args : header_args src dst ttl tos proto;
  cm_id : 0 <= id < 65536
}.

(** The packet [f] is the fragment [x]. *)
Definition came_as (tos id ttl proto src dst : Z) (f : piece) (x : Z * list Z) : Prop :=
  (20 <= length (n_data f.1))%nat /\ contents (piece_nodes f) = frag_packet tos id ttl proto src dst x.

Section Piece.
Context (tos id ttl proto src dst : Z) (Hcm : common tos id ttl proto src dst).
Local Notation came := (came_as tos id ttl proto src dst).

Lemma land_pow2 w k : 0 <= k -> Z.land w (2 ^ k) = if Z.testbit w k then 2 ^ k else 0.
Proof.
  intros Hk. apply Z.bits_inj'. intros i Hi. rewrite Z.land_spec, Z.pow2_bits_eqb by lia. destruct (Z.eqb_spec k i) as [<-|Hne].
  - rewrite andb_true_r. destruct (Z.testbit w k) eqn:E; [by rewrite Z.pow2_bits_true|by rewrite Z.bits_0].
  - rewrite andb_false_r. destruct (Z.testbit w k); [by rewrite Z.pow2_bits_false|by rewrite Z.bits_0].
Qed.

Lemma last_field x : 0 <= x < 16384 -> (Z.land (lwip_htons x) (PP_NTOHS IP_MF) =? 0) = (x <? 8192).
Proof.
  intros Hx. change (PP_NTOHS IP_MF) with (2 ^ 5). rewrite htons_word, land_pow2 by lia.
  assert (E : (word16 (x / 256) (x mod 256) / 2 ^ 5) mod 2 = if x <? 8192 then 0 else 1).
  { unfold word16. change (2 ^ 5) with 32. destruct (Z.ltb_spec x 8192); Z.div_mod_to_equations; lia. }
  destruct (x <? 8192).
  - by rewrite (proj2 (Z.testbit_false _ 5 ltac:(lia)) E).
  - by rewrite (proj2 (Z.testbit_true _ 5 ltac:(lia)) E).
Qed.

(** What reassembly reads from it. *)
Lemma came_facts f x : came f x -> 0 <= x.1 < 16384 -> x.2 <> [] ->
  frag_hdr f.1 = ip_header tos (20 + Z.of_nat (length x.2)) id x.1 ttl proto src dst /\ drop 20 (contents (piece_nodes f)) = x.2 /\
  frag_start f.1 = x.1 mod 8192 * 8 /\ frag_last f.1 = (x.1 <? 8192) /\ 20 < total (piece_nodes f).
Proof.
  intros [L20 Ec] Hx Hne. set (h := ip_header tos (20 + Z.of_nat (length x.2)) id x.1 ttl proto src dst) in *.
  assert (Lh : length h = 20%nat) by apply ip_header_length.
  assert (Eh : frag_hdr f.1 = h).
  { apply (f_equal (take 20)) in Ec. unfold piece_nodes in Ec. rewrite contents_cons, take_app_le in Ec by lia.
    unfold frag_packet in Ec. fold h in Ec. by rewrite take_app_length' in Ec. }
  assert (Eo : hdr_offset (n_data f.1) = lwip_htons x.1).
  { assert (E : hdr_field 6 2 (n_data f.1) = hdr_field 6 2 h).
    { rewrite <- Eh. unfold hdr_field, frag_hdr. rewrite skipn_firstn_comm, take_take. done. }
    unfold hdr_offset. rewrite E. change (hdr_field 6 2 h) with (be16 x.1). rewrite <- htons_bytes by lia. apply load_bytes16.
    rewrite htons_word by lia. unfold word16. Z.div_mod_to_equations. lia. }
  assert (E1 : Z.land x.1 IP_OFFMASK = x.1 mod 8192) by (change IP_OFFMASK with (Z.ones 13); by rewrite Z.land_ones by lia).
  assert (En : lwip_ntohs (lwip_htons x.1) = x.1).
  { pose proof (ntohs_be16 x.1 ltac:(lia)) as En. by rewrite <- htons_bytes, load_bytes16 in En by (lia || (rewrite htons_word by lia; unfold word16; Z.div_mod_to_equations; lia)). }
  split_and!; [done| | | |].
  - rewrite Ec. unfold frag_packet. fold h. by rewrite drop_app_length'.
  - unfold frag_start, IPH_OFFSET_BYTES. rewrite Eo, En, E1, u16_small; [done|]. Z.div_mod_to_equations. lia.
  - unfold frag_last. rewrite Eo. by apply last_field.
  - unfold total. rewrite Ec. unfold frag_packet. fold h. rewrite length_app, Lh. destruct x.2; [done|]. cbn [length]. lia.
Qed.

(** The fragments of [data], in their order. *)
Record arrived_as (o : Z) (data : list Z) (fl : list piece) : Prop := {
  aa_contig : contig (map piece_frag fl) = true;
  aa_start : forall f fl', fl = f :: fl' -> frag_start f.1 = o * 8;
  aa_last : exists i g, fl = i ++ [g] /\ Forall (fun f => frag_last f.1 = false) i /\ frag_last g.1 = true;
  aa_size : Forall (fun f => frag_end f.1 f.2 <= 65515) fl;
  aa_data : datagram_data fl = data
}.

Lemma came_start f x : came f x -> 0 <= x.1 < 16384 -> x.2 <> [] ->
  qf_start (piece_frag f) = x.1 mod 8192 * 8 /\ qf_end (piece_frag f) = x.1 mod 8192 * 8 + Z.of_nat (length x.2) /\
  frag_end f.1 f.2 = x.1 mod 8192 * 8 + Z.of_nat (length x.2).
Proof.
  intros Hc Hx Hne. destruct (came_facts f x Hc Hx Hne) as (_ & Ed & Es & _ & Ht). destruct Hc as [L20 _].
  destruct (as_frag_facts f.1 f.2 L20) as (_ & Ee & _). unfold piece_frag. rewrite Ee. change (qf_start (as_frag f.1 f.2)) with (frag_start f.1).
  assert (E : frag_end f.1 f.2 = x.1 mod 8192 * 8 + Z.of_nat (length x.2)).
  { unfold frag_end. rewrite Es. f_equal. apply (f_equal length) in Ed. rewrite length_drop in Ed. unfold piece_nodes, total in *. lia. }
  by split_and!.
Qed.

Lemma arrive o data fs : pieces_of o data fs -> forall fl, Forall2 came fl fs -> o * 8 + Z.of_nat (length data) <= 65515 -> arrived_as o data fl.
Proof.
  induction 1 as [o d Hd Ho|o d rest fs j Hj Hl Ho Hps IH]; intros fl Hfl Hb.
  - apply Forall2_cons_inv_r in Hfl as (f & fl' & Hf & Hnil & ->). apply Forall2_nil_inv_r in Hnil as ->.
    assert (Hx : 0 <= o < 16384) by lia. destruct (came_facts f (o, d) Hf Hx Hd) as (_ & Ed & Es & El & _). destruct (came_start f (o, d) Hf Hx Hd) as (_ & _ & Ee).
    cbn [fst snd] in *. rewrite Z.mod_small in Es, Ee by lia. rewrite (proj2 (Z.ltb_lt _ _)) in El by lia. split.
    + done.
    + by intros g gl [= -> _].
    + by exists [], f.
    + apply Forall_singleton. lia.
    + unfold datagram_data. cbn [map concat]. by rewrite Ed, app_nil_r.
  - apply Forall2_cons_inv_r in Hfl as (f & fl' & Hf & Hfl & ->). rewrite length_app in Hb. destruct (IH fl' Hfl ltac:(lia)) as [H1 H2 (i & g & E & Hi & Hg) H4 H5].
    assert (Hd : d <> []) by (intros ->; simpl in Hl; lia). assert (Hx : 0 <= Z.lor o IP_MF < 16384) by (rewrite lor_mf; lia).
    destruct (came_facts f (Z.lor o IP_MF, d) Hf Hx Hd) as (_ & Ed & Es & El & _). destruct (came_start f (Z.lor o IP_MF, d) Hf Hx Hd) as (_ & Eq & Ee). cbn [fst snd] in *.
    assert (Em : Z.lor o IP_MF mod 8192 = o) by (rewrite lor_mf by done; Z.div_mod_to_equations; lia). rewrite Em in *.
    rewrite (proj2 (Z.ltb_ge _ _)) in El by (rewrite lor_mf; lia). split.
    + destruct fl' as [|f2 fl']; [done|]. change (contig (map piece_frag (f :: f2 :: fl'))) with ((qf_end (piece_frag f) =? qf_start (piece_frag f2)) && contig (map piece_frag (f2 :: fl'))).
      rewrite H1, andb_true_r. apply Z.eqb_eq. rewrite Eq.
      change (qf_start (piece_frag f2)) with (frag_start f2.1). rewrite (H2 f2 fl' eq_refl). lia.
    + by intros h hl [= -> _].
    + exists (f :: i), g. split; [by rewrite E|]. split; [by apply Forall_cons|done].
    + apply Forall_cons. split; [lia|done].
    + unfold datagram_data in *. cbn [map concat]. by rewrite Ed, H5.
Qed.

Lemma came_plain f x : came f x -> 0 <= x.1 < 16384 -> x.2 <> [] -> plain_header (frag_hdr f.1).
Proof.
  intros Hc Hx Hne. destruct (came_facts f x Hc Hx Hne) as (-> & _). destruct Hcm as [[H1 H2 H3 H4 H5] H6]. unfold ip_header.
  do 9 eexists. split_and!; [..|reflexivity]; done || lia.
Qed.

Lemma came_match f g x y : came f x -> came g y -> 0 <= x.1 < 16384 -> 0 <= y.1 < 16384 -> x.2 <> [] -> y.2 <> [] ->
  IP_ADDRESSES_AND_ID_MATCH (frag_hdr f.1) (frag_hdr g.1) = true.
Proof.
  intros Hf Hg Hx Hy Nx Ny. destruct (came_facts f x Hf Hx Nx) as (-> & _). destruct (came_facts g y Hg Hy Ny) as (-> & _).
  unfold IP_ADDRESSES_AND_ID_MATCH, ip4_addr_eq.
  change (hdr_src (ip_header tos _ id _ ttl proto src dst)) with (load_word32 (bytes32 src)).
  change (hdr_dest (ip_header tos _ id _ ttl proto src dst)) with (load_word32 (bytes32 dst)).
  change (hdr_id (ip_header tos _ id _ ttl proto src dst)) with (load_word16 (be16 id)). by rewrite !Z.eqb_refl.
Qed.

Lemma came_each fl fs o data f : pieces_of o data fs -> Forall2 came fl fs -> f ∈ fl -> exists x, came f x /\ 0 <= x.1 < 16384 /\ x.2 <> [].
Proof.
  intros Hps%pieces_field Hfl Hf. apply list_elem_of_lookup in Hf as [i Ei]. destruct (Forall2_lookup_l _ _ _ _ _ Hfl Ei) as (x & Ex & Hc).
  exists x. split; [done|]. rewrite Forall_forall in Hps. apply Hps. by eapply list_elem_of_lookup_2.
Qed.

(** Fragments of a whole packet, in buffers of their own, are a datagram. *)
Lemma came_datagram data fs first more : pieces_of 0 data fs -> Forall2 came (first :: more) fs -> Z.of_nat (length data) <= 65515 ->
  apart (map piece_frag (first :: more)) -> Z.of_nat (length (concat (map piece_nodes (first :: more)))) <= IP_REASS_MAX_PBUFS ->
  datagram first more /\ datagram_data (first :: more) = data /\
  whole_header (frag_hdr first.1) (20 + Z.of_nat (length data)) = ip_header tos (20 + Z.of_nat (length data)) id 0 ttl proto src dst.
Proof.
  intros Hps Hfl Hl Ha Hb. destruct (arrive 0 data fs Hps (first :: more) Hfl ltac:(lia)) as [H1 H2 H3 H4 H5].
  assert (Heach : forall f, f ∈ first :: more -> exists x, came f x /\ 0 <= x.1 < 16384 /\ x.2 <> []) by (intros f; by eapply came_each). split.
  - split; [|apply Forall_forall; intros f Hf|done|apply Forall_forall; intros f Hf| |done|done|done].
    + cbn [map complete]. change (qf_start (piece_frag first)) with (frag_start first.1). rewrite (H2 first more eq_refl). exact H1.
    + destruct (Heach f Hf) as (x & Hc & Hx & Nx). by apply (came_facts f x).
    + destruct (Heach f Hf) as (x & Hc & Hx & Nx). by apply (came_plain f x).
    + intros f g Hf Hg. destruct (Heach f Hf) as (x & Hc & Hx & Nx), (Heach g Hg) as (y & Hc' & Hy & Ny). by apply (came_match f g x y).
  - split; [done|]. destruct (Heach first ltac:(by left)) as (x & Hc & Hx & Nx). destruct (came_facts first x Hc Hx Nx) as (-> & _).
    destruct Hcm as [[]]. unfold ip_header at 1. by rewrite whole_header_fields.
Qed.
End Piece.

Section Trip.
Context `{WL : WireLaws} `{HL : !HeapLaws} `{BU : !Build} (depth : nat) (odd_at : option ptr -> bool).
#[local] Instance trip_refs : CustomFree := frag_custom_free (S depth).

Lemma whole_pieces mtu data : 28 <= mtu -> (mtu - 20) mod 8 = 0 -> data <> [] -> Z.of_nat (length data) <= 65515 ->
  pieces_of 0 data (cut_packet mtu 0 data).
Proof.
  intros Hm Hm8 Hd Hl. pose proof (Z.div_le_mono 8 (mtu - 20) 8 ltac:(lia) ltac:(lia)) as Hn. change (8 / 8) with 1 in Hn.
  pose proof (Z_div_mod_eq_full (mtu - 20) 8) as En. rewrite Hm8, Z.add_0_r, Z.mul_comm in En.
  unfold cut_packet. change (Z.land 0 IP_OFFMASK) with 0. change (has 0 IP_MF) with false. rewrite En at 2. by apply cut_pieces.
Qed.

(** Packets that have come and hold what was sent. *)
Lemma contents_came tos id ttl proto src dst m fl fs : Forall (fun f => fragment m f.1 f.2) fl ->
  Forall2 (fun f pkt => contents (piece_nodes f) = pkt) fl (map (frag_packet tos id ttl proto src dst) fs) -> Forall2 (came_as tos id ttl proto src dst) fl fs.
Proof.
  revert fs. induction fl as [|f fl IH]; intros fs Hfg Hfl.
  - apply Forall2_nil_inv_l in Hfl. by destruct fs.
  - apply Forall2_cons_inv_l in Hfl as (pkt & pkts & E & Hfl & Ep). destruct fs as [|x fs]; [done|]. injection Ep as <- <-.
    apply Forall_cons in Hfg as [[Hp _ Hh _ _ _] Hfg]. constructor; [|by apply IH]. split; [|done].
    destruct (pk_chain _ _ _ Hp) as (_ & _ & [L _] & _). lia.
Qed.

(** C5. Fragmentation and reassembly. Let [ip4_frag] return ERR_OK for a whole
    packet, on an interface whose mtu leaves a multiple of eight bytes for
    data. The driver was given a list of packets, one after the other; and when
    these have come to a host, in any order and in any pbufs, ten at most, with
    nothing else being reassembled there, [ip4_reass] returns NULL for all but
    the last to come, and for that one exactly the packet that was sent, its
    header and checksum included. *)
Theorem frag_reass_roundtrip whole h0 n ip hw mtu σ tos id ttl proto src dst data s s' : common tos id ttl proto src dst ->
  head whole = Some h0 -> (20 <= length (n_data h0))%nat -> data <> [] ->
  contents whole = ip_header tos (20 + Z.of_nat (length data)) id 0 ttl proto src dst ++ data ->
  frag_env whole n ip hw mtu σ s -> 28 <= mtu -> (mtu - 20) mod 8 = 0 -> mtu + 14 <= 1500 ->
  ip4_frag odd_at (n_loc h0) n ip s = Ret ERR_OK s' ->
  let pkts := map (frag_packet tos id ttl proto src dst) (cut_packet mtu 0 data) in
  sent_all n hw pkts s s' /\
  forall first more order host, Forall2 (fun f pkt => contents (piece_nodes f) = pkt) (first :: more) pkts -> order ≡ₚ first :: more ->
    apart (map piece_frag (first :: more)) -> Z.of_nat (length (concat (map piece_nodes (first :: more)))) <= IP_REASS_MAX_PBUFS ->
    reass_ok host [] -> mpools (emem host) MEMP_REASSDATA <> [] -> Forall (fun f => fragment (emem host) f.1 f.2) (first :: more) ->
    exists p c host', reass_each odd_at (ip4_frag odd_at) (map piece_loc order) host = Ret (replicate (length more) None ++ [Some p]) host' /\
      packet (emem host') (Some p) c /\ contents c = contents whole /\ reass_ok host' [].
Proof.
  intros Hcm Hh0 H20 Hd Ew He Hm Hm8 Hm14 Erun pkts. pose proof Hcm as [Hargs Hid].
  assert (Hhd : frag_header h0 tos (20 + Z.of_nat (length data)) id 0 ttl proto
    (bytes16 (0xffff - rfc1071 (header_fields tos (20 + Z.of_nat (length data)) id 0 ttl proto [0; 0] src dst))) src dst).
  { split; [|done|done|done|lia]. destruct whole as [|h rest]; [done|]. injection Hh0 as ->. apply (f_equal (take 20)) in Ew.
    rewrite contents_cons, take_app_le, take_app_length' in Ew by (lia || done). exact Ew. }
  assert (Edata : drop 20 (contents whole) = data) by (rewrite Ew; by apply drop_app_length').
  assert (Hl : Z.of_nat (length data) <= 65515).
  { pose proof (pk_bound _ _ _ (fe_packet _ _ _ _ _ _ _ He)) as Hb. unfold total in Hb. rewrite Ew, length_app, ip_header_length in Hb. lia. }
  split.
  - assert (Hm2 : (mtu - 20) / 8 * 8 + 34 <= 1500) by (pose proof (Z_div_mod_eq_full (mtu - 20) 8); lia).
    destruct (wp_elim _ _ _ (wp_ip4_frag depth odd_at whole h0 n ip hw mtu σ tos _ id 0 ttl proto _ src dst s Hh0 Hhd He Hm Hm2)) as (r & s2 & E & sent & lost & Es & Hcase & Hall & _).
    assert (Er : Ret ERR_OK s' = Ret r s2) by (rewrite <- Erun; exact E). injection Er as <- <-. destruct Hcase as [[_ ->]|[? _]]; [|done]. rewrite app_nil_r, Edata in Es. unfold pkts. by rewrite Es.
  - intros first more order host Hfl Hp Ha Hb Hok Hpool Hfg.
    pose proof (contents_came tos id ttl proto src dst _ _ _ Hfg Hfl) as Hcame.
    destruct (came_datagram tos id ttl proto src dst Hcm data _ first more (whole_pieces mtu data Hm Hm8 Hd Hl) Hcame Hl Ha Hb) as (Hdt & Ed & Ehdr).
    assert (El : length order = S (length more)) by (by rewrite Hp). assert (Hne : order <> []) by (by destruct order).
    assert (Hst : stage first more order [] host) by (split; [done|by exists []|by rewrite Hp|done]).
    destruct (wp_elim _ _ _ (wp_reass_each odd_at (ip4_frag odd_at) first more Hdt host order [] host Hne Hst (reass_only_refl _ host)))
      as (rs & host' & E & r & -> & p & c & -> & H1 & _ & H2 & H3 & _).
    exists p, c, host'. rewrite El in E. cbn [Nat.sub] in E. rewrite Nat.sub_0_r in E. split; [done|]. split; [done|]. split; [|done].
    by rewrite H2, Ed, Ehdr, Ew.
Qed.
End Trip.
