(* ===== verification/MqttRing.v ===== *)
(** The ring buffer of the MQTT client as a queue of bytes, and the bytes the
    message builders append. *)
From S2P Require Import Prelude.

(** ** mqtt_opts.h, mqtt.h *)

Definition MQTT_OUTPUT_RINGBUF_SIZE : Z := 256.
Definition MQTT_VAR_HEADER_BUFFER_LEN : Z := 128.
Definition MQTT_REQ_MAX_IN_FLIGHT : Z := 4.
Definition MQTT_CYCLIC_TIMER_INTERVAL : Z := 5.
Definition MQTT_REQ_TIMEOUT : Z := 30.
Definition MQTT_CONNECT_TIMOUT : Z := 100.

Definition MQTT_CONNECT_ACCEPTED : Z := 0.
Definition MQTT_CONNECT_DISCONNECTED : Z := 256.
Definition MQTT_CONNECT_TIMEOUT : Z := 257.
Definition MQTT_DATA_FLAG_LAST : Z := 1.

(** ** Control packets *)

Definition MQTT_MSG_TYPE_CONNECT : Z := 1.
Definition MQTT_MSG_TYPE_CONNACK : Z := 2.
Definition MQTT_MSG_TYPE_PUBLISH : Z := 3.
Definition MQTT_MSG_TYPE_PUBACK : Z := 4.
Definition MQTT_MSG_TYPE_PUBREC : Z := 5.
Definition MQTT_MSG_TYPE_PUBREL : Z := 6.
Definition MQTT_MSG_TYPE_PUBCOMP : Z := 7.
Definition MQTT_MSG_TYPE_SUBSCRIBE : Z := 8.
Definition MQTT_MSG_TYPE_SUBACK : Z := 9.
Definition MQTT_MSG_TYPE_UNSUBSCRIBE : Z := 10.
Definition MQTT_MSG_TYPE_UNSUBACK : Z := 11.
Definition MQTT_MSG_TYPE_PINGREQ : Z := 12.
Definition MQTT_MSG_TYPE_PINGRESP : Z := 13.

Definition MQTT_CTL_PACKET_TYPE (fixed_hdr_byte0 : Z) : Z := Z.shiftr (Z.land fixed_hdr_byte0 0xf0) 4.
Definition MQTT_CTL_PACKET_QOS (fixed_hdr_byte0 : Z) : Z := Z.shiftr (Z.land fixed_hdr_byte0 0x6) 1.

Definition MQTT_CONNECT_FLAG_USERNAME : Z := bit 7.
Definition MQTT_CONNECT_FLAG_PASSWORD : Z := bit 6.
Definition MQTT_CONNECT_FLAG_WILL_RETAIN : Z := bit 5.
Definition MQTT_CONNECT_FLAG_WILL : Z := bit 2.
Definition MQTT_CONNECT_FLAG_CLEAN_SESSION : Z := bit 1.

(** ** The ring buffer *)

Record mqtt_ringbuf_t : Type := Ring { rb_put : Z; rb_get : Z; rb_buf : list Z }.

Definition mqtt_ringbuf_put (item : Z) : M mqtt_ringbuf_t unit :=
  rb ← get;
  if rb_put rb <? Z.of_nat (length (rb_buf rb)) then
    let buf := <[Z.to_nat (rb_put rb) := u8 item]> (rb_buf rb) in
    let p := u16 (rb_put rb + 1) in
    put (Ring (if MQTT_OUTPUT_RINGBUF_SIZE <=? p then 0 else p) (rb_get rb) buf)
  else halt OutOfBounds.

(** The [n] bytes at [mqtt_ringbuf_get_ptr]. *)
Definition mqtt_ringbuf_get_ptr (rb : mqtt_ringbuf_t) (n : Z) : option (list Z) :=
  if rb_get rb + n <=? Z.of_nat (length (rb_buf rb)) then
    Some (take (Z.to_nat n) (drop (Z.to_nat (rb_get rb)) (rb_buf rb)))
  else None.

Definition mqtt_ringbuf_advance_get_idx (n : Z) (rb : mqtt_ringbuf_t) : mqtt_ringbuf_t :=
  let g := u16 (rb_get rb + n) in
  Ring (rb_put rb) (if MQTT_OUTPUT_RINGBUF_SIZE <=? g then u16 (g - MQTT_OUTPUT_RINGBUF_SIZE) else g) (rb_buf rb).

Definition mqtt_ringbuf_len (rb : mqtt_ringbuf_t) : Z :=
  let n := u32 (rb_put rb - rb_get rb) in
  u16 (if 0xFFFF <? n then u32 (n + MQTT_OUTPUT_RINGBUF_SIZE) else n).

Definition mqtt_ringbuf_free (rb : mqtt_ringbuf_t) : Z := MQTT_OUTPUT_RINGBUF_SIZE - mqtt_ringbuf_len rb.

Definition mqtt_ringbuf_linear_read_length (rb : mqtt_ringbuf_t) : Z :=
  Z.min (mqtt_ringbuf_len rb) (MQTT_OUTPUT_RINGBUF_SIZE - rb_get rb).

(** ** Message builders *)

Definition mqtt_output_append_u8 (value : Z) : M mqtt_ringbuf_t unit := mqtt_ringbuf_put value.

Definition mqtt_output_append_u16 (value : Z) : M mqtt_ringbuf_t unit :=
  mqtt_ringbuf_put (Z.shiftr value 8);; mqtt_ringbuf_put (Z.land value 0xff).

(** [data[0]] to [data[length - 1]] of an object. *)
Definition put_from (data : list Z) (length : Z) : M mqtt_ringbuf_t unit :=
  for_each (seqZ 0 length) (fun n => x ← deref OutOfBounds (data !! Z.to_nat n); mqtt_ringbuf_put x).

Definition mqtt_output_append_buf (data : list Z) (length : Z) : M mqtt_ringbuf_t unit := put_from data length.

(** A C string is the list of its characters; in memory a zero follows. *)
Definition mqtt_output_append_string (str : list Z) (length : Z) : M mqtt_ringbuf_t unit :=
  mqtt_ringbuf_put (Z.shiftr length 8);;
  mqtt_ringbuf_put (Z.land length 0xff);;
  put_from (str ++ [0]) length.

(** One round of the encoding of the remaining length; a [u16_t] takes three
    rounds at most. *)
Definition fixed_header_body (r_length : Z) : M mqtt_ringbuf_t (Z + unit) :=
  mqtt_output_append_u8 (Z.lor (Z.land r_length 0x7f) (if 128 <=? r_length then 0x80 else 0));;
  let r_length := Z.shiftr r_length 7 in
  mret (if 0 <? r_length then inl r_length else inr tt).

Definition mqtt_output_append_fixed_header (msg_type fdup fqos fretain r_length : Z) : M mqtt_ringbuf_t unit :=
  mqtt_output_append_u8 (Z.lor (Z.lor (Z.lor (Z.shiftl (Z.land msg_type 0x0f) 4) (Z.shiftl (Z.land fdup 1) 3))
                                     (Z.shiftl (Z.land fqos 3) 1)) (Z.land fretain 1));;
  iter 3 fixed_header_body r_length.

Definition check_space_body (x : Z * Z) : M mqtt_ringbuf_t (Z * Z + Z) :=
  let '(total_len, r_length) := x in
  let total_len := u16 (total_len + 1) in
  let r_length := Z.shiftr r_length 7 in
  mret (if 0 <? r_length then inl (total_len, r_length) else inr total_len).

Definition mqtt_output_check_space (r_length : Z) : M mqtt_ringbuf_t bool :=
  total_len ← iter 3 check_space_body (u16 (1 + r_length), r_length);
  rb ← get;
  mret (total_len <=? mqtt_ringbuf_free rb).

(** ** The queue *)

Record ring_ok (rb : mqtt_ringbuf_t) : Prop := {
  ro_length : length (rb_buf rb) = 256%nat;
  ro_get : 0 <= rb_get rb < 256;
  ro_put : 0 <= rb_put rb < 256
}.

(** The bytes put and not yet taken, oldest first. *)
Definition queued (rb : mqtt_ringbuf_t) : list Z :=
  take (Z.to_nat ((rb_put rb - rb_get rb) mod 256)) (drop (Z.to_nat (rb_get rb)) (rb_buf rb ++ rb_buf rb)).

Definition rep (rb : mqtt_ringbuf_t) (q : list Z) : Prop := ring_ok rb /\ queued rb = q.

Lemma queued_length rb : ring_ok rb -> Z.of_nat (length (queued rb)) = (rb_put rb - rb_get rb) mod 256.
Proof.
  intros [Hl Hg Hp]. unfold queued. rewrite length_take, length_drop, length_app, Hl.
  pose proof (Z.mod_pos_bound (rb_put rb - rb_get rb) 256). lia.
Qed.

(** Byte [k] of the queue in the array. *)
Lemma queued_lookup rb k : ring_ok rb -> (k < length (queued rb))%nat ->
  queued rb !! k = rb_buf rb !! Z.to_nat ((rb_get rb + Z.of_nat k) mod 256).
Proof.
  intros Hok Hk. pose proof (queued_length rb Hok) as Hq. destruct Hok as [Hl Hg Hp].
  pose proof (Z.mod_pos_bound (rb_put rb - rb_get rb) 256). unfold queued. rewrite lookup_take_lt, lookup_drop by lia.
  destruct (Z_lt_le_dec (rb_get rb + Z.of_nat k) 256).
  - rewrite lookup_app_l by lia. f_equal. rewrite Z.mod_small by lia. lia.
  - rewrite lookup_app_r by lia. f_equal. rewrite Hl.
    replace ((rb_get rb + Z.of_nat k) mod 256) with (rb_get rb + Z.of_nat k - 256) by (Z.div_mod_to_equations; lia). lia.
Qed.

Lemma mqtt_ringbuf_len_queued rb : ring_ok rb -> mqtt_ringbuf_len rb = Z.of_nat (length (queued rb)).
Proof.
  intros Hok. rewrite queued_length by done. destruct Hok as [Hl Hg Hp]. unfold mqtt_ringbuf_len, MQTT_OUTPUT_RINGBUF_SIZE.
  destruct (Z.ltb_spec 0xFFFF (u32 (rb_put rb - rb_get rb))); wrap_lia.
Qed.

(** ** Taking *)

Lemma rep_advance rb q n : rep rb q -> 0 <= n <= Z.of_nat (length q) -> rep (mqtt_ringbuf_advance_get_idx n rb) (drop (Z.to_nat n) q).
Proof.
  intros [Hok <-] Hn. rewrite queued_length in Hn by done. pose proof Hok as [Hl Hg Hp].
  assert (Hok' : ring_ok (mqtt_ringbuf_advance_get_idx n rb)).
  { unfold mqtt_ringbuf_advance_get_idx, MQTT_OUTPUT_RINGBUF_SIZE. split; [done| |done]. simpl. case_match; wrap_lia. }
  assert (Eg : rb_get (mqtt_ringbuf_advance_get_idx n rb) = (rb_get rb + n) mod 256).
  { unfold mqtt_ringbuf_advance_get_idx, MQTT_OUTPUT_RINGBUF_SIZE. simpl. destruct (Z.leb_spec 256 (u16 (rb_get rb + n))); wrap_lia. }
  split; [done|]. apply list_eq. intros k.
  assert (Hlen : length (queued (mqtt_ringbuf_advance_get_idx n rb)) = length (drop (Z.to_nat n) (queued rb))).
  { apply Nat2Z.inj. rewrite length_drop, Nat2Z.inj_sub, !queued_length, Eg by (done || rewrite ?length_drop; pose proof (queued_length rb Hok); lia).
    change (rb_put (mqtt_ringbuf_advance_get_idx n rb)) with (rb_put rb). Z.div_mod_to_equations; lia. }
  destruct (Nat.lt_ge_cases k (length (queued (mqtt_ringbuf_advance_get_idx n rb)))) as [Hk|Hk].
  - rewrite lookup_drop, !queued_lookup, Eg by (done || rewrite Hlen, length_drop in Hk; lia).
    change (rb_buf (mqtt_ringbuf_advance_get_idx n rb)) with (rb_buf rb). f_equal. f_equal.
    rewrite Nat2Z.inj_add, Z2Nat.id by lia. rewrite Zplus_mod_idemp_l. f_equal. lia.
  - rewrite !lookup_ge_None_2 by lia. done.
Qed.

(** The bytes that can be sent in one piece. *)
Lemma rep_get_ptr rb q n : rep rb q -> 0 <= n <= mqtt_ringbuf_linear_read_length rb ->
  mqtt_ringbuf_get_ptr rb n = Some (take (Z.to_nat n) q).
Proof.
  intros [Hok <-] Hn. unfold mqtt_ringbuf_linear_read_length, MQTT_OUTPUT_RINGBUF_SIZE in Hn.
  rewrite mqtt_ringbuf_len_queued, queued_length in Hn by done. destruct Hok as [Hl Hg Hp].
  unfold mqtt_ringbuf_get_ptr. rewrite (proj2 (Z.leb_le _ _)) by lia. f_equal. unfold queued. rewrite take_take, Nat.min_l by lia.
  rewrite drop_app_le by lia. rewrite take_app_le; [done|]. rewrite length_drop. lia.
Qed.

Lemma linear_length_le rb q : rep rb q -> mqtt_ringbuf_linear_read_length rb <= Z.of_nat (length q).
Proof. intros [Hok <-]. unfold mqtt_ringbuf_linear_read_length. rewrite mqtt_ringbuf_len_queued by done. lia. Qed.

Lemma linear_length_nonneg rb q : rep rb q -> 0 <= mqtt_ringbuf_linear_read_length rb.
Proof.
  intros [Hok <-]. unfold mqtt_ringbuf_linear_read_length, MQTT_OUTPUT_RINGBUF_SIZE. rewrite mqtt_ringbuf_len_queued by done.
  destruct Hok. lia.
Qed.

Lemma linear_length_pos rb q : rep rb q -> q <> [] -> 0 < mqtt_ringbuf_linear_read_length rb.
Proof.
  intros [Hok <-] Hq. unfold mqtt_ringbuf_linear_read_length, MQTT_OUTPUT_RINGBUF_SIZE. rewrite mqtt_ringbuf_len_queued by done.
  destruct Hok as [_ Hg _]. destruct (queued rb); [done|]. simpl length. lia.
Qed.

(** ** Putting *)

Definition put_state (rb : mqtt_ringbuf_t) (item : Z) : mqtt_ringbuf_t :=
  Ring ((rb_put rb + 1) mod 256) (rb_get rb) (<[Z.to_nat (rb_put rb) := u8 item]> (rb_buf rb)).

Lemma ringbuf_put_run rb item : ring_ok rb -> mqtt_ringbuf_put item rb = Ret tt (put_state rb item).
Proof.
  intros [Hl Hg Hp]. unfold mqtt_ringbuf_put. erewrite bind_Ret by reflexivity. rewrite Hl, (proj2 (Z.ltb_lt _ _)) by lia.
  unfold put, put_state, MQTT_OUTPUT_RINGBUF_SIZE. f_equal. f_equal. destruct (Z.leb_spec 256 (u16 (rb_put rb + 1))); wrap_lia.
Qed.

Lemma put_state_ok rb item : ring_ok rb -> ring_ok (put_state rb item).
Proof. intros [Hl Hg Hp]. split; [simpl; by rewrite length_insert|done|simpl; Z.div_mod_to_equations; lia]. Qed.

(** One byte more, as long as 255 are not exceeded. *)
Lemma rep_put rb q item : rep rb q -> Z.of_nat (length q) < 255 -> rep (put_state rb item) (q ++ [u8 item]).
Proof.
  intros [Hok <-] Hq. pose proof (put_state_ok rb item Hok) as Hok'. pose proof (queued_length rb Hok) as Hlq.
  pose proof (queued_length _ Hok') as Hlq'. change (rb_get (put_state rb item)) with (rb_get rb) in Hlq'.
  change (rb_put (put_state rb item)) with ((rb_put rb + 1) mod 256) in Hlq'. pose proof Hok as [Hl Hg Hp].
  assert (Hlen : length (queued (put_state rb item)) = S (length (queued rb))) by (Z.div_mod_to_equations; lia).
  split; [done|]. apply list_eq. intros k. destruct (Nat.lt_ge_cases k (S (length (queued rb)))) as [Hk|Hk].
  - rewrite queued_lookup by (done || lia). change (rb_get (put_state rb item)) with (rb_get rb).
    change (rb_buf (put_state rb item)) with (<[Z.to_nat (rb_put rb) := u8 item]> (rb_buf rb)).
    destruct (decide (k = length (queued rb))) as [->|Hne].
    + rewrite lookup_app_r, Nat.sub_diag by lia. replace ((rb_get rb + Z.of_nat (length (queued rb))) mod 256) with (rb_put rb)
        by (Z.div_mod_to_equations; lia). rewrite list_lookup_insert_eq by lia. done.
    + rewrite lookup_app_l, queued_lookup by (done || lia). apply list_lookup_insert_ne.
      intros E. apply Z2Nat.inj in E; [|lia|apply Z.mod_pos_bound; lia]. Z.div_mod_to_equations; lia.
  - rewrite !lookup_ge_None_2 by (rewrite ?length_app; simpl; lia). done.
Qed.

(** The 256th byte empties the queue. *)
Lemma rep_put_full rb q item : rep rb q -> length q = 255%nat -> rep (put_state rb item) [].
Proof.
  intros [Hok <-] Hq. pose proof (put_state_ok rb item Hok) as Hok'. split; [done|]. apply length_zero_iff_nil.
  pose proof (queued_length rb Hok). pose proof (queued_length _ Hok'). destruct Hok as [_ Hg Hp]. simpl in *.
  Z.div_mod_to_equations; lia.
Qed.

(** ** Appending *)

Definition enqueue (q : list Z) (b : Z) : list Z := if decide (length q < 255)%nat then q ++ [b] else [].

Definition appends (m : M mqtt_ringbuf_t unit) (bs : list Z) : Prop :=
  forall rb q, rep rb q -> wp m (fun _ rb' => rep rb' (fold_left enqueue bs q)) rb.

Lemma rep_bound rb q : rep rb q -> (length q <= 255)%nat.
Proof. intros [Hok <-]. pose proof (queued_length rb Hok). Z.div_mod_to_equations; lia. Qed.

Lemma enqueue_one q b : (length q < 255)%nat -> enqueue q b = q ++ [b].
Proof. intros Hq. unfold enqueue. by rewrite decide_True. Qed.

Lemma enqueue_fits bs q : (length q + length bs <= 255)%nat -> fold_left enqueue bs q = q ++ bs.
Proof.
  revert q. induction bs as [|b bs IH]; intros q Hq; simpl in *; [by rewrite app_nil_r|].
  rewrite enqueue_one, IH by (rewrite ?length_app; simpl; lia). by rewrite <- app_assoc.
Qed.

Lemma enqueue_full bs q : (length q + length bs = 256)%nat -> bs <> [] -> fold_left enqueue bs q = [].
Proof.
  intros Hq Hn. destruct (exists_last Hn) as (bs' & b & ->). rewrite length_app in Hq. simpl in Hq. rewrite fold_left_app.
  rewrite (enqueue_fits bs' q) by lia. simpl. unfold enqueue. rewrite decide_False; [done|]. rewrite length_app. lia.
Qed.

Lemma appends_put item : appends (mqtt_ringbuf_put item) [u8 item].
Proof.
  intros rb q Hr. eapply wp_of_run; [apply ringbuf_put_run, Hr|]. pose proof (rep_bound rb q Hr). simpl. unfold enqueue.
  case_decide; [apply rep_put; [done|lia]|apply (rep_put_full rb q); [done|lia]].
Qed.

Lemma appends_nil : appends (mret tt) [].
Proof. intros rb q Hr. done. Qed.

Lemma appends_seq m1 m2 b1 b2 : appends m1 b1 -> appends m2 b2 -> appends (m1;; m2) (b1 ++ b2).
Proof.
  intros H1 H2 rb q Hr. apply wp_bind. eapply wp_mono; [by apply H1|]. intros [] rb' Hr'. rewrite fold_left_app. by apply H2.
Qed.

Lemma appends_when (b : bool) m bs : (b = true -> appends m bs) -> appends (when b m) (if b then bs else []).
Proof. destruct b; intros Hm; [by apply Hm|apply appends_nil]. Qed.

Lemma u8_list (l : list Z) : Forall byte l -> u8 <$> l = l.
Proof. induction 1 as [|x l Hx _ IH]; [done|]. cbn [fmap list_fmap map]. change (u8 x :: (u8 <$> l) = x :: l). by rewrite IH, u8_small. Qed.

Lemma appends_from data n : 0 <= n <= Z.of_nat (length data) ->
  appends (put_from data n) (u8 <$> take (Z.to_nat n) data).
Proof.
  intros Hn. unfold put_from, seqZ.
  assert (G : forall k j, (j + k <= length data)%nat ->
    appends (for_each ((fun i => Z.of_nat i + 0) <$> seq j k) (fun n => x ← deref OutOfBounds (data !! Z.to_nat n); mqtt_ringbuf_put x))
      (u8 <$> take k (drop j data))).
  { induction k as [|k IH]; intros j Hj; [rewrite take_0; apply appends_nil|]. cbn [seq fmap list_fmap for_each].
    destruct (lookup_lt_is_Some_2 data j) as [x Hx]; [lia|]. rewrite (drop_S _ x) by done. cbn [firstn fmap list_fmap].
    apply (appends_seq _ _ [u8 x]); [|apply IH; lia]. rewrite Z.add_0_r, Nat2Z.id, Hx. intros rb q Hr. apply wp_bind, wp_ret. by apply appends_put. }
  specialize (G (Z.to_nat n) 0%nat). rewrite drop_0 in G. apply G. lia.
Qed.

(** ** What the builders append *)

(** MQTT 2.2.3: seven bits a byte, the lowest first, the high bit while more follow. *)
Fixpoint var_length (k : nat) (n : Z) : list Z :=
  match k with
  | O => []
  | S k => if n <? 128 then [n] else (n mod 128 + 128) :: var_length k (n / 128)
  end.

Definition msg_length (n : Z) : list Z := var_length 4 n.

Definition control_byte (type dup qos retain : Z) : Z := type * 16 + dup * 8 + qos * 2 + retain.

(** A 16-bit field and a string of MQTT 1.5. *)
Definition field16 (x : Z) : list Z := [x / 256; x mod 256].
Definition mqtt_string (s : list Z) : list Z := field16 (Z.of_nat (length s)) ++ s.

Definition message (type dup qos retain : Z) (body : list Z) : list Z :=
  control_byte type dup qos retain :: msg_length (Z.of_nat (length body)) ++ body.

Lemma appends_u16 x : 0 <= x < 65536 -> appends (mqtt_output_append_u16 x) (field16 x).
Proof.
  intros Hx. replace (field16 x) with ([u8 (Z.shiftr x 8)] ++ [u8 (Z.land x 0xff)]); [by apply appends_seq; apply appends_put|].
  rewrite shiftr_8, land_255, u8_idemp. unfold field16. simpl. f_equal. apply u8_small. Z.div_mod_to_equations; lia.
Qed.

Lemma appends_buf data n : Forall byte (take (Z.to_nat n) data) -> 0 <= n <= Z.of_nat (length data) ->
  appends (mqtt_output_append_buf data n) (take (Z.to_nat n) data).
Proof.
  intros Hb Hn. unfold mqtt_output_append_buf. pose proof (appends_from data n Hn) as Ha. by rewrite u8_list in Ha.
Qed.

Lemma appends_string_n s n : Forall byte (take (Z.to_nat n) s) -> 0 <= n <= Z.of_nat (length s) -> n < 65536 ->
  appends (mqtt_output_append_string s n) (mqtt_string (take (Z.to_nat n) s)).
Proof.
  intros Hb Hn Hs. unfold mqtt_output_append_string, mqtt_string. rewrite length_take, Nat.min_l, Z2Nat.id by lia.
  replace (field16 n) with ([u8 (Z.shiftr n 8)] ++ [u8 (Z.land n 0xff)]).
  - rewrite <- app_assoc. apply appends_seq; [apply appends_put|]. apply appends_seq; [apply appends_put|].
    pose proof (appends_from (s ++ [0]) n) as Ha. rewrite take_app_le, u8_list in Ha by (done || lia).
    apply Ha. rewrite length_app. simpl. lia.
  - rewrite shiftr_8, land_255, u8_idemp. unfold field16. simpl. f_equal. apply u8_small. Z.div_mod_to_equations; lia.
Qed.

Lemma appends_string s : Forall byte s -> Z.of_nat (length s) < 65536 ->
  appends (mqtt_output_append_string s (Z.of_nat (length s))) (mqtt_string s).
Proof.
  intros Hb Hs. pose proof (appends_string_n s (Z.of_nat (length s))) as Ha. rewrite Nat2Z.id, firstn_all in Ha. apply Ha; [done|lia|lia].
Qed.

Lemma appends_length k n : 0 <= n < 128 ^ Z.of_nat k -> (0 < k)%nat ->
  appends (iter k fixed_header_body n) (var_length k n).
Proof.
  revert n. induction k as [|k IH]; intros n Hn Hk; [lia|]. intros rb q Hr. cbn [iter var_length]. apply wp_bind, wp_bind.
  assert (E : Z.lor (Z.land n 0x7f) (if 128 <=? n then 0x80 else 0) = if n <? 128 then n else n mod 128 + 128).
  { change 0x7f with (Z.ones 7). rewrite Z.land_ones by lia. change (2 ^ 7) with 128. destruct (Z.leb_spec 128 n).
    - rewrite (proj2 (Z.ltb_ge _ _)) by lia. rewrite Z.lor_comm. change 0x80 with (1 * 2 ^ 7) at 1.
      rewrite lor_shift_add; [lia|lia|]. change (2 ^ 7) with 128. apply Z.mod_pos_bound. lia.
    - rewrite Z.lor_0_r, (proj2 (Z.ltb_lt _ _)), Z.mod_small by lia. done. }
  unfold mqtt_output_append_u8. rewrite E, (Z.shiftr_div_pow2 n 7) by lia. change (2 ^ 7) with 128.
  eapply wp_mono; [by apply appends_put|]. intros [] rb' Hr'. cbv beta zeta. apply wp_ret.
  destruct (Z.ltb_spec n 128).
  - rewrite Z.div_small, Z.ltb_irrefl by lia. apply wp_ret. rewrite u8_small in Hr' by lia. done.
  - rewrite (proj2 (Z.ltb_lt _ _)) by (Z.div_mod_to_equations; lia). rewrite u8_small in Hr' by (Z.div_mod_to_equations; lia).
    destruct k as [|k]; [change (128 ^ Z.of_nat 1) with 128 in Hn; lia|]. simpl fold_left. apply IH; [|lia|done].
    rewrite (Nat2Z.inj_succ (S k)), Z.pow_succ_r in Hn by lia. split; [apply Z.div_pos; lia|]. apply Z.div_lt_upper_bound; lia.
Qed.

Lemma var_length_more k n : 0 <= n < 128 ^ Z.of_nat k -> (0 < k)%nat -> var_length (S k) n = var_length k n.
Proof.
  revert n. induction k as [|k IH]; intros n Hn Hk; [lia|]. destruct k as [|k].
  { change (128 ^ Z.of_nat 1) with 128 in Hn. simpl. by rewrite (proj2 (Z.ltb_lt _ _)) by lia. }
  change (var_length (S (S (S k))) n) with (if n <? 128 then [n] else (n mod 128 + 128) :: var_length (S (S k)) (n / 128)).
  rewrite IH; [done| |lia]. rewrite (Nat2Z.inj_succ (S k)), Z.pow_succ_r in Hn by lia.
  split; [apply Z.div_pos; lia|]. apply Z.div_lt_upper_bound; lia.
Qed.

Lemma control_byte_value type dup qos retain : 0 <= type < 16 -> 0 <= dup < 2 -> 0 <= qos < 4 -> 0 <= retain < 2 ->
  Z.lor (Z.lor (Z.lor (Z.shiftl (Z.land type 0x0f) 4) (Z.shiftl (Z.land dup 1) 3)) (Z.shiftl (Z.land qos 3) 1)) (Z.land retain 1) =
  control_byte type dup qos retain.
Proof.
  intros Ht Hd Hq Hr. change 0x0f with (Z.ones 4). change (Z.land qos 3) with (Z.land qos (Z.ones 2)).
  rewrite !land_1, !Z.land_ones, !Z.shiftl_mul_pow2 by lia.
  rewrite !Z.mod_small by lia. unfold control_byte.
  replace (type * 2 ^ 4) with (type * 2 * 2 ^ 3) by lia. rewrite <- (Z.lor_assoc (type * 2 * 2 ^ 3)).
  assert (E : Z.lor (type * 2 * 2 ^ 3) (dup * 2 ^ 3) = (type * 2 + dup) * 2 ^ 3).
  { rewrite <- !Z.shiftl_mul_pow2, <- Z.shiftl_lor by lia. f_equal. by apply (lor_shift_add type dup 1). }
  rewrite Z.lor_assoc, E. replace ((type * 2 + dup) * 2 ^ 3) with ((type * 2 + dup) * 4 * 2 ^ 1) by lia.
  rewrite <- (Z.lor_assoc _ (qos * 2 ^ 1)), (lor_shift_add qos retain 1) by lia.
  replace ((type * 2 + dup) * 4 * 2 ^ 1) with ((type * 2 + dup) * 2 ^ 3) by lia. rewrite lor_shift_add by lia. lia.
Qed.

Lemma appends_fixed_header type dup qos retain n : 0 <= type < 16 -> 0 <= dup < 2 -> 0 <= qos < 4 -> 0 <= retain < 2 ->
  0 <= n < 65536 ->
  appends (mqtt_output_append_fixed_header type dup qos retain n) (control_byte type dup qos retain :: msg_length n).
Proof.
  intros Ht Hd Hq Hr Hn. unfold mqtt_output_append_fixed_header, msg_length. rewrite control_byte_value by done.
  rewrite (var_length_more 3) by (change (128 ^ Z.of_nat 3) with 2097152; lia).
  apply (appends_seq _ _ [control_byte type dup qos retain]); [|apply appends_length; [change (128 ^ Z.of_nat 3) with 2097152; lia|lia]].
  rewrite <- (u8_small (control_byte type dup qos retain)) at 2 by (unfold control_byte; lia). apply appends_put.
Qed.

(** ** The room left *)

Lemma check_space_loop k n t rb : 0 <= n < 128 ^ Z.of_nat k -> (0 < k)%nat ->
  iter k check_space_body (t, n) rb = Ret (u16 (u16 t + Z.of_nat (length (var_length k n)))) rb.
Proof.
  revert n t. induction k as [|k IH]; intros n t Hn Hk; [lia|]. cbn [iter var_length].
  erewrite bind_Ret by reflexivity. rewrite (Z.shiftr_div_pow2 n 7) by lia. change (2 ^ 7) with 128. destruct (Z.ltb_spec n 128).
  - rewrite Z.div_small, Z.ltb_irrefl by lia. unfold mret, M_ret. f_equal. simpl. wrap_lia.
  - rewrite (proj2 (Z.ltb_lt _ _)) by (Z.div_mod_to_equations; lia).
    destruct k as [|k]; [change (128 ^ Z.of_nat 1) with 128 in Hn; lia|]. rewrite IH; [|split|lia].
    + f_equal. cbn [length]. wrap_lia.
    + apply Z.div_pos; lia.
    + rewrite (Nat2Z.inj_succ (S k)), Z.pow_succ_r in Hn by lia. apply Z.div_lt_upper_bound; lia.
Qed.

(** The answer is about the length of the message modulo 2^16. *)
Lemma check_space_run rb q n : rep rb q -> 0 <= n < 65536 ->
  mqtt_output_check_space n rb =
    Ret (u16 (1 + n + Z.of_nat (length (msg_length n))) <=? 256 - Z.of_nat (length q)) rb.
Proof.
  intros [Hok <-] Hn. unfold mqtt_output_check_space. erewrite bind_Ret by
    (apply (check_space_loop 3); [change (128 ^ Z.of_nat 3) with 2097152; lia|lia]).
  erewrite bind_Ret by reflexivity. unfold mret, M_ret, mqtt_ringbuf_free, MQTT_OUTPUT_RINGBUF_SIZE.
  rewrite mqtt_ringbuf_len_queued by done. unfold msg_length. rewrite (var_length_more 3) by (change (128 ^ Z.of_nat 3) with 2097152; lia).
  do 2 f_equal. wrap_lia.
Qed.

Lemma msg_length_size n : 0 <= n < 65536 -> (1 <= length (msg_length n) <= 3)%nat.
Proof.
  intros Hn. unfold msg_length. rewrite (var_length_more 3) by (change (128 ^ Z.of_nat 3) with 2097152; lia). simpl.
  repeat case_match; simpl; lia.
Qed.

Lemma var_length_size k n : (0 < k)%nat -> (1 <= length (var_length k n) <= k)%nat.
Proof.
  revert n. induction k as [|k IH]; intros n Hk; [lia|]. cbn [var_length]. destruct (n <? 128); [simpl; lia|].
  destruct k; [simpl; lia|]. specialize (IH (n / 128)). cbn [length]. lia.
Qed.

Lemma mqtt_string_length s : length (mqtt_string s) = (2 + length s)%nat.
Proof. done. Qed.
