(* ===== verification/Mqtt.v ===== *)
(** The MQTT client: [src/lwip-2.2.1/src/apps/mqtt/mqtt.c].

    Callbacks of the application are events given to the class [Upper], which
    may change everything the client can reach; TCP and the timer of the client
    are the class [Net].  Assertions are off in this configuration, [LWIP_ERROR]
    handlers are on, debug output is off. *)
From S2P Require Import Prelude Memp Pbuf MqttRing.

Definition ERR_TIMEOUT : Z := -3.
Definition ERR_ISCONN : Z := -10.
Definition ERR_CONN : Z := -11.
Definition ERR_ABRT : Z := -13.
Definition TCP_WRITE_FLAG_COPY : Z := 0x01.
Definition TCP_WRITE_FLAG_MORE : Z := 0x02.

(** ** The client *)

Inductive mqtt_conn_state : Type := TCP_DISCONNECTED | TCP_CONNECTING | MQTT_CONNECTING | MQTT_CONNECTED.

#[global] Instance mqtt_conn_state_eq_dec : EqDecision mqtt_conn_state.
Proof. solve_decision. Defined.

(** A request is named by its index in [req_list]; an unused one is its own
    [next].  Function pointers and arguments are numbers. *)
Record mqtt_request_t : Type := Req {
  r_next : option nat;
  r_cb : option Z;
  r_arg : Z;
  r_pkt_id : Z;
  timeout_diff : Z
}.

Definition set_r_next (x : option nat) (r : mqtt_request_t) : mqtt_request_t :=
  Req x (r_cb r) (r_arg r) (r_pkt_id r) (timeout_diff r).
Definition set_timeout_diff (x : Z) (r : mqtt_request_t) : mqtt_request_t :=
  Req (r_next r) (r_cb r) (r_arg r) (r_pkt_id r) x.

Record mqtt_client_t : Type := Client {
  cyclic_tick : Z;
  keep_alive : Z;
  server_watchdog : Z;
  pkt_id_seq : Z;
  inpub_pkt_id : Z;
  conn_state : mqtt_conn_state;
  conn : option Z;
  connect_arg : Z;
  connect_cb : option Z;
  pend_req_queue : option nat;
  req_list : list mqtt_request_t;
  inpub_arg : Z;
  data_cb : option Z;
  pub_cb : option Z;
  msg_idx : Z;
  rx_buffer : list Z;
  output : mqtt_ringbuf_t
}.

Definition set_cyclic_tick (x : Z) (c : mqtt_client_t) : mqtt_client_t :=
  Client x (keep_alive c) (server_watchdog c) (pkt_id_seq c) (inpub_pkt_id c) (conn_state c) (conn c) (connect_arg c)
    (connect_cb c) (pend_req_queue c) (req_list c) (inpub_arg c) (data_cb c) (pub_cb c) (msg_idx c) (rx_buffer c)
    (output c).
Definition set_server_watchdog (x : Z) (c : mqtt_client_t) : mqtt_client_t :=
  Client (cyclic_tick c) (keep_alive c) x (pkt_id_seq c) (inpub_pkt_id c) (conn_state c) (conn c) (connect_arg c)
    (connect_cb c) (pend_req_queue c) (req_list c) (inpub_arg c) (data_cb c) (pub_cb c) (msg_idx c) (rx_buffer c)
    (output c).
Definition set_pkt_id_seq (x : Z) (c : mqtt_client_t) : mqtt_client_t :=
  Client (cyclic_tick c) (keep_alive c) (server_watchdog c) x (inpub_pkt_id c) (conn_state c) (conn c) (connect_arg c)
    (connect_cb c) (pend_req_queue c) (req_list c) (inpub_arg c) (data_cb c) (pub_cb c) (msg_idx c) (rx_buffer c)
    (output c).
Definition set_inpub_pkt_id (x : Z) (c : mqtt_client_t) : mqtt_client_t :=
  Client (cyclic_tick c) (keep_alive c) (server_watchdog c) (pkt_id_seq c) x (conn_state c) (conn c) (connect_arg c)
    (connect_cb c) (pend_req_queue c) (req_list c) (inpub_arg c) (data_cb c) (pub_cb c) (msg_idx c) (rx_buffer c)
    (output c).
Definition set_conn_state (x : mqtt_conn_state) (c : mqtt_client_t) : mqtt_client_t :=
  Client (cyclic_tick c) (keep_alive c) (server_watchdog c) (pkt_id_seq c) (inpub_pkt_id c) x (conn c) (connect_arg c)
    (connect_cb c) (pend_req_queue c) (req_list c) (inpub_arg c) (data_cb c) (pub_cb c) (msg_idx c) (rx_buffer c)
    (output c).
Definition set_conn (x : option Z) (c : mqtt_client_t) : mqtt_client_t :=
  Client (cyclic_tick c) (keep_alive c) (server_watchdog c) (pkt_id_seq c) (inpub_pkt_id c) (conn_state c) x
    (connect_arg c) (connect_cb c) (pend_req_queue c) (req_list c) (inpub_arg c) (data_cb c) (pub_cb c) (msg_idx c)
    (rx_buffer c) (output c).
Definition set_pend_req_queue (x : option nat) (c : mqtt_client_t) : mqtt_client_t :=
  Client (cyclic_tick c) (keep_alive c) (server_watchdog c) (pkt_id_seq c) (inpub_pkt_id c) (conn_state c) (conn c)
    (connect_arg c) (connect_cb c) x (req_list c) (inpub_arg c) (data_cb c) (pub_cb c) (msg_idx c) (rx_buffer c)
    (output c).
Definition set_req_list (x : list mqtt_request_t) (c : mqtt_client_t) : mqtt_client_t :=
  Client (cyclic_tick c) (keep_alive c) (server_watchdog c) (pkt_id_seq c) (inpub_pkt_id c) (conn_state c) (conn c)
    (connect_arg c) (connect_cb c) (pend_req_queue c) x (inpub_arg c) (data_cb c) (pub_cb c) (msg_idx c) (rx_buffer c)
    (output c).
Definition set_inpub_arg (x : Z) (c : mqtt_client_t) : mqtt_client_t :=
  Client (cyclic_tick c) (keep_alive c) (server_watchdog c) (pkt_id_seq c) (inpub_pkt_id c) (conn_state c) (conn c)
    (connect_arg c) (connect_cb c) (pend_req_queue c) (req_list c) x (data_cb c) (pub_cb c) (msg_idx c) (rx_buffer c)
    (output c).
Definition set_data_cb (x : option Z) (c : mqtt_client_t) : mqtt_client_t :=
  Client (cyclic_tick c) (keep_alive c) (server_watchdog c) (pkt_id_seq c) (inpub_pkt_id c) (conn_state c) (conn c)
    (connect_arg c) (connect_cb c) (pend_req_queue c) (req_list c) (inpub_arg c) x (pub_cb c) (msg_idx c) (rx_buffer
    c) (output c).
Definition set_pub_cb (x : option Z) (c : mqtt_client_t) : mqtt_client_t :=
  Client (cyclic_tick c) (keep_alive c) (server_watchdog c) (pkt_id_seq c) (inpub_pkt_id c) (conn_state c) (conn c)
    (connect_arg c) (connect_cb c) (pend_req_queue c) (req_list c) (inpub_arg c) (data_cb c) x (msg_idx c) (rx_buffer
    c) (output c).
Definition set_msg_idx (x : Z) (c : mqtt_client_t) : mqtt_client_t :=
  Client (cyclic_tick c) (keep_alive c) (server_watchdog c) (pkt_id_seq c) (inpub_pkt_id c) (conn_state c) (conn c)
    (connect_arg c) (connect_cb c) (pend_req_queue c) (req_list c) (inpub_arg c) (data_cb c) (pub_cb c) x (rx_buffer
    c) (output c).
Definition set_rx_buffer (x : list Z) (c : mqtt_client_t) : mqtt_client_t :=
  Client (cyclic_tick c) (keep_alive c) (server_watchdog c) (pkt_id_seq c) (inpub_pkt_id c) (conn_state c) (conn c)
    (connect_arg c) (connect_cb c) (pend_req_queue c) (req_list c) (inpub_arg c) (data_cb c) (pub_cb c) (msg_idx c) x
    (output c).
Definition set_output (x : mqtt_ringbuf_t) (c : mqtt_client_t) : mqtt_client_t :=
  Client (cyclic_tick c) (keep_alive c) (server_watchdog c) (pkt_id_seq c) (inpub_pkt_id c) (conn_state c) (conn c)
    (connect_arg c) (connect_cb c) (pend_req_queue c) (req_list c) (inpub_arg c) (data_cb c) (pub_cb c) (msg_idx c)
    (rx_buffer c) x.

Definition zero_client : mqtt_client_t :=
  Client 0 0 0 0 0 TCP_DISCONNECTED None 0 None None (replicate 4 (Req None None 0 0 0)) 0 None None 0
    (replicate 128 0) (Ring 0 0 (replicate 256 0)).

(** [struct mqtt_connect_client_info_t]. *)
Record mqtt_connect_client_info_t : Type := ClientInfo {
  client_id : list Z;
  client_user : option (list Z);
  client_pass : option (list Z);
  ci_keep_alive : Z;
  will_topic : option (list Z);
  will_msg : option (list Z);
  will_msg_len : Z;
  will_qos : Z;
  will_retain : Z
}.

(** ** The surroundings *)

(** Calls into TCP, besides those with a result of their own. *)
Inductive net_request : Type :=
| AltcpArg
| AltcpRecv (on : bool) | AltcpErr (on : bool) | AltcpSent (on : bool) | AltcpPoll (interval : Z)
| AltcpBind | AltcpConnect (ip port : Z)
| AltcpOutput | AltcpRecved (n : Z)
| AltcpClose | AltcpAbort.

Class Net : Type := {
  nstate : Type;
  altcp_new : nstate -> option Z * nstate;
  altcp_sndbuf : Z -> nstate -> Z;
  altcp_write : Z -> list Z -> Z -> nstate -> Z * nstate;
  altcp_call : Z -> net_request -> nstate -> Z * nstate;
  (** [sys_timeout(msecs, mqtt_cyclic_timer, client)]; [None] is [sys_untimeout]. *)
  cyclic_timeout : option Z -> nstate -> nstate
}.

(** The callbacks: function, argument, parameters. *)
Inductive mqtt_event : Type :=
| Ev_connect (f arg status : Z)
| Ev_request (f arg err : Z)
| Ev_publish (f arg : Z) (topic : list Z) (tot_len : Z)
| Ev_data (f arg : Z) (data : list Z) (flags : Z).

Record mqtt_state `{HeapOps} `{Net} (U : Type) : Type := Mqtt {
  mq_mem : mem;
  mq_net : nstate;
  mq_up : U;
  mq_client : mqtt_client_t
}.
Arguments Mqtt {_ _ _} _ _ _ _.
Arguments mq_mem {_ _ _} _.
Arguments mq_net {_ _ _} _.
Arguments mq_up {_ _ _} _.
Arguments mq_client {_ _ _} _.

(** The application behind the callbacks, with a state of its own. *)
Class Upper `{HeapOps} `{Net} : Type := {
  ustate : Type;
  notify : mqtt_event -> M (mqtt_state ustate) unit
}.

Section Mqtt.
Context `{Upper}.

Definition mqtt : Type := mqtt_state ustate.

Definition on_pbufs {A} (x : M mem A) : M mqtt A :=
  zoom mq_mem (fun m s => Mqtt m (mq_net s) (mq_up s) (mq_client s)) x.
Definition on_net {A} (f : nstate -> A * nstate) : M mqtt A :=
  zoom mq_net (fun n s => Mqtt (mq_mem s) n (mq_up s) (mq_client s)) (fun n => Ret (f n).1 (f n).2).

(** [client->field] and [client->field = ...]. *)
Definition field {A} (f : mqtt_client_t -> A) : M mqtt A := gets (fun s => f (mq_client s)).
Definition update (f : mqtt_client_t -> mqtt_client_t) : M mqtt unit :=
  modify (fun s => Mqtt (mq_mem s) (mq_net s) (mq_up s) (f (mq_client s))).
Definition on_output {A} (x : M mqtt_ringbuf_t A) : M mqtt A :=
  zoom (fun s => output (mq_client s)) (fun rb s => Mqtt (mq_mem s) (mq_net s) (mq_up s) (set_output rb (mq_client s))) x.

(** A call on a connection, which must not be NULL. *)
Definition tcp_call (pcb : option Z) (r : net_request) : M mqtt Z :=
  c ← deref NullDeref pcb; on_net (altcp_call c r).
Definition timer_call (msecs : option Z) : M mqtt unit := on_net (fun n => (tt, cyclic_timeout msecs n)).

(** [if (cb != NULL) cb(...)]. *)
Definition call_back (f : option Z) (ev : Z -> mqtt_event) : M mqtt unit :=
  match f with Some f => notify (ev f) | None => mret tt end.

Definition msg_generate_packet_id : M mqtt Z :=
  n ← field pkt_id_seq;
  let n := u16 (n + 1) in
  let n := if n =? 0 then 1 else n in
  update (set_pkt_id_seq n);; mret n.

(** ** Output *)

Definition mqtt_output_send (tpcb : option Z) : M mqtt unit :=
  rb ← field output;
  let ringbuf_lin_len := mqtt_ringbuf_linear_read_length rb in
  c ← deref NullDeref tpcb;
  send_len ← on_net (fun n => (altcp_sndbuf c n, n));
  if (send_len =? 0) || (ringbuf_lin_len =? 0) then mret tt
  else
    let wrap := (ringbuf_lin_len <? send_len) && (ringbuf_lin_len <? mqtt_ringbuf_len rb) in
    let send_len := if ringbuf_lin_len <? send_len then ringbuf_lin_len else send_len in
    data ← deref OutOfBounds (mqtt_ringbuf_get_ptr rb send_len);
    err ← on_net (altcp_write c data (Z.lor TCP_WRITE_FLAG_COPY (if wrap then TCP_WRITE_FLAG_MORE else 0)));
    '(err, send_len) ←
      (if (err =? ERR_OK) && wrap then
         update (fun cl => set_output (mqtt_ringbuf_advance_get_idx send_len (output cl)) cl);;
         rb ← field output;
         n ← on_net (fun n => (altcp_sndbuf c n, n));
         let send_len := Z.min n (mqtt_ringbuf_linear_read_length rb) in
         data ← deref OutOfBounds (mqtt_ringbuf_get_ptr rb send_len);
         err ← on_net (altcp_write c data TCP_WRITE_FLAG_COPY);
         mret (err, send_len)
       else mret (err, send_len));
    when (err =? ERR_OK)
      (update (fun cl => set_output (mqtt_ringbuf_advance_get_idx send_len (output cl)) cl);;
       tcp_call tpcb AltcpOutput;; mret tt).

(** ** Requests *)

Definition get_req (i : nat) : M mqtt mqtt_request_t := l ← field req_list; deref BadPointer (l !! i).
Definition set_req (i : nat) (f : mqtt_request_t -> mqtt_request_t) : M mqtt unit :=
  r ← get_req i; update (fun c => set_req_list (<[i := f r]> (req_list c)) c).

(** The first unused item from index [n] on. *)
Fixpoint find_unused (n : nat) (l : list mqtt_request_t) : option nat :=
  match l with
  | [] => None
  | r :: l => if bool_decide (r_next r = Some n) then Some n else find_unused (S n) l
  end.

Definition mqtt_create_request (pkt_id : Z) (cb : option Z) (arg : Z) : M mqtt (option nat) :=
  l ← field req_list;
  match find_unused 0 l with
  | None => mret None
  | Some n => set_req n (fun r => Req None cb arg pkt_id (timeout_diff r));; mret (Some n)
  end.

(** The queue holds at most all the items of [req_list]. *)
Definition queue_fuel : M mqtt nat := l ← field req_list; mret (S (length l)).

Definition append_body (x : option nat * option nat * Z) : M mqtt (option nat * option nat * Z + option nat * Z) :=
  let '(it, head, time_before) := x in
  match it with
  | None => mret (inr (head, time_before))
  | Some i => r ← get_req i; mret (inl (r_next r, Some i, s16 (time_before + timeout_diff r)))
  end.

Definition mqtt_append_request (r : nat) : M mqtt unit :=
  tail ← field pend_req_queue;
  fuel ← queue_fuel;
  '(head, time_before) ← iter fuel append_body (tail, None, 0);
  set_req r (set_timeout_diff (u16 (MQTT_REQ_TIMEOUT - time_before)));;
  match head with
  | None => update (set_pend_req_queue (Some r))
  | Some h => set_req h (set_r_next (Some r))
  end.

Definition mqtt_delete_request (r : option nat) : M mqtt unit :=
  match r with Some i => set_req i (set_r_next (Some i)) | None => mret tt end.

Definition take_body (pkt_id : Z) (x : option nat * option nat) : M mqtt (option nat * option nat + option nat * option nat) :=
  let '(it, prev) := x in
  match it with
  | None => mret (inr (None, prev))
  | Some i =>
    r ← get_req i;
    mret (if r_pkt_id r =? pkt_id then inr (Some i, prev) else inl (r_next r, Some i))
  end.

Definition mqtt_take_request (pkt_id : Z) : M mqtt (option nat) :=
  tail ← field pend_req_queue;
  fuel ← queue_fuel;
  '(it, prev) ← iter fuel (take_body pkt_id) (tail, None);
  match it with
  | None => mret None
  | Some i =>
    r ← get_req i;
    match prev with
    | None => update (set_pend_req_queue (r_next r))
    | Some p => set_req p (set_r_next (r_next r))
    end;;
    match r_next r with
    | Some n => set_req n (fun x => set_timeout_diff (u16 (timeout_diff x + timeout_diff r)) x)
    | None => mret tt
    end;;
    set_req i (set_r_next None);;
    mret (Some i)
  end.

Definition time_elapsed_body (x : Z * option nat) : M mqtt (Z * option nat + unit) :=
  let '(t, r) := x in
  match r with
  | None => mret (inr tt)
  | Some i =>
    if 0 <? t then
      q ← get_req i;
      if timeout_diff q <=? t then
        update (set_pend_req_queue (r_next q));;
        call_back (r_cb q) (fun f => Ev_request f (r_arg q) ERR_TIMEOUT);;
        mqtt_delete_request (Some i);;
        tail ← field pend_req_queue;
        mret (inl (u8 (t - u8 (timeout_diff q)), tail))
      else
        set_req i (set_timeout_diff (u16 (timeout_diff q - t)));;
        mret (inl (0, Some i))
    else mret (inr tt)
  end.

(** The callbacks may append requests: the fuel is an argument. *)
Definition mqtt_request_time_elapsed (fuel : nat) (t : Z) : M mqtt unit :=
  r ← field pend_req_queue; iter fuel time_elapsed_body (t, r).

Definition clear_body (it : option nat) : M mqtt (option nat + unit) :=
  match it with
  | None => mret (inr tt)
  | Some i => r ← get_req i; mqtt_delete_request (Some i);; mret (inl (r_next r))
  end.

Definition mqtt_clear_requests : M mqtt unit :=
  tail ← field pend_req_queue;
  fuel ← queue_fuel;
  iter fuel clear_body tail;;
  update (set_pend_req_queue None).

Definition mqtt_init_requests : M mqtt unit :=
  l ← field req_list; for_each (seq 0 (length l)) (fun n => set_req n (set_r_next (Some n))).

(** ** Closing *)

Definition mqtt_close (reason : Z) : M mqtt unit :=
  c ← field conn;
  when (bool_decide (c <> None))
    (tcp_call c (AltcpRecv false);;
     tcp_call c (AltcpErr false);;
     tcp_call c (AltcpSent false);;
     res ← tcp_call c AltcpClose;
     when (negb (res =? ERR_OK)) (tcp_call c AltcpAbort;; mret tt);;
     update (set_conn None));;
  mqtt_clear_requests;;
  timer_call None;;
  st ← field conn_state;
  when (bool_decide (st <> TCP_DISCONNECTED))
    (update (set_conn_state TCP_DISCONNECTED);;
     f ← field connect_cb;
     a ← field connect_arg;
     call_back f (fun f => Ev_connect f a reason)).

(** ** The cyclic timer *)

(** What the timer does in each state; the result is [restart_timer]. *)
Definition cyclic_connecting : M mqtt bool :=
  update (fun c => set_cyclic_tick (u16 (cyclic_tick c + 1)) c);;
  n ← field cyclic_tick;
  if MQTT_CONNECT_TIMOUT <=? n * MQTT_CYCLIC_TIMER_INTERVAL then mqtt_close MQTT_CONNECT_TIMEOUT;; mret false
  else mret true.

Definition cyclic_connected (fuel : nat) : M mqtt bool :=
  mqtt_request_time_elapsed fuel MQTT_CYCLIC_TIMER_INTERVAL;;
  k ← field keep_alive;
  if 0 <? k then
    update (fun c => set_server_watchdog (u16 (server_watchdog c + 1)) c);;
    w ← field server_watchdog;
    k ← field keep_alive;
    restart_timer ←
      (if k + k / 2 <? w * MQTT_CYCLIC_TIMER_INTERVAL then mqtt_close MQTT_CONNECT_TIMEOUT;; mret false
       else mret true);
    update (fun c => set_cyclic_tick (u16 (cyclic_tick c + 1)) c);;
    n ← field cyclic_tick;
    k ← field keep_alive;
    when (k <=? n * MQTT_CYCLIC_TIMER_INTERVAL)
      (ok ← on_output (mqtt_output_check_space 0);
       when ok
         (on_output (mqtt_output_append_fixed_header MQTT_MSG_TYPE_PINGREQ 0 0 0 0);;
          update (set_cyclic_tick 0)));;
    mret restart_timer
  else mret true.

Definition mqtt_cyclic_timer (fuel : nat) : M mqtt unit :=
  st ← field conn_state;
  restart_timer ←
    match st with
    | MQTT_CONNECTING => cyclic_connecting
    | MQTT_CONNECTED => cyclic_connected fuel
    | _ => mret false
    end;
  when restart_timer (timer_call (Some (MQTT_CYCLIC_TIMER_INTERVAL * 1000))).

(** ** Input *)

Definition pub_ack_rec_rel_response (msg pkt_id qos : Z) : M mqtt Z :=
  ok ← on_output (mqtt_output_check_space 2);
  if (ok : bool) then
    on_output (mqtt_output_append_fixed_header msg 0 qos 0 2);;
    on_output (mqtt_output_append_u16 pkt_id);;
    c ← field conn;
    mqtt_output_send c;;
    mret ERR_OK
  else mret ERR_MEM.

Definition mqtt_incoming_suback (r : mqtt_request_t) (result : Z) : M mqtt unit :=
  call_back (r_cb r) (fun f => Ev_request f (r_arg r) (if result <? 3 then ERR_OK else ERR_ABRT)).

(** [var_hdr_payload]: NULL, into [rx_buffer], or into a pbuf. *)
Inductive var_ptr : Type := VNull | VRx (off : Z) | VPbuf (x : ptr).

Definition rx_ok (c : mqtt_client_t) (off n : Z) : bool :=
  (0 <=? off) && (off + n <=? Z.of_nat (length (rx_buffer c))).

(** [n] bytes from index [i] on. *)
Definition read_var (v : var_ptr) (i n : Z) : M mqtt (list Z) :=
  if n =? 0 then mret []
  else match v with
  | VNull => halt NullDeref
  | VRx off =>
    ok ← field (fun c => rx_ok c (off + i) n);
    if (ok : bool) then field (fun c => take (Z.to_nat n) (drop (Z.to_nat (off + i)) (rx_buffer c))) else halt OutOfBounds
  | VPbuf x => on_pbufs (read_at (Some x) i n)
  end.

Definition write_rx (off : Z) (bs : list Z) : M mqtt unit :=
  ok ← field (fun c => rx_ok c off (Z.of_nat (length bs)));
  if (ok : bool) then update (fun c => set_rx_buffer (splice (Z.to_nat off) bs (rx_buffer c)) c) else halt OutOfBounds.

Definition write_var (v : var_ptr) (i : Z) (bs : list Z) : M mqtt unit :=
  match v with
  | VNull => halt NullDeref
  | VRx off => write_rx (off + i) bs
  | VPbuf x => on_pbufs (write_at (Some x) i bs)
  end.

Definition var_byte (v : var_ptr) (i : Z) : M mqtt Z := bs ← read_var v i 1; mret (nth 0 bs 0).
Definition rx_byte (i : Z) : M mqtt Z := var_byte (VRx 0) i.

Definition var_u16 (v : var_ptr) (i : Z) : M mqtt Z :=
  a ← var_byte v i; b ← var_byte v (i + 1); mret (u16 (u16 (Z.shiftl a 8) + b)).

Definition receive_connack (length : Z) (v : var_ptr) : M mqtt Z :=
  st ← field conn_state;
  if bool_decide (st = MQTT_CONNECTING) then
    if length <? 2 then mret MQTT_CONNECT_DISCONNECTED
    else
      res ← var_byte v 1;
      when (res =? MQTT_CONNECT_ACCEPTED)
        (update (set_cyclic_tick 0);;
         update (set_conn_state MQTT_CONNECTED);;
         f ← field connect_cb;
         a ← field connect_arg;
         call_back f (fun f => Ev_connect f a res));;
      mret res
  else mret MQTT_CONNECT_ACCEPTED.

(** The first frame of a PUBLISH: topic and packet identifier.  The result is
    [payload_offset] and [payload_length], or [None] for [goto out_disconnect]. *)
Definition publish_header (fixed_hdr_len length remaining_length qos : Z) (v : var_ptr) : M mqtt (option (Z * Z)) :=
  let bufsize := u32 (MQTT_VAR_HEADER_BUFFER_LEN - fixed_hdr_len) in
  let qos_len := if qos =? 0 then 0 else 2 in
  if length <? 2 + qos_len then mret None
  else
    topic_len ← var_u16 v 0;
    if (length - (2 + qos_len) <? topic_len) || (u32 (bufsize - (2 + qos_len)) <? topic_len) then mret None
    else
      let after_topic := u16 (2 + topic_len) in
      if bufsize <? u32 (after_topic + (if qos =? 0 then 1 else 2)) then mret None
      else
        after_topic ←
          (if 0 <? qos then
             if length <? after_topic + 2 then mret None
             else
               id ← var_u16 v after_topic;
               update (set_inpub_pkt_id id);;
               mret (Some (u16 (after_topic + 2)))
           else update (set_inpub_pkt_id 0);; mret (Some after_topic));
        match after_topic with
        | None => mret None
        | Some after_topic =>
          bkp ← var_byte v (2 + topic_len);
          write_var v (2 + topic_len) [0];;
          let payload_length := u16 (length - after_topic) in
          f ← field pub_cb;
          a ← field inpub_arg;
          topic ← read_var v 2 topic_len;
          call_back f (fun f => Ev_publish f a topic (u32 (remaining_length + payload_length)));;
          write_var v (2 + topic_len) [bkp];;
          mret (Some (after_topic, payload_length))
        end.

Definition publish_payload (length remaining_length qos payload_offset payload_length : Z) (v : var_ptr) : M mqtt Z :=
  if (0 <? payload_length) || (remaining_length =? 0) then
    if length <? payload_offset + payload_length then mret MQTT_CONNECT_DISCONNECTED
    else
      f ← field data_cb;
      a ← field inpub_arg;
      data ← read_var v payload_offset payload_length;
      call_back f (fun f => Ev_data f a data (if remaining_length =? 0 then MQTT_DATA_FLAG_LAST else 0));;
      when ((remaining_length =? 0) && (0 <? qos))
        (id ← field inpub_pkt_id;
         pub_ack_rec_rel_response (if qos =? 1 then MQTT_MSG_TYPE_PUBACK else MQTT_MSG_TYPE_PUBREC) id 0;; mret tt);;
      mret MQTT_CONNECT_ACCEPTED
  else mret MQTT_CONNECT_ACCEPTED.

Definition receive_publish (fixed_hdr_len length remaining_length : Z) (v : var_ptr) : M mqtt Z :=
  b0 ← rx_byte 0;
  let qos := MQTT_CTL_PACKET_QOS b0 in
  idx ← field msg_idx;
  r ← (if idx =? u32 (fixed_hdr_len + length) then publish_header fixed_hdr_len length remaining_length qos v
       else mret (Some (0, length)));
  match r with
  | None => mret MQTT_CONNECT_DISCONNECTED
  | Some (payload_offset, payload_length) =>
    publish_payload length remaining_length qos payload_offset payload_length v
  end.

(** SUBACK, UNSUBACK, PUBACK and PUBCOMP. *)
Definition receive_reply (pkt_type pkt_id length : Z) (v : var_ptr) : M mqtt Z :=
  r ← mqtt_take_request pkt_id;
  match r with
  | None => mret MQTT_CONNECT_ACCEPTED
  | Some i =>
    q ← get_req i;
    if pkt_type =? MQTT_MSG_TYPE_SUBACK then
      if length <? 3 then mret MQTT_CONNECT_DISCONNECTED
      else
        result ← var_byte v 2;
        mqtt_incoming_suback q result;;
        mqtt_delete_request r;;
        mret MQTT_CONNECT_ACCEPTED
    else
      call_back (r_cb q) (fun f => Ev_request f (r_arg q) ERR_OK);;
      mqtt_delete_request r;;
      mret MQTT_CONNECT_ACCEPTED
  end.

Definition receive_other (pkt_type length : Z) (v : var_ptr) : M mqtt Z :=
  if length <? 2 then mret MQTT_CONNECT_DISCONNECTED
  else
    pkt_id ← var_u16 v 0;
    if pkt_id =? 0 then mret MQTT_CONNECT_DISCONNECTED
    else if pkt_type =? MQTT_MSG_TYPE_PUBREC then
      pub_ack_rec_rel_response MQTT_MSG_TYPE_PUBREL pkt_id 1;; mret MQTT_CONNECT_ACCEPTED
    else if pkt_type =? MQTT_MSG_TYPE_PUBREL then
      pub_ack_rec_rel_response MQTT_MSG_TYPE_PUBCOMP pkt_id 0;; mret MQTT_CONNECT_ACCEPTED
    else if (pkt_type =? MQTT_MSG_TYPE_SUBACK) || (pkt_type =? MQTT_MSG_TYPE_UNSUBACK)
         || (pkt_type =? MQTT_MSG_TYPE_PUBCOMP) || (pkt_type =? MQTT_MSG_TYPE_PUBACK) then
      receive_reply pkt_type pkt_id length v
    else mret MQTT_CONNECT_DISCONNECTED.

Definition mqtt_message_received (fixed_hdr_len length remaining_length : Z) (v : var_ptr) : M mqtt Z :=
  b0 ← rx_byte 0;
  let pkt_type := MQTT_CTL_PACKET_TYPE b0 in
  if MQTT_VAR_HEADER_BUFFER_LEN <? fixed_hdr_len + length then mret MQTT_CONNECT_DISCONNECTED
  else if pkt_type =? MQTT_MSG_TYPE_CONNACK then receive_connack length v
  else if pkt_type =? MQTT_MSG_TYPE_PINGRESP then mret MQTT_CONNECT_ACCEPTED
  else if pkt_type =? MQTT_MSG_TYPE_PUBLISH then receive_publish fixed_hdr_len length remaining_length v
  else receive_other pkt_type length v.

(** The locals of [mqtt_parse_incoming]. *)
Record parse_state : Type := Parse { in_offset : Z; msg_rem_len : Z; fixed_hdr_len : Z; hdr_b : Z }.

(** The next byte of the fixed header, from the receive buffer or the packet. *)
Definition header_byte (p : loc) (st : parse_state) : M mqtt (Z * Z) :=
  idx ← field msg_idx;
  if fixed_hdr_len st <? idx then b ← rx_byte (fixed_hdr_len st); mret (b, in_offset st)
  else
    b ← on_pbufs (pbuf_get_at (Some p) (in_offset st));
    write_rx idx [b];;
    update (set_msg_idx (u32 (idx + 1)));;
    mret (b, u16 (in_offset st + 1)).

Definition parse_header (p : loc) (st : parse_state) : M mqtt parse_state :=
  '(b, off) ← header_byte p st;
  let n := u8 (fixed_hdr_len st + 1) in
  if 2 <=? n then
    if 32 <=? (n - 2) * 7 then halt BadShift
    else
      let rem := Z.lor (msg_rem_len st) (u32 (Z.shiftl (Z.land b 0x7f) ((n - 2) * 7))) in
      if has b 0x80 then mret (Parse off rem n b)
      else if rem =? 0 then
        mqtt_message_received n 0 0 VNull;;
        update (set_msg_idx 0);;
        mret (Parse off rem 0 b)
      else
        idx ← field msg_idx;
        mret (Parse off (u32 (rem + n - idx)) n b)
  else mret (Parse off (msg_rem_len st) n b).

(** How much of the packet is given to [mqtt_message_received] at once. *)
Definition copy_length (b : pbuf) (idx : Z) (st : parse_state) : Z :=
  let cpy_len := u16 (Z.min (u16 (tot_len b - in_offset st)) (msg_rem_len st)) in
  let buffer_space := u16 (MQTT_VAR_HEADER_BUFFER_LEN - fixed_hdr_len st) in
  let cpy_len := if buffer_space <? cpy_len then buffer_space else cpy_len in
  if (MQTT_VAR_HEADER_BUFFER_LEN <=? idx) && (len b - in_offset st <? cpy_len) then u16 (len b - in_offset st) else cpy_len.

Definition parse_body (p : loc) (st : parse_state) : M mqtt (parse_state + Z) :=
  b ← on_pbufs (getp p);
  if negb (in_offset st <? tot_len b) then mret (inr MQTT_CONNECT_ACCEPTED)
  else if (fixed_hdr_len st <? 2) || has (hdr_b st) 0x80 then
    st ← parse_header p st; mret (inl st)
  else
    idx ← field msg_idx;
    let cpy_len := copy_length b idx st in
    let buffer_space := u16 (MQTT_VAR_HEADER_BUFFER_LEN - fixed_hdr_len st) in
    x ← on_pbufs (pbuf_get_contiguous (Some p) true buffer_space cpy_len (in_offset st));
    v ← match x with
        | CNull => mret VNull
        | CPayload x => mret (VPbuf x)
        | CBuffer bs => write_rx (fixed_hdr_len st) bs;; mret (VRx (fixed_hdr_len st))
        end;
    update (fun c => set_msg_idx (u32 (msg_idx c + cpy_len)) c);;
    let off := u16 (in_offset st + cpy_len) in
    let rem := u32 (msg_rem_len st - cpy_len) in
    res ← mqtt_message_received (fixed_hdr_len st) cpy_len rem v;
    if negb (res =? MQTT_CONNECT_ACCEPTED) then mret (inr res)
    else if rem =? 0 then
      update (set_msg_idx 0);; mret (inl (Parse off rem 0 (hdr_b st)))
    else mret (inl (Parse off rem (fixed_hdr_len st) (hdr_b st))).

Definition mqtt_parse_incoming (fuel : nat) (p : loc) : M mqtt Z := iter fuel (parse_body p) (Parse 0 0 0 0).

(** ** TCP callbacks *)

Context `{!CustomFree}.

Definition mqtt_tcp_recv_cb (fuel : nat) (pcb : option Z) (p : option loc) (err : Z) : M mqtt Z :=
  match p with
  | None => mqtt_close MQTT_CONNECT_DISCONNECTED;; mret ERR_OK
  | Some l =>
    if negb (err =? ERR_OK) then on_pbufs (pbuf_free p);; mret err
    else
      b ← on_pbufs (getp l);
      tcp_call pcb (AltcpRecved (tot_len b));;
      res ← mqtt_parse_incoming fuel l;
      on_pbufs (pbuf_free p);;
      when (negb (res =? MQTT_CONNECT_ACCEPTED)) (mqtt_close res);;
      k ← field keep_alive;
      when (negb (k =? 0)) (update (set_server_watchdog 0));;
      mret ERR_OK
  end.

Definition sent_body (x : unit) : M mqtt (unit + unit) :=
  r ← mqtt_take_request 0;
  match r with
  | None => mret (inr tt)
  | Some i =>
    q ← get_req i;
    call_back (r_cb q) (fun f => Ev_request f (r_arg q) ERR_OK);;
    mqtt_delete_request r;;
    mret (inl tt)
  end.

Definition mqtt_tcp_sent_cb (fuel : nat) : M mqtt Z :=
  st ← field conn_state;
  when (bool_decide (st = MQTT_CONNECTED))
    (update (set_cyclic_tick 0);;
     update (set_server_watchdog 0);;
     iter fuel sent_body tt;;
     c ← field conn;
     mqtt_output_send c);;
  mret ERR_OK.

Definition mqtt_tcp_err_cb : M mqtt unit := update (set_conn None);; mqtt_close MQTT_CONNECT_DISCONNECTED.

Definition mqtt_tcp_poll_cb (tpcb : option Z) : M mqtt Z :=
  st ← field conn_state;
  when (bool_decide (st = MQTT_CONNECTED)) (mqtt_output_send tpcb);;
  mret ERR_OK.

Definition mqtt_tcp_connect_cb (tpcb : option Z) (err : Z) : M mqtt Z :=
  if negb (err =? ERR_OK) then mret err
  else
    update (set_msg_idx 0);;
    tcp_call tpcb (AltcpRecv true);;
    tcp_call tpcb (AltcpSent true);;
    tcp_call tpcb (AltcpPoll 2);;
    update (set_conn_state MQTT_CONNECTING);;
    timer_call (Some (MQTT_CYCLIC_TIMER_INTERVAL * 1000));;
    update (set_cyclic_tick 0);;
    c ← field conn;
    mqtt_output_send c;;
    mret ERR_OK.

(** ** The interface of the application *)

(** [strlen]. *)
Definition strlen (s : list Z) : Z := Z.of_nat (length s).

Definition mqtt_publish (topic : list Z) (payload : option (list Z)) (payload_length qos retain : Z)
    (cb : option Z) (arg : Z) : M mqtt Z :=
  st ← field conn_state;
  if bool_decide (st = TCP_DISCONNECTED) then mret ERR_CONN
  else if 0xFFFF - 2 <? strlen topic then mret ERR_ARG
  else
    let topic_len := strlen topic in
    let total_len := 2 + topic_len + payload_length + (if 0 <? qos then 2 else 0) in
    pkt_id ← (if 0 <? qos then msg_generate_packet_id else mret 0);
    if 0xFFFF <? total_len then mret ERR_ARG
    else
      r ← mqtt_create_request pkt_id cb arg;
      match r with
      | None => mret ERR_MEM
      | Some i =>
        ok ← on_output (mqtt_output_check_space total_len);
        if negb ok then mqtt_delete_request r;; mret ERR_MEM
        else
          on_output (mqtt_output_append_fixed_header MQTT_MSG_TYPE_PUBLISH 0 qos retain total_len);;
          on_output (mqtt_output_append_string topic topic_len);;
          when (0 <? qos) (on_output (mqtt_output_append_u16 pkt_id));;
          match payload with
          | Some data => when (0 <? payload_length) (on_output (mqtt_output_append_buf data payload_length))
          | None => mret tt
          end;;
          mqtt_append_request i;;
          c ← field conn;
          mqtt_output_send c;;
          mret ERR_OK
      end.

Definition mqtt_sub_unsub (topic : list Z) (qos : Z) (cb : option Z) (arg : Z) (sub : bool) : M mqtt Z :=
  if 0xFFFF - 2 <? strlen topic then mret ERR_ARG
  else
    let topic_len := strlen topic in
    let total_len := topic_len + 2 + 2 + (if sub then 1 else 0) in
    if 0xFFFF <? total_len then mret ERR_ARG
    else
      st ← field conn_state;
      if bool_decide (st = TCP_DISCONNECTED) then mret ERR_CONN
      else
        pkt_id ← msg_generate_packet_id;
        r ← mqtt_create_request pkt_id cb arg;
        match r with
        | None => mret ERR_MEM
        | Some i =>
          ok ← on_output (mqtt_output_check_space total_len);
          if negb ok then mqtt_delete_request r;; mret ERR_MEM
          else
            on_output (mqtt_output_append_fixed_header
              (if sub then MQTT_MSG_TYPE_SUBSCRIBE else MQTT_MSG_TYPE_UNSUBSCRIBE) 0 1 0 total_len);;
            on_output (mqtt_output_append_u16 pkt_id);;
            on_output (mqtt_output_append_string topic topic_len);;
            when sub (on_output (mqtt_output_append_u8 (Z.min qos 2)));;
            mqtt_append_request i;;
            c ← field conn;
            mqtt_output_send c;;
            mret ERR_OK
        end.

Definition mqtt_set_inpub_callback (pub data : option Z) (arg : Z) : M mqtt unit :=
  update (fun c => set_inpub_arg arg (set_pub_cb pub (set_data_cb data c))).

(** The lengths and flags of a CONNECT message; [None] is a return of ERR_VAL. *)
Record connect_plan : Type := Plan {
  cp_flags : Z;
  will_topic_len : Z;
  cp_will_msg_len : Z;
  client_user_len : Z;
  client_pass_len : Z;
  client_id_length : Z;
  remaining_length : Z
}.

(** The length of the will message: [will_msg_len], or that of the string. *)
Definition plan_will_msg (ci : mqtt_connect_client_info_t) (msg : list Z) : option Z :=
  if will_msg_len ci =? 0 then (if strlen msg <=? 0xFF then Some (u8 (strlen msg)) else None)
  else Some (will_msg_len ci).

(** A will: the flags, the two lengths and the remaining length. *)
Definition plan_will (ci : mqtt_connect_client_info_t) (rem : Z) : option (Z * Z * Z * Z) :=
  match will_topic ci, will_msg ci with
  | Some topic, Some msg =>
    let flags := Z.lor MQTT_CONNECT_FLAG_WILL (u8 (Z.shiftl (Z.land (will_qos ci) 3) 3)) in
    let flags := if will_retain ci =? 0 then flags else Z.lor flags MQTT_CONNECT_FLAG_WILL_RETAIN in
    if negb (strlen topic <=? 0xFF) || negb (0 <? strlen topic) then None
    else
      n ← plan_will_msg ci msg;
      let len := rem + 2 + u8 (strlen topic) + 2 + n in
      if len <=? 0xFFFF then Some (flags, u8 (strlen topic), n, u16 len) else None
  | _, _ => Some (0, 0, 0, rem)
  end.

(** User name and password: the flag, the length, the remaining length. *)
Definition plan_string (str : option (list Z)) (flag rem : Z) : option (Z * Z * Z) :=
  match str with
  | None => Some (0, 0, rem)
  | Some str =>
    if negb (strlen str <=? 0xFFFF) || negb (0 <? strlen str) then None
    else
      let len := rem + 2 + u16 (strlen str) in
      if len <=? 0xFFFF then Some (flag, u16 (strlen str), u16 len) else None
  end.

Definition plan_connect (ci : mqtt_connect_client_info_t) : option connect_plan :=
  '(wf, wt, wm, rem) ← plan_will ci (2 + 4 + 1 + 1 + 2);
  '(uf, ul, rem) ← plan_string (client_user ci) MQTT_CONNECT_FLAG_USERNAME rem;
  '(pf, pl, rem) ← plan_string (client_pass ci) MQTT_CONNECT_FLAG_PASSWORD rem;
  if negb (strlen (client_id ci) <=? 0xFFFF) then None
  else
    let len := rem + 2 + u16 (strlen (client_id ci)) in
    if len <=? 0xFFFF then
      Some (Plan (Z.lor (Z.lor (Z.lor wf uf) pf) MQTT_CONNECT_FLAG_CLEAN_SESSION) wt wm ul pl
              (u16 (strlen (client_id ci))) (u16 len))
    else None.

(** An optional string of the message, given its flag. *)
Definition append_if (flags flag : Z) (str : option (list Z)) (n : Z) : M mqtt_ringbuf_t unit :=
  when (has flags flag) (s ← deref NullDeref str; mqtt_output_append_string s n).

Definition append_connect (ci : mqtt_connect_client_info_t) (pl : connect_plan) : M mqtt_ringbuf_t unit :=
  mqtt_output_append_fixed_header MQTT_MSG_TYPE_CONNECT 0 0 0 (remaining_length pl);;
  mqtt_output_append_string [77; 81; 84; 84] 4;;
  mqtt_output_append_u8 4;;
  mqtt_output_append_u8 (cp_flags pl);;
  mqtt_output_append_u16 (ci_keep_alive ci);;
  mqtt_output_append_string (client_id ci) (client_id_length pl);;
  append_if (cp_flags pl) MQTT_CONNECT_FLAG_WILL (will_topic ci) (will_topic_len pl);;
  append_if (cp_flags pl) MQTT_CONNECT_FLAG_WILL (will_msg ci) (cp_will_msg_len pl);;
  append_if (cp_flags pl) MQTT_CONNECT_FLAG_USERNAME (client_user ci) (client_user_len pl);;
  append_if (cp_flags pl) MQTT_CONNECT_FLAG_PASSWORD (client_pass ci) (client_pass_len pl).

(** [memset], with the callbacks kept and the new ones set. *)
Definition wiped (cb : option Z) (arg : Z) (ka : Z) (c : mqtt_client_t) : mqtt_client_t :=
  Client 0 ka 0 0 0 TCP_DISCONNECTED None arg cb None (req_list zero_client) (inpub_arg c) (data_cb c) (pub_cb c) 0
    (rx_buffer zero_client) (output zero_client).

(** [tcp_fail]. *)
Definition tcp_fail (err : Z) : M mqtt Z :=
  c ← field conn; tcp_call c AltcpAbort;; update (set_conn None);; mret err.

Definition mqtt_client_connect (ip port : Z) (cb : option Z) (arg : Z) (ci : mqtt_connect_client_info_t) : M mqtt Z :=
  st ← field conn_state;
  if bool_decide (st <> TCP_DISCONNECTED) then mret ERR_ISCONN
  else
    update (wiped cb arg (ci_keep_alive ci));;
    mqtt_init_requests;;
    match plan_connect ci with
    | None => mret ERR_VAL
    | Some pl =>
      ok ← on_output (mqtt_output_check_space (remaining_length pl));
      if negb ok then mret ERR_MEM
      else
        c ← on_net altcp_new;
        update (set_conn c);;
        if bool_decide (c = None) then mret ERR_MEM
        else
          tcp_call c AltcpArg;;
          err ← tcp_call c AltcpBind;
          if negb (err =? ERR_OK) then tcp_fail err
          else
            err ← tcp_call c (AltcpConnect ip port);
            if negb (err =? ERR_OK) then tcp_fail err
            else
              tcp_call c (AltcpErr true);;
              update (set_conn_state TCP_CONNECTING);;
              on_output (append_connect ci pl);;
              mret ERR_OK
    end.

Definition mqtt_disconnect : M mqtt unit :=
  st ← field conn_state;
  when (bool_decide (st <> TCP_DISCONNECTED))
    (update (set_conn_state TCP_DISCONNECTED);; mqtt_close 0).

Definition mqtt_client_is_connected : M mqtt Z :=
  st ← field conn_state; mret (if bool_decide (st = MQTT_CONNECTED) then 1 else 0).
End Mqtt.
