(* ===== verification/MqttReqs.v ===== *)
(** The requests of the MQTT client: the queue of those that wait for an
    answer, over the array they live in. *)
From S2P Require Import Prelude Memp Pbuf MqttRing Mqtt.

(** ** The interfaces *)

(** The bytes TCP has accepted: a write that succeeds adds its data, nothing
    else does. *)
Class NetLaws `{Net} : Type := {
  sent : nstate -> list Z;
  law_write c data fl n : sent (altcp_write c data fl n).2 = sent n ++ (if (altcp_write c data fl n).1 =? ERR_OK then data else []);
  law_call c r n : sent (altcp_call c r n).2 = sent n;
  law_new n : sent (altcp_new n).2 = sent n;
  law_timer t n : sent (cyclic_timeout t n) = sent n;
  law_sndbuf c n : 0 <= altcp_sndbuf c n < 65536
}.

(** An application that only takes note of the callbacks. *)
Class UpperLaws `{Upper} : Type := {
  log : ustate -> list mqtt_event;
  law_notify ev m n u c : exists u', notify ev (Mqtt m n u c) = Ret tt (Mqtt m n u' c) /\ log u' = log u ++ [ev]
}.

Section Rules.
Context `{U : Upper}.

Definition with_net (n : nstate) (s : mqtt) : mqtt := Mqtt (mq_mem s) n (mq_up s) (mq_client s).
Definition with_up (u : ustate) (s : mqtt) : mqtt := Mqtt (mq_mem s) (mq_net s) u (mq_client s).
Definition with_client (c : mqtt_client_t) (s : mqtt) : mqtt := Mqtt (mq_mem s) (mq_net s) (mq_up s) c.
Definition with_pmem (m : mem) (s : mqtt) : mqtt := Mqtt m (mq_net s) (mq_up s) (mq_client s).

Lemma wp_field {A} (f : mqtt_client_t -> A) (Q : A -> mqtt -> Prop) s : Q (f (mq_client s)) s -> wp (field f) Q s.
Proof. done. Qed.

Lemma wp_update f (Q : unit -> mqtt -> Prop) s : Q tt (with_client (f (mq_client s)) s) -> wp (update f) Q s.
Proof. done. Qed.

Lemma wp_on_output {A} (x : M mqtt_ringbuf_t A) (Q : A -> mqtt -> Prop) s :
  wp x (fun a rb => Q a (with_client (set_output rb (mq_client s)) s)) (output (mq_client s)) -> wp (on_output x) Q s.
Proof. unfold wp, on_output, zoom. by destruct (x (output (mq_client s))). Qed.

Lemma wp_on_net {A} (f : nstate -> A * nstate) (Q : A -> mqtt -> Prop) s :
  Q (f (mq_net s)).1 (with_net (f (mq_net s)).2 s) -> wp (on_net f) Q s.
Proof. done. Qed.

Lemma wp_on_pbufs {A} (x : M mem A) (Q : A -> mqtt -> Prop) s :
  wp x (fun a m => Q a (with_pmem m s)) (mq_mem s) -> wp (on_pbufs x) Q s.
Proof. unfold wp, on_pbufs, zoom. by destruct (x (mq_mem s)). Qed.

Lemma wp_deref {A} w (o : option A) a (Q : A -> mqtt -> Prop) s : o = Some a -> Q a s -> wp (deref w o) Q s.
Proof. by intros ->. Qed.

Lemma wp_tcp_call c r (Q : Z -> mqtt -> Prop) s :
  Q (altcp_call c r (mq_net s)).1 (with_net (altcp_call c r (mq_net s)).2 s) -> wp (tcp_call (Some c) r) Q s.
Proof. done. Qed.

Lemma with_client_twice a b s : with_client a (with_client b s) = with_client a s.
Proof. done. Qed.
Lemma with_client_id s : with_client (mq_client s) s = s.
Proof. by destruct s. Qed.
Lemma set_output_id c : set_output (output c) c = c.
Proof. by destruct c. Qed.

Context {UL : UpperLaws}.

Lemma wp_call_back f ev (Q : unit -> mqtt -> Prop) s :
  (forall u, log u = log (mq_up s) ++ (match f with Some f => [ev f] | None => [] end) -> Q tt (with_up u s)) ->
  wp (call_back f ev) Q s.
Proof.
  intros HQ. destruct f as [f|]; simpl.
  - destruct s as [m n u c]. destruct (law_notify (ev f) m n u c) as (u' & E & Hl). eapply wp_of_run; [exact E|]. by apply HQ.
  - apply wp_ret. replace s with (with_up (mq_up s) s) by by destruct s. apply HQ. by rewrite app_nil_r.
Qed.
End Rules.

(** ** Sending *)

Section Send.
Context `{U : Upper} {NL : NetLaws}.

(** [k] bytes of the queue [q] went to TCP. *)
Definition sends (q : list Z) (k : nat) (s s' : mqtt) : Prop :=
  exists rb n, s' = with_net n (with_client (set_output rb (mq_client s)) s) /\ (k <= length q)%nat /\
    rep rb (drop k q) /\ sent n = sent (mq_net s) ++ take k q.

Lemma sends_none q s : rep (output (mq_client s)) q -> sends q 0 s s.
Proof.
  intros Hr. exists (output (mq_client s)), (mq_net s). split_and!; [|lia|by rewrite drop_0|by rewrite take_0, app_nil_r].
  destruct s as [m n u c]. unfold with_net, with_client. simpl. by rewrite set_output_id.
Qed.

(** A write of [k] bytes from the front of the queue [q], and what follows it
    when it succeeds. *)
Lemma sends_write c q k n data err s : rep (output (mq_client s)) q -> data = take (Z.to_nat k) q -> 0 <= k <= Z.of_nat (length q) ->
  sent n = sent (mq_net s) ++ (if err =? ERR_OK then data else []) ->
  wp (when (err =? ERR_OK) (update (fun cl => set_output (mqtt_ringbuf_advance_get_idx k (output cl)) cl);;
        tcp_call (Some c) AltcpOutput;; mret tt))
    (fun _ s' => exists k', sends q k' s s') (with_net n s).
Proof.
  intros Hr -> Hk Hn. destruct (err =? ERR_OK); cbn [when].
  - apply wp_bind, wp_update, wp_bind, wp_tcp_call, wp_ret. exists (Z.to_nat k), (mqtt_ringbuf_advance_get_idx k (output (mq_client s))).
    eexists. split_and!; [reflexivity|lia|by apply rep_advance|]. by rewrite law_call.
  - apply wp_ret. exists 0%nat, (output (mq_client s)), n.
    split_and!; [|lia|by rewrite drop_0|by rewrite Hn, take_0]. destruct s. unfold with_net, with_client. simpl. by rewrite set_output_id.
Qed.

Lemma sends_trans q k1 k2 s s1 s2 : sends q k1 s s1 -> sends (drop k1 q) k2 s1 s2 -> sends q (k1 + k2) s s2.
Proof.
  intros (rb1 & n1 & -> & H1 & R1 & E1) (rb2 & n2 & -> & H2 & R2 & E2). rewrite length_drop in H2. exists rb2, n2.
  split_and!; [done|lia|by rewrite drop_drop in R2|]. simpl in E2. rewrite E2, E1, <- app_assoc. f_equal.
  rewrite <- (take_drop k1 (take (k1 + k2) q)). rewrite take_take, Nat.min_l, <- take_drop_commute by lia. done.
Qed.

(** The connection gets a prefix of the queue, the rest stays. *)
Lemma wp_output_send c q s : rep (output (mq_client s)) q ->
  wp (mqtt_output_send (Some c)) (fun _ s' => exists k, sends q k s s') s.
Proof.
  intros Hr. unfold mqtt_output_send. apply wp_bind, wp_field, wp_bind, wp_ret, wp_bind, wp_on_net.
  change (with_net _ s) with (with_net (mq_net s) s). replace (with_net (mq_net s) s) with s by by destruct s. cbn [fst].
  set (rb := output (mq_client s)) in *. set (lin := mqtt_ringbuf_linear_read_length rb). set (room := altcp_sndbuf c (mq_net s)).
  pose proof (linear_length_le rb q Hr) as Hlin. fold lin in Hlin. pose proof (law_sndbuf c (mq_net s)) as Hroom. fold room in Hroom.
  destruct ((room =? 0) || (lin =? 0)) eqn:E0; [exists 0%nat; by apply sends_none|]. apply orb_false_iff in E0 as [E1%Z.eqb_neq E2%Z.eqb_neq].
  pose proof (linear_length_nonneg rb q Hr) as Hl0. fold lin in Hl0.
  set (wrap := (lin <? room) && _). set (n1 := if lin <? room then lin else room).
  assert (Hn1 : 0 <= n1 <= lin) by (unfold n1; destruct (Z.ltb_spec lin room); lia).
  apply wp_bind, (wp_deref _ _ (take (Z.to_nat n1) q)); [by apply rep_get_ptr|].
  apply wp_bind, wp_on_net. set (w := altcp_write _ _ _ _). pose proof (law_write c (take (Z.to_nat n1) q)
    (Z.lor TCP_WRITE_FLAG_COPY (if wrap then TCP_WRITE_FLAG_MORE else 0)) (mq_net s)) as Hw. fold w in Hw.
  destruct ((w.1 =? ERR_OK) && wrap) eqn:Ew.
  - (* two pieces *)
    apply andb_true_iff in Ew as [Eok _]. rewrite Eok in Hw. apply wp_bind, wp_bind, wp_update, wp_bind, wp_field, wp_bind, wp_on_net.
    set (s1 := with_client _ (with_net w.2 s)). cbn [fst].
    assert (S1 : sends q (Z.to_nat n1) s s1).
    { exists (mqtt_ringbuf_advance_get_idx n1 rb), w.2. split_and!; [done|lia|by apply rep_advance; [|lia]|done]. }
    assert (R1 : rep (output (mq_client s1)) (drop (Z.to_nat n1) q)) by (destruct S1 as (? & ? & -> & _ & ? & _); done).
    change (mqtt_ringbuf_linear_read_length (output _)) with (mqtt_ringbuf_linear_read_length (output (mq_client s1))).
    change (output (mq_client (with_client _ _))) with (output (mq_client s1)). set (lin2 := mqtt_ringbuf_linear_read_length _).
    change (with_net (mq_net s1) s1) with s1. set (n2 := Z.min _ lin2). pose proof (linear_length_le _ _ R1) as Hlin2. fold lin2 in Hlin2.
    pose proof (law_sndbuf c (mq_net s1)) as Hroom2.
    assert (Hn2 : 0 <= n2 <= lin2).
    { pose proof (linear_length_nonneg _ _ R1) as Hnn. fold lin2 in Hnn. unfold n2. lia. }
    apply wp_bind, (wp_deref _ _ (take (Z.to_nat n2) (drop (Z.to_nat n1) q))); [by apply rep_get_ptr|].
    apply wp_bind, wp_on_net, wp_ret. eapply wp_mono.
    { eapply (sends_write c (drop (Z.to_nat n1) q)); [exact R1|reflexivity| |apply law_write]. lia. }
    intros _ s' [k Hk]. exists (Z.to_nat n1 + k)%nat. by apply (sends_trans q _ _ s s1).
  - apply wp_bind, wp_ret. eapply (sends_write c q); [done|reflexivity| |exact Hw]; lia.
Qed.
End Send.

(** A request in the queue; [p_diff] is relative to the one before. *)
Record pending : Type := Pend { p_idx : nat; p_cb : option Z; p_arg : Z; p_id : Z; p_diff : Z }.

Fixpoint qchain (l : list mqtt_request_t) (tail : option nat) (ps : list pending) : Prop :=
  match ps with
  | [] => tail = None
  | p :: ps => tail = Some (p_idx p) /\ exists nx, l !! p_idx p = Some (Req nx (p_cb p) (p_arg p) (p_id p) (p_diff p)) /\ qchain l nx ps
  end.

Definition indices (ps : list pending) : list nat := map p_idx ps.
Definition total_time (ps : list pending) : Z := foldr (fun p t => p_diff p + t) 0 ps.

(** [ps] is the queue and [held] are the items taken out of it or not yet put
    in; everything else is unused. *)
Record requests_ok (l : list mqtt_request_t) (tail : option nat) (ps : list pending) (held : list nat) : Prop := {
  rq_size : length l = 4%nat;
  rq_chain : qchain l tail ps;
  rq_nodup : NoDup (indices ps ++ held);
  rq_unused : forall i r, l !! i = Some r -> i ∉ indices ps ++ held -> r_next r = Some i;
  rq_diff : Forall (fun p => 0 <= p_diff p) ps;
  rq_time : total_time ps <= MQTT_REQ_TIMEOUT
}.

Lemma qchain_frame l i r tail ps : i ∉ indices ps -> qchain l tail ps -> qchain (<[i := r]> l) tail ps.
Proof.
  revert tail. induction ps as [|p ps IH]; intros tail Hi; [done|]. intros (-> & nx & Hl & Hc).
  apply not_elem_of_cons in Hi as [Hne Hi]. split; [done|]. exists nx. split; [by rewrite list_lookup_insert_ne|by apply IH].
Qed.

Lemma qchain_bound l tail ps : qchain l tail ps -> Forall (fun i => (i < length l)%nat) (indices ps).
Proof.
  revert tail. induction ps as [|p ps IH]; intros tail; [constructor|]. intros (_ & nx & Hl & Hc).
  constructor; [by eapply lookup_lt_Some|by eapply IH].
Qed.

Lemma qchain_length l tail ps : qchain l tail ps -> NoDup (indices ps) -> (length ps <= length l)%nat.
Proof.
  intros Hc Hn. pose proof (qchain_bound _ _ _ Hc) as Hb. rewrite <- (length_map p_idx ps), <- (length_seq (length l) 0).
  apply NoDup_incl_length; [by apply NoDup_ListNoDup|]. intros i Hi%list_elem_of_In. rewrite Forall_forall in Hb. apply in_seq.
  specialize (Hb i Hi). lia.
Qed.


(** An item of the queue is not its own successor. *)
Lemma qchain_not_self l tail ps p r : qchain l tail ps -> NoDup (indices ps) -> p ∈ ps -> l !! p_idx p = Some r ->
  r_next r <> Some (p_idx p).
Proof.
  revert tail. induction ps as [|p' ps IH]; intros tail Hc Hn Hp Hl; [by apply not_elem_of_nil in Hp|].
  destruct Hc as (_ & nx & Hl' & Hc). apply NoDup_cons in Hn as [Hi Hn]. apply elem_of_cons in Hp as [->|Hp]; [|by eapply IH].
  rewrite Hl' in Hl. injection Hl as <-. simpl. destruct ps as [|p2 ps]; simpl in Hc; [by subst|]. destruct Hc as [-> _].
  intros [= E]. apply Hi. rewrite <- E. by left.
Qed.

Lemma find_unused_some n l i : find_unused n l = Some i -> (n <= i)%nat /\ exists r, l !! (i - n)%nat = Some r /\ r_next r = Some i.
Proof.
  revert n. induction l as [|r l IH]; intros n; [done|]. simpl. case_bool_decide as E.
  - intros [= <-]. split; [lia|]. exists r. by rewrite Nat.sub_diag.
  - intros (Hn & r' & Hl & Hr)%IH. split; [lia|]. exists r'. by replace (i - n)%nat with (S (i - S n)) by lia.
Qed.

Lemma find_unused_none n l : find_unused n l = None -> forall k r, l !! k = Some r -> r_next r <> Some (n + k)%nat.
Proof.
  revert n. induction l as [|r l IH]; intros n E k r' Hk; [done|]. simpl in E. case_bool_decide as E'; [done|].
  destruct k as [|k]; [injection Hk as <-; by rewrite Nat.add_0_r|]. rewrite <- Nat.add_succ_comm. by apply IH.
Qed.

(** One more item at the end. *)
Lemma qchain_snoc l tail ps p i cb arg id d r : qchain l tail (ps ++ [p]) -> NoDup (indices (ps ++ [p]) ++ [i]) ->
  l !! i = Some (Req None cb arg id d) -> l !! p_idx p = Some r ->
  qchain (<[p_idx p := set_r_next (Some i) r]> l) tail ((ps ++ [p]) ++ [Pend i cb arg id d]).
Proof.
  revert tail. induction ps as [|p0 ps IH]; intros tail Hc Hn Hi Hp; simpl in *.
  - destruct Hc as (-> & nx & Hl & ->). rewrite Hl in Hp. injection Hp as <-. split; [done|]. exists (Some i).
    rewrite list_lookup_insert_eq by by eapply lookup_lt_Some. split; [done|]. split; [done|]. exists None. split; [|done].
    rewrite list_lookup_insert_ne; [done|]. intros E. apply NoDup_cons in Hn as [Hn _]. apply Hn. rewrite E. by left.
  - destruct Hc as (-> & nx & Hl & Hc). apply NoDup_cons in Hn as [Hn0 Hn]. split; [done|]. exists nx. split; [|by apply IH].
    rewrite list_lookup_insert_ne; [done|]. intros E. apply Hn0, elem_of_app. left. rewrite <- E. unfold indices. rewrite map_app.
    apply elem_of_app. right. by left.
Qed.

Lemma total_time_app ps1 ps2 : total_time (ps1 ++ ps2) = total_time ps1 + total_time ps2.
Proof. induction ps1 as [|p ps1 IH]; simpl; [done|]. rewrite IH. lia. Qed.

Lemma total_time_nonneg ps : Forall (fun p => 0 <= p_diff p) ps -> 0 <= total_time ps.
Proof. induction 1; simpl; lia. Qed.

Section Requests.
Context `{U : Upper}.

Definition with_reqs (l : list mqtt_request_t) (tail : option nat) (s : mqtt) : mqtt :=
  with_client (set_req_list l (set_pend_req_queue tail (mq_client s))) s.

Lemma with_reqs_id s : with_reqs (req_list (mq_client s)) (pend_req_queue (mq_client s)) s = s.
Proof. by destruct s as [m n u []]. Qed.

Lemma wp_get_req i r l t s (Q : mqtt_request_t -> mqtt -> Prop) :
  l !! i = Some r -> Q r (with_reqs l t s) -> wp (get_req i) Q (with_reqs l t s).
Proof. intros E HQ. unfold get_req. apply wp_bind, wp_field. by apply (wp_deref _ _ r). Qed.

Lemma wp_set_req i f r l t s (Q : unit -> mqtt -> Prop) :
  l !! i = Some r -> Q tt (with_reqs (<[i := f r]> l) t s) -> wp (set_req i f) Q (with_reqs l t s).
Proof. intros E HQ. unfold set_req. apply wp_bind. by apply (wp_get_req i r). Qed.

Lemma wp_set_tail x l t s (Q : unit -> mqtt -> Prop) :
  Q tt (with_reqs l x s) -> wp (update (set_pend_req_queue x)) Q (with_reqs l t s).
Proof. done. Qed.

Lemma wp_queue_fuel (Q : nat -> mqtt -> Prop) s : Q (S (length (req_list (mq_client s)))) s -> wp queue_fuel Q s.
Proof. done. Qed.

(** ** Creating and deleting *)

Lemma wp_create id cb arg l t ps s (Q : option nat -> mqtt -> Prop) :
  requests_ok l t ps [] ->
  (length ps = 4%nat -> Q None (with_reqs l t s)) ->
  (forall i d, let l' := <[i := Req None cb arg id d]> l in requests_ok l' t ps [i] -> l' !! i = Some (Req None cb arg id d) ->
     Q (Some i) (with_reqs l' t s)) ->
  wp (mqtt_create_request id cb arg) Q (with_reqs l t s).
Proof.
  intros Hok HN HS. pose proof Hok as [Hsz Hc Hnd Hun Hd Ht]. unfold mqtt_create_request. apply wp_bind, wp_field.
  change (req_list (mq_client (with_reqs l t s))) with l. rewrite app_nil_r in Hnd, Hun.
  destruct (find_unused 0 l) as [i|] eqn:E.
  - destruct (find_unused_some _ _ _ E) as (_ & r & Hl & Hr). rewrite Nat.sub_0_r in Hl.
    assert (Hi : i ∉ indices ps).
    { intros (p & -> & Hp)%list_elem_of_fmap. by apply (qchain_not_self l t ps p r). }
    apply wp_bind, (wp_set_req i _ r); [done|]. apply wp_ret, (HS i (timeout_diff r)).
    + split; [by rewrite length_insert|by apply qchain_frame| | |done|done].
      * apply NoDup_app. split_and!; [done|by intros j Hj ->%list_elem_of_singleton|apply NoDup_singleton].
      * intros j r' Hj [Hj1 Hj2%not_elem_of_cons]%not_elem_of_app. destruct Hj2 as [Hj2 _].
        rewrite list_lookup_insert_ne in Hj by done. by apply (Hun j).
    + apply list_lookup_insert_eq. by eapply lookup_lt_Some.
  - apply wp_ret, HN. pose proof (find_unused_none _ _ E) as Hf. apply Nat.le_antisymm; [rewrite <- Hsz; by eapply qchain_length|].
    rewrite <- Hsz, <- (length_map p_idx ps), <- (length_seq (length l) 0). apply NoDup_incl_length; [apply seq_NoDup|].
    intros i [_ Hi]%in_seq. apply list_elem_of_In. destruct (lookup_lt_is_Some_2 l i) as [r Hr]; [lia|].
    destruct (decide (i ∈ indices ps)); [done|]. exfalso. by apply (Hf i r), (Hun i).
Qed.

Lemma wp_delete i l t ps s (Q : unit -> mqtt -> Prop) :
  requests_ok l t ps [i] -> (i < 4)%nat -> (forall l', requests_ok l' t ps [] -> Q tt (with_reqs l' t s)) ->
  wp (mqtt_delete_request (Some i)) Q (with_reqs l t s).
Proof.
  intros [Hsz Hc Hnd Hun Hd Ht] Hi HQ. destruct (lookup_lt_is_Some_2 l i) as [r Hr]; [lia|]. apply (wp_set_req i _ r); [done|]. apply HQ.
  apply NoDup_app in Hnd as (Hnd & Hni & _). assert (i ∉ indices ps) by (intros Hin; apply (Hni i Hin); by left).
  split; [by rewrite length_insert|by apply qchain_frame|by rewrite app_nil_r| |done|done].
  intros j r' Hj Hnj. rewrite app_nil_r in Hnj. destruct (decide (j = i)) as [->|Hne].
  - rewrite list_lookup_insert_eq in Hj by lia. by injection Hj as <-.
  - rewrite list_lookup_insert_ne in Hj by done. apply (Hun j); [done|]. apply not_elem_of_app. split; [done|]. by apply not_elem_of_cons; split; [|apply not_elem_of_nil].
Qed.
(** ** Appending *)

Lemma get_req_run i r l t s : l !! i = Some r -> get_req i (with_reqs l t s) = Ret r (with_reqs l t s).
Proof. intros E. unfold get_req. erewrite bind_Ret by reflexivity. cbn. by rewrite E. Qed.

Lemma append_loop l t s ps : forall it head n fuel, qchain l it ps -> (length ps < fuel)%nat -> 0 <= n ->
  Forall (fun p => 0 <= p_diff p) ps -> n + total_time ps <= MQTT_REQ_TIMEOUT ->
  iter fuel append_body (it, head, n) (with_reqs l t s) =
    Ret (match last ps with Some p => Some (p_idx p) | None => head end, n + total_time ps) (with_reqs l t s).
Proof.
  induction ps as [|p ps IH]; intros it head n fuel Hc Hf Hn Hd Ht; destruct fuel as [|fuel]; try (simpl in Hf; lia).
  - simpl in Hc. subst it. simpl. by rewrite Z.add_0_r.
  - destruct Hc as (-> & nx & Hl & Hc). apply Forall_cons in Hd as [Hd0 Hd]. simpl in Ht, Hf. pose proof (total_time_nonneg ps Hd).
    unfold MQTT_REQ_TIMEOUT in *. cbn [iter append_body].
    erewrite bind_Ret by (erewrite bind_Ret by (by apply get_req_run); reflexivity). cbn [r_next timeout_diff].
    assert (E16 : s16 (n + p_diff p) = n + p_diff p).
    { unfold s16. rewrite u16_small by lia. change (2 ^ 15) with 32768. by rewrite (proj2 (Z.ltb_lt _ _)) by lia. }
    rewrite E16, IH by (done || unfold MQTT_REQ_TIMEOUT; lia). rewrite last_cons. simpl. f_equal. f_equal; [by destruct (last ps)|lia].
Qed.

Lemma wp_append i cb arg id d l t ps s (Q : unit -> mqtt -> Prop) :
  requests_ok l t ps [i] -> l !! i = Some (Req None cb arg id d) ->
  (forall l' t', requests_ok l' t' (ps ++ [Pend i cb arg id (MQTT_REQ_TIMEOUT - total_time ps)]) [] -> Q tt (with_reqs l' t' s)) ->
  wp (mqtt_append_request i) Q (with_reqs l t s).
Proof.
  intros [Hsz Hc Hnd Hun Hd Ht] Hi HQ. pose proof (total_time_nonneg ps Hd) as H0t. pose proof Hnd as Hnd'.
  apply NoDup_app in Hnd' as (Hnp & Hni & _). assert (Hin : i ∉ indices ps) by (intros Hin; apply (Hni i Hin); by left).
  unfold mqtt_append_request. apply wp_bind, wp_field, wp_bind, wp_queue_fuel, wp_bind.
  change (req_list (mq_client (with_reqs l t s))) with l. change (pend_req_queue (mq_client (with_reqs l t s))) with t.
  eapply wp_of_run; [apply (append_loop l t s ps); [done| |lia|done|lia]|].
  { pose proof (qchain_length _ _ _ Hc Hnp). lia. }
  rewrite Z.add_0_l. apply wp_bind, (wp_set_req i _ _ _ _ _ _ Hi). set (d' := u16 _).
  assert (Ed : d' = MQTT_REQ_TIMEOUT - total_time ps) by (unfold d', MQTT_REQ_TIMEOUT in *; apply u16_small; lia).
  set (l1 := <[i := _]> l).
  assert (Hi1 : l1 !! i = Some (Req None cb arg id d')) by (apply list_lookup_insert_eq; by eapply lookup_lt_Some).
  assert (Hc1 : qchain l1 t ps) by (by apply qchain_frame).
  rewrite <- Ed in HQ. assert (Hidx : indices (ps ++ [Pend i cb arg id d']) = indices ps ++ [i]) by (unfold indices; by rewrite map_app).
  assert (Hok : forall l2 t2, length l2 = 4%nat -> qchain l2 t2 (ps ++ [Pend i cb arg id d']) ->
    (forall j, j ∉ indices ps ++ [i] -> l2 !! j = l !! j) -> requests_ok l2 t2 (ps ++ [Pend i cb arg id d']) []).
  { intros l2 t2 Hl2 Hc2 Ho. split; [done|done|by rewrite app_nil_r, Hidx| | |].
    - intros j r. rewrite app_nil_r, Hidx. intros Hj Hnj. rewrite Ho in Hj by done. by apply (Hun j).
    - apply Forall_app; split; [done|]. constructor; [simpl; lia|constructor].
    - rewrite total_time_app. simpl. lia. }
  assert (Ho1 : forall j, j ∉ indices ps ++ [i] -> l1 !! j = l !! j).
  { intros j [_ [Hj _]%not_elem_of_cons]%not_elem_of_app. by apply list_lookup_insert_ne. }
  destruct ps as [|p0 ps0 _] using rev_ind.
  - apply wp_set_tail, HQ, Hok; [by unfold l1; rewrite length_insert| |done]. split; [done|]. exists None. done.
  - rewrite last_snoc. destruct (lookup_lt_is_Some_2 l1 (p_idx p0)) as [r Hr].
    { pose proof (qchain_bound _ _ _ Hc1) as Hb. rewrite Forall_forall in Hb. apply Hb. unfold indices. rewrite map_app.
      apply elem_of_app. right. by left. }
    apply (wp_set_req _ _ r); [done|]. apply HQ, Hok; [unfold l1; by rewrite !length_insert|by apply qchain_snoc|].
    intros j Hj. rewrite list_lookup_insert_ne; [by apply Ho1|]. intros <-. apply Hj, elem_of_app. left. unfold indices.
    rewrite map_app. apply elem_of_app. right. by left.
Qed.
(** ** The head of the queue *)

Lemma requests_pop l t p ps : requests_ok l t (p :: ps) [] -> exists nx,
  t = Some (p_idx p) /\ l !! p_idx p = Some (Req nx (p_cb p) (p_arg p) (p_id p) (p_diff p)) /\
  (p_idx p < 4)%nat /\ 0 <= p_diff p <= MQTT_REQ_TIMEOUT /\ requests_ok l nx ps [p_idx p].
Proof.
  intros [Hsz (-> & nx & Hl & Hc) Hnd Hun Hd Ht]. apply Forall_cons in Hd as [Hd0 Hd]. pose proof (total_time_nonneg ps Hd).
  simpl in Ht. rewrite app_nil_r in Hnd, Hun. exists nx. split_and!; [done|done|rewrite <- Hsz; by eapply lookup_lt_Some|done|lia|].
  apply NoDup_cons in Hnd as [Hn0 Hn]. split; [done|done| | |done|lia].
  - apply NoDup_app. split_and!; [done|by intros j Hj ->%list_elem_of_singleton|apply NoDup_singleton].
  - intros j r Hj Hnj. apply (Hun j); [done|]. apply not_elem_of_app in Hnj as [Ha [Hb _]%not_elem_of_cons]. by apply not_elem_of_cons.
Qed.

Lemma requests_head l t p ps nx d : requests_ok l t (p :: ps) [] -> 0 <= d <= p_diff p ->
  l !! p_idx p = Some (Req nx (p_cb p) (p_arg p) (p_id p) (p_diff p)) ->
  requests_ok (<[p_idx p := Req nx (p_cb p) (p_arg p) (p_id p) d]> l) t (Pend (p_idx p) (p_cb p) (p_arg p) (p_id p) d :: ps) [].
Proof.
  intros [Hsz (-> & nx' & Hl & Hc) Hnd Hun Hd Ht] Hdd Hl'. rewrite Hl' in Hl. injection Hl as <-. apply Forall_cons in Hd as [Hd0 Hd].
  pose proof Hnd as Hnd'. rewrite app_nil_r in Hnd'. apply NoDup_cons in Hnd' as [Hn0 _]. split.
  - by rewrite length_insert.
  - split; [done|]. exists nx. split; [apply list_lookup_insert_eq; by eapply lookup_lt_Some|by apply qchain_frame].
  - exact Hnd.
  - intros j r Hj Hnj. rewrite list_lookup_insert_ne in Hj; [by apply (Hun j)|]. intros <-. apply Hnj. simpl. by left.
  - constructor; [simpl; lia|done].
  - simpl in *. lia.
Qed.

(** ** The clock of the queue *)

(** What [t] seconds do: who is told, who waits on. *)
Fixpoint elapse (t : Z) (ps : list pending) : list pending * list pending :=
  match ps with
  | [] => ([], [])
  | p :: ps' =>
    if 0 <? t then
      if p_diff p <=? t then let r := elapse (t - p_diff p) ps' in (p :: r.1, r.2)
      else ([], Pend (p_idx p) (p_cb p) (p_arg p) (p_id p) (p_diff p - t) :: ps')
    else ([], ps)
  end.

Definition answers (err : Z) (ps : list pending) : list mqtt_event :=
  omap (fun p => (fun f => Ev_request f (p_arg p) err) <$> p_cb p) ps.

Context {UL : UpperLaws}.

Lemma elapsed_loop ps : forall l tail n fuel s, requests_ok l tail ps [] -> (length ps + 1 < fuel)%nat -> 0 <= n < 256 ->
  wp (iter fuel time_elapsed_body (n, tail)) (fun _ s' => exists l' t' u,
    s' = with_reqs l' t' (with_up u s) /\ requests_ok l' t' (elapse n ps).2 [] /\
    log u = log (mq_up s) ++ answers ERR_TIMEOUT (elapse n ps).1) (with_reqs l tail s).
Proof.
  assert (Hdone : forall l tail ps s, requests_ok l tail ps [] -> exists l' t' u, with_reqs l tail s = with_reqs l' t' (with_up u s) /\
    requests_ok l' t' ps [] /\ log u = log (mq_up s) ++ []).
  { intros l tail qs s Hok. exists l, tail, (mq_up s). split_and!; [by destruct s|done|by rewrite app_nil_r]. }
  induction ps as [|p ps IH]; intros l tail n fuel s Hok Hf Hn; (destruct fuel as [|fuel]; [simpl in Hf; lia|]); cbn [iter]; apply wp_bind.
  - pose proof (rq_chain _ _ _ _ Hok) as Ht. simpl in Ht. subst tail. apply wp_ret. by apply Hdone.
  - destruct (requests_pop _ _ _ _ Hok) as (nx & -> & Hl & Hi & Hd & Hpop). cbn [time_elapsed_body elapse].
    destruct (Z.ltb_spec 0 n); [|apply wp_ret; by apply Hdone]. apply wp_bind, (wp_get_req _ _ _ _ _ _ Hl). cbn [timeout_diff r_cb r_arg r_next].
    destruct (Z.leb_spec (p_diff p) n).
    + apply wp_bind, wp_set_tail, wp_bind, wp_call_back. intros u Hu. apply wp_bind.
      change (with_up u (with_reqs l nx s)) with (with_reqs l nx (with_up u s)). apply (wp_delete _ _ _ ps); [done|done|].
      intros l' Hok'. apply wp_bind, wp_field, wp_ret. change (pend_req_queue _) with nx.
      rewrite (u8_small (p_diff p)), u8_small by (unfold MQTT_REQ_TIMEOUT in *; lia). eapply wp_mono.
      { apply (IH _ _ _ _ _ Hok'); [simpl in Hf; lia|lia]. }
      intros [] s' (l2 & t2 & u2 & -> & Hok2 & Hlog). exists l2, t2, u2. split_and!; [done|done|]. rewrite Hlog. simpl.
      change (mq_up (with_up u s)) with u. rewrite Hu, <- app_assoc. f_equal. by destruct (p_cb p).
    + apply wp_bind, (wp_set_req _ _ _ _ _ _ _ Hl). apply wp_ret. destruct fuel as [|fuel]; [simpl in Hf; lia|].
      cbn [iter]. apply wp_bind. cbn [time_elapsed_body]. change (0 <? 0) with false. apply wp_ret, Hdone. unfold set_timeout_diff. cbn [r_next r_cb r_arg r_pkt_id timeout_diff].
      rewrite u16_small by (unfold MQTT_REQ_TIMEOUT in *; lia). by apply requests_head; [|lia|].
Qed.

Lemma wp_time_elapsed l tail ps n fuel s (Q : unit -> mqtt -> Prop) : requests_ok l tail ps [] -> (5 < fuel)%nat -> 0 <= n < 256 ->
  (forall l' t' u, requests_ok l' t' (elapse n ps).2 [] -> log u = log (mq_up s) ++ answers ERR_TIMEOUT (elapse n ps).1 ->
     Q tt (with_reqs l' t' (with_up u s))) ->
  wp (mqtt_request_time_elapsed fuel n) Q (with_reqs l tail s).
Proof.
  intros Hok Hf Hn HQ. unfold mqtt_request_time_elapsed. apply wp_bind, wp_field. change (pend_req_queue _) with tail.
  eapply wp_mono; [apply (elapsed_loop ps l tail n fuel s Hok); [|done]|].
  - pose proof (qchain_length _ _ _ (rq_chain _ _ _ _ Hok)) as Hle. pose proof (rq_nodup _ _ _ _ Hok) as Hnd. rewrite app_nil_r in Hnd.
    rewrite (rq_size _ _ _ _ Hok) in Hle. specialize (Hle Hnd). lia.
  - intros [] s' (l' & t' & u & -> & Hok' & Hlog). by apply HQ.
Qed.
End Requests.

(** ** Requests *)

Lemma elapse_diffs t ps : Forall (fun p => 0 <= p_diff p) ps -> Forall (fun p => 0 <= p_diff p) (elapse t ps).2.
Proof.
  intros Hd. revert t. induction Hd as [|p ps Hp Hd IH]; intros t; simpl; [constructor|].
  destruct (Z.ltb_spec 0 t); [|by constructor]. destruct (Z.leb_spec (p_diff p) t); simpl; [apply IH|]. constructor; [simpl; lia|done].
Qed.

Lemma elapse_total t ps : 0 <= t -> Forall (fun p => 0 <= p_diff p) ps ->
  total_time (elapse t ps).2 <= Z.max 0 (total_time ps - t).
Proof.
  intros Ht Hd. revert t Ht. induction Hd as [|p ps Hp Hd IH]; intros t Ht; simpl; [lia|]. pose proof (total_time_nonneg ps Hd).
  destruct (Z.ltb_spec 0 t); [|simpl; lia]. destruct (Z.leb_spec (p_diff p) t); simpl; [|lia].
  specialize (IH (t - p_diff p)). lia.
Qed.

(** Whoever has less than the round left is told in it. *)
Lemma elapse_due t ps : Forall (fun p => 0 <= p_diff p) ps -> total_time ps < t -> elapse t ps = (ps, []).
Proof.
  intros Hd. revert t. induction Hd as [|p ps Hp Hd IH]; simpl; intros t E; [done|]. pose proof (total_time_nonneg ps Hd).
  rewrite (proj2 (Z.ltb_lt _ _)) by lia. rewrite (proj2 (Z.leb_le _ _)) by lia. by rewrite IH by lia.
Qed.

Lemma elapse_answers err t ps : answers err (elapse t ps).1 ++ answers err (elapse t ps).2 = answers err ps.
Proof.
  revert t. induction ps as [|p ps IH]; intros t; simpl; [done|]. destruct (0 <? t); [|done].
  destruct (p_diff p <=? t); [|done]. unfold answers in *. simpl. destruct (p_cb p); simpl; [f_equal|]; apply IH.
Qed.

(** Rounds of five seconds. *)
Fixpoint rounds (n : nat) (ps : list pending) : list pending :=
  match n with O => ps | S n => rounds n (elapse MQTT_CYCLIC_TIMER_INTERVAL ps).2 end.

Lemma rounds_empty n ps : Forall (fun p => 0 <= p_diff p) ps -> total_time ps < 5 * Z.of_nat n -> rounds n ps = [] .
Proof.
  revert ps. induction n as [|n IH]; intros ps Hd Ht; [pose proof (total_time_nonneg ps Hd); lia|]. cbn [rounds].
  pose proof (total_time_nonneg ps Hd) as Hnn. destruct (decide (total_time ps < 5)) as [E|].
  - rewrite elapse_due by done. simpl. clear. by induction n.
  - pose proof (elapse_total MQTT_CYCLIC_TIMER_INTERVAL ps ltac:(done) Hd) as He. apply IH; [by apply elapse_diffs|].
    unfold MQTT_CYCLIC_TIMER_INTERVAL in *. lia.
Qed.

Section Timer.
Context `{U : Upper} {UL : UpperLaws}.

Definition request_rounds (fuel n : nat) : M mqtt unit :=
  for_each (replicate n MQTT_CYCLIC_TIMER_INTERVAL) (mqtt_request_time_elapsed fuel).

Lemma wp_rounds fuel n : forall l tail ps s, requests_ok l tail ps [] -> (5 < fuel)%nat ->
  wp (request_rounds fuel n) (fun _ s' => exists l' t' u told, s' = with_reqs l' t' (with_up u s) /\
    requests_ok l' t' (rounds n ps) [] /\ log u = log (mq_up s) ++ told /\
    told ++ answers ERR_TIMEOUT (rounds n ps) = answers ERR_TIMEOUT ps) (with_reqs l tail s).
Proof.
  induction n as [|n IH]; intros l tail ps s Hok Hf.
  - apply wp_ret. exists l, tail, (mq_up s), []. split_and!; [by destruct s|done|by rewrite app_nil_r|done].
  - unfold request_rounds. cbn [replicate for_each]. apply wp_bind, (wp_time_elapsed _ _ ps); [done|done|done|].
    intros l1 t1 u1 Hok1 Hlog1. eapply wp_mono; [by apply (IH l1 t1 (elapse MQTT_CYCLIC_TIMER_INTERVAL ps).2 (with_up u1 s))|].
    intros [] s' (l2 & t2 & u2 & told & -> & Hok2 & Hlog2 & Htold). exists l2, t2, u2, (answers ERR_TIMEOUT (elapse MQTT_CYCLIC_TIMER_INTERVAL ps).1 ++ told).
    split_and!; [done|done| |].
    + rewrite Hlog2, app_assoc. f_equal. exact Hlog1.
    + cbn [rounds]. rewrite <- app_assoc, Htold. apply elapse_answers.
Qed.

(** C31. No request waits for ever.  Whatever requests are in the queue, seven
    rounds of the clock of five seconds (one more than the 30 seconds of the
    limit, because a request that shares its deadline with the one before it is
    told a round later) return, leave the queue empty and every item free, and
    tell the application of every request, once and in order, that its time is
    over. *)
Theorem mqtt_requests_expire s ps fuel :
  requests_ok (req_list (mq_client s)) (pend_req_queue (mq_client s)) ps [] -> (5 < fuel)%nat ->
  exists s', request_rounds fuel 7 s = Ret tt s' /\
    requests_ok (req_list (mq_client s')) (pend_req_queue (mq_client s')) [] [] /\
    log (mq_up s') = log (mq_up s) ++ answers ERR_TIMEOUT ps.
Proof.
  intros Hok Hf. pose proof (wp_rounds fuel 7 _ _ ps s Hok Hf) as W. rewrite with_reqs_id in W.
  apply wp_elim in W as ([] & s' & E & l & t & u & told & -> & Hok' & Hlog & Htold). eexists. split; [exact E|].
  assert (Er : rounds 7 ps = []) by (apply rounds_empty; [apply Hok|pose proof (rq_time _ _ _ _ Hok); unfold MQTT_REQ_TIMEOUT in *; lia]).
  rewrite Er in Hok', Htold. split; [done|]. rewrite app_nil_r in Htold. rewrite <- Htold. exact Hlog.
Qed.
End Timer.
