(* ===== verification/MqttSend.v ===== *)
(** The MQTT client: requests to the server, from the call to the bytes on the
    connection. *)
From S2P Require Import Prelude Memp Pbuf MqttRing Mqtt MqttReqs.

(** ** The messages, as MQTT 3.1.1 lays them out *)

Definition publish_body (topic : list Z) (qos id : Z) (payload : list Z) : list Z :=
  mqtt_string topic ++ (if 0 <? qos then field16 id else []) ++ payload.

Definition publish_message (topic : list Z) (qos retain id : Z) (payload : list Z) : list Z :=
  message MQTT_MSG_TYPE_PUBLISH 0 qos retain (publish_body topic qos id payload).

Definition subscribe_body (topic : list Z) (id qos : Z) (sub : bool) : list Z :=
  field16 id ++ mqtt_string topic ++ (if sub then [qos] else []).

Definition subscribe_message (topic : list Z) (id qos : Z) (sub : bool) : list Z :=
  message (if sub then MQTT_MSG_TYPE_SUBSCRIBE else MQTT_MSG_TYPE_UNSUBSCRIBE) 0 1 0 (subscribe_body topic id qos sub).

Lemma publish_body_length topic qos id payload :
  Z.of_nat (length (publish_body topic qos id payload)) =
    2 + Z.of_nat (length topic) + Z.of_nat (length payload) + (if 0 <? qos then 2 else 0).
Proof. unfold publish_body. rewrite !length_app, mqtt_string_length. destruct (0 <? qos); simpl; lia. Qed.

Lemma subscribe_body_length topic id qos sub :
  Z.of_nat (length (subscribe_body topic id qos sub)) = Z.of_nat (length topic) + 2 + 2 + (if sub then 1 else 0).
Proof. unfold subscribe_body. rewrite !length_app, mqtt_string_length. destruct sub; simpl; lia. Qed.

(** Without the payload. *)
Definition publish_front (topic : list Z) (qos retain id n : Z) : list Z :=
  (control_byte MQTT_MSG_TYPE_PUBLISH 0 qos retain :: msg_length n) ++ mqtt_string topic ++ (if 0 <? qos then field16 id else []).

Lemma publish_message_split topic qos retain id payload :
  publish_message topic qos retain id payload =
    publish_front topic qos retain id (Z.of_nat (length (publish_body topic qos id payload))) ++ payload.
Proof. unfold publish_message, message, publish_front. unfold publish_body at 2. by rewrite <- !app_assoc. Qed.

(** The next packet identifier, never zero. *)
Definition next_id (n : Z) : Z := if u16 (n + 1) =? 0 then 1 else u16 (n + 1).

Lemma next_id_range n : 1 <= next_id n < 65536.
Proof. unfold next_id. destruct (Z.eqb_spec (u16 (n + 1)) 0); [lia|]. pose proof (u16_range (n + 1)). lia. Qed.

Section Send.
Context `{U : Upper} {NL : NetLaws}.

Definition outp (rb : mqtt_ringbuf_t) (s : mqtt) : mqtt := with_client (set_output rb (mq_client s)) s.
Definition with_id (n : Z) (s : mqtt) : mqtt := with_client (set_pkt_id_seq n (mq_client s)) s.

Lemma outp_reqs rb l t s : outp rb (with_reqs l t s) = with_reqs l t (outp rb s).
Proof. done. Qed.
Lemma outp_outp rb rb' s : outp rb (outp rb' s) = outp rb s.
Proof. done. Qed.

Lemma wp_append_out m bs q (Q : unit -> mqtt -> Prop) s : appends m bs -> rep (output (mq_client s)) q ->
  (forall rb, rep rb (fold_left enqueue bs q) -> Q tt (outp rb s)) -> wp (on_output m) Q s.
Proof. intros Ha Hr HQ. apply wp_on_output. eapply wp_mono; [by apply Ha|]. intros [] rb Hrb. by apply HQ. Qed.

Lemma wp_check_space n q (Q : bool -> mqtt -> Prop) s : rep (output (mq_client s)) q -> 0 <= n < 65536 ->
  Q (u16 (1 + n + Z.of_nat (length (msg_length n))) <=? 256 - Z.of_nat (length q)) s -> wp (on_output (mqtt_output_check_space n)) Q s.
Proof.
  intros Hr Hn HQ. apply wp_on_output. eapply wp_of_run; [by apply check_space_run|].
  replace (with_client _ s) with s; [done|]. destruct s as [m n' u c]. unfold with_client. simpl. by rewrite set_output_id.
Qed.

(** The queue and the connection after a message: its bytes are appended, and a
    prefix of everything goes out. *)
Definition passed (q msg : list Z) (s s' : mqtt) : Prop :=
  let all := fold_left enqueue msg q in
  exists k, (k <= length all)%nat /\ rep (output (mq_client s')) (drop k all) /\
    sent (mq_net s') = sent (mq_net s) ++ take k all.

(** The end of a request: into the queue of those that wait, and out. *)
Lemma wp_issue i cb arg id d l t ps q msg c s :
  requests_ok l t ps [i] -> l !! i = Some (Req None cb arg id d) ->
  rep (output (mq_client s)) (fold_left enqueue msg q) -> conn (mq_client s) = Some c ->
  wp (mqtt_append_request i;; c ← field conn; mqtt_output_send c;; mret ERR_OK)
    (fun r s' => r = ERR_OK /\ passed q msg s s' /\ mq_up s' = mq_up s /\ mq_mem s' = mq_mem s /\
       exists l' t' rb, mq_client s' = set_output rb (set_req_list l' (set_pend_req_queue t' (mq_client s))) /\
         requests_ok l' t' (ps ++ [Pend i cb arg id (MQTT_REQ_TIMEOUT - total_time ps)]) [])
    (with_reqs l t s).
Proof.
  intros Hok Hi Hr Hc. apply wp_bind, (wp_append i cb arg id d _ _ ps); [done|done|]. intros l' t' Hok'.
  apply wp_bind, wp_field. change (conn (mq_client (with_reqs l' t' s))) with (conn (mq_client s)). rewrite Hc. apply wp_bind.
  eapply wp_mono; [by apply (wp_output_send c _ (with_reqs l' t' s) Hr)|]. intros [] s' (k & rb & n & -> & Hk & Hrb & Hn).
  apply wp_ret. split; [done|]. split; [by exists k|]. split; [done|]. split; [done|]. by exists l', t', rb.
Qed.

(** A client with a connection: its output queue, its waiting requests. *)
Record online (s : mqtt) (c : Z) (q : list Z) (ps : list pending) : Prop := {
  on_conn : conn (mq_client s) = Some c;
  on_state : conn_state (mq_client s) <> TCP_DISCONNECTED;
  on_queue : rep (output (mq_client s)) q;
  on_requests : requests_ok (req_list (mq_client s)) (pend_req_queue (mq_client s)) ps []
}.

(** A request was refused: only a packet identifier may be used up. *)
Definition refused (ps : list pending) (r : Z) (s s' : mqtt) : Prop :=
  r = ERR_MEM /\ exists l t n, s' = with_reqs l t (with_id n s) /\ requests_ok l t ps [].

(** A request was accepted: its message follows what was queued, and it waits
    for 30 seconds. *)
Definition accepted (q msg : list Z) (ps : list pending) (cb : option Z) (arg id r : Z) (s s' : mqtt) : Prop :=
  r = ERR_OK /\ passed q msg s s' /\ mq_up s' = mq_up s /\ mq_mem s' = mq_mem s /\
  exists i l t rb n, mq_client s' = set_output rb (set_req_list l (set_pend_req_queue t (set_pkt_id_seq n (mq_client s)))) /\
    requests_ok l t (ps ++ [Pend i cb arg id (MQTT_REQ_TIMEOUT - total_time ps)]) [].

Definition outcome_of (q msg : list Z) (ps : list pending) (cb : option Z) (arg id r : Z) (s s' : mqtt) : Prop :=
  if decide (length ps = 4%nat \/ (256 < length q + length msg)%nat) then refused ps r s s'
  else accepted q msg ps cb arg id r s s'.

Lemma message_length type dup qos retain body :
  length (message type dup qos retain body) = (1 + length (msg_length (Z.of_nat (length body))) + length body)%nat.
Proof. unfold message. simpl. rewrite length_app. lia. Qed.

(** The part that is the same for all requests: four steps append the message. *)
Lemma wp_request_common type dup qos retain body q ps c cb arg id n s (A1 A2 A3 A4 : M mqtt unit) :
  online s c q ps -> Z.of_nat (length body) <= 65531 ->
  (forall l t (s' : mqtt) (Q : unit -> mqtt -> Prop), rep (output (mq_client s')) q ->
     (forall rb, rep rb (fold_left enqueue (message type dup qos retain body) q) -> Q tt (outp rb s')) ->
     s' = with_reqs l t (with_id n s) -> wp (A1;; A2;; A3;; A4) Q s') ->
  wp (r ← mqtt_create_request id cb arg;
      match r with
      | None => mret ERR_MEM
      | Some i =>
        ok ← on_output (mqtt_output_check_space (Z.of_nat (length body)));
        if negb ok then mqtt_delete_request r;; mret ERR_MEM
        else A1;; A2;; A3;; A4;; mqtt_append_request i;; c ← field conn; mqtt_output_send c;; mret ERR_OK
      end)
    (fun r s' => outcome_of q (message type dup qos retain body) ps cb arg id r s s') (with_id n s).
Proof.
  intros [Hc Hs Hq Hr] Hb HA. set (msg := message _ _ _ _ _) in *.
  assert (Hm : u16 (1 + Z.of_nat (length body) + Z.of_nat (length (msg_length (Z.of_nat (length body))))) = Z.of_nat (length msg)).
  { unfold msg. rewrite message_length. pose proof (msg_length_size (Z.of_nat (length body))). rewrite u16_small; lia. }
  rewrite <- (with_reqs_id (with_id n s)). apply wp_bind, (wp_create _ _ _ _ _ ps); [exact Hr| |].
  - intros Hl. apply wp_ret. unfold outcome_of. rewrite decide_True by by left. split; [done|]. eexists _, _, n. split; [reflexivity|exact Hr].
  - intros i d l' Hok Hi. set (s1 := with_reqs l' _ _). cbv beta iota. apply wp_bind, (wp_check_space _ q); [exact Hq|lia|]. rewrite Hm.
    destruct (Z.leb_spec (Z.of_nat (length msg)) (256 - Z.of_nat (length q))); cbn [negb].
    + apply wp_block4, (HA l' (pend_req_queue (mq_client s)) s1); [exact Hq| |done]. intros rb Hrb. subst s1. rewrite outp_reqs. eapply wp_mono.
      { apply (wp_issue i cb arg id d l' _ ps q msg c (outp rb (with_id n s))); [exact Hok|done|exact Hrb|exact Hc]. }
      intros r s' (-> & Hp & E1 & E2 & l2 & t2 & rb2 & E3 & Hok2). unfold outcome_of. rewrite decide_False.
      * split; [done|]. split; [exact Hp|]. split; [done|]. split; [done|]. exists i, l2, t2, rb2, n. by split.
      * intros [Hl|Hl]; [|lia]. pose proof (rq_nodup _ _ _ _ Hok) as Hnd. pose proof (rq_size _ _ _ _ Hok) as Hsz.
        pose proof (rq_chain _ _ _ _ Hok) as Hch. pose proof (qchain_bound _ _ _ Hch) as Hbd. apply lookup_lt_Some in Hi.
        assert (Hle : (length (indices ps ++ [i]) <= 4)%nat).
        { rewrite <- Hsz, <- (length_seq (length l') 0). apply NoDup_incl_length; [by apply NoDup_ListNoDup|].
          intros j Hj%list_elem_of_In. apply in_seq. apply elem_of_app in Hj as [Hj| ->%list_elem_of_singleton]; [|lia].
          rewrite Forall_forall in Hbd. specialize (Hbd j Hj). lia. }
        rewrite length_app in Hle. unfold indices in Hle. rewrite length_map in Hle. simpl in Hle. lia.
    + apply wp_bind, (wp_delete i _ _ ps); [exact Hok|apply lookup_lt_Some in Hi; pose proof (rq_size _ _ _ _ Hok); lia|].
      intros l2 Hok2. apply wp_ret. unfold outcome_of. rewrite decide_True by (right; lia). split; [done|]. by exists l2, (pend_req_queue (mq_client s)), n.
Qed.

(** ** Publishing *)

Lemma mqtt_type_range type : type = MQTT_MSG_TYPE_PUBLISH \/ type = MQTT_MSG_TYPE_SUBSCRIBE \/ type = MQTT_MSG_TYPE_UNSUBSCRIBE -> 0 <= type < 16.
Proof. unfold MQTT_MSG_TYPE_PUBLISH, MQTT_MSG_TYPE_SUBSCRIBE, MQTT_MSG_TYPE_UNSUBSCRIBE. lia. Qed.

Lemma wp_append_header type dup qos retain (body : list Z) q (Q : unit -> mqtt -> Prop) s :
  0 <= type < 16 -> 0 <= dup < 2 -> 0 <= qos < 4 -> 0 <= retain < 2 -> Z.of_nat (length body) < 65536 ->
  rep (output (mq_client s)) q ->
  (forall rb, rep rb (fold_left enqueue (control_byte type dup qos retain :: msg_length (Z.of_nat (length body))) q) -> Q tt (outp rb s)) ->
  wp (on_output (mqtt_output_append_fixed_header type dup qos retain (Z.of_nat (length body)))) Q s.
Proof. intros H1 H2 H3 H4 H5 Hr HQ. eapply wp_append_out; [|exact Hr|exact HQ]. apply appends_fixed_header; lia. Qed.

(** The identifier of a publication: zero for quality of service 0. *)
Definition publish_id (qos n : Z) : Z := if 0 <? qos then next_id n else 0.

(** Payload and its length as the caller gives them. *)
Definition payload_given (payload : option (list Z)) (n : Z) (data : list Z) : Prop :=
  Forall byte data /\ n = Z.of_nat (length data) /\
  match payload with Some whole => exists rest, whole = data ++ rest | None => data = [] end.

Lemma wp_publish s c q ps topic payload n data qos retain cb arg :
  online s c q ps -> Forall byte topic -> payload_given payload n data -> 0 <= qos <= 2 -> 0 <= retain <= 1 ->
  let id := publish_id qos (pkt_id_seq (mq_client s)) in
  Z.of_nat (length (publish_body topic qos id data)) <= 65531 ->
  wp (mqtt_publish topic payload n qos retain cb arg)
    (fun r s' => outcome_of q (publish_message topic qos retain id data) ps cb arg id r s s') s.
Proof.
  intros Hon Ht (Hd & -> & Hp) Hq Hre id Hlen. pose proof (publish_body_length topic qos id data) as Hbl. unfold mqtt_publish.
  apply wp_bind, wp_field. rewrite bool_decide_eq_false_2 by apply Hon. unfold strlen. change (0xFFFF - 2) with 65533. change 0xFFFF with 65535.
  rewrite (proj2 (Z.ltb_ge _ _)) by (destruct (0 <? qos); lia). cbv zeta. apply wp_bind. rewrite <- Hbl.
  assert (G : exists m, wp (if 0 <? qos then msg_generate_packet_id else mret 0) (fun a s' => a = id /\ s' = with_id m s) s).
  { unfold id, publish_id. destruct (0 <? qos).
    - exists (next_id (pkt_id_seq (mq_client s))). unfold msg_generate_packet_id. apply wp_bind, wp_field, wp_bind, wp_update, wp_ret. done.
    - exists (pkt_id_seq (mq_client s)). apply wp_ret. split; [done|]. by destruct s as [? ? ? []]. }
  destruct G as [m G]. eapply wp_mono; [exact G|]. intros ? ? [-> ->]. clear G. rewrite (proj2 (Z.ltb_ge _ _)) by lia.
  apply (wp_request_common MQTT_MSG_TYPE_PUBLISH 0 qos retain _ q ps c cb arg id m s _ _ _ _ Hon Hlen).
  intros l t s' Q Hr HQ _. apply wp_bind, (wp_append_header _ _ _ _ _ q); [apply mqtt_type_range; tauto|lia..|exact Hr|].
  intros rb1 Hr1. apply wp_bind. eapply (wp_append_out _ (mqtt_string topic)); [apply appends_string; [done|destruct (0 <? qos); lia]|exact Hr1|].
  intros rb2 Hr2. rewrite outp_outp. rewrite <- fold_left_app in Hr2. apply wp_bind.
  assert (Hid : 0 <= id < 65536).
  { unfold id, publish_id. destruct (0 <? qos); [|lia]. pose proof (next_id_range (pkt_id_seq (mq_client s))). lia. }
  assert (Hlast : forall rb, rep rb (fold_left enqueue (publish_front topic qos retain id (Z.of_nat (length (publish_body topic qos id data)))) q) ->
    wp match payload with Some d => when (0 <? Z.of_nat (length data)) (on_output (mqtt_output_append_buf d (Z.of_nat (length data)))) | None => mret tt end
      Q (outp rb s')).
  { intros rb Hrb. change (message _ _ _ _ _) with (publish_message topic qos retain id data) in HQ. rewrite publish_message_split in HQ.
    destruct payload as [whole|].
    - destruct Hp as [rest ->]. destruct (Z.ltb_spec 0 (Z.of_nat (length data))); cbn [when].
      + eapply (wp_append_out _ data); [|exact Hrb|].
        * pose proof (appends_buf (data ++ rest) (Z.of_nat (length data))) as Ha. rewrite Nat2Z.id, take_app_length in Ha.
          apply Ha; [done|]. rewrite length_app. lia.
        * intros rb3 Hr3. rewrite outp_outp. apply HQ. by rewrite fold_left_app.
      + apply wp_ret, HQ. destruct data; [|simpl in *; lia]. by rewrite app_nil_r.
    - subst data. apply wp_ret, HQ. by rewrite app_nil_r. }
  destruct (0 <? qos) eqn:Eq0; cbn [when].
  - eapply (wp_append_out _ (field16 id)); [by apply appends_u16|exact Hr2|]. intros rb3 Hr3. rewrite outp_outp. apply Hlast.
    rewrite <- fold_left_app, <- app_assoc in Hr3. unfold publish_front. by rewrite Eq0.
  - apply wp_ret, Hlast. unfold publish_front. by rewrite Eq0, app_nil_r.
Qed.

(** What the connection has got and what waits to be sent. *)
Definition stream (s : mqtt) : list Z := sent (mq_net s) ++ queued (output (mq_client s)).

Lemma passed_stream q msg s s' : passed q msg s s' -> stream s' = sent (mq_net s) ++ fold_left enqueue msg q.
Proof. intros (k & Hk & [_ Hr] & Hs). unfold stream. by rewrite Hs, Hr, <- app_assoc, take_drop. Qed.

(** C11. Publishing.  With fewer than four requests waiting and room for the
    message in the output queue - 255 bytes in all - [mqtt_publish] accepts the
    request, and the byte stream to the server, what TCP has taken followed by
    what is queued, grows by exactly the PUBLISH message of MQTT 3.1.1, whatever
    part of it TCP takes now; the request waits behind the others.  With four
    requests waiting, or more than 256 bytes, ERR_MEM: no byte is added. *)
Theorem mqtt_publish_stream s c q ps topic payload n data qos retain cb arg :
  online s c q ps -> Forall byte topic -> payload_given payload n data -> 0 <= qos <= 2 -> 0 <= retain <= 1 ->
  let id := publish_id qos (pkt_id_seq (mq_client s)) in
  let msg := publish_message topic qos retain id data in
  Z.of_nat (length (publish_body topic qos id data)) <= 65531 -> (length q + length msg <> 256)%nat ->
  exists r s', mqtt_publish topic payload n qos retain cb arg s = Ret r s' /\
    if decide (length ps = 4 \/ 256 < length q + length msg)%nat then
      r = ERR_MEM /\ stream s' = stream s /\ sent (mq_net s') = sent (mq_net s) /\ exists q', online s' c q' ps
    else
      r = ERR_OK /\ stream s' = stream s ++ msg /\ mq_up s' = mq_up s /\ mq_mem s' = mq_mem s /\
      exists i q', online s' c q' (ps ++ [Pend i cb arg id (MQTT_REQ_TIMEOUT - total_time ps)]).
Proof.
  intros Hon Ht Hp Hq Hre id msg Hlen Hne. pose proof (wp_publish s c q ps topic payload n data qos retain cb arg Hon Ht Hp Hq Hre Hlen) as W.
  apply wp_elim in W as (r & s' & E & Ho). exists r, s'. split; [exact E|]. fold id in Ho. fold msg in Ho. unfold outcome_of in Ho.
  pose proof Hon as [Hc Hst [Hrok Hrq] Hr]. case_decide as Hd.
  - destruct Ho as (-> & l & t & m & -> & Hok). split_and!; [done|done|done|]. exists q. by split.
  - destruct Ho as (-> & Hpass & Eu & Em & i & l & t & rb & m & Ecl & Hok). pose proof (passed_stream _ _ _ _ Hpass) as Est.
    rewrite enqueue_fits in Est by lia. split_and!; [done| |done|done|].
    + rewrite Est. unfold stream. by rewrite Hrq, <- app_assoc.
    + destruct Hpass as (k & _ & Hrep & _). exists i. eexists. split; [by rewrite Ecl|by rewrite Ecl|exact Hrep|]. by rewrite Ecl.
Qed.

(** C37. The full queue is empty.  When a message fills the 256 bytes of the ring
    exactly, [mqtt_publish] finds room for it and reports success, but the
    indices are equal then: the message and everything queued before it are
    gone, and the connection gets none of it. *)
Theorem mqtt_exact_fit_lost s c q ps topic payload n data qos retain cb arg :
  online s c q ps -> Forall byte topic -> payload_given payload n data -> 0 <= qos <= 2 -> 0 <= retain <= 1 ->
  let id := publish_id qos (pkt_id_seq (mq_client s)) in
  (length q + length (publish_message topic qos retain id data) = 256)%nat -> (length ps < 4)%nat ->
  exists s', mqtt_publish topic payload n qos retain cb arg s = Ret ERR_OK s' /\
    queued (output (mq_client s')) = [] /\ sent (mq_net s') = sent (mq_net s).
Proof.
  intros Hon Ht Hp Hq Hre id He Hps. pose proof (message_length MQTT_MSG_TYPE_PUBLISH 0 qos retain (publish_body topic qos id data)) as Hm.
  assert (Hlen : Z.of_nat (length (publish_body topic qos id data)) <= 65531) by (unfold publish_message in He; lia).
  pose proof (wp_publish s c q ps topic payload n data qos retain cb arg Hon Ht Hp Hq Hre Hlen) as W.
  apply wp_elim in W as (r & s' & E & Ho). fold id in Ho. unfold outcome_of in Ho. rewrite decide_False in Ho by lia.
  destruct Ho as (-> & Hpass & _). exists s'. split; [exact E|]. pose proof (passed_stream _ _ _ _ Hpass) as Est.
  rewrite enqueue_full, app_nil_r in Est by (done || lia). unfold stream in Est.
  destruct Hpass as (k & Hk & [_ Hrep] & Hs). rewrite enqueue_full in Hk, Hrep, Hs by (done || lia). rewrite drop_nil in Hrep.
  rewrite take_nil, app_nil_r in Hs. done.
Qed.
End Send.
