(* ===== verification/MqttConnect.v ===== *)
(** The MQTT client: connecting to a server. *)
From S2P Require Import Prelude Memp Pbuf MqttRing Mqtt MqttReqs MqttSend.

(** ** The CONNECT message of MQTT 3.1.1 *)

(** The will, when topic and message are given. *)
Definition the_will (ci : mqtt_connect_client_info_t) : option (list Z * list Z) :=
  match will_topic ci, will_msg ci with
  | Some topic, Some msg => Some (topic, if will_msg_len ci =? 0 then msg else take (Z.to_nat (will_msg_len ci)) msg)
  | _, _ => None
  end.

Definition connect_flags (ci : mqtt_connect_client_info_t) : Z :=
  (if client_user ci then 128 else 0) + (if client_pass ci then 64 else 0)
  + (if the_will ci then (if will_retain ci =? 0 then 0 else 32) + will_qos ci * 8 + 4 else 0) + 2.

Definition connect_body (ci : mqtt_connect_client_info_t) : list Z :=
  mqtt_string [77; 81; 84; 84] ++ [4] ++ [connect_flags ci] ++ field16 (ci_keep_alive ci) ++ mqtt_string (client_id ci)
  ++ (if the_will ci is Some (topic, _) then mqtt_string topic else [])
  ++ (if the_will ci is Some (_, msg) then mqtt_string msg else [])
  ++ (if client_user ci is Some u then mqtt_string u else [])
  ++ (if client_pass ci is Some p then mqtt_string p else []).

Definition connect_message (ci : mqtt_connect_client_info_t) : list Z := message MQTT_MSG_TYPE_CONNECT 0 0 0 (connect_body ci).

Definition text (s : list Z) (lo hi : Z) : Prop := Forall byte s /\ lo <= Z.of_nat (length s) <= hi.

(** What the caller may pass. *)
Record good_info (ci : mqtt_connect_client_info_t) : Prop := {
  gi_id : text (client_id ci) 0 65535;
  gi_user : forall u, client_user ci = Some u -> text u 1 65535;
  gi_pass : forall p, client_pass ci = Some p -> text p 1 65535;
  gi_will : forall t m, the_will ci = Some (t, m) -> text t 1 255 /\ text m 0 255 /\
    (will_msg_len ci <> 0 -> Z.of_nat (length m) = will_msg_len ci);
  gi_qos : 0 <= will_qos ci < 4;
  gi_keep_alive : 0 <= ci_keep_alive ci < 65536;
  gi_size : Z.of_nat (length (connect_body ci)) <= 65531
}.

(** ** The plan *)

Definition opt_length (s : option (list Z)) : Z := if s is Some s then 2 + Z.of_nat (length s) else 0.

Definition string_length (s : option (list Z)) : Z := if s is Some s then Z.of_nat (length s) else 0.

Lemma plan_string_ok str flag rem : (forall s, str = Some s -> text s 1 65535) -> 0 <= rem -> rem + opt_length str <= 65535 ->
  plan_string str flag rem = Some (if str then flag else 0, string_length str, rem + opt_length str).
Proof.
  intros Ht Hr Hs. destruct str as [s|]; simpl in *; [|by rewrite Z.add_0_r]. destruct (Ht s eq_refl) as [_ Hl].
  unfold strlen. rewrite (proj2 (Z.leb_le _ _)), (proj2 (Z.ltb_lt _ _)) by lia. cbn [negb orb].
  rewrite !u16_small by lia. rewrite (proj2 (Z.leb_le _ _)) by lia. f_equal. f_equal. lia.
Qed.

Definition will_flags (ci : mqtt_connect_client_info_t) : Z :=
  if the_will ci then (if will_retain ci =? 0 then 0 else 32) + will_qos ci * 8 + 4 else 0.

Definition will_size (ci : mqtt_connect_client_info_t) : Z :=
  if the_will ci is Some (t, m) then 4 + Z.of_nat (length t) + Z.of_nat (length m) else 0.

Definition will_topic_size (ci : mqtt_connect_client_info_t) : Z := if the_will ci is Some (t, _) then Z.of_nat (length t) else 0.
Definition will_msg_size (ci : mqtt_connect_client_info_t) : Z := if the_will ci is Some (_, m) then Z.of_nat (length m) else 0.

Lemma qos_cases q : 0 <= q < 4 -> q = 0 \/ q = 1 \/ q = 2 \/ q = 3.
Proof. lia. Qed.

Lemma plan_will_ok ci rem : good_info ci -> 0 <= rem -> rem + will_size ci <= 65535 ->
  plan_will ci rem = Some (will_flags ci, will_topic_size ci, will_msg_size ci, rem + will_size ci).
Proof.
  intros [_ _ _ Hw Hq _ _] Hr Hs. unfold plan_will, will_flags, will_size, will_topic_size, will_msg_size in *. unfold the_will in *.
  destruct (will_topic ci) as [t|]; [|by rewrite Z.add_0_r]. destruct (will_msg ci) as [msg|]; [|by rewrite Z.add_0_r].
  destruct (Hw _ _ eq_refl) as ([_ Ht] & [_ Hm] & Hl). unfold strlen.
  rewrite (proj2 (Z.leb_le _ _)), (proj2 (Z.ltb_lt _ _)) by lia. cbn [negb orb]. rewrite (u8_small (Z.of_nat (length t))) by lia.
  set (m := if will_msg_len ci =? 0 then msg else _) in *.
  assert (E : plan_will_msg ci msg = Some (Z.of_nat (length m))).
  { unfold plan_will_msg, strlen. unfold m in *. destruct (Z.eqb_spec (will_msg_len ci) 0).
    - rewrite (proj2 (Z.leb_le _ _)), u8_small by lia. done.
    - f_equal. symmetry. by apply Hl. }
  rewrite E. cbn [mbind option_bind]. rewrite (proj2 (Z.leb_le _ _)) by lia. rewrite u16_small by lia.
  assert (F : forall q, 0 <= q < 4 -> Z.lor MQTT_CONNECT_FLAG_WILL (u8 (Z.shiftl (Z.land q 3) 3)) = q * 8 + 4 /\
    Z.lor (q * 8 + 4) MQTT_CONNECT_FLAG_WILL_RETAIN = 32 + q * 8 + 4).
  { intros q [->|[->|[->| ->]]]%qos_cases; done. }
  destruct (F _ Hq) as [F1 F2]. rewrite F1. f_equal. f_equal; [|lia]. f_equal. f_equal. destruct (will_retain ci =? 0); [lia|]. by rewrite F2.
Qed.

Lemma connect_body_length ci : Z.of_nat (length (connect_body ci)) =
  10 + will_size ci + opt_length (client_user ci) + opt_length (client_pass ci) + 2 + Z.of_nat (length (client_id ci)).
Proof.
  unfold connect_body, will_size, opt_length. rewrite !length_app, !mqtt_string_length.
  destruct (the_will ci) as [[t m]|], (client_user ci), (client_pass ci); simpl; lia.
Qed.

Lemma connect_flags_value ci : good_info ci ->
  Z.lor (Z.lor (Z.lor (will_flags ci) (if client_user ci then MQTT_CONNECT_FLAG_USERNAME else 0))
    (if client_pass ci then MQTT_CONNECT_FLAG_PASSWORD else 0)) MQTT_CONNECT_FLAG_CLEAN_SESSION = connect_flags ci.
Proof.
  intros [_ _ _ _ Hq _ _]. unfold will_flags, connect_flags.
  destruct (the_will ci), (client_user ci), (client_pass ci), (will_retain ci =? 0); try done;
    destruct (qos_cases _ Hq) as [->|[->|[->| ->]]]; done.
Qed.

Lemma plan_connect_ok ci : good_info ci -> plan_connect ci =
  Some (Plan (connect_flags ci) (will_topic_size ci) (will_msg_size ci) (string_length (client_user ci))
          (string_length (client_pass ci)) (Z.of_nat (length (client_id ci))) (Z.of_nat (length (connect_body ci)))).
Proof.
  intros Hg. pose proof Hg as [Hi Hu Hp _ _ _ Hs]. rewrite connect_body_length in Hs.
  assert (0 <= will_size ci) by (unfold will_size; case_match; [case_match|]; lia).
  assert (0 <= opt_length (client_user ci)) by (unfold opt_length; case_match; lia).
  assert (0 <= opt_length (client_pass ci)) by (unfold opt_length; case_match; lia).
  unfold plan_connect. rewrite plan_will_ok by (done || lia). cbn [mbind option_bind].
  rewrite plan_string_ok by (done || lia). cbn [mbind option_bind].
  rewrite plan_string_ok by (done || lia). cbn [mbind option_bind]. unfold strlen. destruct Hi as [_ Hi].
  rewrite (proj2 (Z.leb_le _ _)) by lia. cbn [negb]. rewrite (u16_small (Z.of_nat (length (client_id ci)))) by lia.
  rewrite (proj2 (Z.leb_le _ _)), u16_small by lia. rewrite connect_flags_value, connect_body_length by done. done.
Qed.

(** ** The message in the queue *)

Lemma connect_flags_has ci : good_info ci ->
  has (connect_flags ci) MQTT_CONNECT_FLAG_WILL = bool_decide (the_will ci <> None) /\
  has (connect_flags ci) MQTT_CONNECT_FLAG_USERNAME = bool_decide (client_user ci <> None) /\
  has (connect_flags ci) MQTT_CONNECT_FLAG_PASSWORD = bool_decide (client_pass ci <> None) /\
  byte (connect_flags ci).
Proof.
  intros [_ _ _ _ Hq _ _]. unfold connect_flags, byte.
  destruct (the_will ci), (client_user ci), (client_pass ci), (will_retain ci =? 0);
    destruct (qos_cases _ Hq) as [E|[E|[E|E]]]; rewrite ?E; (split_and!; [reflexivity..|lia|lia]).
Qed.

Lemma appends_if flags flag str n bs : (has flags flag = true -> exists s, str = Some s /\ appends (mqtt_output_append_string s n) bs) ->
  (has flags flag = false -> bs = []) -> appends (append_if flags flag str n) bs.
Proof.
  intros Ht Hf. unfold append_if. destruct (has flags flag).
  - destruct (Ht eq_refl) as (s & -> & Ha). intros rb q Hr. apply wp_bind, wp_ret. by apply Ha.
  - rewrite (Hf eq_refl). apply appends_nil.
Qed.

Lemma appends_will ci : good_info ci ->
  appends (append_if (connect_flags ci) MQTT_CONNECT_FLAG_WILL (will_topic ci) (will_topic_size ci))
    (if the_will ci is Some (topic, _) then mqtt_string topic else []) /\
  appends (append_if (connect_flags ci) MQTT_CONNECT_FLAG_WILL (will_msg ci) (will_msg_size ci))
    (if the_will ci is Some (_, msg) then mqtt_string msg else []).
Proof.
  intros Hg. destruct (connect_flags_has ci Hg) as (Hf & _). pose proof (gi_will ci Hg) as Hw. unfold will_topic_size, will_msg_size.
  destruct (the_will ci) as [[t m]|] eqn:Ew; cbn [bool_decide] in Hf.
  - destruct (Hw _ _ eq_refl) as ([Hbt Ht] & [Hbm Hm] & Hl). unfold the_will in Ew.
    destruct (will_topic ci) as [t'|]; [|done]. destruct (will_msg ci) as [msg|]; [|done]. injection Ew as -> <-.
    split; apply appends_if; try (intros E; rewrite E in Hf; done); intros _; eexists; (split; [reflexivity|]).
    + apply appends_string; [done|lia].
    + destruct (Z.eqb_spec (will_msg_len ci) 0); [apply appends_string; [done|lia]|]. specialize (Hl n). rewrite length_take in Hl, Hm |- *.
      replace (Z.of_nat _) with (will_msg_len ci) by lia. apply appends_string_n; [done|lia|lia].
  - split; (apply appends_if; [intros E; rewrite E in Hf; done|done]).
Qed.

Lemma appends_text flags flag (str : option (list Z)) : (forall s, str = Some s -> text s 1 65535) ->
  has flags flag = bool_decide (str <> None) ->
  appends (append_if flags flag str (string_length str)) (if str is Some s then mqtt_string s else []).
Proof.
  intros Ht Hf. apply appends_if; rewrite Hf; destruct str as [s|]; try done. intros _. exists s. split; [done|].
  destruct (Ht s eq_refl). simpl. apply appends_string; [done|lia].
Qed.

Lemma appends_connect ci pl : good_info ci -> plan_connect ci = Some pl -> appends (append_connect ci pl) (connect_message ci).
Proof.
  intros Hg E. rewrite plan_connect_ok in E by done. injection E as <-. destruct (connect_flags_has ci Hg) as (_ & Hu & Hp & Hb).
  destruct (appends_will ci Hg) as [Hwt Hwm]. pose proof Hg as [[Hbi Hi] Hgu Hgp _ _ Hk Hs]. unfold append_connect, connect_message, message.
  cbn [remaining_length cp_flags client_id_length will_topic_len cp_will_msg_len client_user_len client_pass_len].
  apply (appends_seq _ _ (control_byte MQTT_MSG_TYPE_CONNECT 0 0 0 :: _)); [apply appends_fixed_header; unfold MQTT_MSG_TYPE_CONNECT; lia|].
  unfold connect_body. apply appends_seq; [by apply (appends_string [77; 81; 84; 84]); [repeat constructor; done|]|].
  apply appends_seq; [apply (appends_put 4)|].
  apply appends_seq; [rewrite <- (u8_small (connect_flags ci)) at 2 by exact Hb; apply appends_put|].
  apply appends_seq; [by apply appends_u16|]. apply appends_seq; [apply appends_string; [done|lia]|].
  apply appends_seq; [exact Hwt|]. apply appends_seq; [exact Hwm|]. apply appends_seq; by apply appends_text.
Qed.

(** ** The calls *)

Section Connect.
Context `{U : Upper} {NL : NetLaws}.

Definition all_unused : list mqtt_request_t := (fun n => Req (Some n) None 0 0 0) <$> seq 0 4.

Lemma all_unused_ok : requests_ok all_unused None [] [].
Proof.
  split; [done|done|constructor| |constructor|done]. intros i r Hi _. apply list_lookup_fmap_Some in Hi as (n & -> & [-> _]%lookup_seq). done.
Qed.

(** The client after the memory is wiped and the requests are freed. *)
Definition fresh_client (cb : option Z) (arg ka : Z) (s : mqtt) : mqtt :=
  with_reqs all_unused None (with_client (wiped cb arg ka (mq_client s)) s).

Lemma init_run cb arg ka s :
  mqtt_init_requests (with_client (wiped cb arg ka (mq_client s)) s) = Ret tt (fresh_client cb arg ka s).
Proof. destruct s as [m n u []]. reflexivity. Qed.

Lemma empty_ring : rep (Ring 0 0 (replicate 256 0)) [].
Proof. by repeat split. Qed.

(** A new attempt that has not got anywhere: no connection, nothing queued,
    nothing sent; the callbacks for publications are kept. *)
Record reset (cb : option Z) (arg ka : Z) (s s' : mqtt) : Prop := {
  re_requests : requests_ok (req_list (mq_client s')) (pend_req_queue (mq_client s')) [] [];
  re_sent : sent (mq_net s') = sent (mq_net s);
  re_rest : mq_mem s' = mq_mem s /\ mq_up s' = mq_up s;
  re_callbacks : connect_cb (mq_client s') = cb /\ connect_arg (mq_client s') = arg /\ keep_alive (mq_client s') = ka /\
    pub_cb (mq_client s') = pub_cb (mq_client s) /\ data_cb (mq_client s') = data_cb (mq_client s) /\
    inpub_arg (mq_client s') = inpub_arg (mq_client s)
}.

Lemma wp_connect_bytes ci q (Q : unit -> mqtt -> Prop) s : good_info ci -> rep (output (mq_client s)) q ->
  (forall rb, rep rb (fold_left enqueue (connect_message ci) q) -> Q tt (outp rb s)) ->
  forall pl, plan_connect ci = Some pl -> wp (on_output (append_connect ci pl)) Q s.
Proof. intros Hg Hr HQ pl Hpl. eapply wp_append_out; [by eapply appends_connect|exact Hr|exact HQ]. Qed.

(** How an attempt ends: with the CONNECT message queued for a connection that
    is being opened, or without a connection. *)
Definition attempt (ci : mqtt_connect_client_info_t) (r : Z) (s' : mqtt) : Prop :=
  (r <> ERR_OK -> conn (mq_client s') = None /\ conn_state (mq_client s') = TCP_DISCONNECTED /\ queued (output (mq_client s')) = []) /\
  (r = ERR_OK -> (length (connect_message ci) <= 256)%nat /\ exists c, conn (mq_client s') = Some c /\
     conn_state (mq_client s') = TCP_CONNECTING /\ rep (output (mq_client s')) (fold_left enqueue (connect_message ci) [])).

Lemma wp_client_connect s ip port cb arg ci : conn_state (mq_client s) = TCP_DISCONNECTED -> good_info ci ->
  wp (mqtt_client_connect ip port cb arg ci) (fun r s' => reset cb arg (ci_keep_alive ci) s s' /\ attempt ci r s') s.
Proof.
  intros Hst Hg. pose proof (gi_size ci Hg) as Hsz. pose proof (plan_connect_ok ci Hg) as Hpl. unfold mqtt_client_connect.
  apply wp_bind, wp_field. rewrite bool_decide_eq_false_2 by (intros Hne; by apply Hne).
  set (ka := ci_keep_alive ci). apply wp_bind, wp_update, wp_bind. eapply wp_of_run; [apply init_run|]. set (s1 := fresh_client cb arg ka s).
  assert (Hreset : forall n c st rb, sent n = sent (mq_net s) ->
    reset cb arg ka s (with_net n (with_client (set_output rb (set_conn_state st (set_conn c (mq_client s1)))) s1))).
  { intros n c st rb Hn. split; [apply all_unused_ok|done|done|done]. }
  assert (Hfail : forall n r, sent n = sent (mq_net s) -> r <> ERR_OK ->
    let s' := with_net n (with_client (set_conn None (mq_client s1)) s1) in reset cb arg ka s s' /\ attempt ci r s').
  { intros n r Hn Hr s'. split; [by apply (Hreset n None TCP_DISCONNECTED (Ring 0 0 (replicate 256 0)))|]. split; [done|]. by intros ->. }
  pose proof (fun s => appends_connect ci s Hg) as Happ. rewrite Hpl in *. set (pl := Plan _ _ _ _ _ _ _) in *.
  specialize (Happ pl eq_refl). cbv beta iota. apply wp_bind, (wp_check_space _ []); [exact empty_ring|unfold pl; cbn [remaining_length]; lia|].
  assert (Hm : u16 (1 + remaining_length pl + Z.of_nat (length (msg_length (remaining_length pl)))) = Z.of_nat (length (connect_message ci))).
  { unfold connect_message. rewrite message_length. cbn [remaining_length pl].
    pose proof (msg_length_size (Z.of_nat (length (connect_body ci)))). rewrite u16_small; lia. }
  rewrite Hm. change (Z.of_nat (length [])) with 0. destruct (Z.leb_spec (Z.of_nat (length (connect_message ci))) (256 - 0)); cbn [negb];
    [|by apply wp_ret, (Hfail (mq_net s))].
  apply wp_bind, wp_on_net. change (mq_net s1) with (mq_net s). pose proof (law_new (mq_net s)) as Hn. destruct (altcp_new (mq_net s)) as [[c|] n1]; cbn [fst snd] in *.
  2:{ apply wp_bind, wp_update. by apply wp_ret, (Hfail n1). }
  apply wp_bind, wp_update. rewrite bool_decide_eq_false_2 by done. apply wp_bind, wp_tcp_call, wp_bind, wp_tcp_call.
  set (n2 := (altcp_call _ AltcpArg _).2). set (b := altcp_call _ AltcpBind _).
  assert (Hn3 : sent b.2 = sent (mq_net s)) by (unfold b; rewrite law_call; change (sent n2 = sent (mq_net s)); unfold n2; rewrite law_call; exact Hn).
  destruct (Z.eqb_spec b.1 ERR_OK) as [Eb|Eb]; cbn [negb].
  2:{ unfold tcp_fail. apply wp_bind, wp_field. change (conn _) with (Some c). apply wp_bind, wp_tcp_call, wp_bind, wp_update, wp_ret.
      apply (Hfail (altcp_call c AltcpAbort b.2).2); [by rewrite law_call|done]. }
  apply wp_bind, wp_tcp_call. set (k := altcp_call _ (AltcpConnect _ _) _).
  assert (Hn4 : sent k.2 = sent (mq_net s)) by (unfold k; rewrite law_call; exact Hn3).
  destruct (Z.eqb_spec k.1 ERR_OK) as [Ek|Ek]; cbn [negb].
  2:{ unfold tcp_fail. apply wp_bind, wp_field. change (conn _) with (Some c). apply wp_bind, wp_tcp_call, wp_bind, wp_update, wp_ret.
      apply (Hfail (altcp_call c AltcpAbort k.2).2); [by rewrite law_call|done]. }
  apply wp_bind, wp_tcp_call, wp_bind, wp_update, wp_bind. eapply (wp_append_out _ _ []); [exact Happ|exact empty_ring|].
  intros rb Hrb. apply wp_ret. split; [apply (Hreset (altcp_call c (AltcpErr true) k.2).2 (Some c) TCP_CONNECTING rb); by rewrite law_call|].
  split; [done|]. intros _. split; [lia|]. by exists c.
Qed.

(** C20. Connecting.  [mqtt_client_connect] on a disconnected client returns.
    With ERR_OK a connection is being opened, and when TCP reports it open the
    bytes TCP gets, followed by those still queued, are exactly the CONNECT
    message of MQTT 3.1.1 for the caller's options; with an error - always when
    the message has more than 256 bytes - there is no connection, no byte was
    sent and nothing is queued. *)
Theorem mqtt_connects s ip port cb arg ci :
  conn_state (mq_client s) = TCP_DISCONNECTED -> good_info ci -> length (connect_message ci) <> 256%nat ->
  exists r s', mqtt_client_connect ip port cb arg ci s = Ret r s' /\ reset cb arg (ci_keep_alive ci) s s' /\
    ((256 < length (connect_message ci))%nat -> r <> ERR_OK) /\
    if decide (r = ERR_OK) then
      exists c s'', conn (mq_client s') = Some c /\ mqtt_tcp_connect_cb (Some c) ERR_OK s' = Ret ERR_OK s'' /\
        conn_state (mq_client s'') = MQTT_CONNECTING /\ cyclic_tick (mq_client s'') = 0 /\
        stream s'' = sent (mq_net s) ++ connect_message ci /\ exists q, online s'' c q []
    else conn (mq_client s') = None /\ conn_state (mq_client s') = TCP_DISCONNECTED /\ stream s' = sent (mq_net s).
Proof.
  intros Hst Hg Hne. destruct (wp_elim _ _ _ (wp_client_connect s ip port cb arg ci Hst Hg)) as (r & s' & E & Hre & Hf & Ho).
  exists r, s'. split; [exact E|]. split; [exact Hre|]. split; [intros Hl ->; destruct (Ho eq_refl); lia|].
  case_decide as Hr.
  - destruct (Ho Hr) as (Hl & c & Hc & Hcs & Hrep). rewrite enqueue_fits in Hrep by (change (length (@nil Z)) with 0%nat; lia).
    assert (W : wp (mqtt_tcp_connect_cb (Some c) ERR_OK) (fun a s'' => a = ERR_OK /\ conn_state (mq_client s'') = MQTT_CONNECTING /\
      cyclic_tick (mq_client s'') = 0 /\ stream s'' = sent (mq_net s) ++ connect_message ci /\ exists q, online s'' c q []) s').
    { unfold mqtt_tcp_connect_cb. apply wp_bind, wp_update, wp_bind, wp_tcp_call, wp_bind, wp_tcp_call, wp_bind, wp_tcp_call, wp_bind, wp_update, wp_bind, wp_on_net, wp_bind, wp_update, wp_bind, wp_field.
      set (s2 := with_client _ _). change (conn (mq_client s2)) with (conn (mq_client s')). rewrite Hc. apply wp_bind.
      assert (H2 : sent (mq_net s2) = sent (mq_net s)).
      { unfold s2. cbn [mq_net with_client with_net snd]. rewrite law_timer, !law_call. apply Hre. }
      eapply wp_mono; [apply (wp_output_send c _ s2 Hrep)|]. intros [] s3 (k & rb & n & -> & Hk & Hr3 & Hn). apply wp_ret.
      split; [done|]. split; [done|]. split; [done|]. split.
      - unfold stream. destruct Hr3 as [_ Hq]. change (output _) with rb at 1. change (mq_net (with_net n _)) with n. rewrite Hq, Hn, H2, <- app_assoc. f_equal. apply take_drop.
      - eexists. split; [exact Hc|done|exact Hr3|apply Hre]. }
    apply wp_elim in W as (a & s'' & E' & -> & W). exists c, s''. done.
  - destruct (Hf Hr) as (F1 & F2 & F3). split; [done|]. split; [done|]. unfold stream. rewrite F3, app_nil_r. apply Hre.
Qed.
End Connect.
