(* ===== verification/MqttDeliver.v ===== *)
(** The MQTT client: the fixed header of a message, from one segment or several;
    a publication of the server and what the application is told of it. *)
From S2P Require Import Prelude Memp Pbuf PbufFacts MqttRing Mqtt MqttReqs.

(** ** Reading a packet of one pbuf *)

Section Packet.
Context `{HeapOps}.

Lemma packet_one m nd : packet m (Some (n_loc nd)) [nd] -> pbufs m !! n_loc nd = Some (n_buf nd) /\
  holds m (n_buf nd) (n_data nd) /\ tot_len (n_buf nd) = len (n_buf nd) /\ len (n_buf nd) = Z.of_nat (length (n_data nd)) /\
  len (n_buf nd) < 65536.
Proof.
  intros [(_ & Hl & Hh & _) [Ht _] _ _ Hb]. pose proof Hh as [Hlen _]. unfold total, contents in *. simpl in *. rewrite app_nil_r in *.
  split_and!; [done|done|lia|lia|lia].
Qed.

Lemma get_contiguous_one m nd size n off blk o : packet m (Some (n_loc nd)) [nd] -> payload (n_buf nd) = Some (blk, o) ->
  0 <= off < len (n_buf nd) -> 0 <= n <= size -> off + n <= len (n_buf nd) ->
  pbuf_get_contiguous (Some (n_loc nd)) true size n off m = Ret (CPayload (blk, o + off)) m.
Proof.
  intros Hp Hpay Ho Hn Hl. destruct (packet_one _ _ Hp) as (Hb & _ & _ & _ & Hbd). unfold pbuf_get_contiguous. cbn [andb].
  rewrite (proj2 (Z.ltb_ge _ _)) by lia. erewrite bind_Ret by (apply (skip_run m (Some (n_loc nd)) [nd]); [done|lia]).
  cbn [skip_spec]. rewrite (proj2 (Z.leb_gt _ _)) by lia. cbn [fst snd first_loc head fmap option_fmap option_map].
  erewrite bind_Ret by (unfold getp; erewrite bind_Ret by reflexivity; rewrite Hb; reflexivity).
  rewrite (proj2 (Z.leb_le _ _)) by lia. rewrite Hpay. done.
Qed.

Lemma read_at_shift blk o a i n m : read_at (Some (blk, o + a)) i n m = read_at (Some (blk, o)) (a + i) n m.
Proof. unfold read_at. destruct (n =? 0); [done|]. unfold mbind, M_bind, deref, mret, M_ret, area. simpl. by rewrite <- !Z.add_assoc. Qed.
Lemma write_at_shift blk o a i bs m : write_at (Some (blk, o + a)) i bs m = write_at (Some (blk, o)) (a + i) bs m.
Proof. unfold write_at. destruct (_ =? 0); [done|]. unfold mbind, M_bind, deref, mret, M_ret, area. simpl. by rewrite <- !Z.add_assoc. Qed.

(** Bytes of a payload, read through a pointer into it. *)
Lemma read_payload m b data blk o a i n : holds m b data -> payload b = Some (blk, o) -> 0 <= a -> 0 <= i -> 0 <= n -> a + i + n <= len b ->
  read_at (Some (blk, o + a)) i n m = Ret (take (Z.to_nat n) (drop (Z.to_nat (a + i)) data)) m.
Proof.
  intros Hh Hp Ha Hi Hn Hl. rewrite read_at_shift, <- Hp.
  assert (W : wp (read_at (payload b) (a + i) n) (fun r m' => r = take (Z.to_nat n) (drop (Z.to_nat (a + i)) data) /\ m' = m) m).
  { apply (wp_read_at b data); [done|lia|lia|lia|done]. }
  by destruct (wp_elim _ _ _ W) as (r & m' & E & -> & ->).
Qed.

(** A byte of the block behind a payload, which may lie behind the payload's end. *)
Definition spare (m : mem) (b : pbuf) : Prop := exists blk o a, payload b = Some (blk, o) /\ bytes m !! blk = Some a /\
  o + len b < Z.of_nat (length a).

(** A byte written over and restored. *)
Lemma overwrite_restore m b data blk o i x : holds m b data -> payload b = Some (blk, o) -> 0 <= i <= len b -> i < len b \/ spare m b ->
  exists y m1, read_at (Some (blk, o)) i 1 m = Ret [y] m /\ write_at (Some (blk, o)) i [x] m = Ret tt m1 /\
    pbufs m1 = pbufs m /\ write_at (Some (blk, o)) i [y] m1 = Ret tt m /\
    forall n, 0 <= n -> forall j, 0 <= j -> j + n <= i -> read_at (Some (blk, o)) j n m1 = Ret (take (Z.to_nat n) (drop (Z.to_nat j) data)) m1.
Proof.
  intros [Hl Hh] Hp Hi Hroom. rewrite Hp in Hh. destruct Hh as (a & Ea & Ho & Hlen & Hd).
  assert (Hs : o + i < Z.of_nat (length a)).
  { destruct Hroom as [|(blk' & o' & a' & Hp' & Ea' & Hs)]; [lia|]. rewrite Hp in Hp'. injection Hp' as <- <-. rewrite Ea in Ea'. injection Ea' as <-. lia. }
  destruct (lookup_lt_is_Some_2 a (Z.to_nat (o + i))) as [y Hy]; [lia|].
  assert (Harea : forall m' a' j n, bytes m' !! blk = Some a' -> length a' = length a -> 0 <= j -> 0 <= n -> j + n <= i + 1 ->
    area (blk, o + j) n m' = Ret a' m').
  { intros m' a' j n E' L Hj Hn Hjn. unfold area. erewrite bind_Ret by reflexivity. simpl. rewrite E'. erewrite bind_Ret by reflexivity. rewrite L.
    rewrite (proj2 (Z.leb_le 0 (o + j))), (proj2 (Z.leb_le 0 n)), (proj2 (Z.leb_le (o + j + n) _)) by lia. done. }
  exists y, (set_bytes (<[blk := splice (Z.to_nat (o + i)) [x] a]> (bytes m)) m).
  assert (Hsl : length (splice (Z.to_nat (o + i)) [x] a) = length a) by (apply splice_length; simpl; lia).
  split_and!.
  - unfold read_at. simpl. erewrite bind_Ret by reflexivity. erewrite bind_Ret by (apply (Harea m a); [done|done|lia|lia|lia]).
    unfold mret, M_ret. rewrite (drop_S _ y) by done. done.
  - unfold write_at. simpl. erewrite bind_Ret by reflexivity. erewrite bind_Ret by (apply (Harea m a); [done|done|lia|lia|lia]). done.
  - done.
  - unfold write_at. simpl. erewrite bind_Ret by reflexivity.
    erewrite bind_Ret by (apply (Harea _ (splice (Z.to_nat (o + i)) [x] a)); [apply lookup_insert_eq|done|lia|lia|lia]).
    unfold modify, set_bytes. simpl. f_equal. destruct m as [? ? ? bs ?]. simpl in *. f_equal.
    rewrite insert_insert_eq. apply insert_id. rewrite Ea. f_equal. apply list_eq. intros k.
    rewrite !splice_lookup by (rewrite ?splice_length; simpl; lia). simpl. case_decide as Hk; [|done].
    replace k with (Z.to_nat (o + i)) by lia. by rewrite Nat.sub_diag, Hy.
  - intros n Hn j Hj Hjn. unfold read_at. destruct (Z.eqb_spec n 0) as [->|]; [done|]. erewrite bind_Ret by reflexivity.
    erewrite bind_Ret by (apply (Harea _ (splice (Z.to_nat (o + i)) [x] a)); [apply lookup_insert_eq|done|lia|lia|lia]).
    unfold mret, M_ret. f_equal. simpl. rewrite splice_outside by (simpl; lia). rewrite Hd, skipn_firstn_comm, take_take, drop_drop.
    replace (Z.to_nat (o + j)) with (Z.to_nat o + Z.to_nat j)%nat by lia. f_equal. lia.
Qed.
End Packet.

(** ** The fixed header *)

Section Header.
Context `{U : Upper}.

Lemma wp_getp_mqtt p b (Q : pbuf -> mqtt -> Prop) s : pbufs (mq_mem s) !! p = Some b -> Q b s -> wp (on_pbufs (getp p)) Q s.
Proof. intros Hb HQ. apply wp_on_pbufs, (wp_getp _ b); [done|]. by destruct s. Qed.

(** Where the bytes of the header come from: after [j] of them the parser is at
    offset [off] of the packet. *)
Section Rounds.
Context (p : loc) (b : pbuf) (hdr : list Z) (I : nat -> Z -> mqtt -> Prop).
Context (I_in : forall j off s, I j off s -> (j < length hdr)%nat -> pbufs (mq_mem s) !! p = Some b /\ off < tot_len b).
Context (I_step : forall j st s, I j (in_offset st) s -> (j < length hdr)%nat -> fixed_hdr_len st = Z.of_nat j ->
  wp (header_byte p st) (fun r s' => hdr !! j = Some r.1 /\ I (S j) r.2 s') s).

Lemma has_high x : 0 <= x < 128 -> has x 0x80 = false /\ has (x + 128) 0x80 = true.
Proof.
  intros Hx. unfold has. change 0x80 with (1 * 2 ^ 7). rewrite (Z.land_comm x), land_shift_low by lia. split; [done|].
  replace (x + 1 * 2 ^ 7) with (Z.lor (1 * 2 ^ 7) x) by (rewrite lor_shift_add by lia; lia).
  rewrite Z.land_lor_distr_l, (Z.land_comm x), (land_shift_low 1 x 7) by lia. done.
Qed.

Lemma low_bits x : Z.land x 0x7f = x mod 128.
Proof. apply (Z.land_ones x 7). lia. Qed.

Lemma length_round acc x i : 0 <= acc < 128 ^ Z.of_nat i -> 0 <= x < 128 -> (i < 4)%nat ->
  Z.lor acc (u32 (Z.shiftl x (Z.of_nat i * 7))) = acc + x * 128 ^ Z.of_nat i.
Proof.
  intros Ha Hx Hi. rewrite Z.shiftl_mul_pow2, Z.mul_comm with (n := Z.of_nat i), Z.pow_mul_r by lia. change (2 ^ 7) with 128.
  assert (128 ^ Z.of_nat i <= 128 ^ 3) by (apply Z.pow_le_mono_r; lia). change (128 ^ 3) with 2097152 in *.
  rewrite u32_small by nia. rewrite Z.lor_comm. replace (128 ^ Z.of_nat i) with (2 ^ (7 * Z.of_nat i)) in * by (rewrite Z.pow_mul_r; [done|lia|lia]).
  rewrite lor_shift_add by lia. lia.
Qed.

Lemma wp_length_rounds k : forall i v acc x fuel (Q : Z -> mqtt -> Prop) off s,
  (0 < k)%nat -> (i + k <= 4)%nat -> 0 <= v < 128 ^ Z.of_nat k -> 0 <= acc < 128 ^ Z.of_nat i -> 0 < acc + v * 128 ^ Z.of_nat i ->
  drop (S i) hdr = var_length k v -> I (S i) off s -> (i = 0%nat \/ has x 0x80 = true) ->
  (forall off' s' x', I (length hdr) off' s' -> has x' 0x80 = false ->
     wp (iter fuel (parse_body p) (Parse off' (u32 (acc + v * 128 ^ Z.of_nat i + Z.of_nat (length hdr) - msg_idx (mq_client s'))) (Z.of_nat (length hdr)) x')) Q s') ->
  wp (iter (length (var_length k v) + fuel) (parse_body p) (Parse off acc (Z.of_nat (S i)) x)) Q s.
Proof.
  induction k as [|k IH]; intros i v acc x fuel Q off s Hk Hik Hv Ha Hpos Hd HI Hx HQ; [lia|].
  assert (Hlen : (S i < length hdr)%nat).
  { apply (f_equal length) in Hd. rewrite length_drop in Hd. cbn [var_length] in Hd. destruct (v <? 128); simpl in Hd; lia. }
  set (h := if v <? 128 then v else v mod 128 + 128).
  assert (Hh : hdr !! S i = Some h).
  { pose proof (lookup_drop hdr (S i) 0) as E. rewrite Nat.add_0_r in E. rewrite <- E, Hd. cbn [var_length]. unfold h. by destruct (v <? 128). }
  assert (Hd' : drop (S (S i)) hdr = if v <? 128 then [] else var_length k (v / 128)).
  { replace (S (S i)) with (S i + 1)%nat by lia. rewrite <- drop_drop, Hd. cbn [var_length]. by destruct (v <? 128). }
  assert (Hsmall : v < 128 -> h = v) by (intros Hlt; unfold h; by rewrite (proj2 (Z.ltb_lt _ _))).
  assert (Hbig : 128 <= v -> h = v mod 128 + 128) by (intros Hge; unfold h; by rewrite (proj2 (Z.ltb_ge _ _))).
  assert (Hlow : Z.land h 0x7f = v mod 128).
  { rewrite low_bits. unfold h. destruct (Z.ltb_spec v 128); [done|]. Z.div_mod_to_equations; lia. }
  assert (Hround : forall m Q', (forall off' s', I (S (S i)) off' s' ->
      wp (if v <? 128 then iter m (parse_body p) (Parse off' (u32 (acc + v * 128 ^ Z.of_nat i + Z.of_nat (S (S i)) - msg_idx (mq_client s'))) (Z.of_nat (S (S i))) h)
          else iter m (parse_body p) (Parse off' (acc + v mod 128 * 128 ^ Z.of_nat i) (Z.of_nat (S (S i))) h)) Q' s') ->
    wp (iter (S m) (parse_body p) (Parse off acc (Z.of_nat (S i)) x)) Q' s).
  { clear HQ. intros m Q' HQ'. cbn [iter]. apply wp_bind. destruct (I_in _ _ _ HI Hlen) as [Hb Hoff]. unfold parse_body. apply wp_bind, (wp_getp_mqtt _ b); [done|].
    cbn [in_offset fixed_hdr_len hdr_b]. rewrite (proj2 (Z.ltb_lt _ _)) by lia. cbn [negb].
    assert (Hc : (Z.of_nat (S i) <? 2) || has x 0x80 = true) by (destruct Hx as [->| ->]; [done|by rewrite orb_true_r]). rewrite Hc.
    apply wp_bind. unfold parse_header. apply wp_bind. eapply wp_mono; [by apply (I_step (S i))|]. intros [x' off'] s' [Hx' HI']. cbn [fst snd] in *.
    rewrite Hh in Hx'. injection Hx' as <-. cbn [fixed_hdr_len msg_rem_len]. rewrite u8_small by lia. rewrite (proj2 (Z.leb_le 2 _)) by lia.
    replace ((Z.of_nat (S i) + 1 - 2) * 7) with (Z.of_nat i * 7) by lia. rewrite (proj2 (Z.leb_gt 32 _)) by lia.
    rewrite Hlow, length_round; [|done|apply Z.mod_pos_bound; lia|lia].
    replace (Z.of_nat (S i) + 1) with (Z.of_nat (S (S i))) by lia. specialize (HQ' off' s' HI').
    assert (Hhas : has h 0x80 = negb (v <? 128)).
    { unfold h. destruct (Z.ltb_spec v 128); [by apply has_high; lia|]. apply has_high. apply Z.mod_pos_bound. lia. }
    rewrite Hhas. destruct (Z.ltb_spec v 128) as [Hv1|Hv1]; cbn [negb].
    - rewrite (Z.mod_small v 128) by lia. rewrite (proj2 (Z.eqb_neq _ _)) by lia. apply wp_bind, wp_field, wp_ret, wp_ret. exact HQ'.
    - apply wp_ret, wp_ret. exact HQ'. }
  cbn [var_length]. destruct (Z.ltb_spec v 128) as [Hv1|Hv1].
  - cbn [length Nat.add]. apply Hround. intros off' s' HI'.
    assert (El : length hdr = S (S i)) by (apply (f_equal length) in Hd'; rewrite length_drop in Hd'; simpl in Hd'; lia).
    rewrite El in HQ. apply HQ; [done|]. rewrite Hsmall by lia. apply has_high. lia.
  - cbn [length Nat.add]. apply Hround. intros off' s' HI'. rewrite (Nat2Z.inj_succ k), Z.pow_succ_r in Hv by lia.
    assert (Hp7 : 128 ^ Z.of_nat (S i) = 128 * 128 ^ Z.of_nat i) by (rewrite Nat2Z.inj_succ, Z.pow_succ_r by lia; done).
    assert (Hsum : acc + v mod 128 * 128 ^ Z.of_nat i + v / 128 * 128 ^ Z.of_nat (S i) = acc + v * 128 ^ Z.of_nat i).
    { rewrite Hp7. pose proof (Z.div_mod v 128 ltac:(lia)) as Edm. rewrite Edm at 3. ring. }
    destruct k as [|k]; [change (128 ^ Z.of_nat 0) with 1 in Hv; lia|].
    apply IH; [lia|lia| | |by rewrite Hsum|done|done| |].
    + split; [apply Z.div_pos; lia|]. apply Z.div_lt_upper_bound; lia.
    + pose proof (Z.mod_pos_bound v 128). rewrite Hp7. nia.
    + right. rewrite Hbig by lia. apply has_high. apply Z.mod_pos_bound. lia.
    + by rewrite Hsum.
Qed.

(** All of the header: the first byte, then the length. *)
Lemma wp_header_rounds k b0 n x fuel (Q : Z -> mqtt -> Prop) off s :
  hdr = b0 :: var_length k n -> (0 < k <= 4)%nat -> 0 < n < 128 ^ Z.of_nat k -> I 0 off s ->
  (forall off' s' x', I (length hdr) off' s' -> has x' 0x80 = false ->
     wp (iter fuel (parse_body p) (Parse off' (u32 (n + Z.of_nat (length hdr) - msg_idx (mq_client s'))) (Z.of_nat (length hdr)) x')) Q s') ->
  wp (iter (length hdr + fuel) (parse_body p) (Parse off 0 0 x)) Q s.
Proof.
  intros Eh Hk Hn HI HQ. assert (El : length hdr = S (length (var_length k n))) by (by rewrite Eh). rewrite El. cbn [Nat.add iter].
  apply wp_bind. destruct (I_in _ _ _ HI) as [Hb Hoff]; [lia|]. unfold parse_body. apply wp_bind, (wp_getp_mqtt _ b); [done|].
  cbn [in_offset fixed_hdr_len hdr_b]. rewrite (proj2 (Z.ltb_lt _ _)) by lia. cbn [negb orb Z.ltb Z.compare].
  apply wp_bind. unfold parse_header. apply wp_bind. eapply wp_mono; [apply (I_step 0); [done|lia|done]|].
  intros [x' off'] s' [Hx' HI']. cbn [fst snd fixed_hdr_len msg_rem_len] in *. change (u8 (0 + 1)) with 1. cbn [Z.leb Z.compare].
  apply wp_ret, wp_ret. apply (wp_length_rounds k 0 n 0 x' fuel Q off' s'); [lia|lia|lia|done|simpl; lia| |done|by left|].
  - by rewrite Eh.
  - intros off2 s2 x2 HI2 Hx2. replace (0 + n * 128 ^ Z.of_nat 0) with n by (simpl; lia). by apply HQ.
Qed.
End Rounds.

(** ** Where the bytes come from *)

(** The receive buffer starts with the header. *)
Definition rx_prefix (hdr rx : list Z) : Prop := length rx = 128%nat /\ take (length hdr) rx = hdr.

Lemma wp_rx_byte i x hdr (Q : Z -> mqtt -> Prop) s : rx_prefix hdr (rx_buffer (mq_client s)) -> (length hdr <= 128)%nat ->
  hdr !! i = Some x -> Q x s -> wp (rx_byte (Z.of_nat i)) Q s.
Proof.
  intros [Hl Hp] Hh Hx HQ. apply lookup_lt_Some in Hx as Hi. unfold rx_byte, var_byte. apply wp_bind. unfold read_var. cbn [Z.eqb].
  apply wp_bind, wp_field. unfold rx_ok. rewrite Hl. rewrite (proj2 (Z.leb_le _ _)), (proj2 (Z.leb_le _ _)) by lia. cbn [andb].
  apply wp_field, wp_ret. rewrite Z.add_0_l, Nat2Z.id.
  assert (E : rx_buffer (mq_client s) !! i = Some x) by (rewrite <- Hp in Hx; by rewrite lookup_take_lt in Hx by lia).
  by rewrite (drop_S _ x) by done.
Qed.

(** A header that was received before. *)
Lemma wp_header_again p b hdr k b0 n x fuel (Q : Z -> mqtt -> Prop) off s :
  pbufs (mq_mem s) !! p = Some b -> off < tot_len b -> rx_prefix hdr (rx_buffer (mq_client s)) ->
  hdr = b0 :: var_length k n -> (0 < k <= 4)%nat -> 0 < n < 128 ^ Z.of_nat k -> Z.of_nat (length hdr) <= msg_idx (mq_client s) ->
  (forall x', has x' 0x80 = false ->
     wp (iter fuel (parse_body p) (Parse off (u32 (n + Z.of_nat (length hdr) - msg_idx (mq_client s))) (Z.of_nat (length hdr)) x')) Q s) ->
  wp (iter (length hdr + fuel) (parse_body p) (Parse off 0 0 x)) Q s.
Proof.
  intros Hb Hoff Hrx Eh Hk Hn Hidx HQ.
  assert (Hsz : (length hdr <= 128)%nat) by (destruct Hrx as [Hl Hp]; apply (f_equal length) in Hp; rewrite length_take in Hp; lia).
  apply (wp_header_rounds p b hdr (fun _ o s' => o = off /\ s' = s)) with (k := k) (b0 := b0) (n := n); [| |done|done|done|done|].
  - intros j o s' [-> ->] _. done.
  - intros j st s' [Ho ->] Hj Hf. unfold header_byte. apply wp_bind, wp_field. rewrite Hf, (proj2 (Z.ltb_lt _ _)) by lia.
    destruct (lookup_lt_is_Some_2 hdr j Hj) as [y Hy]. apply wp_bind, (wp_rx_byte j y hdr); [done|done|done|]. apply wp_ret. done.
  - intros off' s' x' [-> ->] Hx'. by apply HQ.
Qed.

(** The receive buffer with the first [j] bytes of the header. *)
Definition rx_with (j : nat) (hdr : list Z) (s : mqtt) : mqtt :=
  with_client (set_msg_idx (Z.of_nat j) (set_rx_buffer (take j hdr ++ drop j (rx_buffer (mq_client s))) (mq_client s))) s.

Lemma splice_next j y (hdr rx : list Z) : hdr !! j = Some y -> (j < length rx)%nat ->
  splice j [y] (take j hdr ++ drop j rx) = take (S j) hdr ++ drop (S j) rx.
Proof.
  intros Hy Hj. apply lookup_lt_Some in Hy as Hl. assert (L : length (take j hdr) = j) by (rewrite length_take; lia).
  unfold splice. rewrite take_app_le, (take_ge (take j hdr)) by lia. rewrite drop_app_ge by (simpl; lia). rewrite L, drop_drop. simpl.
  replace (j + (j + 1 - j))%nat with (S j) by lia. rewrite (take_S_r hdr j y Hy), <- app_assoc. done.
Qed.

Lemma wp_header_new nd hdr k b0 n x fuel (Q : Z -> mqtt -> Prop) off s :
  packet (mq_mem s) (Some (n_loc nd)) [nd] -> Forall byte (n_data nd) -> 0 <= off ->
  hdr `prefix_of` drop (Z.to_nat off) (n_data nd) -> length (rx_buffer (mq_client s)) = 128%nat -> msg_idx (mq_client s) = 0 ->
  hdr = b0 :: var_length k n -> (0 < k <= 4)%nat -> 0 < n < 128 ^ Z.of_nat k -> (length hdr <= 128)%nat ->
  (forall x', has x' 0x80 = false ->
     wp (iter fuel (parse_body (n_loc nd)) (Parse (off + Z.of_nat (length hdr)) n (Z.of_nat (length hdr)) x')) Q (rx_with (length hdr) hdr s)) ->
  wp (iter (length hdr + fuel) (parse_body (n_loc nd)) (Parse off 0 0 x)) Q s.
Proof.
  intros Hp Hby Hoff [tl Htl] Hl Hidx Eh Hk Hn Hsz HQ. destruct (packet_one _ _ Hp) as (Hb & _ & Htot & Hlen & Hbd).
  assert (Hin : off + Z.of_nat (length hdr) <= len (n_buf nd)).
  { apply (f_equal length) in Htl. rewrite length_drop, length_app in Htl. rewrite Hlen. destruct hdr; [done|]. simpl length in *. lia. }
  apply (wp_header_rounds (n_loc nd) (n_buf nd) hdr (fun j o s' => o = off + Z.of_nat j /\ s' = rx_with j hdr s)) with (k := k) (b0 := b0) (n := n);
    [| |done|done|done| |].
  - intros j o s' [-> ->] Hj. split; [done|]. lia.
  - intros j st s' [Ho ->] Hj Hf. unfold header_byte. apply wp_bind, wp_field. change (msg_idx (mq_client (rx_with j hdr s))) with (Z.of_nat j).
    rewrite Hf, Z.ltb_irrefl. destruct (lookup_lt_is_Some_2 hdr j Hj) as [y Hy].
    assert (Hd : n_data nd !! Z.to_nat (off + Z.of_nat j) = Some y).
    { replace (Z.to_nat (off + Z.of_nat j)) with (Z.to_nat off + j)%nat by lia. rewrite <- lookup_drop, Htl. by apply lookup_app_l_Some. }
    apply wp_bind, wp_on_pbufs. change (mq_mem (rx_with j hdr s)) with (mq_mem s).
    assert (Hcont : contents [nd] = n_data nd) by (unfold contents; simpl; by rewrite app_nil_r).
    destruct (pbuf_get_at_reads (mq_mem s) (Some (n_loc nd)) [nd] (off + Z.of_nat j)) as [_ Eg]; [done|by rewrite Hcont|lia|].
    rewrite Hcont, Hd in Eg. simpl in Eg. rewrite Ho. eapply wp_of_run; [exact Eg|]. change (with_pmem (mq_mem s) (rx_with j hdr s)) with (rx_with j hdr s).
    apply wp_bind. unfold write_rx. apply wp_bind, wp_field. unfold rx_ok.
    apply (f_equal length) in Htl as Hlt. rewrite length_drop, length_app in Hlt.
    assert (Hrl : length (take j hdr ++ drop j (rx_buffer (mq_client s))) = 128%nat) by (rewrite length_app, length_take, length_drop, Hl; lia).
    change (rx_buffer (mq_client (rx_with j hdr s))) with (take j hdr ++ drop j (rx_buffer (mq_client s))). rewrite Hrl.
    rewrite (proj2 (Z.leb_le _ _)), (proj2 (Z.leb_le _ _)) by (simpl; lia). cbn [andb]. apply wp_update, wp_bind, wp_update, wp_ret. cbn [fst snd].
    split; [done|]. split; [rewrite u16_small; lia|]. rewrite u32_small by lia. rewrite Nat2Z.id. unfold rx_with, with_client. simpl.
    rewrite (splice_next j y) by (done || lia). f_equal. replace (Z.of_nat j + 1) with (Z.of_nat (S j)) by lia. done.
  - split; [lia|]. unfold rx_with. destruct s as [m nn u c]. simpl in *. unfold with_client. simpl. rewrite drop_0. destruct c; simpl in *. by subst.
  - intros off' s' x' [-> ->] Hx'. change (msg_idx (mq_client (rx_with (length hdr) hdr s))) with (Z.of_nat (length hdr)).
    replace (n + Z.of_nat (length hdr) - Z.of_nat (length hdr)) with n by lia.
    assert (Hn32 : n < 2 ^ 32). { assert (128 ^ Z.of_nat k <= 128 ^ 4) by (apply Z.pow_le_mono_r; lia). change (128 ^ 4) with 268435456 in *. lia. }
    rewrite u32_small by lia. by apply HQ.
Qed.
End Header.

(** ** Bytes of a segment *)

Section Vars.
Context `{U : Upper}.

Lemma wp_read_var s b data blk o a i n (Q : list Z -> mqtt -> Prop) : holds (mq_mem s) b data -> payload b = Some (blk, o) ->
  0 <= a -> 0 <= i -> 0 <= n -> a + i + n <= len b -> Q (take (Z.to_nat n) (drop (Z.to_nat (a + i)) data)) s ->
  wp (read_var (VPbuf (blk, o + a)) i n) Q s.
Proof.
  intros Hh Hp Ha Hi Hn Hl HQ. unfold read_var. destruct (Z.eqb_spec n 0) as [->|]; [apply wp_ret; by rewrite take_0 in HQ|].
  apply wp_on_pbufs. eapply wp_of_run; [by eapply read_payload|]. by destruct s.
Qed.

Lemma wp_var_byte s b data blk o a i x (Q : Z -> mqtt -> Prop) : holds (mq_mem s) b data -> payload b = Some (blk, o) ->
  0 <= a -> 0 <= i -> data !! Z.to_nat (a + i) = Some x -> Q x s -> wp (var_byte (VPbuf (blk, o + a)) i) Q s.
Proof.
  intros Hh Hp Ha Hi Hx HQ. apply lookup_lt_Some in Hx as Hlt. pose proof Hh as [Hlen _]. unfold var_byte. apply wp_bind, (wp_read_var _ b data); [done|done|lia|lia|lia|lia|].
  apply wp_ret. by rewrite (drop_S _ x) by done.
Qed.

Lemma wp_var_u16 s b data blk o a i x (Q : Z -> mqtt -> Prop) : holds (mq_mem s) b data -> payload b = Some (blk, o) ->
  0 <= a -> 0 <= i -> 0 <= x < 65536 -> field16 x `prefix_of` drop (Z.to_nat (a + i)) data -> Q x s ->
  wp (var_u16 (VPbuf (blk, o + a)) i) Q s.
Proof.
  intros Hh Hp Ha Hi Hx [tl Ht] HQ. unfold var_u16.
  assert (B0 : data !! Z.to_nat (a + i) = Some (x / 256)) by (pose proof (lookup_drop data (Z.to_nat (a + i)) 0) as E; by rewrite Nat.add_0_r, Ht in E).
  assert (B1 : data !! Z.to_nat (a + (i + 1)) = Some (x mod 256)).
  { pose proof (lookup_drop data (Z.to_nat (a + i)) 1) as E. rewrite Ht in E. replace (Z.to_nat (a + (i + 1))) with (Z.to_nat (a + i) + 1)%nat by lia. done. }
  apply wp_bind. eapply wp_var_byte; [done|done|done|done|exact B0|]. apply wp_bind. eapply wp_var_byte; [done|done|done|lia|exact B1|]. apply wp_ret.
  rewrite Z.shiftl_mul_pow2 by lia. change (2 ^ 8) with 256. rewrite (u16_small (x / 256 * 256)), u16_small by (Z.div_mod_to_equations; lia).
  replace (x / 256 * 256 + x mod 256) with x by (Z.div_mod_to_equations; lia). done.
Qed.
End Vars.

(** ** The variable header *)

Section Header.
Context `{U : Upper} {UL : UpperLaws}.

Lemma wp_publish_header s b blk o a fp hdr topic rest c rem (Q : option (Z * Z) -> mqtt -> Prop) :
  holds (mq_mem s) b (hdr ++ mqtt_string topic ++ rest) -> payload b = Some (blk, o) ->
  pub_cb (mq_client s) = Some fp -> inpub_arg (mq_client s) = a ->
  Z.of_nat (length hdr) + 2 + Z.of_nat (length topic) < 128 -> 2 + Z.of_nat (length topic) <= c -> Z.of_nat (length hdr) + c <= len b ->
  c < 65536 -> 0 <= rem -> rem + c < 2 ^ 32 ->
  (Z.of_nat (length hdr) + 2 + Z.of_nat (length topic) < len b \/ spare (mq_mem s) b) ->
  (forall u, log u = log (mq_up s) ++ [Ev_publish fp a topic (rem + (c - (2 + Z.of_nat (length topic))))] ->
     Q (Some (2 + Z.of_nat (length topic), c - (2 + Z.of_nat (length topic)))) (with_up u (with_client (set_inpub_pkt_id 0 (mq_client s)) s))) ->
  wp (publish_header (Z.of_nat (length hdr)) c rem 0 (VPbuf (blk, o + Z.of_nat (length hdr)))) Q s.
Proof.
  intros Hh Hp Hf Ha Hsz Hc Hlen Hc16 Hrem Hr32 Hroom HQ. set (hl := Z.of_nat (length hdr)) in *. set (tl := Z.of_nat (length topic)) in *.
  unfold publish_header, MQTT_VAR_HEADER_BUFFER_LEN. cbn [Z.eqb]. rewrite Z.add_0_r. rewrite (u32_small (128 - hl)) by lia.
  rewrite (proj2 (Z.ltb_ge c 2)) by lia.
  apply wp_bind, (wp_var_u16 _ b (hdr ++ mqtt_string topic ++ rest) _ _ hl 0 tl); [done|done|lia|lia|lia| |].
  { rewrite Z.add_0_r. unfold hl. rewrite Nat2Z.id, drop_app_length. unfold mqtt_string. rewrite <- app_assoc. by eexists. }
  rewrite (proj2 (Z.ltb_ge (c - 2) tl)) by lia. rewrite (u32_small (128 - hl - 2)) by lia. rewrite (proj2 (Z.ltb_ge (128 - hl - 2) tl)) by lia. cbn [orb].
  rewrite (u16_small (2 + tl)) by lia. rewrite (u32_small (2 + tl + 1)) by lia. rewrite (proj2 (Z.ltb_ge (128 - hl) _)) by lia.
  cbn [Z.ltb Z.compare]. apply wp_bind, wp_bind, wp_update, wp_ret. set (s1 := with_client _ s).
  destruct (overwrite_restore (mq_mem s1) b (hdr ++ mqtt_string topic ++ rest) blk o (hl + (2 + tl)) 0) as (y & m1 & Er & Ew & _ & Eb & Et);
    [done|done|lia|destruct Hroom; [left; lia|by right]|].
  apply wp_bind. unfold var_byte. apply wp_bind. unfold read_var at 1. cbn [Z.eqb]. apply wp_on_pbufs. eapply wp_of_run; [rewrite read_at_shift; exact Er|].
  apply wp_ret. cbn [nth]. change (with_pmem (mq_mem s1) s1) with s1. apply wp_bind. unfold write_var at 1. apply wp_on_pbufs.
  eapply wp_of_run; [rewrite write_at_shift; exact Ew|]. set (s2 := with_pmem m1 s1). apply wp_bind, wp_field, wp_bind, wp_field.
  change (pub_cb (mq_client s2)) with (pub_cb (mq_client s)). change (inpub_arg (mq_client s2)) with (inpub_arg (mq_client s)). rewrite Hf, Ha.
  rewrite (u16_small (c - (2 + tl))), (u32_small (rem + _)) by lia.
  assert (Etop : wp (read_var (VPbuf (blk, o + hl)) 2 tl) (fun r s' => r = topic /\ s' = s2) s2).
  { unfold read_var. destruct (Z.eqb_spec tl 0) as [E0|]; [apply wp_ret; split; [|done]; by destruct topic|].
    apply wp_on_pbufs. eapply wp_of_run; [rewrite read_at_shift; apply Et; lia|]. split; [|done]. unfold hl, tl. rewrite Nat2Z.id.
    replace (Z.to_nat (Z.of_nat (length hdr) + 2)) with (length hdr + 2)%nat by lia. rewrite drop_app_add.
    unfold mqtt_string. rewrite <- !app_assoc. simpl. by rewrite drop_0, take_app_length. }
  apply wp_bind. eapply wp_mono; [exact Etop|]. intros ? ? [-> ->]. apply wp_bind, wp_call_back. intros u Hu.
  apply wp_bind. unfold write_var. apply wp_on_pbufs. eapply wp_of_run; [rewrite write_at_shift; exact Eb|]. apply wp_ret. apply (HQ u). exact Hu.
Qed.
End Header.

(** ** What the application is told *)

(** The pieces of a payload as data events: the last one carries the flag when
    the message is complete. *)
Fixpoint data_events (fd a : Z) (fin : bool) (frags : list (list Z)) : list mqtt_event :=
  match frags with
  | [] => []
  | [d] => [Ev_data fd a d (if fin then MQTT_DATA_FLAG_LAST else 0)]
  | d :: ds => Ev_data fd a d 0 :: data_events fd a fin ds
  end.

Lemma data_events_snoc fd a fin ds d :
  data_events fd a fin (ds ++ [d]) = data_events fd a false ds ++ [Ev_data fd a d (if fin then MQTT_DATA_FLAG_LAST else 0)].
Proof.
  induction ds as [|x ds IH]; [done|]. destruct ds as [|y ds]; [done|]. cbn [app]. change ((y :: ds) ++ [d]) with (y :: (ds ++ [d])) in IH.
  cbn [data_events app] in *. f_equal. exact IH.
Qed.

Section Payload.
Context `{U : Upper} {UL : UpperLaws}.

Lemma wp_publish_payload s b data blk o off a fd po pl c rem (Q : Z -> mqtt -> Prop) : holds (mq_mem s) b data -> payload b = Some (blk, o) ->
  data_cb (mq_client s) = Some fd -> inpub_arg (mq_client s) = a -> 0 <= off -> 0 <= po -> 0 <= pl -> po + pl = c -> off + c <= len b ->
  (forall u, log u = log (mq_up s) ++ (if (0 <? pl) || (rem =? 0) then
       [Ev_data fd a (take (Z.to_nat pl) (drop (Z.to_nat (off + po)) data)) (if rem =? 0 then MQTT_DATA_FLAG_LAST else 0)] else []) ->
     Q MQTT_CONNECT_ACCEPTED (with_up u s)) ->
  wp (publish_payload c rem 0 po pl (VPbuf (blk, o + off))) Q s.
Proof.
  intros Hh Hp Hf Ha Ho Hpo Hpl Hc Hl HQ. unfold publish_payload. destruct ((0 <? pl) || (rem =? 0)).
  - rewrite (proj2 (Z.ltb_ge _ _)) by lia. apply wp_bind, wp_field, wp_bind, wp_field. rewrite Hf, Ha.
    apply wp_bind, (wp_read_var _ b data); [done|done|lia|lia|lia|lia|]. apply wp_bind, wp_call_back. intros u Hu.
    cbn [Z.ltb Z.compare]. rewrite andb_false_r. cbn [when]. apply wp_bind, wp_ret, wp_ret. by apply HQ.
  - apply wp_ret. replace s with (with_up (mq_up s) s) by by destruct s. apply HQ. by rewrite app_nil_r.
Qed.
End Payload.

Section Message.
Context `{U : Upper} {UL : UpperLaws}.
Context (s0 : mqtt) (fp fd a : Z) (topic load : list Z) (dup retain : Z).
Context (Hpub : pub_cb (mq_client s0) = Some fp) (Hdata : data_cb (mq_client s0) = Some fd) (Harg : inpub_arg (mq_client s0) = a).
Context (Hdup : 0 <= dup <= 1) (Hretain : 0 <= retain <= 1).

Definition pub_body : list Z := mqtt_string topic ++ load.
Definition pub_size : Z := Z.of_nat (length pub_body).
Definition pub_fixed : list Z := control_byte MQTT_MSG_TYPE_PUBLISH dup 0 retain :: msg_length pub_size.
Definition head_size : Z := 2 + Z.of_nat (length topic).
Definition fixed_size : Z := Z.of_nat (length pub_fixed).

Context (Hfits : fixed_size + head_size < 128) (Hsize : pub_size < 128 ^ 4).

Lemma pub_size_split : pub_size = head_size + Z.of_nat (length load).
Proof. unfold pub_size, head_size, pub_body. rewrite length_app, mqtt_string_length. lia. Qed.

Lemma fixed_size_bounds : 2 <= fixed_size <= 5.
Proof. unfold fixed_size, pub_fixed, msg_length. rewrite length_cons. pose proof (var_length_size 4 pub_size ltac:(lia)). lia. Qed.

Lemma control_byte_publish : MQTT_CTL_PACKET_TYPE (control_byte MQTT_MSG_TYPE_PUBLISH dup 0 retain) = MQTT_MSG_TYPE_PUBLISH /\
  MQTT_CTL_PACKET_QOS (control_byte MQTT_MSG_TYPE_PUBLISH dup 0 retain) = 0.
Proof. assert (dup = 0 \/ dup = 1) as [->| ->] by lia; assert (retain = 0 \/ retain = 1) as [->| ->] by lia; done. Qed.

(** After [i] bytes behind the fixed header: what the application has been told,
    and a client that is as it was but for the parser's fields. *)
Definition reached (i : Z) (s : mqtt) : Prop := exists rx u frags,
  s = with_up u (with_client (set_msg_idx (if i =? pub_size then 0 else fixed_size + i)
                   (set_rx_buffer rx (set_inpub_pkt_id 0 (mq_client s0)))) s0) /\
  rx_prefix pub_fixed rx /\ concat frags = take (Z.to_nat (i - head_size)) load /\ (i = pub_size -> frags <> []) /\
  log u = log (mq_up s0) ++ Ev_publish fp a topic (Z.of_nat (length load)) :: data_events fd a (i =? pub_size) frags.

Lemma wp_parse_chunk nd blk o off i x (Q : parse_state + Z -> mqtt -> Prop) s :
  packet (mq_mem s) (Some (n_loc nd)) [nd] -> payload (n_buf nd) = Some (blk, o) -> rx_prefix pub_fixed (rx_buffer (mq_client s)) ->
  msg_idx (mq_client s) = fixed_size + i -> 0 <= i < pub_size -> 0 <= off < len (n_buf nd) -> has x 0x80 = false ->
  (let c := Z.min (Z.min (len (n_buf nd) - off) (pub_size - i)) (128 - fixed_size) in
   wp (receive_publish fixed_size c (pub_size - i - c) (VPbuf (blk, o + off)))
     (fun r s' => r = MQTT_CONNECT_ACCEPTED /\
        Q (inl (Parse (off + c) (pub_size - i - c) (if i + c =? pub_size then 0 else fixed_size) x))
          (if i + c =? pub_size then with_client (set_msg_idx 0 (mq_client s')) s' else s'))
     (with_client (set_msg_idx (fixed_size + i + c) (mq_client s)) s)) ->
  wp (parse_body (n_loc nd) (Parse off (pub_size - i) fixed_size x)) Q s.
Proof.
  intros Hp Hpay Hrx Hidx Hi Hoff Hx. destruct (packet_one _ _ Hp) as (Hb & Hh & Htot & Hlen & Hbd). pose proof fixed_size_bounds as Hfs.
  set (c := Z.min _ _). intros HQ. unfold parse_body. apply wp_bind, (wp_getp_mqtt _ (n_buf nd)); [done|]. cbn [in_offset fixed_hdr_len hdr_b msg_rem_len].
  rewrite Htot, (proj2 (Z.ltb_lt off _)) by lia. rewrite (proj2 (Z.ltb_ge _ 2)), Hx by lia. cbn [negb orb]. apply wp_bind, wp_field. rewrite Hidx.
  assert (Ec : copy_length (n_buf nd) (fixed_size + i) (Parse off (pub_size - i) fixed_size x) = c).
  { unfold copy_length, MQTT_VAR_HEADER_BUFFER_LEN. cbn [in_offset fixed_hdr_len msg_rem_len]. rewrite Htot.
    rewrite (u16_small (len (n_buf nd) - off)), (u16_small (Z.min _ _)), (u16_small (128 - _)) by lia.
    set (d := if 128 - fixed_size <? _ then _ else _). assert (d = c) as -> by (unfold d, c; case_match; lia).
    rewrite (proj2 (Z.ltb_ge _ c)) by lia. by rewrite andb_false_r. }
  rewrite Ec. unfold MQTT_VAR_HEADER_BUFFER_LEN. rewrite (u16_small (128 - fixed_size)) by lia.
  apply wp_bind, wp_on_pbufs. eapply wp_of_run; [eapply get_contiguous_one; [done|exact Hpay|lia|lia|lia]|].
  apply wp_bind, wp_ret, wp_bind, wp_update. change (msg_idx (mq_client (with_pmem _ s))) with (msg_idx (mq_client s)).
  rewrite Hidx, (u32_small (fixed_size + i + c)), (u16_small (off + c)), (u32_small (pub_size - i - c)) by lia. replace (with_client _ (with_pmem _ s)) with (with_client (set_msg_idx (fixed_size + i + c) (mq_client s)) s) by by destruct s.
  apply wp_bind. unfold mqtt_message_received. apply wp_bind. destruct control_byte_publish as [Et _].
  eapply (wp_rx_byte 0 _ pub_fixed); [exact Hrx|unfold fixed_size in *; lia|reflexivity|]. rewrite Et. unfold MQTT_VAR_HEADER_BUFFER_LEN.
  rewrite (proj2 (Z.ltb_ge 128 _)) by lia. cbn [Z.eqb MQTT_MSG_TYPE_PUBLISH MQTT_MSG_TYPE_CONNACK MQTT_MSG_TYPE_PINGRESP Pos.eqb].
  eapply wp_mono; [exact HQ|]. intros r s' [-> HQ']. cbn [Z.eqb negb MQTT_CONNECT_ACCEPTED].
  destruct (Z.eqb_spec (i + c) pub_size) as [E|E].
  - rewrite (proj2 (Z.eqb_eq _ _)) by lia. apply wp_bind, wp_update, wp_ret. exact HQ'.
  - rewrite (proj2 (Z.eqb_neq _ _)) by lia. apply wp_ret. exact HQ'.
Qed.

(** A chunk with the topic: the publication is announced. *)
Lemma wp_receive_first nd blk o c id (Q : Z -> mqtt -> Prop) s rx :
  packet (mq_mem s0) (Some (n_loc nd)) [nd] -> payload (n_buf nd) = Some (blk, o) -> rx_prefix pub_fixed rx ->
  s = with_client (set_msg_idx (fixed_size + c) (set_rx_buffer rx (set_inpub_pkt_id id (mq_client s0)))) s0 ->
  n_data nd `prefix_of` pub_fixed ++ pub_body -> head_size <= c -> c <= pub_size -> fixed_size + c <= len (n_buf nd) -> fixed_size + c <= 128 ->
  (fixed_size + head_size < len (n_buf nd) \/ spare (mq_mem s0) (n_buf nd)) ->
  (forall s', reached c (if c =? pub_size then with_client (set_msg_idx 0 (mq_client s')) s' else s') -> Q MQTT_CONNECT_ACCEPTED s') ->
  wp (receive_publish fixed_size c (pub_size - c) (VPbuf (blk, o + fixed_size))) Q s.
Proof.
  intros Hp Hpay Hrx -> [tl Htl] Hc Hcn Hcl Hsz Hroom HQ. destruct (packet_one _ _ Hp) as (_ & Hh & _ & Hlen & Hbd). pose proof fixed_size_bounds as Hfs.
  pose proof pub_size_split as Hps. assert (Hhs : 2 <= head_size) by (unfold head_size; lia). set (s := with_client _ s0). destruct control_byte_publish as [_ Eq]. unfold receive_publish.
  apply wp_bind, (wp_rx_byte 0 (control_byte MQTT_MSG_TYPE_PUBLISH dup 0 retain) pub_fixed); [exact Hrx|unfold fixed_size in *; lia|reflexivity|].
  rewrite Eq. apply wp_bind, wp_field. change (msg_idx (mq_client s)) with (fixed_size + c). rewrite u32_small, Z.eqb_refl by lia.
  assert (Hd : exists rest, n_data nd = pub_fixed ++ mqtt_string topic ++ rest /\ rest `prefix_of` load).
  { unfold pub_body in Htl. assert (Hl : (length pub_fixed + length (mqtt_string topic) <= length (n_data nd))%nat).
    { rewrite mqtt_string_length. unfold fixed_size, head_size in *. lia. }
    exists (drop (length pub_fixed + length (mqtt_string topic)) (n_data nd)). split.
    - rewrite <- (take_drop (length pub_fixed + length (mqtt_string topic)) (n_data nd)) at 1. rewrite app_assoc. f_equal.
      apply (f_equal (take (length pub_fixed + length (mqtt_string topic)))) in Htl. rewrite (take_app_le (n_data nd)) in Htl by lia. rewrite <- Htl, app_assoc.
      rewrite <- length_app. apply take_app_length.
    - apply (f_equal (drop (length pub_fixed + length (mqtt_string topic)))) in Htl. rewrite (drop_app_le (n_data nd)) in Htl by lia.
      rewrite app_assoc, <- length_app, drop_app_length, length_app in Htl. by eexists. }
  destruct Hd as (rest & Hd & Hpre). rewrite Hd in Hh. apply wp_bind. unfold fixed_size at 1 2.
  eapply (wp_publish_header s (n_buf nd) blk o a fp pub_fixed topic rest c); [exact Hh|done|done|done|fold fixed_size; unfold head_size in *; lia..| |].
  { unfold head_size, fixed_size in *. destruct Hroom as [Hroom|Hroom]; [left; lia|by right]. }
  intros u Hu. fold fixed_size head_size. fold head_size in Hu. cbv beta iota.
  apply (wp_publish_payload _ (n_buf nd) (n_data nd) _ _ _ a fd); [by rewrite Hd|done|done|done|lia|unfold head_size; lia|lia|lia|lia|].
  assert (Etake : take (Z.to_nat (c - head_size)) (drop (Z.to_nat (fixed_size + head_size)) (n_data nd)) = take (Z.to_nat (c - head_size)) load).
  { rewrite Hd, app_assoc. unfold fixed_size, head_size in *. rewrite drop_app_ge by (rewrite length_app, mqtt_string_length; lia).
    rewrite length_app, mqtt_string_length. replace (_ - _)%nat with 0%nat by lia. rewrite drop_0. destruct Hpre as [r ->].
    apply (f_equal length) in Hd. rewrite !length_app, mqtt_string_length in Hd. rewrite take_app_le by lia. done. }
  rewrite Etake. intros u' Hu'. apply HQ.
  assert (Ere : forall b, (pub_size - c =? 0) = b -> (c =? pub_size) = b) by (intros b <-; destruct (Z.eqb_spec c pub_size), (Z.eqb_spec (pub_size - c) 0); lia).
  rewrite (Ere _ eq_refl). set (x := take _ load) in *.
  exists rx, u', (if (0 <? c - head_size) || (pub_size - c =? 0) then [x] else []). rewrite (Ere _ eq_refl). split_and!.
  - by destruct (pub_size - c =? 0).
  - done.
  - fold x. destruct ((0 <? c - head_size) || (pub_size - c =? 0)) eqn:E; simpl; [by rewrite app_nil_r|].
    apply orb_false_iff in E as [E%Z.ltb_ge _]. unfold x. by rewrite Z2Nat.nonpos by lia.
  - intros ->. by rewrite Z.sub_diag, orb_true_r.
  - change (log (mq_up s)) with (log (mq_up s0)) in Hu. rewrite Hu'. change (mq_up (with_up u _)) with u. rewrite Hu, <- app_assoc. simpl. do 3 f_equal; [f_equal; lia|].
    by destruct ((0 <? c - head_size) || (pub_size - c =? 0)).
Qed.
(** A later chunk: its bytes are the next of the payload. *)
Lemma wp_chunk_more nd i off x s : packet (mq_mem s0) (Some (n_loc nd)) [nd] -> payload (n_buf nd) <> None -> reached i s ->
  head_size <= i < pub_size -> 0 <= off < len (n_buf nd) -> drop (Z.to_nat off) (n_data nd) `prefix_of` drop (Z.to_nat i) pub_body ->
  has x 0x80 = false ->
  wp (parse_body (n_loc nd) (Parse off (pub_size - i) fixed_size x))
    (fun r s' => exists c, 0 < c /\ off + c <= len (n_buf nd) /\ i + c <= pub_size /\
       r = inl (Parse (off + c) (pub_size - (i + c)) (if i + c =? pub_size then 0 else fixed_size) x) /\ reached (i + c) s') s.
Proof.
  intros Hp [[blk o] Hpay]%not_eq_None_Some (rx & u & frags & -> & Hrx & Hfr & _ & Hlog) Hi Hoff Hpre Hx.
  rewrite (proj2 (Z.eqb_neq i pub_size)) in * by lia. set (s := with_up u _). destruct (packet_one _ _ Hp) as (_ & Hh & _ & Hlen & _).
  pose proof fixed_size_bounds as Hfs. pose proof pub_size_split as Hps. assert (Hhs : 2 <= head_size) by (unfold head_size; lia).
  eapply wp_parse_chunk; [exact Hp|exact Hpay|exact Hrx|done|lia|done|done|]. set (c := Z.min _ _). cbv zeta.
  destruct control_byte_publish as [_ Eq]. unfold receive_publish.
  eapply wp_bind, (wp_rx_byte 0 _ pub_fixed); [exact Hrx|unfold fixed_size in *; lia|reflexivity|].
  rewrite Eq. apply wp_bind, wp_field. change (msg_idx (mq_client _)) with (fixed_size + i + c).
  rewrite u32_small, (proj2 (Z.eqb_neq _ _)) by lia. apply wp_bind, wp_ret.
  eapply (wp_publish_payload _ (n_buf nd) (n_data nd) _ _ _ a fd); [exact Hh|done|done|done|lia|lia|lia|lia|lia|].
  intros u' Hu'. split; [done|]. exists c. split_and!; [lia|lia|lia|by do 2 f_equal; lia|]. rewrite (proj2 (Z.ltb_lt 0 c)) in Hu' by lia. cbn [orb] in Hu'.
  assert (Etake : take (Z.to_nat (i - head_size)) load ++ take (Z.to_nat c) (drop (Z.to_nat (off + 0)) (n_data nd)) = take (Z.to_nat (i + c - head_size)) load).
  { assert (Eb : drop (Z.to_nat i) pub_body = drop (Z.to_nat (i - head_size)) load).
    { unfold pub_body, head_size in *. rewrite drop_app_ge by (rewrite mqtt_string_length; lia). rewrite mqtt_string_length. f_equal. lia. }
    rewrite Eb in Hpre. destruct Hpre as [r Hr]. rewrite Z.add_0_r.
    assert (Hl : (Z.to_nat c <= length (drop (Z.to_nat off) (n_data nd)))%nat) by (rewrite length_drop; lia).
    rewrite <- (take_app_le _ r _ Hl), <- Hr. replace (Z.to_nat (i + c - head_size)) with (Z.to_nat (i - head_size) + Z.to_nat c)%nat by lia.
    by rewrite <- take_take_drop. }
  assert (Ere : (pub_size - i - c =? 0) = (i + c =? pub_size)) by (destruct (Z.eqb_spec (i + c) pub_size), (Z.eqb_spec (pub_size - i - c) 0); lia).
  rewrite Ere in Hu'. exists rx, u', (frags ++ [take (Z.to_nat c) (drop (Z.to_nat (off + 0)) (n_data nd))]). split_and!.
  - destruct (i + c =? pub_size); unfold s, with_client, with_up; simpl; [done|]. by rewrite Z.add_assoc.
  - done.
  - rewrite concat_app. simpl. by rewrite app_nil_r, Hfr, Etake.
  - by destruct frags.
  - rewrite data_events_snoc. change (mq_up (with_client _ s)) with u in Hu'. rewrite Hu', Hlog, <- app_assoc. done.
Qed.

(** The rest of a segment. *)
Lemma wp_rest_of_segment nd : packet (mq_mem s0) (Some (n_loc nd)) [nd] -> payload (n_buf nd) <> None -> forall fuel i off x s,
  reached i s -> head_size <= i <= pub_size -> 0 <= off <= len (n_buf nd) -> (i = pub_size -> off = len (n_buf nd)) ->
  drop (Z.to_nat off) (n_data nd) `prefix_of` drop (Z.to_nat i) pub_body -> has x 0x80 = false -> len (n_buf nd) - off < Z.of_nat fuel ->
  wp (iter fuel (parse_body (n_loc nd)) (Parse off (pub_size - i) (if i =? pub_size then 0 else fixed_size) x))
    (fun r s' => r = MQTT_CONNECT_ACCEPTED /\ reached (i + (len (n_buf nd) - off)) s') s.
Proof.
  intros Hp Hpay. destruct (packet_one _ _ Hp) as (Hb & Hh & Htot & Hlen & _). induction fuel as [|fuel IH]; intros i off x s Hr Hi Hoff Hend Hpre Hx Hf; [lia|].
  cbn [iter]. apply wp_bind. destruct (Z.eqb_spec off (len (n_buf nd))) as [->|Hne].
  - unfold parse_body. apply wp_bind, (wp_getp_mqtt _ (n_buf nd)); [by destruct Hr as (? & ? & ? & -> & _)|].
    cbn [in_offset]. rewrite Htot, Z.ltb_irrefl. apply wp_ret, wp_ret. split; [done|]. by rewrite Z.sub_diag, Z.add_0_r.
  - rewrite (proj2 (Z.eqb_neq i pub_size)) by lia. eapply wp_mono; [eapply wp_chunk_more; [done|done|exact Hr|lia|lia|done|done]|].
    intros r s' (c & Hc & Hoc & Hic & -> & Hr'). cbv beta iota.
    assert (Hhs : 2 <= head_size) by (unfold head_size; lia).
    assert (Hl : length (drop (Z.to_nat off) (n_data nd)) = Z.to_nat (len (n_buf nd) - off)) by (rewrite length_drop; lia).
    pose proof (prefix_length _ _ Hpre) as Hpl. rewrite Hl, length_drop in Hpl. unfold pub_size in Hic.
    assert (Hpre' : drop (Z.to_nat (off + c)) (n_data nd) `prefix_of` drop (Z.to_nat (i + c)) pub_body).
    { destruct Hpre as [r Hr2]. exists r. replace (Z.to_nat (off + c)) with (Z.to_nat off + Z.to_nat c)%nat by lia.
      replace (Z.to_nat (i + c)) with (Z.to_nat i + Z.to_nat c)%nat by lia. rewrite <- !drop_drop, Hr2. by rewrite drop_app_le by lia. }
    eapply wp_mono; [apply (IH (i + c) (off + c) x s'); [done|unfold pub_size; lia|lia|unfold pub_size; lia|done|done|lia]|].
    intros r s'' [-> Hr'']. split; [done|]. by replace (i + c + (len (n_buf nd) - (off + c))) with (i + (len (n_buf nd) - off)) in Hr'' by lia.
Qed.
(** ** Segments *)

(** A segment TCP hands over: one pbuf, its bytes in memory. *)
Record segment (nd : node) : Prop := {
  sg_packet : packet (mq_mem s0) (Some (n_loc nd)) [nd];
  sg_payload : payload (n_buf nd) <> None;
  sg_bytes : Forall byte (n_data nd)
}.

Lemma pub_fixed_bytes : exists b0, pub_fixed = b0 :: var_length 4 pub_size.
Proof. by eexists. Qed.

Lemma prefix_shorter {A} (l k r : list A) : l `prefix_of` k ++ r -> (length k <= length l)%nat -> exists r', l = k ++ r' /\ r' `prefix_of` r.
Proof.
  intros [t Ht] Hl. exists (drop (length k) l). assert (E : take (length k) l = k).
  { apply (f_equal (take (length k))) in Ht. rewrite take_app_length, take_app_le in Ht by done. done. }
  split; [by rewrite <- E at 1; rewrite take_drop|]. apply (f_equal (drop (length k))) in Ht. rewrite drop_app_length, drop_app_le in Ht by done. by exists t.
Qed.

(** The segment with the topic. *)
Lemma wp_first_segment nd fuel : segment nd -> n_data nd `prefix_of` pub_fixed ++ pub_body ->
  fixed_size + head_size <= len (n_buf nd) -> (fixed_size + head_size < len (n_buf nd) \/ spare (mq_mem s0) (n_buf nd)) ->
  msg_idx (mq_client s0) = 0 -> length (rx_buffer (mq_client s0)) = 128%nat -> len (n_buf nd) + 6 <= Z.of_nat fuel ->
  wp (mqtt_parse_incoming fuel (n_loc nd)) (fun r s' => r = MQTT_CONNECT_ACCEPTED /\ reached (len (n_buf nd) - fixed_size) s') s0.
Proof.
  intros [Hp Hpay Hby] Hpre Hfull Hroom Hidx Hrx Hf. destruct (packet_one _ _ Hp) as (Hb & Hh & Htot & Hlen & _).
  pose proof fixed_size_bounds as Hfs. pose proof pub_size_split as Hps. assert (Hhs : 2 <= head_size) by (unfold head_size; lia).
  assert (Efs : Z.of_nat (length pub_fixed) = fixed_size) by done. pose proof Hpay as Hpay'. apply not_eq_None_Some in Hpay' as [[blk o] Hpo].
  destruct (prefix_shorter _ _ _ Hpre) as (rest & Hd & Hrest); [lia|]. pose proof (prefix_length _ _ Hpre) as Hpl. rewrite length_app in Hpl.
  assert (Hlr : len (n_buf nd) = fixed_size + Z.of_nat (length rest)) by (rewrite Hlen, Hd, length_app; lia).
  unfold mqtt_parse_incoming. replace fuel with (length pub_fixed + S (fuel - length pub_fixed - 1))%nat by lia. destruct pub_fixed_bytes as [b0 Eb0].
  apply (wp_header_new nd pub_fixed 4 b0 pub_size); [done|done|lia|rewrite drop_0, Hd; by eexists|done|done|done|lia|change (128 ^ Z.of_nat 4) with (128 ^ 4); lia|lia|].
  intros x Hx. rewrite Efs. cbn [iter]. apply wp_bind. replace (0 + fixed_size) with fixed_size by lia.
  set (s1 := rx_with _ _ s0). pose proof (wp_parse_chunk nd blk o fixed_size 0 x) as Hchunk. rewrite Z.sub_0_r in Hchunk.
  assert (Hrx1 : rx_prefix pub_fixed (take (length pub_fixed) pub_fixed ++ drop (length pub_fixed) (rx_buffer (mq_client s0)))).
  { rewrite firstn_all. split; [rewrite length_app, length_drop; lia|]. apply take_app_length. }
  apply Hchunk; [done|done|exact Hrx1|change (fixed_size = fixed_size + 0); lia|lia|lia|done|]. clear Hchunk.
  set (c := Z.min _ _). cbv zeta. unfold pub_size in Hps at 1. unfold pub_size in c. rewrite Z.add_0_l, Z.add_0_r.
  assert (Hc : head_size <= c /\ c <= pub_size /\ fixed_size + c <= len (n_buf nd) /\ fixed_size + c <= 128) by (unfold c, pub_size; lia).
  eapply (wp_receive_first nd blk o c (inpub_pkt_id (mq_client s0))); [done|done|exact Hrx1| |done|lia|lia|lia|lia|done|].
  { unfold s1, rx_with, with_client. simpl. by destruct (mq_client s0). }
  intros s2 Hr. split; [done|]. cbv beta iota. eapply wp_mono.
  - apply (wp_rest_of_segment nd Hp Hpay _ c (fixed_size + c) x); [exact Hr|lia|lia|unfold pub_size in *; lia| |done|lia].
    rewrite Hd. replace (Z.to_nat (fixed_size + c)) with (length pub_fixed + Z.to_nat c)%nat by lia. rewrite drop_app_add.
    destruct Hrest as [r Hr']. exists r. rewrite Hr', drop_app_le by (unfold c in *; lia). done.
  - intros r s' [-> Hr']. split; [done|]. by replace (c + (len (n_buf nd) - (fixed_size + c))) with (len (n_buf nd) - fixed_size) in Hr' by lia.
Qed.

(** A segment with more of the payload. *)
Lemma wp_next_segment nd fuel i s : segment nd -> reached i s -> head_size <= i <= pub_size -> n_data nd `prefix_of` drop (Z.to_nat i) pub_body ->
  len (n_buf nd) + 6 <= Z.of_nat fuel ->
  wp (mqtt_parse_incoming fuel (n_loc nd)) (fun r s' => r = MQTT_CONNECT_ACCEPTED /\ reached (i + len (n_buf nd)) s') s.
Proof.
  intros [Hp Hpay Hby] Hr Hi Hpre Hf. destruct (packet_one _ _ Hp) as (Hb & Hh & Htot & Hlen & _).
  pose proof fixed_size_bounds as Hfs. assert (Hhs : 2 <= head_size) by (unfold head_size; lia).
  pose proof (prefix_length _ _ Hpre) as Hpl. rewrite length_drop in Hpl.
  assert (Efs : Z.of_nat (length pub_fixed) = fixed_size) by done. unfold mqtt_parse_incoming.
  destruct (Z.eqb_spec (len (n_buf nd)) 0) as [E0|E0].
  - destruct fuel as [|fuel]; [lia|]. cbn [iter]. apply wp_bind. unfold parse_body. apply wp_bind, (wp_getp_mqtt _ (n_buf nd)); [by destruct Hr as (? & ? & ? & -> & _)|].
    cbn [in_offset]. rewrite Htot, E0. apply wp_ret, wp_ret. split; [done|]. by rewrite Z.add_0_r.
  - assert (Hlt : i < pub_size) by (unfold pub_size in *; lia). destruct pub_fixed_bytes as [b0 Eb0].
    pose proof Hr as (rx & u & frags & Es & Hrx & _). rewrite (proj2 (Z.eqb_neq i pub_size)) in Es by lia.
    assert (Eidx : msg_idx (mq_client s) = fixed_size + i) by by subst s.
    replace fuel with (length pub_fixed + (fuel - length pub_fixed))%nat by lia.
    apply (wp_header_again (n_loc nd) (n_buf nd) pub_fixed 4 b0 pub_size); [by subst s|lia|by subst s|done|lia|change (128 ^ Z.of_nat 4) with (128 ^ 4); lia|rewrite Eidx; lia|].
    intros x Hx. rewrite Eidx, Efs, u32_small by lia.
    replace (pub_size + fixed_size - (fixed_size + i)) with (pub_size - i) by lia. eapply wp_mono.
    + pose proof (wp_rest_of_segment nd Hp Hpay (fuel - length pub_fixed) i 0 x s Hr) as W. rewrite (proj2 (Z.eqb_neq i pub_size)) in W by lia.
      apply W; [lia|lia|lia|by rewrite drop_0|done|lia].
    + intros r s' [-> Hr']. split; [done|]. by rewrite Z.sub_0_r in Hr'.
Qed.
End Message.

(** ** The whole message *)

Section Delivery.
Context `{U : Upper} {UL : UpperLaws}.

(** The parser on one segment after the other. *)
Fixpoint parse_segments (fuel : nat) (ps : list loc) : M mqtt Z :=
  match ps with
  | [] => mret MQTT_CONNECT_ACCEPTED
  | p :: ps =>
    r ← mqtt_parse_incoming fuel p;
    if r =? MQTT_CONNECT_ACCEPTED then parse_segments fuel ps else mret r
  end.

(** A client that waits for a message, with callbacks for publications. *)
Record idle (fp fd a : Z) (s : mqtt) : Prop := {
  id_pub : pub_cb (mq_client s) = Some fp;
  id_data : data_cb (mq_client s) = Some fd;
  id_arg : inpub_arg (mq_client s) = a;
  id_idx : msg_idx (mq_client s) = 0;
  id_rx : length (rx_buffer (mq_client s)) = 128%nat
}.

Lemma wp_next_segments s0 fp fd a topic load dup retain fuel nds : idle fp fd a s0 -> 0 <= dup <= 1 -> 0 <= retain <= 1 ->
  fixed_size topic load dup retain + head_size topic < 128 -> pub_size topic load < 128 ^ 4 ->
  Forall (fun nd => segment s0 nd /\ len (n_buf nd) + 6 <= Z.of_nat fuel) nds -> forall i s,
  reached s0 fp fd a topic load dup retain i s -> head_size topic <= i -> concat (n_data <$> nds) = drop (Z.to_nat i) (pub_body topic load) ->
  i <= pub_size topic load ->
  wp (parse_segments fuel (n_loc <$> nds)) (fun r s' => r = MQTT_CONNECT_ACCEPTED /\
    reached s0 fp fd a topic load dup retain (pub_size topic load) s') s.
Proof.
  intros Hid Hdup Hret Hfits Hsize Hs. induction Hs as [|nd nds [Hnd Hf] Hs IH]; intros i s Hr Hi Hc Hle.
  - cbn [fmap list_fmap parse_segments]. apply wp_ret. split; [done|]. apply (f_equal length) in Hc. rewrite length_drop in Hc. cbn [concat fmap list_fmap length] in Hc.
    assert (Hh : 2 <= head_size topic) by (unfold head_size; lia). unfold pub_size in *. by replace (Z.of_nat (length (pub_body topic load))) with i by lia.
  - cbn [fmap list_fmap parse_segments concat] in *. apply wp_bind. destruct (packet_one _ _ (sg_packet _ _ Hnd)) as (_ & _ & _ & Hlen & _).
    pose proof Hc as Hl. apply (f_equal length) in Hl. rewrite length_app, length_drop in Hl. assert (Hh : 2 <= head_size topic) by (unfold head_size; lia).
    destruct Hid as [Hp Hd Ha _ _].
    eapply wp_mono; [apply (wp_next_segment s0 fp fd a topic load dup retain Hd Ha Hdup Hret Hsize nd fuel i s); [done|done|lia| |done]|].
    { rewrite <- Hc. by eexists. }
    intros r s' [-> Hr']. cbn [Z.eqb MQTT_CONNECT_ACCEPTED]. apply (IH (i + len (n_buf nd)) s'); [done|lia| |unfold pub_size in *; lia].
    replace (Z.to_nat (i + len (n_buf nd))) with (Z.to_nat i + length (n_data nd))%nat by lia. rewrite <- drop_drop, <- Hc. by rewrite drop_app_length.
Qed.

(** C10. A publication reaches the application.  A PUBLISH of the server with
    QoS 0, of any length, arrives in segments of one pbuf each, cut anywhere
    behind its topic; topic and headers fit the buffer of 128 bytes.  The
    parser accepts every segment and is ready for the next message; the
    application is told the topic and the length of the payload, and then gets
    the payload in pieces that are its bytes in order, the last one and only
    that flagged as the last.  The pbufs, TCP, the requests and the output of
    the client are as they were. *)
Theorem mqtt_publication_delivered s fp fd a topic load dup retain nd nds fuel :
  idle fp fd a s -> 0 <= dup <= 1 -> 0 <= retain <= 1 ->
  concat (n_data <$> nd :: nds) = message MQTT_MSG_TYPE_PUBLISH dup 0 retain (mqtt_string topic ++ load) ->
  Z.of_nat (length (mqtt_string topic ++ load)) < 128 ^ 4 ->
  fixed_size topic load dup retain + head_size topic < 128 ->
  fixed_size topic load dup retain + head_size topic <= len (n_buf nd) ->
  fixed_size topic load dup retain + head_size topic < len (n_buf nd) \/ spare (mq_mem s) (n_buf nd) ->
  Forall (fun nd => segment s nd /\ len (n_buf nd) + 6 <= Z.of_nat fuel) (nd :: nds) ->
  exists s' rx u pieces, parse_segments fuel (n_loc <$> nd :: nds) s = Ret MQTT_CONNECT_ACCEPTED s' /\
    s' = with_up u (with_client (set_rx_buffer rx (set_inpub_pkt_id 0 (mq_client s))) s) /\ length rx = 128%nat /\
    concat pieces = load /\ pieces <> [] /\
    log u = log (mq_up s) ++ Ev_publish fp a topic (Z.of_nat (length load)) :: data_events fd a true pieces.
Proof.
  intros Hid Hdup Hret Hc Hsize Hfits Hfull Hroom [[Hnd Hf] Hs]%Forall_cons. pose proof Hid as [Hp Hd Ha Hidx Hrx].
  change (message _ _ _ _ _) with (pub_fixed topic load dup retain ++ pub_body topic load) in Hc.
  destruct (packet_one _ _ (sg_packet _ _ Hnd)) as (_ & _ & _ & Hlen & _). cbn [fmap list_fmap concat] in *.
  assert (Hpre : n_data nd `prefix_of` pub_fixed topic load dup retain ++ pub_body topic load) by (rewrite <- Hc; by eexists).
  pose proof (prefix_length _ _ Hpre) as Hpl. rewrite length_app in Hpl. set (fs := fixed_size topic load dup retain) in *.
  assert (Efs : Z.of_nat (length (pub_fixed topic load dup retain)) = fs) by done. assert (Hh : 2 <= head_size topic) by (unfold head_size; lia).
  assert (W : wp (parse_segments fuel (n_loc nd :: (n_loc <$> nds))) (fun r s' => r = MQTT_CONNECT_ACCEPTED /\
    reached s fp fd a topic load dup retain (pub_size topic load) s') s).
  { cbn [parse_segments]. apply wp_bind. eapply wp_mono; [by apply (wp_first_segment s fp fd a topic load dup retain)|].
    intros r s1 [-> Hr1]. cbn [Z.eqb MQTT_CONNECT_ACCEPTED]. fold fs in Hr1.
    apply (wp_next_segments s fp fd a topic load dup retain fuel nds Hid Hdup Hret Hfits Hsize Hs (len (n_buf nd) - fs) s1 Hr1); [lia| |unfold pub_size; lia].
    apply (f_equal (drop (length (n_data nd)))) in Hc. rewrite drop_app_length in Hc. rewrite Hc.
    replace (length (n_data nd)) with (length (pub_fixed topic load dup retain) + Z.to_nat (len (n_buf nd) - fs))%nat by lia. by rewrite drop_app_add. }
  apply wp_elim in W as (r & s' & E & -> & rx & u & pieces & -> & [Hl _] & Hpc & Hne & Hlog). rewrite Z.eqb_refl in *.
  rewrite take_ge in Hpc by (unfold pub_size, pub_body, head_size; rewrite length_app, mqtt_string_length; lia).
  exists (with_up u (with_client (set_rx_buffer rx (set_inpub_pkt_id 0 (mq_client s))) s)), rx, u, pieces. split_and!; [|done|done|done|by apply Hne|done].
  rewrite E. do 2 f_equal. unfold with_client. destruct s as [m n up c]. simpl in *. by rewrite <- Hidx.
Qed.
End Delivery.

(** [n] rounds of a loop, when none of them is the last. *)
Fixpoint go_round {S A R} (n : nat) (body : A -> M S (A + R)) (a : A) (s : S) : option (A * S) :=
  match n with
  | O => Some (a, s)
  | S n => match body a s with Ret (inl a') s' => go_round n body a' s' | _ => None end
  end.

Lemma go_round_stuck {S A R} n (body : A -> M S (A + R)) a s a' s' : go_round n body a s = Some (a', s') ->
  body a' s' = Ret (inl a') s' -> forall fuel, exists s'', iter fuel body a s = Stop OutOfFuel s''.
Proof.
  intros Hn Hb. assert (Hend : forall fuel, iter fuel body a' s' = Stop OutOfFuel s').
  { induction fuel as [|fuel IH]; [done|]. cbn [iter]. unfold mbind, M_bind. by rewrite Hb. }
  revert a s Hn. induction n as [|n IH]; intros a s Hn fuel; simpl in Hn; [injection Hn as -> ->; by eexists|].
  destruct fuel as [|fuel]; [by eexists|]. cbn [iter]. unfold mbind, M_bind. destruct (body a s) as [[a1|] s1|]; [by apply IH|done|done].
Qed.

Section Stuck.
Context `{U : Upper}.

(** What is behind the first pbuf starts in a pbuf with bytes. *)
Lemma skip_spec_nonempty m c : forall p, chain m p c -> 0 < total c -> exists nd c', skip_spec c 0 = (nd :: c', 0) /\
  pbufs m !! n_loc nd = Some (n_buf nd) /\ 0 < len (n_buf nd) /\ payload (n_buf nd) <> None.
Proof.
  induction c as [|nd c IH]; intros p Hc Ht; [done|]. destruct Hc as (-> & Hl & [Hlen Hpay] & Hc). unfold total, contents in Ht. simpl in Ht. rewrite length_app in Ht.
  cbn [skip_spec]. destruct (Z.leb_spec (len (n_buf nd)) 0).
  - replace (0 - len (n_buf nd)) with 0 by lia. apply (IH _ Hc). unfold total, contents. simpl. lia.
  - exists nd, c. split_and!; [done|done|done|]. destruct (payload (n_buf nd)); [done|]. rewrite Hpay in Hlen. simpl in Hlen. lia.
Qed.

(** The loop: a chunk of no bytes changes nothing. *)
Lemma parse_body_stays s nd c rem hl x b0 : packet (mq_mem s) (Some (n_loc nd)) (nd :: c) -> 0 < total c ->
  128 <= msg_idx (mq_client s) < 2 ^ 32 -> 2 <= hl <= 5 -> has x 0x80 = false -> 0 < rem < 2 ^ 32 ->
  length (rx_buffer (mq_client s)) = 128%nat -> rx_buffer (mq_client s) !! 0%nat = Some b0 -> MQTT_CTL_PACKET_TYPE b0 = MQTT_MSG_TYPE_PUBLISH ->
  parse_body (n_loc nd) (Parse (len (n_buf nd)) rem hl x) s = Ret (inl (Parse (len (n_buf nd)) rem hl x)) s.
Proof.
  intros Hp Hc Hidx Hhl Hx Hrem Hrx Hb0 Ht. pose proof Hp as [Hch [Htot _] Hl _ Hbd]. cbn [chain] in Hch. destruct Hch as (_ & Hb & [Hlen _] & Hcc).
  assert (Et : tot_len (n_buf nd) = len (n_buf nd) + total c) by (rewrite Htot; unfold total, contents; simpl; rewrite length_app; lia).
  rewrite Htot in Et. assert (W : wp (parse_body (n_loc nd) (Parse (len (n_buf nd)) rem hl x))
    (fun r s' => r = inl (Parse (len (n_buf nd)) rem hl x) /\ s' = s) s).
  { unfold parse_body. apply wp_bind, (wp_getp_mqtt _ (n_buf nd)); [done|]. cbn [in_offset fixed_hdr_len hdr_b msg_rem_len].
    rewrite Htot, (proj2 (Z.ltb_lt _ _)) by lia. rewrite (proj2 (Z.ltb_ge _ 2)), Hx by lia. cbn [negb orb]. apply wp_bind, wp_field.
    assert (Ec : copy_length (n_buf nd) (msg_idx (mq_client s)) (Parse (len (n_buf nd)) rem hl x) = 0).
    { unfold copy_length, MQTT_VAR_HEADER_BUFFER_LEN. cbn [in_offset fixed_hdr_len msg_rem_len]. rewrite Htot, Et, Z.sub_diag.
      replace (len (n_buf nd) + total c - len (n_buf nd)) with (total c) by lia. rewrite (u16_small (total c)), (u16_small (Z.min _ _)), (u16_small (128 - _)) by lia.
      set (d := if 128 - hl <? _ then _ else _). assert (0 < d) by (unfold d; case_match; lia). rewrite (proj2 (Z.leb_le 128 _)), (proj2 (Z.ltb_lt 0 d)) by lia. done. }
    rewrite Ec. unfold MQTT_VAR_HEADER_BUFFER_LEN. rewrite (u16_small (128 - hl)) by lia.
    destruct (skip_spec_nonempty _ _ _ Hcc Hc) as (q & c' & Es & Hq & Hql & [[blk o] Hqp]%not_eq_None_Some).
    assert (Eg : pbuf_get_contiguous (Some (n_loc nd)) true (128 - hl) 0 (len (n_buf nd)) (mq_mem s) = Ret (CPayload (blk, o + 0)) (mq_mem s)).
    { unfold pbuf_get_contiguous. cbn [andb]. rewrite (proj2 (Z.ltb_ge _ _)) by lia.
      erewrite bind_Ret by (apply (skip_run _ (Some (n_loc nd)) (nd :: c)); [done|lia]). cbn [skip_spec]. rewrite Z.leb_refl, Z.sub_diag, Es.
      cbn [fst snd first_loc head fmap option_fmap option_map]. erewrite bind_Ret by (unfold getp; erewrite bind_Ret by reflexivity; rewrite Hq; reflexivity).
      rewrite (proj2 (Z.leb_le _ _)) by lia. rewrite Hqp. done. }
    apply wp_bind, wp_on_pbufs. eapply wp_of_run; [exact Eg|]. apply wp_bind, wp_ret, wp_bind, wp_update. set (s1 := with_client _ _).
    assert (Hs1 : s1 = s). { unfold s1, with_pmem. destruct s as [m n u cl]. simpl. rewrite Z.add_0_r, u32_small by (simpl in Hidx; lia). by destruct cl. }
    rewrite Hs1, Z.add_0_r, Z.sub_0_r, (u16_small (len _)), (u32_small rem) by lia. apply wp_bind. unfold mqtt_message_received.
    apply wp_bind, (wp_rx_byte 0 b0 [b0]); [split; [done|]|simpl; lia|done|].
    { simpl. destruct (rx_buffer (mq_client s)); [done|]. injection Hb0 as ->. done. }
    rewrite Ht. unfold MQTT_VAR_HEADER_BUFFER_LEN. rewrite (proj2 (Z.ltb_ge 128 _)) by lia.
    cbn [Z.eqb MQTT_MSG_TYPE_PUBLISH MQTT_MSG_TYPE_CONNACK MQTT_MSG_TYPE_PINGRESP Pos.eqb]. unfold receive_publish.
    apply wp_bind, (wp_rx_byte 0 b0 [b0]); [split; [done|]|simpl; lia|done|].
    { simpl. destruct (rx_buffer (mq_client s)); [done|]. injection Hb0 as ->. done. }
    apply wp_bind, wp_field. rewrite Z.add_0_r, u32_small, (proj2 (Z.eqb_neq _ _)) by lia. apply wp_bind, wp_ret. unfold publish_payload.
    cbn [Z.ltb Z.compare orb]. rewrite (proj2 (Z.eqb_neq rem 0)) by lia. apply wp_ret. cbn [Z.eqb negb MQTT_CONNECT_ACCEPTED].
    rewrite ?(proj2 (Z.eqb_neq rem 0)) by lia. by apply wp_ret. }
  by apply wp_elim in W as (r & s' & E & -> & ->).
Qed.

(** C36. The parser can run for ever.  In the middle of a PUBLISH of which 128
    bytes or more have come, with a packet of several pbufs, the parser never
    gets past the end of the first pbuf: it limits the next chunk to what is
    left of that pbuf, which is nothing, and goes round without a change.  No
    number of rounds is enough, so the call never returns. *)
Theorem mqtt_parse_never_ends n s s' nd c rem hl x b0 :
  packet (mq_mem s') (Some (n_loc nd)) (nd :: c) -> 0 < total c ->
  go_round n (parse_body (n_loc nd)) (Parse 0 0 0 0) s = Some (Parse (len (n_buf nd)) rem hl x, s') ->
  128 <= msg_idx (mq_client s') < 2 ^ 32 -> 2 <= hl <= 5 -> has x 0x80 = false -> 0 < rem < 2 ^ 32 ->
  length (rx_buffer (mq_client s')) = 128%nat -> rx_buffer (mq_client s') !! 0%nat = Some b0 -> MQTT_CTL_PACKET_TYPE b0 = MQTT_MSG_TYPE_PUBLISH ->
  forall fuel, exists s'', mqtt_parse_incoming fuel (n_loc nd) s = Stop OutOfFuel s''.
Proof.
  intros Hp Hc Hn Hidx Hhl Hx Hrem Hrx Hb0 Ht. eapply go_round_stuck; [exact Hn|]. by eapply parse_body_stays.
Qed.
End Stuck.
