(* ===== verification/App.v ===== *)
(** The application: [src/Core/Src/main.c].

    The state is the driver with its bus, the packet memory of lwIP, the rest
    of lwIP as an abstract state, and the static variables of main.c.  A call
    into lwIP ([request]) runs the stack, which may call back into main.c
    through the function pointers main.c registered ([callback]) any number of
    times before it returns; the class [Stack] says what a particular stack
    does.  The static variables of main.c are not visible to lwIP: it reaches
    them only through the callbacks. *)
From stdpp Require Import functions.
From S2P Require Import Prelude MqttRing Bus Regs Driver Memp Pbuf Ip4Addr.

(** [enum Connection_State]. *)
Inductive Connection_State : Type :=
| START_UP | DHCP_IP_RECEIVED | DNS_IP_OBTAINED | MQTT_CONNECTING | MQTT_CONNECTED | MQTT_DISCONNECTED.

#[global] Instance Connection_State_eq_dec : EqDecision Connection_State.
Proof. solve_decision. Defined.

Definition ETH_HWADDR_LEN : Z := 6.

(** The function pointers [ethernet_init] stores. *)
Inductive netif_fn : Type := etharp_output_fn | enc28j60_translate_fn.

(** The fields of [struct netif] that main.c writes. *)
Record netif : Type := Netif {
  nf_name : list Z;
  nf_flags : Z;
  mtu : Z;
  output : option netif_fn;
  linkoutput : option netif_fn;
  hwaddr_len : Z;
  hostname : string;
  hwaddr : list Z
}.

(** [struct mqttBrokerDetails]; an IPv4 address is a 32-bit word. *)
Record mqttBrokerDetails : Type := {
  br_name : string; br_ip : Z; br_user : string; br_password : string
}.

Definition mqttBroker : mqttBrokerDetails :=
  {| br_name := "broker.emqx.io"; br_ip := 0; br_user := ""; br_password := "" |}%string.

(** The static variables of main.c and the locals of [main]. *)
Record vars : Type := Vars {
  enc28j60intCounter : Z;
  u32FinerTimer : Z;
  u32CoarseTimer : Z;
  timeForDns : Z;
  timerForEtharp : Z;
  u32MqttCounter : Z;
  my_netif : netif;
  myConn : Connection_State;
  broker : mqttBrokerDetails;
  myMqtt : option Z;
  bSubscribed : bool;
  rx_bytes : Z;
  lastReconnectAttempt : Z;
  bTxBusy : bool;
  u32PacketCounter : Z;
  enableDns : bool;
  GreenLED1 : bool
}.

(** Their initial values; statics without an initialiser are zero. *)
Definition initial_vars : vars := {|
  enc28j60intCounter := 0; u32FinerTimer := 0; u32CoarseTimer := 0; timeForDns := 0; timerForEtharp := 0;
  u32MqttCounter := 0;
  my_netif := {| nf_name := [0; 0]; nf_flags := 0; mtu := 0; output := None; linkoutput := None;
                 hwaddr_len := 0; hostname := ""; hwaddr := replicate 6 0 |};
  myConn := START_UP; broker := mqttBroker; myMqtt := None; bSubscribed := false; rx_bytes := 0;
  lastReconnectAttempt := 0; bTxBusy := false; u32PacketCounter := 0; enableDns := false; GreenLED1 := false
|}.

(** Assignments to the variables. *)
Definition set_enc28j60intCounter (x : Z) (v : vars) : vars :=
  Vars x (u32FinerTimer v) (u32CoarseTimer v) (timeForDns v) (timerForEtharp v) (u32MqttCounter v)
    (my_netif v) (myConn v) (broker v) (myMqtt v) (bSubscribed v) (rx_bytes v)
    (lastReconnectAttempt v) (bTxBusy v) (u32PacketCounter v) (enableDns v) (GreenLED1 v).
Definition set_u32FinerTimer (x : Z) (v : vars) : vars :=
  Vars (enc28j60intCounter v) x (u32CoarseTimer v) (timeForDns v) (timerForEtharp v)
    (u32MqttCounter v) (my_netif v) (myConn v) (broker v) (myMqtt v) (bSubscribed v) (rx_bytes v)
    (lastReconnectAttempt v) (bTxBusy v) (u32PacketCounter v) (enableDns v) (GreenLED1 v).
Definition set_u32CoarseTimer (x : Z) (v : vars) : vars :=
  Vars (enc28j60intCounter v) (u32FinerTimer v) x (timeForDns v) (timerForEtharp v)
    (u32MqttCounter v) (my_netif v) (myConn v) (broker v) (myMqtt v) (bSubscribed v) (rx_bytes v)
    (lastReconnectAttempt v) (bTxBusy v) (u32PacketCounter v) (enableDns v) (GreenLED1 v).
Definition set_timeForDns (x : Z) (v : vars) : vars :=
  Vars (enc28j60intCounter v) (u32FinerTimer v) (u32CoarseTimer v) x (timerForEtharp v)
    (u32MqttCounter v) (my_netif v) (myConn v) (broker v) (myMqtt v) (bSubscribed v) (rx_bytes v)
    (lastReconnectAttempt v) (bTxBusy v) (u32PacketCounter v) (enableDns v) (GreenLED1 v).
Definition set_timerForEtharp (x : Z) (v : vars) : vars :=
  Vars (enc28j60intCounter v) (u32FinerTimer v) (u32CoarseTimer v) (timeForDns v) x
    (u32MqttCounter v) (my_netif v) (myConn v) (broker v) (myMqtt v) (bSubscribed v) (rx_bytes v)
    (lastReconnectAttempt v) (bTxBusy v) (u32PacketCounter v) (enableDns v) (GreenLED1 v).
Definition set_u32MqttCounter (x : Z) (v : vars) : vars :=
  Vars (enc28j60intCounter v) (u32FinerTimer v) (u32CoarseTimer v) (timeForDns v) (timerForEtharp v)
    x (my_netif v) (myConn v) (broker v) (myMqtt v) (bSubscribed v) (rx_bytes v)
    (lastReconnectAttempt v) (bTxBusy v) (u32PacketCounter v) (enableDns v) (GreenLED1 v).
Definition set_my_netif (x : netif) (v : vars) : vars :=
  Vars (enc28j60intCounter v) (u32FinerTimer v) (u32CoarseTimer v) (timeForDns v) (timerForEtharp v)
    (u32MqttCounter v) x (myConn v) (broker v) (myMqtt v) (bSubscribed v) (rx_bytes v)
    (lastReconnectAttempt v) (bTxBusy v) (u32PacketCounter v) (enableDns v) (GreenLED1 v).
Definition set_myConn (x : Connection_State) (v : vars) : vars :=
  Vars (enc28j60intCounter v) (u32FinerTimer v) (u32CoarseTimer v) (timeForDns v) (timerForEtharp v)
    (u32MqttCounter v) (my_netif v) x (broker v) (myMqtt v) (bSubscribed v) (rx_bytes v)
    (lastReconnectAttempt v) (bTxBusy v) (u32PacketCounter v) (enableDns v) (GreenLED1 v).
Definition set_broker (x : mqttBrokerDetails) (v : vars) : vars :=
  Vars (enc28j60intCounter v) (u32FinerTimer v) (u32CoarseTimer v) (timeForDns v) (timerForEtharp v)
    (u32MqttCounter v) (my_netif v) (myConn v) x (myMqtt v) (bSubscribed v) (rx_bytes v)
    (lastReconnectAttempt v) (bTxBusy v) (u32PacketCounter v) (enableDns v) (GreenLED1 v).
Definition set_myMqtt (x : option Z) (v : vars) : vars :=
  Vars (enc28j60intCounter v) (u32FinerTimer v) (u32CoarseTimer v) (timeForDns v) (timerForEtharp v)
    (u32MqttCounter v) (my_netif v) (myConn v) (broker v) x (bSubscribed v) (rx_bytes v)
    (lastReconnectAttempt v) (bTxBusy v) (u32PacketCounter v) (enableDns v) (GreenLED1 v).
Definition set_bSubscribed (x : bool) (v : vars) : vars :=
  Vars (enc28j60intCounter v) (u32FinerTimer v) (u32CoarseTimer v) (timeForDns v) (timerForEtharp v)
    (u32MqttCounter v) (my_netif v) (myConn v) (broker v) (myMqtt v) x (rx_bytes v)
    (lastReconnectAttempt v) (bTxBusy v) (u32PacketCounter v) (enableDns v) (GreenLED1 v).
Definition set_rx_bytes (x : Z) (v : vars) : vars :=
  Vars (enc28j60intCounter v) (u32FinerTimer v) (u32CoarseTimer v) (timeForDns v) (timerForEtharp v)
    (u32MqttCounter v) (my_netif v) (myConn v) (broker v) (myMqtt v) (bSubscribed v) x
    (lastReconnectAttempt v) (bTxBusy v) (u32PacketCounter v) (enableDns v) (GreenLED1 v).
Definition set_lastReconnectAttempt (x : Z) (v : vars) : vars :=
  Vars (enc28j60intCounter v) (u32FinerTimer v) (u32CoarseTimer v) (timeForDns v) (timerForEtharp v)
    (u32MqttCounter v) (my_netif v) (myConn v) (broker v) (myMqtt v) (bSubscribed v) (rx_bytes v)
    x (bTxBusy v) (u32PacketCounter v) (enableDns v) (GreenLED1 v).
Definition set_bTxBusy (x : bool) (v : vars) : vars :=
  Vars (enc28j60intCounter v) (u32FinerTimer v) (u32CoarseTimer v) (timeForDns v) (timerForEtharp v)
    (u32MqttCounter v) (my_netif v) (myConn v) (broker v) (myMqtt v) (bSubscribed v) (rx_bytes v)
    (lastReconnectAttempt v) x (u32PacketCounter v) (enableDns v) (GreenLED1 v).
Definition set_u32PacketCounter (x : Z) (v : vars) : vars :=
  Vars (enc28j60intCounter v) (u32FinerTimer v) (u32CoarseTimer v) (timeForDns v) (timerForEtharp v)
    (u32MqttCounter v) (my_netif v) (myConn v) (broker v) (myMqtt v) (bSubscribed v) (rx_bytes v)
    (lastReconnectAttempt v) (bTxBusy v) x (enableDns v) (GreenLED1 v).
Definition set_enableDns (x : bool) (v : vars) : vars :=
  Vars (enc28j60intCounter v) (u32FinerTimer v) (u32CoarseTimer v) (timeForDns v) (timerForEtharp v)
    (u32MqttCounter v) (my_netif v) (myConn v) (broker v) (myMqtt v) (bSubscribed v) (rx_bytes v)
    (lastReconnectAttempt v) (bTxBusy v) (u32PacketCounter v) x (GreenLED1 v).
Definition set_GreenLED1 (x : bool) (v : vars) : vars :=
  Vars (enc28j60intCounter v) (u32FinerTimer v) (u32CoarseTimer v) (timeForDns v) (timerForEtharp v)
    (u32MqttCounter v) (my_netif v) (myConn v) (broker v) (myMqtt v) (bSubscribed v) (rx_bytes v)
    (lastReconnectAttempt v) (bTxBusy v) (u32PacketCounter v) (enableDns v) x.

(** What main.c asks of lwIP. *)
Inductive request : Type :=
| R_lwip_init
| R_netif_add_noaddr       (** with [ethernet_init] and [ethernet_input] *)
| R_netif_set_addr (ip mask gw : Z)
| R_netif_set_default
| R_netif_set_up
| R_dhcp_set_struct
| R_dhcp_start
| R_mqtt_client_new
| R_dhcp_fine_tmr
| R_dhcp_coarse_tmr
| R_dns_tmr
| R_etharp_tmr
| R_sys_check_timeouts
| R_dhcp_supplied_address
| R_dns_init
| R_dns_setserver (i ip : Z)
| R_dns_gethostbyname (name : string)   (** with [ipObtained] *)
| R_mqtt_client_connect (ip port : Z)   (** with [myMqttClientCallBack] and [&myConn] *)
| R_mqtt_client_is_connected
| R_mqtt_publish (topic msg : string)
| R_mqtt_set_inpub_callback             (** [publishIncoming], [mqtt_data_cb] *)
| R_mqtt_subscribe (topic : string) (qos : Z)
| R_netif_input (p : loc).

#[global] Instance request_eq_dec : EqDecision request.
Proof. solve_decision. Defined.

(** The functions of main.c that lwIP calls. *)
Inductive callback : Type :=
| C_ethernet_init
| C_enc28j60_translate (p : option loc)
| C_ipObtained (name : string) (ipaddr : option Z)
| C_myMqttClientCallBack (client : option Z) (status : Z)
| C_publishIncoming (topic : string) (tot_len : Z)
| C_mqtt_data_cb (len flags : Z).

Section Stack.
Context `{HeapOps}.

(** A run of the stack: it returns [r], or calls back with the packet memory
    as it is then, and goes on with what the callback returned. *)
Inductive act (W : Type) : Type :=
| Done (r : Z) (w : W) (m : mem)
| Callback (cb : callback) (m : mem) (k : Z -> act W).
Arguments Done {W} r w m.
Arguments Callback {W} cb m k.

(** lwIP: what a call at time [sys_now] does, in a state of the stack and of
    the packet memory. *)
Class Stack : Type := {
  wstate : Type;
  stack : Z -> request -> wstate -> mem -> act wstate
}.
End Stack.
Arguments Done {_ W} r w m.
Arguments Callback {_ W} cb m k.

(** What main.c and lwIP did, newest first; times are [sys_now]. *)
Inductive note : Type :=
| Asked (now : Z) (q : request)
| Called (cb : callback).

Record app `{Stack} : Type := App {
  adrv : drv;
  amem : mem;
  aw : wstate;
  millisec : Z;
  avars : vars;
  trace : list note
}.

Section App.
Context `{SpiSlave} `{CustomFree} `{!Stack}.

Definition set_drv (x : drv) (s : app) : app := App _ _ x (amem s) (aw s) (millisec s) (avars s) (trace s).
Definition set_mem (x : mem) (s : app) : app := App _ _ (adrv s) x (aw s) (millisec s) (avars s) (trace s).
Definition set_w (x : wstate) (s : app) : app := App _ _ (adrv s) (amem s) x (millisec s) (avars s) (trace s).
Definition set_now (x : Z) (s : app) : app := App _ _ (adrv s) (amem s) (aw s) x (avars s) (trace s).
Definition set_vars (x : vars) (s : app) : app := App _ _ (adrv s) (amem s) (aw s) (millisec s) x (trace s).
Definition add_note (n : note) (s : app) : app :=
  App _ _ (adrv s) (amem s) (aw s) (millisec s) (avars s) (n :: trace s).

Definition on_drv {A} (x : M drv A) : M app A := zoom adrv set_drv x.
Definition on_mem {A} (x : M mem A) : M app A := zoom amem set_mem x.
Definition var {A} (f : vars -> A) : M app A := gets (fun s => f (avars s)).
Definition assign (f : vars -> vars) : M app unit := modify (fun s => set_vars (f (avars s)) s).
Definition app_sys_now : M app Z := gets millisec.
Definition print (level : Z) (fmt : string) (args : list Z) : M app unit := on_drv (Log level fmt args).

(** ** Interrupts *)

Definition GPIO_PIN_7 : Z := bit 7.

Definition HAL_GPIO_EXTI_Callback (GPIO_Pin : Z) : M app unit :=
  when (GPIO_Pin =? GPIO_PIN_7) (assign (fun v => set_enc28j60intCounter (u32 (enc28j60intCounter v + 1)) v)).

Inductive tim_instance : Type := TIM1 | TIM2 | TIM_other.

(** [sys_now_increment] is sys_arch.c's. *)
Definition HAL_TIM_PeriodElapsedCallback (Instance_ : tim_instance) : M app unit :=
  match Instance_ with
  | TIM2 =>
    assign (fun v => set_u32FinerTimer (u32 (u32FinerTimer v + 1)) v);;
    assign (fun v => set_u32CoarseTimer (u32 (u32CoarseTimer v + 1)) v);;
    assign (fun v => set_timeForDns (u8 (timeForDns v + 1)) v);;
    assign (fun v => set_u32MqttCounter (u32 (u32MqttCounter v + 1)) v);;
    assign (fun v => set_timerForEtharp (u8 (timerForEtharp v + 1)) v);;
    modify (fun s => set_now (u32 (millisec s + 500)) s)
  | TIM1 | TIM_other => mret tt
  end.

(** ** Callbacks *)

Definition ethernet_init : M app Z :=
  d ← gets (fun s => ddev (adrv s));
  assign (fun v =>
    let n := my_netif v in
    set_my_netif {|
      nf_name := [101; 110];
      nf_flags := u8 (Z.lor (nf_flags n)
        (Z.lor (Z.lor (Z.lor NETIF_FLAG_BROADCAST NETIF_FLAG_ETHARP) NETIF_FLAG_IGMP) NETIF_FLAG_LINK_UP));
      mtu := 1500;
      output := Some etharp_output_fn;
      linkoutput := Some enc28j60_translate_fn;
      hwaddr_len := ETH_HWADDR_LEN;
      hostname := "enc28j60_feytech";
      hwaddr := (fun i => nth (5 - i) (mac d) 0) <$> seq 0 6
    |} v);;
  mret ERR_OK.

(** [memcpy(&dev.txPkt.data[offset], bs, n)]; the array ends the object. *)
Definition put_tx (offset : Z) (bs : list Z) : M drv unit :=
  t ← gets (fun s => tx_data (txPkt (ddev s)));
  if offset + Z.of_nat (length bs) <=? Z.of_nat (length t) then
    set_tx (fun tx => {| txPktLen := txPktLen tx; tx_data := splice (Z.to_nat offset) bs (tx_data tx) |})
  else halt OutOfBounds.

Definition translate_body (x : option loc * Z) : M app ((option loc * Z) + Z) :=
  let '(q, offset) := x in
  match q with
  | None => mret (inr offset)
  | Some l =>
    b ← on_mem (getp l);
    bs ← on_mem (read_at (payload b) 0 (len b));
    on_drv (put_tx offset bs);;
    mret (inl (next b, u16 (offset + len b)))
  end.

Definition enc28j60_translate (p : option loc) : M app Z :=
  busy ← var bTxBusy;
  if negb busy then
    print DEBUG_INFO "TX started!\r\n" [];;
    p' ← deref NullDeref p;
    b ← on_mem (getp p');
    let total_len := tot_len b in
    fuel ← on_mem chain_fuel;
    offset ← iter fuel translate_body (p, 0);
    if negb (offset =? total_len) then mret ERR_BUF
    else
      data ← gets (fun s => tx_data (txPkt (ddev (adrv s))));
      on_drv (enc28j60_etherTransmit data total_len);;
      assign (set_bTxBusy true);;
      mret ERR_OK
  else
    print DEBUG_ERROR "TX busy!\r\n" [];;
    mret ERR_INPROGRESS.

(** The bytes from [rxPkt.data] on are read through [pbuf_take]. *)
Definition ethernet_do_translation_to_pbub (p : loc) : M app unit :=
  d ← gets (fun s => ddev (adrv s));
  b ← on_mem (getp p);
  let n := if tot_len b <? rxPktLen (rxPkt d) then tot_len b else rxPktLen (rxPkt d) in
  on_mem (pbuf_take (Some p) (Some (rx_region d)) n);;
  mret tt.

Definition ipObtained (name : string) (ipaddr : option Z) : M app unit :=
  b ← var broker;
  when (String.eqb (br_name b) name)
    (ip ← deref NullDeref ipaddr;
     assign (fun v => set_broker {| br_name := br_name b; br_ip := ip; br_user := br_user b;
                                    br_password := br_password b |} v);;
     assign (set_myConn DNS_IP_OBTAINED)).

(** [arg] is [&myConn], as registered. *)
Definition myMqttClientCallBack (client : option Z) (status : Z) : M app unit :=
  m ← var myMqtt;
  when (bool_decide (client = m))
    (if status =? MQTT_CONNECT_ACCEPTED then assign (set_myConn MQTT_CONNECTED)
     else if status =? MQTT_CONNECT_DISCONNECTED then assign (set_myConn MQTT_DISCONNECTED)
     else halt Hang).

Definition mqtt_data_cb (len flags : Z) : M app unit :=
  assign (fun v => set_rx_bytes (u32 (rx_bytes v + len)) v);;
  when (has flags MQTT_DATA_FLAG_LAST)
    (n ← var rx_bytes;
     print DEBUG_INFO "MQTT message complete: %lu bytes\r\n" [n];;
     assign (set_rx_bytes 0)).

(** The topic is a string argument of the message. *)
Definition publishIncoming (topic : string) (tot_len : Z) : M app unit :=
  print DEBUG_INFO "Data arrived on %s\r\n" [].

Definition run_callback (cb : callback) : M app Z :=
  modify (add_note (Called cb));;
  match cb with
  | C_ethernet_init => ethernet_init
  | C_enc28j60_translate p => enc28j60_translate p
  | C_ipObtained name ip => ipObtained name ip;; mret 0
  | C_myMqttClientCallBack client status => myMqttClientCallBack client status;; mret 0
  | C_publishIncoming topic n => publishIncoming topic n;; mret 0
  | C_mqtt_data_cb n flags => mqtt_data_cb n flags;; mret 0
  end.

(** A call into lwIP. *)
Fixpoint run_act (a : act wstate) : M app Z :=
  match a with
  | Done r w m => modify (fun s => set_w w (set_mem m s));; mret r
  | Callback cb m k => modify (set_mem m);; r ← run_callback cb; run_act (k r)
  end.

Definition ask (q : request) : M app Z :=
  s ← get;
  put (add_note (Asked (millisec s) q) s);;
  run_act (stack (millisec s) q (aw s) (amem s)).

(** ** The main loop *)

Definition ask_ (q : request) : M app unit := ask q;; mret tt.

Definition run_timers : M app unit :=
  n ← var u32FinerTimer;
  when (1 <=? n)
    (assign (set_u32FinerTimer 0);; ask_ R_dhcp_fine_tmr;;
     assign (fun v => set_GreenLED1 (negb (GreenLED1 v)) v));;
  n ← var u32CoarseTimer;
  when (120 <=? n) (assign (set_u32CoarseTimer 0);; ask_ R_dhcp_coarse_tmr);;
  n ← var timeForDns;
  e ← var enableDns;
  when ((2 <=? n) && e) (assign (set_timeForDns 0);; ask_ R_dns_tmr);;
  n ← var timerForEtharp;
  when (2 <=? n) (assign (set_timerForEtharp 0);; ask_ R_etharp_tmr).

(** [IP4_ADDR(&dnsServer, 8, 8, 8, 8)]. *)
Definition dnsServer : Z := Z.lor 8 (Z.lor (Z.shiftl 8 8) (Z.lor (Z.shiftl 8 16) (Z.shiftl 8 24))).

Definition alien_message : string := "This message is coming from an alien who just landed in south Africa".

(** [switch (myConn)]. *)
Definition run_connection : M app unit :=
  c ← var myConn;
  match c with
  | START_UP =>
    r ← ask R_dhcp_supplied_address;
    when (negb (r =? 0))
      (ask_ R_dns_init;;
       ask_ (R_dns_setserver 0 dnsServer);;
       b ← var broker;
       ask_ (R_dns_gethostbyname (br_name b));;
       assign (set_enableDns true);;
       assign (set_myConn DHCP_IP_RECEIVED))
  | DHCP_IP_RECEIVED => mret tt
  | MQTT_DISCONNECTED | DNS_IP_OBTAINED =>
    now ← app_sys_now;
    last ← var lastReconnectAttempt;
    when (3000 <? u32 (now - last))
      (now ← app_sys_now;
       assign (set_lastReconnectAttempt now);;
       b ← var broker;
       r ← ask (R_mqtt_client_connect (br_ip b) 1883);
       when (ERR_OK =? r) (assign (set_myConn MQTT_CONNECTING);; assign (set_bSubscribed false)))
  | MQTT_CONNECTING => ask_ R_mqtt_client_is_connected
  | MQTT_CONNECTED =>
    n ← var u32MqttCounter;
    when (10 <=? n) (assign (set_u32MqttCounter 0);; ask_ (R_mqtt_publish "franzkafka" alien_message));;
    sub ← var bSubscribed;
    when (negb sub)
      (assign (set_bSubscribed true);;
       ask_ R_mqtt_set_inpub_callback;;
       ask_ (R_mqtt_subscribe "franzkafka" 0))
  end.

(** [case 6]. *)
Definition receive_packet : M app unit :=
  print DEBUG_INFO "6) Receive Packet Pending Interrupt Flag bit\r\n" [];;
  err ← on_drv enc28j60_etherReceive;
  on_drv (enc28j60_clear_interrupt PKTIF);;
  when err
    (n ← var u32PacketCounter;
     print DEBUG_INFO "PKT number %d\r\n" [n];;
     assign (fun v => set_u32PacketCounter (u32 (u32PacketCounter v + 1)) v);;
     n ← gets (fun s => rxPktLen (rxPkt (ddev (adrv s))));
     print DEBUG_INFO "PKT length %d\r\n" [n];;
     u18length ← gets (fun s => rxPktLen (rxPkt (ddev (adrv s))));
     ethBuffer ← on_mem (pbuf_alloc PBUF_RAW u18length PBUF_POOL);
     match ethBuffer with
     | None => mret tt
     | Some p =>
       ethernet_do_translation_to_pbub p;;
       r ← ask (R_netif_input p);
       when (negb (r =? ERR_OK)) (on_mem (pbuf_free (Some p));; mret tt)
     end).

(** [switch (cnt)]; [fuel] bounds the wait for the PHY. *)
Definition serve_flag (fuel : nat) (cnt : Z) : M app unit :=
  match cnt with
  | 0 => print DEBUG_ERROR "1) Receive Error Interrupt Flag bit\r\n" [];;
         on_drv (enc28j60_clear_interrupt RXERIF)
  | 1 => print DEBUG_ERROR "2) Transmit Error Interrupt Flag bit\r\n" [];;
         on_drv (enc28j60_clear_interrupt TXERIF)
  | 2 => print DEBUG_INFO "3) WOL Interrupt Flag bit\r\n" []
  | 3 => print DEBUG_INFO "4) Transmit Interrupt Flag bit\r\n" [];;
         on_drv (enc28j60_clear_interrupt TXIF);;
         assign (set_bTxBusy false)
  | 4 => print DEBUG_INFO "5) Link Change Interrupt Flag bit\r\n" [];;
         d ← gets (fun s => ddev (adrv s));
         on_drv (enc28j60_readPhyReg fuel (PHIR (phyReg d)));;
         on_drv enc28j60_link_change_int_clear
  | 5 => print DEBUG_INFO "5) DMA Interrupt Flag bit\r\n" [];;
         on_drv (enc28j60_clear_interrupt DMAIF)
  | 6 => receive_packet
  | _ => mret tt
  end.

Definition service_flag (fuel : nat) (u8Value cnt : Z) : M app unit :=
  when (has u8Value (bit cnt))
    (on_drv enc28j60_global_int_Clear;;
     serve_flag fuel cnt;;
     on_drv enc28j60_global_Int_Set).

(** The increments of the counter come from the interrupt; [Loop.v] has the
    decrement in its two accesses. *)
Definition service_interrupt (fuel : nat) : M app unit :=
  n ← var enc28j60intCounter;
  when (0 <? n)
    (assign (fun v => set_enc28j60intCounter (u32 (enc28j60intCounter v - 1)) v);;
     d ← gets (fun s => ddev (adrv s));
     u8Value ← on_drv (enc28j60_readEtherReg (EIR (Bank0.commonRegs (bank0 d))));
     print DEBUG_INFO "EIR REG --> %u\r\n" [u8Value];;
     for_each (seqZ 0 8) (service_flag fuel u8Value)).

(** The body of [while (1)]. *)
Definition main_loop (fuel : nat) : M app unit :=
  run_timers;;
  ask_ R_sys_check_timeouts;;
  run_connection;;
  service_interrupt fuel.

(** [main] up to the loop, after the HAL has set up the peripherals. *)
Definition main_init (fuel : nat) : M app unit :=
  on_drv (enc28j60_initDr (Some spi1ChipSelect) (Some spi1ChipDeSelect) (Some spi1Read) (Some spi1Write)
            None (Some delayMsFunction));;
  on_drv (enc28j60_strtDr fuel);;
  ask_ R_lwip_init;;
  ask_ R_netif_add_noaddr;;
  ask_ (R_netif_set_addr 0 0 0);;
  ask_ R_netif_set_default;;
  ask_ R_netif_set_up;;
  assign (set_u32PacketCounter 0);;
  ask_ R_dhcp_set_struct;;
  ask_ R_dhcp_start;;
  assign (set_enableDns false);;
  c ← ask R_mqtt_client_new;
  (* the pointer, as its address; zero is NULL *)
  assign (set_myMqtt (if c =? 0 then None else Some c));;
  if c =? 0 then halt Hang else mret tt.
End App.
