(* ===== verification/AppFacts.v ===== *)
(** The application: transmission of a packet and delivery of a frame, and
    [enc28j60_translate] as the driver of the link layer. *)
From stdpp Require Import functions.
From S2P Require Import Prelude Bus Regs Driver Chip DriverFacts Transfer Receive Memp Pbuf PbufFacts PbufUpdate PbufAlloc PbufRam.
From S2P Require Import Chksum Ip4Addr Ethernet Etharp EtharpTable EtharpInv EtharpSend EtharpReply App.

Lemma splice_app o a b (l : list Z) : (o + length (a ++ b) <= length l)%nat ->
  splice (o + length a) b (splice o a l) = splice o (a ++ b) l.
Proof.
  rewrite length_app. intros Hl. apply list_eq. intros k.
  rewrite !splice_lookup by (rewrite ?splice_length, ?length_app; lia). rewrite length_app.
  repeat case_decide; try lia; try done.
  - rewrite lookup_app_r by lia. f_equal. lia.
  - rewrite lookup_app_l by lia. done.
Qed.

Lemma splice_nil o (l : list Z) : splice o [] l = l.
Proof. unfold splice. by rewrite app_nil_l, Nat.add_0_r, take_drop. Qed.

Lemma take_splice (bs l : list Z) : take (length bs) (splice 0 bs l) = bs.
Proof. unfold splice. by rewrite take_0, app_nil_l, take_app_length. Qed.

Section AppFacts.
Context `{SpiSlave} `{CustomFree} `{!Stack}.

Lemma wp_on_drv {A} (x : M drv A) Q s :
  wp x (fun a d => Q a (set_drv d s)) (adrv s) -> wp (on_drv x) Q s.
Proof. unfold wp, on_drv, zoom. by destruct (x (adrv s)). Qed.

Lemma wp_on_mem {A} (x : M mem A) Q s :
  wp x (fun a m => Q a (set_mem m s)) (amem s) -> wp (on_mem x) Q s.
Proof. unfold wp, on_mem, zoom. by destruct (x (amem s)). Qed.

Lemma wp_var {A} (f : vars -> A) Q s : Q (f (avars s)) s -> wp (var f) Q s.
Proof. done. Qed.

Lemma wp_assign f Q s : Q tt (set_vars (f (avars s)) s) -> wp (assign f) Q s.
Proof. done. Qed.

(** A message changes nothing but the history of the bus. *)
Definition same_driver (d d' : drv) : Prop := ready d' /\ view_of d' = view_of d /\ ddev d' = ddev d.

Lemma wp_print lvl fmt args Q s :
  ready (adrv s) -> (forall d, same_driver (adrv s) d -> Q tt (set_drv d s)) -> wp (print lvl fmt args) Q s.
Proof.
  intros R HQ. apply wp_on_drv, wp_quiet_Log. intros d Hd. apply HQ. by apply quiet_id in Hd.
Qed.

(** ** Transmission *)

Definition put_bytes (offset : Z) (bs : list Z) (d : drv) : drv :=
  {| dbus := dbus d;
     ddev := set_packets (rxPkt (ddev d))
       {| txPktLen := txPktLen (txPkt (ddev d));
          tx_data := splice (Z.to_nat offset) bs (tx_data (txPkt (ddev d))) |} (ddev d) |}.

Lemma put_tx_run offset bs d :
  put_tx offset bs d = if offset + Z.of_nat (length bs) <=? Z.of_nat (length (tx_data (txPkt (ddev d))))
    then Ret tt (put_bytes offset bs d) else Stop OutOfBounds d.
Proof. unfold put_tx. erewrite bind_Ret by reflexivity. by case_match. Qed.

Lemma put_bytes_app o a b d : 0 <= o ->
  o + Z.of_nat (length (a ++ b)) <= Z.of_nat (length (tx_data (txPkt (ddev d)))) ->
  put_bytes (o + Z.of_nat (length a)) b (put_bytes o a d) = put_bytes o (a ++ b) d.
Proof.
  intros Ho Hl. unfold put_bytes. cbn [dbus ddev rxPkt txPkt set_packets txPktLen tx_data].
  rewrite Z2Nat.inj_add, Nat2Z.id, splice_app by lia. done.
Qed.

Lemma put_bytes_nil o d : put_bytes o [] d = d.
Proof. destruct d as [b []]. unfold put_bytes, set_packets. simpl. rewrite splice_nil. by destruct txPkt. Qed.

Lemma put_bytes_length o bs d : 0 <= o ->
  o + Z.of_nat (length bs) <= Z.of_nat (length (tx_data (txPkt (ddev d)))) ->
  length (tx_data (txPkt (ddev (put_bytes o bs d)))) = length (tx_data (txPkt (ddev d))).
Proof. intros Ho Hl. apply splice_length. lia. Qed.

(** Gathering a chain into the transmit buffer, until it overflows. *)
Lemma translate_loop c : forall p fuel offset s,
  chain (amem s) p c -> (length c < fuel)%nat -> 0 <= offset ->
  offset <= Z.of_nat (length (tx_data (txPkt (ddev (adrv s))))) < 65536 ->
  if offset + total c <=? Z.of_nat (length (tx_data (txPkt (ddev (adrv s)))))
  then iter fuel translate_body (p, offset) s =
         Ret (offset + total c) (set_drv (put_bytes offset (contents c) (adrv s)) s)
  else stops OutOfBounds (iter fuel translate_body (p, offset)) s.
Proof.
  induction c as [|nd c IH]; intros p fuel offset s Hc Hf Ho Hb; (destruct fuel as [|fuel]; [simpl in Hf; lia|]).
  - simpl in Hc. subst p. change (total []) with 0. rewrite Z.add_0_r, (proj2 (Z.leb_le _ _)) by lia.
    change (contents []) with (@nil Z). rewrite put_bytes_nil. by destruct s.
  - destruct Hc as (-> & Hl & Hh & Hc). pose proof Hh as [L _]. rewrite total_cons.
    pose proof (total_nonneg c). simpl in Hf. set (T := Z.of_nat (length (tx_data _))) in *.
    assert (W1 : wp (b ← on_mem (getp (n_loc nd)); bs ← on_mem (read_at (payload b) 0 (len b)); mret (b, bs))
      (fun r s' => r = (n_buf nd, n_data nd) /\ s' = s) s).
    { apply wp_bind, wp_on_mem, (wp_getp _ (n_buf nd)); [done|]. apply wp_bind, wp_on_mem.
      apply (wp_read_at _ (n_data nd)); [done|lia|lia|lia|]. apply wp_ret. rewrite drop_0, take_ge by lia.
      by destruct s. }
    assert (Hbody : translate_body (Some (n_loc nd), offset) s =
      (on_drv (put_tx offset (n_data nd));; mret (inl (next (n_buf nd), u16 (offset + len (n_buf nd))))) s).
    { revert W1. unfold wp, translate_body, mbind, M_bind.
      destruct (on_mem (getp (n_loc nd)) s) as [b s1|]; [|done].
      destruct (on_mem (read_at (payload b) 0 (len b)) s1) as [bs s2|]; [|done]. by intros [[= -> ->] ->]. }
    cbn [iter]. destruct (Z.leb_spec (offset + len (n_buf nd)) T) as [Hfit|Hover].
    + assert (Hstep : translate_body (Some (n_loc nd), offset) s =
        Ret (inl (next (n_buf nd), offset + len (n_buf nd))) (set_drv (put_bytes offset (n_data nd) (adrv s)) s)).
      { rewrite Hbody. unfold on_drv, zoom, mbind, M_bind. rewrite put_tx_run.
        rewrite (proj2 (Z.leb_le _ _)) by (fold T; lia). by rewrite u16_small by lia. }
      set (s1 := set_drv _ s) in *.
      assert (HT : Z.of_nat (length (tx_data (txPkt (ddev (adrv s1))))) = T).
      { unfold s1. simpl adrv. rewrite put_bytes_length by lia. done. }
      pose proof (IH (next (n_buf nd)) fuel (offset + len (n_buf nd)) s1 Hc) as IH'. rewrite HT in IH'.
      specialize (IH' ltac:(lia) ltac:(lia) ltac:(lia)).
      replace (offset + (Z.of_nat (length (n_data nd)) + total c)) with (offset + len (n_buf nd) + total c) by lia.
      destruct (Z.leb_spec (offset + len (n_buf nd) + total c) T).
      * erewrite bind_Ret by exact Hstep. cbv beta iota. rewrite IH'. f_equal. unfold s1. simpl.
        rewrite <- L, put_bytes_app; [done|done|]. rewrite length_app. fold T. unfold total in *. lia.
      * apply stops_bind_r. eapply wp_of_run; [exact Hstep|done].
    + rewrite (proj2 (Z.leb_gt _ _)) by lia. apply stops_bind_l. exists (set_drv (adrv s) s).
      rewrite Hbody. apply bind_Stop. unfold on_drv, zoom. rewrite put_tx_run.
      by rewrite (proj2 (Z.leb_gt _ _)) by (fold T; lia).
Qed.

Record tx_ready (d : drv) : Prop := {
  tr_ready : ready d;
  tr_coherent : coherent0 (view_of d);
  tr_data : length (tx_data (txPkt (ddev d))) = PKT_DATA
}.

Lemma tx_ready_same d d' : same_driver d d' -> tx_ready d -> tx_ready d'.
Proof. intros (R & V & D) [_ Hc Hl]. split; [done|by rewrite V|by rewrite D]. Qed.

Lemma tx_ready_put d bs : tx_ready d -> Z.of_nat (length bs) <= 1500 ->
  tx_ready (put_bytes 0 bs d) /\ v_work (view_of (put_bytes 0 bs d)) = v_work (view_of d).
Proof.
  intros [[C R] Hc Hl] Hb. split; [|done]. split.
  - split; [by apply configured_set_packets|done].
  - done.
  - rewrite put_bytes_length; [done|lia|]. rewrite Hl. unfold PKT_DATA. lia.
Qed.

(** Up to the gathering loop. *)
Lemma packet_first m p c : packet m (Some p) c -> exists nd c', c = nd :: c' /\ p = n_loc nd /\
  pbufs m !! p = Some (n_buf nd) /\ tot_len (n_buf nd) = total c.
Proof.
  intros [Hc Ht _ _ _]. destruct c as [|nd c']; [done|]. destruct Hc as (E & Hl & _ & _). injection E as ->.
  destruct Ht as [Et _]. by exists nd, c'.
Qed.

(** A packet that fits, while no transmission is recorded. *)
Lemma wp_translate s p c (Q : Z -> app -> Prop) :
  tx_ready (adrv s) -> packet (amem s) (Some p) c -> total c <= 1500 -> bTxBusy (avars s) = false ->
  (forall s', ready (adrv s') ->
     v_work (view_of (adrv s')) = reverse (tx_program (contents c) (0x1800 + total c)) ++ v_work (view_of (adrv s)) ->
     amem s' = amem s -> avars s' = set_bTxBusy true (avars s) -> Q ERR_OK s') ->
  wp (enc28j60_translate (Some p)) Q s.
Proof.
  intros T Hp Hlen Hbusy HQ. destruct (packet_first _ _ _ Hp) as (nd & c' & Ec & -> & Hl & Et).
  unfold enc28j60_translate. apply wp_bind, wp_var. rewrite Hbusy. cbn [negb].
  apply wp_bind, wp_print; [apply T|]. intros d Hd. apply wp_bind, wp_ret.
  apply wp_bind, wp_on_mem, (wp_getp _ (n_buf nd)); [done|].
  apply wp_bind, wp_on_mem, wp_chain_fuel, wp_bind.
  pose proof (tx_ready_same _ _ Hd T) as T1. destruct Hd as (R1 & V1 & D1).
  set (s1 := set_mem _ _). change (amem s) with (amem s1) in Hp.
  pose proof (tr_data _ T1) as Hdata. unfold PKT_DATA in Hdata.
  pose proof (translate_loop c (Some (n_loc nd)) (S (size (pbufs (amem s)))) 0 s1 (pk_chain _ _ _ Hp)) as Hloop.
  pose proof (chain_size _ _ _ (pk_chain _ _ _ Hp) (pk_locs _ _ _ Hp)) as Hsize.
  change (adrv s1) with d in Hloop. rewrite Hdata in Hloop.
  rewrite (proj2 (Z.leb_le _ _)) in Hloop by lia.
  eapply wp_of_run; [apply Hloop; [change (amem s1) with (amem s) in Hsize; lia|lia|lia]|].
  rewrite Et, Z.add_0_l, Z.eqb_refl. cbn [negb].
  destruct (tx_ready_put d (contents c) T1) as [[R2 C2 L2] W2]; [unfold total in Hlen; lia|].
  apply wp_bind, wp_gets, wp_bind, wp_on_drv. pose proof (total_nonneg c).
  eapply wp_mono; [apply etherTransmit_wp; [exact R2|exact C2|]|].
  { change (adrv (set_drv ?x s1)) with x. rewrite L2. unfold PKT_DATA. lia. }
  intros ok d2 (-> & R3 & V2). apply wp_bind, wp_assign, wp_ret, HQ; [exact R3| |done|done].
  change (adrv (set_vars _ _)) with d2. rewrite V2. cbn [v_work]. change (adrv (set_drv ?x s1)) with x.
  rewrite W2, V1, u16_small by lia. do 3 f_equal. unfold put_bytes. cbn [ddev txPkt set_packets tx_data].
  change (Z.to_nat 0) with 0%nat. unfold total. rewrite Nat2Z.id. apply take_splice.
Qed.

(** C1.  Transmission, end to end.  For a packet of at most 1500 bytes and an
    idle transmitter, [enc28j60_translate] returns ERR_OK; the instructions it
    gives the chip leave it sending exactly the bytes of the packet, gathered
    from however many pbufs; the packet memory is untouched and the
    transmitter is recorded busy. *)
Theorem translate_sends s p c m :
  tx_ready (adrv s) -> packet (amem s) (Some p) c -> total c <= 1500 -> bTxBusy (avars s) = false ->
  AUTOINC m = true ->
  exists s' prog m',
    enc28j60_translate (Some p) s = Ret ERR_OK s' /\
    v_work (view_of (adrv s')) = reverse prog ++ v_work (view_of (adrv s)) /\
    exec_all prog m = Some m' /\ frame_to_send m' = Some <$> contents c /\
    Z.testbit (reg_val m' reg_ECON1) 3 = true /\
    amem s' = amem s /\ avars s' = set_bTxBusy true (avars s).
Proof.
  intros T Hp Hlen Hbusy Hai.
  assert (W : wp (enc28j60_translate (Some p)) (fun r s' => r = ERR_OK /\
    v_work (view_of (adrv s')) = reverse (tx_program (contents c) (0x1800 + total c)) ++ v_work (view_of (adrv s)) /\
    amem s' = amem s /\ avars s' = set_bTxBusy true (avars s)) s) by (by apply (wp_translate s p c)).
  destruct (wp_elim _ _ _ W) as (r & s' & E & -> & V & M' & A).
  destruct (tx_program_frame (contents c) m Hai) as (m' & X1 & X2 & _ & X3 & _); [unfold total in Hlen; lia|].
  by exists s', (tx_program (contents c) (0x1800 + total c)), m'.
Qed.

(** C39.  A packet that does not fit.  The transmit buffer has 1500 bytes and
    [enc28j60_translate] has no check: a packet of more than 1500 bytes, such
    as an Ethernet frame with a full 1500-byte payload, is copied past the end
    of the driver object. *)
Theorem translate_overflows s p c :
  tx_ready (adrv s) -> packet (amem s) (Some p) c -> 1500 < total c -> bTxBusy (avars s) = false ->
  exists s', enc28j60_translate (Some p) s = Stop OutOfBounds s'.
Proof.
  intros T Hp Hlen Hbusy. destruct (packet_first _ _ _ Hp) as (nd & c' & Ec & -> & Hl & Et).
  unfold enc28j60_translate. apply stops_bind_r, wp_var. rewrite Hbusy. cbn [negb].
  apply stops_bind_r, wp_print; [apply T|]. intros d Hd. apply stops_bind_r, wp_ret.
  apply stops_bind_r, wp_on_mem, (wp_getp _ (n_buf nd)); [done|].
  apply stops_bind_r, wp_on_mem, wp_chain_fuel, stops_bind_l.
  pose proof (tr_data _ (tx_ready_same _ _ Hd T)) as Hdata. unfold PKT_DATA in Hdata.
  set (s1 := set_mem _ _). change (amem s) with (amem s1) in Hp.
  pose proof (chain_size _ _ _ (pk_chain _ _ _ Hp) (pk_locs _ _ _ Hp)) as Hsize.
  change (amem s1) with (amem s) in Hsize.
  pose proof (translate_loop c (Some (n_loc nd)) (S (size (pbufs (amem s)))) 0 s1 (pk_chain _ _ _ Hp)) as Hloop.
  change (adrv s1) with d in Hloop. rewrite Hdata, (proj2 (Z.leb_gt _ _)) in Hloop by lia.
  apply Hloop; lia.
Qed.

(** Refusals.  While a transmission is recorded, [enc28j60_translate]
    returns ERR_INPROGRESS; for a chain whose [tot_len] is not the number of
    its bytes it returns ERR_BUF.  In both cases the chip gets no instruction,
    and neither the packet memory nor the variables change. *)
Theorem translate_refuses s nd c :
  tx_ready (adrv s) -> chain (amem s) (Some (n_loc nd)) (nd :: c) -> NoDup (map n_loc (nd :: c)) ->
  total (nd :: c) <= 1500 ->
  bTxBusy (avars s) = true \/ tot_len (n_buf nd) <> total (nd :: c) ->
  exists s', enc28j60_translate (Some (n_loc nd)) s =
      Ret (if bTxBusy (avars s) then ERR_INPROGRESS else ERR_BUF) s' /\
    v_work (view_of (adrv s')) = v_work (view_of (adrv s)) /\ amem s' = amem s /\ avars s' = avars s.
Proof.
  intros T Hc Hn Hlen Hcase. pose proof Hc as (_ & Hl & _ & _).
  assert (W : wp (enc28j60_translate (Some (n_loc nd))) (fun r s' =>
    r = (if bTxBusy (avars s) then ERR_INPROGRESS else ERR_BUF) /\
    v_work (view_of (adrv s')) = v_work (view_of (adrv s)) /\ amem s' = amem s /\ avars s' = avars s) s).
  { unfold enc28j60_translate. apply wp_bind, wp_var. destruct (bTxBusy (avars s)); cbn [negb].
    { apply wp_bind, wp_print; [apply T|]. intros d (_ & V & _). apply wp_ret. split_and!; [done| |done|done].
      change (v_work (view_of d) = v_work (view_of (adrv s))). by rewrite V. }
    destruct Hcase as [?|Hne]; [done|].
    apply wp_bind, wp_print; [apply T|]. intros d Hd. apply wp_bind, wp_ret.
    apply wp_bind, wp_on_mem, (wp_getp _ (n_buf nd)); [done|].
    apply wp_bind, wp_on_mem, wp_chain_fuel, wp_bind.
    pose proof (tx_ready_same _ _ Hd T) as T1. destruct Hd as (R1 & V1 & D1).
    pose proof (tr_data _ T1) as Hdata. unfold PKT_DATA in Hdata. set (s1 := set_mem _ _).
    pose proof (chain_size _ _ _ Hc Hn) as Hsize.
    pose proof (translate_loop (nd :: c) (Some (n_loc nd)) (S (size (pbufs (amem s)))) 0 s1 Hc) as Hloop.
    change (adrv s1) with d in Hloop. rewrite Hdata, (proj2 (Z.leb_le _ _)) in Hloop by lia.
    eapply wp_of_run; [apply Hloop; lia|].
    rewrite Z.add_0_l, (proj2 (Z.eqb_neq _ _)) by done. apply wp_ret. split_and!; [done| |done|done].
    change (v_work (view_of d) = v_work (view_of (adrv s))). by rewrite V1. }
  destruct (wp_elim _ _ _ W) as (r & s' & E & -> & Hr). by exists s'.
Qed.

(** ** Reception *)

Record rx_ready (d : drv) : Prop := {
  rr_ready : ready d;
  rr_coherent : coherent0 (view_of d);
  rr_buffers : buffers_ok (rxPkt (ddev d)) (txPkt (ddev d))
}.

Lemma etherReceive_after d ok d' : ready d -> coherent0 (view_of d) -> enc28j60_etherReceive d = Ret ok d' ->
  ready d' /\ coherent0 (view_of d').
Proof.
  intros R Hc E. pose proof (etherReceive_wp d R Hc) as W. unfold wp in W. rewrite E in W.
  by destruct W as (R' & Hc' & _).
Qed.

Lemma wp_clear_PKTIF (Q : unit -> drv -> Prop) d :
  ready d -> coherent0 (view_of d) ->
  (forall d', ready d' -> view_of d' = v_zero (BFS reg_ECON2 (bit 6)) (view_of d) -> Q tt d') ->
  wp (enc28j60_clear_interrupt PKTIF) Q d.
Proof.
  intros R Hc HQ. unfold enc28j60_clear_interrupt. apply wp_bind, wp_gets.
  rewrite (cf_bank0 _ (rd_conf _ R)). by apply wp_set0.
Qed.

(** The frame in a new packet. *)
Lemma wp_translation p c body (Q : unit -> app -> Prop) s :
  packet (amem s) (Some p) c -> total c = Z.of_nat (length body) ->
  rxPktLen (rxPkt (ddev (adrv s))) = Z.of_nat (length body) ->
  take (length body) (rx_region (ddev (adrv s))) = body ->
  (forall m' c', packet m' (Some p) c' -> contents c' = body -> Q tt (set_mem m' s)) ->
  wp (ethernet_do_translation_to_pbub p) Q s.
Proof.
  intros Hp Ht Hl Hr HQ. destruct (packet_first _ _ _ Hp) as (nd & c' & Ec & -> & Hln & Et).
  unfold ethernet_do_translation_to_pbub. apply wp_bind, wp_gets, wp_bind, wp_on_mem, (wp_getp _ (n_buf nd)); [done|].
  rewrite Hl, Et, Ht, Z.ltb_irrefl.
  assert (Hlen : (length body <= length (rx_region (ddev (adrv s))))%nat).
  { rewrite <- Hr at 1. rewrite length_take. lia. }
  destruct (pbuf_take_run (amem s) (n_loc nd) c (rx_region (ddev (adrv s))) (Z.of_nat (length body)) Hp)
    as (m' & c1 & E & _ & Hp' & _ & Hc); [lia|lia|].
  apply wp_bind, wp_on_mem. eapply wp_of_run; [exact E|]. apply wp_ret. apply (HQ m' c1 Hp').
  rewrite Hc, Nat2Z.id, Hr, drop_ge, app_nil_r; [done|]. unfold total in Ht. lia.
Qed.

(** What the handler does with a filled packet. *)
Definition hand_over (p : loc) : M app unit :=
  r ← ask (R_netif_input p);
  when (negb (r =? ERR_OK)) (on_mem (pbuf_free (Some p));; mret tt).

(** Either the stack is handed a packet with exactly [body], or the pool is
    exhausted and nothing was taken from it. *)
Inductive delivery (m : mem) (got body : list Z) : outcome app unit -> Prop :=
| Delivered p c s1 : packet (amem s1) (Some p) c -> contents c = body ->
    In (RBM (got ++ body)) (v_work (view_of (adrv s1))) -> delivery m got body (hand_over p s1)
| Dropped s1 : alloc_failed m (amem s1) ->
    In (RBM (got ++ body)) (v_work (view_of (adrv s1))) -> delivery m got body (Ret tt s1).

Lemma deliver_frame body got s :
  pool_ready (amem s) -> ready (adrv s) ->
  rxPktLen (rxPkt (ddev (adrv s))) = Z.of_nat (length body) -> Z.of_nat (length body) < 65536 ->
  take (length body) (rx_region (ddev (adrv s))) = body ->
  In (RBM (got ++ body)) (v_work (view_of (adrv s))) ->
  delivery (amem s) got body ((n ← var u32PacketCounter;
     print DEBUG_INFO "PKT number %d\r\n" [n];;
     assign (fun v => set_u32PacketCounter (u32 (u32PacketCounter v + 1)) v);;
     n ← gets (fun s => rxPktLen (rxPkt (ddev (adrv s))));
     print DEBUG_INFO "PKT length %d\r\n" [n];;
     u18length ← gets (fun s => rxPktLen (rxPkt (ddev (adrv s))));
     ethBuffer ← on_mem (pbuf_alloc PBUF_RAW u18length PBUF_POOL);
     match ethBuffer with
     | None => mret tt
     | Some p => ethernet_do_translation_to_pbub p;; hand_over p
     end) s).
Proof.
  intros P R Hl Hb Hr Hin. apply wp_through, wp_var.
  apply wp_through, wp_print; [done|]. intros d1 (R1 & V1 & D1). apply wp_through, wp_assign.
  apply wp_through, wp_gets. apply wp_through, wp_print; [exact R1|]. intros d2 (R2 & V2 & D2).
  apply wp_through, wp_gets. set (s2 := set_drv d2 _).
  change (adrv (set_vars _ _)) with d1 in V2, D2.
  assert (E2 : ddev (adrv s2) = ddev (adrv s)) by (change (adrv s2) with d2; by rewrite D2, D1).
  assert (I2 : In (RBM (got ++ body)) (v_work (view_of (adrv s2)))) by (change (adrv s2) with d2; by rewrite V2, V1).
  rewrite E2, Hl. apply wp_through, wp_on_mem, wp_pbuf_alloc; [done|lia| |].
  - intros p c m' [Hp Ht _ _ _ _ _ _ _]. apply wp_through, (wp_translation p c body); [done|done|..].
    + change (adrv (set_mem m' s2)) with (adrv s2). by rewrite E2.
    + change (adrv (set_mem m' s2)) with (adrv s2). by rewrite E2.
    + intros m'' c' Hp' Hc'. by eapply (Delivered _ _ _ p c').
  - intros m' Hf. by apply Dropped.
Qed.

End AppFacts.

(** ** The ENC28J60 as the link layer's driver: [netif->linkoutput] is
    [enc28j60_translate], and ARP on top of it reaches the wire. *)

Section Enc28j60.
Context `{SS : SpiSlave} `{CF : CustomFree} `{ST : !Stack}.

(** main.c's function, on the packet memory and the rest of its state. *)
#[export] Instance enc28j60_link : LinkOutput := {|
  Ethernet.lstate := app;
  Ethernet.linkoutput _ p x :=
    match enc28j60_translate (Some p) (set_mem x.1 x.2) with
    | Ret r s => Ret r (amem s, s)
    | Stop w s => Stop w (amem s, s)
    end
|}.

(** The driver between frames: ready, and with its buffer in place when no
    transmission is recorded. *)
Definition enc_ready (s : app) : Prop := ready (adrv s) /\ (bTxBusy (avars s) = false -> tx_ready (adrv s)).

(** What [bytes] given to the driver does: refused while a transmission is
    recorded, else the chip is told to send exactly these bytes. *)
Definition enc_output (n : nat) (frame_bytes : list Z) (s : app) (r : Z) (s' : app) : Prop :=
  if bTxBusy (avars s) then r = ERR_INPROGRESS /\ v_work (view_of (adrv s')) = v_work (view_of (adrv s))
  else r = ERR_OK /\ bTxBusy (avars s') = true /\ forall m, AUTOINC m = true -> exists prog m',
    v_work (view_of (adrv s')) = reverse prog ++ v_work (view_of (adrv s)) /\
    exec_all prog m = Some m' /\ frame_to_send m' = Some <$> frame_bytes /\ Z.testbit (reg_val m' reg_ECON1) 3 = true.

#[export] Program Instance enc28j60_laws : LinkLaws := {|
  link_ok := enc_ready;
  output_rel := enc_output
|}.
Next Obligation.
  intros n p c m s [R T] Hp Hlen. unfold Ethernet.linkoutput, enc28j60_link.
  assert (W : wp (enc28j60_translate (Some p)) (fun r s' => amem s' = m /\ enc_ready s' /\ enc_output n (contents c) (set_mem m s) r s') (set_mem m s)).
  { unfold enc_output. destruct (bTxBusy (avars (set_mem m s))) eqn:Hb.
    - unfold enc28j60_translate. apply wp_bind, wp_var. rewrite Hb. cbn [negb].
      apply wp_bind, wp_print; [exact R|]. intros d (Rd & Vd & _). apply wp_ret. split_and!; [done| |done|].
      + split; [done|]. intros Hf. simpl in Hb, Hf. congruence.
      + change (v_work (view_of d) = v_work (view_of (adrv s))). by rewrite Vd.
    - apply (wp_translate _ _ c); [by apply T|exact Hp|done|done|]. intros s' R' V' M' A'. split_and!; [done| |done| |].
      + split; [done|]. by rewrite A'.
      + by rewrite A'.
      + intros mch Hai. destruct (tx_program_frame (contents c) mch Hai) as (m' & X1 & X2 & _ & X3 & _); [unfold total in Hlen; lia|].
        by exists (tx_program (contents c) (0x1800 + total c)), m'. }
  unfold wp in *. simpl. destruct (enc28j60_translate (Some p) (set_mem m s)) as [r s'|w s']; [|done].
  destruct W as (-> & Hok & Hout). done.
Qed.

Context `{HL : !HeapLaws}.

(** From address resolution to the wire. With the transmitter idle,
    [etharp_request] either finds no memory, and the chip is told nothing, or
    returns ERR_OK and the chip has been told to send exactly the 42 bytes of
    the broadcast request of RFC 826; in both cases the packet memory is what it
    was. *)
Theorem arp_request_on_wire s n ip σ m : heap_ready (emem s) σ -> enc_ready (elink s) -> bTxBusy (avars (elink s)) = false ->
  length (if_hwaddr (netifs s n)) = 6%nat -> AUTOINC m = true ->
  exists r s', etharp_request n ip s = Ret r s' /\ same_but_heap (emem s) (emem s') /\ heap_ready (emem s') σ /\
    arp_table s' = arp_table s /\
    ((r = ERR_MEM /\ elink s' = elink s) \/
     (r = ERR_OK /\ exists prog m', v_work (view_of (adrv (elink s'))) = reverse prog ++ v_work (view_of (adrv (elink s))) /\
        exec_all prog m = Some m' /\
        frame_to_send m' = Some <$> frame ethbroadcast (if_hwaddr (netifs s n)) ETHTYPE_ARP
          (arp_packet ARP_REQUEST (if_hwaddr (netifs s n)) (if_ip_addr (netifs s n)) ethzero ip) /\
        Z.testbit (reg_val m' reg_ECON1) 3 = true)).
Proof.
  intros Hr Hk Hb Hl Hai. apply wp_elim. unfold etharp_request, etharp_request_dst. apply wp_bind, wp_gets.
  apply (wp_etharp_raw _ _ _ _ _ _ _ _ σ); [done|done|done|done|done|done|done| |].
  - intros h' Hown. split_and!; [done|by split; [|apply Hr]|done|by left].
  - intros r m' l' Hs Hh Hk' Hrel. split_and!; [done|done|done|]. right. split; [done|].
    unfold output_rel, enc28j60_laws, enc_output in Hrel. rewrite Hb in Hrel. destruct Hrel as (_ & _ & Hsend). by apply Hsend.
Qed.
End Enc28j60.
