(* ===== verification/Service.v ===== *)
(** The application: the service of the controller's interrupt, the network
    interface's address, and the race on the interrupt counter. *)
From stdpp Require Import functions relations.
From S2P Require Import Prelude Bus Regs Driver Chip DriverFacts Transfer Receive Banks Startup.
From S2P Require Import Memp Pbuf PbufFacts PbufUpdate PbufAlloc App AppFacts.

(** A member of an explicit list. *)
Ltac in_list := solve [repeat (first [by left|right])].

(** ** The dispatcher *)

(** What the chip is told for one flag, newest first: interrupts off, the flag
    cleared, interrupts on. *)
Definition flag_program (cnt : Z) : list instr :=
  if decide (cnt ∈ [0; 1; 3; 5]) then [BFC reg_EIR (bit cnt)] else [].

Definition flag_log (v cnt : Z) : list instr :=
  if has v (bit cnt) then [BFS reg_EIE (bit 7)] ++ flag_program cnt ++ [BFC reg_EIE (bit 7)] else [].

(** The flags in the order of the loop, the last one first. *)
Fixpoint flags_log (v : Z) (l : list Z) : list instr :=
  match l with [] => [] | cnt :: l => flags_log v l ++ flag_log v cnt end.

(** [bTxBusy] after a flag: the transmit interrupt clears it. *)
Definition busy_after (v cnt : Z) (b : bool) : bool := if has v (bit cnt) && (cnt =? 3) then false else b.

Section Service.
Context `{SpiSlave} `{CustomFree} `{!Stack}.

(** From [s] to [s'] the chip was told [log]; the memory and the stack are as
    they were, and of the variables only [bTxBusy] may have changed. *)
Record told (log : list instr) (busy : bool) (s s' : app) : Prop := {
  to_ready : ready (adrv s');
  to_coherent : coherent0 (view_of (adrv s'));
  to_work : v_work (view_of (adrv s')) = log ++ v_work (view_of (adrv s));
  to_mem : amem s' = amem s;
  to_w : aw s' = aw s;
  to_vars : avars s' = set_bTxBusy busy (avars s);
  to_trace : trace s' = trace s
}.

Lemma set_bTxBusy_same v : set_bTxBusy (bTxBusy v) v = v.
Proof. by destruct v. Qed.

Lemma set_bTxBusy_twice b b' v : set_bTxBusy b (set_bTxBusy b' v) = set_bTxBusy b v.
Proof. by destruct v. Qed.

Lemma told_refl s : ready (adrv s) -> coherent0 (view_of (adrv s)) -> told [] (bTxBusy (avars s)) s s.
Proof. intros R Hc. split; try done. by rewrite set_bTxBusy_same. Qed.

Lemma told_trans l1 l2 b1 b2 s1 s2 s3 : told l1 b1 s1 s2 -> told l2 b2 s2 s3 -> told (l2 ++ l1) b2 s1 s3.
Proof.
  intros [R1 C1 W1 M1 X1 V1 T1] [R2 C2 W2 M2 X2 V2 T2]. split; [done|done| |congruence|congruence| |congruence].
  - by rewrite W2, W1, app_assoc.
  - by rewrite V2, V1, set_bTxBusy_twice.
Qed.

Lemma told_one i s d : ready d -> view_of d = v_zero i (view_of (adrv s)) ->
  told [i] (bTxBusy (avars s)) s (set_drv d s).
Proof.
  intros R V. split; try done.
  - change (adrv (set_drv d s)) with d. by rewrite V.
  - change (adrv (set_drv d s)) with d. by rewrite V.
  - change (avars (set_drv d s)) with (avars s). by rewrite set_bTxBusy_same.
Qed.

Lemma told_print s d : coherent0 (view_of (adrv s)) -> same_driver (adrv s) d ->
  told [] (bTxBusy (avars s)) s (set_drv d s).
Proof.
  intros Hc (R & V & _). split; try done.
  - change (adrv (set_drv d s)) with d. by rewrite V.
  - change (adrv (set_drv d s)) with d. by rewrite V.
  - change (avars (set_drv d s)) with (avars s). by rewrite set_bTxBusy_same.
Qed.

Lemma wp_told_set reg v Q s :
  ready (adrv s) -> coherent0 (view_of (adrv s)) -> convertRegValToBank reg = bank_0 ->
  plain (BFS (reg_at 0 (reg mod 32)) v) ->
  (forall s', told [BFS (reg_at 0 (reg mod 32)) v] (bTxBusy (avars s)) s s' -> Q tt s') ->
  wp (on_drv (enc28j60_BitFieldSet reg v)) Q s.
Proof. intros R Hc Hb Hp HQ. apply wp_on_drv, wp_set0; [done..|]. intros d Rd Vd. by apply HQ, told_one. Qed.

Lemma wp_told_clear reg v Q s :
  ready (adrv s) -> coherent0 (view_of (adrv s)) -> convertRegValToBank reg = bank_0 ->
  plain (BFC (reg_at 0 (reg mod 32)) v) ->
  (forall s', told [BFC (reg_at 0 (reg mod 32)) v] (bTxBusy (avars s)) s s' -> Q tt s') ->
  wp (on_drv (enc28j60_BitFieldClear reg v)) Q s.
Proof. intros R Hc Hb Hp HQ. apply wp_on_drv, wp_clear0; [done..|]. intros d Rd Vd. by apply HQ, told_one. Qed.

Lemma wp_told_print lvl fmt args Q s :
  ready (adrv s) -> coherent0 (view_of (adrv s)) ->
  (forall s', told [] (bTxBusy (avars s)) s s' -> Q tt s') -> wp (print lvl fmt args) Q s.
Proof. intros R Hc HQ. apply wp_print; [done|]. intros d Hd. by apply HQ, told_print. Qed.

Lemma wp_told_flag f k Q s :
  ready (adrv s) -> coherent0 (view_of (adrv s)) -> k ∈ [0; 1; 3; 5] -> eth_int_value f = bit k ->
  (forall s', told [BFC reg_EIR (bit k)] (bTxBusy (avars s)) s s' -> Q tt s') ->
  wp (on_drv (enc28j60_clear_interrupt f)) Q s.
Proof.
  intros R Hc Hk Hf HQ. apply wp_on_drv. unfold enc28j60_clear_interrupt. apply wp_bind, wp_gets.
  rewrite Hf, (cf_bank0 _ (rd_conf _ R)).
  assert (Hp : f <> PKTIF) by (intros ->; revert Hf; simpl; by repeat (apply elem_of_cons in Hk as [->|Hk]);
    [..|by apply elem_of_nil in Hk]).
  rewrite (decide_False _ _ Hp).
  assert (Hv : u8 (bit k) = bit k /\ (bit k <=? 64) = true) by
    (by repeat (apply elem_of_cons in Hk as [->|Hk]); [..|by apply elem_of_nil in Hk]).
  destruct Hv as [-> ->]. cbn [when].
  apply wp_clear0; [done|done|done|split; reflexivity|]. intros d Rd Vd. apply HQ. by apply told_one.
Qed.

Lemma busy_told log b s s' : told log b s s' -> bTxBusy (avars s') = b.
Proof. intros T. by rewrite (to_vars _ _ _ _ T). Qed.

Lemma wp_serve_flag fuel cnt Q s :
  ready (adrv s) -> coherent0 (view_of (adrv s)) -> cnt ∈ [0; 1; 2; 3; 5; 7] ->
  (forall s', told (flag_program cnt) (if cnt =? 3 then false else bTxBusy (avars s)) s s' -> Q tt s') ->
  wp (serve_flag fuel cnt) Q s.
Proof.
  intros R Hc Hcnt HQ.
  assert (Hclear : forall f k lvl msg (Q' : unit -> app -> Prop),
    k ∈ [0; 1; 3; 5] -> eth_int_value f = bit k ->
    (forall s', told [BFC reg_EIR (bit k)] (bTxBusy (avars s)) s s' -> Q' tt s') ->
    wp (print lvl msg [];; on_drv (enc28j60_clear_interrupt f)) Q' s).
  { intros f k lvl msg Q' Hk Hf HQ'. apply wp_bind, wp_told_print; [done..|]. intros s1 T1.
    apply (wp_told_flag f k); [apply (to_ready _ _ _ _ T1)|apply (to_coherent _ _ _ _ T1)|done|done|].
    intros s2 T2. rewrite (busy_told _ _ _ _ T1) in T2. apply HQ'. apply (told_trans _ _ _ _ _ _ _ T1 T2). }
  repeat (apply elem_of_cons in Hcnt as [->|Hcnt]); [..|by apply elem_of_nil in Hcnt]; unfold serve_flag; cbn [Z.eqb] in HQ.
  - apply (Hclear RXERIF 0); [in_list|done|done].
  - apply (Hclear TXERIF 1); [in_list|done|done].
  - by apply wp_told_print.
  - assert (W : wp (print DEBUG_INFO "4) Transmit Interrupt Flag bit\r\n" [];; on_drv (enc28j60_clear_interrupt TXIF))
      (fun _ s' => told [BFC reg_EIR (bit 3)] (bTxBusy (avars s)) s s') s).
    { apply (Hclear TXIF 3); [in_list|done|done]. }
    assert (W' : wp ((print DEBUG_INFO "4) Transmit Interrupt Flag bit\r\n" [];; on_drv (enc28j60_clear_interrupt TXIF));;
      assign (set_bTxBusy false)) Q s).
    { apply wp_bind. eapply wp_mono; [exact W|]. intros [] s1 T1. apply wp_assign, HQ.
      destruct T1 as [R1 C1 W1 M1 X1 V1 T1]. split; try done. simpl. by rewrite V1, set_bTxBusy_twice. }
    revert W'. unfold wp, mbind, M_bind.
    by destruct (print _ _ _ s) as [? s1|].
  - apply (Hclear DMAIF 5); [in_list|done|done].
  - by apply wp_ret, HQ, told_refl.
Qed.

Lemma wp_service_flag fuel v cnt Q s :
  ready (adrv s) -> coherent0 (view_of (adrv s)) -> cnt ∈ [0; 1; 2; 3; 5; 7] \/ has v (bit cnt) = false ->
  (forall s', told (flag_log v cnt) (busy_after v cnt (bTxBusy (avars s))) s s' -> Q tt s') ->
  wp (service_flag fuel v cnt) Q s.
Proof.
  intros R Hc Hcnt HQ. unfold service_flag, flag_log, busy_after in *.
  destruct (has v (bit cnt)); cbn [when andb] in *; [|by apply wp_ret, HQ, told_refl].
  destruct Hcnt as [Hcnt|?]; [|done].
  apply wp_bind. unfold enc28j60_global_int_Clear.
  assert (E0 : forall s, ready (adrv s) -> (EIE (Bank0.commonRegs (bank0 (ddev (adrv s))))) = EIE (Bank0.commonRegs dev_bank0))
    by (intros s0 R0; by rewrite (cf_bank0 _ (rd_conf _ R0))).
  apply wp_on_drv, wp_bind, wp_gets. rewrite E0 by done.
  apply wp_clear0; [done|done|done|split; reflexivity|]. intros d1 R1 V1.
  pose proof (told_one _ s d1 R1 V1) as T1. set (s1 := set_drv d1 s) in *.
  apply wp_bind, wp_serve_flag; [exact R1|apply (to_coherent _ _ _ _ T1)|done|]. intros s2 T2.
  unfold enc28j60_global_Int_Set. apply wp_on_drv, wp_bind, wp_gets. rewrite E0 by apply (to_ready _ _ _ _ T2).
  apply wp_set0; [apply (to_ready _ _ _ _ T2)|apply (to_coherent _ _ _ _ T2)|done|split; reflexivity|].
  intros d3 R3 V3. apply HQ. pose proof (told_one _ s2 d3 R3 V3) as T3.
  rewrite (busy_told _ _ _ _ T2) in T3. change (bTxBusy (avars s1)) with (bTxBusy (avars s)) in *.
  exact (told_trans _ _ _ _ _ _ _ (told_trans _ _ _ _ _ _ _ T1 T2) T3).
Qed.

Lemma wp_service_flags fuel v l : forall Q s,
  ready (adrv s) -> coherent0 (view_of (adrv s)) ->
  Forall (fun cnt => cnt ∈ [0; 1; 2; 3; 5; 7] \/ has v (bit cnt) = false) l ->
  (forall s', told (flags_log v l) (foldl (fun b cnt => busy_after v cnt b) (bTxBusy (avars s)) l) s s' -> Q tt s') ->
  wp (for_each l (service_flag fuel v)) Q s.
Proof.
  induction l as [|cnt l IH]; intros Q s R Hc Hl HQ; [by apply wp_ret, HQ, told_refl|].
  inversion_clear Hl as [|? ? Hc1 Hl1]. apply wp_bind, wp_service_flag; [done..|]. intros s1 T1.
  apply IH; [apply (to_ready _ _ _ _ T1)|apply (to_coherent _ _ _ _ T1)|done|]. intros s2 T2.
  apply HQ. rewrite (busy_told _ _ _ _ T1) in T2. apply (told_trans _ _ _ _ _ _ _ T1 T2).
Qed.

(** The interrupt service.  With an interrupt counted, the service reads
    EIR once; when neither the link nor the packet flag is set in what it got,
    it returns after telling the chip, flag by flag in bit order, to disable
    interrupts, to clear that flag and to enable interrupts again; the
    transmitter is free exactly when it was or the transmit flag was set, the
    count is one less, and the packet memory and lwIP are untouched. *)
Theorem service_interrupt_program fuel s :
  ready (adrv s) -> coherent0 (view_of (adrv s)) -> 0 < enc28j60intCounter (avars s) < 2 ^ 32 ->
  exists v got, shifted 1 got /\ got_value got v /\
    (has v (bit 4) = false -> has v (bit 6) = false -> exists s',
       service_interrupt fuel s = Ret tt s' /\
       v_work (view_of (adrv s')) = flags_log v (seqZ 0 8) ++ RCR reg_EIR got :: v_work (view_of (adrv s)) /\
       bTxBusy (avars s') = bTxBusy (avars s) && negb (has v (bit 3)) /\
       enc28j60intCounter (avars s') = enc28j60intCounter (avars s) - 1 /\
       amem s' = amem s /\ aw s' = aw s /\ trace s' = trace s).
Proof.
  intros R Hc Hn.
  assert (W : wp (enc28j60_readEtherReg (EIR (Bank0.commonRegs dev_bank0))) (fun v d => exists got,
    shifted 1 got /\ got_value got v /\ ready d /\ view_of d = v_zero (RCR reg_EIR got) (view_of (adrv s))) (adrv s)).
  { apply wp_readEtherReg; [done|]. intros a got d Rd Hg Hs V. exists got. split_and!; [done..|].
    rewrite V. apply (v_access_zero (fun g => RCR g got)); [done..|]. by split. }
  destruct (wp_elim _ _ _ W) as (v & d1 & E1 & got & Hs & Hg & R1 & V1). exists v, got. split_and!; [done..|].
  intros H4 H6.
  set (s0 := set_vars (set_enc28j60intCounter (u32 (enc28j60intCounter (avars s) - 1)) (avars s)) s).
  pose proof (told_one _ s0 d1 R1 V1) as T1.
  assert (W1 : wp (service_interrupt fuel) (fun _ s' =>
    told (flags_log v (seqZ 0 8) ++ [RCR reg_EIR got]) (bTxBusy (avars s) && negb (has v (bit 3))) s0 s') s).
  { unfold service_interrupt. apply wp_bind, wp_var. rewrite (proj2 (Z.ltb_lt _ _)) by lia. cbn [when].
    apply wp_bind, wp_assign. fold s0. apply wp_bind, wp_gets.
    change (adrv s0) with (adrv s) at 1. rewrite (cf_bank0 _ (rd_conf _ R)).
    apply wp_bind, wp_on_drv. eapply wp_of_run; [exact E1|].
    apply wp_bind, wp_told_print; [exact R1|apply (to_coherent _ _ _ _ T1)|]. intros s2 T2.
    pose proof (told_trans _ _ _ _ _ _ _ T1 T2) as T12.
    apply wp_service_flags; [apply (to_ready _ _ _ _ T2)|apply (to_coherent _ _ _ _ T2)| |].
    { repeat (constructor; [first [left; in_list|by right]|]). constructor. }
    intros s3 T3. rewrite (busy_told _ _ _ _ T2) in T3.
    replace (foldl _ _ _) with (bTxBusy (avars s) && negb (has v (bit 3))) in T3.
    - exact (told_trans _ _ _ _ _ _ _ T12 T3).
    - simpl. unfold busy_after. simpl. change (bTxBusy (avars _)) with (bTxBusy (avars s)).
      rewrite !andb_false_r, andb_true_r.
      change (bit (Z.of_nat 3 + 0)) with (bit 3). by destruct (has v (bit 3)), (bTxBusy (avars s)). }
  destruct (wp_elim _ _ _ W1) as ([] & s' & E & [_ _ W2 M2 X2 V2 T2]). exists s'. split_and!; try done.
  - rewrite W2, <- app_assoc. done.
  - by rewrite V2.
  - rewrite V2. simpl. rewrite u32_small; lia.
Qed.
End Service.
