(* ===== verification/Loop.v ===== *)
(** The application: the main loop as a whole, with interrupts between its
    rounds; the address of the interface; the race on the interrupt counter. *)
From stdpp Require Import functions relations.
From stdpp Require Import relations.
From S2P Require Import Prelude Bus Regs Driver Chip DriverFacts Startup Memp Pbuf App.

Section Loop.
Context `{SpiSlave} `{CustomFree} `{!Stack}.

(** ** The station address *)

(** The address lwIP is given is the one the chip filters on: after
    [ethernet_init], the interface's hardware address, byte by byte, is what a
    chip configured by the driver's start-up holds in its address registers,
    in the order of the wire; and the interface sends through
    [enc28j60_translate]. *)
Theorem ethernet_init_address s m :
  configured (ddev (adrv s)) -> configured_chip m ->
  exists s', ethernet_init s = Ret ERR_OK s' /\
    length (hwaddr (my_netif (avars s'))) = Z.to_nat (hwaddr_len (my_netif (avars s'))) /\
    Forall (fun '(r, v) => reg_val m r = v) (zip reg_MAADR (hwaddr (my_netif (avars s')))) /\
    linkoutput (my_netif (avars s')) = Some enc28j60_translate_fn /\ mtu (my_netif (avars s')) = 1500 /\
    adrv s' = adrv s /\ amem s' = amem s.
Proof.
  intros C (Hconf & _ & _). eexists. split; [reflexivity|]. split_and!; try done.
  unfold configuration in Hconf. apply Forall_app in Hconf as [_ Hm]. revert Hm.
  cbn [avars set_vars my_netif set_my_netif hwaddr]. by rewrite (cf_mac _ C).
Qed.

(** ** Reconnections *)

(** The times of the connection requests, newest first. *)
Fixpoint connects (t : list note) : list Z :=
  match t with
  | [] => []
  | Asked now (R_mqtt_client_connect _ _) :: t => now :: connects t
  | _ :: t => connects t
  end.

(** Each request comes more than three seconds after the one before it, on the
    32-bit millisecond clock. *)
Fixpoint spaced (l : list Z) : Prop :=
  match l with
  | t2 :: (t1 :: _) as l' => 3000 < u32 (t2 - t1) /\ spaced l'
  | _ => True
  end.

(** A computation that neither asks for a connection nor touches the time of
    the last attempt. *)
Definition uninvolved {A} (x : M app A) : Prop := forall s a s', x s = Ret a s' ->
  connects (trace s') = connects (trace s) /\
  lastReconnectAttempt (avars s') = lastReconnectAttempt (avars s).

Lemma uninvolved_bind {A B} (x : M app A) (f : A -> M app B) :
  uninvolved x -> (forall a, uninvolved (f a)) -> uninvolved (x ≫= f).
Proof.
  intros Hx Hf s b s' (a & s1 & E1 & E2)%bind_inv.
  destruct (Hx _ _ _ E1), (Hf _ _ _ _ E2). split; congruence.
Qed.

Lemma uninvolved_ret {A} (a : A) : uninvolved (mret a).
Proof. by intros s ? ? [= <- <-]. Qed.

Lemma uninvolved_halt {A} w : uninvolved (halt w : M app A).
Proof. by intros s a s'. Qed.

Lemma uninvolved_gets {A} (f : app -> A) : uninvolved (gets f).
Proof. by intros s ? ? [= <- <-]. Qed.

Lemma uninvolved_deref {A} w (o : option A) : uninvolved (deref w o : M app A).
Proof. destruct o; [apply uninvolved_ret|apply uninvolved_halt]. Qed.

Lemma uninvolved_on_drv {A} (x : M drv A) : uninvolved (on_drv x).
Proof. intros s a s'. unfold on_drv, zoom. destruct (x (adrv s)); [|done]. by intros [= <- <-]. Qed.

Lemma uninvolved_on_mem {A} (x : M mem A) : uninvolved (on_mem x).
Proof. intros s a s'. unfold on_mem, zoom. destruct (x (amem s)); [|done]. by intros [= <- <-]. Qed.

Lemma uninvolved_assign f : (forall v, lastReconnectAttempt (f v) = lastReconnectAttempt v) -> uninvolved (assign f).
Proof. intros Hf s ? ? [= <- <-]. split; [done|apply Hf]. Qed.

Lemma uninvolved_when b (x : M app unit) : uninvolved x -> uninvolved (when b x).
Proof. intros Hx. destruct b; [done|apply uninvolved_ret]. Qed.

Lemma uninvolved_if {A} (b : bool) (x y : M app A) : uninvolved x -> uninvolved y -> uninvolved (if b then x else y).
Proof. by destruct b. Qed.

Lemma uninvolved_iter {A R} fuel (body : A -> M app (A + R)) :
  (forall a, uninvolved (body a)) -> forall a, uninvolved (iter fuel body a).
Proof.
  intros Hb. induction fuel as [|fuel IH]; intros a; simpl; [apply uninvolved_halt|].
  apply uninvolved_bind; [done|]. intros [a'|r]; [done|apply uninvolved_ret].
Qed.

Lemma uninvolved_for_each {A} (l : list A) f : (forall a, uninvolved (f a)) -> uninvolved (for_each l f).
Proof. intros Hf. induction l; simpl; [apply uninvolved_ret|by apply uninvolved_bind]. Qed.
End Loop.

Create HintDb uninvolved.
#[export] Hint Resolve uninvolved_bind uninvolved_ret uninvolved_halt uninvolved_gets uninvolved_deref
  uninvolved_on_drv uninvolved_on_mem uninvolved_when uninvolved_if uninvolved_for_each : uninvolved.
#[export] Hint Extern 1 (uninvolved (assign _)) => (apply uninvolved_assign; by intros []) : uninvolved.
#[export] Hint Extern 1 (uninvolved (var _)) => (apply uninvolved_gets) : uninvolved.
#[export] Hint Extern 1 (uninvolved (print _ _ _)) => (apply uninvolved_on_drv) : uninvolved.
#[export] Hint Extern 1 (uninvolved app_sys_now) => (apply uninvolved_gets) : uninvolved.

(** The quiet operations, by their structure. *)
Ltac uninv := repeat first
  [ done
  | lazymatch goal with
    | |- uninvolved (for_each _ _) => apply uninvolved_for_each; intros ?
    | |- uninvolved (iter _ _ _) => apply uninvolved_iter; intros ?
    end
  | solve [eauto 2 with uninvolved]
  | apply uninvolved_bind; [|intros ?]
  | apply uninvolved_when
  | apply uninvolved_if
  | match goal with |- uninvolved (match ?x with _ => _ end) => destruct x end ].

Section Rounds.
Context `{SpiSlave} `{CustomFree} `{!Stack}.

Lemma uninvolved_callback cb : uninvolved (run_callback cb).
Proof.
  unfold run_callback. apply uninvolved_bind; [by intros s ? ? [= <- <-]|]. intros [].
  destruct cb as [|p|name ip|client status|topic n|n flags].
  - unfold ethernet_init. uninv.
  - unfold enc28j60_translate. uninv.
    match goal with |- uninvolved (translate_body ?x) => destruct x as [[l|] o] end; simpl; uninv.
  - unfold ipObtained. uninv.
  - unfold myMqttClientCallBack. uninv.
  - unfold publishIncoming. uninv.
  - unfold mqtt_data_cb. uninv.
Qed.

Lemma uninvolved_act a : uninvolved (run_act a).
Proof.
  induction a as [r w m|cb m k IH]; simpl; (apply uninvolved_bind; [by intros s ? ? [= <- <-]|intros []]).
  - apply uninvolved_ret.
  - apply uninvolved_bind; [apply uninvolved_callback|done].
Qed.

Definition is_connect (q : request) : bool := match q with R_mqtt_client_connect _ _ => true | _ => false end.

Lemma uninvolved_ask q : is_connect q = false -> uninvolved (ask q).
Proof.
  intros Hq s r s' E. unfold ask in E. destruct (uninvolved_act _ _ _ _ E) as [E1 E2]. split; [|done].
  rewrite E1. simpl. by destruct q.
Qed.

Lemma uninvolved_ask_ q : is_connect q = false -> uninvolved (ask_ q).
Proof. intros Hq. apply uninvolved_bind; [by apply uninvolved_ask|intros; apply uninvolved_ret]. Qed.
End Rounds.

#[export] Hint Extern 1 (uninvolved (ask _)) => (apply uninvolved_ask; reflexivity) : uninvolved.
#[export] Hint Extern 1 (uninvolved (ask_ _)) => (apply uninvolved_ask_; reflexivity) : uninvolved.

Section Throttle.
Context `{SpiSlave} `{CustomFree} `{!Stack}.

Lemma uninvolved_timers : uninvolved run_timers.
Proof. unfold run_timers. uninv. Qed.

Lemma uninvolved_service fuel : uninvolved (service_interrupt fuel).
Proof.
  unfold service_interrupt. uninv. unfold service_flag. uninv. unfold serve_flag. repeat (uninv; try case_match).
Qed.

(** What a round does about connections: nothing, or one request, at a time
    more than three seconds after the last one. *)
Definition attempts (s s' : app) : Prop :=
  (connects (trace s') = connects (trace s) /\ lastReconnectAttempt (avars s') = lastReconnectAttempt (avars s)) \/
  exists now, connects (trace s') = now :: connects (trace s) /\ lastReconnectAttempt (avars s') = now /\
    3000 < u32 (now - lastReconnectAttempt (avars s)).

Lemma attempts_uninvolved {A} (x : M app A) s a s' : uninvolved x -> x s = Ret a s' -> attempts s s'.
Proof. intros Hx E. left. by apply (Hx _ _ _ E). Qed.

Lemma connection_attempts s s' : run_connection s = Ret tt s' -> attempts s s'.
Proof.
  intros E. unfold run_connection in E. apply bind_inv in E as (c & s1 & [= <- <-] & E).
  assert (Hc : forall x : M app unit, uninvolved x -> x s = Ret tt s' -> attempts s s')
    by (intros x Hx Ex; by eapply attempts_uninvolved).
  assert (Htry : forall K : M app unit, K = (now ← app_sys_now;
      assign (set_lastReconnectAttempt now);;
      b ← var broker;
      r ← ask (R_mqtt_client_connect (br_ip b) 1883);
      when (ERR_OK =? r) (assign (set_myConn MQTT_CONNECTING);; assign (set_bSubscribed false))) ->
    3000 < u32 (millisec s - lastReconnectAttempt (avars s)) -> K s = Ret tt s' -> attempts s s').
  { intros K -> Hlt EK. apply bind_inv in EK as (? & ? & [= <- <-] & EK).
    apply bind_inv in EK as (? & s1 & [= <- <-] & EK). apply bind_inv in EK as (b & ? & [= <- <-] & EK).
    apply bind_inv in EK as (r & s2 & E2 & EK). unfold ask in E2.
    destruct (uninvolved_act _ _ _ _ E2) as [T2 L2].
    assert (U : uninvolved (when (ERR_OK =? r) (assign (set_myConn MQTT_CONNECTING);; assign (set_bSubscribed false))))
      by uninv.
    destruct (U _ _ _ EK) as [T3 L3]. right. exists (millisec s). rewrite T3, T2, L3, L2. done. }
  destruct (myConn (avars s)); try solve [revert E; apply Hc; uninv].
  - apply bind_inv in E as (? & ? & [= <- <-] & E). apply bind_inv in E as (? & ? & [= <- <-] & E).
    destruct (Z.ltb_spec 3000 (u32 (millisec s - lastReconnectAttempt (avars s)))) as [Hlt|]; cbn [when] in E.
    + by eapply Htry.
    + injection E as <-. by left.
  - apply bind_inv in E as (? & ? & [= <- <-] & E). apply bind_inv in E as (? & ? & [= <- <-] & E).
    destruct (Z.ltb_spec 3000 (u32 (millisec s - lastReconnectAttempt (avars s)))) as [Hlt|]; cbn [when] in E.
    + by eapply Htry.
    + injection E as <-. by left.
Qed.

Lemma main_loop_attempts fuel s s' : main_loop fuel s = Ret tt s' -> attempts s s'.
Proof.
  intros E. unfold main_loop in E. apply bind_inv in E as ([] & s1 & E1 & E).
  apply bind_inv in E as ([] & s2 & E2 & E). apply bind_inv in E as ([] & s3 & E3 & E4).
  destruct (uninvolved_timers _ _ _ E1) as [T1 L1].
  destruct (uninvolved_ask_ R_sys_check_timeouts eq_refl _ _ _ E2) as [T2 L2].
  destruct (uninvolved_service _ _ _ _ E4) as [T4 L4].
  destruct (connection_attempts _ _ E3) as [[T3 L3]|(now & T3 & L3 & Hlt)].
  - left. split; congruence.
  - right. exists now. rewrite L2, L1 in Hlt. split_and!; [congruence|congruence|done].
Qed.

(** The program after [main_init]: rounds of the loop, and interrupts between
    them. *)
Inductive round (fuel : nat) : app -> app -> Prop :=
| RoundLoop s s' : main_loop fuel s = Ret tt s' -> round fuel s s'
| RoundExti pin s s' : HAL_GPIO_EXTI_Callback pin s = Ret tt s' -> round fuel s s'
| RoundTim i s s' : HAL_TIM_PeriodElapsedCallback i s = Ret tt s' -> round fuel s s'.

Lemma round_attempts fuel s s' : round fuel s s' -> attempts s s'.
Proof.
  intros [? ? E|pin ? ? E|i ? ? E]; [by eapply main_loop_attempts|left|left].
  - unfold HAL_GPIO_EXTI_Callback in E. destruct (pin =? GPIO_PIN_7); by injection E as <-.
  - destruct i; by injection E as <-.
Qed.

(** C34.  Reconnections are throttled.  Whatever lwIP does and calls back, and
    however rounds of the main loop and interrupts interleave, two successive
    requests to connect to the broker are more than three seconds apart on the
    millisecond clock, across its wrap-around. *)
Theorem reconnect_throttled fuel s s' :
  connects (trace s) = [] -> rtc (round fuel) s s' -> spaced (connects (trace s')).
Proof.
  intros Hz Hr.
  enough (Hinv : spaced (connects (trace s')) /\
    match connects (trace s') with t :: _ => lastReconnectAttempt (avars s') = t | [] => True end) by apply Hinv.
  assert (Hz' : spaced (connects (trace s)) /\
    match connects (trace s) with t :: _ => lastReconnectAttempt (avars s) = t | [] => True end) by (by rewrite Hz).
  clear Hz. induction Hr as [s|s1 s2 s3 Hstep _ IH]; [done|]. apply IH. clear IH. destruct Hz' as [Hs Hl].
  destruct (round_attempts _ _ _ Hstep) as [[-> ->]|(now & -> & -> & Hlt)]; [done|]. split; [|done].
  destruct (connects (trace s1)) as [|t l]; [done|]. rewrite Hl in Hlt. done.
Qed.
End Throttle.

(** Where the main loop is: before the test, between the test and the load of
    [enc28j60intCounter--], between its load and its store. *)
Inductive place : Type := Idle | Tested | Loaded (c : Z).

Record counter : Type := Counter {
  count : Z;       (** [enc28j60intCounter] *)
  at_ : place;
  raised : Z;      (** interrupts so far *)
  served : Z       (** rounds of the service so far *)
}.

Definition start : counter := Counter 0 Idle 0 0.

Inductive access : counter -> counter -> Prop :=
| Handler n p r v : access (Counter n p r v) (Counter (u32 (n + 1)) p (r + 1) v)
| TestCounter n r v : 0 < n -> access (Counter n Idle r v) (Counter n Tested r v)
| LoadCounter n r v : access (Counter n Tested r v) (Counter n (Loaded n) r v)
| StoreCounter n c r v : access (Counter n (Loaded c) r v) (Counter (u32 (c - 1)) Idle r (v + 1)).

(** Main-loop accesses that no interrupt splits: the decrement in one step. *)
Inductive atomic_access : counter -> counter -> Prop :=
| AtomicHandler n r v : atomic_access (Counter n Idle r v) (Counter (u32 (n + 1)) Idle (r + 1) v)
| AtomicServe n r v : 0 < n -> atomic_access (Counter n Idle r v) (Counter (u32 (n - 1)) Idle r (v + 1)).

Record counter_inv (s : counter) : Prop := {
  ci_count : 0 <= count s;
  ci_served : 0 <= served s;
  ci_sum : count s + served s <= raised s;
  ci_place : match at_ s with Idle => True | Tested => 1 <= count s | Loaded c => 1 <= c <= count s end
}.

Lemma access_raised s s' : access s s' -> raised s <= raised s'.
Proof. intros []; simpl; lia. Qed.

Lemma access_inv s s' : access s s' -> raised s' < 2 ^ 32 -> counter_inv s -> counter_inv s'.
Proof.
  intros Hs Hr [H1 H2 H3 H4]. destruct Hs as [n p r v|n r v Hn|n r v|n c r v]; simpl in *.
  - rewrite u32_small by lia. split; simpl; try lia. destruct p; lia.
  - split; simpl; lia.
  - split; simpl; lia.
  - rewrite u32_small by lia. split; simpl; lia.
Qed.

Lemma accesses_raised s s' : rtc access s s' -> raised s <= raised s'.
Proof. induction 1 as [|s1 s2 s3 H1 _ IH]; [lia|]. apply access_raised in H1. lia. Qed.

(** The interrupt counter under preemption.  However the handler cuts
    into the main loop, the loop never runs more often than interrupts were
    raised, nor does the counter claim more than are outstanding; but an
    interrupt raised between the load and the store of the decrement is lost:
    two interrupts can be followed by a single service and a zero counter. *)
Theorem interrupt_counter_race :
  (forall s, rtc access start s -> raised s < 2 ^ 32 -> served s + count s <= raised s) /\
  (exists s, rtc access start s /\ raised s = 2 /\ served s = 1 /\ count s = 0 /\ at_ s = Idle) /\
  (forall s, rtc atomic_access start s -> raised s < 2 ^ 32 -> served s + count s = raised s).
Proof.
  split_and!.
  - intros s Hs Hr. enough (Hi : counter_inv s) by (destruct Hi; lia).
    assert (H0 : counter_inv start) by (by split).
    revert H0. induction Hs as [s|s1 s2 s3 H1 H2 IH]; [done|]. intros H0. apply IH; [done|].
    apply (access_inv s1); [done| |done]. apply accesses_raised in H2. lia.
  - exists (Counter 0 Idle 2 1). split; [|done].
    eapply rtc_l; [apply Handler|]. eapply rtc_l; [by apply TestCounter|].
    eapply rtc_l; [apply LoadCounter|]. eapply rtc_l; [apply Handler|].
    eapply rtc_l; [apply StoreCounter|]. apply rtc_refl.
  - intros s Hs Hr.
    assert (Hmono : forall s s', rtc atomic_access s s' -> raised s <= raised s').
    { induction 1 as [|s1 s2 s3 H1 _ IH]; [lia|]. destruct H1; simpl in *; lia. }
    enough (Hi : 0 <= count s /\ 0 <= served s /\ served s + count s = raised s) by lia.
    assert (H0 : 0 <= count start /\ 0 <= served start /\ served start + count start = raised start) by (simpl; lia).
    revert H0. induction Hs as [s|s1 s2 s3 H1 H2 IH]; [done|]. intros H0. apply IH; [done|].
    apply Hmono in H2. destruct H1; simpl in *; rewrite u32_small by lia; lia.
Qed.
