(* ===== verification/AppExamples.v ===== *)
(** The application: a concrete board, and the theorems at work on it. *)
From stdpp Require Import functions relations.
From S2P Require Import Prelude Bus Regs Driver Chip DriverFacts Transfer Receive Banks Startup.
From S2P Require Import Memp Pbuf PbufFacts PbufUpdate PbufAlloc PbufExamples Chksum ChksumFacts App AppFacts Service Loop.

#[local] Existing Instances bump_heap no_custom.

(** A stack that returns zero and calls nothing back. *)
#[local] Instance silent : Stack := {| wstate := unit; stack _ _ w m := Done 0 w m |}.

Definition board (d : drv) (m : mem) (v : vars) : app := App _ _ d m tt 0 v [].

(** A chip whose buffer pointers advance. *)
Definition ex_chip : mach := {| regs := {[reg_ECON2 := 0x80]}; ram := ∅ |}.

#[local] Instance zeros : SpiSlave := constant_slave 0.

Lemma started_tx_ready : tx_ready started.
Proof. split; [apply ready_started|done|apply length_replicate]. Qed.

Lemma translate_sends_witness :
  exists s' prog m',
    enc28j60_translate (Some (elem 0)) (board started ex_mem initial_vars) = Ret ERR_OK s' /\
    v_work (view_of (adrv s')) = reverse prog ++ v_work (view_of started) /\
    exec_all prog ex_chip = Some m' /\ frame_to_send m' = Some <$> [10; 11; 12; 13; 14] /\
    Z.testbit (reg_val m' reg_ECON1) 3 = true /\
    amem s' = ex_mem /\ avars s' = set_bTxBusy true initial_vars.
Proof.
  exact (translate_sends (board started ex_mem initial_vars) (elem 0) [ex_n1; ex_n2] ex_chip
    started_tx_ready ex_packet ltac:(vm_compute; congruence) eq_refl eq_refl).
Defined.

(** A frame of 1514 bytes in one pbuf. *)
Definition big_node : node :=
  Node (Ext 0) (Pbuf None (Some (Ext 1, 0)) 1514 1514 (u8 (pbuf_type_value PBUF_REF)) 0 1 0) (replicate 1514 7).

Definition big_mem : mem :=
  Mem _ (memp_init (fun _ => [])) 0 {[ Ext 0 := n_buf big_node ]} {[ Ext 1 := replicate 1514 7 ]} false ∅.

Lemma big_packet : packet big_mem (Some (Ext 0)) [big_node].
Proof.
  split; [|done|apply NoDup_singleton|apply NoDup_singleton|done].
  repeat split. eexists. repeat split; reflexivity || (simpl; lia) || idtac.
Qed.

Lemma translate_overflows_witness :
  exists s', enc28j60_translate (Some (Ext 0)) (board started big_mem initial_vars) = Stop OutOfBounds s'.
Proof.
  exact (translate_overflows (board started big_mem initial_vars) (Ext 0) [big_node]
    started_tx_ready big_packet eq_refl eq_refl).
Defined.

Lemma translate_refuses_witness :
  exists s', enc28j60_translate (Some (elem 0)) (board started ex_mem (set_bTxBusy true initial_vars)) =
      Ret ERR_INPROGRESS s' /\
    v_work (view_of (adrv s')) = v_work (view_of started) /\ amem s' = ex_mem /\
    avars s' = set_bTxBusy true initial_vars.
Proof.
  exact (translate_refuses (board started ex_mem (set_bTxBusy true initial_vars)) ex_n1 [ex_n2]
    started_tx_ready (pk_chain _ _ _ ex_packet) (pk_locs _ _ _ ex_packet) ltac:(vm_compute; congruence)
    (or_introl eq_refl)).
Defined.


Lemma service_interrupt_program_witness :
  let s := board started ex_mem (set_enc28j60intCounter 1 initial_vars) in
  exists v got, shifted 1 got /\ got_value got v /\
    (has v (bit 4) = false -> has v (bit 6) = false -> exists s',
       service_interrupt 10 s = Ret tt s' /\
       v_work (view_of (adrv s')) = flags_log v (seqZ 0 8) ++ RCR reg_EIR got :: v_work (view_of (adrv s)) /\
       bTxBusy (avars s') = bTxBusy (avars s) && negb (has v (bit 3)) /\
       enc28j60intCounter (avars s') = enc28j60intCounter (avars s) - 1 /\
       amem s' = amem s /\ aw s' = aw s /\ trace s' = trace s).
Proof.
  exact (service_interrupt_program 10 (board started ex_mem (set_enc28j60intCounter 1 initial_vars))
    ready_started (fun _ => eq_refl) ltac:(simpl; lia)).
Defined.

Lemma inet_chksum_pbuf_rfc1071_witness :
  inet_chksum_pbuf (fun _ => true) (Some (elem 0)) ex_mem = Ret (0xffff - 6180) ex_mem /\
  ip_chksum_pseudo (fun _ => true) (Some (elem 0)) 17 (total [ex_n1; ex_n2]) 0x0100a8c0 0x0200a8c0 ex_mem =
    Ret (0xffff - rfc1071 (pseudo_header 0x0100a8c0 0x0200a8c0 17 (total [ex_n1; ex_n2]) ++ contents [ex_n1; ex_n2])) ex_mem.
Proof.
  destruct (inet_chksum_pbuf_rfc1071 (fun _ => true) ex_mem (elem 0) [ex_n1; ex_n2] ex_packet ex_bytes) as [E1 E2].
  split; [exact E1|apply E2; split; vm_compute; congruence].
Defined.

(** A chip with the registers of the start-up. *)
Definition ready_chip : mach :=
  foldl (fun m '(r, v) => set_reg r v m) {| regs := ∅; ram := ∅ |}
    (configuration ++ [(reg_ECON1, 0x04); (reg_ECON2, 0x80)]).

Lemma ready_chip_configured : configured_chip ready_chip.
Proof. split; [|by vm_compute]. unfold configuration. repeat (constructor; [by vm_compute|]). constructor. Qed.

Lemma ethernet_init_address_witness :
  exists s', ethernet_init (board started ex_mem initial_vars) = Ret ERR_OK s' /\
    length (hwaddr (my_netif (avars s'))) = Z.to_nat (hwaddr_len (my_netif (avars s'))) /\
    Forall (fun '(r, v) => reg_val ready_chip r = v) (zip reg_MAADR (hwaddr (my_netif (avars s')))) /\
    linkoutput (my_netif (avars s')) = Some enc28j60_translate_fn /\ mtu (my_netif (avars s')) = 1500 /\
    adrv s' = started /\ amem s' = ex_mem.
Proof.
  exact (ethernet_init_address (board started ex_mem initial_vars) ready_chip
    (rd_conf _ ready_started) ready_chip_configured).
Defined.

Lemma reconnect_throttled_witness :
  let s := board started ex_mem (set_myConn DNS_IP_OBTAINED (set_lastReconnectAttempt 0 initial_vars)) in
  let s' := set_now 4000 s in
  exists s'', main_loop 10 s' = Ret tt s'' /\ connects (trace s'') = [4000] /\ spaced (connects (trace s'')).
Proof.
  cbv zeta. eexists. split; [by vm_compute|]. split; [reflexivity|].
  refine (reconnect_throttled 10 (set_now 4000 (board started ex_mem
    (set_myConn DNS_IP_OBTAINED (set_lastReconnectAttempt 0 initial_vars)))) _ eq_refl
    (rtc_once _ _ (RoundLoop _ _ _ _))).
  by vm_compute.
Defined.
