(* ===== verification/EtharpExamples.v ===== *)
(** Address resolution: a concrete host, and the theorems at work on it. *)
From stdpp Require Import functions.
From S2P Require Import Prelude Bus Regs Driver Chip DriverFacts Transfer Receive Startup.
From S2P Require Import Memp Pbuf PbufFacts PbufUpdate PbufAlloc Heap HeapFacts HeapSpec PbufRam Chksum Ip4Addr.
From S2P Require Import App AppFacts AppExamples.
From S2P Require Import Ethernet Etharp EtharpTable EtharpInv EtharpSend EtharpReply EtharpTimer EtharpOutput AppFacts.

#[local] Instance no_custom_free : CustomFree := fun _ => mret tt.
#[local] Instance debug_build : Build := {| LWIP_DEBUG := true |}.

(** A link that keeps the frames it is given, newest first. *)
#[local] Instance log_link : LinkOutput := {|
  lstate := list (nat * list Z);
  linkoutput n p x :=
    match (b ← getp p; pbuf_copy_partial (Some p) (tot_len b) 0) x.1 with
    | Ret (bs, _) m => Ret ERR_OK (m, (n, bs) :: x.2)
    | Stop w m => Stop w (m, x.2)
    end
|}.

#[local] Program Instance log_laws : LinkLaws := {|
  link_ok _ := True;
  output_rel n bytes l r l' := r = ERR_OK /\ l' = (n, bytes) :: l
|}.
Next Obligation.
  intros n p c m l _ Hp Hlen. destruct (packet_first _ _ _ Hp) as (nd & c' & -> & -> & Hl & Et).
  pose proof (pk_chain _ _ _ Hp) as Hc. pose proof (chain_size _ _ _ Hc (pk_locs _ _ _ Hp)) as Hs. pose proof (total_nonneg (nd :: c')).
  unfold wp, linkoutput, log_link. cbn [fst snd].
  assert (E : (b ← getp (n_loc nd); pbuf_copy_partial (Some (n_loc nd)) (tot_len b) 0) m =
    Ret (contents (nd :: c'), total (nd :: c')) m).
  { erewrite bind_Ret by (unfold getp; erewrite bind_Ret by reflexivity; by rewrite Hl). unfold pbuf_copy_partial.
    erewrite bind_Ret by reflexivity. rewrite Et. erewrite (copy_partial_loop m (nd :: c')) by (done || lia).
    change (Z.to_nat 0) with 0%nat. rewrite drop_0. unfold total. by rewrite Nat2Z.id, firstn_all. }
  by rewrite E.
Qed.

Definition hw_me : list Z := [2; 0; 0; 0; 0; 1].
Definition hw_peer : list Z := [2; 0; 0; 0; 0; 9].
Definition ip_me : Z := word32 192 168 10 2.
Definition ip_peer : Z := word32 192 168 10 7.
Definition if_me : link_if := LinkIf ip_me (word32 255 255 255 0) (word32 192 168 10 1) hw_me (Z.lor NETIF_FLAG_BROADCAST NETIF_FLAG_ETHARP) 0.

(** The request of the peer, padded to the length of the shortest frame. *)
Definition request_bytes : list Z := frame ethbroadcast hw_peer ETHTYPE_ARP (arp_packet ARP_REQUEST hw_peer ip_peer ethzero ip_me).

(** A frame of [n] bytes in a buffer of the pool that holds [bs]. *)
Definition rx_buf (n : Z) : pbuf :=
  Pbuf None (Some (Pool MEMP_PBUF_POOL 0, 0)) n n (u8 (pbuf_type_value PBUF_POOL)) 0 1 NETIF_NO_INDEX.
Definition rx_area : list Z := request_bytes ++ replicate 550 0.
Definition rx_mem (n : Z) : mem :=
  Mem mem_c (<[MEMP_PBUF_POOL := seq 1 15]> (memp_init (fun _ => []))) fresh_heap
    {[ Pool MEMP_PBUF_POOL 0 := rx_buf n ]} {[ Pool MEMP_PBUF_POOL 0 := rx_area ]} false ∅.
Definition rx_node (n : Z) : node := Node (Pool MEMP_PBUF_POOL 0) (rx_buf n) (take (Z.to_nat n) rx_area).

Definition empty_entry : etharp_entry := ArpEntry None 0 None ethzero 0 ETHARP_STATE_EMPTY.
Definition host_state (m : mem) : eth := Eth _ _ m [] (fun _ => if_me) (replicate 10 empty_entry) 0.

Lemma rx_packet n : 0 <= n <= 592 -> packet (rx_mem n) (Some (n_loc (rx_node n))) [rx_node n].
Proof.
  intros Hn. assert (Hl : length (n_data (rx_node n)) = Z.to_nat n).
  { unfold rx_node. cbn [n_data]. unfold rx_area. rewrite length_take, length_app, length_replicate. change (length request_bytes) with 42%nat. lia. }
  split.
  - split_and!; [done|apply lookup_singleton_eq| |done]. split; [rewrite Hl; simpl; lia|]. simpl payload.
    exists rx_area. split_and!; [apply lookup_singleton_eq|done|simpl; lia|]. rewrite Hl. done.
  - split; [|done]. unfold total, contents. cbn [map concat]. rewrite app_nil_r, Hl. simpl. lia.
  - apply NoDup_singleton.
  - apply NoDup_singleton.
  - unfold total, contents. cbn [map concat]. rewrite app_nil_r, Hl. lia.
Qed.

Lemma rx_heap n : heap_ready (rx_mem n) ∅.
Proof. split; [exists ∅; split; [exact fresh_represents|by rewrite fmap_empty]|]. intros o _. by split. Qed.

Lemma host_ok n : host (host_state (rx_mem n)) 0 ∅.
Proof. split; try done; [apply table_ok_init|by apply Forall_replicate|apply rx_heap]. Qed.

Lemma peer_ok n : sender (host_state (rx_mem n)) 0 hw_peer ip_peer.
Proof. by split. Qed.

Lemma rx_releasable n : releasable [rx_node n].
Proof. apply Forall_singleton. done. Qed.

(** An input of IP packets that only frees them. *)
Definition drop_ip (p : loc) (n : nat) : M eth unit := on_pbuf (pbuf_free (Some p));; mret tt.


(** A frame of fifteen bytes in front of the rest of an older one. *)
Lemma short_arp_frame_accepted_witness :
  len (rx_buf 15) = 15 /\ resolved_frame drop_ip (host_state (rx_mem 15)) (rx_node 15) [] 0 ∅ ARP_REQUEST hw_peer ip_peer.
Proof.
  split; [reflexivity|].
  apply (short_arp_frame_accepted drop_ip (host_state (rx_mem 15)) (rx_node 15) [] 0 ∅ ARP_REQUEST ethbroadcast hw_peer hw_peer
    ip_peer ethzero); [apply host_ok|apply peer_ok|by apply rx_packet|apply rx_releasable|done| |by left|done..].
  split; [reflexivity|]. exists rx_area. split_and!; [reflexivity|done|vm_compute; discriminate|vm_compute; reflexivity].
Defined.

(** A table with one resolved and one pending entry. *)
Definition one_bound : list etharp_entry := <[0%nat := set_ctime 297 (binding ip_peer 0 hw_peer)]> (replicate 10 empty_entry).
Definition two_entries : list etharp_entry :=
  <[1%nat := ArpEntry None ip_me (Some 0%nat) ethzero 3 ETHARP_STATE_PENDING]> one_bound.
Definition table_state (t : list etharp_entry) : eth := Eth _ _ (rx_mem 60) [] (fun _ => if_me) t 0.

Lemma one_bound_ok : table_ok one_bound.
Proof.
  apply table_ok_insert; [apply table_ok_init| |].
  - split; cbn; [done|done|done|]. intros _. by split; [eexists|].
  - intros _ j e _ [-> _]%lookup_replicate []. done.
Qed.

Lemma two_entries_ok : table_ok two_entries.
Proof.
  apply table_ok_insert; [apply one_bound_ok| |].
  - split; cbn; [done|done|done|]. intros _. by split; [eexists|].
  - intros _ j e _ E L [K _]. unfold one_bound in E. apply list_lookup_insert_Some in E as [(_ & <- & _)|[_ [-> _]%lookup_replicate]]; [done|by destruct L].
Qed.

Lemma two_entries_young : Forall young two_entries.
Proof. repeat constructor; try done; intros []; done. Qed.

Lemma calm_example : calm ∅ (table_state two_entries).
Proof.
  split; [apply two_entries_ok|done|apply two_entries_young|by repeat constructor|apply rx_heap|done|done].
Qed.

(** After three seconds both are gone. *)
Lemma arp_entries_expire_witness :
  (exists s', seconds 3 (table_state two_entries) = Ret tt s' /\ calm ∅ s' /\
    same_but_heap (emem (table_state two_entries)) (emem s') /\
    forall i e, two_entries !! i = Some e -> exists e', arp_table s' !! i = Some e' /\
      (~ live e -> e' = e) /\
      (live e -> if ctime e + 3 <? limit e
                 then live e' /\ ctime e' = ctime e + 3 /\ same_key e e' /\ ethaddr e' = ethaddr e
                 else ~ live e')) /\
  outcome_val ((seconds 3;; gets (fun s => map state (arp_table s))) (table_state two_entries)) = Some (replicate 10 ETHARP_STATE_EMPTY).
Proof.
  split; [exact (arp_entries_expire ∅ (table_state two_entries) 3 calm_example)|vm_compute; reflexivity].
Defined.

Lemma etharp_find_entry_chooses_witness :
  (exists c, chooses two_entries (Some 1) (Some 0%nat) ETHARP_FLAG_TRY_HARD c) /\
  outcome_val (etharp_find_entry (Some 1) ETHARP_FLAG_TRY_HARD (Some 0%nat) (table_state two_entries)) = Some 2.
Proof.
  split; [|vm_compute; reflexivity].
  destruct (etharp_find_entry_chooses (table_state two_entries) (Some 1) ETHARP_FLAG_TRY_HARD (Some 0%nat) two_entries_ok) as (c & Hc & _).
  by exists c.
Defined.

(** ** Output *)

(** A packet of twenty bytes with room for the headers in front. *)
Definition tx_buf : pbuf :=
  Pbuf None (Some (Pool MEMP_PBUF_POOL 0, 16)) 20 20 (u8 (pbuf_type_value PBUF_POOL)) 0 1 NETIF_NO_INDEX.
Definition tx_bytes : list Z := seqZ 100 20.
Definition tx_mem : mem :=
  Mem mem_c (<[MEMP_PBUF_POOL := seq 1 15]> (memp_init (fun _ => []))) fresh_heap
    {[ Pool MEMP_PBUF_POOL 0 := tx_buf ]} {[ Pool MEMP_PBUF_POOL 0 := replicate 16 0 ++ tx_bytes ++ replicate 556 0 ]} false ∅.
Definition tx_node : node := Node (Pool MEMP_PBUF_POOL 0) tx_buf tx_bytes.

Lemma tx_packet : packet tx_mem (Some (n_loc tx_node)) [tx_node].
Proof.
  split; [|split; [reflexivity|exact I]|apply NoDup_singleton|apply NoDup_singleton|vm_compute; reflexivity].
  split_and!; [done|apply lookup_singleton_eq| |done]. split; [reflexivity|].
  exists (replicate 16 0 ++ tx_bytes ++ replicate 556 0). split_and!; [apply lookup_singleton_eq|done|vm_compute; discriminate|reflexivity].
Qed.

Definition young_bound : list etharp_entry := <[0%nat := binding ip_peer 0 hw_peer]> (replicate 10 empty_entry).
Definition tx_state : eth := Eth _ _ tx_mem [] (fun _ => if_me) young_bound 0.

Lemma young_bound_ok : arp_ok tx_state.
Proof.
  split; [|simpl; lia]. apply table_ok_insert; [apply table_ok_init| |].
  - split; cbn; [done|done|done|]. intros _. by split; [eexists|].
  - intros _ j e _ [-> _]%lookup_replicate []. done.
Qed.

Lemma tx_sendable : sendable tx_state tx_node [].
Proof. split; [apply tx_packet| |vm_compute; discriminate|done]. split; [done|]. exists 16. done. Qed.

Lemma etharp_output_routes_witness :
  (exists r s', etharp_output 0 (Pool MEMP_PBUF_POOL 0) ip_peer tx_state = Ret r s' /\
     framed 0 tx_node [] hw_peer tx_state r s') /\
  outcome_val ((etharp_output 0 (Pool MEMP_PBUF_POOL 0) ip_peer;; gets elink) tx_state) =
    Some [(0%nat, frame hw_peer hw_me ETHTYPE_IP tx_bytes)].
Proof.
  split; [|vm_compute; reflexivity].
  apply (etharp_output_routes tx_state 0 tx_node [] ip_peer young_bound_ok tx_sendable eq_refl 0 (binding ip_peer 0 hw_peer)); [by split|by split_and!].
Defined.

(** ** On the driver of the board *)

#[local] Instance quiet_slave : SpiSlave := constant_slave 0.
#[local] Instance quiet_stack : Stack := {| wstate := unit; stack _ _ w m := Done 0 w m |}.

Definition board_link : lstate (LinkOutput := enc28j60_link) := App _ _ started (rx_mem 60) tt 0 initial_vars [].
Definition board_state : eth (H0 := enc28j60_link) := Eth _ enc28j60_link (rx_mem 60) board_link (fun _ => if_me) (replicate 10 empty_entry) 0.

Lemma board_ready : enc_ready board_link.
Proof. split; [apply ready_started|]. intros _. split; [apply ready_started|done|apply length_replicate]. Qed.

Lemma arp_request_on_wire_witness :
  exists r s', etharp_request 0 ip_peer board_state = Ret r s' /\ same_but_heap (rx_mem 60) (emem s') /\ heap_ready (emem s') ∅ /\
    arp_table s' = replicate 10 empty_entry /\
    ((r = ERR_MEM /\ elink s' = board_link) \/
     (r = ERR_OK /\ exists prog m', v_work (view_of (adrv (elink s'))) = reverse prog ++ v_work (view_of started) /\
        exec_all prog ex_chip = Some m' /\
        frame_to_send m' = Some <$> frame ethbroadcast hw_me ETHTYPE_ARP (arp_packet ARP_REQUEST hw_me ip_me ethzero ip_peer) /\
        Z.testbit (reg_val m' reg_ECON1) 3 = true)).
Proof.
  exact (arp_request_on_wire board_state 0 ip_peer ∅ ex_chip (rx_heap 60) board_ready eq_refl eq_refl eq_refl).
Defined.
