(* ===== verification/MqttExamples.v ===== *)
(** The MQTT client: a concrete connection and application, and the theorems at
    work on them. *)
From S2P Require Import Prelude Memp Pbuf PbufFacts MqttRing Mqtt MqttReqs MqttSend MqttConnect.
From S2P Require Import MqttDeliver.

#[local] Instance no_heap : HeapOps := {|
  hstate := unit;
  heap_malloc _ h := (None, h);
  heap_free _ h := h;
  heap_trim _ _ h := h
|}.

(** A connection that takes what fits into a window of twenty bytes. *)
#[local] Instance window : Net := {|
  nstate := list Z;
  altcp_new n := (Some 1, n);
  altcp_sndbuf _ _ := 20;
  altcp_write _ data _ n := (ERR_OK, n ++ data);
  altcp_call _ _ n := (ERR_OK, n);
  cyclic_timeout _ n := n
|}.

#[local] Instance window_laws : NetLaws.
Proof. by exists (fun n => n). Defined.

(** An application that writes down what it is told. *)
#[local] Instance diary : Upper := {|
  ustate := list mqtt_event;
  notify ev s := Ret tt (Mqtt (mq_mem s) (mq_net s) (mq_up s ++ [ev]) (mq_client s))
|}.

#[local] Instance diary_laws : UpperLaws.
Proof. exists (fun u => u). intros ev m n u c. by eexists. Defined.

Definition no_mem : mem := Mem _ (memp_init (fun _ => [])) tt ∅ ∅ false ∅.

(** Two requests wait, the second two seconds behind the first. *)
Definition waiting : list pending := [Pend 0 (Some 7) 70 1 28; Pend 1 (Some 8) 80 2 2].
Definition waiting_list : list mqtt_request_t :=
  [Req (Some 1%nat) (Some 7) 70 1 28; Req None (Some 8) 80 2 2; Req (Some 2%nat) None 0 0 0; Req (Some 3%nat) None 0 0 0].

Lemma waiting_ok : requests_ok waiting_list (Some 0%nat) waiting [].
Proof.
  split; [done| |by apply (bool_decide_unpack _); vm_compute| |repeat constructor; done|done].
  - repeat (split; [done|]; eexists; split; [reflexivity|]). done.
  - intros i r Hi Hn. do 4 (destruct i as [|i]; [injection Hi as <-; first [done|exfalso; apply Hn; set_solver]|]). done.
Qed.

(** A connected client with these requests and a queue of three bytes. *)
Definition client_online : mqtt_client_t :=
  Client 0 60 0 2 0 MQTT_CONNECTED (Some 1) 0 None (Some 0%nat) waiting_list 5 (Some 12) (Some 11) 0
    (replicate 128 0) (Ring 3 0 ([9; 9; 9] ++ replicate 253 0)).

Definition online_state : mqtt := Mqtt no_mem [1; 2] [] client_online.

Lemma online_ok : online online_state 1 [9; 9; 9] waiting.
Proof. split; [done|done|by repeat split|exact waiting_ok]. Qed.

Lemma mqtt_requests_expire_witness : exists s', request_rounds 6 7 online_state = Ret tt s' /\
  requests_ok (req_list (mq_client s')) (pend_req_queue (mq_client s')) [] [] /\
  mq_up s' = [Ev_request 7 70 ERR_TIMEOUT; Ev_request 8 80 ERR_TIMEOUT].
Proof.
  destruct (mqtt_requests_expire online_state waiting 6) as (s' & E & Hok & Hlog); [exact waiting_ok|lia|].
  exists s'. split; [exact E|]. split; [exact Hok|exact Hlog].
Defined.

Definition topic_ab : list Z := [97; 47; 98].

Lemma mqtt_publish_stream_witness : exists s', mqtt_publish topic_ab (Some [1; 2; 3; 4]) 4 1 0 (Some 7) 71 online_state = Ret ERR_OK s' /\
  stream s' = [1; 2; 9; 9; 9; 50; 11; 0; 3; 97; 47; 98; 0; 3; 1; 2; 3; 4].
Proof.
  destruct (mqtt_publish_stream online_state 1 [9; 9; 9] waiting topic_ab (Some [1; 2; 3; 4]) 4 [1; 2; 3; 4] 1 0 (Some 7) 71) as (r & s' & E & Ho);
    [exact online_ok|repeat constructor; done|split_and!; [repeat constructor; done|done|by exists []]|done|done|vm_compute; discriminate|vm_compute; discriminate|].
  rewrite decide_False in Ho by (vm_compute; lia). destruct Ho as (-> & Hs & _). exists s'. split; [exact E|]. exact Hs.
Defined.

Lemma mqtt_exact_fit_lost_witness : exists s', mqtt_publish topic_ab (Some (replicate 243 8)) 243 1 0 (Some 7) 71 online_state = Ret ERR_OK s' /\
  queued (output (mq_client s')) = [] /\ mq_net s' = [1; 2].
Proof.
  destruct (mqtt_exact_fit_lost online_state 1 [9; 9; 9] waiting topic_ab (Some (replicate 243 8)) 243 (replicate 243 8) 1 0 (Some 7) 71) as (s' & E & Hq & Hs);
    [exact online_ok|repeat constructor; done| |done|done|reflexivity|simpl; lia|].
  - split_and!; [by apply Forall_replicate|done|exists []; by rewrite app_nil_r].
  - exists s'. split; [exact E|]. split; [exact Hq|exact Hs].
Defined.

(** A client with a user name, a will and no password. *)
Definition info : mqtt_connect_client_info_t := ClientInfo [99; 49] (Some [117]) None 60 (Some topic_ab) (Some [98; 121; 101]) 0 1 1.

Lemma info_good : good_info info.
Proof.
  split; [| | | |done|done|vm_compute; discriminate].
  - split; [repeat constructor; done|done].
  - intros u [= <-]. split; [repeat constructor; done|done].
  - done.
  - intros t m [= <- <-]. split_and!; [split; [repeat constructor; done|done]..|done].
Qed.

Definition offline_state : mqtt := Mqtt no_mem [] [] (set_conn_state TCP_DISCONNECTED client_online).

Lemma mqtt_connects_witness : exists s' s'', mqtt_client_connect 1 1883 (Some 3) 4 info offline_state = Ret ERR_OK s' /\
  mqtt_tcp_connect_cb (Some 1) ERR_OK s' = Ret ERR_OK s'' /\
  stream s'' = [16; 27; 0; 4; 77; 81; 84; 84; 4; 174; 0; 60; 0; 2; 99; 49; 0; 3; 97; 47; 98; 0; 3; 98; 121; 101; 0; 1; 117].
Proof.
  destruct (mqtt_connects offline_state 1 1883 (Some 3) 4 info) as (r & s' & E & _ & _ & Ho); [done|exact info_good|vm_compute; discriminate|].
  assert (Hr : r = ERR_OK) by (apply (f_equal outcome_val) in E; vm_compute in E; by injection E as <-).
  rewrite decide_True in Ho by done. subst r. destruct Ho as (c & s'' & Hc & E' & _ & _ & Hs & _).
  assert (Hc1 : c = 1).
  { apply (f_equal (fun o => conn (mq_client (outcome_state o)))) in E. cbn [outcome_state] in E. rewrite Hc in E. vm_compute in E. by injection E as <-. }
  subst c. exists s', s''. split; [exact E|]. split; [exact E'|]. exact Hs.
Defined.

(** A publication of 300 bytes of payload in three segments. *)
Definition news : list Z := repeat 5 150 ++ repeat 6 150.
Definition news_bytes : list Z := message MQTT_MSG_TYPE_PUBLISH 0 0 1 (mqtt_string topic_ab ++ news).

Definition piece (i : nat) (from n : nat) : node :=
  Node (Pool MEMP_PBUF_POOL i)
    (Pbuf None (Some (Pool MEMP_PBUF_POOL i, 0)) (Z.of_nat n) (Z.of_nat n) (u8 (pbuf_type_value PBUF_POOL)) 0 1 NETIF_NO_INDEX)
    (take n (drop from news_bytes)).

Definition pieces : list node := [piece 0 0 8; piece 1 8 2; piece 2 10 298].

Definition news_mem : mem :=
  Mem _ (memp_init (fun _ => [])) tt (list_to_map ((fun nd => (n_loc nd, n_buf nd)) <$> pieces))
    (list_to_map ((fun nd => (n_loc nd, n_data nd ++ [77])) <$> pieces)) false ∅.

Definition reader : mqtt := Mqtt news_mem [] [] client_online.

Lemma piece_segment nd : nd ∈ pieces -> segment reader nd.
Proof.
  intros Hnd. unfold pieces in Hnd. repeat (apply elem_of_cons in Hnd as [->|Hnd]); [| | |by apply elem_of_nil in Hnd].
  all: split; [|done|apply (bool_decide_unpack _); vm_compute; reflexivity].
  all: split; [|vm_compute; by split|apply NoDup_singleton|apply NoDup_singleton|by vm_compute].
  all: split_and!; [reflexivity|vm_compute; reflexivity| |reflexivity].
  all: split; [vm_compute; reflexivity|]. all: eexists; split_and!; [vm_compute; reflexivity|done|vm_compute; discriminate|vm_compute; reflexivity].
Qed.

Lemma mqtt_publication_delivered_witness : exists s' ps, parse_segments 400 (n_loc <$> pieces) reader = Ret MQTT_CONNECT_ACCEPTED s' /\
  concat ps = news /\ mq_up s' = Ev_publish 11 5 topic_ab 300 :: data_events 12 5 true ps.
Proof.
  destruct (mqtt_publication_delivered reader 11 12 5 topic_ab news 0 1 (piece 0 0 8) [piece 1 8 2; piece 2 10 298] 400)
    as (s' & rx & u & ps & E & -> & _ & Hps & _ & Hlog); [done|done|done|vm_compute; reflexivity|vm_compute; reflexivity|vm_compute; reflexivity|vm_compute; discriminate| | |].
  - right. exists (Pool MEMP_PBUF_POOL 0), 0. eexists. split_and!; [reflexivity|vm_compute; reflexivity|vm_compute; reflexivity].
  - apply Forall_forall. intros nd Hnd. split; [by apply piece_segment|]. fold pieces in Hnd. unfold pieces in Hnd.
    repeat (apply elem_of_cons in Hnd as [->|Hnd]); [vm_compute; discriminate..|by apply elem_of_nil in Hnd].
  - eexists _, ps. split; [exact E|]. split; [exact Hps|exact Hlog].
Defined.

(** The rest of it in one packet of two pbufs, after 128 bytes in one. *)
Definition chained (i : nat) (n : option loc) (tot : Z) (from ln : nat) : node :=
  Node (Pool MEMP_PBUF_POOL i)
    (Pbuf n (Some (Pool MEMP_PBUF_POOL i, 0)) tot (Z.of_nat ln) (u8 (pbuf_type_value PBUF_POOL)) 0 1 NETIF_NO_INDEX)
    (take ln (drop from news_bytes)).

Definition two : list node := [chained 1 (Some (Pool MEMP_PBUF_POOL 2)) 150 128 100; chained 2 None 50 228 50].

Definition two_mem : mem :=
  Mem _ (memp_init (fun _ => [])) tt (list_to_map ((fun nd => (n_loc nd, n_buf nd)) <$> two))
    (list_to_map ((fun nd => (n_loc nd, n_data nd)) <$> two)) false ∅.

Definition half_way : mqtt :=
  Mqtt two_mem [] [] (set_msg_idx 128 (set_rx_buffer (take 3 news_bytes ++ replicate 125 0) client_online)).

Definition stuck_state : mqtt :=
  match go_round 4 (parse_body (Pool MEMP_PBUF_POOL 1)) (Parse 0 0 0 0) half_way with Some (_, s') => s' | None => half_way end.

Lemma two_packet : packet (mq_mem stuck_state) (Some (Pool MEMP_PBUF_POOL 1)) two.
Proof.
  split; [|by vm_compute|by apply (bool_decide_unpack _); vm_compute|by apply (bool_decide_unpack _); vm_compute|by vm_compute].
  repeat (split; [reflexivity|]; split; [vm_compute; reflexivity|]; split); [..|reflexivity].
  all: split; [vm_compute; reflexivity|].
  all: eexists; split_and!; [vm_compute; reflexivity|done|vm_compute; discriminate|vm_compute; reflexivity].
Qed.

Lemma mqtt_parse_never_ends_witness : ~ exists fuel r s', mqtt_parse_incoming fuel (Pool MEMP_PBUF_POOL 1) half_way = Ret r s'.
Proof.
  intros (fuel & r & s' & E).
  destruct (mqtt_parse_never_ends 4 half_way stuck_state (chained 1 (Some (Pool MEMP_PBUF_POOL 2)) 150 128 100) [chained 2 None 50 228 50] 80 3 2 49)
    with (fuel := fuel) as [s'' E'];
    [exact two_packet|reflexivity|vm_compute; reflexivity|vm_compute; split; [discriminate|reflexivity]|lia|reflexivity|lia|reflexivity|reflexivity|reflexivity|].
  change (n_loc (chained 1 (Some (Pool MEMP_PBUF_POOL 2)) 150 128 100)) with (Pool MEMP_PBUF_POOL 1) in E'. by rewrite E in E'.
Defined.
