(* ===== verification/IpExamples.v ===== *)
(** IPv4 and UDP: a concrete host, and the theorems at work on it. *)
From stdpp Require Import functions.
From S2P Require Import Prelude Memp Pbuf PbufFacts PbufUpdate PbufAlloc PbufChain PbufRealloc Heap HeapFacts HeapSpec PbufRam Chksum ChksumFacts.
From S2P Require Import Chksum Ip4Addr Ethernet Etharp EtharpTable EtharpInv EtharpSend EtharpReply EtharpTimer EtharpOutput Ip Icmp Reass IpInput.
From S2P Require Import IpFacts IcmpFacts IpInputFacts Ping Udp ArpSystem UdpFacts UdpInput UdpFlow ReassQueue ReassSpec ReassStep ReassRun ReassDatagram Frag FragCopy FragFacts FragTrip EtharpExamples.

#[local] Existing Instance no_custom_free.
#[local] Existing Instance debug_build.

(** A driver that keeps the frames it is given, newest first. *)
#[local] Instance log_wire : Wire := {|
  wstate := list (nat * list Z);
  wire_output := linkoutput (LinkOutput := log_link);
  tstate := udp_vars
|}.
#[local] Program Instance log_wire_laws : WireLaws := {|
  wire_ok _ := True;
  wire_rel n bytes l r l' := r = ERR_OK /\ l' = (n, bytes) :: l
|}.
Next Obligation. exact (law_linkoutput (LinkLaws := log_laws)). Qed.

(** No packet is too long for the interface, and no upper protocol is there. *)
Definition no_frag (p : loc) (n : nat) (dest : Z) : M eth Z := mret ERR_VAL.
Definition no_upper (p : loc) (n : nat) : M eth unit := ip4_drop p.
Definition even_at (x : option ptr) : bool := false.

Definition if_up : link_if :=
  LinkIf ip_me (word32 255 255 255 0) (word32 192 168 10 1) hw_me
    (Z.lor (Z.lor NETIF_FLAG_UP NETIF_FLAG_LINK_UP) (Z.lor NETIF_FLAG_BROADCAST NETIF_FLAG_ETHARP)) 0.

(** Two control blocks: the first on port 7, the other just made. *)
Definition pcb_7 : udp_pcb := UdpPcb 0 0 0 0 0 UDP_TTL None 0 7 0 (Some 1) 0.
Definition pcb_new : udp_pcb := set_ttl UDP_TTL zero_pcb.
Definition udp_two : udp_vars := UdpVars UDP_LOCAL_PORT_RANGE_START (Some (pcb_elem 0)) {[ pcb_elem 0 := pcb_7; pcb_elem 1 := pcb_new ]}.
Definition vars0 : ip_vars := IpVars _ _ 7 no_ip_data [0%nat] (Some 0%nat) (fun _ => 1500) None ∅ ∅ 0 udp_two.

(** [bs] in a buffer of the pool, behind [gap] bytes. *)
Definition pool_buf (gap : Z) (bs : list Z) : pbuf :=
  Pbuf None (Some (Pool MEMP_PBUF_POOL 0, gap)) (Z.of_nat (length bs)) (Z.of_nat (length bs)) (u8 (pbuf_type_value PBUF_POOL)) 0 1 NETIF_NO_INDEX.
Definition pool_mem (gap : Z) (bs : list Z) : mem :=
  Mem mem_c (<[MEMP_UDP_PCB := [2%nat; 3%nat]]> (<[MEMP_PBUF_POOL := seq 1 15]> (memp_init (fun _ => [])))) fresh_heap
    {[ Pool MEMP_PBUF_POOL 0 := pool_buf gap bs ]}
    {[ Pool MEMP_PBUF_POOL 0 := replicate (Z.to_nat gap) 0 ++ bs ++ replicate 100 0 ]} false ∅.
Definition pool_node (gap : Z) (bs : list Z) : node := Node (Pool MEMP_PBUF_POOL 0) (pool_buf gap bs) bs.

Lemma pool_packet gap bs : 0 <= gap -> Z.of_nat (length bs) < 65536 ->
  packet (pool_mem gap bs) (Some (n_loc (pool_node gap bs))) [pool_node gap bs].
Proof.
  intros Hg Hl. assert (E : total [pool_node gap bs] = Z.of_nat (length bs)) by (unfold total, contents; cbn [map concat n_data pool_node]; by rewrite app_nil_r).
  split; [|split; [by rewrite E|done]|apply NoDup_singleton|apply NoDup_singleton|by rewrite E].
  split_and!; [done|apply lookup_singleton_eq| |done]. split; [done|]. eexists. split_and!; [apply lookup_singleton_eq|done| |].
  - simpl. rewrite !length_app, !length_replicate. lia.
  - simpl n_data. rewrite drop_app_length' by (by rewrite length_replicate). by rewrite take_app_length.
Qed.

(** The host, its peer's hardware address in the table. *)
Definition ip_host (m : mem) : eth := Eth _ _ m ([], vars0) (fun _ => if_up) young_bound 0.

Lemma ip_host_arp m : arp_ok (ip_host m).
Proof. destruct young_bound_ok as [T C]. by split. Qed.

Lemma ip_host_resolved m : resolved (ip_host m) 0 ip_peer hw_peer.
Proof. exists 0, (binding ip_peer 0 hw_peer). by split_and!. Qed.

(** ** Output *)

Definition out_bytes : list Z := seqZ 100 20.

Lemma out_sendable : ip_sendable (ip_host (pool_mem 40 out_bytes)) 0 (pool_node 40 out_bytes) [].
Proof.
  split; [by apply pool_packet| |vm_compute; discriminate|right; vm_compute; discriminate|apply ip_host_arp|done|done|done].
  split; [done|]. by exists 40.
Qed.

Lemma out_args : header_args ip_me ip_peer 255 0 IP_PROTO_UDP.
Proof. by split. Qed.

Lemma ip4_output_sends_witness :
  (exists r s', ip4_output no_frag (Pool MEMP_PBUF_POOL 0) None (Some ip_peer) 255 0 IP_PROTO_UDP (ip_host (pool_mem 40 out_bytes)) = Ret r s') /\
  outcome_val ((ip4_output no_frag (Pool MEMP_PBUF_POOL 0) None (Some ip_peer) 255 0 IP_PROTO_UDP;; gets (fun s => (elink s).1))
    (ip_host (pool_mem 40 out_bytes))) =
  Some [(0%nat, frame hw_peer hw_me ETHTYPE_IP (ip_header 0 40 7 0 255 IP_PROTO_UDP ip_me ip_peer ++ out_bytes))].
Proof.
  split; [|vm_compute; reflexivity].
  destruct (ip4_output_sends no_frag (ip_host (pool_mem 40 out_bytes)) (pool_node 40 out_bytes) [] None ip_peer 255 0 IP_PROTO_UDP 0 hw_peer)
    as [_ Hs].
  destruct (Hs eq_refl out_sendable (ip_host_resolved _) out_args) as (r & s' & E & _). by exists r, s'.
Defined.

(** ** Input *)

Definition ping_text : list Z := [0; 1; 0; 9] ++ seqZ 97 16.
Definition ping_ck : Z := 0xffff - rfc1071 (echo_message ICMP_ECHO 0 0 ping_text).
Definition ping_message : list Z := echo_message ICMP_ECHO 0 ping_ck ping_text.
Definition ping_ip : list Z := ip_header 0 44 0x1234 0 64 IP_PROTO_ICMP ip_peer ip_me.
Definition ping_bytes : list Z := frame hw_me hw_peer ETHTYPE_IP (ping_ip ++ ping_message ++ [0; 0]).
Definition ping_run : M eth Z := ethernet_input (ip4_input even_at no_frag no_upper no_upper) (Pool MEMP_PBUF_POOL 0) 0.

Lemma pool_trimmable gap bs : trimmable [pool_node gap bs].
Proof. apply Forall_singleton. by split. Qed.

(** Bytes, by evaluation. *)
Lemma bytes_by_run l : forallb (fun x => (0 <=? x) && (x <? 256)) l = true -> Forall byte l.
Proof. rewrite forallb_forall. intros H. apply Forall_forall. intros x Hx%list_elem_of_In%H. unfold byte. lia. Qed.

Lemma ping_frame_example :
  ping_frame (ip_host (pool_mem 0 ping_bytes)) (pool_node 0 ping_bytes) [] hw_me hw_peer 0 0x1234 0 64
    (bytes16 (0xffff - rfc1071 (header_fields 0 44 0x1234 0 64 IP_PROTO_ICMP [0; 0] ip_peer ip_me)))
    ip_peer ip_me 0 ping_ck ping_text [0; 0].
Proof.
  split; [by apply pool_packet|apply pool_trimmable|split; [done|by exists 0]|vm_compute; discriminate|reflexivity|done|done|
    apply bytes_by_run; vm_compute; reflexivity|vm_compute; reflexivity|split; [apply bytes_by_run|]; vm_compute; reflexivity| |split; [simpl; lia|done]].
  split_and!; try done. by left.
Qed.

Lemma ping_host_ok m : pingable (ip_host m) 0 0 ip_me.
Proof. split; [apply ip_host_arp|done..]. Qed.

Lemma ping_is_answered_witness :
  (exists s', ping_run (ip_host (pool_mem 0 ping_bytes)) = Ret ERR_OK s' /\
     replied (ip_host (pool_mem 0 ping_bytes)) s' 0 (pool_node 0 ping_bytes) [] hw_peer
       (echo_answer 0 44 0x1234 0 ip_peer ip_me 0 ping_ck ping_text)) /\
  outcome_val ((ping_run;; gets (fun s => (elink s).1)) (ip_host (pool_mem 0 ping_bytes))) =
    Some [(0%nat, frame hw_peer hw_me ETHTYPE_IP
      (ip_header 0 44 0x1234 0 255 IP_PROTO_ICMP ip_me ip_peer ++
       echo_message ICMP_ER 0 (0xffff - rfc1071 (echo_message ICMP_ER 0 0 ping_text)) ping_text))].
Proof.
  split; [|vm_compute; reflexivity].
  destruct (ping_is_answered even_at no_frag no_upper no_upper (ip_host (pool_mem 0 ping_bytes)) (pool_node 0 ping_bytes) [] hw_me hw_peer 0 0x1234 0 64
    (bytes16 (0xffff - rfc1071 (header_fields 0 44 0x1234 0 64 IP_PROTO_ICMP [0; 0] ip_peer ip_me)))
    ip_peer ip_me 0 ping_ck ping_text [0; 0] 0 0 hw_peer ping_frame_example (ping_host_ok _) eq_refl (ip_host_resolved _)) as [Hr _];
    [right; vm_compute; discriminate|exact Hr].
Defined.

(** A packet of protocol 99 for this host, with four bytes too many, and one
    with a wrong checksum. *)
Definition odd_packet (ck : list Z) : list Z := header_fields 0 24 9 0 64 99 ck ip_peer ip_me ++ [1; 2; 3; 4; 5; 6; 7; 8].
Definition odd_ck : list Z := bytes16 (0xffff - rfc1071 (header_fields 0 24 9 0 64 99 [0; 0] ip_peer ip_me)).
Definition odd_host (ck : list Z) : eth := ip_host (pool_mem 14 (odd_packet ck)).
Definition odd_node (ck : list Z) : node := pool_node 14 (odd_packet ck).
Definition odd_input : M eth unit := ip4_input even_at no_frag no_upper no_upper (Pool MEMP_PBUF_POOL 0) 0.

Lemma odd_arrived ck : length ck = 2%nat -> arrived (odd_host ck) (odd_node ck) [].
Proof.
  intros L. assert (E : length (odd_packet ck) = 28%nat) by (unfold odd_packet; by rewrite length_app, header_fields_length).
  split; [apply pool_packet; [done|by rewrite E]|apply pool_trimmable|]. change (20 <= Z.of_nat (length (odd_packet ck))). lia.
Qed.

Lemma ip4_input_fate_witness :
  exists s', dropped (Pool MEMP_PBUF_POOL 0) (odd_node [0; 0]) [] (odd_host [0; 0]) s' /\ odd_input (odd_host [0; 0]) = Ret tt s'.
Proof.
  destruct (ip4_input_fate even_at no_frag no_upper no_upper (odd_host [0; 0]) (odd_node [0; 0]) [] 0 (odd_arrived [0; 0] eq_refl))
    as [(s' & _ & Hd & E)|([_ Hg] & _)].
  - apply bytes_by_run. vm_compute. reflexivity.
  - intros Hm. vm_compute in Hm. discriminate.
  - by exists s'.
  - exfalso. vm_compute in Hg. discriminate.
Defined.

Lemma ip4_input_delivers_witness :
  (exists m2 nd2 c2, for_upper (emem (odd_host odd_ck)) (odd_node odd_ck) [] m2 nd2 c2 /\
    odd_input (odd_host odd_ck) = (ip4_deliver even_at no_frag no_upper no_upper (Pool MEMP_PBUF_POOL 0) (hdr_proto (odd_packet odd_ck)) (hdr_hlen (odd_packet odd_ck)) 0 0;; mod_ipv (set_ip_data no_ip_data))
      (set_emem m2 (set_ipv (current 0 0 (odd_node odd_ck) vars0) (odd_host odd_ck)))) /\
  hdr_proto (odd_packet odd_ck) = 99 /\ hdr_hlen (odd_packet odd_ck) = 20.
Proof.
  split; [|vm_compute; by split].
  assert (Hb : Forall byte (n_data (odd_node odd_ck))) by (apply bytes_by_run; vm_compute; reflexivity).
  assert (Hp : port_there (odd_host odd_ck) 0 (odd_node odd_ck)) by (intros Hm; vm_compute in Hm; discriminate).
  assert (Hg : good_header (odd_node odd_ck) []) by (split; [vm_compute; intuition congruence|vm_compute; reflexivity]).
  assert (Hf : packet_fate (netifs (odd_host odd_ck)) (netif_list (ipv (odd_host odd_ck))) 0 (n_data (odd_node odd_ck)) (port_of (n_data (odd_node odd_ck))) = ToUpper 0)
    by (vm_compute; reflexivity).
  exact (ip4_input_delivers even_at no_frag no_upper no_upper _ _ _ _ _ (odd_arrived odd_ck eq_refl) Hb Hp Hg Hf).
Defined.

#[local] Existing Instance no_custom_free.
#[local] Existing Instance debug_build.
#[local] Existing Instance log_wire.
#[local] Existing Instance log_wire_laws.

(** The bytes [data] of the datagram, from [off] on. *)
Definition frag_bytes (off : Z) (more : bool) (data : list Z) : list Z :=
  header_fields 0 (20 + Z.of_nat (length data)) 0x1234 (off / 8 + (if more then 0x2000 else 0)) 64 99 [0; 0] ip_peer ip_me ++ data.
Definition bytes_a : list Z := frag_bytes 0 true (seqZ 1 16).
Definition bytes_b : list Z := frag_bytes 16 true (seqZ 17 8).
Definition bytes_c : list Z := frag_bytes 24 false (seqZ 25 3).

(** [bs] in the buffer [i] of the pool. *)
Definition slot_buf (i : nat) (bs : list Z) : pbuf :=
  Pbuf None (Some (Pool MEMP_PBUF_POOL i, 0)) (Z.of_nat (length bs)) (Z.of_nat (length bs)) (u8 (pbuf_type_value PBUF_POOL)) 0 1 NETIF_NO_INDEX.
Definition slot_piece (i : nat) (bs : list Z) : piece := (Node (Pool MEMP_PBUF_POOL i) (slot_buf i bs) bs, []).
Definition piece_a : piece := slot_piece 0 bytes_a.
Definition piece_b : piece := slot_piece 1 bytes_b.
Definition piece_c : piece := slot_piece 2 bytes_c.

Definition frags_mem : mem :=
  Mem mem_c (<[MEMP_PBUF_POOL := seq 3 13]> (memp_init (fun _ => []))) fresh_heap
    (list_to_map [(Pool MEMP_PBUF_POOL 0, slot_buf 0 bytes_a); (Pool MEMP_PBUF_POOL 1, slot_buf 1 bytes_b); (Pool MEMP_PBUF_POOL 2, slot_buf 2 bytes_c)])
    (list_to_map [(Pool MEMP_PBUF_POOL 0, bytes_a ++ replicate 100 0); (Pool MEMP_PBUF_POOL 1, bytes_b ++ replicate 100 0); (Pool MEMP_PBUF_POOL 2, bytes_c ++ replicate 100 0)])
    false ∅.
Definition frags_host : eth := ip_host frags_mem.

Lemma slot_fragment m i bs : pbufs m !! Pool MEMP_PBUF_POOL i = Some (slot_buf i bs) -> bytes m !! Pool MEMP_PBUF_POOL i = Some (bs ++ replicate 100 0) ->
  20 <= Z.of_nat (length bs) < 65536 -> hdr_hlen bs = 20 -> hdr_len bs = Z.of_nat (length bs) -> fragment m (slot_piece i bs).1 (slot_piece i bs).2.
Proof.
  intros Hb Hd Hl Hh Hlen. assert (E : total ((slot_piece i bs).1 :: (slot_piece i bs).2) = Z.of_nat (length bs)) by (unfold total, contents; cbn; by rewrite app_nil_r).
  split; [|by apply Forall_singleton; split; [|split]|exact (proj1 Hl)|done|done|by rewrite E].
  split; [|split; [by rewrite E|done]|apply NoDup_singleton|apply NoDup_singleton|rewrite E; lia].
  split_and!; [done|done| |done]. split; [done|]. eexists. split_and!; [exact Hd|done| |].
  - cbn. rewrite length_app. lia.
  - change (bs = take (length bs) (bs ++ replicate 100 0)). by rewrite take_app_length.
Qed.

Lemma frag_plain off more data : plain_header (take 20 (frag_bytes off more data)).
Proof.
  unfold frag_bytes. rewrite take_app_length' by (by rewrite header_fields_length).
  do 9 eexists. split_and!; [..|reflexivity]; done.
Qed.

(** Fragments that share nothing, by evaluation. *)
Lemma disj_by_run f g : bool_decide (Forall (fun l => l ∉ foot (qf_chain g)) (foot (qf_chain f))) = true -> disj f g.
Proof. intros Hd%bool_decide_eq_true l. rewrite Forall_forall in Hd. apply Hd. Qed.

Lemma pieces_same_datagram f g : f ∈ [piece_a; piece_b; piece_c] -> g ∈ [piece_a; piece_b; piece_c] ->
  IP_ADDRESSES_AND_ID_MATCH (frag_hdr f.1) (frag_hdr g.1) = true.
Proof.
  assert (E : forallb (fun f => forallb (fun g => IP_ADDRESSES_AND_ID_MATCH (frag_hdr f.1) (frag_hdr g.1)) [piece_a; piece_b; piece_c])
    [piece_a; piece_b; piece_c] = true) by (vm_compute; reflexivity).
  rewrite forallb_forall in E. intros Hf%list_elem_of_In%E Hg%list_elem_of_In. rewrite forallb_forall in Hf. by apply Hf.
Qed.

Lemma example_datagram : datagram piece_a [piece_b; piece_c].
Proof.
  split; [vm_compute; reflexivity|repeat (apply Forall_cons; split; [vm_compute; reflexivity|]); done| |repeat (apply Forall_cons; split; [apply frag_plain|]); done|exact pieces_same_datagram|
    repeat (apply Forall_cons; split; [vm_compute; discriminate|]); done| |vm_compute; discriminate].
  - exists [piece_a; piece_b], piece_c. split; [done|]. split; [|vm_compute; reflexivity]. repeat (apply Forall_cons; split; [vm_compute; reflexivity|]). done.
  - cbn [map apart]. split_and!; repeat (apply Forall_cons; split; [apply disj_by_run; vm_compute; reflexivity|]); done.
Qed.

Lemma example_fragments : Forall (fun f => fragment frags_mem f.1 f.2) [piece_c; piece_a; piece_b].
Proof.
  repeat (apply Forall_cons; split; [apply slot_fragment; [reflexivity|reflexivity|split; [vm_compute; discriminate|done]|reflexivity|reflexivity]|]). done.
Qed.

Lemma example_ok : reass_ok frags_host [].
Proof.
  split; [|done]. split; [done|constructor|done|constructor|constructor|constructor|constructor| |done]. split; [|intros i _; apply not_elem_of_nil].
  apply (bool_decide_unpack _). vm_compute. exact I.
Qed.

Lemma datagram_reassembled_witness : exists p c s',
  reass_each even_at no_frag (map piece_loc [piece_c; piece_a; piece_b]) frags_host = Ret [None; None; Some p] s' /\
  contents c = ip_header 0 47 0x1234 0 64 99 ip_peer ip_me ++ seqZ 1 27 /\ packet (emem s') (Some p) c.
Proof.
  destruct (datagram_reassembled even_at no_frag piece_a [piece_b; piece_c] [piece_c; piece_a; piece_b] frags_host example_datagram)
    as (p & c & s' & E & Hp & Hc & _); [solve_Permutation|apply example_ok|vm_compute; discriminate|apply example_fragments|].
  exists p, c, s'. split; [exact E|]. split; [|exact Hp]. rewrite Hc. vm_compute. reflexivity.
Defined.

Lemma ip4_reass_refines_witness : exists r s',
  ip4_reass even_at no_frag (Pool MEMP_PBUF_POOL 2) frags_host = Ret r s' /\ r = None /\
  exists d, reass_inv s' [d] /\ dg_len d = 27 /\ map qf_start (dg_frags d) = [24].
Proof.
  assert (Hw : welcome frags_host [] piece_c.1 piece_c.2 (Pool MEMP_REASSDATA 4)).
  { pose proof example_fragments as Hf. apply Forall_cons in Hf as [Hf _].
    split; [exact Hf|by intros g ?%elem_of_nil|apply frag_plain|vm_compute; discriminate|vm_compute; reflexivity|].
    apply completes_short; [vm_compute; lia|vm_compute; discriminate|constructor]. }
  destruct (ip4_reass_refines even_at no_frag frags_host [] piece_c.1 piece_c.2 _ example_ok Hw) as (r & s' & E & Hadd & _).
  exists r, s'. split; [exact E|]. destruct Hadd as (-> & Hi & _). split; [done|]. eexists. split; [exact Hi|]. split; vm_compute; reflexivity.
Defined.

(** ** UDP *)

#[local] Program Instance only_udp : UdpState := {| udp_part v := v; put_udp_part v _ := v |}.
Solve Obligations with done.

(** A receive function: the block notes the sender's port, the packet is
    released. *)
#[local] Instance note_port : UdpUser := {|
  udp_recv_fn f arg l p src port := set_pcb l (set_recv (Some f) port);; udp_drop p
|}.

Definition two_pcbs : list (loc * udp_pcb) := [(pcb_elem 0, pcb_7)].

Lemma two_listed : listed udp_two two_pcbs.
Proof. split; [|apply NoDup_singleton]. split; [done|]. exists None. by split. Qed.

Lemma two_sockets gap bs : sockets (ip_host (pool_mem gap bs)) two_pcbs.
Proof.
  split.
  - apply two_listed.
  - by vm_compute.
  - intros l1 p1 l2 p2 [= -> ->]%list_elem_of_singleton [= -> ->]%list_elem_of_singleton. done.
  - by apply Forall_singleton.
  - intros l p [n E] Hl. cbn in E. change (udp_pool udp_two !! l = Some (set_pcb_next n p)) in E. unfold udp_two in E. cbn [udp_pool] in E.
    apply lookup_insert_Some in E as [[<- _]|[_ E]]; [exfalso; apply Hl; by left|]. apply lookup_singleton_Some in E as [<- E].
    exact (eq_sym (f_equal local_port E)).
  - exists [0%nat; 1%nat]. split; [change ([2; 3; 0; 1]%nat ≡ₚ seq 0 4); apply (bool_decide_unpack _); vm_compute; exact I|]. apply set_eq. intros l. cbn.
    change (l ∈ dom (udp_pool udp_two) <-> l ∈ ({[pcb_elem 0]} ∪ ({[pcb_elem 1]} ∪ ∅) : gset loc)). unfold udp_two. cbn [udp_pool]. set_solver.
Qed.

Lemma udp_bind_claims_witness :
  udp_bind (Some (pcb_elem 1)) (Some ip_me) 7 (ip_host (pool_mem 0 [])) = Ret ERR_USE (ip_host (pool_mem 0 [])) /\
  exists port v, udp_bind (Some (pcb_elem 1)) (Some ip_me) 0 (ip_host (pool_mem 0 [])) = Ret ERR_OK (put_udp v (ip_host (pool_mem 0 []))) /\ in_range port /\
    holds_pcb v (pcb_elem 1) (set_local ip_me port pcb_new).
Proof.
  assert (Hp : holds_pcb (udpv (ip_host (pool_mem 0 []))) (pcb_elem 1) pcb_new) by (by exists None).
  split; [exact (udp_bind_claims (pcb_elem 1) pcb_new (Some ip_me) 7 _ _ (two_sockets 0 []) Hp ltac:(lia))|].
  destruct (udp_bind_claims (pcb_elem 1) pcb_new (Some ip_me) 0 _ _ (two_sockets 0 []) Hp ltac:(lia)) as (port & v & E & [Hr _] & Hc).
  exists port, v. split; [exact E|]. split; [exact Hr|apply Hc].
Defined.

(** Four calls, one after the other. *)
Definition fresh_udp_host : eth :=
  Eth _ _ (Mem mem_c (memp_init (fun _ => [])) fresh_heap ∅ ∅ false ∅) ([], set_above (UdpVars UDP_LOCAL_PORT_RANGE_START None ∅) vars0)
    (fun _ => if_up) young_bound 0.
Definition after (c : udp_call) (s : eth) : eth := match make_call c s with Ret _ s' => s' | _ => s end.
Definition four_calls : list udp_call := [CallNew; CallNew; CallBind (pcb_elem 3) None 7; CallConnect (pcb_elem 2) ip_peer 53].
Definition busy_udp_host : eth := fold_left (fun s c => after c s) four_calls fresh_udp_host.

Lemma call_by_run c s s2 : match make_call c s with Ret _ _ => true | _ => false end = true -> allowed c s -> calls (after c s) s2 -> calls s s2.
Proof. intros Hr Ha Hc. apply (calls_one c s (after c s) s2 Ha); [|done]. unfold after. by destruct (make_call c s) as [[] s'|]. Qed.

Lemma in_pool_by_run l s : bool_decide (is_Some (udp_pool (udpv s) !! l)) = true -> l ∈ dom (udp_pool (udpv s)).
Proof. by intros Hl%bool_decide_eq_true%elem_of_dom. Qed.

Lemma busy_calls : calls fresh_udp_host busy_udp_host.
Proof.
  unfold busy_udp_host, four_calls. cbn [fold_left].
  apply (call_by_run CallNew); [vm_compute; reflexivity|exact I|]. apply (call_by_run CallNew); [vm_compute; reflexivity|exact I|].
  apply (call_by_run (CallBind (pcb_elem 3) None 7)); [vm_compute; reflexivity|split; [apply in_pool_by_run; vm_compute; reflexivity|done]|].
  apply (call_by_run (CallConnect (pcb_elem 2) ip_peer 53)); [vm_compute; reflexivity|apply in_pool_by_run; vm_compute; reflexivity|].
  apply calls_none.
Qed.

Lemma udp_sockets_apart_witness : exists ps, sockets busy_udp_host ps /\
  (exists s', make_call (CallBind (pcb_elem 2) None 7) busy_udp_host = Ret tt s' /\ kept_sockets s') /\
  (fun p => (local_port p, remote_port p)) <$> udp_pool (udpv busy_udp_host) = {[ pcb_elem 3 := (7, 0); pcb_elem 2 := (0xc001, 53) ]}.
Proof.
  destruct (udp_sockets_apart fresh_udp_host busy_udp_host) as (ps & Hs & Hall); [split; [done|apply pool_ok_init]|apply busy_calls|].
  exists ps. split; [exact Hs|]. split; [|vm_compute; reflexivity]. apply Hall. split; [apply in_pool_by_run; vm_compute; reflexivity|done].
Defined.

(** A datagram from port 5000 of the peer to port 7. *)
Definition query : list Z := [1; 2; 3; 4; 5].
Definition query_message : list Z := udp_message ip_peer ip_me 5000 7 query.

(** IP has taken the packet in. *)
Definition taking (m : mem) : eth := set_ipv (set_ip_data (IpGlobals (Some 0%nat) (Some 0%nat) None 20 ip_peer ip_me) vars0) (ip_host m).

Lemma query_packet : packet (emem (taking (pool_mem 34 query_message))) (Some (Pool MEMP_PBUF_POOL 0)) [pool_node 34 query_message].
Proof. by apply (pool_packet 34 query_message). Qed.

Lemma udp_input_demux_witness : exists v,
  udp_input even_at no_frag (Pool MEMP_PBUF_POOL 0) 0 (taking (pool_mem 34 query_message)) =
    udp_recv_fn 1 0 (pcb_elem 0) (Pool MEMP_PBUF_POOL 0) ip_peer 5000
      (set_emem (behead 8 (pool_node 34 query_message) (pool_mem 34 query_message)) (put_udp v (taking (pool_mem 34 query_message)))) /\
  reordered udp_two two_pcbs v.
Proof.
  destruct (udp_input_demux even_at no_frag (taking (pool_mem 34 query_message)) (pool_node 34 query_message) [] 0 0 ip_peer ip_me two_pcbs query_packet)
    as [_ Hin]; [apply trimmable_releasable, pool_trimmable|apply bytes_by_run; vm_compute; reflexivity|by vm_compute|apply two_listed|].
  destruct Hin as (v & Hv & _ & _ & Hto); [vm_compute; discriminate|]. exists v. split; [|exact Hv].
  destruct Hto as [E _]; [vm_compute; discriminate|]. etransitivity; [exact E|]. clear E.
  match goal with |- udp_outcome _ _ ?f _ _ _ _ = _ => replace f with (UdpToSocket (pcb_elem 0) 1 0) by (vm_compute; reflexivity) end.
  match goal with |- udp_outcome _ _ _ _ _ ?sp _ = _ => replace sp with 5000 by (vm_compute; reflexivity) end. reflexivity.
Defined.

Lemma answer_sendable : udp_sendable (ip_host (pool_mem 42 query)) 0 (pool_node 42 query) [].
Proof.
  split; [by apply pool_packet| |vm_compute; discriminate|right; vm_compute; discriminate|apply ip_host_arp|done|done|done|apply bytes_by_run; reflexivity].
  split; [done|]. by exists 42.
Qed.

Lemma udp_sendto_sends_witness :
  (exists port v ret s', udp_sendto even_at no_frag (Some (pcb_elem 1)) (Some (Pool MEMP_PBUF_POOL 0)) (Some ip_peer) 53 (ip_host (pool_mem 42 query)) = Ret ret s' /\
     in_range port /\ udp_sent 0 (pool_node 42 query) [] pcb_new ip_me ip_peer port 53 hw_peer (put_udp v (ip_host (pool_mem 42 query))) ret s') /\
  outcome_val ((udp_sendto even_at no_frag (Some (pcb_elem 1)) (Some (Pool MEMP_PBUF_POOL 0)) (Some ip_peer) 53;; gets (fun s => (elink s).1))
    (ip_host (pool_mem 42 query))) =
  Some [(0%nat, frame hw_peer hw_me ETHTYPE_IP (ip_header 0 33 7 0 255 IP_PROTO_UDP ip_me ip_peer ++ udp_message ip_me ip_peer 0xc001 53 query))].
Proof.
  split; [|vm_compute; reflexivity].
  assert (Hp : holds_pcb (udpv (ip_host (pool_mem 42 query))) (pcb_elem 1) pcb_new) by (by exists None).
  destruct (udp_sendto_sends even_at no_frag (ip_host (pool_mem 42 query)) (pool_node 42 query) [] (pcb_elem 1) pcb_new ip_peer 53 (Some 0%nat) two_pcbs
    (two_sockets 42 query) Hp eq_refl hw_peer answer_sendable (ip_host_resolved _)) as (port & v & ret & s' & E & [Hr _] & Hsent & _); [done|done|by split|].
  exists port, v, ret, s'. split; [exact E|]. by split.
Defined.

Definition query_ck : list Z := bytes16 (0xffff - rfc1071 (header_fields 0 33 9 0 64 IP_PROTO_UDP [0; 0] ip_peer ip_me)).
Definition query_frame : list Z := frame hw_me hw_peer ETHTYPE_IP (header_fields 0 33 9 0 64 IP_PROTO_UDP query_ck ip_peer ip_me ++ query_message ++ [0; 0; 0]).

(** ** ARP under the stack *)

(** An input of TCP that asks for an address and releases the packet. *)
Definition ip_other : Z := word32 192 168 10 9.
Definition asking_tcp (p : loc) (n : nat) : M eth unit := etharp_query n ip_other None;; no_upper p n.

Lemma young_bound_young : Forall young young_bound.
Proof. repeat constructor; try done; intros []; done. Qed.

Lemma asking_tcp_client p n : arp_client (asking_tcp p n).
Proof. apply client_bind; [apply client_query|]. intros _. apply client_link. unfold no_upper, ip4_drop. link_solve. Qed.

Lemma note_port_client f arg l p addr port : arp_client (udp_recv_fn f arg l p addr port).
Proof.
  apply client_link. assert (Hm : forall g, link_only (mod_udpv g)) by (intros g; intros ?; by split_and!).
  unfold udp_recv_fn, note_port, set_pcb, get_pcb, udp_drop, udp_var, deref. link_solve; first [apply Hm|by intros ?].
Qed.

Definition tcp_ck : list Z := bytes16 (0xffff - rfc1071 (header_fields 0 28 9 0 64 IP_PROTO_TCP [0; 0] ip_peer ip_me)).
Definition tcp_frame : list Z := frame hw_me hw_peer ETHTYPE_IP (header_fields 0 28 9 0 64 IP_PROTO_TCP tcp_ck ip_peer ip_me ++ [1; 2; 3; 4; 5; 6; 7; 8]).

(** A frame comes in, an address is asked for, the timers go off. *)
Definition some_events : list (event (W := log_wire)) :=
  [E_frame (Pool MEMP_PBUF_POOL 0) 0; E_call (C_query 0 (word32 192 168 10 8) None); E_call C_tmr; E_reass_tmr].
Definition run_events : M eth unit := for_each some_events (do_event even_at asking_tcp).

(** With a segment: TCP's address and the other one are pending. *)
Lemma arp_table_well_formed_witness :
  (length (arp_table (outcome_state (run_events (ip_host (pool_mem 0 tcp_frame))))) = 10%nat /\
   Forall entry_ok (arp_table (outcome_state (run_events (ip_host (pool_mem 0 tcp_frame))))) /\
   0 <= etharp_cached_entry (outcome_state (run_events (ip_host (pool_mem 0 tcp_frame)))) < 10) /\
  outcome_val ((run_events;; gets (fun s => map state (take 3 (arp_table s)))) (ip_host (pool_mem 0 tcp_frame))) =
    Some [ETHARP_STATE_STABLE; ETHARP_STATE_PENDING; ETHARP_STATE_PENDING].
Proof.
  split; [|vm_compute; reflexivity].
  unfold run_events. apply (arp_table_well_formed even_at asking_tcp asking_tcp_client note_port_client some_events (ip_host (pool_mem 0 tcp_frame)));
    [exact (proj1 young_bound_ok)|vm_compute; intuition congruence|exact young_bound_young].
Defined.

(** With a datagram, which reaches the receive function. *)
Lemma arp_table_coherent_witness :
  (distinct (arp_table (outcome_state (run_events (ip_host (pool_mem 0 query_frame))))) /\
   forall s', run_events (ip_host (pool_mem 0 query_frame)) = Ret tt s' -> Forall young (arp_table s')) /\
  outcome_val ((run_events;; gets (fun s => (map state (take 3 (arp_table s)), recv_arg <$> udp_pool (udpv s) !! pcb_elem 0)))
    (ip_host (pool_mem 0 query_frame))) = Some ([ETHARP_STATE_STABLE; ETHARP_STATE_PENDING; ETHARP_STATE_EMPTY], Some 5000).
Proof.
  split; [|vm_compute; reflexivity].
  unfold run_events. apply (arp_table_coherent even_at asking_tcp asking_tcp_client note_port_client some_events (ip_host (pool_mem 0 query_frame)));
    [exact (proj1 young_bound_ok)|vm_compute; intuition congruence|exact young_bound_young].
Defined.

Lemma query_ip_frame :
  ip_frame (ip_host (pool_mem 0 query_frame)) (pool_node 0 query_frame) [] hw_me hw_peer 0 9 0 64 IP_PROTO_UDP query_ck ip_peer ip_me query_message [0; 0; 0].
Proof.
  split; [by apply pool_packet|apply pool_trimmable|vm_compute; discriminate|reflexivity|done|done|apply bytes_by_run; vm_compute; reflexivity|
    vm_compute; reflexivity|split_and!; [by left|done..]|vm_compute; discriminate].
Qed.

Lemma note_port_runs s p l q nd c src port : udp_pool (udpv s) !! l = Some q -> n_loc nd = p -> packet (emem s) (Some p) (nd :: c) ->
  EtharpReply.releasable (nd :: c) ->
  wp (udp_recv_fn 1 0 l p src port) (fun _ s2 => recv_arg <$> udp_pool (udpv s2) !! l = Some port) s.
Proof.
  intros E <- Hp Hr. cbn [udp_recv_fn note_port]. apply wp_bind. eapply wp_set_pcb; [exact E|].
  match goal with |- wp _ _ ?st => set (s1 := st) end. destruct (drop_released nd c s1 Hp Hr) as (j & m' & _ & E2). eapply wp_of_run; [exact E2|].
  change (udpv (set_emem m' s1)) with (udpv s1). unfold s1. rewrite udpv_put. cbn. by rewrite lookup_insert_eq.
Qed.

Lemma udp_datagram_delivered_witness : exists s1 s2,
  udp_recv_fn 1 0 (pcb_elem 0) (Pool MEMP_PBUF_POOL 0) ip_peer 5000 s1 = Ret tt s2 /\
  handed_over (ip_host (pool_mem 0 query_frame)) s1 (Pool MEMP_PBUF_POOL 0) 0 0 ip_peer ip_me two_pcbs query /\
  ethernet_input (ip4_input even_at no_frag (udp_input even_at no_frag) no_upper) (Pool MEMP_PBUF_POOL 0) 0 (ip_host (pool_mem 0 query_frame)) =
    Ret ERR_OK (end_packet s2) /\
  recv_arg <$> udp_pool (udpv s2) !! pcb_elem 0 = Some 5000.
Proof.
  destruct (udp_datagram_delivered even_at no_frag no_upper _ _ _ _ _ _ _ _ _ _ _ _ 5000 7 query _ 0 0 (pcb_elem 0) pcb_7 1 two_pcbs query_ip_frame)
    as (s1 & s2 & Hrec & Hcall & E); [split; vm_compute; reflexivity|vm_compute; discriminate|done|done|apply two_listed|vm_compute; reflexivity|done| |].
  - intros s1 [(nd & c & El & Hp & Hr & _) [[Hc _] _ _ _] _ _]. destruct Hc as (_ & nx & Ep & _).
    destruct (wp_elim _ _ _ (note_port_runs s1 _ _ _ nd c ip_peer 5000 Ep El Hp Hr)) as ([] & s2 & E & _). by exists s2.
  - exists s1, s2. split; [exact Hcall|]. split; [exact Hrec|]. split; [exact E|].
    destruct Hrec as [(nd & c & El & Hp & Hr & _) [[Hc _] _ _ _] _ _]. destruct Hc as (_ & nx & Ep & _).
    destruct (wp_elim _ _ _ (note_port_runs s1 _ _ _ nd c ip_peer 5000 Ep El Hp Hr)) as ([] & s2' & E' & H2).
    assert (Es : Ret tt s2 = Ret tt s2') by (rewrite <- Hcall; exact E'). injection Es as ->. exact H2.
Defined.

(** ** Fragmentation *)

Section Fragmentation.
#[local] Instance references : CustomFree := frag_custom_free 1.

(** A packet of 120 bytes in two buffers of the pool. *)
Definition long_data : list Z := seqZ 1 100.
Definition long_packet : list Z := ip_header 0 120 7 0 64 99 ip_me ip_peer ++ long_data.
Definition long_buf (i : nat) (nx : option loc) (tot n : Z) : pbuf :=
  Pbuf nx (Some (Pool MEMP_PBUF_POOL i, 16)) tot n (u8 (pbuf_type_value PBUF_POOL)) 0 1 NETIF_NO_INDEX.
Definition long_a : node := Node (Pool MEMP_PBUF_POOL 0) (long_buf 0 (Some (Pool MEMP_PBUF_POOL 1)) 120 50) (take 50 long_packet).
Definition long_b : node := Node (Pool MEMP_PBUF_POOL 1) (long_buf 1 None 70 70) (drop 50 long_packet).
Definition long_mem : mem :=
  Mem mem_c (<[MEMP_PBUF_POOL := seq 2 14]> (memp_init (fun _ => []))) fresh_heap
    (list_to_map [(Pool MEMP_PBUF_POOL 0, n_buf long_a); (Pool MEMP_PBUF_POOL 1, n_buf long_b)])
    (list_to_map [(Pool MEMP_PBUF_POOL 0, replicate 16 0 ++ n_data long_a ++ replicate 526 0);
                  (Pool MEMP_PBUF_POOL 1, replicate 16 0 ++ n_data long_b ++ replicate 506 0)]) false ∅.

(** The host, with an interface that takes [mtu] bytes. *)
Definition narrow_host (mtu : Z) : eth :=
  Eth _ _ long_mem ([], IpVars _ _ 7 no_ip_data [0%nat] (Some 0%nat) (fun _ => mtu) None ∅ ∅ 0 udp_two) (fun _ => if_up) young_bound 0.

Lemma long_is_packet : packet long_mem (Some (n_loc long_a)) [long_a; long_b].
Proof.
  split; [|split; [reflexivity|split; [reflexivity|exact I]]|apply (bool_decide_unpack _); vm_compute; exact I|apply (bool_decide_unpack _); vm_compute; exact I|reflexivity].
  assert (Ha : holds long_mem (n_buf long_a) (n_data long_a)) by (split; [reflexivity|]; eexists; split_and!; [reflexivity|discriminate|vm_compute; discriminate|vm_compute; reflexivity]).
  assert (Hb : holds long_mem (n_buf long_b) (n_data long_b)) by (split; [reflexivity|]; eexists; split_and!; [reflexivity|discriminate|vm_compute; discriminate|vm_compute; reflexivity]).
  split_and!; [reflexivity|reflexivity|exact Ha|]. change (chain long_mem (Some (n_loc long_b)) [long_b]). by split_and!.
Qed.

Lemma bound_young : Forall young young_bound.
Proof. repeat constructor; try done; intros []; done. Qed.

Lemma long_env mtu : frag_env [long_a; long_b] 0 ip_peer hw_peer mtu ∅ (narrow_host mtu).
Proof.
  split; [exact long_is_packet|by repeat constructor| | | |done].
  - split; [exact (proj1 ram_mem_ready)|]. intros o _. by split.
  - split; [apply (bool_decide_unpack _); vm_compute; exact I|]. intros i _. cbn [pbufs long_mem emem narrow_host list_to_map foldr fst snd]. by rewrite !lookup_insert_ne.
  - destruct young_bound_ok as [T C]. split; [by split|exact bound_young|done|done|exists 0, (binding ip_peer 0 hw_peer); by split_and!].
Qed.

Lemma long_header : frag_header long_a 0 120 7 0 64 99 (bytes16 (0xffff - rfc1071 (header_fields 0 120 7 0 64 99 [0; 0] ip_me ip_peer))) ip_me ip_peer.
Proof. split; [vm_compute; reflexivity|done|by split|done|done]. Qed.

(** The frame of a fragment. *)
Definition frag_frame (f : Z * list Z) : list Z := frame hw_peer hw_me ETHTYPE_IP (frag_packet 0 7 64 99 ip_me ip_peer f).

Lemma ip4_frag_sends_witness :
  outcome_val ((r ← ip4_frag even_at (n_loc long_a) 0 ip_peer; fs ← gets (fun s => (elink s).1); mret (r, rev fs)) (narrow_host 60)) =
    Some (ERR_OK, [(0%nat, frag_frame (0x2000, seqZ 1 40)); (0%nat, frag_frame (0x2005, seqZ 41 40)); (0%nat, frag_frame (10, seqZ 81 20))]) /\
  exists r s', ip4_frag even_at (n_loc long_a) 0 ip_peer (narrow_host 60) = Ret r s' /\
    frags_done [long_a; long_b] 0 ip_peer hw_peer 60 ∅ 0 7 64 99 ip_me ip_peer [(0x2000, seqZ 1 40); (0x2005, seqZ 41 40); (10, seqZ 81 20)] (narrow_host 60) r s'.
Proof.
  split; [vm_compute; reflexivity|].
  exact (ip4_frag_sends 0 even_at [long_a; long_b] long_a _ _ _ _ _ _ _ _ _ _ _ _ _ _ _ eq_refl long_header (long_env 60) ltac:(lia) ltac:(vm_compute; discriminate)).
Defined.

Lemma ip4_frag_two_last_witness :
  outcome_val ((r ← ip4_frag even_at (n_loc long_a) 0 ip_peer; fs ← gets (fun s => (elink s).1); mret (r, rev fs)) (narrow_host 121)) =
    Some (ERR_OK, [(0%nat, frag_frame (0, seqZ 1 96)); (0%nat, frag_frame (12, seqZ 97 4))]) /\
  exists r s' d1 d2, ip4_frag even_at (n_loc long_a) 0 ip_peer (narrow_host 121) = Ret r s' /\ drop 20 (contents [long_a; long_b]) = d1 ++ d2 /\ d2 <> [] /\
    frags_done [long_a; long_b] 0 ip_peer hw_peer 121 ∅ 0 7 64 99 ip_me ip_peer [(0, d1); (12, d2)] (narrow_host 121) r s'.
Proof.
  split; [vm_compute; reflexivity|].
  exact (ip4_frag_two_last 0 even_at [long_a; long_b] long_a _ _ _ _ _ _ _ _ _ _ _ _ _ _ eq_refl long_header (long_env 121) ltac:(lia) ltac:(vm_compute; discriminate) ltac:(vm_compute; split; congruence)).
Defined.

(** Its fragments in three buffers of another host. *)
Definition got_bytes (f : Z * list Z) : list Z := frag_packet 0 7 64 99 ip_me ip_peer f.
Definition got_a : piece := slot_piece 0 (got_bytes (0x2000, seqZ 1 40)).
Definition got_b : piece := slot_piece 1 (got_bytes (0x2005, seqZ 41 40)).
Definition got_c : piece := slot_piece 2 (got_bytes (10, seqZ 81 20)).
Definition got_host : eth := ip_host (Mem mem_c (<[MEMP_PBUF_POOL := seq 3 13]> (memp_init (fun _ => []))) fresh_heap
  (list_to_map ((fun f : piece => (n_loc f.1, n_buf f.1)) <$> [got_a; got_b; got_c]))
  (list_to_map ((fun f : piece => (n_loc f.1, n_data f.1 ++ replicate 100 0)) <$> [got_a; got_b; got_c])) false ∅).

Lemma got_fragments : Forall (fun f => fragment (emem got_host) f.1 f.2) [got_a; got_b; got_c].
Proof.
  repeat (apply Forall_cons; split; [apply slot_fragment; [reflexivity|reflexivity|split; [vm_compute; discriminate|done]|vm_compute; reflexivity|vm_compute; reflexivity]|]). done.
Qed.

Lemma got_apart : apart (map piece_frag [got_a; got_b; got_c]).
Proof. cbn [map apart]. split_and!; repeat (apply Forall_cons; split; [apply disj_by_run; vm_compute; reflexivity|]); done. Qed.

Lemma got_ok : reass_ok got_host [].
Proof.
  split; [|done]. split; [done|constructor|done|constructor|constructor|constructor|constructor| |done]. split; [|intros i _; apply not_elem_of_nil].
  apply (bool_decide_unpack _). vm_compute. exact I.
Qed.

Lemma long_common : common 0 7 64 99 ip_me ip_peer.
Proof. split; [by split|done]. Qed.

Lemma long_contents : contents [long_a; long_b] = ip_header 0 (20 + Z.of_nat (length long_data)) 7 0 64 99 ip_me ip_peer ++ long_data.
Proof. vm_compute. reflexivity. Qed.

Lemma long_runs : exists s', ip4_frag even_at (n_loc long_a) 0 ip_peer (narrow_host 60) = Ret ERR_OK s'.
Proof.
  assert (Er : outcome_val (ip4_frag even_at (n_loc long_a) 0 ip_peer (narrow_host 60)) = Some ERR_OK) by (vm_compute; reflexivity).
  revert Er. generalize (ip4_frag even_at (n_loc long_a) 0 ip_peer (narrow_host 60)). intros [r s'|]; [|done]. intros [= ->]. by exists s'.
Qed.

Lemma frag_reass_roundtrip_witness : exists s', ip4_frag even_at (n_loc long_a) 0 ip_peer (narrow_host 60) = Ret ERR_OK s' /\
  exists p c host', reass_each even_at (ip4_frag even_at) (map piece_loc [got_c; got_a; got_b]) got_host = Ret [None; None; Some p] host' /\
    packet (emem host') (Some p) c /\ contents c = long_packet.
Proof.
  assert (H20 : (20 <= length (n_data long_a))%nat) by (vm_compute; lia). assert (Hd : long_data <> []) by discriminate.
  pose proof (frag_reass_roundtrip 0 even_at [long_a; long_b] long_a 0 ip_peer hw_peer 60 ∅ 0 7 64 99 ip_me ip_peer long_data (narrow_host 60)) as W.
  destruct long_runs as (s' & E). exists s'. split; [exact E|].
  destruct (W s' long_common eq_refl H20 Hd long_contents (long_env 60) ltac:(discriminate) eq_refl ltac:(discriminate) E) as [_ V]. clear W.
  destruct (V got_a [got_b; got_c] [got_c; got_a; got_b] got_host) as (p & c & host' & E' & Hp & Hc & _);
    [vm_compute; repeat constructor|solve_Permutation|apply got_apart|vm_compute; discriminate|apply got_ok|vm_compute; discriminate|apply got_fragments|].
  exists p, c, host'. split; [exact E'|]. split; [exact Hp|]. rewrite Hc. vm_compute. reflexivity.
Defined.
End Fragmentation.
