(* ===== verification/DnsExamples.v ===== *)
(** DNS: a host that waits for an address, and the theorems at work on it. *)
From S2P Require Import Prelude Memp Pbuf PbufFacts PbufAlloc Heap HeapSpec PbufRam Chksum Ip4Addr Ethernet Etharp.
From S2P Require Import EtharpInv EtharpSend EtharpReply EtharpOutput Ip IpInput IpFacts IpInputFacts Udp UdpFacts UdpFlow Dns DnsName DnsInput DnsSend DnsTimer EtharpExamples IpExamples.

#[local] Existing Instance no_custom_free.
#[local] Existing Instance debug_build.

(** What a callback was told: function, name, address and argument. *)
Definition told_call : Type := Z * list Z * option Z * Z.

(** The variables of UDP and DNS, and the calls, newest first. *)
#[local] Instance dns_wire : Wire := {|
  wstate := list (nat * list Z);
  wire_output := linkoutput (LinkOutput := log_link);
  tstate := udp_vars * dns_vars * list told_call
|}.

#[local] Program Instance dns_udp : UdpState := {|
  udp_part t := t.1.1;
  put_udp_part v t := (v, t.1.2, t.2)
|}.
Solve All Obligations with by intros; repeat match goal with t : tstate |- _ => destruct t as [[? ?] ?] end.

#[local] Program Instance dns_dns : DnsState := {|
  dns_part t := t.1.2;
  put_dns_part d t := (t.1.1, d, t.2)
|}.
Solve All Obligations with by intros; repeat match goal with t : tstate |- _ => destruct t as [[? ?] ?] end.

(** The application writes down what it is told. *)
Definition write_down (x : told_call) (t : tstate) : tstate := (t.1, x :: t.2).
#[local] Instance dns_app : DnsUser := {|
  dns_found_fn f name addr arg := mod_ipv (fun v => set_above (write_down (f, name, addr, arg) (above v)) v);
  dns_recv_id := 3
|}.

Definition ip_dns : Z := ip_peer.
Definition ip_www : Z := word32 93 184 216 34.

(** No packet is too long for the interface. *)
Definition never_frag (p : loc) (n : nat) (dest : Z) : M eth Z := mret ERR_VAL.

(** "ab.c" and "ab.c.de", waited for with identification 5. *)
Definition name_of (n : list Z) : list Z := name_array n (Z.of_nat (length n)) (replicate 256 0).
Definition labels_abc : list (list Z) := [[97; 98]; [99]].
Definition waiting (name : list Z) : dns_table_entry := DnsEntry 0 0 5 DNS_STATE_ASKING 0 1 0 0 (name_of name).
Definition idle : dns_table_entry := DnsEntry 0 0 0 DNS_STATE_UNUSED 0 0 0 0 (replicate 256 0).
Definition asking (name : list Z) : dns_vars :=
  DnsVars (Some (pcb_elem 0)) 1 [waiting name; idle; idle; idle] [DnsReq (Some 7) 42; DnsReq None 0; DnsReq None 0; DnsReq None 0] [ip_dns; 0] 5.

(** The resolver's control block. *)
Definition pcb_dns : udp_pcb := UdpPcb 0 0 0 0 0 UDP_TTL None 0 0xc001 0 (Some 3) 0.
Definition dns_udp_vars : udp_vars := UdpVars 0xc001 (Some (pcb_elem 0)) {[ pcb_elem 0 := pcb_dns ]}.
Definition dns_ip_vars (name : list Z) : ip_vars := IpVars _ _ 7 no_ip_data [0%nat] (Some 0%nat) (fun _ => 1500) None ∅ ∅ 0 (dns_udp_vars, asking name, []).
Definition dns_host (name : list Z) (m : mem) : eth := Eth _ _ m ([], dns_ip_vars name) (fun _ => if_up) young_bound 0.

(** The answer: "AB.c", an alias owned by a pointer, then the address owned by a
    label and a pointer. *)
Definition answer_abc : reply :=
  Reply 5 0x81 0x80 [0; 0; 0; 0] [[65; 66]; [99]]
    [RR (Owner [] (Some 12)) 5 1 60 [1; 100; 0xc0; 15]; RR (Owner [[100]] (Some 15)) 1 1 300 (bytes32 ip_www)] [].

Lemma answer_abc_ok : reply_ok answer_abc.
Proof.
  split; [done|done|done|split; [done|]|split; [|done]|done].
  - repeat constructor; vm_compute; lia.
  - apply Forall_cons. split; [|apply Forall_singleton]; (split; [split; [repeat constructor; vm_compute; lia|by split]|done..]).
Qed.

Lemma answer_abc_replies name : replies (asking name) ip_dns 0 (waiting name) labels_abc answer_abc.
Proof. split; [apply answer_abc_ok|done|done|done|]. repeat constructor. Qed.

Lemma asking_good name : dns_good (asking name).
Proof. split; [done|done|done|]. repeat constructor; done. Qed.

Definition answer_node : node := pool_node 42 (reply_bytes answer_abc).
Definition answered_host (name : list Z) : eth := dns_host name (pool_mem 42 (reply_bytes answer_abc)).

Lemma answer_message name : message (emem (answered_host name)) (Pool MEMP_PBUF_POOL 0) [answer_node].
Proof. split; [by apply (pool_packet 42 (reply_bytes answer_abc))|apply bytes_by_run; vm_compute; reflexivity|vm_compute; reflexivity]. Qed.

Lemma dns_recv_decides_witness :
  dns_recv even_at never_frag (Pool MEMP_PBUF_POOL 0) ip_dns (answered_host [97; 98; 46; 99]) =
    carry_out even_at never_frag (Pool MEMP_PBUF_POOL 0) (Resolved 0 ip_www 300) (answered_host [97; 98; 46; 99]) /\
  dns_decide (asking [97; 98; 46; 99]) ip_me (reply_bytes answer_abc) = Ignored /\
  dns_decide (asking [97; 98; 46; 99]) ip_dns (take 20 (reply_bytes answer_abc)) = Ignored.
Proof.
  split; [|by vm_compute]. etransitivity; [apply (dns_recv_decides even_at never_frag _ [answer_node]); [apply answer_message|apply asking_good]|].
  match goal with |- carry_out _ _ _ ?v _ = _ => replace v with (Resolved 0 ip_www 300) by (vm_compute; reflexivity) end. reflexivity.
Defined.

Lemma dns_answer_resolves_witness : exists s',
  dns_recv even_at never_frag (Pool MEMP_PBUF_POOL 0) ip_dns (answered_host [97; 98; 46; 99]) = Ret tt s' /\
  (above (ipv s')).2 = [(7, [97; 98; 46; 99], Some ip_www, 42)] /\
  (fun e => (de_state e, de_ipaddr e, de_ttl e)) <$> dns_table (dnsv s') !! 0%nat = Some (DNS_STATE_DONE, ip_www, 300) /\
  rq_found <$> dns_requests (dnsv s') !! 0%nat = Some None.
Proof.
  eexists. split.
  - eapply (dns_answer_resolves even_at never_frag (answered_host [97; 98; 46; 99]) (Pool MEMP_PBUF_POOL 0) [answer_node] ip_dns 0
      (waiting [97; 98; 46; 99]) (DnsReq (Some 7) 42) labels_abc (replicate 251 0) answer_abc ip_www 300);
      [apply answer_message|apply trimmable_releasable, pool_trimmable|apply asking_good|apply answer_abc_replies|by vm_compute| |done|reflexivity|done|done|reflexivity|].
    + repeat constructor; done.
    + split; [done|done|done|]. repeat constructor; done.
  - split_and!; vm_compute; reflexivity.
Defined.

Lemma dns_prefix_accepted_witness :
  dns_recv even_at never_frag (Pool MEMP_PBUF_POOL 0) ip_dns (answered_host [97; 98; 46; 99; 46; 100; 101]) =
    carry_out even_at never_frag (Pool MEMP_PBUF_POOL 0) (Resolved 0 ip_www 300) (answered_host [97; 98; 46; 99; 46; 100; 101]).
Proof.
  apply (dns_prefix_accepted even_at never_frag (answered_host [97; 98; 46; 99; 46; 100; 101]) (Pool MEMP_PBUF_POOL 0) [answer_node] ip_dns 0
    (waiting [97; 98; 46; 99; 46; 100; 101]) labels_abc [[100; 101]] (replicate 248 0) answer_abc);
    [apply answer_message|apply asking_good|apply answer_abc_replies|by vm_compute|done|reflexivity].
Defined.

(** ** Sending and waiting *)

#[local] Program Instance dns_wire_laws : WireLaws := {|
  wire_ok _ := True;
  wire_rel n bytes l r l' := r = ERR_OK /\ l' = (n, bytes) :: l
|}.
Next Obligation. exact (law_linkoutput (LinkLaws := log_laws)). Qed.

#[local] Program Instance dns_app_laws : DnsUserLaws := {|
  note_found f name addr arg t := write_down (f, name, addr, arg) t;
  told t := t.2
|}.
Solve All Obligations with done.

(** Nothing in the packet memory; the table as given. *)
Definition quiet_vars (d : dns_vars) : ip_vars := IpVars _ _ 7 no_ip_data [0%nat] (Some 0%nat) (fun _ => 1500) None ∅ ∅ 0 (dns_udp_vars, d, []).
Definition quiet_host (d : dns_vars) : eth := Eth _ _ ram_mem ([], quiet_vars d) (fun _ => if_up) young_bound 0.

Lemma quiet_resolver d : dns_pcb d = Some (pcb_elem 0) -> dns_servers d = [ip_dns; 0] -> resolver ∅ (pcb_elem 0) pcb_dns (quiet_host d).
Proof.
  intros Ep Es. split; [exact Ep|by exists None|done|done|apply ram_mem_ready|destruct young_bound_ok as [T C]; by split|done|done|].
  intros srv n Hin Hne Hr. change (dnsv (quiet_host d)) with d in Hin. rewrite Es in Hin. apply list_elem_of_In in Hin as [<-|[<-|[]]]; [|done].
  injection Hr as <-. exists hw_peer. split; [exists 0, (binding ip_peer 0 hw_peer); by split_and!|done|by right|by split].
Qed.

Lemma named_abc : named (name_of [97; 98; 46; 99]) labels_abc.
Proof. split; [by exists (replicate 251 0)|split; [done|]|done|]; repeat constructor; done. Qed.

Lemma asking_ready : round_ready (asking [97; 98; 46; 99]).
Proof.
  split; [apply asking_good|]. apply Forall_cons. split.
  - split; [done|intros _; exists labels_abc; apply named_abc|done|done|intros _; by exists ip_dns].
  - repeat (apply Forall_cons; split; [by split|]). constructor.
Qed.

Lemma dns_requests_expire_witness : exists s' e',
  ticks even_at never_frag 7 (quiet_host (asking [97; 98; 46; 99])) = Ret tt s' /\ row (dnsv s') 0 e' (DnsReq None 42) /\ de_state e' = DNS_STATE_UNUSED /\
  calls_of 7 (told (above (ipv s'))) = [(7, [97; 98; 46; 99], None, 42)].
Proof.
  destruct (dns_requests_expire even_at never_frag ∅ (pcb_elem 0) pcb_dns (quiet_host (asking [97; 98; 46; 99])) 0 (waiting [97; 98; 46; 99]) labels_abc 7 42 7)
    as (s' & e' & E & _ & H); [by apply quiet_resolver|apply asking_ready|done| |apply named_abc|done|done|done|done|].
  - intros j r Hj Hf. destruct j as [|[|[|[|j]]]]; [done|..]; cbn in Hj; [by injection Hj as <-..|done].
  - exists s', e'. change (7 <? deadline _ _)%nat with false in H. cbv iota in H. destruct H as (H1 & H2 & H3). by split_and!.
Defined.

(** Nobody waits. *)
Definition empty_table : dns_vars := DnsVars (Some (pcb_elem 0)) 1 [idle; idle; idle; idle] (replicate 4 (DnsReq None 0)) [ip_dns; 0] 5.

